(* ===== verification/_CoqProject ===== *)
-Q . S2P
Prelude.v
CString.v
Asn1Buf.v
Asn1Tag.v
GmTime.v
Asn1Prim.v
Krb5Types.v
Asn1KEncode.v
Asn1KDecode.v
Krb5Encode.v
Krb5Decode.v
PrincName.v
PrincNameProofs.v
Transited.v
Kdc.v
KdcProofs.v
KdcReplay.v
KdcReplayProofs.v
GssGeneric.v
GssGenericProofs.v
Words.v
RcDfl.v
RcDflProofs.v
Crc32.v
Nfold.v
NfoldProofs.v
DesTables.v
Des.v
DesProofs.v
DesCbcProofs.v
Digest.v
Md.v
MdProofs.v
Shs.v
ShsProofs.v
Crypto.v
Afs.v
AfsProofs.v
CryptoApi.v
KtFile.v
Kdb.v
KdbXdrProofs.v
KadmAcl.v
KadmAclProofs.v
KadmStubs.v
KadmStubsProofs.v
KadmPrinc.v
KtFileProofs.v
AuthCon.v
ApExch.v
SafePriv.v
GssSeal.v
ApReplay.v
CryptoProofs.v
CryptoEnc.v
CryptoKeys.v
KdbKeyProofs.v
OldApi.v
KTest.v
TransitedProofs.v
Der.v
Codec.v
CodecRead.v
CodecPrim.v
KadmPrincProofs.v
KadmHistProofs.v
CodecTypes.v
CodecKdc.v
CodecMsg.v
ApExchProofs.v
SafePrivProofs.v
GssSealProofs.v
Asn1Proofs.v
Asn1Errors.v
Witness.v
WitnessCrypto.v
WitnessAp.v
WitnessGss.v
WitnessKdb.v
WitnessKadm.v
