(* ===== verification/Prelude.v ===== *)
(** * A verification development of MIT Kerberos V5 1.2

    ** The program

    The repository is the MIT implementation of Kerberos version 5: a key distribution
    centre (src/src/kdc), the protocol library (src/src/lib/krb5), a cryptographic
    library (src/src/lib/crypto), the GSS-API mechanism (src/src/lib/gssapi), the
    administration system and its database (src/src/lib/kadm5, src/src/lib/kdb,
    src/src/kadmin), and applications.  What clients, servers and the KDC say to each
    other are ASN.1 messages in DER.  Every message that reaches any of them from the
    network first goes through the coding library src/src/lib/krb5/asn.1.

    Modelled here are the parts that decide whom to trust and what is said to them: the
    coding library in full; the cryptographic library in full, from the tables of DES to
    krb5_c_encrypt; the KDC's validation of requests, the contents of the tickets it
    issues and the replies it keeps for repeated requests; the records of its database and
    the keys in them; the administration server, with the file of access rights that says
    who may change these records, and the library that changes them, with the policies and
    the history of passwords; the names of principals, on which access control works; the
    paths between realms and the check of the realms a ticket went through; the requests with which a
    client shows a ticket to a server, the server's reply, the replay cache that the
    server consults and the key table from which it has its key; the messages that are
    exchanged afterwards, protected or sealed; and the tokens of the GSS-API mechanism
    for messages, with the detection of replayed ones.

    They are put together as in the program: a request (ApExch.v) is made of messages of
    the coding library, sealed by the cryptographic library, and read through a replay
    cache (RcDfl.v); a token of GSS-API (GssSeal.v) is framed by util_token.c and put in
    order by util_ordering.c (GssGeneric.v) and sealed by the cryptographic library; a
    record of the database (Kdb.v) has keys that the cryptographic library seals and names
    that PrincName.v prints; a stub of the administration server (KadmStubs.v) asks the
    access rights (KadmAcl.v) before it calls the library that changes records
    (KadmPrinc.v), which makes keys of passwords with the cryptographic library.
    The theorems are put together in the same way.

    ** The files

    The model, one file per source file or pair of source files:

    - Prelude.v: outcomes of C functions, machine integers, error codes, the tactics
      [lens] and [divlia], the hint and rewrite databases [krb].
    - Asn1Buf.v: the coding buffer (asn1buf.c).  The source uses one C struct in two
      modes.  In encoding mode ([codebuf]) the array is on the heap, grows by [malloc]
      and [realloc], and is filled backwards, last octet first; in decoding mode
      ([asn1buf]) the three pointers are offsets into the caller's octets, and a read
      outside these octets is [Undefined].
    - Asn1Tag.v: identifier and length octets (asn1_get.c, asn1_make.c, and
      [asn1buf_skiptail] and [asn1buf_sync] of asn1buf.c, which read tags).
    - GmTime.v: calendar time (src/src/lib/krb5/os/gmt_mktime.c; [gmtime] and the use of
      [sprintf] of the C library are written out).
    - Asn1Prim.v: the primitive types (asn1_encode.c, asn1_decode.c).
    - Krb5Types.v: the protocol structures (src/src/include/krb5.hin, k5-int.h).
    - Asn1KEncode.v, Asn1KDecode.v: encoders and decoders of the Kerberos types
      (asn1_k_encode.c, asn1_k_decode.c, asn1_misc.c), with the macros they are made of.
    - Krb5Encode.v, Krb5Decode.v: encoders and decoders of whole messages
      (krb5_encode.c, krb5_decode.c).  The macros of krb5_decode.c share the names of
      those in asn1_k_decode.c and behave differently; here they start with [t_].
    - KTest.v: the sample structures of src/src/tests/asn.1/ktest.c and the octets that
      src/src/tests/asn.1/reference_encode.out records for them.  The encoders of the
      model evaluate to these octets and the decoders give the structures back, which
      validates the model against the program's own reference output.

    - PrincName.v: principal names as strings (parse.c, unparse.c, princ_comp.c of
      src/src/lib/krb5/krb).  A C string is its storage with the NUL; [krb5_parse_name]
      has its three passes over the string, and the blocks it allocates are lists it must
      not leave.
    - Transited.v: realm paths and the list of transited realms (walk_rtree.c, tgtname.c,
      bld_pr_ext.c, chk_trans.c of src/src/lib/krb5/krb).
    - Kdc.v: the decisions of the KDC (src/src/kdc).  [validate_as_request] and
      [validate_tgs_request] are the functions of kdc_util.c; [as_issue] and [tgs_issue]
      are the stretches of process_as_req (do_as_req.c) and process_tgs_req
      (do_tgs_req.c) that compute the contents of the ticket.  Database entries, the time
      and the session key are arguments; [kdc_realm] holds the parameters of the realm.
      Times are 32-bit integers, and an overflow of a sum is [Undefined].
    - Words.v: machine words and their octets.  Crc32.v, Nfold.v, DesTables.v, Des.v,
      Afs.v, Md.v, Shs.v: the checksums, ciphers and hash functions of src/src/lib/crypto
      (crc32, nfold.c, des, md4, md5, sha1, the AFS string-to-key).  Digest.v: what
      the hash functions share.
    - Crypto.v: the providers of ciphers and hashes, HMAC, derived keys, the random number
      generator, and encryption in the older and the newer mode (enc_provider,
      hash_provider, hmac.c, dk, prng.c, old, raw).
    - CryptoApi.v: the tables of encryption and checksum types and the functions krb5_c_*.
      OldApi.v: the earlier interface (old_api_glue.c).
    - CString.v: strings of the C library.
    - RcDfl.v: the replay cache (rcache/rc_dfl.c, rc_io.c), its hash table and its file,
      on a small file system.
    - AuthCon.v: authentication contexts (auth_con.c) and the state of a process, [world]:
      the clock, the generator, the file system and the context.  Functions with these
      effects are in the state monad [proc].
    - ApExch.v: AP-REQ and AP-REP (mk_req_ext.c, rd_req.c, rd_req_dec.c, mk_rep.c,
      rd_rep.c and what they call).
    - SafePriv.v: KRB-SAFE and KRB-PRIV (mk_safe.c, rd_safe.c, mk_priv.c, rd_priv.c).
    - KtFile.v: key tables in files (keytab/file), with stdio on one file.
    - KdcReplay.v: the replies that the KDC keeps (replay.c, dispatch.c of src/src/kdc).
    - Kdb.v: the stored form of an entry of the database, its typed data and its keys
      (kdb_xdr.c, encrypt_key.c, decrypt_key.c of src/src/lib/kdb).  The decoder is in a
      state monad over what is left of the record; the pointers of an entry say whether
      they own memory, so that a second free shows.
    - KadmAcl.v: access rights (server_acl.c of src/src/lib/kadm5/srv): the file as it is
      read character by character, the entries, the search, the restrictions.
    - KadmStubs.v: the procedures of the administration server (server_stubs.c, misc.c,
      kadm_rpc_svc.c of src/src/kadmin/server), in a state monad over the entries of the
      access rights and the database, of which the library that works on it is a parameter.
    - KadmPrinc.v: that library (svr_principal.c, svr_policy.c, server_kdb.c, server_misc.c
      of src/src/lib/kadm5/srv, kdb_cpw.c of src/src/lib/kdb), in a state monad over two
      finite maps, of principals and of policies, and the generator of random numbers.  Its
      last definition, [kadm5], is an instance of the parameter of KadmStubs.v.
    - GssGeneric.v: the queue of sequence numbers and the header of a token
      (util_ordering.c, util_token.c of src/src/lib/gssapi/generic).
    - GssSeal.v: tokens for messages (src/src/lib/gssapi/krb5: k5seal.c, k5unseal.c,
      util_crypt.c, util_seqnum.c, wrap_size_limit.c and their callers).

    The specification and the proofs:

    - Der.v: the distinguished encoding rules as pure functions from values to octets.
    - Codec.v: the contracts.  [encodes enc bs]: the encoder prepends exactly [bs] to
      any buffer with room for it.  [decodes dec bs v]: the decoder, wherever it finds
      [bs], consumes exactly [bs] and returns [v].  The class [Codec] joins the two for
      a type, and the rules for arrays and structures are proved against it, so the
      proof about a structure uses only the contracts of its components.
    - CodecRead.v: the rules for the decoders' macros.  CodecPrim.v, CodecTypes.v,
      CodecKdc.v: every primitive type, Kerberos type and composite type meets its
      contract.  For each type [der_X] is its DER form, [wf_X] the values that survive a
      round trip, [enc_X] and [dec_X] the two halves of the contract.
    - CodecMsg.v: the round trips of whole messages.
    - Asn1Proofs.v: the buffer refines an octet string that grows at its front; tags,
      integers and times on their own, over the full range of their C types.
    - Asn1Errors.v: messages of another type or protocol version are refused with the
      error codes callers rely on; inputs on which the code misbehaves.
    - PrincNameProofs.v: the grammar of principal names, that the parser implements it,
      and that it inverts the printer.
    - KdcProofs.v: what the tickets issued by the KDC respect, and where they do not.
    - TransitedProofs.v: what the check of transited realms checks and what it leaves out.
    - GssGenericProofs.v: the circular queue refines a sorted window of numbers, and no
      number is accepted twice; headers of tokens.
    - NfoldProofs.v, DesProofs.v, DesCbcProofs.v, MdProofs.v, ShsProofs.v,
      AfsProofs.v: the functions of the cryptographic library against the documents that
      define them, written down independently of the code.
    - CryptoProofs.v: the classes [EncLaws] and [HashLaws], which say what a cipher and a
      hash promise to the modes built on them, with an instance for each provider; the
      generator.  CryptoEnc.v, CryptoKeys.v: encryption, checksums and keys, proved from
      these classes.
    - RcDflProofs.v: the replay cache refines a set of records.  ApReplay.v: a server with
      a replay cache accepts no authenticator twice.  ApExchProofs.v: the two sides of an
      exchange agree.
    - SafePrivProofs.v: the class [Transport], with instances for KRB-SAFE and KRB-PRIV;
      channels of messages.
    - KtFileProofs.v: a key table refines a list of entries.
    - GssSealProofs.v: tokens and streams of tokens.
    - KdcReplayProofs.v: the replies of the KDC are genuine, and repeated where they should.
    - KdbXdrProofs.v, KdbKeyProofs.v: stored records, typed data and keys.
    - KadmAclProofs.v: the specification of a file of access rights, as a list of lines the
      first of which governs, and that the code implements it.  KadmStubsProofs.v: the
      calls of a procedure are those its client has a right to.  KadmPrincProofs.v: rules
      for what holds after a call ([wp]), the invariant of the two databases, each function
      of the library, and the server with the library behind it.  KadmHistProofs.v: the old
      keys refine a queue of the last passwords, and the history is enforced.
    - Witness.v, WitnessCrypto.v, WitnessAp.v, WitnessGss.v, WitnessKdb.v, WitnessKadm.v:
      the theorems applied at concrete inputs.

    ** What the theorems show

    - Round trips: a well-formed message is encoded as its DER form, byte for byte, and
      decoding that code gives the message back; this is total correctness of both
      directions on these inputs, allocation and loop bounds included.  [wf_X] asks for
      what the C types and the protocol ask for: integers in the range of their type,
      lengths that agree with the data, times from 1970 on, fields present that the
      protocol requires, NULL rather than an empty array for an absent one.
    - Refinement: whatever insertions and reallocations happen, the buffer yields the
      string the specification says, or there is too little memory, or the size is no
      [int], and the result is [ENOMEM].
    - Safety and bounds: reading a tag from arbitrary octets stays inside the buffer and
      terminates.
    - Errors: the rejection of foreign messages and versions.
    - Names: parsing is what the grammar says on every string, in bounds; printing and
      parsing are inverse up to [krb5_principal_compare]; different principals print
      differently.
    - The KDC: a ticket from the ticket-granting service has no right that the presented
      ticket has not, and ends within the limits of that ticket, the request, the server
      and the realm (a renewed one within those of the presented ticket only); a ticket
      from the authentication service respects the request, the database entries of
      client and server and the limits of the realm.  Both are about a request
      that passed the validation, so they show that validation and issuing fit together.
    - Cryptography: DES, MD4, MD5, SHA-1, n-fold and CRC-32 are what their definitions
      say, however the input is cut into pieces (SHA-1 for the cuts the code handles,
      n-fold for the sizes at which no int overflows);
      for every encryption type decryption inverts encryption, a checksum verifies, and a
      ciphertext under derived keys is accepted only if it was made with them.
    - Exchanges: a client and a server that run the protocol with a ticket of the KDC,
      whose contents pass the checks of the server, end up with the same keys and sequence
      numbers; over any history of connections and restarts, on a clock that does not go
      back, no authenticator is accepted twice; messages with sequence numbers and without
      time stamps are delivered in order, for both protections, from any state in which
      the ends are in step.
    - Key tables: any history of additions of storable entries and of removals keeps the
      file a list of entries, which lookups and cursors read.
    - The database: an entry is stored as the octets of its layout, in exactly the memory
      that was computed for it, and read back as it was; its typed data are a finite map
      over any history of changes; a key that an administrator stores, beside others of
      known types, is the key that the KDC finds.
    - Kept replies: over any history of requests a reply is the result of work on that
      request, from that address, at most two minutes ago, and repetitions get the reply.
    - Administration: from a file of access rights without references back to wildcards
      on, over any history of requests, the database changes only by calls that the file
      or the ownership of an entry allows, with the restrictions of the line that governs
      the request, unless that line is for any target, when the code imposes none; what
      imposing restrictions does to every member of a request.  The count of every
      policy stays the number of its principals, as long as no change of a policy is lost
      in an error of the database; an accepted password is none of the last ones that the
      policy asks for.
    - GSS-API: tokens delivered in any order open to their messages, with the statuses of
      the window of sequence numbers, as long as the numbers do not wrap around and the
      context detects replays and has not expired; tokens in order are all accepted;
      headers are read within bounds; the size limit is kept for messages that are not
      empty.
    - Replay detection: the queue refines its specification on numbers that do not wrap
      around, a number checked once is refused afterwards, and tokens in order are all
      accepted.
    - Faults: further theorems each exhibit a defect the model showed, among them an
      endless loop in a decoder, reads through uninitialised, NULL and freed pointers, a
      double free, checksums that are not looked at, a key table that loses entries,
      tokens that crash their receiver before they are authenticated, restrictions of
      access rights that are never imposed, and a history of passwords that is written
      beyond its end.

    A theorem on an exchange starts from what the sender returned, as the sender may lack
    memory or have a key that its cipher refuses; the witnesses evaluate concrete senders,
    and [mic_delivered] and [des_total] show for DES that the sender returns.

    ** Bounds and parameters

    The class [Platform] (Asn1Buf.v) collects what C leaves open, and every theorem that
    depends on it holds for all its instances (the path that does not reach its server is
    evaluated on the 64-bit one of KTest.v): the size of [long], 4 or 8; the largest block the allocator
    gives out; the contents of fresh memory; the contents of uninitialised automatic
    variables; the class [Stack] (Crypto.v) holds the contexts of hash functions before
    they are initialised.  Numbers in memory are least significant octet first where the
    order shows in a file or a digest.

    Loops over input octets take a bound ([de_fuel]) and give [OutOfFuel] beyond it.  The
    round trips hold for every bound not below the length of the code, as each iteration
    consumes an octet; so [OutOfFuel] never stands in for a result, and the one theorem on
    the decoders that concludes [OutOfFuel] does so for every bound.  The loops of Crypto.v
    and RcDfl.v get bounds computed from their input, which are shown to be enough; the
    search for a slot in a key table takes a bound, and more turns than slots are enough.
    [fits] asks that the code and one growth step of the buffer can be allocated and that
    the length is an [int].  The decoder of database records goes by the counts of the
    record, and the reader of access rights by the number of its characters; BUFSIZ, the
    size of its buffers, is a parameter.

    ** What is not modelled

    In the coding library: the [magic] members; the failure of [calloc] in the decoders
    and the freeing of partial results on their error paths; the printing helpers of
    asn1buf.c.  In the parts around it: krb5_get_default_realm, profile_get_values and the
    keytab of a server are parameters without hypotheses (KtFile.v is one such keytab);
    string lengths are not cut to 32 bits, nor are the counters of names and of hits of the
    replay cache; the cryptographic library does not run out of memory, but for the copy of
    a password; files are not locked, and reading and writing
    them fails only at their end.  Memory that is freed is tracked where it is used again.

    Of the KDC, the pre-authentication loop, the authorization data and the main loop on
    the network; of the protocol library, forwarded credentials (mk_cred.c, rd_cred.c), the
    client's exchange with the KDC and the credential caches; of GSS-API, establishing a
    context; of the administration system, the start of the server and of its library, the
    XDR codes of the messages and of the administrative data of an entry, which KadmPrinc.v
    keeps beside the entry, and the clients; and the parser of the profile (util/profile).  They rest on the parts that are modelled and
    mostly call them.  Network I/O, the Kerberos 4 library, Sun RPC, the Berkeley database
    and the applications are outside the scope of this development. *)

From stdpp Require Export base list numbers option.
From Stdlib Require Export ZArith Lia.

Global Open Scope Z_scope.

(** ** Outcomes of C code

    A C function of the sources returns 0 or an error code.  The model adds two
    outcomes that C leaves out: [Undefined], the execution performed an undefined
    operation (a read or write outside an object, a NULL or dangling pointer
    dereference, a double free), and [OutOfFuel], a loop of the source ran longer
    than the bound given to the model. *)

Inductive outcome (E A : Type) : Type :=
| Ok (a : A)
| Err (e : E)
| Undefined
| OutOfFuel.
Arguments Ok {E A} a.
Arguments Err {E A} e.
Arguments Undefined {E A}.
Arguments OutOfFuel {E A}.

Definition obind {E A B} (m : outcome E A) (k : A -> outcome E B) : outcome E B :=
  match m with
  | Ok a => k a
  | Err e => Err e
  | Undefined => Undefined
  | OutOfFuel => OutOfFuel
  end.

Declare Scope krb_scope.
Delimit Scope krb_scope with krb.
Notation "'let*' x ':=' m 'in' k" := (obind m (fun x => k))
  (at level 10, x name, m at level 100, k at level 200,
   format "'let*'  x  ':='  m  'in' '//' k") : krb_scope.
Notation "'let*' ' p ':=' m 'in' k" := (obind m (fun p => k))
  (at level 10, p pattern, m at level 100, k at level 200,
   format "'let*'  ' p  ':='  m  'in' '//' k") : krb_scope.
Global Open Scope krb_scope.

(** [guard b e]: the C idiom [if (!b) return e;]. *)
Definition guard {E} (b : bool) (e : E) : outcome E unit :=
  if b then Ok tt else Err e.

(** Computations with a state of type [S]. *)
Definition sproc (S E A : Type) : Type := S -> outcome E A * S.
Definition sret {S E A} (r : outcome E A) : sproc S E A := fun st => (r, st).
Definition sbind {S E A B} (m : sproc S E A) (k : A -> sproc S E B) : sproc S E B := fun st =>
  match m st with
  | (Ok a, st) => k a st
  | (Err e, st) => (Err e, st)
  | (Undefined, st) => (Undefined, st)
  | (OutOfFuel, st) => (OutOfFuel, st)
  end.
Notation "'do!' x ':=' m 'in' k" := (sbind m (fun x => k))
  (at level 10, x name, m at level 100, k at level 200, format "'do!'  x  ':='  m  'in' '//' k") : krb_scope.
Notation "'do!' ' x ':=' m 'in' k" := (sbind m (fun x => k))
  (at level 10, x strict pattern, m at level 100, k at level 200, format "'do!'  ' x  ':='  m  'in' '//' k") : krb_scope.

Lemma sbind_ok {S E A B} (m : sproc S E A) (k : A -> sproc S E B) st b st' : sbind m k st = (Ok b, st') ->
  exists a st1, m st = (Ok a, st1) /\ k a st1 = (Ok b, st').
Proof. unfold sbind. destruct (m st) as [[a| | |] st1]; try discriminate. intros H. by exists a, st1. Qed.

(** A sequence of fallible parts that returned. *)
Lemma obind_ok {E A B} (m : outcome E A) (k : A -> outcome E B) b : obind m k = Ok b -> exists a, m = Ok a /\ k a = Ok b.
Proof. destruct m as [a|e| |]; try discriminate. eauto. Qed.

(** ** Machine integers *)

(** Conversion to a signed two's complement integer of [w] bits. *)
Definition to_int (w : Z) (z : Z) : Z := (z + 2 ^ (w - 1)) mod 2 ^ w - 2 ^ (w - 1).
(** Conversion to an unsigned integer of [w] bits. *)
Definition to_uint (w : Z) (z : Z) : Z := z mod 2 ^ w.

Definition is_int (w : Z) (z : Z) : Prop := - 2 ^ (w - 1) <= z < 2 ^ (w - 1).
Definition is_uint (w : Z) (z : Z) : Prop := 0 <= z < 2 ^ w.

Abbreviation int32 := (to_int 32).
Abbreviation uint32 := (to_uint 32).
Abbreviation octet_of := (to_uint 8).

(** An octet ([krb5_octet], [unsigned char]) is a [Z] between 0 and 255. *)
Abbreviation octet := Z.
Abbreviation is_octet := (is_uint 8).
Abbreviation octets := (Forall (is_uint 8)).

(** The length of a list as an integer. *)
Definition zlen {A} (l : list A) : Z := Z.of_nat (length l).

(** ** Error codes

    The error codes the modelled functions return: the [asn1] table
    (src/src/lib/krb5/error_tables/asn1_err.et), codes of the [krb5] and [kdb5] tables
    (krb5_err.et, kdb5_err.et), and those of errno. *)
Inductive error_code : Set :=
| ENOMEM
| ASN1_BAD_TIMEFORMAT | ASN1_MISSING_FIELD | ASN1_MISPLACED_FIELD
| ASN1_TYPE_MISMATCH | ASN1_OVERFLOW | ASN1_OVERRUN | ASN1_BAD_ID
| ASN1_BAD_LENGTH | ASN1_BAD_FORMAT | ASN1_PARSE_ERROR | ASN1_BAD_GMTIME
| ASN1_MISMATCH_INDEF | ASN1_MISSING_EOC
| KRB5_BADMSGTYPE | KRB5KDC_ERR_BAD_PVNO
| KRB5_PARSE_MALFORMED | KRB5_CONFIG_NODEFREALM
| KRB5_NO_TKT_IN_RLM | KRB5KRB_AP_ERR_ILL_CR_TKT
| EINVAL
| KRB5_BAD_ENCTYPE | KRB5_BAD_KEYSIZE | KRB5_BAD_MSIZE | KRB5_CRYPTO_INTERNAL
| KRB5DES_BAD_KEYPAR | KRB5DES_WEAK_KEY | KRB5KRB_AP_ERR_BAD_INTEGRITY
| KRB5KRB_AP_ERR_REPEAT | KRB5KRB_AP_ERR_SKEW
| KRB5_KDB_TRUNCATED_RECORD | KRB5_KDB_NOENTRY | KRB5_KDB_BAD_SALTTYPE
| KRB5_RC_IO | KRB5_RC_IO_EOF | KRB5_RC_IO_UNKNOWN | KRB5_RC_IO_PERM | KRB5_RCACHE_BADVNO
| KRB5KRB_AP_WRONG_PRINC | KRB5KRB_AP_ERR_BADMATCH | KRB5KRB_AP_ERR_BADADDR
| KRB5KRB_AP_ERR_TKT_NYV | KRB5KRB_AP_ERR_TKT_EXPIRED | KRB5KRB_AP_ERR_TKT_INVALID
| KRB5_NOPERM_ETYPE | KRB5_NO_TKT_SUPPLIED | KRB5_MUTUAL_FAILED
| KRB5KRB_AP_ERR_MSG_TYPE | KRB5KRB_AP_ERR_BADVERSION | KRB5KRB_AP_ERR_BADORDER
| KRB5_PROG_ETYPE_NOSUPP | KRB5_PROG_SUMTYPE_NOSUPP | KRB5KRB_AP_ERR_INAPP_CKSUM
| KRB5KRB_AP_ERR_MODIFIED | KRB5_RC_REQUIRED | KRB5_KT_NOTFOUND
| ENOENT | KRB5_KT_END | KRB5_KT_IOERR | KRB5_KT_KVNONOTFOUND | KRB5_KEYTAB_BADVNO.

#[global] Instance error_code_eq_dec : EqDecision error_code.
Proof. solve_decision. Defined.

Create HintDb krb discriminated.
Create Rewrite HintDb krb.

(** ** Lists with integer lengths *)

Lemma zlen_nil {A} : zlen (@nil A) = 0.
Proof. reflexivity. Qed.

Lemma zlen_cons {A} (x : A) l : zlen (x :: l) = zlen l + 1.
Proof. unfold zlen. simpl. lia. Qed.

Lemma zlen_app {A} (l k : list A) : zlen (l ++ k) = zlen l + zlen k.
Proof. unfold zlen. rewrite length_app. lia. Qed.

Lemma zlen_nonneg {A} (l : list A) : 0 <= zlen l.
Proof. unfold zlen. lia. Qed.

Lemma zlen_reverse {A} (l : list A) : zlen (reverse l) = zlen l.
Proof. unfold zlen. by rewrite length_reverse. Qed.

Lemma zlen_0_nil {A} (l : list A) : zlen l = 0 -> l = [].
Proof. destruct l; [done|]. rewrite zlen_cons. pose proof (zlen_nonneg l). lia. Qed.

#[export] Hint Rewrite @zlen_nil @zlen_cons @zlen_app @zlen_reverse : krb.

(** [lens]: normalise the lengths in the goal and solve it by arithmetic. *)
Ltac zlen_pose l :=
  lazymatch goal with
  | _ : 0 <= zlen l |- _ => fail
  | _ => pose proof (zlen_nonneg l)
  end.
Ltac lens :=
  autorewrite with krb in *;
  repeat match goal with
  | |- context [zlen ?l] => zlen_pose l
  | _ : context [zlen ?l] |- _ => zlen_pose l
  end;
  lia.

(** [divlia]: linear arithmetic with division and remainder by constants. *)
Ltac divlia := Z.div_mod_to_equations; lia.

Lemma take_S_insert {A} (l : list A) (i : nat) (x : A) :
  (i < length l)%nat -> take (S i) (<[i:=x]> l) = take i l ++ [x].
Proof.
  intros H. rewrite (take_S_r _ _ x).
  - by rewrite take_insert_ge.
  - by rewrite list_lookup_insert_eq.
Qed.

(** ** Arithmetic of octets and machine integers *)

(** Facts about single octets, by enumeration. *)
Lemma octet_case (Q : Z -> bool) :
  forallb Q (Z.of_nat <$> seq 0 256) = true -> forall o, 0 <= o < 256 -> Q o = true.
Proof.
  intros H o Ho. rewrite forallb_forall in H. apply H, list_elem_of_In.
  apply list_elem_of_fmap. exists (Z.to_nat o). rewrite elem_of_seq. lia.
Qed.

Lemma to_int_id w z : is_int w z -> 0 < w -> to_int w z = z.
Proof.
  unfold is_int, to_int. intros H Hw. rewrite Z.mod_small; [lia|].
  assert (2 ^ w = 2 * 2 ^ (w - 1)); [|lia].
  rewrite <- Z.pow_succ_r by lia. f_equal. lia.
Qed.

Lemma to_uint_id w z : is_uint w z -> to_uint w z = z.
Proof. unfold is_uint, to_uint. apply Z.mod_small. Qed.

Lemma land_255 z : Z.land z 255 = z mod 256.
Proof. change 255 with (Z.ones 8). by rewrite Z.land_ones. Qed.

Lemma land_127 z : Z.land z 127 = z mod 128.
Proof. change 127 with (Z.ones 7). by rewrite Z.land_ones. Qed.

Lemma shiftr_8 z : Z.shiftr z 8 = z / 256.
Proof. by rewrite Z.shiftr_div_pow2. Qed.

Lemma shiftl_8 z : Z.shiftl z 8 = z * 256.
Proof. by rewrite Z.shiftl_mul_pow2. Qed.

(** Appending an octet below a multiple of 256. *)
Lemma lor_256 a o : 0 <= o < 256 -> Z.lor (a * 256) o = a * 256 + o.
Proof.
  intros Ho. rewrite <- shiftl_8. rewrite <- Z.add_lor_land.
  replace (Z.land (Z.shiftl a 8) o) with 0; [lia|].
  apply Z.bits_inj'. intros i Hi. rewrite Z.land_spec, Z.bits_0.
  destruct (Z.ltb_spec i 8).
  - by rewrite Z.shiftl_spec_low.
  - rewrite (Z.bits_above_log2 o i); [by rewrite andb_false_r|lia|].
    destruct (Z.eq_dec o 0) as [->|]; [simpl; lia|].
    apply Z.log2_lt_pow2; [lia|]. pose proof (Z.pow_le_mono_r 2 8 i). lia.
Qed.
