(* ===== verification/CString.v ===== *)
(** * Functions of the C library on strings

    A C string is its storage; reading behind it is [Undefined]. *)

From S2P Require Import Prelude.

Definition isupper (c : octet) : bool := (65 <=? c) && (c <=? 90).
Definition tolower (c : octet) : octet := if isupper c then c + 32 else c.

(** strncpy(dst, src, n) and strcpy: the octets written, the storage of [src] being
    all that may be read. *)
Fixpoint strncpy (n : nat) (src : list octet) : outcome error_code (list octet) :=
  match n, src with
  | O, _ => Ok []
  | S n', c :: src => if c =? 0 then Ok (replicate n 0) else let* r := strncpy n' src in Ok (c :: r)
  | S _, [] => Undefined
  end.

(** The characters of a C string. *)
Fixpoint c_string (src : list octet) : outcome error_code (list octet) :=
  match src with
  | c :: src => if c =? 0 then Ok [] else let* r := c_string src in Ok (c :: r)
  | [] => Undefined
  end.

Lemma c_string_ok s rest : 0 ∉ s -> c_string (s ++ 0 :: rest) = Ok s.
Proof.
  induction s as [|c s IH]; [done|]. rewrite not_elem_of_cons. intros [Hc Hs]. cbn [app c_string].
  destruct (Z.eqb_spec c 0); [by subst|]. by rewrite IH.
Qed.

Lemma strncpy_ok n s rest : exists r, strncpy n (s ++ 0 :: rest) = Ok r /\ length r = n.
Proof.
  revert n. induction s as [|c s IH]; intros [|n]; cbn [app strncpy]; [by eexists..| |by eexists|].
  - rewrite Z.eqb_refl. eexists. split; [done|]. by rewrite length_replicate.
  - destruct (c =? 0); [eexists; split; [done|]; by rewrite length_replicate|].
    destruct (IH n) as (r & -> & HL). eexists. split; [done|]. cbn. lia.
Qed.
