(* ===== verification/Asn1Buf.v ===== *)
(** * The ASN.1 coding buffer (src/src/lib/krb5/asn.1/asn1buf.c, asn1buf.h)

    A coding buffer is an octet array with the three pointers [base], [bound] and
    [next].  The source uses the same C struct in two modes; the model keeps them
    apart:
    - encoding mode ([codebuf]): the array is on the heap, grows by [malloc] and
      [realloc], and is filled backwards, the last octet of the encoding first;
    - decoding mode ([asn1buf]): the pointers are offsets into the octets of a
      [krb5_data], which all sub-buffers made by [asn1buf_imbed] share. *)

From S2P Require Import Prelude.

(** ** The machine the code runs on

    [sizeof_long] is 4 or 8; [malloc_limit] is the size of the largest object the
    allocator returns; [heap_junk] and [stack_junk] are the values fresh heap memory
    and uninitialised automatic variables hold.  All theorems hold for every
    instance. *)

(** The automatic variables [class], [construction], [tagnum], [taglen] and [indef]
    that the [setup] and [begin_structure] macros of the decoders declare. *)
Record tagvars := TagVars {
  tv_class : Z; tv_construction : Z; tv_tagnum : Z; tv_taglen : Z; tv_indef : Z
}.

Class Platform := {
  sizeof_long : Z;
  sizeof_long_ok : sizeof_long = 4 \/ sizeof_long = 8;
  malloc_limit : Z;
  heap_junk : nat -> octet;
  stack_junk : tagvars
}.

(** [krb5_data] (krb5.hin): a length and a pointer, [None] for NULL. *)
Record krb5_data := Data { d_length : Z; d_data : option (list octet) }.

Section Buffer.
Context `{P : Platform}.

(** ** Allocation *)

Definition malloc (n : Z) : option (list octet) :=
  if (0 <=? n) && (n <=? malloc_limit) then Some (heap_junk <$> seq 0 (Z.to_nat n)) else None.

(** [realloc] keeps the octets both sizes have in common. *)
Definition realloc (arr : list octet) (n : Z) : option (list octet) :=
  if (0 <=? n) && (n <=? malloc_limit)
  then Some (take (Z.to_nat n) arr ++
             (heap_junk <$> seq (length arr) (Z.to_nat n - length arr)))
  else None.

(** ** Encoding mode *)

(** [cb_bound] and [cb_next] are the offsets of [bound] and [next] from [base];
    [cb_base] is [None] while [base] is NULL. *)
Record codebuf := CodeBuf {
  cb_base : option (list octet); cb_bound : Z; cb_next : Z
}.

(** An encoder that fails tells whether it has already freed the struct of the buffer it
    was given ([asn1buf_destroy]).  Nobody looks at the struct of a buffer after an error
    but [asn1buf_destroy]. *)
Definition enc_error : Type := error_code * bool.

(** A buffer with all pointers NULL. *)
Definition empty_codebuf : codebuf := CodeBuf None 0 0.

(** sizeof(asn1buf): three pointers of the size of a [long]. *)
Definition sizeof_asn1buf : Z := 3 * sizeof_long.

Definition asn1buf_create : outcome enc_error codebuf :=
  match malloc sizeof_asn1buf with
  | None => Err (ENOMEM, false)
  | Some _ => Ok empty_codebuf
  end.

Definition asn1buf_size (buf : codebuf) : Z :=
  match cb_base buf with
  | None => 0
  | Some _ => cb_bound buf + 1
  end.

Definition asn1buf_free (buf : codebuf) : Z :=
  match cb_base buf with
  | None => 0
  | Some _ => cb_bound buf - cb_next buf + 1
  end.

Definition asn1buf_len (buf : codebuf) : Z := cb_next buf.

Definition STANDARD_INCREMENT : Z := 200.

(** A size that is added up as an int and passed on as a size_t: a sum that is too large
    for an int comes out negative, and then is larger than any object. *)
Definition alloc_size (n : Z) : Z := if n <? 2 ^ 31 then n else -1.

(** The returned code and the struct afterwards.  When there is no memory base is NULL:
    the array that it pointed to, which realloc has kept, is lost. *)
Definition asn1buf_expand_struct (buf : codebuf) (inc : Z) : option error_code * codebuf :=
  let next_offset := cb_next buf in
  let bound_offset := match cb_base buf with None => -1 | Some _ => cb_bound buf end in
  let inc := if inc <? STANDARD_INCREMENT then STANDARD_INCREMENT else inc in
  let base :=
    match cb_base buf with
    | None => malloc (alloc_size (asn1buf_size buf + inc))
    | Some arr => realloc arr (alloc_size (asn1buf_size buf + inc))
    end in
  match base with
  | None => (Some ENOMEM, CodeBuf None (cb_bound buf) (cb_next buf))
  | Some arr => (None, CodeBuf (Some arr) (bound_offset + inc) next_offset)
  end.

Definition asn1buf_expand (buf : codebuf) (inc : Z) : outcome enc_error codebuf :=
  match asn1buf_expand_struct buf inc with
  | (Some e, _) => Err (e, false)
  | (None, buf) => Ok buf
  end.

Definition asn1buf_ensure_space (buf : codebuf) (amount : Z) : outcome enc_error codebuf :=
  let avail := asn1buf_free buf in
  if avail <? amount then asn1buf_expand buf (amount - avail) else Ok buf.

(** *(buf->next) = (char)o; (buf->next)++; *)
Definition store_next (buf : codebuf) (o : Z) : outcome enc_error codebuf :=
  match cb_base buf with
  | None => Undefined
  | Some arr =>
      if (0 <=? cb_next buf) && (cb_next buf <? zlen arr)
      then Ok (CodeBuf (Some (<[Z.to_nat (cb_next buf) := octet_of o]> arr))
                       (cb_bound buf) (cb_next buf + 1))
      else Undefined
  end.

Definition asn1buf_insert_octet (buf : codebuf) (o : Z) : outcome enc_error codebuf :=
  let* buf := asn1buf_ensure_space buf 1 in
  store_next buf o.

(** The loop of [asn1buf_insert_octetstring]: stores s[k-1], ..., s[0]. *)
Fixpoint insert_loop (buf : codebuf) (s : option (list octet)) (k : nat)
    : outcome enc_error codebuf :=
  match k with
  | O => Ok buf
  | S k' =>
      match s ≫= (.!! k') with
      | None => Undefined
      | Some o => let* buf := store_next buf o in insert_loop buf s k'
      end
  end.

Definition asn1buf_insert_octetstring (buf : codebuf) (len : Z) (s : option (list octet))
    : outcome enc_error codebuf :=
  let* buf := asn1buf_ensure_space buf len in
  insert_loop buf s (Z.to_nat len).

Definition asn1buf_insert_charstring (buf : codebuf) (len : Z) (s : option (list octet))
    : outcome enc_error codebuf :=
  let* buf := asn1buf_ensure_space buf len in
  insert_loop buf s (Z.to_nat len).

(** sizeof(krb5_data): two ints and a pointer. *)
Definition sizeof_krb5_data : Z := 8 + sizeof_long.

(** The [krb5_data] made of a finished encoding: the octets in reverse order and a
    terminating NUL after them. *)
Definition asn12krb5_buf (buf : codebuf) : outcome enc_error krb5_data :=
  match malloc sizeof_krb5_data with
  | None => Err (ENOMEM, false)
  | Some _ =>
      let length := asn1buf_len buf in
      match malloc (length + 1) with
      | None => Err (ENOMEM, false)
      | Some _ =>
          match cb_base buf with
          | None => Ok (Data length (Some [0]))
          | Some arr => Ok (Data length (Some (reverse (take (Z.to_nat length) arr) ++ [0])))
          end
      end
  end.

(** ** Decoding mode *)

Record asn1buf := Asn1Buf { base : Z; bound : Z; next : Z }.

Definition set_next (buf : asn1buf) (n : Z) : asn1buf := Asn1Buf (base buf) (bound buf) n.

(** What a decoder runs over: the octets of the [krb5_data] being decoded and the
    bound on the iterations of its loops. *)
Record denv := DEnv { de_mem : list octet; de_fuel : nat }.

(** *p, undefined outside the octets. *)
Definition load (m : list octet) (p : Z) : option octet :=
  if p <? 0 then None else m !! Z.to_nat p.

(** p[0], ..., p[n-1] *)
Fixpoint load_n (m : list octet) (p : Z) (n : nat) : option (list octet) :=
  match n with
  | O => Some []
  | S n' =>
      match load m p, load_n m (p + 1) n' with
      | Some o, Some l => Some (o :: l)
      | _, _ => None
      end
  end.

Definition asn1buf_wrap_data (code : option krb5_data) : outcome error_code (list octet * asn1buf) :=
  match code with
  | None => Err ASN1_MISSING_FIELD
  | Some code =>
      match d_data code with
      | None => Err ASN1_MISSING_FIELD
      | Some data => Ok (data, Asn1Buf 0 (d_length code - 1) 0)
      end
  end.

Definition asn1buf_imbed (buf : asn1buf) (length : Z) (indef : Z)
    : outcome error_code asn1buf :=
  if indef =? 0 then
    let subbound := next buf + length - 1 in
    if bound buf <? subbound then Err ASN1_OVERRUN
    else Ok (Asn1Buf (next buf) subbound (next buf))
  else Ok (Asn1Buf (next buf) (bound buf) (next buf)).

Definition asn1buf_remove_octet (e : denv) (buf : asn1buf)
    : outcome error_code (octet * asn1buf) :=
  if bound buf <? next buf then Err ASN1_OVERRUN
  else match load (de_mem e) (next buf) with
       | None => Undefined
       | Some o => Ok (o, set_next buf (next buf + 1))
       end.

Definition asn1buf_remove_octetstring (e : denv) (len : Z) (buf : asn1buf)
    : outcome error_code (option (list octet) * asn1buf) :=
  if bound buf <? next buf + len - 1 then Err ASN1_OVERRUN
  else if len =? 0 then Ok (None, buf)
  else match malloc len with
       | None => Err ENOMEM
       | Some _ =>
           match load_n (de_mem e) (next buf) (Z.to_nat len) with
           | None => Undefined
           | Some s => Ok (Some s, set_next buf (next buf + len))
           end
       end.

Definition asn1buf_remove_charstring (e : denv) (len : Z) (buf : asn1buf)
    : outcome error_code (option (list octet) * asn1buf) :=
  if bound buf <? next buf + len - 1 then Err ASN1_OVERRUN
  else if len =? 0 then Ok (None, buf)
  else match malloc len with
       | None => Err ENOMEM
       | Some _ =>
           match load_n (de_mem e) (next buf) (Z.to_nat len) with
           | None => Undefined
           | Some s => Ok (Some s, set_next buf (next buf + len))
           end
       end.

(** The octets left; 0 when the buffer is of indefinite length and stands at its
    end-of-contents octets. *)
Definition asn1buf_remains (e : denv) (indef : Z) (buf : asn1buf) : outcome error_code Z :=
  let remain := bound buf - next buf + 1 in
  if remain <=? 0 then Ok remain
  else if negb (indef =? 0) && (2 <=? remain) then
    match load (de_mem e) (next buf) with
    | None => Undefined
    | Some o1 =>
        if o1 =? 0 then
          match load (de_mem e) (next buf + 1) with
          | None => Undefined
          | Some o2 => Ok (if o2 =? 0 then 0 else remain)
          end
        else Ok remain
    end
  else Ok remain.

(** ** The representation invariant of encoding mode

    [cb_rep buf code]: the buffer represents the octet string [code].  This is the
    abstraction function of the source's comment, with the reversal made explicit,
    and its representation invariant with the sharper bound next <= bound + 1. *)
Definition cb_rep (buf : codebuf) (code : list octet) : Prop :=
  match cb_base buf with
  | None => cb_next buf = 0 /\ code = []
  | Some arr =>
      0 <= cb_next buf <= cb_bound buf + 1 /\
      zlen arr = cb_bound buf + 1 /\
      code = reverse (take (Z.to_nat (cb_next buf)) arr)
  end.

(** The largest code the allocator and the [int] lengths of the sources can hold. *)
Definition code_limit : Z := Z.min malloc_limit 2147483647.

(** [n] more octets fit whatever the growth of the array. *)
Definition cb_fits (code : list octet) (n : Z) : Prop :=
  zlen code + n + STANDARD_INCREMENT <= code_limit.

Lemma cb_rep_create : cb_rep empty_codebuf [].
Proof. done. Qed.

Lemma asn1buf_create_ok : STANDARD_INCREMENT <= malloc_limit -> asn1buf_create = Ok empty_codebuf.
Proof.
  unfold asn1buf_create, malloc, sizeof_asn1buf, STANDARD_INCREMENT. intros H.
  replace (_ && _) with true by (destruct sizeof_long_ok as [-> | ->]; lia). done.
Qed.

Lemma cb_rep_next buf code : cb_rep buf code -> cb_next buf = zlen code.
Proof.
  unfold cb_rep. destruct (cb_base buf) as [arr|].
  - intros (? & ? & ->). rewrite zlen_reverse. unfold zlen in *.
    rewrite length_take. lia.
  - by intros [-> ->].
Qed.

Lemma malloc_length n arr : malloc n = Some arr -> zlen arr = n.
Proof.
  unfold malloc. destruct (_ && _) eqn:E; [|done]. intros [= <-].
  unfold zlen. rewrite length_fmap, length_seq. lia.
Qed.

Lemma realloc_spec arr n arr' :
  realloc arr n = Some arr' -> zlen arr <= n ->
  zlen arr' = n /\ exists junk, arr' = arr ++ junk.
Proof.
  unfold realloc. destruct (_ && _) eqn:E; [|done]. intros [= <-] Hn.
  rewrite take_ge by (unfold zlen in *; lia). split; [|eauto].
  unfold zlen in *. rewrite length_app, length_fmap, length_seq. lia.
Qed.

Lemma asn1buf_expand_rep buf code inc :
  cb_rep buf code ->
  (exists buf', asn1buf_expand buf inc = Ok buf' /\ cb_rep buf' code /\
     asn1buf_free buf + inc <= asn1buf_free buf') \/
  (asn1buf_expand buf inc = Err (ENOMEM, false) /\
     code_limit < asn1buf_size buf + Z.max inc STANDARD_INCREMENT).
Proof.
  unfold asn1buf_expand, asn1buf_expand_struct, asn1buf_size, asn1buf_free, cb_rep, code_limit, alloc_size, STANDARD_INCREMENT.
  intros H.
  assert (Hmax : (if inc <? 200 then 200 else inc) = Z.max inc 200)
    by (destruct (Z.ltb_spec inc 200); lia).
  rewrite Hmax. destruct (cb_base buf) as [arr|].
  - destruct H as (Hn & Ha & ->).
    destruct (realloc arr _) as [arr'|] eqn:E.
    + left. eexists; split; [done|]. simpl.
      destruct (Z.ltb_spec (cb_bound buf + 1 + inc `max` 200) (2 ^ 31)); [|by unfold realloc in E].
      apply realloc_spec in E as [E1 [junk ->]]; [|lia].
      rewrite take_app_le by (unfold zlen in *; lia).
      split; [repeat split; lia|lia].
    + right. split; [done|]. destruct (Z.ltb_spec (cb_bound buf + 1 + inc `max` 200) (2 ^ 31)); [|lia].
      unfold realloc in E. destruct (_ && _) eqn:E'; [done|]. pose proof (zlen_nonneg arr). lia.
  - destruct H as [H ->]. destruct (malloc _) as [arr'|] eqn:E.
    + left. eexists; split; [done|]. simpl. destruct (Z.ltb_spec (0 + inc `max` 200) (2 ^ 31)); [|by unfold malloc in E]. apply malloc_length in E.
      rewrite H. simpl. split; [repeat split; lia|lia].
    + right. split; [done|]. destruct (Z.ltb_spec (0 + inc `max` 200) (2 ^ 31)); [|lia]. unfold malloc in E. destruct (_ && _) eqn:E'; [done|]. lia.
Qed.

Lemma asn1buf_ensure_space_rep buf code amount :
  cb_rep buf code -> 
  (exists buf', asn1buf_ensure_space buf amount = Ok buf' /\ cb_rep buf' code /\
     amount <= asn1buf_free buf') \/
  (asn1buf_ensure_space buf amount = Err (ENOMEM, false) /\ ~ cb_fits code amount).
Proof.
  intros H. unfold asn1buf_ensure_space.
  destruct (Z.ltb_spec (asn1buf_free buf) amount); [|eauto].
  destruct (asn1buf_expand_rep buf code (amount - asn1buf_free buf) H)
    as [(b' & -> & ? & ?)|[-> Hm]].
  - left. exists b'. repeat split; [done|lia].
  - right. split; [done|]. unfold cb_fits. rewrite <- (cb_rep_next _ _ H).
    unfold asn1buf_size, asn1buf_free, cb_rep, STANDARD_INCREMENT in *.
    destruct (cb_base buf); lia.
Qed.

Lemma store_next_rep buf code o :
  cb_rep buf code -> 1 <= asn1buf_free buf ->
  exists buf', store_next buf o = Ok buf' /\ cb_rep buf' (octet_of o :: code) /\
    asn1buf_free buf' = asn1buf_free buf - 1.
Proof.
  unfold cb_rep, store_next, asn1buf_free.
  destruct (cb_base buf) as [arr|]; [|lia]. intros (? & Ha & ->) ?.
  destruct (Z.ltb_spec (cb_next buf) (zlen arr)); [|lia].
  destruct (Z.leb_spec 0 (cb_next buf)); [|lia].
  eexists; split; [done|]. simpl. split; [|lia].
  unfold zlen in *. rewrite length_insert. split; [lia|]. split; [lia|].
  rewrite Z2Nat.inj_add, Nat.add_1_r, take_S_insert, reverse_app by lia. done.
Qed.

Lemma insert_loop_rep buf code l k :
  cb_rep buf code -> octets l -> (k <= length l)%nat -> Z.of_nat k <= asn1buf_free buf ->
  exists buf', insert_loop buf (Some l) k = Ok buf' /\ cb_rep buf' (take k l ++ code).
Proof.
  revert buf code. induction k as [|k IH]; intros buf code Hr Hl Hk Hf; simpl; [eauto|].
  destruct (lookup_lt_is_Some_2 l k) as [o Ho]; [lia|]. rewrite Ho.
  destruct (store_next_rep buf code o) as (b1 & -> & Hr1 & Hf1); [done|lia|].
  assert (octet_of o = o) as Ho'.
  { eapply Forall_lookup_1 in Hl; [|done]. unfold to_uint. by apply Z.mod_small. }
  rewrite Ho' in Hr1. simpl.
  destruct (IH b1 (o :: code)) as (b2 & -> & Hr2); [done|done|lia|lia|].
  eexists; split; [done|]. by rewrite (take_S_r _ _ _ Ho), <- app_assoc.
Qed.

(** What an insertion into the buffer promises its callers: it prepends octets, or
    reports [ENOMEM] without freeing the struct, and the latter only when the octets plus
    one growth step are more than the allocator or an int can hold. *)
Definition inserts (r : outcome enc_error codebuf) (code bs : list octet) : Prop :=
  (exists buf', r = Ok buf' /\ cb_rep buf' (bs ++ code)) \/
  (r = Err (ENOMEM, false) /\ ~ cb_fits code (zlen bs)).

Lemma asn1buf_insert_octet_rep buf code o :
  cb_rep buf code -> inserts (asn1buf_insert_octet buf o) code [octet_of o].
Proof.
  intros H. unfold asn1buf_insert_octet, inserts.
  destruct (asn1buf_ensure_space_rep buf code 1 H) as [(b1 & -> & H1 & Hf)|[-> ?]];
    simpl; [left|by right].
  destruct (store_next_rep b1 code o H1 Hf) as (b2 & -> & H2 & _). eauto.
Qed.

Lemma asn1buf_insert_octetstring_rep buf code l :
  cb_rep buf code -> octets l ->
  inserts (asn1buf_insert_octetstring buf (zlen l) (Some l)) code l.
Proof.
  intros H Hl. unfold asn1buf_insert_octetstring, inserts.
  destruct (asn1buf_ensure_space_rep buf code (zlen l) H) as [(b1 & -> & H1 & Hf)|[-> ?]];
    simpl; [left|by right].
  unfold zlen in *. rewrite Nat2Z.id.
  destruct (insert_loop_rep b1 code l (length l)) as (b2 & -> & H2); [done..|].
  rewrite firstn_all in H2. eauto.
Qed.

End Buffer.

#[export] Hint Resolve cb_rep_create : krb.

(** Reading a prefix of the octets. *)
Lemma load_n_prefix (bs l : list octet) : load_n (bs ++ l) 0 (length bs) = Some bs.
Proof.
  assert (H : forall p, load_n (p ++ bs ++ l) (zlen p) (length bs) = Some bs); [|by apply (H [])].
  induction bs as [|o bs IH]; intros p; [done|]. simpl.
  unfold load. pose proof (zlen_nonneg p). destruct (Z.ltb_spec (zlen p) 0); [lia|].
  unfold zlen at 1. rewrite Nat2Z.id, list_lookup_middle by done.
  specialize (IH (p ++ [o])). rewrite zlen_app, <- app_assoc in IH. simpl in IH.
  change (zlen [o]) with 1 in IH. by rewrite IH.
Qed.
