(* ===== verification/Asn1Tag.v ===== *)
(** * Reading identifier and length octets (src/src/lib/krb5/asn.1/asn1_get.c)

    and the two operations of asn1buf.c that read tags, [asn1buf_skiptail] and
    [asn1buf_sync]. *)

From S2P Require Import Prelude Asn1Buf.

(** ** Constants (krbasn1.h) *)

Definition UNIVERSAL : Z := 0x00.
Definition APPLICATION : Z := 0x40.
Definition CONTEXT_SPECIFIC : Z := 0x80.
Definition PRIVATE : Z := 0xC0.
Definition PRIMITIVE : Z := 0x00.
Definition CONSTRUCTED : Z := 0x20.

Definition ASN1_TAGNUM_CEILING : Z := 2147483647.
Definition ASN1_TAGNUM_MAX : Z := ASN1_TAGNUM_CEILING - 1.

Definition ASN1_INTEGER : Z := 2.
Definition ASN1_BITSTRING : Z := 3.
Definition ASN1_OCTETSTRING : Z := 4.
Definition ASN1_NULL : Z := 5.
Definition ASN1_SEQUENCE : Z := 16.
Definition ASN1_SET : Z := 17.
Definition ASN1_PRINTABLESTRING : Z := 19.
Definition ASN1_IA5STRING : Z := 22.
Definition ASN1_GENERALTIME : Z := 24.
Definition ASN1_GENERALSTRING : Z := 27.

Section Get.
Context `{P : Platform}.

Definition decoder (A : Type) : Type := denv -> asn1buf -> outcome error_code (A * asn1buf).

(** ** Identifier octets *)

(** The do-while loop of the high-tag-number form.  Every iteration removes an
    octet, so it runs at most once more than there are octets left. *)
Fixpoint get_high_tag (fuel : nat) (e : denv) (tn : Z) (buf : asn1buf)
    : outcome error_code (Z * asn1buf) :=
  match fuel with
  | O => OutOfFuel
  | S fuel' =>
      let* '(o, buf) := asn1buf_remove_octet e buf in
      let tn := int32 (int32 (Z.shiftl tn 7) + Z.land o 0x7F) in
      if Z.land tn 0x80 =? 0 then Ok (tn, buf) else get_high_tag fuel' e tn buf
  end.

Definition asn1_get_id : decoder (Z * Z * Z) := fun e buf =>
  let* '(o, buf) := asn1buf_remove_octet e buf in
  let class := Z.land o 0xC0 in
  let construction := Z.land o 0x20 in
  if negb (Z.land o 0x1F =? 0x1F) then
    Ok ((class, construction, Z.land o 0x1F), buf)
  else
    let* '(tn, buf) := get_high_tag (S (Z.to_nat (bound buf - next buf + 1))) e 0 buf in
    Ok ((class, construction, tn), buf).

(** ** Length octets: the length and the indefinite-form flag *)

Fixpoint get_length_octets (num : nat) (e : denv) (len : Z) (buf : asn1buf)
    : outcome error_code (Z * asn1buf) :=
  match num with
  | O => Ok (len, buf)
  | S num' =>
      let* '(o, buf) := asn1buf_remove_octet e buf in
      get_length_octets num' e (int32 (int32 (Z.shiftl len 8) + o)) buf
  end.

Definition asn1_get_length : decoder (Z * Z) := fun e buf =>
  let* '(o, buf) := asn1buf_remove_octet e buf in
  if Z.land o 0x80 =? 0 then Ok ((Z.land o 0x7F, 0), buf)
  else
    let* '(len, buf) := get_length_octets (Z.to_nat (Z.land o 0x7F)) e 0 buf in
    Ok ((len, if len =? 0 then 1 else 0), buf).

(** ** Whole tags

    The C function writes its results through pointers; when the buffer is exhausted
    it only sets *tagnum, so the caller's other variables keep their values. *)
Definition asn1_get_tag_indef (tv : tagvars) : decoder tagvars := fun e buf =>
  if bound buf - next buf + 1 <=? 0 then
    Ok (TagVars (tv_class tv) (tv_construction tv) ASN1_TAGNUM_CEILING
                (tv_taglen tv) (tv_indef tv), buf)
  else
    let* '((class, construction, tagnum), buf) := asn1_get_id e buf in
    let* '((retlen, indef), buf) := asn1_get_length e buf in
    Ok (TagVars class construction tagnum retlen indef, buf).

(** [asn1_get_tag]: the indefinite flag goes to a local variable. *)
Definition asn1_get_tag (tv : tagvars) : decoder tagvars := fun e buf =>
  let* '(tv', buf) := asn1_get_tag_indef tv e buf in
  Ok (TagVars (tv_class tv') (tv_construction tv') (tv_tagnum tv') (tv_taglen tv')
              (tv_indef tv), buf).

(** The header of a SEQUENCE: its length and indefinite flag. *)
Definition asn1_get_sequence : decoder (Z * Z) := fun e buf =>
  let* '(tv, buf) := asn1_get_tag_indef stack_junk e buf in
  if negb (tv_class tv =? UNIVERSAL) || negb (tv_construction tv =? CONSTRUCTED)
     || negb (tv_tagnum tv =? ASN1_SEQUENCE)
  then Err ASN1_BAD_ID
  else Ok ((tv_taglen tv, tv_indef tv), buf).

(** ** Leaving a sub-buffer (asn1buf.c) *)

Definition asn1_is_eoc (class num indef : Z) : bool :=
  (class =? UNIVERSAL) && (num =? 0) && (indef =? 0).

(** The while loop of [asn1buf_skiptail]; [tv] holds the values its automatic
    variables have at the start of the iteration. *)
Fixpoint skiptail_loop (fuel : nat) (e : denv) (tv : tagvars) (nestlevel : Z) (buf : asn1buf)
    : outcome error_code asn1buf :=
  if nestlevel <=? 0 then Ok buf
  else match fuel with
  | O => OutOfFuel
  | S fuel' =>
      let* '(tv, buf) := asn1_get_tag_indef tv e buf in
      let* buf :=
        if tv_indef tv =? 0 then
          if tv_taglen tv <=? bound buf - next buf + 1
          then Ok (set_next buf (next buf + tv_taglen tv))
          else Err ASN1_OVERRUN
        else Ok buf in
      let nestlevel := if tv_indef tv =? 0 then nestlevel else nestlevel + 1 in
      let nestlevel :=
        if asn1_is_eoc (tv_class tv) (tv_tagnum tv) (tv_indef tv)
        then nestlevel - 1 else nestlevel in
      skiptail_loop fuel' e tv nestlevel buf
  end.

Definition asn1buf_skiptail (e : denv) (length indef : Z) (buf : asn1buf)
    : outcome error_code asn1buf :=
  let nestlevel := 1 + indef in
  let* buf :=
    if indef =? 0 then
      if length <=? bound buf - next buf + 1
      then Ok (set_next buf (next buf + length))
      else Err ASN1_OVERRUN
    else Ok buf in
  skiptail_loop (de_fuel e) e stack_junk nestlevel buf.

Definition asn1buf_sync (e : denv) (buf subbuf : asn1buf)
    (class lasttag length indef seqindef : Z) : outcome error_code asn1buf :=
  if seqindef =? 0 then Ok (set_next buf (bound subbuf + 1))
  else if negb (asn1_is_eoc class lasttag indef) then
    let* _ := asn1buf_skiptail e length indef subbuf in
    Ok buf
  else Ok (set_next buf (next subbuf)).

End Get.

(** * Writing identifier and length octets (src/src/lib/krb5/asn.1/asn1_make.c)

    An encoder prepends its octets to the buffer and returns how many it wrote. *)

Section Make.
Context `{P : Platform}.

Definition encoder : Type := codebuf -> outcome enc_error (codebuf * Z).

(** The while loop of [asn1_make_length]; an [int] has at most four octets. *)
Fixpoint make_length_octets (fuel : nat) (in_copy length : Z) (buf : codebuf)
    : outcome enc_error (codebuf * Z) :=
  if in_copy =? 0 then Ok (buf, length)
  else match fuel with
  | O => OutOfFuel
  | S fuel' =>
      let* buf := asn1buf_insert_octet buf (Z.land in_copy 0xFF) in
      make_length_octets fuel' (Z.shiftr in_copy 8) (length + 1) buf
  end.

Definition asn1_make_length (in_len : Z) : encoder := fun buf =>
  if in_len <? 128 then
    let* buf := asn1buf_insert_octet buf (Z.land in_len 0x7F) in
    Ok (buf, 1)
  else
    let* '(buf, length) := make_length_octets 4 in_len 0 buf in
    let* buf := asn1buf_insert_octet buf (Z.lor 0x80 (Z.land length 0x7F)) in
    Ok (buf, length + 1).

(** The for loop of [asn1_make_id]; a 31-bit tag number has at most five groups of
    seven bits. *)
Fixpoint make_id_octets (fuel : nat) (tagcopy length : Z) (buf : codebuf)
    : outcome enc_error (codebuf * Z) :=
  if tagcopy =? 0 then Ok (buf, length)
  else match fuel with
  | O => OutOfFuel
  | S fuel' =>
      let* buf := asn1buf_insert_octet buf (Z.lor 0x80 (Z.land tagcopy 0x7F)) in
      make_id_octets fuel' (Z.shiftr tagcopy 7) (length + 1) buf
  end.

Definition asn1_make_id (class construction tagnum : Z) : encoder := fun buf =>
  if tagnum <? 31 then
    let* buf := asn1buf_insert_octet buf (Z.lor (Z.lor class construction) (octet_of tagnum)) in
    Ok (buf, 1)
  else
    let* buf := asn1buf_insert_octet buf (Z.land tagnum 0x7F) in
    let* '(buf, length) := make_id_octets 4 (Z.shiftr tagnum 7) 1 buf in
    let* buf := asn1buf_insert_octet buf (Z.lor (Z.lor class construction) 0x1F) in
    Ok (buf, length + 1).

Definition asn1_make_tag (class construction tagnum in_len : Z) : encoder := fun buf =>
  if ASN1_TAGNUM_MAX <? tagnum then Err (ASN1_OVERFLOW, false)
  else
    let* '(buf, length) := asn1_make_length in_len buf in
    let sumlen := length in
    let* '(buf, length) := asn1_make_id class construction tagnum buf in
    Ok (buf, sumlen + length).

Definition asn1_make_etag (class tagnum in_len : Z) : encoder :=
  asn1_make_tag class CONSTRUCTED tagnum in_len.

Definition asn1_make_sequence (seq_len : Z) : encoder := fun buf =>
  let* '(buf, len) := asn1_make_length seq_len buf in
  let sum := len in
  let* '(buf, len) := asn1_make_id UNIVERSAL CONSTRUCTED ASN1_SEQUENCE buf in
  Ok (buf, sum + len).

Definition asn1_make_set (set_len : Z) : encoder := fun buf =>
  let* '(buf, len) := asn1_make_length set_len buf in
  let sum := len in
  let* '(buf, len) := asn1_make_id UNIVERSAL CONSTRUCTED ASN1_SET buf in
  Ok (buf, sum + len).

Definition asn1_make_string (length : Z) (string : option (list octet)) : encoder := fun buf =>
  let* buf := asn1buf_insert_charstring buf length string in
  Ok (buf, length).

End Make.
