(* ===== verification/GmTime.v ===== *)
(** * Calendar time: [gmt_mktime] (src/src/lib/krb5/os/gmt_mktime.c), the C library's
    [gmtime], and the GeneralizedTime strings made from them. *)

From S2P Require Import Prelude Asn1Buf.

(** The fields of [struct tm] the code uses. *)
Record tm := Tm {
  tm_year : Z; tm_mon : Z; tm_mday : Z; tm_hour : Z; tm_min : Z; tm_sec : Z
}.

(** ** gmtime (C library)

    Days since 1970-01-01 to the proleptic Gregorian calendar, by 400-year eras that
    start on 1 March. *)
Definition civil_from_days (days : Z) : Z * Z * Z :=
  let z := days + 719468 in
  let era := z / 146097 in
  let doe := z mod 146097 in
  let yoe := (doe - doe / 1460 + doe / 36524 - doe / 146096) / 365 in
  let doy := doe - (365 * yoe + yoe / 4 - yoe / 100) in
  let mp := (5 * doy + 2) / 153 in
  let d := doy - (153 * mp + 2) / 5 + 1 in
  let m := if mp <? 10 then mp + 3 else mp - 9 in
  let y := yoe + era * 400 + (if m <=? 2 then 1 else 0) in
  (y, m, d).

(** NULL when the year does not fit an [int]. *)
Definition gmtime (t : Z) : option tm :=
  let '(y, m, d) := civil_from_days (t / 86400) in
  let s := t mod 86400 in
  if (-2147483648 <=? y - 1900) && (y - 1900 <=? 2147483647) then
    Some (Tm (y - 1900) (m - 1) d (s / 3600) (s / 60 mod 60) (s mod 60))
  else None.

(** ** gmt_mktime *)

Definition days_in_month : list Z := [0; 31; 59; 90; 120; 151; 181; 212; 243; 273; 304; 334].

Definition hasleapday (year : Z) : bool :=
  if negb (Z.rem year 400 =? 0) then
    if negb (Z.rem year 100 =? 0) then
      if negb (Z.rem year 4 =? 0) then false else true
    else false
  else true.

Section Mktime.
Context `{P : Platform}.

(** [time_t] is a [long]. *)
Definition time_t (z : Z) : Z := to_int (8 * sizeof_long) z.

Definition gmt_mktime (t : tm) : Z :=
  if negb ((70 <=? tm_year t) && (tm_year t <=? 138)
        && (0 <=? tm_mon t) && (tm_mon t <=? 11)
        && (1 <=? tm_mday t) && (tm_mday t <=? 31)
        && (0 <=? tm_hour t) && (tm_hour t <=? 23)
        && (0 <=? tm_min t) && (tm_min t <=? 59)
        && (0 <=? tm_sec t) && (tm_sec t <=? 62))
  then -1
  else
    let accum := (tm_year t - 70) * 365 in
    let accum := accum + Z.quot (tm_year t - 69) 4 in
    let accum :=
      if 2 <=? tm_mon t then
        if hasleapday (tm_year t + 1900) then accum + 1 else accum
      else accum in
    let accum := accum + default 0 (days_in_month !! Z.to_nat (tm_mon t)) in
    let accum := accum + (tm_mday t - 1) in
    let accum := accum * 24 + tm_hour t in
    let accum := accum * 60 + tm_min t in
    let accum := accum * 60 + tm_sec t in
    time_t accum.

End Mktime.

(** ** sprintf of a decimal number with zero padding *)

Fixpoint dec_digits (fuel : nat) (n : Z) (acc : list octet) : list octet :=
  match fuel with
  | O => acc
  | S fuel' =>
      let acc := 48 + n mod 10 :: acc in
      if n <? 10 then acc else dec_digits fuel' (n / 10) acc
  end.

(** "%0wd" for an [int] argument (at most ten digits). *)
Definition sprintf_0d (w : nat) (n : Z) : list octet :=
  let ds := dec_digits 10 (Z.abs n) [] in
  if n <? 0 then 45 :: replicate (w - 1 - length ds) 48 ++ ds
  else replicate (w - length ds) 48 ++ ds.

(** sprintf(s, "%04d%02d%02d%02d%02d%02dZ", ...) *)
Definition sprintf_generaltime (g : tm) : list octet :=
  sprintf_0d 4 (1900 + tm_year g) ++ sprintf_0d 2 (tm_mon g + 1) ++ sprintf_0d 2 (tm_mday g) ++
  sprintf_0d 2 (tm_hour g) ++ sprintf_0d 2 (tm_min g) ++ sprintf_0d 2 (tm_sec g) ++ [90].

(** ** gmt_mktime inverts gmtime

    on the times a 32-bit [krb5_timestamp] from 1970 on can hold.  The calendar part
    is checked day by day. *)

(** The day number [gmt_mktime] computes from a date. *)
Definition mktime_days (year mon mday : Z) : Z :=
  (year - 70) * 365 + Z.quot (year - 69) 4
  + (if (2 <=? mon) && hasleapday (year + 1900) then 1 else 0)
  + default 0 (days_in_month !! Z.to_nat mon) + (mday - 1).

Definition day_ok (d : Z) : bool :=
  let '(y, m, dd) := civil_from_days d in
  (1970 <=? y) && (y <=? 2038) && (1 <=? m) && (m <=? 12) && (1 <=? dd) && (dd <=? 31)
  && (mktime_days (y - 1900) (m - 1) dd =? d).

Fixpoint days_ok_from (k : nat) (d : Z) : bool :=
  match k with O => true | S k' => day_ok d && days_ok_from k' (d + 1) end.

Lemma days_ok_from_ok k d x :
  days_ok_from k d = true -> d <= x < d + Z.of_nat k -> day_ok x = true.
Proof.
  revert d. induction k as [|k IH]; intros d H Hx; [lia|].
  cbn [days_ok_from] in H. apply andb_prop in H as [H1 H2].
  destruct (Z.eq_dec x d) as [->|]; [done|]. apply (IH (d + 1)); [done|lia].
Qed.

Lemma days_ok d : 0 <= d <= 24855 -> day_ok d = true.
Proof.
  intros Hd. apply (days_ok_from_ok (Z.to_nat 24856) 0); [by vm_compute|].
  rewrite Z2Nat.id; lia.
Qed.

Section MktimeProofs.
Context `{P : Platform}.

Lemma time_t_id t : 0 <= t < 2147483648 -> time_t t = t.
Proof.
  intros Ht. apply to_int_id; [|destruct sizeof_long_ok; lia]. unfold is_int.
  destruct sizeof_long_ok as [-> | ->].
  - change (2 ^ (8 * 4 - 1)) with 2147483648. lia.
  - change (2 ^ (8 * 8 - 1)) with 9223372036854775808. lia.
Qed.

Lemma gmtime_ok t : 0 <= t < 2147483648 ->
  exists g, gmtime t = Some g /\ 70 <= tm_year g <= 138 /\ 0 <= tm_mon g <= 11 /\
    1 <= tm_mday g <= 31 /\ 0 <= tm_hour g <= 23 /\ 0 <= tm_min g <= 59 /\ 0 <= tm_sec g <= 59 /\
    mktime_days (tm_year g) (tm_mon g) (tm_mday g) = t / 86400 /\
    tm_hour g * 3600 + tm_min g * 60 + tm_sec g = t mod 86400.
Proof.
  intros Ht. unfold gmtime. pose proof (days_ok (t / 86400) ltac:(divlia)) as Hd.
  unfold day_ok in Hd. destruct (civil_from_days (t / 86400)) as [[y m] d].
  repeat (apply andb_prop in Hd as [Hd ?]).
  replace ((-2147483648 <=? y - 1900) && (y - 1900 <=? 2147483647)) with true by lia.
  eexists. split; [done|]. cbn [tm_year tm_mon tm_mday tm_hour tm_min tm_sec].
  do 6 (split; [divlia|]). split; [lia|]. divlia.
Qed.

Lemma gmt_mktime_gmtime t : 0 <= t < 2147483648 ->
  exists g, gmtime t = Some g /\ gmt_mktime g = t.
Proof.
  intros Ht. destruct (gmtime_ok t Ht) as (g & E & Hy & Hm & Hd & Hh & Hmi & Hs & Hdays & Hsec).
  exists g. split; [done|]. unfold gmt_mktime.
  replace (negb _) with false by lia. cbv zeta. unfold mktime_days in Hdays.
  assert (forall a, (if 2 <=? tm_mon g then if hasleapday (tm_year g + 1900) then a + 1 else a else a)
    = a + (if (2 <=? tm_mon g) && hasleapday (tm_year g + 1900) then 1 else 0)) as ->.
  { intros a. destruct (2 <=? tm_mon g), (hasleapday (tm_year g + 1900)); simpl; lia. }
  rewrite Hdays. rewrite <- (time_t_id t Ht) at 2. f_equal. divlia.
Qed.

End MktimeProofs.

(** ** The decimal digits of the time string *)

Lemma sprintf_2 n : 0 <= n < 100 -> sprintf_0d 2 n = [48 + n / 10; 48 + n mod 10].
Proof.
  intros Hn. assert (Hq : forall o, 0 <= o < 256 ->
    (negb (o <? 100) || bool_decide (sprintf_0d 2 o = [48 + o / 10; 48 + o mod 10]))%bool = true)
    by (apply octet_case; by vm_compute).
  specialize (Hq n ltac:(lia)). replace (n <? 100) with true in Hq by lia.
  by apply bool_decide_eq_true in Hq.
Qed.

Lemma sprintf_4 y : 1900 <= y < 2156 ->
  sprintf_0d 4 y = [48 + y / 1000; 48 + y / 100 mod 10; 48 + y / 10 mod 10; 48 + y mod 10].
Proof.
  intros Hn. assert (Hq : forall o, 0 <= o < 256 ->
    bool_decide (sprintf_0d 4 (1900 + o) = [48 + (1900 + o) / 1000; 48 + (1900 + o) / 100 mod 10;
      48 + (1900 + o) / 10 mod 10; 48 + (1900 + o) mod 10]) = true)
    by (apply octet_case; by vm_compute).
  specialize (Hq (y - 1900) ltac:(lia)). replace (1900 + (y - 1900)) with y in Hq by lia.
  by apply bool_decide_eq_true in Hq.
Qed.
