(* ===== verification/Asn1Prim.v ===== *)
(** * Primitive types (src/src/lib/krb5/asn.1/asn1_encode.c, asn1_decode.c) *)

From S2P Require Import Prelude Asn1Buf Asn1Tag GmTime.

Section Encode.
Context `{P : Platform}.

(** ** Encoders *)

(** The do-while loop of [asn1_encode_integer]; returns the last digit too. *)
Fixpoint encode_integer_loop (fuel : nat) (valcopy length : Z) (buf : codebuf)
    : outcome enc_error (codebuf * Z * Z) :=
  match fuel with
  | O => OutOfFuel
  | S fuel' =>
      let digit := Z.land valcopy 0xFF in
      let* buf := asn1buf_insert_octet buf digit in
      let length := length + 1 in
      let valcopy := Z.shiftr valcopy 8 in
      if negb (valcopy =? 0) && negb (valcopy =? -1)
      then encode_integer_loop fuel' valcopy length buf
      else Ok (buf, length, digit)
  end.

Definition asn1_encode_integer (val : Z) : encoder := fun buf =>
  let* '(buf, length, digit) := encode_integer_loop (Z.to_nat sizeof_long) val 0 buf in
  let* '(buf, length) :=
    if (0 <? val) && (Z.land digit 0x80 =? 0x80) then
      let* buf := asn1buf_insert_octet buf 0 in Ok (buf, length + 1)
    else if (val <? 0) && negb (Z.land digit 0x80 =? 0x80) then
      let* buf := asn1buf_insert_octet buf 0xFF in Ok (buf, length + 1)
    else Ok (buf, length) in
  let* '(buf, partlen) := asn1_make_tag UNIVERSAL PRIMITIVE ASN1_INTEGER length buf in
  Ok (buf, length + partlen).

(** The same loop on an [unsigned long], where ~0 is the largest value. *)
Fixpoint encode_unsigned_loop (fuel : nat) (valcopy length : Z) (buf : codebuf)
    : outcome enc_error (codebuf * Z * Z) :=
  match fuel with
  | O => OutOfFuel
  | S fuel' =>
      let digit := Z.land valcopy 0xFF in
      let* buf := asn1buf_insert_octet buf digit in
      let length := length + 1 in
      let valcopy := Z.shiftr valcopy 8 in
      if negb (valcopy =? 0) && negb (valcopy =? to_uint (8 * sizeof_long) (-1))
      then encode_unsigned_loop fuel' valcopy length buf
      else Ok (buf, length, digit)
  end.

Definition asn1_encode_unsigned_integer (val : Z) : encoder := fun buf =>
  let* '(buf, length, digit) := encode_unsigned_loop (Z.to_nat sizeof_long) val 0 buf in
  let* '(buf, length) :=
    if negb (Z.land digit 0x80 =? 0) then
      let* buf := asn1buf_insert_octet buf 0 in Ok (buf, length + 1)
    else Ok (buf, length) in
  let* '(buf, partlen) := asn1_make_tag UNIVERSAL PRIMITIVE ASN1_INTEGER length buf in
  Ok (buf, length + partlen).

Definition asn1_encode_octetstring (len : Z) (val : option (list octet)) : encoder := fun buf =>
  let* buf := asn1buf_insert_octetstring buf len val in
  let* '(buf, length) := asn1_make_tag UNIVERSAL PRIMITIVE ASN1_OCTETSTRING len buf in
  Ok (buf, len + length).

Definition asn1_encode_charstring (len : Z) (val : option (list octet)) : encoder := fun buf =>
  let* buf := asn1buf_insert_charstring buf len val in
  let* '(buf, length) := asn1_make_tag UNIVERSAL PRIMITIVE ASN1_OCTETSTRING len buf in
  Ok (buf, len + length).

Definition asn1_encode_null : encoder := fun buf =>
  let* buf := asn1buf_insert_octet buf 0x00 in
  let* buf := asn1buf_insert_octet buf 0x05 in
  Ok (buf, 2).

Definition asn1_encode_printablestring (len : Z) (val : option (list octet)) : encoder := fun buf =>
  let* buf := asn1buf_insert_charstring buf len val in
  let* '(buf, length) := asn1_make_tag UNIVERSAL PRIMITIVE ASN1_PRINTABLESTRING len buf in
  Ok (buf, len + length).

Definition asn1_encode_ia5string (len : Z) (val : option (list octet)) : encoder := fun buf =>
  let* buf := asn1buf_insert_charstring buf len val in
  let* '(buf, length) := asn1_make_tag UNIVERSAL PRIMITIVE ASN1_IA5STRING len buf in
  Ok (buf, len + length).

(** [sprintf] writes into a 16-octet array: a longer string is undefined behaviour. *)
Definition asn1_encode_generaltime (val : Z) : encoder := fun buf =>
  match gmtime val with
  | None => Err (ASN1_BAD_GMTIME, false)
  | Some gtime =>
      if (8099 <? tm_year gtime) || (11 <? tm_mon gtime) || (31 <? tm_mday gtime)
         || (23 <? tm_hour gtime) || (59 <? tm_min gtime) || (59 <? tm_sec gtime)
      then Err (ASN1_BAD_GMTIME, false)
      else
        let s := sprintf_generaltime gtime ++ [0] in
        if 16 <? zlen s then Undefined
        else
          let* buf := asn1buf_insert_charstring buf 15 (Some s) in
          let sum := 15 in
          let* '(buf, length) := asn1_make_tag UNIVERSAL PRIMITIVE ASN1_GENERALTIME sum buf in
          Ok (buf, sum + length)
  end.

Definition asn1_encode_generalstring (len : Z) (val : option (list octet)) : encoder := fun buf =>
  let* buf := asn1buf_insert_charstring buf len val in
  let* '(buf, length) := asn1_make_tag UNIVERSAL PRIMITIVE ASN1_GENERALSTRING len buf in
  Ok (buf, len + length).

(** ** Decoders *)

(** The [tag] macro of asn1_decode.c: reads a primitive tag of the given type and
    returns its length. *)
Definition tag (type : Z) : decoder Z := fun e buf =>
  let* '(tv, buf) := asn1_get_tag stack_junk e buf in
  if negb (tv_class tv =? UNIVERSAL) || negb (tv_construction tv =? PRIMITIVE)
     || negb (tv_tagnum tv =? type)
  then Err ASN1_BAD_ID
  else Ok (tv_taglen tv, buf).

(** The for loop of [asn1_decode_integer] from iteration [i] on; [k] iterations are
    left. *)
Fixpoint decode_integer_loop (k : nat) (e : denv) (length i n : Z) (buf : asn1buf)
    : outcome error_code (Z * asn1buf) :=
  match k with
  | O => Ok (n, buf)
  | S k' =>
      let* '(o, buf) := asn1buf_remove_octet e buf in
      let* n :=
        if i =? 0 then
          let n := if negb (Z.land 0x80 o =? 0) then -1 else 0 in
          if (n <? 0) && (sizeof_long <? length) then Err ASN1_OVERFLOW
          else if sizeof_long + 1 <? length then Err ASN1_OVERFLOW
          else Ok n
        else Ok n in
      let n := Z.lor (to_int (8 * sizeof_long) (Z.shiftl n 8)) o in
      decode_integer_loop k' e length (i + 1) n buf
  end.

Definition asn1_decode_integer : decoder Z := fun e buf =>
  let* '(length, buf) := tag ASN1_INTEGER e buf in
  decode_integer_loop (Z.to_nat length) e length 0 0 buf.

Fixpoint decode_unsigned_loop (k : nat) (e : denv) (length i n : Z) (buf : asn1buf)
    : outcome error_code (Z * asn1buf) :=
  match k with
  | O => Ok (n, buf)
  | S k' =>
      let* '(o, buf) := asn1buf_remove_octet e buf in
      let* _ :=
        if i =? 0 then
          if negb (Z.land 0x80 o =? 0) then Err ASN1_OVERFLOW
          else if sizeof_long + 1 <? length then Err ASN1_OVERFLOW
          else Ok tt
        else Ok tt in
      let n := Z.lor (to_uint (8 * sizeof_long) (Z.shiftl n 8)) o in
      decode_unsigned_loop k' e length (i + 1) n buf
  end.

Definition asn1_decode_unsigned_integer : decoder Z := fun e buf =>
  let* '(length, buf) := tag ASN1_INTEGER e buf in
  decode_unsigned_loop (Z.to_nat length) e length 0 0 buf.

Definition asn1_decode_octetstring : decoder (Z * option (list octet)) := fun e buf =>
  let* '(length, buf) := tag ASN1_OCTETSTRING e buf in
  let* '(val, buf) := asn1buf_remove_octetstring e length buf in
  Ok ((length, val), buf).

Definition asn1_decode_charstring : decoder (Z * option (list octet)) := fun e buf =>
  let* '(length, buf) := tag ASN1_OCTETSTRING e buf in
  let* '(val, buf) := asn1buf_remove_charstring e length buf in
  Ok ((length, val), buf).

Definition asn1_decode_generalstring : decoder (Z * option (list octet)) := fun e buf =>
  let* '(length, buf) := tag ASN1_GENERALSTRING e buf in
  let* '(val, buf) := asn1buf_remove_charstring e length buf in
  Ok ((length, val), buf).

Definition asn1_decode_null : decoder unit := fun e buf =>
  let* '(length, buf) := tag ASN1_NULL e buf in
  if negb (length =? 0) then Err ASN1_BAD_LENGTH else Ok (tt, buf).

Definition asn1_decode_printablestring : decoder (Z * option (list octet)) := fun e buf =>
  let* '(length, buf) := tag ASN1_PRINTABLESTRING e buf in
  let* '(val, buf) := asn1buf_remove_charstring e length buf in
  Ok ((length, val), buf).

Definition asn1_decode_ia5string : decoder (Z * option (list octet)) := fun e buf =>
  let* '(length, buf) := tag ASN1_IA5STRING e buf in
  let* '(val, buf) := asn1buf_remove_charstring e length buf in
  Ok ((length, val), buf).

(** c2i(s[i]) on a [char], which is signed. *)
Definition c2i (s : list octet) (i : nat) : Z := to_int 8 (default 0 (s !! i)) - 48.

(** The result of the call that fetches the 15 characters is not looked at: when it
    fails, the pointer [s] is uninitialised and reading s[14] is undefined. *)
Definition asn1_decode_generaltime : decoder Z := fun e buf =>
  let* '(length, buf) := tag ASN1_GENERALTIME e buf in
  if negb (length =? 15) then Err ASN1_BAD_LENGTH
  else match asn1buf_remove_charstring e 15 buf with
  | Ok (Some s, buf) =>
      if negb (default 0 (s !! 14%nat) =? 90) then Err ASN1_BAD_FORMAT
      else
        let ts := Tm (1000 * c2i s 0 + 100 * c2i s 1 + 10 * c2i s 2 + c2i s 3 - 1900)
                     (10 * c2i s 4 + c2i s 5 - 1)
                     (10 * c2i s 6 + c2i s 7)
                     (10 * c2i s 8 + c2i s 9)
                     (10 * c2i s 10 + c2i s 11)
                     (10 * c2i s 12 + c2i s 13) in
        let t := gmt_mktime ts in
        if t =? -1 then Err ASN1_BAD_TIMEFORMAT else Ok (t, buf)
  | _ => Undefined
  end.

End Encode.
