(* ===== verification/Krb5Types.v ===== *)
(** * The protocol structures of the library (src/src/include/krb5.hin, k5-int.h)

    One record per C struct, with the fields of the struct under a prefix of their
    own and the [magic] numbers left out.  A pointer is an [option], NULL is [None];
    a NULL-terminated array of pointers is an [option] of a list; a length and the
    pointer it belongs to stay two fields. *)

From S2P Require Import Prelude Asn1Buf.

Record krb5_principal_data := Principal {
  pr_realm : krb5_data; pr_data : option (list krb5_data); pr_length : Z; pr_type : Z
}.

Record krb5_address := Address {
  ad_addrtype : Z; ad_length : Z; ad_contents : option (list octet)
}.

Record krb5_keyblock := Keyblock {
  kb_enctype : Z; kb_length : Z; kb_contents : option (list octet)
}.

Record krb5_checksum := Checksum {
  ck_checksum_type : Z; ck_length : Z; ck_contents : option (list octet)
}.

Record krb5_enc_data := EncData {
  ed_enctype : Z; ed_kvno : Z; ed_ciphertext : krb5_data
}.

Record krb5_ticket_times := TicketTimes {
  tt_authtime : Z; tt_starttime : Z; tt_endtime : Z; tt_renew_till : Z
}.

Record krb5_authdata := AuthData {
  au_ad_type : Z; au_length : Z; au_contents : option (list octet)
}.

Record krb5_transited := Transited { tr_type : Z; tr_contents : krb5_data }.

Record krb5_enc_tkt_part := EncTktPart {
  etp_flags : Z; etp_session : option krb5_keyblock; etp_client : option krb5_principal_data;
  etp_transited : krb5_transited; etp_times : krb5_ticket_times;
  etp_caddrs : option (list krb5_address);
  etp_authorization_data : option (list krb5_authdata)
}.

Record krb5_ticket := Ticket {
  tk_server : option krb5_principal_data; tk_enc_part : krb5_enc_data;
  tk_enc_part2 : option krb5_enc_tkt_part
}.

Record krb5_authenticator := Authenticator {
  at_client : option krb5_principal_data; at_checksum : option krb5_checksum;
  at_cusec : Z; at_ctime : Z; at_subkey : option krb5_keyblock; at_seq_number : Z;
  at_authorization_data : option (list krb5_authdata)
}.

Record krb5_last_req_entry := LastReqEntry { lr_type : Z; lr_value : Z }.

Record krb5_pa_data := PaData {
  pa_type : Z; pa_length : Z; pa_contents : option (list octet)
}.

Record krb5_kdc_req := KdcReq {
  rq_msg_type : Z; rq_padata : option (list krb5_pa_data); rq_kdc_options : Z;
  rq_client : option krb5_principal_data; rq_server : option krb5_principal_data;
  rq_from : Z; rq_till : Z; rq_rtime : Z; rq_nonce : Z;
  rq_nktypes : Z; rq_ktype : option (list Z);
  rq_addresses : option (list krb5_address); rq_authorization_data : krb5_enc_data;
  rq_unenc_authdata : option (list krb5_authdata);
  rq_second_ticket : option (list krb5_ticket)
}.

Record krb5_enc_kdc_rep_part := EncKdcRepPart {
  ek_msg_type : Z; ek_session : option krb5_keyblock;
  ek_last_req : option (list krb5_last_req_entry); ek_nonce : Z; ek_key_exp : Z;
  ek_flags : Z; ek_times : krb5_ticket_times; ek_server : option krb5_principal_data;
  ek_caddrs : option (list krb5_address)
}.

Record krb5_kdc_rep := KdcRep {
  rp_msg_type : Z; rp_padata : option (list krb5_pa_data);
  rp_client : option krb5_principal_data; rp_ticket : option krb5_ticket;
  rp_enc_part : krb5_enc_data; rp_enc_part2 : option krb5_enc_kdc_rep_part
}.

Record krb5_error := KrbError {
  er_ctime : Z; er_cusec : Z; er_susec : Z; er_stime : Z; er_error : Z;
  er_client : option krb5_principal_data; er_server : option krb5_principal_data;
  er_text : krb5_data; er_e_data : krb5_data
}.

Record krb5_ap_req := ApReq {
  aq_ap_options : Z; aq_ticket : option krb5_ticket; aq_authenticator : krb5_enc_data
}.

Record krb5_ap_rep := ApRep { ap_enc_part : krb5_enc_data }.

Record krb5_ap_rep_enc_part := ApRepEncPart {
  ae_ctime : Z; ae_cusec : Z; ae_subkey : option krb5_keyblock; ae_seq_number : Z
}.

Record krb5_safe := Safe {
  sf_user_data : krb5_data; sf_timestamp : Z; sf_usec : Z; sf_seq_number : Z;
  sf_s_address : option krb5_address; sf_r_address : option krb5_address;
  sf_checksum : option krb5_checksum
}.

Record krb5_priv := Priv { pv_enc_part : krb5_enc_data }.

Record krb5_priv_enc_part := PrivEncPart {
  pe_user_data : krb5_data; pe_timestamp : Z; pe_usec : Z; pe_seq_number : Z;
  pe_s_address : option krb5_address; pe_r_address : option krb5_address
}.

Record krb5_cred_info := CredInfo {
  ci_session : option krb5_keyblock; ci_client : option krb5_principal_data;
  ci_server : option krb5_principal_data; ci_flags : Z; ci_times : krb5_ticket_times;
  ci_caddrs : option (list krb5_address)
}.

Record krb5_cred_enc_part := CredEncPart {
  ce_nonce : Z; ce_timestamp : Z; ce_usec : Z; ce_s_address : option krb5_address;
  ce_r_address : option krb5_address; ce_ticket_info : option (list krb5_cred_info)
}.

Record krb5_cred := Cred {
  cr_tickets : option (list krb5_ticket); cr_enc_part : krb5_enc_data;
  cr_enc_part2 : option krb5_cred_enc_part
}.

Record passwd_phrase_element := PasswdPhrase {
  pp_passwd : option krb5_data; pp_phrase : option krb5_data
}.

Record krb5_pwd_data := PwdData {
  pw_sequence_count : Z; pw_element : option (list passwd_phrase_element)
}.

Record krb5_alt_method := AltMethod {
  am_method : Z; am_length : Z; am_data : option (list octet)
}.

Record krb5_etype_info_entry := EtypeInfoEntry {
  ei_etype : Z; ei_length : Z; ei_salt : option (list octet)
}.

Record krb5_pa_enc_ts := PaEncTs { ts_patimestamp : Z; ts_pausec : Z }.

Record krb5_sam_challenge := SamChallenge {
  sc_sam_type : Z; sc_sam_flags : Z; sc_sam_type_name : krb5_data;
  sc_sam_track_id : krb5_data; sc_sam_challenge_label : krb5_data;
  sc_sam_challenge : krb5_data; sc_sam_response_prompt : krb5_data;
  sc_sam_pk_for_sad : krb5_data; sc_sam_nonce : Z; sc_sam_cksum : krb5_checksum
}.

Record krb5_sam_key := SamKey { sk_sam_key : krb5_keyblock }.

Record krb5_enc_sam_response_enc := EncSamResponseEnc {
  es_sam_nonce : Z; es_sam_timestamp : Z; es_sam_usec : Z; es_sam_sad : krb5_data
}.

Record krb5_sam_response := SamResponse {
  sr_sam_type : Z; sr_sam_flags : Z; sr_sam_track_id : krb5_data;
  sr_sam_enc_key : krb5_enc_data; sr_sam_enc_nonce_or_ts : krb5_enc_data;
  sr_sam_nonce : Z; sr_sam_patimestamp : Z
}.

Record krb5_predicted_sam_response := PredictedSamResponse {
  ps_sam_key : krb5_keyblock; ps_sam_flags : Z; ps_stime : Z; ps_susec : Z;
  ps_client : option krb5_principal_data; ps_msd : krb5_data
}.

(** ** Values of zeroed storage ([calloc]) *)

Definition null_data : krb5_data := Data 0 None.
Definition null_principal : krb5_principal_data := Principal null_data None 0 0.
Definition null_enc_data : krb5_enc_data := EncData 0 0 null_data.
Definition null_checksum : krb5_checksum := Checksum 0 0 None.

(** ** Constants *)

(** The protocol version number. *)
Definition KVNO : Z := 5.

Definition KRB5_AS_REQ : Z := 10.
Definition KRB5_AS_REP : Z := 11.
Definition KRB5_TGS_REQ : Z := 12.
Definition KRB5_TGS_REP : Z := 13.
Definition ASN1_KRB_AP_REQ : Z := 14.
Definition ASN1_KRB_AP_REP : Z := 15.
Definition ASN1_KRB_SAFE : Z := 20.
Definition ASN1_KRB_PRIV : Z := 21.
Definition ASN1_KRB_CRED : Z := 22.
Definition ASN1_KRB_ERROR : Z := 30.

Definition KDC_OPT_ENC_TKT_IN_SKEY : Z := 0x00000008.
Definition TKT_FLG_RENEWABLE : Z := 0x00800000.
