(* ===== verification/Asn1KEncode.v ===== *)
(** * Encoders of the Kerberos types (src/src/lib/krb5/asn.1/asn1_k_encode.c)

    The fields of a structure are written last first, each under a context-specific
    tag; [sum] counts the octets of the structure written so far.  A structure whose
    callers pass the address of a member, or a pointer they have dereferenced, is a
    value here: its test against NULL cannot succeed. *)

From S2P Require Import Prelude Asn1Buf Asn1Tag GmTime Asn1Prim Krb5Types.

Section KEncode.
Context `{P : Platform}.

(** ** The macros *)

(** The variables [buf] and [sum] of an encoder between two macro calls. *)
Definition encst : Type := codebuf * Z.
Definition encstep : Type := encst -> outcome enc_error encst.

Definition estep_seq (s1 s2 : encstep) : encstep := fun st => obind (s1 st) s2.
Local Infix ">=>" := estep_seq (at level 60, right associativity).

(** if (b) step; *)
Definition when (b : bool) (step : encstep) : encstep := fun st => if b then step st else Ok st.

(** if(retval){ asn1buf_destroy(&buf); return retval; }.  The pointer that is set to
    NULL is the macro user's own; an encoder whose callee has freed the buffer frees
    it again, which is undefined. *)
Definition destroy_on_error {A} (r : outcome enc_error A) : outcome enc_error A :=
  match r with
  | Err (e, true) => Undefined
  | Err (e, false) => Err (e, true)
  | r => r
  end.

(** Plain [if(retval) return retval;] for a call that adds to [sum]. *)
Definition addplain (enc : encoder) : encstep := fun '(buf, sum) =>
  let* '(buf, length) := enc buf in
  Ok (buf, sum + length).

Definition asn1_addfield (tag : Z) (enc : encoder) : encstep := fun '(buf, sum) =>
  let* '(buf, length) := destroy_on_error (enc buf) in
  let sum := sum + length in
  let* '(buf, length) := destroy_on_error (asn1_make_etag CONTEXT_SPECIFIC tag length buf) in
  Ok (buf, sum + length).

Definition asn1_addlenfield (len : Z) (value : option (list octet)) (tag : Z)
    (enc : Z -> option (list octet) -> encoder) : encstep := fun '(buf, sum) =>
  let* '(buf, length) := destroy_on_error (enc len value buf) in
  let sum := sum + length in
  let* '(buf, length) := destroy_on_error (asn1_make_etag CONTEXT_SPECIFIC tag length buf) in
  Ok (buf, sum + length).

Definition asn1_makeseq : encstep := fun '(buf, sum) =>
  let* '(buf, length) := destroy_on_error (asn1_make_sequence sum buf) in
  Ok (buf, sum + length).

Definition asn1_apptag (num : Z) : encstep := fun '(buf, sum) =>
  let* '(buf, length) := destroy_on_error (asn1_make_etag APPLICATION num sum buf) in
  Ok (buf, sum + length).

(** asn1_setup() ... asn1_cleanup() *)
Definition asn1_encode_body (body : encstep) : encoder := fun buf => body (buf, 0).

Definition fails (e : error_code) : encoder := fun _ => Err (e, false).

(** for(i--; i>=0; i--) over an array: the elements last first. *)
Fixpoint encode_elements {A} (enc : A -> encoder) (rev_elts : list A) : encstep :=
  match rev_elts with
  | [] => fun st => Ok st
  | x :: rest => addplain (enc x) >=> encode_elements enc rest
  end.

(** A [krb5_int32], [int] or [unsigned int] argument of a [long] parameter. *)
Definition long (z : Z) : Z := to_int (8 * sizeof_long) z.

(** [length && data == NULL] *)
Definition missing (length : Z) {A} (data : option A) : bool :=
  negb (length =? 0) && match data with None => true | Some _ => false end.

(** [p != NULL && p[0] != NULL] *)
Definition nonempty {A} (arr : option (list A)) : bool :=
  match arr with Some (_ :: _) => true | _ => false end.

(** ** Scalars and names *)

Definition asn1_encode_ui_4 (val : Z) : encoder := asn1_encode_unsigned_integer val.

Definition asn1_encode_realm (val : option krb5_principal_data) : encoder :=
  match val with
  | None => fails ASN1_MISSING_FIELD
  | Some val =>
      if missing (d_length (pr_realm val)) (d_data (pr_realm val)) then fails ASN1_MISSING_FIELD
      else asn1_encode_generalstring (d_length (pr_realm val)) (d_data (pr_realm val))
  end.

(** The loop over the components: val->data[n] for n = k-1, ..., 0. *)
Fixpoint encode_components (data : list krb5_data) (k : nat) : encstep :=
  match k with
  | O => fun st => Ok st
  | S n =>
      match data !! n with
      | None => fun _ => Undefined
      | Some c =>
          if missing (d_length c) (d_data c) then fun _ => Err (ASN1_MISSING_FIELD, false)
          else addplain (asn1_encode_generalstring (d_length c) (d_data c))
               >=> encode_components data n
      end
  end.

Definition asn1_encode_principal_name (val : option krb5_principal_data) : encoder :=
  match val with
  | None => fails ASN1_MISSING_FIELD
  | Some val =>
      match pr_data val with
      | None => fails ASN1_MISSING_FIELD
      | Some data =>
          asn1_encode_body
            (encode_components data (Z.to_nat (pr_length val)) >=>
             asn1_makeseq >=>
             (fun '(buf, sum) =>
                let* '(buf, length) := asn1_make_etag CONTEXT_SPECIFIC 1 sum buf in
                Ok (buf, sum + length)) >=>
             asn1_addfield 0 (asn1_encode_integer (long (pr_type val))) >=>
             asn1_makeseq)
      end
  end.

Definition asn1_encode_kerberos_time (val : Z) : encoder := asn1_encode_generaltime val.

Definition asn1_encode_host_address (val : option krb5_address) : encoder :=
  match val with
  | None => fails ASN1_MISSING_FIELD
  | Some val =>
      match ad_contents val with
      | None => fails ASN1_MISSING_FIELD
      | Some _ =>
          asn1_encode_body
            (asn1_addlenfield (ad_length val) (ad_contents val) 1 asn1_encode_octetstring >=>
             asn1_addfield 0 (asn1_encode_integer (long (ad_addrtype val))) >=>
             asn1_makeseq)
      end
  end.

Definition asn1_encode_host_addresses (val : option (list krb5_address)) : encoder :=
  match val with
  | None | Some [] => fails ASN1_MISSING_FIELD
  | Some val =>
      asn1_encode_body
        (encode_elements (fun a => asn1_encode_host_address (Some a)) (reverse val) >=>
         asn1_makeseq)
  end.

Definition asn1_encode_encrypted_data (val : krb5_enc_data) : encoder :=
  if missing (d_length (ed_ciphertext val)) (d_data (ed_ciphertext val))
  then fails ASN1_MISSING_FIELD
  else
    asn1_encode_body
      (asn1_addlenfield (d_length (ed_ciphertext val)) (d_data (ed_ciphertext val)) 2
         asn1_encode_charstring >=>
       when (negb (ed_kvno val =? 0))
         (asn1_addfield 1 (asn1_encode_integer (long (ed_kvno val)))) >=>
       asn1_addfield 0 (asn1_encode_integer (long (ed_enctype val))) >=>
       asn1_makeseq).

(** for(i=0; i<4; i++) of [asn1_encode_krb5_flags] *)
Fixpoint encode_flags_loop (k : nat) (valcopy : Z) (buf : codebuf)
    : outcome enc_error codebuf :=
  match k with
  | O => Ok buf
  | S k' =>
      let* buf := asn1buf_insert_octet buf (Z.land valcopy 0xFF) in
      encode_flags_loop k' (Z.shiftr valcopy 8) buf
  end.

Definition asn1_encode_krb5_flags (val : Z) : encoder := fun buf =>
  let* buf := encode_flags_loop 4 val buf in
  let* buf := asn1buf_insert_octet buf 0 in
  let sum := 5 in
  let* '(buf, length) := asn1_make_tag UNIVERSAL PRIMITIVE ASN1_BITSTRING sum buf in
  Ok (buf, sum + length).

Definition asn1_encode_ap_options (val : Z) : encoder := asn1_encode_krb5_flags val.
Definition asn1_encode_ticket_flags (val : Z) : encoder := asn1_encode_krb5_flags val.
Definition asn1_encode_kdc_options (val : Z) : encoder := asn1_encode_krb5_flags val.

Definition asn1_encode_krb5_authdata_elt (val : krb5_authdata) : encoder :=
  if missing (au_length val) (au_contents val) then fails ASN1_MISSING_FIELD
  else
    asn1_encode_body
      (asn1_addlenfield (au_length val) (au_contents val) 1 asn1_encode_octetstring >=>
       asn1_addfield 0 (asn1_encode_integer (long (au_ad_type val))) >=>
       asn1_makeseq).

Definition asn1_encode_authorization_data (val : option (list krb5_authdata)) : encoder :=
  match val with
  | None | Some [] => fails ASN1_MISSING_FIELD
  | Some val =>
      asn1_encode_body
        (encode_elements asn1_encode_krb5_authdata_elt (reverse val) >=> asn1_makeseq)
  end.

Definition asn1_encode_encryption_key (val : option krb5_keyblock) : encoder :=
  match val with
  | None => fails ASN1_MISSING_FIELD
  | Some val =>
      if missing (kb_length val) (kb_contents val) then fails ASN1_MISSING_FIELD
      else
        asn1_encode_body
          (asn1_addlenfield (kb_length val) (kb_contents val) 1 asn1_encode_octetstring >=>
           asn1_addfield 0 (asn1_encode_integer (long (kb_enctype val))) >=>
           asn1_makeseq)
  end.

Definition asn1_encode_checksum (val : option krb5_checksum) : encoder :=
  match val with
  | None => fails ASN1_MISSING_FIELD
  | Some val =>
      if missing (ck_length val) (ck_contents val) then fails ASN1_MISSING_FIELD
      else
        asn1_encode_body
          (asn1_addlenfield (ck_length val) (ck_contents val) 1 asn1_encode_octetstring >=>
           asn1_addfield 0 (asn1_encode_integer (long (ck_checksum_type val))) >=>
           asn1_makeseq)
  end.

Definition asn1_encode_transited_encoding (val : krb5_transited) : encoder :=
  if missing (d_length (tr_contents val)) (d_data (tr_contents val))
  then fails ASN1_MISSING_FIELD
  else
    asn1_encode_body
      (asn1_addlenfield (d_length (tr_contents val)) (d_data (tr_contents val)) 1
         asn1_encode_charstring >=>
       asn1_addfield 0 (asn1_encode_integer (long (tr_type val))) >=>
       asn1_makeseq).

Definition asn1_encode_last_req_entry (val : krb5_last_req_entry) : encoder :=
  asn1_encode_body
    (asn1_addfield 1 (asn1_encode_kerberos_time (lr_value val)) >=>
     asn1_addfield 0 (asn1_encode_integer (long (lr_type val))) >=>
     asn1_makeseq).

Definition asn1_encode_last_req (val : option (list krb5_last_req_entry)) : encoder :=
  match val with
  | None | Some [] => fails ASN1_MISSING_FIELD
  | Some val =>
      asn1_encode_body
        (encode_elements asn1_encode_last_req_entry (reverse val) >=> asn1_makeseq)
  end.

Definition asn1_encode_pa_data (val : krb5_pa_data) : encoder :=
  if missing (pa_length val) (pa_contents val) then fails ASN1_MISSING_FIELD
  else
    asn1_encode_body
      (asn1_addlenfield (pa_length val) (pa_contents val) 2 asn1_encode_octetstring >=>
       asn1_addfield 1 (asn1_encode_integer (long (pa_type val))) >=>
       asn1_makeseq).

Definition asn1_encode_sequence_of_pa_data (val : option (list krb5_pa_data)) : encoder :=
  match val with
  | None => fails ASN1_MISSING_FIELD
  | Some val =>
      asn1_encode_body
        (encode_elements asn1_encode_pa_data (reverse val) >=> asn1_makeseq)
  end.

Definition asn1_encode_ticket (val : option krb5_ticket) : encoder :=
  match val with
  | None => fails ASN1_MISSING_FIELD
  | Some val =>
      asn1_encode_body
        (asn1_addfield 3 (asn1_encode_encrypted_data (tk_enc_part val)) >=>
         asn1_addfield 2 (asn1_encode_principal_name (tk_server val)) >=>
         asn1_addfield 1 (asn1_encode_realm (tk_server val)) >=>
         asn1_addfield 0 (asn1_encode_integer KVNO) >=>
         asn1_makeseq >=>
         asn1_apptag 1)
  end.

Definition asn1_encode_sequence_of_ticket (val : option (list krb5_ticket)) : encoder :=
  match val with
  | None | Some [] => fails ASN1_MISSING_FIELD
  | Some val =>
      asn1_encode_body
        (encode_elements (fun t => asn1_encode_ticket (Some t)) (reverse val) >=> asn1_makeseq)
  end.

(** for(i=len-1; i>=0; i--) asn1_encode_integer(buf,val[i],&length) *)
Fixpoint encode_enctypes (val : list Z) (k : nat) : encstep :=
  match k with
  | O => fun st => Ok st
  | S i =>
      match val !! i with
      | None => fun _ => Undefined
      | Some x => addplain (asn1_encode_integer (long x)) >=> encode_enctypes val i
      end
  end.

Definition asn1_encode_sequence_of_enctype (len : Z) (val : option (list Z)) : encoder :=
  match val with
  | None => fails ASN1_MISSING_FIELD
  | Some val => asn1_encode_body (encode_enctypes val (Z.to_nat len) >=> asn1_makeseq)
  end.

(** ** KDC messages *)

Definition asn1_encode_kdc_rep (msg_type : Z) (val : krb5_kdc_rep) : encoder :=
  asn1_encode_body
    (asn1_addfield 6 (asn1_encode_encrypted_data (rp_enc_part val)) >=>
     asn1_addfield 5 (asn1_encode_ticket (rp_ticket val)) >=>
     asn1_addfield 4 (asn1_encode_principal_name (rp_client val)) >=>
     asn1_addfield 3 (asn1_encode_realm (rp_client val)) >=>
     when (nonempty (rp_padata val))
       (asn1_addfield 2 (asn1_encode_sequence_of_pa_data (rp_padata val))) >=>
     when (negb (msg_type =? KRB5_AS_REP) && negb (msg_type =? KRB5_TGS_REP))
       (fun _ => Err (KRB5_BADMSGTYPE, false)) >=>
     asn1_addfield 1 (asn1_encode_integer (long msg_type)) >=>
     asn1_addfield 0 (asn1_encode_integer KVNO) >=>
     asn1_makeseq).

Definition asn1_encode_enc_kdc_rep_part (val : krb5_enc_kdc_rep_part) : encoder :=
  asn1_encode_body
    (when (nonempty (ek_caddrs val))
       (asn1_addfield 11 (asn1_encode_host_addresses (ek_caddrs val))) >=>
     asn1_addfield 10 (asn1_encode_principal_name (ek_server val)) >=>
     asn1_addfield 9 (asn1_encode_realm (ek_server val)) >=>
     when (negb (Z.land (ek_flags val) TKT_FLG_RENEWABLE =? 0))
       (asn1_addfield 8 (asn1_encode_kerberos_time (tt_renew_till (ek_times val)))) >=>
     asn1_addfield 7 (asn1_encode_kerberos_time (tt_endtime (ek_times val))) >=>
     when (negb (tt_starttime (ek_times val) =? 0))
       (asn1_addfield 6 (asn1_encode_kerberos_time (tt_starttime (ek_times val)))) >=>
     asn1_addfield 5 (asn1_encode_kerberos_time (tt_authtime (ek_times val))) >=>
     asn1_addfield 4 (asn1_encode_ticket_flags (ek_flags val)) >=>
     when (negb (ek_key_exp val =? 0))
       (asn1_addfield 3 (asn1_encode_kerberos_time (ek_key_exp val))) >=>
     asn1_addfield 2 (asn1_encode_integer (long (ek_nonce val))) >=>
     asn1_addfield 1 (asn1_encode_last_req (ek_last_req val)) >=>
     asn1_addfield 0 (asn1_encode_encryption_key (ek_session val)) >=>
     asn1_makeseq).

(** The realm of a request: of the second ticket's server for a ticket to be
    encrypted in its session key, of the server otherwise. *)
Definition kdc_req_realm_field (rep : krb5_kdc_req) : encstep :=
  if negb (Z.land (rq_kdc_options rep) KDC_OPT_ENC_TKT_IN_SKEY =? 0) then
    match rq_second_ticket rep with
    | Some (t :: _) => asn1_addfield 2 (asn1_encode_realm (tk_server t))
    | _ => fun _ => Err (ASN1_MISSING_FIELD, false)
    end
  else
    match rq_server rep with
    | Some _ => asn1_addfield 2 (asn1_encode_realm (rq_server rep))
    | None => fun _ => Err (ASN1_MISSING_FIELD, false)
    end.

Definition asn1_encode_kdc_req_body (rep : krb5_kdc_req) : encoder :=
  asn1_encode_body
    (when (nonempty (rq_second_ticket rep))
       (asn1_addfield 11 (asn1_encode_sequence_of_ticket (rq_second_ticket rep))) >=>
     when (match d_data (ed_ciphertext (rq_authorization_data rep)) with
           | Some _ => true | None => false end)
       (asn1_addfield 10 (asn1_encode_encrypted_data (rq_authorization_data rep))) >=>
     when (nonempty (rq_addresses rep))
       (asn1_addfield 9 (asn1_encode_host_addresses (rq_addresses rep))) >=>
     asn1_addfield 8 (asn1_encode_sequence_of_enctype (rq_nktypes rep) (rq_ktype rep)) >=>
     asn1_addfield 7 (asn1_encode_integer (long (rq_nonce rep))) >=>
     when (negb (rq_rtime rep =? 0))
       (asn1_addfield 6 (asn1_encode_kerberos_time (rq_rtime rep))) >=>
     asn1_addfield 5 (asn1_encode_kerberos_time (rq_till rep)) >=>
     when (negb (rq_from rep =? 0))
       (asn1_addfield 4 (asn1_encode_kerberos_time (rq_from rep))) >=>
     when (match rq_server rep with Some _ => true | None => false end)
       (asn1_addfield 3 (asn1_encode_principal_name (rq_server rep))) >=>
     kdc_req_realm_field rep >=>
     when (match rq_client rep with Some _ => true | None => false end)
       (asn1_addfield 1 (asn1_encode_principal_name (rq_client rep))) >=>
     asn1_addfield 0 (asn1_encode_kdc_options (rq_kdc_options rep)) >=>
     asn1_makeseq).

Definition asn1_encode_kdc_req (msg_type : Z) (val : krb5_kdc_req) : encoder :=
  asn1_encode_body
    (asn1_addfield 4 (asn1_encode_kdc_req_body val) >=>
     when (nonempty (rq_padata val))
       (asn1_addfield 3 (asn1_encode_sequence_of_pa_data (rq_padata val))) >=>
     when (negb (msg_type =? KRB5_AS_REQ) && negb (msg_type =? KRB5_TGS_REQ))
       (fun _ => Err (KRB5_BADMSGTYPE, false)) >=>
     asn1_addfield 2 (asn1_encode_integer (long msg_type)) >=>
     asn1_addfield 1 (asn1_encode_integer KVNO) >=>
     asn1_makeseq).

(** ** KRB-SAFE and KRB-CRED *)

Definition asn1_encode_krb_safe_body (val : krb5_safe) : encoder :=
  asn1_encode_body
    (when (match sf_r_address val with Some _ => true | None => false end)
       (asn1_addfield 5 (asn1_encode_host_address (sf_r_address val))) >=>
     asn1_addfield 4 (asn1_encode_host_address (sf_s_address val)) >=>
     when (negb (sf_seq_number val =? 0))
       (asn1_addfield 3 (asn1_encode_integer (long (sf_seq_number val)))) >=>
     when (negb (sf_timestamp val =? 0))
       (asn1_addfield 2 (asn1_encode_integer (long (sf_usec val))) >=>
        asn1_addfield 1 (asn1_encode_kerberos_time (sf_timestamp val))) >=>
     when (missing (d_length (sf_user_data val)) (d_data (sf_user_data val)))
       (fun _ => Err (ASN1_MISSING_FIELD, false)) >=>
     asn1_addlenfield (d_length (sf_user_data val)) (d_data (sf_user_data val)) 0
       asn1_encode_charstring >=>
     asn1_makeseq).

Definition asn1_encode_krb_cred_info (val : krb5_cred_info) : encoder :=
  asn1_encode_body
    (when (nonempty (ci_caddrs val))
       (asn1_addfield 10 (asn1_encode_host_addresses (ci_caddrs val))) >=>
     when (match ci_server val with Some _ => true | None => false end)
       (asn1_addfield 9 (asn1_encode_principal_name (ci_server val)) >=>
        asn1_addfield 8 (asn1_encode_realm (ci_server val))) >=>
     when (negb (tt_renew_till (ci_times val) =? 0))
       (asn1_addfield 7 (asn1_encode_kerberos_time (tt_renew_till (ci_times val)))) >=>
     when (negb (tt_endtime (ci_times val) =? 0))
       (asn1_addfield 6 (asn1_encode_kerberos_time (tt_endtime (ci_times val)))) >=>
     when (negb (tt_starttime (ci_times val) =? 0))
       (asn1_addfield 5 (asn1_encode_kerberos_time (tt_starttime (ci_times val)))) >=>
     when (negb (tt_authtime (ci_times val) =? 0))
       (asn1_addfield 4 (asn1_encode_kerberos_time (tt_authtime (ci_times val)))) >=>
     when (negb (ci_flags val =? 0))
       (asn1_addfield 3 (asn1_encode_ticket_flags (ci_flags val))) >=>
     when (match ci_client val with Some _ => true | None => false end)
       (asn1_addfield 2 (asn1_encode_principal_name (ci_client val)) >=>
        asn1_addfield 1 (asn1_encode_realm (ci_client val))) >=>
     asn1_addfield 0 (asn1_encode_encryption_key (ci_session val)) >=>
     asn1_makeseq).

Definition asn1_encode_sequence_of_krb_cred_info (val : option (list krb5_cred_info)) : encoder :=
  match val with
  | None => fails ASN1_MISSING_FIELD
  | Some val =>
      asn1_encode_body
        (encode_elements asn1_encode_krb_cred_info (reverse val) >=> asn1_makeseq)
  end.

(** ** Preauthentication types *)

Definition asn1_encode_etype_info_entry (val : krb5_etype_info_entry) : encoder :=
  if (0 <? ei_length val) && match ei_salt val with None => true | Some _ => false end
  then fails ASN1_MISSING_FIELD
  else
    asn1_encode_body
      (when (0 <=? ei_length val)
         (asn1_addlenfield (ei_length val) (ei_salt val) 1 asn1_encode_octetstring) >=>
       asn1_addfield 0 (asn1_encode_integer (long (ei_etype val))) >=>
       asn1_makeseq).

Definition asn1_encode_etype_info (val : option (list krb5_etype_info_entry)) : encoder :=
  match val with
  | None => fails ASN1_MISSING_FIELD
  | Some val =>
      asn1_encode_body
        (encode_elements asn1_encode_etype_info_entry (reverse val) >=> asn1_makeseq)
  end.

(** The pointers [phrase] and [passwd] are dereferenced unchecked. *)
Definition asn1_encode_passwdsequence (val : passwd_phrase_element) : encoder :=
  asn1_encode_body
    (match pp_phrase val with
     | None => fun _ => Undefined
     | Some phrase =>
         asn1_addlenfield (d_length phrase) (d_data phrase) 1 asn1_encode_charstring
     end >=>
     match pp_passwd val with
     | None => fun _ => Undefined
     | Some passwd =>
         asn1_addlenfield (d_length passwd) (d_data passwd) 0 asn1_encode_charstring
     end >=>
     asn1_makeseq).

Definition asn1_encode_sequence_of_passwdsequence (val : option (list passwd_phrase_element))
    : encoder :=
  match val with
  | None | Some [] => fails ASN1_MISSING_FIELD
  | Some val =>
      asn1_encode_body
        (encode_elements asn1_encode_passwdsequence (reverse val) >=> asn1_makeseq)
  end.

Definition asn1_encode_sam_flags (val : Z) : encoder := asn1_encode_krb5_flags val.

Definition add_optstring (val : krb5_data) (n : Z)
    (fn : Z -> option (list octet) -> encoder) : encstep :=
  when (0 <=? d_length val) (asn1_addlenfield (d_length val) (d_data val) n fn).

Definition asn1_encode_sam_challenge (val : krb5_sam_challenge) : encoder :=
  asn1_encode_body
    (when (negb (ck_length (sc_sam_cksum val) =? 0))
       (asn1_addfield 9 (asn1_encode_checksum (Some (sc_sam_cksum val)))) >=>
     when (negb (sc_sam_nonce val =? 0))
       (asn1_addfield 8 (asn1_encode_integer (long (sc_sam_nonce val)))) >=>
     add_optstring (sc_sam_pk_for_sad val) 7 asn1_encode_charstring >=>
     add_optstring (sc_sam_response_prompt val) 6 asn1_encode_charstring >=>
     add_optstring (sc_sam_challenge val) 5 asn1_encode_charstring >=>
     add_optstring (sc_sam_challenge_label val) 4 asn1_encode_charstring >=>
     add_optstring (sc_sam_track_id val) 3 asn1_encode_charstring >=>
     add_optstring (sc_sam_type_name val) 2 asn1_encode_charstring >=>
     asn1_addfield 1 (asn1_encode_sam_flags (sc_sam_flags val)) >=>
     asn1_addfield 0 (asn1_encode_integer (long (sc_sam_type val))) >=>
     asn1_makeseq).

Definition asn1_encode_sam_key (val : krb5_sam_key) : encoder :=
  asn1_encode_body
    (asn1_addfield 0 (asn1_encode_encryption_key (Some (sk_sam_key val))) >=>
     asn1_makeseq).

Definition asn1_encode_enc_sam_response_enc (val : krb5_enc_sam_response_enc) : encoder :=
  asn1_encode_body
    (add_optstring (es_sam_sad val) 3 asn1_encode_charstring >=>
     asn1_addfield 2 (asn1_encode_integer (long (es_sam_usec val))) >=>
     asn1_addfield 1 (asn1_encode_kerberos_time (es_sam_timestamp val)) >=>
     asn1_addfield 0 (asn1_encode_integer (long (es_sam_nonce val))) >=>
     asn1_makeseq).

Definition asn1_encode_sam_response (val : krb5_sam_response) : encoder :=
  asn1_encode_body
    (when (negb (sr_sam_patimestamp val =? 0))
       (asn1_addfield 6 (asn1_encode_kerberos_time (sr_sam_patimestamp val))) >=>
     when (negb (sr_sam_nonce val =? 0))
       (asn1_addfield 5 (asn1_encode_integer (long (sr_sam_nonce val)))) >=>
     asn1_addfield 4 (asn1_encode_encrypted_data (sr_sam_enc_nonce_or_ts val)) >=>
     when (negb (d_length (ed_ciphertext (sr_sam_enc_key val)) =? 0))
       (asn1_addfield 3 (asn1_encode_encrypted_data (sr_sam_enc_key val))) >=>
     add_optstring (sr_sam_track_id val) 2 asn1_encode_charstring >=>
     asn1_addfield 1 (asn1_encode_sam_flags (sr_sam_flags val)) >=>
     asn1_addfield 0 (asn1_encode_integer (long (sr_sam_type val))) >=>
     asn1_makeseq).

Definition asn1_encode_predicted_sam_response (val : krb5_predicted_sam_response) : encoder :=
  asn1_encode_body
    (add_optstring (ps_msd val) 6 asn1_encode_octetstring >=>
     asn1_addfield 5 (asn1_encode_principal_name (ps_client val)) >=>
     asn1_addfield 4 (asn1_encode_realm (ps_client val)) >=>
     asn1_addfield 3 (asn1_encode_integer (long (ps_susec val))) >=>
     asn1_addfield 2 (asn1_encode_kerberos_time (ps_stime val)) >=>
     asn1_addfield 1 (asn1_encode_sam_flags (ps_sam_flags val)) >=>
     asn1_addfield 0 (asn1_encode_encryption_key (Some (ps_sam_key val))) >=>
     asn1_makeseq).

End KEncode.

Infix ">=>" := estep_seq (at level 60, right associativity) : krb_scope.
