(* ===== verification/Asn1KDecode.v ===== *)
(** * Decoders of the Kerberos types (src/src/lib/krb5/asn.1/asn1_k_decode.c)

    The macros of the source keep the tag of the next field in the automatic
    variables of the decoder ([tagvars]); the fields of a structure are read in
    order, optional ones by comparing that tag. *)

From S2P Require Import Prelude Asn1Buf Asn1Tag GmTime Asn1Prim Krb5Types.

Section KDecode.
Context `{P : Platform}.

(** ** The macros *)

(** The sub-buffer of a structure and the variables of its last tag. *)
Definition sstate : Type := asn1buf * tagvars.

Definition next_tag (e : denv) (s : sstate) : outcome error_code sstate :=
  let '(subbuf, tv) := s in
  let* '(tv, subbuf) := asn1_get_tag_indef tv e subbuf in
  Ok (subbuf, tv).

Definition get_eoc (e : denv) (s : sstate) : outcome error_code sstate :=
  let '(subbuf, tv) := s in
  let* '(tv, subbuf) := asn1_get_tag_indef tv e subbuf in
  if negb (tv_class tv =? UNIVERSAL) || negb (tv_tagnum tv =? 0) || negb (tv_indef tv =? 0)
  then Err ASN1_MISSING_EOC
  else Ok (subbuf, tv).

(** Reads the application tag of a ticket; returns its length. *)
Definition apptag (tagexpect : Z) : decoder Z := fun e buf =>
  let* '(tv, buf) := asn1_get_tag stack_junk e buf in
  if negb (tv_class tv =? APPLICATION) || negb (tv_construction tv =? CONSTRUCTED)
     || negb (tv_tagnum tv =? tagexpect)
  then Err ASN1_BAD_ID
  else Ok (tv_taglen tv, buf).

Definition get_field_body {A} (dec : decoder A) (e : denv) (s : sstate)
    : outcome error_code (A * sstate) :=
  let '(subbuf, tv) := s in
  let* '(v, subbuf) := dec e subbuf in
  let* s :=
    if (tv_taglen tv =? 0) && negb (tv_indef tv =? 0)
    then get_eoc e (subbuf, tv) else Ok (subbuf, tv) in
  let* s := next_tag e s in
  Ok (v, s).

(** The check of the class of a field's tag. *)
Definition bad_field_id (tv : tagvars) : bool :=
  (negb (tv_class tv =? CONTEXT_SPECIFIC) || negb (tv_construction tv =? CONSTRUCTED)) &&
  (negb (tv_tagnum tv =? 0) || negb (tv_taglen tv =? 0) || negb (tv_class tv =? UNIVERSAL)).

Definition get_field {A} (tagexpect : Z) (dec : decoder A) (e : denv) (s : sstate)
    : outcome error_code (A * sstate) :=
  let tv := snd s in
  if tagexpect <? tv_tagnum tv then Err ASN1_MISSING_FIELD
  else if tv_tagnum tv <? tagexpect then Err ASN1_MISPLACED_FIELD
  else if bad_field_id tv then Err ASN1_BAD_ID
  else get_field_body dec e s.

Definition opt_field {A} (tagexpect : Z) (dec : decoder A) (optvalue : A) (e : denv) (s : sstate)
    : outcome error_code (A * sstate) :=
  let tv := snd s in
  if bad_field_id tv then Err ASN1_BAD_ID
  else if tv_tagnum tv =? tagexpect then get_field_body dec e s
  else Ok (optvalue, s).

(** Fields with a length. *)
Definition get_lenfield (tagexpect : Z) (dec : decoder (Z * option (list octet)))
    (e : denv) (s : sstate) : outcome error_code ((Z * option (list octet)) * sstate) :=
  get_field tagexpect dec e s.

Definition opt_lenfield (tagexpect : Z) (dec : decoder (Z * option (list octet)))
    (e : denv) (s : sstate) : outcome error_code ((Z * option (list octet)) * sstate) :=
  if tv_tagnum (snd s) =? tagexpect then get_field_body dec e s
  else Ok ((0, None), s).

(** The state after [begin_structure]: the length and form of the sequence, the
    outer buffer behind the header, and the sub-buffer with its first tag. *)
Definition begin_structure (e : denv) (buf : asn1buf)
    : outcome error_code (Z * Z * asn1buf * sstate) :=
  let* '((length, seqindef), buf) := asn1_get_sequence e buf in
  let* subbuf := asn1buf_imbed buf length seqindef in
  let* s := next_tag e (subbuf, stack_junk) in
  Ok (length, seqindef, buf, s).

Definition end_structure (e : denv) (buf : asn1buf) (length seqindef : Z) (s : sstate)
    : outcome error_code asn1buf :=
  let '(subbuf, tv) := s in
  asn1buf_sync e buf subbuf (tv_class tv) (tv_tagnum tv) length (tv_indef tv) seqindef.

(** begin_structure(); fields; end_structure(); *)
Definition structure {A} (fields : denv -> sstate -> outcome error_code (A * sstate))
    : decoder A := fun e buf =>
  let* '(length, seqindef, buf, s) := begin_structure e buf in
  let* '(v, s) := fields e s in
  let* buf := end_structure e buf length seqindef s in
  Ok (v, buf).

(** sequence_of: the header of an array and its sub-buffer. *)
Definition sequence_of_common (e : denv) (buf : asn1buf)
    : outcome error_code (Z * Z * asn1buf * asn1buf) :=
  let* '((length, seqofindef), buf) := asn1_get_sequence e buf in
  let* seqbuf := asn1buf_imbed buf length seqofindef in
  Ok (length, seqofindef, buf, seqbuf).

(** while(asn1buf_remains(&seqbuf,seqofindef) > 0) of the array decoders *)
Fixpoint decode_elements {A} (fuel : nat) (dec : decoder A) (e : denv) (seqofindef : Z)
    (elts : list A) (seqbuf : asn1buf) : outcome error_code (list A * asn1buf) :=
  let* r := asn1buf_remains e seqofindef seqbuf in
  if r <=? 0 then Ok (reverse elts, seqbuf)
  else match fuel with
  | O => OutOfFuel
  | S fuel' =>
      let* '(elt, seqbuf) := dec e seqbuf in
      decode_elements fuel' dec e seqofindef (elt :: elts) seqbuf
  end.

(** end_sequence_of: reads the tag behind the elements and synchronises; the length
    it passes on is the one of the sequence itself. *)
Definition end_sequence_of (e : denv) (buf seqbuf : asn1buf) (length seqofindef : Z)
    : outcome error_code asn1buf :=
  let* '(tv, seqbuf) := asn1_get_tag_indef stack_junk e seqbuf in
  asn1buf_sync e buf seqbuf (tv_class tv) (tv_tagnum tv) length (tv_indef tv) seqofindef.

(** end_sequence_of_no_tagvars: passes the length of the tag just read. *)
Definition end_sequence_of_no_tagvars (e : denv) (buf seqbuf : asn1buf) (seqofindef : Z)
    : outcome error_code asn1buf :=
  let* '(tv, seqbuf) := asn1_get_tag_indef stack_junk e seqbuf in
  asn1buf_sync e buf seqbuf (tv_class tv) (tv_tagnum tv) (tv_taglen tv) (tv_indef tv) seqofindef.

Definition decode_array_body {A} (dec : decoder A) : decoder (option (list A)) := fun e buf =>
  let* '(length, seqofindef, buf, seqbuf) := sequence_of_common e buf in
  let* '(elts, seqbuf) := decode_elements (de_fuel e) dec e seqofindef [] seqbuf in
  let* buf := end_sequence_of e buf seqbuf length seqofindef in
  Ok (Some elts, buf).

(** ** Scalars *)

(** The result is a [krb5_timestamp], 32 bits. *)
Definition asn1_decode_kerberos_time : decoder Z := fun e buf =>
  let* '(t, buf) := asn1_decode_generaltime e buf in
  Ok (int32 t, buf).

(** integer_convert(fname, ktype) with the conversion to [ktype]. *)
Definition integer_convert (ktype : Z -> Z) : decoder Z := fun e buf =>
  let* '(n, buf) := asn1_decode_integer e buf in
  Ok (ktype n, buf).

Definition unsigned_integer_convert (ktype : Z -> Z) : decoder Z := fun e buf =>
  let* '(n, buf) := asn1_decode_unsigned_integer e buf in
  Ok (ktype n, buf).

Definition asn1_decode_int : decoder Z := integer_convert int32.
Definition asn1_decode_int32 : decoder Z := integer_convert int32.
Definition asn1_decode_kvno : decoder Z := integer_convert uint32.
Definition asn1_decode_enctype : decoder Z := integer_convert int32.
Definition asn1_decode_cksumtype : decoder Z := integer_convert int32.
Definition asn1_decode_octet : decoder Z := integer_convert octet_of.
Definition asn1_decode_addrtype : decoder Z := integer_convert int32.
Definition asn1_decode_authdatatype : decoder Z := integer_convert int32.
Definition asn1_decode_ui_2 : decoder Z := unsigned_integer_convert (to_uint 16).
Definition asn1_decode_ui_4 : decoder Z := unsigned_integer_convert uint32.

Definition asn1_decode_msgtype : decoder Z := fun e buf =>
  let* '(n, buf) := asn1_decode_unsigned_integer e buf in
  Ok (uint32 n, buf).

(** ** Structures *)

(** Fills in the realm of the principal [val] points to. *)
Definition asn1_decode_realm (val : krb5_principal_data) : decoder krb5_principal_data :=
  fun e buf =>
  let* '((len, data), buf) := asn1_decode_generalstring e buf in
  Ok (Principal (Data len data) (pr_data val) (pr_length val) (pr_type val), buf).

(** Fills in the name of the principal [val] points to.  The tag of the name-string
    field is read but not compared with 1.  The inner sequence has no [length] variable
    of its own: its length replaces the one of the structure. *)
Definition asn1_decode_principal_name (val : krb5_principal_data) : decoder krb5_principal_data :=
  fun e buf =>
  let* '(length, seqindef, buf, s) := begin_structure e buf in
  let* '(type, (subbuf, tv)) := get_field 0 asn1_decode_int32 e s in
  let* '(length, seqofindef, subbuf, seqbuf) := sequence_of_common e subbuf in
  let* '(elts, seqbuf) :=
    decode_elements (de_fuel e) asn1_decode_generalstring e seqofindef [] seqbuf in
  let data :=
    match elts with
    | [] => pr_data val
    | _ => Some ((fun '(len, d) => Data len d) <$> elts)
    end in
  let* subbuf := end_sequence_of_no_tagvars e subbuf seqbuf seqofindef in
  let* s := if negb (tv_indef tv =? 0) then get_eoc e (subbuf, tv) else Ok (subbuf, tv) in
  let* s := next_tag e s in
  let* buf := end_structure e buf length seqindef s in
  Ok (Principal (pr_realm val) data (zlen elts) type, buf).

Definition asn1_decode_checksum : decoder krb5_checksum :=
  structure (fun e s =>
    let* '(checksum_type, s) := get_field 0 asn1_decode_cksumtype e s in
    let* '((length, contents), s) := get_lenfield 1 asn1_decode_octetstring e s in
    Ok (Checksum checksum_type length contents, s)).

Definition asn1_decode_encryption_key : decoder krb5_keyblock :=
  structure (fun e s =>
    let* '(enctype, s) := get_field 0 asn1_decode_enctype e s in
    let* '((length, contents), s) := get_lenfield 1 asn1_decode_octetstring e s in
    Ok (Keyblock enctype length contents, s)).

Definition asn1_decode_encrypted_data : decoder krb5_enc_data :=
  structure (fun e s =>
    let* '(enctype, s) := get_field 0 asn1_decode_enctype e s in
    let* '(kvno, s) := opt_field 1 asn1_decode_kvno 0 e s in
    let* '((length, data), s) := get_lenfield 2 asn1_decode_charstring e s in
    Ok (EncData enctype kvno (Data length data), s)).

(** The loop of [asn1_decode_krb5_flags]; bits past number 31 are dropped. *)
Fixpoint decode_flags_loop (k : nat) (e : denv) (i f : Z) (buf : asn1buf)
    : outcome error_code (Z * asn1buf) :=
  match k with
  | O => Ok (f, buf)
  | S k' =>
      let* '(o, buf) := asn1buf_remove_octet e buf in
      let f := if i <? 4 then int32 (Z.lor (Z.shiftl f 8) (Z.land o 0xFF)) else f in
      decode_flags_loop k' e (i + 1) f buf
  end.

Definition asn1_decode_krb5_flags : decoder Z := fun e buf =>
  let* '(length, buf) := tag ASN1_BITSTRING e buf in
  let* '(unused, buf) := asn1buf_remove_octet e buf in
  if 7 <? unused then Err ASN1_BAD_FORMAT
  else
    let length := length - 1 in
    let* '(f, buf) := decode_flags_loop (Z.to_nat length) e 0 0 buf in
    let f := if length <=? 4 then Z.land f (int32 (Z.shiftl (Z.lnot 0) unused)) else f in
    let f := if length <? 4 then int32 (Z.shiftl f ((4 - length) * 8)) else f in
    Ok (f, buf).

Definition asn1_decode_ticket_flags : decoder Z := asn1_decode_krb5_flags.
Definition asn1_decode_ap_options : decoder Z := asn1_decode_krb5_flags.
Definition asn1_decode_kdc_options : decoder Z := asn1_decode_krb5_flags.

Definition asn1_decode_transited_encoding : decoder krb5_transited :=
  structure (fun e s =>
    let* '(type, s) := get_field 0 asn1_decode_octet e s in
    let* '((length, data), s) := get_lenfield 1 asn1_decode_charstring e s in
    Ok (Transited type (Data length data), s)).

Definition asn1_decode_host_address : decoder krb5_address :=
  structure (fun e s =>
    let* '(addrtype, s) := get_field 0 asn1_decode_addrtype e s in
    let* '((length, contents), s) := get_lenfield 1 asn1_decode_octetstring e s in
    Ok (Address addrtype length contents, s)).

Definition asn1_decode_authdata_elt : decoder krb5_authdata :=
  structure (fun e s =>
    let* '(ad_type, s) := get_field 0 asn1_decode_authdatatype e s in
    let* '((length, contents), s) := get_lenfield 1 asn1_decode_octetstring e s in
    Ok (AuthData ad_type length contents, s)).

Definition asn1_decode_pa_data : decoder krb5_pa_data :=
  structure (fun e s =>
    let* '(type, s) := get_field 1 asn1_decode_int32 e s in
    let* '((length, contents), s) := get_lenfield 2 asn1_decode_octetstring e s in
    Ok (PaData type length contents, s)).

Definition asn1_decode_last_req_entry : decoder krb5_last_req_entry :=
  structure (fun e s =>
    let* '(type, s) := get_field 0 asn1_decode_octet e s in
    let* '(value, s) := get_field 1 asn1_decode_kerberos_time e s in
    Ok (LastReqEntry type value, s)).

(** ** Arrays *)

Definition asn1_decode_authorization_data : decoder (option (list krb5_authdata)) :=
  decode_array_body asn1_decode_authdata_elt.
Definition asn1_decode_host_addresses : decoder (option (list krb5_address)) :=
  decode_array_body asn1_decode_host_address.
Definition asn1_decode_sequence_of_pa_data : decoder (option (list krb5_pa_data)) :=
  decode_array_body asn1_decode_pa_data.
Definition asn1_decode_last_req : decoder (option (list krb5_last_req_entry)) :=
  decode_array_body asn1_decode_last_req_entry.

(** The number of encryption types and the array, NULL when there is none. *)
Definition asn1_decode_sequence_of_enctype : decoder (Z * option (list Z)) := fun e buf =>
  let* '(length, seqofindef, buf, seqbuf) := sequence_of_common e buf in
  let* '(elts, seqbuf) := decode_elements (de_fuel e) asn1_decode_enctype e seqofindef [] seqbuf in
  let* buf := end_sequence_of e buf seqbuf length seqofindef in
  Ok ((zlen elts, match elts with [] => None | _ => Some elts end), buf).

(** ** Tickets and KDC messages *)

Definition asn1_decode_ticket : decoder krb5_ticket := fun e buf =>
  let* '(applen, buf) := apptag 1 e buf in
  let* '(v, buf) :=
    structure (fun e s =>
      let* '(vno, s) := get_field 0 asn1_decode_kvno e s in
      let* _ := guard (vno =? KVNO) KRB5KDC_ERR_BAD_PVNO in
      let* '(server, s) := get_field 1 (asn1_decode_realm null_principal) e s in
      let* '(server, s) := get_field 2 (asn1_decode_principal_name server) e s in
      let* '(enc_part, s) := get_field 3 asn1_decode_encrypted_data e s in
      Ok (Ticket (Some server) enc_part None, s)) e buf in
  if applen =? 0 then
    let* '(_, buf) := asn1_get_tag stack_junk e buf in
    Ok (v, buf)
  else Ok (v, buf).

Definition asn1_decode_sequence_of_ticket : decoder (option (list krb5_ticket)) :=
  decode_array_body asn1_decode_ticket.

Definition asn1_decode_enc_kdc_rep_part (msg_type : Z) : decoder krb5_enc_kdc_rep_part :=
  structure (fun e s =>
    let* '(session, s) := get_field 0 asn1_decode_encryption_key e s in
    let* '(last_req, s) := get_field 1 asn1_decode_last_req e s in
    let* '(nonce, s) := get_field 2 asn1_decode_int32 e s in
    let* '(key_exp, s) := opt_field 3 asn1_decode_kerberos_time 0 e s in
    let* '(flags, s) := get_field 4 asn1_decode_ticket_flags e s in
    let* '(authtime, s) := get_field 5 asn1_decode_kerberos_time e s in
    let* '(starttime, s) := opt_field 6 asn1_decode_kerberos_time authtime e s in
    let* '(endtime, s) := get_field 7 asn1_decode_kerberos_time e s in
    let* '(renew_till, s) := opt_field 8 asn1_decode_kerberos_time 0 e s in
    let* '(server, s) := get_field 9 (asn1_decode_realm null_principal) e s in
    let* '(server, s) := get_field 10 (asn1_decode_principal_name server) e s in
    let* '(caddrs, s) := opt_field 11 asn1_decode_host_addresses None e s in
    Ok (EncKdcRepPart msg_type (Some session) last_req nonce key_exp flags
          (TicketTimes authtime starttime endtime renew_till) (Some server) caddrs, s)).

(** opt_field(val, n, asn1_decode_principal_name, NULL) on a pointer: [p] is what it
    points to, [None] when it is NULL, which the decoder would dereference. *)
Definition opt_principal_field (n : Z) (dec : krb5_principal_data -> decoder krb5_principal_data)
    (p : option krb5_principal_data) (e : denv) (s : sstate)
    : outcome error_code (option krb5_principal_data * sstate) :=
  opt_field n (fun e buf =>
      match p with
      | None => Undefined
      | Some p => let* '(p, buf) := dec p e buf in Ok (Some p, buf)
      end) None e s.

Definition asn1_krb5_realm_copy (target source : krb5_principal_data)
    : outcome error_code krb5_principal_data :=
  let len := d_length (pr_realm source) in
  match malloc len with
  | None => Err ENOMEM
  | Some _ =>
      let copy := match d_data (pr_realm source) with
                  | None => []
                  | Some data => take (Z.to_nat len) data
                  end in
      if zlen copy =? len
      then Ok (Principal (Data len (Some copy)) (pr_data target) (pr_length target) (pr_type target))
      else Undefined
  end.

Definition asn1_decode_kdc_req_body (val : krb5_kdc_req) : decoder krb5_kdc_req :=
  structure (fun e s =>
    let* '(kdc_options, s) := get_field 0 asn1_decode_kdc_options e s in
    let client := if tv_tagnum (snd s) =? 1 then Some null_principal else rq_client val in
    let* '(client, s) := opt_principal_field 1 asn1_decode_principal_name client e s in
    let* '(server, s) := get_field 2 (asn1_decode_realm null_principal) e s in
    let* client :=
      match client with
      | None => Ok None
      | Some c => let* c := asn1_krb5_realm_copy c server in Ok (Some c)
      end in
    let* '(server, s) := opt_principal_field 3 asn1_decode_principal_name (Some server) e s in
    let* '(from, s) := opt_field 4 asn1_decode_kerberos_time 0 e s in
    let* '(till, s) := get_field 5 asn1_decode_kerberos_time e s in
    let* '(rtime, s) := opt_field 6 asn1_decode_kerberos_time 0 e s in
    let* '(nonce, s) := get_field 7 asn1_decode_int32 e s in
    let* '((nktypes, ktype), s) := get_field 8 asn1_decode_sequence_of_enctype e s in
    let* '(addresses, s) := opt_field 9 asn1_decode_host_addresses None e s in
    let* '(authorization_data, s) :=
      if tv_tagnum (snd s) =? 10 then get_field 10 asn1_decode_encrypted_data e s
      else Ok (null_enc_data, s) in
    let* '(second_ticket, s) := opt_field 11 asn1_decode_sequence_of_ticket None e s in
    Ok (KdcReq (rq_msg_type val) (rq_padata val) kdc_options client server from till rtime
          nonce nktypes ktype addresses authorization_data (rq_unenc_authdata val)
          second_ticket, s)).

(** A zeroed [krb5_kdc_req]. *)
Definition null_kdc_req : krb5_kdc_req :=
  KdcReq 0 None 0 None None 0 0 0 0 0 None None null_enc_data None None.

Definition asn1_decode_kdc_req (val : krb5_kdc_req) : decoder krb5_kdc_req :=
  structure (fun e s =>
    let* '(kvno, s) := get_field 1 asn1_decode_kvno e s in
    let* _ := guard (kvno =? KVNO) KRB5KDC_ERR_BAD_PVNO in
    let* '(msg_type, s) := get_field 2 asn1_decode_msgtype e s in
    let* '(padata, s) := opt_field 3 asn1_decode_sequence_of_pa_data None e s in
    let val := KdcReq msg_type padata (rq_kdc_options val) (rq_client val) (rq_server val)
                 (rq_from val) (rq_till val) (rq_rtime val) (rq_nonce val) (rq_nktypes val)
                 (rq_ktype val) (rq_addresses val) (rq_authorization_data val)
                 (rq_unenc_authdata val) (rq_second_ticket val) in
    get_field 4 (asn1_decode_kdc_req_body val) e s).

Definition asn1_decode_kdc_rep : decoder krb5_kdc_rep :=
  structure (fun e s =>
    let* '(pvno, s) := get_field 0 asn1_decode_kvno e s in
    let* _ := guard (pvno =? KVNO) KRB5KDC_ERR_BAD_PVNO in
    let* '(msg_type, s) := get_field 1 asn1_decode_msgtype e s in
    let* '(padata, s) := opt_field 2 asn1_decode_sequence_of_pa_data None e s in
    let* '(client, s) := get_field 3 (asn1_decode_realm null_principal) e s in
    let* '(client, s) := get_field 4 (asn1_decode_principal_name client) e s in
    let* '(ticket, s) := get_field 5 asn1_decode_ticket e s in
    let* '(enc_part, s) := get_field 6 asn1_decode_encrypted_data e s in
    Ok (KdcRep msg_type padata (Some client) (Some ticket) enc_part None, s)).

(** ** KRB-SAFE and KRB-CRED *)

Definition asn1_decode_krb_safe_body (val : krb5_safe) : decoder krb5_safe :=
  structure (fun e s =>
    let* '((length, data), s) := get_lenfield 0 asn1_decode_charstring e s in
    let* '(timestamp, s) := opt_field 1 asn1_decode_kerberos_time 0 e s in
    let* '(usec, s) := opt_field 2 asn1_decode_int32 0 e s in
    let* '(seq_number, s) := opt_field 3 asn1_decode_int32 0 e s in
    let* '(s_address, s) := get_field 4 asn1_decode_host_address e s in
    let* '(r_address, s) :=
      if tv_tagnum (snd s) =? 5 then
        let* '(r, s) := get_field 5 asn1_decode_host_address e s in Ok (Some r, s)
      else Ok (None, s) in
    Ok (Safe (Data length data) timestamp usec seq_number (Some s_address) r_address
          (sf_checksum val), s)).

(** client and server are calloc'ed only when their realm field is present, and
    their fields then decoded as optional. *)
Definition asn1_decode_krb_cred_info : decoder krb5_cred_info :=
  structure (fun e s =>
    let* '(session, s) := get_field 0 asn1_decode_encryption_key e s in
    let* '(client, s) :=
      if tv_tagnum (snd s) =? 1 then
        let* '(client, s) := opt_principal_field 1 asn1_decode_realm (Some null_principal) e s in
        opt_principal_field 2 asn1_decode_principal_name client e s
      else Ok (None, s) in
    let* '(flags, s) := opt_field 3 asn1_decode_ticket_flags 0 e s in
    let* '(authtime, s) := opt_field 4 asn1_decode_kerberos_time 0 e s in
    let* '(starttime, s) := opt_field 5 asn1_decode_kerberos_time 0 e s in
    let* '(endtime, s) := opt_field 6 asn1_decode_kerberos_time 0 e s in
    let* '(renew_till, s) := opt_field 7 asn1_decode_kerberos_time 0 e s in
    let* '(server, s) :=
      if tv_tagnum (snd s) =? 8 then
        let* '(server, s) := opt_principal_field 8 asn1_decode_realm (Some null_principal) e s in
        opt_principal_field 9 asn1_decode_principal_name server e s
      else Ok (None, s) in
    let* '(caddrs, s) := opt_field 10 asn1_decode_host_addresses None e s in
    Ok (CredInfo (Some session) client server flags
          (TicketTimes authtime starttime endtime renew_till) caddrs, s)).

Definition asn1_decode_sequence_of_krb_cred_info : decoder (option (list krb5_cred_info)) :=
  decode_array_body asn1_decode_krb_cred_info.

(** ** Preauthentication types *)

Definition asn1_decode_etype_info_entry : decoder krb5_etype_info_entry :=
  structure (fun e s =>
    let* '(etype, s) := get_field 0 asn1_decode_enctype e s in
    let* '((length, salt), s) :=
      if tv_tagnum (snd s) =? 1 then get_lenfield 1 asn1_decode_octetstring e s
      else Ok ((-1, None), s) in
    Ok (EtypeInfoEntry etype length salt, s)).

Definition asn1_decode_etype_info : decoder (option (list krb5_etype_info_entry)) :=
  decode_array_body asn1_decode_etype_info_entry.

Definition asn1_decode_passwdsequence : decoder passwd_phrase_element :=
  structure (fun e s =>
    let* '((len1, passwd), s) := get_lenfield 0 asn1_decode_charstring e s in
    let* '((len2, phrase), s) := get_lenfield 1 asn1_decode_charstring e s in
    Ok (PasswdPhrase (Some (Data len1 passwd)) (Some (Data len2 phrase)), s)).

Definition asn1_decode_sequence_of_passwdsequence : decoder (option (list passwd_phrase_element)) :=
  decode_array_body asn1_decode_passwdsequence.

Definition asn1_decode_sam_flags : decoder Z := asn1_decode_krb5_flags.

Definition opt_string (n : Z) (fn : decoder (Z * option (list octet))) (e : denv) (s : sstate)
    : outcome error_code (krb5_data * sstate) :=
  let* '((length, data), s) := opt_lenfield n fn e s in
  Ok (Data length data, s).

(** Only the length of an absent checksum is cleared; the rest is zeroed storage. *)
Definition opt_cksum (tagexpect : Z) (e : denv) (s : sstate)
    : outcome error_code (krb5_checksum * sstate) :=
  if tv_tagnum (snd s) =? tagexpect then get_field_body asn1_decode_checksum e s
  else Ok (null_checksum, s).

Definition asn1_decode_sam_challenge : decoder krb5_sam_challenge :=
  structure (fun e s =>
    let* '(sam_type, s) := get_field 0 asn1_decode_int32 e s in
    let* '(sam_flags, s) := get_field 1 asn1_decode_sam_flags e s in
    let* '(type_name, s) := opt_string 2 asn1_decode_charstring e s in
    let* '(track_id, s) := opt_string 3 asn1_decode_charstring e s in
    let* '(challenge_label, s) := opt_string 4 asn1_decode_charstring e s in
    let* '(challenge, s) := opt_string 5 asn1_decode_charstring e s in
    let* '(response_prompt, s) := opt_string 6 asn1_decode_charstring e s in
    let* '(pk_for_sad, s) := opt_string 7 asn1_decode_charstring e s in
    let* '(nonce, s) := opt_field 8 asn1_decode_int32 0 e s in
    let* '(cksum, s) := opt_cksum 9 e s in
    Ok (SamChallenge sam_type sam_flags type_name track_id challenge_label challenge
          response_prompt pk_for_sad nonce cksum, s)).

Definition asn1_decode_enc_sam_key : decoder krb5_sam_key :=
  structure (fun e s =>
    let* '(sam_key, s) := get_field 0 asn1_decode_encryption_key e s in
    Ok (SamKey sam_key, s)).

Definition asn1_decode_enc_sam_response_enc : decoder krb5_enc_sam_response_enc :=
  structure (fun e s =>
    let* '(nonce, s) := opt_field 0 asn1_decode_int32 0 e s in
    let* '(timestamp, s) := opt_field 1 asn1_decode_kerberos_time 0 e s in
    let* '(usec, s) := opt_field 2 asn1_decode_int32 0 e s in
    let* '(sad, s) := opt_string 3 asn1_decode_charstring e s in
    Ok (EncSamResponseEnc nonce timestamp usec sad, s)).

Definition opt_encfield (tag : Z) (fn : decoder krb5_enc_data) (e : denv) (s : sstate)
    : outcome error_code (krb5_enc_data * sstate) :=
  if tv_tagnum (snd s) =? tag then get_field tag fn e s else Ok (null_enc_data, s).

Definition asn1_decode_sam_response : decoder krb5_sam_response :=
  structure (fun e s =>
    let* '(sam_type, s) := get_field 0 asn1_decode_int32 e s in
    let* '(sam_flags, s) := get_field 1 asn1_decode_sam_flags e s in
    let* '(track_id, s) := opt_string 2 asn1_decode_charstring e s in
    let* '(enc_key, s) := opt_encfield 3 asn1_decode_encrypted_data e s in
    let* '(enc_nonce_or_ts, s) := get_field 4 asn1_decode_encrypted_data e s in
    let* '(nonce, s) := opt_field 5 asn1_decode_int32 0 e s in
    let* '(patimestamp, s) := opt_field 6 asn1_decode_kerberos_time 0 e s in
    Ok (SamResponse sam_type sam_flags track_id enc_key enc_nonce_or_ts nonce patimestamp, s)).

Definition asn1_decode_predicted_sam_response : decoder krb5_predicted_sam_response :=
  structure (fun e s =>
    let* '(sam_key, s) := get_field 0 asn1_decode_encryption_key e s in
    let* '(sam_flags, s) := get_field 1 asn1_decode_sam_flags e s in
    let* '(stime, s) := get_field 2 asn1_decode_kerberos_time e s in
    let* '(susec, s) := get_field 3 asn1_decode_int32 e s in
    let* '(client, s) := get_field 4 (asn1_decode_realm null_principal) e s in
    let* '(client, s) := get_field 5 (asn1_decode_principal_name client) e s in
    let* '(msd, s) := opt_string 6 asn1_decode_octetstring e s in
    Ok (PredictedSamResponse sam_key sam_flags stime susec (Some client) msd, s)).

End KDecode.
