(* ===== verification/Krb5Encode.v ===== *)
(** * Encoders of whole messages (src/src/lib/krb5/asn.1/krb5_encode.c)

    Each takes a structure, [None] for NULL, and returns a fresh [krb5_data]. *)

From S2P Require Import Prelude Asn1Buf Asn1Tag GmTime Asn1Prim Krb5Types Asn1KEncode.

Section Encode.
Context `{P : Platform}.

(** ** The macros

    krb5_addfield, krb5_addlenfield, krb5_makeseq and krb5_apptag have the text of
    their asn1_ counterparts. *)
Definition krb5_addfield (tag : Z) (enc : encoder) : encstep := asn1_addfield tag enc.
Definition krb5_addlenfield (len : Z) (value : option (list octet)) (tag : Z)
    (enc : Z -> option (list octet) -> encoder) : encstep := asn1_addlenfield len value tag enc.
Definition krb5_makeseq : encstep := asn1_makeseq.
Definition krb5_apptag (num : Z) : encstep := asn1_apptag num.

(** The code returned by an encoder that failed; the buffer is not looked at again. *)
Definition krb5_return {A} (r : outcome enc_error A) : outcome error_code A :=
  match r with
  | Ok a => Ok a
  | Err (e, _) => Err e
  | Undefined => Undefined
  | OutOfFuel => OutOfFuel
  end.

(** krb5_setup(); body; krb5_cleanup(); *)
Definition krb5_encode {A} (body : A -> encstep) (rep : option A) : outcome error_code krb5_data :=
  match rep with
  | None => Err ASN1_MISSING_FIELD
  | Some rep =>
      krb5_return
        (let* buf := asn1buf_create in
         let* '(buf, _) := body rep (buf, 0) in
         destroy_on_error (asn12krb5_buf buf))
  end.

(** ** The messages *)

Definition encode_krb5_authenticator : option krb5_authenticator -> outcome error_code krb5_data :=
  krb5_encode (fun rep =>
    when (nonempty (at_authorization_data rep))
      (krb5_addfield 8 (asn1_encode_authorization_data (at_authorization_data rep))) >=>
    when (negb (at_seq_number rep =? 0))
      (krb5_addfield 7 (asn1_encode_integer (long (at_seq_number rep)))) >=>
    when (match at_subkey rep with Some _ => true | None => false end)
      (krb5_addfield 6 (asn1_encode_encryption_key (at_subkey rep))) >=>
    krb5_addfield 5 (asn1_encode_kerberos_time (at_ctime rep)) >=>
    krb5_addfield 4 (asn1_encode_integer (long (at_cusec rep))) >=>
    when (match at_checksum rep with Some _ => true | None => false end)
      (krb5_addfield 3 (asn1_encode_checksum (at_checksum rep))) >=>
    krb5_addfield 2 (asn1_encode_principal_name (at_client rep)) >=>
    krb5_addfield 1 (asn1_encode_realm (at_client rep)) >=>
    krb5_addfield 0 (asn1_encode_integer KVNO) >=>
    krb5_makeseq >=>
    krb5_apptag 2).

Definition encode_krb5_ticket : option krb5_ticket -> outcome error_code krb5_data :=
  krb5_encode (fun rep =>
    krb5_addfield 3 (asn1_encode_encrypted_data (tk_enc_part rep)) >=>
    krb5_addfield 2 (asn1_encode_principal_name (tk_server rep)) >=>
    krb5_addfield 1 (asn1_encode_realm (tk_server rep)) >=>
    krb5_addfield 0 (asn1_encode_integer KVNO) >=>
    krb5_makeseq >=>
    krb5_apptag 1).

Definition encode_krb5_encryption_key : option krb5_keyblock -> outcome error_code krb5_data :=
  krb5_encode (fun rep =>
    krb5_addlenfield (kb_length rep) (kb_contents rep) 1 asn1_encode_octetstring >=>
    krb5_addfield 0 (asn1_encode_integer (long (kb_enctype rep))) >=>
    krb5_makeseq).

Definition encode_krb5_enc_tkt_part : option krb5_enc_tkt_part -> outcome error_code krb5_data :=
  krb5_encode (fun rep =>
    when (nonempty (etp_authorization_data rep))
      (krb5_addfield 10 (asn1_encode_authorization_data (etp_authorization_data rep))) >=>
    when (nonempty (etp_caddrs rep))
      (krb5_addfield 9 (asn1_encode_host_addresses (etp_caddrs rep))) >=>
    when (negb (tt_renew_till (etp_times rep) =? 0))
      (krb5_addfield 8 (asn1_encode_kerberos_time (tt_renew_till (etp_times rep)))) >=>
    krb5_addfield 7 (asn1_encode_kerberos_time (tt_endtime (etp_times rep))) >=>
    when (negb (tt_starttime (etp_times rep) =? 0))
      (krb5_addfield 6 (asn1_encode_kerberos_time (tt_starttime (etp_times rep)))) >=>
    krb5_addfield 5 (asn1_encode_kerberos_time (tt_authtime (etp_times rep))) >=>
    krb5_addfield 4 (asn1_encode_transited_encoding (etp_transited rep)) >=>
    krb5_addfield 3 (asn1_encode_principal_name (etp_client rep)) >=>
    krb5_addfield 2 (asn1_encode_realm (etp_client rep)) >=>
    krb5_addfield 1 (asn1_encode_encryption_key (etp_session rep)) >=>
    krb5_addfield 0 (asn1_encode_ticket_flags (etp_flags rep)) >=>
    krb5_makeseq >=>
    krb5_apptag 3).

(** KRB5_ENCKRB5KDCREPPART_COMPAT is defined: the tag is 26 for every message type. *)
Definition encode_krb5_enc_kdc_rep_part : option krb5_enc_kdc_rep_part -> outcome error_code krb5_data :=
  krb5_encode (fun rep =>
    addplain (asn1_encode_enc_kdc_rep_part rep) >=>
    krb5_apptag 26).

Definition encode_krb5_as_rep : option krb5_kdc_rep -> outcome error_code krb5_data :=
  krb5_encode (fun rep =>
    addplain (asn1_encode_kdc_rep KRB5_AS_REP rep) >=>
    krb5_apptag 11).

Definition encode_krb5_tgs_rep : option krb5_kdc_rep -> outcome error_code krb5_data :=
  krb5_encode (fun rep =>
    addplain (asn1_encode_kdc_rep KRB5_TGS_REP rep) >=>
    krb5_apptag 13).

Definition encode_krb5_ap_req : option krb5_ap_req -> outcome error_code krb5_data :=
  krb5_encode (fun rep =>
    krb5_addfield 4 (asn1_encode_encrypted_data (aq_authenticator rep)) >=>
    krb5_addfield 3 (asn1_encode_ticket (aq_ticket rep)) >=>
    krb5_addfield 2 (asn1_encode_ap_options (aq_ap_options rep)) >=>
    krb5_addfield 1 (asn1_encode_integer ASN1_KRB_AP_REQ) >=>
    krb5_addfield 0 (asn1_encode_integer KVNO) >=>
    krb5_makeseq >=>
    krb5_apptag 14).

Definition encode_krb5_ap_rep : option krb5_ap_rep -> outcome error_code krb5_data :=
  krb5_encode (fun rep =>
    krb5_addfield 2 (asn1_encode_encrypted_data (ap_enc_part rep)) >=>
    krb5_addfield 1 (asn1_encode_integer ASN1_KRB_AP_REP) >=>
    krb5_addfield 0 (asn1_encode_integer KVNO) >=>
    krb5_makeseq >=>
    krb5_apptag 15).

Definition encode_krb5_ap_rep_enc_part : option krb5_ap_rep_enc_part -> outcome error_code krb5_data :=
  krb5_encode (fun rep =>
    when (negb (ae_seq_number rep =? 0))
      (krb5_addfield 3 (asn1_encode_integer (long (ae_seq_number rep)))) >=>
    when (match ae_subkey rep with Some _ => true | None => false end)
      (krb5_addfield 2 (asn1_encode_encryption_key (ae_subkey rep))) >=>
    krb5_addfield 1 (asn1_encode_integer (long (ae_cusec rep))) >=>
    krb5_addfield 0 (asn1_encode_kerberos_time (ae_ctime rep)) >=>
    krb5_makeseq >=>
    krb5_apptag 27).

Definition encode_krb5_as_req : option krb5_kdc_req -> outcome error_code krb5_data :=
  krb5_encode (fun rep =>
    addplain (asn1_encode_kdc_req KRB5_AS_REQ rep) >=>
    krb5_apptag 10).

Definition encode_krb5_tgs_req : option krb5_kdc_req -> outcome error_code krb5_data :=
  krb5_encode (fun rep =>
    addplain (asn1_encode_kdc_req KRB5_TGS_REQ rep) >=>
    krb5_apptag 12).

Definition encode_krb5_kdc_req_body : option krb5_kdc_req -> outcome error_code krb5_data :=
  krb5_encode (fun rep => addplain (asn1_encode_kdc_req_body rep)).

Definition encode_krb5_safe : option krb5_safe -> outcome error_code krb5_data :=
  krb5_encode (fun rep =>
    krb5_addfield 3 (asn1_encode_checksum (sf_checksum rep)) >=>
    krb5_addfield 2 (asn1_encode_krb_safe_body rep) >=>
    krb5_addfield 1 (asn1_encode_integer ASN1_KRB_SAFE) >=>
    krb5_addfield 0 (asn1_encode_integer KVNO) >=>
    krb5_makeseq >=>
    krb5_apptag 20).

Definition encode_krb5_priv : option krb5_priv -> outcome error_code krb5_data :=
  krb5_encode (fun rep =>
    krb5_addfield 3 (asn1_encode_encrypted_data (pv_enc_part rep)) >=>
    krb5_addfield 1 (asn1_encode_integer ASN1_KRB_PRIV) >=>
    krb5_addfield 0 (asn1_encode_integer KVNO) >=>
    krb5_makeseq >=>
    krb5_apptag 21).

Definition encode_krb5_enc_priv_part : option krb5_priv_enc_part -> outcome error_code krb5_data :=
  krb5_encode (fun rep =>
    when (match pe_r_address rep with Some _ => true | None => false end)
      (krb5_addfield 5 (asn1_encode_host_address (pe_r_address rep))) >=>
    krb5_addfield 4 (asn1_encode_host_address (pe_s_address rep)) >=>
    when (negb (pe_seq_number rep =? 0))
      (krb5_addfield 3 (asn1_encode_integer (long (pe_seq_number rep)))) >=>
    when (negb (pe_timestamp rep =? 0))
      (krb5_addfield 2 (asn1_encode_integer (long (pe_usec rep))) >=>
       krb5_addfield 1 (asn1_encode_kerberos_time (pe_timestamp rep))) >=>
    krb5_addlenfield (d_length (pe_user_data rep)) (d_data (pe_user_data rep)) 0
      asn1_encode_charstring >=>
    krb5_makeseq >=>
    krb5_apptag 28).

Definition encode_krb5_cred : option krb5_cred -> outcome error_code krb5_data :=
  krb5_encode (fun rep =>
    krb5_addfield 3 (asn1_encode_encrypted_data (cr_enc_part rep)) >=>
    krb5_addfield 2 (asn1_encode_sequence_of_ticket (cr_tickets rep)) >=>
    krb5_addfield 1 (asn1_encode_integer ASN1_KRB_CRED) >=>
    krb5_addfield 0 (asn1_encode_integer KVNO) >=>
    krb5_makeseq >=>
    krb5_apptag 22).

Definition encode_krb5_enc_cred_part : option krb5_cred_enc_part -> outcome error_code krb5_data :=
  krb5_encode (fun rep =>
    when (match ce_r_address rep with Some _ => true | None => false end)
      (krb5_addfield 5 (asn1_encode_host_address (ce_r_address rep))) >=>
    when (match ce_s_address rep with Some _ => true | None => false end)
      (krb5_addfield 4 (asn1_encode_host_address (ce_s_address rep))) >=>
    when (negb (ce_timestamp rep =? 0))
      (krb5_addfield 3 (asn1_encode_integer (long (ce_usec rep))) >=>
       krb5_addfield 2 (asn1_encode_kerberos_time (ce_timestamp rep))) >=>
    when (negb (ce_nonce rep =? 0))
      (krb5_addfield 1 (asn1_encode_integer (long (ce_nonce rep)))) >=>
    krb5_addfield 0 (asn1_encode_sequence_of_krb_cred_info (ce_ticket_info rep)) >=>
    krb5_makeseq >=>
    krb5_apptag 29).

(** An optional string of KRB-ERROR: present and not empty. *)
Definition has_data (d : krb5_data) : bool :=
  match d_data d with Some _ => 0 <? d_length d | None => false end.

Definition encode_krb5_error : option krb5_error -> outcome error_code krb5_data :=
  krb5_encode (fun rep =>
    when (has_data (er_e_data rep))
      (krb5_addlenfield (d_length (er_e_data rep)) (d_data (er_e_data rep)) 12
         asn1_encode_charstring) >=>
    when (has_data (er_text rep))
      (krb5_addlenfield (d_length (er_text rep)) (d_data (er_text rep)) 11
         asn1_encode_generalstring) >=>
    krb5_addfield 10 (asn1_encode_principal_name (er_server rep)) >=>
    krb5_addfield 9 (asn1_encode_realm (er_server rep)) >=>
    when (match er_client rep with Some _ => true | None => false end)
      (krb5_addfield 8 (asn1_encode_principal_name (er_client rep)) >=>
       krb5_addfield 7 (asn1_encode_realm (er_client rep))) >=>
    krb5_addfield 6 (asn1_encode_ui_4 (er_error rep)) >=>
    krb5_addfield 5 (asn1_encode_integer (long (er_susec rep))) >=>
    krb5_addfield 4 (asn1_encode_kerberos_time (er_stime rep)) >=>
    when (negb (er_cusec rep =? 0))
      (krb5_addfield 3 (asn1_encode_integer (long (er_cusec rep)))) >=>
    when (negb (er_ctime rep =? 0))
      (krb5_addfield 2 (asn1_encode_kerberos_time (er_ctime rep))) >=>
    krb5_addfield 1 (asn1_encode_integer ASN1_KRB_ERROR) >=>
    krb5_addfield 0 (asn1_encode_integer KVNO) >=>
    krb5_makeseq >=>
    krb5_apptag 30).

Definition encode_krb5_authdata : option (list krb5_authdata) -> outcome error_code krb5_data :=
  krb5_encode (fun rep => addplain (asn1_encode_authorization_data (Some rep))).

Definition encode_krb5_alt_method : option krb5_alt_method -> outcome error_code krb5_data :=
  krb5_encode (fun rep =>
    when (match am_data rep with Some _ => 0 <? am_length rep | None => false end)
      (krb5_addlenfield (am_length rep) (am_data rep) 1 asn1_encode_octetstring) >=>
    krb5_addfield 0 (asn1_encode_integer (long (am_method rep))) >=>
    krb5_makeseq).

Definition encode_krb5_etype_info
    : option (list krb5_etype_info_entry) -> outcome error_code krb5_data :=
  krb5_encode (fun rep => addplain (asn1_encode_etype_info (Some rep))).

Definition encode_krb5_enc_data : option krb5_enc_data -> outcome error_code krb5_data :=
  krb5_encode (fun rep => addplain (asn1_encode_encrypted_data rep)).

Definition encode_krb5_pa_enc_ts : option krb5_pa_enc_ts -> outcome error_code krb5_data :=
  krb5_encode (fun rep =>
    when (negb (ts_pausec rep =? 0))
      (krb5_addfield 1 (asn1_encode_integer (long (ts_pausec rep)))) >=>
    krb5_addfield 0 (asn1_encode_kerberos_time (ts_patimestamp rep)) >=>
    krb5_makeseq).

Definition encode_krb5_pwd_sequence : option passwd_phrase_element -> outcome error_code krb5_data :=
  krb5_encode (fun rep => addplain (asn1_encode_passwdsequence rep)).

Definition encode_krb5_pwd_data : option krb5_pwd_data -> outcome error_code krb5_data :=
  krb5_encode (fun rep =>
    krb5_addfield 1 (asn1_encode_sequence_of_passwdsequence (pw_element rep)) >=>
    krb5_addfield 0 (asn1_encode_integer (long (pw_sequence_count rep))) >=>
    krb5_makeseq).

Definition encode_krb5_padata_sequence : option (list krb5_pa_data) -> outcome error_code krb5_data :=
  krb5_encode (fun rep => addplain (asn1_encode_sequence_of_pa_data (Some rep))).

Definition encode_krb5_sam_challenge : option krb5_sam_challenge -> outcome error_code krb5_data :=
  krb5_encode (fun rep => addplain (asn1_encode_sam_challenge rep)).

Definition encode_krb5_sam_key : option krb5_sam_key -> outcome error_code krb5_data :=
  krb5_encode (fun rep => addplain (asn1_encode_sam_key rep)).

Definition encode_krb5_enc_sam_response_enc
    : option krb5_enc_sam_response_enc -> outcome error_code krb5_data :=
  krb5_encode (fun rep => addplain (asn1_encode_enc_sam_response_enc rep)).

Definition encode_krb5_sam_response : option krb5_sam_response -> outcome error_code krb5_data :=
  krb5_encode (fun rep => addplain (asn1_encode_sam_response rep)).

Definition encode_krb5_predicted_sam_response
    : option krb5_predicted_sam_response -> outcome error_code krb5_data :=
  krb5_encode (fun rep => addplain (asn1_encode_predicted_sam_response rep)).

End Encode.
