(* ===== verification/Krb5Decode.v ===== *)
(** * Decoders of whole messages (src/src/lib/krb5/asn.1/krb5_decode.c)

    The macros have the names of those in asn1_k_decode.c and differ from them: the
    length of a field's tag is not kept, every field must have a context-specific
    tag, and an absent optional field leaves the zeroed storage as it is. *)

From S2P Require Import Prelude Asn1Buf Asn1Tag GmTime Asn1Prim Krb5Types Asn1KDecode.

Section Decode.
Context `{P : Platform}.

(** ** The macros *)

(** setup(): wraps the code and runs a decoder on it. *)
Definition krb5_decode {A} (dec : decoder A) (fuel : nat) (code : option krb5_data)
    : outcome error_code A :=
  let* '(mem, buf) := asn1buf_wrap_data code in
  let* '(v, _) := dec (DEnv mem fuel) buf in
  Ok v.

Definition check_apptag (tagexpect : Z) : decoder unit := fun e buf =>
  let* '(tv, buf) := asn1_get_tag stack_junk e buf in
  if negb (tv_class tv =? APPLICATION) || negb (tv_construction tv =? CONSTRUCTED)
  then Err ASN1_BAD_ID
  else if negb (tv_tagnum tv =? tagexpect) then Err KRB5_BADMSGTYPE
  else Ok (tt, buf).

Definition t_get_field_body {A} (dec : decoder A) (e : denv) (s : sstate)
    : outcome error_code (A * sstate) :=
  let '(subbuf, tv) := s in
  let* '(v, subbuf) := dec e subbuf in
  let* s := if negb (tv_indef tv =? 0) then get_eoc e (subbuf, tv) else Ok (subbuf, tv) in
  let* s := next_tag e s in
  Ok (v, s).

Definition t_bad_field_id (tv : tagvars) : bool :=
  negb (tv_class tv =? CONTEXT_SPECIFIC) || negb (tv_construction tv =? CONSTRUCTED).

Definition t_get_field {A} (tagexpect : Z) (dec : decoder A) (e : denv) (s : sstate)
    : outcome error_code (A * sstate) :=
  let tv := snd s in
  if tagexpect <? tv_tagnum tv then Err ASN1_MISSING_FIELD
  else if tv_tagnum tv <? tagexpect then Err ASN1_MISPLACED_FIELD
  else if t_bad_field_id tv then Err ASN1_BAD_ID
  else t_get_field_body dec e s.

(** The value of an absent field is the one the zeroed structure holds. *)
Definition t_opt_field {A} (tagexpect : Z) (dec : decoder A) (zero : A) (e : denv) (s : sstate)
    : outcome error_code (A * sstate) :=
  let tv := snd s in
  if t_bad_field_id tv then Err ASN1_BAD_ID
  else if tv_tagnum tv =? tagexpect then t_get_field_body dec e s
  else Ok (zero, s).

(** An optional field decoded into what a pointer points to; the pointer was set if
    and only if the field's tag stands next, and stays NULL otherwise. *)
Definition t_opt_alloc_field {A} (tagexpect : Z) (dec : decoder A) (e : denv) (s : sstate)
    : outcome error_code (option A * sstate) :=
  t_opt_field tagexpect (fun e buf => let* '(v, buf) := dec e buf in Ok (Some v, buf)) None e s.

(** if(tagnum == n){ alloc_field(...); get_field(..., n, dec); } *)
Definition t_if_field {A} (n : Z) (dec : decoder A) (e : denv) (s : sstate)
    : outcome error_code (option A * sstate) :=
  if tv_tagnum (snd s) =? n then
    let* '(v, s) := t_get_field n dec e s in Ok (Some v, s)
  else Ok (None, s).

(** check_apptag(num); then the structure. *)
Definition app_structure {A} (num : Z)
    (fields : denv -> sstate -> outcome error_code (A * sstate)) : decoder A := fun e buf =>
  let* '(_, buf) := check_apptag num e buf in
  structure fields e buf.

Definition check_kvno (e : denv) (s : sstate) : outcome error_code (unit * sstate) :=
  let* '(kvno, s) := t_get_field 0 asn1_decode_kvno e s in
  let* _ := guard (kvno =? KVNO) KRB5KDC_ERR_BAD_PVNO in
  Ok (tt, s).

(** The message type is read and, without KRB5_MSGTYPE_STRICT, not looked at. *)
Definition read_msgtype (e : denv) (s : sstate) : outcome error_code (unit * sstate) :=
  let* '(_, s) := t_get_field 1 asn1_decode_msgtype e s in
  Ok (tt, s).

(** ** The messages *)

Definition decode_krb5_authenticator : nat -> option krb5_data -> outcome error_code krb5_authenticator :=
  krb5_decode (app_structure 2 (fun e s =>
    let* '(_, s) := check_kvno e s in
    let* '(client, s) := t_get_field 1 (asn1_decode_realm null_principal) e s in
    let* '(client, s) := t_get_field 2 (asn1_decode_principal_name client) e s in
    let* '(checksum, s) := t_if_field 3 asn1_decode_checksum e s in
    let* '(cusec, s) := t_get_field 4 asn1_decode_int32 e s in
    let* '(ctime, s) := t_get_field 5 asn1_decode_kerberos_time e s in
    let* '(subkey, s) := t_opt_alloc_field 6 asn1_decode_encryption_key e s in
    let* '(seq_number, s) := t_opt_field 7 asn1_decode_int32 0 e s in
    let* '(authorization_data, s) := t_opt_field 8 asn1_decode_authorization_data None e s in
    Ok (Authenticator (Some client) checksum cusec ctime subkey seq_number
          authorization_data, s))).

Definition decode_krb5_ticket : nat -> option krb5_data -> outcome error_code krb5_ticket :=
  krb5_decode (app_structure 1 (fun e s =>
    let* '(_, s) := check_kvno e s in
    let* '(server, s) := t_get_field 1 (asn1_decode_realm null_principal) e s in
    let* '(server, s) := t_get_field 2 (asn1_decode_principal_name server) e s in
    let* '(enc_part, s) := t_get_field 3 asn1_decode_encrypted_data e s in
    Ok (Ticket (Some server) enc_part None, s))).

Definition decode_krb5_encryption_key : nat -> option krb5_data -> outcome error_code krb5_keyblock :=
  krb5_decode (structure (fun e s =>
    let* '(enctype, s) := t_get_field 0 asn1_decode_enctype e s in
    let* '((length, contents), s) := t_get_field 1 asn1_decode_octetstring e s in
    Ok (Keyblock enctype length contents, s))).

Definition decode_krb5_enc_tkt_part : nat -> option krb5_data -> outcome error_code krb5_enc_tkt_part :=
  krb5_decode (app_structure 3 (fun e s =>
    let* '(flags, s) := t_get_field 0 asn1_decode_ticket_flags e s in
    let* '(session, s) := t_get_field 1 asn1_decode_encryption_key e s in
    let* '(client, s) := t_get_field 2 (asn1_decode_realm null_principal) e s in
    let* '(client, s) := t_get_field 3 (asn1_decode_principal_name client) e s in
    let* '(transited, s) := t_get_field 4 asn1_decode_transited_encoding e s in
    let* '(authtime, s) := t_get_field 5 asn1_decode_kerberos_time e s in
    let* '(starttime, s) := t_if_field 6 asn1_decode_kerberos_time e s in
    let starttime := default authtime starttime in
    let* '(endtime, s) := t_get_field 7 asn1_decode_kerberos_time e s in
    let* '(renew_till, s) := t_opt_field 8 asn1_decode_kerberos_time 0 e s in
    let* '(caddrs, s) := t_opt_field 9 asn1_decode_host_addresses None e s in
    let* '(authorization_data, s) := t_opt_field 10 asn1_decode_authorization_data None e s in
    Ok (EncTktPart flags (Some session) (Some client) transited
          (TicketTimes authtime starttime endtime renew_till) caddrs authorization_data, s))).

Definition decode_krb5_enc_kdc_rep_part
    : nat -> option krb5_data -> outcome error_code krb5_enc_kdc_rep_part :=
  krb5_decode (fun e buf =>
    let* '(tv, buf) := asn1_get_tag stack_junk e buf in
    let* _ := guard ((tv_class tv =? APPLICATION) && (tv_construction tv =? CONSTRUCTED))
                ASN1_BAD_ID in
    let* msg_type :=
      if tv_tagnum tv =? 25 then Ok KRB5_AS_REP
      else if tv_tagnum tv =? 26 then Ok KRB5_TGS_REP
      else Err KRB5_BADMSGTYPE in
    asn1_decode_enc_kdc_rep_part msg_type e buf).

Definition decode_krb5_as_rep : nat -> option krb5_data -> outcome error_code krb5_kdc_rep :=
  krb5_decode (fun e buf =>
    let* '(_, buf) := check_apptag 11 e buf in
    asn1_decode_kdc_rep e buf).

Definition decode_krb5_tgs_rep : nat -> option krb5_data -> outcome error_code krb5_kdc_rep :=
  krb5_decode (fun e buf =>
    let* '(_, buf) := check_apptag 13 e buf in
    asn1_decode_kdc_rep e buf).

Definition decode_krb5_ap_req : nat -> option krb5_data -> outcome error_code krb5_ap_req :=
  krb5_decode (app_structure 14 (fun e s =>
    let* '(_, s) := check_kvno e s in
    let* '(_, s) := read_msgtype e s in
    let* '(ap_options, s) := t_get_field 2 asn1_decode_ap_options e s in
    let* '(ticket, s) := t_get_field 3 asn1_decode_ticket e s in
    let* '(authenticator, s) := t_get_field 4 asn1_decode_encrypted_data e s in
    Ok (ApReq ap_options (Some ticket) authenticator, s))).

Definition decode_krb5_ap_rep : nat -> option krb5_data -> outcome error_code krb5_ap_rep :=
  krb5_decode (app_structure 15 (fun e s =>
    let* '(_, s) := check_kvno e s in
    let* '(_, s) := read_msgtype e s in
    let* '(enc_part, s) := t_get_field 2 asn1_decode_encrypted_data e s in
    Ok (ApRep enc_part, s))).

Definition decode_krb5_ap_rep_enc_part
    : nat -> option krb5_data -> outcome error_code krb5_ap_rep_enc_part :=
  krb5_decode (app_structure 27 (fun e s =>
    let* '(ctime, s) := t_get_field 0 asn1_decode_kerberos_time e s in
    let* '(cusec, s) := t_get_field 1 asn1_decode_int32 e s in
    let* '(subkey, s) := t_opt_alloc_field 2 asn1_decode_encryption_key e s in
    let* '(seq_number, s) := t_opt_field 3 asn1_decode_int32 0 e s in
    Ok (ApRepEncPart ctime cusec subkey seq_number, s))).

Definition decode_krb5_as_req : nat -> option krb5_data -> outcome error_code krb5_kdc_req :=
  krb5_decode (fun e buf =>
    let* '(_, buf) := check_apptag 10 e buf in
    asn1_decode_kdc_req null_kdc_req e buf).

Definition decode_krb5_tgs_req : nat -> option krb5_data -> outcome error_code krb5_kdc_req :=
  krb5_decode (fun e buf =>
    let* '(_, buf) := check_apptag 12 e buf in
    asn1_decode_kdc_req null_kdc_req e buf).

Definition decode_krb5_kdc_req_body : nat -> option krb5_data -> outcome error_code krb5_kdc_req :=
  krb5_decode (asn1_decode_kdc_req_body null_kdc_req).

Definition decode_krb5_safe : nat -> option krb5_data -> outcome error_code krb5_safe :=
  krb5_decode (app_structure 20 (fun e s =>
    let* '(_, s) := check_kvno e s in
    let* '(_, s) := read_msgtype e s in
    let* '(rep, s) :=
      t_get_field 2 (asn1_decode_krb_safe_body (Safe null_data 0 0 0 None None None)) e s in
    let* '(checksum, s) := t_get_field 3 asn1_decode_checksum e s in
    Ok (Safe (sf_user_data rep) (sf_timestamp rep) (sf_usec rep) (sf_seq_number rep)
          (sf_s_address rep) (sf_r_address rep) (Some checksum), s))).

Definition decode_krb5_priv : nat -> option krb5_data -> outcome error_code krb5_priv :=
  krb5_decode (app_structure 21 (fun e s =>
    let* '(_, s) := check_kvno e s in
    let* '(_, s) := read_msgtype e s in
    let* '(enc_part, s) := t_get_field 3 asn1_decode_encrypted_data e s in
    Ok (Priv enc_part, s))).

Definition decode_krb5_enc_priv_part
    : nat -> option krb5_data -> outcome error_code krb5_priv_enc_part :=
  krb5_decode (app_structure 28 (fun e s =>
    let* '((length, data), s) := t_get_field 0 asn1_decode_charstring e s in
    let* '(timestamp, s) := t_opt_field 1 asn1_decode_kerberos_time 0 e s in
    let* '(usec, s) := t_opt_field 2 asn1_decode_int32 0 e s in
    let* '(seq_number, s) := t_opt_field 3 asn1_decode_int32 0 e s in
    let* '(s_address, s) := t_get_field 4 asn1_decode_host_address e s in
    let* '(r_address, s) := t_opt_alloc_field 5 asn1_decode_host_address e s in
    Ok (PrivEncPart (Data length data) timestamp usec seq_number (Some s_address) r_address, s))).

Definition decode_krb5_cred : nat -> option krb5_data -> outcome error_code krb5_cred :=
  krb5_decode (app_structure 22 (fun e s =>
    let* '(_, s) := check_kvno e s in
    let* '(_, s) := read_msgtype e s in
    let* '(tickets, s) := t_get_field 2 asn1_decode_sequence_of_ticket e s in
    let* '(enc_part, s) := t_get_field 3 asn1_decode_encrypted_data e s in
    Ok (Cred tickets enc_part None, s))).

Definition decode_krb5_enc_cred_part
    : nat -> option krb5_data -> outcome error_code krb5_cred_enc_part :=
  krb5_decode (app_structure 29 (fun e s =>
    let* '(ticket_info, s) := t_get_field 0 asn1_decode_sequence_of_krb_cred_info e s in
    let* '(nonce, s) := t_opt_field 1 asn1_decode_int32 0 e s in
    let* '(timestamp, s) := t_opt_field 2 asn1_decode_kerberos_time 0 e s in
    let* '(usec, s) := t_opt_field 3 asn1_decode_int32 0 e s in
    let* '(s_address, s) := t_opt_alloc_field 4 asn1_decode_host_address e s in
    let* '(r_address, s) := t_opt_alloc_field 5 asn1_decode_host_address e s in
    Ok (CredEncPart nonce timestamp usec s_address r_address ticket_info, s))).

(** The client is allocated when its realm field stands next; its name field is then
    decoded, if present, through the same pointer, which may be NULL. *)
Definition decode_krb5_error : nat -> option krb5_data -> outcome error_code krb5_error :=
  krb5_decode (app_structure 30 (fun e s =>
    let* '(_, s) := check_kvno e s in
    let* '(_, s) := read_msgtype e s in
    let* '(ctime, s) := t_opt_field 2 asn1_decode_kerberos_time 0 e s in
    let* '(cusec, s) := t_opt_field 3 asn1_decode_int32 0 e s in
    let* '(stime, s) := t_get_field 4 asn1_decode_kerberos_time e s in
    let* '(susec, s) := t_get_field 5 asn1_decode_int32 e s in
    let* '(error, s) := t_get_field 6 asn1_decode_ui_4 e s in
    let* '(client, s) := t_opt_alloc_field 7 (asn1_decode_realm null_principal) e s in
    let* '(client, s) :=
      t_opt_field 8 (fun e buf =>
          match client with
          | None => Undefined
          | Some c => let* '(c, buf) := asn1_decode_principal_name c e buf in Ok (Some c, buf)
          end) client e s in
    let* '(server, s) := t_get_field 9 (asn1_decode_realm null_principal) e s in
    let* '(server, s) := t_get_field 10 (asn1_decode_principal_name server) e s in
    let* '((tlen, text), s) := t_opt_field 11 asn1_decode_generalstring (0, None) e s in
    let* '((dlen, e_data), s) := t_opt_field 12 asn1_decode_charstring (0, None) e s in
    Ok (KrbError ctime cusec susec stime error client (Some server)
          (Data tlen text) (Data dlen e_data), s))).

Definition decode_krb5_authdata
    : nat -> option krb5_data -> outcome error_code (option (list krb5_authdata)) :=
  krb5_decode asn1_decode_authorization_data.

Definition decode_krb5_pwd_sequence
    : nat -> option krb5_data -> outcome error_code passwd_phrase_element :=
  krb5_decode asn1_decode_passwdsequence.

Definition decode_krb5_pwd_data : nat -> option krb5_data -> outcome error_code krb5_pwd_data :=
  krb5_decode (structure (fun e s =>
    let* '(sequence_count, s) := t_get_field 0 asn1_decode_int e s in
    let* '(element, s) := t_get_field 1 asn1_decode_sequence_of_passwdsequence e s in
    Ok (PwdData sequence_count element, s))).

Definition decode_krb5_padata_sequence
    : nat -> option krb5_data -> outcome error_code (option (list krb5_pa_data)) :=
  krb5_decode asn1_decode_sequence_of_pa_data.

Definition decode_krb5_alt_method : nat -> option krb5_data -> outcome error_code krb5_alt_method :=
  krb5_decode (structure (fun e s =>
    let* '(method, s) := t_get_field 0 asn1_decode_int32 e s in
    let* '(data, s) := t_if_field 1 asn1_decode_octetstring e s in
    let '(length, data) := default (0, None) data in
    Ok (AltMethod method length data, s))).

Definition decode_krb5_etype_info
    : nat -> option krb5_data -> outcome error_code (option (list krb5_etype_info_entry)) :=
  krb5_decode asn1_decode_etype_info.

Definition decode_krb5_enc_data : nat -> option krb5_data -> outcome error_code krb5_enc_data :=
  krb5_decode asn1_decode_encrypted_data.

Definition decode_krb5_pa_enc_ts : nat -> option krb5_data -> outcome error_code krb5_pa_enc_ts :=
  krb5_decode (structure (fun e s =>
    let* '(patimestamp, s) := t_get_field 0 asn1_decode_kerberos_time e s in
    let* '(pausec, s) := t_if_field 1 asn1_decode_int32 e s in
    Ok (PaEncTs patimestamp (default 0 pausec), s))).

Definition decode_krb5_sam_challenge
    : nat -> option krb5_data -> outcome error_code krb5_sam_challenge :=
  krb5_decode asn1_decode_sam_challenge.

Definition decode_krb5_enc_sam_key : nat -> option krb5_data -> outcome error_code krb5_sam_key :=
  krb5_decode asn1_decode_enc_sam_key.

Definition decode_krb5_enc_sam_response_enc
    : nat -> option krb5_data -> outcome error_code krb5_enc_sam_response_enc :=
  krb5_decode asn1_decode_enc_sam_response_enc.

Definition decode_krb5_sam_response
    : nat -> option krb5_data -> outcome error_code krb5_sam_response :=
  krb5_decode asn1_decode_sam_response.

Definition decode_krb5_predicted_sam_response
    : nat -> option krb5_data -> outcome error_code krb5_predicted_sam_response :=
  krb5_decode asn1_decode_predicted_sam_response.

End Decode.
