(* ===== verification/PrincName.v ===== *)
(** * Principal names as strings (src/src/lib/krb5/krb/parse.c, unparse.c, princ_comp.c)

    A C string is the octets of its storage, terminating NUL included; reading past the
    storage is [Undefined].  The pointer [cp] that walks over a string is the rest of
    the string.  A pointer [q] into an allocated block is a block and an offset. *)

From S2P Require Import Prelude Asn1Buf Krb5Types.

Definition REALM_SEP : octet := 64.      (* '@' *)
Definition COMPONENT_SEP : octet := 47.  (* '/' *)
Definition QUOTECHAR : octet := 92.      (* '\' *)
Definition FCOMPNUM : nat := 10.
Definition KRB5_NT_PRINCIPAL : Z := 1.

(** p[q] = o *)
Definition put {E} (block : list octet) (q : Z) (o : octet) : outcome E (list octet) :=
  if (0 <=? q) && (q <? zlen block) then Ok (<[Z.to_nat q := o]> block) else Undefined.

Section Parse.
Context `{P : Platform}.

(** sizeof(krb5_principal_data), with pointers as wide as [long] *)
Definition sizeof_krb5_principal_data : Z := 16 + 3 * sizeof_long.

(** ** krb5_parse_name *)

(** What pass 1 finds: the number of the last component, the sizes of the first
    [FCOMPNUM] components ([None] for an element of [fcompsize] not assigned), and the
    size of the realm if there is one. *)
Record scan := Scan { sc_i : nat; sc_fcompsize : list (option Z); sc_realm : option Z }.

Definition set_fcompsize (fcompsize : list (option Z)) (i : nat) (size : Z) : list (option Z) :=
  if (i <? FCOMPNUM)%nat then <[i := Some size]> fcompsize else fcompsize.

Fixpoint parse_pass1 (cp : list octet) (i : nat) (size : Z) (fcompsize : list (option Z))
    (parsed_realm : bool) : outcome error_code scan :=
  match cp with
  | [] => Undefined
  | c :: cp' =>
      if c =? 0 then
        Ok (if parsed_realm then Scan i fcompsize (Some size)
            else Scan i (set_fcompsize fcompsize i size) None)
      else if c =? QUOTECHAR then
        match cp' with
        | [] => Undefined
        | c' :: cp'' =>
            if c' =? 0 then Err KRB5_PARSE_MALFORMED
            else parse_pass1 cp'' i (size + 1) fcompsize parsed_realm
        end
      else if c =? COMPONENT_SEP then
        if parsed_realm then Err KRB5_PARSE_MALFORMED
        else parse_pass1 cp' (S i) 0 (set_fcompsize fcompsize i size) parsed_realm
      else if c =? REALM_SEP then
        if parsed_realm then Err KRB5_PARSE_MALFORMED
        else match cp' with
             | [] => Undefined
             | c' :: _ =>
                 if c' =? 0 then Err KRB5_PARSE_MALFORMED
                 else parse_pass1 cp' i 0 (set_fcompsize fcompsize i size) true
             end
      else parse_pass1 cp' i (size + 1) fcompsize parsed_realm
  end.

(** krb5_princ_component(context, principal, i)->length = size *)
Definition set_length (lengths : list (option Z)) (i : nat) (size : Z)
    : outcome error_code (list (option Z)) :=
  if (i <? length lengths)%nat then Ok (<[i := Some size]> lengths) else Undefined.

(** Pass 2: the lengths of all components, and the last component's number.  The length
    it stores for the realm is stored again later. *)
Fixpoint parse_pass2 (cp : list octet) (i : nat) (size : Z) (lengths : list (option Z))
    (parsed_realm : bool) : outcome error_code (nat * list (option Z)) :=
  match cp with
  | [] => Undefined
  | c :: cp' =>
      if c =? 0 then
        if parsed_realm then Ok (i, lengths)
        else let* lengths := set_length lengths i size in Ok (i, lengths)
      else if c =? QUOTECHAR then
        match cp' with
        | [] => Undefined
        | _ :: cp'' => parse_pass2 cp'' i (size + 1) lengths parsed_realm
        end
      else if c =? COMPONENT_SEP then
        let* lengths := set_length lengths i size in
        parse_pass2 cp' (S i) 0 lengths parsed_realm
      else if c =? REALM_SEP then
        let* lengths := set_length lengths i size in
        parse_pass2 cp' i 0 lengths true
      else parse_pass2 cp' i (size + 1) lengths parsed_realm
  end.

(** The switch on the character behind a quote. *)
Definition unquote (c : octet) : octet :=
  if c =? 110 then 10        (* 'n': newline *)
  else if c =? 116 then 9    (* 't': tab *)
  else if c =? 98 then 8     (* 'b': backspace *)
  else if c =? 48 then 0     (* '0': NUL *)
  else c.

(** The strings of the principal and the pointer [q] into one of them: a component's or,
    with [None], the realm's. *)
Record strings := Strings {
  st_comp : list (list octet); st_realm : list octet; st_cur : option nat; st_q : Z
}.

(** *q++ = o *)
Definition put_next (st : strings) (o : octet) : outcome error_code strings :=
  match st_cur st with
  | None =>
      let* b := put (st_realm st) (st_q st) o in
      Ok (Strings (st_comp st) b None (st_q st + 1))
  | Some n =>
      match st_comp st !! n with
      | None => Undefined
      | Some b =>
          let* b := put b (st_q st) o in
          Ok (Strings (<[n := b]> (st_comp st)) (st_realm st) (Some n) (st_q st + 1))
      end
  end.

(** q = the data of another component (undefined if there is none), or of the realm *)
Definition point (st : strings) (cur : option nat) : outcome error_code strings :=
  match cur with
  | Some n =>
      if (n <? length (st_comp st))%nat
      then Ok (Strings (st_comp st) (st_realm st) cur 0) else Undefined
  | None => Ok (Strings (st_comp st) (st_realm st) cur 0)
  end.

Fixpoint parse_pass3 (cp : list octet) (i : nat) (st : strings) : outcome error_code strings :=
  match cp with
  | [] => Undefined
  | c :: cp' =>
      if c =? 0 then put_next st 0
      else if c =? QUOTECHAR then
        match cp' with
        | [] => Undefined
        | c' :: cp'' =>
            let* st := put_next st (unquote c') in
            parse_pass3 cp'' i st
        end
      else if (c =? COMPONENT_SEP) || (c =? REALM_SEP) then
        let* st := put_next st 0 in
        let* st := point st (if c =? COMPONENT_SEP then Some (S i) else None) in
        parse_pass3 cp' (S i) st
      else
        let* st := put_next st c in
        parse_pass3 cp' i st
  end.

(** The loop that allocates the strings of the components. *)
Fixpoint alloc_strings (lengths : list Z) : outcome error_code (list (list octet)) :=
  match lengths with
  | [] => Ok []
  | n :: lengths =>
      match malloc (n + 1) with
      | None => Err ENOMEM
      | Some b => let* bs := alloc_strings lengths in Ok (b :: bs)
      end
  end.

(** The octets of a string in front of its NUL. *)
Fixpoint strlen (s : list octet) : Z :=
  match s with
  | [] => 0
  | c :: s => if c =? 0 then 0 else 1 + strlen s
  end.

(** The lengths assigned in pass 1 or pass 2; one not assigned would be indeterminate. *)
Definition assigned (lengths : list (option Z)) : outcome error_code (list Z) :=
  match mapM id lengths with Some l => Ok l | None => Undefined end.

(** The lengths of the components: those of pass 1 or, with many components, those of
    pass 2. *)
Definition component_lengths (name : list octet) (sc : scan) : outcome error_code (list Z) :=
  let components := S (sc_i sc) in
  if (FCOMPNUM <=? components)%nat then
    let* '(i, lengths) := parse_pass2 name 0 0 (replicate components None) false in
    if (S i =? components)%nat then assigned lengths else Undefined (* exit(1) *)
  else assigned (take components (sc_fcompsize sc)).

(** What follows once the size of the realm is known, [default_realm] being the string
    to copy if the name has no realm. *)
Definition parse_fill (name : list octet) (sc : scan) (realmsize : Z)
    (default_realm : option (list octet)) : outcome error_code krb5_principal_data :=
  let* lengths := component_lengths name sc in
  match malloc (realmsize + 1) with
  | None => Err ENOMEM
  | Some realm =>
      let* comps := alloc_strings lengths in
      let* st := parse_pass3 name 0 (Strings comps realm (Some O) 0) in
      let* realm :=
        match default_realm with
        | None => Ok (st_realm st)
        | Some r =>
            if realmsize + 1 <=? zlen (st_realm st)
            then Ok (take (Z.to_nat realmsize) r ++ [0] ++ drop (Z.to_nat (realmsize + 1)) (st_realm st))
            else Undefined
        end in
      Ok (Principal (Data realmsize (Some realm))
            (Some (zip_with (fun n b => Data n (Some b)) lengths (st_comp st)))
            (Z.of_nat (S (sc_i sc))) KRB5_NT_PRINCIPAL)
  end.

(** [get_default_realm] is the result of krb5_get_default_realm (def_realm.c), called at
    most once; the static variable [default_realm] keeps its string for later calls and
    is returned with the result. *)
Definition krb5_parse_name (get_default_realm : outcome error_code (list octet))
    (default_realm : option (list octet)) (name : list octet)
    : outcome error_code krb5_principal_data * option (list octet) :=
  match parse_pass1 name 0 0 (replicate FCOMPNUM None) false with
  | Ok sc =>
      match malloc sizeof_krb5_principal_data,
            malloc (sizeof_krb5_data * Z.of_nat (S (sc_i sc))) with
      | Some _, Some _ =>
          match sc_realm sc, default_realm with
          | Some realmsize, _ => (parse_fill name sc realmsize None, default_realm)
          | None, Some r => (parse_fill name sc (strlen r) (Some r), default_realm)
          | None, None =>
              match get_default_realm with
              | Ok r => (parse_fill name sc (strlen r) (Some r), Some r)
              | Err e => (Err e, None)
              | Undefined => (Undefined, None)
              | OutOfFuel => (OutOfFuel, None)
              end
          end
      | _, _ => (Err ENOMEM, default_realm)
      end
  | Err e => (Err e, default_realm)
  | Undefined => (Undefined, default_realm)
  | OutOfFuel => (OutOfFuel, default_realm)
  end.

(** ** krb5_unparse_name *)

(** cp[0], ..., cp[length-1] *)
Definition contents (d : krb5_data) : outcome error_code (list octet) :=
  match d_data d with
  | Some l =>
      match load_n l 0 (Z.to_nat (d_length d)) with Some s => Ok s | None => Undefined end
  | None => if d_length d <=? 0 then Ok [] else Undefined
  end.

(** The characters that are counted twice. *)
Definition is_quoted (c : octet) : bool :=
  (c =? REALM_SEP) || (c =? COMPONENT_SEP) || (c =? 0) || (c =? QUOTECHAR) || (c =? 9) ||
  (c =? 10) || (c =? 8).

(** totalsize += length and the count of the quotes, and the separator *)
Definition data_size (d : krb5_data) : outcome error_code Z :=
  let* s := contents d in
  Ok (d_length d + zlen (filter (fun c => is_quoted c = true) s) + 1).

Fixpoint components_size (data : list krb5_data) (n : nat) : outcome error_code Z :=
  match n, data with
  | O, _ => Ok 0
  | S n, d :: data =>
      let* k := data_size d in
      let* m := components_size data n in
      Ok (k + m)
  | S _, [] => Undefined
  end.

(** The switch that writes one character. *)
Definition quote (c : octet) : list octet :=
  if (c =? COMPONENT_SEP) || (c =? REALM_SEP) || (c =? QUOTECHAR) then [QUOTECHAR; c]
  else if c =? 9 then [QUOTECHAR; 116]
  else if c =? 10 then [QUOTECHAR; 110]
  else if c =? 8 then [QUOTECHAR; 98]
  else if c =? 0 then [QUOTECHAR; 48]
  else [c].

(** *q++ = o for every octet *)
Fixpoint puts (name : list octet) (q : Z) (s : list octet) : outcome error_code (list octet * Z) :=
  match s with
  | [] => Ok (name, q)
  | o :: s => let* name := put name q o in puts name (q + 1) s
  end.

Definition put_data (name : list octet) (q : Z) (d : krb5_data)
    : outcome error_code (list octet * Z) :=
  let* s := contents d in
  puts name q (s ≫= quote).

Fixpoint put_components (name : list octet) (q : Z) (data : list krb5_data) (n : nat)
    : outcome error_code (list octet * Z) :=
  match n, data with
  | O, _ => Ok (name, q)
  | S n, d :: data =>
      let* '(name, q) := put_data name q d in
      let* '(name, q) := puts name q [COMPONENT_SEP] in
      put_components name q data n
  | S _, [] => Undefined
  end.

(** The block at *name after the allocation, and what *size holds; [None] for a [size]
    that is NULL. *)
Definition unparse_alloc (totalsize : Z) (name : option (list octet)) (size : option Z)
    : outcome error_code (list octet * option Z) :=
  match name with
  | Some block =>
      match size with
      | None => Undefined
      | Some n =>
          if n <? totalsize then
            match realloc block totalsize with
            | Some block => Ok (block, Some totalsize)
            | None => Err ENOMEM
            end
          else Ok (block, size)
      end
  | None =>
      match malloc totalsize with
      | Some block => Ok (block, match size with Some _ => Some totalsize | None => None end)
      | None => Err ENOMEM
      end
  end.

Definition krb5_unparse_name_ext (principal : krb5_principal_data)
    (name : option (list octet)) (size : option Z)
    : outcome error_code (list octet * option Z) :=
  let nelem := Z.to_nat (pr_length principal) in
  let data := match pr_data principal with Some l => l | None => [] end in
  let* k := data_size (pr_realm principal) in
  let* m := components_size data nelem in
  let* '(name, size) := unparse_alloc (k + m) name size in
  let* '(name, q) := put_components name 0 data nelem in
  let q := q - 1 in
  let* '(name, q) := puts name q [REALM_SEP] in
  let* '(name, q) := put_data name q (pr_realm principal) in
  let* '(name, q) := puts name q [0] in
  Ok (name, size).

Definition krb5_unparse_name (principal : krb5_principal_data)
    : outcome error_code (list octet) :=
  let* '(name, _) := krb5_unparse_name_ext principal None None in Ok name.

End Parse.

(** ** krb5_principal_compare *)

(** length equal and memcmp() == 0; a negative length is a huge [size_t] *)
Definition data_compare (d1 d2 : krb5_data) : outcome error_code bool :=
  if d_length d1 =? d_length d2 then
    if d_length d1 <? 0 then Undefined else
    let* s1 := contents d1 in
    let* s2 := contents d2 in
    Ok (bool_decide (s1 = s2))
  else Ok false.

Definition krb5_realm_compare (princ1 princ2 : krb5_principal_data) : outcome error_code bool :=
  data_compare (pr_realm princ1) (pr_realm princ2).

Fixpoint components_compare (n : nat) (l1 l2 : list krb5_data) : outcome error_code bool :=
  match n, l1, l2 with
  | O, _, _ => Ok true
  | S n, d1 :: l1, d2 :: l2 =>
      let* b := data_compare d1 d2 in
      if b then components_compare n l1 l2 else Ok false
  | S _, _, _ => Undefined
  end.

Definition krb5_principal_compare (princ1 princ2 : krb5_principal_data)
    : outcome error_code bool :=
  if negb (pr_length princ1 =? pr_length princ2) then Ok false
  else
    let* b := krb5_realm_compare princ1 princ2 in
    if negb b then Ok false
    else
      match pr_data princ1, pr_data princ2 with
      | Some l1, Some l2 => components_compare (Z.to_nat (pr_length princ1)) l1 l2
      | _, _ => if pr_length princ1 <=? 0 then Ok true else Undefined
      end.
