(* ===== verification/PrincNameProofs.v ===== *)
(** * Parsing and printing principal names

    The grammar of principal names, that [krb5_parse_name] implements it in its three
    passes without leaving any of the blocks it allocates, and that it inverts
    [krb5_unparse_name]. *)

From S2P Require Import Prelude Asn1Buf Krb5Types PrincName.

(** ** The grammar *)

Inductive token := Ch (c : octet) | Sep | At.

(** A quote takes the next character literally; at the end of the string it is an
    error. *)
Fixpoint lex (s : list octet) : option (list token) :=
  match s with
  | [] => Some []
  | c :: s' =>
      if c =? QUOTECHAR then
        match s' with
        | [] => None
        | c' :: s'' => cons (Ch (unquote c')) <$> lex s''
        end
      else cons (if c =? COMPONENT_SEP then Sep else if c =? REALM_SEP then At else Ch c) <$> lex s'
  end.

(** A realm: characters only. *)
Fixpoint chars (ts : list token) : option (list octet) :=
  match ts with
  | [] => Some []
  | Ch c :: ts => cons c <$> chars ts
  | _ => None
  end.

(** component (/ component)* [@ realm], with the realm not empty: the first component,
    the others and the realm. *)
Fixpoint name_of (ts : list token) : option (list octet * list (list octet) * option (list octet)) :=
  match ts with
  | [] => Some ([], [], None)
  | Ch c :: ts =>
      match name_of ts with Some (c0, cs, r) => Some (c :: c0, cs, r) | None => None end
  | Sep :: ts =>
      match name_of ts with Some (c0, cs, r) => Some ([], c0 :: cs, r) | None => None end
  | At :: ts =>
      match chars ts with
      | Some (c :: r) => Some ([], [], Some (c :: r))
      | _ => None
      end
  end.

Definition read_name (s : list octet) := lex s ≫= name_of.

(** The string in front of its NUL. *)
Definition cstring (s : list octet) : list octet := take (Z.to_nat (strlen s)) s.

(** The data of a string in a block of its own, with a terminating NUL. *)
Definition name_data (s : list octet) : krb5_data := Data (zlen s) (Some (s ++ [0])).

Definition name_principal (realm : list octet) (comps : list (list octet)) : krb5_principal_data :=
  Principal (name_data realm) (Some (name_data <$> comps)) (zlen comps) KRB5_NT_PRINCIPAL.

Abbreviation no_nul := (Forall (fun c : octet => c <> 0)).

(** Induction along [lex]. *)
Lemma lex_ind (Q : list octet -> Prop) :
  Q [] -> Q [QUOTECHAR] ->
  (forall c s, Q s -> Q (QUOTECHAR :: c :: s)) ->
  (forall c s, c <> QUOTECHAR -> Q s -> Q (c :: s)) ->
  forall s, Q s.
Proof.
  intros H0 H1 H2 H3 s.
  assert (H : forall n s, (length s <= n)%nat -> Q s); [|by apply (H (length s))].
  clear s. induction n as [|n IH]; intros [|c s] Hn; simpl in Hn; [done|lia|done|].
  destruct (decide (c = QUOTECHAR)) as [->|]; [|apply H3; [done|apply IH; lia]].
  destruct s as [|c' s]; [done|]. simpl in Hn. apply H2, IH. lia.
Qed.

Lemma lex_plain c s : c <> QUOTECHAR ->
  lex (c :: s) = cons (if c =? COMPONENT_SEP then Sep else if c =? REALM_SEP then At else Ch c) <$> lex s.
Proof. intros H. cbn [lex]. by rewrite (proj2 (Z.eqb_neq _ _) H). Qed.

Lemma lex_quoted c s : lex (QUOTECHAR :: c :: s) = cons (Ch (unquote c)) <$> lex s.
Proof. done. Qed.

Lemma lex_nonempty c s ts : lex (c :: s) = Some ts -> ts <> [].
Proof.
  cbn [lex]. destruct (c =? QUOTECHAR); [destruct s as [|? s]; [done|]|];
  destruct (lex s); by intros [= <-].
Qed.

Lemma chars_nonempty ts : ts <> [] -> chars ts <> Some [].
Proof. destruct ts as [|[c| |] ts]; simpl; [done| |done|done]. by destruct (chars ts). Qed.

(** ** Pass 1 and pass 2: the lengths *)

(** The elements from [i] on are assigned. *)
Fixpoint assign (sizes : list (option Z)) (i : nat) (l : list Z) : list (option Z) :=
  match l with
  | [] => sizes
  | z :: l => assign (<[i := Some z]> sizes) (S i) l
  end.

Lemma assign_spec l : forall sizes i, (i + length l <= length sizes)%nat ->
  assign sizes i l = take i sizes ++ (Some <$> l) ++ drop (i + length l) sizes.
Proof.
  induction l as [|z l IH]; intros sizes i H; cbn [assign fmap list_fmap length].
  - rewrite Nat.add_0_r. simpl. by rewrite take_drop.
  - cbn [length] in H. rewrite IH by (rewrite length_insert; lia).
    rewrite take_S_insert, drop_insert_lt by lia. rewrite <- app_assoc, Nat.add_succ_r.
    done.
Qed.

Lemma set_fcompsize_insert sizes i z :
  length sizes = FCOMPNUM -> set_fcompsize sizes i z = <[i := Some z]> sizes.
Proof.
  intros H. unfold set_fcompsize. destruct (Nat.ltb_spec i FCOMPNUM); [done|].
  rewrite list_insert_ge; [done|lia].
Qed.

Lemma mapM_some {A} (l : list A) : mapM id (Some <$> l) = Some l.
Proof. apply mapM_Some_2. induction l; by constructor. Qed.

(** Case analysis on a character that is not NUL and not the quote. *)
Ltac char_cases c :=
  rewrite ?(proj2 (Z.eqb_neq c 0)), ?(proj2 (Z.eqb_neq c QUOTECHAR)) by done;
  destruct (Z.eqb_spec c COMPONENT_SEP) as [->|]; [|destruct (Z.eqb_spec c REALM_SEP) as [->|]];
  simpl orb; cbv iota.

Section Passes.
Variable junk : list octet.

Lemma pass1_realm s : forall i size sizes, no_nul s ->
  parse_pass1 (s ++ 0 :: junk) i size sizes true =
  match lex s ≫= chars with
  | Some r => Ok (Scan i sizes (Some (size + zlen r)))
  | None => Err KRB5_PARSE_MALFORMED
  end.
Proof.
  induction s as [| |c s IH|c s Hc IH] using lex_ind; intros i size sizes Hs.
  - simpl. by rewrite Z.add_0_r.
  - done.
  - apply Forall_cons_1 in Hs as [_ [Hc Hs]%Forall_cons_1]. rewrite lex_quoted. simpl.
    rewrite (proj2 (Z.eqb_neq _ _) Hc), IH by done. destruct (lex s) as [ts|]; [simpl|done].
    destruct (chars ts); simpl; [|done]. rewrite zlen_cons. do 3 f_equal. lia.
  - apply Forall_cons_1 in Hs as [H0 Hs]. rewrite lex_plain by done. cbn [app parse_pass1].
    char_cases c; [by destruct (lex s)|by destruct (lex s)|].
    rewrite IH by done. destruct (lex s) as [ts|]; [simpl|done].
    destruct (chars ts); simpl; [|done]. rewrite zlen_cons. do 3 f_equal. lia.
Qed.

Lemma pass1_spec s : forall i size sizes, no_nul s -> length sizes = FCOMPNUM ->
  parse_pass1 (s ++ 0 :: junk) i size sizes false =
  match read_name s with
  | Some (c0, cs, r) =>
      Ok (Scan (i + length cs) (assign sizes i (size + zlen c0 :: (zlen <$> cs))) (zlen <$> r))
  | None => Err KRB5_PARSE_MALFORMED
  end.
Proof.
  unfold read_name.
  induction s as [| |c s IH|c s Hc IH] using lex_ind; intros i size sizes Hs HL.
  - simpl. by rewrite set_fcompsize_insert, Nat.add_0_r, Z.add_0_r.
  - done.
  - apply Forall_cons_1 in Hs as [_ [Hc Hs]%Forall_cons_1]. rewrite lex_quoted. simpl.
    rewrite (proj2 (Z.eqb_neq _ _) Hc), IH by done. destruct (lex s) as [ts|]; [simpl|done].
    destruct (name_of ts) as [[[c0 cs] r]|]; simpl; [|done]. rewrite zlen_cons.
    by replace (size + 1 + zlen c0) with (size + (zlen c0 + 1)) by lia.
  - apply Forall_cons_1 in Hs as [H0 Hs]. rewrite lex_plain by done. cbn [app parse_pass1].
    char_cases c.
    + rewrite set_fcompsize_insert by done. rewrite IH by (try rewrite length_insert; done).
      destruct (lex s) as [ts|]; [simpl|done].
      destruct (name_of ts) as [[[c0 cs] r]|]; simpl; [|done].
      rewrite Z.add_0_r, Nat.add_succ_r. by replace (0 + zlen c0) with (zlen c0) by lia.
    + destruct s as [|c' s]; [done|]. cbn [app]. apply Forall_cons_1 in Hs as [H' Hs].
      rewrite (proj2 (Z.eqb_neq _ _) H'), set_fcompsize_insert by done.
      rewrite (pass1_realm (c' :: s)) by by constructor.
      pose proof (lex_nonempty c' s) as Hn.
      destruct (lex (c' :: s)) as [ts|]; [simpl|done].
      pose proof (chars_nonempty ts (Hn _ eq_refl)) as Hr.
      destruct (chars ts) as [[|? ?]|]; simpl; [done| |done].
      by rewrite Nat.add_0_r, Z.add_0_r.
    + rewrite IH by done. destruct (lex s) as [ts|]; [simpl|done].
      destruct (name_of ts) as [[[c0 cs] r]|]; simpl; [|done]. rewrite zlen_cons.
      by replace (size + 1 + zlen c0) with (size + (zlen c0 + 1)) by lia.
Qed.

Lemma pass2_realm s : forall i size L r, no_nul s -> lex s ≫= chars = Some r ->
  parse_pass2 (s ++ 0 :: junk) i size L true = Ok (i, L).
Proof.
  induction s as [| |c s IH|c s Hc IH] using lex_ind; intros i size L r Hs Hr; [done|done| |].
  - apply Forall_cons_1 in Hs as [_ [Hc Hs]%Forall_cons_1]. rewrite lex_quoted in Hr.
    destruct (lex s) as [ts|]; [simpl in Hr|done].
    destruct (chars ts) as [r'|] eqn:E; simpl in Hr; [|done]. simpl. by apply (IH _ _ _ r').
  - apply Forall_cons_1 in Hs as [H0 Hs]. rewrite lex_plain in Hr by done. cbn [app parse_pass2].
    revert Hr. char_cases c; destruct (lex s) as [ts|]; simpl; try done.
    destruct (chars ts) as [r'|] eqn:E; simpl; [|done]. intros _. by apply (IH _ _ _ r').
Qed.

Lemma pass2_spec s : forall i size L c0 cs r, no_nul s -> read_name s = Some (c0, cs, r) ->
  (i + length cs < length L)%nat ->
  parse_pass2 (s ++ 0 :: junk) i size L false =
  Ok ((i + length cs)%nat, assign L i (size + zlen c0 :: (zlen <$> cs))).
Proof.
  unfold read_name.
  induction s as [| |c s IH|c s Hc IH] using lex_ind; intros i size L c0 cs r Hs Hr HL.
  - injection Hr as <- <- <-. simpl in *. unfold set_length.
    rewrite (proj2 (Nat.ltb_lt _ _)) by lia. simpl. by rewrite Nat.add_0_r, Z.add_0_r.
  - done.
  - apply Forall_cons_1 in Hs as [_ [Hc Hs]%Forall_cons_1]. rewrite lex_quoted in Hr.
    destruct (lex s) as [ts|]; [simpl in Hr|done].
    destruct (name_of ts) as [[[c0' cs'] r']|] eqn:E; simpl in Hr; [|done].
    injection Hr as <- <- <-. simpl. rewrite (IH _ _ _ c0' cs' r') by done.
    by replace (size + 1 + zlen c0') with (size + zlen (unquote c :: c0')) by lens.
  - apply Forall_cons_1 in Hs as [H0 Hs]. rewrite lex_plain in Hr by done. cbn [app parse_pass2].
    revert Hr. char_cases c; destruct (lex s) as [ts|] eqn:El; simpl; try done.
    + destruct (name_of ts) as [[[c0' cs'] r']|] eqn:E; [|done]. intros [= <- <- <-].
      simpl in HL. unfold set_length. rewrite (proj2 (Nat.ltb_lt _ _)) by lia. simpl.
      rewrite (IH _ _ _ c0' cs' r') by (rewrite ?length_insert; done || lia).
      rewrite Z.add_0_r, Nat.add_succ_r. simpl. by replace (0 + zlen c0') with (zlen c0') by lia.
    + destruct (chars ts) as [[|x r']|] eqn:E; [done| |done]. intros [= <- <- <-].
      simpl in HL. unfold set_length. rewrite (proj2 (Nat.ltb_lt _ _)) by lia. simpl.
      rewrite (pass2_realm _ _ _ _ (x :: r')) by (rewrite ?El; done).
      by rewrite Nat.add_0_r, Z.add_0_r.
    + destruct (name_of ts) as [[[c0' cs'] r']|] eqn:E; [|done]. intros [= <- <- <-].
      rewrite (IH _ _ _ c0' cs' r') by done.
      by replace (size + 1 + zlen c0') with (size + zlen (c :: c0')) by lens.
Qed.

(** ** Pass 3: the strings *)

Lemma put_ok {E} (w jk : list octet) x o :
  @put E (w ++ x :: jk) (zlen w) o = Ok ((w ++ [o]) ++ jk).
Proof.
  unfold put. rewrite (proj2 (andb_true_iff _ _)) by (split; lens).
  unfold zlen. rewrite Nat2Z.id, insert_app_r_alt, Nat.sub_diag by lia. simpl.
  by rewrite <- app_assoc.
Qed.

(** A block whose first octets [w] are written, with room for [k] more. *)
Definition partial (b w : list octet) (k : nat) : Prop :=
  exists jk, b = w ++ jk /\ length jk = k.

Lemma put_next_comp pre b post realm w k o : partial b w (S k) ->
  exists b', put_next (Strings (pre ++ b :: post) realm (Some (length pre)) (zlen w)) o =
    Ok (Strings (pre ++ b' :: post) realm (Some (length pre)) (zlen (w ++ [o]))) /\
    partial b' (w ++ [o]) k.
Proof.
  intros ([|x jk] & -> & H); [done|]. exists ((w ++ [o]) ++ jk). injection H as H.
  split; [|by exists jk]. unfold put_next. cbn [st_cur st_comp st_q st_realm].
  rewrite list_lookup_middle, put_ok by done. cbn [obind].
  rewrite insert_app_r_alt, Nat.sub_diag by lia. simpl. do 2 f_equal. lens.
Qed.

Lemma put_next_realm comps b w k o : partial b w (S k) ->
  exists b', put_next (Strings comps b None (zlen w)) o =
    Ok (Strings comps b' None (zlen (w ++ [o]))) /\ partial b' (w ++ [o]) k.
Proof.
  intros ([|x jk] & -> & H); [done|]. exists ((w ++ [o]) ++ jk). injection H as H.
  split; [|by exists jk]. unfold put_next. cbn [st_cur st_comp st_q st_realm].
  rewrite put_ok. simpl. do 2 f_equal. lens.
Qed.

Lemma partial_full b w : partial b w 0 -> b = w.
Proof. intros ([|] & -> & H); [apply app_nil_r|done]. Qed.

Lemma partial_start b k : length b = k -> partial b [] k.
Proof. by exists b. Qed.

Lemma pass3_realm s : forall i comps b w r, no_nul s -> lex s ≫= chars = Some r ->
  partial b w (S (length r)) ->
  exists q, parse_pass3 (s ++ 0 :: junk) i (Strings comps b None (zlen w)) =
    Ok (Strings comps (w ++ r ++ [0]) None q).
Proof.
  induction s as [| |c s IH|c s Hc IH] using lex_ind; intros i comps b w r Hs Hr Hb.
  - injection Hr as <-. destruct (put_next_realm comps b w 0 0 Hb) as (b' & E & Hb').
    eexists. cbn [app parse_pass3 Z.eqb]. rewrite E. by rewrite (partial_full _ _ Hb').
  - done.
  - apply Forall_cons_1 in Hs as [_ [Hc Hs]%Forall_cons_1]. rewrite lex_quoted in Hr.
    destruct (lex s) as [ts|]; [simpl in Hr|done].
    destruct (chars ts) as [r'|] eqn:E; simpl in Hr; [|done]. injection Hr as <-.
    destruct (put_next_realm comps b w _ (unquote c) Hb) as (b' & Ep & Hb').
    cbn [app parse_pass3]. rewrite Ep. simpl obind.
    destruct (IH i comps b' (w ++ [unquote c]) r' Hs E Hb') as (q & ->). exists q.
    by rewrite <- app_assoc.
  - apply Forall_cons_1 in Hs as [H0 Hs]. rewrite lex_plain in Hr by done.
    cbn [app parse_pass3]. revert Hr. char_cases c; destruct (lex s) as [ts|]; simpl; try done.
    destruct (chars ts) as [r'|] eqn:E; simpl; [|done]. intros [= <-].
    destruct (put_next_realm comps b w _ c Hb) as (b' & Ep & Hb'). rewrite Ep. simpl obind.
    destruct (IH i comps b' (w ++ [c]) r' Hs E Hb') as (q & ->). exists q.
    by rewrite <- app_assoc.
Qed.

(** The blocks for further components have the size of their strings. *)
Abbreviation blocks := (Forall2 (fun b c : list octet => length b = S (length c))).

Lemma pass3_spec s : forall pre b post realm w c0 cs r, no_nul s ->
  read_name s = Some (c0, cs, r) ->
  partial b w (S (length c0)) -> blocks post cs ->
  (forall r', r = Some r' -> length realm = S (length r')) ->
  exists cur q, parse_pass3 (s ++ 0 :: junk) (length pre)
      (Strings (pre ++ b :: post) realm (Some (length pre)) (zlen w)) =
    Ok (Strings (pre ++ (w ++ c0 ++ [0]) :: ((fun c => c ++ [0]) <$> cs))
          (match r with Some r => r ++ [0] | None => realm end) cur q).
Proof.
  unfold read_name.
  induction s as [| |c s IH|c s Hc IH] using lex_ind;
    intros pre b post realm w c0 cs r Hs Hn Hb Hp Hr.
  - injection Hn as <- <- <-. apply Forall2_nil_inv_r in Hp as ->.
    destruct (put_next_comp pre b [] realm w 0 0 Hb) as (b' & E & Hb').
    do 2 eexists. cbn [app parse_pass3 Z.eqb]. rewrite E. by rewrite (partial_full _ _ Hb').
  - done.
  - apply Forall_cons_1 in Hs as [_ [Hc Hs]%Forall_cons_1]. rewrite lex_quoted in Hn.
    destruct (lex s) as [ts|]; [simpl in Hn|done].
    destruct (name_of ts) as [[[c0' cs'] r']|] eqn:E; simpl in Hn; [|done].
    injection Hn as <- <- <-.
    destruct (put_next_comp pre b post realm w _ (unquote c) Hb) as (b' & Ep & Hb').
    cbn [app parse_pass3]. rewrite Ep. simpl obind.
    destruct (IH pre b' post realm (w ++ [unquote c]) c0' cs' r' Hs E Hb' Hp Hr) as (cur & q & ->).
    exists cur, q. by rewrite <- app_assoc.
  - apply Forall_cons_1 in Hs as [H0 Hs]. rewrite lex_plain in Hn by done.
    cbn [app parse_pass3]. revert Hn. char_cases c; destruct (lex s) as [ts|] eqn:El; simpl; try done.
    + destruct (name_of ts) as [[[c0' cs'] r']|] eqn:E; [|done]. intros [= <- <- <-].
      apply Forall2_cons_inv_r in Hp as (b2 & post' & Hb2 & Hp & ->).
      destruct (put_next_comp pre b (b2 :: post') realm w 0 0 Hb) as (b' & Ep & Hb').
      rewrite Ep, (partial_full _ _ Hb'). simpl obind. unfold point. simpl st_comp.
      rewrite (proj2 (Nat.ltb_lt _ _)) by (rewrite length_app; simpl; lia). simpl obind.
      destruct (IH (pre ++ [w ++ [0]]) b2 post' realm [] c0' cs' r' Hs E
                  (partial_start _ _ Hb2) Hp Hr) as (cur & q & Eq).
      rewrite <- app_assoc in Eq. rewrite length_app, Nat.add_comm in Eq. simpl in Eq.
      change (zlen []) with 0 in Eq. rewrite Eq. exists cur, q. by rewrite <- app_assoc.
    + destruct (chars ts) as [[|x r']|] eqn:E; [done| |done]. intros [= <- <- <-].
      apply Forall2_nil_inv_r in Hp as ->.
      destruct (put_next_comp pre b [] realm w 0 0 Hb) as (b' & Ep & Hb').
      rewrite Ep, (partial_full _ _ Hb'). simpl obind.
      destruct (pass3_realm s (S (length pre)) (pre ++ [w ++ [0]]) realm [] (x :: r') Hs)
        as (q & Eq); [by rewrite El|by apply partial_start, Hr|].
      change (zlen []) with 0 in Eq. rewrite Eq. by exists None, q.
    + destruct (name_of ts) as [[[c0' cs'] r']|] eqn:E; [|done]. intros [= <- <- <-].
      destruct (put_next_comp pre b post realm w _ c Hb) as (b' & Ep & Hb').
      rewrite Ep. simpl obind.
      destruct (IH pre b' post realm (w ++ [c]) c0' cs' r' Hs E Hb' Hp Hr) as (cur & q & ->).
      exists cur, q. by rewrite <- app_assoc.
Qed.

End Passes.

(** ** The whole parser *)

(** The characters of a name and its separators are no more than those of the string. *)
Lemma name_of_length ts c0 cs r : name_of ts = Some (c0, cs, r) ->
  (length c0 + length cs + length (concat cs) + length (default [] r) <= length ts)%nat.
Proof.
  revert c0 cs r. induction ts as [|[c| |] ts IH]; intros c0 cs r H; simpl in H.
  - injection H as <- <- <-. simpl. lia.
  - destruct (name_of ts) as [[[c0' cs'] r']|]; [|done]. injection H as <- <- <-.
    specialize (IH _ _ _ eq_refl). simpl. lia.
  - destruct (name_of ts) as [[[c0' cs'] r']|]; [|done]. injection H as <- <- <-.
    specialize (IH _ _ _ eq_refl). simpl. rewrite length_app. lia.
  - assert (Hc : forall r, chars ts = Some r -> length r = length ts).
    { clear. induction ts as [|[c| |] ts IH]; intros r H; simpl in H; [by injection H as <-| |done|done].
      destruct (chars ts) as [r'|]; [|done]. injection H as <-. simpl. by rewrite (IH r'). }
    destruct (chars ts) as [[|x r']|]; [done| |done]. injection H as <- <- <-.
    specialize (Hc _ eq_refl). simpl in *. lia.
Qed.

Lemma lex_length s ts : lex s = Some ts -> (length ts <= length s)%nat.
Proof.
  revert ts. induction s as [| |c s IH|c s Hc IH] using lex_ind; intros ts H.
  - by injection H as <-.
  - done.
  - rewrite lex_quoted in H. destruct (lex s); [|done]. injection H as <-.
    specialize (IH _ eq_refl). simpl. lia.
  - rewrite lex_plain in H by done. destruct (lex s); [|done]. injection H as <-.
    specialize (IH _ eq_refl). simpl. lia.
Qed.

Lemma read_name_length s c0 cs r : read_name s = Some (c0, cs, r) ->
  zlen cs <= zlen s /\ Forall (fun c => zlen c <= zlen s) (c0 :: cs) /\ zlen (default [] r) <= zlen s.
Proof.
  unfold read_name. destruct (lex s) as [ts|] eqn:E; [|done]. simpl. intros H.
  apply name_of_length in H. apply lex_length in E. unfold zlen. repeat split; [lia| |lia].
  constructor; [lia|]. apply Forall_forall. intros c Hc.
  assert (length c <= length (concat cs))%nat; [|lia]. clear -Hc. revert Hc.
  induction cs as [|d cs IH]; intros Hc; [done|].
  simpl. rewrite length_app. destruct Hc as [->|Hc]; [lia|]. specialize (IH Hc). lia.
Qed.

Section ParseSpec.
Context `{P : Platform}.

(** Enough memory for a principal with a name of [n] characters. *)
Definition name_memory (n : Z) : Prop := 16 * (n + 1) + 40 <= malloc_limit.

Lemma malloc_ok n : 0 <= n <= malloc_limit -> exists b, malloc n = Some b /\ zlen b = n.
Proof.
  intros H. destruct (malloc n) eqn:E; [by eauto using malloc_length|].
  unfold malloc in E. by replace ((0 <=? n) && (n <=? malloc_limit)) with true in E by lia.
Qed.

Lemma alloc_strings_ok (cs : list (list octet)) :
  Forall (fun c => zlen c + 1 <= malloc_limit) cs ->
  exists bs, alloc_strings (zlen <$> cs) = Ok bs /\ Forall2 (fun b c => length b = S (length c)) bs cs.
Proof.
  induction 1 as [|c cs Hc _ (bs & E & IH)]; [by exists []|].
  destruct (malloc_ok (zlen c + 1)) as (b & Eb & Hb); [lens|].
  exists (b :: bs). rewrite fmap_cons. cbn [alloc_strings]. rewrite Eb, E. split; [done|]. constructor; [|done].
  unfold zlen in Hb. lia.
Qed.

Lemma component_lengths_ok s junk c0 cs r :
  no_nul s -> read_name s = Some (c0, cs, r) ->
  let sc := Scan (length cs) (assign (replicate FCOMPNUM None) 0 (zlen <$> c0 :: cs)) (zlen <$> r) in
  component_lengths (s ++ 0 :: junk) sc = Ok (zlen <$> c0 :: cs).
Proof.
  intros Hs Hn sc. unfold component_lengths. subst sc. cbn [sc_i sc_fcompsize].
  destruct (Nat.leb_spec FCOMPNUM (S (length cs))).
  - rewrite (pass2_spec _ s 0 0 _ c0 cs r) by (rewrite ?length_replicate; done || lia).
    cbn [obind]. rewrite Nat.eqb_refl.
    rewrite assign_spec by (rewrite length_replicate; simpl; rewrite length_fmap; lia).
    rewrite drop_ge by (rewrite length_replicate; simpl; rewrite length_fmap; lia).
    rewrite take_0, app_nil_r. unfold assigned. cbn [app]. rewrite mapM_some.
    by replace (0 + zlen c0) with (zlen c0) by lia.
  - assert (Hl : (length (zlen <$> c0 :: cs) < 10)%nat).
    { rewrite length_fmap. unfold FCOMPNUM in *. simpl. lia. }
    rewrite assign_spec by (rewrite length_replicate; unfold FCOMPNUM; lia).
    rewrite take_0. cbn [app]. rewrite take_app_length' by (rewrite !length_fmap; done).
    unfold assigned. by rewrite mapM_some.
Qed.

Lemma name_data_zip (cs : list (list octet)) :
  zip_with (fun n b => Data n (Some b)) (zlen <$> cs) ((fun c => c ++ [0]) <$> cs) = name_data <$> cs.
Proof. induction cs as [|c cs IH]; [done|]. rewrite !fmap_cons. cbn [zip_with]. by rewrite IH. Qed.

Lemma parse_fill_ok s junk c0 cs r realm dr :
  no_nul s -> name_memory (zlen s) -> read_name s = Some (c0, cs, r) ->
  zlen realm + 1 <= malloc_limit ->
  match dr with
  | None => r = Some realm
  | Some d => r = None /\ strlen d = zlen realm /\ cstring d = realm
  end ->
  let sc := Scan (length cs) (assign (replicate FCOMPNUM None) 0 (zlen <$> c0 :: cs)) (zlen <$> r) in
  parse_fill (s ++ 0 :: junk) sc (zlen realm) dr = Ok (name_principal realm (c0 :: cs)).
Proof.
  intros Hs Hm Hn Hrm Hdr sc. unfold parse_fill. subst sc.
  rewrite (component_lengths_ok s junk c0 cs r) by done. cbn [obind].
  destruct (malloc_ok (zlen realm + 1)) as (rb & -> & Hrb); [lens|].
  destruct (read_name_length _ _ _ _ Hn) as (_ & Hc & Hr).
  destruct (alloc_strings_ok (c0 :: cs)) as (bs & -> & Hbs).
  { eapply Forall_impl; [|exact Hc]. unfold name_memory in Hm. simpl. intros. lens. }
  apply Forall2_cons_inv_r in Hbs as (b & post & Hb & Hp & ->). cbn [obind].
  assert (Hb0 : partial b [] (S (length c0))) by (by exists b).
  destruct (pass3_spec junk s [] b post rb [] c0 cs r Hs Hn Hb0 Hp) as (cur & q & E).
  { intros r' ->. destruct dr; [by destruct Hdr|]. injection Hdr as ->. unfold zlen in Hrb. lia. }
  change (zlen []) with 0 in E. simpl app in E. simpl length in E. rewrite E. cbn [obind].
  cbn [st_realm st_comp]. change ((c0 ++ [0]) :: ((fun c => c ++ [0]) <$> cs)) with
    ((fun c : list octet => c ++ [0]) <$> c0 :: cs). rewrite name_data_zip.
  cbn [sc_i]. change (Z.of_nat (S (length cs))) with (zlen (c0 :: cs)).
  destruct dr as [d|]; [destruct Hdr as (-> & Hd & Hd')|subst r; cbn [obind]].
  - rewrite Hrb, Z.leb_refl. cbn [obind]. rewrite <- Hd at 2.
    change (take (Z.to_nat (strlen d)) d) with (cstring d).
    rewrite Hd', (drop_ge rb) by (unfold zlen in *; lia). by rewrite app_nil_r.
  - done.
Qed.

Lemma strlen_nonneg s : 0 <= strlen s <= zlen s.
Proof.
  induction s as [|c s IH]; [done|]. rewrite zlen_cons. simpl. destruct (c =? 0); lens.
Qed.

Lemma cstring_length d : zlen (cstring d) = strlen d.
Proof.
  unfold cstring, zlen. pose proof (strlen_nonneg d). unfold zlen in *. rewrite length_take. lia.
Qed.

(** What the parser finds for a name without a realm: the realm it has kept from an
    earlier call, or else the result of asking for it. *)
Definition the_default (get_default_realm : outcome error_code (list octet))
    (default_realm : option (list octet)) : outcome error_code (list octet) :=
  match default_realm with Some d => Ok d | None => get_default_realm end.

Lemma parse_name_eq s junk get dr :
  no_nul s -> name_memory (zlen s) ->
  (forall c0 cs d, read_name s = Some (c0, cs, None) -> the_default get dr = Ok d ->
     strlen d + 1 <= malloc_limit) ->
  krb5_parse_name get dr (s ++ 0 :: junk) =
  match read_name s with
  | None => (Err KRB5_PARSE_MALFORMED, dr)
  | Some (c0, cs, Some realm) => (Ok (name_principal realm (c0 :: cs)), dr)
  | Some (c0, cs, None) =>
      match the_default get dr with
      | Ok d => (Ok (name_principal (cstring d) (c0 :: cs)), Some d)
      | Err e => (Err e, dr)
      | Undefined => (Undefined, dr)
      | OutOfFuel => (OutOfFuel, dr)
      end
  end.
Proof.
  intros Hs Hm Hd. unfold krb5_parse_name. rewrite pass1_spec by done.
  destruct (read_name s) as [[[c0 cs] r]|] eqn:Hn; [|done].
  destruct (read_name_length _ _ _ _ Hn) as (Hcs & _ & Hr).
  pose proof Hm as Hm'. unfold name_memory in Hm'. cbn [sc_i].
  destruct (malloc_ok sizeof_krb5_principal_data) as (? & -> & _).
  { unfold sizeof_krb5_principal_data. destruct sizeof_long_ok as [-> | ->]; lens. }
  destruct (malloc_ok (sizeof_krb5_data * Z.of_nat (S (0 + length cs)))) as (? & -> & _).
  { unfold sizeof_krb5_data. unfold zlen in *. destruct sizeof_long_ok as [-> | ->]; lia. }
  replace (0 + zlen c0) with (zlen c0) by lia. cbn [sc_realm].
  change (zlen c0 :: (zlen <$> cs)) with (zlen <$> c0 :: cs). change (0 + length cs)%nat with (length cs).
  destruct r as [realm|]; [cbn [fmap option_fmap option_map]|].
  - f_equal. apply (parse_fill_ok s junk c0 cs (Some realm) realm None); try done.
    simpl in Hr. lens.
  - unfold the_default in *. destruct dr as [d|]; [|destruct get as [d| | |]; try done];
    f_equal; rewrite <- cstring_length;
    (apply (parse_fill_ok s junk c0 cs None (cstring d) (Some d)); try done;
     [rewrite cstring_length; by eapply Hd|by rewrite cstring_length]).
Qed.

End ParseSpec.

(** ** Printing *)

(** [d] holds the octets [s], possibly with more behind them. *)
Definition data_holds (d : krb5_data) (s : list octet) : Prop :=
  d_length d = zlen s /\
  match d_data d with Some l => exists t, l = s ++ t | None => s = [] end.

(** The principal has these components and this realm. *)
Definition princ_holds (p : krb5_principal_data) (realm : list octet) (comps : list (list octet)) : Prop :=
  data_holds (pr_realm p) realm /\ pr_length p = zlen comps /\
  exists data, pr_data p = Some data /\ Forall2 data_holds data comps.

Abbreviation quoted s := (s ≫= quote).

(** component/component...@realm with quoting *)
Definition name_string (realm c0 : list octet) (cs : list (list octet)) : list octet :=
  quoted c0 ++ concat ((fun c => COMPONENT_SEP :: quoted c) <$> cs) ++ REALM_SEP :: quoted realm.

Lemma contents_ok d s : data_holds d s -> contents d = Ok s.
Proof.
  intros [H1 H2]. unfold contents. rewrite H1. destruct (d_data d) as [l|].
  - destruct H2 as [t ->]. unfold zlen. by rewrite Nat2Z.id, load_n_prefix.
  - by subst.
Qed.

Lemma data_holds_name s : data_holds (name_data s) s.
Proof. split; [done|]. by exists [0]. Qed.

Lemma princ_holds_name realm comps : princ_holds (name_principal realm comps) realm comps.
Proof.
  split; [apply data_holds_name|]. split; [done|]. exists (name_data <$> comps). split; [done|].
  induction comps; constructor; [apply data_holds_name|done].
Qed.

Lemma quote_cases c :
  (is_quoted c = true /\ exists c', quote c = [QUOTECHAR; c'] /\ unquote c' = c /\ c' <> 0) \/
  (is_quoted c = false /\ quote c = [c] /\ c <> 0 /\ c <> QUOTECHAR /\ c <> COMPONENT_SEP /\ c <> REALM_SEP).
Proof.
  unfold is_quoted, quote.
  destruct (Z.eqb_spec c REALM_SEP) as [->|]; [left; by eauto|].
  destruct (Z.eqb_spec c COMPONENT_SEP) as [->|]; [left; by eauto|].
  destruct (Z.eqb_spec c QUOTECHAR) as [->|]; [left; by eauto|].
  destruct (Z.eqb_spec c 9) as [->|]; [left; by eauto|].
  destruct (Z.eqb_spec c 10) as [->|]; [left; by eauto|].
  destruct (Z.eqb_spec c 8) as [->|]; [left; by eauto|].
  destruct (Z.eqb_spec c 0) as [->|]; [left; by eauto|]. right. by rewrite ?andb_true_r.
Qed.

Lemma quoted_length s :
  zlen (quoted s) = zlen s + zlen (filter (fun c => is_quoted c = true) s).
Proof.
  induction s as [|c s IH]; [done|]. rewrite bind_cons, zlen_app, IH, zlen_cons, filter_cons.
  destruct (quote_cases c) as [(-> & c' & -> & _)|(-> & -> & _)]; simpl; lens.
Qed.

Lemma quoted_no_nul s : no_nul (quoted s).
Proof.
  induction s as [|c s IH]; [done|]. rewrite bind_cons. apply Forall_app. split; [|done].
  destruct (quote_cases c) as [(_ & c' & -> & _ & H)|(_ & -> & H & _)]; by repeat constructor.
Qed.

Lemma lex_quoted_string l s : lex (quoted l ++ s) = app (Ch <$> l) <$> lex s.
Proof.
  induction l as [|c l IH]; [simpl; by destruct (lex s)|]. rewrite bind_cons, <- app_assoc.
  destruct (quote_cases c) as [(_ & c' & -> & Hc & _)|(_ & -> & _ & H1 & H2 & H3)]; cbn [app].
  - rewrite lex_quoted, Hc, IH. by destruct (lex s).
  - rewrite lex_plain, IH by done. rewrite (proj2 (Z.eqb_neq _ _) H2), (proj2 (Z.eqb_neq _ _) H3).
    by destruct (lex s).
Qed.

Lemma chars_ch l : chars (Ch <$> l) = Some l.
Proof. induction l as [|c l IH]; [done|]. rewrite fmap_cons. cbn [chars]. by rewrite IH. Qed.

Lemma name_of_ch l ts : name_of ((Ch <$> l) ++ ts) =
  match name_of ts with Some (c0, cs, r) => Some (l ++ c0, cs, r) | None => None end.
Proof.
  induction l as [|c l IH]; [simpl; by destruct (name_of ts) as [[[??]?]|]|].
  rewrite fmap_cons. cbn [app name_of]. rewrite IH. by destruct (name_of ts) as [[[??]?]|].
Qed.

Lemma read_name_string realm c0 cs : realm <> [] ->
  read_name (name_string realm c0 cs) = Some (c0, cs, Some realm).
Proof.
  intros Hr. unfold read_name, name_string.
  assert (H : forall c0, exists ts,
    lex (quoted c0 ++ concat ((fun c => COMPONENT_SEP :: quoted c) <$> cs) ++ REALM_SEP :: quoted realm)
      = Some ts /\ name_of ts = Some (c0, cs, Some realm)).
  { induction cs as [|c cs IH]; intros c1; rewrite lex_quoted_string.
    - cbn [fmap list_fmap concat app]. rewrite lex_plain by done.
      rewrite <- (app_nil_r (quoted realm)), lex_quoted_string. simpl fmap. eexists. split; [done|].
      rewrite name_of_ch. cbn [name_of]. rewrite app_nil_r, chars_ch.
      destruct realm; [done|]. by rewrite app_nil_r.
    - rewrite fmap_cons. cbn [concat app]. rewrite <- app_assoc, lex_plain by done.
      destruct (IH c) as (ts & -> & E). eexists. split; [done|].
      rewrite name_of_ch. cbn [name_of]. rewrite E. simpl. by rewrite app_nil_r. }
  destruct (H c0) as (ts & -> & E). exact E.
Qed.

Lemma name_string_no_nul realm c0 cs : no_nul (name_string realm c0 cs).
Proof.
  unfold name_string. apply Forall_app. split; [apply quoted_no_nul|].
  apply Forall_app. split.
  - induction cs as [|c cs IH]; [done|]. rewrite fmap_cons. cbn [concat]. apply Forall_app.
    split; [|done]. constructor; [done|apply quoted_no_nul].
  - constructor; [done|apply quoted_no_nul].
Qed.

Lemma puts_ok s : forall w jk, (length s <= length jk)%nat ->
  puts (w ++ jk) (zlen w) s = Ok ((w ++ s) ++ drop (length s) jk, zlen (w ++ s)).
Proof.
  induction s as [|o s IH]; intros w jk H; [by rewrite app_nil_r|].
  destruct jk as [|x jk]; simpl in H; [lia|]. cbn [puts]. rewrite put_ok. cbn [obind].
  replace (zlen w + 1) with (zlen (w ++ [o])) by lens. rewrite IH by lia.
  by rewrite <- (app_assoc w).
Qed.

(** The components with a separator behind each. *)
Definition separated (comps : list (list octet)) : list octet :=
  concat ((fun c => quoted c ++ [COMPONENT_SEP]) <$> comps).

Lemma separated_cons c comps : separated (c :: comps) = quoted c ++ COMPONENT_SEP :: separated comps.
Proof. unfold separated. rewrite fmap_cons. cbn [concat]. by rewrite <- app_assoc. Qed.

Lemma separated_last c0 cs : separated (c0 :: cs) =
  (quoted c0 ++ concat ((fun c => COMPONENT_SEP :: quoted c) <$> cs)) ++ [COMPONENT_SEP].
Proof.
  revert c0. induction cs as [|c cs IH]; intros c0.
  - by rewrite separated_cons, app_nil_r.
  - rewrite separated_cons, IH, fmap_cons. cbn [concat]. by rewrite <- !app_assoc.
Qed.

Lemma data_size_ok d s : data_holds d s -> data_size d = Ok (zlen (quoted s) + 1).
Proof.
  intros H. unfold data_size. rewrite (contents_ok _ _ H). cbn [obind].
  destruct H as [-> _]. rewrite quoted_length. done.
Qed.

Lemma components_size_ok data comps : Forall2 data_holds data comps ->
  components_size data (length comps) = Ok (zlen (separated comps)).
Proof.
  induction 1 as [|d c data comps Hd _ IH]; [done|]. cbn [components_size length].
  rewrite (data_size_ok _ _ Hd), IH, separated_cons. cbn [obind]. f_equal. lens.
Qed.

Lemma put_data_ok d s w jk : data_holds d s -> (length (quoted s) <= length jk)%nat ->
  put_data (w ++ jk) (zlen w) d =
  Ok ((w ++ quoted s) ++ drop (length (quoted s)) jk, zlen (w ++ quoted s)).
Proof. intros H Hl. unfold put_data. rewrite (contents_ok _ _ H). by apply puts_ok. Qed.

Lemma put_components_ok data comps : Forall2 data_holds data comps ->
  forall w jk, (length (separated comps) <= length jk)%nat ->
  put_components (w ++ jk) (zlen w) data (length comps) =
  Ok ((w ++ separated comps) ++ drop (length (separated comps)) jk, zlen (w ++ separated comps)).
Proof.
  induction 1 as [|d c data comps Hd _ IH]; intros w jk H.
  - cbn [put_components length]. unfold separated. simpl. by rewrite app_nil_r.
  - rewrite separated_cons in *. rewrite length_app in H. cbn [length] in H.
    cbn [put_components length]. rewrite (put_data_ok _ _ _ _ Hd) by lia. cbn [obind].
    rewrite puts_ok by (rewrite length_drop; simpl; lia). cbn [obind].
    rewrite IH by (rewrite !length_drop; simpl; lia).
    rewrite !drop_drop, <- !app_assoc, length_app. cbn [app length].
    by replace (length (quoted c) + (1 + length (separated comps)))%nat
      with (length (quoted c) + S (length (separated comps)))%nat by lia.
Qed.

Section Unparse.
Context `{P : Platform}.

Lemma unparse_ext_ok p realm c0 cs name size block size' :
  princ_holds p realm (c0 :: cs) ->
  let s := name_string realm c0 cs in
  unparse_alloc (zlen s + 1) name size = Ok (block, size') -> zlen s + 1 <= zlen block ->
  krb5_unparse_name_ext p name size = Ok (s ++ 0 :: drop (length s + 1) block, size').
Proof.
  intros (Hr & Hl & data & Hdata & Hc) s Ha Hb. unfold krb5_unparse_name_ext.
  rewrite Hdata, Hl, (data_size_ok _ _ Hr). cbv zeta. cbn [obind].
  replace (Z.to_nat (zlen (c0 :: cs))) with (length (c0 :: cs)) by (unfold zlen; lia).
  rewrite (components_size_ok _ _ Hc). cbn [obind].
  assert (Hs : zlen s = zlen (quoted realm) + zlen (separated (c0 :: cs))).
  { subst s. rewrite separated_last. unfold name_string. lens. }
  replace (zlen (quoted realm) + 1 + zlen (separated (c0 :: cs))) with (zlen s + 1) by lia.
  rewrite Ha. cbn [obind].
  pose proof (put_components_ok _ _ Hc [] block) as Hp. cbn [app] in Hp.
  change (zlen []) with 0 in Hp. rewrite Hp by (unfold zlen in *; lia). cbn [obind]. clear Hp Ha.
  set (jk := drop (length (separated (c0 :: cs))) block).
  assert (Hj : length jk = (length block - length (separated (c0 :: cs)))%nat) by apply length_drop.
  rewrite separated_last. set (y := quoted c0 ++ _).
  replace (zlen (y ++ [COMPONENT_SEP]) - 1) with (zlen y) by lens.
  rewrite <- app_assoc. cbn [app]. rewrite puts_ok by (simpl; lia). cbn [obind].
  cbn [length drop]. assert (length (quoted realm) < length jk)%nat by (unfold zlen in *; lia).
  rewrite drop_0, (put_data_ok _ _ (y ++ [REALM_SEP]) jk Hr) by lia. cbn [obind].
  rewrite puts_ok by (rewrite length_drop; cbn [length]; lia). cbn [obind].
  unfold jk. rewrite !drop_drop.
  assert (E : s = (y ++ [REALM_SEP]) ++ quoted realm).
  { subst s y. unfold name_string. by rewrite <- !app_assoc. }
  rewrite <- E, <- app_assoc. cbn [app length].
  do 5 f_equal. unfold zlen in Hs. lia.
Qed.

Lemma unparse_ok p realm c0 cs :
  princ_holds p realm (c0 :: cs) ->
  let s := name_string realm c0 cs in
  zlen s + 1 <= malloc_limit -> krb5_unparse_name p = Ok (s ++ [0]).
Proof.
  intros H s Hm. unfold krb5_unparse_name.
  destruct (malloc_ok (zlen s + 1)) as (b & Eb & Hb); [lens|].
  rewrite (unparse_ext_ok p realm c0 cs None None b None H); [|fold s; unfold unparse_alloc; by rewrite Eb|fold s; lia].
  cbn [obind]. fold s. rewrite drop_ge; [done|]. unfold zlen in Hb. lia.
Qed.

(** ** Comparing *)

Lemma data_compare_ok d1 d2 s1 s2 : data_holds d1 s1 -> data_holds d2 s2 ->
  data_compare d1 d2 = Ok (bool_decide (s1 = s2)).
Proof.
  intros H1 H2. unfold data_compare. rewrite (contents_ok _ _ H1), (contents_ok _ _ H2).
  destruct H1 as [-> _], H2 as [-> _]. destruct (Z.eqb_spec (zlen s1) (zlen s2)) as [E|E].
  - destruct (Z.ltb_spec (zlen s1) 0); [lens|done].
  - rewrite bool_decide_eq_false_2; [done|by intros ->].
Qed.

Lemma components_compare_ok l1 cs1 l2 cs2 :
  Forall2 data_holds l1 cs1 -> Forall2 data_holds l2 cs2 -> length cs1 = length cs2 ->
  components_compare (length cs1) l1 l2 = Ok (bool_decide (cs1 = cs2)).
Proof.
  intros H1. revert l2 cs2. induction H1 as [|d1 c1 l1 cs1 Hd1 _ IH]; intros l2 cs2 H2 Hl.
  - by destruct cs2.
  - destruct H2 as [|d2 c2 l2 cs2 Hd2 H2]; [done|]. injection Hl as Hl.
    cbn [components_compare length]. rewrite (data_compare_ok _ _ _ _ Hd1 Hd2). cbn [obind].
    case_bool_decide as E.
    + subst c2. rewrite (IH l2 cs2) by done. f_equal. apply bool_decide_ext. split; [by intros ->|by intros [=]].
    + rewrite bool_decide_eq_false_2; [done|]. by intros [= ? ?].
Qed.

Lemma principal_compare_ok p1 realm1 comps1 p2 realm2 comps2 :
  princ_holds p1 realm1 comps1 -> princ_holds p2 realm2 comps2 ->
  krb5_principal_compare p1 p2 = Ok (bool_decide (realm1 = realm2 /\ comps1 = comps2)).
Proof.
  intros (Hr1 & Hl1 & d1 & E1 & Hc1) (Hr2 & Hl2 & d2 & E2 & Hc2).
  unfold krb5_principal_compare, krb5_realm_compare.
  rewrite E1, E2, Hl1, Hl2, (data_compare_ok _ _ _ _ Hr1 Hr2). cbn [obind].
  destruct (Z.eqb_spec (zlen comps1) (zlen comps2)) as [E|E]; cbn [negb].
  - case_bool_decide as Er; cbn [negb].
    + unfold zlen at 1. rewrite Nat2Z.id, (components_compare_ok _ _ _ _ Hc1 Hc2).
      * f_equal. apply bool_decide_ext. tauto.
      * unfold zlen in E. lia.
    + rewrite bool_decide_eq_false_2; [done|]. by intros [? ?].
  - rewrite bool_decide_eq_false_2; [done|]. by intros [? ->].
Qed.

End Unparse.

(** ** Theorems *)

Section Theorems.
Context `{P : Platform}.

(** C35: On every C string [krb5_parse_name] stays inside the blocks it allocates in its
    three passes and does what the grammar of principal names says: it returns the
    components and the realm the string denotes, with the default realm for a name
    without one, or [KRB5_PARSE_MALFORMED]. *)
Theorem krb5_parse_name_grammar s junk get dr :
  no_nul s -> name_memory (zlen s) ->
  (forall c0 cs d, read_name s = Some (c0, cs, None) -> the_default get dr = Ok d ->
     strlen d + 1 <= malloc_limit) ->
  krb5_parse_name get dr (s ++ 0 :: junk) =
  match read_name s with
  | None => (Err KRB5_PARSE_MALFORMED, dr)
  | Some (c0, cs, Some realm) => (Ok (name_principal realm (c0 :: cs)), dr)
  | Some (c0, cs, None) =>
      match the_default get dr with
      | Ok d => (Ok (name_principal (cstring d) (c0 :: cs)), Some d)
      | Err e => (Err e, dr)
      | Undefined => (Undefined, dr)
      | OutOfFuel => (OutOfFuel, dr)
      end
  end.
Proof. apply parse_name_eq. Qed.

(** C34: Printing a principal that has a component and a realm, whatever octets they
    contain, and parsing the string gives a principal that [krb5_principal_compare]
    finds equal and that prints the same. *)
Theorem parse_unparse_name p realm c0 cs get dr :
  princ_holds p realm (c0 :: cs) -> realm <> [] -> name_memory (zlen (name_string realm c0 cs)) ->
  exists name p',
    krb5_unparse_name p = Ok name /\ krb5_parse_name get dr name = (Ok p', dr) /\
    krb5_principal_compare p p' = Ok true /\ krb5_unparse_name p' = Ok name.
Proof.
  intros Hp Hr Hm. exists (name_string realm c0 cs ++ [0]), (name_principal realm (c0 :: cs)).
  pose proof (princ_holds_name realm (c0 :: cs)) as Hn.
  assert (zlen (name_string realm c0 cs) + 1 <= malloc_limit) by (unfold name_memory in Hm; lens).
  split; [by apply unparse_ok|]. split.
  - rewrite parse_name_eq; rewrite ?read_name_string by done; [done| |done|done].
    apply name_string_no_nul.
  - split; [|by apply unparse_ok].
    rewrite (principal_compare_ok _ _ _ _ _ _ Hp Hn). by rewrite bool_decide_eq_true_2.
Qed.

(** Two principals, each with a component and a realm, that print as the same string are
    equal for [krb5_principal_compare]: no character of a component can pass for a
    separator. *)
Theorem unparse_name_injective p1 realm1 c1 cs1 p2 realm2 c2 cs2 name :
  princ_holds p1 realm1 (c1 :: cs1) -> realm1 <> [] ->
  princ_holds p2 realm2 (c2 :: cs2) -> realm2 <> [] ->
  zlen (name_string realm1 c1 cs1) < malloc_limit ->
  zlen (name_string realm2 c2 cs2) < malloc_limit ->
  krb5_unparse_name p1 = Ok name -> krb5_unparse_name p2 = Ok name ->
  krb5_principal_compare p1 p2 = Ok true.
Proof.
  intros H1 Hr1 H2 Hr2 Hm1 Hm2 E1 E2.
  rewrite (unparse_ok _ _ _ _ H1) in E1 by lia. rewrite (unparse_ok _ _ _ _ H2) in E2 by lia.
  rewrite <- E1 in E2. injection E2 as E2%app_inj_tail. destruct E2 as [E2 _].
  pose proof (read_name_string realm1 c1 cs1 Hr1) as R.
  rewrite <- E2, read_name_string in R by done. injection R as -> -> ->.
  rewrite (principal_compare_ok _ _ _ _ _ _ H1 H2). by rewrite bool_decide_eq_true_2.
Qed.

(** Printing a principal without components stores in front of the allocated string. *)
Theorem unparse_no_components p realm :
  princ_holds p realm [] -> 2 * zlen realm < malloc_limit ->
  krb5_unparse_name p = Undefined.
Proof.
  intros (Hr & Hl & data & Hd & Hc) Hm. apply Forall2_nil_inv_r in Hc as ->.
  unfold krb5_unparse_name, krb5_unparse_name_ext. rewrite Hd, Hl, (data_size_ok _ _ Hr).
  cbv zeta. change (Z.to_nat (zlen [])) with O. cbn [obind components_size put_components].
  destruct (malloc_ok (zlen (quoted realm) + 1 + 0)) as (b & E & _);
    [|unfold unparse_alloc; by rewrite E].
  rewrite quoted_length. unfold zlen in *.
  pose proof (length_filter (fun c => is_quoted c = true) realm). lia.
Qed.

End Theorems.
