(* ===== verification/Transited.v ===== *)
(** * Realm paths and the list of transited realms
    (src/src/lib/krb5/krb/walk_rtree.c, tgtname.c, bld_pr_ext.c, chk_trans.c)

    [krb5_walk_realm_tree] lists the ticket-granting principals on the way from a
    client's realm to a server's; [krb5_check_transited_list], which servers call on
    cross-realm tickets, accepts a ticket only if the realms it went through are on that
    way.  A pointer into a realm's name is an offset into its octets. *)

From S2P Require Import Prelude Asn1Buf Krb5Types PrincName.

Definition KRB5_REALM_BRANCH_CHAR : octet := 46.  (* '.' *)
Definition KRB5_NT_UNKNOWN : Z := 0.
Definition KRB5_TGS_NAME : list octet := [107; 114; 98; 116; 103; 116].  (* krbtgt *)

(** A pointer and a length. *)
Record slice := Slice { sl_mem : list octet; sl_off : Z; sl_len : Z }.

(** memcpy of the octets; a negative length is a huge [size_t] *)
Definition slice_octets (s : slice) : outcome error_code (list octet) :=
  if sl_len s <? 0 then Undefined
  else match load_n (sl_mem s) (sl_off s) (Z.to_nat (sl_len s)) with
       | Some l => Ok l
       | None => Undefined
       end.

Section Build.
Context `{P : Platform}.

(** The strings of the components; when one cannot be allocated the loop at [free_out]
    also frees the element before the array. *)
Fixpoint build_components (comps : list slice) : outcome error_code (list krb5_data) :=
  match comps with
  | [] => Ok []
  | s :: comps =>
      match malloc (sl_len s + 1) with
      | None => Undefined
      | Some _ =>
          let* l := slice_octets s in
          let* ds := build_components comps in
          Ok (Data (sl_len s) (Some (l ++ [0])) :: ds)
      end
  end.

(** The arguments after the realm end with the first length that is 0. *)
Fixpoint varargs (comps : list slice) : list slice :=
  match comps with
  | [] => []
  | s :: comps => if sl_len s =? 0 then [] else s :: varargs comps
  end.

Definition krb5_build_principal_ext (realm : slice) (args : list slice)
    : outcome error_code krb5_principal_data :=
  let comps := varargs args in
  let count := zlen comps in
  match malloc (sizeof_krb5_data * count), malloc sizeof_krb5_principal_data,
        malloc (sl_len realm + 1) with
  | Some _, Some _, Some _ =>
      let* r := slice_octets realm in
      let* ds := build_components comps in
      Ok (Principal (Data (sl_len realm) (Some (r ++ [0]))) (Some ds) count KRB5_NT_UNKNOWN)
  | _, _, _ => Err ENOMEM
  end.

Definition krb5_tgtname (server client : slice) : outcome error_code krb5_principal_data :=
  krb5_build_principal_ext client [Slice KRB5_TGS_NAME 0 6; server].

(** ** krb5_walk_realm_tree *)

(** The array [rettree] with [links+2] elements, zeroed, and the next index. *)
Record rettree := Rettree { rt_size : Z; rt_elts : list krb5_principal_data }.

(** krb5_tgtname(context, server, client, &rettree[i]); i++ *)
Definition add_link (t : rettree) (server client : slice) : outcome error_code rettree :=
  if zlen (rt_elts t) <? rt_size t then
    let* p := krb5_tgtname server client in
    Ok (Rettree (rt_size t) (rt_elts t ++ [p]))
  else Undefined.

Section Walk.
Variable branch : octet.
Variables c s : list octet.   (* client->data, server->data *)
Variables cn sn : Z.          (* client->length, server->length *)

Definition at_c (p : Z) : outcome error_code octet :=
  match load c p with Some o => Ok o | None => Undefined end.
Definition at_s (p : Z) : outcome error_code octet :=
  match load s p with Some o => Ok o | None => Undefined end.

Definition client_from (p : Z) : slice := Slice c p (cn - p).
Definition server_from (p : Z) : slice := Slice s p (sn - p).

(** The variables after the first loop; ccp is clen-1 and scp is slen-1. *)
Record common := Common {
  cm_clen : nat; cm_slen : nat; cm_cdot : Z; cm_sdot : Z; cm_nocommon : bool
}.

(** The loop that compares the names from their ends. *)
Fixpoint common_suffix (clen slen : nat) (cdot sdot : Z) (nocommon : bool)
    : outcome error_code common :=
  match clen, slen with
  | S clen', S slen' =>
      let* a := at_c (Z.of_nat clen') in
      let* b := at_s (Z.of_nat slen') in
      if a =? b then
        if a =? branch
        then common_suffix clen' slen' (Z.of_nat clen') (Z.of_nat slen') false
        else common_suffix clen' slen' cdot sdot nocommon
      else Ok (Common clen slen cdot sdot nocommon)
  | _, _ => Ok (Common clen slen cdot sdot nocommon)
  end.

(** The cases where one name ran out. *)
Definition ran_out (m : common) : outcome error_code common :=
  let '(Common clen slen cdot sdot nocommon) := m in
  match clen, slen with
  | O, O => Err KRB5_NO_TKT_IN_RLM
  | O, S slen' =>
      let* b := at_s (Z.of_nat slen') in
      Ok (if b =? branch then Common clen slen 0 (Z.of_nat slen') false else m)
  | S clen', O =>
      let* a := at_c (Z.of_nat clen') in
      Ok (if a =? branch then Common clen slen (Z.of_nat clen') 0 false else m)
  | _, _ => Ok m
  end.

(** for (p = data; p < dot; p++): the number of branch characters and the last one *)
Fixpoint count_dots (n : nat) (at_p : Z -> outcome error_code octet) (p : Z)
    (links : Z) (prev : option Z) : outcome error_code (Z * option Z) :=
  match n with
  | O => Ok (links, prev)
  | S n =>
      let* a := at_p p in
      if a =? branch then count_dots n at_p (p + 1) (links + 1) (Some p)
      else count_dots n at_p (p + 1) links prev
  end.

(** The loop up the tree: for (prevccp = ccp = data; ccp <= com_cdot; ccp++), [n] at
    least the number of its iterations. *)
Fixpoint walk_up (n : nat) (ccp prevccp cdot : Z) (t : rettree) : outcome error_code rettree :=
  if cdot <? ccp then Ok t
  else match n with
  | O => OutOfFuel
  | S n =>
      let* a := at_c ccp in
      if negb (a =? branch) then walk_up n (ccp + 1) prevccp cdot t
      else
        let ccp := ccp + 1 in
        let* t := add_link t (client_from ccp) (client_from prevccp) in
        walk_up n (ccp + 1) ccp cdot t
  end.

(** The loop down the tree: for (...; scp > data; scp--); returns prevscp. *)
Fixpoint walk_down (n : nat) (prevscp scp : Z) (t : rettree) : outcome error_code (Z * rettree) :=
  if scp <=? 0 then Ok (prevscp, t)
  else match n with
  | O => OutOfFuel
  | S n =>
      let* b := at_s scp in
      if negb (b =? branch) then walk_down n prevscp (scp - 1) t
      else
        let* t := add_link t (server_from (scp + 1)) (server_from prevscp) in
        walk_down n (scp + 1) (scp - 1) t
  end.

(** The hierarchical method, up to the allocation of the tree: links and the dots. *)
Definition hierarchy (m : common) : outcome error_code (Z * Z * Z) :=
  let cdot := cm_cdot m in
  let sdot := cm_sdot m in
  let links := if cm_nocommon m then 1 else 2 in
  let* '(links, prevccp) := count_dots (Z.to_nat cdot) at_c 0 links None in
  let* '(links, prevscp) := count_dots (Z.to_nat sdot) at_s 0 links None in
  if cm_nocommon m then
    let cdot := default cdot prevccp in
    let sdot := default sdot prevscp in
    Ok (links, if cdot =? cn - 1 then -1 else cdot, if sdot =? sn - 1 then -1 else sdot)
  else Ok (links, cdot, sdot).

Definition walk_hierarchy : outcome error_code (rettree) :=
  let* m := common_suffix (Z.to_nat cn) (Z.to_nat sn) (cn - 1) (sn - 1) true in
  let* m := ran_out m in
  let* '(links, cdot, sdot) := hierarchy m in
  let* t := add_link (Rettree (links + 2) []) (client_from 0) (client_from 0) in
  let* t := walk_up (S (Z.to_nat cn)) 0 0 cdot t in
  let* t :=
    if cm_nocommon m then add_link t (server_from (sdot + 1)) (client_from (cdot + 1)) else Ok t in
  let* '(prevscp, t) := walk_down (Z.to_nat sn) (sdot + 1) (sdot - 1) t in
  if negb (cm_slen m =? 0)%nat && (0 <=? sdot)
  then add_link t (server_from 0) (server_from prevscp) else Ok t.

(** The octets of a C string in front of a tab or a space. *)
Fixpoint strcspn_ws (l : list octet) : Z :=
  match l with
  | [] => 0
  | o :: l => if (o =? 0) || (o =? 9) || (o =? 32) then 0 else 1 + strcspn_ws l
  end.

(** The configured path: a link to every node in turn. *)
Fixpoint walk_nodes (nodes : list (list octet)) (prev : slice) (t : rettree)
    : outcome error_code rettree :=
  match nodes with
  | [] => Ok t
  | n :: nodes =>
      let cur := Slice n 0 (strcspn_ws n) in
      let* t := add_link t cur prev in
      walk_nodes nodes cur t
  end.

(** [nodes] are the strings profile_get_values found, NUL included; a first one that
    starts with a dot means a direct link. *)
Definition walk_capaths (nodes : list (list octet)) : outcome error_code rettree :=
  match nodes with
  | [] => Undefined
  | first :: _ =>
      let* o := match load first 0 with Some o => Ok o | None => Undefined end in
      let server := take (Z.to_nat (Z.min (strlen s) sn)) s ++ [0] in
      let nodes := (if o =? 46 then [] else nodes) ++ [server] in
      let* t := add_link (Rettree (zlen nodes + 2) []) (client_from 0) (client_from 0) in
      walk_nodes nodes (client_from 0) t
  end.

End Walk.

(** [capaths client server] is what profile_get_values returns for the path from the
    section [capaths] of the configuration, [None] if there is none. *)
Definition krb5_walk_realm_tree (capaths : list octet -> list octet -> option (list (list octet)))
    (client server : krb5_data) (branch : octet) : outcome error_code rettree :=
  match malloc (d_length client + 1), malloc (d_length server + 1) with
  | Some _, Some _ =>
      let c := default [] (d_data client) in
      let s := default [] (d_data server) in
      let* cc := contents client in
      let* sc := contents server in
      match capaths (take (Z.to_nat (strlen cc)) cc) (take (Z.to_nat (strlen sc)) sc) with
      | Some nodes => walk_capaths c s (d_length client) (d_length server) nodes
      | None => walk_hierarchy branch c s (d_length client) (d_length server)
      end
  | _, _ => Err ENOMEM
  end.

(** ** krb5_check_transited_list *)

Definition MAX_REALM_LN : Z := 500.

(** The array [next], of MAX_REALM_LN+1 octets, and the offset [nextp] into it.  Of the
    array [prev] only the string in it is used. *)
Record realm_buf := RealmBuf { rb_next : list octet; rb_nextp : Z }.

(** memset(next, 0, sizeof(next)), nextp = next *)
Definition realm_clear : realm_buf := RealmBuf (replicate (Z.to_nat (MAX_REALM_LN + 1)) 0) 0.

Definition cstr (s : list octet) : list octet := take (Z.to_nat (strlen s)) s.

(** *nextp++ = o and the test of the bounds *)
Definition put_realm (b : realm_buf) (o : octet) : outcome error_code realm_buf :=
  let* next := put (rb_next b) (rb_nextp b) o in
  if MAX_REALM_LN + 1 <=? rb_nextp b + 1 then Err KRB5KRB_AP_ERR_ILL_CR_TKT
  else Ok (RealmBuf next (rb_nextp b + 1)).

(** for (j = 0; tgs_list[j]; j++): is there a principal of this realm? *)
Fixpoint in_tree (realm : list octet) (tree : list krb5_principal_data) : outcome error_code bool :=
  match tree with
  | [] => Ok false
  | p :: tree =>
      if zlen realm =? d_length (pr_realm p) then
        let* r := contents (pr_realm p) in
        if bool_decide (realm = r) then Ok true else in_tree realm tree
      else in_tree realm tree
  end.

(** The realm in [next] at a comma: completed with the previous realm after a trailing
    dot, and looked up, unless it starts with a slash. *)
Definition check_realm (tree : list krb5_principal_data) (prev : list octet) (b : realm_buf)
    : outcome error_code realm_buf :=
  if bool_decide (load (rb_next b) 0 = Some 47) then Ok b
  else match load (rb_next b) (rb_nextp b - 1) with
  | None => Undefined
  | Some o =>
      let str := cstr (rb_next b) in
      let next :=
        if (o =? 46) && (zlen str + zlen prev <=? MAX_REALM_LN)
        then str ++ prev ++ [0] ++ drop (length str + length prev + 1) (rb_next b)
        else rb_next b in
      let* found := in_tree (cstr next) tree in
      if found : bool then Ok (RealmBuf next (rb_nextp b)) else Err KRB5KRB_AP_ERR_ILL_CR_TKT
  end.

(** for (i = 0; i < trans_length; i++), over the rest of the list *)
Fixpoint check_loop (tree : list krb5_principal_data) (l prev : list octet) (b : realm_buf)
    : outcome error_code unit :=
  match l with
  | [] => Ok tt
  | o :: l' =>
      let other (_ : unit) :=
        if negb (o =? 44) then
          let* b := put_realm b o in check_loop tree l' prev b
        else
          let b := RealmBuf (<[Z.to_nat MAX_REALM_LN := 0]> (rb_next b)) (rb_nextp b) in
          if strlen (rb_next b) =? 0 then check_loop tree l' prev b
          else
            let* b := check_realm tree prev b in
            match l' with
            | o' :: l'' =>
                if o' =? 32 then check_loop tree l'' prev realm_clear
                else if negb (o' =? 47) then check_loop tree l' (cstr (rb_next b)) realm_clear
                else check_loop tree l' prev b
            | [] => check_loop tree l' prev b
            end in
      match l' with
      | o' :: l'' =>
          if o =? 92 then let* b := put_realm b o' in check_loop tree l'' prev b else other tt
      | [] => other tt
      end
  end.

Definition krb5_check_transited_list
    (capaths : list octet -> list octet -> option (list (list octet)))
    (trans : option krb5_data) (realm1 realm2 : krb5_data) : outcome error_code unit :=
  match trans with
  | None => Ok tt
  | Some trans =>
      match d_data trans with
      | None => Ok tt
      | Some _ =>
          if d_length trans =? 0 then Ok tt
          else
            let* l := contents trans in
            let l := if List.last l 1 =? 0 then removelast l else l in
            if bool_decide (0 ∈ l) then Err KRB5KRB_AP_ERR_ILL_CR_TKT
            else
              let* t := krb5_walk_realm_tree capaths realm1 realm2 KRB5_REALM_BRANCH_CHAR in
              if zlen (rt_elts t) <? rt_size t then check_loop (rt_elts t) l [] realm_clear else Undefined
      end
  end.

End Build.
