(* ===== verification/Kdc.v ===== *)
(** * Decisions of the key distribution centre
    (src/src/kdc/kdc_util.c, policy.c, do_as_req.c, do_tgs_req.c)

    The validation of AS and TGS requests against the database entries and the presented
    ticket, and the flags, times and addresses of the ticket that is issued.  The
    protocol error of a refused request comes with the status text for the log. *)

From Stdlib Require Import String.
From S2P Require Import Prelude Asn1Buf Krb5Types PrincName Transited.

(** ** Flags *)

(** KDC options (krb5.hin) *)
Definition KDC_OPT_FORWARDABLE : Z := 0x40000000.
Definition KDC_OPT_FORWARDED : Z := 0x20000000.
Definition KDC_OPT_PROXIABLE : Z := 0x10000000.
Definition KDC_OPT_PROXY : Z := 0x08000000.
Definition KDC_OPT_ALLOW_POSTDATE : Z := 0x04000000.
Definition KDC_OPT_POSTDATED : Z := 0x02000000.
Definition KDC_OPT_RENEWABLE : Z := 0x00800000.
Definition KDC_OPT_RENEWABLE_OK : Z := 0x00000010.
Definition KDC_OPT_RENEW : Z := 0x00000002.
Definition KDC_OPT_VALIDATE : Z := 0x00000001.

(** Ticket flags (krb5.hin) *)
Definition TKT_FLG_FORWARDABLE : Z := 0x40000000.
Definition TKT_FLG_FORWARDED : Z := 0x20000000.
Definition TKT_FLG_PROXIABLE : Z := 0x10000000.
Definition TKT_FLG_PROXY : Z := 0x08000000.
Definition TKT_FLG_MAY_POSTDATE : Z := 0x04000000.
Definition TKT_FLG_POSTDATED : Z := 0x02000000.
Definition TKT_FLG_INVALID : Z := 0x01000000.
Definition TKT_FLG_INITIAL : Z := 0x00400000.
Definition TKT_FLG_PRE_AUTH : Z := 0x00200000.
Definition TKT_FLG_HW_AUTH : Z := 0x00100000.

(** Attributes of database entries (kdb.h) *)
Definition KRB5_KDB_DISALLOW_POSTDATED : Z := 0x00000001.
Definition KRB5_KDB_DISALLOW_FORWARDABLE : Z := 0x00000002.
Definition KRB5_KDB_DISALLOW_TGT_BASED : Z := 0x00000004.
Definition KRB5_KDB_DISALLOW_RENEWABLE : Z := 0x00000008.
Definition KRB5_KDB_DISALLOW_PROXIABLE : Z := 0x00000010.
Definition KRB5_KDB_DISALLOW_DUP_SKEY : Z := 0x00000020.
Definition KRB5_KDB_DISALLOW_ALL_TIX : Z := 0x00000040.
Definition KRB5_KDB_REQUIRES_PRE_AUTH : Z := 0x00000080.
Definition KRB5_KDB_REQUIRES_HW_AUTH : Z := 0x00000100.
Definition KRB5_KDB_REQUIRES_PWCHANGE : Z := 0x00000200.
Definition KRB5_KDB_DISALLOW_SVR : Z := 0x00001000.
Definition KRB5_KDB_PWCHANGE_SERVICE : Z := 0x00002000.

(** The macros of kdc_util.h. *)
Definition isflagset (flagfield flag : Z) : bool := negb (Z.land flagfield flag =? 0).
Definition setflag (flagfield flag : Z) : Z := Z.lor flagfield flag.
Definition clear (flagfield flag : Z) : Z := Z.land flagfield (Z.lnot flag).

Definition AS_OPTIONS_HANDLED : Z :=
  Z.lor KDC_OPT_FORWARDABLE (Z.lor KDC_OPT_PROXIABLE
    (Z.lor KDC_OPT_ALLOW_POSTDATE (Z.lor KDC_OPT_POSTDATED
      (Z.lor KDC_OPT_RENEWABLE KDC_OPT_RENEWABLE_OK)))).

Definition TGS_OPTIONS_HANDLED : Z :=
  Z.lor KDC_OPT_FORWARDABLE (Z.lor KDC_OPT_FORWARDED (Z.lor KDC_OPT_PROXIABLE
    (Z.lor KDC_OPT_PROXY (Z.lor KDC_OPT_ALLOW_POSTDATE (Z.lor KDC_OPT_POSTDATED
      (Z.lor KDC_OPT_RENEWABLE (Z.lor KDC_OPT_RENEWABLE_OK
        (Z.lor KDC_OPT_ENC_TKT_IN_SKEY (Z.lor KDC_OPT_RENEW KDC_OPT_VALIDATE))))))))).

Definition NO_TGT_OPTION : Z :=
  Z.lor KDC_OPT_FORWARDED (Z.lor KDC_OPT_PROXY (Z.lor KDC_OPT_RENEW KDC_OPT_VALIDATE)).

(** ** Data *)

(** The members of a database entry that the decisions depend on. *)
Record krb5_db_entry := DbEntry {
  db_attributes : Z; db_max_life : Z; db_max_renewable_life : Z;
  db_expiration : Z; db_pw_expiration : Z
}.

(** The parameters of the realm (extern.h). *)
Record kdc_realm := KdcRealm {
  max_life_for_realm : Z; max_renewable_life_for_realm : Z; tgs_server : krb5_principal_data
}.

(** Protocol error numbers. *)
Inductive kdc_err : Set :=
| KDC_ERR_NAME_EXP | KDC_ERR_SERVICE_EXP | KDC_ERR_C_PRINCIPAL_UNKNOWN
| KDC_ERR_S_PRINCIPAL_UNKNOWN | KDC_ERR_CANNOT_POSTDATE | KDC_ERR_POLICY | KDC_ERR_BADOPTION
| KDC_ERR_KEY_EXP | KDC_ERR_SERVER_NOMATCH | KRB_AP_ERR_TKT_EXPIRED | KRB_AP_ERR_TKT_NYV
| KRB_AP_ERR_REPEAT | KRB_AP_ERR_NOT_US | KRB_ERR_GENERIC.

Definition kdc_error : Type := kdc_err * string.

(** if (b) { *status = ...; return e; } *)
Definition refuse_if (b : bool) (e : kdc_err) (status : string) : outcome kdc_error unit :=
  if b then Err (e, status) else Ok tt.

(** A predicate of the library that cannot fail but may be undefined. *)
Definition asks (r : outcome error_code bool) : outcome kdc_error bool :=
  match r with Ok b => Ok b | _ => Undefined end.

(** a + b of two [krb5_int32]; overflow is undefined *)
Definition iadd (a b : Z) : outcome kdc_error Z :=
  if (- 2 ^ 31 <=? a + b) && (a + b <? 2 ^ 31) then Ok (a + b) else Undefined.

Definition kdc_infinity : Z := 2 ^ 31 - 1.

Definition empty_string : krb5_data := Data 0 (Some [0]).

Definition KRB5_DOMAIN_X500_COMPRESS : Z := 1.

(** ** validate_as_request *)

Definition against_local_policy_as (request : krb5_kdc_req) (client server : krb5_db_entry)
    (kdc_time : Z) : outcome kdc_error unit := Ok tt.

Definition validate_as_request (request : krb5_kdc_req) (client server : krb5_db_entry)
    (kdc_time : Z) : outcome kdc_error unit :=
  let options := rq_kdc_options request in
  let client_has := isflagset (db_attributes client) in
  let server_has := isflagset (db_attributes server) in
  let* _ := refuse_if (isflagset options (Z.lnot AS_OPTIONS_HANDLED))
              KDC_ERR_BADOPTION "INVALID AS OPTIONS"%string in
  let* _ := refuse_if (negb (db_pw_expiration client =? 0) && (db_pw_expiration client <? kdc_time)
                       && negb (server_has KRB5_KDB_PWCHANGE_SERVICE))
              KDC_ERR_KEY_EXP "CLIENT KEY EXPIRED"%string in
  let* _ := refuse_if (negb (db_expiration client =? 0) && (db_expiration client <? kdc_time))
              KDC_ERR_NAME_EXP "CLIENT EXPIRED"%string in
  let* _ := refuse_if (negb (db_expiration server =? 0) && (db_expiration server <? kdc_time))
              KDC_ERR_SERVICE_EXP "SERVICE EXPIRED"%string in
  let* _ := refuse_if (client_has KRB5_KDB_REQUIRES_PWCHANGE && negb (server_has KRB5_KDB_PWCHANGE_SERVICE))
              KDC_ERR_KEY_EXP "REQUIRED PWCHANGE"%string in
  let* _ := refuse_if ((isflagset options KDC_OPT_ALLOW_POSTDATE || isflagset options KDC_OPT_POSTDATED)
                       && (client_has KRB5_KDB_DISALLOW_POSTDATED || server_has KRB5_KDB_DISALLOW_POSTDATED))
              KDC_ERR_CANNOT_POSTDATE "POSTDATE NOT ALLOWED"%string in
  let* _ := refuse_if (isflagset options KDC_OPT_FORWARDABLE
                       && (client_has KRB5_KDB_DISALLOW_FORWARDABLE || server_has KRB5_KDB_DISALLOW_FORWARDABLE))
              KDC_ERR_POLICY "FORWARDABLE NOT ALLOWED"%string in
  let* _ := refuse_if (isflagset options KDC_OPT_RENEWABLE
                       && (client_has KRB5_KDB_DISALLOW_RENEWABLE || server_has KRB5_KDB_DISALLOW_RENEWABLE))
              KDC_ERR_POLICY "RENEWABLE NOT ALLOWED"%string in
  let* _ := refuse_if (isflagset options KDC_OPT_PROXIABLE
                       && (client_has KRB5_KDB_DISALLOW_PROXIABLE || server_has KRB5_KDB_DISALLOW_PROXIABLE))
              KDC_ERR_POLICY "PROXIABLE NOT ALLOWED"%string in
  let* _ := refuse_if (client_has KRB5_KDB_DISALLOW_ALL_TIX)
              KDC_ERR_C_PRINCIPAL_UNKNOWN "CLIENT LOCKED OUT"%string in
  let* _ := refuse_if (server_has KRB5_KDB_DISALLOW_ALL_TIX)
              KDC_ERR_S_PRINCIPAL_UNKNOWN "SERVICE LOCKED OUT"%string in
  let* _ := refuse_if (server_has KRB5_KDB_DISALLOW_SVR)
              KDC_ERR_S_PRINCIPAL_UNKNOWN "SERVICE NOT ALLOWED"%string in
  against_local_policy_as request server client kdc_time.

(** ** validate_tgs_request *)

(** The first component is "krbtgt". *)
Definition krb5_is_tgs_principal (p : krb5_principal_data) : outcome kdc_error bool :=
  match pr_data p with
  | Some (d :: _) => asks (data_compare d (Data 6 (Some KRB5_TGS_NAME)))
  | _ => Undefined
  end.

Definition check_hot_list (ticket : krb5_ticket) : bool := false.

Definition against_local_policy_tgs (request : krb5_kdc_req) (server : krb5_db_entry)
    (ticket : krb5_ticket) : outcome kdc_error unit := Ok tt.

(** The ticket must be for this server, or be a ticket-granting ticket for its realm. *)
Definition check_tgt (request : krb5_kdc_req) (server : krb5_db_entry)
    (ticket_server request_server : krb5_principal_data) : outcome kdc_error unit :=
  if isflagset (rq_kdc_options request) NO_TGT_OPTION then
    let* same := asks (krb5_principal_compare ticket_server request_server) in
    refuse_if (negb same) KDC_ERR_SERVER_NOMATCH "SERVER DIDN'T MATCH TICKET FOR RENEW/FORWARD/ETC"%string
  else
    let* _ := refuse_if (negb (pr_length ticket_server =? 2)) KRB_AP_ERR_NOT_US "BAD TGS SERVER LENGTH"%string in
    let* tgs := krb5_is_tgs_principal ticket_server in
    let* _ := refuse_if (negb tgs) KRB_AP_ERR_NOT_US "BAD TGS SERVER NAME"%string in
    match pr_data ticket_server with
    | Some (_ :: d :: _) =>
        let* same := asks (data_compare d (pr_realm request_server)) in
        let* _ := refuse_if (negb same) KRB_AP_ERR_NOT_US "BAD TGS SERVER INSTANCE"%string in
        refuse_if (isflagset (db_attributes server) KRB5_KDB_DISALLOW_TGT_BASED)
          KDC_ERR_POLICY "TGT BASED NOT ALLOWED"%string
    | _ => Undefined
    end.

(** Refused unless the first component of the server's name is "krbtgt". *)
Definition check_proxy (options : Z) (request_server : krb5_principal_data) : outcome kdc_error unit :=
  if isflagset options KDC_OPT_PROXY then
    match pr_data request_server with
    | None => Err (KDC_ERR_BADOPTION, "CAN'T PROXY TGT"%string)
    | Some _ =>
        let* tgs := krb5_is_tgs_principal request_server in
        refuse_if (negb tgs) KDC_ERR_BADOPTION "CAN'T PROXY TGT"%string
    end
  else Ok tt.

(** The second ticket of a user-to-user request must be a ticket-granting ticket. *)
Definition check_second_ticket (realm : kdc_realm) (request : krb5_kdc_req) : outcome kdc_error unit :=
  if isflagset (rq_kdc_options request) KDC_OPT_ENC_TKT_IN_SKEY then
    match rq_second_ticket request with
    | Some (t :: _) =>
        match tk_server t with
        | None => Undefined
        | Some s =>
            let* same := asks (krb5_principal_compare s (tgs_server realm)) in
            refuse_if (negb same) KDC_ERR_POLICY "2ND_TKT_NOT_TGS"%string
        end
    | _ => Err (KDC_ERR_BADOPTION, "NO_2ND_TKT"%string)
    end
  else Ok tt.

(** [server_p] and [ticket_p] are *request->server and *ticket->server, [part] is
    *ticket->enc_part2. *)
Definition validate_tgs_request (realm : kdc_realm) (request : krb5_kdc_req)
    (server : krb5_db_entry) (ticket : krb5_ticket) (kdc_time : Z) : outcome kdc_error unit :=
  match rq_server request, tk_server ticket, tk_enc_part2 ticket with
  | Some server_p, Some ticket_p, Some part =>
      let options := rq_kdc_options request in
      let asked := isflagset options in
      let has := isflagset (etp_flags part) in
      let server_has := isflagset (db_attributes server) in
      let* _ := refuse_if (asked (Z.lnot TGS_OPTIONS_HANDLED)) KDC_ERR_BADOPTION "INVALID TGS OPTIONS"%string in
      let* _ := refuse_if (negb (db_expiration server =? 0) && (db_expiration server <? kdc_time))
                  KDC_ERR_SERVICE_EXP "SERVICE EXPIRED"%string in
      let* _ := check_tgt request server ticket_p server_p in
      let* _ := refuse_if ((asked KDC_OPT_FORWARDED || asked KDC_OPT_FORWARDABLE) && negb (has TKT_FLG_FORWARDABLE))
                  KDC_ERR_BADOPTION "TGT NOT FORWARDABLE"%string in
      let* _ := refuse_if ((asked KDC_OPT_PROXY || asked KDC_OPT_PROXIABLE) && negb (has TKT_FLG_PROXIABLE))
                  KDC_ERR_BADOPTION "TGT NOT PROXIABLE"%string in
      let* _ := refuse_if ((asked KDC_OPT_ALLOW_POSTDATE || asked KDC_OPT_POSTDATED) && negb (has TKT_FLG_MAY_POSTDATE))
                  KDC_ERR_BADOPTION "TGT NOT POSTDATABLE"%string in
      let* _ := refuse_if (asked KDC_OPT_VALIDATE && negb (has TKT_FLG_INVALID))
                  KDC_ERR_BADOPTION "VALIDATE VALID TICKET"%string in
      let* _ := refuse_if ((asked KDC_OPT_RENEW || asked KDC_OPT_RENEWABLE) && negb (has TKT_FLG_RENEWABLE))
                  KDC_ERR_BADOPTION "TICKET NOT RENEWABLE"%string in
      let* _ := check_proxy options server_p in
      let* _ := refuse_if (asked KDC_OPT_FORWARDABLE && server_has KRB5_KDB_DISALLOW_FORWARDABLE)
                  KDC_ERR_POLICY "NON-FORWARDABLE TICKET"%string in
      let* _ := refuse_if (asked KDC_OPT_RENEWABLE && server_has KRB5_KDB_DISALLOW_RENEWABLE)
                  KDC_ERR_POLICY "NON-RENEWABLE TICKET"%string in
      let* _ := refuse_if (asked KDC_OPT_PROXIABLE && server_has KRB5_KDB_DISALLOW_PROXIABLE)
                  KDC_ERR_POLICY "NON-PROXIABLE TICKET"%string in
      let* _ := refuse_if (asked KDC_OPT_ALLOW_POSTDATE && server_has KRB5_KDB_DISALLOW_POSTDATED)
                  KDC_ERR_CANNOT_POSTDATE "NON-POSTDATABLE TICKET"%string in
      let* _ := refuse_if (asked KDC_OPT_ENC_TKT_IN_SKEY && server_has KRB5_KDB_DISALLOW_DUP_SKEY)
                  KDC_ERR_POLICY "DUP_SKEY DISALLOWED"%string in
      let* _ := refuse_if (server_has KRB5_KDB_DISALLOW_ALL_TIX)
                  KDC_ERR_S_PRINCIPAL_UNKNOWN "SERVER LOCKED OUT"%string in
      let* _ := refuse_if (server_has KRB5_KDB_DISALLOW_SVR)
                  KDC_ERR_S_PRINCIPAL_UNKNOWN "SERVER NOT ALLOWED"%string in
      let* _ := refuse_if (check_hot_list ticket) KRB_AP_ERR_REPEAT "HOT_LIST"%string in
      let* _ := refuse_if (asked KDC_OPT_VALIDATE && (kdc_time <? tt_starttime (etp_times part)))
                  KRB_AP_ERR_TKT_NYV "NOT_YET_VALID"%string in
      let* _ := refuse_if (asked KDC_OPT_RENEW && (tt_renew_till (etp_times part) <? kdc_time))
                  KRB_AP_ERR_TKT_EXPIRED "TKT_EXPIRED"%string in
      let* _ := check_second_ticket realm request in
      let* _ := refuse_if (server_has KRB5_KDB_REQUIRES_HW_AUTH && negb (has TKT_FLG_HW_AUTH))
                  KRB_ERR_GENERIC "NO HW PREAUTH"%string in
      let* _ := refuse_if (server_has KRB5_KDB_REQUIRES_PRE_AUTH && negb (has TKT_FLG_PRE_AUTH))
                  KRB_ERR_GENERIC "NO PREAUTH"%string in
      against_local_policy_tgs request server ticket
  | _, _, _ => Undefined
  end.

(** ** The ticket issued by process_as_req *)

(** enc_tkt_reply.flags |= flag when [b] *)
Definition setflag_if (b : bool) (flag flagfield : Z) : Z :=
  if b then setflag flagfield flag else flagfield.

(** setflag(request->kdc_options, KDC_OPT_RENEWABLE); request->rtime = rtime; *)
Definition make_renewable (request : krb5_kdc_req) (rtime : Z) : krb5_kdc_req :=
  KdcReq (rq_msg_type request) (rq_padata request) (setflag (rq_kdc_options request) KDC_OPT_RENEWABLE)
    (rq_client request) (rq_server request) (rq_from request) (rq_till request) rtime (rq_nonce request)
    (rq_nktypes request) (rq_ktype request) (rq_addresses request) (rq_authorization_data request)
    (rq_unenc_authdata request) (rq_second_ticket request).

(** 0 stands for no limit. *)
Definition or_infinity (t : Z) : Z := if t =? 0 then kdc_infinity else t.

(** A start time that equals the authentication time is left out. *)
Definition omit_starttime (times : krb5_ticket_times) : krb5_ticket_times :=
  TicketTimes (tt_authtime times)
    (if tt_starttime times =? tt_authtime times then 0 else tt_starttime times)
    (tt_endtime times) (tt_renew_till times).

Definition as_flags (options : Z) : Z :=
  setflag_if (isflagset options KDC_OPT_POSTDATED) TKT_FLG_INVALID
   (setflag_if (isflagset options KDC_OPT_POSTDATED) TKT_FLG_POSTDATED
    (setflag_if (isflagset options KDC_OPT_ALLOW_POSTDATE) TKT_FLG_MAY_POSTDATE
     (setflag_if (isflagset options KDC_OPT_PROXIABLE) TKT_FLG_PROXIABLE
      (setflag_if (isflagset options KDC_OPT_FORWARDABLE) TKT_FLG_FORWARDABLE
       (setflag 0 TKT_FLG_INITIAL))))).

(** The end time of the ticket, [starttime] being its start time. *)
Definition as_endtime (realm : kdc_realm) (request : krb5_kdc_req) (client server : krb5_db_entry)
    (starttime : Z) : outcome kdc_error Z :=
  let* by_client := iadd starttime (db_max_life client) in
  let* by_server := iadd starttime (db_max_life server) in
  let* by_realm := iadd starttime (max_life_for_realm realm) in
  Ok (Z.min (or_infinity (rq_till request)) (Z.min by_client (Z.min by_server by_realm))).

(** The flags, times and addresses of a ticket; [session] is the fresh session key.  The
    request is returned with the options it ends with. *)
Definition as_issue (realm : kdc_realm) (request : krb5_kdc_req) (client server : krb5_db_entry)
    (kdc_time : Z) (session : krb5_keyblock) : outcome kdc_error (krb5_kdc_req * krb5_enc_tkt_part) :=
  let options := rq_kdc_options request in
  let flags := as_flags options in
  let starttime := if isflagset options KDC_OPT_POSTDATED then rq_from request else kdc_time in
  let* endtime := as_endtime realm request client server starttime in
  let request :=
    if isflagset options KDC_OPT_RENEWABLE_OK
       && negb (isflagset (db_attributes client) KRB5_KDB_DISALLOW_RENEWABLE)
       && (endtime <? rq_till request)
    then make_renewable request (rq_till request) else request in
  let rtime := or_infinity (rq_rtime request) in
  let* '(flags, renew_till) :=
    (if isflagset (rq_kdc_options request) KDC_OPT_RENEWABLE then
       let* most := iadd starttime (Z.min (db_max_renewable_life client)
                      (Z.min (db_max_renewable_life server) (max_renewable_life_for_realm realm))) in
       Ok (setflag flags TKT_FLG_RENEWABLE, Z.min rtime most)
     else Ok (flags, 0)) in
  Ok (request,
      EncTktPart flags (Some session) (rq_client request)
        (Krb5Types.Transited KRB5_DOMAIN_X500_COMPRESS empty_string)
        (omit_starttime (TicketTimes kdc_time starttime endtime renew_till))
        (rq_addresses request) None).

(** kdc_preauth.c *)
Definition missing_required_preauth (client server : krb5_db_entry) (enc_tkt_reply : krb5_enc_tkt_part)
    : option string :=
  if isflagset (db_attributes client) KRB5_KDB_REQUIRES_PRE_AUTH
     && negb (isflagset (etp_flags enc_tkt_reply) TKT_FLG_PRE_AUTH)
  then Some "NEEDED_PREAUTH"%string
  else if isflagset (db_attributes client) KRB5_KDB_REQUIRES_HW_AUTH
     && negb (isflagset (etp_flags enc_tkt_reply) TKT_FLG_HW_AUTH)
  then Some "NEEDED_HW_PREAUTH"%string
  else None.

(** ** The ticket issued by process_tgs_req *)

(** What process_tgs_req has decided when it assembles the authorization data: the members
    of the ticket and of the encrypted part of the reply, and the request with the options
    it ends with. *)
Record tgs_reply := TgsReply {
  tr_request : krb5_kdc_req; tr_server : option krb5_principal_data; tr_flags : Z;
  tr_times : krb5_ticket_times; tr_caddrs : option (list krb5_address);
  tr_reply_caddrs : option (list krb5_address)
}.

(** A start time of 0 in the presented ticket stands for its authentication time. *)
Definition fix_starttime (part : krb5_enc_tkt_part) : krb5_enc_tkt_part :=
  let t := etp_times part in
  EncTktPart (etp_flags part) (etp_session part) (etp_client part) (etp_transited part)
    (TicketTimes (tt_authtime t) (if tt_starttime t =? 0 then tt_authtime t else tt_starttime t)
       (tt_endtime t) (tt_renew_till t))
    (etp_caddrs part) (etp_authorization_data part).

(** The flags for the options of the request, before VALIDATE and RENEW. *)
Definition tgs_flags (options header_flags : Z) : Z :=
  setflag_if (isflagset options KDC_OPT_POSTDATED) TKT_FLG_INVALID
   (setflag_if (isflagset options KDC_OPT_POSTDATED) TKT_FLG_POSTDATED
    (setflag_if (isflagset options KDC_OPT_ALLOW_POSTDATE) TKT_FLG_MAY_POSTDATE
     (setflag_if (isflagset options KDC_OPT_PROXY) TKT_FLG_PROXY
      (setflag_if (isflagset options KDC_OPT_PROXIABLE) TKT_FLG_PROXIABLE
       (setflag_if (isflagset header_flags TKT_FLG_FORWARDED) TKT_FLG_FORWARDED
        (setflag_if (isflagset options KDC_OPT_FORWARDED) TKT_FLG_FORWARDED
         (setflag_if (isflagset options KDC_OPT_FORWARDABLE) TKT_FLG_FORWARDABLE 0))))))).

(** The addresses of the request are used for a forwarded or proxy ticket only. *)
Definition tgs_uses_addresses (options : Z) : bool :=
  isflagset options KDC_OPT_FORWARDED || isflagset options KDC_OPT_PROXY.

(** min(renew_till, kdc_time + old_life) *)
Definition tgs_renewed_endtime (times : krb5_ticket_times) (kdc_time : Z) : outcome kdc_error Z :=
  let* old_life := iadd (tt_endtime times) (- tt_starttime times) in
  let* same_life := iadd kdc_time old_life in
  Ok (Z.min (tt_renew_till times) same_life).

Definition tgs_endtime (realm : kdc_realm) (request : krb5_kdc_req) (server : krb5_db_entry)
    (times : krb5_ticket_times) (kdc_time : Z) : outcome kdc_error Z :=
  let* by_server := iadd kdc_time (db_max_life server) in
  let* by_realm := iadd kdc_time (max_life_for_realm realm) in
  Ok (Z.min (or_infinity (rq_till request)) (Z.min by_server (Z.min by_realm (tt_endtime times)))).

(** The flags and addresses once VALIDATE and RENEW have copied the presented ticket. *)
Definition tgs_base (options : Z) (part : krb5_enc_tkt_part)
    (addresses : option (list krb5_address)) : Z * option (list krb5_address) :=
  let caddrs := if tgs_uses_addresses options then addresses else etp_caddrs part in
  let base := (tgs_flags options (etp_flags part), caddrs) in
  let base := if isflagset options KDC_OPT_VALIDATE
              then (clear (etp_flags part) TKT_FLG_INVALID, etp_caddrs part) else base in
  if isflagset options KDC_OPT_RENEW then (etp_flags part, etp_caddrs part) else base.

(** The flags PRE-AUTHENT and HW-AUTHENT are propagated. *)
Definition tgs_propagate (header_flags flags : Z) : Z :=
  setflag_if (isflagset header_flags TKT_FLG_HW_AUTH) TKT_FLG_HW_AUTH
    (setflag_if (isflagset header_flags TKT_FLG_PRE_AUTH) TKT_FLG_PRE_AUTH flags).

Definition tgs_issue (realm : kdc_realm) (request : krb5_kdc_req) (server : krb5_db_entry)
    (ticket : krb5_ticket) (kdc_time : Z) : outcome kdc_error tgs_reply :=
  match tk_enc_part2 ticket with
  | None => Undefined
  | Some part =>
      let part := fix_starttime part in
      let header := etp_times part in
      let options := rq_kdc_options request in
      let copied := isflagset options KDC_OPT_VALIDATE || isflagset options KDC_OPT_RENEW in
      let '(flags, caddrs) := tgs_base options part (rq_addresses request) in
      let* '(request, endtime) :=
        (if isflagset options KDC_OPT_RENEW then
           let* endtime := tgs_renewed_endtime header kdc_time in
           Ok (request, endtime)
         else
           let* endtime := tgs_endtime realm request server header kdc_time in
           Ok (if isflagset options KDC_OPT_RENEWABLE_OK && (endtime <? rq_till request)
                  && isflagset (etp_flags part) TKT_FLG_RENEWABLE
               then make_renewable request (Z.min (rq_till request) (tt_renew_till header))
               else request, endtime)) in
      let rtime := or_infinity (rq_rtime request) in
      let* '(flags, renew_till) :=
        (if isflagset (rq_kdc_options request) KDC_OPT_RENEWABLE then
           let* most := iadd kdc_time (Z.min (db_max_renewable_life server)
                                             (max_renewable_life_for_realm realm)) in
           Ok (setflag flags TKT_FLG_RENEWABLE, Z.min rtime (Z.min (tt_renew_till header) most))
         else Ok (flags, 0)) in
      Ok (TgsReply request (if copied then tk_server ticket else rq_server request)
            (tgs_propagate (etp_flags part) flags)
            (omit_starttime (TicketTimes (tt_authtime header) kdc_time endtime renew_till))
            caddrs
            (if tgs_uses_addresses options then rq_addresses request else None))
  end.
