(* ===== verification/KdcProofs.v ===== *)
(** * What the issued tickets respect (Kdc.v)

    A ticket issued by the authentication service honours the attributes and the life
    limits of the client, the server and the realm; a ticket issued by the
    ticket-granting service has no right that the presented ticket has not.  Then the
    cases in which the decisions differ from what is meant. *)

From S2P Require Import Prelude Asn1Buf Krb5Types PrincName Transited Kdc.

(** ** Flags *)

Lemma isflagset_setflag f a g : isflagset (setflag f a) g = isflagset f g || isflagset a g.
Proof.
  unfold isflagset, setflag. rewrite Z.land_lor_distr_l.
  destruct (Z.eqb_spec (Z.land f g) 0) as [->|Hf]; [by rewrite Z.lor_0_l|].
  destruct (Z.eqb_spec (Z.lor (Z.land f g) (Z.land a g)) 0) as [E|]; [|done].
  apply Z.lor_eq_0_iff in E. tauto.
Qed.

Lemma isflagset_clear f a g : isflagset (clear f a) g = isflagset f (Z.land (Z.lnot a) g).
Proof. unfold isflagset, clear. by rewrite Z.land_assoc. Qed.

Lemma isflagset_setflag_if b f a g :
  isflagset (setflag_if b a f) g = isflagset f g || (b && isflagset a g).
Proof.
  destruct b; cbn [setflag_if andb]; [apply isflagset_setflag|by rewrite orb_false_r].
Qed.

Lemma isflagset_0 g : isflagset 0 g = false.
Proof. done. Qed.

#[export] Hint Rewrite isflagset_setflag isflagset_clear isflagset_setflag_if isflagset_0 : krb.

(** [flag_consts]: evaluate the tests of constant flags. *)
Ltac flag_consts :=
  repeat match goal with
  | |- context [isflagset ?a ?b] =>
      is_const a; is_const b;
      let c := eval vm_compute in (isflagset a b) in
      change (isflagset a b) with c
  | |- context [Z.land (Z.lnot ?a) ?b] =>
      is_const a; is_const b; change (Z.land (Z.lnot a) b) with b
  end;
  rewrite ?andb_true_r, ?andb_false_r, ?orb_false_r, ?orb_true_r, ?orb_false_l, ?orb_true_l.

(** ** Inversion of the decisions *)

Lemma refuse_if_ok b e s u : refuse_if b e s = Ok u -> b = false.
Proof. by destruct b. Qed.

Lemma iadd_ok a b c : iadd a b = Ok c -> c = a + b.
Proof. unfold iadd. destruct (_ && _); by intros [= ->]. Qed.

(** [accepted H]: the guards that a successful outcome [H] has passed. *)
Ltac accepted H :=
  repeat (let E := fresh "G" in let u := fresh "u" in
          apply obind_ok in H as (u & E & H); cbv beta iota in H;
          first [apply refuse_if_ok in E; clear u | apply iadd_ok in E; subst u | idtac]).

Lemma validate_as_accepts request client server now :
  validate_as_request request client server now = Ok tt ->
  let asked := isflagset (rq_kdc_options request) in
  let forbids f := isflagset (db_attributes client) f || isflagset (db_attributes server) f in
  (asked KDC_OPT_ALLOW_POSTDATE || asked KDC_OPT_POSTDATED) && forbids KRB5_KDB_DISALLOW_POSTDATED = false /\
  asked KDC_OPT_FORWARDABLE && forbids KRB5_KDB_DISALLOW_FORWARDABLE = false /\
  asked KDC_OPT_RENEWABLE && forbids KRB5_KDB_DISALLOW_RENEWABLE = false /\
  asked KDC_OPT_PROXIABLE && forbids KRB5_KDB_DISALLOW_PROXIABLE = false /\
  forbids KRB5_KDB_DISALLOW_ALL_TIX = false /\
  isflagset (db_attributes server) KRB5_KDB_DISALLOW_SVR = false.
Proof.
  unfold validate_as_request. intros H. accepted H. cbv zeta.
  repeat split; [done..| |done]. apply orb_false_iff. auto.
Qed.

(** ** The authentication service *)

Lemma as_flags_spec options g :
  isflagset (as_flags options) g =
    isflagset TKT_FLG_INITIAL g
    || isflagset options KDC_OPT_FORWARDABLE && isflagset TKT_FLG_FORWARDABLE g
    || isflagset options KDC_OPT_PROXIABLE && isflagset TKT_FLG_PROXIABLE g
    || isflagset options KDC_OPT_ALLOW_POSTDATE && isflagset TKT_FLG_MAY_POSTDATE g
    || isflagset options KDC_OPT_POSTDATED && isflagset TKT_FLG_POSTDATED g
    || isflagset options KDC_OPT_POSTDATED && isflagset TKT_FLG_INVALID g.
Proof. unfold as_flags. by autorewrite with krb. Qed.

Lemma make_renewable_set request rtime :
  isflagset (rq_kdc_options (make_renewable request rtime)) KDC_OPT_RENEWABLE = true.
Proof. cbn [rq_kdc_options make_renewable]. rewrite isflagset_setflag. by rewrite orb_true_r. Qed.

Lemma as_endtime_ok realm request client server start e :
  as_endtime realm request client server start = Ok e ->
  e = Z.min (or_infinity (rq_till request))
        (start + Z.min (db_max_life client) (Z.min (db_max_life server) (max_life_for_realm realm))).
Proof. unfold as_endtime. intros H. accepted H. simplify_eq. lia. Qed.

(** The parts of an issued ticket in terms of the options [options'] the request ends with. *)
Lemma as_issue_ok realm request client server now session request' part :
  as_issue realm request client server now session = Ok (request', part) ->
  let start := if isflagset (rq_kdc_options request) KDC_OPT_POSTDATED then rq_from request else now in
  let renewable := isflagset (rq_kdc_options request') KDC_OPT_RENEWABLE in
  let most := Z.min (db_max_renewable_life client)
                (Z.min (db_max_renewable_life server) (max_renewable_life_for_realm realm)) in
  exists e,
  as_endtime realm request client server start = Ok e /\
  (forall g, isflagset (etp_flags part) g =
     isflagset (as_flags (rq_kdc_options request)) g || renewable && isflagset TKT_FLG_RENEWABLE g) /\
  etp_times part = omit_starttime
    (TicketTimes now start e (if renewable then Z.min (or_infinity (rq_rtime request')) (start + most) else 0)) /\
  etp_caddrs part = rq_addresses request /\
  (if isflagset (rq_kdc_options request) KDC_OPT_RENEWABLE_OK
      && negb (isflagset (db_attributes client) KRB5_KDB_DISALLOW_RENEWABLE) && (e <? rq_till request)
   then request' = make_renewable request (rq_till request) else request' = request).
Proof.
  unfold as_issue. intros H. apply obind_ok in H as (e & He & H). cbv beta zeta in H.
  match type of H with context [if ?c then make_renewable _ _ else _] => destruct c eqn:C end.
  all: apply obind_ok in H as ([f r] & Hr & [= <- <-]).
  all: cbv zeta; exists e; split; [done|]; cbn [etp_flags etp_times etp_caddrs].
  - rewrite make_renewable_set in *. accepted Hr. simplify_eq. rewrite ?C.
    split_and!; try done. intros g. by rewrite isflagset_setflag.
  - destruct (isflagset (rq_kdc_options request) KDC_OPT_RENEWABLE).
    + accepted Hr. simplify_eq. rewrite ?C. split_and!; try done. intros g. by rewrite isflagset_setflag.
    + simplify_eq. rewrite ?C. split_and!; try done. intros g. by rewrite orb_false_r.
Qed.

Lemma disallowed_false b c d : b && (c || d) = false -> b = true -> c = false /\ d = false.
Proof. destruct b, c, d; done. Qed.

(** [flags_of F]: the constant flag a ticket has, by the description [F] of its flags. *)
Ltac flags_of F := rewrite !F, ?as_flags_spec; flag_consts.

(** C2: A ticket that the authentication service issues on a validated request is marked
    as initial, not yet as pre-authenticated, is forwardable, proxiable or postdated
    only if neither the entry of the client nor that of the server forbids it, is
    renewable only if the entry of the client allows it (that of the server is not asked
    when the option is RENEWABLE-OK), and is invalid exactly when it is postdated. It
    ends no later than asked, 0 standing for no limit, and than the lives of client,
    server and realm allow from its start. Its renewal limit is 0 if it is not
    renewable; otherwise it is within the renewable lives of client, server and realm
    and no later than the renewal time asked for, or, where RENEWABLE-OK has made it
    renewable because it ends too early, than the end asked for. *)
Theorem as_issue_policy realm request client server now session request' part :
  validate_as_request request client server now = Ok tt ->
  as_issue realm request client server now session = Ok (request', part) ->
  let has := isflagset (etp_flags part) in
  let allowed e f := isflagset (db_attributes e) f = false in
  let start := if isflagset (rq_kdc_options request) KDC_OPT_POSTDATED then rq_from request else now in
  (has TKT_FLG_INITIAL = true /\ has TKT_FLG_PRE_AUTH = false /\ has TKT_FLG_HW_AUTH = false) /\
  (has TKT_FLG_FORWARDABLE = true ->
     allowed client KRB5_KDB_DISALLOW_FORWARDABLE /\ allowed server KRB5_KDB_DISALLOW_FORWARDABLE) /\
  (has TKT_FLG_PROXIABLE = true ->
     allowed client KRB5_KDB_DISALLOW_PROXIABLE /\ allowed server KRB5_KDB_DISALLOW_PROXIABLE) /\
  (has TKT_FLG_MAY_POSTDATE || has TKT_FLG_POSTDATED = true ->
     allowed client KRB5_KDB_DISALLOW_POSTDATED /\ allowed server KRB5_KDB_DISALLOW_POSTDATED) /\
  (has TKT_FLG_POSTDATED = has TKT_FLG_INVALID) /\
  (has TKT_FLG_RENEWABLE = true -> allowed client KRB5_KDB_DISALLOW_RENEWABLE) /\
  (allowed client KRB5_KDB_DISALLOW_ALL_TIX /\ allowed server KRB5_KDB_DISALLOW_ALL_TIX /\
   allowed server KRB5_KDB_DISALLOW_SVR) /\
  (tt_endtime (etp_times part) <= start + db_max_life client /\
   tt_endtime (etp_times part) <= start + db_max_life server /\
   tt_endtime (etp_times part) <= start + max_life_for_realm realm /\
   (rq_till request <> 0 -> tt_endtime (etp_times part) <= rq_till request)) /\
  (if has TKT_FLG_RENEWABLE
   then tt_renew_till (etp_times part) <= start + db_max_renewable_life client /\
        tt_renew_till (etp_times part) <= start + db_max_renewable_life server /\
        tt_renew_till (etp_times part) <= start + max_renewable_life_for_realm realm /\
        (let asked := if isflagset (rq_kdc_options request) KDC_OPT_RENEWABLE_OK
                         && negb (isflagset (db_attributes client) KRB5_KDB_DISALLOW_RENEWABLE)
                         && (tt_endtime (etp_times part) <? rq_till request)
                      then rq_till request else rq_rtime request in
         asked <> 0 -> tt_renew_till (etp_times part) <= asked)
   else tt_renew_till (etp_times part) = 0) /\
  etp_caddrs part = rq_addresses request.
Proof.
  intros HV HI. apply validate_as_accepts in HV. apply as_issue_ok in HI. cbv zeta in *.
  destruct HV as (Vp & Vf & Vr & Vx & Vt & Vs). destruct HI as (e & He & F & T & C & R).
  apply as_endtime_ok in He. rewrite T. cbn [omit_starttime tt_endtime tt_renew_till].
  split_and!.
  1-3, 7: flags_of F; done.
  - flags_of F. by apply disallowed_false.
  - flags_of F. by apply disallowed_false.
  - intros H. apply (disallowed_false _ _ _ Vp). revert H. by flags_of F.
  - flags_of F. intros Hr. destruct (_ && _ && _) eqn:Ok in R.
    + rewrite !andb_true_iff, negb_true_iff in Ok. tauto.
    + subst request'. exact (proj1 (disallowed_false _ _ _ Vr Hr)).
  - apply orb_false_iff in Vt. tauto.
  - apply orb_false_iff in Vt. tauto.
  - done.
  - lia.
  - lia.
  - lia.
  - unfold or_infinity in He. destruct (Z.eqb_spec (rq_till request) 0); lia.
  - flags_of F. destruct (isflagset (rq_kdc_options request') _) eqn:Er; [|done].
    unfold or_infinity. split_and!; [lia..|].
    destruct (_ && _ && _); subst request'; cbn [rq_rtime make_renewable].
    + destruct (Z.eqb_spec (rq_till request) 0); lia.
    + destruct (Z.eqb_spec (rq_rtime request) 0); lia.
  - done.
Qed.

(** ** The ticket-granting service *)

Lemma validate_tgs_accepts realm request server ticket part now :
  tk_enc_part2 ticket = Some part ->
  validate_tgs_request realm request server ticket now = Ok tt ->
  let asked := isflagset (rq_kdc_options request) in
  let tgt := isflagset (etp_flags part) in
  (asked KDC_OPT_FORWARDED || asked KDC_OPT_FORWARDABLE) && negb (tgt TKT_FLG_FORWARDABLE) = false /\
  (asked KDC_OPT_PROXY || asked KDC_OPT_PROXIABLE) && negb (tgt TKT_FLG_PROXIABLE) = false /\
  (asked KDC_OPT_ALLOW_POSTDATE || asked KDC_OPT_POSTDATED) && negb (tgt TKT_FLG_MAY_POSTDATE) = false /\
  (asked KDC_OPT_RENEW || asked KDC_OPT_RENEWABLE) && negb (tgt TKT_FLG_RENEWABLE) = false.
Proof.
  unfold validate_tgs_request. intros Hp.
  destruct (rq_server request); [|done]. destruct (tk_server ticket); [|done].
  rewrite Hp. intros H. accepted H. done.
Qed.

Lemma tgs_flags_spec options h g :
  isflagset (tgs_flags options h) g =
    isflagset options KDC_OPT_FORWARDABLE && isflagset TKT_FLG_FORWARDABLE g
    || isflagset options KDC_OPT_FORWARDED && isflagset TKT_FLG_FORWARDED g
    || isflagset h TKT_FLG_FORWARDED && isflagset TKT_FLG_FORWARDED g
    || isflagset options KDC_OPT_PROXIABLE && isflagset TKT_FLG_PROXIABLE g
    || isflagset options KDC_OPT_PROXY && isflagset TKT_FLG_PROXY g
    || isflagset options KDC_OPT_ALLOW_POSTDATE && isflagset TKT_FLG_MAY_POSTDATE g
    || isflagset options KDC_OPT_POSTDATED && isflagset TKT_FLG_POSTDATED g
    || isflagset options KDC_OPT_POSTDATED && isflagset TKT_FLG_INVALID g.
Proof. unfold tgs_flags. by autorewrite with krb. Qed.

Lemma tgs_propagate_spec h f g :
  isflagset (tgs_propagate h f) g =
    isflagset f g || isflagset h TKT_FLG_PRE_AUTH && isflagset TKT_FLG_PRE_AUTH g
    || isflagset h TKT_FLG_HW_AUTH && isflagset TKT_FLG_HW_AUTH g.
Proof. unfold tgs_propagate. by autorewrite with krb. Qed.

(** The flags of the base ticket: those of the presented ticket when it is renewed, less
    INVALID when it is validated, and those of the options otherwise. *)
Lemma tgs_base_flags options part addresses g :
  isflagset (fst (tgs_base options part addresses)) g =
    if isflagset options KDC_OPT_RENEW then isflagset (etp_flags part) g
    else if isflagset options KDC_OPT_VALIDATE
         then isflagset (etp_flags part) (Z.land (Z.lnot TKT_FLG_INVALID) g)
    else isflagset (tgs_flags options (etp_flags part)) g.
Proof.
  unfold tgs_base. destruct (isflagset options KDC_OPT_RENEW); [done|].
  destruct (isflagset options KDC_OPT_VALIDATE); cbn [fst]; [apply isflagset_clear|done].
Qed.

Lemma tgs_endtime_ok realm request server times now e :
  tgs_endtime realm request server times now = Ok e ->
  e = Z.min (or_infinity (rq_till request))
        (Z.min (now + Z.min (db_max_life server) (max_life_for_realm realm)) (tt_endtime times)).
Proof. unfold tgs_endtime. intros H. accepted H. simplify_eq. lia. Qed.

Lemma tgs_renewed_endtime_ok times now e :
  tgs_renewed_endtime times now = Ok e ->
  e = Z.min (tt_renew_till times) (now + (tt_endtime times - tt_starttime times)).
Proof. unfold tgs_renewed_endtime. intros H. accepted H. simplify_eq. lia. Qed.

(** The parts of an issued ticket in terms of the options the request ends with. *)
Lemma tgs_issue_ok realm request server ticket part now r :
  tk_enc_part2 ticket = Some part ->
  tgs_issue realm request server ticket now = Ok r ->
  let options := rq_kdc_options request in
  let renewable := isflagset (rq_kdc_options (tr_request r)) KDC_OPT_RENEWABLE in
  let base := tgs_base options (fix_starttime part) (rq_addresses request) in
  let t := etp_times (fix_starttime part) in
  let most := Z.min (db_max_renewable_life server) (max_renewable_life_for_realm realm) in
  exists e,
  (if isflagset options KDC_OPT_RENEW then tgs_renewed_endtime t now
   else tgs_endtime realm request server t now) = Ok e /\
  (forall g, isflagset (tr_flags r) g =
     isflagset (fst base) g || renewable && isflagset TKT_FLG_RENEWABLE g
     || isflagset (etp_flags part) TKT_FLG_PRE_AUTH && isflagset TKT_FLG_PRE_AUTH g
     || isflagset (etp_flags part) TKT_FLG_HW_AUTH && isflagset TKT_FLG_HW_AUTH g) /\
  tr_times r = omit_starttime (TicketTimes (tt_authtime (etp_times part)) now e
    (if renewable
     then Z.min (or_infinity (rq_rtime (tr_request r))) (Z.min (tt_renew_till (etp_times part)) (now + most))
     else 0)) /\
  tr_caddrs r = snd base /\
  (renewable = true ->
     isflagset options KDC_OPT_RENEWABLE = true \/ isflagset (etp_flags part) TKT_FLG_RENEWABLE = true).
Proof.
  unfold tgs_issue. intros -> H. cbv zeta in *.
  destruct (tgs_base _ _ _) as [f c]. apply obind_ok in H as ([rq e] & He & H).
  apply obind_ok in H as ([f' till] & Hr & [= <-]). cbn [tr_request tr_flags tr_times tr_caddrs fst snd].
  exists e. split_and!.
  - destruct (isflagset _ KDC_OPT_RENEW); apply obind_ok in He as (e' & -> & He); by simplify_eq.
  - intros g. rewrite tgs_propagate_spec. do 2 f_equal.
    destruct (isflagset _ KDC_OPT_RENEWABLE); [|by simplify_eq; rewrite orb_false_r].
    accepted Hr. simplify_eq. apply isflagset_setflag.
  - destruct (isflagset _ KDC_OPT_RENEWABLE); accepted Hr; by simplify_eq.
  - done.
  - intros R. destruct (isflagset _ KDC_OPT_RENEW); apply obind_ok in He as (e' & _ & He); [by simplify_eq; left|].
    injection He as <- _. destruct (isflagset (etp_flags part) TKT_FLG_RENEWABLE) eqn:Et; [by right|].
    cbn [etp_flags fix_starttime] in R. rewrite ?Et, andb_false_r in R. by left.
Qed.

Lemma has_right b c : b && negb c = false <-> (b = true -> c = true).
Proof. destruct b, c; cbn; intuition congruence. Qed.

Lemma tgs_base_caddrs options part addresses :
  snd (tgs_base options part addresses) = etp_caddrs part \/
  snd (tgs_base options part addresses) = addresses /\ tgs_uses_addresses options = true /\
  isflagset options KDC_OPT_RENEW = false /\ isflagset options KDC_OPT_VALIDATE = false.
Proof.
  unfold tgs_base. destruct (isflagset options KDC_OPT_RENEW); [by left|].
  destruct (isflagset options KDC_OPT_VALIDATE); [by left|].
  destruct (tgs_uses_addresses options); [by right|by left].
Qed.

(** [tgs_flags_of F]: as [flags_of], for the ticket-granting service. *)
Ltac tgs_flags_of F :=
  rewrite !F, !tgs_base_flags, ?tgs_flags_spec; cbn [etp_flags fix_starttime]; flag_consts.

(** [by_option]: a copied ticket has the flags of the presented one; the other tickets
    have a flag because of an option. *)
Ltac by_option :=
  destruct (isflagset _ KDC_OPT_RENEW); [|destruct (isflagset _ KDC_OPT_VALIDATE)];
  rewrite ?orb_true_iff; try tauto; try (by intros).

(** C1: A ticket that the ticket-granting service issues on a validated request has no
    right that the presented ticket has not: it is forwardable, proxiable, postdatable,
    renewable or initial only if that ticket is, its pre-authentication flags and
    authentication time are the same, a forwarded ticket stays marked as forwarded, and
    it has other addresses only if it is marked as forwarded or proxy. It ends no later
    than that ticket, than the request asks and than the life limits of server and realm
    allow; a renewed ticket, to which the code applies none of these limits, ends no
    later than the renewal limit of the presented one and lasts no longer than that one
    did from its start (or authentication) to its end. Its renewal limit is 0 or no
    later than that of the presented ticket and than server and realm allow. *)
Theorem tgs_issue_no_escalation realm request server ticket part now r :
  tk_enc_part2 ticket = Some part ->
  validate_tgs_request realm request server ticket now = Ok tt ->
  tgs_issue realm request server ticket now = Ok r ->
  let tgt := isflagset (etp_flags part) in
  let has := isflagset (tr_flags r) in
  let t := etp_times part in
  (forall f, f ∈ [TKT_FLG_FORWARDABLE; TKT_FLG_PROXIABLE; TKT_FLG_MAY_POSTDATE; TKT_FLG_RENEWABLE;
                  TKT_FLG_INITIAL] -> has f = true -> tgt f = true) /\
  (has TKT_FLG_PRE_AUTH = tgt TKT_FLG_PRE_AUTH /\ has TKT_FLG_HW_AUTH = tgt TKT_FLG_HW_AUTH) /\
  (has TKT_FLG_FORWARDED = true -> tgt TKT_FLG_FORWARDABLE || tgt TKT_FLG_FORWARDED = true) /\
  (tgt TKT_FLG_FORWARDED = true -> has TKT_FLG_FORWARDED = true) /\
  (has TKT_FLG_PROXY = true -> tgt TKT_FLG_PROXIABLE || tgt TKT_FLG_PROXY = true) /\
  tt_authtime (tr_times r) = tt_authtime t /\
  (if isflagset (rq_kdc_options request) KDC_OPT_RENEW
   then tt_endtime (tr_times r) <= tt_renew_till t /\
        tt_endtime (tr_times r) - now
          <= tt_endtime t - (if tt_starttime t =? 0 then tt_authtime t else tt_starttime t)
   else (rq_till request <> 0 -> tt_endtime (tr_times r) <= rq_till request) /\
        tt_endtime (tr_times r) <= tt_endtime t /\
        tt_endtime (tr_times r) <= now + db_max_life server /\
        tt_endtime (tr_times r) <= now + max_life_for_realm realm) /\
  (tt_renew_till (tr_times r) = 0 \/
   has TKT_FLG_RENEWABLE = true /\ tt_renew_till (tr_times r) <= tt_renew_till t /\
   tt_renew_till (tr_times r) <= now + db_max_renewable_life server /\
   tt_renew_till (tr_times r) <= now + max_renewable_life_for_realm realm) /\
  (tr_caddrs r = etp_caddrs part \/
   tr_caddrs r = rq_addresses request /\ has TKT_FLG_FORWARDED || has TKT_FLG_PROXY = true).
Proof.
  intros Hp HV HI. pose proof (validate_tgs_accepts _ _ _ _ _ _ Hp HV) as (Vf & Vx & Vp & Vr).
  pose proof (tgs_issue_ok _ _ _ _ _ _ _ Hp HI) as (e & He & F & T & C & R). clear HV HI. cbv zeta in *.
  rewrite has_right in Vf, Vx, Vp, Vr. rewrite ?orb_true_iff in *.
  rewrite T. cbn [omit_starttime tt_authtime tt_endtime tt_renew_till].
  split_and!.
  - intros f Hf. repeat (apply list_elem_of_In in Hf as [<-|Hf%list_elem_of_In]; [tgs_flags_of F; by_option|]).
    by apply not_elem_of_nil in Hf.
  - tgs_flags_of F. repeat case_match; by rewrite ?orb_diag.
  - tgs_flags_of F. repeat case_match; by rewrite ?orb_diag.
  - tgs_flags_of F. by_option.
  - tgs_flags_of F. by_option.
  - tgs_flags_of F. by_option.
  - done.
  - destruct (isflagset (rq_kdc_options request) KDC_OPT_RENEW).
    + apply tgs_renewed_endtime_ok in He. cbn in He. lia.
    + apply tgs_endtime_ok in He. cbn in He. unfold or_infinity in He.
      destruct (Z.eqb_spec (rq_till request) 0); lia.
  - destruct (isflagset (rq_kdc_options (tr_request r)) KDC_OPT_RENEWABLE); [right|by left].
    tgs_flags_of F. split; [done|lia].
  - destruct (tgs_base_caddrs (rq_kdc_options request) (fix_starttime part) (rq_addresses request))
      as [E|(E & Hu & E1 & E2)]; [left; by rewrite C, E|right].
    split; [by rewrite C, E|]. tgs_flags_of F. rewrite E1, E2. unfold tgs_uses_addresses in Hu.
    rewrite !orb_true_iff in *. tauto.
Qed.

(** ** Decisions that differ from what is meant *)

(** The RENEWABLE-OK option of an AS request whose requested end is out of reach yields
    a renewable ticket also for a server whose entry forbids renewable tickets. *)
Theorem as_renewable_ok_ignores_server realm request client server now session request' part :
  isflagset (db_attributes server) KRB5_KDB_DISALLOW_RENEWABLE = true ->
  isflagset (db_attributes client) KRB5_KDB_DISALLOW_RENEWABLE = false ->
  isflagset (rq_kdc_options request) KDC_OPT_RENEWABLE_OK = true ->
  as_issue realm request client server now session = Ok (request', part) ->
  tt_endtime (etp_times part) < rq_till request ->
  isflagset (etp_flags part) TKT_FLG_RENEWABLE = true.
Proof.
  intros _ Hc Ho. unfold as_issue. intros H He. apply obind_ok in H as (e & _ & H). cbv beta zeta in H.
  rewrite Hc, Ho in H. cbn [negb andb] in H.
  destruct (Z.ltb_spec e (rq_till request)).
  - rewrite make_renewable_set in H. apply obind_ok in H as ([f r] & Hr & [= <- <-]). accepted Hr. simplify_eq. cbn [etp_flags]. rewrite isflagset_setflag. flag_consts. done.
  - apply obind_ok in H as ([f r] & _ & [= <- <-]). cbn in He. lia.
Qed.

(** A request for a proxy ticket is accepted only if the server it names is a
    ticket-granting service, the case that the check is meant to refuse. *)
Theorem tgs_proxy_only_for_tgs realm request server ticket now p :
  rq_server request = Some p ->
  isflagset (rq_kdc_options request) KDC_OPT_PROXY = true ->
  validate_tgs_request realm request server ticket now = Ok tt ->
  krb5_is_tgs_principal p = Ok true.
Proof.
  unfold validate_tgs_request. intros -> Hx.
  destruct (tk_server ticket); [|done]. destruct (tk_enc_part2 ticket); [|done].
  intros H. accepted H.
  match goal with G : check_proxy _ _ = _ |- _ => unfold check_proxy in G; rewrite Hx in G;
    destruct (pr_data p); [|done]; apply obind_ok in G as (b & -> & G%refuse_if_ok) end.
  by destruct b.
Qed.

(** A ticket that the ticket-granting service issues for a postdated request is marked
    as postdated but starts at the time of the KDC, not at the time asked for. *)
Theorem tgs_postdated_starts_now realm request server ticket part now r :
  tk_enc_part2 ticket = Some part ->
  isflagset (rq_kdc_options request) KDC_OPT_POSTDATED = true ->
  isflagset (rq_kdc_options request) KDC_OPT_RENEW = false ->
  isflagset (rq_kdc_options request) KDC_OPT_VALIDATE = false ->
  tgs_issue realm request server ticket now = Ok r ->
  isflagset (tr_flags r) TKT_FLG_POSTDATED = true /\
  tt_starttime (tr_times r) = if now =? tt_authtime (etp_times part) then 0 else now.
Proof.
  intros Hp Ho H1 H2 HI. pose proof (tgs_issue_ok _ _ _ _ _ _ _ Hp HI) as (e & _ & F & T & _).
  cbv zeta in *. rewrite T. split; [|done]. tgs_flags_of F. by rewrite H1, H2.
Qed.
