(* ===== verification/KdcReplay.v ===== *)
(** * The replies that the KDC keeps (src/src/kdc/replay.c, dispatch.c)

    A client that gets no answer sends its request again.  So that the work is not done
    twice, the KDC keeps its replies for a while and sends them again.

    A packet and the contents of an address are the octets that they have.  The time and the
    modification time of the database are what krb5_timeofday and krb5_db_get_age return at
    the time of a call; [None] stands for an error of one of them.  The work on a request
    depends on all of the state of the KDC; what it returns is an argument. *)

From S2P Require Import Prelude Asn1Buf Krb5Types Krb5Decode.

(** krb5_kdc_replay_ent, without the link *)
Record krb5_kdc_replay_ent : Type := ReplayEnt {
  re_num_hits : Z; re_timein : Z; re_db_age : Z; re_req_packet : list octet; re_reply_packet : list octet; re_addr : list octet
}.

(** The static variables: the list behind root_ptr and the counters *)
Record lookaside : Type := Lookaside {
  la_root : list krb5_kdc_replay_ent; la_hits : Z; la_calls : Z; la_max_hits_per_entry : Z; la_num_entries : Z
}.
Definition no_replies : lookaside := Lookaside [] 0 0 0 0.

Definition STALE_TIME : Z := 2 * 60.

Definition STALE (timenow db_age : Z) (ptr : krb5_kdc_replay_ent) : bool :=
  (STALE_TIME <=? Z.abs (int32 (re_timein ptr - timenow))) || negb (re_db_age ptr =? db_age).
Definition MATCH (inpkt from : list octet) (db_age : Z) (ptr : krb5_kdc_replay_ent) : bool :=
  bool_decide (re_req_packet ptr = inpkt) && bool_decide (re_addr ptr = from) && (re_db_age ptr =? db_age).

(** The time and the age of the database. *)
Definition clock : Type := option (Z * Z).

Section replay.
Context `{P : Platform}.

(** sizeof(krb5_data), sizeof(krb5_address) and sizeof(krb5_kdc_replay_ent) *)
Definition sizeof_data : Z := 8 + sizeof_long.
Definition sizeof_address : Z := 12 + (sizeof_long - 4) + sizeof_long.
Definition sizeof_replay_ent : Z := 8 + 5 * sizeof_long.

(** krb5_copy_data *)
Definition krb5_copy_data (d : list octet) : option (list octet) :=
  match malloc sizeof_data with
  | None => None
  | Some _ => match d with [] => Some [] | _ => match malloc (zlen d) with Some _ => Some d | None => None end end
  end.
(** krb5_copy_addr *)
Definition krb5_copy_addr (a : list octet) : option (list octet) :=
  match malloc sizeof_address, malloc (zlen a) with Some _, Some _ => Some a | _, _ => None end.

(** The loop: the entries that stay, the greatest number of hits of a flushed one, and the
    entry that matched. *)
Fixpoint scan_replies (inpkt from : list octet) (timenow db_age : Z) (l : list krb5_kdc_replay_ent) (max_hits : Z)
    : list krb5_kdc_replay_ent * Z * option krb5_kdc_replay_ent :=
  match l with
  | [] => ([], max_hits, None)
  | e :: l =>
      if MATCH inpkt from db_age e then
        let e := ReplayEnt (int32 (re_num_hits e + 1)) (re_timein e) (re_db_age e) (re_req_packet e) (re_reply_packet e) (re_addr e) in
        (e :: l, max_hits, Some e)
      else if STALE timenow db_age e then scan_replies inpkt from timenow db_age l (Z.max max_hits (re_num_hits e))
      else let '(l, m, r) := scan_replies inpkt from timenow db_age l max_hits in (e :: l, m, r)
  end.

(** The reply, if there is one to send again. *)
Definition kdc_check_lookaside (now : clock) (inpkt from : list octet) (c : lookaside) : option (list octet) * lookaside :=
  match now with
  | None => (None, c)
  | Some (timenow, db_age) =>
      let '(l, m, r) := scan_replies inpkt from timenow db_age (la_root c) (la_max_hits_per_entry c) in
      let calls := int32 (la_calls c + 1) in
      match r with
      | Some e => (krb5_copy_data (re_reply_packet e), Lookaside l (int32 (la_hits c + 1)) calls m (la_num_entries c))
      | None => (None, Lookaside l (la_hits c) calls m (la_num_entries c))
      end
  end.

Definition kdc_insert_lookaside (now : clock) (inpkt from outpkt : list octet) (c : lookaside) : lookaside :=
  match now with
  | None => c
  | Some (timenow, db_age) =>
      match malloc sizeof_replay_ent, krb5_copy_data inpkt, krb5_copy_data outpkt, krb5_copy_addr from with
      | Some _, Some req_packet, Some reply_packet, Some addr =>
          Lookaside (ReplayEnt 0 timenow db_age req_packet reply_packet addr :: la_root c)
            (la_hits c) (la_calls c) (la_max_hits_per_entry c) (int32 (la_num_entries c + 1))
      | _, _, _, _ => c
      end
  end.

(** ** dispatch *)

Definition krb5_is_tgs_req (pkt : list octet) : bool := match pkt with o :: _ => (o =? 0x6c) || (o =? 0x4c) | [] => false end.
Definition krb5_is_as_req (pkt : list octet) : bool := match pkt with o :: _ => (o =? 0x6a) || (o =? 0x4a) | [] => false end.

(** process_tgs_req, setup_server_realm and process_as_req at the time of the request. *)
Record kdc_work : Type := KdcWork {
  process_tgs_req : list octet -> list octet -> outcome error_code (list octet);
  setup_server_realm : option krb5_principal_data -> outcome error_code unit;
  process_as_req : krb5_kdc_req -> list octet -> outcome error_code (list octet)
}.

(** What is done for a request that is not in the cache; the decoder has a bound on its
    loops. *)
Definition dispatch_work (fuel : nat) (w : kdc_work) (pkt from : list octet) : outcome error_code (list octet) :=
  if krb5_is_tgs_req pkt then process_tgs_req w pkt from
  else if krb5_is_as_req pkt then
    let* as_req := decode_krb5_as_req fuel (Some (Data (zlen pkt) (Some pkt))) in
    let* _ := setup_server_realm w (rq_server as_req) in
    process_as_req w as_req from
  else Err KRB5KRB_AP_ERR_MSG_TYPE.

(** [before] and [after] the work. *)
Definition dispatch (fuel : nat) (before after : clock) (w : kdc_work) (pkt from : list octet) (c : lookaside)
    : outcome error_code (list octet) * lookaside :=
  let '(r, c) := kdc_check_lookaside before pkt from c in
  match r with
  | Some response => (Ok response, c)
  | None =>
      match dispatch_work fuel w pkt from with
      | Ok response => (Ok response, kdc_insert_lookaside after pkt from response c)
      | e => (e, c)
      end
  end.

End replay.
