(* ===== verification/KdcReplayProofs.v ===== *)
(** * The KDC repeats only its own replies (KdcReplay.v)

    Over any history of requests: a reply that is sent again was made for the same packet
    from the same address under the same database, and a request that is repeated within
    two minutes gets the reply that it got. *)

From S2P Require Import Prelude Asn1Buf PrincNameProofs Krb5Types Krb5Decode KdcReplay.

(** A request, with the clocks and the state of the KDC when it arrives. *)
Record request : Type := Request { q_before : clock; q_after : clock; q_work : kdc_work; q_pkt : list octet; q_from : list octet }.

Section replay.
Context `{P : Platform} (fuel : nat).

Definition work_result (q : request) : outcome error_code (list octet) := dispatch_work fuel (q_work q) (q_pkt q) (q_from q).
Definition serve (q : request) (c : lookaside) : outcome error_code (list octet) * lookaside :=
  dispatch fuel (q_before q) (q_after q) (q_work q) (q_pkt q) (q_from q) c.

Fixpoint serve_all (qs : list request) (c : lookaside) : list (outcome error_code (list octet)) * lookaside :=
  match qs with
  | [] => ([], c)
  | q :: qs => let '(r, c) := serve q c in let '(rs, c) := serve_all qs c in (r :: rs, c)
  end.

(** An entry that a request made. *)
Definition made_by (q : request) (e : krb5_kdc_replay_ent) : Prop :=
  work_result q = Ok (re_reply_packet e) /\ q_pkt q = re_req_packet e /\ q_from q = re_addr e /\ exists t, q_after q = Some (t, re_db_age e).
Definition genuine (past : list request) (e : krb5_kdc_replay_ent) : Prop := exists q, In q past /\ made_by q e.

(** The number of hits of an entry does not matter. *)
Lemma genuine_hits past n e :
  genuine past e -> genuine past (ReplayEnt n (re_timein e) (re_db_age e) (re_req_packet e) (re_reply_packet e) (re_addr e)).
Proof. done. Qed.

Lemma match_spec inpkt from age e : MATCH inpkt from age e = true <-> re_req_packet e = inpkt /\ re_addr e = from /\ re_db_age e = age.
Proof. unfold MATCH. rewrite !andb_true_iff, !bool_decide_eq_true, Z.eqb_eq. tauto. Qed.

Lemma scan_genuine past inpkt from t age l m : Forall (genuine past) l ->
  let '(l', _, r) := scan_replies inpkt from t age l m in
  Forall (genuine past) l' /\ forall e, r = Some e -> genuine past e /\ re_req_packet e = inpkt /\ re_addr e = from /\ re_db_age e = age.
Proof.
  intros H. revert m. induction H as [|e l He Hl IH]; intros m; cbn [scan_replies]; [done|].
  destruct (MATCH inpkt from age e) eqn:EM.
  - apply match_spec in EM. split; [constructor; [by apply genuine_hits|done]|]. intros ? [= <-]. split; [by apply genuine_hits|done].
  - destruct (STALE t age e); [apply IH|]. specialize (IH m). destruct (scan_replies _ _ _ _ l m) as [[l' m'] r].
    destruct IH as [I1 I2]. split; [by constructor|exact I2].
Qed.

Lemma copy_data_same d d' : krb5_copy_data d = Some d' -> d' = d.
Proof. unfold krb5_copy_data. destruct (malloc _); [|done]. destruct d; [by injection 1|]. destruct (malloc _); [by injection 1|done]. Qed.
Lemma copy_addr_same a a' : krb5_copy_addr a = Some a' -> a' = a.
Proof. unfold krb5_copy_addr. destruct (malloc sizeof_address), (malloc (zlen a)); try done. by injection 1. Qed.

Lemma insert_genuine past q resp c : work_result q = Ok resp -> Forall (genuine past) (la_root c) ->
  Forall (genuine (past ++ [q])) (la_root (kdc_insert_lookaside (q_after q) (q_pkt q) (q_from q) resp c)).
Proof.
  intros EA H. assert (H' : Forall (genuine (past ++ [q])) (la_root c)).
  { eapply list.Forall_impl; [exact H|]. intros e (q' & HI & HM). exists q'. split; [apply in_or_app; by left|done]. }
  unfold kdc_insert_lookaside. destruct (q_after q) as [[t age]|] eqn:EQ; [|done].
  destruct (malloc sizeof_replay_ent); [|done]. destruct (krb5_copy_data (q_pkt q)) as [p|] eqn:E1; [|done].
  destruct (krb5_copy_data resp) as [r|] eqn:E2; [|done]. destruct (krb5_copy_addr (q_from q)) as [a|] eqn:E3; [|done].
  apply copy_data_same in E1 as ->, E2 as ->. apply copy_addr_same in E3 as ->. cbn [la_root]. constructor; [|done].
  exists q. split; [apply in_or_app; right; by left|]. split; [done|]. split; [done|]. split; [done|]. by exists t.
Qed.

(** What a reply is. *)
Definition reply_genuine (past : list request) (q : request) (r : outcome error_code (list octet)) : Prop :=
  r = work_result q \/ exists q' resp age, r = Ok resp /\ In q' past /\ work_result q' = Ok resp /\ q_pkt q' = q_pkt q /\ q_from q' = q_from q /\
    (exists t, q_after q' = Some (t, age)) /\ exists t, q_before q = Some (t, age).

Lemma serve_genuine past q c : Forall (genuine past) (la_root c) ->
  reply_genuine past q (serve q c).1 /\ Forall (genuine (past ++ [q])) (la_root (serve q c).2).
Proof.
  intros H. assert (W : forall l, Forall (genuine past) l -> Forall (genuine (past ++ [q])) l).
  { intros l Hl. eapply list.Forall_impl; [exact Hl|]. intros e (q' & HI & HM). exists q'. split; [apply in_or_app; by left|done]. }
  unfold serve, dispatch, kdc_check_lookaside.
  assert (D : forall c, Forall (genuine past) (la_root c) ->
    let x := match work_result q with Ok response => (Ok response, kdc_insert_lookaside (q_after q) (q_pkt q) (q_from q) response c) | e => (e, c) end in
    reply_genuine past q x.1 /\ Forall (genuine (past ++ [q])) (la_root x.2)).
  { intros c' Hc. destruct (work_result q) as [resp| | |] eqn:EA; cbn [fst snd]; (split; [left; by rewrite EA|by (apply insert_genuine || apply W)]). }
  destruct (q_before q) as [[t age]|] eqn:EB; [|by apply D].
  pose proof (scan_genuine past (q_pkt q) (q_from q) t age (la_root c) (la_max_hits_per_entry c) H) as S.
  destruct (scan_replies _ _ _ _ _ _) as [[l m] r]. destruct S as [S1 S2]. destruct r as [e|]; [|by apply D].
  destruct (S2 e eq_refl) as ((q' & HI & EA & EP & EF & ET) & E1 & E2 & E3). destruct (krb5_copy_data (re_reply_packet e)) as [resp|] eqn:EC; [|by apply D].
  apply copy_data_same in EC as ->. cbn [fst snd la_root]. split; [|by apply W]. right. exists q', (re_reply_packet e), age. subst age.
  split_and!; [done|done|done|congruence|congruence|done|by exists t].
Qed.

(** C15: Over any history of requests to the KDC, from its start on, with any clocks,
    databases and failures of memory: what [dispatch] returns for a request is what the
    work on it returns now, or what the work on an earlier request returned, and then
    this was the same packet from the same address and the database has the same
    modification time as when that reply was kept. *)
Theorem replies_genuine qs i q r : qs !! i = Some q -> (serve_all qs no_replies).1 !! i = Some r -> reply_genuine (take i qs) q r.
Proof.
  assert (G : forall qs past c, Forall (genuine past) (la_root c) -> forall i q r, qs !! i = Some q -> (serve_all qs c).1 !! i = Some r ->
    reply_genuine (past ++ take i qs) q r).
  { clear. intros qs. induction qs as [|q0 qs IH]; intros past c H i q r Hq Hr; [done|]. cbn [serve_all] in Hr.
    destruct (serve_genuine past q0 c H) as [H1 H2]. destruct (serve q0 c) as [r0 c0]. cbn [fst snd] in *.
    specialize (IH (past ++ [q0]) c0 H2). destruct (serve_all qs c0) as [rs c1]. cbn [fst] in *. destruct i as [|i].
    - injection Hq as <-. injection Hr as <-. by rewrite app_nil_r.
    - cbn [take]. specialize (IH i q r Hq Hr). by rewrite <- app_assoc in IH. }
  intros Hq Hr. by apply (G qs [] no_replies (Forall_nil_2 _) i).
Qed.

(** ** Requests that are repeated *)

Section repeated.
Context (pkt from resp : list octet) (t age : Z).
Hypothesis Hresp : zlen resp <= malloc_limit.
Hypothesis Hmem : 60 <= malloc_limit.

Definition kept_entry (e : krb5_kdc_replay_ent) : Prop :=
  re_req_packet e = pkt /\ re_addr e = from /\ re_db_age e = age /\ re_timein e = t /\ re_reply_packet e = resp.
(** The reply is in the list, and nothing that matches the request in front of it. *)
Definition kept (l : list krb5_kdc_replay_ent) : Prop :=
  exists l1 e l2, l = l1 ++ e :: l2 /\ kept_entry e /\ Forall (fun e' => MATCH pkt from age e' = false) l1.

Lemma copy_resp : krb5_copy_data resp = Some resp.
Proof.
  unfold krb5_copy_data. destruct (malloc_ok sizeof_data) as (b & -> & _); [unfold sizeof_data; destruct sizeof_long_ok as [-> | ->]; lia|].
  destruct resp eqn:E; [done|]. rewrite <- E in *. by destruct (malloc_ok (zlen resp)) as (b' & -> & _); [pose proof (zlen_nonneg resp); lia|].
Qed.

Lemma kept_match e : kept_entry e -> MATCH pkt from age e = true.
Proof. intros (? & ? & ? & _). by apply match_spec. Qed.

(** A request for the kept reply gets it; other requests leave it. *)
Lemma scan_kept inpkt addr now l m : kept l -> Z.abs (t - now) < STALE_TIME ->
  let '(l', _, r) := scan_replies inpkt addr now age l m in
  kept l' /\ (inpkt = pkt -> addr = from -> exists e, r = Some e /\ re_reply_packet e = resp).
Proof.
  intros (l1 & e & l2 & -> & He & H1) Hnow. revert m. pose proof (kept_match e He) as EM. induction H1 as [|x l1 Hx H1 IH]; intros m; cbn [app scan_replies].
  - destruct (MATCH inpkt addr age e) eqn:E.
    + split; [|intros _ _; eexists; split; [done|]; by destruct He as (_ & _ & _ & _ & ?)]. eexists [], _, l2. split; [done|]. split; [exact He|constructor].
    + assert (S : STALE now age e = false).
      { destruct He as (_ & _ & Ea & Et & _). unfold STALE. rewrite Ea, Et, Z.eqb_refl, orb_false_r. unfold STALE_TIME in *.
        rewrite to_int_id by (unfold is_int; lia). lia. }
      rewrite S. destruct (scan_replies inpkt addr now age l2 m) as [[l' m'] r].
      split; [exists [], e, l'; split; [done|]; split; [done|constructor]|]. intros -> ->. congruence.
  - destruct (MATCH inpkt addr age x) eqn:E.
    + split; [|intros -> ->; congruence]. eexists (_ :: l1), e, l2. split; [done|]. split; [done|]. by constructor.
    + destruct (STALE now age x); [apply IH|]. specialize (IH m). destruct (scan_replies inpkt addr now age (l1 ++ e :: l2) m) as [[l' m'] r].
      destruct IH as [(k1 & e' & k2 & -> & He' & Hk) IH2]. split; [|done]. exists (x :: k1), e', k2. split; [done|]. split; [done|]. by constructor.
Qed.

Definition in_time (q : request) : Prop := exists now, q_before q = Some (now, age) /\ Z.abs (t - now) < STALE_TIME.

Lemma serve_kept q c : kept (la_root c) -> in_time q -> kept (la_root (serve q c).2) /\
  (q_pkt q = pkt -> q_from q = from -> (serve q c).1 = Ok resp).
Proof.
  intros Hk (now & EB & Hn). unfold serve, dispatch, kdc_check_lookaside. rewrite EB.
  pose proof (scan_kept (q_pkt q) (q_from q) now (la_root c) (la_max_hits_per_entry c) Hk Hn) as S.
  destruct (scan_replies _ _ _ _ _ _) as [[l m] r]. destruct S as [S1 S2].
  assert (D : forall c, kept (la_root c) -> ~ (q_pkt q = pkt /\ q_from q = from) ->
    let x := match work_result q with Ok response => (Ok response, kdc_insert_lookaside (q_after q) (q_pkt q) (q_from q) response c) | e => (e, c) end in
    kept (la_root x.2)).
  { intros c' Hc Hne. destruct (work_result q) as [resp'| | |]; cbn [snd]; try done. unfold kdc_insert_lookaside. destruct (q_after q) as [[t' age']|]; [|done].
    destruct (malloc sizeof_replay_ent); [|done]. destruct (krb5_copy_data (q_pkt q)) as [p|] eqn:E1; [|done].
    destruct (krb5_copy_data resp') as [r'|]; [|done]. destruct (krb5_copy_addr (q_from q)) as [a|] eqn:E3; [|done].
    apply copy_data_same in E1 as ->. apply copy_addr_same in E3 as ->. cbn [la_root]. destruct Hc as (l1 & e & l2 & -> & He & H1).
    exists (ReplayEnt 0 t' age' (q_pkt q) r' (q_from q) :: l1), e, l2. split; [done|]. split; [done|]. constructor; [|done].
    apply not_true_is_false. intros (? & ? & _)%match_spec. by apply Hne. }
  destruct (decide (q_pkt q = pkt /\ q_from q = from)) as [[Ep Ef]|Hne].
  - destruct (S2 Ep Ef) as (e & -> & ->). rewrite copy_resp. done.
  - destruct r as [e|]; [destruct (krb5_copy_data (re_reply_packet e))|]; (split; [first [done|by apply D]|intros; by destruct Hne]).
Qed.

Lemma serve_all_kept qs : forall c, kept (la_root c) -> Forall in_time qs -> kept (la_root (serve_all qs c).2).
Proof.
  induction qs as [|q qs IH]; intros c Hk Hq; [done|]. apply Forall_cons_1 in Hq as [Hq Hqs]. cbn [serve_all].
  destruct (serve_kept q c Hk Hq) as [H _]. destruct (serve q c) as [r c1]. specialize (IH c1 H Hqs). by destruct (serve_all qs c1).
Qed.

End repeated.

(** C17: When the work on a request gave a reply, that reply is sent again, without any
    work, for every repetition of the request from the same address within two minutes,
    whatever other requests arrive in between, as long as the database is not modified.
    *)
Theorem repeated_request_answered c q qs q' t age resp :
  60 <= malloc_limit -> zlen resp <= malloc_limit -> zlen (q_pkt q) <= malloc_limit -> zlen (q_from q) <= malloc_limit ->
  (kdc_check_lookaside (q_before q) (q_pkt q) (q_from q) c).1 = None -> work_result q = Ok resp -> q_after q = Some (t, age) ->
  Forall (in_time t age) qs -> in_time t age q' -> q_pkt q' = q_pkt q -> q_from q' = q_from q ->
  (serve q' (serve_all qs (serve q c).2).2).1 = Ok resp.
Proof.
  intros Hm Hr Hp Hf EC EA ET Hqs Hq' Ep Ef. pose proof (zlen_nonneg (q_pkt q)). pose proof (zlen_nonneg (q_from q)).
  apply (serve_kept (q_pkt q) (q_from q) resp t age Hr Hm); [|done|done|done]. apply serve_all_kept; [done|done| |done].
  unfold serve, dispatch. destruct (kdc_check_lookaside _ _ _ _) as [r c1]. cbn [fst] in EC. subst r. unfold work_result in EA. rewrite EA. cbn [snd].
  unfold kdc_insert_lookaside. rewrite ET.
  destruct (malloc_ok sizeof_replay_ent) as (b & -> & _); [unfold sizeof_replay_ent; destruct sizeof_long_ok as [-> | ->]; lia|].
  rewrite (copy_resp resp Hr Hm), (copy_resp (q_pkt q) Hp Hm). unfold krb5_copy_addr.
  destruct (malloc_ok sizeof_address) as (b1 & -> & _); [unfold sizeof_address; destruct sizeof_long_ok as [-> | ->]; lia|].
  destruct (malloc_ok (zlen (q_from q))) as (b2 & -> & _); [lia|]. cbn [la_root].
  by eexists [], _, _.
Qed.

End replay.
