(* ===== verification/GssGeneric.v ===== *)
(** * Sequence numbers of GSS-API tokens (src/src/lib/gssapi/generic/util_ordering.c)

    The receiver of tokens keeps the latest sequence numbers in a circular queue to
    detect replayed and reordered tokens.  Sequence numbers are 32-bit unsigned. *)

From S2P Require Import Prelude Asn1Buf.

Definition QUEUE_LENGTH : Z := 20.

Record queue := Queue {
  do_replay : bool; do_sequence : bool; q_start : Z; q_length : Z; firstnum : Z; elem : list Z
}.

(** The status codes the functions return. *)
Inductive gss_status : Set :=
| GSS_S_COMPLETE | GSS_S_DUPLICATE_TOKEN | GSS_S_OLD_TOKEN | GSS_S_UNSEQ_TOKEN
| GSS_S_GAP_TOKEN | GSS_S_FAILURE | GSS_S_NO_CONTEXT | GSS_S_CONTEXT_EXPIRED
| GSS_S_DEFECTIVE_TOKEN | GSS_S_BAD_SIG.

#[global] Instance gss_status_eq_dec : EqDecision gss_status.
Proof. solve_decision. Defined.

(** QELEM(q,i) of the array, read and assigned; [i] is not negative. *)
Definition qelem (el : list Z) (i : Z) : Z := nth (Z.to_nat (i mod QUEUE_LENGTH)) el 0.
Definition set_qelem (el : list Z) (i v : Z) : list Z := <[Z.to_nat (i mod QUEUE_LENGTH) := v]> el.

(** for (i = last; i > after; i--) QELEM(q,i+1) = QELEM(q,i), [n] times from [last] down *)
Fixpoint shift_up (n : nat) (i : Z) (el : list Z) : list Z :=
  match n with
  | O => el
  | S n => shift_up n (i - 1) (set_qelem el (i + 1) (qelem el i))
  end.

Definition queue_insert (q : queue) (after seqnum : Z) : queue :=
  let last := q_start q + q_length q - 1 in
  let el := shift_up (Z.to_nat (last - after)) last (elem q) in
  let el := set_qelem el (after + 1) seqnum in
  if q_length q =? QUEUE_LENGTH then
    let start := q_start q + 1 in
    Queue (do_replay q) (do_sequence q) (if start =? QUEUE_LENGTH then 0 else start)
      (q_length q) (firstnum q) el
  else
    Queue (do_replay q) (do_sequence q) (q_start q) (q_length q + 1) (firstnum q) el.

(** [block] is the contents of the array in the block [malloc] returned, [None] for NULL. *)
Definition g_order_init (block : option (list Z)) (seqnum : Z) (replay sequence : bool)
    : outcome error_code queue :=
  match block with
  | None => Err ENOMEM
  | Some el => Ok (Queue replay sequence 0 1 seqnum (set_qelem el 0 (uint32 (seqnum - 1))))
  end.

(** The search through the queue from [i] on, [n] the number of iterations left. *)
Fixpoint search (n : nat) (i : Z) (q : queue) (seqnum : Z) : gss_status * queue :=
  match n with
  | O => (GSS_S_FAILURE, q)
  | S n =>
      if seqnum =? qelem (elem q) i then (GSS_S_DUPLICATE_TOKEN, q)
      else if (qelem (elem q) i <? seqnum) && (seqnum <? qelem (elem q) (i + 1)) then
        (if do_replay q && negb (do_sequence q) then GSS_S_COMPLETE else GSS_S_UNSEQ_TOKEN,
         queue_insert q i seqnum)
      else search n (i + 1) q seqnum
  end.

Definition g_order_check (q : queue) (seqnum : Z) : gss_status * queue :=
  let last := q_start q + q_length q - 1 in
  if negb (do_replay q) && negb (do_sequence q) then (GSS_S_COMPLETE, q)
  else if seqnum =? uint32 (qelem (elem q) last + 1) then
    (GSS_S_COMPLETE, queue_insert q last seqnum)
  else if (uint32 (qelem (elem q) last + 1) <? seqnum) || (seqnum <? firstnum q) then
    (if do_replay q && negb (do_sequence q) then GSS_S_COMPLETE else GSS_S_GAP_TOKEN,
     queue_insert q last seqnum)
  else if (seqnum <? qelem (elem q) (q_start q)) && (firstnum q <=? seqnum) then
    (if do_replay q && negb (do_sequence q) then GSS_S_OLD_TOKEN else GSS_S_UNSEQ_TOKEN, q)
  else if seqnum =? qelem (elem q) last then (GSS_S_DUPLICATE_TOKEN, q)
  else search (Z.to_nat (q_length q - 1)) (q_start q) q seqnum.

(** A run of checks, with the status of each. *)
Fixpoint g_order_run (q : queue) (seqnums : list Z) : list gss_status * queue :=
  match seqnums with
  | [] => ([], q)
  | n :: seqnums =>
      let '(st, q) := g_order_check q n in
      let '(sts, q) := g_order_run q seqnums in
      (st :: sts, q)
  end.

(** * The framing of GSS-API tokens (src/src/lib/gssapi/generic/util_token.c)

    A token is a DER-like header with the object identifier of the mechanism and the type
    of the token, and a body.  The functions that read a token get its octets [mem] and
    the offset in it, and reading outside of it is [Undefined]. *)

(** The codes of gssapi_err_generic.et and gssapi_err_krb5.et that are used, next to those
    of the Kerberos library and 0. *)
Inductive minor_status : Set :=
| No_minor | Code (e : error_code) | G_BAD_TOK_HEADER | G_WRONG_MECH | G_WRONG_TOKID | G_BAD_DIRECTION | G_UNKNOWN_QOP
| G_VALIDATE_FAILED | KG_BAD_SEQ | KG_CTX_INCOMPLETE.

#[global] Instance minor_status_eq_dec : EqDecision minor_status.
Proof. solve_decision. Defined.

(** mem[i] and mem[i], ..., mem[i+n-1] *)
Definition peek {E} (mem : list octet) (i : Z) : outcome E octet :=
  match load mem i with Some o => Ok o | None => Undefined end.
Definition slice {E} (mem : list octet) (i n : Z) : outcome E (list octet) :=
  match load_n mem i (Z.to_nat n) with Some l => Ok l | None => Undefined end.

Definition SIZEOF_INT : Z := 4.

Definition der_length_size (length : Z) : Z :=
  if length <? Z.shiftl 1 7 then 1
  else if length <? Z.shiftl 1 8 then 2
  else if length <? Z.shiftl 1 16 then 3
  else if length <? Z.shiftl 1 24 then 4
  else 5.

Definition der_write_length (length : Z) : list octet :=
  if length <? Z.shiftl 1 7 then [octet_of length]
  else [octet_of (der_length_size length + 127)] ++
       (if Z.shiftl 1 24 <=? length then [octet_of (Z.shiftr length 24)] else []) ++
       (if Z.shiftl 1 16 <=? length then [Z.land (Z.shiftr length 16) 0xff] else []) ++
       (if Z.shiftl 1 8 <=? length then [Z.land (Z.shiftr length 8) 0xff] else []) ++
       [Z.land length 0xff].

(** for (; sf; sf--) ...; the sum is an [int]. *)
Fixpoint read_length_octets (sf : nat) (mem : list octet) (buf ret : Z) : outcome minor_status Z :=
  match sf with
  | O => Ok ret
  | S sf => let* o := peek mem buf in read_length_octets sf mem (buf + 1) (int32 (Z.shiftl ret 8 + o))
  end.

(** The length, -1 on failure, with the new values of buf and bufsize. *)
Definition der_read_length (mem : list octet) (buf bufsize : Z) : outcome minor_status (Z * Z * Z) :=
  if bufsize <? 1 then Ok (-1, buf, bufsize)
  else
    let* sf := peek mem buf in
    let buf := buf + 1 in
    let bufsize := bufsize - 1 in
    if negb (Z.land sf 0x80 =? 0) then
      let sf := Z.land sf 0x7f in
      if bufsize - 1 <? sf then Ok (-1, buf, bufsize)
      else if SIZEOF_INT <? sf then Ok (-1, buf, bufsize)
      else let* ret := read_length_octets (Z.to_nat sf) mem buf 0 in Ok (ret, buf + sf, bufsize - sf)
    else Ok (sf, buf, bufsize).

(** [mech] is the identifier, without its length. *)
Definition g_token_size (mech : list octet) (body_size : Z) : Z :=
  let body_size := uint32 (body_size + 4 + zlen mech) in
  int32 (1 + der_length_size (int32 body_size) + body_size).

Definition g_make_token_header (mech : list octet) (body_size tok_type : Z) : list octet :=
  [0x60] ++ der_write_length (int32 (4 + zlen mech + body_size)) ++ [0x06; octet_of (zlen mech)] ++ mech ++
  [Z.land (Z.shiftr tok_type 8) 0xff; Z.land tok_type 0xff].

(** The new value of buf, and the size of the body. *)
Definition g_verify_token_header (mech mem : list octet) (buf tok_type toksize : Z) : outcome minor_status (Z * Z) :=
  let toksize := toksize - 1 in
  let* _ := guard (0 <=? toksize) G_BAD_TOK_HEADER in
  let* o := peek mem buf in
  let* _ := guard (o =? 0x60) G_BAD_TOK_HEADER in
  let* '(seqsize, buf, toksize) := der_read_length mem (buf + 1) toksize in
  let* _ := guard (0 <=? seqsize) G_BAD_TOK_HEADER in
  let* _ := guard (seqsize =? toksize) G_BAD_TOK_HEADER in
  let toksize := toksize - 1 in
  let* _ := guard (0 <=? toksize) G_BAD_TOK_HEADER in
  let* o := peek mem buf in
  let* _ := guard (o =? 0x06) G_BAD_TOK_HEADER in
  let buf := buf + 1 in
  let toksize := toksize - 1 in
  let* _ := guard (0 <=? toksize) G_BAD_TOK_HEADER in
  let* toid_length := peek mem buf in
  let buf := buf + 1 in
  let toksize := toksize - toid_length in
  let* _ := guard (0 <=? toksize) G_BAD_TOK_HEADER in
  let* same := (if toid_length =? zlen mech then let* e := slice mem buf toid_length in Ok (bool_decide (e = mech)) else Ok false) in
  let buf := buf + toid_length in
  let toksize := toksize - 2 in
  let* _ := guard (0 <=? toksize) G_BAD_TOK_HEADER in
  let* _ := guard same G_WRONG_MECH in
  let* o := peek mem buf in
  let* _ := guard (o =? Z.land (Z.shiftr tok_type 8) 0xff) G_WRONG_TOKID in
  let* o := peek mem (buf + 1) in
  let* _ := guard (o =? Z.land tok_type 0xff) G_WRONG_TOKID in
  Ok (buf + 2, toksize).
