(* ===== verification/GssGenericProofs.v ===== *)
(** * The queue of sequence numbers refines a window

    Abstractly the receiver keeps a window, the sorted list of the latest sequence
    numbers it has accepted, at most [QUEUE_LENGTH] of them.  The circular queue
    implements it as long as the numbers do not wrap around, and then no number is
    accepted twice.  Around the end of the number space the code loses both. *)

From Stdlib Require Import Sorted.
From S2P Require Import Prelude GssGeneric Asn1Buf.

(** ** The circular queue as a list *)

Definition wf_queue (q : queue) : Prop :=
  0 <= q_start q < QUEUE_LENGTH /\ 1 <= q_length q <= QUEUE_LENGTH /\
  zlen (elem q) = QUEUE_LENGTH.

(** The elements from the oldest to the newest. *)
Definition contents (q : queue) : list Z :=
  (fun k => qelem (elem q) (q_start q + Z.of_nat k)) <$> seq 0 (Z.to_nat (q_length q)).

(** A new element behind the [k]-th; the oldest is dropped from a full queue. *)
Definition insert_after (w : list Z) (k : nat) (n : Z) : list Z :=
  let w' := take (S k) w ++ n :: drop (S k) w in
  if zlen w =? QUEUE_LENGTH then tail w' else w'.

Lemma set_qelem_length el i v : zlen (set_qelem el i v) = zlen el.
Proof. unfold set_qelem, zlen. by rewrite length_insert. Qed.

Lemma qelem_set el i j v : zlen el = QUEUE_LENGTH -> -20 < i - j < 20 ->
  qelem (set_qelem el i v) j = if i =? j then v else qelem el j.
Proof.
  intros Hl Hij. unfold qelem, set_qelem, zlen, QUEUE_LENGTH in *. rewrite !nth_lookup.
  destruct (Z.eqb_spec i j) as [->|Hne].
  - rewrite list_lookup_insert_eq; [done|]. divlia.
  - rewrite list_lookup_insert_ne; [done|]. divlia.
Qed.

Lemma shift_up_spec n : forall i el, zlen el = QUEUE_LENGTH -> (n <= 19)%nat ->
  zlen (shift_up n i el) = QUEUE_LENGTH /\
  forall j, i - 19 < j -> j < i - Z.of_nat n + 22 ->
  qelem (shift_up n i el) j =
  if (i - Z.of_nat n + 1 <? j) && (j <=? i + 1) then qelem el (j - 1) else qelem el j.
Proof.
  induction n as [|n IH]; intros i el Hl Hn.
  - split; [done|]. intros j ? ?. cbn [shift_up].
    destruct (Z.ltb_spec (i - Z.of_nat 0 + 1) j), (Z.leb_spec j (i + 1)); cbn [andb]; done || lia.
  - cbn [shift_up]. destruct (IH (i - 1) (set_qelem el (i + 1) (qelem el i))) as [IHl IHq];
      [by rewrite set_qelem_length|lia|].
    split; [done|]. intros j H1 H2. rewrite IHq by lia.
    destruct (Z.ltb_spec (i - 1 - Z.of_nat n + 1) j), (Z.leb_spec j (i - 1 + 1)),
      (Z.ltb_spec (i - Z.of_nat (S n) + 1) j), (Z.leb_spec j (i + 1));
      cbn [andb]; try lia; rewrite qelem_set by (done || lia);
      destruct (Z.eqb_spec (i + 1) j), (Z.eqb_spec (i + 1) (j - 1)); try lia; try done; f_equal; lia.
Qed.

(** The elements after the insertion, by their position. *)
Lemma inserted_elem q k n : wf_queue q -> 0 <= k < q_length q ->
  let last := q_start q + q_length q - 1 in
  let after := q_start q + k in
  let el := set_qelem (shift_up (Z.to_nat (last - after)) last (elem q)) (after + 1) n in
  zlen el = QUEUE_LENGTH /\
  forall t, (if q_length q =? QUEUE_LENGTH then 1 else 0) <= t <= q_length q ->
  qelem el (q_start q + t) =
  if t <=? k then qelem (elem q) (q_start q + t)
  else if t =? k + 1 then n else qelem (elem q) (q_start q + (t - 1)).
Proof.
  intros (Hs & Hn & Hl) Hk. cbv zeta.
  destruct (shift_up_spec (Z.to_nat (q_start q + q_length q - 1 - (q_start q + k)))
    (q_start q + q_length q - 1) (elem q) Hl) as [Hl' Hq]; [unfold QUEUE_LENGTH in *; lia|].
  split; [by rewrite set_qelem_length|]. intros t Ht.
  assert (Hb : 0 <= t <= 20) by (unfold QUEUE_LENGTH in *; destruct (q_length q =? 20); lia).
  assert (Hb' : q_length q = 20 -> 1 <= t).
  { intros E. rewrite E in Ht. simpl in Ht. lia. }
  unfold QUEUE_LENGTH in *.
  rewrite qelem_set by (done || lia).
  destruct (Z.eqb_spec (q_start q + k + 1) (q_start q + t)), (Z.leb_spec t k), (Z.eqb_spec t (k + 1));
    try lia; try done; rewrite Hq by lia;
    destruct (Z.ltb_spec (q_start q + q_length q - 1 - Z.of_nat (Z.to_nat (q_start q + q_length q - 1 - (q_start q + k))) + 1) (q_start q + t)),
      (Z.leb_spec (q_start q + t) (q_start q + q_length q - 1 + 1)); cbn [andb]; try lia; try done.
  f_equal. lia.
Qed.

Lemma contents_length q : wf_queue q -> zlen (contents q) = q_length q.
Proof. intros (_ & H & _). unfold contents, zlen. rewrite length_fmap, length_seq. lia. Qed.

(** Segments of a list given by a function of the position. *)
Lemma fmap_seq_ext {A} (f g : nat -> A) i n :
  (forall t, (i <= t < i + n)%nat -> f t = g t) -> f <$> seq i n = g <$> seq i n.
Proof. intros H. apply list_fmap_ext. intros ? t Ht%lookup_seq. apply H. lia. Qed.

Lemma fmap_seq_shift {A} (f : nat -> A) i n : f <$> seq (S i) n = (fun t => f (S t)) <$> seq i n.
Proof. by rewrite <- fmap_S_seq, <- list_fmap_compose. Qed.

(** The elements of the queue by position, before and after the insertion. *)
Definition old_elem (q : queue) (t : nat) : Z := qelem (elem q) (q_start q + Z.of_nat t).

Lemma old_segments q k : 0 <= k < q_length q ->
  take (S (Z.to_nat k)) (contents q) = old_elem q <$> seq 0 (S (Z.to_nat k)) /\
  drop (S (Z.to_nat k)) (contents q) = old_elem q <$> seq (S (Z.to_nat k)) (Z.to_nat (q_length q - k - 1)).
Proof.
  intros Hk. unfold contents, old_elem. rewrite <- !fmap_take, <- fmap_drop, take_seq, drop_seq.
  split; do 2 f_equal; lia.
Qed.

Lemma inserted_segments q k n el :
  0 <= k < q_length q ->
  (forall t, (if q_length q =? QUEUE_LENGTH then 1 else 0) <= t <= q_length q ->
    qelem el (q_start q + t) =
    if t <=? k then qelem (elem q) (q_start q + t)
    else if t =? k + 1 then n else qelem (elem q) (q_start q + (t - 1))) ->
  let new t := qelem el (q_start q + Z.of_nat t) in
  (forall i m, Z.of_nat (i + m) <= k + 1 -> (q_length q = QUEUE_LENGTH -> (1 <= i)%nat) ->
     new <$> seq i m = old_elem q <$> seq i m) /\
  new <$> seq (S (Z.to_nat k)) (S (Z.to_nat (q_length q - k - 1))) =
  n :: (old_elem q <$> seq (S (Z.to_nat k)) (Z.to_nat (q_length q - k - 1))).
Proof.
  intros Hk He new. split; [|cbn [seq fmap list_fmap]; f_equal].
  - intros i m Hm Hi. apply fmap_seq_ext. intros t Ht. unfold new, old_elem.
    rewrite He by (destruct (Z.eqb_spec (q_length q) QUEUE_LENGTH); lia).
    by rewrite (proj2 (Z.leb_le _ _)) by lia.
  - unfold new. rewrite He by (destruct (q_length q =? QUEUE_LENGTH); lia).
    destruct (Z.leb_spec (Z.of_nat (S (Z.to_nat k))) k); [lia|].
    by rewrite (proj2 (Z.eqb_eq _ _)) by lia.
  - rewrite fmap_seq_shift. apply fmap_seq_ext. intros t Ht. unfold new, old_elem.
    rewrite He by (destruct (q_length q =? QUEUE_LENGTH); lia).
    destruct (Z.leb_spec (Z.of_nat (S t)) k), (Z.eqb_spec (Z.of_nat (S t)) (k + 1)); try lia.
    f_equal. lia.
Qed.

Lemma queue_insert_contents q k n : wf_queue q -> 0 <= k < q_length q ->
  wf_queue (queue_insert q (q_start q + k) n) /\
  contents (queue_insert q (q_start q + k) n) = insert_after (contents q) (Z.to_nat k) n.
Proof.
  intros Hw Hk. destruct (inserted_elem q k n Hw Hk) as [Hl He].
  unfold insert_after. rewrite (contents_length q Hw). destruct (old_segments q k Hk) as [-> ->].
  unfold queue_insert. set (el := set_qelem _ _ n) in *. pose proof Hw as (Hs & Hn & _).
  destruct (inserted_segments q k n el Hk He) as [H0 H1].
  destruct (Z.eqb_spec (q_length q) QUEUE_LENGTH) as [E|E]; split.
  - unfold wf_queue. cbn [q_start q_length elem]. unfold QUEUE_LENGTH in *.
    split; [destruct (Z.eqb_spec (q_start q + 1) 20); lia|done].
  - unfold contents. cbn [q_start q_length elem].
    rewrite (fmap_seq_ext _ (fun t => qelem el (q_start q + Z.of_nat (S t)))).
    + rewrite <- (fmap_seq_shift (fun t => qelem el (q_start q + Z.of_nat t))).
      cbn [seq fmap list_fmap app tail].
      replace (Z.to_nat (q_length q)) with (Z.to_nat k + S (Z.to_nat (q_length q - k - 1)))%nat by lia.
      rewrite seq_app, fmap_app, (H0 1%nat (Z.to_nat k)) by lia. f_equal. exact H1.
    + intros t _. unfold qelem, QUEUE_LENGTH in *. do 2 f_equal.
      destruct (Z.eqb_spec (q_start q + 1) 20); divlia.
  - unfold wf_queue, QUEUE_LENGTH in *. cbn [q_start q_length elem]. repeat split; done || lia.
  - unfold contents. cbn [q_start q_length elem].
    replace (Z.to_nat (q_length q + 1)) with (S (Z.to_nat k) + S (Z.to_nat (q_length q - k - 1)))%nat by lia.
    rewrite seq_app, fmap_app, (H0 O (S (Z.to_nat k))) by lia. f_equal. exact H1.
Qed.

(** ** The window *)

Abbreviation sorted := (StronglySorted Z.lt).

Fixpoint sorted_insert (n : Z) (w : list Z) : list Z :=
  match w with
  | [] => [n]
  | x :: w' => if x <? n then x :: sorted_insert n w' else n :: w
  end.

(** The [QUEUE_LENGTH] latest numbers. *)
Definition latest (w : list Z) : list Z := drop (length w - Z.to_nat QUEUE_LENGTH) w.

Definition first_num (w : list Z) : Z := List.hd 0 w.
Definition last_num (w : list Z) : Z := List.last w 0.

(** What the receiver promises: a number above the window is the next one or leaves a
    gap, one below it is too old, one in it is a duplicate, and one that fits between
    two of its numbers is late. *)
Definition window_check (replay sequence : bool) (w : list Z) (n : Z) : gss_status * list Z :=
  let replay_only := replay && negb sequence in
  if last_num w <? n then
    (if (n =? last_num w + 1) || replay_only then GSS_S_COMPLETE else GSS_S_GAP_TOKEN,
     latest (sorted_insert n w))
  else if n <? first_num w then
    (if replay_only then GSS_S_OLD_TOKEN else GSS_S_UNSEQ_TOKEN, w)
  else if bool_decide (n ∈ w) then (GSS_S_DUPLICATE_TOKEN, w)
  else (if replay_only then GSS_S_COMPLETE else GSS_S_UNSEQ_TOKEN, latest (sorted_insert n w)).

Lemma elem_sorted_insert n w x : x ∈ sorted_insert n w <-> x = n \/ x ∈ w.
Proof.
  induction w as [|y w IH]; simpl.
  - rewrite list_elem_of_singleton, elem_of_nil. tauto.
  - destruct (y <? n); rewrite ?elem_of_cons, ?IH; tauto.
Qed.

Lemma sorted_insert_sorted n w : sorted w -> n ∉ w -> sorted (sorted_insert n w).
Proof.
  induction 1 as [|x w Hw IH Hx]; intros Hn; simpl; [by repeat constructor|].
  apply not_elem_of_cons in Hn as [Hne Hn]. destruct (Z.ltb_spec x n).
  - constructor; [by apply IH|]. rewrite Forall_forall in *. intros y Hy%list_elem_of_In.
    apply elem_sorted_insert in Hy as [->|Hy%list_elem_of_In]; auto.
  - constructor; [by constructor|]. constructor; [lia|]. eapply Forall_impl; [|exact Hx].
    simpl. intros. lia.
Qed.

Lemma sorted_insert_length n w : length (sorted_insert n w) = S (length w).
Proof. induction w as [|x w IH]; [done|]. simpl. destruct (x <? n); simpl; lia. Qed.

Lemma sorted_drop n w : sorted w -> sorted (drop n w).
Proof.
  revert n. induction w as [|x w IH]; intros [|n] H; simpl; try done.
  apply IH. by inversion H.
Qed.

(** The place of [n] splits the window. *)
Lemma sorted_insert_split n w k a : sorted w -> w !! k = Some a -> a < n ->
  (forall b, w !! S k = Some b -> n < b) ->
  take (S k) w ++ n :: drop (S k) w = sorted_insert n w.
Proof.
  intros Hw. revert k. induction Hw as [|x w Hw IH Hx]; intros k Ha Hlt Hgt; [done|].
  destruct k as [|k]; simpl in *.
  - injection Ha as ->. rewrite (proj2 (Z.ltb_lt _ _)) by done. rewrite ?take_0, ?drop_0. simpl.
    f_equal. destruct w as [|b w]; [done|]. simpl. specialize (Hgt b eq_refl).
    by rewrite (proj2 (Z.ltb_ge _ _)) by lia.
  - rewrite Forall_forall in Hx. assert (x < a) by (apply Hx, list_elem_of_In, list_elem_of_lookup; eauto).
    rewrite (proj2 (Z.ltb_lt _ _)) by lia. f_equal. by apply IH.
Qed.

Lemma insert_after_latest n w k a : sorted w -> w !! k = Some a -> a < n ->
  (forall b, w !! S k = Some b -> n < b) -> zlen w <= QUEUE_LENGTH ->
  insert_after w k n = latest (sorted_insert n w).
Proof.
  intros Hw Ha Hlt Hgt Hl. unfold insert_after, latest.
  rewrite (sorted_insert_split n w k a) by done. rewrite sorted_insert_length.
  unfold zlen, QUEUE_LENGTH in *. destruct (Z.eqb_spec (Z.of_nat (length w)) 20) as [E|E].
  - replace (S (length w) - Z.to_nat 20)%nat with 1%nat by lia.
    destruct (sorted_insert n w); [done|]. simpl. by rewrite drop_0.
  - by replace (S (length w) - Z.to_nat 20)%nat with O by lia.
Qed.

Lemma last_num_lookup w : w <> [] -> w !! (length w - 1)%nat = Some (last_num w).
Proof.
  intros H. destruct (exists_last H) as (w' & x & ->). unfold last_num. rewrite last_last.
  rewrite length_app. simpl. rewrite Nat.add_sub. by apply list_lookup_middle.
Qed.

Lemma sorted_lookup w i j a b : sorted w -> w !! i = Some a -> w !! j = Some b -> (i < j)%nat -> a < b.
Proof.
  intros Hw. revert i j. induction Hw as [|x w Hw IH Hx]; intros i j Hi Hj Hij; [done|].
  destruct j as [|j]; [lia|]. simpl in Hj. destruct i as [|i]; simpl in Hi.
  - injection Hi as ->. rewrite Forall_forall in Hx. apply Hx, list_elem_of_In, list_elem_of_lookup. eauto.
  - eapply IH; [done|done|lia].
Qed.

(** ** The refinement *)

(** The numbers that can be told apart: those of the window start one below the first,
    which is not 0, and stop before the last number there is. *)
Definition max_num : Z := 2 ^ 32 - 1.

Record order_inv (q : queue) : Prop := OrderInv {
  oi_wf : wf_queue q;
  oi_sorted : sorted (contents q);
  oi_first : 1 <= firstnum q;
  oi_range : Forall (fun x => firstnum q - 1 <= x < max_num) (contents q)
}.

(** The parameters of a queue that no operation changes. *)
Definition same_params (q q' : queue) : Prop :=
  do_replay q' = do_replay q /\ do_sequence q' = do_sequence q /\ firstnum q' = firstnum q.

Lemma queue_insert_params q k n : same_params q (queue_insert q k n).
Proof. unfold queue_insert. by destruct (q_length q =? QUEUE_LENGTH). Qed.

Lemma contents_lookup q k : wf_queue q -> 0 <= k < q_length q ->
  contents q !! Z.to_nat k = Some (qelem (elem q) (q_start q + k)).
Proof.
  intros Hw Hk. unfold contents. rewrite list_lookup_fmap, lookup_seq_lt by lia. simpl.
  by rewrite Z2Nat.id by lia.
Qed.

Lemma contents_last q : wf_queue q ->
  last_num (contents q) = qelem (elem q) (q_start q + q_length q - 1) /\ contents q <> [].
Proof.
  intros Hw. pose proof (contents_length q Hw) as Hl. pose proof Hw as (_ & Hn & _).
  assert (Hne : contents q <> []) by (intros E; rewrite E in Hl; change (zlen []) with 0 in Hl; lia).
  split; [|done]. pose proof (last_num_lookup _ Hne) as H.
  replace (length (contents q) - 1)%nat with (Z.to_nat (q_length q - 1)) in H by (unfold zlen in Hl; lia).
  rewrite contents_lookup in H by (done || lia). injection H as <-. f_equal. lia.
Qed.

Lemma contents_first q : wf_queue q -> first_num (contents q) = qelem (elem q) (q_start q).
Proof.
  intros Hw. pose proof Hw as (_ & Hn & _). pose proof (contents_lookup q 0 Hw) as H.
  rewrite Z.add_0_r in H. specialize (H ltac:(lia)). change (Z.to_nat 0) with O in H.
  destruct (contents q); [done|]. by injection H.
Qed.

(** Inserting a number at its place. *)
Lemma queue_insert_inv q k n : order_inv q -> 0 <= k < q_length q ->
  qelem (elem q) (q_start q + k) < n -> n ∉ contents q ->
  (k + 1 < q_length q -> n < qelem (elem q) (q_start q + (k + 1))) ->
  n < max_num ->
  let q' := queue_insert q (q_start q + k) n in
  order_inv q' /\ contents q' = latest (sorted_insert n (contents q)).
Proof.
  intros [Hw Hs Hf Hr] Hk Hlt Hne Hgt Hmax q'.
  destruct (queue_insert_contents q k n Hw Hk) as [Hw' Hc']. fold q' in Hw', Hc'.
  pose proof (contents_length q Hw) as Hl. pose proof Hw as (_ & Hn & _).
  pose proof (contents_lookup q k Hw Hk) as Ha.
  rewrite (insert_after_latest n _ _ _ Hs Ha Hlt) in Hc'; [|clear Hc'|lia].
  - split; [|done]. destruct (queue_insert_params q (q_start q + k) n) as (_ & _ & Ef).
    fold q' in Ef. split; [done| |by rewrite Ef|].
    + rewrite Hc'. by apply sorted_drop, sorted_insert_sorted.
    + rewrite Hc', Ef. apply Forall_drop. rewrite Forall_forall in *. intros x Hx%list_elem_of_In.
      apply elem_sorted_insert in Hx as [->|Hx%list_elem_of_In]; [|by apply Hr].
      split; [|done]. assert (firstnum q - 1 <= qelem (elem q) (q_start q + k)); [|lia].
      apply Hr, list_elem_of_In, list_elem_of_lookup. eauto.
  - intros b Hb. assert (k + 1 < q_length q).
    { apply lookup_lt_Some in Hb. unfold zlen in Hl. lia. }
    replace (S (Z.to_nat k)) with (Z.to_nat (k + 1)) in Hb by lia.
    rewrite contents_lookup in Hb by (done || lia). injection Hb as <-. by apply Hgt.
Qed.

Lemma search_spec n : forall k q seqnum, order_inv q -> 0 <= k ->
  k + Z.of_nat n = q_length q - 1 ->
  qelem (elem q) (q_start q + k) <= seqnum < last_num (contents q) ->
  let replay_only := do_replay q && negb (do_sequence q) in
  ((seqnum ∈ contents q) /\ search n (q_start q + k) q seqnum = (GSS_S_DUPLICATE_TOKEN, q)) \/
  ((seqnum ∉ contents q) /\ exists k', 0 <= k' /\ k' + 1 < q_length q /\
     qelem (elem q) (q_start q + k') < seqnum < qelem (elem q) (q_start q + (k' + 1)) /\
     search n (q_start q + k) q seqnum =
       (if replay_only then GSS_S_COMPLETE else GSS_S_UNSEQ_TOKEN,
        queue_insert q (q_start q + k') seqnum)).
Proof.
  induction n as [|n IH]; intros k q seqnum Hq Hk Hn Hr ro.
  - destruct (contents_last q (oi_wf q Hq)) as [E _]. rewrite E in Hr.
    replace (q_start q + q_length q - 1) with (q_start q + k) in Hr by lia. lia.
  - cbn [search]. pose proof (contents_lookup q k (oi_wf q Hq) ltac:(lia)) as Ha.
    pose proof (contents_lookup q (k + 1) (oi_wf q Hq) ltac:(lia)) as Hb.
    destruct (Z.eqb_spec seqnum (qelem (elem q) (q_start q + k))) as [->|Hne].
    { left. split; [|done]. apply list_elem_of_lookup. eauto. }
    replace (q_start q + k + 1) with (q_start q + (k + 1)) by lia.
    rewrite (proj2 (Z.ltb_lt (qelem (elem q) (q_start q + k)) seqnum)) by lia. cbn [andb].
    destruct (Z.ltb_spec seqnum (qelem (elem q) (q_start q + (k + 1)))) as [Hlt|Hge].
    + right. split; [|by exists k; repeat split; try lia].
      intros (i & Hi)%list_elem_of_lookup. pose proof (oi_sorted q Hq) as Hs.
      destruct (decide (i <= Z.to_nat k)%nat) as [Hik|Hik].
      * destruct (decide (i = Z.to_nat k)) as [->|]; [congruence|].
        pose proof (sorted_lookup _ _ _ _ _ Hs Hi Ha ltac:(lia)). lia.
      * destruct (decide (i = Z.to_nat (k + 1))) as [->|]; [rewrite Hi in Hb; injection Hb; lia|].
        pose proof (sorted_lookup _ _ _ _ _ Hs Hb Hi ltac:(lia)). lia.
    + apply IH; [done|lia|lia|lia].
Qed.

(** The numbers in a run that are told apart. *)
Definition in_range (q : queue) (n : Z) : Prop := firstnum q <= n < max_num.

Lemma order_check_window q n : order_inv q -> do_replay q || do_sequence q = true -> in_range q n ->
  order_inv (g_order_check q n).2 /\ same_params q (g_order_check q n).2 /\
  ((g_order_check q n).1, contents (g_order_check q n).2) =
  window_check (do_replay q) (do_sequence q) (contents q) n.
Proof.
  intros Hq Hm [Hlo Hhi]. pose proof Hq as [Hw Hs Hf Hr]. pose proof Hw as (Hst & Hln & _).
  destruct (contents_last q Hw) as [El Hne]. pose proof (contents_first q Hw) as Ef.
  assert (Hlast : firstnum q - 1 <= last_num (contents q) < max_num).
  { rewrite Forall_forall in Hr. apply Hr, list_elem_of_In, list_elem_of_lookup.
    exists (length (contents q) - 1)%nat. by apply last_num_lookup. }
  assert (Hins : last_num (contents q) < n ->
    let q' := queue_insert q (q_start q + q_length q - 1) n in
    order_inv q' /\ contents q' = latest (sorted_insert n (contents q))).
  { intros Hlt. replace (q_start q + q_length q - 1) with (q_start q + (q_length q - 1)) by lia.
    apply queue_insert_inv; try done; try lia.
    - rewrite El in Hlt. by replace (q_start q + (q_length q - 1)) with (q_start q + q_length q - 1) by lia.
    - intros (i & Hi)%list_elem_of_lookup. pose proof (last_num_lookup _ Hne) as Hla.
      destruct (decide (i = (length (contents q) - 1)%nat)) as [->|]; [rewrite Hla in Hi; injection Hi; lia|].
      pose proof (lookup_lt_Some _ _ _ Hi).
      pose proof (sorted_lookup _ _ _ _ _ Hs Hi Hla ltac:(lia)). lia. }
  unfold g_order_check, window_check. rewrite <- El, <- Ef.
  rewrite (to_uint_id 32 (last_num (contents q) + 1)) by (unfold is_uint, max_num in *; lia).
  replace (negb (do_replay q) && negb (do_sequence q)) with false
    by (by destruct (do_replay q), (do_sequence q)).
  rewrite (proj2 (Z.ltb_ge n (firstnum q))), (proj2 (Z.leb_le (firstnum q) n)), andb_true_r, orb_false_r by lia.
  destruct (Z.ltb_spec (last_num (contents q)) n) as [Hgt|Hle].
  - destruct (Hins Hgt) as [Hi Hc].
    destruct (Z.eqb_spec n (last_num (contents q) + 1)) as [->|];
      [|rewrite (proj2 (Z.ltb_lt _ _)) by lia]; cbn [fst snd orb]; rewrite Hc;
      (split; [done|split; [apply queue_insert_params|done]]).
  - rewrite (proj2 (Z.eqb_neq n (last_num (contents q) + 1))), (proj2 (Z.ltb_ge (last_num (contents q) + 1) n)) by lia.
    destruct (Z.ltb_spec n (first_num (contents q))) as [Hold|Hnew]; [by (split; [|split])|].
    destruct (Z.eqb_spec n (last_num (contents q))) as [->|Hnl].
    { rewrite bool_decide_eq_true_2; [by (split; [|split])|]. apply list_elem_of_lookup.
      exists (length (contents q) - 1)%nat. by apply last_num_lookup. }
    destruct (search_spec (Z.to_nat (q_length q - 1)) 0 q n Hq) as
      [[Hin E]|(Hnin & k & Hk0 & Hk1 & Hk & E)]; try lia; try (rewrite Z.add_0_r; lia);
      rewrite Z.add_0_r in E; rewrite E; cbn [fst snd].
    + rewrite bool_decide_eq_true_2 by done. by (split; [|split]).
    + rewrite bool_decide_eq_false_2 by done.
      destruct (queue_insert_inv q k n Hq) as [Hi Hc]; try done; try lia.
      rewrite Hc. split; [done|split; [apply queue_insert_params|done]].
Qed.

Lemma order_init_inv el F r s : zlen el = QUEUE_LENGTH -> 1 <= F <= max_num ->
  exists q, g_order_init (Some el) F r s = Ok q /\ order_inv q /\ contents q = [F - 1] /\
    do_replay q = r /\ do_sequence q = s /\ firstnum q = F.
Proof.
  intros Hl HF. eexists. split; [done|].
  set (q := Queue _ _ _ _ _ _).
  assert (Hw : wf_queue q).
  { unfold wf_queue. cbn. rewrite set_qelem_length. unfold QUEUE_LENGTH in *. lia. }
  assert (Hc : contents q = [F - 1]).
  { unfold contents, q. cbn [q_length q_start elem]. change (Z.to_nat 1) with 1%nat.
    cbn [seq fmap list_fmap]. rewrite qelem_set by (done || lia). cbn [Z.of_nat Z.add Z.eqb].
    rewrite to_uint_id; [done|]. unfold is_uint, max_num in *. lia. }
  split; [|done]. split; [done| | |]; rewrite ?Hc; [by repeat constructor|cbn; lia|].
  constructor; [cbn; lia|done].
Qed.

(** ** A number seen is refused from then on *)

(** In the window or below it. *)
Definition spent (w : list Z) (n : Z) : Prop := n ∈ w \/ n < first_num w.

Lemma spent_le_last w n : sorted w -> spent w n -> n <= last_num w \/ w = [].
Proof.
  intros Hs H. destruct w as [|x w]; [by right|left]. set (v := x :: w) in *.
  assert (Hv : v <> []) by done. pose proof (last_num_lookup v Hv) as Hl.
  assert (H0 : v !! 0%nat = Some (first_num v)) by done.
  destruct H as [(i & Hi)%list_elem_of_lookup|H].
  - destruct (decide (i = (length v - 1)%nat)) as [->|]; [rewrite Hi in Hl; injection Hl; lia|].
    pose proof (lookup_lt_Some _ _ _ Hi). pose proof (sorted_lookup _ _ _ _ _ Hs Hi Hl ltac:(lia)). lia.
  - destruct (decide (length v = 1%nat)) as [E|]; [rewrite E in Hl; change (1 - 1)%nat with O in Hl; congruence|].
    pose proof (sorted_lookup _ _ _ _ _ Hs H0 Hl ltac:(destruct v; simpl in *; [done|lia])). lia.
Qed.

(** Dropping the oldest numbers of a window and adding a number spends no less. *)
Lemma spent_latest w n x : sorted (sorted_insert n w) -> x = n \/ spent w x -> w <> [] ->
  (n < first_num w -> False) -> spent (latest (sorted_insert n w)) x.
Proof.
  intros Hs Hx Hw Hn. unfold latest. set (v := sorted_insert n w) in *.
  assert (Hv : x ∈ v \/ x < first_num v).
  { destruct Hx as [->|[Hx|Hx]]; [left; apply elem_sorted_insert; by left|
      left; apply elem_sorted_insert; by right|].
    right. unfold v. destruct w as [|y w]; [done|]. simpl in *.
    destruct (Z.ltb_spec y n); simpl; [done|]. lia. }
  assert (Hd : exists a, drop (length v - Z.to_nat QUEUE_LENGTH) v !! 0%nat = Some a /\
                 v !! (length v - Z.to_nat QUEUE_LENGTH)%nat = Some a).
  { rewrite lookup_drop, Nat.add_0_r.
    destruct (lookup_lt_is_Some_2 v (length v - Z.to_nat QUEUE_LENGTH)) as [a Ha]; [|by exists a].
    unfold v, QUEUE_LENGTH. rewrite sorted_insert_length. lia. }
  destruct Hd as (a & Hd & Ha). unfold spent.
  assert (Ef : first_num (drop (length v - Z.to_nat QUEUE_LENGTH) v) = a).
  { destruct (drop _ v); [done|]. by injection Hd. }
  rewrite Ef. destruct Hv as [(i & Hi)%list_elem_of_lookup|Hlt].
  - destruct (decide (length v - Z.to_nat QUEUE_LENGTH <= i)%nat).
    + left. apply list_elem_of_lookup. exists (i - (length v - Z.to_nat QUEUE_LENGTH))%nat.
      rewrite lookup_drop. rewrite <- Hi. f_equal. lia.
    + right. eapply sorted_lookup; [exact Hs|exact Hi|exact Ha|lia].
  - right. destruct (length v - Z.to_nat QUEUE_LENGTH)%nat as [|m] eqn:E.
    + destruct v; [done|]. simpl in Ha. injection Ha as <-. done.
    + assert (H0 : v !! 0%nat = Some (first_num v)) by (by destruct v).
      pose proof (sorted_lookup _ _ _ _ _ Hs H0 Ha ltac:(lia)). lia.
Qed.

(** Statuses of a number that is refused. *)
Definition refused (replay sequence : bool) (st : gss_status) : Prop :=
  st = GSS_S_DUPLICATE_TOKEN \/
  st = (if replay && negb sequence then GSS_S_OLD_TOKEN else GSS_S_UNSEQ_TOKEN).

Lemma window_check_spent r s w n x : sorted w -> w <> [] ->
  x = n \/ spent w x -> spent (window_check r s w n).2 x.
Proof.
  intros Hs Hw Hx. unfold window_check.
  assert (Hnew : (n < first_num w -> False) -> n ∉ w -> spent (latest (sorted_insert n w)) x).
  { intros. apply spent_latest; try done. by apply sorted_insert_sorted. }
  destruct (Z.ltb_spec (last_num w) n) as [Hgt|Hle]; cbn [snd].
  - apply Hnew.
    + intros Hf. destruct (spent_le_last w n Hs (or_intror Hf)); [lia|done].
    + intros Hin. destruct (spent_le_last w n Hs (or_introl Hin)); [lia|done].
  - destruct (Z.ltb_spec n (first_num w)) as [Hlt|Hge]; cbn [snd].
    { destruct Hx as [->|Hx]; [by right|done]. }
    case_bool_decide as Hin; cbn [snd].
    + destruct Hx as [->|Hx]; [by left|done].
    + apply Hnew; [lia|done].
Qed.

Lemma window_check_refused r s w n : sorted w -> w <> [] -> spent w n ->
  refused r s (window_check r s w n).1.
Proof.
  intros Hs Hw Hsp. unfold window_check. destruct (spent_le_last w n Hs Hsp) as [Hle|]; [|done].
  rewrite (proj2 (Z.ltb_ge _ _)) by lia.
  destruct (Z.ltb_spec n (first_num w)) as [|Hge]; cbn [fst]; [by right|].
  destruct Hsp as [Hin|]; [|lia]. rewrite bool_decide_eq_true_2 by done. by left.
Qed.

Lemma run_refused q ns n : order_inv q -> do_replay q || do_sequence q = true ->
  Forall (in_range q) ns -> spent (contents q) n ->
  forall j, ns !! j = Some n ->
  exists st, (g_order_run q ns).1 !! j = Some st /\ refused (do_replay q) (do_sequence q) st.
Proof.
  intros Hq Hm Hns. revert q Hq Hm Hns.
  induction ns as [|m ns IH]; intros q Hq Hm Hns Hsp j Hj; [done|].
  apply Forall_cons_1 in Hns as [Hr Hns]. cbn [g_order_run].
  destruct (order_check_window q m Hq Hm Hr) as (Hq' & (Er & Es & Ef) & Ew).
  destruct (g_order_check q m) as [st q'] eqn:E. cbn [fst snd] in *.
  destruct (contents_last q (oi_wf q Hq)) as [_ Hne]. pose proof (oi_sorted q Hq) as Hs.
  destruct (g_order_run q' ns) as [sts q''] eqn:Erun. cbn [fst].
  destruct j as [|j]; simpl in Hj.
  - injection Hj as ->. exists st. split; [done|].
    pose proof (window_check_refused (do_replay q) (do_sequence q) _ _ Hs Hne Hsp) as H.
    by rewrite <- Ew in H.
  - specialize (IH q' Hq'). rewrite Er, Es, Erun in IH. cbn [fst] in IH. apply IH; try done.
    + unfold in_range. by rewrite Ef.
    + pose proof (window_check_spent (do_replay q) (do_sequence q) _ m n Hs Hne (or_intror Hsp)) as H.
      by rewrite <- Ew in H.
Qed.

(** ** In order *)

Lemma last_insert_after w n : w <> [] -> last_num (insert_after w (length w - 1) n) = n.
Proof.
  intros Hw. unfold insert_after, last_num.
  replace (S (length w - 1)) with (length w) by (destruct w; simpl in *; [done|lia]).
  rewrite take_ge, drop_ge by lia. destruct (_ =? _); [|apply last_last].
  destruct w as [|x w]; [done|]. simpl tail. apply last_last.
Qed.

Lemma check_next q n : wf_queue q -> n = uint32 (last_num (contents q) + 1) ->
  (g_order_check q n).1 = GSS_S_COMPLETE /\ wf_queue (g_order_check q n).2 /\
  (do_replay q || do_sequence q = true ->
   last_num (contents (g_order_check q n).2) = n /\
   same_params q (g_order_check q n).2).
Proof.
  intros Hw Hn. destruct (contents_last q Hw) as [El Hne]. pose proof Hw as (_ & Hl & _).
  pose proof (contents_length q Hw) as Hc. unfold g_order_check. rewrite <- El, <- Hn, Z.eqb_refl.
  destruct (queue_insert_contents q (q_length q - 1) n Hw) as [Hw' Hc']; [lia|].
  replace (q_start q + (q_length q - 1)) with (q_start q + q_length q - 1) in Hw', Hc' by lia.
  destruct (negb (do_replay q) && negb (do_sequence q)) eqn:E; cbn [fst snd]; (split; [done|]).
  - split; [done|]. by destruct (do_replay q), (do_sequence q).
  - split; [done|]. intros _. split; [|apply queue_insert_params]. rewrite Hc'.
    replace (Z.to_nat (q_length q - 1)) with (length (contents q) - 1)%nat by (unfold zlen in Hc; lia).
    by apply last_insert_after.
Qed.

Lemma run_in_order k : forall q m, wf_queue q -> do_replay q || do_sequence q = true ->
  uint32 (last_num (contents q) + 1) = uint32 m ->
  (g_order_run q ((fun i => uint32 (m + Z.of_nat i)) <$> seq 0 k)).1 = replicate k GSS_S_COMPLETE.
Proof.
  induction k as [|k IH]; intros q m Hw Hm Hl; [done|].
  cbn [seq fmap list_fmap g_order_run]. rewrite fmap_seq_shift, Z.add_0_r, <- Hl.
  destruct (check_next q _ Hw eq_refl) as (E1 & Hw' & Hp). destruct (Hp Hm) as (El & Er & Es & _).
  destruct (g_order_check q _) as [st q'] eqn:E. cbn [fst snd] in *. subst st.
  specialize (IH q' (m + 1) Hw'). rewrite Er, Es, El, Hl in IH.
  rewrite (fmap_seq_ext _ (fun i => uint32 (m + 1 + Z.of_nat i))) by (intros; f_equal; lia).
  destruct (g_order_run q' _) as [sts q''] eqn:Erun. cbn [fst] in *. rewrite IH; [done|done|].
  unfold to_uint. by rewrite Zplus_mod_idemp_l.
Qed.

(** ** Theorems *)

(** A run of checks on the window. *)
Fixpoint window_run (replay sequence : bool) (w : list Z) (ns : list Z) : list gss_status * list Z :=
  match ns with
  | [] => ([], w)
  | n :: ns =>
      let '(st, w) := window_check replay sequence w n in
      let '(sts, w) := window_run replay sequence w ns in
      (st :: sts, w)
  end.

Lemma run_window ns : forall q, order_inv q -> do_replay q || do_sequence q = true -> Forall (in_range q) ns ->
  ((g_order_run q ns).1, contents (g_order_run q ns).2) = window_run (do_replay q) (do_sequence q) (contents q) ns.
Proof.
  induction ns as [|n ns IH]; intros q Hq Hm Hns; [done|]. apply Forall_cons_1 in Hns as [Hr Hns]. cbn [g_order_run window_run].
  destruct (order_check_window q n Hq Hm Hr) as (Hq' & (Er & Es & Ef) & Ew). destruct (g_order_check q n) as [st q']. cbn [fst snd] in *.
  rewrite <- Ew. specialize (IH q' Hq'). rewrite Er, Es in IH. unfold in_range in *. rewrite Ef in IH. specialize (IH Hm Hns).
  destruct (g_order_run q' ns) as [sts q'']. by rewrite <- IH.
Qed.

(** Over any run of checks of numbers that do not wrap around, the circular queue gives
    the statuses and holds the numbers of the specification, a sorted window of the
    twenty latest numbers accepted. *)
Theorem g_order_refines_window el F replay sequence ns :
  zlen el = QUEUE_LENGTH -> replay || sequence = true ->
  1 <= F <= max_num -> Forall (fun n => F <= n < max_num) ns ->
  exists q, g_order_init (Some el) F replay sequence = Ok q /\
    let '(sts, q') := g_order_run q ns in
    (sts, contents q') = window_run replay sequence [F - 1] ns.
Proof.
  intros Hl Hm HF Hns. destruct (order_init_inv el F replay sequence Hl HF) as (q & E & Hq & Hc & Er & Es & Ef).
  exists q. split; [done|]. rewrite <- Hc. assert (Hr : Forall (in_range q) ns) by (unfold in_range; by rewrite Ef).
  rewrite <- Er, <- Es in *. pose proof (run_window ns q Hq Hm Hr). by destruct (g_order_run q ns).
Qed.

(** C37: In any run of checks of numbers that do not wrap around, with replay or
    sequence detection, a number that was checked before is refused, as a duplicate, as
    old or as out of sequence. *)
Theorem g_order_no_replay el F replay sequence ns i j n :
  zlen el = QUEUE_LENGTH -> replay || sequence = true ->
  1 <= F <= max_num -> Forall (fun n => F <= n < max_num) ns ->
  (i < j)%nat -> ns !! i = Some n -> ns !! j = Some n ->
  exists q st, g_order_init (Some el) F replay sequence = Ok q /\
    (g_order_run q ns).1 !! j = Some st /\ refused replay sequence st.
Proof.
  intros Hl Hm HF Hns Hij Hi Hj. destruct (order_init_inv el F replay sequence Hl HF) as (q & E & Hq & _ & Er & Es & Ef).
  assert (H : exists st, (g_order_run q ns).1 !! j = Some st /\ refused replay sequence st);
    [|destruct H as (st & ? & ?); by exists q, st].
  clear E Hl HF. revert q ns j Hq Er Es Ef Hns Hij Hi Hj.
  induction i as [|i IH]; intros q [|m ns] [|j] Hq Er Es Ef Hns Hij Hi Hj; try done || lia.
  all: apply Forall_cons_1 in Hns as [Hr Hns]; simpl in Hi, Hj; cbn [g_order_run].
  all: destruct (order_check_window q m Hq) as (Hq' & (Er' & Es' & Ef') & Ew);
    [by rewrite Er, Es|by unfold in_range; rewrite Ef|].
  all: rewrite Er, Es in Ew; rewrite Er in Er'; rewrite Es in Es'; rewrite Ef in Ef'.
  - injection Hi as ->. destruct (contents_last q (oi_wf q Hq)) as [_ Hne].
    pose proof (window_check_spent replay sequence _ n n (oi_sorted q Hq) Hne (or_introl eq_refl)) as Hsp.
    rewrite <- Ew in Hsp. destruct (g_order_check q n) as [st q']. cbn [fst snd] in *.
    destruct (run_refused q' ns n Hq') with (j := j) as (st' & E' & H'); try done.
    + by rewrite Er', Es'.
    + unfold in_range. by rewrite Ef'.
    + destruct (g_order_run q' ns) as [sts q'']. exists st'. rewrite Er', Es' in H'. by split.
  - destruct (g_order_check q m) as [st q']. cbn [fst snd] in *.
    destruct (IH q' ns j) as (st' & E' & H'); try done || lia.
    destruct (g_order_run q' ns) as [sts q'']. by exists st'.
Qed.

Lemma init_run_in_order el F replay sequence k :
  zlen el = QUEUE_LENGTH -> is_uint 32 F ->
  exists q, g_order_init (Some el) F replay sequence = Ok q /\
  (g_order_run q ((fun i => uint32 (F + Z.of_nat i)) <$> seq 0 k)).1 = replicate k GSS_S_COMPLETE.
Proof.
  intros Hl HF. eexists. split; [done|]. set (q := Queue _ _ _ _ _ _).
  assert (Hw : wf_queue q).
  { unfold wf_queue, q. cbn [q_start q_length elem]. rewrite set_qelem_length. unfold QUEUE_LENGTH in *. lia. }
  destruct (replay || sequence) eqn:Hm.
  - apply run_in_order; [done|done|]. destruct (contents_last q Hw) as [-> _].
    unfold q. cbn [q_start q_length elem]. rewrite qelem_set by (done || lia).
    change (0 =? 0 + 1 - 1) with true. cbv iota.
    unfold to_uint. rewrite Zplus_mod_idemp_l. f_equal. lia.
  - assert (H : forall ns, (g_order_run q ns).1 = replicate (length ns) GSS_S_COMPLETE).
    { induction ns as [|n ns IH]; [done|]. cbn [g_order_run].
      assert (E : g_order_check q n = (GSS_S_COMPLETE, q)).
      { unfold g_order_check, q. cbn [do_replay do_sequence]. by destruct replay, sequence. }
      rewrite E. destruct (g_order_run q ns). cbn [fst] in *. by rewrite IH. }
    rewrite H. by rewrite length_fmap, length_seq.
Qed.

(** Tokens that arrive in order are all accepted with [GSS_S_COMPLETE], from any first
    number, for any number of tokens and across the wrap-around of the numbers. *)
Theorem g_order_in_order el F replay sequence k :
  zlen el = QUEUE_LENGTH -> is_uint 32 F ->
  exists q, g_order_init (Some el) F replay sequence = Ok q /\
  (g_order_run q ((fun i => uint32 (F + Z.of_nat i)) <$> seq 0 k)).1 = replicate k GSS_S_COMPLETE.
Proof. apply init_run_in_order. Qed.

(** A number below the first is accepted, whatever the queue holds. *)
Lemma check_below_first q n : wf_queue q -> do_replay q = true -> do_sequence q = false ->
  n < firstnum q ->
  (g_order_check q n).1 = GSS_S_COMPLETE /\ wf_queue (g_order_check q n).2 /\
  same_params q (g_order_check q n).2.
Proof.
  intros Hw Er Es Hn. pose proof Hw as (_ & Hl & _). unfold g_order_check. rewrite Er, Es.
  cbn [negb andb]. rewrite (proj2 (Z.ltb_lt _ _) Hn), orb_true_r.
  destruct (queue_insert_contents q (q_length q - 1) n Hw) as [Hw' _]; [lia|].
  replace (q_start q + (q_length q - 1)) with (q_start q + q_length q - 1) in Hw' by lia.
  destruct (_ =? _); (split; [done|split; [done|apply queue_insert_params]]).
Qed.

(** A number below the first one is accepted however often it is replayed, although
    replay detection is on. *)
Theorem g_order_replay_below_first el F n k :
  zlen el = QUEUE_LENGTH -> n < F ->
  exists q, g_order_init (Some el) F true false = Ok q /\
  (g_order_run q (replicate k n)).1 = replicate k GSS_S_COMPLETE.
Proof.
  intros Hl Hn. eexists. split; [done|]. set (q := Queue _ _ _ _ _ _).
  assert (Hw : wf_queue q).
  { unfold wf_queue, q. cbn [q_start q_length elem]. rewrite set_qelem_length. unfold QUEUE_LENGTH in *. lia. }
  assert (Hq : do_replay q = true /\ do_sequence q = false /\ firstnum q = F) by done.
  clearbody q. revert q Hw Hq. induction k as [|k IH]; intros q Hw (Er & Es & Ef); [done|].
  cbn [replicate g_order_run].
  destruct (check_below_first q n Hw Er Es) as (E1 & Hw' & Er' & Es' & Ef'); [lia|].
  destruct (g_order_check q n) as [st q']. cbn [fst snd] in *. subst st.
  specialize (IH q' Hw'). rewrite Er', Es', Ef' in IH.
  destruct (g_order_run q' _) as [sts q'']. cbn [fst] in *. by rewrite IH.
Qed.

(** * The framing of GSS-API tokens is read back (GssGeneric.v)

    What [g_make_token_header] writes in front of a body, [g_verify_token_header] accepts
    and removes; on any other octets it returns and reads none outside of them. *)

(** ** Reading *)

Lemma load_app (a : list octet) o b : load (a ++ o :: b) (zlen a) = Some o.
Proof. unfold load, zlen. destruct (Z.ltb_spec (Z.of_nat (length a)) 0); [lia|]. rewrite Nat2Z.id. by rewrite list_lookup_middle. Qed.

Lemma load_n_mid (a b c : list octet) : load_n (a ++ b ++ c) (zlen a) (length b) = Some b.
Proof.
  revert a. induction b as [|o b IH]; intros a; cbn [load_n length]; [done|]. cbn [app]. rewrite load_app.
  specialize (IH (a ++ [o])). rewrite zlen_app, <- app_assoc in IH. cbn [app] in IH. change (zlen [o]) with 1 in IH. by rewrite IH.
Qed.

Lemma peek_mid {E} (a : list octet) o b i : i = zlen a -> peek (E := E) (a ++ o :: b) i = Ok o.
Proof. intros ->. unfold peek. by rewrite load_app. Qed.

Lemma slice_mid {E} (a b c : list octet) i n : i = zlen a -> n = zlen b -> slice (E := E) (a ++ b ++ c) i n = Ok b.
Proof. intros -> ->. unfold slice, zlen at 2. rewrite Nat2Z.id. by rewrite load_n_mid. Qed.

Lemma peek_ok {E} mem i : 0 <= i < zlen mem -> exists o, peek (E := E) mem i = Ok o /\ mem !! Z.to_nat i = Some o.
Proof.
  intros Hi. unfold peek, load. destruct (Z.ltb_spec i 0); [lia|].
  destruct (lookup_lt_is_Some_2 mem (Z.to_nat i)) as [o E']; [unfold zlen in Hi; lia|]. rewrite E'. by exists o.
Qed.

Lemma load_n_ok mem : forall n i, 0 <= i -> i + Z.of_nat n <= zlen mem -> exists l, load_n mem i n = Some l /\ length l = n.
Proof.
  induction n as [|n IH]; intros i Hi Hl; cbn [load_n]; [by exists []|].
  destruct (peek_ok (E := unit) mem i ltac:(lia)) as (o & E & _). unfold peek in E. destruct (load mem i); [|done].
  destruct (IH (i + 1) ltac:(lia) ltac:(lia)) as (l & -> & L). eexists. split; [done|]. cbn. by rewrite L.
Qed.

Lemma slice_ok {E} mem i n : 0 <= i -> 0 <= n -> i + n <= zlen mem -> exists l, slice (E := E) mem i n = Ok l /\ zlen l = n.
Proof.
  intros Hi Hn Hl. unfold slice. destruct (load_n_ok mem (Z.to_nat n) i ltac:(lia) ltac:(lia)) as (l & -> & L).
  exists l. split; [done|]. unfold zlen. lia.
Qed.

Lemma slice_octets {E} mem i n l : octets mem -> slice (E := E) mem i n = Ok l -> octets l.
Proof.
  intros Ho. unfold slice. destruct (load_n mem i (Z.to_nat n)) as [l'|] eqn:EL; [|done]. injection 1 as <-. revert i l' EL.
  induction (Z.to_nat n) as [|k IH]; intros i l'; cbn [load_n]; [by injection 1 as <-|].
  destruct (load mem i) as [o|] eqn:EO; [|done]. destruct (load_n mem (i + 1) k) eqn:EN; [|done]. injection 1 as <-.
  constructor; [|by eapply IH]. unfold load in EO. destruct (i <? 0); [done|]. by eapply Forall_lookup_1.
Qed.

Lemma slice_short {E} mem i n : 0 <= i -> 0 < n -> zlen mem < i + n -> slice (E := E) mem i n = Undefined.
Proof.
  intros Hi Hn Hl. unfold slice. enough (H : forall k i, 0 <= i -> (0 < k)%nat -> zlen mem < i + Z.of_nat k -> load_n mem i k = None) by (rewrite H; lia || done).
  clear. induction k as [|k IH]; intros i Hi Hk Hl; [lia|]. cbn [load_n]. destruct (load mem i) as [o|] eqn:EO; [|done].
  rewrite IH; [done|lia| |lia]. destruct k; [|lia]. unfold load in EO. destruct (Z.ltb_spec i 0); [lia|].
  apply lookup_lt_Some in EO. unfold zlen in Hl. lia.
Qed.

(** ** Lengths *)

Lemma length_size_written n : 0 <= n < 2 ^ 31 -> zlen (der_write_length n) = der_length_size n.
Proof.
  intros Hn. unfold der_write_length, der_length_size. change (Z.shiftl 1 7) with 128. change (Z.shiftl 1 8) with 256.
  change (Z.shiftl 1 16) with 65536. change (Z.shiftl 1 24) with 16777216.
  destruct (Z.ltb_spec n 128); [done|]. destruct (Z.ltb_spec n 256), (Z.ltb_spec n 65536), (Z.ltb_spec n 16777216); try lia;
    destruct (Z.leb_spec 16777216 n), (Z.leb_spec 65536 n), (Z.leb_spec 256 n); try lia; done.
Qed.

(** The number that big-endian octets denote, read on. *)
Lemma read_octets_ok os : forall mem buf ret rest, mem = rest ++ os -> zlen rest = buf -> forall k tail, mem ++ tail = k ->
  read_length_octets (length os) k buf ret = Ok (foldl (fun r o => int32 (Z.shiftl r 8 + o)) ret os).
Proof.
  induction os as [|o os IH]; intros mem buf ret rest -> <- k tail <-; cbn [length read_length_octets foldl]; [done|].
  rewrite <- app_assoc. cbn [app]. rewrite peek_mid by done. cbn [obind].
  replace (rest ++ o :: os ++ tail) with (((rest ++ [o]) ++ os) ++ tail) by (by rewrite <- !app_assoc).
  eapply (IH _ _ _ (rest ++ [o])); [done|by rewrite zlen_app|done].
Qed.

Lemma land_byte x : Z.land x 0xff = x mod 256.
Proof. change 0xff with (Z.ones 8). by rewrite Z.land_ones. Qed.

Lemma octet_high o : 0 <= o < 128 -> Z.land o 0x80 = 0 /\ Z.land (o + 128) 0x80 = 128 /\ Z.land (o + 128) 0x7f = o.
Proof.
  intros Ho.
  assert (T : Forall (fun o => Z.land o 0x80 = 0 /\ Z.land (o + 128) 0x80 = 128 /\ Z.land (o + 128) 0x7f = o) (seqZ 0 128))
    by (vm_compute; repeat constructor).
  rewrite list.Forall_forall in T. apply T, elem_of_seqZ. lia.
Qed.

(** The octets after the first of a length that does not fit in it. *)
Definition length_octets (n : Z) : list octet :=
  (if Z.shiftl 1 24 <=? n then [octet_of (Z.shiftr n 24)] else []) ++
  (if Z.shiftl 1 16 <=? n then [Z.land (Z.shiftr n 16) 0xff] else []) ++
  (if Z.shiftl 1 8 <=? n then [Z.land (Z.shiftr n 8) 0xff] else []) ++ [Z.land n 0xff].

Lemma length_octets_value n : 0 <= n < 2 ^ 31 -> foldl (fun r o => int32 (Z.shiftl r 8 + o)) 0 (length_octets n) = n.
Proof.
  intros Hn. unfold length_octets, octet_of. rewrite !land_byte, !Z.shiftr_div_pow2, !(Z.shiftl_mul_pow2 1) by lia.
  change (1 * 2 ^ 24) with 16777216. change (1 * 2 ^ 16) with 65536. change (1 * 2 ^ 8) with 256.
  change (2 ^ 24) with 16777216. change (2 ^ 16) with 65536. change (2 ^ 8) with 256.
  assert (I : forall x, 0 <= x < 2 ^ 31 -> int32 x = x) by (intros x Hx; apply to_int_id; [unfold is_int|]; lia).
  assert (S0 : forall x, 0 <= x < 256 -> int32 (Z.shiftl 0 8 + x mod 256) = x).
  { intros x Hx. change (Z.shiftl 0 8) with 0. rewrite (Z.mod_small x) by lia. apply I. lia. }
  assert (S8 : forall x y, y = x / 256 -> 0 <= x < 2 ^ 31 -> int32 (Z.shiftl y 8 + x mod 256) = x).
  { intros x y -> Hx. rewrite Z.shiftl_mul_pow2 by lia. change (2 ^ 8) with 256. rewrite I; Z.div_mod_to_equations; lia. }
  destruct (Z.leb_spec 16777216 n), (Z.leb_spec 65536 n), (Z.leb_spec 256 n); try lia; cbn [app foldl];
    rewrite S0 by (Z.div_mod_to_equations; lia); 
    rewrite ?(S8 (n / 65536)), ?(S8 (n / 256)), ?(S8 n) by (Z.div_mod_to_equations; lia); reflexivity.
Qed.

Lemma read_length_ok n mem a rest toksize : 0 <= n < 2 ^ 31 -> mem = a ++ der_write_length n ++ rest -> n <= zlen rest ->
  toksize = der_length_size n + zlen rest ->
  der_read_length mem (zlen a) toksize = Ok (n, zlen a + der_length_size n, zlen rest).
Proof.
  intros Hn -> Hr ->. unfold der_read_length. pose proof (length_size_written n Hn) as HL. pose proof (zlen_nonneg rest) as H0.
  assert (HS : 1 <= der_length_size n <= 5) by (unfold der_length_size; repeat case_match; lia).
  destruct (Z.ltb_spec (der_length_size n + zlen rest) 1); [lia|].
  unfold der_write_length in *. destruct (Z.ltb_spec n (Z.shiftl 1 7)) as [H7|H7].
  - cbn [app]. rewrite peek_mid by done. cbn [obind]. change (Z.shiftl 1 7) with 128 in H7.
    assert (E : octet_of n = n) by (apply Z.mod_small; lia). rewrite E.
    rewrite (proj1 (octet_high n ltac:(lia))). cbn [Z.eqb negb]. rewrite <- HL. change (zlen [octet_of n]) with 1. do 3 f_equal; lia.
  - change (Z.shiftl 1 7) with 128 in H7. fold (length_octets n) in *. set (k := der_length_size n) in *.
    assert (EL : zlen (length_octets n) = k - 1) by (rewrite zlen_app in HL; change (zlen [_]) with 1 in HL; lia).
    assert (HK : 2 <= k) by (subst k; unfold der_length_size; change (Z.shiftl 1 7) with 128; repeat case_match; lia).
    rewrite <- app_assoc. cbn [app]. rewrite peek_mid by done. cbn [obind].
    assert (E : octet_of (k + 127) = (k - 1) + 128) by (rewrite <- (Z.mod_small (k - 1 + 128) 256) by lia; unfold octet_of; f_equal; lia).
    destruct (octet_high (k - 1) ltac:(lia)) as (_ & E1 & E2). rewrite E, E1, E2. cbn [Z.eqb negb].
    destruct (Z.ltb_spec (k + zlen rest - 1 - 1) (k - 1)); [lia|]. unfold SIZEOF_INT. destruct (Z.ltb_spec 4 (k - 1)); [lia|].
    replace (Z.to_nat (k - 1)) with (length (length_octets n)) by (unfold zlen in EL; lia).
    rewrite <- E. erewrite (read_octets_ok (length_octets n) _ _ 0 (a ++ [octet_of (k + 127)])); [|done|rewrite zlen_app; done|by rewrite <- !app_assoc].
    cbn [obind]. rewrite length_octets_value by lia. do 3 f_equal; lia.
Qed.

(** ** The header *)

Lemma token_header_length mech n t : 0 <= 4 + zlen mech + n < 2 ^ 31 ->
  zlen (g_make_token_header mech n t) = 1 + der_length_size (4 + zlen mech + n) + 4 + zlen mech.
Proof.
  intros Hn. unfold g_make_token_header.
  rewrite (to_int_id 32 (4 + zlen mech + n)) by (unfold is_int; lia). rewrite !zlen_app, length_size_written by done.
  change (zlen [_]) with 1. change (zlen [_; _]) with 2. lia.
Qed.

Lemma token_size_ok mech n t : 0 <= n -> 4 + zlen mech + n < 2 ^ 31 - 8 ->
  g_token_size mech n = zlen (g_make_token_header mech n t) + n.
Proof.
  intros H0 Hn. pose proof (zlen_nonneg mech). rewrite token_header_length by lia. unfold g_token_size.
  replace (n + 4 + zlen mech) with (4 + zlen mech + n) by lia. set (b := 4 + zlen mech + n) in *.
  assert (E : uint32 b = b) by (apply Z.mod_small; lia). rewrite E, (to_int_id 32 b) by (unfold is_int; lia).
  assert (HS : 1 <= der_length_size b <= 5) by (unfold der_length_size; repeat case_match; lia).
  rewrite to_int_id by (unfold is_int; lia). lia.
Qed.

(** What is read of a token that [g_make_token_header] began. *)
Lemma header_octets mech body t : zlen mech < 128 -> 4 + zlen mech + zlen body < 2 ^ 31 - 8 ->
  let mem := g_make_token_header mech (zlen body) t ++ body in
  let n := 4 + zlen mech + zlen body in
  let p := 1 + der_length_size n in
  zlen mem = p + n /\ peek (E := minor_status) mem 0 = Ok 0x60 /\ der_read_length mem 1 (p + n - 1) = Ok (n, p, n) /\
  peek (E := minor_status) mem p = Ok 0x06 /\ peek (E := minor_status) mem (p + 1) = Ok (zlen mech) /\
  slice (E := minor_status) mem (p + 2) (zlen mech) = Ok mech /\
  peek (E := minor_status) mem (p + 2 + zlen mech) = Ok (Z.land (Z.shiftr t 8) 0xff) /\
  peek (E := minor_status) mem (p + 2 + zlen mech + 1) = Ok (Z.land t 0xff).
Proof.
  intros Hm Hn mem n p. pose proof (zlen_nonneg mech) as M0. pose proof (zlen_nonneg body) as B0.
  set (o1 := Z.land (Z.shiftr t 8) 0xff). set (o2 := Z.land t 0xff).
  assert (HL : zlen (der_write_length n) = der_length_size n) by (apply length_size_written; lia).
  assert (EM : mem = [0x60] ++ der_write_length n ++ [0x06] ++ [zlen mech] ++ mech ++ [o1] ++ [o2] ++ body).
  { unfold mem, g_make_token_header. rewrite (to_int_id 32 (4 + zlen mech + zlen body)) by (unfold is_int; lia).
    assert (E : octet_of (zlen mech) = zlen mech) by (apply Z.mod_small; lia). rewrite E. by rewrite <- !app_assoc. }
  assert (HT : zlen mem = p + n) by (rewrite EM, !zlen_app, HL; change (zlen [_]) with 1; lia).
  split_and!; [done|by rewrite EM; apply (peek_mid [])|..].
  - set (rest := [0x06] ++ [zlen mech] ++ mech ++ [o1] ++ [o2] ++ body) in *.
    assert (HR : zlen rest = n) by (unfold rest; rewrite !zlen_app; change (zlen [_]) with 1; lia).
    change 1 with (zlen [0x60]) at 1. rewrite (read_length_ok n mem [0x60] rest) by (done || lia). by rewrite HR.
  - rewrite EM, (app_assoc [0x60]). apply peek_mid. rewrite zlen_app, HL. done.
  - rewrite EM. do 2 rewrite app_assoc. apply peek_mid. rewrite !zlen_app, HL. change (zlen [_]) with 1. lia.
  - rewrite EM. do 3 rewrite app_assoc. apply slice_mid; [|done]. rewrite !zlen_app, HL. change (zlen [_]) with 1. lia.
  - rewrite EM. do 4 rewrite app_assoc. apply peek_mid. rewrite !zlen_app, HL. change (zlen [_]) with 1. lia.
  - rewrite EM. do 5 rewrite app_assoc. apply peek_mid. rewrite !zlen_app, HL. change (zlen [_]) with 1. lia.
Qed.

Lemma header_roundtrip mech body t : zlen mech < 128 -> 4 + zlen mech + zlen body < 2 ^ 31 - 8 ->
  let header := g_make_token_header mech (zlen body) t in
  g_verify_token_header mech (header ++ body) 0 t (int32 (zlen (header ++ body))) = Ok (zlen header, zlen body).
Proof.
  intros Hm Hn header. pose proof (zlen_nonneg mech) as M0. pose proof (zlen_nonneg body) as B0.
  destruct (header_octets mech body t Hm Hn) as (HT & E0 & E1 & E2 & E3 & E4 & E5 & E6). fold header in HT, E0, E1, E2, E3, E4, E5, E6.
  assert (HL : zlen header = _) by (apply token_header_length; lia).
  set (n := 4 + zlen mech + zlen body) in *. set (p := 1 + der_length_size n) in *.
  assert (HS : 2 <= p <= 6) by (subst p; unfold der_length_size; repeat case_match; lia).
  rewrite HT, to_int_id by (unfold is_int; lia). unfold g_verify_token_header.
  destruct (Z.leb_spec 0 (p + n - 1)); [|lia]. cbn [guard obind]. rewrite E0. cbn [guard obind]. change (0 + 1) with 1. rewrite E1.
  cbn [guard obind]. destruct (Z.leb_spec 0 n); [|lia]. rewrite Z.eqb_refl. cbn [guard obind].
  destruct (Z.leb_spec 0 (n - 1)); [|lia]. cbn [guard obind]. rewrite E2. cbn [guard obind].
  destruct (Z.leb_spec 0 (n - 1 - 1)); [|lia]. cbn [guard obind]. rewrite E3. cbn [guard obind].
  destruct (Z.leb_spec 0 (n - 1 - 1 - zlen mech)); [|lia]. cbn [guard obind]. rewrite Z.eqb_refl.
  replace (p + 1 + 1) with (p + 2) by lia. rewrite E4. cbn [guard obind]. rewrite bool_decide_eq_true_2 by done.
  destruct (Z.leb_spec 0 (n - 1 - 1 - zlen mech - 2)); [|lia]. cbn [guard obind]. rewrite E5. cbn [obind]. rewrite !Z.eqb_refl. cbn [guard obind].
  rewrite E6. cbn [obind]. rewrite !Z.eqb_refl. cbn [guard obind]. do 2 f_equal; lia.
Qed.

(** ** Any octets *)

(** A result that is a value with [P], or an error. *)
Definition settles {E A} (r : outcome E A) (P : A -> Prop) : Prop := match r with Ok a => P a | Err _ => True | _ => False end.

Lemma settles_bind {E A B} (m : outcome E A) (f : A -> outcome E B) P Q :
  settles m P -> (forall a, P a -> settles (f a) Q) -> settles (obind m f) Q.
Proof. destruct m; cbn; eauto. Qed.

Lemma settles_guard {E} b (e : E) (P : Prop) : (b = true -> P) -> settles (guard b e) (fun _ => P).
Proof. destruct b; cbn; auto. Qed.

Lemma settles_peek {E} mem i : 0 <= i < zlen mem -> settles (E := E) (peek mem i) (fun o => mem !! Z.to_nat i = Some o).
Proof. intros H. destruct (peek_ok (E := E) mem i H) as (o & -> & L). done. Qed.

Lemma read_octets_settles mem : forall k buf ret, 0 <= buf -> buf + Z.of_nat k <= zlen mem ->
  settles (read_length_octets k mem buf ret) (fun _ => True).
Proof.
  induction k as [|k IH]; intros buf ret H0 H1; cbn [read_length_octets]; [done|].
  eapply settles_bind; [apply settles_peek; lia|]. intros o _. apply IH; lia.
Qed.

Lemma read_length_settles mem buf size : 0 <= buf -> buf + size = zlen mem ->
  settles (der_read_length mem buf size) (fun '(n, buf', size') => 0 <= n -> buf <= buf' /\ 0 <= size' /\ buf' + size' = zlen mem).
Proof.
  intros H0 HS. unfold der_read_length. destruct (Z.ltb_spec size 1); [cbn; lia|].
  eapply settles_bind; [apply settles_peek; lia|]. intros sf _.
  assert (0 <= Z.land sf 0x7f) by (apply Z.land_nonneg; right; lia).
  destruct (negb _); [|cbn; lia]. destruct (Z.ltb_spec (size - 1 - 1) (Z.land sf 0x7f)); [cbn; lia|].
  destruct (SIZEOF_INT <? _); [cbn; lia|]. eapply settles_bind; [apply read_octets_settles; lia|]. intros ret _. cbn. lia.
Qed.

Lemma settles_slice {E} mem i n : 0 <= i -> 0 <= n -> i + n <= zlen mem -> settles (E := E) (slice mem i n) (fun l => zlen l = n).
Proof. intros. destruct (slice_ok (E := E) mem i n) as (l & -> & L); done. Qed.

(** One guard or one read, and what is known after it. *)
Tactic Notation "settle" ident(H) :=
  eapply settles_bind;
    [first [apply settles_guard; intros HH; apply Z.leb_le in HH; exact HH | apply settles_peek; lia]|intros ? H; cbv beta in H].
Tactic Notation "settle" :=
  eapply settles_bind;
    [first [apply (settles_guard _ _ True); done | apply settles_peek; lia]|intros ? _].

(** C11: Reading the header of a token, from arbitrary octets, reads none outside of
    them and returns: an error, or a body that is the rest of the token. *)
Theorem token_header_safe mech mem t : octets mem -> zlen mem < 2 ^ 31 ->
  settles (g_verify_token_header mech mem 0 t (int32 (zlen mem))) (fun '(ptr, size) => 0 <= size /\ 0 <= ptr /\ ptr + size = zlen mem).
Proof.
  intros HO HL. pose proof (zlen_nonneg mem). rewrite to_int_id by (unfold is_int; lia). unfold g_verify_token_header.
  settle G0. settle. settle. eapply settles_bind; [apply read_length_settles; lia|]. intros [[seqsize buf] size] Hr.
  settle G1. specialize (Hr G1) as (Hb & Hs & Hz). settle. settle G2. settle. settle. settle G3. settle L.
  pose proof (Forall_lookup_1 _ _ _ _ HO L) as [Ho _]. settle G4.
  eapply settles_bind; [instantiate (1 := fun _ => True)|].
  { destruct (_ =? _); [|done]. eapply settles_bind; [|done]. apply settles_slice; lia. }
  intros same _. settle G5. settle. settle. settle. settle. settle. cbn. lia.
Qed.
