(* ===== verification/Words.v ===== *)
(** * Words of 32 bits and maps that are linear over exclusive or

    The operations on [krb5_ui_4] and [unsigned DES_INT32] that the cryptographic library
    uses, octet strings as words, table lookups, and the fact that two linear maps agree
    if they agree on the powers of 2, which reduces a permutation of bits to finitely many
    evaluations. *)

From Stdlib Require Import Btauto.
From S2P Require Import Prelude.

(** ** Operations *)

Definition shl32 (x n : Z) : Z := uint32 (Z.shiftl x n).
Definition add32 (x y : Z) : Z := uint32 (x + y).
Definition not32 (x : Z) : Z := uint32 (Z.lnot x).

(** table[i], [i] being masked to the size of the table *)
Definition table_at (t : list Z) (i : Z) : Z := nth (Z.to_nat i) t 0.

(** The octets of a word, most significant first. *)
Definition be32 (w : Z) : list octet :=
  [Z.land (Z.shiftr w 24) 255; Z.land (Z.shiftr w 16) 255; Z.land (Z.shiftr w 8) 255; Z.land w 255].

(** The octets of a word, least significant first. *)
Definition le32 (w : Z) : list octet :=
  [Z.land w 255; Z.land (Z.shiftr w 8) 255; Z.land (Z.shiftr w 16) 255; Z.land (Z.shiftr w 24) 255].

(** The number that an octet string denotes, most significant octet first. *)
Definition octets_value (l : list octet) : Z := foldl (fun a o => 256 * a + o) 0 l.

Lemma octets_value_foldl l a : foldl (fun a o => 256 * a + o) a l = a * 256 ^ zlen l + octets_value l.
Proof.
  unfold octets_value. revert a. induction l as [|o l IH]; intros a; cbn [foldl].
  - rewrite zlen_nil. lia.
  - rewrite IH, (IH (256 * 0 + o)), zlen_cons, Z.pow_add_r by (pose proof (zlen_nonneg l); lia). lia.
Qed.

Lemma octets_value_app l r : octets_value (l ++ r) = octets_value l * 256 ^ zlen r + octets_value r.
Proof. unfold octets_value at 1. rewrite foldl_app. apply octets_value_foldl. Qed.

Lemma octets_value_cons o l : octets_value (o :: l) = o * 256 ^ zlen l + octets_value l.
Proof. apply (octets_value_app [o] l). Qed.

Lemma octets_value_range l : octets l -> 0 <= octets_value l < 256 ^ zlen l.
Proof.
  induction l as [|o l IH]; intros H; [change (0 <= 0 < 1); lia|]. apply Forall_cons_1 in H as [[? ?] Hl].
  specialize (IH Hl). rewrite octets_value_cons, zlen_cons, Z.pow_add_r by (pose proof (zlen_nonneg l); lia).
  nia.
Qed.

(** ** Bits *)

Lemma uint32_spec z i : 0 <= i -> Z.testbit (uint32 z) i = (i <? 32) && Z.testbit z i.
Proof.
  intros Hi. unfold to_uint. destruct (Z.ltb_spec i 32).
  - by rewrite Z.mod_pow2_bits_low.
  - by rewrite Z.mod_pow2_bits_high by lia.
Qed.

Lemma shl32_spec x n i : 0 <= i -> Z.testbit (shl32 x n) i = (i <? 32) && Z.testbit x (i - n).
Proof. intros Hi. unfold shl32. rewrite uint32_spec by done. by rewrite Z.shiftl_spec. Qed.

Lemma uint32_range z : is_uint 32 (uint32 z).
Proof. unfold is_uint, to_uint. apply Z.mod_pos_bound. lia. Qed.

Lemma uint_bits_above w z i : is_uint w z -> w <= i -> Z.testbit z i = false.
Proof.
  intros Hz Hi. assert (0 <= w).
  { destruct (Z.le_gt_cases 0 w); [done|]. unfold is_uint in Hz. rewrite Z.pow_neg_r in Hz; lia. }
  rewrite <- (Z.mod_small z (2 ^ w)) by exact Hz. by apply Z.mod_pow2_bits_high.
Qed.

Lemma bits_above_uint w z :
  0 <= w -> 0 <= z -> (forall i, w <= i -> Z.testbit z i = false) -> is_uint w z.
Proof.
  intros Hw Hz H. split; [done|]. assert (E : z mod 2 ^ w = z).
  { apply Z.bits_inj'. intros i Hi. destruct (Z.lt_ge_cases i w).
    - by rewrite Z.mod_pow2_bits_low.
    - rewrite Z.mod_pow2_bits_high by lia. by rewrite H. }
  rewrite <- E. apply Z.mod_pos_bound. lia.
Qed.

Lemma lxor_range w x y : 0 <= w -> is_uint w x -> is_uint w y -> is_uint w (Z.lxor x y).
Proof.
  intros Hw Hx Hy. apply bits_above_uint; [done| |].
  - apply Z.lxor_nonneg. unfold is_uint in *. lia.
  - intros i Hi. rewrite Z.lxor_spec, (uint_bits_above w x), (uint_bits_above w y); done.
Qed.

Lemma lor_range w x y : 0 <= w -> is_uint w x -> is_uint w y -> is_uint w (Z.lor x y).
Proof.
  intros Hw Hx Hy. apply bits_above_uint; [done| |].
  - apply Z.lor_nonneg. unfold is_uint in *. lia.
  - intros i Hi. rewrite Z.lor_spec, (uint_bits_above w x), (uint_bits_above w y); done.
Qed.

Lemma land_range w x m : 0 <= w -> is_uint w m -> is_uint w (Z.land x m).
Proof.
  intros Hw Hm. apply bits_above_uint; [done| |].
  - apply Z.land_nonneg. unfold is_uint in *. lia.
  - intros i Hi. by rewrite Z.land_spec, (uint_bits_above w m), andb_false_r.
Qed.

Lemma shiftr_range w n x : 0 <= n -> is_uint w x -> is_uint w (Z.shiftr x n).
Proof.
  intros Hn [H0 H1]. rewrite Z.shiftr_div_pow2 by done. pose proof (Z.pow_pos_nonneg 2 n).
  split; [apply Z.div_pos; lia|]. apply Z.div_lt_upper_bound; nia.
Qed.

(** [bitwise]: equality of two words bit by bit. *)
Ltac bitwise :=
  apply Z.bits_inj'; intros ?i ?Hi;
  repeat first [rewrite Z.lxor_spec | rewrite Z.land_spec | rewrite Z.lor_spec
               | rewrite Z.shiftr_spec by lia | rewrite uint32_spec by lia | rewrite shl32_spec by lia
               | rewrite Z.bits_0];
  try btauto.

(** ** Words from octets *)

Lemma lor_add a b k : 0 <= k -> is_uint k b -> Z.lor (a * 2 ^ k) b = a * 2 ^ k + b.
Proof.
  intros Hk Hb. rewrite <- Z.lxor_lor, <- Z.add_nocarry_lxor; [done|..];
    (bitwise; rewrite <- Z.shiftl_mul_pow2, Z.shiftl_spec by done; destruct (Z.lt_ge_cases i k);
     [by rewrite Z.testbit_neg_r by lia|by rewrite (uint_bits_above k b), andb_false_r]).
Qed.

(** The shifted octets of a word, added up. *)
Lemma word_value o3 o2 o1 o0 : is_octet o0 -> is_octet o1 -> is_octet o2 -> is_octet o3 ->
  Z.lor (Z.lor (Z.lor (shl32 o3 24) (shl32 o2 16)) (shl32 o1 8)) o0 = o0 + 256 * (o1 + 256 * (o2 + 256 * o3)).
Proof.
  intros H0 H1 H2 H3. unfold is_octet, is_uint in *.
  unfold shl32. rewrite !Z.shiftl_mul_pow2 by lia. unfold to_uint. rewrite !Z.mod_small by lia.
  rewrite (lor_add o3 (o2 * 2 ^ 16) 24) by (unfold is_uint; lia).
  replace (o3 * 2 ^ 24 + o2 * 2 ^ 16) with ((o3 * 2 ^ 8 + o2) * 2 ^ 16) by lia.
  rewrite (lor_add _ (o1 * 2 ^ 8) 16) by (unfold is_uint; lia).
  replace ((o3 * 2 ^ 8 + o2) * 2 ^ 16 + o1 * 2 ^ 8) with (((o3 * 2 ^ 8 + o2) * 2 ^ 8 + o1) * 2 ^ 8) by lia.
  rewrite (lor_add _ o0 8) by (unfold is_uint; lia). lia.
Qed.

(** ** Linear maps *)

Definition linear (f : Z -> Z) : Prop := forall x y, f (Z.lxor x y) = Z.lxor (f x) (f y).

Lemma linear_0 f : linear f -> f 0 = 0.
Proof. intros Hf. rewrite <- (Z.lxor_nilpotent 0) at 1. rewrite Hf. apply Z.lxor_nilpotent. Qed.

Lemma linear_id : linear (fun x => x).
Proof. done. Qed.

Lemma linear_lxor f g : linear f -> linear g -> linear (fun x => Z.lxor (f x) (g x)).
Proof. intros Hf Hg x y. rewrite Hf, Hg. bitwise. Qed.

Lemma linear_land f m : linear f -> linear (fun x => Z.land (f x) m).
Proof. intros Hf x y. rewrite Hf. bitwise. Qed.

Lemma linear_shiftr f n : 0 <= n -> linear f -> linear (fun x => Z.shiftr (f x) n).
Proof. intros Hn Hf x y. rewrite Hf. apply Z.shiftr_lxor. Qed.

Lemma linear_shl32 f n : linear f -> linear (fun x => shl32 (f x) n).
Proof. intros Hf x y. rewrite Hf. bitwise. Qed.

Lemma linear_comp f g : linear f -> linear g -> linear (fun x => f (g x)).
Proof. intros Hf Hg x y. by rewrite Hg, Hf. Qed.

(** A power of 2 on top of a smaller number. *)
Lemma lxor_top x w : 0 <= w -> 2 ^ w <= x < 2 ^ (w + 1) -> x = Z.lxor (2 ^ w) (x - 2 ^ w).
Proof.
  intros Hw [H0 H1]. rewrite Z.pow_add_r in H1 by lia.
  rewrite <- Z.add_nocarry_lxor; [lia|]. bitwise.
  destruct (Z.lt_ge_cases i w).
  - by rewrite Z.pow2_bits_false by lia.
  - by rewrite (uint_bits_above w (x - 2 ^ w)) by (unfold is_uint; lia); rewrite andb_false_r.
Qed.

Lemma linear_ext (w : nat) f g :
  linear f -> linear g -> (forall i, (i < w)%nat -> f (2 ^ Z.of_nat i) = g (2 ^ Z.of_nat i)) ->
  forall x, is_uint (Z.of_nat w) x -> f x = g x.
Proof.
  intros Hf Hg. induction w as [|w IH]; intros Hb x [H0 H1].
  - replace x with 0 by (cbn in H1; lia). by rewrite !linear_0.
  - rewrite Nat2Z.inj_succ, <- Z.add_1_r in H1.
    destruct (Z.lt_ge_cases x (2 ^ Z.of_nat w)).
    + apply IH; [|by split]. intros i Hi. apply Hb. lia.
    + rewrite (lxor_top x (Z.of_nat w)) by lia. rewrite Hf, Hg, (Hb w) by lia. f_equal.
      apply IH; [intros i Hi; apply Hb; lia|]. rewrite Z.pow_add_r in H1 by lia. split; lia.
Qed.

(** The same with the evaluations done by a boolean function. *)
Lemma linear_check (w : nat) f g :
  linear f -> linear g ->
  forallb (fun i => f (2 ^ Z.of_nat i) =? g (2 ^ Z.of_nat i)) (seq 0 w) = true ->
  forall x, is_uint (Z.of_nat w) x -> f x = g x.
Proof.
  intros Hf Hg H. apply linear_ext; [done..|]. intros i Hi. rewrite forallb_forall in H.
  apply Z.eqb_eq, H. apply in_seq. lia.
Qed.

Create HintDb linear discriminated.
#[export] Hint Resolve linear_id linear_lxor linear_land linear_shiftr linear_shl32 : linear.

(** ** Linear maps with a mask

    [lin m f]: [f] is linear and has no bit outside [m].  The masks show that an
    inclusive or of disjoint parts is an exclusive one. *)

Definition lin (m : Z) (f : Z -> Z) : Prop := linear f /\ forall x, Z.land (f x) m = f x.

Lemma lor_disjoint a b m n :
  Z.land a m = a -> Z.land b n = b -> Z.land m n = 0 -> Z.lor a b = Z.lxor a b.
Proof.
  intros Ha Hb Hm. symmetry. apply Z.lxor_lor. rewrite <- Ha, <- Hb.
  rewrite (Z.land_comm b n), Z.land_assoc, <- (Z.land_assoc a), Hm, Z.land_0_r. apply Z.land_0_l.
Qed.

Lemma within_lor a b m n : Z.land a m = a -> Z.land b n = b -> Z.land (Z.lor a b) (Z.lor m n) = Z.lor a b.
Proof. intros Ha Hb. rewrite <- Ha, <- Hb. bitwise. Qed.

Lemma lin_lor m n f g : lin m f -> lin n g -> Z.land m n = 0 -> lin (Z.lor m n) (fun x => Z.lor (f x) (g x)).
Proof.
  intros [Lf Wf] [Lg Wg] H. split.
  - intros x y. rewrite !(lor_disjoint _ _ m n) by done. by apply linear_lxor.
  - intros x. by apply within_lor.
Qed.

Lemma lin_lxor m n f g : lin m f -> lin n g -> lin (Z.lor m n) (fun x => Z.lxor (f x) (g x)).
Proof.
  intros [Lf Wf] [Lg Wg]. split; [by apply linear_lxor|].
  intros x. rewrite <- (Wf x), <- (Wg x). bitwise.
Qed.

Lemma lin_land m k f : lin m f -> lin (Z.land m k) (fun x => Z.land (f x) k).
Proof. intros [Lf Wf]. split; [by apply linear_land|]. intros x. rewrite <- (Wf x). bitwise. Qed.

Lemma lin_shiftr m n f : 0 <= n -> lin m f -> lin (Z.shiftr m n) (fun x => Z.shiftr (f x) n).
Proof.
  intros Hn [Lf Wf]. split; [by apply linear_shiftr|]. intros x. by rewrite <- Z.shiftr_land, Wf.
Qed.

Lemma lin_shl32 m n f : lin m f -> lin (shl32 m n) (fun x => shl32 (f x) n).
Proof.
  intros [Lf Wf]. split; [by apply linear_shl32|]. intros x. rewrite <- (Wf x). bitwise.
Qed.

(** The low [w] bits. *)
Lemma lin_low m : lin m (fun x => Z.land x m).
Proof.
  split; [apply (linear_land (fun x => x)), linear_id|]. intros x.
  by rewrite <- Z.land_assoc, Z.land_diag.
Qed.

(** A table that is linear on indices of [w] bits, with all entries in the mask: it is
    enough to change one bit of the index at a time. *)
Definition table_lin (w : nat) (m : Z) (t : list Z) : bool :=
  let idx := seqZ 0 (2 ^ Z.of_nat w) in
  (table_at t 0 =? 0) &&
  forallb (fun i => Z.land (table_at t i) m =? table_at t i) idx &&
  forallb (fun i => forallb (fun k => table_at t (Z.lxor i (2 ^ k)) =? Z.lxor (table_at t i) (table_at t (2 ^ k)))
                      (seqZ 0 (Z.of_nat w))) idx.

Lemma land_ones_range w x : 0 <= w -> Z.land x (Z.ones w) = x -> is_uint w x.
Proof. intros Hw <-. rewrite Z.land_ones by done. apply Z.mod_pos_bound. lia. Qed.

Lemma forallb_seqZ (P : Z -> bool) n x : forallb P (seqZ 0 n) = true -> 0 <= x < n -> P x = true.
Proof. intros H Hx. rewrite forallb_forall in H. apply H, list_elem_of_In, elem_of_seqZ. lia. Qed.

Lemma is_uint_mono w v x : 0 <= w <= v -> is_uint w x -> is_uint v x.
Proof. intros H [H0 H1]. pose proof (Z.pow_le_mono_r 2 w v). split; lia. Qed.

Lemma table_lin_lxor (w : nat) m t :
  table_lin w m t = true ->
  forall (v : nat) j, (v <= w)%nat -> is_uint (Z.of_nat v) j -> forall i, is_uint (Z.of_nat w) i ->
  table_at t (Z.lxor i j) = Z.lxor (table_at t i) (table_at t j).
Proof.
  intros H. apply andb_true_iff in H as [H1 H]. apply andb_true_iff in H1 as [T0 _]. apply Z.eqb_eq in T0.
  assert (B : forall i k, is_uint (Z.of_nat w) i -> 0 <= k < Z.of_nat w ->
            table_at t (Z.lxor i (2 ^ k)) = Z.lxor (table_at t i) (table_at t (2 ^ k))).
  { intros i k Hi Hk. apply Z.eqb_eq. pose proof (forallb_seqZ _ _ i H Hi) as Hx. cbv beta in Hx.
    exact (forallb_seqZ _ _ k Hx Hk). }
  induction v as [|v IH]; intros j Hv Hj i Hi.
  - replace j with 0 by (destruct Hj as [? Hj]; cbn in Hj; lia). by rewrite T0, !Z.lxor_0_r.
  - destruct (Z.lt_ge_cases j (2 ^ Z.of_nat v)) as [Hlt|Hge].
    + apply IH; [lia|split; [apply Hj|done]|done].
    + unfold is_uint in Hj. rewrite Nat2Z.inj_succ, <- Z.add_1_r in Hj.
      set (r := j - 2 ^ Z.of_nat v). assert (Hr : is_uint (Z.of_nat v) r).
      { unfold is_uint, r. rewrite Z.pow_add_r in Hj by lia. lia. }
      rewrite (lxor_top j (Z.of_nat v)) by lia. fold r. rewrite (Z.lxor_comm (2 ^ _) r).
      pose proof (is_uint_mono (Z.of_nat v) (Z.of_nat w) r ltac:(lia) Hr).
      rewrite <- Z.lxor_assoc, !B, IH, Z.lxor_assoc by first [done | lia | apply lxor_range; [lia|done..]]. done.
Qed.

Lemma lin_table (w : nat) m t f :
  table_lin w m t = true -> lin (Z.ones (Z.of_nat w)) f -> lin m (fun x => table_at t (f x)).
Proof.
  intros H [Lf Wf].
  assert (R : forall x, is_uint (Z.of_nat w) (f x)) by (intros x; apply land_ones_range; [lia|done]).
  split.
  - intros x y. rewrite Lf. by apply (table_lin_lxor w m t H w).
  - intros x. apply andb_true_iff in H as [H _]. apply andb_true_iff in H as [_ H].
    apply Z.eqb_eq. exact (forallb_seqZ _ _ (f x) H (R x)).
Qed.

(** A map into numbers of [w] bits has as its mask all [w] bits. *)
Lemma lin_mono m n f : Z.land m n = m -> lin m f -> lin n f.
Proof.
  intros H [Lf Wf]. split; [done|]. intros x. rewrite <- (Wf x), <- Z.land_assoc, H. done.
Qed.

Lemma lin_ext m f g : (forall x, f x = g x) -> lin m f -> lin m g.
Proof.
  intros E [Lf Wf]. split; [intros x y; rewrite <- !E; apply Lf|]. intros x. by rewrite <- !E.
Qed.

Lemma lin_linear m f : lin m f -> linear f.
Proof. by intros []. Qed.

Lemma lin_id : lin (-1) (fun x => x).
Proof. split; [done|]. intros x. apply Z.land_m1_r. Qed.

(** [lin]: a map built from the operations above is linear, its mask is computed. *)
Ltac lin :=
  lazymatch goal with
  | |- lin _ (fun x => x) => apply lin_id
  | |- lin _ (fun x => Z.lor _ _) => eapply lin_lor; [lin|lin|vm_compute; reflexivity]
  | |- lin _ (fun x => Z.lxor _ _) => eapply lin_lxor; [lin|lin]
  | |- lin _ (fun x => Z.land _ _) => eapply lin_land; lin
  | |- lin _ (fun x => Z.shiftr _ _) => eapply lin_shiftr; [lia|lin]
  | |- lin _ (fun x => shl32 _ _) => eapply lin_shl32; lin
  | |- lin _ (fun x => table_at ?t (@?i x)) =>
      let m := eval vm_compute in (foldr Z.lor 0 t) in
      let w := eval vm_compute in (Nat.log2 (length t)) in
      apply (lin_table w m t i); [vm_compute; reflexivity|];
      eapply lin_mono; cycle 1; [lin|vm_compute; reflexivity]
  | |- lin _ _ => eassumption
  end.

(** ** Numbers and their octets *)

Lemma to_int_mod w z : 0 < w -> is_int w z -> to_int w (z mod 2 ^ w) = z.
Proof.
  intros Hw H. rewrite <- (to_int_id w z H Hw) at 2. unfold to_int. f_equal. by rewrite Zplus_mod_idemp_l.
Qed.

Lemma le32_joined z :
  Z.lor (Z.lor (Z.lor (Z.land z 255) (Z.shiftl (Z.land (Z.shiftr z 8) 255) 8)) (Z.shiftl (Z.land (Z.shiftr z 16) 255) 16))
    (Z.shiftl (Z.land (Z.shiftr z 24) 255) 24) = z mod 2 ^ 32.
Proof.
  apply Z.bits_inj'. intros i Hi. change 255 with (Z.ones 8).
  rewrite !Z.lor_spec, !Z.shiftl_spec, !Z.land_spec, Z.testbit_mod_pow2 by lia.
  assert (T : forall k, Z.testbit (Z.ones 8) k = (0 <=? k) && (k <? 8)) by (intros k; rewrite Z.testbit_ones by lia; done).
  rewrite !T.
  assert (S : forall n, 0 <= n -> n <= i -> Z.testbit (Z.shiftr z n) (i - n) = Z.testbit z i) by (intros n ? ?; rewrite Z.shiftr_spec by lia; f_equal; lia).
  destruct (Z.ltb_spec i 8); [|destruct (Z.ltb_spec i 16); [|destruct (Z.ltb_spec i 24); [|destruct (Z.ltb_spec i 32)]]];
    repeat match goal with |- context [?a <=? ?b] => destruct (Z.leb_spec a b); [|try lia]; try (exfalso; lia)
                         | |- context [?a <? ?b] => destruct (Z.ltb_spec a b); [|try lia]; try (exfalso; lia) end;
    rewrite ?S by lia; rewrite ?andb_true_r, ?andb_false_r, ?orb_false_r, ?orb_false_l; try done.
Qed.
