(* ===== verification/RcDfl.v ===== *)
(** * The replay cache (src/src/lib/krb5/rcache: rc_dfl.c, rc_io.c)

    A server records each authenticator it accepts in memory, in a list with a hash
    table, and in a file, from which a later process recovers the table; entries whose
    lifespan is over are dropped when the cache is expunged, which writes a new file and
    renames it to the old name.

    The file system is a directory of names and the contents of files; an open file has
    an offset.  Names stand for paths in the directory of the caches.  Writing does not
    fail, memory does not run out, and the files belong to the user.  krb5_timeofday is
    the argument [now], the time during one call, [None] if it fails.  [int] has four
    octets, least significant first. *)

From stdpp Require Import gmap.
From S2P Require Import Prelude CString Words.

(** ** Files (rc_io.c) *)

Abbreviation file_name := (list octet).

Record file_system : Type := FS { fs_dir : gmap file_name nat; fs_files : list (list octet) }.

(** krb5_rc_iostuff: fd is a file and the offset in it, [None] for -1. *)
Record krb5_rc_iostuff : Type := IoStuff {
  io_fn : option file_name;
  io_fd : option (nat * Z);
  io_mark : Z
}.

Definition KRB5_RC_VNO : Z := 0x0501.

(** Overwrites or extends [data] from offset [pos] on. *)
Definition write_at (data : list octet) (pos : Z) (buf : list octet) : list octet :=
  let n := Z.to_nat pos in
  take n data ++ replicate (n - length data) 0 ++ buf ++ drop (n + length buf) data.

Definition krb5_rc_io_write (fs : file_system) (d : krb5_rc_iostuff) (buf : list octet)
    : outcome error_code unit * krb5_rc_iostuff * file_system :=
  match io_fd d with
  | None => (Err KRB5_RC_IO_UNKNOWN, d, fs)
  | Some (ino, pos) =>
      (Ok tt, IoStuff (io_fn d) (Some (ino, pos + zlen buf)) (io_mark d),
       FS (fs_dir fs) (alter (fun data => write_at data pos buf) ino (fs_files fs)))
  end.

(** A read that gets fewer octets than asked for, but not none, succeeds and leaves the
    rest of the variable as it was; the callers go on to use all of it. *)
Definition krb5_rc_io_read (fs : file_system) (d : krb5_rc_iostuff) (num : Z)
    : outcome error_code (list octet) * krb5_rc_iostuff :=
  match io_fd d with
  | None => (Err KRB5_RC_IO_UNKNOWN, d)
  | Some (ino, pos) =>
      let got := take (Z.to_nat num) (drop (Z.to_nat pos) (default [] (fs_files fs !! ino))) in
      let d := IoStuff (io_fn d) (Some (ino, pos + zlen got)) (io_mark d) in
      if zlen got =? 0 then (Err KRB5_RC_IO_EOF, d)
      else if zlen got <? num then (Undefined, d)
      else (Ok got, d)
  end.

(** The names krb5_RC<pid>aaa, ...aab, ... that are tried for a cache without a name. *)
Definition first_free (fs : file_system) (tmp_names : list file_name) : option file_name :=
  List.find (fun n => bool_decide (fs_dir fs !! n = None)) tmp_names.

Definition be16 (v : Z) : list octet := [Z.land (Z.shiftr v 8) 255; Z.land v 255].

(** The name is that of the argument or the one chosen; open with O_EXCL. *)
Definition krb5_rc_io_creat (fs : file_system) (tmp_names : list file_name) (fn : option file_name)
    : outcome error_code file_name * krb5_rc_iostuff * file_system :=
  let name := match fn with
              | Some n => if bool_decide (fs_dir fs !! n = None) then Some n else None
              | None => first_free fs tmp_names
              end in
  match name with
  | None => (Err KRB5_RC_IO_PERM, IoStuff None None 0, fs)
  | Some n =>
      let ino := length (fs_files fs) in
      let fs := FS (<[n := ino]> (fs_dir fs)) (fs_files fs ++ [[]]) in
      let '(r, d, fs) := krb5_rc_io_write fs (IoStuff (Some n) (Some (ino, 0)) 0) (be16 KRB5_RC_VNO) in
      (let* _ := r in Ok n, d, fs)
  end.

Definition unlink (fs : file_system) (n : file_name) : file_system := FS (delete n (fs_dir fs)) (fs_files fs).

Definition krb5_rc_io_open (fs : file_system) (fn : file_name)
    : outcome error_code unit * krb5_rc_iostuff * file_system :=
  match fs_dir fs !! fn with
  | None => (Err KRB5_RC_IO_UNKNOWN, IoStuff None None 0, fs)
  | Some ino =>
      let d := IoStuff (Some fn) (Some (ino, 0)) 0 in
      match krb5_rc_io_read fs d 2 with
      | (Ok rc_vno, d) =>
          if bool_decide (rc_vno = be16 KRB5_RC_VNO) then (Ok tt, d, fs)
          else (Err KRB5_RCACHE_BADVNO, IoStuff None None 0, unlink fs fn)
      | (Err e, _) => (Err e, IoStuff None None 0, unlink fs fn)
      | (Undefined, d) => (Undefined, d, fs)
      | (OutOfFuel, d) => (OutOfFuel, d, fs)
      end
  end.

(** rename(old->fn, new->fn); the new descriptor is a copy of the old one. *)
Definition krb5_rc_io_move (fs : file_system) (new old : krb5_rc_iostuff)
    : outcome error_code unit * krb5_rc_iostuff * file_system :=
  match io_fn old, io_fn new with
  | Some o, Some n =>
      match fs_dir fs !! o with
      | None => (Err KRB5_RC_IO_UNKNOWN, new, fs)
      | Some ino => (Ok tt, IoStuff (Some n) (io_fd old) (io_mark new), FS (<[n := ino]> (delete o (fs_dir fs))) (fs_files fs))
      end
  | _, _ => (Undefined, new, fs)
  end.

Definition krb5_rc_io_sync (d : krb5_rc_iostuff) : outcome error_code unit :=
  match io_fd d with None => Err KRB5_RC_IO_UNKNOWN | Some _ => Ok tt end.

Definition krb5_rc_io_close (d : krb5_rc_iostuff) : krb5_rc_iostuff := IoStuff None None (io_mark d).

Definition krb5_rc_io_destroy (fs : file_system) (d : krb5_rc_iostuff) : outcome error_code unit * file_system :=
  match io_fn d with
  | None => (Undefined, fs)
  | Some n => if bool_decide (is_Some (fs_dir fs !! n)) then (Ok tt, unlink fs n) else (Err KRB5_RC_IO_UNKNOWN, fs)
  end.

Definition io_pos (d : krb5_rc_iostuff) : Z := match io_fd d with Some (_, pos) => pos | None => -1 end.

Definition krb5_rc_io_mark (d : krb5_rc_iostuff) : krb5_rc_iostuff := IoStuff (io_fn d) (io_fd d) (io_pos d).

Definition krb5_rc_io_unmark (d : krb5_rc_iostuff) : krb5_rc_iostuff :=
  IoStuff (io_fn d) ((fun p => (p.1, io_mark d)) <$> io_fd d) (io_mark d).

Definition krb5_rc_io_size (fs : file_system) (d : krb5_rc_iostuff) : Z :=
  match io_fd d with Some (ino, _) => zlen (default [] (fs_files fs !! ino)) | None => 0 end.

(** ** The cache (rc_dfl.c) *)

(** The names are C strings, here without their NUL. *)
Record krb5_donot_replay : Type := Rep {
  dr_server : list octet;
  dr_client : list octet;
  dr_cusec : Z;
  dr_ctime : Z
}.

#[global] Instance donot_replay_eq_dec : EqDecision krb5_donot_replay.
Proof. solve_decision. Defined.

Definition HASHSIZE : Z := 997.
Definition EXCESSREPS : Z := 30.

(** *s, a signed char *)
Definition first_char (s : list octet) : Z :=
  match s with [] => 0 | c :: _ => to_int 8 c end.

(** The sum is an [int]; an overflow wraps around. *)
Definition hash (rep : krb5_donot_replay) (hsize : Z) : Z :=
  Z.rem (Z.rem (int32 (dr_cusec rep + dr_ctime rep + first_char (dr_server rep) + first_char (dr_client rep))) hsize + hsize) hsize.

Inductive cmp_result : Set := CMP_EXPIRED | CMP_REPLAY | CMP_HOHUM.

#[global] Instance cmp_result_eq_dec : EqDecision cmp_result.
Proof. solve_decision. Defined.

Definition cmp (old new : krb5_donot_replay) : cmp_result :=
  if (dr_cusec old =? dr_cusec new) && (dr_ctime old =? dr_ctime new) &&
     bool_decide (dr_client old = dr_client new) && bool_decide (dr_server old = dr_server new)
  then CMP_REPLAY else CMP_HOHUM.

Definition alive (now : option Z) (new : krb5_donot_replay) (t : Z) : cmp_result :=
  match now with
  | None => CMP_HOHUM
  | Some time => if int32 (dr_ctime new + t) <? time then CMP_EXPIRED else CMP_HOHUM
  end.

(** The list a and, for each hash value, the chain of its entries; both share the
    entries, which do not change. *)
Record dfl_data : Type := DflData {
  dd_name : option file_name;
  dd_lifespan : Z;
  dd_hsize : Z;
  dd_numhits : Z;
  dd_nummisses : Z;
  dd_h : list (list krb5_donot_replay);
  dd_a : list krb5_donot_replay;
  dd_d : krb5_rc_iostuff;
  dd_recovering : bool
}.

Definition set_counts (t : dfl_data) (numhits nummisses : Z) : dfl_data :=
  DflData (dd_name t) (dd_lifespan t) (dd_hsize t) numhits nummisses (dd_h t) (dd_a t) (dd_d t) (dd_recovering t).
Definition set_d (t : dfl_data) (d : krb5_rc_iostuff) : dfl_data :=
  DflData (dd_name t) (dd_lifespan t) (dd_hsize t) (dd_numhits t) (dd_nummisses t) (dd_h t) (dd_a t) d (dd_recovering t).
Definition set_recovering (t : dfl_data) (b : bool) : dfl_data :=
  DflData (dd_name t) (dd_lifespan t) (dd_hsize t) (dd_numhits t) (dd_nummisses t) (dd_h t) (dd_a t) (dd_d t) b.
Definition set_lifespan (t : dfl_data) (lifespan : Z) : dfl_data :=
  DflData (dd_name t) lifespan (dd_hsize t) (dd_numhits t) (dd_nummisses t) (dd_h t) (dd_a t) (dd_d t) (dd_recovering t).
Definition set_name (t : dfl_data) (name : option file_name) : dfl_data :=
  DflData name (dd_lifespan t) (dd_hsize t) (dd_numhits t) (dd_nummisses t) (dd_h t) (dd_a t) (dd_d t) (dd_recovering t).

(** The search of a chain: whether the entry is there, and the new counts. *)
Fixpoint rc_search (now : option Z) (lifespan : Z) (rep : krb5_donot_replay) (chain : list krb5_donot_replay)
    (numhits nummisses : Z) : bool * Z * Z :=
  match chain with
  | [] => (false, numhits, nummisses)
  | ta :: chain =>
      match cmp ta rep with
      | CMP_REPLAY => (true, numhits, nummisses)
      | _ =>
          match alive now ta lifespan with
          | CMP_EXPIRED => rc_search now lifespan rep chain numhits (nummisses + 1)
          | _ => rc_search now lifespan rep chain (numhits + 1) nummisses
          end
      end
  end.

Definition rc_store (now : option Z) (t : dfl_data) (rep : krb5_donot_replay) : cmp_result * dfl_data :=
  let rephash := Z.to_nat (hash rep (dd_hsize t)) in
  let chain := default [] (dd_h t !! rephash) in
  let '(found, hits, misses) := rc_search now (dd_lifespan t) rep chain (dd_numhits t) (dd_nummisses t) in
  let t := set_counts t hits misses in
  if found then (CMP_REPLAY, t)
  else (CMP_HOHUM, DflData (dd_name t) (dd_lifespan t) (dd_hsize t) hits misses
                     (<[rephash := rep :: chain]> (dd_h t)) (rep :: dd_a t) (dd_d t) (dd_recovering t)).

Definition krb5_rc_dfl_resolve (name : option file_name) : dfl_data :=
  DflData name 0 HASHSIZE 0 0 (replicate (Z.to_nat HASHSIZE) []) [] (IoStuff None None 0) false.

Definition krb5_rc_dfl_init (tmp_names : list file_name) (clockskew : Z) (fs : file_system) (t : dfl_data) (lifespan : Z)
    : outcome error_code unit * dfl_data * file_system :=
  let t := set_lifespan t (if negb (lifespan =? 0) then lifespan else clockskew) in
  let '(r, d, fs) := krb5_rc_io_creat fs tmp_names (dd_name t) in
  let t := set_d t d in
  match r with
  | Ok name =>
      let t := set_name t (Some name) in
      let '(r, d, fs) := krb5_rc_io_write fs (dd_d t) (le32 (dd_lifespan t)) in
      (match r with Err _ => Err KRB5_RC_IO | o => o end, set_d t d, fs)
  | Err e => (Err e, t, fs)
  | Undefined => (Undefined, t, fs)
  | OutOfFuel => (OutOfFuel, t, fs)
  end.

(** The [int] in four octets. *)
Definition read_int (l : list octet) : Z := int32 (foldr (fun o a => o + 256 * a) 0 l).

(** The names as they are in memory, with the number of octets that were read. *)
Definition krb5_rc_io_fetch (fs : file_system) (d : krb5_rc_iostuff) (maxlen : Z)
    : outcome error_code (list octet * list octet * Z * Z) * krb5_rc_iostuff :=
  let read d n (k : list octet -> krb5_rc_iostuff -> outcome error_code (list octet * list octet * Z * Z) * krb5_rc_iostuff) :=
    match krb5_rc_io_read fs d n with
    | (Ok l, d) => k l d
    | (Err e, d) => (Err e, d)
    | (Undefined, d) => (Undefined, d)
    | (OutOfFuel, d) => (OutOfFuel, d)
    end in
  read d 4 (fun l d =>
    let len := read_int l in
    if (len <=? 0) || (maxlen <=? len) then (Err KRB5_RC_IO_EOF, d)
    else read d len (fun client d =>
      read d 4 (fun l d =>
        let len := read_int l in
        if (len <=? 0) || (maxlen <=? len) then (Err KRB5_RC_IO_EOF, d)
        else read d len (fun server d =>
          read d 4 (fun cusec d =>
            read d 4 (fun ctime d =>
              (Ok (client, server, read_int cusec, read_int ctime), d))))))).

(** One record of the file, in a block of its own. *)
Definition rep_octets (rep : krb5_donot_replay) : list octet :=
  le32 (zlen (dr_client rep) + 1) ++ (dr_client rep ++ [0]) ++
  le32 (zlen (dr_server rep) + 1) ++ (dr_server rep ++ [0]) ++
  le32 (dr_cusec rep) ++ le32 (dr_ctime rep).

Definition krb5_rc_io_store (fs : file_system) (d : krb5_rc_iostuff) (rep : krb5_donot_replay)
    : outcome error_code unit * krb5_rc_iostuff * file_system :=
  krb5_rc_io_write fs d (rep_octets rep).

Fixpoint store_all (fs : file_system) (d : krb5_rc_iostuff) (reps : list krb5_donot_replay)
    : outcome error_code unit * krb5_rc_iostuff * file_system :=
  match reps with
  | [] => (Ok tt, d, fs)
  | rep :: reps =>
      let '(r, d, fs) := krb5_rc_io_store fs d rep in
      match r with
      | Ok _ => store_all fs d reps
      | Err _ => (Err KRB5_RC_IO, d, fs)
      | o => (o, d, fs)
      end
  end.

Section cache.
Context (tmp_names : list file_name) (clockskew : Z).

(** The part of krb5_rc_dfl_expunge that writes the entries to a new file. *)
Definition expunge_file (fs : file_system) (t : dfl_data) (lifespan : Z)
    : outcome error_code unit * dfl_data * file_system :=
  let '(r, tmp, fs) := krb5_rc_dfl_init tmp_names clockskew fs (krb5_rc_dfl_resolve None) lifespan in
  match r with
  | Ok _ =>
      let '(r, tmp_d, fs) := store_all fs (dd_d tmp) (dd_a t) in
      match r with
      | Ok _ =>
          match krb5_rc_io_sync (dd_d t) with
          | Ok _ =>
              let '(r, d, fs) := krb5_rc_io_move fs (dd_d t) tmp_d in
              (match r with Err _ => Err KRB5_RC_IO | o => o end, set_d t d, fs)
          | _ => (Err KRB5_RC_IO, t, fs)
          end
      | o => (o, t, fs)
      end
  | o => (o, t, fs)
  end.

(** The loop of krb5_rc_dfl_recover; the number of expired entries. *)
Fixpoint recover_loop (fuel : nat) (now : option Z) (fs : file_system) (t : dfl_data) (max_size expired_entries : Z)
    : outcome error_code Z * dfl_data :=
  match fuel with
  | O => (OutOfFuel, t)
  | S fuel =>
      let t := set_d t (krb5_rc_io_mark (dd_d t)) in
      let '(r, d) := krb5_rc_io_fetch fs (dd_d t) max_size in
      let t := set_d t d in
      match r with
      | Err KRB5_RC_IO_EOF => (Ok expired_entries, set_d t (krb5_rc_io_unmark (dd_d t)))
      | Ok (client, server, cusec, ctime) =>
          match alive now (Rep server client cusec ctime) (dd_lifespan t) with
          | CMP_EXPIRED => recover_loop fuel now fs t max_size (expired_entries + 1)
          | _ =>
              match c_string client, c_string server with
              | Ok client, Ok server =>
                  let '(_, t) := rc_store now t (Rep server client cusec ctime) in
                  recover_loop fuel now fs t max_size expired_entries
              | _, _ => (Undefined, t)
              end
          end
      | Err e => (Err e, t)
      | Undefined => (Undefined, t)
      | OutOfFuel => (OutOfFuel, t)
      end
  end.

(** Every record is longer than one octet. *)
Definition krb5_rc_dfl_recover (now : option Z) (fs : file_system) (t : dfl_data)
    : outcome error_code unit * dfl_data * file_system :=
  match dd_name t with
  | None => (Undefined, t, fs)
  | Some name =>
      let '(r, d, fs) := krb5_rc_io_open fs name in
      let t := set_d t d in
      match r with
      | Ok _ =>
          let t := set_recovering t true in
          let max_size := int32 (krb5_rc_io_size fs (dd_d t)) in
          let fuel := S (Z.to_nat (krb5_rc_io_size fs (dd_d t))) in
          let fail e t := (Err e, set_recovering (set_d t (krb5_rc_io_close (dd_d t))) false, fs) in
          match krb5_rc_io_read fs (dd_d t) 4 with
          | (Ok l, d) =>
              let t := set_d (set_lifespan t (read_int l)) d in
              match recover_loop fuel now fs t max_size 0 with
              | (Ok expired_entries, t) =>
                  if EXCESSREPS <? expired_entries then
                    let '(r, t, fs) := expunge_file fs t (dd_lifespan t) in (r, set_recovering t false, fs)
                  else (Ok tt, set_recovering t false, fs)
              | (Err e, t) => fail e t
              | (Undefined, t) => (Undefined, t, fs)
              | (OutOfFuel, t) => (OutOfFuel, t, fs)
              end
          | (Err _, d) => fail KRB5_RC_IO (set_d t d)
          | (Undefined, d) => (Undefined, set_d t d, fs)
          | (OutOfFuel, d) => (OutOfFuel, set_d t d, fs)
          end
      | o => (o, t, fs)
      end
  end.

(** Called while recovering, it goes straight to [expunge_file]. *)
Definition krb5_rc_dfl_expunge (now : option Z) (fs : file_system) (t : dfl_data)
    : outcome error_code unit * dfl_data * file_system :=
  let lifespan := dd_lifespan t in
  if dd_recovering t then expunge_file fs t lifespan
  else
    let '(r, t, fs) := krb5_rc_dfl_recover now fs (krb5_rc_dfl_resolve (dd_name t)) in
    match r with
    | Ok _ => expunge_file fs t lifespan
    | o => (o, t, fs)
    end.

Definition krb5_rc_dfl_store (now : option Z) (fs : file_system) (t : dfl_data) (rep : krb5_donot_replay)
    : outcome error_code unit * dfl_data * file_system :=
  match rc_store now t rep with
  | (CMP_REPLAY, t) => (Err KRB5KRB_AP_ERR_REPEAT, t, fs)
  | (_, t) =>
      let '(r, d, fs) := krb5_rc_io_store fs (dd_d t) rep in
      let t := set_d t d in
      match r with
      | Ok _ =>
          if dd_numhits t + EXCESSREPS <? dd_nummisses t then krb5_rc_dfl_expunge now fs t
          else match krb5_rc_io_sync (dd_d t) with Ok _ => (Ok tt, t, fs) | _ => (Err KRB5_RC_IO, t, fs) end
      | o => (o, t, fs)
      end
  end.

(** krb5_rc_dfl_close, then a new handle for the same name, as a new process does. *)
Definition reopen (now : option Z) (fs : file_system) (t : dfl_data) : outcome error_code unit * dfl_data * file_system :=
  krb5_rc_dfl_recover now fs (krb5_rc_dfl_resolve (dd_name t)).

Definition krb5_rc_dfl_destroy (fs : file_system) (t : dfl_data) : outcome error_code unit * file_system :=
  match krb5_rc_io_destroy fs (dd_d t) with
  | (Err _, fs) => (Err KRB5_RC_IO, fs)
  | o => o
  end.
End cache.
