(* ===== verification/RcDflProofs.v ===== *)
(** * The replay cache refuses replays (RcDfl.v)

    The abstract cache is the history of accepted entries.  Through any sequence of
    stores, expunges and restarts the implementation, with its hash table, its counters
    and its file, accepts an entry it has not accepted before and refuses one that it has
    accepted as long as its lifespan is not over. *)

From Stdlib Require Import Sorting.Sorted.
From stdpp Require Import gmap.
From S2P Require Import Prelude CString Words RcDfl.

(** ** The table *)

Definition consistent (t : dfl_data) : Prop :=
  dd_hsize t = HASHSIZE /\
  dd_h t = (fun i => filter (fun r => hash r HASHSIZE = Z.of_nat i) (dd_a t)) <$> seq 0 (Z.to_nat HASHSIZE).

Lemma hash_range r : 0 <= hash r HASHSIZE < HASHSIZE.
Proof.
  unfold hash. set (x := int32 _). assert (0 <= Z.rem x HASHSIZE + HASHSIZE).
  { pose proof (Z.rem_bound_abs x HASHSIZE ltac:(done)). unfold HASHSIZE in *. lia. }
  pose proof (Z.rem_bound_pos (Z.rem x HASHSIZE + HASHSIZE) HASHSIZE). unfold HASHSIZE in *. lia.
Qed.

Lemma cmp_replay old new : cmp old new = CMP_REPLAY <-> old = new.
Proof.
  unfold cmp. destruct old as [s c u t], new as [s' c' u' t']. cbn [dr_cusec dr_ctime dr_client dr_server].
  destruct (Z.eqb_spec u u'), (Z.eqb_spec t t'); cbn [andb]; repeat case_bool_decide; cbn [andb]; split; congruence.
Qed.

Lemma rc_search_found now L rep chain hits misses :
  exists hits' misses', rc_search now L rep chain hits misses = (bool_decide (rep ∈ chain), hits', misses').
Proof.
  revert hits misses. induction chain as [|ta chain IH]; intros hits misses; cbn [rc_search].
  { rewrite bool_decide_eq_false_2 by apply not_elem_of_nil. by do 2 eexists. }
  destruct (decide (ta = rep)) as [->|Hne].
  - rewrite (proj2 (cmp_replay rep rep) eq_refl), bool_decide_eq_true_2 by left. by do 2 eexists.
  - rewrite (bool_decide_ext (rep ∈ ta :: chain) (rep ∈ chain)) by (rewrite elem_of_cons; intuition congruence).
    destruct (cmp ta rep) eqn:E; [|by apply cmp_replay in E|]; destruct (alive now ta L); apply IH.
Qed.

Lemma chain_lookup t r : consistent t ->
  dd_h t !! Z.to_nat (hash r (dd_hsize t)) = Some (filter (fun r' => hash r' HASHSIZE = hash r HASHSIZE) (dd_a t)).
Proof.
  intros [-> ->]. pose proof (hash_range r). rewrite list_lookup_fmap, lookup_seq_lt by (unfold HASHSIZE in *; lia).
  cbn. f_equal. apply list_filter_iff. intros r'. rewrite Z2Nat.id by lia. done.
Qed.

Lemma rc_store_spec now t r : consistent t ->
  let '(res, t') := rc_store now t r in
  consistent t' /\ dd_d t' = dd_d t /\ dd_name t' = dd_name t /\ dd_lifespan t' = dd_lifespan t /\
  dd_recovering t' = dd_recovering t /\
  (r ∈ dd_a t -> res = CMP_REPLAY /\ dd_a t' = dd_a t) /\
  (r ∉ dd_a t -> res = CMP_HOHUM /\ dd_a t' = r :: dd_a t).
Proof.
  intros HC. unfold rc_store. rewrite (chain_lookup t r HC). cbn [from_option id].
  set (chain := filter _ (dd_a t)). destruct (rc_search_found now (dd_lifespan t) r chain (dd_numhits t) (dd_nummisses t)) as (h' & m' & ->).
  assert (EC : r ∈ chain <-> r ∈ dd_a t) by (unfold chain; rewrite list_elem_of_filter; tauto).
  destruct HC as [Hs Hh]. case_bool_decide as Hr.
  - split_and!; try done. apply EC in Hr. done.
  - rewrite EC in Hr. split_and!; try done. split; [done|]. cbn [dd_h dd_a set_counts]. rewrite Hs, Hh.
    pose proof (hash_range r). apply list_eq. intros i.
    destruct (decide (i < Z.to_nat HASHSIZE)%nat) as [Hi|Hi].
    + rewrite list_lookup_fmap, lookup_seq_lt by done. cbn [fmap option_fmap option_map]. rewrite filter_cons.
      destruct (decide (i = Z.to_nat (hash r HASHSIZE))) as [->|Hne].
      * rewrite list_lookup_insert_eq by (rewrite length_fmap, length_seq; lia). rewrite decide_True by lia.
        do 2 f_equal. unfold chain. apply list_filter_iff. intros r'. lia.
      * rewrite list_lookup_insert_ne, list_lookup_fmap, lookup_seq_lt by done. rewrite decide_False by lia. done.
    + rewrite !lookup_ge_None_2; [done|rewrite ?length_insert, length_fmap, length_seq; lia..].
Qed.

(** ** The file *)

Definition wf_rep (r : krb5_donot_replay) : Prop :=
  (0 ∉ dr_client r) /\ (0 ∉ dr_server r) /\ is_int 32 (dr_cusec r) /\ is_int 32 (dr_ctime r).

Definition header (L : Z) : list octet := be16 KRB5_RC_VNO ++ le32 L.
Definition contents (L : Z) (recs : list krb5_donot_replay) : list octet := header L ++ (recs ≫= rep_octets).

Lemma read_int_le32 z : is_int 32 z -> read_int (le32 z) = z.
Proof.
  intros Hz. unfold read_int, le32. cbn [foldr].
  rewrite !land_255. rewrite !Z.shiftr_div_pow2 by lia.
  assert (E : z mod 256 + 256 * ((z / 2 ^ 8) mod 256 + 256 * ((z / 2 ^ 16) mod 256 + 256 * ((z / 2 ^ 24) mod 256 + 256 * 0))) = z mod 2 ^ 32).
  { change (2 ^ 8) with 256. change (2 ^ 16) with (256 * 256). change (2 ^ 24) with (256 * 256 * 256). change (2 ^ 32) with (256 * (256 * (256 * 256))).
    rewrite <- !Z.div_div by lia. rewrite !Z.rem_mul_r by lia. lia. }
  rewrite E. unfold to_int. rewrite Zplus_mod_idemp_l. by apply (to_int_id 32).
Qed.

(** The file [ino] consists of [pre], up to where [d] stands, and [rest]. *)
Definition cursor (fs : file_system) (d : krb5_rc_iostuff) (ino : nat) (pre rest : list octet) : Prop :=
  io_fd d = Some (ino, zlen pre) /\ fs_files fs !! ino = Some (pre ++ rest).

Lemma zlen_nat {A} (l : list A) : Z.to_nat (zlen l) = length l.
Proof. unfold zlen. lia. Qed.

Lemma read_cursor fs d ino pre l rest num : cursor fs d ino pre (l ++ rest) -> zlen l = num -> 0 < num ->
  exists d', krb5_rc_io_read fs d num = (Ok l, d') /\ cursor fs d' ino (pre ++ l) rest /\ io_fn d' = io_fn d /\ io_mark d' = io_mark d.
Proof.
  intros [Hfd Hf] <- Hl. unfold krb5_rc_io_read. rewrite Hfd, Hf. cbn [from_option id].
  rewrite !zlen_nat, drop_app_length, take_app_length.
  destruct (Z.eqb_spec (zlen l) 0); [lia|]. rewrite Z.ltb_irrefl. eexists. split; [reflexivity|].
  split; [|done]. split; [cbn; by rewrite zlen_app|by rewrite <- app_assoc].
Qed.

Lemma read_eof fs d ino pre num : cursor fs d ino pre [] ->
  exists d', krb5_rc_io_read fs d num = (Err KRB5_RC_IO_EOF, d') /\ cursor fs d' ino pre [] /\ io_fn d' = io_fn d /\ io_mark d' = io_mark d.
Proof.
  intros [Hfd Hf]. unfold krb5_rc_io_read. rewrite Hfd, Hf. cbn [from_option id]. rewrite app_nil_r.
  rewrite zlen_nat, drop_all, take_nil, zlen_nil, Z.eqb_refl, Z.add_0_r. eexists. split; [reflexivity|].
  split; [|done]. split; [done|exact Hf].
Qed.

Lemma le32_length z : zlen (le32 z) = 4.
Proof. done. Qed.

(** A record comes back as it was written, if the bound of the names is not reached. *)
Lemma fetch_rep fs d ino pre r rest maxlen :
  wf_rep r -> cursor fs d ino pre (rep_octets r ++ rest) -> zlen (rep_octets r) <= maxlen < 2 ^ 31 ->
  exists d', krb5_rc_io_fetch fs d maxlen = (Ok (dr_client r ++ [0], dr_server r ++ [0], dr_cusec r, dr_ctime r), d') /\
    cursor fs d' ino (pre ++ rep_octets r) rest /\ io_fn d' = io_fn d /\ io_mark d' = io_mark d.
Proof.
  intros (_ & _ & Hu & Ht) HC HM. unfold krb5_rc_io_fetch. unfold rep_octets in *. rewrite !zlen_app, !le32_length in HM.
  pose proof (zlen_nonneg (dr_client r)). pose proof (zlen_nonneg (dr_server r)). change (zlen [0]) with 1 in HM.
  assert (I : forall x, 0 <= x < 2 ^ 31 -> is_int 32 x) by (intros x Hx; red; lia).
  rewrite <- !app_assoc in HC.
  destruct (read_cursor _ _ _ _ _ _ 4 HC eq_refl eq_refl) as (d1 & -> & C1 & F1 & M1).
  rewrite read_int_le32 by (apply I; lia). destruct (Z.leb_spec (zlen (dr_client r) + 1) 0); [lia|]. destruct (Z.leb_spec maxlen (zlen (dr_client r) + 1)); [lia|]. cbn [orb].
  rewrite (app_assoc _ [0]) in C1.
  destruct (read_cursor _ _ _ _ _ _ (zlen (dr_client r) + 1) C1) as (d2 & -> & C2 & F2 & M2); [by rewrite zlen_app|lia|].
  destruct (read_cursor _ _ _ _ _ _ 4 C2 eq_refl eq_refl) as (d3 & -> & C3 & F3 & M3).
  rewrite read_int_le32 by (apply I; lia). destruct (Z.leb_spec (zlen (dr_server r) + 1) 0); [lia|]. destruct (Z.leb_spec maxlen (zlen (dr_server r) + 1)); [lia|]. cbn [orb].
  rewrite (app_assoc _ [0]) in C3.
  destruct (read_cursor _ _ _ _ _ _ (zlen (dr_server r) + 1) C3) as (d4 & -> & C4 & F4 & M4); [by rewrite zlen_app|lia|].
  destruct (read_cursor _ _ _ _ _ _ 4 C4 eq_refl eq_refl) as (d5 & -> & C5 & F5 & M5).
  destruct (read_cursor _ _ _ _ _ _ 4 C5 eq_refl eq_refl) as (d6 & -> & C6 & F6 & M6).
  rewrite !read_int_le32 by done. exists d6. split; [reflexivity|]. split; [|split; congruence].
  by rewrite <- !app_assoc in *.
Qed.

Lemma fetch_eof fs d ino pre maxlen : cursor fs d ino pre [] ->
  exists d', krb5_rc_io_fetch fs d maxlen = (Err KRB5_RC_IO_EOF, d') /\ cursor fs d' ino pre [] /\ io_fn d' = io_fn d /\ io_mark d' = io_mark d.
Proof.
  intros HC. unfold krb5_rc_io_fetch. destruct (read_eof fs d ino pre 4 HC) as (d' & -> & HC' & F & M). by exists d'.
Qed.

Lemma write_end fs d ino pre buf : cursor fs d ino pre [] ->
  exists d' fs', krb5_rc_io_write fs d buf = (Ok tt, d', fs') /\ cursor fs' d' ino (pre ++ buf) [] /\
    io_fn d' = io_fn d /\ fs_dir fs' = fs_dir fs /\ length (fs_files fs') = length (fs_files fs) /\
    (forall i, i <> ino -> fs_files fs' !! i = fs_files fs !! i).
Proof.
  intros [Hfd Hf]. unfold krb5_rc_io_write. rewrite Hfd. do 2 eexists. split; [reflexivity|]. rewrite app_nil_r in Hf.
  assert (EW : write_at pre (zlen pre) buf = pre ++ buf).
  { unfold write_at. rewrite zlen_nat, take_ge, Nat.sub_diag, drop_ge, app_nil_r by lia. done. }
  split_and!; cbn [io_fd io_fn fs_dir fs_files]; try done.
  - split; cbn [io_fd fs_files]; [by rewrite zlen_app|]. rewrite list_lookup_alter_eq, Hf. cbn. by rewrite EW, app_nil_r.
  - apply length_alter.
  - intros i Hi. by apply list_lookup_alter_ne.
Qed.

Lemma store_all_end fs d ino pre reps : cursor fs d ino pre [] ->
  exists d' fs', store_all fs d reps = (Ok tt, d', fs') /\ cursor fs' d' ino (pre ++ (reps ≫= rep_octets)) [] /\
    io_fn d' = io_fn d /\ fs_dir fs' = fs_dir fs /\ length (fs_files fs') = length (fs_files fs) /\
    (forall i, i <> ino -> fs_files fs' !! i = fs_files fs !! i).
Proof.
  revert fs d pre. induction reps as [|r reps IH]; intros fs d pre HC; cbn [store_all].
  - exists d, fs. cbn. by rewrite app_nil_r.
  - unfold krb5_rc_io_store. destruct (write_end fs d ino pre (rep_octets r) HC) as (d1 & fs1 & -> & C1 & F1 & D1 & L1 & O1).
    destruct (IH fs1 d1 _ C1) as (d2 & fs2 & -> & C2 & F2 & D2 & L2 & O2). exists d2, fs2. rewrite bind_cons, app_assoc.
    split_and!; [done..|congruence|congruence|congruence|]. intros i Hi. rewrite O2, O1 by done. done.
Qed.

(** ** Recovery *)

(** The entries of the memory after the records of a file were read. *)
Definition load (now : option Z) (L : Z) (a recs : list krb5_donot_replay) : list krb5_donot_replay :=
  foldl (fun a r => if bool_decide (alive now r L = CMP_EXPIRED) then a else if bool_decide (r ∈ a) then a else r :: a) a recs.

Lemma mark_cursor fs d ino pre rest : cursor fs d ino pre rest ->
  cursor fs (krb5_rc_io_mark d) ino pre rest /\ io_fn (krb5_rc_io_mark d) = io_fn d /\ io_mark (krb5_rc_io_mark d) = zlen pre.
Proof. intros [Hfd Hf]. unfold krb5_rc_io_mark, io_pos. rewrite Hfd. done. Qed.

Lemma unmark_cursor fs d ino pre rest : cursor fs d ino pre rest -> io_mark d = zlen pre ->
  cursor fs (krb5_rc_io_unmark d) ino pre rest /\ io_fn (krb5_rc_io_unmark d) = io_fn d.
Proof. intros [Hfd Hf] HM. unfold krb5_rc_io_unmark. rewrite Hfd. cbn. rewrite HM. done. Qed.

Lemma alive_names now s c s' c' u x L : alive now (Rep s c u x) L = alive now (Rep s' c' u x) L.
Proof. done. Qed.

Lemma alive_replay now r L : alive now r L <> CMP_REPLAY.
Proof. unfold alive. destruct now; [|done]. by destruct (_ <? _). Qed.

Lemma rep_eta r : Rep (dr_server r) (dr_client r) (dr_cusec r) (dr_ctime r) = r.
Proof. by destruct r. Qed.

(** The records at the cursor are read, and the loop goes on with what follows them. *)
Lemma recover_loop_records now fs ino tail recs : forall fuel t pre max_size n,
  Forall wf_rep recs -> Forall (fun r => zlen (rep_octets r) <= max_size) recs -> max_size < 2 ^ 31 ->
  consistent t -> cursor fs (dd_d t) ino pre ((recs ≫= rep_octets) ++ tail) ->
  exists t' n', recover_loop (length recs + fuel) now fs t max_size n = recover_loop fuel now fs t' max_size n' /\ consistent t' /\
    dd_a t' = load now (dd_lifespan t) (dd_a t) recs /\ cursor fs (dd_d t') ino (pre ++ (recs ≫= rep_octets)) tail /\
    io_fn (dd_d t') = io_fn (dd_d t) /\ dd_name t' = dd_name t /\ dd_lifespan t' = dd_lifespan t /\ dd_recovering t' = dd_recovering t.
Proof.
  induction recs as [|r recs IH]; intros fuel t pre max_size n HW HM HB HC Hcur; cbn [length Nat.add recover_loop].
  - exists t, n. cbn [mbind list_bind] in *. by rewrite app_nil_r.
  - apply Forall_cons_1 in HW as [Hr HW]. apply Forall_cons_1 in HM as [Hm HM]. rewrite bind_cons, <- app_assoc in Hcur.
    destruct (mark_cursor _ _ _ _ _ Hcur) as (C1 & F1 & M1). cbn [dd_d set_d].
    destruct (fetch_rep _ _ _ _ r _ max_size Hr C1 ltac:(lia)) as (d' & -> & C2 & F2 & M2). cbn [dd_lifespan set_d].
    rewrite (alive_names now _ _ (dr_server r) (dr_client r)), rep_eta. unfold load. cbn [foldl]. rewrite bind_cons, app_assoc.
    destruct (alive now r (dd_lifespan t)) eqn:EA.
    + rewrite bool_decide_eq_true_2 by done.
      destruct (IH fuel (set_d (set_d t (krb5_rc_io_mark (dd_d t))) d') _ max_size (n + 1) HW HM HB HC C2) as (t' & n' & -> & R).
      exists t', n'. cbn [dd_d dd_a dd_name dd_lifespan dd_recovering set_d] in R. rewrite F2, F1 in R. done.
    + by apply alive_replay in EA.
    + rewrite bool_decide_eq_false_2 by done. destruct Hr as (Nc & Ns & _). rewrite !c_string_ok, rep_eta by done.
      pose proof (rc_store_spec now (set_d (set_d t (krb5_rc_io_mark (dd_d t))) d') r HC) as HS.
      destruct (rc_store now _ r) as [res t1]. destruct HS as (HC1 & Hd & Hn & HL & HR & Hin & Hout).
      cbn [dd_d dd_a dd_name dd_lifespan dd_recovering set_d] in *. rewrite <- Hd in C2.
      destruct (IH fuel t1 _ max_size n HW HM HB HC1 C2) as (t' & n' & -> & R). exists t', n'.
      rewrite Hd, Hn, HL, HR, F2, F1 in R. unfold load in R. case_bool_decide as E; [rewrite (proj2 (Hin E)) in R|rewrite (proj2 (Hout E)) in R]; done.
Qed.

Lemma recover_loop_spec now fs ino recs fuel t pre max_size n :
  Forall wf_rep recs -> Forall (fun r => zlen (rep_octets r) <= max_size) recs -> max_size < 2 ^ 31 ->
  consistent t -> cursor fs (dd_d t) ino pre (recs ≫= rep_octets) -> (length recs < fuel)%nat ->
  exists t' n', recover_loop fuel now fs t max_size n = (Ok n', t') /\ consistent t' /\
    dd_a t' = load now (dd_lifespan t) (dd_a t) recs /\ cursor fs (dd_d t') ino (pre ++ (recs ≫= rep_octets)) [] /\
    io_fn (dd_d t') = io_fn (dd_d t) /\ dd_name t' = dd_name t /\ dd_lifespan t' = dd_lifespan t /\ dd_recovering t' = dd_recovering t.
Proof.
  intros HW HM HB HC Hcur Hf. rewrite <- (app_nil_r (recs ≫= rep_octets)) in Hcur.
  destruct (recover_loop_records now fs ino [] recs (S (fuel - length recs - 1)) t pre max_size n HW HM HB HC Hcur) as (t1 & n1 & E & HC1 & Ha & C0 & F0 & Hn & HL & HR).
  replace (length recs + S (fuel - length recs - 1))%nat with fuel in E by lia. rewrite E. cbn [recover_loop].
  destruct (mark_cursor _ _ _ _ _ C0) as (C1 & F1 & M1). cbn [dd_d set_d].
  destruct (fetch_eof _ _ _ _ max_size C1) as (d' & -> & C2 & F2 & M2). cbn [dd_d set_d].
  destruct (unmark_cursor _ _ _ _ _ C2) as (C3 & F3); [congruence|]. do 2 eexists. split; [reflexivity|].
  cbn [dd_d dd_a dd_name dd_lifespan dd_recovering set_d]. split_and!; try done; try congruence.
Qed.

(** ** The operations *)

Section operations.
Context (tmp_names : list file_name) (clockskew L : Z) (nm : file_name).
Context (HLint : is_int 32 L) (HL : (if negb (L =? 0) then L else clockskew) = L).

(** The directory has the file of the cache, with these records, and room for another. *)
Definition on_disk (fs : file_system) (ino : nat) (recs : list krb5_donot_replay) : Prop :=
  fs_dir fs !! nm = Some ino /\ fs_files fs !! ino = Some (contents L recs) /\ Forall wf_rep recs /\
  exists c, c ∈ tmp_names /\ fs_dir fs !! c = None.

(** An open cache stands at the end of its file. *)
Definition is_open (fs : file_system) (t : dfl_data) (recs : list krb5_donot_replay) : Prop :=
  dd_name t = Some nm /\ io_fn (dd_d t) = Some nm /\ dd_lifespan t = L /\ consistent t /\
  exists ino, on_disk fs ino recs /\ cursor fs (dd_d t) ino (contents L recs) [].

Lemma first_free_ok fs : (exists c, c ∈ tmp_names /\ fs_dir fs !! c = None) ->
  exists c, first_free fs tmp_names = Some c /\ c ∈ tmp_names /\ fs_dir fs !! c = None.
Proof.
  intros (c & Hc & Hn). unfold first_free. destruct (List.find _ _) as [c'|] eqn:E.
  - apply List.find_some in E as [H1 H2]. exists c'. apply bool_decide_eq_true in H2. rewrite list_elem_of_In. done.
  - eapply List.find_none in E; [|by apply list_elem_of_In]. by rewrite bool_decide_eq_true_2 in E.
Qed.

(** A new file has the header. *)
Lemma init_spec fs t n c : n = dd_name t ->
  match n with Some m => m = c | None => first_free fs tmp_names = Some c end -> fs_dir fs !! c = None ->
  exists t' fs', krb5_rc_dfl_init tmp_names clockskew fs t L = (Ok tt, t', fs') /\
    t' = set_d (set_name (set_lifespan t L) (Some c)) (dd_d t') /\ io_fn (dd_d t') = Some c /\
    fs_dir fs' = <[c := length (fs_files fs)]> (fs_dir fs) /\ cursor fs' (dd_d t') (length (fs_files fs)) (header L) [] /\
    (forall i, (i < length (fs_files fs))%nat -> fs_files fs' !! i = fs_files fs !! i).
Proof.
  intros -> Hc Hfree. unfold krb5_rc_dfl_init. rewrite HL. unfold krb5_rc_io_creat. cbn [dd_name set_lifespan].
  assert (EN : match dd_name t with
               | Some n => if bool_decide (fs_dir fs !! n = None) then Some n else None
               | None => first_free fs tmp_names
               end = Some c).
  { destruct (dd_name t); [subst; by rewrite bool_decide_eq_true_2|done]. }
  rewrite EN. set (ino := length (fs_files fs)). set (fs0 := FS _ _). set (d0 := IoStuff _ _ _).
  assert (C0 : cursor fs0 d0 ino [] []).
  { split; [done|]. cbn. unfold ino. by rewrite lookup_app_r, Nat.sub_diag by lia. }
  destruct (write_end _ _ _ _ (be16 KRB5_RC_VNO) C0) as (d1 & fs1 & -> & C1 & F1 & D1 & L1 & O1).
  cbn [obind dd_d set_d set_name dd_lifespan set_lifespan].
  destruct (write_end _ _ _ _ (le32 L) C1) as (d2 & fs2 & -> & C2 & F2 & D2 & L2 & O2). do 2 eexists. split; [reflexivity|].
  cbn [dd_d set_d]. split_and!; [done|by rewrite F2, F1|by rewrite D2, D1|done|].
  intros i Hi. rewrite O2, O1 by (unfold ino; lia). cbn. by rewrite lookup_app_l.
Qed.

Lemma expunge_file_spec fs t ino recs : dd_name t = Some nm -> io_fn (dd_d t) = Some nm -> dd_lifespan t = L -> consistent t ->
  io_fd (dd_d t) <> None -> on_disk fs ino recs -> Forall wf_rep (dd_a t) ->
  exists d' fs', expunge_file tmp_names clockskew fs t L = (Ok tt, set_d t d', fs') /\ is_open fs' (set_d t d') (dd_a t).
Proof.
  intros Hn Hfn HLt HC Hfd (Hdir & Hfile & _ & Hroom) HW. unfold expunge_file.
  destruct (first_free_ok fs Hroom) as (c & Hc & Hin & Hfree).
  destruct (init_spec fs (krb5_rc_dfl_resolve None) None c) as (tmp & fs1 & -> & _ & F1 & D1 & C1 & O1); [done..|].
  destruct (store_all_end fs1 (dd_d tmp) _ _ (dd_a t) C1) as (d2 & fs2 & -> & C2 & F2 & D2 & L2 & O2).
  unfold krb5_rc_io_sync. destruct (io_fd (dd_d t)) as [fd|]; [|done].
  unfold krb5_rc_io_move. rewrite F2, F1, Hfn, D2, D1, lookup_insert_eq. do 2 eexists. split; [reflexivity|].
  assert (c <> nm) as Hne by (intros ->; congruence).
  split_and!; try done. exists (length (fs_files fs)). split; [split_and!; cbn [fs_dir fs_files]|].
  - by rewrite lookup_insert_eq.
  - destruct C2 as [_ ->]. by rewrite app_nil_r.
  - done.
  - exists c. split; [done|]. rewrite lookup_insert_ne by done. by rewrite lookup_delete_eq.
  - exact C2.
Qed.

Lemma header_length : zlen (header L) = 6.
Proof. done. Qed.

Lemma open_spec fs ino body : fs_dir fs !! nm = Some ino -> fs_files fs !! ino = Some (header L ++ body) ->
  exists d, krb5_rc_io_open fs nm = (Ok tt, d, fs) /\ io_fn d = Some nm /\
    cursor fs d ino (be16 KRB5_RC_VNO) (le32 L ++ body).
Proof.
  intros Hdir Hfile. unfold krb5_rc_io_open. rewrite Hdir.
  assert (C0 : cursor fs (IoStuff (Some nm) (Some (ino, 0)) 0) ino [] (be16 KRB5_RC_VNO ++ le32 L ++ body)).
  { split; [done|]. rewrite Hfile. unfold header. by rewrite <- app_assoc. }
  destruct (read_cursor _ _ _ _ _ _ 2 C0 eq_refl eq_refl) as (d & -> & C1 & F1 & _). rewrite bool_decide_eq_true_2 by done.
  by exists d.
Qed.

Lemma load_wf now a recs : Forall wf_rep a -> Forall wf_rep recs -> Forall wf_rep (load now L a recs).
Proof.
  intros Ha Hr. revert a Ha. induction Hr as [|r recs Hr _ IH]; intros a Ha; [done|]. unfold load. cbn [foldl]. apply IH.
  repeat case_bool_decide; [done..|by constructor].
Qed.

Lemma record_small (recs : list krb5_donot_replay) : Forall (fun r => zlen (rep_octets r) <= zlen (contents L recs)) recs.
Proof.
  apply Forall_forall. intros r Hr. apply list_elem_of_In in Hr. apply list_elem_of_split in Hr as (l1 & l2 & ->). unfold contents.
  rewrite bind_app, bind_cons, !zlen_app. pose proof (zlen_nonneg (l1 ≫= rep_octets)). pose proof (zlen_nonneg (l2 ≫= rep_octets)).
  rewrite header_length. lia.
Qed.

Lemma rep_octets_length r : 18 <= zlen (rep_octets r).
Proof.
  unfold rep_octets. rewrite !zlen_app, !le32_length. change (zlen [0]) with 1.
  pose proof (zlen_nonneg (dr_client r)). pose proof (zlen_nonneg (dr_server r)). lia.
Qed.

Lemma records_count recs : Z.of_nat (length recs) <= zlen (recs ≫= rep_octets).
Proof.
  induction recs as [|r recs IH]; [done|]. rewrite bind_cons, zlen_app. pose proof (rep_octets_length r). cbn [length]. lia.
Qed.

Lemma resolve_consistent n : consistent (krb5_rc_dfl_resolve n).
Proof. by split. Qed.

Lemma recover_spec now fs ino recs : on_disk fs ino recs -> zlen (contents L recs) < 2 ^ 31 ->
  exists t' fs' recs', krb5_rc_dfl_recover tmp_names clockskew now fs (krb5_rc_dfl_resolve (Some nm)) = (Ok tt, t', fs') /\
    is_open fs' t' recs' /\ dd_recovering t' = false /\ dd_a t' = load now L [] recs /\ (recs' = recs \/ recs' = dd_a t').
Proof.
  intros HD HB. unfold krb5_rc_dfl_recover. cbn [dd_name krb5_rc_dfl_resolve].
  destruct (open_spec fs ino _ (proj1 HD) (proj1 (proj2 HD))) as (d & -> & Fd & C0). cbn [dd_d set_d set_recovering].
  assert (ES : krb5_rc_io_size fs d = zlen (contents L recs)).
  { unfold krb5_rc_io_size. destruct C0 as [-> ->]. cbn [from_option id]. unfold contents, header. by rewrite <- app_assoc. }
  destruct (read_cursor _ _ _ _ _ _ 4 C0 eq_refl eq_refl) as (d1 & -> & C1 & F1 & _). rewrite read_int_le32, ES by done.
  set (t0 := set_d _ d1). pose proof (zlen_nonneg (contents L recs)).
  assert (HM : int32 (zlen (contents L recs)) = zlen (contents L recs)) by (apply to_int_id; [red; lia|lia]). rewrite HM.
  destruct HD as (Hdir & Hfile & HW & Hroom).
  destruct (recover_loop_spec now fs ino recs (S (Z.to_nat (zlen (contents L recs)))) t0 _ (zlen (contents L recs)) 0
              HW (record_small recs) HB (resolve_consistent _) C1) as (t1 & n & -> & HC1 & Ha & C2 & F2 & Hn & HLt & HR).
  { pose proof (records_count recs). unfold contents. rewrite zlen_app, header_length. lia. }
  cbn [t0 set_d dd_d dd_a dd_lifespan dd_name dd_recovering set_lifespan set_recovering krb5_rc_dfl_resolve] in F2, Ha, Hn, HLt, HR.
  assert (HO : forall b, is_open fs (set_recovering t1 b) recs).
  { intros b. split_and!; cbn [set_recovering dd_name dd_d dd_lifespan]; [done|congruence|done|by destruct HC1|].
    exists ino. split; [by split_and!|]. unfold contents, header. exact C2. }
  destruct (EXCESSREPS <? n).
  - rewrite HLt. destruct (expunge_file_spec fs t1 ino recs Hn) as (d' & fs' & -> & HO'); [congruence|done..| |by split_and!| |].
    + destruct C2 as [-> _]. done.
    + rewrite Ha. by apply load_wf; [constructor|].
    + do 3 eexists. split; [reflexivity|]. split; [exact HO'|]. split; [done|]. split; [done|by right].
  - do 3 eexists. split; [reflexivity|]. split; [apply HO|]. split; [done|]. split; [done|by left].
Qed.

Lemma expunge_spec now fs t recs : is_open fs t recs -> dd_recovering t = false -> zlen (contents L recs) < 2 ^ 31 ->
  exists t' fs', krb5_rc_dfl_expunge tmp_names clockskew now fs t = (Ok tt, t', fs') /\
    is_open fs' t' (dd_a t') /\ dd_recovering t' = false /\ dd_a t' = load now L [] recs.
Proof.
  intros (Hn & _ & HLt & _ & ino & HD & _) HR HB. unfold krb5_rc_dfl_expunge. rewrite HR, HLt, Hn.
  destruct (recover_spec now fs ino recs HD HB) as (t1 & fs1 & recs1 & -> & HO & HR1 & Ha & _).
  destruct HO as (Hn1 & Hf1 & HL1 & HC1 & ino1 & HD1 & C1).
  destruct (expunge_file_spec fs1 t1 ino1 recs1 Hn1 Hf1 HL1 HC1) as (d' & fs' & -> & HO'); [by destruct C1 as [-> _]|done| |].
  - rewrite Ha. apply load_wf; [constructor|]. by destruct HD as (_ & _ & ? & _).
  - do 2 eexists. split; [reflexivity|]. done.
Qed.

Lemma store_spec now fs t recs r : is_open fs t recs -> dd_recovering t = false -> wf_rep r ->
  zlen (contents L (recs ++ [r])) < 2 ^ 31 ->
  exists o t' fs' recs', krb5_rc_dfl_store tmp_names clockskew now fs t r = (o, t', fs') /\
    is_open fs' t' recs' /\ dd_recovering t' = false /\
    (r ∈ dd_a t /\ o = Err KRB5KRB_AP_ERR_REPEAT /\ dd_a t' = dd_a t /\ recs' = recs \/
     (r ∉ dd_a t) /\ o = Ok tt /\
     (dd_a t' = r :: dd_a t /\ recs' = recs ++ [r] \/ dd_a t' = load now L [] (recs ++ [r]) /\ recs' = dd_a t')).
Proof.
  intros (Hn & Hf & HLt & HC & ino & HD & C) HR Hr HB. unfold krb5_rc_dfl_store.
  pose proof (rc_store_spec now t r HC) as HS. destruct (rc_store now t r) as [res t1].
  destruct HS as (HC1 & Hd1 & Hn1 & HL1 & HR1 & Hin & Hout). destruct (decide (r ∈ dd_a t)) as [E|E].
  - destruct (Hin E) as [-> Ha]. exists (Err KRB5KRB_AP_ERR_REPEAT), t1, fs, recs. split; [done|].
    split; [|split; [congruence|by left]]. split_and!; try congruence. exists ino. by rewrite Hd1.
  - destruct (Hout E) as [-> Ha]. unfold krb5_rc_io_store. rewrite <- Hd1 in C.
    destruct (write_end fs (dd_d t1) ino _ (rep_octets r) C) as (d2 & fs2 & -> & C2 & F2 & D2 & L2 & O2).
    destruct HD as (Hdir & _ & HW & Hroom).
    assert (EC : contents L recs ++ rep_octets r = contents L (recs ++ [r])).
    { unfold contents. by rewrite bind_app, bind_singleton, app_assoc. }
    rewrite EC in C2.
    assert (HO : is_open fs2 (set_d t1 d2) (recs ++ [r])).
    { split_and!; cbn [dd_name dd_d dd_lifespan set_d]; try congruence; [exact HC1|]. exists ino. split; [|done]. split_and!.
      - by rewrite D2.
      - destruct C2 as [_ ->]. by rewrite app_nil_r.
      - apply Forall_app. split; [done|by apply Forall_singleton].
      - by rewrite D2. }
    destruct (_ <? _).
    + destruct (expunge_spec now fs2 _ _ HO) as (t' & fs' & -> & HO' & HR' & Ha'); [cbn; congruence|done|].
      exists (Ok tt), t', fs', (dd_a t'). split; [done|]. split; [done|]. split; [done|]. right. split; [done|]. split; [done|]. by right.
    + unfold krb5_rc_io_sync. cbn [dd_d set_d]. rewrite (proj1 C2).
      exists (Ok tt), (set_d t1 d2), fs2, (recs ++ [r]). split; [done|]. split; [done|]. split; [cbn; congruence|]. right.
      split; [done|]. split; [done|]. by left.
Qed.
End operations.

(** ** Sequences of operations *)

Lemma elem_of_load now L x a recs : x ∈ load now L a recs <-> x ∈ a \/ (x ∈ recs /\ alive now x L <> CMP_EXPIRED).
Proof.
  revert a. induction recs as [|r recs IH]; intros a; unfold load; cbn [foldl].
  - rewrite elem_of_nil. tauto.
  - fold (load now L). change (foldl _ ?b recs) with (load now L b recs). rewrite IH, elem_of_cons.
    repeat case_bool_decide; rewrite ?elem_of_cons; intuition (subst; tauto).
Qed.

Definition records_size (recs : list krb5_donot_replay) : Z := zlen (recs ≫= rep_octets).

Lemma load_size now L a recs : records_size (load now L a recs) <= records_size a + records_size recs.
Proof.
  revert a. induction recs as [|r recs IH]; intros a; unfold load; cbn [foldl]; [change (records_size []) with 0; lia|].
  change (foldl _ ?b recs) with (load now L b recs). etransitivity; [apply IH|]. unfold records_size.
  rewrite (bind_cons rep_octets r recs), zlen_app. pose proof (zlen_nonneg (rep_octets r)).
  repeat case_bool_decide; rewrite ?bind_cons, ?zlen_app; lia.
Qed.

Inductive rc_op : Type :=
| Store (r : krb5_donot_replay)
| Expunge
| Restart.

Section run.
Context (tmp_names : list file_name) (clockskew : Z).

Definition rc_exec (now : Z) (op : rc_op) (t : dfl_data) (fs : file_system) : outcome error_code unit * dfl_data * file_system :=
  match op with
  | Store r => krb5_rc_dfl_store tmp_names clockskew (Some now) fs t r
  | Expunge => krb5_rc_dfl_expunge tmp_names clockskew (Some now) fs t
  | Restart => reopen tmp_names clockskew (Some now) fs t
  end.

Fixpoint rc_run (ops : list (Z * rc_op)) (t : dfl_data) (fs : file_system) : list (outcome error_code unit) :=
  match ops with
  | [] => []
  | (now, op) :: ops => let '(o, t, fs) := rc_exec now op t fs in o :: rc_run ops t fs
  end.
End run.

(** The specification, on the entries accepted so far: a store is accepted, but only if
    the entry is new or its lifespan is over, or it is refused as a repetition, but only if
    the entry is not new; the other operations succeed. *)
Fixpoint refuses_replays (L : Z) (hist : list krb5_donot_replay) (ops : list (Z * rc_op)) (res : list (outcome error_code unit)) : Prop :=
  match ops, res with
  | [], [] => True
  | (now, Store r) :: ops, o :: res =>
      o = Ok tt /\ (r ∈ hist -> alive (Some now) r L = CMP_EXPIRED) /\ refuses_replays L (r :: hist) ops res \/
      o = Err KRB5KRB_AP_ERR_REPEAT /\ r ∈ hist /\ refuses_replays L hist ops res
  | (now, _) :: ops, o :: res => o = Ok tt /\ refuses_replays L hist ops res
  | _, _ => False
  end.

Definition op_records (op : Z * rc_op) : list krb5_donot_replay := match op.2 with Store r => [r] | _ => [] end.

Lemma expired_later L now now' r : now <= now' -> alive (Some now) r L = CMP_EXPIRED -> alive (Some now') r L = CMP_EXPIRED.
Proof.
  intros Hle. unfold alive. destruct (Z.ltb_spec (int32 (dr_ctime r + L)) now); [|done]. intros _.
  destruct (Z.ltb_spec (int32 (dr_ctime r + L)) now'); [done|lia].
Qed.

Section refinement.
Context (tmp_names : list file_name) (clockskew L : Z) (nm : file_name).
Context (HLint : is_int 32 L) (HL : (if negb (L =? 0) then L else clockskew) = L).

(** What the cache knows at time [clock] of the accepted entries. *)
Record knows (clock : Z) (hist a recs : list krb5_donot_replay) : Prop := {
  knows_live x : x ∈ hist -> alive (Some clock) x L = CMP_EXPIRED \/ (x ∈ a /\ x ∈ recs);
  knows_a x : x ∈ a -> x ∈ hist;
  knows_recs x : x ∈ recs -> x ∈ hist
}.

Lemma knows_load clock now hist a recs recs' : clock <= now -> knows clock hist a recs ->
  recs' = recs \/ recs' = load (Some now) L [] recs -> knows now hist (load (Some now) L [] recs) recs'.
Proof.
  intros Hle [HK Ha Hr] HR. assert (E : forall x, x ∈ load (Some now) L [] recs -> x ∈ hist).
  { intros x. rewrite elem_of_load, elem_of_nil. intros [[]|[Hx _]]. by apply Hr. }
  split; [|done|destruct HR as [-> | ->]; done].
  intros x Hx. destruct (decide (alive (Some now) x L = CMP_EXPIRED)) as [|Hn]; [by left|]. right.
  destruct (HK x Hx) as [He|[_ Hin]]; [by apply (expired_later L clock now) in He|].
  assert (x ∈ load (Some now) L [] recs) by (rewrite elem_of_load; by right). by destruct HR as [-> | ->].
Qed.

Lemma contents_size recs : zlen (contents L recs) = 6 + records_size recs.
Proof. unfold contents. by rewrite zlen_app, header_length. Qed.

Lemma run_refuses ops : forall clock hist t fs recs,
  is_open tmp_names L nm fs t recs -> dd_recovering t = false -> knows clock hist (dd_a t) recs ->
  Forall (fun op => Forall wf_rep (op_records op)) ops -> StronglySorted Z.le (clock :: (fst <$> ops)) ->
  6 + records_size recs + records_size (ops ≫= op_records) < 2 ^ 31 ->
  refuses_replays L hist ops (rc_run tmp_names clockskew ops t fs).
Proof.
  induction ops as [|[now op] ops IH]; intros clock hist t fs recs HO HR HK HW HS HB; [done|].
  rewrite fmap_cons in HS. cbn [fst] in HS. apply StronglySorted_inv in HS as [HS Hnow]. apply Forall_cons_1 in Hnow as [Hnow _].
  apply Forall_cons_1 in HW as [Hop HW]. rewrite bind_cons in HB.
  assert (ES : records_size (op_records (now, op) ++ (ops ≫= op_records)) = records_size (op_records (now, op)) + records_size (ops ≫= op_records))
    by (unfold records_size; by rewrite bind_app, zlen_app).
  rewrite ES in HB. assert (HN : forall l, 0 <= records_size l) by (intros l; apply zlen_nonneg).
  pose proof (HN (ops ≫= op_records)). pose proof (HN (op_records (now, op))).
  assert (HSm : zlen (contents L recs) < 2 ^ 31) by (rewrite contents_size; lia).
  pose proof (load_size (Some now) L [] recs) as Hload. change (records_size []) with 0 in Hload.
  destruct op as [r| |]; cbn [rc_run rc_exec].
  - change (op_records (now, Store r)) with [r] in *. apply (proj1 (Forall_singleton wf_rep r)) in Hop.
    assert (Er : records_size (recs ++ [r]) = records_size recs + records_size [r]) by (unfold records_size; by rewrite bind_app, zlen_app).
    destruct (store_spec tmp_names clockskew L nm HLint HL (Some now) fs t recs r HO HR Hop) as (o & t' & fs' & recs' & -> & HO' & HR' & D);
      [rewrite contents_size; lia|]. cbn [refuses_replays].
    destruct D as [(Hin & -> & Ha & ->)|(Hout & -> & D)].
    + right. split; [done|]. split; [by apply HK|]. eapply IH; [exact HO'|done| |done|exact HS|lia]. rewrite Ha. split; try apply HK.
      intros x Hx. destruct (knows_live _ _ _ _ HK x Hx) as [He|]; [|by right]. left. by apply (expired_later L clock now).
    + left. split; [done|]. split.
      { intros Hh. destruct (knows_live _ _ _ _ HK r Hh) as [He|[Hi _]]; [|done]. by apply (expired_later L clock now). }
      assert (HK' : knows clock (r :: hist) (r :: dd_a t) (recs ++ [r])).
      { split; intros x; rewrite ?elem_of_cons, ?elem_of_app, ?list_elem_of_singleton.
        - intros [-> | Hx]; [tauto|]. destruct (knows_live _ _ _ _ HK x Hx) as [|[? ?]]; tauto.
        - intros [-> | Hx]; [by left|]. right. by apply (knows_a _ _ _ _ HK).
        - intros [Hx | ->]; [|by left]. right. by apply (knows_recs _ _ _ _ HK). }
      destruct D as [[Ha ->]|[Ha ->]].
      * eapply IH; [exact HO'|done| |done|exact HS|lia]. rewrite Ha. split; try apply HK'.
        intros x Hx. destruct (knows_live _ _ _ _ HK' x Hx) as [He|]; [|by right]. left. by apply (expired_later L clock now).
      * eapply IH; [exact HO'|done| |done|exact HS|]; rewrite Ha.
        -- eapply knows_load; [done|exact HK'|by right].
        -- pose proof (load_size (Some now) L [] (recs ++ [r])) as Hl. change (records_size []) with 0 in Hl. lia.
  - destruct (expunge_spec tmp_names clockskew L nm HLint HL (Some now) fs t recs HO HR HSm) as (t' & fs' & -> & HO' & HR' & Ha).
    cbn [refuses_replays]. split; [done|]. eapply IH; [exact HO'|done| |done|exact HS|]; rewrite Ha; [|lia].
    eapply knows_load; [done|exact HK|by right].
  - unfold reopen. destruct HO as (Hn & _ & _ & _ & ino & HD & _). rewrite Hn.
    destruct (recover_spec tmp_names clockskew L nm HLint HL (Some now) fs ino recs HD HSm) as (t' & fs' & recs' & -> & HO' & HR' & Ha & D).
    cbn [refuses_replays]. split; [done|]. rewrite Ha in D. eapply IH; [exact HO'|done| |done|exact HS|].
    + rewrite Ha. by eapply knows_load.
    + destruct D as [-> | ->]; lia.
Qed.
End refinement.

(** A cache that has just been initialized and has no name in its way. *)
Definition fresh_cache (tmp_names : list file_name) (nm : file_name) (fs : file_system) : Prop :=
  fs_dir fs !! nm = None /\ exists c, c ∈ tmp_names /\ c <> nm /\ fs_dir fs !! c = None.

Lemma init_open tmp_names clockskew nm fs lifespan :
  let L := if negb (lifespan =? 0) then lifespan else clockskew in
  is_int 32 L -> fresh_cache tmp_names nm fs ->
  (if negb (L =? 0) then L else clockskew) = L /\
  exists t fs', krb5_rc_dfl_init tmp_names clockskew fs (krb5_rc_dfl_resolve (Some nm)) lifespan = (Ok tt, t, fs') /\
    is_open tmp_names L nm fs' t [] /\ dd_recovering t = false /\ dd_a t = [].
Proof.
  intros L HLi (Hnew & c & Hc & Hne & Hfree).
  assert (HL : (if negb (L =? 0) then L else clockskew) = L) by (unfold L; destruct (Z.eqb_spec lifespan 0); cbn [negb]; [by destruct (_ =? _)|by rewrite (proj2 (Z.eqb_neq _ _))]).
  split; [done|].
  assert (EI : krb5_rc_dfl_init tmp_names clockskew fs (krb5_rc_dfl_resolve (Some nm)) lifespan =
               krb5_rc_dfl_init tmp_names clockskew fs (krb5_rc_dfl_resolve (Some nm)) L) by (unfold krb5_rc_dfl_init; by rewrite HL).
  rewrite EI.
  destruct (init_spec tmp_names clockskew L HL fs (krb5_rc_dfl_resolve (Some nm)) (Some nm) nm) as (t & fs' & -> & Et & Fn & D & C & O); [done..|].
  do 2 eexists. split; [reflexivity|]. split; [|by rewrite Et].
  rewrite Et. split_and!; cbn [dd_name dd_d dd_lifespan set_d]; [done|done|done|apply (resolve_consistent (Some nm))|].
  exists (length (fs_files fs)). unfold on_disk, contents. cbn [mbind list_bind]. rewrite app_nil_r. split; [|done].
  split_and!; [by rewrite D, lookup_insert_eq|by destruct C as [_ ->]; rewrite app_nil_r|constructor|].
  exists c. split; [done|]. by rewrite D, lookup_insert_ne.
Qed.

Lemma knows_nothing L clock : knows L clock [] [] [].
Proof. split; intros ? []%elem_of_nil. Qed.

(** C5: The replay cache, its hash table, file, expunging and recovery, implement a set
    of records: for any sequence of stores, expunges and restarts at increasing times, a
    store succeeds unless the record was stored before, and a record that was stored
    before is refused as long as it is alive. *)
Theorem rc_refuses_replays tmp_names clockskew nm fs lifespan ops :
  let L := if negb (lifespan =? 0) then lifespan else clockskew in
  is_int 32 L -> fresh_cache tmp_names nm fs ->
  Forall (fun op => Forall wf_rep (op_records op)) ops -> StronglySorted Z.le (fst <$> ops) ->
  6 + records_size (ops ≫= op_records) < 2 ^ 31 ->
  exists t fs', krb5_rc_dfl_init tmp_names clockskew fs (krb5_rc_dfl_resolve (Some nm)) lifespan = (Ok tt, t, fs') /\
    refuses_replays L [] ops (rc_run tmp_names clockskew ops t fs').
Proof.
  intros L HLi HF HW HS HB. destruct (init_open tmp_names clockskew nm fs lifespan HLi HF) as (HL & t & fs' & E & HO & HR & Ha).
  exists t, fs'. split; [done|]. destruct ops as [|[now op] ops]; [done|].
  eapply (run_refuses tmp_names clockskew L nm HLi HL _ now [] t fs' []); [done|done|rewrite Ha; apply knows_nothing|done| |done].
  rewrite fmap_cons in HS |- *. cbn [fst] in *. constructor; [done|]. constructor; [lia|]. by apply StronglySorted_inv in HS as [_ ?].
Qed.

(** ** A record that was cut short *)

Lemma read_short fs d ino pre rest num : cursor fs d ino pre rest -> 0 < zlen rest < num ->
  (krb5_rc_io_read fs d num).1 = Undefined.
Proof.
  intros [Hfd Hf] HL. unfold krb5_rc_io_read. rewrite Hfd, Hf. cbn [from_option id]. rewrite zlen_nat, drop_app_length.
  rewrite take_ge by (unfold zlen in HL; lia). destruct (Z.eqb_spec (zlen rest) 0); [lia|]. by destruct (Z.ltb_spec (zlen rest) num); [|lia].
Qed.

(** The first name of a record is cut short. *)
Lemma fetch_torn fs d ino pre r n maxlen : cursor fs d ino pre (take n (rep_octets r)) ->
  (4 < n < 5 + length (dr_client r))%nat -> zlen (dr_client r) + 1 < maxlen < 2 ^ 31 ->
  (krb5_rc_io_fetch fs d maxlen).1 = Undefined.
Proof.
  intros HC Hn HM. pose proof (zlen_nonneg (dr_client r)). unfold rep_octets in HC.
  rewrite take_app_ge, take_app_le in HC by (change (length (le32 (zlen (dr_client r) + 1))) with 4%nat; rewrite ?length_app; cbn [length]; lia).
  change (length (le32 (zlen (dr_client r) + 1))) with 4%nat in HC. unfold krb5_rc_io_fetch.
  destruct (read_cursor _ _ _ _ _ _ 4 HC eq_refl eq_refl) as (d1 & -> & C1 & _). rewrite read_int_le32 by (red; lia).
  destruct (Z.leb_spec (zlen (dr_client r) + 1) 0); [lia|]. destruct (Z.leb_spec maxlen (zlen (dr_client r) + 1)); [lia|]. cbn [orb].
  pose proof (read_short _ _ _ _ _ (zlen (dr_client r) + 1) C1) as HU.
  destruct (krb5_rc_io_read fs d1 (zlen (dr_client r) + 1)) as [o d2]. cbn [fst] in HU. rewrite HU; [done|].
  unfold zlen. rewrite length_take, length_app. cbn [length]. lia.
Qed.

(** A replay cache whose file ends within the name of a client, as after an interrupted
    write, cannot be recovered: the short read is not noticed, and the name is read
    beyond what the file gave. *)
Theorem rc_torn_record tmp_names clockskew now nm fs ino L recs r n :
  is_int 32 L -> Forall wf_rep recs -> fs_dir fs !! nm = Some ino ->
  fs_files fs !! ino = Some (contents L recs ++ take n (rep_octets r)) ->
  (4 < n < 5 + length (dr_client r))%nat ->
  zlen (dr_client r) + 1 < zlen (contents L recs ++ take n (rep_octets r)) < 2 ^ 31 ->
  (krb5_rc_dfl_recover tmp_names clockskew now fs (krb5_rc_dfl_resolve (Some nm))).1.1 = Undefined.
Proof.
  intros HL HW Hdir Hfile Hn HM. unfold contents in Hfile. rewrite <- app_assoc in Hfile.
  unfold krb5_rc_dfl_recover. cbn [dd_name krb5_rc_dfl_resolve].
  destruct (open_spec L nm fs ino _ Hdir Hfile) as (d & -> & Fd & C0). cbn [dd_d set_d set_recovering].
  set (len := zlen (contents L recs ++ _)) in HM.
  assert (ES : krb5_rc_io_size fs d = len).
  { unfold krb5_rc_io_size. destruct C0 as [-> ->]. cbn [from_option id]. unfold len, contents, header. by rewrite !app_assoc. }
  destruct (read_cursor _ _ _ _ _ _ 4 C0 eq_refl eq_refl) as (d1 & -> & C1 & F1 & _). rewrite read_int_le32, ES by done.
  pose proof (zlen_nonneg (dr_client r)). rewrite to_int_id by (unfold is_int; lia).
  assert (Hc : zlen (contents L recs) <= len) by (unfold len; rewrite zlen_app; pose proof (zlen_nonneg (take n (rep_octets r))); lia).
  assert (HR : Forall (fun r => zlen (rep_octets r) <= len) recs)
    by (eapply Forall_impl; [|apply (record_small L)]; intros x Hx; cbv beta in Hx; clearbody len; etransitivity; [exact Hx|exact Hc]).
  assert (Hf : exists k, S (Z.to_nat len) = (length recs + S k)%nat).
  { exists (Z.to_nat len - length recs)%nat. pose proof (records_count recs). unfold contents in Hc. rewrite zlen_app, header_length in Hc. lia. }
  destruct Hf as [k ->].
  match goal with |- context [recover_loop _ _ _ ?t _ _] => set (t0 := t) end.
  destruct (recover_loop_records now fs ino (take n (rep_octets r)) recs (S k) t0 _ len 0 HW HR (proj2 HM) (resolve_consistent (Some nm)) C1)
    as (t1 & n1 & -> & _ & _ & C2 & _).
  cbn [recover_loop]. destruct (mark_cursor _ _ _ _ _ C2) as (C3 & _).
  pose proof (fetch_torn _ _ _ _ _ _ len C3 Hn HM) as HU. cbn [dd_d set_d].
  destruct (krb5_rc_io_fetch _ _ len) as [o d2]. cbn [fst] in HU. by rewrite HU.
Qed.
