(* ===== verification/Crc32.v ===== *)
(** * CRC-32 (src/src/lib/crypto/crc32/crc32.c, hash_provider/hash_crc32.c)

    The table-driven loop of the library computes what the shift register of the
    polynomial computes bit by bit, and detects every change confined to four octets. *)

From S2P Require Import Prelude Words.

(** ** The code *)

Definition crc_table : list Z := [
  0x00000000; 0x77073096; 0xee0e612c; 0x990951ba; 0x076dc419; 0x706af48f; 0xe963a535; 0x9e6495a3;
  0x0edb8832; 0x79dcb8a4; 0xe0d5e91e; 0x97d2d988; 0x09b64c2b; 0x7eb17cbd; 0xe7b82d07; 0x90bf1d91;
  0x1db71064; 0x6ab020f2; 0xf3b97148; 0x84be41de; 0x1adad47d; 0x6ddde4eb; 0xf4d4b551; 0x83d385c7;
  0x136c9856; 0x646ba8c0; 0xfd62f97a; 0x8a65c9ec; 0x14015c4f; 0x63066cd9; 0xfa0f3d63; 0x8d080df5;
  0x3b6e20c8; 0x4c69105e; 0xd56041e4; 0xa2677172; 0x3c03e4d1; 0x4b04d447; 0xd20d85fd; 0xa50ab56b;
  0x35b5a8fa; 0x42b2986c; 0xdbbbc9d6; 0xacbcf940; 0x32d86ce3; 0x45df5c75; 0xdcd60dcf; 0xabd13d59;
  0x26d930ac; 0x51de003a; 0xc8d75180; 0xbfd06116; 0x21b4f4b5; 0x56b3c423; 0xcfba9599; 0xb8bda50f;
  0x2802b89e; 0x5f058808; 0xc60cd9b2; 0xb10be924; 0x2f6f7c87; 0x58684c11; 0xc1611dab; 0xb6662d3d;
  0x76dc4190; 0x01db7106; 0x98d220bc; 0xefd5102a; 0x71b18589; 0x06b6b51f; 0x9fbfe4a5; 0xe8b8d433;
  0x7807c9a2; 0x0f00f934; 0x9609a88e; 0xe10e9818; 0x7f6a0dbb; 0x086d3d2d; 0x91646c97; 0xe6635c01;
  0x6b6b51f4; 0x1c6c6162; 0x856530d8; 0xf262004e; 0x6c0695ed; 0x1b01a57b; 0x8208f4c1; 0xf50fc457;
  0x65b0d9c6; 0x12b7e950; 0x8bbeb8ea; 0xfcb9887c; 0x62dd1ddf; 0x15da2d49; 0x8cd37cf3; 0xfbd44c65;
  0x4db26158; 0x3ab551ce; 0xa3bc0074; 0xd4bb30e2; 0x4adfa541; 0x3dd895d7; 0xa4d1c46d; 0xd3d6f4fb;
  0x4369e96a; 0x346ed9fc; 0xad678846; 0xda60b8d0; 0x44042d73; 0x33031de5; 0xaa0a4c5f; 0xdd0d7cc9;
  0x5005713c; 0x270241aa; 0xbe0b1010; 0xc90c2086; 0x5768b525; 0x206f85b3; 0xb966d409; 0xce61e49f;
  0x5edef90e; 0x29d9c998; 0xb0d09822; 0xc7d7a8b4; 0x59b33d17; 0x2eb40d81; 0xb7bd5c3b; 0xc0ba6cad;
  0xedb88320; 0x9abfb3b6; 0x03b6e20c; 0x74b1d29a; 0xead54739; 0x9dd277af; 0x04db2615; 0x73dc1683;
  0xe3630b12; 0x94643b84; 0x0d6d6a3e; 0x7a6a5aa8; 0xe40ecf0b; 0x9309ff9d; 0x0a00ae27; 0x7d079eb1;
  0xf00f9344; 0x8708a3d2; 0x1e01f268; 0x6906c2fe; 0xf762575d; 0x806567cb; 0x196c3671; 0x6e6b06e7;
  0xfed41b76; 0x89d32be0; 0x10da7a5a; 0x67dd4acc; 0xf9b9df6f; 0x8ebeeff9; 0x17b7be43; 0x60b08ed5;
  0xd6d6a3e8; 0xa1d1937e; 0x38d8c2c4; 0x4fdff252; 0xd1bb67f1; 0xa6bc5767; 0x3fb506dd; 0x48b2364b;
  0xd80d2bda; 0xaf0a1b4c; 0x36034af6; 0x41047a60; 0xdf60efc3; 0xa867df55; 0x316e8eef; 0x4669be79;
  0xcb61b38c; 0xbc66831a; 0x256fd2a0; 0x5268e236; 0xcc0c7795; 0xbb0b4703; 0x220216b9; 0x5505262f;
  0xc5ba3bbe; 0xb2bd0b28; 0x2bb45a92; 0x5cb36a04; 0xc2d7ffa7; 0xb5d0cf31; 0x2cd99e8b; 0x5bdeae1d;
  0x9b64c2b0; 0xec63f226; 0x756aa39c; 0x026d930a; 0x9c0906a9; 0xeb0e363f; 0x72076785; 0x05005713;
  0x95bf4a82; 0xe2b87a14; 0x7bb12bae; 0x0cb61b38; 0x92d28e9b; 0xe5d5be0d; 0x7cdcefb7; 0x0bdbdf21;
  0x86d3d2d4; 0xf1d4e242; 0x68ddb3f8; 0x1fda836e; 0x81be16cd; 0xf6b9265b; 0x6fb077e1; 0x18b74777;
  0x88085ae6; 0xff0f6a70; 0x66063bca; 0x11010b5c; 0x8f659eff; 0xf862ae69; 0x616bffd3; 0x166ccf45;
  0xa00ae278; 0xd70dd2ee; 0x4e048354; 0x3903b3c2; 0xa7672661; 0xd06016f7; 0x4969474d; 0x3e6e77db;
  0xaed16a4a; 0xd9d65adc; 0x40df0b66; 0x37d83bf0; 0xa9bcae53; 0xdebb9ec5; 0x47b2cf7f; 0x30b5ffe9;
  0xbdbdf21c; 0xcabac28a; 0x53b39330; 0x24b4a3a6; 0xbad03605; 0xcdd70693; 0x54de5729; 0x23d967bf;
  0xb3667a2e; 0xc4614ab8; 0x5d681b02; 0x2a6f2b94; 0xb40bbe37; 0xc30c8ea1; 0x5a05df1b; 0x2d02ef8d].

(** One iteration of the loop of [mit_crc32]. *)
Definition crc_step (c : Z) (data_i : octet) : Z :=
  let idx := Z.land (Z.lxor data_i c) 0xff in
  Z.lxor (Z.shiftr c 8) (table_at crc_table idx).

Definition mit_crc32 (data : list octet) : Z := foldl crc_step 0 data.

Definition CRC32_CKSUM_LENGTH : Z := 4.

(** The CRCs of the inputs are combined by exclusive or. *)
Definition k5_crc32_hash (input : list (list octet)) (output_length : Z) : outcome error_code (list octet) :=
  if negb (output_length =? CRC32_CKSUM_LENGTH) then Err KRB5_CRYPTO_INTERNAL
  else Ok (le32 (foldl (fun c d => Z.lxor c (mit_crc32 d)) 0 input)).

(** ** The specification: a shift register with feedback *)

(** The polynomial without X^32, the term X^0 in the most significant bit. *)
Definition crc_polynomial : Z := 0xedb88320.

(** One bit [b] of the message enters. *)
Definition register_step (c : Z) (b : bool) : Z :=
  Z.lxor (Z.shiftr c 1) (if xorb (Z.testbit c 0) b then crc_polynomial else 0).

(** The bits of an octet, least significant first. *)
Definition octet_bits (o : octet) : list bool := Z.testbit o <$> seqZ 0 8.

Definition crc_register (data : list octet) : Z :=
  foldl register_step 0 (data ≫= octet_bits).

(** ** Proofs *)

(** The register with no input. *)
Definition shift (x : Z) : Z := Z.lxor (Z.shiftr x 1) (if Z.testbit x 0 then crc_polynomial else 0).

Lemma linear_shift : linear shift.
Proof.
  intros x y. unfold shift. rewrite Z.lxor_spec, Z.shiftr_lxor.
  destruct (Z.testbit x 0), (Z.testbit y 0); cbn [xorb]; bitwise.
Qed.

Lemma linear_iter n f : linear f -> linear (Nat.iter n f).
Proof.
  intros Hf. induction n as [|n IH]; [apply linear_id|]. intros x y.
  rewrite !Nat.iter_succ. by rewrite IH, Hf.
Qed.

(** The number with the given bits, least significant first. *)
Fixpoint bits_value (bs : list bool) : Z :=
  match bs with [] => 0 | b :: bs => Z.b2z b + 2 * bits_value bs end.

Lemma b2z_double b v : Z.b2z b + 2 * v = Z.lxor (Z.b2z b) (2 * v).
Proof. destruct b, v as [|[]|[]]; reflexivity. Qed.

Lemma shift_double v : shift (2 * v) = v.
Proof.
  unfold shift. rewrite Z.testbit_even_0, Z.lxor_0_r, Z.shiftr_div_pow2 by lia.
  rewrite Z.mul_comm. by apply Z.div_mul.
Qed.

Lemma shift_bit c b : shift (Z.lxor c (Z.b2z b)) = register_step c b.
Proof.
  unfold shift, register_step. rewrite Z.lxor_spec, Z.b2z_bit0, Z.shiftr_lxor.
  replace (Z.shiftr (Z.b2z b) 1) with 0 by (by destruct b). by rewrite Z.lxor_0_r.
Qed.

(** The bits that enter can be added to the register beforehand. *)
Lemma register_shift bs : forall c,
  foldl register_step c bs = Nat.iter (length bs) shift (Z.lxor c (bits_value bs)).
Proof.
  induction bs as [|b bs IH]; intros c; cbn [foldl length bits_value].
  - by rewrite Z.lxor_0_r.
  - rewrite IH, Nat.iter_succ_r. f_equal.
    by rewrite b2z_double, <- Z.lxor_assoc, linear_shift, shift_double, shift_bit.
Qed.

Lemma octet_bits_value o : is_octet o -> bits_value (octet_bits o) = o.
Proof.
  intros Ho. apply Z.eqb_eq. revert o Ho. apply octet_case. vm_compute. reflexivity.
Qed.

(** Eight shifts at once: the table holds their effect on an octet. *)
Definition shift8 (x : Z) : Z := Z.lxor (Z.shiftr x 8) (table_at crc_table (Z.land x 0xff)).

Lemma iter_shift_multiple n : forall v, Nat.iter n shift (2 ^ Z.of_nat n * v) = v.
Proof.
  induction n as [|n IH]; intros v; [cbn [Nat.iter nat_rect]; lia|].
  rewrite Nat.iter_succ_r. rewrite Nat2Z.inj_succ, Z.pow_succ_r, <- Z.mul_assoc, shift_double by lia.
  apply IH.
Qed.

Lemma table_shift o : is_octet o -> table_at crc_table o = Nat.iter 8 shift o.
Proof. intros Ho. apply Z.eqb_eq. revert o Ho. apply octet_case. vm_compute. reflexivity. Qed.

Lemma split_octet x : x = Z.lxor (2 ^ 8 * Z.shiftr x 8) (Z.land x 0xff).
Proof.
  rewrite land_255, shiftr_8. change (2 ^ 8) with 256. rewrite <- Z.add_nocarry_lxor; [divlia|].
  rewrite Z.mul_comm, <- shiftl_8, <- land_255. bitwise. rewrite Z.shiftl_spec by done.
  destruct (Z.ltb_spec i 8); [by rewrite Z.testbit_neg_r by lia|].
  by rewrite (uint_bits_above 8 255) by (done || lia); rewrite !andb_false_r.
Qed.

Lemma shift8_iter x : Nat.iter 8 shift x = shift8 x.
Proof.
  rewrite (split_octet x) at 1. rewrite (linear_iter 8 shift linear_shift).
  change 8 with (Z.of_nat 8) at 2. rewrite iter_shift_multiple. unfold shift8. f_equal.
  symmetry. apply table_shift. by apply land_range.
Qed.

Lemma crc_step_shift8 c o : is_octet o -> crc_step c o = shift8 (Z.lxor c o).
Proof.
  intros Ho. unfold crc_step, shift8. rewrite (Z.lxor_comm o c), Z.shiftr_lxor.
  replace (Z.shiftr o 8) with 0; [by rewrite Z.lxor_0_r|].
  rewrite shiftr_8, Z.div_small; [done|exact Ho].
Qed.

(** The table-driven loop computes what the shift register of the polynomial computes
    bit by bit. *)
Theorem crc32_shift_register data : octets data -> mit_crc32 data = crc_register data.
Proof.
  unfold mit_crc32, crc_register. generalize 0. induction data as [|o data IH]; intros c H; [done|].
  apply Forall_cons_1 in H as [Ho H]. cbn [foldl]. rewrite IH by done. rewrite bind_cons, foldl_app. f_equal.
  rewrite register_shift, octet_bits_value by done.
  change (length (octet_bits o)) with 8%nat. by rewrite shift8_iter, crc_step_shift8.
Qed.

(** *** Detection of errors *)

Lemma shift_range x : is_uint 32 x -> is_uint 32 (shift x).
Proof.
  intros Hx. apply lxor_range; [done|by apply shiftr_range|]. by destruct (Z.testbit x 0).
Qed.

Lemma shift_zero x : is_uint 32 x -> shift x = 0 -> x = 0.
Proof.
  unfold shift, is_uint. intros Hx E. apply Z.lxor_eq in E. rewrite Z.shiftr_div_pow2 in E by done.
  change (2 ^ 1) with 2 in E. rewrite Z.bit0_odd in E. unfold crc_polynomial in E.
  pose proof (Zmod_odd x). destruct (Z.odd x); divlia.
Qed.

Lemma shift_inj x y : is_uint 32 x -> is_uint 32 y -> shift x = shift y -> x = y.
Proof.
  intros Hx Hy E. apply Z.lxor_eq, shift_zero; [by apply lxor_range|].
  by rewrite linear_shift, E, Z.lxor_nilpotent.
Qed.

Lemma iter_shift_inj n : forall x y,
  is_uint 32 x -> is_uint 32 y -> Nat.iter n shift x = Nat.iter n shift y -> x = y.
Proof.
  induction n as [|n IH]; intros x y Hx Hy E; [done|]. rewrite !Nat.iter_succ_r in E.
  by apply shift_inj, IH; [..|apply shift_range|apply shift_range|].
Qed.

Lemma bits_value_range bs : is_uint (Z.of_nat (length bs)) (bits_value bs).
Proof.
  unfold is_uint. induction bs as [|b bs IH]; [done|]. cbn [length bits_value].
  rewrite Nat2Z.inj_succ, Z.pow_succ_r by lia. destruct b; cbn [Z.b2z]; lia.
Qed.

Lemma bits_value_inj a : forall b, length a = length b -> bits_value a = bits_value b -> a = b.
Proof.
  induction a as [|x a IH]; intros [|y b] L E; try done. injection L as L. cbn [bits_value] in E.
  assert (x = y) as -> by (destruct x, y; cbn [Z.b2z] in E; lia || done).
  f_equal. apply IH; [done|]. lia.
Qed.

Lemma register_range bs : forall c, is_uint 32 c -> is_uint 32 (foldl register_step c bs).
Proof.
  induction bs as [|b bs IH]; intros c Hc; [done|]. cbn [foldl]. apply IH.
  apply lxor_range; [done|by apply shiftr_range|]. by destruct (xorb _ _).
Qed.

(** Two runs of the register over the same bits keep different states apart. *)
Lemma register_inj bs c d :
  is_uint 32 c -> is_uint 32 d -> foldl register_step c bs = foldl register_step d bs -> c = d.
Proof.
  revert c d. induction bs as [|b bs IH]; intros c d Hc Hd E; [done|]. cbn [foldl] in E.
  apply IH in E; [|exact (register_range [b] c Hc)|exact (register_range [b] d Hd)].
  rewrite <- !shift_bit in E. apply shift_inj in E;
    [|apply lxor_range; [done..|by destruct b]|apply lxor_range; [done..|by destruct b]].
  apply (f_equal (fun z => Z.lxor z (Z.b2z b))) in E.
  by rewrite !Z.lxor_assoc, Z.lxor_nilpotent, !Z.lxor_0_r in E.
Qed.

(** The CRC of two messages of equal length that differ, and only within 32 consecutive
    bits, is different. *)
Theorem crc32_detects_burst data data' p a b q :
  octets data -> octets data' ->
  data ≫= octet_bits = p ++ a ++ q -> data' ≫= octet_bits = p ++ b ++ q ->
  length a = length b -> (length a <= 32)%nat -> a <> b ->
  mit_crc32 data <> mit_crc32 data'.
Proof.
  intros H H' E E' L L32 N. rewrite !crc32_shift_register by done. unfold crc_register.
  rewrite E, E', !foldl_app. pose proof (register_range p 0 ltac:(done)) as Hc.
  set (c := foldl register_step 0 p) in *. intros F. apply N, (bits_value_inj a b L).
  apply register_inj in F; [|by apply register_range..]. rewrite !register_shift, L in F.
  apply iter_shift_inj in F.
  - apply (f_equal (Z.lxor c)) in F. by rewrite <- !Z.lxor_assoc, Z.lxor_nilpotent, !Z.lxor_0_l in F.
  - apply lxor_range; [done..|]. eapply is_uint_mono, bits_value_range. lia.
  - apply lxor_range; [done..|]. eapply is_uint_mono, bits_value_range. lia.
Qed.
