(* ===== verification/Nfold.v ===== *)
(** * n-fold (src/src/lib/crypto/nfold.c)

    The fold of a key to another length.  The comment of the source defines it on strings
    of bits: the input is repeated, each time rotated right by 13 more bits, the result is
    cut into pieces of the output's length, and the pieces are added in one's complement.
    The code works on octets, with one carry that runs through all the additions. *)

From S2P Require Import Prelude Words.

(** ** The code *)

(** The loop that leaves the greatest common divisor in a. *)
Fixpoint gcd_loop (fuel : nat) (a b : Z) : Z :=
  match fuel with
  | O => a
  | S fuel => if b =? 0 then a else gcd_loop fuel b (a mod b)
  end.

(** The most significant bit of the input that goes into octet [i], and that octet.  The
    sum is an int, which wraps around where C leaves the result undefined; then the
    remainder may be negative. *)
Definition nfold_msbit (inbits i : Z) : Z :=
  Z.rem (int32 ((Z.shiftl inbits 3 - 1) + (Z.shiftl inbits 3 + 13) * (i / inbits)
                + Z.shiftl (inbits - i mod inbits) 3)) (Z.shiftl inbits 3).

Definition nfold_octet (inp : list octet) (inbits i : Z) : Z :=
  let msbit := nfold_msbit inbits i in
  Z.land (Z.shiftr (Z.lor (Z.shiftl (table_at inp ((inbits - 1 - Z.shiftr msbit 3) mod inbits)) 8)
                          (table_at inp ((inbits - Z.shiftr msbit 3) mod inbits)))
                   (Z.land msbit 7 + 1)) 0xff.

(** The main loop for i = n - 1, ..., 0. *)
Fixpoint nfold_loop (inp : list octet) (inbits outbits : Z) (n : nat) (out : list octet) (byte : Z)
    : list octet * Z :=
  match n with
  | O => (out, byte)
  | S n =>
      let i := Z.of_nat n in
      let byte := byte + nfold_octet inp inbits i in
      let byte := byte + table_at out (i mod outbits) in
      nfold_loop inp inbits outbits n (<[Z.to_nat (i mod outbits) := Z.land byte 0xff]> out) (Z.shiftr byte 8)
  end.

(** The last loop, for i = n - 1, ..., 0. *)
Fixpoint nfold_carry (n : nat) (out : list octet) (byte : Z) : list octet :=
  match n with
  | O => out
  | S n =>
      let byte := byte + table_at out (Z.of_nat n) in
      nfold_carry n (<[n := Z.land byte 0xff]> out) (Z.shiftr byte 8)
  end.

(** [inbits] and [outbits] are numbers of octets, as after the first two statements.  The
    product is an int; with a negative lcm the main loop does nothing. *)
Definition krb5_nfold_octets (inbits : Z) (inp : list octet) (outbits : Z) : list octet :=
  let a := gcd_loop (S (Z.to_nat inbits)) outbits inbits in
  let lcm := Z.quot (int32 (outbits * inbits)) a in
  let '(out, byte) := nfold_loop inp inbits outbits (Z.to_nat lcm) (replicate (Z.to_nat outbits) 0) 0 in
  if byte =? 0 then out else nfold_carry (Z.to_nat outbits) out byte.

Definition krb5_nfold (inbits : Z) (inp : list octet) (outbits : Z) : list octet :=
  krb5_nfold_octets (Z.shiftr inbits 3) inp (Z.shiftr outbits 3).

(** ** The specification *)

Definition msb_bits (o : octet) : list bool := (fun j => Z.testbit o (7 - j)) <$> seqZ 0 8.

(** The number with the given bits, most significant first. *)
Definition msb_value (bs : list bool) : Z := foldl (fun a b => 2 * a + Z.b2z b) 0 bs.

(** The last n bits are moved to the front. *)
Definition rotate_right (n : nat) (bs : list bool) : list bool :=
  let k := (length bs - n mod length bs)%nat in drop k bs ++ take k bs.

(** k-bits | k-bits rot 13 | ... | k-bits rot 13*(r-1) *)
Definition rotations (r : nat) (bs : list bool) : list bool :=
  mjoin ((fun j => rotate_right (13 * j) bs) <$> seq 0 r).

(** s[n*i .. n*(i+1)-1] *)
Definition piece (n : nat) (s : list bool) (i : nat) : list bool := take n (drop (n * i) s).

(** One's complement addition of numbers of n bits: the carry is added at the other end. *)
Definition ones_add (n x y : Z) : Z := if x + y <? 2 ^ n then x + y else x + y - 2 ^ n + 1.

(** No int overflows when k octets are folded to n: the largest is the sum in
    [nfold_msbit] for the last repetition, of which there are at most n. *)
Definition nfold_fits (k n : Z) : Prop := (8 * k + 13) * n + 8 * k < 2 ^ 31.

Definition nfold_spec (n : nat) (inp : list octet) : Z :=
  let bs := inp ≫= msb_bits in
  let l := Nat.lcm n (length bs) in
  let s := rotations (l / length bs) bs in
  foldr (ones_add (Z.of_nat n)) 0 ((fun i => msb_value (piece n s i)) <$> seq 0 (l / n)).

(** The fold of RFC 3961, A.1: 64-fold("012345") = be072631276b1955. *)
Example nfold_012345 :
  krb5_nfold 48 [0x30; 0x31; 0x32; 0x33; 0x34; 0x35] 64
  = [0xbe; 0x07; 0x26; 0x31; 0x27; 0x6b; 0x19; 0x55] /\
  nfold_spec 64 [0x30; 0x31; 0x32; 0x33; 0x34; 0x35] = 0xbe072631276b1955.
Proof. vm_compute. done. Qed.
