(* ===== verification/NfoldProofs.v ===== *)
(** * The octet loop of n-fold implements the definition on bits (Nfold.v) *)

From S2P Require Import Prelude Words Nfold.

(** ** Euclid's algorithm *)

Lemma gcd_loop_spec (fuel : nat) : forall a b : nat,
  (b < fuel)%nat -> gcd_loop fuel (Z.of_nat a) (Z.of_nat b) = Z.of_nat (Nat.gcd b a).
Proof.
  induction fuel as [|fuel IH]; intros a b Hb; [lia|]. cbn [gcd_loop].
  destruct b as [|b]; [done|]. destruct (Z.eqb_spec (Z.of_nat (S b)) 0); [lia|].
  rewrite <- Nat2Z.inj_mod. pose proof (Nat.mod_upper_bound a (S b)). rewrite IH by lia. done.
Qed.

Lemma gcd_positive (n k : nat) : (0 < n)%nat -> (0 < Nat.gcd n k)%nat.
Proof. intros H. destruct (Nat.eq_0_gt_0_cases (Nat.gcd n k)) as [E|]; [|done]. apply Nat.gcd_eq_0_l in E. lia. Qed.

Lemma lcm_octets (n k : nat) : (0 < n)%nat -> Z.of_nat n * Z.of_nat k < 2 ^ 31 ->
  Z.to_nat (Z.quot (int32 (Z.of_nat n * Z.of_nat k)) (gcd_loop (S (Z.to_nat (Z.of_nat k))) (Z.of_nat n) (Z.of_nat k)))
  = Nat.lcm n k.
Proof.
  intros Hn H. pose proof (gcd_positive n k Hn). rewrite Nat2Z.id, gcd_loop_spec, to_int_id by (unfold is_int; lia). unfold Nat.lcm.
  rewrite (Nat.gcd_comm k), Z.quot_div_nonneg by lia. rewrite <- Nat2Z.inj_mul, <- Nat2Z.inj_div, Nat2Z.id.
  apply Nat.Lcm0.divide_div_mul_exact, Nat.gcd_divide_r.
Qed.

(** ** The string of rotated inputs *)

Lemma mod_minus1 a b : b <= a < 2 * b -> a mod b = a - b.
Proof. intros H. symmetry. apply (Z.mod_unique_pos _ _ 1); lia. Qed.

Lemma msb_bits_length o : length (msb_bits o) = 8%nat.
Proof. reflexivity. Qed.

Lemma msb_bits_lookup o (c : nat) : (c < 8)%nat -> msb_bits o !! c = Some (Z.testbit o (7 - Z.of_nat c)).
Proof. intros Hc. unfold msb_bits. by rewrite list_lookup_fmap, lookup_seqZ_lt by lia. Qed.

Lemma bits_length inp : length (inp ≫= msb_bits) = (length inp * 8)%nat.
Proof. induction inp as [|o inp IH]; [done|]. rewrite bind_cons, length_app, IH, msb_bits_length. cbn. lia. Qed.

Lemma bits_lookup inp : forall (a c : nat) o, (c < 8)%nat -> inp !! a = Some o ->
  (inp ≫= msb_bits) !! (a * 8 + c)%nat = Some (Z.testbit o (7 - Z.of_nat c)).
Proof.
  induction inp as [|o' inp IH]; intros a c o Hc Ho; [done|]. rewrite bind_cons. destruct a as [|a].
  - injection Ho as ->. rewrite lookup_app_l by (rewrite msb_bits_length; lia). by apply msb_bits_lookup.
  - rewrite lookup_app_r by (rewrite msb_bits_length; lia). rewrite msb_bits_length.
    replace (S a * 8 + c - 8)%nat with (a * 8 + c)%nat by lia. by apply IH.
Qed.

Lemma rotate_right_length n bs : length (rotate_right n bs) = length bs.
Proof. unfold rotate_right. rewrite length_app, length_drop, length_take. lia. Qed.

Lemma rotate_right_lookup n bs (u : nat) : (u < length bs)%nat ->
  rotate_right n bs !! u = bs !! ((u + (length bs - n mod length bs)) mod length bs)%nat.
Proof.
  intros Hu. unfold rotate_right. set (L := length bs) in *. pose proof (Nat.mod_upper_bound n L ltac:(lia)).
  destruct (Nat.lt_ge_cases u (n mod L)).
  - rewrite lookup_app_l by (rewrite length_drop; lia). rewrite lookup_drop. f_equal.
    rewrite (Nat.mod_small (u + _)); lia.
  - rewrite lookup_app_r by (rewrite length_drop; lia). rewrite length_drop, lookup_take_lt by lia. f_equal.
    replace (u + (L - n mod L))%nat with (u - n mod L + 1 * L)%nat by lia.
    rewrite Nat.Div0.mod_add, (Nat.mod_small (u - _)); lia.
Qed.

Lemma rotations_same r bs :
  Forall (fun l => length l = length bs) ((fun j => rotate_right (13 * j) bs) <$> seq 0 r).
Proof. apply Forall_fmap, Forall_true. intros j. apply rotate_right_length. Qed.

Lemma join_length {A} n (ls : list (list A)) :
  Forall (fun l => length l = n) ls -> length (mjoin ls) = (length ls * n)%nat.
Proof. induction 1 as [|l ls Hl _ IH]; [done|]. change (mjoin (l :: ls)) with (l ++ mjoin ls). rewrite length_app, IH. cbn. lia. Qed.

Lemma rotations_length r bs : length (rotations r bs) = (r * length bs)%nat.
Proof.
  unfold rotations. rewrite (join_length (length bs)) by apply rotations_same.
  by rewrite length_fmap, length_seq.
Qed.

Lemma rotations_lookup r bs (j u : nat) : (j < r)%nat -> (u < length bs)%nat ->
  rotations r bs !! (j * length bs + u)%nat = rotate_right (13 * j) bs !! u.
Proof.
  intros Hj Hu. destruct (lookup_lt_is_Some_2 (rotate_right (13 * j) bs) u) as [x Hx];
    [by rewrite rotate_right_length|].
  rewrite Hx. apply (join_lookup_Some_same_length' (length bs)); [apply rotations_same|done|].
  eexists. split; [|exact Hx]. by rewrite list_lookup_fmap, lookup_seq_lt by done.
Qed.

(** Octet [i] of the string is the one the code computes. *)
Section octet.
Context (inp : list octet) (Hinp : octets inp) (r i : nat).
Let k := length inp.
Let bs := inp ≫= msb_bits.
Context (Hk : (0 < k)%nat) (Hi : (i < r * k)%nat).
Context (Hfits : nfold_fits (Z.of_nat k) (Z.of_nat r)).

Lemma msbit_spec :
  nfold_msbit (Z.of_nat k) (Z.of_nat i) =
  8 * Z.of_nat k - 1 - (8 * (Z.of_nat i mod Z.of_nat k) - 13 * (Z.of_nat i / Z.of_nat k)) mod (8 * Z.of_nat k).
Proof.
  assert (Hq : 0 <= Z.of_nat i / Z.of_nat k <= Z.of_nat r - 1) by (split; [apply Z.div_pos; lia|]; apply Z.lt_le_pred, Z.div_lt_upper_bound; lia).
  pose proof (Z.mod_pos_bound (Z.of_nat i) (Z.of_nat k) ltac:(lia)) as Hm. unfold nfold_fits in Hfits.
  unfold nfold_msbit. rewrite !Z.shiftl_mul_pow2 by lia. change (2 ^ 3) with 8.
  rewrite to_int_id, Z.rem_mod_nonneg by (unfold is_int; nia).
  set (y := 8 * (Z.of_nat i mod Z.of_nat k) - 13 * (Z.of_nat i / Z.of_nat k)).
  set (K := 8 * Z.of_nat k). pose proof (Z.mod_pos_bound y K ltac:(lia)).
  symmetry. apply (Z.mod_unique_pos _ _ (Z.of_nat i / Z.of_nat k + 1 - y / K)); [lia|].
  pose proof (Z.div_mod y K ltac:(lia)). unfold y, K in *. lia.
Qed.

(** The position in the input of bit [c] of octet [i], from the most significant on. *)
Let y := (8 * (Z.of_nat i mod Z.of_nat k) - 13 * (Z.of_nat i / Z.of_nat k)) mod (8 * Z.of_nat k).

Lemma rotations_bit (c : nat) : (c < 8)%nat ->
  exists o, inp !! Z.to_nat ((y + Z.of_nat c) mod (8 * Z.of_nat k) / 8) = Some o /\
  rotations r bs !! (i * 8 + c)%nat =
    Some (Z.testbit o (7 - ((y + Z.of_nat c) mod (8 * Z.of_nat k)) mod 8)).
Proof.
  intros Hc. assert (L : length bs = (k * 8)%nat) by apply bits_length.
  pose proof (Nat.mod_upper_bound i k ltac:(lia)) as Hp. pose proof (Nat.div_mod i k ltac:(lia)) as Dm.
  replace (i * 8 + c)%nat with (i / k * length bs + (i mod k * 8 + c))%nat by lia.
  rewrite rotations_lookup; [|apply Nat.Div0.div_lt_upper_bound; lia|lia].
  rewrite rotate_right_lookup, L by lia.
  set (b := ((y + Z.of_nat c) mod (8 * Z.of_nat k))).
  assert (Hb : 0 <= b < 8 * Z.of_nat k) by (apply Z.mod_pos_bound; lia).
  assert (Eb : ((i mod k * 8 + c + (k * 8 - (13 * (i / k)) mod (k * 8))) mod (k * 8))%nat = Z.to_nat b).
  { pose proof (Nat.mod_upper_bound (13 * (i / k)) (k * 8) ltac:(lia)) as Hr.
    apply Nat2Z.inj. rewrite Nat2Z.inj_mod, Z2Nat.id by lia. unfold b, y.
    rewrite Zplus_mod_idemp_l, <- (Nat2Z.inj_mod i k), <- Nat2Z.inj_div.
    pose proof (Nat.div_mod (13 * (i / k)) (k * 8) ltac:(lia)) as Dr.
    set (t := (13 * (i / k) / (k * 8))%nat) in *. set (w := ((13 * (i / k)) mod (k * 8))%nat) in *.
    replace (Z.of_nat (k * 8)) with (8 * Z.of_nat k) by lia.
    rewrite <- (Z_mod_plus_full (8 * _ - 13 * _ + _) (1 + Z.of_nat t)). f_equal. lia. }
  rewrite Eb. destruct (lookup_lt_is_Some_2 inp (Z.to_nat (b / 8))) as [o Ho]; [unfold k in *; divlia|].
  exists o. split; [done|].
  replace (Z.to_nat b) with (Z.to_nat (b / 8) * 8 + Z.to_nat (b mod 8))%nat by divlia.
  rewrite (bits_lookup inp _ _ o) by (done || divlia). do 2 f_equal. divlia.
Qed.

Lemma table_at_lookup (t : list Z) j o : t !! Z.to_nat j = Some o -> table_at t j = o.
Proof. intros H. unfold table_at. rewrite nth_lookup. by rewrite H. Qed.

Lemma table_at_octet (t : list Z) j : octets t -> is_octet (table_at t j).
Proof.
  intros H. unfold table_at. rewrite nth_lookup. destruct (t !! Z.to_nat j) eqn:E; [|done].
  by apply (Forall_lookup_1 _ _ _ _ H E).
Qed.

Lemma octet_above o j : is_octet o -> 8 <= j -> Z.testbit o j = false.
Proof. apply uint_bits_above. Qed.

Lemma nfold_octet_bit (c : nat) o : (c < 8)%nat ->
  inp !! Z.to_nat ((y + Z.of_nat c) mod (8 * Z.of_nat k) / 8) = Some o ->
  Z.testbit (nfold_octet inp (Z.of_nat k) (Z.of_nat i)) (7 - Z.of_nat c) =
  Z.testbit o (7 - ((y + Z.of_nat c) mod (8 * Z.of_nat k)) mod 8).
Proof.
  intros Hc Ho. unfold nfold_octet. rewrite msbit_spec. fold y.
  assert (Hy : 0 <= y < 8 * Z.of_nat k) by (apply Z.mod_pos_bound; lia).
  set (hi := table_at inp _). set (lo := table_at inp _).
  set (msbit := 8 * Z.of_nat k - 1 - y) in *.
  change 255 with (Z.ones 8). rewrite Z.land_spec, Z.ones_spec_low, andb_true_r by lia.
  change 7 with (Z.ones 3) at 1. rewrite Z.land_ones by lia. change (2 ^ 3) with 8.
  rewrite Z.shiftr_spec, Z.lor_spec, Z.shiftl_spec by (pose proof (Z.mod_pos_bound msbit 8); lia).
  assert (Eq : msbit mod 8 = 7 - y mod 8) by (unfold msbit; divlia).
  assert (Em : Z.shiftr msbit 3 = Z.of_nat k - 1 - y / 8)
    by (rewrite Z.shiftr_div_pow2 by lia; unfold msbit; change (2 ^ 3) with 8; divlia).
  rewrite Eq. destruct (Z.lt_ge_cases (y mod 8 + Z.of_nat c) 8) as [H|H].
  - assert (Eb : (y + Z.of_nat c) mod (8 * Z.of_nat k) = y + Z.of_nat c) by (apply Z.mod_small; divlia).
    rewrite Eb in *. assert (hi = o) as ->.
    { apply table_at_lookup. rewrite Em.
      replace (Z.of_nat k - 1 - (Z.of_nat k - 1 - y / 8)) with (y / 8) by lia.
      rewrite Z.mod_small by divlia. replace (y / 8) with ((y + Z.of_nat c) / 8) by divlia. done. }
    rewrite (octet_above lo); [|by apply table_at_octet|divlia]. rewrite orb_false_r. f_equal. divlia.
  - rewrite (Z.testbit_neg_r hi) by divlia. cbn [orb]. assert (Elo : lo = o).
    { apply table_at_lookup. rewrite Em, <- Ho. do 2 f_equal.
      destruct (Z.lt_ge_cases (y + Z.of_nat c) (8 * Z.of_nat k)) as [B|B].
      - rewrite (Z.mod_small (y + _)) by lia. rewrite Z.mod_small by divlia. divlia.
      - rewrite (mod_minus1 (y + _)) by lia. assert (y / 8 = Z.of_nat k - 1) as -> by divlia.
        rewrite (mod_minus1 (Z.of_nat k - _)) by lia. divlia. }
    rewrite Elo. f_equal. destruct (Z.lt_ge_cases (y + Z.of_nat c) (8 * Z.of_nat k)) as [B|B].
    + rewrite (Z.mod_small (y + _)) by lia. divlia.
    + rewrite (mod_minus1 (y + _)) by lia. divlia.
Qed.

Lemma nfold_octet_octet : is_octet (nfold_octet inp (Z.of_nat k) (Z.of_nat i)).
Proof. apply land_range; done. Qed.

Lemma nfold_octet_spec :
  take 8 (drop (i * 8) (rotations r bs)) = msb_bits (nfold_octet inp (Z.of_nat k) (Z.of_nat i)).
Proof.
  apply (list_eq_same_length _ _ 8); [done| |].
  - rewrite length_take, length_drop, rotations_length. unfold bs. rewrite bits_length. fold k. lia.
  - intros c b1 b2 Hc H1 H2. rewrite lookup_take_lt, lookup_drop in H1 by done.
    destruct (rotations_bit c Hc) as (o & Ho & E). rewrite E in H1. injection H1 as <-.
    rewrite msb_bits_lookup in H2 by done. injection H2 as <-. symmetry. by apply nfold_octet_bit.
Qed.
End octet.

(** ** The pieces as octet strings *)

Lemma msb_value_foldl bs a :
  foldl (fun a b => 2 * a + Z.b2z b) a bs = a * 2 ^ Z.of_nat (length bs) + msb_value bs.
Proof.
  unfold msb_value. revert a. induction bs as [|b bs IH]; intros a; cbn [foldl length].
  - change (2 ^ Z.of_nat 0) with 1. lia.
  - rewrite IH, (IH (2 * 0 + Z.b2z b)), Nat2Z.inj_succ, Z.pow_succ_r by lia. lia.
Qed.

Lemma msb_value_app l r : msb_value (l ++ r) = msb_value l * 2 ^ Z.of_nat (length r) + msb_value r.
Proof. unfold msb_value at 1. rewrite foldl_app. apply msb_value_foldl. Qed.

Lemma msb_bits_value o : is_octet o -> msb_value (msb_bits o) = o.
Proof. intros Ho. apply Z.eqb_eq. revert o Ho. apply octet_case. vm_compute. reflexivity. Qed.

Lemma msb_value_octets l : octets l -> msb_value (l ≫= msb_bits) = octets_value l.
Proof.
  induction l as [|o l IH]; intros H; [done|]. apply Forall_cons_1 in H as [Ho H].
  rewrite bind_cons, msb_value_app, octets_value_cons, msb_bits_value, IH, bits_length by done.
  rewrite Nat2Z.inj_mul, Z.mul_comm, (Z.mul_comm (Z.of_nat _)), Z.pow_mul_r by lia.
  change (2 ^ Z.of_nat 8) with 256. unfold zlen. lia.
Qed.

Lemma pieces_octets inp r (n : nat) : nfold_fits (Z.of_nat (length inp)) (Z.of_nat r) -> forall a, octets inp -> (0 < length inp)%nat ->
  (a + n <= r * length inp)%nat ->
  take (n * 8) (drop (a * 8) (rotations r (inp ≫= msb_bits))) =
  ((fun i => nfold_octet inp (Z.of_nat (length inp)) (Z.of_nat i)) <$> seq a n) ≫= msb_bits.
Proof.
  intros HF. induction n as [|n IH]; intros a H Hk Ha; [done|]. cbn [seq]. rewrite fmap_cons, bind_cons.
  change (S n * 8)%nat with (8 + n * 8)%nat. rewrite <- take_take_drop, drop_drop. f_equal.
  - by apply nfold_octet_spec; [..|lia|].
  - replace (a * 8 + 8)%nat with (S a * 8)%nat by lia. apply IH; [done..|lia].
Qed.

(** ** Addition with carry *)

(** The sum of two numbers of the same length, most significant octet first. *)
Fixpoint addc (xs ys : list octet) (c : Z) : list octet * Z :=
  match xs, ys with
  | x :: xs, y :: ys =>
      let '(zs, c) := addc xs ys c in
      (Z.land (c + x + y) 0xff :: zs, Z.shiftr (c + x + y) 8)
  | _, _ => ([], c)
  end.

Lemma addc_snoc xs : forall ys x y c, length xs = length ys ->
  addc (xs ++ [x]) (ys ++ [y]) c =
  let '(zs, c') := addc xs ys (Z.shiftr (c + x + y) 8) in (zs ++ [Z.land (c + x + y) 0xff], c').
Proof.
  induction xs as [|x' xs IH]; intros [|y' ys] x y c L; try done. injection L as L.
  cbn [app addc]. rewrite IH by done. by destruct (addc xs ys _).
Qed.

Lemma addc_spec xs : forall ys c, octets xs -> octets ys -> length xs = length ys -> 0 <= c <= 1 ->
  let '(zs, c') := addc xs ys c in
  octets zs /\ length zs = length xs /\ 0 <= c' <= 1 /\
  octets_value zs + c' * 256 ^ zlen xs = octets_value xs + octets_value ys + c.
Proof.
  induction xs as [|x xs IH]; intros [|y ys] c Hx Hy L Hc; try done; cbn [addc].
  - split_and!; [constructor|done|lia..|]. change (256 ^ zlen []) with 1. cbn. lia.
  - injection L as L. apply Forall_cons_1 in Hx as [Bx Hx], Hy as [By Hy].
    specialize (IH ys c Hx Hy L Hc). destruct (addc xs ys c) as [zs c'].
    destruct IH as (Hz & Lz & Hc' & E). unfold is_uint in Bx, By. change (2 ^ 8) with 256 in *.
    rewrite land_255, shiftr_8. split_and!.
    + constructor; [|done]. unfold is_uint. change (2 ^ 8) with 256. divlia.
    + cbn. lia.
    + divlia.
    + divlia.
    + assert (Ez : zlen zs = zlen xs) by (unfold zlen; lia).
      assert (Ey : zlen ys = zlen xs) by (unfold zlen; lia).
      rewrite !octets_value_cons, zlen_cons, Ez, Ey, Z.pow_add_r by (pose proof (zlen_nonneg xs); lia).
      pose proof (Z.div_mod (c' + x + y) 256). nia.
Qed.

(** The loops add octet by octet from the end. *)
Lemma table_at_middle ws zs w : table_at (ws ++ w :: zs) (Z.of_nat (length ws)) = w.
Proof. unfold table_at. by rewrite Nat2Z.id, nth_middle. Qed.

Lemma insert_middle (ws : list octet) w x zs : <[length ws := x]> (ws ++ w :: zs) = ws ++ x :: zs.
Proof. induction ws as [|v ws IH]; [done|]. cbn. f_equal. exact IH. Qed.

Lemma nfold_loop_piece inp k (n m t : nat) : forall ws zs c,
  (t <= n)%nat -> length ws = t ->
  nfold_loop inp k (Z.of_nat n) (m * n + t) (ws ++ zs) c =
  let '(ws', c') := addc ((fun i => nfold_octet inp k (Z.of_nat i)) <$> seq (m * n) t) ws c in
  nfold_loop inp k (Z.of_nat n) (m * n) (ws' ++ zs) c'.
Proof.
  induction t as [|t IH]; intros ws zs c Ht L.
  - destruct ws; [|done]. by rewrite Nat.add_0_r.
  - destruct ws as [|w ws _] using rev_ind; [done|]. rewrite length_app in L. cbn in L.
    assert (length ws = t) by lia. rewrite Nat.add_succ_r. cbn [nfold_loop].
    assert (Em : Z.of_nat (m * n + t) mod Z.of_nat n = Z.of_nat (length ws)).
    { rewrite <- Nat2Z.inj_mod, Nat.add_comm, Nat.Div0.mod_add, Nat.mod_small; [by f_equal|lia]. }
    rewrite Em, Nat2Z.id, <- app_assoc. cbn [app]. rewrite table_at_middle, insert_middle, (IH ws) by lia.
    rewrite seq_S, fmap_app, fmap_cons, fmap_nil, addc_snoc by (rewrite length_fmap, length_seq; lia).
    destruct (addc _ ws _) as [zs' c']. by rewrite <- app_assoc.
Qed.

Lemma nfold_carry_addc (t : nat) : forall ws zs c, length ws = t ->
  nfold_carry t (ws ++ zs) c = (addc (replicate t 0) ws c).1 ++ zs.
Proof.
  induction t as [|t IH]; intros ws zs c L.
  - by destruct ws.
  - destruct ws as [|w ws _] using rev_ind; [done|]. rewrite length_app in L. cbn in L.
    assert (t = length ws) as -> by lia. cbn [nfold_carry]. rewrite <- app_assoc. cbn [app].
    rewrite table_at_middle, insert_middle, (IH ws) by lia.
    rewrite replicate_S_end, addc_snoc by (rewrite length_replicate; lia).
    rewrite Z.add_0_r. destruct (addc _ ws _) as [zs' c']. cbn [fst]. by rewrite <- app_assoc.
Qed.

(** ** The whole *)

Lemma ones_add_carry N x y z c c' :
  0 <= x < 2 ^ N -> 0 <= y < 2 ^ N -> 0 <= c <= 1 -> 0 <= c' <= 1 -> 0 <= z < 2 ^ N ->
  (c = 1 -> y <= 2 ^ N - 2) -> z + c' * 2 ^ N = x + y + c ->
  ones_add N x (y + c) = z + c' /\ (c' = 1 -> z <= 2 ^ N - 2).
Proof.
  intros Hx Hy Hc Hc' Hz Hy2 E. unfold ones_add. destruct (Z.ltb_spec (x + (y + c)) (2 ^ N)).
  - assert (c' = 0) by nia. lia.
  - assert (c' = 1) by nia. subst c'. split; [lia|]. intros _. destruct (Z.eq_dec c 1); lia.
Qed.

(** Numbers of [n] octets are numbers of 8[n] bits. *)
Lemma pow_octets (n : nat) : 256 ^ Z.of_nat n = 2 ^ Z.of_nat (n * 8).
Proof. rewrite Nat2Z.inj_mul, Z.mul_comm, Z.pow_mul_r by lia. done. Qed.

Section whole.
Context (inp : list octet) (k : Z) (n : nat).
Let F (i : nat) : octet := nfold_octet inp k (Z.of_nat i).

(** The number that the octets and the carry stand for, and what they satisfy. *)
Definition partial_sum (out : list octet) (c v : Z) : Prop :=
  octets out /\ length out = n /\ 0 <= c <= 1 /\ octets_value out + c = v /\
  (c = 1 -> octets_value out <= 2 ^ Z.of_nat (n * 8) - 2).

Lemma nfold_loop_sum (q : nat) : forall out c v, partial_sum out c v ->
  exists out' c', nfold_loop inp k (Z.of_nat n) (q * n) out c = (out', c') /\
    partial_sum out' c'
      (foldr (ones_add (Z.of_nat (n * 8))) v ((fun m => octets_value (F <$> seq (m * n) n)) <$> seq 0 q)).
Proof.
  induction q as [|q IH]; intros out c v (Ho & L & Hc & Ev & H1); [exists out, c; done|].
  replace (S q * n)%nat with (q * n + n)%nat by lia.
  pose proof (nfold_loop_piece inp k n q n out [] c ltac:(lia) L) as E. rewrite app_nil_r in E. rewrite E.
  fold F. assert (HF : octets (F <$> seq (q * n) n)).
  { apply Forall_fmap, Forall_true. intros i. by apply land_range. }
  pose proof (addc_spec (F <$> seq (q * n) n) out c HF Ho ltac:(by rewrite length_fmap, length_seq) Hc) as S.
  destruct (addc _ out c) as [zs c']. destruct S as (Hz & Lz & Hc' & Es).
  rewrite app_nil_r. rewrite seq_S, fmap_app, foldr_app. apply IH.
  rewrite length_fmap, length_seq in Lz. unfold zlen in Es. rewrite length_fmap, length_seq, pow_octets in Es.
  pose proof (octets_value_range _ HF) as RF. pose proof (octets_value_range _ Ho) as RO.
  pose proof (octets_value_range _ Hz) as RZ. unfold zlen in RF, RO, RZ.
  rewrite pow_octets in RF, RO, RZ. rewrite length_fmap, length_seq in RF. rewrite L in RO. rewrite Lz in RZ.
  destruct (ones_add_carry (Z.of_nat (n * 8)) (octets_value (F <$> seq (q * n) n)) (octets_value out)
              (octets_value zs) c c') as [S1 S2]; [lia..|].
  do 3 (split; [done|]). split; [|done]. rewrite <- Ev. symmetry. exact S1.
Qed.
End whole.

Lemma nfold_loop_shape inp k m n : forall out c, octets out ->
  octets (nfold_loop inp k m n out c).1 /\ length (nfold_loop inp k m n out c).1 = length out.
Proof.
  induction n as [|n IH]; intros out c Ho; cbn [nfold_loop]; [done|]. cbv zeta. set (b := Z.land _ 255).
  destruct (IH (<[Z.to_nat (Z.of_nat n mod m) := b]> out) (Z.shiftr (c + nfold_octet inp k (Z.of_nat n) + table_at out (Z.of_nat n mod m)) 8)) as [IO IL];
    [apply Forall_insert; [done|by apply land_range]|]. by rewrite length_insert in IL.
Qed.

Lemma nfold_carry_shape n : forall out c, octets out -> octets (nfold_carry n out c) /\ length (nfold_carry n out c) = length out.
Proof.
  induction n as [|n IH]; intros out c Ho; cbn [nfold_carry]; [done|]. cbv zeta. set (b := Z.land _ 255).
  destruct (IH (<[n := b]> out) (Z.shiftr (c + table_at out (Z.of_nat n)) 8)) as [IO IL];
    [apply Forall_insert; [done|by apply land_range]|]. by rewrite length_insert in IL.
Qed.

(** Whatever is folded, the output has its length and consists of octets. *)
Lemma nfold_shape inbits inp outbits : let out := krb5_nfold inbits inp outbits in
  octets out /\ length out = Z.to_nat (Z.shiftr outbits 3).
Proof.
  unfold krb5_nfold, krb5_nfold_octets. set (m := Z.shiftr outbits 3). set (n := Z.to_nat (Z.quot _ _)).
  pose proof (nfold_loop_shape inp (Z.shiftr inbits 3) m n (replicate (Z.to_nat m) 0) 0 ltac:(by apply Forall_replicate)) as [Ho L].
  destruct (nfold_loop _ _ _ _ _ _) as [out c]. cbn [fst] in *. rewrite length_replicate in L. rewrite <- L.
  destruct (c =? 0); [done|by apply nfold_carry_shape].
Qed.

Lemma nfold_ok inp (n : nat) :
  octets inp -> inp <> [] -> (0 < n)%nat -> nfold_fits (zlen inp) (Z.of_nat n) ->
  let out := krb5_nfold (8 * zlen inp) inp (8 * Z.of_nat n) in
  length out = n /\ octets out /\ octets_value out = nfold_spec (n * 8) inp.
Proof.
  intros H Hne Hn HF. assert (Hk : (0 < length inp)%nat) by (destruct inp; [done|cbn; lia]).
  unfold krb5_nfold, krb5_nfold_octets. rewrite !Z.shiftr_div_pow2 by lia. change (2 ^ 3) with 8.
  rewrite !(Z.mul_comm 8), !Z.div_mul by lia. unfold zlen, nfold_fits in *. rewrite lcm_octets, Nat2Z.id by nia.
  set (k := length inp) in *. set (l := Nat.lcm n k).
  destruct (Nat.divide_lcm_l n k) as [q Eq]. destruct (Nat.divide_lcm_r n k) as [r Er]. fold l in Eq, Er.
  assert (HR : nfold_fits (Z.of_nat k) (Z.of_nat r)).
  { pose proof (gcd_positive n k Hn). pose proof (Nat.Div0.div_le_upper_bound k (Nat.gcd n k) k ltac:(nia)).
    assert (r <= n)%nat by (unfold l, Nat.lcm in Er; nia). unfold nfold_fits. nia. }
  assert (Z0 : partial_sum n (replicate n 0) 0 0).
  { split_and!; [by apply Forall_replicate|by rewrite length_replicate|lia..| |lia].
    clear. induction n as [|n IH]; [done|]. cbn [replicate]. rewrite octets_value_cons. lia. }
  destruct (nfold_loop_sum inp (Z.of_nat k) n q _ _ _ Z0) as (out & c & E & Ho & L & Hc & Ev & H1).
  rewrite Eq, E. assert (Es : nfold_spec (n * 8) inp = octets_value out + c).
  { rewrite Ev. unfold nfold_spec. rewrite bits_length. fold k.
    rewrite Nat.lcm_mul_mono_r. fold l.
    replace (l * 8 / (k * 8))%nat with r by (rewrite Er, <- Nat.mul_assoc, Nat.div_mul; lia).
    replace (l * 8 / (n * 8))%nat with q by (rewrite Eq, <- Nat.mul_assoc, Nat.div_mul; lia). f_equal.
    apply list_fmap_ext. intros i m Hm. apply lookup_seq in Hm as [-> Hm]. cbn [Nat.add].
    unfold piece. rewrite (Nat.mul_comm (n * 8)), Nat.mul_assoc.
    rewrite pieces_octets by (done || nia). rewrite msb_value_octets; [done|].
    apply Forall_fmap, Forall_true. intros j. by apply land_range. }
  rewrite Es. destruct (Z.eqb_spec c 0) as [->|Hc0]; [split_and!; [done..|lia]|].
  assert (c = 1) as -> by lia. specialize (H1 eq_refl).
  pose proof (nfold_carry_addc n out [] 1 L) as A. rewrite !app_nil_r in A. rewrite A.
  pose proof (addc_spec (replicate n 0) out 1 ltac:(by apply Forall_replicate) Ho
                ltac:(by rewrite length_replicate) ltac:(lia)) as S.
  destruct (addc _ out 1) as [zs c']. destruct S as (Hz & Lz & Hc' & Ez). cbn [fst].
  rewrite length_replicate in Lz. split_and!; [done..|].
  assert (V0 : octets_value (replicate n 0) = 0) by (destruct Z0 as (_ & _ & _ & V & _); lia).
  unfold zlen in Ez. rewrite V0, length_replicate, pow_octets in Ez.
  pose proof (octets_value_range _ Hz) as RZ. unfold zlen in RZ. rewrite Lz, pow_octets in RZ.
  assert (c' = 0 \/ c' = 1) as [-> | ->] by lia; lia.
Qed.

(** C30: The octet loop with one running carry computes the n-fold of the comment: the
    input repeated with rotations by 13 bits, cut into pieces of the length of the
    output, which are added in one's complement. This is for a non-empty input and sizes
    for which no int overflows: (8k + 13) n + 8k < 2^31 for k octets folded to n. *)
Theorem nfold_correct inp (n : nat) :
  octets inp -> inp <> [] -> (0 < n)%nat -> nfold_fits (zlen inp) (Z.of_nat n) ->
  let out := krb5_nfold (8 * zlen inp) inp (8 * Z.of_nat n) in
  length out = n /\ octets out /\ octets_value out = nfold_spec (n * 8) inp.
Proof. apply nfold_ok. Qed.
