(* ===== verification/DesTables.v ===== *)
(** * The tables of the DES code (src/src/lib/crypto/des/f_tables.c, f_sched.c, weak_key.c) *)

From S2P Require Import Prelude.

Definition des_IP_table : list Z := [
  0x00000000; 0x00000010; 0x00000001; 0x00000011; 0x00001000; 0x00001010; 0x00001001; 0x00001011;
  0x00000100; 0x00000110; 0x00000101; 0x00000111; 0x00001100; 0x00001110; 0x00001101; 0x00001111;
  0x00100000; 0x00100010; 0x00100001; 0x00100011; 0x00101000; 0x00101010; 0x00101001; 0x00101011;
  0x00100100; 0x00100110; 0x00100101; 0x00100111; 0x00101100; 0x00101110; 0x00101101; 0x00101111;
  0x00010000; 0x00010010; 0x00010001; 0x00010011; 0x00011000; 0x00011010; 0x00011001; 0x00011011;
  0x00010100; 0x00010110; 0x00010101; 0x00010111; 0x00011100; 0x00011110; 0x00011101; 0x00011111;
  0x00110000; 0x00110010; 0x00110001; 0x00110011; 0x00111000; 0x00111010; 0x00111001; 0x00111011;
  0x00110100; 0x00110110; 0x00110101; 0x00110111; 0x00111100; 0x00111110; 0x00111101; 0x00111111;
  0x10000000; 0x10000010; 0x10000001; 0x10000011; 0x10001000; 0x10001010; 0x10001001; 0x10001011;
  0x10000100; 0x10000110; 0x10000101; 0x10000111; 0x10001100; 0x10001110; 0x10001101; 0x10001111;
  0x10100000; 0x10100010; 0x10100001; 0x10100011; 0x10101000; 0x10101010; 0x10101001; 0x10101011;
  0x10100100; 0x10100110; 0x10100101; 0x10100111; 0x10101100; 0x10101110; 0x10101101; 0x10101111;
  0x10010000; 0x10010010; 0x10010001; 0x10010011; 0x10011000; 0x10011010; 0x10011001; 0x10011011;
  0x10010100; 0x10010110; 0x10010101; 0x10010111; 0x10011100; 0x10011110; 0x10011101; 0x10011111;
  0x10110000; 0x10110010; 0x10110001; 0x10110011; 0x10111000; 0x10111010; 0x10111001; 0x10111011;
  0x10110100; 0x10110110; 0x10110101; 0x10110111; 0x10111100; 0x10111110; 0x10111101; 0x10111111;
  0x01000000; 0x01000010; 0x01000001; 0x01000011; 0x01001000; 0x01001010; 0x01001001; 0x01001011;
  0x01000100; 0x01000110; 0x01000101; 0x01000111; 0x01001100; 0x01001110; 0x01001101; 0x01001111;
  0x01100000; 0x01100010; 0x01100001; 0x01100011; 0x01101000; 0x01101010; 0x01101001; 0x01101011;
  0x01100100; 0x01100110; 0x01100101; 0x01100111; 0x01101100; 0x01101110; 0x01101101; 0x01101111;
  0x01010000; 0x01010010; 0x01010001; 0x01010011; 0x01011000; 0x01011010; 0x01011001; 0x01011011;
  0x01010100; 0x01010110; 0x01010101; 0x01010111; 0x01011100; 0x01011110; 0x01011101; 0x01011111;
  0x01110000; 0x01110010; 0x01110001; 0x01110011; 0x01111000; 0x01111010; 0x01111001; 0x01111011;
  0x01110100; 0x01110110; 0x01110101; 0x01110111; 0x01111100; 0x01111110; 0x01111101; 0x01111111;
  0x11000000; 0x11000010; 0x11000001; 0x11000011; 0x11001000; 0x11001010; 0x11001001; 0x11001011;
  0x11000100; 0x11000110; 0x11000101; 0x11000111; 0x11001100; 0x11001110; 0x11001101; 0x11001111;
  0x11100000; 0x11100010; 0x11100001; 0x11100011; 0x11101000; 0x11101010; 0x11101001; 0x11101011;
  0x11100100; 0x11100110; 0x11100101; 0x11100111; 0x11101100; 0x11101110; 0x11101101; 0x11101111;
  0x11010000; 0x11010010; 0x11010001; 0x11010011; 0x11011000; 0x11011010; 0x11011001; 0x11011011;
  0x11010100; 0x11010110; 0x11010101; 0x11010111; 0x11011100; 0x11011110; 0x11011101; 0x11011111;
  0x11110000; 0x11110010; 0x11110001; 0x11110011; 0x11111000; 0x11111010; 0x11111001; 0x11111011;
  0x11110100; 0x11110110; 0x11110101; 0x11110111; 0x11111100; 0x11111110; 0x11111101; 0x11111111].

Definition des_FP_table : list Z := [
  0x00000000; 0x02000000; 0x00020000; 0x02020000; 0x00000200; 0x02000200; 0x00020200; 0x02020200;
  0x00000002; 0x02000002; 0x00020002; 0x02020002; 0x00000202; 0x02000202; 0x00020202; 0x02020202;
  0x01000000; 0x03000000; 0x01020000; 0x03020000; 0x01000200; 0x03000200; 0x01020200; 0x03020200;
  0x01000002; 0x03000002; 0x01020002; 0x03020002; 0x01000202; 0x03000202; 0x01020202; 0x03020202;
  0x00010000; 0x02010000; 0x00030000; 0x02030000; 0x00010200; 0x02010200; 0x00030200; 0x02030200;
  0x00010002; 0x02010002; 0x00030002; 0x02030002; 0x00010202; 0x02010202; 0x00030202; 0x02030202;
  0x01010000; 0x03010000; 0x01030000; 0x03030000; 0x01010200; 0x03010200; 0x01030200; 0x03030200;
  0x01010002; 0x03010002; 0x01030002; 0x03030002; 0x01010202; 0x03010202; 0x01030202; 0x03030202;
  0x00000100; 0x02000100; 0x00020100; 0x02020100; 0x00000300; 0x02000300; 0x00020300; 0x02020300;
  0x00000102; 0x02000102; 0x00020102; 0x02020102; 0x00000302; 0x02000302; 0x00020302; 0x02020302;
  0x01000100; 0x03000100; 0x01020100; 0x03020100; 0x01000300; 0x03000300; 0x01020300; 0x03020300;
  0x01000102; 0x03000102; 0x01020102; 0x03020102; 0x01000302; 0x03000302; 0x01020302; 0x03020302;
  0x00010100; 0x02010100; 0x00030100; 0x02030100; 0x00010300; 0x02010300; 0x00030300; 0x02030300;
  0x00010102; 0x02010102; 0x00030102; 0x02030102; 0x00010302; 0x02010302; 0x00030302; 0x02030302;
  0x01010100; 0x03010100; 0x01030100; 0x03030100; 0x01010300; 0x03010300; 0x01030300; 0x03030300;
  0x01010102; 0x03010102; 0x01030102; 0x03030102; 0x01010302; 0x03010302; 0x01030302; 0x03030302;
  0x00000001; 0x02000001; 0x00020001; 0x02020001; 0x00000201; 0x02000201; 0x00020201; 0x02020201;
  0x00000003; 0x02000003; 0x00020003; 0x02020003; 0x00000203; 0x02000203; 0x00020203; 0x02020203;
  0x01000001; 0x03000001; 0x01020001; 0x03020001; 0x01000201; 0x03000201; 0x01020201; 0x03020201;
  0x01000003; 0x03000003; 0x01020003; 0x03020003; 0x01000203; 0x03000203; 0x01020203; 0x03020203;
  0x00010001; 0x02010001; 0x00030001; 0x02030001; 0x00010201; 0x02010201; 0x00030201; 0x02030201;
  0x00010003; 0x02010003; 0x00030003; 0x02030003; 0x00010203; 0x02010203; 0x00030203; 0x02030203;
  0x01010001; 0x03010001; 0x01030001; 0x03030001; 0x01010201; 0x03010201; 0x01030201; 0x03030201;
  0x01010003; 0x03010003; 0x01030003; 0x03030003; 0x01010203; 0x03010203; 0x01030203; 0x03030203;
  0x00000101; 0x02000101; 0x00020101; 0x02020101; 0x00000301; 0x02000301; 0x00020301; 0x02020301;
  0x00000103; 0x02000103; 0x00020103; 0x02020103; 0x00000303; 0x02000303; 0x00020303; 0x02020303;
  0x01000101; 0x03000101; 0x01020101; 0x03020101; 0x01000301; 0x03000301; 0x01020301; 0x03020301;
  0x01000103; 0x03000103; 0x01020103; 0x03020103; 0x01000303; 0x03000303; 0x01020303; 0x03020303;
  0x00010101; 0x02010101; 0x00030101; 0x02030101; 0x00010301; 0x02010301; 0x00030301; 0x02030301;
  0x00010103; 0x02010103; 0x00030103; 0x02030103; 0x00010303; 0x02010303; 0x00030303; 0x02030303;
  0x01010101; 0x03010101; 0x01030101; 0x03030101; 0x01010301; 0x03010301; 0x01030301; 0x03030301;
  0x01010103; 0x03010103; 0x01030103; 0x03030103; 0x01010303; 0x03010303; 0x01030303; 0x03030303].

Definition des_SP_table : list (list Z) := [
 [0x00100000; 0x02100001; 0x02000401; 0x00000000; 0x00000400; 0x02000401; 0x00100401; 0x02100400;
  0x02100401; 0x00100000; 0x00000000; 0x02000001; 0x00000001; 0x02000000; 0x02100001; 0x00000401;
  0x02000400; 0x00100401; 0x00100001; 0x02000400; 0x02000001; 0x02100000; 0x02100400; 0x00100001;
  0x02100000; 0x00000400; 0x00000401; 0x02100401; 0x00100400; 0x00000001; 0x02000000; 0x00100400;
  0x02000000; 0x00100400; 0x00100000; 0x02000401; 0x02000401; 0x02100001; 0x02100001; 0x00000001;
  0x00100001; 0x02000000; 0x02000400; 0x00100000; 0x02100400; 0x00000401; 0x00100401; 0x02100400;
  0x00000401; 0x02000001; 0x02100401; 0x02100000; 0x00100400; 0x00000000; 0x00000001; 0x02100401;
  0x00000000; 0x00100401; 0x02100000; 0x00000400; 0x02000001; 0x02000400; 0x00000400; 0x00100001];
 [0x00808200; 0x00000000; 0x00008000; 0x00808202; 0x00808002; 0x00008202; 0x00000002; 0x00008000;
  0x00000200; 0x00808200; 0x00808202; 0x00000200; 0x00800202; 0x00808002; 0x00800000; 0x00000002;
  0x00000202; 0x00800200; 0x00800200; 0x00008200; 0x00008200; 0x00808000; 0x00808000; 0x00800202;
  0x00008002; 0x00800002; 0x00800002; 0x00008002; 0x00000000; 0x00000202; 0x00008202; 0x00800000;
  0x00008000; 0x00808202; 0x00000002; 0x00808000; 0x00808200; 0x00800000; 0x00800000; 0x00000200;
  0x00808002; 0x00008000; 0x00008200; 0x00800002; 0x00000200; 0x00000002; 0x00800202; 0x00008202;
  0x00808202; 0x00008002; 0x00808000; 0x00800202; 0x00800002; 0x00000202; 0x00008202; 0x00808200;
  0x00000202; 0x00800200; 0x00800200; 0x00000000; 0x00008002; 0x00008200; 0x00000000; 0x00808002];
 [0x00000104; 0x04010100; 0x00000000; 0x04010004; 0x04000100; 0x00000000; 0x00010104; 0x04000100;
  0x00010004; 0x04000004; 0x04000004; 0x00010000; 0x04010104; 0x00010004; 0x04010000; 0x00000104;
  0x04000000; 0x00000004; 0x04010100; 0x00000100; 0x00010100; 0x04010000; 0x04010004; 0x00010104;
  0x04000104; 0x00010100; 0x00010000; 0x04000104; 0x00000004; 0x04010104; 0x00000100; 0x04000000;
  0x04010100; 0x04000000; 0x00010004; 0x00000104; 0x00010000; 0x04010100; 0x04000100; 0x00000000;
  0x00000100; 0x00010004; 0x04010104; 0x04000100; 0x04000004; 0x00000100; 0x00000000; 0x04010004;
  0x04000104; 0x00010000; 0x04000000; 0x04010104; 0x00000004; 0x00010104; 0x00010100; 0x04000004;
  0x04010000; 0x04000104; 0x00000104; 0x04010000; 0x00010104; 0x00000004; 0x04010004; 0x00010100];
 [0x00000080; 0x01040080; 0x01040000; 0x21000080; 0x00040000; 0x00000080; 0x20000000; 0x01040000;
  0x20040080; 0x00040000; 0x01000080; 0x20040080; 0x21000080; 0x21040000; 0x00040080; 0x20000000;
  0x01000000; 0x20040000; 0x20040000; 0x00000000; 0x20000080; 0x21040080; 0x21040080; 0x01000080;
  0x21040000; 0x20000080; 0x00000000; 0x21000000; 0x01040080; 0x01000000; 0x21000000; 0x00040080;
  0x00040000; 0x21000080; 0x00000080; 0x01000000; 0x20000000; 0x01040000; 0x21000080; 0x20040080;
  0x01000080; 0x20000000; 0x21040000; 0x01040080; 0x20040080; 0x00000080; 0x01000000; 0x21040000;
  0x21040080; 0x00040080; 0x21000000; 0x21040080; 0x01040000; 0x00000000; 0x20040000; 0x21000000;
  0x00040080; 0x01000080; 0x20000080; 0x00040000; 0x00000000; 0x20040000; 0x01040080; 0x20000080];
 [0x80401000; 0x80001040; 0x80001040; 0x00000040; 0x00401040; 0x80400040; 0x80400000; 0x80001000;
  0x00000000; 0x00401000; 0x00401000; 0x80401040; 0x80000040; 0x00000000; 0x00400040; 0x80400000;
  0x80000000; 0x00001000; 0x00400000; 0x80401000; 0x00000040; 0x00400000; 0x80001000; 0x00001040;
  0x80400040; 0x80000000; 0x00001040; 0x00400040; 0x00001000; 0x00401040; 0x80401040; 0x80000040;
  0x00400040; 0x80400000; 0x00401000; 0x80401040; 0x80000040; 0x00000000; 0x00000000; 0x00401000;
  0x00001040; 0x00400040; 0x80400040; 0x80000000; 0x80401000; 0x80001040; 0x80001040; 0x00000040;
  0x80401040; 0x80000040; 0x80000000; 0x00001000; 0x80400000; 0x80001000; 0x00401040; 0x80400040;
  0x80001000; 0x00001040; 0x00400000; 0x80401000; 0x00000040; 0x00400000; 0x00001000; 0x00401040];
 [0x10000008; 0x10200000; 0x00002000; 0x10202008; 0x10200000; 0x00000008; 0x10202008; 0x00200000;
  0x10002000; 0x00202008; 0x00200000; 0x10000008; 0x00200008; 0x10002000; 0x10000000; 0x00002008;
  0x00000000; 0x00200008; 0x10002008; 0x00002000; 0x00202000; 0x10002008; 0x00000008; 0x10200008;
  0x10200008; 0x00000000; 0x00202008; 0x10202000; 0x00002008; 0x00202000; 0x10202000; 0x10000000;
  0x10002000; 0x00000008; 0x10200008; 0x00202000; 0x10202008; 0x00200000; 0x00002008; 0x10000008;
  0x00200000; 0x10002000; 0x10000000; 0x00002008; 0x10000008; 0x10202008; 0x00202000; 0x10200000;
  0x00202008; 0x10202000; 0x00000000; 0x10200008; 0x00000008; 0x00002000; 0x10200000; 0x00202008;
  0x00002000; 0x00200008; 0x10002008; 0x00000000; 0x10202000; 0x10000000; 0x00200008; 0x10002008];
 [0x08000820; 0x00000800; 0x00020000; 0x08020820; 0x08000000; 0x08000820; 0x00000020; 0x08000000;
  0x00020020; 0x08020000; 0x08020820; 0x00020800; 0x08020800; 0x00020820; 0x00000800; 0x00000020;
  0x08020000; 0x08000020; 0x08000800; 0x00000820; 0x00020800; 0x00020020; 0x08020020; 0x08020800;
  0x00000820; 0x00000000; 0x00000000; 0x08020020; 0x08000020; 0x08000800; 0x00020820; 0x00020000;
  0x00020820; 0x00020000; 0x08020800; 0x00000800; 0x00000020; 0x08020020; 0x00000800; 0x00020820;
  0x08000800; 0x00000020; 0x08000020; 0x08020000; 0x08020020; 0x08000000; 0x00020000; 0x08000820;
  0x00000000; 0x08020820; 0x00020020; 0x08000020; 0x08020000; 0x08000800; 0x08000820; 0x00000000;
  0x08020820; 0x00020800; 0x00020800; 0x00000820; 0x00000820; 0x00020020; 0x08000000; 0x08020800];
 [0x40084010; 0x40004000; 0x00004000; 0x00084010; 0x00080000; 0x00000010; 0x40080010; 0x40004010;
  0x40000010; 0x40084010; 0x40084000; 0x40000000; 0x40004000; 0x00080000; 0x00000010; 0x40080010;
  0x00084000; 0x00080010; 0x40004010; 0x00000000; 0x40000000; 0x00004000; 0x00084010; 0x40080000;
  0x00080010; 0x40000010; 0x00000000; 0x00084000; 0x00004010; 0x40084000; 0x40080000; 0x00004010;
  0x00000000; 0x00084010; 0x40080010; 0x00080000; 0x40004010; 0x40080000; 0x40084000; 0x00004000;
  0x40080000; 0x40004000; 0x00000010; 0x40084010; 0x00084010; 0x00000010; 0x00004000; 0x40000000;
  0x00004010; 0x40084000; 0x00080000; 0x40000010; 0x00080010; 0x40004010; 0x40000010; 0x00080010;
  0x00084000; 0x00000000; 0x40004000; 0x00004010; 0x40000000; 0x40080010; 0x40084010; 0x00084000]].

Definition PC1_CL : list Z := [
  0x00000000; 0x00000010; 0x00001000; 0x00001010; 0x00100000; 0x00100010; 0x00101000; 0x00101010].

Definition PC1_DL : list Z := [
  0x00000000; 0x00100000; 0x00001000; 0x00101000; 0x00000010; 0x00100010; 0x00001010; 0x00101010;
  0x00000001; 0x00100001; 0x00001001; 0x00101001; 0x00000011; 0x00100011; 0x00001011; 0x00101011].

Definition PC1_CR : list Z := [
  0x00000000; 0x00000001; 0x00000100; 0x00000101; 0x00010000; 0x00010001; 0x00010100; 0x00010101;
  0x01000000; 0x01000001; 0x01000100; 0x01000101; 0x01010000; 0x01010001; 0x01010100; 0x01010101].

Definition PC1_DR : list Z := [
  0x00000000; 0x01000000; 0x00010000; 0x01010000; 0x00000100; 0x01000100; 0x00010100; 0x01010100].

Definition PC2_C : list (list Z) := [
 [0x00000000; 0x00000004; 0x00010000; 0x00010004; 0x00000400; 0x00000404; 0x00010400; 0x00010404;
  0x00000020; 0x00000024; 0x00010020; 0x00010024; 0x00000420; 0x00000424; 0x00010420; 0x00010424;
  0x01000000; 0x01000004; 0x01010000; 0x01010004; 0x01000400; 0x01000404; 0x01010400; 0x01010404;
  0x01000020; 0x01000024; 0x01010020; 0x01010024; 0x01000420; 0x01000424; 0x01010420; 0x01010424;
  0x00020000; 0x00020004; 0x00030000; 0x00030004; 0x00020400; 0x00020404; 0x00030400; 0x00030404;
  0x00020020; 0x00020024; 0x00030020; 0x00030024; 0x00020420; 0x00020424; 0x00030420; 0x00030424;
  0x01020000; 0x01020004; 0x01030000; 0x01030004; 0x01020400; 0x01020404; 0x01030400; 0x01030404;
  0x01020020; 0x01020024; 0x01030020; 0x01030024; 0x01020420; 0x01020424; 0x01030420; 0x01030424];
 [0x00000000; 0x02000000; 0x00000800; 0x02000800; 0x00080000; 0x02080000; 0x00080800; 0x02080800;
  0x00000001; 0x02000001; 0x00000801; 0x02000801; 0x00080001; 0x02080001; 0x00080801; 0x02080801;
  0x00000100; 0x02000100; 0x00000900; 0x02000900; 0x00080100; 0x02080100; 0x00080900; 0x02080900;
  0x00000101; 0x02000101; 0x00000901; 0x02000901; 0x00080101; 0x02080101; 0x00080901; 0x02080901;
  0x10000000; 0x12000000; 0x10000800; 0x12000800; 0x10080000; 0x12080000; 0x10080800; 0x12080800;
  0x10000001; 0x12000001; 0x10000801; 0x12000801; 0x10080001; 0x12080001; 0x10080801; 0x12080801;
  0x10000100; 0x12000100; 0x10000900; 0x12000900; 0x10080100; 0x12080100; 0x10080900; 0x12080900;
  0x10000101; 0x12000101; 0x10000901; 0x12000901; 0x10080101; 0x12080101; 0x10080901; 0x12080901];
 [0x00000000; 0x00040000; 0x00002000; 0x00042000; 0x00100000; 0x00140000; 0x00102000; 0x00142000;
  0x20000000; 0x20040000; 0x20002000; 0x20042000; 0x20100000; 0x20140000; 0x20102000; 0x20142000;
  0x00000008; 0x00040008; 0x00002008; 0x00042008; 0x00100008; 0x00140008; 0x00102008; 0x00142008;
  0x20000008; 0x20040008; 0x20002008; 0x20042008; 0x20100008; 0x20140008; 0x20102008; 0x20142008;
  0x00200000; 0x00240000; 0x00202000; 0x00242000; 0x00300000; 0x00340000; 0x00302000; 0x00342000;
  0x20200000; 0x20240000; 0x20202000; 0x20242000; 0x20300000; 0x20340000; 0x20302000; 0x20342000;
  0x00200008; 0x00240008; 0x00202008; 0x00242008; 0x00300008; 0x00340008; 0x00302008; 0x00342008;
  0x20200008; 0x20240008; 0x20202008; 0x20242008; 0x20300008; 0x20340008; 0x20302008; 0x20342008];
 [0x00000000; 0x00000010; 0x08000000; 0x08000010; 0x00000200; 0x00000210; 0x08000200; 0x08000210;
  0x00000002; 0x00000012; 0x08000002; 0x08000012; 0x00000202; 0x00000212; 0x08000202; 0x08000212;
  0x04000000; 0x04000010; 0x0c000000; 0x0c000010; 0x04000200; 0x04000210; 0x0c000200; 0x0c000210;
  0x04000002; 0x04000012; 0x0c000002; 0x0c000012; 0x04000202; 0x04000212; 0x0c000202; 0x0c000212;
  0x00001000; 0x00001010; 0x08001000; 0x08001010; 0x00001200; 0x00001210; 0x08001200; 0x08001210;
  0x00001002; 0x00001012; 0x08001002; 0x08001012; 0x00001202; 0x00001212; 0x08001202; 0x08001212;
  0x04001000; 0x04001010; 0x0c001000; 0x0c001010; 0x04001200; 0x04001210; 0x0c001200; 0x0c001210;
  0x04001002; 0x04001012; 0x0c001002; 0x0c001012; 0x04001202; 0x04001212; 0x0c001202; 0x0c001212]].

Definition PC2_D : list (list Z) := [
 [0x00000000; 0x02000000; 0x00020000; 0x02020000; 0x00000100; 0x02000100; 0x00020100; 0x02020100;
  0x00000008; 0x02000008; 0x00020008; 0x02020008; 0x00000108; 0x02000108; 0x00020108; 0x02020108;
  0x00200000; 0x02200000; 0x00220000; 0x02220000; 0x00200100; 0x02200100; 0x00220100; 0x02220100;
  0x00200008; 0x02200008; 0x00220008; 0x02220008; 0x00200108; 0x02200108; 0x00220108; 0x02220108;
  0x00000200; 0x02000200; 0x00020200; 0x02020200; 0x00000300; 0x02000300; 0x00020300; 0x02020300;
  0x00000208; 0x02000208; 0x00020208; 0x02020208; 0x00000308; 0x02000308; 0x00020308; 0x02020308;
  0x00200200; 0x02200200; 0x00220200; 0x02220200; 0x00200300; 0x02200300; 0x00220300; 0x02220300;
  0x00200208; 0x02200208; 0x00220208; 0x02220208; 0x00200308; 0x02200308; 0x00220308; 0x02220308];
 [0x00000000; 0x00001000; 0x00000020; 0x00001020; 0x00100000; 0x00101000; 0x00100020; 0x00101020;
  0x08000000; 0x08001000; 0x08000020; 0x08001020; 0x08100000; 0x08101000; 0x08100020; 0x08101020;
  0x00000004; 0x00001004; 0x00000024; 0x00001024; 0x00100004; 0x00101004; 0x00100024; 0x00101024;
  0x08000004; 0x08001004; 0x08000024; 0x08001024; 0x08100004; 0x08101004; 0x08100024; 0x08101024;
  0x00000400; 0x00001400; 0x00000420; 0x00001420; 0x00100400; 0x00101400; 0x00100420; 0x00101420;
  0x08000400; 0x08001400; 0x08000420; 0x08001420; 0x08100400; 0x08101400; 0x08100420; 0x08101420;
  0x00000404; 0x00001404; 0x00000424; 0x00001424; 0x00100404; 0x00101404; 0x00100424; 0x00101424;
  0x08000404; 0x08001404; 0x08000424; 0x08001424; 0x08100404; 0x08101404; 0x08100424; 0x08101424];
 [0x00000000; 0x10000000; 0x00010000; 0x10010000; 0x00000002; 0x10000002; 0x00010002; 0x10010002;
  0x00002000; 0x10002000; 0x00012000; 0x10012000; 0x00002002; 0x10002002; 0x00012002; 0x10012002;
  0x00040000; 0x10040000; 0x00050000; 0x10050000; 0x00040002; 0x10040002; 0x00050002; 0x10050002;
  0x00042000; 0x10042000; 0x00052000; 0x10052000; 0x00042002; 0x10042002; 0x00052002; 0x10052002;
  0x20000000; 0x30000000; 0x20010000; 0x30010000; 0x20000002; 0x30000002; 0x20010002; 0x30010002;
  0x20002000; 0x30002000; 0x20012000; 0x30012000; 0x20002002; 0x30002002; 0x20012002; 0x30012002;
  0x20040000; 0x30040000; 0x20050000; 0x30050000; 0x20040002; 0x30040002; 0x20050002; 0x30050002;
  0x20042000; 0x30042000; 0x20052000; 0x30052000; 0x20042002; 0x30042002; 0x20052002; 0x30052002];
 [0x00000000; 0x04000000; 0x00000001; 0x04000001; 0x01000000; 0x05000000; 0x01000001; 0x05000001;
  0x00000010; 0x04000010; 0x00000011; 0x04000011; 0x01000010; 0x05000010; 0x01000011; 0x05000011;
  0x00080000; 0x04080000; 0x00080001; 0x04080001; 0x01080000; 0x05080000; 0x01080001; 0x05080001;
  0x00080010; 0x04080010; 0x00080011; 0x04080011; 0x01080010; 0x05080010; 0x01080011; 0x05080011;
  0x00000800; 0x04000800; 0x00000801; 0x04000801; 0x01000800; 0x05000800; 0x01000801; 0x05000801;
  0x00000810; 0x04000810; 0x00000811; 0x04000811; 0x01000810; 0x05000810; 0x01000811; 0x05000811;
  0x00080800; 0x04080800; 0x00080801; 0x04080801; 0x01080800; 0x05080800; 0x01080801; 0x05080801;
  0x00080810; 0x04080810; 0x00080811; 0x04080811; 0x01080810; 0x05080810; 0x01080811; 0x05080811]].

Definition weak : list (list Z) := [
 [0x01; 0x01; 0x01; 0x01; 0x01; 0x01; 0x01; 0x01];
 [0xfe; 0xfe; 0xfe; 0xfe; 0xfe; 0xfe; 0xfe; 0xfe];
 [0x1f; 0x1f; 0x1f; 0x1f; 0x0e; 0x0e; 0x0e; 0x0e];
 [0xe0; 0xe0; 0xe0; 0xe0; 0xf1; 0xf1; 0xf1; 0xf1];
 [0x01; 0xfe; 0x01; 0xfe; 0x01; 0xfe; 0x01; 0xfe];
 [0xfe; 0x01; 0xfe; 0x01; 0xfe; 0x01; 0xfe; 0x01];
 [0x1f; 0xe0; 0x1f; 0xe0; 0x0e; 0xf1; 0x0e; 0xf1];
 [0xe0; 0x1f; 0xe0; 0x1f; 0xf1; 0x0e; 0xf1; 0x0e];
 [0x01; 0xe0; 0x01; 0xe0; 0x01; 0xf1; 0x01; 0xf1];
 [0xe0; 0x01; 0xe0; 0x01; 0xf1; 0x01; 0xf1; 0x01];
 [0x1f; 0xfe; 0x1f; 0xfe; 0x0e; 0xfe; 0x0e; 0xfe];
 [0xfe; 0x1f; 0xfe; 0x1f; 0xfe; 0x0e; 0xfe; 0x0e];
 [0x01; 0x1f; 0x01; 0x1f; 0x01; 0x0e; 0x01; 0x0e];
 [0x1f; 0x01; 0x1f; 0x01; 0x0e; 0x01; 0x0e; 0x01];
 [0xe0; 0xfe; 0xe0; 0xfe; 0xf1; 0xfe; 0xf1; 0xfe];
 [0xfe; 0xe0; 0xfe; 0xe0; 0xfe; 0xf1; 0xfe; 0xf1]].
