(* ===== verification/Des.v ===== *)
(** * The Data Encryption Standard (src/src/lib/crypto/des)

    The block cipher as the macros of f_tables.h compute it, the key schedule (f_sched.c,
    key_sched.c, d3_kysched.c), parity and weak keys (f_parity.c, weak_key.c), cipher block
    chaining (f_cbc.c, d3_cbc.c, f_cksum.c) and the key of a password (string2key.c).  A
    half block is a number of 32 bits; input and output buffers are octet lists. *)

From S2P Require Import Prelude Words DesTables.

(** SP[n][i] *)
Definition table2_at (t : list (list Z)) (n : nat) (i : Z) : Z := table_at (nth n t []) i.
Abbreviation SP := (table2_at des_SP_table).

(** ** One block *)

(** Half a round: the rotated half block, a subkey and four lookups. *)
Definition sp_first (right k : Z) : Z :=
  let temp := Z.lxor (Z.lor (Z.shiftr right 11) (shl32 right 21)) k in
  Z.lor (Z.lor (Z.lor (SP 0 (Z.land (Z.shiftr temp 24) 0x3f)) (SP 1 (Z.land (Z.shiftr temp 16) 0x3f)))
               (SP 2 (Z.land (Z.shiftr temp 8) 0x3f))) (SP 3 (Z.land temp 0x3f)).

Definition sp_second (right k : Z) : Z :=
  let temp := Z.lxor (Z.lor (Z.shiftr right 23) (shl32 right 9)) k in
  Z.lor (Z.lor (Z.lor (SP 4 (Z.land (Z.shiftr temp 24) 0x3f)) (SP 5 (Z.land (Z.shiftr temp 16) 0x3f)))
               (SP 6 (Z.land (Z.shiftr temp 8) 0x3f))) (SP 7 (Z.land temp 0x3f)).

(** The new left half; [k0] and [k1] are the words at kp[0] and kp[1]. *)
Definition DES_SP_ENCRYPT_ROUND (left right k0 k1 : Z) : Z :=
  Z.lxor (Z.lxor left (sp_first right k0)) (sp_second right k1).

(** The lookups in the opposite order; [k1] and [k0] are the words at kp[-1] and kp[-2]. *)
Definition DES_SP_DECRYPT_ROUND (left right k1 k0 : Z) : Z :=
  let temp := Z.lxor (Z.lor (Z.shiftr right 23) (shl32 right 9)) k1 in
  let left := Z.lxor left
    (Z.lor (Z.lor (Z.lor (SP 7 (Z.land temp 0x3f)) (SP 6 (Z.land (Z.shiftr temp 8) 0x3f)))
                  (SP 5 (Z.land (Z.shiftr temp 16) 0x3f))) (SP 4 (Z.land (Z.shiftr temp 24) 0x3f))) in
  let temp := Z.lxor (Z.lor (Z.shiftr right 11) (shl32 right 21)) k0 in
  Z.lxor left
    (Z.lor (Z.lor (Z.lor (SP 3 (Z.land temp 0x3f)) (SP 2 (Z.land (Z.shiftr temp 8) 0x3f)))
                  (SP 1 (Z.land (Z.shiftr temp 16) 0x3f))) (SP 0 (Z.land (Z.shiftr temp 24) 0x3f))).

Definition DES_IP_LEFT_BITS (left right : Z) : Z :=
  Z.lor (shl32 (Z.land left 0x55555555) 1) (Z.land right 0x55555555).
Definition DES_IP_RIGHT_BITS (left right : Z) : Z :=
  Z.lor (Z.land left 0xaaaaaaaa) (Z.shiftr (Z.land right 0xaaaaaaaa) 1).

Definition ip_lookup (x : Z) : Z :=
  Z.lor (Z.lor (Z.lor (table_at des_IP_table (Z.land (Z.shiftr x 24) 0xff))
                      (shl32 (table_at des_IP_table (Z.land (Z.shiftr x 16) 0xff)) 1))
               (shl32 (table_at des_IP_table (Z.land (Z.shiftr x 8) 0xff)) 2))
        (shl32 (table_at des_IP_table (Z.land x 0xff)) 3).

Definition DES_INITIAL_PERM (left right : Z) : Z * Z :=
  let temp := DES_IP_RIGHT_BITS left right in
  let right := DES_IP_LEFT_BITS left right in
  (ip_lookup right, ip_lookup temp).

Definition DES_FP_LEFT_BITS (left right : Z) : Z :=
  Z.lor (shl32 (Z.land left 0x0f0f0f0f) 4) (Z.land right 0x0f0f0f0f).
Definition DES_FP_RIGHT_BITS (left right : Z) : Z :=
  Z.lor (Z.land left 0xf0f0f0f0) (Z.shiftr (Z.land right 0xf0f0f0f0) 4).

Definition fp_lookup (x : Z) : Z :=
  Z.lor (Z.lor (Z.lor (shl32 (table_at des_FP_table (Z.land (Z.shiftr x 24) 0xff)) 6)
                      (shl32 (table_at des_FP_table (Z.land (Z.shiftr x 16) 0xff)) 4))
               (shl32 (table_at des_FP_table (Z.land (Z.shiftr x 8) 0xff)) 2))
        (table_at des_FP_table (Z.land x 0xff)).

Definition DES_FINAL_PERM (left right : Z) : Z * Z :=
  let temp := DES_FP_RIGHT_BITS right left in
  let right := DES_FP_LEFT_BITS right left in
  (fp_lookup right, fp_lookup temp).

(** A key schedule is an array of 32 words, two for each of the 16 rounds. *)
Definition mit_des_key_schedule : Type := list Z.

(** Iteration [i] of the loops of DES_DO_ENCRYPT and DES_DO_DECRYPT: two rounds. *)
Definition encrypt_rounds (kp : mit_des_key_schedule) (lr : Z * Z) (i : Z) : Z * Z :=
  let left := DES_SP_ENCRYPT_ROUND lr.1 lr.2 (table_at kp (4 * i)) (table_at kp (4 * i + 1)) in
  let right := DES_SP_ENCRYPT_ROUND lr.2 left (table_at kp (4 * i + 2)) (table_at kp (4 * i + 3)) in
  (left, right).

Definition decrypt_rounds (kp : mit_des_key_schedule) (lr : Z * Z) (i : Z) : Z * Z :=
  let left := DES_SP_DECRYPT_ROUND lr.1 lr.2 (table_at kp (31 - 4 * i)) (table_at kp (30 - 4 * i)) in
  let right := DES_SP_DECRYPT_ROUND lr.2 left (table_at kp (29 - 4 * i)) (table_at kp (28 - 4 * i)) in
  (left, right).

Definition DES_DO_ENCRYPT (kp : mit_des_key_schedule) (left right : Z) : Z * Z :=
  let lr := foldl (encrypt_rounds kp) (DES_INITIAL_PERM left right) (seqZ 0 8) in
  DES_FINAL_PERM lr.1 lr.2.

Definition DES_DO_DECRYPT (kp : mit_des_key_schedule) (left right : Z) : Z * Z :=
  let lr := foldl (decrypt_rounds kp) (DES_INITIAL_PERM left right) (seqZ 0 8) in
  DES_FINAL_PERM lr.1 lr.2.

(** ** The key schedule *)

(** Four octets as a word, most significant first. *)
Definition GET_HALF_BLOCK (o0 o1 o2 o3 : octet) : Z :=
  Z.lor (Z.lor (Z.lor (shl32 o0 24) (shl32 o1 16)) (shl32 o2 8)) o3.

Definition TWO_BIT_SHIFTS : Z := 0x7efc.

(** The first permuted choice, from the left and the right half of the key. *)
Definition pc1 (l r : Z) : Z * Z :=
  let at_ (t : list Z) (x s m : Z) := table_at t (Z.land (Z.shiftr x s) m) in
  let c := Z.lor (Z.lor (Z.lor (at_ PC1_CL l 29 0x7) (shl32 (at_ PC1_CL l 21 0x7) 1))
                        (shl32 (at_ PC1_CL l 13 0x7) 2)) (shl32 (at_ PC1_CL l 5 0x7) 3) in
  let d := Z.lor (Z.lor (Z.lor (at_ PC1_DL l 25 0xf) (shl32 (at_ PC1_DL l 17 0xf) 1))
                        (shl32 (at_ PC1_DL l 9 0xf) 2)) (shl32 (at_ PC1_DL l 1 0xf) 3) in
  let c := Z.lor c
    (Z.lor (Z.lor (Z.lor (at_ PC1_CR r 28 0xf) (shl32 (at_ PC1_CR r 20 0xf) 1))
                  (shl32 (at_ PC1_CR r 12 0xf) 2)) (shl32 (at_ PC1_CR r 4 0xf) 3)) in
  let d := Z.lor d
    (Z.lor (Z.lor (Z.lor (at_ PC1_DR r 25 0x7) (shl32 (at_ PC1_DR r 17 0x7) 1))
                  (shl32 (at_ PC1_DR r 9 0x7) 2)) (shl32 (at_ PC1_DR r 1 0x7) 3)) in
  (c, d).

Definition rotate28 (two : bool) (c : Z) : Z :=
  if two then Z.lor (Z.land (shl32 c 2) 0xffffffc) (Z.shiftr c 26)
  else Z.lor (Z.land (shl32 c 1) 0xffffffe) (Z.shiftr c 27).

(** The second permuted choice: the two words of a round. *)
Definition pc2 (c d : Z) : Z * Z :=
  let b (x s m : Z) := Z.land (Z.shiftr x s) m in
  let ltmp := Z.lor (Z.lor (Z.lor (table2_at PC2_C 0 (b c 22 0x3f))
                (table2_at PC2_C 1 (Z.lor (b c 15 0xf) (b c 16 0x30))))
                (table2_at PC2_C 2 (Z.lor (b c 4 0x3) (b c 9 0x3c))))
                (table2_at PC2_C 3 (Z.lor (b c 0 0x7) (b c 4 0x38))) in
  let rtmp := Z.lor (Z.lor (Z.lor (table2_at PC2_D 0 (b d 22 0x3f))
                (table2_at PC2_D 1 (Z.lor (b d 14 0xf) (b d 15 0x30))))
                (table2_at PC2_D 2 (b d 7 0x3f)))
                (table2_at PC2_D 3 (Z.lor (b d 0 0x3) (b d 1 0x3c))) in
  (Z.lor (Z.land ltmp 0x00ffff00) (Z.land rtmp 0xff0000ff),
   Z.lor (Z.land ltmp 0xff0000ff) (Z.land rtmp 0x00ffff00)).

Fixpoint sched_loop (i : nat) (two_bit_shifts c d : Z) : mit_des_key_schedule :=
  match i with
  | O => []
  | S i =>
      let two := negb (Z.land two_bit_shifts 0x1 =? 0) in
      let c := rotate28 two c in
      let d := rotate28 two d in
      let '(k0, k1) := pc2 c d in
      k0 :: k1 :: sched_loop i (Z.shiftr two_bit_shifts 1) c d
  end.

(** An array shorter than a block is not a key. *)
Definition make_key_sched (key : list octet) : outcome error_code mit_des_key_schedule :=
  match key with
  | k0 :: k1 :: k2 :: k3 :: k4 :: k5 :: k6 :: k7 :: _ =>
      let '(c, d) := pc1 (GET_HALF_BLOCK k0 k1 k2 k3) (GET_HALF_BLOCK k4 k5 k6 k7) in
      Ok (sched_loop 16 TWO_BIT_SHIFTS c d)
  | _ => Undefined
  end.

(** ** Parity and weak keys *)

Definition smask (step : Z) : Z := Z.shiftl 1 step - 1.
Definition pstep (x step : Z) : Z :=
  Z.lxor (Z.land x (smask step)) (Z.land (Z.shiftr x step) (smask step)).
Definition parity_char (x : Z) : Z := pstep (pstep (pstep x 4) 2) 1.

(** A key is an array of 8 octets. *)
Definition mit_des_fixup_key_parity (key : list octet) : list octet :=
  (fun k => let k := Z.land k 0xfe in Z.lor k (Z.lxor 1 (parity_char k))) <$> key.

Definition mit_des_check_key_parity (key : list octet) : bool :=
  forallb (fun k => negb (Z.land k 1 =? parity_char (Z.land 0xfe k))) key.

Definition mit_des_is_weak_key (key : list octet) : bool :=
  existsb (fun w => bool_decide (w = key)) weak.

(** The schedule is computed before the key is refused. *)
Definition mit_des_key_sched (k : list octet) : outcome error_code (mit_des_key_schedule * Z) :=
  let* schedule := make_key_sched k in
  if negb (mit_des_check_key_parity k) then Ok (schedule, -1)
  else if mit_des_is_weak_key k then Ok (schedule, -2)
  else Ok (schedule, 0).

(** ** Cipher block chaining *)

(** Octet [j] of a block is added to its half block. *)
Definition xor_octet (lr : Z * Z) (j : Z) (o : octet) : Z * Z :=
  let x := shl32 (Z.land o 0xff) (24 - 8 * (j mod 4)) in
  if j <? 4 then (Z.lxor lr.1 x, lr.2) else (lr.1, Z.lxor lr.2 x).

(** The switch of an incomplete block adds its octets from the last to the first. *)
Fixpoint xor_partial (lr : Z * Z) (j : Z) (os : list octet) : Z * Z :=
  match os with
  | [] => lr
  | o :: os => xor_octet (xor_partial lr (j + 1) os) j o
  end.

Definition PUT_HALF_BLOCKS (lr : Z * Z) : list octet := be32 lr.1 ++ be32 lr.2.

Section cbc.
(** The cipher of a block: DES_DO_ENCRYPT and DES_DO_DECRYPT with their keys. *)
Context (enc dec : Z -> Z -> Z * Z).

Fixpoint cbc_encrypt_loop (lr : Z * Z) (inp : list octet) : list octet :=
  match inp with
  | [] => []
  | o0 :: o1 :: o2 :: o3 :: o4 :: o5 :: o6 :: o7 :: rest =>
      let lr := xor_octet (xor_octet (xor_octet (xor_octet (xor_octet (xor_octet (xor_octet (xor_octet
                  lr 0 o0) 1 o1) 2 o2) 3 o3) 4 o4) 5 o5) 6 o6) 7 o7 in
      let lr := enc lr.1 lr.2 in
      PUT_HALF_BLOCKS lr ++ cbc_encrypt_loop lr rest
  | os =>
      let lr := xor_partial lr 0 os in
      let lr := enc lr.1 lr.2 in
      PUT_HALF_BLOCKS lr
  end.

(** The loop reads whole blocks; the last one yields the octets that are left of [length]. *)
Fixpoint cbc_decrypt_loop (olr : Z * Z) (inp : list octet) (length : Z) : outcome error_code (list octet) :=
  match inp with
  | o0 :: o1 :: o2 :: o3 :: o4 :: o5 :: o6 :: o7 :: rest =>
      let clr := (GET_HALF_BLOCK o0 o1 o2 o3, GET_HALF_BLOCK o4 o5 o6 o7) in
      let lr := dec clr.1 clr.2 in
      let lr := (Z.lxor lr.1 olr.1, Z.lxor lr.2 olr.2) in
      if 8 <? length then
        let* out := cbc_decrypt_loop clr rest (length - 8) in
        Ok (PUT_HALF_BLOCKS lr ++ out)
      else Ok (take (Z.to_nat length) (PUT_HALF_BLOCKS lr))
  | _ => Undefined
  end.

(** The initial vector as two half blocks. *)
Definition get_ivec (ivec : list octet) : outcome error_code (Z * Z) :=
  match ivec with
  | o0 :: o1 :: o2 :: o3 :: o4 :: o5 :: o6 :: o7 :: _ =>
      Ok (GET_HALF_BLOCK o0 o1 o2 o3, GET_HALF_BLOCK o4 o5 o6 o7)
  | _ => Undefined
  end.

(** [inp] is the storage at in, [length] the length to process. *)
Definition cbc (inp : list octet) (length : Z) (ivec : list octet) (encrypt : bool)
    : outcome error_code (list octet) :=
  if encrypt then
    let* lr := get_ivec ivec in
    if zlen inp <? length then Undefined
    else Ok (cbc_encrypt_loop lr (take (Z.to_nat length) inp))
  else if length <=? 0 then Ok []
  else
    let* olr := get_ivec ivec in
    cbc_decrypt_loop olr inp length.
End cbc.

Definition mit_des_cbc_encrypt (inp : list octet) (length : Z) (schedule : mit_des_key_schedule)
    (ivec : list octet) (encrypt : bool) : outcome error_code (list octet) :=
  cbc (DES_DO_ENCRYPT schedule) (DES_DO_DECRYPT schedule) inp length ivec encrypt.

(** Encryption, decryption, encryption with three keys. *)
Definition des3_encrypt (ks1 ks2 ks3 : mit_des_key_schedule) (left right : Z) : Z * Z :=
  let lr := DES_DO_ENCRYPT ks1 left right in
  let lr := DES_DO_DECRYPT ks2 lr.1 lr.2 in
  DES_DO_ENCRYPT ks3 lr.1 lr.2.

Definition des3_decrypt (ks1 ks2 ks3 : mit_des_key_schedule) (left right : Z) : Z * Z :=
  let lr := DES_DO_DECRYPT ks3 left right in
  let lr := DES_DO_ENCRYPT ks2 lr.1 lr.2 in
  DES_DO_DECRYPT ks1 lr.1 lr.2.

Definition mit_des3_cbc_encrypt (inp : list octet) (length : Z) (ks1 ks2 ks3 : mit_des_key_schedule)
    (ivec : list octet) (encrypt : bool) : outcome error_code (list octet) :=
  cbc (des3_encrypt ks1 ks2 ks3) (des3_decrypt ks1 ks2 ks3) inp length ivec encrypt.

Definition mit_des3_key_sched (key : list octet)
    : outcome error_code ((mit_des_key_schedule * mit_des_key_schedule * mit_des_key_schedule) * Z) :=
  let k0 := take 8 key in
  let k1 := take 8 (drop 8 key) in
  let k2 := take 8 (drop 16 key) in
  let* s0 := make_key_sched k0 in
  let* s1 := make_key_sched k1 in
  let* s2 := make_key_sched k2 in
  let ret :=
    if negb (mit_des_check_key_parity k0) then -1
    else if mit_des_is_weak_key k0 then -2
    else if negb (mit_des_check_key_parity k1) then -1
    else if mit_des_is_weak_key k1 then -2
    else if negb (mit_des_check_key_parity k2) then -1
    else if mit_des_is_weak_key k2 then -2
    else 0 in
  Ok (s0, s1, s2, ret).

(** ** The DES checksum (des/f_cksum.c) *)

(** [inp] are the [length] octets at in. *)
Fixpoint cksum_loop (schedule : mit_des_key_schedule) (lr : Z * Z) (inp : list octet) : Z * Z :=
  match inp with
  | [] => lr
  | o0 :: o1 :: o2 :: o3 :: o4 :: o5 :: o6 :: o7 :: rest =>
      let lr := xor_octet (xor_octet (xor_octet (xor_octet (xor_octet (xor_octet (xor_octet (xor_octet
                  lr 0 o0) 1 o1) 2 o2) 3 o3) 4 o4) 5 o5) 6 o6) 7 o7 in
      cksum_loop schedule (DES_DO_ENCRYPT schedule lr.1 lr.2) rest
  | os =>
      let lr := xor_partial lr 0 os in
      DES_DO_ENCRYPT schedule lr.1 lr.2
  end.

(** The output; the return value, the right half, is not used. *)
Definition mit_des_cbc_cksum (inp : list octet) (schedule : mit_des_key_schedule) (ivec : list octet)
    : outcome error_code (list octet) :=
  let* lr := get_ivec ivec in
  Ok (PUT_HALF_BLOCKS (cksum_loop schedule lr inp)).
