(* ===== verification/DesProofs.v ===== *)
(** * DES as the standard defines it (FIPS 46)

    The specification against which Des.v is proved.  Bits are numbered from 1, the most
    significant; a table lists the numbers of the bits that a permutation selects. *)

From S2P Require Import Prelude Words DesTables Des.

(** The bits of the [n]-bit number [x] in the order of the table. *)
Definition permute (n : Z) (table : list Z) (x : Z) : Z :=
  foldl (fun a t => 2 * a + Z.b2z (Z.testbit x (n - t))) 0 table.

Definition fips_IP : list Z := [
  58; 50; 42; 34; 26; 18; 10; 2; 60; 52; 44; 36; 28; 20; 12; 4;
  62; 54; 46; 38; 30; 22; 14; 6; 64; 56; 48; 40; 32; 24; 16; 8;
  57; 49; 41; 33; 25; 17; 9; 1; 59; 51; 43; 35; 27; 19; 11; 3;
  61; 53; 45; 37; 29; 21; 13; 5; 63; 55; 47; 39; 31; 23; 15; 7].

Definition fips_IP_inverse : list Z := [
  40; 8; 48; 16; 56; 24; 64; 32; 39; 7; 47; 15; 55; 23; 63; 31;
  38; 6; 46; 14; 54; 22; 62; 30; 37; 5; 45; 13; 53; 21; 61; 29;
  36; 4; 44; 12; 52; 20; 60; 28; 35; 3; 43; 11; 51; 19; 59; 27;
  34; 2; 42; 10; 50; 18; 58; 26; 33; 1; 41; 9; 49; 17; 57; 25].

Definition fips_E : list Z := [
  32; 1; 2; 3; 4; 5; 4; 5; 6; 7; 8; 9; 8; 9; 10; 11; 12; 13; 12; 13; 14; 15; 16; 17;
  16; 17; 18; 19; 20; 21; 20; 21; 22; 23; 24; 25; 24; 25; 26; 27; 28; 29; 28; 29; 30; 31; 32; 1].

Definition fips_P : list Z := [
  16; 7; 20; 21; 29; 12; 28; 17; 1; 15; 23; 26; 5; 18; 31; 10;
  2; 8; 24; 14; 32; 27; 3; 9; 19; 13; 30; 6; 22; 11; 4; 25].

(** The eight selection functions, four rows of 16 each. *)
Definition fips_S : list (list Z) := [
 [14; 4; 13; 1; 2; 15; 11; 8; 3; 10; 6; 12; 5; 9; 0; 7;
  0; 15; 7; 4; 14; 2; 13; 1; 10; 6; 12; 11; 9; 5; 3; 8;
  4; 1; 14; 8; 13; 6; 2; 11; 15; 12; 9; 7; 3; 10; 5; 0;
  15; 12; 8; 2; 4; 9; 1; 7; 5; 11; 3; 14; 10; 0; 6; 13];
 [15; 1; 8; 14; 6; 11; 3; 4; 9; 7; 2; 13; 12; 0; 5; 10;
  3; 13; 4; 7; 15; 2; 8; 14; 12; 0; 1; 10; 6; 9; 11; 5;
  0; 14; 7; 11; 10; 4; 13; 1; 5; 8; 12; 6; 9; 3; 2; 15;
  13; 8; 10; 1; 3; 15; 4; 2; 11; 6; 7; 12; 0; 5; 14; 9];
 [10; 0; 9; 14; 6; 3; 15; 5; 1; 13; 12; 7; 11; 4; 2; 8;
  13; 7; 0; 9; 3; 4; 6; 10; 2; 8; 5; 14; 12; 11; 15; 1;
  13; 6; 4; 9; 8; 15; 3; 0; 11; 1; 2; 12; 5; 10; 14; 7;
  1; 10; 13; 0; 6; 9; 8; 7; 4; 15; 14; 3; 11; 5; 2; 12];
 [7; 13; 14; 3; 0; 6; 9; 10; 1; 2; 8; 5; 11; 12; 4; 15;
  13; 8; 11; 5; 6; 15; 0; 3; 4; 7; 2; 12; 1; 10; 14; 9;
  10; 6; 9; 0; 12; 11; 7; 13; 15; 1; 3; 14; 5; 2; 8; 4;
  3; 15; 0; 6; 10; 1; 13; 8; 9; 4; 5; 11; 12; 7; 2; 14];
 [2; 12; 4; 1; 7; 10; 11; 6; 8; 5; 3; 15; 13; 0; 14; 9;
  14; 11; 2; 12; 4; 7; 13; 1; 5; 0; 15; 10; 3; 9; 8; 6;
  4; 2; 1; 11; 10; 13; 7; 8; 15; 9; 12; 5; 6; 3; 0; 14;
  11; 8; 12; 7; 1; 14; 2; 13; 6; 15; 0; 9; 10; 4; 5; 3];
 [12; 1; 10; 15; 9; 2; 6; 8; 0; 13; 3; 4; 14; 7; 5; 11;
  10; 15; 4; 2; 7; 12; 9; 5; 6; 1; 13; 14; 0; 11; 3; 8;
  9; 14; 15; 5; 2; 8; 12; 3; 7; 0; 4; 10; 1; 13; 11; 6;
  4; 3; 2; 12; 9; 5; 15; 10; 11; 14; 1; 7; 6; 0; 8; 13];
 [4; 11; 2; 14; 15; 0; 8; 13; 3; 12; 9; 7; 5; 10; 6; 1;
  13; 0; 11; 7; 4; 9; 1; 10; 14; 3; 5; 12; 2; 15; 8; 6;
  1; 4; 11; 13; 12; 3; 7; 14; 10; 15; 6; 8; 0; 5; 9; 2;
  6; 11; 13; 8; 1; 4; 10; 7; 9; 5; 0; 15; 14; 2; 3; 12];
 [13; 2; 8; 4; 6; 15; 11; 1; 10; 9; 3; 14; 5; 0; 12; 7;
  1; 15; 13; 8; 10; 3; 7; 4; 12; 5; 6; 11; 0; 14; 9; 2;
  7; 11; 4; 1; 9; 12; 14; 2; 0; 6; 10; 13; 15; 3; 5; 8;
  2; 1; 14; 7; 4; 10; 8; 13; 15; 12; 9; 0; 3; 5; 6; 11]].

Definition fips_PC1 : list Z := [
  57; 49; 41; 33; 25; 17; 9; 1; 58; 50; 42; 34; 26; 18; 10; 2; 59; 51; 43; 35; 27; 19; 11; 3; 60; 52; 44; 36;
  63; 55; 47; 39; 31; 23; 15; 7; 62; 54; 46; 38; 30; 22; 14; 6; 61; 53; 45; 37; 29; 21; 13; 5; 28; 20; 12; 4].

Definition fips_PC2 : list Z := [
  14; 17; 11; 24; 1; 5; 3; 28; 15; 6; 21; 10; 23; 19; 12; 4; 26; 8; 16; 7; 27; 20; 13; 2;
  41; 52; 31; 37; 47; 55; 30; 40; 51; 45; 33; 48; 44; 49; 39; 56; 34; 53; 46; 42; 50; 36; 29; 32].

Definition fips_shifts : list Z := [1; 1; 2; 2; 2; 2; 2; 2; 1; 2; 2; 2; 2; 2; 2; 1].

(** Group [j] (from 0) of six bits of a 48-bit number. *)
Definition group6 (x : Z) (j : nat) : Z := Z.land (Z.shiftr x (42 - 6 * Z.of_nat j)) 0x3f.

(** The first and the last of six bits choose the row, the others the column. *)
Definition select (j : nat) (b : Z) : Z :=
  let row := 2 * Z.b2z (Z.testbit b 5) + Z.b2z (Z.testbit b 0) in
  nth (Z.to_nat (16 * row + Z.land (Z.shiftr b 1) 0xf)) (nth j fips_S []) 0.

(** The outputs of the selection functions one after the other. *)
Definition selections (x : Z) : Z := foldl (fun a j => 16 * a + select j (group6 x j)) 0 (seq 0 8).

(** The cipher function f(R, K). *)
Definition fips_f (R K : Z) : Z := permute 32 fips_P (selections (Z.lxor (permute 32 fips_E R) K)).

(** The key schedule: the sixteen keys of 48 bits. *)
Definition rotl28 (n x : Z) : Z := Z.lor (Z.land (Z.shiftl x n) 0xfffffff) (Z.shiftr x (28 - n)).

Fixpoint fips_keys_from (shifts : list Z) (C D : Z) : list Z :=
  match shifts with
  | [] => []
  | n :: shifts =>
      let C := rotl28 n C in
      let D := rotl28 n D in
      permute 56 fips_PC2 (Z.lor (Z.shiftl C 28) D) :: fips_keys_from shifts C D
  end.

Definition fips_keys (key : Z) : list Z :=
  let cd := permute 64 fips_PC1 key in
  fips_keys_from fips_shifts (Z.shiftr cd 28) (Z.land cd 0xfffffff).

(** One round: (L, R) becomes (R, L + f(R, K)). *)
Definition fips_round (lr : Z * Z) (K : Z) : Z * Z := (lr.2, Z.lxor lr.1 (fips_f lr.2 K)).

(** A block of 64 bits under the given keys; the halves are exchanged at the end. *)
Definition fips_cipher (keys : list Z) (block : Z) : Z :=
  let x := permute 64 fips_IP block in
  let lr := foldl fips_round (Z.shiftr x 32, Z.land x 0xffffffff) keys in
  permute 64 fips_IP_inverse (Z.lor (Z.shiftl lr.2 32) lr.1).

Definition fips_encrypt (key block : Z) : Z := fips_cipher (fips_keys key) block.
Definition fips_decrypt (key block : Z) : Z := fips_cipher (reverse (fips_keys key)) block.

(** The worked example that is usual for DES. *)
Example fips_vector :
  fips_encrypt 0x133457799bbcdff1 0x0123456789abcdef = 0x85e813540f0ab405 /\
  fips_decrypt 0x133457799bbcdff1 0x85e813540f0ab405 = 0x0123456789abcdef.
Proof. vm_compute. done. Qed.

(** * The DES code computes DES (Des.v)

    The permutations, the expansion and the key schedule are linear over exclusive or, so
    that they agree with those of the standard if they do so on the powers of 2; the
    combined selection and permutation tables are compared entry by entry.  Decryption
    inverts encryption, one block and in chains of blocks. *)

(** ** Permutations are linear *)

Lemma double_lxor a b u v :
  2 * Z.lxor a b + Z.b2z (xorb u v) = Z.lxor (2 * a + Z.b2z u) (2 * b + Z.b2z v).
Proof.
  apply Z.bits_inj'. intros i Hi. rewrite Z.lxor_spec. destruct (Z.eq_dec i 0) as [->|].
  - by rewrite !Z.testbit_0_r.
  - replace i with (Z.succ (i - 1)) by lia. rewrite !Z.testbit_succ_r by lia. apply Z.lxor_spec.
Qed.

Lemma linear_permute n table : linear (permute n table).
Proof.
  intros x y. unfold permute. rewrite <- (Z.lxor_0_r 0) at 1. generalize 0 at 2 4 as a. generalize 0 as b.
  induction table as [|t table IH]; intros b a; [done|]. cbn [foldl].
  by rewrite Z.lxor_spec, double_lxor, IH.
Qed.

Lemma permute_range n table x : is_uint (Z.of_nat (length table)) (permute n table x).
Proof.
  unfold permute. induction table as [|t table IH] using rev_ind; [done|].
  rewrite foldl_app, length_app, Nat2Z.inj_add. cbn [foldl length]. unfold is_uint in *.
  rewrite Z.pow_add_r by lia. destruct (Z.testbit _ _); cbn [Z.b2z]; lia.
Qed.

(** ** The halves of a block *)

Definition hi (x : Z) : Z := Z.land (Z.shiftr x 32) 0xffffffff.
Definition lo (x : Z) : Z := Z.land x 0xffffffff.
Definition join (l r : Z) : Z := Z.lor (Z.shiftl l 32) r.

Lemma lo_range x : is_uint 32 (lo x).
Proof. by apply land_range. Qed.
Lemma hi_range x : is_uint 32 (hi x).
Proof. by apply land_range. Qed.

Lemma lo_mod x : lo x = x mod 2 ^ 32.
Proof. unfold lo. change 0xffffffff with (Z.ones 32). by rewrite Z.land_ones. Qed.

Lemma hi_join l r : is_uint 32 l -> is_uint 32 r -> hi (join l r) = l.
Proof.
  intros Hl Hr. unfold hi, join. rewrite Z.shiftr_lor, Z.shiftr_shiftl_l, Z.shiftl_0_r by lia.
  rewrite (Z.shiftr_div_pow2 r), Z.div_small, Z.lor_0_r by (done || lia).
  change 0xffffffff with (Z.ones 32). rewrite Z.land_ones by lia. by apply Z.mod_small.
Qed.

Lemma lo_join l r : is_uint 32 r -> lo (join l r) = r.
Proof.
  intros Hr. rewrite lo_mod. unfold join. apply Z.bits_inj'. intros i Hi.
  destruct (Z.lt_ge_cases i 32).
  - rewrite Z.mod_pow2_bits_low, Z.lor_spec, Z.shiftl_spec, Z.testbit_neg_r by lia. done.
  - rewrite Z.mod_pow2_bits_high by lia. by rewrite (uint_bits_above 32 r).
Qed.

Lemma join_hi_lo x : is_uint 64 x -> join (hi x) (lo x) = x.
Proof.
  intros Hx. unfold join, hi, lo. apply Z.bits_inj'. intros i Hi. change 0xffffffff with (Z.ones 32).
  rewrite Z.lor_spec, Z.shiftl_spec, !Z.land_spec by lia. destruct (Z.lt_ge_cases i 32).
  - rewrite (Z.testbit_neg_r _ (i - 32)), (Z.ones_spec_low 32 i) by lia. by rewrite andb_true_r.
  - rewrite Z.shiftr_spec, (Z.ones_spec_high 32 i), andb_false_r, orb_false_r by lia.
    replace (i - 32 + 32) with i by lia. destruct (Z.lt_ge_cases i 64).
    + by rewrite Z.ones_spec_low, andb_true_r by lia.
    + by rewrite (uint_bits_above 64 x).
Qed.

Lemma join_range l r : is_uint 32 l -> is_uint 32 r -> is_uint 64 (join l r).
Proof.
  intros Hl Hr. apply lor_range; [done| |].
  - unfold is_uint in *. rewrite Z.shiftl_mul_pow2 by lia. lia.
  - unfold is_uint in *. lia.
Qed.

(** ** The initial and the final permutation *)

(** [by_basis w]: two linear maps of numbers of [w] bits, evaluated on the powers of 2. *)
Lemma linear_hi_permute n t : linear (fun x => hi (permute n t x)).
Proof. apply (linear_land (fun x => Z.shiftr _ _)), linear_shiftr; [lia|]. apply linear_permute. Qed.
Lemma linear_lo_permute n t : linear (fun x => lo (permute n t x)).
Proof. apply linear_land, linear_permute. Qed.

Lemma initial_perm_spec x : is_uint 64 x ->
  DES_INITIAL_PERM (hi x) (lo x) = (hi (permute 64 fips_IP x), lo (permute 64 fips_IP x)).
Proof.
  intros Hx. unfold DES_INITIAL_PERM. f_equal.
  - apply (linear_check 64 (fun x => ip_lookup (DES_IP_LEFT_BITS (hi x) (lo x)))
             (fun x => hi (permute 64 fips_IP x))); [|apply linear_hi_permute|vm_compute; reflexivity|exact Hx].
    unfold ip_lookup, DES_IP_LEFT_BITS, hi, lo. eapply lin_linear. lin.
  - apply (linear_check 64 (fun x => ip_lookup (DES_IP_RIGHT_BITS (hi x) (lo x)))
             (fun x => lo (permute 64 fips_IP x))); [|apply linear_lo_permute|vm_compute; reflexivity|exact Hx].
    unfold ip_lookup, DES_IP_RIGHT_BITS, hi, lo. eapply lin_linear. lin.
Qed.

Lemma final_perm_spec x : is_uint 64 x ->
  DES_FINAL_PERM (lo x) (hi x) = (hi (permute 64 fips_IP_inverse x), lo (permute 64 fips_IP_inverse x)).
Proof.
  intros Hx. unfold DES_FINAL_PERM. f_equal.
  - apply (linear_check 64 (fun x => fp_lookup (DES_FP_LEFT_BITS (hi x) (lo x)))
             (fun x => hi (permute 64 fips_IP_inverse x)));
      [|apply linear_hi_permute|vm_compute; reflexivity|exact Hx].
    unfold fp_lookup, DES_FP_LEFT_BITS, hi, lo. eapply lin_linear. lin.
  - apply (linear_check 64 (fun x => fp_lookup (DES_FP_RIGHT_BITS (hi x) (lo x)))
             (fun x => lo (permute 64 fips_IP_inverse x)));
      [|apply linear_lo_permute|vm_compute; reflexivity|exact Hx].
    unfold fp_lookup, DES_FP_RIGHT_BITS, hi, lo. eapply lin_linear. lin.
Qed.

(** ** The cipher function *)

(** The subkey words of the code: six bits of the key in each octet, in the order in which
    the tables are used. *)
Definition pack (K : Z) (a b c d : nat) : Z :=
  Z.lor (Z.lor (Z.lor (shl32 (group6 K a) 24) (shl32 (group6 K b) 16)) (shl32 (group6 K c) 8)) (group6 K d).

Definition first_word (K : Z) : Z := pack K 6 0 2 4.
Definition second_word (K : Z) : Z := pack K 3 5 7 1.

Lemma linear_group6 j : (j < 8)%nat -> linear (fun x => group6 x j).
Proof. intros Hj. apply (linear_land (fun x => Z.shiftr x _)), (linear_shiftr (fun x => x)); [lia|done]. Qed.

Lemma group6_range x j : 0 <= group6 x j < 64.
Proof. unfold group6. change 0x3f with (Z.ones 6). rewrite Z.land_ones by lia. by apply Z.mod_pos_bound. Qed.

(** Six bits of a rotated half block with a subkey are a group of the expanded half block
    with the key. *)
Lemma index_spec (rot : Z -> Z) (word : Z -> Z) s j R K :
  is_uint 32 R -> is_uint 48 K -> (j < 8)%nat ->
  (forall R, is_uint 32 R -> Z.land (Z.shiftr (rot R) s) 0x3f = group6 (permute 32 fips_E R) j) ->
  (forall K, is_uint 48 K -> Z.land (Z.shiftr (word K) s) 0x3f = group6 K j) ->
  Z.land (Z.shiftr (Z.lxor (rot R) (word K)) s) 0x3f = group6 (Z.lxor (permute 32 fips_E R) K) j.
Proof.
  intros HR HK Hj Hrot Hword. rewrite (linear_group6 j Hj), <- Hrot, <- Hword by done.
  rewrite Z.shiftr_lxor. bitwise.
Qed.

Lemma rot_spec rot s j : lin 0xffffffff rot -> 0 <= s -> (j < 8)%nat ->
  forallb (fun i => Z.land (Z.shiftr (rot (2 ^ Z.of_nat i)) s) 0x3f
                    =? group6 (permute 32 fips_E (2 ^ Z.of_nat i)) j) (seq 0 32) = true ->
  forall R, is_uint 32 R -> Z.land (Z.shiftr (rot R) s) 0x3f = group6 (permute 32 fips_E R) j.
Proof.
  intros [L _] Hs Hj H. apply (linear_check 32 (fun R => Z.land (Z.shiftr (rot R) s) 0x3f)
    (fun R => group6 (permute 32 fips_E R) j)); [| |exact H].
  - by apply linear_land, linear_shiftr.
  - apply (linear_comp (fun x => group6 x j)); [by apply linear_group6|apply linear_permute].
Qed.

Lemma word_spec word s j : lin 0xffffffff word -> 0 <= s -> (j < 8)%nat ->
  forallb (fun i => Z.land (Z.shiftr (word (2 ^ Z.of_nat i)) s) 0x3f =? group6 (2 ^ Z.of_nat i) j)
    (seq 0 48) = true ->
  forall K, is_uint 48 K -> Z.land (Z.shiftr (word K) s) 0x3f = group6 K j.
Proof.
  intros [L _] Hs Hj H. apply (linear_check 48 (fun K => Z.land (Z.shiftr (word K) s) 0x3f)
    (fun K => group6 K j)); [| |exact H].
  - by apply linear_land, linear_shiftr.
  - by apply linear_group6.
Qed.

Definition rot_first (R : Z) : Z := Z.lor (Z.shiftr R 11) (shl32 R 21).
Definition rot_second (R : Z) : Z := Z.lor (Z.shiftr R 23) (shl32 R 9).

(** On words the rotations are linear; [lo] makes this hold for every argument. *)
Lemma rot_lin : lin 0xffffffff (fun R => rot_first (lo R)) /\ lin 0xffffffff (fun R => rot_second (lo R)).
Proof.
  split; unfold rot_first, rot_second, lo;
    (eapply lin_mono; cycle 1; [lin|vm_compute; reflexivity]).
Qed.

Lemma word_lin : lin 0xffffffff first_word /\ lin 0xffffffff second_word.
Proof.
  split; unfold first_word, second_word, pack, group6;
    (eapply lin_mono; cycle 1; [lin|vm_compute; reflexivity]).
Qed.

Lemma lo_id R : is_uint 32 R -> lo R = R.
Proof. intros H. rewrite lo_mod. by apply Z.mod_small. Qed.

(** The part of f that selection function [j] contributes. *)
Definition part (j : nat) (g : Z) : Z := permute 32 fips_P (Z.shiftl (select j g) (28 - 4 * Z.of_nat j)).

(** The order of the tables: 7, 1, 3, 5 and 4, 6, 8, 2. *)
Definition sp_order : list nat := [6; 0; 2; 4; 3; 5; 7; 1]%nat.

Definition sp_mask (n : nat) : Z := foldr Z.lor 0 (nth n des_SP_table []).

Lemma sp_tables :
  forallb (fun n => forallb (fun g => (SP n g =? part (nth n sp_order 0%nat) g) &&
                                     (Z.land (SP n g) (sp_mask n) =? SP n g)) (seqZ 0 64)) (seq 0 8) = true.
Proof. vm_compute. reflexivity. Qed.

Lemma sp_part (n : nat) g : (n < 8)%nat -> 0 <= g < 64 ->
  SP n g = part (nth n sp_order 0%nat) g /\ Z.land (SP n g) (sp_mask n) = SP n g.
Proof.
  intros Hn Hg. pose proof sp_tables as H. rewrite forallb_forall in H.
  specialize (H n ltac:(apply in_seq; lia)). pose proof (forallb_seqZ _ _ g H Hg) as E. cbv beta in E.
  apply andb_true_iff in E as [E1%Z.eqb_eq E2%Z.eqb_eq]. done.
Qed.

(** Four lookups in tables with disjoint masks. *)
Lemma sp_lor (n : nat) g0 g1 g2 g3 : n = 0%nat \/ n = 4%nat ->
  0 <= g0 < 64 -> 0 <= g1 < 64 -> 0 <= g2 < 64 -> 0 <= g3 < 64 ->
  Z.lor (Z.lor (Z.lor (SP n g0) (SP (n + 1) g1)) (SP (n + 2) g2)) (SP (n + 3) g3) =
  Z.lxor (Z.lxor (Z.lxor (part (nth n sp_order 0%nat) g0) (part (nth (n + 1) sp_order 0%nat) g1))
                 (part (nth (n + 2) sp_order 0%nat) g2)) (part (nth (n + 3) sp_order 0%nat) g3).
Proof.
  intros Hn H0 H1 H2 H3.
  destruct (sp_part n g0 ltac:(lia) H0) as [<- M0]. destruct (sp_part (n + 1) g1 ltac:(lia) H1) as [<- M1].
  destruct (sp_part (n + 2) g2 ltac:(lia) H2) as [<- M2]. destruct (sp_part (n + 3) g3 ltac:(lia) H3) as [<- M3].
  pose proof (within_lor _ _ _ _ M0 M1) as M01. pose proof (within_lor _ _ _ _ M01 M2) as M012.
  rewrite (lor_disjoint _ _ _ _ M012 M3), (lor_disjoint _ _ _ _ M01 M2), (lor_disjoint _ _ _ _ M0 M1);
    [done|destruct Hn as [-> | ->]; vm_compute; reflexivity..].
Qed.

(** The checks that six bits come from the right places. *)
Lemma sp_index rot word s j R K :
  lin 0xffffffff (fun R => rot (lo R)) -> lin 0xffffffff word -> is_uint 32 R -> is_uint 48 K ->
  0 <= s -> (j < 8)%nat ->
  forallb (fun i => Z.land (Z.shiftr (rot (lo (2 ^ Z.of_nat i))) s) 0x3f
                    =? group6 (permute 32 fips_E (2 ^ Z.of_nat i)) j) (seq 0 32) = true ->
  forallb (fun i => Z.land (Z.shiftr (word (2 ^ Z.of_nat i)) s) 0x3f =? group6 (2 ^ Z.of_nat i) j)
    (seq 0 48) = true ->
  Z.land (Z.shiftr (Z.lxor (rot R) (word K)) s) 0x3f = group6 (Z.lxor (permute 32 fips_E R) K) j.
Proof.
  intros L W HR HK Hs Hj H1 H2. rewrite <- (lo_id R HR) at 1.
  apply (index_spec (fun R => rot (lo R)) word); [done..|by apply rot_spec|by apply word_spec].
Qed.

Ltac sp_index rot word s j :=
  rewrite (sp_index rot word s j) by first [assumption|lia|vm_compute; reflexivity].

Lemma sp_first_spec R K : is_uint 32 R -> is_uint 48 K ->
  let x := Z.lxor (permute 32 fips_E R) K in
  sp_first R (first_word K) =
  Z.lxor (Z.lxor (Z.lxor (part 6 (group6 x 6)) (part 0 (group6 x 0))) (part 2 (group6 x 2))) (part 4 (group6 x 4)).
Proof.
  intros HR HK x. etrans; [|apply (sp_lor 0); [by left|apply group6_range..]].
  unfold sp_first, x. fold (rot_first R). destruct rot_lin as [L _], word_lin as [W _].
  sp_index rot_first first_word 24 6%nat. sp_index rot_first first_word 16 0%nat.
  sp_index rot_first first_word 8 2%nat. rewrite <- (Z.shiftr_0_r (Z.lxor (rot_first R) _)).
  by sp_index rot_first first_word 0 4%nat.
Qed.

Lemma sp_second_spec R K : is_uint 32 R -> is_uint 48 K ->
  let x := Z.lxor (permute 32 fips_E R) K in
  sp_second R (second_word K) =
  Z.lxor (Z.lxor (Z.lxor (part 3 (group6 x 3)) (part 5 (group6 x 5))) (part 7 (group6 x 7))) (part 1 (group6 x 1)).
Proof.
  intros HR HK x. etrans; [|apply (sp_lor 4); [by right|apply group6_range..]].
  unfold sp_second, x. fold (rot_second R). destruct rot_lin as [_ L], word_lin as [_ W].
  sp_index rot_second second_word 24 3%nat. sp_index rot_second second_word 16 5%nat.
  sp_index rot_second second_word 8 7%nat. rewrite <- (Z.shiftr_0_r (Z.lxor (rot_second R) _)).
  by sp_index rot_second second_word 0 1%nat.
Qed.

(** The concatenation of the selections as an exclusive or. *)
Lemma select_range : forallb (fun j => forallb (fun g => (0 <=? select j g) && (select j g <? 16)) (seqZ 0 64))
  (seq 0 8) = true.
Proof. vm_compute. reflexivity. Qed.

Lemma append4 a s : 0 <= s < 16 -> 16 * a + s = Z.lxor (Z.shiftl a 4) s.
Proof.
  intros Hs. rewrite <- Z.add_nocarry_lxor; [rewrite Z.shiftl_mul_pow2; lia|]. bitwise.
  rewrite Z.shiftl_spec by lia. destruct (Z.lt_ge_cases i 4).
  - by rewrite Z.testbit_neg_r by lia.
  - by rewrite (uint_bits_above 4 s), andb_false_r.
Qed.

Lemma selections_parts x :
  permute 32 fips_P (selections x) =
  foldr (fun j a => Z.lxor (part j (group6 x j)) a) 0 (seq 0 8).
Proof.
  assert (S : forall j, (j < 8)%nat -> 0 <= select j (group6 x j) < 16).
  { intros j Hj. pose proof select_range as H. rewrite forallb_forall in H.
    specialize (H j ltac:(apply in_seq; lia)).
    pose proof (forallb_seqZ _ _ (group6 x j) H (group6_range x j)) as E. cbv beta in E. lia. }
  unfold selections. cbn [seq foldl foldr]. unfold part.
  rewrite !append4 by (apply S; lia). rewrite !Z.shiftl_lxor, !Z.shiftl_shiftl by lia.
  rewrite Z.shiftl_0_l, !linear_permute. change (permute 32 fips_P 0) with 0. rewrite !Z.lxor_0_l.
  rewrite Z.lxor_0_r, !Z.lxor_assoc. done.
Qed.

Lemma round_spec left R K : is_uint 32 R -> is_uint 48 K ->
  DES_SP_ENCRYPT_ROUND left R (first_word K) (second_word K) = Z.lxor left (fips_f R K).
Proof.
  intros HR HK. unfold DES_SP_ENCRYPT_ROUND, fips_f.
  rewrite sp_first_spec, sp_second_spec, selections_parts by done. cbn [seq foldr]. bitwise.
Qed.

(** ** The key schedule *)

Lemma lin_shiftl m n f : 0 <= n -> lin m f -> lin (Z.shiftl m n) (fun x => Z.shiftl (f x) n).
Proof.
  intros Hn [Lf Wf]. split; [intros x y; rewrite Lf; apply Z.shiftl_lxor|].
  intros x. by rewrite <- Z.shiftl_land, Wf.
Qed.

Lemma lin_range w f : 0 <= w -> linear f -> (forall x, is_uint w (f x)) -> lin (Z.ones w) f.
Proof. intros Hw Lf R. split; [done|]. intros x. rewrite Z.land_ones by done. by apply Z.mod_small, R. Qed.

Abbreviation mask28 := 0xfffffff.

Lemma rotate28_lin two c : lin mask28 c -> lin mask28 (fun x => rotate28 two (c x)).
Proof.
  intros H. unfold rotate28. destruct two; (eapply lin_mono; cycle 1; [lin|vm_compute; reflexivity]).
Qed.

Lemma pc2_linear c d : lin mask28 c -> lin mask28 d ->
  linear (fun x => (pc2 (c x) (d x)).1) /\ linear (fun x => (pc2 (c x) (d x)).2).
Proof.
  intros Hc Hd. unfold pc2, table2_at. cbn [fst snd nth PC2_C PC2_D]. split; (eapply lin_linear; lin).
Qed.

Lemma pc1_lin : lin mask28 (fun x => (pc1 (hi x) (lo x)).1) /\ lin mask28 (fun x => (pc1 (hi x) (lo x)).2).
Proof.
  unfold pc1, hi, lo. cbn [fst snd].
  split; (eapply lin_mono; cycle 1; [lin|vm_compute; reflexivity]).
Qed.

Lemma sched_loop_linear i tbs c d n : lin mask28 c -> lin mask28 d ->
  linear (fun x => nth n (sched_loop i tbs (c x) (d x)) 0).
Proof.
  revert tbs c d n. induction i as [|i IH]; intros tbs c d n Hc Hd; cbn [sched_loop].
  { intros x y. by destruct n. }
  set (two := negb _). pose proof (rotate28_lin two c Hc) as Hc'. pose proof (rotate28_lin two d Hd) as Hd'.
  destruct (pc2_linear _ _ Hc' Hd') as [L1 L2]. pose proof (IH (Z.shiftr tbs 1) _ _ (n - 2)%nat Hc' Hd') as L3.
  intros x y. specialize (L1 x y). specialize (L2 x y). specialize (L3 x y). cbv beta in *.
  destruct (pc2 (rotate28 two (c (Z.lxor x y))) _), (pc2 (rotate28 two (c x)) _), (pc2 (rotate28 two (c y)) _).
  destruct n as [|[|n]]; cbn in *; [done..|]. by rewrite Nat.sub_0_r in L3.
Qed.

Lemma rotl28_lin n c : 0 <= n <= 2 -> lin mask28 c -> lin mask28 (fun x => rotl28 n (c x)).
Proof.
  intros Hn H. assert (n = 0 \/ n = 1 \/ n = 2) as [-> | [-> | ->]] by lia; unfold rotl28.
  all: eapply lin_mono; cycle 1;
    [eapply lin_lor; [eapply lin_land, lin_shiftl; [lia|eassumption]|eapply lin_shiftr; [lia|eassumption]|]|];
    vm_compute; reflexivity.
Qed.

Lemma fips_keys_linear shifts C D n :
  Forall (fun s => 0 <= s <= 2) shifts -> lin mask28 C -> lin mask28 D ->
  linear (fun x => nth n (fips_keys_from shifts (C x) (D x)) 0).
Proof.
  intros Hs. revert C D n. induction Hs as [|s shifts Hs _ IH]; intros C D n HC HD; cbn [fips_keys_from].
  { intros x y. by destruct n. }
  pose proof (rotl28_lin s C Hs HC) as HC'. pose proof (rotl28_lin s D Hs HD) as HD'.
  destruct n as [|n]; cbn [nth]; [|by apply IH].
  apply (linear_comp (permute 56 fips_PC2)); [apply linear_permute|]. eapply lin_linear, lin_lor.
  - eapply lin_shiftl; [lia|exact HC'].
  - exact HD'.
  - vm_compute. reflexivity.
Qed.

Lemma fips_pc1_lin : lin mask28 (fun x => Z.shiftr (permute 64 fips_PC1 x) 28) /\
  lin mask28 (fun x => Z.land (permute 64 fips_PC1 x) mask28).
Proof.
  assert (L : lin (Z.ones 56) (permute 64 fips_PC1))
    by (apply lin_range; [lia|apply linear_permute|apply permute_range]).
  split; (eapply lin_mono; cycle 1; [lin|vm_compute; reflexivity]).
Qed.

(** The two words of each key. *)
Definition key_words (keys : list Z) : mit_des_key_schedule :=
  concat ((fun K => [first_word K; second_word K]) <$> keys).

Lemma key_words_nth keys n : nth n (key_words keys) 0 =
  (if Nat.even n then first_word else second_word) (nth (Nat.div2 n) keys 0).
Proof.
  revert n. induction keys as [|K keys IH]; intros n.
  - cbn. destruct n as [|n]; [done|]. by destruct (Nat.even _), (Nat.div2 _).
  - destruct n as [|[|n]]; [done..|]. exact (IH n).
Qed.

Lemma fips_keys_from_length s C D : length (fips_keys_from s C D) = length s.
Proof. revert C D. induction s as [|n s IH]; intros; [done|]. cbn. by rewrite IH. Qed.

Lemma sched_loop_length i t c d : length (sched_loop i t c d) = (2 * i)%nat.
Proof.
  revert t c d. induction i as [|i IH]; intros; [done|]. cbn [sched_loop]. destruct (pc2 _ _).
  cbn [length]. rewrite IH. lia.
Qed.

Lemma key_words_length keys : length (key_words keys) = (2 * length keys)%nat.
Proof.
  induction keys as [|K keys IH]; [done|]. unfold key_words in *. cbn. rewrite IH. lia.
Qed.

Definition sched_of (x : Z) : mit_des_key_schedule :=
  sched_loop 16 TWO_BIT_SHIFTS (pc1 (hi x) (lo x)).1 (pc1 (hi x) (lo x)).2.

Lemma sched_basis :
  forallb (fun i => bool_decide (sched_of (2 ^ Z.of_nat i) = key_words (fips_keys (2 ^ Z.of_nat i)))) (seq 0 64)
  = true.
Proof. vm_compute. reflexivity. Qed.

Lemma sched_spec x : is_uint 64 x -> sched_of x = key_words (fips_keys x).
Proof.
  intros Hx. apply (nth_ext _ _ 0 0).
  { by rewrite key_words_length; unfold fips_keys, sched_of; rewrite sched_loop_length, fips_keys_from_length. }
  intros n _. apply (linear_ext 64 (fun x => nth n (sched_of x) 0) (fun x => nth n (key_words (fips_keys x)) 0));
    [| | |exact Hx].
  - apply sched_loop_linear; apply pc1_lin.
  - intros y z. rewrite !key_words_nth.
    pose proof (fips_keys_linear fips_shifts _ _ (Nat.div2 n) ltac:(by repeat constructor)
                  (proj1 fips_pc1_lin) (proj2 fips_pc1_lin) y z) as L. cbv beta in L.
    unfold fips_keys. rewrite L.
    destruct word_lin as [[W1 _] [W2 _]]. destruct (Nat.even n); [apply W1|apply W2].
  - intros i Hi. pose proof sched_basis as H. rewrite forallb_forall in H.
    specialize (H i ltac:(apply in_seq; lia)). apply bool_decide_eq_true in H. by rewrite H.
Qed.

Lemma fips_keys_range x : Forall (is_uint 48) (fips_keys x).
Proof.
  unfold fips_keys. generalize (Z.shiftr (permute 64 fips_PC1 x) 28) (Z.land (permute 64 fips_PC1 x) mask28).
  induction fips_shifts as [|s shifts IH]; intros C D; constructor; [apply permute_range|apply IH].
Qed.

(** ** Sixteen rounds *)

Definition halves (lr : Z * Z) : Prop := is_uint 32 lr.1 /\ is_uint 32 lr.2.

Lemma fips_round_range lr K : halves lr -> halves (fips_round lr K).
Proof. intros [? ?]. split; [done|]. apply lxor_range; [done..|]. apply permute_range. Qed.

Lemma fips_rounds_range keys lr : halves lr -> halves (foldl fips_round lr keys).
Proof. revert lr. induction keys; intros lr H; [done|]. cbn [foldl]. by apply IHkeys, fips_round_range. Qed.

Lemma nth_range keys n : Forall (is_uint 48) keys -> is_uint 48 (nth n keys 0).
Proof. intros H. revert n. induction H; intros [|n]; cbn; done. Qed.

Lemma key_words_at keys i : 0 <= i ->
  table_at (key_words keys) (4 * i) = first_word (nth (2 * Z.to_nat i) keys 0) /\
  table_at (key_words keys) (4 * i + 1) = second_word (nth (2 * Z.to_nat i) keys 0) /\
  table_at (key_words keys) (4 * i + 2) = first_word (nth (2 * Z.to_nat i + 1) keys 0) /\
  table_at (key_words keys) (4 * i + 3) = second_word (nth (2 * Z.to_nat i + 1) keys 0).
Proof.
  intros Hi. unfold table_at. rewrite !key_words_nth.
  replace (Z.to_nat (4 * i)) with (2 * (2 * Z.to_nat i))%nat by lia.
  replace (Z.to_nat (4 * i + 1)) with (S (2 * (2 * Z.to_nat i)))%nat by lia.
  replace (Z.to_nat (4 * i + 2)) with (2 * (2 * Z.to_nat i + 1))%nat by lia.
  replace (Z.to_nat (4 * i + 3)) with (S (2 * (2 * Z.to_nat i + 1)))%nat by lia.
  rewrite !Nat.div2_succ_double, !Nat.div2_double, !Nat.even_succ, <- !Nat.negb_even, !Nat.even_even. done.
Qed.

Lemma encrypt_rounds_spec keys lr i : Forall (is_uint 48) keys -> halves lr -> 0 <= i ->
  encrypt_rounds (key_words keys) lr i =
  fips_round (fips_round lr (nth (2 * Z.to_nat i) keys 0)) (nth (2 * Z.to_nat i + 1) keys 0).
Proof.
  intros HK HR Hi. destruct (key_words_at keys i Hi) as (E0 & E1 & E2 & E3).
  unfold encrypt_rounds. rewrite E0, E1, E2, E3.
  rewrite !round_spec by first [by apply nth_range|apply HR|apply lxor_range; [done|apply HR|apply permute_range]].
  done.
Qed.

Lemma take_two {A} (d : A) (l : list A) n : (2 * n + 2 <= length l)%nat ->
  take (2 * (n + 1)) l = take (2 * n) l ++ [nth (2 * n) l d; nth (2 * n + 1) l d].
Proof.
  intros H. replace (2 * (n + 1))%nat with (S (S (2 * n))) by lia.
  rewrite (take_S_r l _ (nth (2 * n + 1) l d)), (take_S_r l _ (nth (2 * n) l d)), <- app_assoc.
  1: done.
  all: destruct (nth_lookup_or_length l (2 * n) d), (nth_lookup_or_length l (2 * n + 1) d); try lia; try done.
  by replace (S (2 * n)) with (2 * n + 1)%nat by lia.
Qed.

Lemma encrypt_loop_spec keys lr (n : nat) : Forall (is_uint 48) keys -> halves lr -> (2 * n <= length keys)%nat ->
  foldl (encrypt_rounds (key_words keys)) lr (seqZ 0 (Z.of_nat n)) = foldl fips_round lr (take (2 * n) keys).
Proof.
  intros HK HR. induction n as [|n IH]; intros Hn; [done|].
  rewrite Nat2Z.inj_succ, <- Z.add_1_r, seqZ_app, foldl_app, IH by lia.
  rewrite <- (Nat.add_1_r n), (take_two 0) by lia. rewrite foldl_app. change (seqZ (0 + Z.of_nat n) 1) with [0 + Z.of_nat n].
  cbn [foldl]. rewrite encrypt_rounds_spec by first [done|by apply fips_rounds_range|lia].
  by replace (Z.to_nat (0 + Z.of_nat n)) with n by lia.
Qed.

Lemma decrypt_round_spec left right k0 k1 :
  DES_SP_DECRYPT_ROUND left right k1 k0 = DES_SP_ENCRYPT_ROUND left right k0 k1.
Proof. unfold DES_SP_DECRYPT_ROUND, DES_SP_ENCRYPT_ROUND, sp_first, sp_second. bitwise. Qed.

Lemma decrypt_loop_spec keys lr : length keys = 16%nat ->
  foldl (decrypt_rounds (key_words keys)) lr (seqZ 0 8) =
  foldl (encrypt_rounds (key_words (reverse keys))) lr (seqZ 0 8).
Proof.
  intros H. cut (forall i lr, In i (seqZ 0 8) ->
    decrypt_rounds (key_words keys) lr i = encrypt_rounds (key_words (reverse keys)) lr i).
  { revert lr. induction (seqZ 0 8) as [|i l IH]; intros lr E; [done|]. cbn [foldl].
    rewrite E by (by left). apply IH. intros j lr' Hj. apply E. by right. }
  intros i lr' Hi. do 16 (destruct keys as [|? keys]; [discriminate|]). destruct keys; [|discriminate].
  unfold decrypt_rounds. rewrite !decrypt_round_spec.
  repeat (destruct Hi as [<- | Hi]; [reflexivity|]). done.
Qed.

Lemma shiftr_hi x : is_uint 64 x -> Z.shiftr x 32 = hi x.
Proof.
  intros Hx. unfold hi. change 0xffffffff with (Z.ones 32). rewrite Z.land_ones, Z.shiftr_div_pow2 by lia.
  symmetry. apply Z.mod_small. unfold is_uint in Hx. divlia.
Qed.

Lemma encrypt_loop_16 keys lr : Forall (is_uint 48) keys -> length keys = 16%nat -> halves lr ->
  foldl (encrypt_rounds (key_words keys)) lr (seqZ 0 8) = foldl fips_round lr keys.
Proof.
  intros HK Hl HR. replace 8 with (Z.of_nat 8) by done. rewrite encrypt_loop_spec by first [done|lia].
  by rewrite take_ge by lia.
Qed.

Lemma fips_cipher_halves keys b : is_uint 64 b ->
  let x := permute 64 fips_IP b in
  let lr := foldl fips_round (hi x, lo x) keys in
  halves lr /\ fips_cipher keys b = permute 64 fips_IP_inverse (join lr.2 lr.1).
Proof.
  intros Hb x lr. split; [apply fips_rounds_range; split; [apply hi_range|apply lo_range]|].
  unfold fips_cipher. fold x. rewrite shiftr_hi by apply permute_range. unfold lr, join, lo. reflexivity.
Qed.

(** The loops of DES_DO_ENCRYPT and DES_DO_DECRYPT between the two permutations. *)
Lemma do_encrypt_spec keys b : Forall (is_uint 48) keys -> length keys = 16%nat -> is_uint 64 b ->
  forall lr, foldl (encrypt_rounds (key_words keys)) (DES_INITIAL_PERM (hi b) (lo b)) (seqZ 0 8) = lr ->
  DES_FINAL_PERM lr.1 lr.2 = (hi (fips_cipher keys b), lo (fips_cipher keys b)).
Proof.
  intros HK Hl Hb lr. rewrite initial_perm_spec by done.
  rewrite encrypt_loop_16 by first [done|split; [apply hi_range|apply lo_range]].
  destruct (fips_cipher_halves keys b Hb) as [HR ->]. intros E. rewrite E in *. destruct HR as [HL HR].
  rewrite <- final_perm_spec by (by apply join_range). by rewrite hi_join, lo_join.
Qed.

Lemma get_half_block o0 o1 o2 o3 : octets [o0; o1; o2; o3] ->
  GET_HALF_BLOCK o0 o1 o2 o3 = octets_value [o0; o1; o2; o3].
Proof.
  intros H. repeat (apply Forall_cons_1 in H as [? H]). unfold GET_HALF_BLOCK. rewrite word_value by done.
  unfold octets_value. cbn [foldl]. lia.
Qed.

Lemma octets_value_blocks l r : length r = 4%nat -> octets r ->
  octets_value (l ++ r) = join (octets_value l) (octets_value r).
Proof.
  intros Hr Ho. pose proof (octets_value_range r Ho) as Hv. rewrite octets_value_app.
  unfold zlen in *. rewrite Hr in *. change (256 ^ Z.of_nat 4) with (2 ^ 32) in *. unfold join.
  rewrite <- Z.lxor_lor, <- Z.add_nocarry_lxor, Z.shiftl_mul_pow2 by
    first [lia|bitwise; rewrite Z.shiftl_spec by lia; destruct (Z.lt_ge_cases i 32);
               [by rewrite Z.testbit_neg_r by lia|by rewrite (uint_bits_above 32 (octets_value r)), andb_false_r]].
  done.
Qed.

(** The schedule of a key of eight octets. *)
Lemma key_sched_spec key : length key = 8%nat -> octets key ->
  make_key_sched key = Ok (key_words (fips_keys (octets_value key))) /\ is_uint 64 (octets_value key).
Proof.
  intros Hl Ho. assert (HV : is_uint 64 (octets_value key)).
  { pose proof (octets_value_range key Ho) as H. unfold zlen in H. by rewrite Hl in H. }
  split; [|done]. rewrite <- sched_spec by done.
  destruct key as [|k0 [|k1 [|k2 [|k3 [|k4 [|k5 [|k6 [|k7 [|]]]]]]]]]; try discriminate.
  cbn [make_key_sched]. pose proof (Forall_take _ 4 _ Ho) as H1. pose proof (Forall_drop _ 4 _ Ho) as H2.
  cbn [take drop] in H1, H2. rewrite !get_half_block by done. unfold sched_of.
  change [k0; k1; k2; k3; k4; k5; k6; k7] with ([k0; k1; k2; k3] ++ [k4; k5; k6; k7]).
  pose proof (octets_value_range _ H1). pose proof (octets_value_range _ H2).
  rewrite octets_value_blocks, hi_join, lo_join by done. by destruct (pc1 _ _).
Qed.

Lemma fips_keys_length x : length (fips_keys x) = 16%nat.
Proof. apply fips_keys_from_length. Qed.

(** ** Decryption inverts encryption *)

Definition swap (lr : Z * Z) : Z * Z := (lr.2, lr.1).

Lemma feistel keys lr :
  foldl fips_round (swap (foldl fips_round lr keys)) (reverse keys) = swap lr.
Proof.
  induction keys as [|K keys IH] using rev_ind; [done|].
  rewrite foldl_app, reverse_snoc. cbn [foldl]. rewrite <- IH. f_equal.
  destruct (foldl fips_round lr keys) as [l r]. unfold swap, fips_round. cbn [fst snd].
  by rewrite Z.lxor_assoc, Z.lxor_nilpotent, Z.lxor_0_r.
Qed.

Lemma ip_inverse x : is_uint 64 x ->
  permute 64 fips_IP (permute 64 fips_IP_inverse x) = x /\ permute 64 fips_IP_inverse (permute 64 fips_IP x) = x.
Proof.
  intros Hx. split.
  - apply (linear_check 64 (fun x => permute 64 fips_IP (permute 64 fips_IP_inverse x)) (fun x => x));
      [apply (linear_comp _ _ (linear_permute _ _) (linear_permute _ _))|apply linear_id|vm_compute; reflexivity|done].
  - apply (linear_check 64 (fun x => permute 64 fips_IP_inverse (permute 64 fips_IP x)) (fun x => x));
      [apply (linear_comp _ _ (linear_permute _ _) (linear_permute _ _))|apply linear_id|vm_compute; reflexivity|done].
Qed.

Lemma fips_cipher_range keys b : is_uint 64 (fips_cipher keys b).
Proof. apply permute_range. Qed.

Lemma fips_cipher_inverse keys b : is_uint 64 b ->
  fips_cipher (reverse keys) (fips_cipher keys b) = b.
Proof.
  intros Hb. destruct (fips_cipher_halves (reverse keys) _ (fips_cipher_range keys b)) as [_ ->].
  destruct (fips_cipher_halves keys b Hb) as [[HL HR] ->].
  rewrite (proj1 (ip_inverse _ (join_range _ _ HR HL))), hi_join, lo_join by done.
  set (lr := foldl _ _ keys). change (lr.2, lr.1) with (swap lr). unfold lr. rewrite feistel.
  unfold swap. cbn [fst snd]. rewrite join_hi_lo by apply permute_range. by apply ip_inverse.
Qed.

(** What chaining needs of the cipher of a block: halves yield halves, and decryption
    inverts encryption. *)
Class BlockCipher (enc dec : Z -> Z -> Z * Z) : Prop := {
  cipher_range l r : is_uint 32 l -> is_uint 32 r -> halves (enc l r);
  cipher_inverse l r : is_uint 32 l -> is_uint 32 r -> dec (enc l r).1 (enc l r).2 = (l, r)
}.

Section schedule.
Context (key : list octet) (key_length : length key = 8%nat) (key_octets : octets key).
Context (schedule : mit_des_key_schedule) (key_sched : make_key_sched key = Ok schedule).

Lemma des_blocks block : is_uint 64 block ->
  let e := fips_encrypt (octets_value key) block in
  let d := fips_decrypt (octets_value key) block in
  DES_DO_ENCRYPT schedule (hi block) (lo block) = (hi e, lo e) /\
  DES_DO_DECRYPT schedule (hi block) (lo block) = (hi d, lo d).
Proof.
  intros Hb e d. destruct (key_sched_spec key key_length key_octets) as [E _].
  rewrite E in key_sched. injection key_sched as <-.
  pose proof (fips_keys_range (octets_value key)). pose proof (fips_keys_length (octets_value key)).
  split; [by eapply do_encrypt_spec|]. unfold DES_DO_DECRYPT. rewrite decrypt_loop_spec by done.
  eapply do_encrypt_spec; [|by rewrite length_reverse|done|done]. by apply Forall_reverse.
Qed.

Lemma des_halves l r : is_uint 32 l -> is_uint 32 r ->
  exists b, is_uint 64 b /\ l = hi b /\ r = lo b.
Proof.
  intros Hl Hr. exists (join l r). by rewrite hi_join, lo_join by done; split; [apply join_range|].
Qed.

Lemma des_encrypt_cipher : BlockCipher (DES_DO_ENCRYPT schedule) (DES_DO_DECRYPT schedule).
Proof.
  split; intros l r Hl Hr; destruct (des_halves l r Hl Hr) as (b & Hb & -> & ->);
    destruct (des_blocks b Hb) as [-> _]; cbn [fst snd].
  - split; [apply hi_range|apply lo_range].
  - destruct (des_blocks _ (fips_cipher_range (fips_keys (octets_value key)) b)) as [_ E]. unfold fips_encrypt in *.
    rewrite E. unfold fips_decrypt. by rewrite fips_cipher_inverse.
Qed.

Lemma des_decrypt_cipher : BlockCipher (DES_DO_DECRYPT schedule) (DES_DO_ENCRYPT schedule).
Proof.
  split; intros l r Hl Hr; destruct (des_halves l r Hl Hr) as (b & Hb & -> & ->);
    destruct (des_blocks b Hb) as [_ ->]; cbn [fst snd].
  - split; [apply hi_range|apply lo_range].
  - destruct (des_blocks _ (fips_cipher_range (reverse (fips_keys (octets_value key))) b)) as [E _].
    unfold fips_decrypt in *. rewrite E. unfold fips_encrypt.
    rewrite <- (reverse_involutive (fips_keys _)) at 1 3. by rewrite fips_cipher_inverse.
Qed.
End schedule.

(** C27: For every key of eight octets the key schedule is computed, and on every block
    of 64 bits the table-driven macros compute the encryption and the decryption that
    FIPS 46 defines bit by bit. *)
Theorem des_fips key : length key = 8%nat -> octets key ->
  exists schedule, make_key_sched key = Ok schedule /\
  forall block, is_uint 64 block ->
    let e := fips_encrypt (octets_value key) block in
    let d := fips_decrypt (octets_value key) block in
    DES_DO_ENCRYPT schedule (hi block) (lo block) = (hi e, lo e) /\
    DES_DO_DECRYPT schedule (hi block) (lo block) = (hi d, lo d).
Proof.
  intros Hl Ho. destruct (key_sched_spec key Hl Ho) as [E _].
  eexists. split; [exact E|]. intros block Hb e d. by apply des_blocks.
Qed.
