(* ===== verification/DesCbcProofs.v ===== *)
(** * Cipher block chaining (f_cbc.c, d3_cbc.c)

    Decryption of a chain of blocks under the same key and initial vector returns the
    octets that were encrypted, whatever their number: an incomplete block is filled with
    zeros when it is encrypted and cut when it is decrypted.  The proof uses the cipher of
    a block only through [BlockCipher], of which DES and triple DES are instances. *)

From S2P Require Import Prelude Words DesTables Des DesProofs.

(** ** Half blocks and octets *)

Lemma get_half_range o0 o1 o2 o3 : octets [o0; o1; o2; o3] -> is_uint 32 (GET_HALF_BLOCK o0 o1 o2 o3).
Proof.
  intros H. rewrite get_half_block by done. pose proof (octets_value_range _ H) as R. exact R.
Qed.

Lemma be32_get o0 o1 o2 o3 : octets [o0; o1; o2; o3] -> be32 (GET_HALF_BLOCK o0 o1 o2 o3) = [o0; o1; o2; o3].
Proof.
  intros H. rewrite get_half_block by done. repeat (apply Forall_cons_1 in H as [? H]). unfold is_uint in *.
  unfold be32, octets_value. cbn [foldl]. change 255 with (Z.ones 8).
  rewrite !Z.land_ones, !Z.shiftr_div_pow2 by lia. repeat f_equal; divlia.
Qed.

Lemma be32_octets w : octets (be32 w).
Proof. unfold be32. repeat (apply Forall_cons_2; [by apply land_range|]). constructor. Qed.

Lemma get_be32 w : is_uint 32 w ->
  GET_HALF_BLOCK (Z.land (Z.shiftr w 24) 255) (Z.land (Z.shiftr w 16) 255) (Z.land (Z.shiftr w 8) 255) (Z.land w 255) = w.
Proof.
  intros [H0 H1]. rewrite get_half_block by apply (be32_octets w).
  unfold octets_value. cbn [foldl]. change 255 with (Z.ones 8).
  rewrite !Z.land_ones, !Z.shiftr_div_pow2 by lia. divlia.
Qed.

Lemma put_octets lr : octets (PUT_HALF_BLOCKS lr).
Proof. apply Forall_app. split; apply be32_octets. Qed.

(** ** A block of at most eight octets, filled with zeros *)

Definition fill (os : list octet) : list octet := take 8 (os ++ replicate 8 0).

Definition block_of (os : list octet) : Z * Z :=
  match fill os with
  | [o0; o1; o2; o3; o4; o5; o6; o7] => (GET_HALF_BLOCK o0 o1 o2 o3, GET_HALF_BLOCK o4 o5 o6 o7)
  | _ => (0, 0)
  end.

Definition xor_halves (a b : Z * Z) : Z * Z := (Z.lxor a.1 b.1, Z.lxor a.2 b.2).

Lemma xor_halves_twice a b : xor_halves (xor_halves a b) a = b.
Proof.
  destruct a, b. unfold xor_halves. cbn [fst snd]. f_equal.
  all: by rewrite (Z.lxor_comm _ z1) || rewrite (Z.lxor_comm _ z2); rewrite Z.lxor_assoc, Z.lxor_nilpotent, Z.lxor_0_r.
Qed.

Lemma fill_octets os : octets os -> octets (fill os).
Proof. intros H. apply Forall_take, Forall_app. split; [done|]. by apply Forall_replicate. Qed.

Lemma fill_take os : (length os <= 8)%nat -> take (length os) (fill os) = os.
Proof. intros H. unfold fill. rewrite take_take, Nat.min_l by lia. by rewrite take_app_length. Qed.

Lemma fill_full os : length os = 8%nat -> fill os = os.
Proof. intros H. rewrite <- (fill_take os) at 2 by lia. rewrite H. unfold fill. by rewrite take_take. Qed.

Lemma get_half_lxor o0 o1 o2 o3 : octets [o0; o1; o2; o3] ->
  GET_HALF_BLOCK o0 o1 o2 o3 =
  Z.lxor (Z.lxor (Z.lxor (shl32 o0 24) (shl32 o1 16)) (shl32 o2 8)) (shl32 o3 0).
Proof.
  assert (M : forall o s, is_octet o -> Z.land (shl32 o s) (shl32 0xff s) = shl32 o s).
  { intros o s H. bitwise. destruct (i <? 32); [|done]. cbn [andb]. change 255 with (Z.ones 8).
    rewrite <- Z.land_spec. f_equal. rewrite Z.land_ones by lia. by apply Z.mod_small. }
  intros H. repeat (apply Forall_cons_1 in H as [? H]). unfold GET_HALF_BLOCK.
  replace o3 with (shl32 o3 0) at 1.
  2:{ unfold shl32, to_uint. rewrite Z.shiftl_0_r. apply Z.mod_small. unfold is_uint in *. lia. }
  pose proof (M o0 24 ltac:(done)) as M0. pose proof (M o1 16 ltac:(done)) as M1.
  pose proof (M o2 8 ltac:(done)) as M2. pose proof (M o3 0 ltac:(done)) as M3.
  pose proof (within_lor _ _ _ _ M0 M1) as M01. pose proof (within_lor _ _ _ _ M01 M2) as M012.
  by rewrite (lor_disjoint _ _ _ _ M012 M3), (lor_disjoint _ _ _ _ M01 M2), (lor_disjoint _ _ _ _ M0 M1).
Qed.

Lemma octet_land o : is_octet o -> Z.land o 255 = o.
Proof. intros H. change 255 with (Z.ones 8). rewrite Z.land_ones by lia. by apply Z.mod_small. Qed.

(** The octets of a block, complete or not, are added to both halves. *)
Lemma xor_block lr os : octets os -> os <> [] -> (length os <= 8)%nat ->
  xor_partial lr 0 os = xor_halves lr (block_of os).
Proof.
  intros Ho Hn Hlen. destruct lr as [l r]. pose proof (fill_octets os Ho) as Hf.
  destruct os as [|o0 [|o1 [|o2 [|o3 [|o4 [|o5 [|o6 [|o7 [|]]]]]]]]]; [done|..|cbn in Hlen; lia].
  all: cbn in Hf; cbv -[Z.land Z.lxor Z.lor shl32 GET_HALF_BLOCK].
  all: repeat (apply Forall_cons_1 in Ho as [? Ho]); rewrite !octet_land by done.
  all: pose proof (Forall_take _ 4 _ Hf) as F1; pose proof (Forall_drop _ 4 _ Hf) as F2; cbn [take drop] in F1, F2.
  all: rewrite !get_half_lxor by done; f_equal; bitwise.
Qed.

(** The order in which the octets are added does not matter. *)
Lemma xor_octets lr o0 o1 o2 o3 o4 o5 o6 o7 :
  xor_octet (xor_octet (xor_octet (xor_octet (xor_octet (xor_octet (xor_octet (xor_octet
    lr 0 o0) 1 o1) 2 o2) 3 o3) 4 o4) 5 o5) 6 o6) 7 o7 =
  xor_partial lr 0 [o0; o1; o2; o3; o4; o5; o6; o7].
Proof. destruct lr as [l r]. cbv -[Z.land Z.lxor shl32]. f_equal; bitwise. Qed.

Lemma block_of_halves os : octets os -> halves (block_of os).
Proof.
  intros Ho. pose proof (fill_octets os Ho) as Hf. unfold block_of.
  destruct (fill os) as [|o0 [|o1 [|o2 [|o3 [|o4 [|o5 [|o6 [|o7 [|]]]]]]]]]; try done.
  pose proof (Forall_take _ 4 _ Hf) as F1. pose proof (Forall_drop _ 4 _ Hf) as F2. cbn [take drop] in F1, F2.
  split; by apply get_half_range.
Qed.

Lemma put_block os : octets os -> PUT_HALF_BLOCKS (block_of os) = fill os.
Proof.
  intros Ho. pose proof (fill_octets os Ho) as Hf. unfold block_of.
  assert (L : length (fill os) = 8%nat) by (unfold fill; rewrite length_take, length_app, length_replicate; lia).
  destruct (fill os) as [|o0 [|o1 [|o2 [|o3 [|o4 [|o5 [|o6 [|o7 [|]]]]]]]]]; try done.
  pose proof (Forall_take _ 4 _ Hf) as F1. pose proof (Forall_drop _ 4 _ Hf) as F2. cbn [take drop] in F1, F2.
  unfold PUT_HALF_BLOCKS. cbn [fst snd]. by rewrite !be32_get.
Qed.

Lemma xor_halves_range a b : halves a -> halves b -> halves (xor_halves a b).
Proof. intros [? ?] [? ?]. split; by apply lxor_range. Qed.

Lemma ivec_halves ivec lr : octets ivec -> get_ivec ivec = Ok lr -> halves lr.
Proof.
  intros Ho E. destruct ivec as [|o0 [|o1 [|o2 [|o3 [|o4 [|o5 [|o6 [|o7 rest]]]]]]]]; try discriminate.
  injection E as <-. pose proof (Forall_take _ 4 _ Ho) as F1.
  pose proof (Forall_take _ 4 _ (Forall_drop _ 4 _ Ho)) as F2. cbn [take drop] in F1, F2.
  split; by apply get_half_range.
Qed.

(** ** Chains *)

Section chain.
Context (enc dec : Z -> Z -> Z * Z) `{!BlockCipher enc dec}.

Definition enc_pair (lr : Z * Z) : Z * Z := enc lr.1 lr.2.

Lemma cbc_encrypt_block lr os : octets os -> os <> [] ->
  let y := enc_pair (xor_halves lr (block_of (take 8 os))) in
  cbc_encrypt_loop enc lr os = PUT_HALF_BLOCKS y ++ cbc_encrypt_loop enc y (drop 8 os).
Proof.
  intros Ho Hn y. assert (Ht : take 8 os <> []) by (by destruct os).
  pose proof (xor_block lr (take 8 os) (Forall_take _ 8 _ Ho) Ht ltac:(rewrite length_take; lia)) as E.
  unfold y. rewrite <- E.
  destruct os as [|o0 [|o1 [|o2 [|o3 [|o4 [|o5 [|o6 [|o7 os]]]]]]]]; [done|..].
  all: cbn [take drop cbc_encrypt_loop]; rewrite ?xor_octets, ?app_nil_r; reflexivity.
Qed.

Lemma cbc_decrypt_block olr y rest n : halves y ->
  cbc_decrypt_loop dec olr (PUT_HALF_BLOCKS y ++ rest) n =
  let lr := xor_halves (dec y.1 y.2) olr in
  if 8 <? n then let* out := cbc_decrypt_loop dec y rest (n - 8) in Ok (PUT_HALF_BLOCKS lr ++ out)
  else Ok (take (Z.to_nat n) (PUT_HALF_BLOCKS lr)).
Proof.
  intros [Hl Hr]. unfold PUT_HALF_BLOCKS at 1, be32. cbn [app cbc_decrypt_loop].
  rewrite !get_be32 by done. by destruct y.
Qed.

Lemma cbc_chain os lr : octets os -> os <> [] -> halves lr ->
  cbc_decrypt_loop dec lr (cbc_encrypt_loop enc lr os) (zlen os) = Ok os.
Proof.
  revert lr. induction os as [os IH] using (well_founded_ind (Wf_nat.well_founded_ltof _ length)).
  intros lr Ho Hn Hlr. rewrite cbc_encrypt_block by done. cbv zeta.
  pose proof (Forall_take _ 8 _ Ho) as Ht. pose proof (Forall_drop _ 8 _ Ho) as Hd.
  pose proof (block_of_halves _ Ht) as Hb. pose proof (xor_halves_range _ _ Hlr Hb) as Hx.
  set (x := xor_halves lr _) in *. assert (Hy : halves (enc_pair x)) by (apply cipher_range; apply Hx).
  rewrite cbc_decrypt_block by done. unfold enc_pair at 1 2. rewrite cipher_inverse by apply Hx.
  rewrite <- surjective_pairing. cbv zeta.
  replace (xor_halves x lr) with (block_of (take 8 os)) by (symmetry; apply xor_halves_twice).
  rewrite put_block by done.
  destruct (Z.ltb_spec 8 (zlen os)) as [H|H]; unfold zlen in *.
  - replace (Z.of_nat (length os) - 8) with (zlen (drop 8 os)) by (unfold zlen; rewrite length_drop; lia).
    rewrite IH; [|unfold ltof; rewrite length_drop; lia|done| |done].
    + cbn [obind]. by rewrite fill_full, take_drop by (rewrite length_take; lia).
    + intros E. apply (f_equal length) in E. rewrite length_drop in E. cbn in E. lia.
  - rewrite Nat2Z.id, (take_ge os 8) by lia. by rewrite fill_take by lia.
Qed.

Lemma cbc_encrypt_length os lr : octets os -> zlen (cbc_encrypt_loop enc lr os) = 8 * ((zlen os + 7) / 8).
Proof.
  revert lr. induction os as [os IH] using (well_founded_ind (Wf_nat.well_founded_ltof _ length)). intros lr Ho.
  destruct (decide (os = [])) as [->|Hn]; [done|]. rewrite cbc_encrypt_block by done. cbv zeta.
  pose proof (Forall_drop _ 8 _ Ho) as Hd. assert (0 < zlen os) by (destruct os; [done|rewrite zlen_cons; pose proof (zlen_nonneg os); lia]).
  rewrite zlen_app, IH; [|unfold ltof; rewrite length_drop; unfold zlen in *; lia|done].
  change (zlen (PUT_HALF_BLOCKS _)) with 8. unfold zlen in *. rewrite length_drop. divlia.
Qed.

Lemma cbc_encrypt_octets os lr : octets os -> octets (cbc_encrypt_loop enc lr os).
Proof.
  revert lr. induction os as [os IH] using (well_founded_ind (Wf_nat.well_founded_ltof _ length)). intros lr Ho.
  destruct (decide (os = [])) as [->|Hn]; [constructor|]. rewrite cbc_encrypt_block by done. cbv zeta.
  apply Forall_app. split; [apply put_octets|]. apply IH; [|by apply Forall_drop].
  unfold ltof. rewrite length_drop. destruct os; [done|]. cbn. lia.
Qed.
Lemma cbc_inverse m ivec : octets m -> octets ivec -> 8 <= zlen ivec ->
  exists c, cbc enc dec m (zlen m) ivec true = Ok c /\ cbc enc dec c (zlen m) ivec false = Ok m /\
  zlen c = 8 * ((zlen m + 7) / 8) /\ octets c.
Proof.
  intros Hm Hi Hl. assert (exists lr, get_ivec ivec = Ok lr) as [lr E].
  { unfold zlen in Hl. destruct ivec as [|? [|? [|? [|? [|? [|? [|? [|]]]]]]]]; cbn in Hl; try lia. by eexists. }
  pose proof (ivec_halves _ _ Hi E) as Hlr. unfold cbc. rewrite E. cbn [obind].
  rewrite Z.ltb_irrefl, take_ge by (unfold zlen; lia). eexists. split; [done|].
  split; [|split; [by apply cbc_encrypt_length|by apply cbc_encrypt_octets]]. destruct (decide (m = [])) as [->|Hn]; [done|].
  destruct (Z.leb_spec (zlen m) 0) as [H0|_]; [|by apply cbc_chain].
  destruct m; [done|]. rewrite zlen_cons in H0. pose proof (zlen_nonneg m). lia.
Qed.
End chain.

Lemma block_of_put lr : halves lr -> block_of (PUT_HALF_BLOCKS lr) = lr.
Proof.
  intros [Hl Hr]. unfold block_of. rewrite fill_full by done. destruct lr as [l r]. cbn [PUT_HALF_BLOCKS be32 app fst snd].
  by rewrite !get_be32.
Qed.

(** Encryption of what decryption of whole blocks returned. *)
Section chain_back.
Context (enc dec : Z -> Z -> Z * Z) `{!BlockCipher dec enc}.

Lemma cbc_chain_back (n : nat) c lr : octets c -> length c = (8 * S n)%nat -> halves lr ->
  exists m, cbc_decrypt_loop dec lr c (zlen c) = Ok m /\ length m = length c /\ octets m /\ cbc_encrypt_loop enc lr m = c.
Proof.
  revert c lr. induction n as [|n IH]; intros c lr Ho Hl Hlr.
  all: destruct c as [|o0 [|o1 [|o2 [|o3 [|o4 [|o5 [|o6 [|o7 rest]]]]]]]]; cbn [length] in Hl; try lia.
  all: pose proof (Forall_take _ 4 _ Ho) as F1; pose proof (Forall_take _ 4 _ (Forall_drop _ 4 _ Ho)) as F2;
    pose proof (Forall_drop _ 8 _ Ho) as F3; cbn [take drop] in F1, F2, F3.
  all: set (clr := (GET_HALF_BLOCK o0 o1 o2 o3, GET_HALF_BLOCK o4 o5 o6 o7)).
  all: assert (HC : halves clr) by (split; by apply get_half_range).
  all: assert (PC : PUT_HALF_BLOCKS clr = [o0; o1; o2; o3; o4; o5; o6; o7])
    by (unfold PUT_HALF_BLOCKS, clr; cbn [fst snd]; by rewrite !be32_get).
  all: assert (HD : halves (dec clr.1 clr.2)) by (apply cipher_range; apply HC).
  all: set (p := xor_halves (dec clr.1 clr.2) lr); assert (HP : halves p) by (by apply xor_halves_range).
  all: assert (EP : forall tl, octets tl -> cbc_encrypt_loop enc lr (PUT_HALF_BLOCKS p ++ tl) =
                               [o0; o1; o2; o3; o4; o5; o6; o7] ++ cbc_encrypt_loop enc clr tl).
  1,3: intros tl Htl; rewrite cbc_encrypt_block by (first [by apply Forall_app; split; [apply put_octets|]|done]); cbv zeta;
    rewrite take_app_length' by done; rewrite drop_app_length' by done; rewrite block_of_put by done;
    replace (xor_halves lr p) with (dec clr.1 clr.2) by
      (unfold p, xor_halves; destruct (dec _ _), lr; cbn [fst snd]; f_equal; bitwise);
    unfold enc_pair; rewrite cipher_inverse by apply HC; rewrite <- surjective_pairing; by rewrite PC.
  - exists (PUT_HALF_BLOCKS p). destruct rest; [|cbn in Hl; lia]. cbn [cbc_decrypt_loop]. fold clr.
    split_and!; [done|done|apply put_octets|]. rewrite <- (app_nil_r (PUT_HALF_BLOCKS p)). rewrite EP by constructor. done.
  - destruct (IH rest clr F3 ltac:(lia) HC) as (m & E & L & Om & Em).
    exists (PUT_HALF_BLOCKS p ++ m). cbn [cbc_decrypt_loop]. fold clr.
    replace (8 <? zlen _) with true by (symmetry; apply Z.ltb_lt; unfold zlen; cbn [length]; lia).
    replace (zlen (o0 :: o1 :: o2 :: o3 :: o4 :: o5 :: o6 :: o7 :: rest) - 8) with (zlen rest) by (unfold zlen; cbn [length]; lia).
    rewrite E. cbn [obind]. split_and!; [done|rewrite length_app, L; done|apply Forall_app; split; [apply put_octets|done]|].
    rewrite EP by done. by rewrite Em.
Qed.

Lemma cbc_inverse_back c ivec : octets c -> octets ivec -> 8 <= zlen ivec -> zlen c mod 8 = 0 ->
  exists m, cbc enc dec c (zlen c) ivec false = Ok m /\ zlen m = zlen c /\ octets m /\ cbc enc dec m (zlen c) ivec true = Ok c.
Proof.
  intros Hc Hi Hl Hm. assert (exists lr, get_ivec ivec = Ok lr) as [lr E].
  { unfold zlen in Hl. destruct ivec as [|? [|? [|? [|? [|? [|? [|? [|]]]]]]]]; cbn in Hl; try lia. by eexists. }
  pose proof (ivec_halves _ _ Hi E) as Hlr. unfold cbc. rewrite E. cbn [obind].
  destruct (Z.leb_spec (zlen c) 0) as [H|H].
  - exists []. replace c with (@nil octet); [done|]. symmetry. apply zlen_0_nil. pose proof (zlen_nonneg c). lia.
  - destruct (cbc_chain_back (Z.to_nat (zlen c / 8) - 1) c lr Hc) as (m & Em & Lm & Om & Rm); [unfold zlen in *; divlia|done|].
    exists m. rewrite Em. split_and!; [done|unfold zlen; by rewrite Lm|done|].
    replace (zlen m <? zlen c) with false by (symmetry; apply Z.ltb_ge; unfold zlen; lia).
    rewrite take_ge by (unfold zlen; lia). by rewrite Rm.
Qed.
End chain_back.

(** Encryption, decryption and encryption with three keys is a cipher of blocks too. *)
Lemma des3_cipher ks1 ks2 ks3 :
  BlockCipher (DES_DO_ENCRYPT ks1) (DES_DO_DECRYPT ks1) ->
  BlockCipher (DES_DO_DECRYPT ks2) (DES_DO_ENCRYPT ks2) ->
  BlockCipher (DES_DO_ENCRYPT ks3) (DES_DO_DECRYPT ks3) ->
  BlockCipher (des3_encrypt ks1 ks2 ks3) (des3_decrypt ks1 ks2 ks3).
Proof.
  intros B1 B2 B3. split; intros l r Hl Hr; unfold des3_encrypt, des3_decrypt.
  all: destruct (cipher_range (BlockCipher := B1) l r Hl Hr) as [H1 H1'].
  all: destruct (cipher_range (BlockCipher := B2) _ _ H1 H1') as [H2 H2'].
  - by apply (cipher_range (BlockCipher := B3)).
  - rewrite (cipher_inverse (BlockCipher := B3)) by done. cbn [fst snd].
    rewrite (cipher_inverse (BlockCipher := B2)) by done. cbn [fst snd].
    by rewrite (cipher_inverse (BlockCipher := B1)).
Qed.

(** ** The ciphers that keys give *)

Lemma des3_cipher_back ks1 ks2 ks3 :
  BlockCipher (DES_DO_DECRYPT ks1) (DES_DO_ENCRYPT ks1) ->
  BlockCipher (DES_DO_ENCRYPT ks2) (DES_DO_DECRYPT ks2) ->
  BlockCipher (DES_DO_DECRYPT ks3) (DES_DO_ENCRYPT ks3) ->
  BlockCipher (des3_decrypt ks1 ks2 ks3) (des3_encrypt ks1 ks2 ks3).
Proof.
  intros B1 B2 B3. split; intros l r Hl Hr; unfold des3_encrypt, des3_decrypt.
  all: destruct (cipher_range (BlockCipher := B3) l r Hl Hr) as [H1 H1'].
  all: destruct (cipher_range (BlockCipher := B2) _ _ H1 H1') as [H2 H2'].
  - by apply (cipher_range (BlockCipher := B1)).
  - rewrite (cipher_inverse (BlockCipher := B1)) by done. cbn [fst snd].
    rewrite (cipher_inverse (BlockCipher := B2)) by done. cbn [fst snd].
    by rewrite (cipher_inverse (BlockCipher := B3)).
Qed.

(** [both enc dec]: each inverts the other. *)
Definition both (enc dec : Z -> Z -> Z * Z) : Prop := BlockCipher enc dec /\ BlockCipher dec enc.

Lemma des_key_both key : length key = 8%nat -> octets key ->
  exists schedule, make_key_sched key = Ok schedule /\ both (DES_DO_ENCRYPT schedule) (DES_DO_DECRYPT schedule).
Proof.
  intros Hk Ho. destruct (key_sched_spec key Hk Ho) as [E _]. eexists. split; [exact E|].
  split; [by apply (des_encrypt_cipher key)|by apply (des_decrypt_cipher key)].
Qed.

Lemma des3_key_both key : length key = 24%nat -> octets key ->
  exists s0 s1 s2 ret, mit_des3_key_sched key = Ok (s0, s1, s2, ret) /\ both (des3_encrypt s0 s1 s2) (des3_decrypt s0 s1 s2).
Proof.
  intros Hk Ho.
  assert (K : forall n, (n <= 16)%nat -> length (take 8 (drop n key)) = 8%nat /\ octets (take 8 (drop n key))).
  { intros n Hn. rewrite length_take, length_drop. split; [lia|]. by apply Forall_take, Forall_drop. }
  destruct (K 0%nat ltac:(lia)) as [L0 O0], (K 8%nat ltac:(lia)) as [L1 O1], (K 16%nat ltac:(lia)) as [L2 O2].
  rewrite drop_0 in L0, O0. unfold mit_des3_key_sched.
  destruct (des_key_both _ L0 O0) as (s0 & -> & E0 & D0), (des_key_both _ L1 O1) as (s1 & -> & E1 & D1),
    (des_key_both _ L2 O2) as (s2 & -> & E2 & D2). cbn [obind].
  do 4 eexists. split; [reflexivity|]. exact (conj (des3_cipher _ _ _ E0 D1 E2) (des3_cipher_back _ _ _ D0 E1 D2)).
Qed.

(** A chain of whole blocks in both directions. *)
Lemma cbc_both enc dec iv : both enc dec -> octets iv -> zlen iv = 8 ->
  (forall m, octets m -> zlen m mod 8 = 0 -> exists c,
     cbc enc dec m (zlen m) iv true = Ok c /\ zlen c = zlen m /\ octets c /\ cbc enc dec c (zlen c) iv false = Ok m) /\
  (forall c, octets c -> zlen c mod 8 = 0 -> exists m,
     cbc enc dec c (zlen c) iv false = Ok m /\ zlen m = zlen c /\ octets m /\ cbc enc dec m (zlen m) iv true = Ok c).
Proof.
  intros [B1 B2] Hi Hl. split; intros x Hx Hz.
  - destruct (cbc_inverse enc dec (BlockCipher0 := B1) x iv Hx Hi ltac:(lia)) as (c & E & D & L & O).
    assert (zlen c = zlen x) as LE by divlia. exists c. split_and!; try done. by rewrite LE.
  - destruct (cbc_inverse_back enc dec (BlockCipher0 := B2) x iv Hx Hi ltac:(lia) Hz) as (m & E & L & O & R).
    exists m. split_and!; try done. by rewrite L.
Qed.

(** Encryption in CBC mode returns whole blocks for a message of any length, and
    decrypting them for that length gives the message back. *)
Theorem des_cbc_roundtrip key ivec m :
  length key = 8%nat -> octets key -> octets ivec -> 8 <= zlen ivec -> octets m ->
  exists schedule c, make_key_sched key = Ok schedule /\
    mit_des_cbc_encrypt m (zlen m) schedule ivec true = Ok c /\
    zlen c = 8 * ((zlen m + 7) / 8) /\
    mit_des_cbc_encrypt c (zlen m) schedule ivec false = Ok m.
Proof.
  intros Hk Ho Hi Hl Hm. destruct (key_sched_spec key Hk Ho) as [E _]. eexists.
  pose proof (des_encrypt_cipher key Hk Ho _ E) as B.
  destruct (cbc_inverse _ _ (BlockCipher0 := B) m ivec Hm Hi Hl) as (c & ? & ? & ? & ?). by exists c.
Qed.

(** The same for triple DES. *)
Theorem des3_cbc_roundtrip key ivec m :
  length key = 24%nat -> octets key -> octets ivec -> 8 <= zlen ivec -> octets m ->
  exists ks1 ks2 ks3 ret c, mit_des3_key_sched key = Ok (ks1, ks2, ks3, ret) /\
    mit_des3_cbc_encrypt m (zlen m) ks1 ks2 ks3 ivec true = Ok c /\
    zlen c = 8 * ((zlen m + 7) / 8) /\
    mit_des3_cbc_encrypt c (zlen m) ks1 ks2 ks3 ivec false = Ok m.
Proof.
  intros Hk Ho Hi Hl Hm. destruct (des3_key_both key Hk Ho) as (s0 & s1 & s2 & ret & E & B & _).
  destruct (cbc_inverse _ _ (BlockCipher0 := B) m ivec Hm Hi Hl) as (c & ? & ? & ? & ?). by exists s0, s1, s2, ret, c.
Qed.
