(* ===== verification/Digest.v ===== *)
(** * Iterated hash functions

    What the digests of RFC 1320, RFC 1321 and FIPS 180-1 have in common: the message is
    padded to a multiple of 64 octets, and each block of 64 octets changes the state. *)

From S2P Require Import Prelude Words.

Section iterated.
Context {S : Type} (absorb : S -> list octet -> S).

(** [n] blocks of [l]. *)
Fixpoint process (n : nat) (st : S) (l : list octet) : S :=
  match n with
  | O => st
  | Datatypes.S n => process n (absorb st (take 64 l)) (drop 64 l)
  end.

Lemma process_app n st l r : (64 * n <= length l)%nat -> process n st (l ++ r) = process n st l.
Proof.
  revert st l. induction n as [|n IH]; intros st l H; [done|]. cbn [process].
  rewrite take_app_le, drop_app_le by lia. apply IH. rewrite length_drop. lia.
Qed.

Lemma process_add n k st l : process (n + k) st l = process k (process n st l) (drop (64 * n) l).
Proof.
  revert st l. induction n as [|n IH]; intros st l; [by rewrite Nat.mul_0_r, drop_0|].
  cbn [process Nat.add]. rewrite IH, drop_drop. by replace (64 + 64 * n)%nat with (64 * Datatypes.S n)%nat by lia.
Qed.

Lemma process_snoc n st l :
  process (Datatypes.S n) st l = absorb (process n st l) (take 64 (drop (64 * n) l)).
Proof. by rewrite <- Nat.add_1_r, process_add. Qed.

(** A block that is complete can be processed at once. *)
Lemma process_blocks n k st l r : length l = (64 * n)%nat ->
  process (n + k) st (l ++ r) = process k (process n st l) r.
Proof. intros H. rewrite process_add, process_app, drop_app_length' by lia. done. Qed.
End iterated.

(** A single 1 bit, 0 bits up to 448 modulo 512, and the length in bits modulo 2^64. *)
Definition pad_message (length_octets : Z -> list octet) (m : list octet) : list octet :=
  m ++ [0x80] ++ replicate (Z.to_nat ((55 - zlen m) mod 64)) 0 ++ length_octets ((8 * zlen m) mod 2 ^ 64).

(** ** Operations on words *)

(** The circular left shift of a word by [s] bits. *)
Definition rotl32 (s x : Z) : Z := (x * 2 ^ s) mod 2 ^ 32 + x / 2 ^ (32 - s).

Lemma rotate_spec s x : 0 <= s <= 32 -> is_uint 32 x ->
  Z.lor (Z.land (shl32 x s) 0xffffffff) (Z.shiftr x (32 - s)) = rotl32 s x.
Proof.
  intros Hs [H0 H1]. unfold rotl32. change 0xffffffff with (Z.ones 32).
  rewrite Z.land_ones by lia. unfold shl32, to_uint. rewrite Z.mod_mod, Z.shiftl_mul_pow2, Z.shiftr_div_pow2 by lia.
  replace (2 ^ 32) with (2 ^ (32 - s) * 2 ^ s) by (rewrite <- Z.pow_add_r by lia; f_equal; lia).
  rewrite Z.mul_mod_distr_r by lia. apply lor_add; [lia|]. split.
  - apply Z.div_pos; lia.
  - apply Z.div_lt_upper_bound; [lia|]. rewrite <- Z.pow_add_r by lia. by replace (32 - s + s) with 32 by lia.
Qed.

Lemma land_add32 x y : Z.land (add32 x y) 0xffffffff = (x + y) mod 2 ^ 32.
Proof. change 0xffffffff with (Z.ones 32). rewrite Z.land_ones by lia. unfold add32, to_uint. by rewrite Z.mod_mod by lia. Qed.

Lemma rotl32_range s x : 0 <= s <= 32 -> is_uint 32 x -> is_uint 32 (rotl32 s x).
Proof.
  intros Hs Hx. rewrite <- rotate_spec by done. apply lor_range; [done|by apply land_range|]. by apply shiftr_range; [lia|].
Qed.
