(* ===== verification/Md.v ===== *)
(** * MD4 and MD5 (src/src/lib/crypto/md4/md4.c, md5/md5.c, hash_provider)

    The two files differ in the basic step only; what they share is stated once, in a
    section over [Transform].  [krb5_ui_4] has 32 bits.  A context lives on the stack of
    its user, so that the initialisation leaves [in] and [digest] as they are. *)

From S2P Require Import Prelude Words.

(** [krb5_MD4_CTX] and [krb5_MD5_CTX] *)
Record md_ctx : Type := MdCtx {
  md_i0 : Z; md_i1 : Z;
  md_buf : Z * Z * Z * Z;
  md_in : list octet;
  md_digest : list octet
}.

Definition ROTATE_LEFT (x n : Z) : Z :=
  Z.lor (Z.land (shl32 x n) 0xffffffff) (Z.shiftr x (32 - n)).

(** ** What md4.c and md5.c share *)

(** in[ii+3]<<24 | in[ii+2]<<16 | in[ii+1]<<8 | in[ii] *)
Definition md_word (inb : list octet) (i : Z) : Z :=
  let at_ j := table_at inb (4 * i + j) in
  Z.lor (Z.lor (Z.lor (shl32 (at_ 3) 24) (shl32 (at_ 2) 16)) (shl32 (at_ 1) 8)) (at_ 0).

Definition md_words (inb : list octet) (n : Z) : list Z := md_word inb <$> seqZ 0 n.

Definition PADDING : list octet := 0x80 :: replicate 63 0.

(** Four consecutive steps of a round: the macro [op] on (a, b, c, d), (d, a, b, c),
    (c, d, a, b) and (b, c, d, a), each with the index of its word and its parameters. *)
Definition md_row {P : Type} (inw : list Z) (st : Z * Z * Z * Z)
    (row : (Z -> Z -> Z -> Z -> Z -> P -> Z) * ((Z * P) * (Z * P) * (Z * P) * (Z * P))) : Z * Z * Z * Z :=
  let '(a, b, c, d) := st in
  let '(op, ((k0, p0), (k1, p1), (k2, p2), (k3, p3))) := row in
  let a := op a b c d (table_at inw k0) p0 in
  let d := op d a b c (table_at inw k1) p1 in
  let c := op c d a b (table_at inw k2) p2 in
  let b := op b c d a (table_at inw k3) p3 in
  (a, b, c, d).

Section md.
Context (Transform : Z * Z * Z * Z -> list Z -> Z * Z * Z * Z).

Definition md_Init (ctx : md_ctx) : md_ctx :=
  MdCtx 0 0 (0x67452301, 0xefcdab89, 0x98badcfe, 0x10325476) (md_in ctx) (md_digest ctx).

Fixpoint md_update_loop (buf : Z * Z * Z * Z) (inb : list octet) (mdi : Z) (inBuf : list octet)
    : (Z * Z * Z * Z) * list octet :=
  match inBuf with
  | [] => (buf, inb)
  | o :: inBuf =>
      let inb := <[Z.to_nat mdi := o]> inb in
      let mdi := mdi + 1 in
      if mdi =? 0x40 then md_update_loop (Transform buf (md_words inb 16)) inb 0 inBuf
      else md_update_loop buf inb mdi inBuf
  end.

(** [inLen] is the length of [inBuf] as an [unsigned int]. *)
Definition md_Update (ctx : md_ctx) (inBuf : list octet) : md_ctx :=
  let inLen := uint32 (zlen inBuf) in
  let mdi := Z.land (Z.shiftr (md_i0 ctx) 3) 0x3f in
  let i1 := if add32 (md_i0 ctx) (shl32 inLen 3) <? md_i0 ctx then add32 (md_i1 ctx) 1 else md_i1 ctx in
  let i0 := add32 (md_i0 ctx) (shl32 inLen 3) in
  let i1 := add32 i1 (Z.shiftr inLen 29) in
  let '(buf, inb) := md_update_loop (md_buf ctx) (md_in ctx) mdi inBuf in
  MdCtx i0 i1 buf inb (md_digest ctx).

Definition md_Final (ctx : md_ctx) : md_ctx :=
  let in14 := md_i0 ctx in
  let in15 := md_i1 ctx in
  let mdi := Z.land (Z.shiftr (md_i0 ctx) 3) 0x3f in
  let padLen := if mdi <? 56 then 56 - mdi else 120 - mdi in
  let ctx := md_Update ctx (take (Z.to_nat padLen) PADDING) in
  let inw := md_words (md_in ctx) 14 ++ [in14; in15] in
  let '(b0, b1, b2, b3) := Transform (md_buf ctx) inw in
  MdCtx (md_i0 ctx) (md_i1 ctx) (b0, b1, b2, b3) (md_in ctx) (le32 b0 ++ le32 b1 ++ le32 b2 ++ le32 b3).
End md.

(** ** MD4 *)
Definition md4_F (x y z : Z) : Z := Z.lor (Z.land x y) (Z.land (not32 x) z).
Definition md4_G (x y z : Z) : Z := Z.lor (Z.lor (Z.land x y) (Z.land x z)) (Z.land y z).
Definition md4_H (x y z : Z) : Z := Z.lxor (Z.lxor x y) z.

Definition md4_FF (a b c d x s : Z) : Z := ROTATE_LEFT (Z.land (add32 a (md4_F b c d + x)) 0xffffffff) s.
(** The constants are octal in the source: 013240474631 and 015666365641. *)
Definition md4_GG (a b c d x s : Z) : Z := ROTATE_LEFT (Z.land (add32 a (md4_G b c d + x + 0x5a827999)) 0xffffffff) s.
Definition md4_HH (a b c d x s : Z) : Z := ROTATE_LEFT (Z.land (add32 a (md4_H b c d + x + 0x6ed9eba1)) 0xffffffff) s.

Definition md4_rows : list ((Z -> Z -> Z -> Z -> Z -> Z -> Z) * ((Z * Z) * (Z * Z) * (Z * Z) * (Z * Z))) := [
  (md4_FF, ((0, 3), (1, 7), (2, 11), (3, 19)));
  (md4_FF, ((4, 3), (5, 7), (6, 11), (7, 19)));
  (md4_FF, ((8, 3), (9, 7), (10, 11), (11, 19)));
  (md4_FF, ((12, 3), (13, 7), (14, 11), (15, 19)));
  (md4_GG, ((0, 3), (4, 5), (8, 9), (12, 13)));
  (md4_GG, ((1, 3), (5, 5), (9, 9), (13, 13)));
  (md4_GG, ((2, 3), (6, 5), (10, 9), (14, 13)));
  (md4_GG, ((3, 3), (7, 5), (11, 9), (15, 13)));
  (md4_HH, ((0, 3), (8, 9), (4, 11), (12, 15)));
  (md4_HH, ((2, 3), (10, 9), (6, 11), (14, 15)));
  (md4_HH, ((1, 3), (9, 9), (5, 11), (13, 15)));
  (md4_HH, ((3, 3), (11, 9), (7, 11), (15, 15)))].

Definition md4_Transform (buf : Z * Z * Z * Z) (inw : list Z) : Z * Z * Z * Z :=
  let '(b0, b1, b2, b3) := buf in
  let '(a, b, c, d) := foldl (md_row inw) buf md4_rows in
  (add32 b0 a, add32 b1 b, add32 b2 c, add32 b3 d).

Definition krb5_MD4Init : md_ctx -> md_ctx := md_Init.
Definition krb5_MD4Update : md_ctx -> list octet -> md_ctx := md_Update md4_Transform.
Definition krb5_MD4Final : md_ctx -> md_ctx := md_Final md4_Transform.

Definition RSA_MD4_CKSUM_LENGTH : Z := 16.

Definition k5_md4_hash (ctx : md_ctx) (input : list (list octet)) (output_length : Z)
    : outcome error_code (list octet) :=
  if negb (output_length =? RSA_MD4_CKSUM_LENGTH) then Err KRB5_CRYPTO_INTERNAL
  else Ok (md_digest (krb5_MD4Final (foldl krb5_MD4Update (krb5_MD4Init ctx) input))).

(** ** MD5 *)
Definition md5_F (x y z : Z) : Z := Z.lor (Z.land x y) (Z.land (not32 x) z).
Definition md5_G (x y z : Z) : Z := Z.lor (Z.land x z) (Z.land y (not32 z)).
Definition md5_H (x y z : Z) : Z := Z.lxor (Z.lxor x y) z.
Definition md5_I (x y z : Z) : Z := Z.lxor y (Z.lor x (not32 z)).

(** The four macros with the function of their round; [p] is the shift and the constant. *)
Definition md5_step (fn : Z -> Z -> Z -> Z) (a b c d x : Z) (p : Z * Z) : Z :=
  let a := Z.land (add32 a (fn b c d + x + p.2)) 0xffffffff in
  let a := ROTATE_LEFT a p.1 in
  Z.land (add32 a b) 0xffffffff.
Definition md5_FF := md5_step md5_F.
Definition md5_GG := md5_step md5_G.
Definition md5_HH := md5_step md5_H.
Definition md5_II := md5_step md5_I.

Definition md5_rows : list ((Z -> Z -> Z -> Z -> Z -> Z * Z -> Z) *
                        ((Z * (Z * Z)) * (Z * (Z * Z)) * (Z * (Z * Z)) * (Z * (Z * Z)))) := [
  (md5_FF, ((0, (7, 3614090360)), (1, (12, 3905402710)), (2, (17, 606105819)), (3, (22, 3250441966))));
  (md5_FF, ((4, (7, 4118548399)), (5, (12, 1200080426)), (6, (17, 2821735955)), (7, (22, 4249261313))));
  (md5_FF, ((8, (7, 1770035416)), (9, (12, 2336552879)), (10, (17, 4294925233)), (11, (22, 2304563134))));
  (md5_FF, ((12, (7, 1804603682)), (13, (12, 4254626195)), (14, (17, 2792965006)), (15, (22, 1236535329))));
  (md5_GG, ((1, (5, 4129170786)), (6, (9, 3225465664)), (11, (14, 643717713)), (0, (20, 3921069994))));
  (md5_GG, ((5, (5, 3593408605)), (10, (9, 38016083)), (15, (14, 3634488961)), (4, (20, 3889429448))));
  (md5_GG, ((9, (5, 568446438)), (14, (9, 3275163606)), (3, (14, 4107603335)), (8, (20, 1163531501))));
  (md5_GG, ((13, (5, 2850285829)), (2, (9, 4243563512)), (7, (14, 1735328473)), (12, (20, 2368359562))));
  (md5_HH, ((5, (4, 4294588738)), (8, (11, 2272392833)), (11, (16, 1839030562)), (14, (23, 4259657740))));
  (md5_HH, ((1, (4, 2763975236)), (4, (11, 1272893353)), (7, (16, 4139469664)), (10, (23, 3200236656))));
  (md5_HH, ((13, (4, 681279174)), (0, (11, 3936430074)), (3, (16, 3572445317)), (6, (23, 76029189))));
  (md5_HH, ((9, (4, 3654602809)), (12, (11, 3873151461)), (15, (16, 530742520)), (2, (23, 3299628645))));
  (md5_II, ((0, (6, 4096336452)), (7, (10, 1126891415)), (14, (15, 2878612391)), (5, (21, 4237533241))));
  (md5_II, ((12, (6, 1700485571)), (3, (10, 2399980690)), (10, (15, 4293915773)), (1, (21, 2240044497))));
  (md5_II, ((8, (6, 1873313359)), (15, (10, 4264355552)), (6, (15, 2734768916)), (13, (21, 1309151649))));
  (md5_II, ((4, (6, 4149444226)), (11, (10, 3174756917)), (2, (15, 718787259)), (9, (21, 3951481745))))].

Definition md5_Transform (buf : Z * Z * Z * Z) (inw : list Z) : Z * Z * Z * Z :=
  let '(b0, b1, b2, b3) := buf in
  let '(a, b, c, d) := foldl (md_row inw) buf md5_rows in
  (add32 b0 a, add32 b1 b, add32 b2 c, add32 b3 d).

Definition krb5_MD5Init : md_ctx -> md_ctx := md_Init.
Definition krb5_MD5Update : md_ctx -> list octet -> md_ctx := md_Update md5_Transform.
Definition krb5_MD5Final : md_ctx -> md_ctx := md_Final md5_Transform.

Definition RSA_MD5_CKSUM_LENGTH : Z := 16.

Definition k5_md5_hash (ctx : md_ctx) (input : list (list octet)) (output_length : Z)
    : outcome error_code (list octet) :=
  if negb (output_length =? RSA_MD5_CKSUM_LENGTH) then Err KRB5_CRYPTO_INTERNAL
  else Ok (md_digest (krb5_MD5Final (foldl krb5_MD5Update (krb5_MD5Init ctx) input))).

(** The digests of abc in RFC 1320 and RFC 1321. *)
Example md_abc :
  let ctx := MdCtx 0 0 (0, 0, 0, 0) (replicate 64 0) [] in
  k5_md4_hash ctx [[97]; [98; 99]] 16 =
    Ok [0xa4; 0x48; 0x01; 0x7a; 0xaf; 0x21; 0xd8; 0x52; 0x5f; 0xc1; 0x0a; 0xe8; 0x7a; 0xa6; 0x72; 0x9d] /\
  k5_md5_hash ctx [[97]; [98; 99]] 16 =
    Ok [0x90; 0x01; 0x50; 0x98; 0x3c; 0xd2; 0x4f; 0xb0; 0xd6; 0x96; 0x3f; 0x7d; 0x28; 0xe1; 0x7f; 0x72].
Proof. vm_compute. done. Qed.
