(* ===== verification/MdProofs.v ===== *)
(** * MD4 and MD5 compute the digests of RFC 1320 and RFC 1321

    The specification pads the whole message and compresses it block by block, with the
    steps numbered and the words and shifts given by formulas.  The code hashes a message
    that arrives in pieces of any length: its context always represents the octets seen
    so far ([represents]), an invariant that every update preserves. *)

From S2P Require Import Prelude Words Digest Md.

(** ** The specification *)

(** Four octets as a word, least significant first. *)
Definition le_value (l : list octet) : Z := foldr (fun o a => o + 256 * a) 0 l.

Definition le_words (l : list octet) (n : nat) : list Z :=
  (fun i => le_value (take 4 (drop (4 * i) l))) <$> seq 0 n.

(** The length as two words, the low-order word first. *)
Definition md_pad : list octet -> list octet :=
  pad_message (fun bits => le32 (bits mod 2 ^ 32) ++ le32 (bits / 2 ^ 32)).

Definition md_iv : Z * Z * Z * Z := (0x67452301, 0xefcdab89, 0x98badcfe, 0x10325476).

Definition md_absorb (compress : Z * Z * Z * Z -> list Z -> Z * Z * Z * Z) (st : Z * Z * Z * Z) (block : list octet)
    : Z * Z * Z * Z := compress st (le_words block 16).

Definition md_spec (compress : Z * Z * Z * Z -> list Z -> Z * Z * Z * Z) (m : list octet) : list octet :=
  let p := md_pad m in
  let '(a, b, c, d) := process (md_absorb compress) (length p / 64) md_iv p in
  le32 a ++ le32 b ++ le32 c ++ le32 d.

(** ** Words *)

Lemma table_at_drop (l : list Z) i j : 0 <= i -> 0 <= j ->
  table_at l (4 * i + j) = nth (Z.to_nat j) (drop (4 * Z.to_nat i) l) 0.
Proof.
  intros Hi Hj. unfold table_at. rewrite !nth_lookup, lookup_drop. by replace (4 * Z.to_nat i + Z.to_nat j)%nat with (Z.to_nat (4 * i + j)) by lia.
Qed.

Lemma md_word_value inb i : octets inb -> (4 * i + 4 <= length inb)%nat ->
  md_word inb (Z.of_nat i) = le_value (take 4 (drop (4 * i) inb)).
Proof.
  intros Ho Hl. unfold md_word. rewrite !table_at_drop, Nat2Z.id by lia.
  assert (Hd : octets (drop (4 * i) inb)) by (by apply Forall_drop).
  assert (L : (4 <= length (drop (4 * i) inb))%nat) by (rewrite length_drop; lia).
  destruct (drop (4 * i) inb) as [|o0 [|o1 [|o2 [|o3 r]]]]; cbn in L; try lia.
  repeat (apply Forall_cons_1 in Hd as [? Hd]).
  change (Z.to_nat 3) with 3%nat. change (Z.to_nat 2) with 2%nat. change (Z.to_nat 1) with 1%nat.
  change (Z.to_nat 0) with 0%nat. cbn [nth take].
  rewrite word_value, take_0 by done. unfold le_value. cbn [foldr]. lia.
Qed.

Lemma md_words_value inb (n : nat) : octets inb -> (4 * n <= length inb)%nat ->
  md_words inb (Z.of_nat n) = le_words inb n.
Proof.
  intros Ho Hl. unfold md_words, le_words, seqZ. rewrite Nat2Z.id, <- list_fmap_compose.
  apply list_fmap_ext. intros k i Hi. apply lookup_seq in Hi as [-> Hi]. unfold compose.
  rewrite Z.add_0_r. apply md_word_value; [done|lia].
Qed.

Lemma md_words_take inb k (n : nat) : (4 * n <= k)%nat -> md_words (take k inb) (Z.of_nat n) = md_words inb (Z.of_nat n).
Proof.
  intros Hk. apply list_fmap_ext. intros j i Hi.
  assert (0 <= i < Z.of_nat n) as Hi' by (apply lookup_seqZ in Hi; lia).
  assert (T : forall j, 0 <= j < 4 -> table_at (take k inb) (4 * i + j) = table_at inb (4 * i + j)).
  { intros j' Hj. unfold table_at. rewrite !nth_lookup, lookup_take_lt by lia. done. }
  unfold md_word. by rewrite !T by lia.
Qed.

Lemma le_words_app l r n : (4 * n <= length l)%nat -> le_words (l ++ r) n = le_words l n.
Proof.
  intros H. apply list_fmap_ext. intros j i Hi. apply lookup_seq in Hi as [-> Hi].
  rewrite drop_app_le, take_app_le by (rewrite ?length_drop; lia). done.
Qed.

Lemma le_value_le32 w : is_uint 32 w -> le_value (le32 w) = w.
Proof.
  intros [H0 H1]. unfold le_value, le32. cbn [foldr]. change 255 with (Z.ones 8).
  rewrite !Z.land_ones, !Z.shiftr_div_pow2 by lia. divlia.
Qed.

(** The last block: 14 words of the message and its length. *)
Lemma le_words_length l w0 w1 : length l = 56%nat -> is_uint 32 w0 -> is_uint 32 w1 ->
  le_words (l ++ le32 w0 ++ le32 w1) 16 = le_words l 14 ++ [w0; w1].
Proof.
  intros Hl H0 H1. unfold le_words at 1. change (seq 0 16) with (seq 0 14 ++ [14; 15]%nat). rewrite fmap_app.
  fold (le_words (l ++ le32 w0 ++ le32 w1) 14). rewrite le_words_app by lia. f_equal. cbn [fmap list_fmap].
  change (4 * 14)%nat with 56%nat. change (4 * 15)%nat with (56 + 4)%nat.
  rewrite <- drop_drop, drop_app_length' by done.
  change (take 4 (le32 w0 ++ le32 w1)) with (le32 w0). change (take 4 (drop 4 (le32 w0 ++ le32 w1))) with (le32 w1).
  by rewrite !le_value_le32.
Qed.

(** ** The context represents the octets seen so far *)

Section stream.
Context (Transform compress : Z * Z * Z * Z -> list Z -> Z * Z * Z * Z).
Context (transform_spec : forall buf inw, Transform buf inw = compress buf inw).

(** Between two iterations of the loop of the update. *)
Definition buffered (m : list octet) (buf : Z * Z * Z * Z) (inb : list octet) (mdi : Z) : Prop :=
  octets m /\ mdi = zlen m mod 64 /\ length inb = 64%nat /\
  buf = process (md_absorb compress) (length m / 64) md_iv m /\
  take (Z.to_nat mdi) inb = drop (64 * (length m / 64)) m.

Lemma buffered_octet m buf inb mdi o : buffered m buf inb mdi -> is_octet o ->
  let inb := <[Z.to_nat mdi := o]> inb in
  if mdi + 1 =? 64 then buffered (m ++ [o]) (Transform buf (md_words inb 16)) inb 0
  else buffered (m ++ [o]) buf inb (mdi + 1).
Proof.
  intros (Ho & E & Hl & Hb & Ht) Hoct. cbv zeta.
  assert (Ho' : octets (m ++ [o])) by (apply Forall_app; split; [done|by constructor]).
  pose proof (Z.mod_pos_bound (zlen m) 64 eq_refl) as Hm. rewrite <- E in Hm.
  assert (Hr : 64 * (Z.of_nat (length m) / 64) + mdi = Z.of_nat (length m)) by (unfold zlen in E; divlia).
  assert (Hq : Z.of_nat (length m / 64) = Z.of_nat (length m) / 64) by apply Nat2Z.inj_div.
  assert (T : take (Z.to_nat (mdi + 1)) (<[Z.to_nat mdi:=o]> inb) = drop (64 * (length m / 64)) (m ++ [o])).
  { replace (Z.to_nat (mdi + 1)) with (S (Z.to_nat mdi)) by lia.
    rewrite take_S_insert, Ht, drop_app_le by lia. done. }
  destruct (Z.eqb_spec (mdi + 1) 64) as [H64|H64].
  - rewrite H64 in T. assert (Hq' : (length (m ++ [o]) / 64 = S (length m / 64))%nat).
    { rewrite length_app. cbn [length]. apply Nat2Z.inj. rewrite Nat2Z.inj_div, (Nat2Z.inj_succ (_ / _)), Hq. divlia. }
    rewrite take_ge in T by (rewrite length_insert; lia).
    split_and!; [done| |by rewrite length_insert| |].
    + rewrite zlen_app. change (zlen [o]) with 1. unfold zlen in *. divlia.
    + rewrite Hq', process_snoc, process_app, <- Hb, <- T, transform_spec by lia. unfold md_absorb.
      rewrite take_ge by (rewrite length_insert; lia). f_equal. apply (md_words_value _ 16).
      * rewrite T. by apply Forall_drop.
      * rewrite length_insert. lia.
    + rewrite Hq'. rewrite drop_ge; [done|]. rewrite length_app. cbn [length]. lia.
  - assert (Hq' : (length (m ++ [o]) / 64 = length m / 64)%nat).
    { rewrite length_app. cbn [length]. apply Nat2Z.inj. rewrite Nat2Z.inj_div, Hq. divlia. }
    split_and!; [done| |by rewrite length_insert| |by rewrite Hq'].
    + rewrite zlen_app. change (zlen [o]) with 1. unfold zlen in *. divlia.
    + rewrite Hq', process_app by lia. done.
Qed.

Lemma buffered_loop l m buf inb mdi : buffered m buf inb mdi -> octets l ->
  let '(buf', inb') := md_update_loop Transform buf inb mdi l in
  buffered (m ++ l) buf' inb' (zlen (m ++ l) mod 64).
Proof.
  revert m buf inb mdi. induction l as [|o l IH]; intros m buf inb mdi HB Hl; cbn [md_update_loop].
  - rewrite app_nil_r. destruct HB as (? & E & ?). by rewrite <- E.
  - apply Forall_cons_1 in Hl as [Ho Hl]. pose proof (buffered_octet _ _ _ _ _ HB Ho) as H. cbv zeta in H.
    replace (m ++ o :: l) with ((m ++ [o]) ++ l) by (by rewrite <- app_assoc).
    change 0x40 with 64. destruct (mdi + 1 =? 64); by apply IH.
Qed.

Definition represents (ctx : md_ctx) (m : list octet) : Prop :=
  buffered m (md_buf ctx) (md_in ctx) (zlen m mod 64) /\
  is_uint 32 (md_i0 ctx) /\ is_uint 32 (md_i1 ctx) /\
  md_i0 ctx + 2 ^ 32 * md_i1 ctx = (8 * zlen m) mod 2 ^ 64.

Lemma represents_mdi ctx m : represents ctx m -> Z.land (Z.shiftr (md_i0 ctx) 3) 0x3f = zlen m mod 64.
Proof.
  intros (_ & [H0 H0'] & [H1 H1'] & E). change 0x3f with (Z.ones 6).
  rewrite Z.land_ones, Z.shiftr_div_pow2 by lia. divlia.
Qed.

Lemma represents_init ctx : length (md_in ctx) = 64%nat -> represents (md_Init ctx) [].
Proof. intros H. split_and!; try done. Qed.

(** An update with any number of octets that an [unsigned int] counts. *)
Lemma represents_update ctx m l : represents ctx m -> octets l -> zlen l < 2 ^ 32 ->
  represents (md_Update Transform ctx l) (m ++ l).
Proof.
  intros HR Hl Hn. unfold md_Update. rewrite (represents_mdi ctx m HR).
  destruct HR as (HB & [H0 H0'] & [H1 H1'] & E). pose proof (buffered_loop l _ _ _ _ HB Hl) as HL.
  destruct (md_update_loop _ _ _ _ _) as [buf inb]. split; [done|]. cbn [md_i0 md_i1].
  split; [apply uint32_range|]. split; [apply uint32_range|].
  rewrite zlen_app. unfold add32, shl32, to_uint. pose proof (zlen_nonneg l). pose proof (zlen_nonneg m).
  rewrite (Z.mod_small (zlen l)) by lia. rewrite Z.shiftl_mul_pow2, Z.shiftr_div_pow2 by lia.
  destruct (Z.ltb_spec ((md_i0 ctx + (zlen l * 2 ^ 3) mod 2 ^ 32) mod 2 ^ 32) (md_i0 ctx)); divlia.
Qed.

Lemma represents_updates ctx m ls : represents ctx m -> Forall octets ls ->
  Forall (fun l => zlen l < 2 ^ 32) ls -> represents (foldl (md_Update Transform) ctx ls) (m ++ concat ls).
Proof.
  revert ctx m. induction ls as [|l ls IH]; intros ctx m HR Ho Hn; cbn [foldl concat].
  - by rewrite app_nil_r.
  - apply Forall_cons_1 in Ho as [? ?], Hn as [? ?]. rewrite app_assoc. apply IH; try done. by apply represents_update.
Qed.

Lemma padding_prefix (m : list octet) : exists n, n = Z.to_nat ((55 - zlen m) mod 64) /\
  take (Z.to_nat (if zlen m mod 64 <? 56 then 56 - zlen m mod 64 else 120 - zlen m mod 64)) PADDING
  = [0x80] ++ replicate n 0.
Proof.
  eexists. split; [done|]. set (k := Z.to_nat ((55 - zlen m) mod 64)).
  replace (Z.to_nat (if _ <? _ then _ else _)) with (S k) by (unfold k; destruct (Z.ltb_spec (zlen m mod 64) 56); divlia).
  unfold PADDING. cbn [take app]. rewrite take_replicate. do 2 f_equal. unfold k. pose proof (Z.mod_pos_bound (55 - zlen m) 64). lia.
Qed.

Lemma final_spec ctx m : represents ctx m -> md_digest (md_Final Transform ctx) = md_spec compress m.
Proof.
  intros HR. unfold md_Final. rewrite (represents_mdi ctx m HR).
  destruct (padding_prefix m) as (k & Hk & ->). pose proof HR as (_ & Hi0 & Hi1 & E).
  set (pad := [0x80] ++ replicate k 0).
  assert (Hp : octets pad) by (constructor; [done|by apply Forall_replicate]).
  assert (Zp : zlen pad = (55 - zlen m) mod 64 + 1).
  { pose proof (Z.mod_pos_bound (55 - zlen m) 64). unfold pad. rewrite zlen_app. unfold zlen at 1 2.
    rewrite length_replicate, Hk. cbn [length]. lia. }
  assert (HR' : represents (md_Update Transform ctx pad) (m ++ pad)).
  { apply represents_update; [done..|]. pose proof (Z.mod_pos_bound (55 - zlen m) 64). lia. }
  destruct HR' as ((Ho & _ & Hl & Hb & Ht) & _). set (p := m ++ pad) in *.
  set (ctx' := md_Update Transform ctx pad) in *.
  assert (Hmod : zlen p mod 64 = 56) by (unfold p; rewrite zlen_app, Zp; divlia).
  assert (Hq : Z.of_nat (length p / 64) = Z.of_nat (length p) / 64) by apply Nat2Z.inj_div.
  rewrite Hmod in Ht. assert (Ho' : octets (take 56 (md_in ctx'))) by (change 56%nat with (Z.to_nat 56); rewrite Ht; by apply Forall_drop).
  rewrite <- (md_words_take _ 56 14), (md_words_value _ 14) by (try done; rewrite ?length_take; lia).
  unfold md_spec, md_pad, pad_message. rewrite <- E, <- Hk.
  replace ((md_i0 ctx + 2 ^ 32 * md_i1 ctx) mod 2 ^ 32) with (md_i0 ctx) by (unfold is_uint in *; divlia).
  replace ((md_i0 ctx + 2 ^ 32 * md_i1 ctx) / 2 ^ 32) with (md_i1 ctx) by (unfold is_uint in *; divlia).
  set (tail := le32 (md_i0 ctx) ++ le32 (md_i1 ctx)).
  replace (m ++ [128] ++ replicate k 0 ++ tail) with (p ++ tail) by (unfold p, pad; by rewrite <- !app_assoc).
  replace (length (p ++ tail) / 64)%nat with (S (length p / 64)).
  2:{ rewrite length_app. change (length tail) with 8%nat. apply Nat2Z.inj. rewrite Nat2Z.inj_div, (Nat2Z.inj_succ (_ / _)), Hq.
      unfold zlen in Hmod. divlia. }
  assert (Hle : (64 * (length p / 64) <= length p)%nat) by (unfold zlen in Hmod; divlia).
  rewrite process_snoc, process_app, <- Hb, drop_app_le, <- Ht by done.
  rewrite (take_ge (_ ++ tail)) by (rewrite length_app, length_take; change (length tail) with 8%nat; lia).
  unfold tail, md_absorb. rewrite le_words_length by (try done; rewrite length_take; lia).
  rewrite transform_spec. by destruct (compress _ _) as [[[? ?] ?] ?].
Qed.

Lemma hash_spec ctx ls : length (md_in ctx) = 64%nat -> Forall octets ls -> Forall (fun l => zlen l < 2 ^ 32) ls ->
  md_digest (md_Final Transform (foldl (md_Update Transform) (md_Init ctx) ls)) = md_spec compress (concat ls).
Proof. intros Hl Ho Hn. apply final_spec. apply (represents_updates _ [] ls); [by apply represents_init|done..]. Qed.
End stream.

(** ** The steps *)

(** RFC 1320 and 1321: [a b c d k s i] denotes the operation
    a = b + ((a + f(b,c,d) + X[k] + T[i]) <<< s), without "b +" in MD4.  The four
    registers then change places. *)
Definition rfc_step (st : Z * Z * Z * Z) (op : Z -> Z -> Z -> Z -> Z) : Z * Z * Z * Z :=
  let '(a, b, c, d) := st in (d, op a b c d, b, c).

Definition rfc_compress (ops : list (list Z -> Z -> Z -> Z -> Z -> Z)) (st : Z * Z * Z * Z) (X : list Z)
    : Z * Z * Z * Z :=
  let '(a', b', c', d') := foldl (fun st op => rfc_step st (op X)) st ops in
  let '(a, b, c, d) := st in
  ((a + a') mod 2 ^ 32, (b + b') mod 2 ^ 32, (c + c') mod 2 ^ 32, (d + d') mod 2 ^ 32).

(** A row of the code is four steps. *)
Definition row_ops {P} (row : (Z -> Z -> Z -> Z -> Z -> P -> Z) * ((Z * P) * (Z * P) * (Z * P) * (Z * P)))
    : list (list Z -> Z -> Z -> Z -> Z -> Z) :=
  let '(op, (q0, q1, q2, q3)) := row in
  (fun q X a b c d => op a b c d (table_at X q.1) q.2) <$> [q0; q1; q2; q3].

Lemma md_row_steps {P} X st row :
  @md_row P X st row = foldl (fun st op => rfc_step st (op X)) st (row_ops row).
Proof. destruct st as [[[a b] c] d], row as [op [[[[k0 p0] [k1 p1]] [k2 p2]] [k3 p3]]]. done. Qed.

Lemma md_rows_steps {P} X st rows :
  foldl (@md_row P X) st rows = foldl (fun st op => rfc_step st (op X)) st (concat (row_ops <$> rows)).
Proof.
  revert st. induction rows as [|row rows IH]; intros st; [done|]. cbn [foldl fmap list_fmap concat].
  by rewrite foldl_app, IH, md_row_steps.
Qed.

(** The functions of the two RFCs. *)
Definition rfc_not (x : Z) : Z := (2 ^ 32 - 1 - x) mod 2 ^ 32.
Definition rfc_F (x y z : Z) : Z := Z.lor (Z.land x y) (Z.land (rfc_not x) z).
Definition rfc_G4 (x y z : Z) : Z := Z.lor (Z.lor (Z.land x y) (Z.land x z)) (Z.land y z).
Definition rfc_G5 (x y z : Z) : Z := Z.lor (Z.land x z) (Z.land y (rfc_not z)).
Definition rfc_H (x y z : Z) : Z := Z.lxor (Z.lxor x y) z.
Definition rfc_I (x y z : Z) : Z := Z.lxor y (Z.lor x (rfc_not z)).

(** MD4: the order of the words in each round is a table, the constants are square roots. *)
Definition md4_op (i : nat) (X : list Z) (a b c d : Z) : Z :=
  let round := (i / 16)%nat in
  let k := nth i (seq 0 16 ++ [0; 4; 8; 12; 1; 5; 9; 13; 2; 6; 10; 14; 3; 7; 11; 15;
                               0; 8; 4; 12; 2; 10; 6; 14; 1; 9; 5; 13; 3; 11; 7; 15])%nat 0%nat in
  let s := nth (4 * round + i mod 4)%nat [3; 7; 11; 19; 3; 5; 9; 13; 3; 9; 11; 15] 0 in
  let f := nth round [rfc_F; rfc_G4; rfc_H] rfc_H in
  let t := nth round [0; 0x5a827999; 0x6ed9eba1] 0 in
  rotl32 s ((a + f b c d + nth k X 0 + t) mod 2 ^ 32).

Definition rfc1320 : list octet -> list octet := md_spec (rfc_compress (md4_op <$> seq 0 48)).

(** MD5: the order of the words is a formula, each step has its own constant. *)
Definition rfc_T : list Z := [
  0xd76aa478; 0xe8c7b756; 0x242070db; 0xc1bdceee; 0xf57c0faf; 0x4787c62a; 0xa8304613; 0xfd469501;
  0x698098d8; 0x8b44f7af; 0xffff5bb1; 0x895cd7be; 0x6b901122; 0xfd987193; 0xa679438e; 0x49b40821;
  0xf61e2562; 0xc040b340; 0x265e5a51; 0xe9b6c7aa; 0xd62f105d; 0x02441453; 0xd8a1e681; 0xe7d3fbc8;
  0x21e1cde6; 0xc33707d6; 0xf4d50d87; 0x455a14ed; 0xa9e3e905; 0xfcefa3f8; 0x676f02d9; 0x8d2a4c8a;
  0xfffa3942; 0x8771f681; 0x6d9d6122; 0xfde5380c; 0xa4beea44; 0x4bdecfa9; 0xf6bb4b60; 0xbebfbc70;
  0x289b7ec6; 0xeaa127fa; 0xd4ef3085; 0x04881d05; 0xd9d4d039; 0xe6db99e5; 0x1fa27cf8; 0xc4ac5665;
  0xf4292244; 0x432aff97; 0xab9423a7; 0xfc93a039; 0x655b59c3; 0x8f0ccc92; 0xffeff47d; 0x85845dd1;
  0x6fa87e4f; 0xfe2ce6e0; 0xa3014314; 0x4e0811a1; 0xf7537e82; 0xbd3af235; 0x2ad7d2bb; 0xeb86d391].

Definition md5_op (i : nat) (X : list Z) (a b c d : Z) : Z :=
  let round := (i / 16)%nat in
  let k := (nth round [i; 5 * i + 1; 3 * i + 5; 7 * i] 0 mod 16)%nat in
  let s := nth (4 * round + i mod 4)%nat [7; 12; 17; 22; 5; 9; 14; 20; 4; 11; 16; 23; 6; 10; 15; 21] 0 in
  let f := nth round [rfc_F; rfc_G5; rfc_H; rfc_I] rfc_H in
  (b + rotl32 s ((a + f b c d + nth k X 0 + nth i rfc_T 0) mod 2 ^ 32)) mod 2 ^ 32.

Definition rfc1321 : list octet -> list octet := md_spec (rfc_compress (md5_op <$> seq 0 64)).

(** ** The code's steps are these *)

Lemma not32_spec x : not32 x = rfc_not x.
Proof. unfold not32, rfc_not, to_uint, Z.lnot. rewrite <- (Z.mod_add (Z.pred (- x)) 1) by lia. f_equal. lia. Qed.

Lemma rotate_left_spec s x : 0 <= s <= 32 -> is_uint 32 x -> ROTATE_LEFT x s = rotl32 s x.
Proof. apply rotate_spec. Qed.

Lemma md5_step_spec f g s t a b c d x : 0 <= s <= 32 -> f b c d = g b c d ->
  md5_step f a b c d x (s, t) = (b + rotl32 s ((a + g b c d + x + t) mod 2 ^ 32)) mod 2 ^ 32.
Proof.
  intros Hs E. unfold md5_step. cbn [fst snd]. rewrite !land_add32, E, rotate_left_spec by (try done; by apply Z.mod_pos_bound).
  rewrite Z.add_comm. do 4 f_equal. lia.
Qed.

Lemma md4_step_spec (s t a e x : Z) : 0 <= s <= 32 ->
  ROTATE_LEFT (Z.land (add32 a (e + x + t)) 0xffffffff) s = rotl32 s ((a + e + x + t) mod 2 ^ 32).
Proof.
  intros Hs. rewrite land_add32, rotate_left_spec by (try done; by apply Z.mod_pos_bound). do 2 f_equal. lia.
Qed.

Lemma steps_ext (ops ops' : list (list Z -> Z -> Z -> Z -> Z -> Z)) X st : Forall2 (fun o o' => forall X a b c d, o X a b c d = o' X a b c d) ops ops' ->
  foldl (fun st op => rfc_step st (op X)) st ops = foldl (fun st op => rfc_step st (op X)) st ops'.
Proof.
  intros H. revert st. induction H as [|o o' ops ops' E _ IH]; intros st; [done|]. cbn [foldl].
  rewrite IH. f_equal. destruct st as [[[a b] c] d]. unfold rfc_step. by rewrite E.
Qed.

Lemma F_spec x y z : md5_F x y z = rfc_F x y z.
Proof. unfold md5_F, rfc_F. by rewrite not32_spec. Qed.
Lemma G_spec x y z : md5_G x y z = rfc_G5 x y z.
Proof. unfold md5_G, rfc_G5. by rewrite not32_spec. Qed.
Lemma H_spec x y z : md5_H x y z = rfc_H x y z.
Proof. done. Qed.
Lemma I_spec x y z : md5_I x y z = rfc_I x y z.
Proof. unfold md5_I, rfc_I. by rewrite not32_spec. Qed.

Lemma md5_ops : Forall2 (fun o o' => forall X a b c d, o X a b c d = o' X a b c d)
  (concat (row_ops <$> md5_rows)) (md5_op <$> seq 0 64).
Proof.
  cbn [md5_rows fmap list_fmap row_ops concat app seq].
  repeat (constructor; [intros X a b c d; unfold md5_FF, md5_GG, md5_HH, md5_II; cbn [fst snd];
    etrans; [apply md5_step_spec; [lia|first [apply F_spec|apply G_spec|apply I_spec|apply H_spec]]|reflexivity]|]).
  constructor.
Qed.

Lemma md4_ops : Forall2 (fun o o' => forall X a b c d, o X a b c d = o' X a b c d)
  (concat (row_ops <$> md4_rows)) (md4_op <$> seq 0 48).
Proof.
  cbn [md4_rows fmap list_fmap row_ops concat app seq].
  do 16 (constructor; [intros X a b c d; unfold md4_FF; cbn [fst snd];
    change (md4_F b c d) with (md5_F b c d); rewrite F_spec;
    rewrite <- (Z.add_0_r (rfc_F b c d + _)), md4_step_spec by lia; reflexivity|]).
  repeat (constructor; [intros X a b c d; unfold md4_GG, md4_HH; cbn [fst snd]; rewrite md4_step_spec by lia; reflexivity|]).
  constructor.
Qed.

Lemma transform_md5 buf inw : md5_Transform buf inw = rfc_compress (md5_op <$> seq 0 64) buf inw.
Proof.
  unfold md5_Transform, rfc_compress. rewrite md_rows_steps, (steps_ext _ _ inw buf md5_ops).
  destruct buf as [[[b0 b1] b2] b3]. by destruct (foldl _ _ _) as [[[a b] c] d].
Qed.

Lemma transform_md4 buf inw : md4_Transform buf inw = rfc_compress (md4_op <$> seq 0 48) buf inw.
Proof.
  unfold md4_Transform, rfc_compress. rewrite md_rows_steps, (steps_ext _ _ inw buf md4_ops).
  destruct buf as [[[b0 b1] b2] b3]. by destruct (foldl _ _ _) as [[[a b] c] d].
Qed.

(** C28: Hashing a list of pieces, cut anywhere, gives the MD5 digest that RFC 1321
    defines for their concatenation, whatever the context on the stack holds at first.
    *)
Theorem md5_rfc1321 ctx input :
  length (md_in ctx) = 64%nat -> Forall octets input -> Forall (fun l => zlen l < 2 ^ 32) input ->
  k5_md5_hash ctx input 16 = Ok (rfc1321 (concat input)).
Proof. intros Hl Ho Hn. unfold k5_md5_hash. cbn. f_equal. apply hash_spec; [apply transform_md5|done..]. Qed.

(** Hashing a list of pieces, cut anywhere, gives the MD4 digest that RFC 1320 defines
    for their concatenation. *)
Theorem md4_rfc1320 ctx input :
  length (md_in ctx) = 64%nat -> Forall octets input -> Forall (fun l => zlen l < 2 ^ 32) input ->
  k5_md4_hash ctx input 16 = Ok (rfc1320 (concat input)).
Proof. intros Hl Ho Hn. unfold k5_md4_hash. cbn. f_equal. apply hash_spec; [apply transform_md4|done..]. Qed.
