(* ===== verification/Shs.v ===== *)
(** * SHA-1 (src/src/lib/crypto/sha1/shs.c, hash_provider/hash_sha1.c)

    [LONG] is [krb5_ui_4].  The data of an update is an octet list, a read behind its end
    is [Undefined].  The transformation is unrolled in the source, with the five variables
    renamed in each of five consecutive sub-rounds; [five_rounds] is one such group. *)

From S2P Require Import Prelude Words.

Record shs_info : Type := ShsInfo {
  shs_digest : Z * Z * Z * Z * Z;
  shs_countLo : Z; shs_countHi : Z;
  shs_data : list Z
}.

(** ** The transformation *)

Definition f1 (x y z : Z) : Z := Z.lxor z (Z.land x (Z.lxor y z)).
Definition f2 (x y z : Z) : Z := Z.lxor (Z.lxor x y) z.
Definition f3 (x y z : Z) : Z := Z.lor (Z.land x y) (Z.land z (Z.lor x y)).
Definition f4 (x y z : Z) : Z := Z.lxor (Z.lxor x y) z.

Definition K1 : Z := 0x5a827999.
Definition K2 : Z := 0x6ed9eba1.
Definition K3 : Z := 0x8f1bbcdc.
Definition K4 : Z := 0xca62c1d6.

Definition ROTL (n X : Z) : Z := Z.lor (Z.land (shl32 X n) 0xffffffff) (Z.shiftr X (32 - n)).

(** expand(W, i), with the rotation of NEW_SHS; the value and the array. *)
Definition expand (W : list Z) (i : Z) : Z * list Z :=
  let at_ j := table_at W (Z.land j 15) in
  let v := ROTL 1 (Z.lxor (Z.lxor (Z.lxor (at_ i) (at_ (i - 14))) (at_ (i - 8))) (at_ (i - 3))) in
  (v, <[Z.to_nat (Z.land i 15) := v]> W).

(** The data of sub-round [i]. *)
Definition round_data (W : list Z) (i : Z) : Z * list Z :=
  if i <? 16 then (table_at W i, W) else expand W i.

(** subRound: the new values of [b] and [e]. *)
Definition subRound (a b c d e : Z) (f : Z -> Z -> Z -> Z) (k data : Z) : Z * Z :=
  (ROTL 30 b, Z.land (add32 e (ROTL 5 a + f b c d + k + data)) 0xffffffff).

(** Sub-rounds 5g to 5g+4. *)
Definition five_rounds (st : (Z * Z * Z * Z * Z) * list Z) (g : Z) : (Z * Z * Z * Z * Z) * list Z :=
  let '(A, B, C, D, E, W) := st in
  let '(f, k) := if g <? 4 then (f1, K1) else if g <? 8 then (f2, K2) else if g <? 12 then (f3, K3) else (f4, K4) in
  let '(x, W) := round_data W (5 * g) in
  let '(B, E) := subRound A B C D E f k x in
  let '(x, W) := round_data W (5 * g + 1) in
  let '(A, D) := subRound E A B C D f k x in
  let '(x, W) := round_data W (5 * g + 2) in
  let '(E, C) := subRound D E A B C f k x in
  let '(x, W) := round_data W (5 * g + 3) in
  let '(D, B) := subRound C D E A B f k x in
  let '(x, W) := round_data W (5 * g + 4) in
  let '(C, A) := subRound B C D E A f k x in
  (A, B, C, D, E, W).

Definition SHSTransform (digest : Z * Z * Z * Z * Z) (data : list Z) : Z * Z * Z * Z * Z :=
  let '(A, B, C, D, E, _) := foldl five_rounds (digest, data) (seqZ 0 16) in
  let '(d0, d1, d2, d3, d4) := digest in
  let m x := Z.land x 0xffffffff in
  (m (add32 d0 A), m (add32 d1 B), m (add32 d2 C), m (add32 d3 D), m (add32 d4 E)).

(** ** Initialisation, update, final *)

Definition SHS_DATASIZE : Z := 64.
Definition SHS_DIGESTSIZE : Z := 20.

(** The data area is not initialised. *)
Definition shsInit (shsInfo : shs_info) : shs_info :=
  ShsInfo (0x67452301, 0xefcdab89, 0x98badcfe, 0x10325476, 0xc3d2e1f0) 0 0 (shs_data shsInfo).

(** A word read through *buffer++ four times. *)
Definition read_word (buffer : list octet) : outcome error_code (Z * list octet) :=
  match buffer with
  | b0 :: b1 :: b2 :: b3 :: buffer =>
      Ok (Z.lor (Z.lor (Z.lor (shl32 b0 24) (shl32 b1 16)) (shl32 b2 8)) b3, buffer)
  | _ => Undefined
  end.

(** switch (count % 4) with its fall-through from case [n]; [n] = 0 adds all four octets. *)
Definition partial_word (n : Z) (buffer : list octet) : outcome error_code Z :=
  let at_ (i : nat) : outcome error_code Z := match buffer !! i with Some o => Ok o | None => Undefined end in
  let w := 0 in
  let* w := if n =? 0 then let* o := at_ 3%nat in Ok (Z.lor w o) else Ok w in
  let* w := if (n =? 0) || (n =? 3) then let* o := at_ 2%nat in Ok (Z.lor w (shl32 o 8)) else Ok w in
  let* w := if (n =? 0) || (n =? 3) || (n =? 2) then let* o := at_ 1%nat in Ok (Z.lor w (shl32 o 16)) else Ok w in
  if (n =? 0) || (n =? 3) || (n =? 2) || (n =? 1) then let* o := at_ 0%nat in Ok (Z.lor w (shl32 o 24)) else Ok w.

(** while (dataCount % 4 && count > 0): at most three iterations. *)
Fixpoint fill_word (fuel : nat) (w dataCount : Z) (buffer : list octet) (count : Z)
    : outcome error_code (Z * list octet * Z) :=
  match fuel with
  | O => Ok (w, buffer, count)
  | S fuel =>
      if (dataCount mod 4 =? 0) || (count <=? 0) then Ok (w, buffer, count)
      else match buffer with
           | [] => Undefined
           | o :: buffer =>
               fill_word fuel (Z.lor w (shl32 o ((3 - dataCount mod 4) * 8))) (dataCount + 1) buffer (count - 1)
           end
  end.

(** while (lp < shsInfo->data + 16), left by the break; [n] is the number of words left. *)
Fixpoint fill_words (n : nat) (data : list Z) (lp : nat) (buffer : list octet) (count : Z)
    : outcome error_code (list Z * list octet * Z) :=
  match n with
  | O => Ok (data, buffer, count)
  | S n =>
      let* '(w, buffer) := read_word buffer in
      let data := <[lp := w]> data in
      let lp := S lp in
      let count := count - 4 in
      if (count <? 4) && (0 <? Z.of_nat n) then
        let r := Z.rem count 4 in
        let* w := if r =? 0 then Ok 0 else partial_word r buffer in
        Ok (<[lp := w]> data, buffer, count)
      else fill_words n data lp buffer count
  end.

(** "Handle any leading odd-sized chunks" *)
Definition shs_leading (digest : Z * Z * Z * Z * Z) (data : list Z) (dataCount : Z) (buffer : list octet) (count : Z)
    : outcome error_code ((Z * Z * Z * Z * Z) * list Z * list octet * Z) :=
  if dataCount =? 0 then Ok (digest, data, buffer, count)
  else
    let lp := Z.to_nat (dataCount / 4) in
    let canfill := dataCount <=? count in
    let dataCount := SHS_DATASIZE - dataCount in
    let* '(data, lp, buffer, count) :=
      if dataCount mod 4 =? 0 then Ok (data, lp, buffer, count)
      else
        let* '(w, buffer, count) := fill_word 3 (nth lp data 0) dataCount buffer count in
        Ok (<[lp := w]> data, S lp, buffer, count) in
    let* '(data, buffer, count) := fill_words (16 - lp) data lp buffer count in
    let digest := if canfill then SHSTransform digest data else digest in
    Ok (digest, data, buffer, count).

(** Sixteen words of a whole block. *)
Fixpoint read_block (n : nat) (buffer : list octet) : outcome error_code (list Z * list octet) :=
  match n with
  | O => Ok ([], buffer)
  | S n =>
      let* '(w, buffer) := read_word buffer in
      let* '(ws, buffer) := read_block n buffer in
      Ok (w :: ws, buffer)
  end.

(** while (count >= SHS_DATASIZE) *)
Fixpoint shs_blocks (fuel : nat) (digest : Z * Z * Z * Z * Z) (data : list Z) (buffer : list octet) (count : Z)
    : outcome error_code ((Z * Z * Z * Z * Z) * list Z * list octet * Z) :=
  match fuel with
  | O => OutOfFuel
  | S fuel =>
      if SHS_DATASIZE <=? count then
        let* '(data, buffer) := read_block 16 buffer in
        shs_blocks fuel (SHSTransform digest data) data buffer (count - SHS_DATASIZE)
      else Ok (digest, data, buffer, count)
  end.

(** The octets that do not fill a block; there are at most 63. *)
Fixpoint shs_tail (fuel : nat) (data : list Z) (lp : nat) (buffer : list octet) (count : Z)
    : outcome error_code (list Z) :=
  match fuel with
  | O => OutOfFuel
  | S fuel =>
      if 4 <? count then
        let* '(w, buffer) := read_word buffer in
        shs_tail fuel (<[lp := w]> data) (S lp) buffer (count - 4)
      else
        let* w := partial_word (count mod 4) buffer in
        Ok (<[lp := w]> data)
  end.

(** [count] is the length of the buffer as an [int]; both loops end within it. *)
Definition shsUpdate (shsInfo : shs_info) (buffer : list octet) : outcome error_code shs_info :=
  let count := zlen buffer in
  let tmp := shs_countLo shsInfo in
  let countLo := Z.land (add32 tmp (shl32 count 3)) 0xffffffff in
  let countHi := if countLo <? tmp then add32 (shs_countHi shsInfo) 1 else shs_countHi shsInfo in
  let countHi := add32 countHi (Z.shiftr count 29) in
  let dataCount := Z.land (Z.shiftr tmp 3) 0x3f in
  let* '(digest, data, buffer, count) := shs_leading (shs_digest shsInfo) (shs_data shsInfo) dataCount buffer count in
  let* '(digest, data, buffer, count) := shs_blocks (S (length buffer)) digest data buffer count in
  let* data := if 0 <? count then shs_tail 16 data 0 buffer count else Ok data in
  Ok (ShsInfo digest countLo countHi data).

Definition shsFinal (shsInfo : shs_info) : shs_info :=
  let count := Z.land (Z.shiftr (shs_countLo shsInfo) 3) 0x3f in
  let data := shs_data shsInfo in
  let lp := Z.to_nat (count / 4) in
  let r := count mod 4 in
  let w := nth lp data 0 in
  let data := <[lp := if r =? 3 then Z.lor w 0x80
                      else if r =? 2 then Z.lor w (shl32 0x80 8)
                      else if r =? 1 then Z.lor w (shl32 0x80 16)
                      else shl32 0x80 24]> data in
  let lp := S lp in
  let '(data, lp) := if (lp =? 15)%nat then (<[lp := 0]> data, S lp) else (data, lp) in
  let '(digest, lp) := if (lp =? 16)%nat then (SHSTransform (shs_digest shsInfo) data, 0%nat)
                       else (shs_digest shsInfo, lp) in
  let data := foldl (fun data i => <[i := 0]> data) data (seq lp (14 - lp)) in
  let data := <[15%nat := shs_countLo shsInfo]> (<[14%nat := shs_countHi shsInfo]> data) in
  ShsInfo (SHSTransform digest data) (shs_countLo shsInfo) (shs_countHi shsInfo) data.

Fixpoint shs_updates (shsInfo : shs_info) (input : list (list octet)) : outcome error_code shs_info :=
  match input with
  | [] => Ok shsInfo
  | d :: input =>
      let* shsInfo := shsUpdate shsInfo d in
      shs_updates shsInfo input
  end.

(** [ctx] is the structure on the stack. *)
Definition k5_sha1_hash (ctx : shs_info) (input : list (list octet)) (output_length : Z)
    : outcome error_code (list octet) :=
  if negb (output_length =? SHS_DIGESTSIZE) then Err KRB5_CRYPTO_INTERNAL
  else
    let* ctx := shs_updates (shsInit ctx) input in
    let '(d0, d1, d2, d3, d4) := shs_digest (shsFinal ctx) in
    Ok (be32 d0 ++ be32 d1 ++ be32 d2 ++ be32 d3 ++ be32 d4).

(** The digest of abc in FIPS 180-1. *)
Example sha1_abc :
  k5_sha1_hash (ShsInfo (0, 0, 0, 0, 0) 0 0 (replicate 16 0)) [[97; 98; 99]] 20 =
  Ok [0xa9; 0x99; 0x3e; 0x36; 0x47; 0x06; 0x81; 0x6a; 0xba; 0x3e;
      0x25; 0x71; 0x78; 0x50; 0xc2; 0x6c; 0x9c; 0xd0; 0xd8; 0x9d].
Proof. vm_compute. reflexivity. Qed.
