(* ===== verification/ShsProofs.v ===== *)
(** * SHA-1: the code and FIPS 180-1

    The transformation of the code, unrolled and with a circular buffer of 16 words, is
    that of the standard, with its 80 words.  The hash of a message in one piece, or in
    pieces of whole blocks except the last, is its digest; in other pieces it is not. *)

From S2P Require Import Prelude Words Digest Shs.

(** ** The specification *)

Definition fips_ft (t : nat) : Z -> Z -> Z -> Z :=
  nth (t / 20) [fun x y z => Z.lor (Z.land x y) (Z.ldiff z x);
                fun x y z => Z.lxor (Z.lxor x y) z;
                fun x y z => Z.lor (Z.lor (Z.land x y) (Z.land x z)) (Z.land y z);
                fun x y z => Z.lxor (Z.lxor x y) z] (fun x _ _ => x).

Definition fips_Kt (t : nat) : Z := nth (t / 20) [0x5a827999; 0x6ed9eba1; 0x8f1bbcdc; 0xca62c1d6] 0.

(** The words W(0), ..., W(15+n). *)
Fixpoint fips_W (X : list Z) (n : nat) : list Z :=
  match n with
  | O => X
  | S n =>
      let W := fips_W X n in
      let t := (16 + n)%nat in
      W ++ [rotl32 1 (Z.lxor (Z.lxor (Z.lxor (nth (t - 3) W 0) (nth (t - 8) W 0)) (nth (t - 14) W 0)) (nth (t - 16) W 0))]
  end.

Definition fips_sha_step (W : list Z) (st : Z * Z * Z * Z * Z) (t : nat) : Z * Z * Z * Z * Z :=
  let '(A, B, C, D, E) := st in
  ((rotl32 5 A + fips_ft t B C D + E + nth t W 0 + fips_Kt t) mod 2 ^ 32, A, rotl32 30 B, C, D).

Definition fips_sha_compress (st : Z * Z * Z * Z * Z) (X : list Z) : Z * Z * Z * Z * Z :=
  let '(A, B, C, D, E) := foldl (fips_sha_step (fips_W X 64)) st (seq 0 80) in
  let '(H0, H1, H2, H3, H4) := st in
  ((H0 + A) mod 2 ^ 32, (H1 + B) mod 2 ^ 32, (H2 + C) mod 2 ^ 32, (H3 + D) mod 2 ^ 32, (H4 + E) mod 2 ^ 32).

Definition be_words (l : list octet) (n : nat) : list Z :=
  (fun i => octets_value (take 4 (drop (4 * i) l))) <$> seq 0 n.

Definition sha_iv : Z * Z * Z * Z * Z := (0x67452301, 0xefcdab89, 0x98badcfe, 0x10325476, 0xc3d2e1f0).

Definition sha_pad : list octet -> list octet :=
  pad_message (fun bits => be32 (bits / 2 ^ 32) ++ be32 (bits mod 2 ^ 32)).

Definition sha_absorb (st : Z * Z * Z * Z * Z) (block : list octet) : Z * Z * Z * Z * Z :=
  fips_sha_compress st (be_words block 16).

Definition fips180 (m : list octet) : list octet :=
  let p := sha_pad m in
  let '(d0, d1, d2, d3, d4) := process sha_absorb (length p / 64) sha_iv p in
  be32 d0 ++ be32 d1 ++ be32 d2 ++ be32 d3 ++ be32 d4.

(** ** The circular buffer *)

Lemma fips_W_length X n : length X = 16%nat -> length (fips_W X n) = (16 + n)%nat.
Proof. intros H. induction n as [|n IH]; [done|]. cbn [fips_W]. rewrite length_app, IH. cbn. lia. Qed.

Lemma fips_W_stable X n k t : length X = 16%nat -> (t < 16 + n)%nat -> nth t (fips_W X (n + k)) 0 = nth t (fips_W X n) 0.
Proof.
  intros H Ht. induction k as [|k IH]; [by rewrite Nat.add_0_r|]. rewrite Nat.add_succ_r. cbn [fips_W].
  rewrite app_nth1; [done|]. rewrite fips_W_length by done. lia.
Qed.

Lemma fips_W_rec X t : length X = 16%nat -> (16 <= t < 80)%nat ->
  nth t (fips_W X 64) 0 =
  rotl32 1 (Z.lxor (Z.lxor (Z.lxor (nth (t - 3) (fips_W X 64) 0) (nth (t - 8) (fips_W X 64) 0))
                           (nth (t - 14) (fips_W X 64) 0)) (nth (t - 16) (fips_W X 64) 0)).
Proof.
  intros H Ht. replace 64%nat with (S (t - 16) + (79 - t))%nat by lia. rewrite fips_W_stable by lia.
  cbn [fips_W]. rewrite app_nth2 by (rewrite fips_W_length by done; lia).
  rewrite fips_W_length by done. replace (t - (16 + (t - 16)))%nat with 0%nat by lia. cbn [nth].
  replace (16 + (t - 16))%nat with t by lia. replace (S (t - 16) + (79 - t))%nat with ((t - 16) + (80 - t))%nat by lia.
  by rewrite !fips_W_stable by lia.
Qed.

Lemma fips_W_first X t : length X = 16%nat -> (t < 16)%nat -> nth t (fips_W X 64) 0 = nth t X 0.
Proof. intros H Ht. apply (fips_W_stable X 0 64 t H). lia. Qed.

Lemma nth_insert (l : list Z) i j x : (j < length l)%nat -> nth i (<[j := x]> l) 0 = if (i =? j)%nat then x else nth i l 0.
Proof.
  intros H. rewrite !nth_lookup. destruct (Nat.eqb_spec i j) as [->|Hn].
  - by rewrite list_lookup_insert_eq.
  - by rewrite list_lookup_insert_ne.
Qed.

Definition words (W : list Z) : Prop := Forall (is_uint 32) W.

Lemma words_nth W i : words W -> is_uint 32 (nth i W 0).
Proof. intros H. revert i. induction H; intros [|i]; cbn; done. Qed.

(** Before round [t] the buffer has the latest words. *)
Definition ring (X W : list Z) (t : nat) : Prop :=
  length W = 16%nat /\ words W /\
  forall j, (j < 80)%nat -> (t - 16 <= j < Nat.max 16 t)%nat -> nth (j mod 16) W 0 = nth j (fips_W X 64) 0.

Lemma ring_start X : length X = 16%nat -> words X -> ring X X 0.
Proof.
  intros H Hw. split_and!; [done..|]. intros j _ Hj. rewrite Nat.mod_small, fips_W_first by lia. done.
Qed.

Lemma land15_nat t k : (k <= t)%nat -> Z.to_nat (Z.land (Z.of_nat t - Z.of_nat k) 15) = ((t - k) mod 16)%nat.
Proof.
  intros H. change 15 with (Z.ones 4). rewrite Z.land_ones, <- Nat2Z.inj_sub by lia.
  rewrite <- (Nat2Z.id ((t - k) mod 16)), Nat2Z.inj_mod. done.
Qed.

Lemma ring_step X W t : length X = 16%nat -> ring X W t -> (t < 80)%nat ->
  exists W', round_data W (Z.of_nat t) = (nth t (fips_W X 64) 0, W') /\ ring X W' (S t).
Proof.
  intros HX (HL & HW & HR) Ht. unfold round_data. destruct (Z.ltb_spec (Z.of_nat t) 16) as [H|H].
  - exists W. unfold table_at. rewrite Nat2Z.id. split.
    + f_equal. rewrite <- (HR t), Nat.mod_small by lia. done.
    + split_and!; [done..|]. intros j Hj Hr. apply HR; lia.
  - unfold expand, table_at.
    pose proof (land15_nat t 14 ltac:(lia)) as E14. pose proof (land15_nat t 8 ltac:(lia)) as E8.
    pose proof (land15_nat t 3 ltac:(lia)) as E3. pose proof (land15_nat t 0 ltac:(lia)) as E0.
    rewrite Z.sub_0_r, Nat.sub_0_r in E0. change (Z.of_nat 14) with 14 in E14. change (Z.of_nat 8) with 8 in E8.
    change (Z.of_nat 3) with 3 in E3. rewrite E14, E8, E3, E0. rewrite (HR (t - 14)%nat), (HR (t - 8)%nat), (HR (t - 3)%nat) by lia.
    replace (t mod 16)%nat with ((t - 16) mod 16)%nat
      by (rewrite <- (Nat.Div0.mod_add (t - 16) 1 16); f_equal; lia).
    rewrite (HR (t - 16)%nat) by lia.
    set (v := ROTL 1 _). assert (Ev : v = nth t (fips_W X 64) 0).
    { unfold v. rewrite (fips_W_rec X t) by lia. unfold ROTL. rewrite rotate_spec; [f_equal; bitwise|lia|].
      repeat (apply lxor_range; [lia| |]); rewrite <- HR by lia; by apply words_nth. }
    exists (<[((t - 16) mod 16)%nat := v]> W). split; [by rewrite Ev|].
    assert (Hm : ((t - 16) mod 16 < 16)%nat) by (apply Nat.mod_upper_bound; lia).
    split_and!; [by rewrite length_insert| |].
    + apply Forall_insert; [done|]. unfold v, ROTL. rewrite rotate_spec; [apply rotl32_range; [lia|]|lia|];
        repeat (apply lxor_range; [lia| |]); rewrite <- HR by lia; by apply words_nth.
    + intros j Hj Hr. rewrite nth_insert by lia. destruct (Nat.eqb_spec (j mod 16) ((t - 16) mod 16)) as [E|E].
      * replace j with t; [done|]. pose proof (Nat.div_mod_eq j 16). pose proof (Nat.div_mod_eq (t - 16) 16). lia.
      * apply HR; [done|]. assert (j <> t); [intros ->|lia]. apply E.
        rewrite <- (Nat.Div0.mod_add (t - 16) 1 16). f_equal. lia.
Qed.

(** ** The sub-rounds *)

Definition words5 (st : Z * Z * Z * Z * Z) : Prop :=
  let '(A, B, C, D, E) := st in
  is_uint 32 A /\ is_uint 32 B /\ is_uint 32 C /\ is_uint 32 D /\ is_uint 32 E.

Definition round_function (g : Z) : (Z -> Z -> Z -> Z) * Z :=
  if g <? 4 then (f1, K1) else if g <? 8 then (f2, K2) else if g <? 12 then (f3, K3) else (f4, K4).

Lemma round_function_spec g j : (g < 16)%nat -> (j < 5)%nat ->
  (forall x y z, (round_function (Z.of_nat g)).1 x y z = fips_ft (5 * g + j) x y z) /\
  (round_function (Z.of_nat g)).2 = fips_Kt (5 * g + j).
Proof.
  intros Hg Hj. unfold fips_ft, fips_Kt.
  replace ((5 * g + j) / 20)%nat with (g / 4)%nat.
  2:{ apply Nat2Z.inj. rewrite !Nat2Z.inj_div. divlia. }
  assert (Hq : (g / 4 < 4)%nat) by (apply Nat.Div0.div_lt_upper_bound; lia).
  assert (Eg : Z.of_nat (g / 4) = Z.of_nat g / 4) by apply Nat2Z.inj_div.
  unfold round_function. destruct (g / 4)%nat as [|[|[|[|q]]]]; [..|lia].
  - replace (Z.of_nat g <? 4) with true by (symmetry; apply Z.ltb_lt; divlia).
    split; [|done]. intros x y z. cbn [nth fst]. unfold f1. apply Z.bits_inj'. intros i Hi.
    rewrite Z.lor_spec, Z.ldiff_spec, Z.lxor_spec, !Z.land_spec, Z.lxor_spec.
    by destruct (Z.testbit x i), (Z.testbit y i), (Z.testbit z i).
  - replace (Z.of_nat g <? 4) with false by (symmetry; apply Z.ltb_ge; divlia).
    replace (Z.of_nat g <? 8) with true by (symmetry; apply Z.ltb_lt; divlia). done.
  - replace (Z.of_nat g <? 4) with false by (symmetry; apply Z.ltb_ge; divlia).
    replace (Z.of_nat g <? 8) with false by (symmetry; apply Z.ltb_ge; divlia).
    replace (Z.of_nat g <? 12) with true by (symmetry; apply Z.ltb_lt; divlia).
    split; [|done]. intros x y z. cbn [nth fst]. unfold f3. bitwise.
  - replace (Z.of_nat g <? 4) with false by (symmetry; apply Z.ltb_ge; divlia).
    replace (Z.of_nat g <? 8) with false by (symmetry; apply Z.ltb_ge; divlia).
    replace (Z.of_nat g <? 12) with false by (symmetry; apply Z.ltb_ge; divlia). done.
Qed.

(** A sub-round is a step of the standard, the registers keeping their places. *)
Lemma sub_round X g j z W A B C D E :
  length X = 16%nat -> (g < 16)%nat -> (j < 5)%nat -> z = Z.of_nat j -> words5 (A, B, C, D, E) -> ring X W (5 * g + j) ->
  let '(f, k) := round_function (Z.of_nat g) in
  exists B' E' W', round_data W (5 * Z.of_nat g + z) = (nth (5 * g + j) (fips_W X 64) 0, W') /\
    subRound A B C D E f k (nth (5 * g + j) (fips_W X 64) 0) = (B', E') /\
    fips_sha_step (fips_W X 64) (A, B, C, D, E) (5 * g + j) = (E', A, B', C, D) /\
    words5 (E', A, B', C, D) /\ ring X W' (S (5 * g + j)).
Proof.
  intros HX Hg Hj -> HS HR. destruct (round_function_spec g j Hg Hj) as [Hf Hk].
  destruct (round_function (Z.of_nat g)) as [f k]. cbn [fst snd] in Hf, Hk.
  destruct (ring_step X W _ HX HR ltac:(lia)) as (W' & HW & HR'). destruct HS as (HA & HB & HC & HD & HE).
  replace (5 * Z.of_nat g + Z.of_nat j) with (Z.of_nat (5 * g + j)) by lia.
  eexists _, _, W'. split; [done|]. split; [reflexivity|].
  unfold ROTL. rewrite !rotate_spec, land_add32 by (try done; lia). unfold fips_sha_step. rewrite Hf, Hk.
  split; [do 5 f_equal; lia|]. split; [|done]. split; [by apply Z.mod_pos_bound|].
  split_and!; try done. by apply rotl32_range; [lia|].
Qed.

Lemma five_rounds_spec X g W st : length X = 16%nat -> (g < 16)%nat -> words5 st -> ring X W (5 * g) ->
  exists st' W', five_rounds (st, W) (Z.of_nat g) = (st', W') /\
    st' = foldl (fips_sha_step (fips_W X 64)) st (seq (5 * g) 5) /\ words5 st' /\ ring X W' (5 * S g).
Proof.
  intros HX Hg HS HR. destruct st as [[[[A B] C] D] E].
  unfold five_rounds. fold (round_function (Z.of_nat g)).
  pose proof (sub_round X g) as SR. destruct (round_function (Z.of_nat g)) as [f k] eqn:EF.
  pose proof (SR 0%nat 0 W A B C D E HX Hg ltac:(lia) eq_refl HS) as SR0. rewrite Nat.add_0_r, Z.add_0_r in SR0.
  destruct (SR0 HR) as (B1 & E1 & W1 & -> & -> & S1 & HS1 & HR1). rewrite <- Nat.add_1_r in HR1.
  destruct (SR 1%nat 1 W1 _ _ _ _ _ HX Hg ltac:(lia) eq_refl HS1 HR1) as (A2 & D2 & W2 & -> & -> & S2 & HS2 & HR2).
  rewrite <- Nat.add_succ_r in HR2.
  destruct (SR 2%nat 2 W2 _ _ _ _ _ HX Hg ltac:(lia) eq_refl HS2 HR2) as (E3 & C3 & W3 & -> & -> & S3 & HS3 & HR3).
  rewrite <- Nat.add_succ_r in HR3.
  destruct (SR 3%nat 3 W3 _ _ _ _ _ HX Hg ltac:(lia) eq_refl HS3 HR3) as (D4 & B4 & W4 & -> & -> & S4 & HS4 & HR4).
  rewrite <- Nat.add_succ_r in HR4.
  destruct (SR 4%nat 4 W4 _ _ _ _ _ HX Hg ltac:(lia) eq_refl HS4 HR4) as (C5 & A5 & W5 & -> & -> & S5 & HS5 & HR5).
  exists (A5, B4, C5, D4, E3), W5. split; [done|]. split; [|split; [done|]].
  - cbn [seq foldl]. rewrite S1.
    replace (S (5 * g)) with (5 * g + 1)%nat by lia. rewrite S2.
    replace (S (5 * g + 1)) with (5 * g + 2)%nat by lia. rewrite S3.
    replace (S (5 * g + 2)) with (5 * g + 3)%nat by lia. rewrite S4.
    replace (S (5 * g + 3)) with (5 * g + 4)%nat by lia. by rewrite S5.
  - by replace (5 * S g)%nat with (S (5 * g + 4)) by lia.
Qed.

Lemma rounds_spec X st (n : nat) : length X = 16%nat -> words X -> words5 st -> (n <= 16)%nat ->
  exists st' W', foldl five_rounds (st, X) (seqZ 0 (Z.of_nat n)) = (st', W') /\
    st' = foldl (fips_sha_step (fips_W X 64)) st (seq 0 (5 * n)) /\ words5 st' /\ ring X W' (5 * n).
Proof.
  intros HX HW HS. induction n as [|n IH]; intros Hn.
  - exists st, X. split_and!; [done..|]. by apply ring_start.
  - destruct (IH ltac:(lia)) as (st1 & W1 & E1 & Es & HS1 & HR1).
    destruct (five_rounds_spec X n W1 st1 HX ltac:(lia) HS1 HR1) as (st2 & W2 & E2 & Es2 & HS2 & HR2).
    exists st2, W2. rewrite Nat2Z.inj_succ, <- Z.add_1_r, seqZ_app, foldl_app, E1 by lia.
    change (seqZ (0 + Z.of_nat n) 1) with [0 + Z.of_nat n]. rewrite Z.add_0_l. cbn [foldl].
    split; [done|]. split; [|done]. rewrite Es2, Es, <- foldl_app, <- seq_app. do 2 f_equal. lia.
Qed.

Lemma sha_transform_spec st X : length X = 16%nat -> words X -> words5 st ->
  SHSTransform st X = fips_sha_compress st X /\ words5 (SHSTransform st X).
Proof.
  intros HX HW HS. destruct (rounds_spec X st 16 HX HW HS ltac:(lia)) as (st' & W' & E & Es & _).
  change (Z.of_nat 16) with 16 in E. change (5 * 16)%nat with 80%nat in Es.
  unfold SHSTransform, fips_sha_compress. rewrite E, <- Es. destruct st' as [[[[A B] C] D] F], st as [[[[a b] c] d] e].
  rewrite !land_add32. split; [done|]. split_and!; by apply Z.mod_pos_bound.
Qed.

(** ** Words of a message *)

Lemma read_word_spec l : octets l -> (4 <= length l)%nat ->
  read_word l = Ok (octets_value (take 4 l), drop 4 l) /\ is_uint 32 (octets_value (take 4 l)).
Proof.
  intros Ho Hl. assert (R : is_uint 32 (octets_value (take 4 l))).
  { pose proof (octets_value_range (take 4 l) ltac:(by apply Forall_take)) as R. unfold zlen in R.
    rewrite length_take, Nat.min_l in R by lia. exact R. }
  split; [|done]. destruct l as [|o0 [|o1 [|o2 [|o3 l]]]]; cbn in Hl; try lia.
  repeat (apply Forall_cons_1 in Ho as [? Ho]). cbn [read_word take drop]. rewrite word_value, take_0, drop_0 by done.
  do 2 f_equal. unfold octets_value. cbn [foldl]. lia.
Qed.

Lemma be_words_cons l n : be_words l (S n) = octets_value (take 4 l) :: be_words (drop 4 l) n.
Proof.
  unfold be_words. cbn [seq fmap list_fmap]. f_equal.
  rewrite <- seq_shift, <- list_fmap_compose. apply list_fmap_ext. intros _ i _. unfold compose.
  rewrite drop_drop. by replace (4 + 4 * i)%nat with (4 * S i)%nat by lia.
Qed.

Lemma be_words_length l n : length (be_words l n) = n.
Proof. unfold be_words. by rewrite length_fmap, length_seq. Qed.

Lemma read_block_spec n l : octets l -> (4 * n <= length l)%nat ->
  read_block n l = Ok (be_words l n, drop (4 * n) l) /\ words (be_words l n).
Proof.
  revert l. induction n as [|n IH]; intros l Ho Hl.
  - split; [by rewrite Nat.mul_0_r, drop_0|constructor].
  - cbn [read_block]. destruct (read_word_spec l Ho ltac:(lia)) as [-> R]. cbn [obind].
    destruct (IH (drop 4 l)) as [-> HW]; [by apply Forall_drop|rewrite length_drop; lia|]. cbn [obind].
    rewrite be_words_cons, drop_drop. split; [do 3 f_equal; lia|by constructor].
Qed.

Lemma be_words_take l n : be_words (take (4 * n) l) n = be_words l n.
Proof.
  apply list_fmap_ext. intros k i Hi. apply lookup_seq in Hi as [-> Hi].
  rewrite skipn_firstn_comm, take_take, Nat.min_l by lia. done.
Qed.

Lemma be_words_words l n : octets l -> (4 * n <= length l)%nat -> words (be_words l n).
Proof. intros Ho Hl. by apply read_block_spec. Qed.

(** ** Whole blocks and the rest *)

Lemma mod64_drop {A} (l : list A) : (64 <= length l)%nat -> zlen (drop 64 l) mod 64 = zlen l mod 64.
Proof.
  intros H. unfold zlen. rewrite length_drop. replace (Z.of_nat (length l)) with (Z.of_nat (length l - 64) + 1 * 64) by lia.
  by rewrite Z.mod_add by lia.
Qed.

Lemma blocks_spec fuel st data l : octets l -> words5 st -> length data = 16%nat -> words data -> (length l < fuel)%nat ->
  exists st' data', shs_blocks fuel st data l (zlen l) = Ok (st', data', drop (64 * (length l / 64)) l, zlen l mod 64) /\
    st' = process sha_absorb (length l / 64) st l /\ words5 st' /\ length data' = 16%nat /\ words data'.
Proof.
  revert st data l. induction fuel as [|fuel IH]; intros st data l Ho HS HD HW Hf; [lia|].
  cbn [shs_blocks]. unfold SHS_DATASIZE. destruct (Z.leb_spec 64 (zlen l)) as [H|H]; unfold zlen in *.
  - destruct (read_block_spec 16 l Ho ltac:(lia)) as [-> HB]. cbn [obind]. change (4 * 16)%nat with 64%nat.
    destruct (sha_transform_spec st (be_words l 16) (be_words_length _ _) HB HS) as [E HS'].
    assert (Hq : (length l / 64 = S (length (drop 64 l) / 64))%nat).
    { rewrite length_drop, <- (Nat.add_1_l (_ / _)), <- Nat.div_add_l by lia. f_equal. lia. }
    replace (Z.of_nat (length l) - 64) with (Z.of_nat (length (drop 64 l))) by (rewrite length_drop; lia).
    destruct (IH (SHSTransform st (be_words l 16)) (be_words l 16) (drop 64 l)) as (st' & data' & -> & Es & HS2 & HD2 & HW2);
      [by apply Forall_drop|done|apply be_words_length|done|rewrite length_drop; lia|].
    exists st', data'. rewrite Hq. split; [|split; [|exact (conj HS2 (conj HD2 HW2))]].
    + rewrite drop_drop. fold (zlen (drop 64 l)) (zlen l). rewrite mod64_drop by lia. do 4 f_equal. lia.
    + rewrite Es, E. cbn [process]. f_equal. unfold sha_absorb. f_equal. symmetry. exact (be_words_take l 16).
  - assert (Hq : (length l / 64 = 0)%nat) by (apply Nat.div_small; lia). rewrite Hq, Nat.mul_0_r, drop_0.
    exists st, data. rewrite Z.mod_small by lia. split_and!; done.
Qed.

(** Word [k] of a message that is continued by zeros. *)
Definition word_of (l : list octet) (k : nat) : Z := octets_value (take 4 (drop (4 * k) (l ++ replicate 4 0))).

Lemma partial_word_spec t : octets t -> (0 < length t <= 4)%nat ->
  partial_word (zlen t mod 4) t = Ok (word_of t 0) /\ is_uint 32 (word_of t 0).
Proof.
  intros Ho Hl. destruct t as [|o0 [|o1 [|o2 [|o3 [|]]]]]; cbn in Hl; try lia; clear Hl.
  all: repeat (apply Forall_cons_1 in Ho as [? Ho]).
  all: assert (Z0 : is_octet 0) by done; unfold word_of; cbn [Nat.mul Nat.add drop app take replicate].
  all: match goal with |- context [octets_value [?a; ?b; ?c; ?d]] =>
         replace (octets_value [a; b; c; d]) with (Z.lor (Z.lor (Z.lor (shl32 a 24) (shl32 b 16)) (shl32 c 8)) d)
           by (rewrite word_value by done; unfold octets_value; cbn [foldl]; lia);
         assert (is_uint 32 (Z.lor (Z.lor (Z.lor (shl32 a 24) (shl32 b 16)) (shl32 c 8)) d))
           by (rewrite word_value by done; unfold is_uint in *; lia)
       end.
  all: split; [|done].
  all: match goal with |- context [zlen ?t mod 4] => let n := eval vm_compute in (zlen t mod 4) in change (zlen t mod 4) with n end.
  all: unfold partial_word; cbn -[Z.lor shl32]; f_equal; bitwise.
Qed.

Lemma word_of_take l : (4 <= length l)%nat -> word_of l 0 = octets_value (take 4 l).
Proof. intros H. unfold word_of. rewrite Nat.mul_0_r, drop_0, take_app_le by lia. done. Qed.

Lemma word_of_drop l k : (4 <= length l)%nat -> word_of l (S k) = word_of (drop 4 l) k.
Proof.
  intros H. unfold word_of. do 2 f_equal. replace (4 * S k)%nat with (4 + 4 * k)%nat by lia.
  rewrite <- drop_drop, drop_app_le by lia. done.
Qed.

(** The octets [t] end up in the words from [lp] on, the last one filled with zeros. *)
Lemma tail_spec fuel data lp t : octets t -> words data ->
  (0 < length t <= 4 * fuel)%nat -> (4 * lp + length t <= 4 * length data)%nat ->
  exists data', shs_tail fuel data lp t (zlen t) = Ok data' /\ length data' = length data /\ words data' /\
    (forall i, (4 * i < length t)%nat -> nth (lp + i) data' 0 = word_of t i) /\
    (forall i, (i < lp)%nat -> nth i data' 0 = nth i data 0).
Proof.
  intros Ho HW. revert data lp t Ho HW. induction fuel as [|fuel IH]; intros data lp t Ho HW Hf Hl; [lia|].
  cbn [shs_tail]. destruct (Z.ltb_spec 4 (zlen t)) as [H|H]; unfold zlen in *.
  - destruct (read_word_spec t Ho ltac:(lia)) as [-> R]. cbn [obind].
    replace (Z.of_nat (length t) - 4) with (Z.of_nat (length (drop 4 t))) by (rewrite length_drop; lia).
    destruct (IH (<[lp := octets_value (take 4 t)]> data) (S lp) (drop 4 t)) as (data' & -> & HL & HW' & HN & HP).
    { by apply Forall_drop. } { by apply Forall_insert. } { rewrite length_drop. lia. }
    { rewrite length_drop, length_insert. lia. }
    exists data'. rewrite length_insert in HL. split_and!; [done..| |].
    + intros [|i] Hi.
      * rewrite Nat.add_0_r, HP, nth_insert, Nat.eqb_refl, word_of_take by lia. done.
      * rewrite word_of_drop by lia. rewrite <- HN by (rewrite length_drop; lia). f_equal. lia.
    + intros i Hi. rewrite HP, nth_insert by lia. by replace (i =? lp)%nat with false by (symmetry; apply Nat.eqb_neq; lia).
  - destruct (partial_word_spec t Ho ltac:(lia)) as [E R]. unfold zlen in E. rewrite E. cbn [obind].
    exists (<[lp := word_of t 0]> data). rewrite length_insert. split_and!; [done..|by apply Forall_insert| |].
    + intros i Hi. replace i with 0%nat by lia. rewrite Nat.add_0_r, nth_insert, Nat.eqb_refl by lia. done.
    + intros i Hi. rewrite nth_insert by lia. by replace (i =? lp)%nat with false by (symmetry; apply Nat.eqb_neq; lia).
Qed.

(** ** The padding *)

(** The data with its first octet of padding, continued by zeros. *)
Definition marked (t : list octet) : list octet := t ++ 0x80 :: replicate 130 0.
Definition marked_word (t : list octet) (i : nat) : Z := octets_value (take 4 (drop (4 * i) (marked t))).

Lemma marked_full t i : (4 * i + 4 <= length t)%nat -> marked_word t i = word_of t i.
Proof.
  intros H. unfold marked_word, marked, word_of. rewrite !drop_app_le, !take_app_le by (rewrite ?length_drop; lia). done.
Qed.

Lemma octets_value4 a b c d : is_octet a -> is_octet b -> is_octet c -> is_octet d ->
  octets_value [a; b; c; d] = Z.lor (Z.lor (Z.lor (shl32 a 24) (shl32 b 16)) (shl32 c 8)) d.
Proof. intros. rewrite word_value by done. unfold octets_value. cbn [foldl]. lia. Qed.

(** The word with the mark, from the word with the last octets. *)
Lemma marked_last t i : octets t -> (i = length t / 4)%nat ->
  marked_word t i =
  let r := zlen t mod 4 in
  let w := word_of t i in
  if r =? 3 then Z.lor w 0x80 else if r =? 2 then Z.lor w (shl32 0x80 8)
  else if r =? 1 then Z.lor w (shl32 0x80 16) else shl32 0x80 24.
Proof.
  intros Ho ->. pose proof (Nat.div_mod_eq (length t) 4) as E. set (q := (length t / 4)%nat) in *.
  assert (Hr : (length t mod 4 < 4)%nat) by (apply Nat.mod_upper_bound; lia).
  unfold marked_word, marked, word_of. rewrite !drop_app_le by lia.
  assert (Ho' : octets (drop (4 * q) t)) by (by apply Forall_drop).
  assert (L : length (drop (4 * q) t) = (length t mod 4)%nat) by (rewrite length_drop; lia).
  assert (EZ : zlen t mod 4 = Z.of_nat (length (drop (4 * q) t))) by (unfold zlen; rewrite L, Nat2Z.inj_mod; done).
  rewrite EZ. assert (Z0 : is_octet 0) by done. assert (Z80 : is_octet 0x80) by done.
  destruct (drop (4 * q) t) as [|o0 [|o1 [|o2 [|]]]]; cbn in L; [..|lia].
  all: repeat (apply Forall_cons_1 in Ho' as [? Ho']); cbn [app take replicate length].
  all: repeat match goal with |- context [Z.of_nat ?n =? ?k] =>
         let b := eval vm_compute in (Z.of_nat n =? k) in change (Z.of_nat n =? k) with b end.
  all: cbv zeta iota; rewrite !octets_value4 by done; bitwise.
Qed.

Lemma marked_zero t i : (length t < 4 * i)%nat -> (4 * i <= length t + 120)%nat -> marked_word t i = 0.
Proof.
  intros H H'. unfold marked_word, marked.
  replace (t ++ 0x80 :: replicate 130 0) with ((t ++ [0x80]) ++ replicate 130 0) by (by rewrite <- app_assoc).
  rewrite drop_app_ge by (rewrite length_app; cbn; lia). rewrite drop_replicate, take_replicate, length_app. cbn [length].
  replace (4 `min` (130 - (4 * i - (length t + 1))))%nat with 4%nat by lia. done.
Qed.

Lemma nth_be_words l n i : (i < n)%nat -> nth i (be_words l n) 0 = octets_value (take 4 (drop (4 * i) l)).
Proof.
  intros H. unfold be_words. rewrite nth_lookup, list_lookup_fmap, lookup_seq_lt by done. done.
Qed.

Lemma zero_fill (data : list Z) a n : (a + n <= length data)%nat ->
  let data' := foldl (fun data i => <[i := 0]> data) data (seq a n) in
  length data' = length data /\ (words data -> words data') /\
  forall i, nth i data' 0 = if (a <=? i)%nat && (i <? a + n)%nat then 0 else nth i data 0.
Proof.
  revert a data. induction n as [|n IH]; intros a data H; cbn [seq foldl].
  - split_and!; [done..|]. intros i. rewrite Nat.add_0_r.
    destruct (Nat.leb_spec a i), (Nat.ltb_spec i a); cbn; try done; lia.
  - destruct (IH (S a) (<[a := 0]> data)) as (L & W & N); [rewrite length_insert; lia|].
    rewrite length_insert in L. split_and!; [done|intros HW; apply W; by apply Forall_insert|].
    intros i. rewrite N, nth_insert by lia.
    destruct (Nat.leb_spec (S a) i), (Nat.ltb_spec i (S a + n)), (Nat.leb_spec a i), (Nat.ltb_spec i (a + S n)),
      (Nat.eqb_spec i a); cbn; try done; lia.
Qed.

(** The last words of a message: [B] up to the length, then the length. *)
Lemma length_block B hi_ lo_ i : (length B mod 64 = 56)%nat -> is_uint 32 hi_ -> is_uint 32 lo_ ->
  let P := B ++ be32 hi_ ++ be32 lo_ in
  let b := (64 * (length B / 64))%nat in
  (i < 16)%nat ->
  octets_value (take 4 (drop (4 * i) (drop b P))) =
  if (i =? 15)%nat then lo_ else if (i =? 14)%nat then hi_ else octets_value (take 4 (drop (b + 4 * i) B)).
Proof.
  intros HB Hh Hl P b Hi. pose proof (Nat.div_mod_eq (length B) 64) as E. rewrite HB in E. fold b in E.
  assert (V : forall w, is_uint 32 w -> octets_value (be32 w) = w).
  { intros w [H0 H1]. unfold octets_value, be32. cbn [foldl]. change 255 with (Z.ones 8).
    rewrite !Z.land_ones, !Z.shiftr_div_pow2 by lia. divlia. }
  unfold P. rewrite drop_drop. destruct (Nat.eqb_spec i 15) as [->|]; [|destruct (Nat.eqb_spec i 14) as [->|]].
  - rewrite drop_app_ge by lia. replace (b + 4 * 15 - length B)%nat with 4%nat by lia. by apply V.
  - rewrite drop_app_ge by lia. replace (b + 4 * 14 - length B)%nat with 0%nat by lia. by apply V.
  - rewrite drop_app_le, take_app_le by (rewrite ?length_drop; lia). done.
Qed.

Section final.
Context (digest : Z * Z * Z * Z * Z) (data : list Z) (lo_ hi_ : Z) (t : list octet).
Context (Hdigest : words5 digest) (Hdata : length data = 16%nat) (Hwords : words data).
Context (Hlo : is_uint 32 lo_) (Hhi : is_uint 32 hi_).
Context (Ht : octets t) (Hlen : (length t < 64)%nat) (Hcount : Z.land (Z.shiftr lo_ 3) 0x3f = zlen t).
Context (Htail : forall i, (4 * i < length t)%nat -> nth i data 0 = word_of t i).

Let k := Z.to_nat ((55 - zlen t) mod 64).
Let B := t ++ 0x80 :: replicate k 0.
Let lp := (length t / 4)%nat.

Lemma lp_bound : (4 * lp <= length t < 4 * lp + 4)%nat.
Proof. unfold lp. pose proof (Nat.div_mod_eq (length t) 4). pose proof (Nat.mod_upper_bound (length t) 4). lia. Qed.

Definition mark : list Z :=
  let r := zlen t mod 4 in
  let w := nth lp data 0 in
  <[lp := if r =? 3 then Z.lor w 0x80 else if r =? 2 then Z.lor w (shl32 0x80 8)
          else if r =? 1 then Z.lor w (shl32 0x80 16) else shl32 0x80 24]> data.

Lemma mark_words : length mark = 16%nat /\ words mark /\ forall i, (i <= lp)%nat -> nth i mark 0 = marked_word t i.
Proof.
  pose proof lp_bound as HL. pose proof (marked_last t lp Ht eq_refl) as ML. cbv zeta in ML.
  assert (ME : (if zlen t mod 4 =? 3 then Z.lor (nth lp data 0) 0x80 else
                if zlen t mod 4 =? 2 then Z.lor (nth lp data 0) (shl32 0x80 8) else
                if zlen t mod 4 =? 1 then Z.lor (nth lp data 0) (shl32 0x80 16) else shl32 0x80 24) = marked_word t lp).
  { rewrite ML. destruct (decide (4 * lp < length t)%nat) as [Hlt|Hge].
    - by rewrite Htail.
    - replace (zlen t mod 4) with 0; [done|]. unfold zlen. replace (length t) with (4 * lp)%nat by lia.
      rewrite Nat2Z.inj_mul, Z.mul_comm. by rewrite Z.mod_mul. }
  unfold mark. cbv zeta. rewrite ME. split_and!.
  - by rewrite length_insert.
  - apply Forall_insert; [done|]. unfold marked_word.
    pose proof (octets_value_range (take 4 (drop (4 * lp) (marked t)))) as R. unfold zlen in R.
    rewrite length_take, length_drop, Nat.min_l in R.
    + apply R, Forall_take, Forall_drop. unfold marked. apply Forall_app. split; [done|]. constructor; [done|by apply Forall_replicate].
    + unfold marked. rewrite length_app. cbn [length]. rewrite length_replicate. lia.
  - intros i Hi. rewrite nth_insert by lia. destruct (Nat.eqb_spec i lp) as [->|]; [done|].
    rewrite Htail, marked_full by lia. done.
Qed.

Lemma B_length : length B = (length t + 1 + k)%nat.
Proof. unfold B. rewrite length_app. cbn [length]. rewrite length_replicate. lia. Qed.

Lemma B_word i : (4 * i + 4 <= length B)%nat -> marked_word t i = octets_value (take 4 (drop (4 * i) B)).
Proof.
  intros H. unfold marked_word. assert (Hk : (k <= 130)%nat) by (pose proof (Z.mod_pos_bound (55 - zlen t) 64); unfold k; lia).
  replace (marked t) with (B ++ replicate (130 - k) 0).
  - rewrite drop_app_le, take_app_le by (rewrite ?length_drop; lia). done.
  - unfold B, marked. rewrite <- app_assoc. cbn [app]. rewrite <- replicate_add. do 3 f_equal. lia.
Qed.

Definition final_data (data : list Z) (lp : nat) : list Z :=
  <[15%nat := lo_]> (<[14%nat := hi_]> (foldl (fun data i => <[i := 0]> data) data (seq lp (14 - lp)))).

Lemma final_data_spec D l : length D = 16%nat -> words D -> (l <= 14)%nat ->
  length (final_data D l) = 16%nat /\ words (final_data D l) /\
  forall i, (i < 16)%nat -> nth i (final_data D l) 0 =
    if (i =? 15)%nat then lo_ else if (i =? 14)%nat then hi_ else if (l <=? i)%nat then 0 else nth i D 0.
Proof.
  intros HD HW Hl. destruct (zero_fill D l (14 - l) ltac:(lia)) as (L & W & N). unfold final_data. split_and!.
  - by rewrite !length_insert, L.
  - apply Forall_insert; [|done]. apply Forall_insert; [|done]. by apply W.
  - intros i Hi. rewrite !nth_insert by (rewrite ?length_insert, L; lia). rewrite N.
    destruct (Nat.eqb_spec i 15), (Nat.eqb_spec i 14), (Nat.leb_spec l i), (Nat.ltb_spec i (l + (14 - l))); cbn; try done; lia.
Qed.

Lemma final_unfold :
  shs_digest (shsFinal (ShsInfo digest lo_ hi_ data)) =
  if (lp <=? 13)%nat then SHSTransform digest (final_data mark (S lp))
  else let D := if (lp =? 14)%nat then <[15%nat := 0]> mark else mark in
       SHSTransform (SHSTransform digest D) (final_data D 0).
Proof.
  pose proof lp_bound as HL. unfold shsFinal. cbn [shs_countLo shs_data shs_countHi shs_digest]. rewrite Hcount.
  replace (Z.to_nat (zlen t / 4)) with lp by (unfold zlen, lp; rewrite <- (Nat2Z.inj_div _ 4), Nat2Z.id; done).
  fold mark. destruct (Nat.leb_spec lp 13) as [H|H].
  - replace (S lp =? 15)%nat with false by (symmetry; apply Nat.eqb_neq; lia).
    replace (S lp =? 16)%nat with false by (symmetry; apply Nat.eqb_neq; lia). done.
  - destruct (Nat.eqb_spec lp 14) as [E|E].
    + rewrite E. done.
    + replace lp with 15%nat by lia. done.
Qed.

Lemma final_sha :
  let P := B ++ be32 hi_ ++ be32 lo_ in
  shs_digest (shsFinal (ShsInfo digest lo_ hi_ data)) = process sha_absorb (length P / 64) digest P.
Proof.
  intros P. pose proof lp_bound as HL. pose proof B_length as HB. destruct mark_words as (ML & MW & MN).
  assert (LP : length P = (length B + 8)%nat) by (unfold P; rewrite length_app; done).
  rewrite final_unfold. destruct (Nat.leb_spec lp 13) as [H|H].
  - assert (Hk : (k = 55 - length t)%nat) by (unfold k, zlen; rewrite Z.mod_small; lia).
    replace (length P / 64)%nat with 1%nat by (rewrite LP, HB, Hk; replace (length t + 1 + (55 - length t) + 8)%nat with 64%nat by lia; done).
    destruct (final_data_spec mark (S lp) ML MW ltac:(lia)) as (FL & FW & FN).
    rewrite (proj1 (sha_transform_spec _ _ FL FW Hdigest)). cbn [process]. unfold sha_absorb. f_equal.
    apply (nth_ext _ _ 0 0); [by rewrite be_words_length|]. rewrite FL. intros i Hi.
    rewrite FN, nth_be_words, (take_ge P) by lia.
    pose proof (length_block B hi_ lo_ i) as LB. cbv zeta in LB. rewrite (Nat.div_small (length B)), Nat.mul_0_r, drop_0 in LB by lia.
    fold P in LB. rewrite LB by (try done; rewrite Nat.mod_small; lia).
    destruct (Nat.eqb_spec i 15), (Nat.eqb_spec i 14); [done..|]. cbn [Nat.add]. rewrite <- B_word by lia.
    destruct (Nat.leb_spec (S lp) i); [by rewrite marked_zero by lia|by rewrite MN by lia].
  - assert (Hk : (k = 119 - length t)%nat).
    { unfold k, zlen. rewrite <- (Z.mod_add _ 1 64) by lia. rewrite Z.mod_small; lia. }
    replace (length P / 64)%nat with 2%nat by (rewrite LP, HB, Hk; replace (length t + 1 + (119 - length t) + 8)%nat with 128%nat by lia; done).
    set (D := if (lp =? 14)%nat then <[15%nat := 0]> mark else mark).
    assert (HD : length D = 16%nat /\ words D /\ forall i, (i < 16)%nat -> nth i D 0 = marked_word t i).
    { unfold D. destruct (Nat.eqb_spec lp 14) as [E|E].
      - split_and!; [by rewrite length_insert|by apply Forall_insert|]. intros i Hi. rewrite nth_insert by lia.
        destruct (Nat.eqb_spec i 15) as [->|]; [by rewrite marked_zero by lia|by rewrite MN by lia].
      - split_and!; [done..|]. intros i Hi. rewrite MN by lia. done. }
    destruct HD as (DL & DW & DN). cbv zeta.
    destruct (sha_transform_spec digest D DL DW Hdigest) as [E1 S1].
    destruct (final_data_spec D 0 DL DW ltac:(lia)) as (FL & FW & FN).
    rewrite (proj1 (sha_transform_spec _ _ FL FW S1)), E1. cbn [process]. unfold sha_absorb. f_equal; [f_equal|].
    + apply (nth_ext _ _ 0 0); [by rewrite be_words_length|]. rewrite DL. intros i Hi.
      rewrite DN, B_word, nth_be_words by lia. unfold P.
      rewrite take_app_le, skipn_firstn_comm, take_take, Nat.min_l by lia. done.
    + apply (nth_ext _ _ 0 0); [by rewrite be_words_length|]. rewrite FL. intros i Hi.
      rewrite FN, nth_be_words by lia. rewrite (take_ge (drop 64 P)) by (rewrite length_drop; lia).
      pose proof (length_block B hi_ lo_ i) as LB. cbv zeta in LB.
      replace (length B) with 120%nat in LB by lia. change (64 * (120 / 64))%nat with 64%nat in LB. fold P in LB.
      rewrite LB by done. destruct (Nat.eqb_spec i 15), (Nat.eqb_spec i 14); [done..|]. cbn [Nat.leb].
      replace (64 + 4 * i)%nat with (4 * (16 + i))%nat by lia. rewrite <- B_word by lia. by rewrite marked_zero by lia.
Qed.
End final.

(** ** The structure represents the octets seen so far *)

Definition rest_of (m : list octet) : list octet := drop (64 * (length m / 64)) m.

Definition sha_represents (info : shs_info) (m : list octet) : Prop :=
  octets m /\ shs_digest info = process sha_absorb (length m / 64) sha_iv m /\ words5 (shs_digest info) /\
  length (shs_data info) = 16%nat /\ words (shs_data info) /\
  is_uint 32 (shs_countLo info) /\ is_uint 32 (shs_countHi info) /\
  shs_countLo info + 2 ^ 32 * shs_countHi info = (8 * zlen m) mod 2 ^ 64 /\
  (forall i, (4 * i < length (rest_of m))%nat -> nth i (shs_data info) 0 = word_of (rest_of m) i).

Lemma rest_of_length m : zlen (rest_of m) = zlen m mod 64.
Proof.
  unfold rest_of, zlen. rewrite length_drop. pose proof (Nat.div_mod_eq (length m) 64).
  replace (length m - 64 * (length m / 64))%nat with (length m mod 64)%nat by lia. by rewrite Nat2Z.inj_mod.
Qed.

Lemma sha_represents_count info m : sha_represents info m ->
  Z.land (Z.shiftr (shs_countLo info) 3) 0x3f = zlen m mod 64.
Proof.
  intros (_ & _ & _ & _ & _ & [H0 H0'] & [H1 H1'] & E & _). change 0x3f with (Z.ones 6).
  rewrite Z.land_ones, Z.shiftr_div_pow2 by lia. divlia.
Qed.

Lemma sha_represents_init ctx : length (shs_data ctx) = 16%nat -> words (shs_data ctx) -> sha_represents (shsInit ctx) [].
Proof. intros HL HW. split_and!; try done. cbn. intros i Hi. lia. Qed.

(** The count of an update, as an [int]. *)
Lemma sha_count lo_ hi_ (m l : list octet) : is_uint 32 lo_ -> is_uint 32 hi_ -> lo_ + 2 ^ 32 * hi_ = (8 * zlen m) mod 2 ^ 64 ->
  zlen l < 2 ^ 31 ->
  let lo' := Z.land (add32 lo_ (shl32 (zlen l) 3)) 0xffffffff in
  let hi' := add32 (if lo' <? lo_ then add32 hi_ 1 else hi_) (Z.shiftr (zlen l) 29) in
  is_uint 32 lo' /\ is_uint 32 hi' /\ lo' + 2 ^ 32 * hi' = (8 * zlen (m ++ l)) mod 2 ^ 64.
Proof.
  intros [H0 H0'] [H1 H1'] E Hl. cbv zeta. rewrite land_add32. split; [by apply Z.mod_pos_bound|].
  split; [apply uint32_range|]. rewrite zlen_app. pose proof (zlen_nonneg l). pose proof (zlen_nonneg m).
  unfold add32, shl32, to_uint. rewrite Z.shiftl_mul_pow2, Z.shiftr_div_pow2 by lia.
  destruct (Z.ltb_spec ((lo_ + (zlen l * 2 ^ 3) mod 2 ^ 32) mod 2 ^ 32) lo_); divlia.
Qed.

(** An update that starts at the beginning of a block. *)
Lemma sha_represents_update info m l : sha_represents info m -> zlen m mod 64 = 0 -> octets l -> zlen l < 2 ^ 31 ->
  exists info', shsUpdate info l = Ok info' /\ sha_represents info' (m ++ l).
Proof.
  intros HR Hm Ho Hl. unfold shsUpdate. rewrite (sha_represents_count info m HR), Hm.
  destruct HR as (Hom & Hd & HS & HL & HW & Hlo & Hhi & E & _). destruct info as [st lo_ hi_ data].
  cbn [shs_digest shs_countLo shs_countHi shs_data] in *. unfold shs_leading. cbn [Z.eqb obind].
  destruct (blocks_spec (S (length l)) st data l Ho HS HL HW ltac:(lia)) as (st' & data' & -> & Es & HS' & HL' & HW').
  cbn [obind]. destruct (sha_count lo_ hi_ m l Hlo Hhi E Hl) as (Clo & Chi & CE).
  assert (Hq : length m = (64 * (length m / 64))%nat).
  { pose proof (Nat.div_mod_eq (length m) 64). enough (length m mod 64 = 0)%nat by lia.
    apply Nat2Z.inj. rewrite Nat2Z.inj_mod. exact Hm. }
  set (q := (length m / 64)%nat) in *.
  assert (Hq' : (length (m ++ l) / 64 = q + length l / 64)%nat).
  { rewrite length_app, Hq, Nat.mul_comm, Nat.div_add_l by lia. done. }
  assert (Hr : rest_of (m ++ l) = rest_of l).
  { unfold rest_of. rewrite Hq', Nat.mul_add_distr_l, drop_app_ge by lia. f_equal. lia. }
  assert (Hlt : zlen l mod 64 = zlen (rest_of l)) by (by rewrite rest_of_length).
  assert (Hol : octets (rest_of l)) by (by apply Forall_drop).
  pose proof (Z.mod_pos_bound (zlen l) 64 eq_refl) as Hb. rewrite Hlt in *. fold (rest_of l).
  assert (P : st' = process sha_absorb (length (m ++ l) / 64) sha_iv (m ++ l)).
  { rewrite Hq', process_blocks, Es, Hd by done. done. }
  destruct (Z.ltb_spec 0 (zlen (rest_of l))) as [Hpos|Hz].
  - destruct (tail_spec 16 data' 0 (rest_of l)) as (data2 & -> & L2 & W2 & N2 & _); try (unfold zlen in *; lia); [done..|].
    cbn [obind]. eexists. split; [reflexivity|]. split_and!; try done; [by apply Forall_app|by cbn; rewrite L2|].
    rewrite Hr. intros i Hi. cbn [shs_data]. by rewrite <- N2.
  - cbn [obind]. eexists. split; [reflexivity|]. split_and!; try done; [by apply Forall_app|].
    rewrite Hr. intros i Hi. unfold zlen in *. lia.
Qed.

Lemma sha_updates_spec info m ls l : sha_represents info m -> zlen m mod 64 = 0 ->
  Forall (fun d => octets d /\ zlen d < 2 ^ 31) (ls ++ [l]) -> Forall (fun d => zlen d mod 64 = 0) ls ->
  exists info', shs_updates info (ls ++ [l]) = Ok info' /\ sha_represents info' (m ++ concat (ls ++ [l])).
Proof.
  revert info m. induction ls as [|d ls IH]; intros info m HR Hm Ho Ha; cbn [app shs_updates concat].
  - apply Forall_cons_1 in Ho as [[Ho Hl] _]. rewrite app_nil_r.
    destruct (sha_represents_update info m l HR Hm Ho Hl) as (info' & -> & HR'). by exists info'.
  - apply Forall_cons_1 in Ho as [[Ho Hl] Hos], Ha as [Ha Has].
    destruct (sha_represents_update info m d HR Hm Ho Hl) as (info' & -> & HR'). cbn [obind]. rewrite app_assoc.
    apply IH; try done. rewrite zlen_app, Z.add_mod, Hm, Ha by lia. done.
Qed.

Lemma sha_final_spec info m : sha_represents info m ->
  shs_digest (shsFinal info) = process sha_absorb (length (sha_pad m) / 64) sha_iv (sha_pad m).
Proof.
  intros HR. pose proof (sha_represents_count info m HR) as HC. destruct HR as (Ho & Hd & HS & HL & HW & Hlo & Hhi & E & HT).
  destruct info as [st lo_ hi_ data]. cbn [shs_digest shs_countLo shs_countHi shs_data] in *.
  pose proof (rest_of_length m) as HR. pose proof (Z.mod_pos_bound (zlen m) 64 eq_refl) as Hb.
  rewrite (final_sha st data lo_ hi_ (rest_of m)); try done;
    [|by apply Forall_drop|unfold zlen in *; lia|by rewrite HR].
  rewrite HR. replace ((55 - zlen m mod 64) mod 64) with ((55 - zlen m) mod 64) by (by rewrite Zminus_mod_idemp_r).
  set (q := (length m / 64)%nat) in *. set (k := Z.to_nat ((55 - zlen m) mod 64)).
  assert (EP : sha_pad m = take (64 * q) m ++ (rest_of m ++ 0x80 :: replicate k 0) ++ be32 hi_ ++ be32 lo_).
  { unfold sha_pad, pad_message. fold k. rewrite <- E.
    replace ((lo_ + 2 ^ 32 * hi_) mod 2 ^ 32) with lo_ by (unfold is_uint in *; divlia).
    replace ((lo_ + 2 ^ 32 * hi_) / 2 ^ 32) with hi_ by (unfold is_uint in *; divlia).
    unfold rest_of. fold q. rewrite !app_assoc, take_drop, <- !app_assoc. done. }
  rewrite EP. set (P := (rest_of m ++ 0x80 :: replicate k 0) ++ be32 hi_ ++ be32 lo_).
  pose proof (Nat.div_mod_eq (length m) 64) as Hdm. fold q in Hdm.
  assert (LT : length (take (64 * q) m) = (64 * q)%nat) by (rewrite length_take; lia).
  replace (length (take (64 * q) m ++ P) / 64)%nat with (q + length P / 64)%nat
    by (rewrite length_app, LT, Nat.mul_comm, Nat.div_add_l by lia; done).
  rewrite process_blocks by done. f_equal. rewrite Hd, <- (take_drop (64 * q) m) at 1. by rewrite process_app by lia.
Qed.

(** C29: Hashing pieces of whole blocks and a last piece of any length gives the SHA-1
    digest that FIPS 180-1 defines for their concatenation. *)
Theorem sha1_fips180 ctx ls l :
  length (shs_data ctx) = 16%nat -> words (shs_data ctx) ->
  Forall (fun d => octets d /\ zlen d < 2 ^ 31) (ls ++ [l]) -> Forall (fun d => zlen d mod 64 = 0) ls ->
  k5_sha1_hash ctx (ls ++ [l]) 20 = Ok (fips180 (concat (ls ++ [l]))).
Proof.
  intros HL HW Ho Ha. unfold k5_sha1_hash. cbn [Z.eqb negb SHS_DIGESTSIZE].
  destruct (sha_updates_spec (shsInit ctx) [] ls l) as (info & -> & HR); try done; [by apply sha_represents_init|].
  cbn [obind]. cbn [app] in HR. rewrite (sha_final_spec info _ HR). unfold fips180. by destruct (process _ _ _ _) as [[[[? ?] ?] ?] ?].
Qed.

(** A message given in pieces that are not whole blocks is not hashed: the digest of 60
    octets and 10 more is not that of the 70 octets, and for one octet and one more the
    code reads behind the second. *)
Theorem sha1_split_fault ctx :
  length (shs_data ctx) = 16%nat ->
  (** 60 octets, then 10: the digest is not that of the 70 octets *)
  k5_sha1_hash ctx [replicate 60 97; replicate 10 98] 20 <> Ok (fips180 (replicate 60 97 ++ replicate 10 98)) /\
  (** one octet, then one: octets behind the second are read *)
  k5_sha1_hash ctx [[97]; [98]] 20 = Undefined.
Proof.
  intros HL. destruct ctx as [st clo chi data]. cbn [shs_data] in HL.
  do 16 (destruct data as [|? data]; [discriminate|]). destruct data; [|discriminate].
  split; [|vm_compute; reflexivity]. vm_compute. discriminate.
Qed.
