(* ===== verification/Crypto.v ===== *)
(** * Providers, key derivation, encryption and checksums (src/src/lib/crypto)

    The ciphers and the hash functions behind the tables of function pointers that the
    rest of the library uses ([krb5_enc_provider], [krb5_hash_provider]), and what is
    built on them: HMAC (hmac.c), derivation of keys (dk/derive.c), the random number
    generator (prng.c), encryption with an encrypted checksum (old), with a derived key
    and HMAC (dk) and without a checksum (raw).

    A [krb5_data] is its octet list; a key is its type and its octets.  An output buffer
    appears as its length, where the code tests it, and as the octets it holds in the end.
    [Undefined] also stands for a call of abort(). *)

From S2P Require Import Prelude Words Crc32 Nfold Des Md Shs.

Record keyblock : Type := Key { key_enctype : Z; key_contents : list octet }.

(** ** The interfaces *)

Record krb5_enc_provider : Type := EncProvider {
  enc_block_size : Z;
  enc_keybytes : Z;
  enc_keylength : Z;
  (** key, initial vector, input, length of the output buffer *)
  enc_encrypt : keyblock -> option (list octet) -> list octet -> Z -> outcome error_code (list octet);
  enc_decrypt : keyblock -> option (list octet) -> list octet -> Z -> outcome error_code (list octet);
  (** random octets, length of the key's contents *)
  enc_make_key : list octet -> Z -> outcome error_code (list octet)
}.

Record krb5_hash_provider : Type := HashProvider {
  hash_size : Z;
  hash_block_size : Z;
  (** inputs, length of the output buffer *)
  hash_hash : list (list octet) -> Z -> outcome error_code (list octet)
}.

(** ** DES (enc_provider/des.c) *)

Definition mit_des_zeroblock : list octet := replicate 8 0.

Definition k5_des_docrypt (key : keyblock) (ivec : option (list octet)) (input : list octet) (output_length : Z)
    (encrypt : bool) : outcome error_code (list octet) :=
  if negb (zlen (key_contents key) =? 8) then Err KRB5_BAD_KEYSIZE
  else if negb (zlen input mod 8 =? 0) then Err KRB5_BAD_MSIZE
  else if match ivec with Some iv => negb (zlen iv =? 8) | None => false end then Err KRB5_BAD_MSIZE
  else if negb (zlen input =? output_length) then Err KRB5_BAD_MSIZE
  else
    let* '(schedule, ret) := mit_des_key_sched (key_contents key) in
    if ret =? -1 then Err KRB5DES_BAD_KEYPAR
    else if ret =? -2 then Err KRB5DES_WEAK_KEY
    else mit_des_cbc_encrypt input (zlen input) schedule (default mit_des_zeroblock ivec) encrypt.

Definition k5_des_encrypt (key : keyblock) (ivec : option (list octet)) (input : list octet) (output_length : Z) :=
  k5_des_docrypt key ivec input output_length true.
Definition k5_des_decrypt (key : keyblock) (ivec : option (list octet)) (input : list octet) (output_length : Z) :=
  k5_des_docrypt key ivec input output_length false.

(** Seven octets as the high bits of eight, the low bits of the seven in the last one. *)
Definition des_spread (r : list octet) : list octet :=
  let at_ i := Z.land (table_at r i) 1 in
  r ++ [Z.lor (Z.lor (Z.lor (Z.lor (Z.lor (Z.lor (Z.shiftl (at_ 0) 1) (Z.shiftl (at_ 1) 2)) (Z.shiftl (at_ 2) 3))
                             (Z.shiftl (at_ 3) 4)) (Z.shiftl (at_ 4) 5)) (Z.shiftl (at_ 5) 6)) (Z.shiftl (at_ 6) 7)].

Definition k5_des_make_key (randombits : list octet) (key_length : Z) : outcome error_code (list octet) :=
  if negb (key_length =? 8) then Err KRB5_BAD_KEYSIZE
  else if negb (zlen randombits =? 7) then Err KRB5_CRYPTO_INTERNAL
  else Ok (mit_des_fixup_key_parity (des_spread randombits)).

Definition krb5_enc_des : krb5_enc_provider := EncProvider 8 7 8 k5_des_encrypt k5_des_decrypt k5_des_make_key.

(** ** Triple DES (enc_provider/des3.c) *)

Definition k5_des3_docrypt (key : keyblock) (ivec : option (list octet)) (input : list octet) (output_length : Z)
    (encrypt : bool) : outcome error_code (list octet) :=
  if negb (zlen (key_contents key) =? 24) then Err KRB5_BAD_KEYSIZE
  else if negb (zlen input mod 8 =? 0) then Err KRB5_BAD_MSIZE
  else if match ivec with Some iv => negb (zlen iv =? 8) | None => false end then Err KRB5_BAD_MSIZE
  else if negb (zlen input =? output_length) then Err KRB5_BAD_MSIZE
  else
    let* '(s0, s1, s2, ret) := mit_des3_key_sched (key_contents key) in
    if ret =? -1 then Err KRB5DES_BAD_KEYPAR
    else if ret =? -2 then Err KRB5DES_WEAK_KEY
    else mit_des3_cbc_encrypt input (zlen input) s0 s1 s2 (default mit_des_zeroblock ivec) encrypt.

Definition k5_des3_encrypt (key : keyblock) (ivec : option (list octet)) (input : list octet) (output_length : Z) :=
  k5_des3_docrypt key ivec input output_length true.
Definition k5_des3_decrypt (key : keyblock) (ivec : option (list octet)) (input : list octet) (output_length : Z) :=
  k5_des3_docrypt key ivec input output_length false.

(** Iteration [i] of the loop: seven octets make eight. *)
Definition des3_key_part (randombits : list octet) (i : nat) : list octet :=
  mit_des_fixup_key_parity (des_spread (take 7 (drop (i * 7) randombits))).

Definition k5_des3_make_key (randombits : list octet) (key_length : Z) : outcome error_code (list octet) :=
  if negb (key_length =? 24) then Err KRB5_BAD_KEYSIZE
  else if negb (zlen randombits =? 21) then Err KRB5_CRYPTO_INTERNAL
  else Ok (des3_key_part randombits 0 ++ des3_key_part randombits 1 ++ des3_key_part randombits 2).

Definition krb5_enc_des3 : krb5_enc_provider := EncProvider 8 21 24 k5_des3_encrypt k5_des3_decrypt k5_des3_make_key.

(** ** The hash functions (hash_provider) *)

(** What the contexts on the stack of the hash functions hold. *)
Class Stack : Type := { md_stack : md_ctx; shs_stack : shs_info }.

Section hashes.
Context `{Stack}.
Definition krb5_hash_crc32 : krb5_hash_provider := HashProvider CRC32_CKSUM_LENGTH 1 k5_crc32_hash.
Definition krb5_hash_md4 : krb5_hash_provider := HashProvider RSA_MD4_CKSUM_LENGTH 64 (k5_md4_hash md_stack).
Definition krb5_hash_md5 : krb5_hash_provider := HashProvider RSA_MD5_CKSUM_LENGTH 64 (k5_md5_hash md_stack).
Definition krb5_hash_sha1 : krb5_hash_provider := HashProvider SHS_DIGESTSIZE SHS_DATASIZE (k5_sha1_hash shs_stack).
End hashes.

(** ** HMAC (hmac.c) *)

(** memset and the exclusive or with the key *)
Definition xor_pad (pad : octet) (blocksize : Z) (key : list octet) : list octet :=
  imap (fun i o => match key !! i with Some k => Z.lxor o k | None => o end) (replicate (Z.to_nat blocksize) pad).

Definition krb5_hmac (hash : krb5_hash_provider) (key : list octet) (input : list (list octet)) (output_length : Z)
    : outcome error_code (list octet) :=
  let hashsize := hash_size hash in
  let blocksize := hash_block_size hash in
  if blocksize <? zlen key then Err KRB5_CRYPTO_INTERNAL
  else if output_length <? hashsize then Err KRB5_BAD_MSIZE
  else if zlen input =? 0 then Err KRB5_CRYPTO_INTERNAL
  else
    let* ihash := hash_hash hash (xor_pad 0x36 blocksize key :: input) hashsize in
    hash_hash hash [xor_pad 0x5c blocksize key; ihash] hashsize.

(** ** Derivation of keys (dk/derive.c) *)

(** while (n < keybytes); the result of enc->encrypt is not looked at, so that after an
    error the output block is what malloc returned. *)
Fixpoint derive_loop (enc : krb5_enc_provider) (inkey : keyblock) (fuel : nat) (n : Z) (inblock : list octet)
    : outcome error_code (list octet) :=
  match fuel with
  | O => OutOfFuel
  | S fuel =>
      if negb (n <? enc_keybytes enc) then Ok []
      else match enc_encrypt enc inkey None inblock (enc_block_size enc) with
           | Ok outblock =>
               if enc_keybytes enc - n <=? zlen outblock then Ok (take (Z.to_nat (enc_keybytes enc - n)) outblock)
               else let* rest := derive_loop enc inkey fuel (n + zlen outblock) outblock in
                    Ok (outblock ++ rest)
           | Err _ => Undefined
           | o => o
           end
  end.

Definition krb5_derive_key (enc : krb5_enc_provider) (inkey : keyblock) (outkey_length : Z) (in_constant : list octet)
    : outcome error_code (list octet) :=
  if negb (zlen (key_contents inkey) =? enc_keylength enc) || negb (outkey_length =? enc_keylength enc)
  then Err KRB5_CRYPTO_INTERNAL
  else
    let blocksize := enc_block_size enc in
    let inblock := if zlen in_constant =? blocksize then in_constant
                   else krb5_nfold (zlen in_constant * 8) in_constant (blocksize * 8) in
    let* rawkey := derive_loop enc inkey (S (Z.to_nat (enc_keybytes enc))) 0 inblock in
    match enc_make_key enc rawkey outkey_length with
    | Ok key => Ok key
    | Err _ => Undefined
    | o => o
    end.

(** ** Random numbers (prng.c) *)

(** [random_state] from STATEKEY to STATEBLOCK, RANDBLOCK, and the static variables. *)
Record prng : Type := Prng {
  rnd_inited : bool;
  rnd_state : list octet;
  rnd_block : list octet;
  rnd_count : Z
}.

Definition prng_enc : krb5_enc_provider := krb5_enc_des.
Definition STATESIZE : Z := enc_keybytes prng_enc + enc_block_size prng_enc.
Definition OUTPUTSIZE : Z := STATESIZE + enc_block_size prng_enc.

(** The rest of [random_state] keeps what malloc returned. *)
Definition krb5_c_random_seed (st : prng) (data : list octet) : prng :=
  if negb (rnd_inited st) then
    Prng true (krb5_nfold (zlen data * 8) data (STATESIZE * 8)) (rnd_block st) 0
  else
    Prng true (krb5_nfold ((zlen data + STATESIZE) * 8) (data ++ rnd_state st) (STATESIZE * 8)) (rnd_block st) (rnd_count st).

(** The body of if (random_count == 0). *)
Definition prng_refill (st : prng) : outcome error_code prng :=
  let kb := Z.to_nat (enc_keybytes prng_enc) in
  let* key := enc_make_key prng_enc (take kb (rnd_state st)) (enc_keylength prng_enc) in
  let* block := enc_encrypt prng_enc (Key 0 key) None (drop kb (rnd_state st)) (enc_block_size prng_enc) in
  let state := krb5_nfold (OUTPUTSIZE * 8) (rnd_state st ++ block) (STATESIZE * 8) in
  Ok (Prng (rnd_inited st) state block (enc_block_size prng_enc)).

(** while (bytes < data->length); [n] is data->length - bytes. *)
Fixpoint make_octets_loop (fuel : nat) (st : prng) (n : Z) : outcome error_code (list octet) * prng :=
  match fuel with
  | O => (OutOfFuel, st)
  | S fuel =>
      if negb (0 <? n) then (Ok [], st)
      else match (if rnd_count st =? 0 then prng_refill st else Ok st) with
           | Ok st =>
               let avail := drop (Z.to_nat (enc_block_size prng_enc - rnd_count st)) (rnd_block st) in
               if n <=? rnd_count st then
                 (Ok (take (Z.to_nat n) avail), Prng (rnd_inited st) (rnd_state st) (rnd_block st) (rnd_count st - n))
               else
                 let '(r, st') := make_octets_loop fuel (Prng (rnd_inited st) (rnd_state st) (rnd_block st) 0)
                                    (n - rnd_count st) in
                 (let* rest := r in Ok (take (Z.to_nat (rnd_count st)) avail ++ rest), st')
           | Err e => (Err e, st)
           | Undefined => (Undefined, st)
           | OutOfFuel => (OutOfFuel, st)
           end
  end.

Definition krb5_c_random_make_octets (st : prng) (length : Z) : outcome error_code (list octet) * prng :=
  if negb (rnd_inited st) then (Undefined, st)
  else make_octets_loop (S (Z.to_nat length)) st length.

Definition prng_cleanup (st : prng) : prng := Prng false (rnd_state st) (rnd_block st) (rnd_count st).

(** ** Encryption with derived keys (dk/dk_encrypt.c, dk/dk_decrypt.c) *)

Definition krb5_roundup (x y : Z) : Z := (x + y - 1) / y * y.

(** The usage number and the last octet, 0xAA, 0x55 or 0x99. *)
Definition usage_constant (usage : Z) (last : octet) : list octet := be32 usage ++ [last].

Definition krb5_dk_encrypt_length (enc : krb5_enc_provider) (hash : krb5_hash_provider) (inputlen : Z) : Z :=
  krb5_roundup (enc_block_size enc + inputlen) (enc_block_size enc) + hash_size hash.

(** The ciphertext and the new initial vector, which is the last block of the ciphertext. *)
Definition update_ivec (ivec : option (list octet)) (blocksize : Z) (c : list octet) : option (list octet) :=
  match ivec with
  | Some iv => if zlen iv =? blocksize then Some (drop (Z.to_nat (zlen c - blocksize)) c) else Some iv
  | None => None
  end.

Definition krb5_dk_encrypt (enc : krb5_enc_provider) (hash : krb5_hash_provider) (st : prng) (key : keyblock) (usage : Z)
    (ivec : option (list octet)) (input : list octet) (output_length : Z)
    : outcome error_code (list octet * option (list octet)) * prng :=
  let blocksize := enc_block_size enc in
  let keylength := enc_keylength enc in
  let plainlen := krb5_roundup (blocksize + zlen input) blocksize in
  let enclen := krb5_dk_encrypt_length enc hash (zlen input) in
  if output_length <? enclen then (Err KRB5_BAD_MSIZE, st)
  else match krb5_derive_key enc key keylength (usage_constant usage 0xAA),
             krb5_derive_key enc key keylength (usage_constant usage 0x55) with
       | Ok ke, Ok ki =>
           let '(r, st) := krb5_c_random_make_octets st blocksize in
           (let* conf := r in
            let plaintext := conf ++ input ++ replicate (Z.to_nat (plainlen - (blocksize + zlen input))) 0 in
            let* c := enc_encrypt enc (Key (key_enctype key) ke) ivec plaintext plainlen in
            let* mac := krb5_hmac hash ki [plaintext] (enclen - plainlen) in
            Ok (c ++ mac, update_ivec ivec blocksize c), st)
       | Ok _, Err e => (Err e, st)
       | Err e, _ => (Err e, st)
       | OutOfFuel, _ => (OutOfFuel, st)
       | Ok _, OutOfFuel => (OutOfFuel, st)
       | _, _ => (Undefined, st)
       end.

(** The lengths are of type size_t.  An input shorter than a hash makes enclen wrap
    around to a size that malloc does not grant. *)
Definition size_t (z : Z) : Z := to_uint 64 z.

Definition krb5_dk_decrypt (enc : krb5_enc_provider) (hash : krb5_hash_provider) (key : keyblock) (usage : Z)
    (ivec : option (list octet)) (input : list octet) (output_length : Z)
    : outcome error_code (list octet * option (list octet)) :=
  let hashsize := hash_size hash in
  let blocksize := enc_block_size enc in
  let keylength := enc_keylength enc in
  let enclen := size_t (zlen input - hashsize) in
  if 2 ^ 63 <=? enclen then Err ENOMEM
  else
    let* ke := krb5_derive_key enc key keylength (usage_constant usage 0xAA) in
    let* ki := krb5_derive_key enc key keylength (usage_constant usage 0x55) in
    let c := take (Z.to_nat enclen) input in
    let* plaindata := enc_decrypt enc (Key (key_enctype key) ke) ivec c enclen in
    let* cksum := krb5_hmac hash ki [plaindata] hashsize in
    if negb (bool_decide (take (Z.to_nat hashsize) cksum = take (Z.to_nat hashsize) (drop (Z.to_nat enclen) input)))
    then Err KRB5KRB_AP_ERR_BAD_INTEGRITY
    else
      let plainlen := size_t (enclen - blocksize) in
      if output_length <? plainlen then Err KRB5_BAD_MSIZE
      else Ok (take (Z.to_nat plainlen) (drop (Z.to_nat blocksize) plaindata), update_ivec ivec blocksize c).

(** ** Encryption with an encrypted checksum (old/old_encrypt.c, old/old_decrypt.c) *)

Definition ENCTYPE_DES_CBC_CRC : Z := 1.

Definition krb5_old_encrypt_length (enc : krb5_enc_provider) (hash : krb5_hash_provider) (inputlen : Z) : Z :=
  krb5_roundup (enc_block_size enc + hash_size hash + inputlen) (enc_block_size enc).

(** With des-cbc-crc and no initial vector the key is the initial vector. *)
Definition old_ivec (key : keyblock) (ivec : option (list octet)) : option (list octet) :=
  match ivec with
  | None => if key_enctype key =? ENCTYPE_DES_CBC_CRC then Some (key_contents key) else None
  | Some iv => Some iv
  end.

Definition krb5_old_encrypt (enc : krb5_enc_provider) (hash : krb5_hash_provider) (st : prng) (key : keyblock) (usage : Z)
    (ivec : option (list octet)) (input : list octet) (output_length : Z)
    : outcome error_code (list octet * option (list octet)) * prng :=
  let blocksize := enc_block_size enc in
  let hashsize := hash_size hash in
  let enclen := krb5_old_encrypt_length enc hash (zlen input) in
  if output_length <? enclen then (Err KRB5_BAD_MSIZE, st)
  else
    let '(r, st) := krb5_c_random_make_octets st blocksize in
    (let* conf := r in
     let pad := replicate (Z.to_nat (enclen - blocksize - hashsize - zlen input)) 0 in
     let* cksum := hash_hash hash [conf ++ replicate (Z.to_nat hashsize) 0 ++ input ++ pad] hashsize in
     let* c := enc_encrypt enc key (old_ivec key ivec) (conf ++ cksum ++ input ++ pad) enclen in
     Ok (c, update_ivec ivec blocksize c), st).

Definition krb5_old_decrypt (enc : krb5_enc_provider) (hash : krb5_hash_provider) (key : keyblock) (usage : Z)
    (ivec : option (list octet)) (input : list octet) (arg_output_length : Z)
    : outcome error_code (list octet * option (list octet)) :=
  let blocksize := enc_block_size enc in
  let hashsize := hash_size hash in
  let plainsize := size_t (zlen input - blocksize - hashsize) in
  if arg_output_length <? plainsize then Err KRB5_BAD_MSIZE
  else
    let* output := enc_decrypt enc key (old_ivec key ivec) input (zlen input) in
    let conf := take (Z.to_nat blocksize) output in
    let cksumdata := take (Z.to_nat hashsize) (drop (Z.to_nat blocksize) output) in
    let rest := drop (Z.to_nat (blocksize + hashsize)) output in
    let* cksum := hash_hash hash [conf ++ replicate (Z.to_nat hashsize) 0 ++ rest] hashsize in
    if negb (bool_decide (take (Z.to_nat hashsize) cksum = cksumdata)) then Err KRB5KRB_AP_ERR_BAD_INTEGRITY
    else Ok (take (Z.to_nat plainsize) rest, update_ivec ivec blocksize input).

(** ** Encryption without a checksum (raw) *)

Definition krb5_raw_encrypt_length (enc : krb5_enc_provider) (inputlen : Z) : Z :=
  krb5_roundup inputlen (enc_block_size enc).

Definition krb5_raw_encrypt (enc : krb5_enc_provider) (key : keyblock) (ivec : option (list octet)) (input : list octet)
    (output_length : Z) : outcome error_code (list octet) :=
  enc_encrypt enc key ivec input output_length.

Definition krb5_raw_decrypt (enc : krb5_enc_provider) (key : keyblock) (ivec : option (list octet)) (input : list octet)
    (output_length : Z) : outcome error_code (list octet) :=
  enc_decrypt enc key ivec input output_length.
