(* ===== verification/Afs.v ===== *)
(** * Keys for AFS (src/src/lib/crypto/des/afsstring2key.c)

    A password of at most eight characters is encrypted with the crypt function of Unix,
    a DES on arrays with one bit per char whose expansion table the salt changes; a longer
    one with the DES checksum.  The static arrays of the file that outlive a call are the
    fields of [afs_state]. *)

From S2P Require Import Prelude CString Words Des PrincName.

Definition afs_IP : list Z := [
  58; 50; 42; 34; 26; 18; 10; 2; 60; 52; 44; 36; 28; 20; 12; 4;
  62; 54; 46; 38; 30; 22; 14; 6; 64; 56; 48; 40; 32; 24; 16; 8;
  57; 49; 41; 33; 25; 17; 9; 1; 59; 51; 43; 35; 27; 19; 11; 3;
  61; 53; 45; 37; 29; 21; 13; 5; 63; 55; 47; 39; 31; 23; 15; 7].

Definition afs_FP : list Z := [
  40; 8; 48; 16; 56; 24; 64; 32; 39; 7; 47; 15; 55; 23; 63; 31;
  38; 6; 46; 14; 54; 22; 62; 30; 37; 5; 45; 13; 53; 21; 61; 29;
  36; 4; 44; 12; 52; 20; 60; 28; 35; 3; 43; 11; 51; 19; 59; 27;
  34; 2; 42; 10; 50; 18; 58; 26; 33; 1; 41; 9; 49; 17; 57; 25].

Definition afs_PC1_C : list Z := [
  57; 49; 41; 33; 25; 17; 9; 1; 58; 50; 42; 34; 26; 18; 10; 2;
  59; 51; 43; 35; 27; 19; 11; 3; 60; 52; 44; 36].

Definition afs_PC1_D : list Z := [
  63; 55; 47; 39; 31; 23; 15; 7; 62; 54; 46; 38; 30; 22; 14; 6;
  61; 53; 45; 37; 29; 21; 13; 5; 28; 20; 12; 4].

Definition afs_shifts : list Z := [
  1; 1; 2; 2; 2; 2; 2; 2; 1; 2; 2; 2; 2; 2; 2; 1].

Definition afs_PC2_C : list Z := [
  14; 17; 11; 24; 1; 5; 3; 28; 15; 6; 21; 10; 23; 19; 12; 4;
  26; 8; 16; 7; 27; 20; 13; 2].

Definition afs_PC2_D : list Z := [
  41; 52; 31; 37; 47; 55; 30; 40; 51; 45; 33; 48; 44; 49; 39; 56;
  34; 53; 46; 42; 50; 36; 29; 32].

Definition afs_e : list Z := [
  32; 1; 2; 3; 4; 5; 4; 5; 6; 7; 8; 9; 8; 9; 10; 11;
  12; 13; 12; 13; 14; 15; 16; 17; 16; 17; 18; 19; 20; 21; 20; 21;
  22; 23; 24; 25; 24; 25; 26; 27; 28; 29; 28; 29; 30; 31; 32; 1].

Definition afs_P : list Z := [
  16; 7; 20; 21; 29; 12; 28; 17; 1; 15; 23; 26; 5; 18; 31; 10;
  2; 8; 24; 14; 32; 27; 3; 9; 19; 13; 30; 6; 22; 11; 4; 25].

Definition afs_S : list (list Z) := [
  [14; 4; 13; 1; 2; 15; 11; 8; 3; 10; 6; 12; 5; 9; 0; 7;
   0; 15; 7; 4; 14; 2; 13; 1; 10; 6; 12; 11; 9; 5; 3; 8;
   4; 1; 14; 8; 13; 6; 2; 11; 15; 12; 9; 7; 3; 10; 5; 0;
   15; 12; 8; 2; 4; 9; 1; 7; 5; 11; 3; 14; 10; 0; 6; 13];
  [15; 1; 8; 14; 6; 11; 3; 4; 9; 7; 2; 13; 12; 0; 5; 10;
   3; 13; 4; 7; 15; 2; 8; 14; 12; 0; 1; 10; 6; 9; 11; 5;
   0; 14; 7; 11; 10; 4; 13; 1; 5; 8; 12; 6; 9; 3; 2; 15;
   13; 8; 10; 1; 3; 15; 4; 2; 11; 6; 7; 12; 0; 5; 14; 9];
  [10; 0; 9; 14; 6; 3; 15; 5; 1; 13; 12; 7; 11; 4; 2; 8;
   13; 7; 0; 9; 3; 4; 6; 10; 2; 8; 5; 14; 12; 11; 15; 1;
   13; 6; 4; 9; 8; 15; 3; 0; 11; 1; 2; 12; 5; 10; 14; 7;
   1; 10; 13; 0; 6; 9; 8; 7; 4; 15; 14; 3; 11; 5; 2; 12];
  [7; 13; 14; 3; 0; 6; 9; 10; 1; 2; 8; 5; 11; 12; 4; 15;
   13; 8; 11; 5; 6; 15; 0; 3; 4; 7; 2; 12; 1; 10; 14; 9;
   10; 6; 9; 0; 12; 11; 7; 13; 15; 1; 3; 14; 5; 2; 8; 4;
   3; 15; 0; 6; 10; 1; 13; 8; 9; 4; 5; 11; 12; 7; 2; 14];
  [2; 12; 4; 1; 7; 10; 11; 6; 8; 5; 3; 15; 13; 0; 14; 9;
   14; 11; 2; 12; 4; 7; 13; 1; 5; 0; 15; 10; 3; 9; 8; 6;
   4; 2; 1; 11; 10; 13; 7; 8; 15; 9; 12; 5; 6; 3; 0; 14;
   11; 8; 12; 7; 1; 14; 2; 13; 6; 15; 0; 9; 10; 4; 5; 3];
  [12; 1; 10; 15; 9; 2; 6; 8; 0; 13; 3; 4; 14; 7; 5; 11;
   10; 15; 4; 2; 7; 12; 9; 5; 6; 1; 13; 14; 0; 11; 3; 8;
   9; 14; 15; 5; 2; 8; 12; 3; 7; 0; 4; 10; 1; 13; 11; 6;
   4; 3; 2; 12; 9; 5; 15; 10; 11; 14; 1; 7; 6; 0; 8; 13];
  [4; 11; 2; 14; 15; 0; 8; 13; 3; 12; 9; 7; 5; 10; 6; 1;
   13; 0; 11; 7; 4; 9; 1; 10; 14; 3; 5; 12; 2; 15; 8; 6;
   1; 4; 11; 13; 12; 3; 7; 14; 10; 15; 6; 8; 0; 5; 9; 2;
   6; 11; 13; 8; 1; 4; 10; 7; 9; 5; 0; 15; 14; 2; 3; 12];
  [13; 2; 8; 4; 6; 15; 11; 1; 10; 9; 3; 14; 5; 0; 12; 7;
   1; 15; 13; 8; 10; 3; 7; 4; 12; 5; 6; 11; 0; 14; 9; 2;
   7; 11; 4; 1; 9; 12; 14; 2; 0; 6; 10; 13; 15; 3; 5; 8;
   2; 1; 14; 7; 4; 10; 8; 13; 15; 12; 9; 0; 3; 5; 6; 11]].

Record afs_state : Type := AfsState {
  st_E : list Z;          (** E[48] *)
  st_KS : list (list Z)   (** KS[16][48] *)
}.

(** One left rotation of C or D. *)
Definition rotate1 (c : list Z) : list Z := drop 1 c ++ take 1 c.

Fixpoint afs_schedule (shifts : list Z) (C D : list Z) : list (list Z) :=
  match shifts with
  | [] => []
  | n :: shifts =>
      let C := Nat.iter (Z.to_nat n) rotate1 C in
      let D := Nat.iter (Z.to_nat n) rotate1 D in
      (((fun j => table_at C (j - 1)) <$> afs_PC2_C) ++ ((fun j => table_at D (j - 28 - 1)) <$> afs_PC2_D))
      :: afs_schedule shifts C D
  end.

Definition krb5_afs_crypt_setkey (key : list Z) : afs_state :=
  let C := (fun i => table_at key (i - 1)) <$> afs_PC1_C in
  let D := (fun i => table_at key (i - 1)) <$> afs_PC1_D in
  AfsState afs_e (afs_schedule afs_shifts C D).

(** The four bits that selection function [j] gives for its six bits. *)
Definition afs_select (preS : list Z) (j : Z) : list Z :=
  let b i := table_at preS (6 * j + i) in
  let k := table_at (nth (Z.to_nat j) afs_S [])
             (Z.shiftl (b 0) 5 + Z.shiftl (b 1) 3 + Z.shiftl (b 2) 2 + Z.shiftl (b 3) 1 + Z.shiftl (b 4) 0 + Z.shiftl (b 5) 4) in
  [Z.land (Z.shiftr k 3) 1; Z.land (Z.shiftr k 2) 1; Z.land (Z.shiftr k 1) 1; Z.land (Z.shiftr k 0) 1].

(** One round on the halves of L[64]. *)
Definition afs_round (E : list Z) (LR : list Z * list Z) (K : list Z) : list Z * list Z :=
  let '(L, R) := LR in
  let preS := zip_with Z.lxor ((fun j => table_at R (j - 1)) <$> E) K in
  let f := seqZ 0 8 ≫= afs_select preS in
  (R, zip_with Z.lxor L ((fun j => table_at f (j - 1)) <$> afs_P)).

Definition krb5_afs_encrypt (st : afs_state) (block : list Z) (edflag : Z) : list Z :=
  let L := (fun j => table_at block (j - 1)) <$> afs_IP in
  let keys := if negb (edflag =? 0) then reverse (st_KS st) else st_KS st in
  let '(L, R) := foldl (afs_round (st_E st)) (take 32 L, drop 32 L) keys in
  (fun j => table_at (R ++ L) (j - 1)) <$> afs_FP.

(** The seven low bits of each character of a C string and a zero, 64 bits at most. *)
Fixpoint crypt_bits (i : nat) (pw : list octet) : list Z :=
  match i, pw with
  | S i, c :: pw =>
      if c =? 0 then []
      else ((fun j => Z.land (Z.shiftr c (6 - j)) 1) <$> seqZ 0 7) ++ 0 :: crypt_bits i pw
  | _, _ => []
  end.

(** block[66], filled with zeros *)
Definition crypt_block (bits : list Z) : list Z := bits ++ replicate (66 - length bits) 0.

(** if ((c>>j) & 01) exchange E[6*i+j] and E[6*i+j+24] *)
Definition salt_swap (i c : Z) (E : list Z) (j : Z) : list Z :=
  if Z.odd (Z.shiftr c j) then
    let n := Z.to_nat (6 * i + j) in
    <[(n + 24)%nat := table_at E (6 * i + j)]> (<[n := table_at E (6 * i + j + 24)]> E)
  else E.

Definition salt_char (E : list Z) (i : Z) (c : octet) : list Z :=
  let c := if 90 <? c then c - 6 else c in
  let c := if 57 <? c then c - 7 else c in
  let c := c - 46 in
  foldl (salt_swap i c) E (seqZ 0 6).

(** Six bits as a character. *)
Definition crypt_char (block : list Z) (i : Z) : octet :=
  let c := foldl (fun c j => Z.lor (Z.shiftl c 1) (table_at block (6 * i + j))) 0 (seqZ 0 6) in
  let c := c + 46 in
  let c := if 57 <? c then c + 7 else c in
  if 90 <? c then c + 6 else c.

(** iobuf; the salt is two characters.  The 64 bits of the block are those before its
    last two, which stay 0. *)
Definition afs_crypt (pw : list octet) (salt0 salt1 : octet) : list octet :=
  let st := krb5_afs_crypt_setkey (crypt_block (crypt_bits 8 pw)) in
  let st := AfsState (salt_char (salt_char (st_E st) 0 salt0) 1 salt1) (st_KS st) in
  let block := Nat.iter 25 (fun block => krb5_afs_encrypt st block 0 ++ drop 64 block) (replicate 66 0) in
  let iobuf1 := if salt1 =? 0 then salt0 else salt1 in
  salt0 :: iobuf1 :: (crypt_char block <$> seqZ 0 11) ++ [0].

(** crypt(3) of a password with the salt ab. *)
Example afs_crypt_vector : take 13 (afs_crypt [112; 97; 115; 115; 119; 111; 114; 100; 0] 97 98) =
  [97; 98; 74; 110; 103; 103; 120; 104; 66; 47; 121; 87; 73].
Proof. vm_compute. reflexivity. Qed.

(** ** The keys *)

(** At most eight characters. *)
Definition afs_short_key (data realm : list octet) : outcome error_code (list octet) :=
  let* password := strncpy 8 realm in
  let password := tolower <$> password in
  let password := zip_with Z.lxor (take (length data) password) data ++ drop (length data) password in
  let password := (fun c => if c =? 0 then 88 else c) <$> password in
  let key := take 8 (drop 2 (afs_crypt (password ++ [0]) 35 126)) in
  Ok (mit_des_fixup_key_parity ((fun c => Z.land (Z.shiftl c 1) 255) <$> key)).

(** More of them.  strcpy copies up to the first NUL, whatever data->length is: the block
    has room for data->length and the realm, and of its first data->length octets those
    that strcpy does not write are never written. *)
Definition afs_long_key (data behind realm : list octet) : outcome error_code (list octet) :=
  let* realm := c_string realm in
  let* copied := c_string (data ++ behind) in
  if zlen data + zlen realm <? zlen copied then Undefined
  else if zlen copied + 1 <? zlen data then Undefined
  else
    let password := data ++ (tolower <$> realm) in
    let ikey := [107; 101; 114; 98; 101; 114; 111; 115] in
    let tkey := mit_des_fixup_key_parity ikey in
    let* '(key_sked, _) := mit_des_key_sched tkey in
    let* tkey := mit_des_cbc_cksum password key_sked ikey in
    let ikey := tkey in
    let tkey := mit_des_fixup_key_parity tkey in
    let* '(key_sked, _) := mit_des_key_sched tkey in
    let* key := mit_des_cbc_cksum password key_sked ikey in
    Ok (mit_des_fixup_key_parity key).

Definition mit_afs_string_to_key (data behind realm : list octet) : outcome error_code (list octet) :=
  if zlen data <=? 8 then afs_short_key data realm else afs_long_key data behind realm.
