(* ===== verification/AfsProofs.v ===== *)
(** * The DES of afsstring2key.c is DES (Afs.v)

    The block cipher on arrays of bits, with the expansion table that a salt has not
    changed, encrypts and decrypts as the standard says; and the keys it makes of
    passwords have odd parity. *)

From S2P Require Import Prelude Words DesTables Des DesProofs PrincName Afs.

(** ** Arrays of bits as numbers *)

Definition bit (b : Z) : Prop := b = 0 \/ b = 1.

Definition array_value (l : list Z) : Z := foldl (fun a b => 2 * a + b) 0 l.

Lemma array_value_foldl l a : foldl (fun a b => 2 * a + b) a l = a * 2 ^ zlen l + array_value l.
Proof.
  unfold array_value. revert a. induction l as [|b l IH]; intros a; cbn [foldl]; [change (zlen (@nil Z)) with 0; rewrite Z.pow_0_r; cbn; lia|].
  rewrite (IH (2 * a + b)), (IH (2 * 0 + b)). rewrite zlen_cons, Z.pow_add_r by (pose proof (zlen_nonneg l); lia). lia.
Qed.

Lemma array_value_app l r : array_value (l ++ r) = array_value l * 2 ^ zlen r + array_value r.
Proof. unfold array_value at 1. rewrite foldl_app. apply array_value_foldl. Qed.

Lemma array_value_cons b l : array_value (b :: l) = b * 2 ^ zlen l + array_value l.
Proof. exact (array_value_foldl l b). Qed.

Lemma array_value_range l : Forall bit l -> is_uint (zlen l) (array_value l).
Proof.
  unfold is_uint. induction 1 as [|b l Hb _ IH]; [by split|].
  rewrite array_value_cons, zlen_cons, Z.pow_add_r by (pose proof (zlen_nonneg l); lia).
  destruct Hb as [-> | ->]; lia.
Qed.

(** Bit [t] from the front, counted from 1. *)
Lemma array_value_at l t : Forall bit l -> 1 <= t <= zlen l ->
  Z.b2z (Z.testbit (array_value l) (zlen l - t)) = table_at l (t - 1).
Proof.
  intros H. revert t. induction H as [|b l Hb Hl IH]; intros t; [unfold zlen; cbn; lia|]. rewrite zlen_cons. intros Ht.
  pose proof (zlen_nonneg l). rewrite array_value_cons. pose proof (array_value_range l Hl) as HR.
  rewrite <- lor_add by (done || lia). rewrite Z.lor_spec.
  destruct (decide (t = 1)) as [->|Hn].
  - replace (zlen l + 1 - 1) with (zlen l) by lia. rewrite (uint_bits_above (zlen l) (array_value l)) by (done || lia).
    rewrite orb_false_r. destruct Hb as [-> | ->]; [by rewrite Z.mul_0_l, Z.testbit_0_l|].
    by rewrite Z.mul_1_l, Z.pow2_bits_true by lia.
  - replace (zlen l + 1 - t) with (zlen l - (t - 1)) by lia.
    rewrite Z.mul_pow2_bits by lia. rewrite (Z.testbit_neg_r b) by lia. rewrite orb_false_l, IH by lia.
    unfold table_at. replace (Z.to_nat (t - 1)) with (S (Z.to_nat (t - 1 - 1))) by lia. done.
Qed.

Lemma permute_bits n table l : Forall bit l -> zlen l = n -> Forall (fun t => 1 <= t <= n) table ->
  permute n table (array_value l) = array_value ((fun t => table_at l (t - 1)) <$> table).
Proof.
  intros Hl <- HT. unfold permute, array_value at 2. generalize 0 as a.
  induction HT as [|t table Ht _ IH]; intros a; cbn [foldl fmap list_fmap]; [done|].
  by rewrite array_value_at, IH.
Qed.

Lemma table_bit l i : Forall bit l -> bit (table_at l i).
Proof.
  intros H. unfold table_at. generalize (Z.to_nat i) as n. induction H; intros [|n]; cbn; try (by left); auto.
Qed.

Lemma lxor_bit a b : bit a -> bit b -> bit (Z.lxor a b).
Proof. intros [-> | ->] [-> | ->]; cbn; (by left) || (by right). Qed.

Lemma table_bits l (f : Z -> Z) table : Forall bit l -> Forall bit ((fun t => table_at l (f t)) <$> table).
Proof. intros H. apply Forall_fmap, Forall_forall. intros t _. by apply table_bit. Qed.

Lemma zip_bits l r : Forall bit l -> Forall bit r -> Forall bit (zip_with Z.lxor l r).
Proof.
  intros Hl. revert r. induction Hl as [|a l Ha Hl IH]; intros [|b r]; cbn; try constructor.
  - inversion_clear H. by apply lxor_bit.
  - inversion_clear H. by apply IH.
Qed.

Lemma array_value_lxor l r : Forall bit l -> Forall bit r -> length l = length r ->
  array_value (zip_with Z.lxor l r) = Z.lxor (array_value l) (array_value r).
Proof.
  intros Hl. revert r. induction Hl as [|a l Ha Hl IH]; intros [|b r] Hr HL; try discriminate HL; [done|].
  apply Forall_cons_1 in Hr as [Hb Hr]. injection HL as HL. cbn [zip_with].
  pose proof (array_value_range l Hl) as Rl. pose proof (array_value_range r Hr) as Rr. pose proof (zlen_nonneg l).
  assert (zlen r = zlen l) as Er by (unfold zlen; lia). rewrite Er in Rr.
  assert (zlen (zip_with Z.lxor l r) = zlen l) as Ez by (unfold zlen; rewrite length_zip_with; lia).
  pose proof (array_value_range _ (zip_bits l r Hl Hr)) as Rz. rewrite Ez in Rz. rewrite !array_value_cons, Er, Ez.
  rewrite <- !lor_add by (done || lia). rewrite IH by done. rewrite <- !Z.shiftl_mul_pow2, Z.shiftl_lxor by lia.
  apply Z.bits_inj'. intros i Hi. rewrite !Z.lor_spec, !Z.lxor_spec, !Z.lor_spec, !Z.shiftl_spec by lia.
  destruct (Z.lt_ge_cases i (zlen l)).
  - rewrite !(Z.testbit_neg_r _ (i - zlen l)) by lia. done.
  - rewrite (uint_bits_above (zlen l) (array_value l)), (uint_bits_above (zlen l) (array_value r)) by (done || lia).
    by rewrite !orb_false_r.
Qed.

(** Parts of an array. *)
Lemma bits_split n a b : Forall bit a -> Forall bit b -> zlen b = n ->
  Z.shiftr (array_value (a ++ b)) n = array_value a /\ Z.land (array_value (a ++ b)) (Z.ones n) = array_value b /\
  Z.lor (Z.shiftl (array_value a) n) (array_value b) = array_value (a ++ b).
Proof.
  intros Ha Hb <-. pose proof (zlen_nonneg b). pose proof (array_value_range b Hb) as HR. rewrite array_value_app. unfold is_uint in HR.
  rewrite Z.shiftr_div_pow2, Z.land_ones, Z.shiftl_mul_pow2, lor_add by (done || lia).
  split_and!; [|rewrite Z.add_comm, Z.mod_add, Z.mod_small by lia; done|done].
  rewrite Z.add_comm, Z.div_add, Z.div_small by lia. done.
Qed.

(** ** The cipher function *)

Lemma bits_check l : forallb (fun b => (b =? 0) || (b =? 1)) l = true -> Forall bit l.
Proof.
  induction l as [|b l IH]; cbn [forallb]; [by constructor|]. intros H. apply andb_true_iff in H as [Hb Hl].
  constructor; [|by apply IH]. unfold bit. lia.
Qed.

Definition select_bits (j b0 b1 b2 b3 b4 b5 : Z) : bool :=
  let l := afs_select (replicate (Z.to_nat (6 * j)) 0 ++ [b0; b1; b2; b3; b4; b5]) j in
  (array_value l =? select (Z.to_nat j) (array_value [b0; b1; b2; b3; b4; b5])) &&
  forallb (fun b => (b =? 0) || (b =? 1)) l.

Lemma select_bits_all : forallb (fun j => forallb (fun g =>
    select_bits j (Z.b2z (Z.testbit g 5)) (Z.b2z (Z.testbit g 4)) (Z.b2z (Z.testbit g 3))
      (Z.b2z (Z.testbit g 2)) (Z.b2z (Z.testbit g 1)) (Z.b2z (Z.testbit g 0))) (seqZ 0 64)) (seqZ 0 8) = true.
Proof. vm_compute. reflexivity. Qed.

Lemma table_at_app l r i : 0 <= i -> table_at (l ++ r) (zlen l + i) = table_at r i.
Proof.
  intros Hi. unfold table_at, zlen. rewrite app_nth2 by lia. f_equal. lia.
Qed.

Lemma table_at_left l r i : 0 <= i < zlen l -> table_at (l ++ r) i = table_at l i.
Proof. intros Hi. unfold table_at, zlen in *. rewrite app_nth1 by lia. done. Qed.

(** A selection function sees its group of six bits only. *)
Lemma afs_select_group x g y j : zlen x = 6 * j -> zlen g = 6 -> 0 <= j ->
  afs_select (x ++ g ++ y) j = afs_select (replicate (Z.to_nat (6 * j)) 0 ++ g) j.
Proof.
  intros Hx Hg Hj. unfold afs_select.
  assert (E : forall i, 0 <= i < 6 -> table_at (x ++ g ++ y) (6 * j + i) = table_at (replicate (Z.to_nat (6 * j)) 0 ++ g) (6 * j + i)).
  { intros i Hi. rewrite <- Hx at 1. rewrite table_at_app, table_at_left by lia.
    assert (zlen (replicate (Z.to_nat (6 * j)) 0) = 6 * j) as Hr by (unfold zlen; rewrite length_replicate; lia).
    generalize dependent (replicate (Z.to_nat (6 * j)) 0). intros r <-. by rewrite table_at_app by lia. }
  by rewrite !E by lia.
Qed.

Lemma afs_select_spec x g y j : zlen x = 6 * j -> zlen g = 6 -> Forall bit g -> 0 <= j < 8 ->
  array_value (afs_select (x ++ g ++ y) j) = select (Z.to_nat j) (array_value g) /\ Forall bit (afs_select (x ++ g ++ y) j).
Proof.
  intros Hx Hg HB Hj. rewrite (afs_select_group x g y j) by (done || lia).
  pose proof (forallb_seqZ _ _ j select_bits_all Hj) as H. cbv beta in H.
  pose proof (forallb_seqZ _ _ (array_value g) H) as H'. cbv beta in H'. pose proof (array_value_range g HB) as HR. rewrite Hg in HR.
  specialize (H' HR). pose proof (fun t => array_value_at g t HB) as HT. rewrite Hg in HT.
  rewrite (HT 1 ltac:(lia) : Z.b2z (Z.testbit (array_value g) 5) = table_at g 0) in H'.
  rewrite (HT 2 ltac:(lia) : Z.b2z (Z.testbit (array_value g) 4) = table_at g 1) in H'.
  rewrite (HT 3 ltac:(lia) : Z.b2z (Z.testbit (array_value g) 3) = table_at g 2) in H'.
  rewrite (HT 4 ltac:(lia) : Z.b2z (Z.testbit (array_value g) 2) = table_at g 3) in H'.
  rewrite (HT 5 ltac:(lia) : Z.b2z (Z.testbit (array_value g) 1) = table_at g 4) in H'.
  rewrite (HT 6 ltac:(lia) : Z.b2z (Z.testbit (array_value g) 0) = table_at g 5) in H'.
  clear -H' Hg. destruct g as [|b0 [|b1 [|b2 [|b3 [|b4 [|b5 [|]]]]]]]; try (unfold zlen in Hg; cbn in Hg; lia).
  change (select_bits j b0 b1 b2 b3 b4 b5 = true) in H'. unfold select_bits in H'.
  apply andb_true_iff in H' as [E HL]. split; [by apply Z.eqb_eq|by apply bits_check].
Qed.

Lemma group6_bits x g y j : (j < 8)%nat -> Forall bit (x ++ g ++ y) -> zlen g = 6 -> zlen y = 42 - 6 * Z.of_nat j ->
  group6 (array_value (x ++ g ++ y)) j = array_value g.
Proof.
  intros Hj HB Hg Hy. apply Forall_app in HB as [Hx HB]. apply Forall_app in HB as [Hbg Hby]. unfold group6.
  rewrite app_assoc. destruct (bits_split (42 - 6 * Z.of_nat j) (x ++ g) y) as (-> & _ & _); [by apply Forall_app|done..|].
  destruct (bits_split 6 x g) as (_ & E & _); done.
Qed.

Lemma selections_bits l : Forall bit l -> zlen l = 48 ->
  array_value (seqZ 0 8 ≫= afs_select l) = selections (array_value l) /\ Forall bit (seqZ 0 8 ≫= afs_select l) /\
  length (seqZ 0 8 ≫= afs_select l) = 32%nat.
Proof.
  intros HB HL.
  assert (H : forall j : nat, (j < 8)%nat ->
    array_value (afs_select l (Z.of_nat j)) = select j (group6 (array_value l) j) /\ Forall bit (afs_select l (Z.of_nat j))).
  { intros j Hj. set (n := (6 * j)%nat).
    assert (E : l = take n l ++ take 6 (drop n l) ++ drop 6 (drop n l)) by by rewrite !take_drop.
    assert (Z1 : zlen (take n l) = 6 * Z.of_nat j) by (unfold zlen in *; rewrite length_take; lia).
    assert (Z2 : zlen (take 6 (drop n l)) = 6) by (unfold zlen in *; rewrite length_take, length_drop; lia).
    assert (Z3 : zlen (drop 6 (drop n l)) = 42 - 6 * Z.of_nat j) by (unfold zlen in *; rewrite !length_drop; lia).
    assert (HB' := HB). revert HB'. rewrite E. intros HB'. rewrite group6_bits by done.
    rewrite <- (Nat2Z.id j) at 2. apply afs_select_spec; [done..| |lia]. by apply Forall_take, Forall_drop. }
  change (seqZ 0 8) with (Z.of_nat <$> seq 0 8).
  assert (K : forall js a, (forall j, j ∈ js -> (j < 8)%nat) ->
    foldl (fun a b => 2 * a + b) a ((Z.of_nat <$> js) ≫= afs_select l) = foldl (fun a j => 16 * a + select j (group6 (array_value l) j)) a js /\
    Forall bit ((Z.of_nat <$> js) ≫= afs_select l) /\ length ((Z.of_nat <$> js) ≫= afs_select l) = (4 * length js)%nat).
  { induction js as [|j js IH]; intros a Hjs; [by split_and!; [|constructor|]|].
    destruct (H j ltac:(apply Hjs; left)) as [E1 E2]. rewrite fmap_cons, bind_cons. cbn [foldl]. rewrite foldl_app, (array_value_foldl (afs_select l (Z.of_nat j))), E1.
    destruct (IH (a * 2 ^ zlen (afs_select l (Z.of_nat j)) + select j (group6 (array_value l) j))) as (F1 & F2 & F3); [intros i Hi; apply Hjs; by right|].
    split_and!; [|by apply Forall_app|].
    - rewrite F1. f_equal. change (zlen (afs_select l (Z.of_nat j))) with 4. lia.
    - rewrite length_app, F3. cbn. lia. }
  apply K. intros j Hj%elem_of_seq. lia.
Qed.

(** ** The rounds *)

Definition in_range (n : Z) (table : list Z) : bool := forallb (fun t => (1 <=? t) && (t <=? n)) table.

Lemma in_range_spec n table : in_range n table = true -> Forall (fun t => 1 <= t <= n) table.
Proof.
  induction table as [|t table IH]; cbn [in_range forallb]; [by constructor|].
  intros H. apply andb_true_iff in H as [Ht H]. constructor; [lia|by apply IH].
Qed.

Lemma permute_bits' n table l : in_range n table = true -> Forall bit l -> zlen l = n ->
  array_value ((fun t => table_at l (t - 1)) <$> table) = permute n table (array_value l).
Proof. intros HT Hl HL. symmetry. apply permute_bits; [done..|]. by apply in_range_spec. Qed.

(** [n] bits *)
Definition array (n : nat) (l : list Z) : Prop := Forall bit l /\ length l = n.

Lemma array_table n l (f : Z -> Z) table : length table = n -> Forall bit l -> array n ((fun t => table_at l (f t)) <$> table).
Proof. intros Hn Hl. split; [by apply table_bits|by rewrite length_fmap]. Qed.

Lemma array_zip n l r : array n l -> array n r -> array n (zip_with Z.lxor l r).
Proof. intros [Hl Ll] [Hr Lr]. split; [by apply zip_bits|]. rewrite length_zip_with. lia. Qed.

Lemma afs_round_spec L R K : array 32 L -> array 32 R -> array 48 K ->
  let '(L', R') := afs_round afs_e (L, R) K in
  array 32 L' /\ array 32 R' /\ (array_value L', array_value R') = fips_round (array_value L, array_value R) (array_value K).
Proof.
  intros HL HR HK. cbn [afs_round]. set (preS := zip_with Z.lxor _ K).
  assert (HE : array 48 ((fun j => table_at R (j - 1)) <$> afs_e)) by by apply array_table; [|apply HR].
  assert (HP : array 48 preS) by by apply array_zip.
  assert (EP : array_value preS = Z.lxor (permute 32 fips_E (array_value R)) (array_value K)).
  { unfold preS. rewrite array_value_lxor; [|apply HE|apply HK|rewrite (proj2 HE); symmetry; apply HK].
    f_equal. change afs_e with fips_E. apply permute_bits'; [done|apply HR|unfold zlen; rewrite (proj2 HR); done]. }
  destruct HP as [HP1 HP2]. destruct (selections_bits preS HP1) as (ES & BS & LS); [unfold zlen; by rewrite HP2|].
  set (f := seqZ 0 8 ≫= afs_select preS) in *.
  assert (HF : array 32 ((fun j => table_at f (j - 1)) <$> afs_P)) by by apply array_table.
  split_and!; [done|by apply array_zip|]. unfold fips_round. cbn [fst snd]. f_equal.
  rewrite array_value_lxor; [|apply HL|apply HF|rewrite (proj2 HF); apply HL]. f_equal. unfold fips_f. rewrite <- EP, <- ES.
  change afs_P with fips_P. apply permute_bits'; [done..|]. unfold zlen. by rewrite LS.
Qed.

Lemma afs_rounds_spec Ks L R : array 32 L -> array 32 R -> Forall (array 48) Ks ->
  let '(L', R') := foldl (afs_round afs_e) (L, R) Ks in
  array 32 L' /\ array 32 R' /\ (array_value L', array_value R') = foldl fips_round (array_value L, array_value R) (array_value <$> Ks).
Proof.
  intros HL HR HK. revert L R HL HR. induction HK as [|K Ks HK _ IH]; intros L R HL HR; [done|].
  rewrite fmap_cons. cbn [foldl]. pose proof (afs_round_spec L R K HL HR HK) as H.
  destruct (afs_round afs_e (L, R) K) as [L' R']. destruct H as (HL' & HR' & <-). by apply IH.
Qed.

Lemma afs_cipher_spec Ks block : array 64 block -> Forall (array 48) Ks ->
  let '(L, R) := foldl (afs_round afs_e) (take 32 ((fun j => table_at block (j - 1)) <$> afs_IP),
                                          drop 32 ((fun j => table_at block (j - 1)) <$> afs_IP)) Ks in
  let out := (fun j => table_at (R ++ L) (j - 1)) <$> afs_FP in
  array 64 out /\ array_value out = fips_cipher (array_value <$> Ks) (array_value block).
Proof.
  intros [Hb Lb] HK. set (x := (fun j => table_at block (j - 1)) <$> afs_IP).
  assert (Hx : array 64 x) by by apply array_table. destruct Hx as [Hx Lx].
  assert (Ex : permute 64 fips_IP (array_value block) = array_value x).
  { symmetry. change fips_IP with afs_IP. apply permute_bits'; [done..|]. unfold zlen. by rewrite Lb. }
  assert (H1 : array 32 (take 32 x)) by (split; [by apply Forall_take|rewrite length_take; lia]).
  assert (H2 : array 32 (drop 32 x)) by (split; [by apply Forall_drop|rewrite length_drop; lia]).
  pose proof (afs_rounds_spec Ks _ _ H1 H2 HK) as H.
  destruct (foldl (afs_round afs_e) (take 32 x, drop 32 x) Ks) as [L R]. destruct H as ([BL LL] & [BR LR] & E). cbv zeta.
  assert (BRL : Forall bit (R ++ L)) by by apply Forall_app. split; [by apply array_table|].
  unfold fips_cipher. rewrite Ex. cbv zeta.
  destruct (bits_split 32 (take 32 x) (drop 32 x)) as (EH & EL & _); [apply H1|apply H2|unfold zlen; rewrite (proj2 H2); done|].
  rewrite take_drop in EH, EL. change 0xffffffff with (Z.ones 32). rewrite EH, EL, <- E. cbn [fst snd].
  destruct (bits_split 32 R L) as (_ & _ & ->); [done..|unfold zlen; by rewrite LL|].
  change afs_FP with fips_IP_inverse. apply permute_bits'; [done..|]. unfold zlen. rewrite length_app, LL, LR. done.
Qed.

(** ** The key schedule *)

Lemma rotate1_spec c : array 28 c -> array 28 (rotate1 c) /\ array_value (rotate1 c) = rotl28 1 (array_value c).
Proof.
  intros [Hc Lc]. destruct c as [|b c]; [discriminate|]. apply Forall_cons_1 in Hc as [Hb Hc]. injection Lc as Lc.
  unfold rotate1. change (drop 1 (b :: c)) with c. change (take 1 (b :: c)) with [b]. split; [split; [apply Forall_app; split; [exact Hc|apply Forall_singleton; exact Hb]|by rewrite length_app, Lc]|].
  assert (zlen c = 27) as Zc by (unfold zlen; lia). pose proof (array_value_range c Hc) as HR. rewrite Zc in HR. unfold is_uint in HR.
  rewrite array_value_app, (array_value_cons b c), Zc. unfold rotl28. change 0xfffffff with (Z.ones 28).
  rewrite Z.land_ones, Z.shiftl_mul_pow2, Z.shiftr_div_pow2 by lia. change (28 - 1) with 27. change (zlen [b]) with 1. change (array_value [b]) with b.
  replace ((b * 2 ^ 27 + array_value c) / 2 ^ 27) with b by (rewrite Z.add_comm, Z.div_add, Z.div_small by lia; lia).
  replace (((b * 2 ^ 27 + array_value c) * 2 ^ 1) mod 2 ^ 28) with (array_value c * 2 ^ 1).
  - symmetry. apply lor_add; [lia|]. destruct Hb as [-> | ->]; unfold is_uint; lia.
  - replace ((b * 2 ^ 27 + array_value c) * 2 ^ 1) with (array_value c * 2 ^ 1 + b * 2 ^ 28) by lia.
    rewrite Z.mod_add, Z.mod_small by lia. done.
Qed.

Lemma rotl28_twice x : is_uint 28 x -> rotl28 2 x = rotl28 1 (rotl28 1 x).
Proof.
  intros Hx. assert (EM : Z.land x mask28 = x).
  { change mask28 with (Z.ones 28). rewrite Z.land_ones by lia. by apply Z.mod_small. }
  assert (L : lin mask28 (fun x => Z.land x mask28)) by apply lin_low.
  pose proof (linear_check 28 (fun x => rotl28 2 (Z.land x mask28)) (fun x => rotl28 1 (rotl28 1 (Z.land x mask28)))) as H.
  cbv beta in H. specialize (H (proj1 (rotl28_lin 2 _ ltac:(lia) L))
    (proj1 (rotl28_lin 1 _ ltac:(lia) (rotl28_lin 1 _ ltac:(lia) L))) ltac:(vm_compute; reflexivity) x Hx). by rewrite EM in H.
Qed.

Lemma rotations_spec n c : n = 1 \/ n = 2 -> array 28 c ->
  let c' := Nat.iter (Z.to_nat n) rotate1 c in array 28 c' /\ array_value c' = rotl28 n (array_value c).
Proof.
  intros Hn Hc. destruct (rotate1_spec c Hc) as [H1 E1]. destruct (rotate1_spec _ H1) as [H2 E2]. cbv zeta.
  assert (R : is_uint 28 (array_value c)).
  { destruct Hc as [Hc Lc]. replace 28 with (zlen c) by (unfold zlen; lia). by apply array_value_range. }
  destruct Hn as [-> | ->]; [done|]. split; [done|]. rewrite rotl28_twice by done. rewrite <- E1. exact E2.
Qed.

Lemma afs_schedule_spec shifts C D : Forall (fun n => n = 1 \/ n = 2) shifts -> array 28 C -> array 28 D ->
  array_value <$> afs_schedule shifts C D = fips_keys_from shifts (array_value C) (array_value D) /\
  Forall (array 48) (afs_schedule shifts C D).
Proof.
  intros HS. revert C D. induction HS as [|n shifts Hn _ IH]; intros C D HC HD; cbn [afs_schedule fips_keys_from]; [by split; [|constructor]|].
  destruct (rotations_spec n C Hn HC) as [HC' <-]. destruct (rotations_spec n D Hn HD) as [HD' <-].
  set (C' := Nat.iter _ _ C) in *. set (D' := Nat.iter _ _ D) in *. destruct (IH C' D' HC' HD') as [E F]. rewrite fmap_cons, E.
  destruct HC' as [BC LC]. destruct HD' as [BD LD].
  assert (EK : ((fun j => table_at C' (j - 1)) <$> afs_PC2_C) ++ ((fun j => table_at D' (j - 28 - 1)) <$> afs_PC2_D) =
               (fun j => table_at (C' ++ D') (j - 1)) <$> fips_PC2).
  { change fips_PC2 with (afs_PC2_C ++ afs_PC2_D). rewrite fmap_app. assert (zlen C' = 28) as ZC by (unfold zlen; lia). f_equal.
    - pose proof (in_range_spec 28 afs_PC2_C eq_refl) as HR. revert HR. generalize afs_PC2_C as t. induction 1 as [|j t Hj _ IHt]; [done|].
      rewrite !fmap_cons, IHt. f_equal. by rewrite table_at_left by lia.
    - assert (HR : Forall (fun j => 29 <= j) afs_PC2_D) by (repeat (apply Forall_cons_2; [lia|]); constructor).
      revert HR. generalize afs_PC2_D as t. induction 1 as [|j t Hj _ IHt]; [done|].
      rewrite !fmap_cons, IHt. f_equal. replace (j - 1) with (zlen C' + (j - 28 - 1)) by lia. by rewrite table_at_app by lia. }
  assert (BCD : Forall bit (C' ++ D')) by by apply Forall_app. rewrite EK. split.
  - f_equal. destruct (bits_split 28 C' D') as (_ & _ & ->); [done..|unfold zlen; lia|].
    apply permute_bits'; [done..|]. unfold zlen. rewrite length_app. lia.
  - constructor; [by apply array_table|done].
Qed.

Lemma setkey_spec key : array 64 key ->
  st_E (krb5_afs_crypt_setkey key) = fips_E /\ array_value <$> st_KS (krb5_afs_crypt_setkey key) = fips_keys (array_value key) /\
  Forall (array 48) (st_KS (krb5_afs_crypt_setkey key)).
Proof.
  intros [Hk Lk]. unfold krb5_afs_crypt_setkey. cbn [st_E st_KS].
  set (C := _ <$> afs_PC1_C). set (D := _ <$> afs_PC1_D).
  assert (HC : array 28 C) by by apply array_table. assert (HD : array 28 D) by by apply array_table.
  destruct (afs_schedule_spec afs_shifts C D) as [E F]; [repeat (apply Forall_cons_2; [lia|]); constructor|done..|].
  split_and!; [done| |done]. rewrite E. unfold fips_keys.
  replace (permute 64 fips_PC1 (array_value key)) with (array_value (C ++ D)).
  - destruct (bits_split 28 C D) as (-> & E2 & _); [apply HC|apply HD|unfold zlen; by rewrite (proj2 HD)|].
    change 0xfffffff with (Z.ones 28). by rewrite E2.
  - unfold C, D. rewrite <- fmap_app. change (afs_PC1_C ++ afs_PC1_D) with fips_PC1. apply permute_bits'; [done..|]. unfold zlen. by rewrite Lk.
Qed.

(** The DES of afsstring2key.c, on arrays of one bit per char with its own tables, is
    the encryption and the decryption of FIPS 46 as long as no salt has changed the
    expansion table. *)
Theorem afs_des_fips key block edflag : array 64 key -> array 64 block ->
  let out := krb5_afs_encrypt (krb5_afs_crypt_setkey key) block edflag in
  array 64 out /\
  array_value out = (if edflag =? 0 then fips_encrypt else fips_decrypt) (array_value key) (array_value block).
Proof.
  intros Hk Hb. destruct (setkey_spec key Hk) as (EE & EK & HK). unfold krb5_afs_encrypt. rewrite EE.
  destruct (edflag =? 0); cbn [negb].
  - pose proof (afs_cipher_spec _ block Hb HK) as H. change fips_E with afs_e. destruct (foldl _ _ _) as [L R]. by rewrite EK in H.
  - pose proof (afs_cipher_spec _ block Hb (proj2 (Forall_reverse _ _) HK)) as H. change fips_E with afs_e. destruct (foldl _ _ _) as [L R].
    by rewrite fmap_reverse, EK in H.
Qed.
