(* ===== verification/CryptoApi.v ===== *)
(** * Encryption types and checksum types (src/src/lib/crypto)

    The tables that map the numbers of the protocol to providers (etypes.c, cksumtypes.c)
    and the functions that applications call: krb5_c_encrypt, krb5_c_decrypt,
    krb5_c_make_checksum, krb5_c_verify_checksum, krb5_c_make_random_key,
    krb5_c_string_to_key and the queries; the keyed checksums with DES
    (keyhash_provider), the checksum with a derived key (dk/checksum.c) and the keys of
    passwords (dk/stringtokey.c, des/string2key.c).

    The library compares providers by address; here a provider is named by a constructor
    of [enc_id].  The types of the Athena kludge are left out, as in a build without
    ATHENA_DES3_KLUDGE. *)

From S2P Require Import Prelude Asn1Buf Words Nfold Des Afs Md Crypto.

(** ** Checksums with a key (keyhash_provider) *)

Record krb5_keyhash_provider : Type := KeyhashProvider {
  kh_hash_size : Z;
  (** key, initial vector, input, length of the output buffer; the generator may be used *)
  kh_hash : prng -> keyblock -> option (list octet) -> list octet -> Z -> outcome error_code (list octet) * prng;
  (** NULL for descbc *)
  kh_verify : option (keyblock -> option (list octet) -> list octet -> list octet -> outcome error_code bool)
}.

Definition CONFLENGTH : Z := 8.

(** The schedule of a key, the codes of mit_des_key_sched as errors. *)
Definition des_schedule (key : list octet) : outcome error_code mit_des_key_schedule :=
  let* '(schedule, ret) := mit_des_key_sched key in
  if ret =? -1 then Err KRB5DES_BAD_KEYPAR
  else if ret =? -2 then Err KRB5DES_WEAK_KEY
  else Ok schedule.

Section mddes.
(** k5_md4des.c and k5_md5des.c differ in the digest: Init, Updates with the pieces, Final. *)
Context (digest : list (list octet) -> list octet).

Definition k5_mddes_hash (st : prng) (key : keyblock) (ivec : option (list octet)) (input : list octet) (output_length : Z)
    : outcome error_code (list octet) * prng :=
  if negb (zlen (key_contents key) =? 8) then (Err KRB5_BAD_KEYSIZE, st)
  else if bool_decide (ivec <> None) then (Err KRB5_CRYPTO_INTERNAL, st)
  else if negb (output_length =? CONFLENGTH + 16) then (Err KRB5_CRYPTO_INTERNAL, st)
  else
    let '(r, st) := krb5_c_random_make_octets st CONFLENGTH in
    (let* conf := r in
     let xorkey := (fun k => Z.lxor k 0xf0) <$> key_contents key in
     let* schedule := des_schedule xorkey in
     let out := conf ++ digest [conf; input] in
     mit_des_cbc_encrypt out (zlen out) schedule mit_des_zeroblock true, st).

(** A checksum of 16 octets is taken for one of krb5-beta5, without a confounder. *)
Definition k5_mddes_verify (key : keyblock) (ivec : option (list octet)) (input hash : list octet) : outcome error_code bool :=
  if negb (zlen (key_contents key) =? 8) then Err KRB5_BAD_KEYSIZE
  else if bool_decide (ivec <> None) then Err KRB5_CRYPTO_INTERNAL
  else if negb (zlen hash =? CONFLENGTH + 16) && negb (zlen hash =? 16) then Err KRB5_CRYPTO_INTERNAL
  else
    let compathash := negb (zlen hash =? CONFLENGTH + 16) in
    let xorkey := if compathash then key_contents key else (fun k => Z.lxor k 0xf0) <$> key_contents key in
    let* schedule := des_schedule xorkey in
    let* plaintext := mit_des_cbc_encrypt hash (zlen hash) schedule (if compathash then xorkey else mit_des_zeroblock) false in
    if compathash then Ok (bool_decide (take 16 plaintext = digest [input]))
    else Ok (bool_decide (take 16 (drop 8 plaintext) = digest [take 8 plaintext; input])).
End mddes.

Section keyhashes.
Context `{Stack}.
Definition md4_digest (input : list (list octet)) : list octet :=
  md_digest (krb5_MD4Final (foldl krb5_MD4Update (krb5_MD4Init md_stack) input)).
Definition md5_digest (input : list (list octet)) : list octet :=
  md_digest (krb5_MD5Final (foldl krb5_MD5Update (krb5_MD5Init md_stack) input)).

Definition krb5_keyhash_md4des : krb5_keyhash_provider :=
  KeyhashProvider (CONFLENGTH + RSA_MD4_CKSUM_LENGTH) (k5_mddes_hash md4_digest) (Some (k5_mddes_verify md4_digest)).
Definition krb5_keyhash_md5des : krb5_keyhash_provider :=
  KeyhashProvider (CONFLENGTH + RSA_MD5_CKSUM_LENGTH) (k5_mddes_hash md5_digest) (Some (k5_mddes_verify md5_digest)).
End keyhashes.

Definition k5_descbc_hash (st : prng) (key : keyblock) (ivec : option (list octet)) (input : list octet) (output_length : Z)
    : outcome error_code (list octet) * prng :=
  (if negb (zlen (key_contents key) =? 8) then Err KRB5_BAD_KEYSIZE
   else if negb (zlen input mod 8 =? 0) then Err KRB5_BAD_MSIZE
   else if match ivec with Some iv => negb (zlen iv =? 8) | None => false end then Err KRB5_CRYPTO_INTERNAL
   else if negb (output_length =? 8) then Err KRB5_CRYPTO_INTERNAL
   else
     let* schedule := des_schedule (key_contents key) in
     mit_des_cbc_cksum input schedule (default mit_des_zeroblock ivec), st).

Definition krb5_keyhash_descbc : krb5_keyhash_provider := KeyhashProvider 8 k5_descbc_hash None.

(** ** Keys of passwords *)

(** dk/stringtokey.c; the result of make_key is not looked at. *)
Definition kerberos : list octet := [107; 101; 114; 98; 101; 114; 111; 115].

Definition krb5_dk_string_to_key (enc : krb5_enc_provider) (string : list octet) (salt : option (list octet)) (key_length : Z)
    : outcome error_code (list octet) :=
  let concat := string ++ default [] salt in
  let foldstring := krb5_nfold (zlen concat * 8) concat (enc_keybytes enc * 8) in
  match enc_make_key enc foldstring (enc_keylength enc) with
  | Ok foldkey => krb5_derive_key enc (Key 0 foldkey) key_length kerberos
  | Err _ => Undefined
  | o => o
  end.

(** des/string2key.c: the low seven bits of each character are added to the 56 bits of
    the key, forwards and backwards in turn.  [pos] is p_char - k_char. *)
Fixpoint fold_bits (k_char : list Z) (pos : Z) (forward : bool) (temp : Z) (j : nat) : list Z * Z :=
  match j with
  | O => (k_char, pos)
  | S j =>
      let pos' := if forward then pos else pos - 1 in
      let k_char := <[Z.to_nat pos' := Z.lxor (table_at k_char pos') (Z.land temp 1)]> k_char in
      fold_bits k_char (if forward then pos + 1 else pos - 1) forward (Z.shiftr temp 1) j
  end.

Fixpoint fold_chars (str : list octet) (i : Z) (k_char : list Z) (pos : Z) (forward : bool) : list Z :=
  match str with
  | [] => k_char
  | c :: str =>
      let '(k_char, pos) := fold_bits k_char pos forward c 7 in
      fold_chars str (i + 1) k_char pos (if i mod 8 =? 0 then negb forward else forward)
  end.

(** Seven bits each, shifted by one. *)
Definition key_of_bits (k_char : list Z) : list octet :=
  (fun i => foldl (fun temp j => Z.lor temp (Z.shiftl (table_at k_char (7 * i + j)) (1 + j))) 0 (seqZ 0 7)) <$> seqZ 0 8.

(** mit_des_fixup_key_parity, and another last octet for a weak key. *)
Definition fix_key (key : list octet) : list octet :=
  let key := mit_des_fixup_key_parity key in
  if mit_des_is_weak_key key then <[7%nat := Z.lxor (table_at key 7) 0xf0]> key else key.

(** From the copy of the string and the salt on. *)
Definition string_to_key_copy (copystr : list octet) : outcome error_code (list octet) :=
  let k_char := fold_chars copystr 1 (replicate 64 0) 0 true in
  let key := fix_key (key_of_bits k_char) in
  let* '(key_sked, _) := mit_des_key_sched key in
  let* key := mit_des_cbc_cksum copystr key_sked key in
  Ok (fix_key key).

(** The copy, in a block of as many octets as the int length says. *)
Definition string_to_key_alloc `{Platform} (str : list octet) : outcome error_code (list octet) :=
  match malloc (int32 (zlen str)) with
  | None => Err ENOMEM
  | Some block => if zlen block <? zlen str then Undefined else string_to_key_copy str
  end.

(** [behind] are the octets behind those of the string.  A salt of length -1, the flag,
    selects the conversion of AFS; what stands at salt->data then is a C string. *)
Definition mit_des_string_to_key_int `{Platform} (data behind : list octet) (salt : option (list octet * bool))
    : outcome error_code (list octet) :=
  match salt with
  | Some (s, true) => mit_afs_string_to_key data behind s
  | Some (s, false) => string_to_key_alloc (data ++ s)
  | None => string_to_key_alloc data
  end.

(** The keys of password with the salt ATHENA.MIT.EDUraeburn in RFC 3961. *)
Example string_to_key_vectors :
  let password := [112; 97; 115; 115; 119; 111; 114; 100] in
  let salt := [65; 84; 72; 69; 78; 65; 46; 77; 73; 84; 46; 69; 68; 85; 114; 97; 101; 98; 117; 114; 110] in
  string_to_key_copy (password ++ salt) =
    Ok [0xcb; 0xc2; 0x2f; 0xae; 0x23; 0x52; 0x98; 0xe3] /\
  krb5_dk_string_to_key krb5_enc_des3 password (Some salt) 24 =
    Ok [0x85; 0x0b; 0xb5; 0x13; 0x58; 0x54; 0x8c; 0xd0; 0x5e; 0x86; 0x76; 0x8c;
        0x31; 0x3e; 0x3b; 0xfe; 0xf7; 0x51; 0x19; 0x37; 0xdc; 0xf7; 0x2c; 0x3e].
Proof. vm_compute. done. Qed.

(** ** The table of encryption types (etypes.c) *)

Inductive enc_id : Set := ENC_DES | ENC_DES3.
Inductive str2key_id : Set := DES_STRING_TO_KEY | DK_STRING_TO_KEY.

#[global] Instance enc_id_eq_dec : EqDecision enc_id.
Proof. solve_decision. Defined.
#[global] Instance str2key_id_eq_dec : EqDecision str2key_id.
Proof. solve_decision. Defined.

Definition enc_provider (e : enc_id) : krb5_enc_provider :=
  match e with ENC_DES => krb5_enc_des | ENC_DES3 => krb5_enc_des3 end.

(** How a type encrypts: krb5_raw_*, krb5_old_* or krb5_dk_*, the hash of the last two. *)
Inductive enc_mode : Type :=
| Raw
| Old (hash : krb5_hash_provider)
| Dk (hash : krb5_hash_provider).

Record krb5_keytypes : Type := Keytype {
  kt_etype : Z; kt_enc : enc_id; kt_mode : enc_mode; kt_str2key : str2key_id
}.

Definition ENCTYPE_DES_CBC_MD4 : Z := 2.
Definition ENCTYPE_DES_CBC_MD5 : Z := 3.
Definition ENCTYPE_DES_CBC_RAW : Z := 4.
Definition ENCTYPE_DES3_CBC_RAW : Z := 6.
Definition ENCTYPE_DES_HMAC_SHA1 : Z := 8.
Definition ENCTYPE_DES3_CBC_SHA1 : Z := 16.
Definition ENCTYPE_UNKNOWN : Z := 0x1ff.

(** ** The table of checksum types (cksumtypes.c) *)

Definition CKSUMTYPE_CRC32 : Z := 1.
Definition CKSUMTYPE_RSA_MD4 : Z := 2.
Definition CKSUMTYPE_RSA_MD4_DES : Z := 3.
Definition CKSUMTYPE_DESCBC : Z := 4.
Definition CKSUMTYPE_RSA_MD5 : Z := 7.
Definition CKSUMTYPE_RSA_MD5_DES : Z := 8.
Definition CKSUMTYPE_NIST_SHA : Z := 9.
Definition CKSUMTYPE_HMAC_SHA1_DES3 : Z := 12.

(** A keyed hash with the type of its key, or a hash, for which a key may be derived. *)
Inductive cksum_mode : Type :=
| Keyed (keyed_etype : Z) (keyhash : krb5_keyhash_provider)
| Derived (hash : krb5_hash_provider)
| Unkeyed (coll_proof : bool) (hash : krb5_hash_provider).

Record krb5_cksumtypes : Type := Cksumtype { ct_ctype : Z; ct_mode : cksum_mode }.

Section api.
Context `{Stack}.

(** The aliases included: the first entry with a number is the one that is found. *)
Definition krb5_enctypes_list : list krb5_keytypes := [
  Keytype ENCTYPE_DES_CBC_CRC ENC_DES (Old krb5_hash_crc32) DES_STRING_TO_KEY;
  Keytype ENCTYPE_DES_CBC_MD4 ENC_DES (Old krb5_hash_md4) DES_STRING_TO_KEY;
  Keytype ENCTYPE_DES_CBC_MD5 ENC_DES (Old krb5_hash_md5) DES_STRING_TO_KEY;
  Keytype ENCTYPE_DES_CBC_MD5 ENC_DES (Old krb5_hash_md5) DES_STRING_TO_KEY;
  Keytype ENCTYPE_DES_CBC_RAW ENC_DES Raw DES_STRING_TO_KEY;
  Keytype ENCTYPE_DES3_CBC_RAW ENC_DES3 Raw DK_STRING_TO_KEY;
  Keytype ENCTYPE_DES3_CBC_SHA1 ENC_DES3 (Dk krb5_hash_sha1) DK_STRING_TO_KEY;
  Keytype ENCTYPE_DES3_CBC_SHA1 ENC_DES3 (Dk krb5_hash_sha1) DK_STRING_TO_KEY;
  Keytype ENCTYPE_DES3_CBC_SHA1 ENC_DES3 (Dk krb5_hash_sha1) DK_STRING_TO_KEY;
  Keytype ENCTYPE_DES_HMAC_SHA1 ENC_DES (Dk krb5_hash_sha1) DK_STRING_TO_KEY].

Definition krb5_cksumtypes_list : list krb5_cksumtypes := [
  Cksumtype CKSUMTYPE_CRC32 (Unkeyed false krb5_hash_crc32);
  Cksumtype CKSUMTYPE_RSA_MD4 (Unkeyed true krb5_hash_md4);
  Cksumtype CKSUMTYPE_RSA_MD4_DES (Keyed ENCTYPE_DES_CBC_CRC krb5_keyhash_md4des);
  Cksumtype CKSUMTYPE_DESCBC (Keyed ENCTYPE_DES_CBC_CRC krb5_keyhash_descbc);
  Cksumtype CKSUMTYPE_RSA_MD5 (Unkeyed true krb5_hash_md5);
  Cksumtype CKSUMTYPE_RSA_MD5_DES (Keyed ENCTYPE_DES_CBC_CRC krb5_keyhash_md5des);
  Cksumtype CKSUMTYPE_NIST_SHA (Unkeyed true krb5_hash_sha1);
  Cksumtype CKSUMTYPE_HMAC_SHA1_DES3 (Derived krb5_hash_sha1);
  Cksumtype CKSUMTYPE_HMAC_SHA1_DES3 (Derived krb5_hash_sha1)].

(** The linear search that every function starts with. *)
Definition find_enctype (etype : Z) : option krb5_keytypes :=
  List.find (fun kt => kt_etype kt =? etype) krb5_enctypes_list.
Definition find_cksumtype (ctype : Z) : option krb5_cksumtypes :=
  List.find (fun ct => ct_ctype ct =? ctype) krb5_cksumtypes_list.

(** ** Queries *)

Definition valid_enctype (etype : Z) : bool := bool_decide (is_Some (find_enctype etype)).
Definition valid_cksumtype (ctype : Z) : bool := bool_decide (is_Some (find_cksumtype ctype)).

Definition krb5_c_block_size (enctype : Z) : outcome error_code Z :=
  match find_enctype enctype with
  | None => Err KRB5_BAD_ENCTYPE
  | Some kt => Ok (enc_block_size (enc_provider (kt_enc kt)))
  end.

Definition krb5_c_enctype_compare (e1 e2 : Z) : outcome error_code bool :=
  match find_enctype e1, find_enctype e2 with
  | Some a, Some b => Ok (bool_decide (kt_enc a = kt_enc b) && bool_decide (kt_str2key a = kt_str2key b))
  | _, _ => Err KRB5_BAD_ENCTYPE
  end.

(** krb5_boolean, -1 for an unknown type *)
Definition is_keyed_cksum (ctype : Z) : Z :=
  match find_cksumtype ctype with
  | Some (Cksumtype _ (Keyed _ _ | Derived _)) => 1
  | Some _ => 0
  | None => -1
  end.

Definition is_coll_proof_cksum (ctype : Z) : bool :=
  match find_cksumtype ctype with
  | Some (Cksumtype _ (Unkeyed coll_proof _)) => coll_proof
  | Some _ => true
  | None => false
  end.

Definition etype_match (e1 e2 : Z) : bool :=
  match find_enctype e1, find_enctype e2 with
  | Some a, Some b => bool_decide (kt_enc a = kt_enc b)
  | _, _ => false
  end.

Definition krb5_c_keyed_checksum_types (enctype : Z) : list Z :=
  ct_ctype <$> List.filter (fun ct => match ct_mode ct with
                                      | Keyed keyed_etype _ => etype_match keyed_etype enctype
                                      | Derived _ => true
                                      | Unkeyed _ _ => false
                                      end) krb5_cksumtypes_list.

(** ** Encryption (encrypt.c, decrypt.c, encrypt_length.c) *)

Definition krb5_c_encrypt_length (enctype inputlen : Z) : outcome error_code Z :=
  match find_enctype enctype with
  | None => Err KRB5_BAD_ENCTYPE
  | Some kt =>
      let enc := enc_provider (kt_enc kt) in
      Ok (match kt_mode kt with
          | Raw => krb5_raw_encrypt_length enc inputlen
          | Old hash => krb5_old_encrypt_length enc hash inputlen
          | Dk hash => krb5_dk_encrypt_length enc hash inputlen
          end)
  end.

(** The ciphertext, with the type of the key, and the new initial vector. *)
Definition krb5_c_encrypt (st : prng) (key : keyblock) (usage : Z) (ivec : option (list octet)) (input : list octet)
    (output_length : Z) : outcome error_code ((Z * list octet) * option (list octet)) * prng :=
  match find_enctype (key_enctype key) with
  | None => (Err KRB5_BAD_ENCTYPE, st)
  | Some kt =>
      let enc := enc_provider (kt_enc kt) in
      let '(r, st) :=
        match kt_mode kt with
        | Raw => (let* c := krb5_raw_encrypt enc key ivec input output_length in Ok (c, ivec), st)
        | Old hash => krb5_old_encrypt enc hash st key usage ivec input output_length
        | Dk hash => krb5_dk_encrypt enc hash st key usage ivec input output_length
        end in
      (let* '(c, iv) := r in Ok ((key_enctype key, c), iv), st)
  end.

Definition krb5_c_decrypt (key : keyblock) (usage : Z) (ivec : option (list octet)) (input : Z * list octet)
    (output_length : Z) : outcome error_code (list octet * option (list octet)) :=
  match find_enctype (key_enctype key) with
  | None => Err KRB5_BAD_ENCTYPE
  | Some kt =>
      let enc := enc_provider (kt_enc kt) in
      if negb (input.1 =? ENCTYPE_UNKNOWN) && negb (kt_etype kt =? input.1) then Err KRB5_BAD_ENCTYPE
      else match kt_mode kt with
           | Raw => let* p := krb5_raw_decrypt enc key ivec input.2 output_length in Ok (p, ivec)
           | Old hash => krb5_old_decrypt enc hash key usage ivec input.2 output_length
           | Dk hash => krb5_dk_decrypt enc hash key usage ivec input.2 output_length
           end
  end.

(** ** Checksums (make_checksum.c, verify_checksum.c, checksum_length.c, dk/checksum.c) *)

Definition krb5_dk_make_checksum (hash : krb5_hash_provider) (key : keyblock) (usage : Z) (input : list octet)
    (output_length : Z) : outcome error_code (list octet) :=
  match find_enctype (key_enctype key) with
  | None => Err KRB5_BAD_ENCTYPE
  | Some kt =>
      let enc := enc_provider (kt_enc kt) in
      let* kc := krb5_derive_key enc key (enc_keylength enc) (usage_constant usage 0x99) in
      krb5_hmac hash kc [input] output_length
  end.

Definition cksum_length (ct : krb5_cksumtypes) : Z :=
  match ct_mode ct with
  | Keyed _ keyhash => kh_hash_size keyhash
  | Derived hash | Unkeyed _ hash => hash_size hash
  end.

Definition krb5_c_checksum_length (cksumtype : Z) : outcome error_code Z :=
  match find_cksumtype cksumtype with
  | None => Err KRB5_BAD_ENCTYPE
  | Some ct => Ok (cksum_length ct)
  end.

Definition krb5_c_make_checksum (st : prng) (cksumtype : Z) (key : keyblock) (usage : Z) (input : list octet)
    : outcome error_code (list octet) * prng :=
  match find_cksumtype cksumtype with
  | None => (Err KRB5_BAD_ENCTYPE, st)
  | Some ct =>
      let len := cksum_length ct in
      match ct_mode ct with
      | Keyed keyed_etype keyhash =>
          if negb (keyed_etype =? 0) && negb (etype_match keyed_etype (key_enctype key)) then (Err KRB5_BAD_ENCTYPE, st)
          else kh_hash keyhash st key None input len
      | Derived hash => (krb5_dk_make_checksum hash key usage input len, st)
      | Unkeyed _ hash => (hash_hash hash [input] len, st)
      end
  end.

(** [cksum] is the type and the contents. *)
Definition krb5_c_verify_checksum (st : prng) (key : keyblock) (usage : Z) (data : list octet) (cksum : Z * list octet)
    : outcome error_code bool * prng :=
  match find_cksumtype cksum.1 with
  | None => (Err KRB5_BAD_ENCTYPE, st)
  | Some ct =>
      match ct_mode ct with
      | Keyed _ (KeyhashProvider _ _ (Some verify)) => (verify key None data cksum.2, st)
      | _ =>
          let hashsize := cksum_length ct in
          if negb (zlen cksum.2 =? hashsize) then (Err KRB5_BAD_MSIZE, st)
          else
            let '(r, st) := krb5_c_make_checksum st cksum.1 key usage data in
            (let* computed := r in
             Ok (bool_decide (take (Z.to_nat hashsize) computed = take (Z.to_nat hashsize) cksum.2)), st)
      end
  end.

(** ** Keys (make_random_key.c, string_to_key.c) *)

Definition krb5_c_make_random_key (st : prng) (enctype : Z) : outcome error_code keyblock * prng :=
  match find_enctype enctype with
  | None => (Err KRB5_BAD_ENCTYPE, st)
  | Some kt =>
      let enc := enc_provider (kt_enc kt) in
      let '(r, st) := krb5_c_random_make_octets st (enc_keybytes enc) in
      (let* bytes := r in
       let* contents := enc_make_key enc bytes (enc_keylength enc) in
       Ok (Key enctype contents), st)
  end.

Definition krb5_c_string_to_key `{Platform} (enctype : Z) (string behind : list octet) (salt : option (list octet * bool))
    : outcome error_code keyblock :=
  match find_enctype enctype with
  | None => Err KRB5_BAD_ENCTYPE
  | Some kt =>
      let enc := enc_provider (kt_enc kt) in
      let* contents :=
        match kt_str2key kt with
        | DES_STRING_TO_KEY => mit_des_string_to_key_int string behind salt
        | DK_STRING_TO_KEY =>
            (** a salt of length -1 makes memcpy run over its source *)
            match salt with
            | Some (_, true) => Undefined
            | _ => krb5_dk_string_to_key enc string (fst <$> salt) (enc_keylength enc)
            end
        end in
      Ok (Key enctype contents)
  end.
End api.
