(* ===== verification/KtFile.v ===== *)
(** * Key tables in files (src/src/lib/krb5/keytab/file)

    The functions of ktf_util.c that know the format of a key table, and those of
    ktf_add.c, ktf_remove.c, ktf_g_ent.c, ktf_ssget.c, ktf_next.c and ktf_endget.c.

    A key table is a file that is a list of octets, or does not exist.  stdio reads and
    writes it as it is, at the offset of the stream (the calls of setbuf have no effect);
    a write on a regular file succeeds, so what remains of the errors of reading and
    writing are the end of the file, and fwrite of no octets, which returns 0.  Numbers
    of version 1 are in the order of the machine, least significant octet first. *)

From S2P Require Import Prelude Asn1Buf Krb5Types Words PrincName Crypto CryptoApi RcDfl.

Definition KRB5_KT_VNO_1 : Z := 0x0501.
Definition KRB5_KT_VNO : Z := 0x0502.
Definition IGNORE_VNO : Z := 0.
Definition IGNORE_ENCTYPE : Z := 0.

Record krb5_keytab_entry : Type := KtEntry {
  ke_principal : krb5_principal_data; ke_timestamp : Z; ke_vno : Z; ke_key : krb5_keyblock
}.

(** openf: NULL, a stream at an offset, or one that has been closed. *)
Inductive stream : Type := NoStream | Stream (pos : Z) | Closed.

(** krb5_ktfile_data, with the file that has the name. *)
Record krb5_ktfile_data : Type := KtData { kt_disk : option (list octet); kt_openf : stream; kt_version : Z }.

Abbreviation kproc := (sproc krb5_ktfile_data error_code).

(** ** stdio *)

Definition with_stream {A} (f : list octet -> Z -> outcome error_code A * list octet * Z) : kproc A := fun kt =>
  match kt_disk kt, kt_openf kt with
  | Some d, Stream pos => let '(r, d, pos) := f d pos in (r, KtData (Some d) (Stream pos) (kt_version kt))
  | _, _ => (Undefined, kt)
  end.

(** fread of [n] octets: those that there are. *)
Definition fread (n : Z) : kproc (list octet) := with_stream (fun d pos =>
  let l := take (Z.to_nat n) (drop (Z.to_nat pos) d) in (Ok l, d, pos + zlen l)).
(** fread of one item of [n] octets. *)
Definition fread_item (n : Z) : kproc (option (list octet)) :=
  do! l := fread n in sret (Ok (if zlen l =? n then Some l else None)).
Definition fwrite (l : list octet) : kproc unit := with_stream (fun d pos =>
  (Ok tt, match l with [] => d | _ => write_at d pos l end, pos + zlen l)).
Definition ftell : kproc Z := with_stream (fun d pos => (Ok pos, d, pos)).
Definition fseek (target : list octet -> Z -> Z) : kproc unit := with_stream (fun d pos =>
  let p := target d pos in if p <? 0 then (Err EINVAL, d, pos) else (Ok tt, d, p)).
(** (void) *)
Definition ignore (m : kproc unit) : kproc unit := fun kt => match m kt with (Err _, kt) => (Ok tt, kt) | r => r end.
Definition SEEK_SET (offset : Z) : list octet -> Z -> Z := fun _ _ => offset.
Definition SEEK_CUR (offset : Z) : list octet -> Z -> Z := fun _ pos => pos + offset.
Definition SEEK_END (offset : Z) : list octet -> Z -> Z := fun d _ => zlen d + offset.

Definition KTVERSION : kproc Z := fun kt => (Ok (kt_version kt), kt).

(** ** Numbers *)

(** ntohs or ntohl, or nothing *)
Definition number (version : Z) (l : list octet) : Z := octets_value (if version =? KRB5_KT_VNO_1 then rev l else l).
Definition put16 (version n : Z) : list octet := if version =? KRB5_KT_VNO_1 then rev (be16 n) else be16 n.
Definition put32 (version n : Z) : list octet := if version =? KRB5_KT_VNO_1 then rev (be32 n) else be32 n.

(** Negation of a [krb5_int32]. *)
Definition negate (n : Z) : outcome error_code Z := if bool_decide (is_int 32 (- n)) then Ok (- n) else Undefined.

Section keytab.
Context `{P : Platform} `{St : Stack}.
(** BUFSIZ, errno when a read meets the end of the file, and a bound of the turns of the
    loop in [krb5_ktfileint_find_slot]. *)
Context (BUFSIZ : Z) (errno : option error_code) (turns : nat).

(** ** Opening and closing *)

(** The file and the lock are free; with nothing to read, the stream is closed and errno
    returned, and openf not reset. *)
Definition krb5_ktfileint_open (exclusive : bool) : kproc unit := fun kt =>
  match kt_disk kt with
  | None =>
      if exclusive then (Ok tt, KtData (Some (be16 KRB5_KT_VNO)) (Stream 2) KRB5_KT_VNO)
      else (Err ENOENT, KtData None NoStream (kt_version kt))
  | Some d =>
      if zlen d <? 2 then (match errno with None => Ok tt | Some e => Err e end, KtData (Some d) Closed (kt_version kt))
      else
        let kt_vno := octets_value (take 2 d) in
        if negb (kt_vno =? KRB5_KT_VNO) && negb (kt_vno =? KRB5_KT_VNO_1) then (Err KRB5_KEYTAB_BADVNO, KtData (Some d) Closed kt_vno)
        else (Ok tt, KtData (Some d) (Stream 2) kt_vno)
  end.
Definition krb5_ktfileint_openr : kproc unit := krb5_ktfileint_open false.
Definition krb5_ktfileint_openw : kproc unit := krb5_ktfileint_open true.

Definition krb5_ktfileint_close : kproc unit := fun kt =>
  match kt_openf kt with
  | NoStream => (Ok tt, kt)
  | Stream _ => (Ok tt, KtData (kt_disk kt) NoStream (kt_version kt))
  | Closed => (Undefined, kt)
  end.

(** ** Deleting an entry *)

(** while (size > 0) ... *)
Fixpoint write_zeros (fuel : nat) (size len : Z) : kproc unit :=
  match fuel with
  | O => sret OutOfFuel
  | S fuel =>
      if 0 <? size then
        do! _ := fwrite (replicate (Z.to_nat len) 0) in
        let size := size - len in
        write_zeros fuel size (if size <? len then size else len)
      else sret (Ok tt)
  end.

Definition krb5_ktfileint_delete_entry (delete_point : Z) : kproc unit :=
  do! _ := fseek (SEEK_SET delete_point) in
  do! o := fread_item 4 in
  do! version := KTVERSION in
  match o with
  | None => sret (Err KRB5_KT_END)
  | Some l =>
      let size := int32 (number version l) in
      if 0 <? size then
        do! _ := fseek (SEEK_SET delete_point) in
        do! _ := fwrite (put32 version (- size)) in
        write_zeros (S (Z.to_nat size)) size (if size <? BUFSIZ then size else BUFSIZ)
      else sret (Ok tt)
  end.

(** ** Reading an entry *)

(** What has to be there. *)
Definition fread_exactly (n : Z) : kproc (list octet) :=
  do! o := fread_item n in
  match o with Some l => sret (Ok l) | None => sret (Err KRB5_KT_END) end.

(** A length that must be positive. *)
Definition read_length : kproc Z :=
  do! l := fread_exactly 2 in
  do! version := KTVERSION in
  let n := to_int 16 (number version l) in
  if n <=? 0 then sret (Err KRB5_KT_END) else sret (Ok n).

Definition read_realm : kproc krb5_data :=
  do! princ_size := read_length in
  match malloc (princ_size + 1) with
  | None => sret (Err ENOMEM)
  | Some _ =>
      do! tmpdata := fread princ_size in
      if zlen tmpdata =? princ_size then sret (Ok (Data princ_size (Some (tmpdata ++ [0])))) else sret (Err KRB5_KT_END)
  end.

(** fread into a new block [b] of [n] octets: one octet is enough. *)
Definition read_some (n : Z) (b : list octet) : kproc (list octet) :=
  do! l := fread n in
  if zlen l =? 0 then sret (Err KRB5_KT_END) else sret (Ok (l ++ drop (length l) (take (Z.to_nat n) b))).

Definition read_component : kproc krb5_data :=
  do! princ_size := read_length in
  match malloc (princ_size + 1) with
  | None => sret (Err ENOMEM)
  | Some b => do! l := read_some princ_size b in sret (Ok (Data princ_size (Some (l ++ [0]))))
  end.

Fixpoint read_components (count : nat) : kproc (list krb5_data) :=
  match count with
  | O => sret (Ok [])
  | S count => do! d := read_component in do! rest := read_components count in sret (Ok (d :: rest))
  end.

(** The length of the next record that is not a hole, and where it stands. *)
Fixpoint next_record (fuel : nat) : kproc (Z * Z) :=
  match fuel with
  | O => sret OutOfFuel
  | S fuel =>
      do! delete_point := ftell in
      do! l := fread_exactly 4 in
      do! version := KTVERSION in
      let size := int32 (number version l) in
      if size <? 0 then
        do! n := sret (negate size) in
        do! _ := fseek (SEEK_CUR n) in
        next_record fuel
      else sret (Ok (size, int32 delete_point))
  end.

(** In version 1 the type stays what is in the new block [b]. *)
Definition read_principal : kproc krb5_principal_data :=
  do! l := fread_exactly 2 in
  do! version := KTVERSION in
  let count := to_int 16 (if version =? KRB5_KT_VNO_1 then to_int 16 (number version l) - 1 else number version l) in
  if count <=? 0 then sret (Err KRB5_KT_END)
  else
    match malloc sizeof_krb5_principal_data, malloc (sizeof_krb5_data * count) with
    | Some b, Some _ =>
        do! realm := read_realm in
        do! data := read_components (Z.to_nat count) in
        do! type := (if version =? KRB5_KT_VNO_1 then sret (Ok (int32 (octets_value (take 4 b))))
                     else do! l := fread_exactly 4 in sret (Ok (int32 (number version l)))) in
        sret (Ok (Principal realm (Some data) count type))
    | _, _ => sret (Err ENOMEM)
    end.

Definition read_key : kproc krb5_keyblock :=
  do! l := fread_exactly 2 in
  do! version := KTVERSION in
  let enctype := if version =? KRB5_KT_VNO_1 then to_int 16 (number version l) else number version l in
  do! count := read_length in
  match malloc count with
  | None => sret (Err ENOMEM)
  | Some b => do! contents := read_some count b in sret (Ok (Keyblock enctype count (Some contents)))
  end.

(** What is in a record. *)
Definition read_fields : kproc krb5_keytab_entry :=
  do! principal := read_principal in
  do! l := fread_exactly 4 in
  do! version := KTVERSION in
  do! vno := fread_exactly 1 in
  do! key := read_key in
  sret (Ok (KtEntry principal (int32 (number version l)) (octets_value vno) key)).

Definition krb5_ktfileint_internal_read_entry : kproc (krb5_keytab_entry * Z) := fun kt =>
  (do! r := next_record (S (length (default [] (kt_disk kt)))) in
   if r.1 =? 0 then sret (Err KRB5_KT_END)
   else
     do! start_pos := ftell in
     do! entry := read_fields in
     if negb (bool_decide (is_int 32 (int32 start_pos + r.1))) then sret Undefined
     else
       do! _ := ignore (fseek (SEEK_SET (int32 start_pos + r.1))) in
       sret (Ok (entry, r.2))) kt.

Definition krb5_ktfileint_read_entry : kproc krb5_keytab_entry :=
  do! r := krb5_ktfileint_internal_read_entry in sret (Ok r.1).
(** ** Writing an entry *)

(** The components that a loop over [n] of them reads. *)
Definition components_of (p : krb5_principal_data) (n : Z) : outcome error_code (list krb5_data) :=
  if n <=? 0 then Ok []
  else match pr_data p with
       | Some l => if zlen l <? n then Undefined else Ok (take (Z.to_nat n) l)
       | None => Undefined
       end.

Definition krb5_ktfileint_size_entry (entry : krb5_keytab_entry) : outcome error_code Z :=
  let p := ke_principal entry in
  let* comps := components_of p (to_int 16 (pr_length p)) in
  Ok (int32 (2 + (d_length (pr_realm p) + 2) + foldr (fun d a => d_length d + 2 + a) 0 comps + 4 + 4 + 1 + 2 + (2 + kb_length (ke_key entry)))).

(** Reading and writing in turn: zeros are written behind what was read.  feof is false
    after fseek. *)
Fixpoint zero_trailing (fuel : nat) : kproc unit :=
  match fuel with
  | O => sret OutOfFuel
  | S fuel =>
      do! l := fread BUFSIZ in
      if zlen l =? 0 then sret (Ok tt)
      else
        let size := if negb (zlen l =? BUFSIZ) && negb (zlen l mod 4 =? 0) then zlen l + (4 - zlen l mod 4) else zlen l in
        do! _ := fwrite (replicate (Z.to_nat size) 0) in
        zero_trailing fuel
  end.

(** The commit point and the size of the slot. *)
Fixpoint find_slot_loop (fuel : nat) (size_needed : Z) : kproc (Z * Z) :=
  match fuel with
  | O => sret OutOfFuel
  | S fuel =>
      do! commit_point := ftell in
      do! o := fread_item 4 in
      do! version := KTVERSION in
      match o with
      | None => do! _ := fwrite [0; 0; 0; 0] in sret (Ok (int32 commit_point, size_needed))
      | Some l =>
          let size := int32 (number version l) in
          if 0 <? size then do! _ := fseek (SEEK_CUR size) in find_slot_loop fuel size_needed
          else
            do! size := sret (negate size) in
            if size_needed <=? size then sret (Ok (int32 commit_point, size))
            else if 0 <? size then do! _ := fseek (SEEK_CUR size) in find_slot_loop fuel size_needed
            else
              do! zero_point := ftell in
              do! _ := (fun kt => zero_trailing (S (length (default [] (kt_disk kt)))) kt) in
              do! _ := fseek (SEEK_SET (int32 zero_point)) in
              find_slot_loop fuel size_needed
      end
  end.

Definition krb5_ktfileint_find_slot (size_needed : Z) : kproc (Z * Z) :=
  do! _ := fseek (SEEK_SET 0) in
  do! o := fread_item 2 in
  match o with
  | None => sret (Err KRB5_KT_IOERR)
  | Some _ => find_slot_loop turns size_needed
  end.

(** fwrite of [n] octets at a pointer; the call that writes none returns 0. *)
Definition fwrite_mem (n : Z) (mem : outcome error_code (list octet)) : kproc unit :=
  do! l := sret mem in
  if n =? 0 then sret (Err KRB5_KT_IOERR) else fwrite l.

Definition write_data (version : Z) (d : krb5_data) : kproc unit :=
  do! _ := fwrite (put16 version (d_length d)) in
  fwrite_mem (d_length d) (contents d).

Fixpoint write_components (version : Z) (comps : list krb5_data) : kproc unit :=
  match comps with
  | [] => sret (Ok tt)
  | d :: comps => do! _ := write_data version d in write_components version comps
  end.

(** From the principal to the key; the time [now] is also stored in the entry. *)
Definition write_fields (now : Z) (entry : krb5_keytab_entry) (version : Z) : kproc unit :=
  let p := ke_principal entry in
  let key := ke_key entry in
  do! _ := fwrite (put16 version (if version =? KRB5_KT_VNO_1 then pr_length p + 1 else pr_length p)) in
  do! _ := write_data version (pr_realm p) in
  do! _ := (do! comps := sret (components_of p (to_int 16 (pr_length p))) in write_components version comps) in
  do! _ := (if version =? KRB5_KT_VNO_1 then sret (Ok tt) else fwrite (put32 version (pr_type p))) in
  do! _ := fwrite (put32 version now) in
  do! _ := fwrite [octet_of (ke_vno entry)] in
  do! _ := fwrite (put16 version (kb_enctype key)) in
  do! _ := fwrite (put16 version (kb_length key)) in
  fwrite_mem (kb_length key) (contents (Data (kb_length key) (kb_contents key))).

Definition krb5_ktfileint_write_entry (now : Z) (entry : krb5_keytab_entry) : kproc unit :=
  do! size_needed := sret (krb5_ktfileint_size_entry entry) in
  do! slot := krb5_ktfileint_find_slot size_needed in
  do! version := KTVERSION in
  do! _ := write_fields now entry version in
  do! _ := fseek (SEEK_SET slot.1) in
  fwrite (put32 version slot.2).

(** ** The operations of a key table *)

(** The outcome of the rest, after the stream has been closed. *)
Definition closing {A} (m : kproc A) : kproc A := fun kt =>
  let '(r, kt) := m kt in
  match r with
  | Undefined => (Undefined, kt)
  | _ =>
      let '(r', kt) := krb5_ktfileint_close kt in
      (match r' with Ok _ => r | _ => Undefined end, kt)
  end.

Definition krb5_ktfile_add (now : Z) (entry : krb5_keytab_entry) : kproc unit :=
  do! _ := krb5_ktfileint_openw in
  do! _ := fseek (SEEK_END 0) in
  closing (krb5_ktfileint_write_entry now entry).

(** The position of the first entry that matches. *)
Fixpoint find_entry (fuel : nat) (entry : krb5_keytab_entry) : kproc Z :=
  match fuel with
  | O => sret OutOfFuel
  | S fuel =>
      do! r := krb5_ktfileint_internal_read_entry in
      let cur_entry := r.1 in
      do! found := sret (if (ke_vno entry =? ke_vno cur_entry) && (kb_enctype (ke_key entry) =? kb_enctype (ke_key cur_entry))
                         then krb5_principal_compare (ke_principal entry) (ke_principal cur_entry) else Ok false) in
      if found then sret (Ok r.2) else find_entry fuel entry
  end.

Definition krb5_ktfile_remove (entry : krb5_keytab_entry) : kproc unit :=
  do! _ := krb5_ktfileint_openw in
  closing (fun kt =>
    match find_entry (S (length (default [] (kt_disk kt)))) entry kt with
    | (Ok delete_point, kt) => krb5_ktfileint_delete_entry delete_point kt
    | (Err e, kt) => (Err (if bool_decide (e = KRB5_KT_END) then KRB5_KT_NOTFOUND else e), kt)
    | (Undefined, kt) => (Undefined, kt)
    | (OutOfFuel, kt) => (OutOfFuel, kt)
    end).

(** The entry that is kept so far and whether one had another version; [cur] is [None]
    while cur_entry.principal is NULL. *)
Fixpoint get_entry_loop (fuel : nat) (principal : krb5_principal_data) (kvno enctype : Z) (cur : option krb5_keytab_entry)
    (found_wrong_kvno : bool) : kproc (option krb5_keytab_entry * bool) :=
  match fuel with
  | O => sret OutOfFuel
  | S fuel => fun kt =>
      match krb5_ktfileint_read_entry kt with
      | (Ok new_entry, kt) =>
          (do! similar := sret (if enctype =? IGNORE_ENCTYPE then Ok true
                                else krb5_c_enctype_compare enctype (kb_enctype (ke_key new_entry))) in
           if negb similar then get_entry_loop fuel principal kvno enctype cur found_wrong_kvno
           else
             do! same := sret (krb5_principal_compare principal (ke_principal new_entry)) in
             if negb same then get_entry_loop fuel principal kvno enctype cur found_wrong_kvno
             else if kvno =? IGNORE_VNO then
               get_entry_loop fuel principal kvno enctype
                 (match cur with
                  | None => Some new_entry
                  | Some c => if ke_vno c <? ke_vno new_entry then Some new_entry else Some c
                  end) found_wrong_kvno
             else if ke_vno new_entry =? kvno then sret (Ok (Some new_entry, found_wrong_kvno))
             else get_entry_loop fuel principal kvno enctype cur true) kt
      | (Err KRB5_KT_END, kt) => (Ok (cur, found_wrong_kvno), kt)
      | (Err e, kt) => (Err e, kt)
      | (Undefined, kt) => (Undefined, kt)
      | (OutOfFuel, kt) => (OutOfFuel, kt)
      end
  end.

Definition krb5_ktfile_get_entry (principal : krb5_principal_data) (kvno enctype : Z) : kproc krb5_keytab_entry :=
  do! _ := krb5_ktfileint_openr in
  closing (fun kt =>
    (do! r := get_entry_loop (S (length (default [] (kt_disk kt)))) principal kvno enctype None false in
     match r with
     | (Some entry, _) => sret (Ok entry)
     | (None, true) => sret (Err KRB5_KT_KVNONOTFOUND)
     | (None, false) => sret (Err KRB5_KT_NOTFOUND)
     end) kt).

(** The cursor is an offset. *)
Definition krb5_ktfile_start_seq_get : kproc Z :=
  do! _ := krb5_ktfileint_openr in
  match malloc sizeof_long with
  | None => do! _ := krb5_ktfileint_close in sret (Err ENOMEM)
  | Some _ => ftell
  end.

Definition krb5_ktfile_get_next (cursor : Z) : kproc (krb5_keytab_entry * Z) := fun kt =>
  match fseek (SEEK_SET cursor) kt with
  | (Err _, kt) => (Err KRB5_KT_END, kt)
  | (Ok _, kt) => (do! entry := krb5_ktfileint_read_entry in do! fileoff := ftell in sret (Ok (entry, fileoff))) kt
  | (Undefined, kt) => (Undefined, kt)
  | (OutOfFuel, kt) => (OutOfFuel, kt)
  end.

Definition krb5_ktfile_end_get : kproc unit := krb5_ktfileint_close.

End keytab.
