(* ===== verification/Kdb.v ===== *)
(** * Records of the principal database (src/src/lib/kdb/kdb_xdr.c)

    An entry of the database as a structure and as the octets that are stored for it, the
    typed data that are attached to an entry, and the search for a key.

    The list [tl_data] is the list of its elements.  An entry that a function changes is
    the state of a computation.  abort() is [Undefined], and so is reading a member of an
    object from malloc that was never assigned. *)

From S2P Require Import Prelude Asn1Buf Krb5Types Words PrincName Crypto CryptoApi.

(** ** The structures of kdb.h *)

Definition KRB5_KDB_V1_BASE_LENGTH : Z := 38.
Definition KRB5_KDB_V1_KEY_DATA_ARRAY : Z := 2.
Definition KRB5_KDB_SALTTYPE_NORMAL : Z := 0.
Definition KRB5_TL_LAST_PWD_CHANGE : Z := 1.
Definition KRB5_TL_MOD_PRINC : Z := 2.

Record krb5_tl_data : Type := TlData { tl_data_type : Z; tl_data_length : Z; tl_data_contents : option (list octet) }.

(** A pointer to octets: NULL, a block, or a block that has been freed. *)
Inductive pointer : Type := Null | Block (l : list octet) | Freed.

(** One element of each of the arrays key_data_type, key_data_length, key_data_contents *)
Record key_slot : Type := Slot { ks_type : Z; ks_length : Z; ks_contents : pointer }.
Definition zero_slot : key_slot := Slot 0 0 Null.

Record krb5_key_data : Type := KeyData { key_data_ver : Z; key_data_kvno : Z; key_data_slots : list key_slot }.
Definition zero_key_data : krb5_key_data := KeyData 0 0 [zero_slot; zero_slot].

(** krb5_db_entry *)
Record krb5_db_entry_new : Type := DbEntryNew {
  dbe_len : Z; dbe_attributes : Z; dbe_max_life : Z; dbe_max_renewable_life : Z; dbe_expiration : Z;
  dbe_pw_expiration : Z; dbe_last_success : Z; dbe_last_failed : Z; dbe_fail_auth_count : Z;
  dbe_n_tl_data : Z; dbe_n_key_data : Z; dbe_e_length : Z; dbe_e_data : option (list octet);
  dbe_princ : option krb5_principal_data; dbe_tl_data : list krb5_tl_data; dbe_key_data : option (list krb5_key_data)
}.

Abbreviation eproc := (sproc krb5_db_entry_new error_code).

(** ** Numbers, least significant octet first *)

Definition krb5_kdb_encode_int16 (i16 : Z) : list octet := [Z.land i16 255; Z.land (Z.shiftr i16 8) 255].
Definition krb5_kdb_encode_int32 (i32 : Z) : list octet := le32 i32.

Definition krb5_kdb_decode_int16 (cp : list octet) : Z :=
  match cp with [a; b] => to_int 16 (Z.lor a (Z.shiftl b 8)) | _ => 0 end.
Definition krb5_kdb_decode_int32 (cp : list octet) : Z :=
  match cp with
  | [a; b; c; d] => int32 (Z.lor (Z.lor (Z.lor a (Z.shiftl b 8)) (Z.shiftl c 16)) (Z.shiftl d 24))
  | _ => 0
  end.

(** What memcpy of [n] octets reads at a pointer; a negative [n] is a huge [size_t]. *)
Definition read_mem (n : Z) (p : option (list octet)) : outcome error_code (list octet) :=
  if n <? 0 then Undefined else contents (Data n p).
Definition deref (n : Z) (p : pointer) : outcome error_code (list octet) :=
  match p with Null => read_mem n None | Block l => read_mem n (Some l) | Freed => Undefined end.

(** The variables of the decoder: nextloc is the rest of the memory behind it; and the
    string that parse.c keeps. *)
Record reader : Type := Reader { rd_nextloc : list octet; rd_sizeleft : Z; rd_default_realm : option (list octet) }.
Abbreviation rproc := (sproc reader error_code).

Section kdb.
Context `{P : Platform}.

(** sizeof of the structures, with pointers as wide as [long] *)
Definition sizeof_krb5_tl_data : Z := 3 * sizeof_long.
Definition sizeof_krb5_key_data : Z := if sizeof_long =? 8 then 32 else 20.

(** ** Keys and typed data of an entry *)

(** The elements of the array that a loop over [n] of them reads. *)
Definition key_data_of (e : krb5_db_entry_new) (n : Z) : outcome error_code (list krb5_key_data) :=
  if n <=? 0 then Ok []
  else match dbe_key_data e with
       | Some l => if zlen l <? n then Undefined else Ok (take (Z.to_nat n) l)
       | None => Undefined
       end.

Definition with_key_data (e : krb5_db_entry_new) (n : Z) (k : option (list krb5_key_data)) : krb5_db_entry_new :=
  DbEntryNew (dbe_len e) (dbe_attributes e) (dbe_max_life e) (dbe_max_renewable_life e) (dbe_expiration e)
    (dbe_pw_expiration e) (dbe_last_success e) (dbe_last_failed e) (dbe_fail_auth_count e)
    (dbe_n_tl_data e) n (dbe_e_length e) (dbe_e_data e) (dbe_princ e) (dbe_tl_data e) k.
Definition with_tl_data (e : krb5_db_entry_new) (n : Z) (t : list krb5_tl_data) : krb5_db_entry_new :=
  DbEntryNew (dbe_len e) (dbe_attributes e) (dbe_max_life e) (dbe_max_renewable_life e) (dbe_expiration e)
    (dbe_pw_expiration e) (dbe_last_success e) (dbe_last_failed e) (dbe_fail_auth_count e)
    n (dbe_n_key_data e) (dbe_e_length e) (dbe_e_data e) (dbe_princ e) t (dbe_key_data e).

(** key_data is NULL after a failure, and n_key_data is not changed. *)
Definition krb5_dbe_create_key_data : eproc unit := fun e =>
  match malloc (sizeof_krb5_key_data * (dbe_n_key_data e + 1)) with
  | None => (Err ENOMEM, with_key_data e (dbe_n_key_data e) None)
  | Some _ =>
      if dbe_n_key_data e <? 0 then (Undefined, e)
      else
        match key_data_of e (dbe_n_key_data e) with
        | Ok l => (Ok tt, with_key_data e (to_int 16 (dbe_n_key_data e + 1)) (Some (l ++ [zero_key_data])))
        | _ => (Undefined, e)
        end
  end.

(** The first record of the type is replaced. *)
Fixpoint replace_tl (new : krb5_tl_data) (l : list krb5_tl_data) : list krb5_tl_data :=
  match l with
  | [] => []
  | t :: l => if tl_data_type t =? tl_data_type new then new :: l else t :: replace_tl new l
  end.

Definition has_tl (type : Z) (l : list krb5_tl_data) : bool := existsb (fun t => tl_data_type t =? type) l.

(** The new contents are not in memory of the entry. *)
Definition krb5_dbe_update_tl_data (new_tl_data : krb5_tl_data) : eproc unit := fun e =>
  let found := has_tl (tl_data_type new_tl_data) (dbe_tl_data e) in
  match malloc (tl_data_length new_tl_data), malloc sizeof_krb5_tl_data with
  | None, _ => (Err ENOMEM, e)
  | Some _, chained =>
      if negb found && bool_decide (chained = None) then (Err ENOMEM, e)
      else
        match read_mem (tl_data_length new_tl_data) (tl_data_contents new_tl_data) with
        | Ok c =>
            let new := TlData (tl_data_type new_tl_data) (tl_data_length new_tl_data) (Some c) in
            (Ok tt, if found then with_tl_data e (dbe_n_tl_data e) (replace_tl new (dbe_tl_data e))
                    else with_tl_data e (to_int 16 (dbe_n_tl_data e + 1)) (new :: dbe_tl_data e))
        | _ => (Undefined, e)
        end
  end.

(** The record of the type, or one of no octets. *)
Definition krb5_dbe_lookup_tl_data (e : krb5_db_entry_new) (type : Z) : krb5_tl_data :=
  match List.find (fun t => tl_data_type t =? type) (dbe_tl_data e) with
  | Some t => t
  | None => TlData type 0 None
  end.

Definition krb5_dbe_update_last_pwd_change (stamp : Z) : eproc unit :=
  krb5_dbe_update_tl_data (TlData KRB5_TL_LAST_PWD_CHANGE 4 (Some (krb5_kdb_encode_int32 stamp))).

Definition krb5_dbe_lookup_last_pwd_change (e : krb5_db_entry_new) : outcome error_code Z :=
  let t := krb5_dbe_lookup_tl_data e KRB5_TL_LAST_PWD_CHANGE in
  if negb (tl_data_length t =? 4) then Ok 0
  else let* l := read_mem 4 (tl_data_contents t) in Ok (krb5_kdb_decode_int32 l).

Definition krb5_dbe_update_mod_princ_data (mod_date : Z) (mod_princ : krb5_principal_data) : eproc unit :=
  do! unparse_mod_princ := sret (krb5_unparse_name mod_princ) in
  let unparse_mod_princ_size := strlen unparse_mod_princ + 1 in
  match malloc (unparse_mod_princ_size + 4) with
  | None => sret (Err ENOMEM)
  | Some _ =>
      krb5_dbe_update_tl_data
        (TlData KRB5_TL_MOD_PRINC (to_int 16 (unparse_mod_princ_size + 4))
           (Some (krb5_kdb_encode_int32 mod_date ++ take (Z.to_nat unparse_mod_princ_size) unparse_mod_princ)))
  end.

(** [get_default_realm] and [default_realm] as in [krb5_parse_name]. *)
Definition krb5_dbe_lookup_mod_princ_data (get_default_realm : outcome error_code (list octet))
    (default_realm : option (list octet)) (e : krb5_db_entry_new)
    : outcome error_code (Z * krb5_principal_data) * option (list octet) :=
  let t := krb5_dbe_lookup_tl_data e KRB5_TL_MOD_PRINC in
  if tl_data_length t <? 5 then (Err KRB5_KDB_TRUNCATED_RECORD, default_realm)
  else
    match read_mem (tl_data_length t) (tl_data_contents t), tl_data_contents t with
    | Ok l, Some block =>
        if negb (nth (Z.to_nat (tl_data_length t - 1)) l 1 =? 0) then (Err KRB5_KDB_TRUNCATED_RECORD, default_realm)
        else
          let '(r, default_realm) := krb5_parse_name get_default_realm default_realm (drop 4 block) in
          (let* p := r in Ok (krb5_kdb_decode_int32 (take 4 block), p), default_realm)
    | _, _ => (Undefined, default_realm)
    end.

(** ** Encoding *)

(** The name, with the NUL *)
Definition krb5_encode_princ_dbkey (principal : krb5_principal_data) : outcome error_code krb5_data :=
  let* princ_name := krb5_unparse_name principal in
  Ok (Data (strlen princ_name + 1) (Some princ_name)).

(** += of an [int] *)
Fixpoint sum_int (a : Z) (l : list Z) : outcome error_code Z :=
  match l with
  | [] => Ok a
  | n :: l => if bool_decide (is_int 32 (a + n)) then sum_int (a + n) l else Undefined
  end.

(** The elements of the arrays that a loop up to key_data_ver reads. *)
Definition slots_of (k : krb5_key_data) : outcome error_code (list key_slot) :=
  if zlen (key_data_slots k) <? key_data_ver k then Undefined
  else Ok (take (Z.to_nat (key_data_ver k)) (key_data_slots k)).

Fixpoint all_slots (l : list krb5_key_data) : outcome error_code (list (list key_slot)) :=
  match l with
  | [] => Ok []
  | k :: l => let* s := slots_of k in let* r := all_slots l in Ok (s :: r)
  end.

Definition key_increments (slots : list key_slot) : list Z := 4 :: (slots ≫= fun s => [ks_length s; 4]).

Definition krb5_kdb_encode_base (e : krb5_db_entry_new) : list octet :=
  krb5_kdb_encode_int16 (dbe_len e) ++ krb5_kdb_encode_int32 (dbe_attributes e) ++ krb5_kdb_encode_int32 (dbe_max_life e) ++
  krb5_kdb_encode_int32 (dbe_max_renewable_life e) ++ krb5_kdb_encode_int32 (dbe_expiration e) ++
  krb5_kdb_encode_int32 (dbe_pw_expiration e) ++ krb5_kdb_encode_int32 (dbe_last_success e) ++
  krb5_kdb_encode_int32 (dbe_last_failed e) ++ krb5_kdb_encode_int32 (dbe_fail_auth_count e) ++
  krb5_kdb_encode_int16 (dbe_n_tl_data e) ++ krb5_kdb_encode_int16 (dbe_n_key_data e).

Fixpoint put_tl_data (data : list octet) (nextloc : Z) (l : list krb5_tl_data) : outcome error_code (list octet * Z) :=
  match l with
  | [] => Ok (data, nextloc)
  | t :: l =>
      let* '(data, nextloc) := puts data nextloc (krb5_kdb_encode_int16 (tl_data_type t) ++ krb5_kdb_encode_int16 (tl_data_length t)) in
      let* c := read_mem (tl_data_length t) (tl_data_contents t) in
      let* '(data, nextloc) := puts data nextloc c in
      put_tl_data data nextloc l
  end.

Fixpoint put_slots (data : list octet) (nextloc : Z) (l : list key_slot) : outcome error_code (list octet * Z) :=
  match l with
  | [] => Ok (data, nextloc)
  | s :: l =>
      let* '(data, nextloc) := puts data nextloc (krb5_kdb_encode_int16 (ks_type s) ++ krb5_kdb_encode_int16 (ks_length s)) in
      let* c := (if ks_length s =? 0 then Ok [] else deref (ks_length s) (ks_contents s)) in
      let* '(data, nextloc) := puts data nextloc c in
      put_slots data nextloc l
  end.

Fixpoint put_key_data (data : list octet) (nextloc : Z) (l : list krb5_key_data) : outcome error_code (list octet * Z) :=
  match l with
  | [] => Ok (data, nextloc)
  | k :: l =>
      let* '(data, nextloc) := puts data nextloc (krb5_kdb_encode_int16 (key_data_ver k) ++ krb5_kdb_encode_int16 (key_data_kvno k)) in
      let* slots := slots_of k in
      let* '(data, nextloc) := put_slots data nextloc slots in
      put_key_data data nextloc l
  end.

Definition krb5_encode_princ_contents (entry : krb5_db_entry_new) : outcome error_code krb5_data :=
  match dbe_princ entry with
  | None => Undefined
  | Some princ =>
      let* unparse_princ := krb5_unparse_name princ in
      let unparse_princ_size := strlen unparse_princ + 1 in
      let* length := sum_int (dbe_len entry + dbe_e_length entry)
                       (unparse_princ_size :: 2 :: (dbe_tl_data entry ≫= fun t => [tl_data_length t; 4])) in
      let* _ := guard (zlen (dbe_tl_data entry) =? dbe_n_tl_data entry) KRB5_KDB_TRUNCATED_RECORD in
      let* keys := key_data_of entry (dbe_n_key_data entry) in
      let* slots := all_slots keys in
      let* length := sum_int length (slots ≫= key_increments) in
      match malloc length with
      | None => Err ENOMEM
      | Some data =>
          let* '(data, nextloc) := puts data 0 (krb5_kdb_encode_base entry) in
          if negb (dbe_len entry =? KRB5_KDB_V1_BASE_LENGTH) then Undefined
          else
            let* e_data := (if dbe_e_length entry =? 0 then Ok [] else read_mem (dbe_e_length entry) (dbe_e_data entry)) in
            let* '(data, nextloc) := puts data nextloc e_data in
            let* '(data, nextloc) := puts data nextloc (krb5_kdb_encode_int16 (to_int 16 unparse_princ_size)) in
            let* '(data, nextloc) := puts data nextloc (take (Z.to_nat unparse_princ_size) unparse_princ) in
            let* '(data, nextloc) := put_tl_data data nextloc (dbe_tl_data entry) in
            let* '(data, nextloc) := put_key_data data nextloc keys in
            Ok (Data length (Some data))
      end
  end.

(** ** Decoding *)

(** if ((sizeleft -= n) < 0) *)
Definition charge (n : Z) : rproc unit := fun st =>
  let sizeleft := rd_sizeleft st - n in
  if negb (bool_decide (is_int 32 sizeleft)) then (Undefined, st)
  else (if sizeleft <? 0 then Err KRB5_KDB_TRUNCATED_RECORD else Ok tt, Reader (rd_nextloc st) sizeleft (rd_default_realm st)).

(** The octets at nextloc, which moves behind them. *)
Definition fetch (n : Z) : rproc (list octet) := fun st =>
  if (n <? 0) || (zlen (rd_nextloc st) <? n) then (Undefined, st)
  else (Ok (take (Z.to_nat n) (rd_nextloc st)), Reader (drop (Z.to_nat n) (rd_nextloc st)) (rd_sizeleft st) (rd_default_realm st)).

Definition alloc (n : Z) : rproc unit := sret (match malloc n with Some _ => Ok tt | None => Err ENOMEM end).

Definition decode_int16 : rproc Z := do! l := fetch 2 in sret (Ok (krb5_kdb_decode_int16 l)).
Definition decode_int32 : rproc Z := do! l := fetch 4 in sret (Ok (krb5_kdb_decode_int32 l)).
(** A [krb5_kvno], which is unsigned *)
Definition decode_uint32 : rproc Z := do! n := decode_int32 in sret (Ok (uint32 n)).

Definition refuse_negative (n : Z) : rproc unit := sret (guard (0 <=? n) KRB5_KDB_TRUNCATED_RECORD).

Definition decode_e_data (len : Z) : rproc (Z * option (list octet)) :=
  if KRB5_KDB_V1_BASE_LENGTH <? len then
    let e_length := len - KRB5_KDB_V1_BASE_LENGTH in
    do! _ := alloc e_length in
    do! e_data := fetch e_length in
    sret (Ok (e_length, Some e_data))
  else sret (Ok (0, None)).

(** The name is parsed where it stands, before its length is looked at. *)
Definition decode_princ (get_default_realm : outcome error_code (list octet)) : rproc krb5_principal_data :=
  do! _ := charge 2 in
  do! i := decode_int16 in
  do! princ := (fun st => let '(r, dr) := krb5_parse_name get_default_realm (rd_default_realm st) (rd_nextloc st) in
                          (r, Reader (rd_nextloc st) (rd_sizeleft st) dr)) in
  do! _ := (fun st => (guard ((i =? strlen (rd_nextloc st) + 1) && (i <=? rd_sizeleft st)) KRB5_KDB_TRUNCATED_RECORD, st)) in
  do! _ := charge i in
  do! _ := fetch i in
  sret (Ok princ).

Definition decode_tl_data : rproc krb5_tl_data :=
  do! _ := charge 4 in
  do! _ := alloc sizeof_krb5_tl_data in
  do! type := decode_int16 in
  do! length := decode_int16 in
  do! _ := charge length in
  do! _ := alloc length in
  do! contents := fetch length in
  sret (Ok (TlData type length (Some contents))).

Fixpoint decode_all_tl_data (n : nat) : rproc (list krb5_tl_data) :=
  match n with
  | O => sret (Ok [])
  | S n => do! t := decode_tl_data in do! rest := decode_all_tl_data n in sret (Ok (t :: rest))
  end.

Definition decode_slot : rproc key_slot :=
  do! _ := charge 4 in
  do! type := decode_int16 in
  do! length := decode_int16 in
  do! _ := charge length in
  if length =? 0 then sret (Ok (Slot type length Null))
  else
    do! _ := alloc length in
    do! contents := fetch length in
    sret (Ok (Slot type length (Block contents))).

Fixpoint decode_slots (n : nat) : rproc (list key_slot) :=
  match n with
  | O => sret (Ok [])
  | S n => do! s := decode_slot in do! rest := decode_slots n in sret (Ok (s :: rest))
  end.

(** An element of the array, behind the first check of sizeleft. *)
Definition decode_key_data : rproc krb5_key_data :=
  do! ver := decode_int16 in
  do! kvno := decode_int16 in
  if ver <=? KRB5_KDB_V1_KEY_DATA_ARRAY then
    do! slots := decode_slots (Z.to_nat ver) in
    sret (Ok (KeyData ver kvno (slots ++ replicate (2 - length slots) zero_slot)))
  else sret Undefined.

(** On an error [krb5_dbe_free_contents] reads key_data_ver of every element of the array,
    also of those that are not [filled]. *)
Definition error_out {A} (filled : bool) (m : rproc A) : rproc A := fun st =>
  match m st with
  | (Err e, st) => (if filled then Err e else Undefined, st)
  | r => r
  end.

Fixpoint decode_all_key_data (n : nat) : rproc (list krb5_key_data) :=
  match n with
  | O => sret (Ok [])
  | S n =>
      do! _ := error_out false (charge 4) in
      do! k := error_out (n =? 0)%nat decode_key_data in
      do! rest := decode_all_key_data n in
      sret (Ok (k :: rest))
  end.

Definition decode_entry (get_default_realm : outcome error_code (list octet)) : rproc krb5_db_entry_new :=
  do! _ := charge KRB5_KDB_V1_BASE_LENGTH in
  do! len := decode_int16 in
  do! attributes := decode_int32 in
  do! max_life := decode_int32 in
  do! max_renewable_life := decode_int32 in
  do! expiration := decode_int32 in
  do! pw_expiration := decode_int32 in
  do! last_success := decode_int32 in
  do! last_failed := decode_int32 in
  do! fail_auth_count := decode_uint32 in
  do! n_tl_data := decode_int16 in
  do! _ := refuse_negative n_tl_data in
  do! n_key_data := decode_int16 in
  do! _ := refuse_negative n_key_data in
  do! e := decode_e_data len in
  do! princ := decode_princ get_default_realm in
  do! tl_data := decode_all_tl_data (Z.to_nat n_tl_data) in
  do! _ := (if n_key_data =? 0 then sret (Ok tt) else alloc (sizeof_krb5_key_data * n_key_data)) in
  do! key_data := decode_all_key_data (Z.to_nat n_key_data) in
  sret (Ok (DbEntryNew len attributes max_life max_renewable_life expiration pw_expiration last_success last_failed
              fail_auth_count n_tl_data n_key_data e.1 e.2 (Some princ) tl_data
              (if n_key_data =? 0 then None else Some key_data))).

Definition krb5_decode_princ_contents (get_default_realm : outcome error_code (list octet))
    (default_realm : option (list octet)) (content : krb5_data) : outcome error_code krb5_db_entry_new * option (list octet) :=
  match d_data content with
  | None => (if d_length content <? KRB5_KDB_V1_BASE_LENGTH then Err KRB5_KDB_TRUNCATED_RECORD else Undefined, default_realm)
  | Some data =>
      let '(r, st) := decode_entry get_default_realm (Reader data (d_length content) default_realm) in
      (r, rd_default_realm st)
  end.

(** ** Freeing an entry *)

Definition zero_entry : krb5_db_entry_new := DbEntryNew 0 0 0 0 0 0 0 0 0 0 0 0 None None [] None.

(** memset and free of what a slot points to *)
Definition free_contents_slot (s : key_slot) : outcome error_code unit :=
  if ks_length s =? 0 then Ok tt
  else match ks_contents s with
       | Null => Ok tt
       | Block l => if (0 <=? ks_length s) && (ks_length s <=? zlen l) then Ok tt else Undefined
       | Freed => Undefined
       end.

Fixpoint free_contents_slots (l : list key_slot) : outcome error_code unit :=
  match l with
  | [] => Ok tt
  | s :: l => let* _ := free_contents_slot s in free_contents_slots l
  end.

Fixpoint free_key_data (l : list krb5_key_data) : outcome error_code unit :=
  match l with
  | [] => Ok tt
  | k :: l => let* slots := slots_of k in let* _ := free_contents_slots slots in free_key_data l
  end.

(** The entry is zero afterwards. *)
Definition krb5_dbe_free_contents : eproc unit := fun e =>
  match (let* keys := (match dbe_key_data e with Some _ => key_data_of e (dbe_n_key_data e) | None => Ok [] end) in free_key_data keys) with
  | Ok _ => (Ok tt, zero_entry)
  | _ => (Undefined, e)
  end.

End kdb.

(** ** Searching for a key *)

Section search.
Context `{St : Stack}.

(** The salt type of a key: key_data_type[1], or the normal one. *)
Definition db_stype (k : krb5_key_data) : outcome error_code Z :=
  if 1 <? key_data_ver k then match key_data_slots k !! 1%nat with Some s => Ok (ks_type s) | None => Undefined end
  else Ok KRB5_KDB_SALTTYPE_NORMAL.

(** Whether the encryption type and the salt type of a key are as asked for. *)
Definition key_suits (ktype stype : Z) (k : krb5_key_data) : outcome error_code bool :=
  let* db_stype := db_stype k in
  let* similar :=
    (if 0 <=? ktype then
       match key_data_slots k !! 0%nat with
       | Some s => krb5_c_enctype_compare ktype (ks_type s)
       | None => Undefined
       end
     else Ok true) in
  Ok (similar && ((db_stype =? stype) || (stype <? 0))).

(** The loop from element [i] on, with datap, index and maxkvno in [best]. *)
Fixpoint search_loop (ktype stype kvno : Z) (i : Z) (l : list krb5_key_data) (best : option (krb5_key_data * Z)) (maxkvno : Z)
    : outcome error_code (option (krb5_key_data * Z) * Z) :=
  match l with
  | [] => Ok (best, maxkvno)
  | k :: l =>
      let* suits := key_suits ktype stype k in
      if suits then
        if 0 <=? kvno then
          if kvno =? key_data_kvno k then Ok (Some (k, i), kvno)
          else search_loop ktype stype kvno (i + 1) l best maxkvno
        else if maxkvno <? key_data_kvno k then search_loop ktype stype kvno (i + 1) l (Some (k, i)) (key_data_kvno k)
        else search_loop ktype stype kvno (i + 1) l best maxkvno
      else search_loop ktype stype kvno (i + 1) l best maxkvno
  end.

(** The greatest version of all keys, in place of 0. *)
Definition max_kvno (l : list krb5_key_data) : Z := foldl (fun a k => if a <? key_data_kvno k then key_data_kvno k else a) 0 l.

(** *kdatap and *start. *)
Definition krb5_dbe_search_enctype (dbentp : krb5_db_entry_new) (start ktype stype kvno : Z)
    : outcome error_code (krb5_key_data * Z) :=
  let n := dbe_n_key_data dbentp in
  let kvno := if (kvno =? -1) && (stype =? -1) && (ktype =? -1) then 0 else kvno in
  let* kvno := (if kvno =? 0 then let* keys := key_data_of dbentp n in Ok (max_kvno keys) else Ok kvno) in
  let* rest := (if start <? n then if start <? 0 then Undefined
                                   else let* keys := key_data_of dbentp n in Ok (drop (Z.to_nat start) keys)
                else Ok []) in
  let* '(best, maxkvno) := search_loop ktype stype kvno start rest None (-1) in
  if maxkvno <? 0 then Err ENOENT
  else match best with Some (k, index) => Ok (k, index + 1) | None => Undefined end.

Definition krb5_dbe_find_enctype (dbentp : krb5_db_entry_new) (ktype stype kvno : Z) : outcome error_code krb5_key_data :=
  let* '(k, _) := krb5_dbe_search_enctype dbentp 0 ktype stype kvno in Ok k.

End search.

(** * Keys in the principal database (src/src/lib/kdb/encrypt_key.c, decrypt_key.c)

    A key is stored under the master key, in front of it its length, as the older
    encryption types do not keep it; the salt of its password is stored beside it.  A
    structure that a function fills is the state of a computation, and a block that it
    frees stays visible through the pointers that are not reset. *)

(** krb5_keysalt *)
Record krb5_keysalt : Type := KeySalt { salt_type : Z; salt_data : krb5_data }.

(** free(contents[i]), if it is not NULL *)
Definition free_slot (s : key_slot) : outcome error_code key_slot :=
  match ks_contents s with
  | Null => Ok s
  | Block _ => Ok (Slot (ks_type s) (ks_length s) Freed)
  | Freed => Undefined
  end.

Fixpoint free_slots (n : nat) (l : list key_slot) : outcome error_code (list key_slot) :=
  match n, l with
  | O, _ => Ok l
  | S _, [] => Undefined
  | S n, s :: l => let* s := free_slot s in let* l := free_slots n l in Ok (s :: l)
  end.

Section keys.
Context `{P : Platform} `{St : Stack}.

(** What the encryption of a key changes. *)
Record key_store : Type := KeyStore { st_key : krb5_key_data; st_random : prng }.
Definition set_slot (i : nat) (s : key_slot) (k : krb5_key_data) : krb5_key_data :=
  KeyData (key_data_ver k) (key_data_kvno k) (<[i := s]> (key_data_slots k)).
Definition slot_at (i : nat) (k : krb5_key_data) : key_slot := nth i (key_data_slots k) zero_slot.
Definition update_key (f : krb5_key_data -> krb5_key_data) : sproc key_store error_code unit := fun st =>
  (Ok tt, KeyStore (f (st_key st)) (st_random st)).
Definition freed (s : key_slot) : key_slot := Slot (ks_type s) (ks_length s) Freed.

(** The first element of the arrays: the length of the key and the ciphertext. *)
Definition store_key (mkey : keyblock) (dbkey : krb5_keyblock) : sproc key_store error_code unit := fun st =>
  match krb5_c_encrypt_length (key_enctype mkey) (kb_length dbkey) with
  | Ok len =>
      match malloc (2 + len) with
      | None => (Err ENOMEM, st)
      | Some b =>
          let ptr := krb5_kdb_encode_int16 (kb_length dbkey) in
          let slot c := Slot (to_int 16 (kb_enctype dbkey)) (to_int 16 (2 + len)) (Block (ptr ++ c ++ drop (2 + length c) b)) in
          match contents (Data (kb_length dbkey) (kb_contents dbkey)) with
          | Ok plain =>
              let '(r, rnd) := krb5_c_encrypt (st_random st) mkey 0 None plain len in
              match r with
              | Ok ((_, cipher), _) => (Ok tt, KeyStore (set_slot 0 (slot cipher) (st_key st)) rnd)
              | Err e => (Err e, KeyStore (set_slot 0 (freed (slot [])) (st_key st)) rnd)
              | Undefined => (Undefined, st)
              | OutOfFuel => (OutOfFuel, st)
              end
          | _ => (Undefined, st)
          end
      end
  | Err e => (Err e, st)
  | Undefined => (Undefined, st)
  | OutOfFuel => (OutOfFuel, st)
  end.

(** The second element: the salt.  A salt of no octets leaves the pointer as it is. *)
Definition store_salt (keysalt : option krb5_keysalt) : sproc key_store error_code unit :=
  match keysalt with
  | None => sret (Ok tt)
  | Some salt =>
      if 0 <? salt_type salt then
        let length := to_int 16 (d_length (salt_data salt)) in
        do! _ := update_key (fun k => KeyData (to_int 16 (key_data_ver k + 1)) (key_data_kvno k) (key_data_slots k)) in
        do! _ := update_key (fun k => set_slot 1 (Slot (salt_type salt) length (ks_contents (slot_at 1 k))) k) in
        if length =? 0 then sret (Ok tt)
        else
          match malloc (d_length (salt_data salt)) with
          | None =>
              do! _ := update_key (fun k => set_slot 1 (Slot (salt_type salt) length Null) (set_slot 0 (freed (slot_at 0 k)) k)) in
              sret (Err ENOMEM)
          | Some _ =>
              do! c := sret (read_mem (d_length (salt_data salt)) (d_data (salt_data salt))) in
              update_key (set_slot 1 (Slot (salt_type salt) length (Block c)))
          end
      else sret (Ok tt)
  end.

Definition krb5_dbekd_encrypt_key_data (mkey : keyblock) (dbkey : krb5_keyblock) (keysalt : option krb5_keysalt) (keyver : Z)
    : sproc key_store error_code unit :=
  do! slots := (fun st => (free_slots (Z.to_nat (key_data_ver (st_key st))) (key_data_slots (st_key st)), st)) in
  do! _ := update_key (fun _ => KeyData 1 (to_int 16 keyver) slots) in
  do! _ := store_key mkey dbkey in
  store_salt keysalt.

(** The key; [None] when the element has no contents and *dbkey is left as it was. *)
Definition load_key (mkey : keyblock) (k : krb5_key_data) : outcome error_code (option krb5_keyblock) :=
  let s := slot_at 0 k in
  match ks_contents s with
  | Null => Ok None
  | Freed => Undefined
  | Block b =>
      let* l := read_mem 2 (Some b) in
      let tmplen := krb5_kdb_decode_int16 l in
      match malloc (ks_length s - 2) with
      | None => Err ENOMEM
      | Some plain =>
          let* cipher := read_mem (ks_length s - 2) (Some (drop 2 b)) in
          let* '(p, _) := krb5_c_decrypt mkey 0 None (ENCTYPE_UNKNOWN, cipher) (ks_length s - 2) in
          if zlen p <? tmplen then Err KRB5_CRYPTO_INTERNAL
          else Ok (Some (Keyblock (ks_type s) tmplen (Some (p ++ drop (length p) plain))))
      end
  end.

Definition load_salt (k : krb5_key_data) : outcome error_code krb5_keysalt :=
  if key_data_ver k =? 2 then
    let s := slot_at 1 k in
    if ks_length s =? 0 then Ok (KeySalt (ks_type s) (Data 0 None))
    else match malloc (ks_length s) with
         | None => Err ENOMEM
         | Some _ => let* c := deref (ks_length s) (ks_contents s) in Ok (KeySalt (ks_type s) (Data (ks_length s) (Some c)))
         end
  else Ok (KeySalt KRB5_KDB_SALTTYPE_NORMAL (Data 0 None)).

(** The salt is asked for or not. *)
Definition krb5_dbekd_decrypt_key_data (mkey : keyblock) (k : krb5_key_data) (keysalt : bool)
    : outcome error_code (option krb5_keyblock * option krb5_keysalt) :=
  let* dbkey := load_key mkey k in
  if keysalt then let* s := load_salt k in Ok (dbkey, Some s) else Ok (dbkey, None).

End keys.
