(* ===== verification/KdbXdrProofs.v ===== *)
(** * The records of the principal database keep the entries (Kdb.v)

    A well-formed entry is stored as the octets [entry_octets] says, and read back from
    them; the typed data of an entry are a finite map, also across the database; and the
    search finds the key that it says. *)

From stdpp Require Import gmap.
From S2P Require Import Prelude Asn1Buf Krb5Types Words PrincName PrincNameProofs Crypto CryptoApi Kdb.

(** ** Numbers *)

Lemma kdb_int16 n : is_int 16 n -> krb5_kdb_decode_int16 (krb5_kdb_encode_int16 n) = n.
Proof.
  intros H. unfold krb5_kdb_decode_int16, krb5_kdb_encode_int16.
  rewrite Z.lor_comm, Z.shiftl_mul_pow2, (lor_add _ _ 8), !land_255, shiftr_8 by (rewrite ?land_255; unfold is_uint; try divlia).
  rewrite <- (to_int_mod 16 n) at 3 by (done || lia). f_equal. change (2 ^ 8) with 256. change (2 ^ 16) with (256 * 256).
  rewrite Z.rem_mul_r by lia. lia.
Qed.

Lemma kdb_int32 n : is_int 32 n -> krb5_kdb_decode_int32 (krb5_kdb_encode_int32 n) = n.
Proof. intros H. unfold krb5_kdb_decode_int32, krb5_kdb_encode_int32, le32. rewrite le32_joined. by apply to_int_mod. Qed.

Lemma kdb_uint32 n : is_uint 32 n -> uint32 (krb5_kdb_decode_int32 (krb5_kdb_encode_int32 n)) = n.
Proof.
  intros H. unfold krb5_kdb_decode_int32, krb5_kdb_encode_int32, le32. rewrite le32_joined. unfold is_uint in H.
  rewrite (Z.mod_small n) by lia. unfold to_uint, to_int. change (2 ^ (32 - 1)) with 2147483648.
  destruct (Z.ltb_spec n 2147483648).
  - rewrite (Z.mod_small (n + 2147483648)) by lia. replace (n + 2147483648 - 2147483648) with n by lia. by rewrite Z.mod_small.
  - replace (n + 2147483648) with ((n - 2147483648) + 1 * 2 ^ 32) by lia. rewrite Z_mod_plus_full, (Z.mod_small (n - 2147483648)) by lia.
    replace (n - 2147483648 - 2147483648) with (n + (-1) * 2 ^ 32) by lia. rewrite Z_mod_plus_full. by rewrite Z.mod_small by lia.
Qed.

Lemma to_nat_zlen {A} (l : list A) : Z.to_nat (zlen l) = length l.
Proof. unfold zlen. lia. Qed.

Lemma encode_int16_length n : zlen (krb5_kdb_encode_int16 n) = 2.
Proof. done. Qed.
Lemma encode_int32_length n : zlen (krb5_kdb_encode_int32 n) = 4.
Proof. done. Qed.
#[local] Hint Rewrite encode_int16_length encode_int32_length : krb.

Lemma read_mem_ok l t : read_mem (zlen l) (Some (l ++ t)) = Ok l.
Proof.
  unfold read_mem. pose proof (zlen_nonneg l). destruct (Z.ltb_spec (zlen l) 0); [lia|].
  apply contents_ok. split; [done|]. by exists t.
Qed.
Lemma read_mem_all l : read_mem (zlen l) (Some l) = Ok l.
Proof. rewrite <- (app_nil_r l) at 2. apply read_mem_ok. Qed.

(** ** Entries and their octets *)

Definition tl_octets (t : krb5_tl_data) : list octet :=
  krb5_kdb_encode_int16 (tl_data_type t) ++ krb5_kdb_encode_int16 (tl_data_length t) ++ default [] (tl_data_contents t).
Definition slot_contents (s : key_slot) : list octet := match ks_contents s with Block l => l | _ => [] end.
Definition kslot_octets (s : key_slot) : list octet :=
  krb5_kdb_encode_int16 (ks_type s) ++ krb5_kdb_encode_int16 (ks_length s) ++ slot_contents s.
(** The elements of the arrays that are used. *)
Definition live_slots (k : krb5_key_data) : list key_slot := take (Z.to_nat (key_data_ver k)) (key_data_slots k).
Definition key_octets (k : krb5_key_data) : list octet :=
  krb5_kdb_encode_int16 (key_data_ver k) ++ krb5_kdb_encode_int16 (key_data_kvno k) ++ concat (kslot_octets <$> live_slots k).

Definition entry_keys (e : krb5_db_entry_new) : list krb5_key_data := default [] (dbe_key_data e).
Definition entry_octets (e : krb5_db_entry_new) (name : list octet) : list octet :=
  krb5_kdb_encode_base e ++ krb5_kdb_encode_int16 (zlen name + 1) ++ (name ++ [0]) ++
  concat (tl_octets <$> dbe_tl_data e) ++ concat (key_octets <$> entry_keys e).

Record wf_tl (t : krb5_tl_data) : Prop := WfTl {
  wf_tl_type : is_int 16 (tl_data_type t);
  wf_tl_contents : exists c, tl_data_contents t = Some c /\ tl_data_length t = zlen c /\ zlen c < 2 ^ 15
}.
Definition wf_kslot (s : key_slot) : Prop :=
  is_int 16 (ks_type s) /\
  match ks_contents s with
  | Null => ks_length s = 0
  | Block l => ks_length s = zlen l /\ 0 < zlen l < 2 ^ 15
  | Freed => False
  end.
(** Slots that are not used are zero. *)
Record wf_key (k : krb5_key_data) : Prop := WfKey {
  wf_key_ver : 0 <= key_data_ver k <= 2;
  wf_key_kvno : is_int 16 (key_data_kvno k);
  wf_key_arrays : length (key_data_slots k) = 2%nat;
  wf_key_slots : Forall wf_kslot (live_slots k);
  wf_key_rest : key_data_slots k = live_slots k ++ replicate (2 - Z.to_nat (key_data_ver k)) zero_slot
}.
Record wf_entry (e : krb5_db_entry_new) (name : list octet) : Prop := WfEntry {
  wf_len : dbe_len e = KRB5_KDB_V1_BASE_LENGTH;
  wf_ints : Forall (is_int 32) [dbe_attributes e; dbe_max_life e; dbe_max_renewable_life e; dbe_expiration e;
                                dbe_pw_expiration e; dbe_last_success e; dbe_last_failed e];
  wf_fail : is_uint 32 (dbe_fail_auth_count e);
  wf_extra : dbe_e_length e = 0 /\ dbe_e_data e = None;
  wf_n_tl : dbe_n_tl_data e = zlen (dbe_tl_data e) /\ zlen (dbe_tl_data e) < 2 ^ 15;
  wf_tls : Forall wf_tl (dbe_tl_data e);
  wf_n_key : dbe_n_key_data e = zlen (entry_keys e) /\ zlen (entry_keys e) < 2 ^ 15;
  wf_keys : Forall wf_key (entry_keys e);
  wf_null : dbe_key_data e = if dbe_n_key_data e =? 0 then None else Some (entry_keys e);
  wf_name : exists p realm c0 cs, dbe_princ e = Some p /\ princ_holds p realm (c0 :: cs) /\ realm <> [] /\
            name = name_string realm c0 cs;
  wf_name_length : zlen name + 1 < 2 ^ 15
}.

(** The octets and the structures can be allocated. *)
Definition entry_memory `{P : Platform} (e : krb5_db_entry_new) (name : list octet) : Prop :=
  zlen (entry_octets e name) < 2 ^ 31 /\ zlen (entry_octets e name) <= malloc_limit /\
  32 * zlen (entry_keys e) <= malloc_limit /\ name_memory (zlen name).

Lemma base_length e : zlen (krb5_kdb_encode_base e) = 38.
Proof. done. Qed.

Lemma live_length k : wf_key k -> zlen (live_slots k) = key_data_ver k.
Proof. intros [Hv _ Hl _ _]. unfold live_slots, zlen. rewrite length_take. lia. Qed.

Lemma slots_of_ok k : wf_key k -> slots_of k = Ok (live_slots k).
Proof.
  intros Hk. pose proof (live_length k Hk) as L. unfold slots_of. destruct (Z.ltb_spec (zlen (key_data_slots k)) (key_data_ver k)); [|done].
  unfold live_slots, zlen in *. rewrite length_take in L. lia.
Qed.

Lemma key_data_of_ok e name : wf_entry e name -> key_data_of e (dbe_n_key_data e) = Ok (entry_keys e).
Proof.
  intros []. unfold key_data_of. rewrite wf_null0. destruct wf_n_key0 as [-> _]. destruct (Z.leb_spec (zlen (entry_keys e)) 0).
  - rewrite (zlen_0_nil (entry_keys e)); [done|]. lens.
  - destruct (Z.eqb_spec (zlen (entry_keys e)) 0); [lia|]. rewrite Z.ltb_irrefl. unfold zlen. by rewrite Nat2Z.id, firstn_all.
Qed.

(** ** Writing *)

(** Wherever it starts in a block with room, [f] writes [s]. *)
Definition lays (f : list octet -> Z -> outcome error_code (list octet * Z)) (s : list octet) : Prop :=
  forall w jk, (length s <= length jk)%nat -> f (w ++ jk) (zlen w) = Ok ((w ++ s) ++ drop (length s) jk, zlen (w ++ s)).

Lemma lays_puts s : lays (fun d n => puts d n s) s.
Proof. intros w jk H. by apply puts_ok. Qed.

Lemma lays_seq f g s1 s2 : lays f s1 -> lays g s2 -> lays (fun d n => let* '(d, n) := f d n in g d n) (s1 ++ s2).
Proof.
  intros Hf Hg w jk H. rewrite length_app in H. cbv beta. rewrite Hf by lia. cbn [obind].
  rewrite Hg by (rewrite length_drop; lia). by rewrite drop_drop, length_app, <- !app_assoc.
Qed.

Lemma lays_nil : lays (fun d n => Ok (d, n)) [].
Proof. intros w jk _. by rewrite app_nil_r, drop_0. Qed.

Lemma lays_tl_data l : Forall wf_tl l -> lays (fun d n => put_tl_data d n l) (concat (tl_octets <$> l)).
Proof.
  induction 1 as [|t l [Ht (c & Ec & El & Hc)] _ IH]; [apply lays_nil|]. rewrite fmap_cons. cbn [concat put_tl_data].
  unfold tl_octets at 1. rewrite Ec, El, read_mem_all. cbn [default]. rewrite (app_assoc (krb5_kdb_encode_int16 _)), <- app_assoc.
  apply lays_seq; [apply lays_puts|]. cbn [obind]. apply (lays_seq _ _ c); [apply lays_puts|exact IH].
Qed.

Lemma slot_read s : wf_kslot s -> (if ks_length s =? 0 then Ok [] else deref (ks_length s) (ks_contents s)) = Ok (slot_contents s).
Proof.
  intros [_ H]. unfold slot_contents, deref. destruct (ks_contents s) as [|l|]; [by rewrite H| |done]. destruct H as [-> H].
  destruct (Z.eqb_spec (zlen l) 0); [lia|]. apply read_mem_all.
Qed.

Lemma lays_slots l : Forall wf_kslot l -> lays (fun d n => put_slots d n l) (concat (kslot_octets <$> l)).
Proof.
  induction 1 as [|s l Hs _ IH]; [apply lays_nil|]. rewrite fmap_cons. cbn [concat put_slots].
  unfold kslot_octets at 1. rewrite (slot_read s Hs), (app_assoc (krb5_kdb_encode_int16 _)), <- app_assoc.
  apply lays_seq; [apply lays_puts|]. cbn [obind]. apply (lays_seq _ _ (slot_contents s)); [apply lays_puts|exact IH].
Qed.

Lemma lays_key_data l : Forall wf_key l -> lays (fun d n => put_key_data d n l) (concat (key_octets <$> l)).
Proof.
  induction 1 as [|k l Hk _ IH]; [apply lays_nil|]. rewrite fmap_cons. cbn [concat put_key_data].
  unfold key_octets at 1. rewrite (slots_of_ok k Hk), (app_assoc (krb5_kdb_encode_int16 _)), <- app_assoc.
  apply lays_seq; [apply lays_puts|]. cbn [obind]. apply lays_seq; [apply lays_slots, Hk|exact IH].
Qed.

Lemma sum_int_ok l a : Forall (fun n => 0 <= n) l -> 0 <= a -> a + foldr Z.add 0 l < 2 ^ 31 -> sum_int a l = Ok (a + foldr Z.add 0 l).
Proof.
  intros H. revert a. induction H as [|n l Hn Hl IH]; intros a Ha Hs; cbn [sum_int foldr] in *; [by rewrite Z.add_0_r|].
  assert (0 <= foldr Z.add 0 l) by (clear - Hl; induction Hl; simpl; lia).
  rewrite bool_decide_eq_true_2 by (unfold is_int; lia). rewrite IH by lia. f_equal. lia.
Qed.

Lemma strlen_nul s t : no_nul s -> strlen (s ++ 0 :: t) = zlen s.
Proof.
  induction 1 as [|c s Hc _ IH]; [done|]. cbn [app strlen]. rewrite zlen_cons. destruct (Z.eqb_spec c 0); [done|]. lia.
Qed.

Lemma tl_increments l : Forall wf_tl l ->
  let inc := l ≫= fun t => [tl_data_length t; 4] in
  Forall (fun n => 0 <= n) inc /\ foldr Z.add 0 inc = zlen (concat (tl_octets <$> l)).
Proof.
  induction 1 as [|t l [_ (c & Ec & El & _)] _ [IH1 IH2]]; [done|]. rewrite bind_cons, fmap_cons. cbn [app foldr concat]. split.
  - repeat constructor; [rewrite El; lens|lia|done].
  - rewrite IH2. unfold tl_octets at 2. rewrite Ec, El. change (default [] (Some c)) with c. autorewrite with krb. lia.
Qed.

Lemma slot_octets_length s : wf_kslot s -> 0 <= ks_length s /\ zlen (kslot_octets s) = ks_length s + 4.
Proof.
  intros [_ H]. unfold kslot_octets, slot_contents. destruct (ks_contents s) as [|l|]; [rewrite H; done| |done]. destruct H as [-> H].
  autorewrite with krb. lia.
Qed.

Lemma key_increments_ok k : wf_key k ->
  let inc := key_increments (live_slots k) in Forall (fun n => 0 <= n) inc /\ foldr Z.add 0 inc = zlen (key_octets k).
Proof.
  intros [_ _ _ Hs _]. unfold key_increments, key_octets. cbn [foldr]. autorewrite with krb. split.
  - constructor; [lia|]. induction Hs as [|s l Hs _ IH]; [constructor|]. rewrite bind_cons. cbn [app].
    destruct (slot_octets_length s Hs). repeat constructor; [done|lia|done].
  - replace (zlen (concat (kslot_octets <$> live_slots k))) with (foldr Z.add 0 (live_slots k ≫= fun s => [ks_length s; 4])); [lia|].
    induction Hs as [|s l Hs _ IH]; [done|]. rewrite bind_cons, fmap_cons. cbn [app foldr concat]. rewrite IH, zlen_app.
    destruct (slot_octets_length s Hs). lia.
Qed.

Lemma foldr_add_app l k : foldr Z.add 0 (l ++ k) = foldr Z.add 0 l + foldr Z.add 0 k.
Proof. induction l; simpl; lia. Qed.

Lemma keys_increments l : Forall wf_key l ->
  let inc := (live_slots <$> l) ≫= key_increments in
  all_slots l = Ok (live_slots <$> l) /\ Forall (fun n => 0 <= n) inc /\ foldr Z.add 0 inc = zlen (concat (key_octets <$> l)).
Proof.
  induction 1 as [|k l Hk _ (IH0 & IH1 & IH2)]; [done|]. rewrite !fmap_cons, bind_cons. cbn [all_slots concat].
  destruct (key_increments_ok k Hk) as [K1 K2]. rewrite (slots_of_ok k Hk), IH0. cbn [obind]. split; [done|].
  split; [by apply Forall_app|]. by rewrite foldr_add_app, IH2, K2, zlen_app.
Qed.

Lemma base_octets e : length (krb5_kdb_encode_base e) = 38%nat.
Proof. done. Qed.
Lemma int16_octets n : length (krb5_kdb_encode_int16 n) = 2%nat.
Proof. done. Qed.

(** A step of writing at the end of what is written. *)
Ltac lay_by L :=
  let H := fresh in pose proof L as H; cbv beta in H;
  rewrite H by (rewrite ?drop_drop, ?length_drop, ?length_app, ?base_octets, ?int16_octets; cbn [length]; lia);
  clear H; cbn [obind].
Ltac lay :=
  match goal with
  | |- context [puts (?w ++ ?jk) (zlen ?w) ?s] => lay_by (lays_puts s w jk)
  | H : Forall wf_tl ?l |- context [put_tl_data (?w ++ ?jk) (zlen ?w) ?l] => lay_by (lays_tl_data l H w jk)
  | H : Forall wf_key ?l |- context [put_key_data (?w ++ ?jk) (zlen ?w) ?l] => lay_by (lays_key_data l H w jk)
  end.

Section kdb.
Context `{P : Platform}.

Lemma encode_entry e name : wf_entry e name -> entry_memory e name ->
  krb5_encode_princ_contents e = Ok (Data (zlen (entry_octets e name)) (Some (entry_octets e name))).
Proof.
  intros He (H31 & Hm & _ & Hn). pose proof (key_data_of_ok e name He) as EK. destruct He. destruct wf_name0 as (p & realm & c0 & cs & Ep & Hp & Hr & ->).
  set (name := name_string realm c0 cs) in *. assert (NN : no_nul name) by apply name_string_no_nul.
  assert (Hnm : zlen name + 1 <= malloc_limit) by (unfold name_memory in Hn; lens).
  destruct wf_extra0 as [Ee _], wf_n_tl0 as [Et _]. destruct (tl_increments _ wf_tls0) as [T1 T2]. destruct (keys_increments _ wf_keys0) as (K0 & K1 & K2).
  assert (HL : zlen (entry_octets e name) = 38 + (zlen name + 1) + 2 + zlen (concat (tl_octets <$> dbe_tl_data e)) + zlen (concat (key_octets <$> entry_keys e))).
  { unfold entry_octets. autorewrite with krb. rewrite base_length. lia. }
  unfold krb5_encode_princ_contents. rewrite Ep, (unparse_ok _ _ _ _ Hp) by done. cbn [obind]. fold name. rewrite (strlen_nul _ [] NN), wf_len0, Ee.
  change (KRB5_KDB_V1_BASE_LENGTH + 0) with 38.
  rewrite sum_int_ok; [|repeat constructor; [lens|lia|done]|lia|cbn [foldr]; lens]. cbn [foldr obind]. rewrite T2, Et, Z.eqb_refl. cbn [guard obind].
  rewrite EK. cbn [obind]. rewrite K0. cbn [obind]. rewrite sum_int_ok; [|done|lens|lens]. cbn [obind]. rewrite K2.
  replace (38 + _ + _) with (zlen (entry_octets e name)) by lia.
  destruct (malloc_ok (zlen (entry_octets e name))) as (b & -> & Lb); [lens|].
  assert (LB : length b = length (entry_octets e name)) by (unfold zlen in Lb; lia).
  assert (HN : length (entry_octets e name) = (38 + 2 + (length name + 1) + length (concat (tl_octets <$> dbe_tl_data e)) + length (concat (key_octets <$> entry_keys e)))%nat)
    by (unfold zlen in HL; lia).
  rewrite HN in LB. change 0 with (zlen (@nil octet)) at 1. rewrite <- (app_nil_l b).
  lay. rewrite Z.eqb_refl. cbn [negb Z.eqb obind puts]. rewrite (to_int_id 16) by (unfold is_int; lens).
  replace (take _ (name ++ [0])) with (name ++ [0]) by (symmetry; apply take_ge; rewrite length_app; cbn [length]; unfold zlen; lia).
  do 4 lay. rewrite !drop_drop, drop_ge by (rewrite !length_app, base_octets, int16_octets; cbn [length]; lia).
  unfold entry_octets. by rewrite <- !app_assoc, !app_nil_r.
Qed.

(** ** Reading *)

(** [m] reads [l], takes [c] off sizeleft and returns [a]. *)
Definition kdb_reads {A} (m : rproc A) (l : list octet) (c : Z) (a : A) : Prop :=
  0 <= c /\ forall rest sizeleft dr, c <= sizeleft < 2 ^ 31 ->
  m (Reader (l ++ rest) sizeleft dr) = (Ok a, Reader rest (sizeleft - c) dr).

Lemma kdb_reads_ret {A} (a : A) : kdb_reads (sret (Ok a)) [] 0 a.
Proof. split; [done|]. intros rest n dr _. by rewrite Z.sub_0_r. Qed.

Lemma kdb_reads_bind {A B} (m : rproc A) (k : A -> rproc B) l1 c1 a l2 c2 b :
  kdb_reads m l1 c1 a -> kdb_reads (k a) l2 c2 b -> kdb_reads (sbind m k) (l1 ++ l2) (c1 + c2) b.
Proof.
  intros [H0 H1] [G0 G1]. split; [lia|]. intros rest n dr Hn. unfold sbind. rewrite <- app_assoc, H1, G1 by lia.
  do 2 f_equal. lia.
Qed.

(** The parts that read without a charge, charge without reading, or do neither. *)
Lemma kdb_reads_free {A B} (m : rproc A) (k : A -> rproc B) l1 a l2 c b :
  kdb_reads m l1 0 a -> kdb_reads (k a) l2 c b -> kdb_reads (sbind m k) (l1 ++ l2) c b.
Proof. apply kdb_reads_bind. Qed.
Lemma kdb_reads_none {A B} (m : rproc A) (k : A -> rproc B) a l c b :
  kdb_reads m [] 0 a -> kdb_reads (k a) l c b -> kdb_reads (sbind m k) l c b.
Proof. apply (kdb_reads_bind m k []). Qed.
Lemma kdb_reads_last {A B} (m : rproc A) (k : A -> rproc B) a l c b :
  kdb_reads m l c a -> kdb_reads (k a) [] 0 b -> kdb_reads (sbind m k) l c b.
Proof. intros H1 H2. pose proof (kdb_reads_bind _ _ _ _ _ _ _ _ H1 H2) as H. by rewrite app_nil_r, Z.add_0_r in H. Qed.

Lemma kdb_reads_charged n : 0 <= n -> kdb_reads (charge n) [] n tt.
Proof.
  intros H0. split; [done|]. intros rest sl dr Hs. unfold charge. cbn [rd_sizeleft rd_nextloc rd_default_realm app].
  rewrite bool_decide_eq_true_2 by (unfold is_int; lia). cbn [negb]. destruct (Z.ltb_spec (sl - n) 0); [lia|done].
Qed.
Lemma kdb_reads_charge {B} n (k : unit -> rproc B) l c b : 0 <= n ->
  kdb_reads (k tt) l (c - n) b -> kdb_reads (sbind (charge n) k) l c b.
Proof. intros H0 H. replace c with (n + (c - n)) by lia. apply (kdb_reads_bind _ _ [] n tt); [by apply kdb_reads_charged|done]. Qed.

Lemma kdb_reads_fetch l n : n = zlen l -> kdb_reads (fetch n) l 0 l.
Proof.
  intros ->. split; [done|]. intros rest sl dr _. unfold fetch. cbn [rd_sizeleft rd_nextloc rd_default_realm].
  rewrite zlen_app. destruct (Z.ltb_spec (zlen l) 0); [lens|]. destruct (Z.ltb_spec (zlen l + zlen rest) (zlen l)); [lens|].
  unfold zlen. by rewrite Nat2Z.id, take_app_length, drop_app_length, Z.sub_0_r.
Qed.

Lemma kdb_reads_alloc n : 0 <= n <= malloc_limit -> kdb_reads (alloc n) [] 0 tt.
Proof. intros H. unfold alloc. destruct (malloc_ok n H) as (b & -> & _). apply kdb_reads_ret. Qed.

Lemma kdb_reads_int16 n : is_int 16 n -> kdb_reads decode_int16 (krb5_kdb_encode_int16 n) 0 n.
Proof. intros H. rewrite <- (kdb_int16 n H) at 2. eapply kdb_reads_last; [by apply kdb_reads_fetch|apply kdb_reads_ret]. Qed.
Lemma kdb_reads_int32 n : is_int 32 n -> kdb_reads decode_int32 (krb5_kdb_encode_int32 n) 0 n.
Proof. intros H. rewrite <- (kdb_int32 n H) at 2. eapply kdb_reads_last; [by apply kdb_reads_fetch|apply kdb_reads_ret]. Qed.
Lemma kdb_reads_uint32 n : is_uint 32 n -> kdb_reads decode_uint32 (krb5_kdb_encode_int32 n) 0 n.
Proof.
  intros H. rewrite <- (kdb_uint32 n H) at 2. eapply kdb_reads_last; [|apply kdb_reads_ret].
  eapply kdb_reads_last; [by apply kdb_reads_fetch|apply kdb_reads_ret].
Qed.

Lemma is_int16_length n : 0 <= n < 2 ^ 15 -> is_int 16 n.
Proof. unfold is_int. lia. Qed.

(** Every platform has room for the small structures. *)
Lemma small_memory (name : list octet) : name_memory (zlen name) -> 56 <= malloc_limit.
Proof. unfold name_memory. lens. Qed.
Lemma sizeof_bounds : 12 <= sizeof_krb5_tl_data <= 24 /\ 20 <= sizeof_krb5_key_data <= 32.
Proof. unfold sizeof_krb5_tl_data, sizeof_krb5_key_data. destruct sizeof_long_ok as [-> | ->]; cbn; lia. Qed.

Lemma kdb_reads_tl t : wf_tl t -> zlen (tl_octets t) <= malloc_limit -> 56 <= malloc_limit ->
  kdb_reads decode_tl_data (tl_octets t) (zlen (tl_octets t)) t.
Proof.
  intros [Ht (c & Ec & El & Hc)] Hm H56. pose proof sizeof_bounds. destruct t as [type length contents].
  cbn [tl_data_type tl_data_length tl_data_contents] in *. subst length contents.
  unfold tl_octets in *. cbn [tl_data_type tl_data_length tl_data_contents] in *. change (default [] (Some c)) with c in *.
  autorewrite with krb in *. pose proof (zlen_nonneg c). apply kdb_reads_charge; [lia|].
  eapply kdb_reads_none; [apply kdb_reads_alloc; lia|]. eapply kdb_reads_free; [by apply kdb_reads_int16|].
  eapply kdb_reads_free; [apply kdb_reads_int16, is_int16_length; lia|]. apply kdb_reads_charge; [lia|].
  replace (2 + (2 + zlen c) - 4 - zlen c) with 0 by lia.
  eapply kdb_reads_none; [apply kdb_reads_alloc; lia|]. eapply kdb_reads_last; [by apply kdb_reads_fetch|apply kdb_reads_ret].
Qed.

(** A loop that reads the elements of a list. *)
Lemma kdb_reads_list {A} (m : rproc A) (loop : nat -> rproc (list A)) (octets_of : A -> list octet) (l : list A) :
  loop O = sret (Ok []) ->
  (forall n, loop (S n) = (do! x := m in do! r := loop n in sret (Ok (x :: r)))) ->
  Forall (fun x => kdb_reads m (octets_of x) (zlen (octets_of x)) x) l ->
  kdb_reads (loop (length l)) (concat (octets_of <$> l)) (zlen (concat (octets_of <$> l))) l.
Proof.
  intros H0 HS. induction 1 as [|x l Hx _ IH]; cbn [length]; [rewrite H0; apply kdb_reads_ret|]. rewrite HS, fmap_cons. cbn [concat]. rewrite zlen_app.
  eapply kdb_reads_bind; [exact Hx|]. eapply kdb_reads_last; [exact IH|apply kdb_reads_ret].
Qed.

Lemma kdb_reads_slot s : wf_kslot s -> zlen (kslot_octets s) <= malloc_limit -> kdb_reads decode_slot (kslot_octets s) (zlen (kslot_octets s)) s.
Proof.
  intros [Ht Hc] Hm. destruct s as [type length contents]. unfold kslot_octets, slot_contents in *. cbn [ks_type ks_length ks_contents] in *.
  assert (is_int 16 length /\ 0 <= length) as [HL HL0] by (destruct contents; [subst; done|unfold is_int; lia|done]).
  autorewrite with krb in *. apply kdb_reads_charge; [lia|]. eapply kdb_reads_free; [by apply kdb_reads_int16|].
  eapply kdb_reads_free; [by apply kdb_reads_int16|]. apply kdb_reads_charge; [lia|]. destruct contents as [|c|]; [| |done].
  - subst length. apply kdb_reads_ret.
  - destruct Hc as [-> Hc]. destruct (Z.eqb_spec (zlen c) 0); [lia|]. replace (2 + (2 + zlen c) - 4 - zlen c) with 0 by lia.
    eapply kdb_reads_none; [apply kdb_reads_alloc; lia|]. eapply kdb_reads_last; [by apply kdb_reads_fetch|apply kdb_reads_ret].
Qed.

Lemma kdb_reads_error_out {A} filled (m : rproc A) l c a : kdb_reads m l c a -> kdb_reads (error_out filled m) l c a.
Proof. intros [H0 H]. split; [done|]. intros rest n dr Hn. unfold error_out. by rewrite H. Qed.

Lemma in_concat {A} (f : A -> list octet) l x : In x l -> zlen (f x) <= zlen (concat (f <$> l)).
Proof. induction l as [|y l IH]; [done|]. intros [->|H]; rewrite fmap_cons; cbn [concat]; [lens|]. specialize (IH H). lens. Qed.

Lemma kdb_reads_key k : wf_key k -> zlen (key_octets k) <= malloc_limit ->
  kdb_reads decode_key_data (key_octets k) (zlen (key_octets k) - 4) k.
Proof.
  intros Hk Hm. pose proof (live_length k Hk) as L. destruct Hk as [Hv Hkv Ha Hs Hr]. unfold key_octets in *. autorewrite with krb in *.
  eapply kdb_reads_free; [apply kdb_reads_int16; unfold is_int; lia|]. eapply kdb_reads_free; [by apply kdb_reads_int16|].
  destruct (Z.leb_spec (key_data_ver k) KRB5_KDB_V1_KEY_DATA_ARRAY); [|unfold KRB5_KDB_V1_KEY_DATA_ARRAY in *; lia].
  set (sl := concat (kslot_octets <$> live_slots k)) in *. replace (2 + (2 + zlen sl) - 4) with (zlen sl) by lia.
  replace (Z.to_nat (key_data_ver k)) with (length (live_slots k)) by (unfold zlen in L; lia).
  eapply kdb_reads_last.
  - apply (kdb_reads_list decode_slot decode_slots kslot_octets); [done|done|]. apply Forall_forall. intros s Hin.
    apply kdb_reads_slot; [by eapply (proj1 (Forall_forall _ _) Hs)|]. pose proof (in_concat kslot_octets _ _ Hin). unfold sl in Hm. lia.
  - replace (length (live_slots k)) with (Z.to_nat (key_data_ver k)) by (unfold zlen in L; lia). rewrite <- Hr. destruct k. apply kdb_reads_ret.
Qed.

Lemma kdb_reads_keys l : Forall wf_key l -> zlen (concat (key_octets <$> l)) <= malloc_limit ->
  kdb_reads (decode_all_key_data (length l)) (concat (key_octets <$> l)) (zlen (concat (key_octets <$> l))) l.
Proof.
  induction 1 as [|k l Hk _ IH]; cbn [length decode_all_key_data]; [intros; apply kdb_reads_ret|]. rewrite fmap_cons. cbn [concat].
  rewrite zlen_app. pose proof (zlen_nonneg (concat (key_octets <$> l))). pose proof (zlen_nonneg (key_octets k)). intros Hm.
  assert (4 <= zlen (key_octets k)) by (unfold key_octets; lens).
  replace (zlen (key_octets k) + _) with (4 + ((zlen (key_octets k) - 4) + zlen (concat (key_octets <$> l)))) by lia.
  apply (kdb_reads_bind _ _ [] 4 tt (key_octets k ++ concat (key_octets <$> l))).
  - by apply kdb_reads_error_out, kdb_reads_charged.
  - eapply kdb_reads_bind; [apply kdb_reads_error_out, kdb_reads_key; [done|lia]|]. eapply kdb_reads_last; [apply IH; lia|apply kdb_reads_ret].
Qed.

Lemma kdb_reads_princ get realm c0 cs : let name := name_string realm c0 cs in
  realm <> [] -> name_memory (zlen name) -> zlen name + 1 < 2 ^ 15 ->
  kdb_reads (decode_princ get) (krb5_kdb_encode_int16 (zlen name + 1) ++ name ++ [0]) (zlen name + 3) (name_principal realm (c0 :: cs)).
Proof.
  intros name Hr Hm Hn. assert (NN : no_nul name) by apply name_string_no_nul. pose proof (zlen_nonneg name).
  assert (RN : read_name name = Some (c0, cs, Some realm)) by by apply read_name_string.
  apply kdb_reads_charge; [lia|]. eapply kdb_reads_free; [apply kdb_reads_int16, is_int16_length; lia|].
  split; [lia|]. intros rest n dr Hl. unfold sbind at 1. cbn [rd_nextloc rd_sizeleft rd_default_realm]. rewrite <- app_assoc. cbn [app].
  rewrite parse_name_eq; [|done|done|by rewrite RN]. rewrite RN.
  unfold sbind at 1. cbn [rd_nextloc rd_sizeleft rd_default_realm]. rewrite (strlen_nul _ _ NN), Z.eqb_refl.
  destruct (Z.leb_spec (zlen name + 1) n); [|lia]. cbn [andb guard].
  assert (R : kdb_reads (do! _ := charge (zlen name + 1) in do! _ := fetch (zlen name + 1) in sret (Ok (name_principal realm (c0 :: cs))))
                (name ++ [0]) (zlen name + 1) (name_principal realm (c0 :: cs))).
  { apply kdb_reads_charge; [lia|]. eapply kdb_reads_last; [replace (_ - _) with 0 by lia; apply kdb_reads_fetch; lens|apply kdb_reads_ret]. }
  destruct R as [_ R]. specialize (R rest n dr). rewrite <- app_assoc in R. cbn [app] in R. rewrite R by lia. do 2 f_equal. lia.
Qed.

Definition with_princ (e : krb5_db_entry_new) (p : krb5_principal_data) : krb5_db_entry_new :=
  DbEntryNew (dbe_len e) (dbe_attributes e) (dbe_max_life e) (dbe_max_renewable_life e) (dbe_expiration e)
    (dbe_pw_expiration e) (dbe_last_success e) (dbe_last_failed e) (dbe_fail_auth_count e)
    (dbe_n_tl_data e) (dbe_n_key_data e) (dbe_e_length e) (dbe_e_data e) (Some p) (dbe_tl_data e) (dbe_key_data e).

(** The principal in a block of its own. *)
Definition stored_name (e : krb5_db_entry_new) (p' : krb5_principal_data) : Prop :=
  exists p realm comps, dbe_princ e = Some p /\ princ_holds p realm comps /\ p' = name_principal realm comps.

Lemma stored_name_compare e p p' : dbe_princ e = Some p -> stored_name e p' -> krb5_principal_compare p p' = Ok true.
Proof.
  intros Ep (q & realm & comps & Eq & Hq & ->). rewrite Ep in Eq. injection Eq as <-.
  rewrite (principal_compare_ok _ _ _ _ _ _ Hq (princ_holds_name realm comps)). by rewrite bool_decide_eq_true_2.
Qed.

Lemma kdb_reads_entry e name get : wf_entry e name -> entry_memory e name ->
  exists p', stored_name e p' /\
  kdb_reads (decode_entry get) (entry_octets e name) (zlen (entry_octets e name)) (with_princ e p').
Proof.
  intros [] (H31 & Hm & Hk & Hn). destruct wf_name0 as (p & realm & c0 & cs & Ep & Hp & Hr & ->). set (name := name_string realm c0 cs) in *.
  exists (name_principal realm (c0 :: cs)). split; [by exists p, realm, (c0 :: cs)|].
  destruct wf_extra0 as [E1 E2], wf_n_tl0 as [T1 T2], wf_n_key0 as [K1 K2]. do 7 (apply Forall_cons_1 in wf_ints0 as [? wf_ints0]). clear wf_ints0.
  assert (HL : zlen (entry_octets e name) = 38 + ((zlen name + 3) + (zlen (concat (tl_octets <$> dbe_tl_data e)) + zlen (concat (key_octets <$> entry_keys e))))).
  { unfold entry_octets. autorewrite with krb. rewrite base_length. lia. }
  pose proof sizeof_bounds. pose proof (small_memory _ Hn). rewrite HL in *. unfold entry_octets, krb5_kdb_encode_base. rewrite <- !app_assoc.
  apply kdb_reads_charge; [done|]. replace (_ - KRB5_KDB_V1_BASE_LENGTH) with ((zlen name + 3) + (zlen (concat (tl_octets <$> dbe_tl_data e)) + zlen (concat (key_octets <$> entry_keys e)))) by (unfold KRB5_KDB_V1_BASE_LENGTH; lia).
  eapply kdb_reads_free; [apply kdb_reads_int16; by rewrite wf_len0|]. do 7 (eapply kdb_reads_free; [by apply kdb_reads_int32|]).
  eapply kdb_reads_free; [by apply kdb_reads_uint32|].
  eapply kdb_reads_free; [apply kdb_reads_int16, is_int16_length; lens|].
  eapply (kdb_reads_none _ _ tt); [unfold refuse_negative; destruct (Z.leb_spec 0 (dbe_n_tl_data e)); [apply kdb_reads_ret|lens]|].
  eapply kdb_reads_free; [apply kdb_reads_int16, is_int16_length; lens|].
  eapply (kdb_reads_none _ _ tt); [unfold refuse_negative; destruct (Z.leb_spec 0 (dbe_n_key_data e)); [apply kdb_reads_ret|lens]|].
  eapply (kdb_reads_none _ _ (0, None)); [rewrite wf_len0; apply kdb_reads_ret|].
  rewrite (app_assoc (krb5_kdb_encode_int16 _)). rewrite !app_assoc. rewrite <- (app_assoc (krb5_kdb_encode_int16 _) name), <- app_assoc.
  eapply kdb_reads_bind; [by apply kdb_reads_princ|]. rewrite T1. unfold zlen at 1. rewrite Nat2Z.id. eapply kdb_reads_bind.
  { apply (kdb_reads_list decode_tl_data decode_all_tl_data tl_octets); [done|done|]. apply Forall_forall. intros t Hin.
    pose proof (in_concat tl_octets _ _ Hin). apply kdb_reads_tl; [by eapply (proj1 (Forall_forall _ _) wf_tls0)| |done]. lens. }
  eapply (kdb_reads_none _ _ tt); [destruct (_ =? 0); [apply kdb_reads_ret|apply kdb_reads_alloc; rewrite K1; pose proof (zlen_nonneg (entry_keys e)); nia]|].
  rewrite K1. unfold zlen at 1. rewrite Nat2Z.id. eapply kdb_reads_last; [apply kdb_reads_keys; [done|lens]|].
  unfold with_princ. rewrite E1, E2, T1, wf_null0, K1. apply kdb_reads_ret.
Qed.

Lemma decode_encoded e name get dr : wf_entry e name -> entry_memory e name ->
  exists p', stored_name e p' /\
  krb5_decode_princ_contents get dr (Data (zlen (entry_octets e name)) (Some (entry_octets e name))) = (Ok (with_princ e p'), dr).
Proof.
  intros He Hm. destruct (kdb_reads_entry e name get He Hm) as (p' & Hp' & _ & R). exists p'. split; [done|].
  unfold krb5_decode_princ_contents. cbn [d_data d_length]. destruct Hm as [H31 _].
  specialize (R [] (zlen (entry_octets e name)) dr). rewrite app_nil_r in R. by rewrite R by lia.
Qed.

(** ** Typed data as a finite map *)

Definition tl_pair (t : krb5_tl_data) : Z * list octet := (tl_data_type t, default [] (tl_data_contents t)).
Definition tl_map (e : krb5_db_entry_new) : gmap Z (list octet) := list_to_map (tl_pair <$> dbe_tl_data e).
Definition distinct_tl (e : krb5_db_entry_new) : Prop := NoDup (tl_data_type <$> dbe_tl_data e).

Lemma tl_types l : (tl_pair <$> l).*1 = tl_data_type <$> l.
Proof. by rewrite <- list_fmap_compose. Qed.

Lemma has_tl_elem type l : has_tl type l = true <-> type ∈ tl_data_type <$> l.
Proof.
  unfold has_tl. induction l as [|t l IH]; cbn [existsb fmap list_fmap]; [split; [done|by intros ?%elem_of_nil]|].
  rewrite elem_of_cons, orb_true_iff, IH, Z.eqb_eq. intuition congruence.
Qed.

Lemma replace_tl_types new l : tl_data_type <$> replace_tl new l = tl_data_type <$> l.
Proof.
  induction l as [|t l IH]; [done|]. cbn [replace_tl]. destruct (Z.eqb_spec (tl_data_type t) (tl_data_type new)) as [E|]; rewrite !fmap_cons.
  - by rewrite E.
  - by rewrite IH.
Qed.

Lemma replace_tl_map new l : NoDup (tl_data_type <$> l) -> tl_data_type new ∈ tl_data_type <$> l ->
  (list_to_map (tl_pair <$> replace_tl new l) : gmap Z (list octet)) =
  <[tl_data_type new := default [] (tl_data_contents new)]> (list_to_map (tl_pair <$> l)).
Proof.
  induction l as [|t l IH]; intros ND Hin; [by apply elem_of_nil in Hin|]. rewrite fmap_cons in ND, Hin. apply list.NoDup_cons in ND as [N1 N2].
  assert (C : forall t l, (list_to_map (tl_pair <$> t :: l) : gmap Z (list octet)) =
                         <[tl_data_type t := default [] (tl_data_contents t)]> (list_to_map (tl_pair <$> l))) by done.
  cbn [replace_tl]. destruct (Z.eqb_spec (tl_data_type t) (tl_data_type new)) as [E|E]; rewrite !C.
  - rewrite E. by rewrite insert_insert_eq.
  - apply elem_of_cons in Hin as [Hin|Hin]; [congruence|]. rewrite IH by done. by rewrite insert_insert_ne.
Qed.

Lemma replace_tl_wf new l : wf_tl new -> Forall wf_tl l -> Forall wf_tl (replace_tl new l).
Proof.
  intros Hn. induction 1 as [|t l Ht Hl IH]; [constructor|]. cbn [replace_tl]. destruct (_ =? _); by constructor.
Qed.

Lemma replace_tl_size new l : zlen (concat (tl_octets <$> replace_tl new l)) <= zlen (concat (tl_octets <$> l)) + zlen (tl_octets new).
Proof.
  induction l as [|t l IH]; [lens|]. cbn [replace_tl]. destruct (_ =? _); rewrite !fmap_cons; cbn [concat]; lens.
Qed.

Lemma wf_with_tl_data e name l : wf_entry e name -> Forall wf_tl l -> zlen l < 2 ^ 15 -> wf_entry (with_tl_data e (zlen l) l) name.
Proof. intros [] Hl Hn. by constructor. Qed.

Lemma wf_with_princ e name p' : wf_entry e name -> stored_name e p' -> wf_entry (with_princ e p') name.
Proof.
  intros [] (p & r & comps & Ep & Hp & ->). constructor; try done. destruct wf_name0 as (q & realm & c0 & cs & Eq & Hq & Hr & ->).
  rewrite Ep in Eq. injection Eq as <-.
  pose proof (principal_compare_ok _ _ _ _ _ _ Hp Hp) as C1. rewrite bool_decide_eq_true_2 in C1 by done.
  rewrite (principal_compare_ok _ _ _ _ _ _ Hq Hp) in C1. injection C1 as [<- <-]%bool_decide_eq_true_1.
  exists (name_principal realm (c0 :: cs)), realm, c0, cs. split; [done|]. split; [apply princ_holds_name|done].
Qed.

Definition new_tl (type : Z) (c : list octet) : krb5_tl_data := TlData type (zlen c) (Some c).

Lemma wf_new_tl type c : is_int 16 type -> zlen c < 2 ^ 15 -> wf_tl (new_tl type c).
Proof. intros H1 H2. split; [done|]. by exists c. Qed.

Lemma new_tl_size type c : zlen (tl_octets (new_tl type c)) = 4 + zlen c.
Proof. unfold tl_octets, new_tl. cbn [tl_data_type tl_data_length tl_data_contents]. change (default [] (Some c)) with c. autorewrite with krb. lia. Qed.

(** What no operation on the typed data touches. *)
Definition frame (e : krb5_db_entry_new) : krb5_db_entry_new :=
  with_tl_data (with_princ e (Principal (Data 0 None) None 0 0)) 0 [].

Lemma update_tl_ok e name type c : wf_entry e name -> distinct_tl e -> is_int 16 type -> zlen c < 2 ^ 15 ->
  zlen (dbe_tl_data e) + 1 < 2 ^ 15 -> zlen c <= malloc_limit -> 56 <= malloc_limit ->
  exists e', krb5_dbe_update_tl_data (new_tl type c) e = (Ok tt, e') /\ wf_entry e' name /\ distinct_tl e' /\
    tl_map e' = <[type := c]> (tl_map e) /\ frame e' = frame e /\ zlen (dbe_tl_data e') <= zlen (dbe_tl_data e) + 1 /\
    zlen (entry_octets e' name) <= zlen (entry_octets e name) + (4 + zlen c).
Proof.
  intros He ND Ht Hc Hn Hm H56. pose proof (zlen_nonneg c). pose proof sizeof_bounds. pose proof (wf_tls _ _ He) as HT. destruct (wf_n_tl _ _ He) as [HN _].
  pose proof (wf_new_tl type c Ht Hc) as Hw. unfold krb5_dbe_update_tl_data. cbn [tl_data_type tl_data_length tl_data_contents new_tl].
  destruct (malloc_ok (zlen c)) as (b & -> & _); [lia|]. destruct (malloc_ok sizeof_krb5_tl_data) as (b' & -> & _); [lia|].
  rewrite bool_decide_eq_false_2, andb_false_r, read_mem_all by done. fold (new_tl type c).
  destruct (has_tl type (dbe_tl_data e)) eqn:EH.
  - apply has_tl_elem in EH. set (l := replace_tl (new_tl type c) (dbe_tl_data e)).
    assert (LL : zlen l = zlen (dbe_tl_data e)).
    { pose proof (f_equal length (replace_tl_types (new_tl type c) (dbe_tl_data e))) as L. rewrite !length_fmap in L. unfold l, zlen. lia. }
    rewrite HN, <- LL. eexists. split; [done|]. split; [apply wf_with_tl_data; [done|by apply replace_tl_wf|lia]|].
    split; [unfold distinct_tl; cbn; unfold l; by rewrite replace_tl_types|]. split; [by apply (replace_tl_map (new_tl type c))|]. split; [done|].
    split; [cbn; lia|]. unfold entry_octets. cbn [dbe_tl_data with_tl_data]. pose proof (replace_tl_size (new_tl type c) (dbe_tl_data e)) as S.
    rewrite new_tl_size in S. fold l in S. change (entry_keys (with_tl_data e (zlen l) l)) with (entry_keys e). autorewrite with krb. rewrite !base_length. lia.
  - assert (EN : type ∉ tl_data_type <$> dbe_tl_data e) by (intros HI%has_tl_elem; congruence).
    rewrite HN, to_int_id, <- (zlen_cons (new_tl type c)) by (lia || (unfold is_int; lens)). eexists. split; [done|].
    split; [apply wf_with_tl_data; [done|by constructor|rewrite zlen_cons; lia]|]. split; [by apply list.NoDup_cons|]. split; [done|]. split; [done|].
    split; [cbn [dbe_tl_data with_tl_data]; rewrite zlen_cons; lia|]. unfold entry_octets. cbn [dbe_tl_data with_tl_data]. rewrite fmap_cons. cbn [concat].
    set (e' := with_tl_data e _ _). change (entry_keys e') with (entry_keys e). autorewrite with krb. rewrite !base_length, new_tl_size. lia.
Qed.

(** ** Histories of an entry *)

Inductive dbe_op : Type :=
| SetTl (type : Z) (c : list octet)
| SetPwdChange (stamp : Z)
| SetModPrinc (date : Z) (p : krb5_principal_data)
| Reload.  (* the entry is stored and read again *)

Definition exec (m : eproc unit) (e : krb5_db_entry_new) : outcome error_code krb5_db_entry_new :=
  let '(r, e) := m e in let* _ := r in Ok e.

Definition apply_change (get : outcome error_code (list octet)) (dr : option (list octet)) (op : dbe_op) (e : krb5_db_entry_new)
    : outcome error_code krb5_db_entry_new :=
  match op with
  | SetTl type c => exec (krb5_dbe_update_tl_data (TlData type (zlen c) (Some c))) e
  | SetPwdChange stamp => exec (krb5_dbe_update_last_pwd_change stamp) e
  | SetModPrinc date p => exec (krb5_dbe_update_mod_princ_data date p) e
  | Reload => let* d := krb5_encode_princ_contents e in (krb5_decode_princ_contents get dr d).1
  end.

Fixpoint run_changes (get : outcome error_code (list octet)) (dr : option (list octet)) (ops : list dbe_op) (e : krb5_db_entry_new)
    : outcome error_code krb5_db_entry_new :=
  match ops with
  | [] => Ok e
  | op :: ops => let* e := apply_change get dr op e in run_changes get dr ops e
  end.

(** What the record of a modification holds. *)
Definition mod_octets (date : Z) (p : krb5_principal_data) : list octet :=
  krb5_kdb_encode_int32 date ++ match krb5_unparse_name p with Ok s => s | _ => [] end.

(** The specification: a finite map. *)
Definition op_record (op : dbe_op) : option (Z * list octet) :=
  match op with
  | SetTl type c => Some (type, c)
  | SetPwdChange stamp => Some (KRB5_TL_LAST_PWD_CHANGE, krb5_kdb_encode_int32 stamp)
  | SetModPrinc date p => Some (KRB5_TL_MOD_PRINC, mod_octets date p)
  | Reload => None
  end.
Definition spec_op (m : gmap Z (list octet)) (op : dbe_op) : gmap Z (list octet) :=
  match op_record op with Some (type, c) => <[type := c]> m | None => m end.

Definition change_size (op : dbe_op) : Z := match op_record op with Some (_, c) => 4 + zlen c | None => 0 end.
Definition wf_change (op : dbe_op) : Prop :=
  match op with
  | SetTl type c => is_int 16 type /\ zlen c < 2 ^ 15
  | SetPwdChange stamp => is_int 32 stamp
  | SetModPrinc date p => is_int 32 date /\ zlen (mod_octets date p) < 2 ^ 15 /\
      exists realm c0 cs, princ_holds p realm (c0 :: cs) /\ zlen (name_string realm c0 cs) + 5 <= malloc_limit
  | Reload => True
  end.

Lemma mod_octets_eq date p realm c0 cs : princ_holds p realm (c0 :: cs) -> zlen (name_string realm c0 cs) + 5 <= malloc_limit ->
  mod_octets date p = krb5_kdb_encode_int32 date ++ name_string realm c0 cs ++ [0].
Proof. intros Hp Hm. unfold mod_octets. by rewrite (unparse_ok _ _ _ _ Hp) by lia. Qed.

(** The operations on typed data are all updates of one record. *)
Lemma run_op_update get dr op type c e : wf_change op -> op_record op = Some (type, c) ->
  is_int 16 type /\ zlen c < 2 ^ 15 /\ apply_change get dr op e = exec (krb5_dbe_update_tl_data (new_tl type c)) e.
Proof.
  intros Hw Ho. destruct op as [t c'|stamp|date p|]; cbn [wf_change op_record] in Hw, Ho; try discriminate; injection Ho as <- <-; [by destruct Hw| |].
  - split; [done|]. split; [done|]. reflexivity.
  - destruct Hw as (_ & Hl & realm & c0 & cs & Hp & Hm). split; [done|]. split; [done|]. cbn [apply_change].
    rewrite (mod_octets_eq _ _ _ _ _ Hp Hm) in *. assert (NN : no_nul (name_string realm c0 cs)) by apply name_string_no_nul.
    unfold exec, krb5_dbe_update_mod_princ_data, sbind, sret. rewrite (unparse_ok _ _ _ _ Hp), (strlen_nul _ [] NN) by lia.
    destruct (malloc_ok (zlen (name_string realm c0 cs) + 1 + 4)) as (b & -> & _); [lens|].
    autorewrite with krb in Hl. rewrite to_int_id by (unfold is_int; lens). rewrite take_ge by (rewrite length_app; cbn [length]; unfold zlen; lia).
    unfold new_tl. by replace (zlen (_ ++ _ ++ _)) with (zlen (name_string realm c0 cs) + 1 + 4) by lens.
Qed.

Lemma run_ops_ok get dr name room : name_memory (zlen name) -> room < 2 ^ 31 -> room <= malloc_limit -> forall ops e,
  wf_entry e name -> distinct_tl e -> 32 * zlen (entry_keys e) <= malloc_limit -> Forall wf_change ops ->
  zlen (entry_octets e name) + foldr (fun op n => change_size op + n) 0 ops <= room -> zlen (dbe_tl_data e) + zlen ops < 2 ^ 15 ->
  exists e', run_changes get dr ops e = Ok e' /\ wf_entry e' name /\ distinct_tl e' /\ frame e' = frame e /\
    tl_map e' = foldl spec_op (tl_map e) ops.
Proof.
  intros Hnm H31 Hm ops. induction ops as [|op ops IH]; intros e He ND HK Hw Hs Hn; [by exists e|].
  apply Forall_cons_1 in Hw as [Ho Hw]. cbn [run_changes foldl foldr] in *. rewrite zlen_cons in Hn.
  assert (0 <= foldr (fun op n => change_size op + n) 0 ops).
  { clear. induction ops as [|o ops IH]; cbn [foldr]; [done|]. unfold change_size at 1. destruct (op_record o) as [[? ?]|]; lens. }
  pose proof (small_memory _ Hnm). pose proof (zlen_nonneg (entry_octets e name)). pose proof (zlen_nonneg ops).
  destruct (op_record op) as [[type c]|] eqn:E.
  - destruct (run_op_update get dr op type c e Ho E) as (Ht & Hc & ->). unfold change_size, spec_op in *. rewrite E in *. pose proof (zlen_nonneg c).
    destruct (update_tl_ok e name type c) as (e1 & E1 & He1 & ND1 & M1 & F1 & N1 & S1); [done..|lia|lia|lia|lia|].
    unfold exec. rewrite E1. cbn [obind]. destruct (IH e1) as (e' & -> & He' & ND' & F' & M'); [done|done| |done|lia|lia|].
    { by rewrite (f_equal entry_keys F1 : entry_keys e1 = entry_keys e). }
    exists e'. rewrite F', F1, M', M1. done.
  - unfold change_size in Hs at 1. rewrite E in Hs. destruct op; try discriminate.
    assert (HM : entry_memory e name) by (unfold entry_memory; split_and!; (lia || done)).
    cbn [apply_change]. rewrite (encode_entry e name He HM). cbn [obind]. destruct (decode_encoded e name get dr He HM) as (p' & Hp' & ->). cbn [fst obind].
    destruct (IH (with_princ e p')) as (e' & -> & He' & ND' & F' & M'); [by eapply wf_with_princ|done|done|done| |cbn [dbe_tl_data with_princ]; lia|].
    { change (zlen (entry_octets e name) + foldr (fun op n => change_size op + n) 0 ops <= room). lia. }
    exists e'. by rewrite F', M'.
Qed.

Lemma lookup_tl_map e type : Forall wf_tl (dbe_tl_data e) -> krb5_dbe_lookup_tl_data e type =
  match tl_map e !! type with Some c => new_tl type c | None => TlData type 0 None end.
Proof.
  unfold krb5_dbe_lookup_tl_data, tl_map. induction 1 as [|t l [_ (c & Ec & El & _)] _ IH]; [by cbn; rewrite lookup_empty|].
  rewrite fmap_cons. cbn [List.find]. unfold tl_pair at 1. rewrite list_to_map_cons. destruct (Z.eqb_spec (tl_data_type t) type) as [<-|NE].
  - rewrite lookup_insert_eq, Ec. unfold new_tl. cbn [default]. destruct t. cbn in *. by subst.
  - by rewrite lookup_insert_ne.
Qed.

Lemma lookup_pwd_change e stamp : Forall wf_tl (dbe_tl_data e) -> is_int 32 stamp ->
  tl_map e !! KRB5_TL_LAST_PWD_CHANGE = Some (krb5_kdb_encode_int32 stamp) -> krb5_dbe_lookup_last_pwd_change e = Ok stamp.
Proof.
  intros Hw Hs E. unfold krb5_dbe_lookup_last_pwd_change. rewrite lookup_tl_map, E by done. cbn [new_tl tl_data_length tl_data_contents].
  change (zlen (krb5_kdb_encode_int32 stamp)) with 4. cbn [Z.eqb negb]. rewrite (read_mem_all (krb5_kdb_encode_int32 stamp) : read_mem 4 _ = _).
  cbn [obind]. by rewrite kdb_int32.
Qed.

Lemma lookup_mod_princ get dr e date realm c0 cs : let name := name_string realm c0 cs in
  Forall wf_tl (dbe_tl_data e) -> is_int 32 date -> realm <> [] -> name_memory (zlen name) ->
  tl_map e !! KRB5_TL_MOD_PRINC = Some (krb5_kdb_encode_int32 date ++ name ++ [0]) ->
  krb5_dbe_lookup_mod_princ_data get dr e = (Ok (date, name_principal realm (c0 :: cs)), dr).
Proof.
  intros name Hw Hd Hr Hm E. unfold krb5_dbe_lookup_mod_princ_data. rewrite lookup_tl_map, E by done. cbn [new_tl tl_data_length tl_data_contents].
  set (l := krb5_kdb_encode_int32 date ++ name ++ [0]). assert (L : zlen l = zlen name + 5) by (unfold l; lens).
  pose proof (zlen_nonneg name). destruct (Z.ltb_spec (zlen l) 5); [lia|]. rewrite read_mem_all.
  assert (RN : read_name name = Some (c0, cs, Some realm)) by by apply read_name_string.
  replace (nth _ l 1) with 0.
  2: { unfold l. rewrite app_assoc, app_nth2; rewrite length_app; replace (Z.to_nat (zlen _ - 1)) with (length (krb5_kdb_encode_int32 date) + length name)%nat
         by (autorewrite with krb; change (length (krb5_kdb_encode_int32 date)) with 4%nat; unfold zlen; lia); [by rewrite Nat.sub_diag|lia]. }
  cbn [Z.eqb negb]. change (drop 4 l) with (name ++ 0 :: []). rewrite parse_name_eq; [|apply name_string_no_nul|done|by rewrite RN]. rewrite RN.
  cbn [obind]. change (take 4 l) with (krb5_kdb_encode_int32 date). by rewrite kdb_int32.
Qed.
(** ** Theorems *)

(** C13: A well-formed entry of the database, with any number of keys and typed data,
    whose record can be allocated, is stored by [krb5_encode_princ_contents] as exactly
    the octets of its layout (the fixed part, the name with its length, the typed data
    and the keys in their order), and the length of the record is the number of these
    octets. [krb5_decode_princ_contents] makes the same entry of them: every field, all
    typed data and keys in their order, and a principal that [krb5_principal_compare]
    finds equal. *)
Theorem princ_contents_roundtrip e name get dr : wf_entry e name -> entry_memory e name ->
  let octets := entry_octets e name in let content := Data (zlen octets) (Some octets) in
  exists p p', krb5_encode_princ_contents e = Ok content /\ dbe_princ e = Some p /\
    krb5_decode_princ_contents get dr content = (Ok (with_princ e p'), dr) /\ krb5_principal_compare p p' = Ok true.
Proof.
  intros He Hm octets content. destruct (decode_encoded e name get dr He Hm) as (p' & Hp' & ED). destruct (wf_name _ _ He) as (p & _ & _ & _ & Ep & _).
  exists p, p'. split; [by apply encode_entry|]. split; [done|]. split; [done|]. by eapply stored_name_compare.
Qed.

(** C16: The typed data of an entry are a finite map: after any history of changes,
    among which the entry may go through the database any number of times, a lookup
    returns what was stored last under the type, or no octets; the time of the last
    change of password and the last modification are what was set; and nothing else of
    the entry has changed. *)
Theorem entry_history get dr name e ops room :
  wf_entry e name -> distinct_tl e -> name_memory (zlen name) -> 32 * zlen (entry_keys e) <= malloc_limit -> Forall wf_change ops ->
  room < 2 ^ 31 -> room <= malloc_limit -> zlen (entry_octets e name) + foldr (fun op n => change_size op + n) 0 ops <= room ->
  zlen (dbe_tl_data e) + zlen ops < 2 ^ 15 ->
  let m := foldl spec_op (tl_map e) ops in
  exists e', run_changes get dr ops e = Ok e' /\ frame e' = frame e /\ wf_entry e' name /\
    (forall type, krb5_dbe_lookup_tl_data e' type = match m !! type with Some c => TlData type (zlen c) (Some c) | None => TlData type 0 None end) /\
    (forall stamp, is_int 32 stamp -> m !! KRB5_TL_LAST_PWD_CHANGE = Some (krb5_kdb_encode_int32 stamp) ->
       krb5_dbe_lookup_last_pwd_change e' = Ok stamp) /\
    (forall date realm c0 cs, let s := name_string realm c0 cs in is_int 32 date -> realm <> [] -> name_memory (zlen s) ->
       m !! KRB5_TL_MOD_PRINC = Some (krb5_kdb_encode_int32 date ++ s ++ [0]) ->
       krb5_dbe_lookup_mod_princ_data get dr e' = (Ok (date, name_principal realm (c0 :: cs)), dr)).
Proof.
  intros He ND Hn Hk Hw H31 Hr Hs Ht m. destruct (run_ops_ok get dr name room Hn H31 Hr ops e He ND Hk Hw Hs Ht) as (e' & E & He' & _ & F & M).
  pose proof (wf_tls _ _ He') as W. exists e'. split; [done|]. split; [done|]. split; [done|]. fold m in M. rewrite <- M. split; [|split].
  - intros type. by apply lookup_tl_map.
  - intros stamp. by apply lookup_pwd_change.
  - intros date realm c0 cs s. by apply lookup_mod_princ.
Qed.

End kdb.

(** * Records of the database that are cut short (Kdb.v)

    What the decoder makes of the first octets of a record: the error that it has for this,
    or memory that is not its own. *)

(** The two ways in which reading stops. *)
Definition stop_result {A} (undefined : bool) : outcome error_code A := if undefined then Undefined else Err KRB5_KDB_TRUNCATED_RECORD.

(** On the first [n] octets of [l], with [owed] octets charged and not yet read, [m] stops. *)
Definition stops {A} (m : rproc A) (l : list octet) (n owed : Z) (u : bool) : Prop :=
  forall dr, exists st, m (Reader (take (Z.to_nat n) l) (n - owed) dr) = (stop_result u, st).

Lemma stops_here {A B} (m : rproc A) (k : A -> rproc B) l n owed u : stops m l n owed u -> stops (sbind m k) l n owed u.
Proof. intros H dr. destruct (H dr) as [st E]. exists st. unfold sbind. rewrite E. by destruct u. Qed.

(** The rest of the record does not matter. *)
Lemma stops_front {A} (m : rproc A) l1 l2 n owed u : n <= zlen l1 -> stops m l1 n owed u -> stops m (l1 ++ l2) n owed u.
Proof. intros Hn H dr. rewrite take_app_le by (unfold zlen in Hn; lia). apply H. Qed.

(** A part that does not stop. *)
Lemma stops_read {A B} (m : rproc A) (k : A -> rproc B) l1 l2 c a n owed u : kdb_reads m l1 c a ->
  zlen l1 <= n -> c <= n - owed < 2 ^ 31 -> stops (k a) l2 (n - zlen l1) (owed + c - zlen l1) u -> stops (sbind m k) (l1 ++ l2) n owed u.
Proof.
  intros [_ R] H1 H2 S dr. destruct (S dr) as [st E]. exists st. unfold sbind. rewrite take_app_ge by (unfold zlen in H1; lia).
  rewrite R by lia. replace (n - owed - c) with (n - zlen l1 - (owed + c - zlen l1)) by lia.
  replace (Z.to_nat n - length l1)%nat with (Z.to_nat (n - zlen l1)) by (unfold zlen; lia). done.
Qed.
Lemma stops_none {A B} (m : rproc A) (k : A -> rproc B) l c a n owed u : kdb_reads m [] c a ->
  0 <= n -> c <= n - owed < 2 ^ 31 -> stops (k a) l n (owed + c) u -> stops (sbind m k) l n owed u.
Proof. intros R Hn H S. apply (stops_read m k [] l c a); [done|done|done|]. by rewrite !Z.sub_0_r. Qed.

Lemma stops_charge c l n owed : - 2 ^ 31 <= n - owed - c < 0 -> stops (charge c) l n owed false.
Proof.
  intros H dr. eexists. unfold charge. cbn [rd_sizeleft]. rewrite bool_decide_eq_true_2 by (unfold is_int; lia). cbn [negb].
  destruct (Z.ltb_spec (n - owed - c) 0); [done|lia].
Qed.

Section truncated.
Context `{P : Platform}.

Lemma stops_tl t n : wf_tl t -> 56 <= malloc_limit -> 0 <= n < zlen (tl_octets t) -> stops decode_tl_data (tl_octets t) n 0 false.
Proof.
  intros [Ht (c & Ec & El & Hc)] Hm Hn. pose proof sizeof_bounds. unfold tl_octets in *. rewrite Ec, El in *. change (default [] (Some c)) with c in *.
  autorewrite with krb in Hn. change (zlen (krb5_kdb_encode_int16 _)) with 2 in Hn. pose proof (zlen_nonneg c).
  destruct (Z.ltb_spec n 4); [apply stops_here, stops_charge; lia|].
  eapply stops_none; [by apply kdb_reads_charged|lia|lia|]. eapply stops_none; [apply kdb_reads_alloc; lia|lia|lia|].
  eapply stops_read; [by apply kdb_reads_int16|change (2 <= n); lia|lia|].
  eapply stops_read; [apply kdb_reads_int16, is_int16_length; lia|change (2 <= n - 2); lia|change (zlen (krb5_kdb_encode_int16 _)) with 2; lia|].
  change (zlen (krb5_kdb_encode_int16 _)) with 2. apply stops_here, stops_charge. lia.
Qed.

Lemma stops_slot s n : wf_kslot s -> 0 <= n < zlen (kslot_octets s) -> stops decode_slot (kslot_octets s) n 0 false.
Proof.
  intros Hs Hn. destruct (slot_octets_length s Hs) as [H0 L]. rewrite L in Hn. destruct Hs as [Ht Hc].
  assert (is_int 16 (ks_length s)) by (destruct (ks_contents s); [rewrite Hc; done|unfold is_int; lia|done]). unfold kslot_octets.
  assert (ks_length s < 2 ^ 15) by (destruct (ks_contents s); [rewrite Hc; done|lia|done]).
  destruct (Z.ltb_spec n 4); [apply stops_here, stops_charge; lia|].
  eapply stops_none; [by apply kdb_reads_charged|lia|lia|].
  eapply stops_read; [by apply kdb_reads_int16|change (2 <= n); lia|lia|].
  eapply stops_read; [by apply kdb_reads_int16|change (2 <= n - 2); lia|change (zlen (krb5_kdb_encode_int16 _)) with 2; lia|].
  change (zlen (krb5_kdb_encode_int16 _)) with 2. apply stops_here, stops_charge. lia.
Qed.

(** A loop over the elements of a list. *)
Lemma stops_list {A} (m : rproc A) (loop : nat -> rproc (list A)) (octets_of : A -> list octet) (l : list A) :
  (forall n, loop (S n) = (do! x := m in do! r := loop n in sret (Ok (x :: r)))) ->
  Forall (fun x => kdb_reads m (octets_of x) (zlen (octets_of x)) x /\ forall n, 0 <= n < zlen (octets_of x) -> stops m (octets_of x) n 0 false) l ->
  forall n, 0 <= n < zlen (concat (octets_of <$> l)) -> n < 2 ^ 31 -> stops (loop (length l)) (concat (octets_of <$> l)) n 0 false.
Proof.
  intros HS. induction 1 as [|x l [Hx Sx] _ IH]; intros n Hn H31; [change (zlen _) with 0 in Hn; lia|].
  cbn [length]. rewrite HS, fmap_cons in *. cbn [concat] in *. rewrite zlen_app in Hn. pose proof (zlen_nonneg (octets_of x)).
  destruct (Z.ltb_spec n (zlen (octets_of x))).
  - apply stops_front; [lia|]. apply stops_here, Sx. lia.
  - eapply stops_read; [exact Hx|lia|lia|]. replace (0 + _ - _) with 0 by lia. apply stops_here, IH; lia.
Qed.

Lemma stops_key k n : wf_key k -> zlen (key_octets k) <= malloc_limit -> 4 <= n < zlen (key_octets k) -> n < 2 ^ 31 ->
  stops decode_key_data (key_octets k) n 4 false.
Proof.
  intros Hk Hm Hn H31. pose proof (live_length k Hk) as L. destruct Hk as [Hv Hkv Ha Hs Hr]. unfold key_octets in *. rewrite !zlen_app in Hn, Hm.
  change (zlen (krb5_kdb_encode_int16 _)) with 2 in Hn, Hm.
  eapply stops_read; [apply kdb_reads_int16; unfold is_int; lia|change (2 <= n); lia|lia|].
  eapply stops_read; [by apply kdb_reads_int16|change (2 <= n - 2); lia|change (zlen (krb5_kdb_encode_int16 _)) with 2; lia|].
  change (zlen (krb5_kdb_encode_int16 _)) with 2. replace (4 + 0 - 2 + 0 - 2) with 0 by lia.
  destruct (Z.leb_spec (key_data_ver k) KRB5_KDB_V1_KEY_DATA_ARRAY); [|unfold KRB5_KDB_V1_KEY_DATA_ARRAY in *; lia].
  apply stops_here. replace (Z.to_nat (key_data_ver k)) with (length (live_slots k)) by (unfold zlen in L; lia).
  apply (stops_list decode_slot decode_slots kslot_octets); [done| |lia|lia]. apply Forall_forall. intros s Hin.
  pose proof (in_concat kslot_octets _ _ Hin). pose proof (proj1 (Forall_forall _ _) Hs _ Hin).
  split; [apply kdb_reads_slot; [done|lia]|intros; by apply stops_slot].
Qed.

(** Where a cut leaves elements of the array of keys that were never assigned. *)
Definition keys_spoiled (l : list krb5_key_data) (n : Z) : bool :=
  n <? zlen (concat (key_octets <$> l)) - zlen (key_octets (List.last l zero_key_data)) + 4.

Lemma stops_error_out {A} filled (m : rproc A) l n owed : stops m l n owed false -> stops (error_out filled m) l n owed (negb filled).
Proof. intros S dr. destruct (S dr) as [st E]. exists st. unfold error_out. rewrite E. by destruct filled. Qed.

Lemma key_octets_long k : 4 <= zlen (key_octets k).
Proof. unfold key_octets. rewrite !zlen_app. change (zlen (krb5_kdb_encode_int16 _)) with 2. lens. Qed.

Lemma last_in_concat k l : zlen (key_octets (List.last (k :: l) zero_key_data)) <= zlen (concat (key_octets <$> k :: l)).
Proof.
  revert k. induction l as [|k' l IH]; intros k; [cbn; lens|]. rewrite fmap_cons. cbn [concat].
  change (List.last (k :: k' :: l) zero_key_data) with (List.last (k' :: l) zero_key_data). specialize (IH k'). lens.
Qed.

Lemma stops_keys l : Forall wf_key l -> zlen (concat (key_octets <$> l)) <= malloc_limit ->
  forall n, 0 <= n < zlen (concat (key_octets <$> l)) -> n < 2 ^ 31 ->
  stops (decode_all_key_data (length l)) (concat (key_octets <$> l)) n 0 (keys_spoiled l n).
Proof.
  induction 1 as [|k l Hk _ IH]; intros Hm n Hn H31; [change (zlen _) with 0 in Hn; lia|]. unfold keys_spoiled.
  pose proof (key_octets_long k). pose proof (key_octets_long (List.last (k :: l) zero_key_data)). pose proof (zlen_nonneg (concat (key_octets <$> l))).
  assert (HL : l = [] \/ zlen (key_octets (List.last (k :: l) zero_key_data)) <= zlen (concat (key_octets <$> l))).
  { destruct l as [|k' l]; [by left|right; apply (last_in_concat k' l)]. }
  rewrite fmap_cons in *. cbn [concat length decode_all_key_data] in *. rewrite zlen_app in *.
  set (last := zlen (key_octets (List.last (k :: l) zero_key_data))) in *.
  destruct (Z.ltb_spec n 4).
  { replace (_ <? _) with true; [apply stops_here, (stops_error_out false), stops_charge; lia|]. symmetry. apply Z.ltb_lt.
    destruct HL as [-> | HL]; [|lia]. unfold last. cbn [List.last fmap list_fmap concat]. rewrite zlen_nil. lia. }
  eapply stops_none; [by apply kdb_reads_error_out, kdb_reads_charged|lia|lia|]. change (0 + 4) with 4.
  destruct (Z.ltb_spec n (zlen (key_octets k))).
  - apply stops_front; [lia|]. apply stops_here. replace (_ <? _) with (negb (length l =? 0)%nat); [apply stops_error_out, stops_key; [done|lia..]|].
    symmetry. destruct HL as [-> | HL]; [apply Z.ltb_ge; unfold last; cbn [List.last fmap list_fmap concat]; rewrite zlen_nil; lia|].
    destruct l as [|k' l']; [cbn [fmap list_fmap concat] in HL; rewrite zlen_nil in HL; lia|]. apply Z.ltb_lt. lia.
  - eapply stops_read; [apply kdb_reads_error_out, kdb_reads_key; [done|lia]|lia|lia|].
    replace (4 + _ - _) with 0 by lia. apply stops_here. destruct l as [|k' l']; [change (zlen (concat (key_octets <$> []))) with 0 in Hn; lia|].
    replace (_ <? _) with (keys_spoiled (k' :: l') (n - zlen (key_octets k))); [apply IH; lia|]. unfold keys_spoiled.
    change (zlen (key_octets (List.last (k' :: l') zero_key_data))) with last. apply eq_true_iff_eq. rewrite !Z.ltb_lt. lia.
Qed.

(** ** The name *)

(** A string that goes on: the first pass does not find its end. *)
Lemma pass1_cut s t : no_nul s -> forall i size f realm r, parse_pass1 (s ++ t) i size f realm = Ok r -> parse_pass1 s i size f realm = Undefined.
Proof.
  remember (length s) as len eqn:EL. assert (HL : (length s <= len)%nat) by lia. clear EL. revert s HL.
  induction len as [|len IH]; intros [|c s] HL NN i size f realm r; try done; [cbn in HL; lia|]. cbn [length] in HL. apply Forall_cons_1 in NN as [Hc NN].
  cbn [app parse_pass1]. destruct (Z.eqb_spec c 0); [done|].
  destruct (c =? QUOTECHAR).
  { destruct s as [|c' s]; [done|]. cbn [length] in HL. apply Forall_cons_1 in NN as [Hc' NN]. cbn [app]. destruct (Z.eqb_spec c' 0); [done|]. by apply IH; [lia|]. }
  destruct (c =? COMPONENT_SEP); [destruct realm; [done|]; by apply IH; [lia|]|].
  destruct (c =? REALM_SEP); [|by apply IH; [lia|]]. destruct realm; [done|]. destruct s as [|c' s]; [done|]. cbn [app].
  destruct (c' =? 0); [done|]. intros E. apply (IH (c' :: s) ltac:(cbn [length] in *; lia) NN _ _ _ _ _ E).
Qed.

Lemma parse_cut get dr realm c0 cs j : let name := name_string realm c0 cs in
  realm <> [] -> name_memory (zlen name) -> 0 <= j <= zlen name ->
  krb5_parse_name get dr (take (Z.to_nat j) (name ++ [0])) = (Undefined, dr).
Proof.
  intros name Hr Hm Hj. assert (NN : no_nul name) by apply name_string_no_nul.
  assert (RN : read_name name = Some (c0, cs, Some realm)) by by apply read_name_string.
  assert (E : krb5_parse_name get dr (name ++ [0]) = (Ok (name_principal realm (c0 :: cs)), dr)).
  { rewrite parse_name_eq; [|done|done|by rewrite RN]. by rewrite RN. }
  unfold krb5_parse_name in E at 1. destruct (parse_pass1 (name ++ [0]) 0 0 _ false) as [sc| | |] eqn:E1; try discriminate.
  unfold krb5_parse_name. rewrite take_app_le by (unfold zlen in Hj; lia).
  rewrite <- (take_drop (Z.to_nat j) name), <- app_assoc in E1. rewrite (pass1_cut _ _ (Forall_take _ _ _ NN) _ _ _ _ _ E1). done.
Qed.

Lemma stops_princ get realm c0 cs n : let name := name_string realm c0 cs in
  realm <> [] -> name_memory (zlen name) -> zlen name + 1 < 2 ^ 15 -> 0 <= n < zlen name + 3 ->
  stops (decode_princ get) (krb5_kdb_encode_int16 (zlen name + 1) ++ name ++ [0]) n 0 (2 <=? n).
Proof.
  intros name Hr Hm Hl Hn. destruct (Z.leb_spec 2 n); [|apply stops_here, stops_charge; lia].
  eapply stops_none; [by apply kdb_reads_charged|lia|lia|].
  eapply stops_read; [apply kdb_reads_int16, is_int16_length; lens|change (2 <= n); lia|lia|].
  change (zlen (krb5_kdb_encode_int16 _)) with 2. apply stops_here. intros dr. eexists. cbn [rd_nextloc rd_sizeleft rd_default_realm].
  unfold name. rewrite parse_cut by (done || fold name; lia). done.
Qed.

(** ** The entry *)

(** Where the memory behind the record is read, or memory that was never assigned: in the
    name, and in all keys but what is behind the first two numbers of the last one. *)
Definition cut_undefined (e : krb5_db_entry_new) (name : list octet) (n : Z) : bool :=
  let keys := 40 + (zlen name + 1) + zlen (concat (tl_octets <$> dbe_tl_data e)) in
  (40 <=? n) && (n <? 40 + (zlen name + 1)) || (keys <=? n) && keys_spoiled (entry_keys e) (n - keys).

(** The parts of fixed size. *)
Ltac read_by L :=
  eapply stops_read; [L|rewrite ?encode_int16_length, ?encode_int32_length; lia|rewrite ?encode_int16_length, ?encode_int32_length; lia|].

Lemma stops_entry e name get n : wf_entry e name -> entry_memory e name -> 0 <= n < zlen (entry_octets e name) ->
  stops (decode_entry get) (entry_octets e name) n 0 (cut_undefined e name n).
Proof.
  intros [Elen Hints Hfail _ [T1 T2] HT [K1 K2] HK _ (p & realm & c0 & cs & _ & _ & Hr & ->) Hnl] (H31 & Hm & Hk & Hn) Hc.
  set (name := name_string realm c0 cs) in *. do 7 (apply Forall_cons_1 in Hints as [? Hints]). clear Hints.
  pose proof sizeof_bounds. pose proof (small_memory _ Hn). pose proof (zlen_nonneg name). pose proof (zlen_nonneg (entry_keys e)).
  unfold cut_undefined. set (tl := concat (tl_octets <$> dbe_tl_data e)). set (kl := concat (key_octets <$> entry_keys e)).
  pose proof (zlen_nonneg tl). pose proof (zlen_nonneg kl).
  assert (HL : zlen (entry_octets e name) = 38 + ((zlen name + 3) + (zlen tl + zlen kl))).
  { unfold entry_octets. rewrite !zlen_app, base_length, encode_int16_length. fold tl kl. change (zlen [0]) with 1. lia. }
  rewrite HL in *. destruct (Z.ltb_spec n 38).
  { replace (_ || _) with false by lia. apply stops_here, stops_charge. unfold KRB5_KDB_V1_BASE_LENGTH. lia. }
  eapply stops_none; [by apply kdb_reads_charged|lia|unfold KRB5_KDB_V1_BASE_LENGTH; lia|]. change (0 + KRB5_KDB_V1_BASE_LENGTH) with 38.
  unfold entry_octets, krb5_kdb_encode_base. fold tl kl. rewrite <- !app_assoc.
  read_by ltac:(apply kdb_reads_int16; by rewrite Elen). do 7 (read_by ltac:(by apply kdb_reads_int32)). read_by ltac:(by apply kdb_reads_uint32).
  read_by ltac:(apply kdb_reads_int16, is_int16_length; lens).
  eapply (stops_none _ _ _ 0 tt); [unfold refuse_negative; destruct (Z.leb_spec 0 (dbe_n_tl_data e)); [apply kdb_reads_ret|lens]|rewrite !encode_int16_length, !encode_int32_length; lia..|].
  read_by ltac:(apply kdb_reads_int16, is_int16_length; lia).
  eapply (stops_none _ _ _ 0 tt); [unfold refuse_negative; destruct (Z.leb_spec 0 (dbe_n_key_data e)); [apply kdb_reads_ret|lia]|rewrite !encode_int16_length, !encode_int32_length; lia..|].
  eapply (stops_none _ _ _ 0 (0, None)); [rewrite Elen; apply kdb_reads_ret|rewrite !encode_int16_length, !encode_int32_length; lia..|].
  rewrite !encode_int16_length, !encode_int32_length. replace (n - _ - _ - _ - _ - _ - _ - _ - _ - _ - _ - _) with (n - 38) by lia.
  match goal with |- stops _ _ _ ?o _ => replace o with 0 by lia end.
  rewrite (app_assoc name), (app_assoc (krb5_kdb_encode_int16 _)). 
  assert (LP : zlen (krb5_kdb_encode_int16 (zlen name + 1) ++ name ++ [0]) = zlen name + 3) by (rewrite !zlen_app, encode_int16_length; change (zlen [0]) with 1; lia).
  destruct (Z.ltb_spec (n - 38) (zlen name + 3)).
  { apply stops_front; [lia|]. replace (_ || _) with (2 <=? n - 38) by lia. apply stops_here, stops_princ; (done || fold name; lia). }
  eapply stops_read; [by apply kdb_reads_princ|fold name; lia|fold name; lia|]. fold name. rewrite LP, T1, to_nat_zlen.
  replace (0 + _ - _) with 0 by lia. destruct (Z.ltb_spec (n - 38 - (zlen name + 3)) (zlen tl)).
  { apply stops_front; [lia|]. replace (_ || _) with false by lia.
    apply stops_here, (stops_list decode_tl_data decode_all_tl_data tl_octets); [done| |fold tl; lia|lia]. apply Forall_forall. intros t Hin.
    pose proof (in_concat tl_octets _ _ Hin) as S. fold tl in S. pose proof (proj1 (Forall_forall _ _) HT _ Hin).
    split; [apply kdb_reads_tl; [done|lia|done]|intros; by apply stops_tl]. }
  eapply stops_read; [apply (kdb_reads_list decode_tl_data decode_all_tl_data tl_octets); [done|done|]|fold tl; lia|fold tl; lia|].
  { apply Forall_forall. intros t Hin. pose proof (in_concat tl_octets _ _ Hin) as S. fold tl in S.
    apply kdb_reads_tl; [by apply (proj1 (Forall_forall _ _) HT)|lia|done]. }
  fold tl. replace (0 + _ - _) with 0 by lia.
  eapply (stops_none _ _ _ 0 tt); [destruct (_ =? 0); [apply kdb_reads_ret|apply kdb_reads_alloc; rewrite K1; nia]|lia|lia|].
  rewrite K1, to_nat_zlen. apply stops_here.
  replace (_ || _) with (keys_spoiled (entry_keys e) (n - 38 - (zlen name + 3) - zlen tl)); [apply stops_keys; fold kl; (done || lia)|].
  replace (n <? _) with false by lia. rewrite andb_false_r, orb_false_l. replace (_ <=? n) with true by lia. cbn [andb]. f_equal. lia.
Qed.

(** What becomes of a stored record that is cut short, at every place: the decoder
    reports [KRB5_KDB_TRUNCATED_RECORD], except that it reads behind the record when the
    cut is in the name, which is parsed before its length is compared with what is left,
    and frees pointers that were never assigned when the cut is in the keys, unless it
    is behind the first two numbers of the last of them. *)
Theorem truncated_record e name get dr n : wf_entry e name -> entry_memory e name -> 0 <= n < zlen (entry_octets e name) ->
  (krb5_decode_princ_contents get dr (Data n (Some (take (Z.to_nat n) (entry_octets e name))))).1 =
  if cut_undefined e name n then Undefined else Err KRB5_KDB_TRUNCATED_RECORD.
Proof.
  intros He Hm Hn. destruct (stops_entry e name get n He Hm Hn dr) as [st E]. rewrite Z.sub_0_r in E.
  unfold krb5_decode_princ_contents. cbn [d_data d_length]. rewrite E. by destruct (cut_undefined e name n).
Qed.

End truncated.
