(* ===== verification/KadmAcl.v ===== *)
(** * Access control of the administration server (src/src/lib/kadm5/srv/server_acl.c)

    The file of access rights as it is read, the entries that are kept of it, the search
    for the entry that governs a request, and the restrictions that an entry imposes; with
    [krb5_string_to_flags] of src/src/lib/kadm5/str_conv.c.

    A string of the server is the list of its characters, without the NUL.  The log and the
    numbers of lines, which only the log shows, are left out.  BUFSIZ is that of the C
    library.  [krb5_string_to_deltat], a parser that yacc generates, is a parameter. *)

From Stdlib Require Import String Ascii.
From S2P Require Import Prelude CString Asn1Buf Krb5Types PrincName Kdc Kdb.

Fixpoint chars_of (s : string) : list octet :=
  match s with EmptyString => [] | String c s => Z.of_N (N_of_ascii c) :: chars_of s end.
Definition octet_at (s : string) : octet := hd 0 (chars_of s).

(** ** Constants *)

Definition ACL_ADD : Z := 1.
Definition ACL_DELETE : Z := 2.
Definition ACL_MODIFY : Z := 4.
Definition ACL_CHANGEPW : Z := 8.
Definition ACL_INQUIRE : Z := 32.
Definition ACL_LIST : Z := 128.
Definition ACL_SETKEY : Z := 256.
Definition ACL_ALL_MASK : Z :=
  Z.lor ACL_ADD (Z.lor ACL_DELETE (Z.lor ACL_MODIFY (Z.lor ACL_CHANGEPW (Z.lor ACL_INQUIRE (Z.lor ACL_LIST ACL_SETKEY))))).

Definition acl_op_table : list (octet * Z) := [
  (octet_at "a", ACL_ADD); (octet_at "d", ACL_DELETE); (octet_at "m", ACL_MODIFY); (octet_at "c", ACL_CHANGEPW);
  (octet_at "i", ACL_INQUIRE); (octet_at "l", ACL_LIST); (octet_at "s", ACL_SETKEY);
  (octet_at "x", ACL_ALL_MASK); (octet_at "*", ACL_ALL_MASK)].

Definition KADM5_PRINC_EXPIRE_TIME : Z := 0x000002.
Definition KADM5_PW_EXPIRATION : Z := 0x000004.
Definition KADM5_ATTRIBUTES : Z := 0x000010.
Definition KADM5_MAX_LIFE : Z := 0x000020.
Definition KADM5_POLICY : Z := 0x000800.
Definition KADM5_POLICY_CLR : Z := 0x001000.
Definition KADM5_MAX_RLIFE : Z := 0x002000.

Definition KRB5_KDB_SUPPORT_DESMD5 : Z := 0x00004000.

(** ** Flags by name (str_conv.c) *)

Record flags_lookup_entry : Type := FlagsEntry { fl_flags : Z; fl_sense : bool; fl_specifier : list octet }.

Definition flags_table : list flags_lookup_entry := [
  FlagsEntry KRB5_KDB_DISALLOW_POSTDATED false (chars_of "postdateable");
  FlagsEntry KRB5_KDB_DISALLOW_FORWARDABLE false (chars_of "forwardable");
  FlagsEntry KRB5_KDB_DISALLOW_TGT_BASED false (chars_of "tgt-based");
  FlagsEntry KRB5_KDB_DISALLOW_RENEWABLE false (chars_of "renewable");
  FlagsEntry KRB5_KDB_DISALLOW_PROXIABLE false (chars_of "proxiable");
  FlagsEntry KRB5_KDB_DISALLOW_DUP_SKEY false (chars_of "dup-skey");
  FlagsEntry KRB5_KDB_DISALLOW_ALL_TIX false (chars_of "allow-tickets");
  FlagsEntry KRB5_KDB_REQUIRES_PRE_AUTH true (chars_of "preauth");
  FlagsEntry KRB5_KDB_REQUIRES_HW_AUTH true (chars_of "hwauth");
  FlagsEntry KRB5_KDB_REQUIRES_PWCHANGE true (chars_of "pwchange");
  FlagsEntry KRB5_KDB_DISALLOW_SVR false (chars_of "service");
  FlagsEntry KRB5_KDB_PWCHANGE_SERVICE true (chars_of "pwservice");
  FlagsEntry KRB5_KDB_SUPPORT_DESMD5 true (chars_of "md5")].

Definition strcasecmp_eq (a b : list octet) : bool := bool_decide ((tolower <$> a) = (tolower <$> b)).
(** strncasecmp(prefix, s, strlen(prefix)) == 0 *)
Definition has_prefix (prefix s : list octet) : bool := strcasecmp_eq prefix (take (length prefix) s).

(** With [positive] and [negative] that are not NULL; *flagsp is returned. *)
Definition krb5_string_to_flags (string positive negative : list octet) (flags : Z) : outcome error_code Z :=
  let '(sense, cpos) :=
    if has_prefix negative string then (false, length negative)
    else if negb (bool_decide (positive = [])) && has_prefix positive string then (true, length positive)
    else (true, 0%nat) in
  match List.find (fun e => strcasecmp_eq (drop cpos string) (fl_specifier e)) flags_table with
  | Some e => Ok (if Bool.eqb sense (fl_sense e) then Z.lor flags (fl_flags e) else Z.land flags (Z.lnot (fl_flags e)))
  | None => Err EINVAL
  end.

(** ** Entries and restrictions *)

Record restriction_t : Type := Restriction {
  rs_mask : Z; rs_require_attrs : Z; rs_forbid_attrs : Z; rs_princ_lifetime : Z; rs_pw_lifetime : Z;
  rs_max_life : Z; rs_max_renewable_life : Z; rs_aux_attributes : Z; rs_policy : option (list octet)
}.
Definition no_restriction : restriction_t := Restriction 0 0 0 0 0 0 0 0 None.

(** The list of entries is a list; ae_next is not a member. *)
Record aent_t : Type := Aent {
  ae_name : list octet; ae_name_bad : bool; ae_principal : option krb5_principal_data; ae_op_allowed : Z;
  ae_target : option (list octet); ae_target_bad : bool; ae_target_princ : option krb5_principal_data;
  ae_restriction_string : option (list octet); ae_restriction_bad : bool; ae_restrictions : option restriction_t
}.

Definition with_name (e : aent_t) (bad : bool) (p : option krb5_principal_data) : aent_t :=
  Aent (ae_name e) bad p (ae_op_allowed e) (ae_target e) (ae_target_bad e) (ae_target_princ e)
    (ae_restriction_string e) (ae_restriction_bad e) (ae_restrictions e).
Definition with_target (e : aent_t) (bad : bool) (p : option krb5_principal_data) : aent_t :=
  Aent (ae_name e) (ae_name_bad e) (ae_principal e) (ae_op_allowed e) (ae_target e) bad p
    (ae_restriction_string e) (ae_restriction_bad e) (ae_restrictions e).
Definition with_restrictions (e : aent_t) (bad : bool) (r : option restriction_t) : aent_t :=
  Aent (ae_name e) (ae_name_bad e) (ae_principal e) (ae_op_allowed e) (ae_target e) (ae_target_bad e) (ae_target_princ e)
    (ae_restriction_string e) bad r.
Definition spoil (e : aent_t) : aent_t := with_name e true (ae_principal e).

(** ** Reading the file *)

(** What fgetc has left of the file, and feof *)
Record acl_stream : Type := Stream { fp_rest : list octet; fp_eof : bool }.

Definition BACKSLASH : octet := 92.
Definition NEWLINE : octet := 10.
(** (char) EOF *)
Definition EOF_CHAR : octet := 255.

Definition ends_in_backslash (buf : list octet) : bool := (List.last buf 0 =? BACKSLASH).

(** The inner loop: acl_buf[0], ..., acl_buf[i-1], and the stream behind it.  The last
    character is read before the loop ends with i = BUFSIZ. *)
Fixpoint get_chars (BUFSIZ : Z) (rest : list octet) (buf : list octet) : list octet * acl_stream :=
  if BUFSIZ <=? zlen buf then (buf, Stream rest false)
  else
    match rest with
    | [] => (if ends_in_backslash buf then removelast buf else buf, Stream [] true)
    | c :: rest =>
        if c =? EOF_CHAR then (if ends_in_backslash buf then removelast buf else buf, Stream rest false)
        else if c =? NEWLINE then
          if ends_in_backslash buf then get_chars BUFSIZ rest (removelast buf) else (buf, Stream rest false)
        else get_chars BUFSIZ rest (buf ++ [c])
    end.

(** The rest of a line that is too long, behind the character c1. *)
Fixpoint skip_line (c1 : octet) (rest : list octet) : acl_stream :=
  match rest with
  | [] => Stream [] true
  | c2 :: rest => if (c2 =? NEWLINE) && negb (c1 =? BACKSLASH) then Stream rest false else skip_line c2 rest
  end.

(** One line in acl_buf, as a C string *)
Definition get_one_line (BUFSIZ : Z) (fp : acl_stream) : list octet * acl_stream :=
  let '(buf, fp) := get_chars BUFSIZ (fp_rest fp) [] in
  let '(buf, fp) :=
    if zlen buf =? BUFSIZ then
      (removelast buf, if fp_eof fp then fp else skip_line (List.last buf 0) (fp_rest fp))
    else (buf, fp) in
  let buf := if hd 0 buf =? EOF_CHAR then [] else buf in
  (take (Z.to_nat (strlen buf)) buf, fp).

(** [None] for NULL.  Every turn of the loop reads a character or finds the end of the
    file, so [turns] need not exceed the length of the rest. *)
Fixpoint acl_get_line (turns : nat) (BUFSIZ : Z) (fp : acl_stream) : option (list octet) * acl_stream :=
  match turns with
  | O => (None, fp)
  | S turns =>
      if fp_eof fp then (None, fp)
      else
        let '(line, fp) := get_one_line BUFSIZ fp in
        if negb (hd 0 line =? octet_at "#") && negb (hd 0 line =? 0) then (Some line, fp)
        else acl_get_line turns BUFSIZ fp
  end.

(** ** Parsing a line *)

Definition isspace (c : octet) : bool := ((9 <=? c) && (c <=? 13)) || (c =? 32).

Fixpoint skip_space (s : list octet) : list octet :=
  match s with c :: s' => if isspace c then skip_space s' else s | [] => [] end.
(** %s, behind the spaces *)
Fixpoint scan_word (s : list octet) : list octet * list octet :=
  match s with
  | c :: s' => if isspace c then ([], s) else let '(w, r) := scan_word s' in (c :: w, r)
  | [] => ([], [])
  end.
(** %[^\n] *)
Fixpoint scan_line (s : list octet) : list octet :=
  match s with c :: s' => if c =? NEWLINE then [] else c :: scan_line s' | [] => [] end.

Fixpoint scan_words (n : nat) (s : list octet) : list (list octet) * list octet :=
  match n with
  | O => ([], s)
  | S n =>
      match scan_word (skip_space s) with
      | ([], s) => ([], [])
      | (w, s) => let '(ws, r) := scan_words n s in (w :: ws, r)
      end
  end.

(** sscanf(lp, "%s %s %s %[^\n]", ...): the fields that were matched, at most four *)
Definition sscanf_acl (lp : list octet) : list (list octet) :=
  let '(ws, rest) := scan_words 3 lp in
  match length ws, scan_line (skip_space rest) with
  | 3%nat, (_ :: _) as r => ws ++ [r]
  | _, _ => ws
  end.

(** The loop over acl_op_table for one character; [None] if it is not found. *)
Definition apply_op (allowed : Z) (op : octet) : option Z :=
  let rop := tolower op in
  foldl (fun acc '(ao_op, ao_mask) =>
           if rop =? ao_op then
             let a := match acc with Some a => a | None => allowed end in
             Some (if rop =? op then Z.lor a ao_mask else Z.land a (Z.lnot ao_mask))
           else acc) None acl_op_table.

(** ae_op_allowed, and opok *)
Fixpoint apply_ops (allowed : Z) (ops : list octet) : Z * bool :=
  match ops with
  | [] => (allowed, true)
  | op :: ops =>
      match apply_op allowed op with
      | Some a => apply_ops a ops
      | None => ((apply_ops allowed ops).1, false)
      end
  end.

(** The string without the spaces at its end *)
Definition trim_end (s : list octet) : list octet := reverse (skip_space (reverse s)).

Section acl.
Context `{P : Platform} (BUFSIZ : Z).

Definition sizeof_aent : Z := 11 * sizeof_long.
Definition sizeof_restriction : Z := 24 + 3 * sizeof_long.

(** [None] for NULL *)
Definition strdup (s : list octet) : option (list octet) :=
  match malloc (zlen s + 1) with Some _ => Some s | None => None end.

(** [None] for NULL.  When an operation is not known, or the name cannot be copied, acle is
    set to NULL and its members are assigned all the same. *)
Definition acl_parse_line (lp : list octet) : outcome error_code (option aent_t) :=
  let fields := sscanf_acl lp in
  if existsb (fun f => BUFSIZ <=? zlen f) fields then Undefined
  else
    match fields with
    | principal :: ops :: more =>
        match malloc sizeof_aent with
        | None => Ok None
        | Some _ =>
            let target := match more with object :: _ => strdup object | [] => None end in
            let '(allowed, opok) := apply_ops 0 ops in
            if negb opok then Undefined
            else
              match strdup principal with
              | None => Undefined
              | Some name =>
                  let restrictions := match more with _ :: r :: _ => strdup (trim_end r) | _ => None end in
                  Ok (Some (Aent name false None allowed target false None restrictions false None))
              end
        end
    | _ => Ok None
    end.

(** acl_catchall_entry *)
Definition acl_catchall_entry : option (list octet) := None.

(** The loop over the lines: the entries, and whether all of them could be parsed. *)
Fixpoint load_lines (lines : nat) (fp : acl_stream) : outcome error_code (list aent_t * bool) :=
  match lines with
  | O => OutOfFuel
  | S lines =>
      match acl_get_line (S (length (fp_rest fp))) BUFSIZ fp with
      | (None, _) => Ok ([], true)
      | (Some line, fp) =>
          let* e := acl_parse_line line in
          match e with
          | None => Ok ([], false)
          | Some e => let* '(l, ok) := load_lines lines fp in Ok (e :: l, ok)
          end
      end
  end.

(** The list of entries and acl_inited.  [file] is [None] if it cannot be opened; the
    number of lines is bounded by that of its characters. *)
Definition acl_load_acl_file (file : option (list octet)) : outcome error_code (list aent_t * bool) :=
  let* '(l, retval) :=
    match file with
    | Some text =>
        let* '(l, retval) := load_lines (S (S (length text))) (Stream text false) in
        match acl_catchall_entry with
        | None => Ok (l, retval)
        | Some lp => let* e := acl_parse_line lp in Ok (match e with Some e => (l ++ [e], retval) | None => (l, false) end)
        end
    | None =>
        match acl_catchall_entry with
        | None => Ok ([], false)
        | Some lp => let* e := acl_parse_line lp in Ok (match e with Some e => ([e], true) | None => ([], false) end)
        end
    end in
  Ok (if retval then (l, true) else ([], false)).

(** ** Restrictions *)

(** strtok with the delimiters of acl_parse_restrictions *)
Definition is_delim (c : octet) : bool := isspace c || (c =? octet_at ",").

Fixpoint strtok_all (word s : list octet) : list (list octet) :=
  match s with
  | [] => match word with [] => [] | _ => [word] end
  | c :: s =>
      if is_delim c then match word with [] => strtok_all [] s | _ => word :: strtok_all [] s end
      else strtok_all (word ++ [c]) s
  end.

Section parse.
Context (krb5_string_to_deltat : list octet -> option Z).

(** The last restriction of a kind counts. *)
Definition set_lifetime (tp : list octet) (dt : Z) (r : restriction_t) : option restriction_t :=
  let '(Restriction mask req forbid pl pwl ml mrl aux pol) := r in
  if bool_decide (tp = chars_of "-expire") then Some (Restriction (Z.lor mask KADM5_PRINC_EXPIRE_TIME) req forbid dt pwl ml mrl aux pol)
  else if bool_decide (tp = chars_of "-pwexpire") then Some (Restriction (Z.lor mask KADM5_PW_EXPIRATION) req forbid pl dt ml mrl aux pol)
  else if bool_decide (tp = chars_of "-maxlife") then Some (Restriction (Z.lor mask KADM5_MAX_LIFE) req forbid pl pwl dt mrl aux pol)
  else if bool_decide (tp = chars_of "-maxrenewlife") then Some (Restriction (Z.lor mask KADM5_MAX_RLIFE) req forbid pl pwl ml dt aux pol)
  else None.

Definition add_attrs (flag : Z) (tp : list octet) (r : restriction_t) : restriction_t :=
  let '(Restriction mask req forbid pl pwl ml mrl aux pol) := r in
  let mask := Z.lor mask KADM5_ATTRIBUTES in
  if negb (flag =? 0) then Restriction mask (Z.lor req flag) forbid pl pwl ml mrl aux pol
  else
    let flag := match krb5_string_to_flags tp (chars_of "+") (chars_of "-") (Z.lnot 0) with Ok f => f | _ => Z.lnot 0 end in
    Restriction mask req (Z.lor forbid (Z.lnot flag)) pl pwl ml mrl aux pol.

Fixpoint restrictions_loop (ts : list (list octet)) (r : restriction_t) : outcome error_code restriction_t :=
  match ts with
  | [] => Ok r
  | tp :: ts =>
      match krb5_string_to_flags tp (chars_of "+") (chars_of "-") 0 with
      | Ok flag => restrictions_loop ts (add_attrs flag tp r)
      | _ =>
          if bool_decide (tp = chars_of "-clearpolicy") then
            let '(Restriction mask req forbid pl pwl ml mrl aux pol) := r in
            restrictions_loop ts (Restriction (Z.lor mask KADM5_POLICY_CLR) req forbid pl pwl ml mrl aux pol)
          else
            match ts with
            | [] => Err EINVAL
            | ap :: ts =>
                if bool_decide (tp = chars_of "-policy") then
                  match strdup ap with
                  | None => Err ENOMEM
                  | Some policy =>
                      let '(Restriction mask req forbid pl pwl ml mrl aux _) := r in
                      restrictions_loop ts (Restriction (Z.lor mask KADM5_POLICY) req forbid pl pwl ml mrl aux (Some policy))
                  end
                else
                  match krb5_string_to_deltat ap with
                  | None => Err EINVAL
                  | Some dt =>
                      match set_lifetime tp dt r with
                      | None => Err EINVAL
                      | Some r => restrictions_loop ts r
                      end
                  end
            end
      end
  end.

(** For a string that is not NULL, as it is called *)
Definition acl_parse_restrictions (s : list octet) : outcome error_code restriction_t :=
  match strdup s, malloc sizeof_restriction with
  | Some sp, Some _ => restrictions_loop (strtok_all [] sp) no_restriction
  | _, _ => Err ENOMEM
  end.

(** ** Finding the entry *)

(** strncmp(s1, s2, n) == 0; the storage of the strings must not be left. *)
Fixpoint strncmp_eq (n : nat) (s1 s2 : list octet) : outcome error_code bool :=
  match n with
  | O => Ok true
  | S n =>
      match s1, s2 with
      | a :: s1, b :: s2 => if a =? b then if a =? 0 then Ok true else strncmp_eq n s1 s2 else Ok false
      | _, _ => Undefined
      end
  end.
Definition data_strncmp_eq (n : Z) (p1 p2 : option (list octet)) : outcome error_code bool :=
  if n <? 0 then Undefined else strncmp_eq (Z.to_nat n) (default [] p1) (default [] p2).

(** wildstate_t: the first nwild elements of backref *)
Abbreviation wildstate_t := (list krb5_data).

(** e1->data[0] == '*' and e1->data[1] a digit from 1 to 9: the number of the wildcard *)
Definition backref_of (e1 : krb5_data) : option nat :=
  match d_data e1 with
  | Some (a :: b :: _) =>
      if (d_length e1 =? 2) && (a =? octet_at "*") && (49 <=? b) && (b <=? 57) then Some (Z.to_nat (b - 49)) else None
  | _ => None
  end.

(** The wildcards are those of [ws], [None] for NULL. *)
Definition acl_match_data (e1 e2 : krb5_data) (targetflag : bool) (ws : option wildstate_t)
    : outcome error_code (bool * option wildstate_t) :=
  let* wild := data_strncmp_eq (d_length e1) (d_data e1) (Some [octet_at "*"; 0]) in
  if wild then
    Ok (true, match ws with
              | Some l => if negb targetflag && (length l <? 9)%nat then Some (l ++ [e2]) else Some l
              | None => None
              end)
  else
    match ws, targetflag, backref_of e1 with
    | Some l, true, Some n =>
        match l !! n with
        | None => Ok (false, ws)
        | Some b =>
            if d_length b =? d_length e2 then
              let* eq := data_strncmp_eq (d_length e2) (d_data b) (d_data e2) in Ok (eq, ws)
            else Ok (false, ws)
        end
    | _, _, _ =>
        if d_length e1 =? d_length e2 then
          let* eq := data_strncmp_eq (d_length e1) (d_data e1) (d_data e2) in Ok (eq, ws)
        else Ok (false, ws)
    end.

(** The loop over the components, which ends with the first that does not match. *)
Fixpoint match_components (n : nat) (l1 l2 : list krb5_data) (targetflag : bool) (ws : wildstate_t)
    : outcome error_code (bool * wildstate_t) :=
  match n with
  | O => Ok (true, ws)
  | S n =>
      match l1, l2 with
      | e1 :: l1, e2 :: l2 =>
          let* '(good, ws') := acl_match_data e1 e2 targetflag (Some ws) in
          let ws := default ws ws' in
          if good then match_components n l1 l2 targetflag ws else Ok (false, ws)
      | _, _ => Undefined
      end
  end.

Definition match_principal (pattern princ : krb5_principal_data) (targetflag : bool) (ws : wildstate_t)
    : outcome error_code (bool * wildstate_t) :=
  let* '(good, _) := acl_match_data (pr_realm pattern) (pr_realm princ) targetflag None in
  if good && (pr_length pattern =? pr_length princ) then
    match_components (Z.to_nat (pr_length princ)) (default [] (pr_data pattern)) (default [] (pr_data princ)) targetflag ws
  else Ok (false, ws).

(** The static variables of the server: the entries, acl_inited, and the default realm that
    krb5_parse_name keeps *)
Record acl_state : Type := AclState { ac_list : list aent_t; ac_inited : bool; ac_default_realm : option (list octet) }.

Context (get_default_realm : outcome error_code (list octet)).

(** krb5_parse_name of a name that is not parsed yet: the principal, and whether it is bad *)
Definition parse_once (name : list octet) (princ : option krb5_principal_data) (bad : bool) (dr : option (list octet))
    : outcome error_code (option krb5_principal_data * bool) * option (list octet) :=
  match princ, bad with
  | None, false =>
      match krb5_parse_name get_default_realm dr (name ++ [0]) with
      | (Ok p, dr) => (Ok (Some p, false), dr)
      | (Err _, dr) => (Ok (None, true), dr)
      | (Undefined, dr) => (Undefined, dr)
      | (OutOfFuel, dr) => (OutOfFuel, dr)
      end
  | _, _ => (Ok (princ, bad), dr)
  end.

(** What becomes of an entry: the entry with what was parsed, the wildcards, the default
    realm, and the verdict *)
Inductive verdict : Type := Skip | Found | Match.

(** The name: [Skip] or [Match] *)
Definition match_name (principal : krb5_principal_data) (e : aent_t) (ws : wildstate_t) (dr : option (list octet))
    : outcome error_code (aent_t * wildstate_t * option (list octet) * verdict) :=
  if ae_name_bad e then Ok (e, ws, dr, Skip)
  else if bool_decide (ae_name e = [octet_at "*"]) then Ok (e, ws, dr, Match)
  else
    let '(r, dr) := parse_once (ae_name e) (ae_principal e) (ae_name_bad e) dr in
    let* '(p, bad) := r in
    let e := with_name e bad p in
    match p with
    | Some p =>
        if bad then Ok (e, ws, dr, Skip)
        else let* '(good, ws) := match_principal p principal false ws in Ok (e, ws, dr, if good then Match else Skip)
    | None => Ok (e, ws, dr, Skip)
    end.

(** The target: [Found] is the break for a target of any name *)
Definition match_target (dest_princ : option krb5_principal_data) (e : aent_t) (ws : wildstate_t) (dr : option (list octet))
    : outcome error_code (aent_t * wildstate_t * option (list octet) * verdict) :=
  match ae_target e with
  | None => Ok (if ae_target_bad e then spoil e else e, ws, dr, if ae_target_bad e then Skip else Match)
  | Some target =>
      if bool_decide (target = [octet_at "*"]) then Ok (e, ws, dr, Found)
      else
        let '(r, dr) := parse_once target (ae_target_princ e) (ae_target_bad e) dr in
        let* '(p, bad) := r in
        let e := with_target e bad p in
        if bad then Ok (spoil e, ws, dr, Skip)
        else
          match dest_princ, p with
          | None, _ => Ok (e, ws, dr, Skip)
          | Some dest, Some p =>
              let* '(good, ws) := match_principal p dest true ws in Ok (e, ws, dr, if good then Match else Skip)
          | Some _, None => Ok (e, ws, dr, Match)
          end
  end.

(** The restrictions: [Skip] or [Match] *)
Definition match_restrictions (e : aent_t) : outcome error_code (aent_t * verdict) :=
  let* e :=
    match ae_restriction_string e, ae_restriction_bad e, ae_restrictions e with
    | Some s, false, None =>
        match acl_parse_restrictions s with
        | Ok r => Ok (with_restrictions e false (Some r))
        | Err _ => Ok (with_restrictions e true None)
        | Undefined => Undefined
        | OutOfFuel => OutOfFuel
        end
    | _, _, _ => Ok e
    end in
  Ok (if ae_restriction_bad e then (spoil e, Skip) else (e, Match)).

(** The body of the loop *)
Definition match_entry (principal : krb5_principal_data) (dest_princ : option krb5_principal_data)
    (e : aent_t) (ws : wildstate_t) (dr : option (list octet))
    : outcome error_code (aent_t * wildstate_t * option (list octet) * bool) :=
  let* '(e, ws, dr, v) := match_name principal e ws dr in
  match v with
  | Skip => Ok (e, ws, dr, false)
  | _ =>
      let* '(e, ws, dr, v) := match_target dest_princ e ws dr in
      match v with
      | Skip => Ok (e, ws, dr, false)
      | Found => Ok (e, ws, dr, true)
      | Match => let* '(e, v) := match_restrictions e in Ok (e, ws, dr, match v with Skip => false | _ => true end)
      end
  end.

(** The entries as they are afterwards, and the entry that was found.  The wildcards of all
    entries that were looked at accumulate in [ws]. *)
Fixpoint find_loop (principal : krb5_principal_data) (dest_princ : option krb5_principal_data) (l : list aent_t)
    (ws : wildstate_t) (dr : option (list octet))
    : outcome error_code (list aent_t * option (list octet) * option aent_t) :=
  match l with
  | [] => Ok ([], dr, None)
  | e :: l =>
      let* '(e, ws, dr, found) := match_entry principal dest_princ e ws dr in
      if found then Ok (e :: l, dr, Some e)
      else let* '(l, dr, r) := find_loop principal dest_princ l ws dr in Ok (e :: l, dr, r)
  end.

Definition acl_find_entry (principal : krb5_principal_data) (dest_princ : option krb5_principal_data) (st : acl_state)
    : outcome error_code (option aent_t * acl_state) :=
  let* '(l, dr, r) := find_loop principal dest_princ (ac_list st) [] (ac_default_realm st) in
  Ok (r, AclState l (ac_inited st) dr).

(** ** The interface *)

Definition acl_init (file : option (list octet)) (dr : option (list octet)) : outcome error_code acl_state :=
  let* '(l, inited) := acl_load_acl_file file in Ok (AclState l inited dr).

Definition acl_finish (st : acl_state) : acl_state := AclState [] false (ac_default_realm st).

(** The boolean, and what is assigned to *restrictions; [None] if nothing is.  [caller] is
    what gss_display_name gives for the caller, [None] for an error of it.  An error of
    krb5_parse_name is returned as the boolean, which it makes true. *)
Definition acl_check (caller : option (list octet)) (opmask : Z) (principal : option krb5_principal_data) (st : acl_state)
    : outcome error_code (bool * option (option restriction_t) * acl_state) :=
  match caller with
  | None => Ok (false, None, st)
  | Some name =>
      match krb5_parse_name get_default_realm (ac_default_realm st) name with
      | (Err _, dr) => Ok (true, None, AclState (ac_list st) (ac_inited st) dr)
      | (Undefined, _) => Undefined
      | (OutOfFuel, _) => OutOfFuel
      | (Ok caller_princ, dr) =>
          let* '(aentry, st) := acl_find_entry caller_princ principal (AclState (ac_list st) (ac_inited st) dr) in
          Ok (match aentry with
              | Some e =>
                  if Z.land (ae_op_allowed e) opmask =? opmask then
                    (true, Some (match ae_restrictions e with
                                 | Some r => if rs_mask r =? 0 then None else Some r
                                 | None => None
                                 end), st)
                  else (false, None, st)
              | None => (false, None, st)
              end)
      end
  end.

End parse.

(** ** Imposing restrictions *)

(** kadm5_principal_ent_rec *)
Record kadm5_principal_ent : Type := KadmPrincipal {
  ke_principal : option krb5_principal_data; ke_princ_expire_time : Z; ke_last_pwd_change : Z; ke_pw_expiration : Z;
  ke_max_life : Z; ke_mod_name : option krb5_principal_data; ke_mod_date : Z; ke_attributes : Z; ke_kvno : Z; ke_mkvno : Z;
  ke_policy : option (list octet); ke_aux_attributes : Z; ke_max_renewable_life : Z; ke_last_success : Z; ke_last_failed : Z;
  ke_fail_auth_count : Z; ke_n_tl_data : Z; ke_tl_data : list krb5_tl_data; ke_key_data : list krb5_key_data
}.

(** The members that restrictions change *)
Definition restricted (e : kadm5_principal_ent) (princ_expire pw_expire max_life attrs : Z) (policy : option (list octet)) (max_rlife : Z)
    : kadm5_principal_ent :=
  KadmPrincipal (ke_principal e) princ_expire (ke_last_pwd_change e) pw_expire max_life (ke_mod_name e) (ke_mod_date e) attrs
    (ke_kvno e) (ke_mkvno e) policy (ke_aux_attributes e) max_rlife (ke_last_success e) (ke_last_failed e)
    (ke_fail_auth_count e) (ke_n_tl_data e) (ke_tl_data e) (ke_key_data e).

Definition has_bit (mask bit : Z) : bool := negb (Z.land mask bit =? 0).

(** now + lifetime as a krb5_int32 *)
Definition after (now lifetime : Z) : outcome error_code Z :=
  if bool_decide (is_int 32 (now + lifetime)) then Ok (now + lifetime) else Undefined.

(** A time or a duration with an upper bound *)
Definition bounded (rmask mask bit : Z) (value : Z) (bound : outcome error_code Z) : outcome error_code Z :=
  if has_bit rmask bit then let* b := bound in Ok (if negb (has_bit mask bit) || (b <? value) then b else value) else Ok value.
Definition mask_if (rmask mask bit : Z) : Z := if has_bit rmask bit then Z.lor mask bit else mask.

(** *recp and *maskp.  krb5_timeofday gives [now], or fails; it is asked if a time is
    restricted. *)
Definition acl_impose_restrictions (now : outcome error_code Z) (rec : kadm5_principal_ent) (mask : Z) (rp : option restriction_t)
    : outcome error_code (kadm5_principal_ent * Z) :=
  match rp with
  | None => Ok (rec, mask)
  | Some rp =>
      let m := rs_mask rp in
      let* now := (if has_bit m (Z.lor KADM5_PRINC_EXPIRE_TIME KADM5_PW_EXPIRATION) then now else Ok 0) in
      let attrs :=
        if has_bit m KADM5_ATTRIBUTES
        then Z.land (Z.lor (ke_attributes rec) (rs_require_attrs rp)) (Z.lnot (rs_forbid_attrs rp)) else ke_attributes rec in
      let mask := mask_if m mask KADM5_ATTRIBUTES in
      let* '(policy, mask) :=
        (if has_bit m KADM5_POLICY_CLR then Ok (ke_policy rec, Z.lor (Z.land mask (Z.lnot KADM5_POLICY)) KADM5_POLICY_CLR)
         else if has_bit m KADM5_POLICY then
           match rs_policy rp with
           | None => Undefined
           | Some pol =>
               if bool_decide (ke_policy rec = Some pol) then Ok (Some pol, Z.lor mask KADM5_POLICY)
               else match strdup pol with Some pol => Ok (Some pol, Z.lor mask KADM5_POLICY) | None => Err ENOMEM end
           end
         else Ok (ke_policy rec, mask)) in
      let* princ_expire := bounded m mask KADM5_PRINC_EXPIRE_TIME (ke_princ_expire_time rec) (after now (rs_princ_lifetime rp)) in
      let mask := mask_if m mask KADM5_PRINC_EXPIRE_TIME in
      let* pw_expire := bounded m mask KADM5_PW_EXPIRATION (ke_pw_expiration rec) (after now (rs_pw_lifetime rp)) in
      let mask := mask_if m mask KADM5_PW_EXPIRATION in
      let* max_life := bounded m mask KADM5_MAX_LIFE (ke_max_life rec) (Ok (rs_max_life rp)) in
      let mask := mask_if m mask KADM5_MAX_LIFE in
      let* max_rlife := bounded m mask KADM5_MAX_RLIFE (ke_max_renewable_life rec) (Ok (rs_max_renewable_life rp)) in
      let mask := mask_if m mask KADM5_MAX_RLIFE in
      Ok (restricted rec princ_expire pw_expire max_life attrs policy max_rlife, mask)
  end.

End acl.
