(* ===== verification/KadmAclProofs.v ===== *)
(** * The administration server grants what its file of access rights says (KadmAcl.v)

    The rule of the file: the first line that covers the caller and the target of a request
    governs it.  Over any history of requests, among which parsed names and restrictions are
    kept in the entries, the answers are those of the rule. *)

From Stdlib Require Import String.
From S2P Require Import Prelude CString Asn1Buf Krb5Types PrincName PrincNameProofs Kdc Kdb KadmAcl.

(** ** The rule *)

Definition star : list octet := [42].

(** What a line of the file says *)
Record acl_line : Type := AclLine {
  al_who : list octet; al_ops : list octet; al_target : option (list octet); al_restrictions : option (list octet)
}.

(** A name is its realm and its components. *)
Abbreviation name := (list octet * list (list octet))%type.

(** A component that is empty or a star covers all. *)
Definition covers (p c : list octet) : bool := bool_decide (p = []) || bool_decide (p = star) || bool_decide (p = c).
Fixpoint covers_all (ps cs : list (list octet)) : bool :=
  match ps, cs with
  | [], [] => true
  | p :: ps, c :: cs => covers p c && covers_all ps cs
  | _, _ => false
  end.
Definition covers_name (p n : name) : bool := covers p.1 n.1 && covers_all p.2 n.2.

Section rule.
Context `{P : Platform} (deltat : list octet -> option Z) (get : outcome error_code (list octet)).

(** The name that a string stands for *)
Definition reading (s : list octet) : option name :=
  match read_name s with
  | Some (c0, cs, Some r) => Some (r, c0 :: cs)
  | Some (c0, cs, None) => match get with Ok d => Some (cstring d, c0 :: cs) | _ => None end
  | None => None
  end.

Definition covered_by (s : list octet) (n : name) : bool := match reading s with Some p => covers_name p n | None => false end.

Definition any_target (l : acl_line) : bool := bool_decide (al_target l = Some star).

(** The restrictions that a line imposes, [None] if they cannot be read; a line for any
    target imposes none. *)
Definition line_restrictions (l : acl_line) : option (option restriction_t) :=
  if any_target l then Some None
  else match al_restrictions l with
       | None => Some None
       | Some s => match acl_parse_restrictions deltat s with Ok r => Some (Some r) | _ => None end
       end.

Definition covers_caller (l : acl_line) (caller : name) : bool := bool_decide (al_who l = star) || covered_by (al_who l) caller.
Definition covers_target (l : acl_line) (dest : option name) : bool :=
  match al_target l, dest with
  | None, _ => true
  | Some t, Some n => any_target l || covered_by t n
  | Some t, None => any_target l
  end.

Definition governs (caller : name) (dest : option name) (l : acl_line) : bool :=
  covers_caller l caller && covers_target l dest && bool_decide (is_Some (line_restrictions l)).

Definition ops_mask (l : acl_line) : Z := (apply_ops 0 (al_ops l)).1.

(** The answer, with the restrictions if it is positive *)
Definition decision (lines : list acl_line) (caller : name) (op : Z) (dest : option name) : bool * option (option restriction_t) :=
  match List.find (governs caller dest) lines with
  | Some l =>
      if Z.land (ops_mask l) op =? op then
        (true, Some (match line_restrictions l with Some (Some r) => if rs_mask r =? 0 then None else Some r | _ => None end))
      else (false, None)
  | None => (false, None)
  end.

(** ** Comparing names *)

Lemma strncmp_eq_ok (s1 s2 t1 t2 : list octet) : no_nul s1 -> length s1 = length s2 ->
  strncmp_eq (length s1) (s1 ++ t1) (s2 ++ t2) = Ok (bool_decide (s1 = s2)).
Proof.
  revert s2. induction s1 as [|a s1 IH]; intros [|b s2] Hn HL; try done. apply Forall_cons_1 in Hn as [Ha Hn].
  cbn [length app strncmp_eq]. destruct (Z.eqb_spec a b) as [->|Hab].
  - destruct (Z.eqb_spec b 0); [done|]. injection HL as HL. rewrite (IH s2 Hn HL).
    f_equal. apply bool_decide_ext. split; [by intros ->|by injection 1].
  - rewrite bool_decide_eq_false_2; [done|]. by injection 1.
Qed.

Lemma holds_storage d s : data_holds d s -> exists t, default [] (d_data d) = s ++ t.
Proof. intros [_ H]. destruct (d_data d); [done|]. subst. by exists []. Qed.

Lemma data_strncmp_ok d1 d2 s1 s2 : data_holds d1 s1 -> data_holds d2 s2 -> no_nul s1 -> zlen s1 = zlen s2 ->
  data_strncmp_eq (zlen s1) (d_data d1) (d_data d2) = Ok (bool_decide (s1 = s2)).
Proof.
  intros [t1 E1]%holds_storage [t2 E2]%holds_storage Hn HL. unfold data_strncmp_eq. pose proof (zlen_nonneg s1).
  destruct (Z.ltb_spec (zlen s1) 0); [lia|]. rewrite E1, E2. unfold zlen in *. rewrite Nat2Z.id. apply strncmp_eq_ok; [done|lia].
Qed.

(** The comparison with the star *)
Lemma strncmp_star d s : data_holds d s -> no_nul s ->
  data_strncmp_eq (zlen s) (d_data d) (Some [octet_at "*"; 0]) = Ok (bool_decide (s = []) || bool_decide (s = star)).
Proof.
  intros [t E]%holds_storage Hn. unfold data_strncmp_eq. pose proof (zlen_nonneg s). destruct (Z.ltb_spec (zlen s) 0); [lia|].
  rewrite E. unfold zlen. rewrite Nat2Z.id. change (octet_at "*") with 42. change (default [] (Some [42; 0])) with [42; 0]. clear E.
  destruct s as [|a [|b s]]; [done| |]; cbn [length app strncmp_eq].
  - unfold star. destruct (Z.eqb_spec a 42) as [->|]; [done|]. rewrite !bool_decide_eq_false_2; [done|congruence|done].
  - unfold star. rewrite !bool_decide_eq_false_2 by done. apply Forall_cons_1 in Hn as [_ [Hb _]%Forall_cons_1].
    destruct (Z.eqb_spec a 42) as [->|]; [|done]. cbn. by destruct (Z.eqb_spec b 0).
Qed.

Definition is_backref (s : list octet) : Prop := exists b, s = [42; b] /\ 49 <= b <= 57.

Lemma backref_none d s : data_holds d s -> ~ is_backref s -> backref_of d = None.
Proof.
  intros [HL HD] Hs. unfold backref_of. destruct (d_data d) as [l|]; [|done]. destruct HD as [t ->].
  rewrite HL. change (octet_at "*") with 42. destruct s as [|a [|b [|c s]]]; cbn [app]; destruct t as [|t0 [|t1 t]]; try done.
  all: try (destruct (_ && _) eqn:E; [|done]; apply andb_prop in E as [E E4%Z.leb_le]; apply andb_prop in E as [E E3%Z.leb_le];
            apply andb_prop in E as [E1%Z.eqb_eq E2%Z.eqb_eq]; exfalso).
  all: try (revert E1; unfold zlen; cbn [length]; lia).
  all: subst a; apply Hs; exists b; split; [done|lia].
Qed.

Lemma match_data_ok e1 e2 p c flag ws : data_holds e1 p -> data_holds e2 c -> no_nul p -> (flag = true -> ~ is_backref p) ->
  exists ws', acl_match_data e1 e2 flag ws = Ok (covers p c, ws') /\ (ws' = None <-> ws = None).
Proof.
  intros H1 H2 Hn Hb. unfold acl_match_data. pose proof H1 as [L1 _]. pose proof H2 as [L2 _]. rewrite L1, L2, (strncmp_star e1 p H1 Hn). cbn [obind].
  unfold covers. destruct (bool_decide (p = []) || bool_decide (p = star)) eqn:W; cbn [orb].
  - eexists. split; [done|]. destruct ws as [l|]; [|done]. destruct (_ && _); done.
  - assert (K : (if zlen p =? zlen c then let* eq := data_strncmp_eq (zlen p) (d_data e1) (d_data e2) in Ok (eq, ws) else Ok (false, ws))
                = Ok (bool_decide (p = c), ws)).
    { destruct (Z.eqb_spec (zlen p) (zlen c)); [by rewrite (data_strncmp_ok e1 e2 p c)|].
      rewrite bool_decide_eq_false_2; [done|]. intros ->. done. }
    exists ws. split; [|done]. rewrite K. destruct ws as [l|], flag; try done. by rewrite (backref_none e1 p H1 (Hb eq_refl)).
Qed.

Lemma match_components_ok l1 l2 ps cs flag ws :
  Forall2 data_holds l1 ps -> Forall2 data_holds l2 cs -> Forall no_nul ps -> (flag = true -> Forall (fun p => ~ is_backref p) ps) -> length ps = length cs ->
  exists ws', match_components (length cs) l1 l2 flag ws = Ok (covers_all ps cs, ws').
Proof.
  intros H1. revert l2 cs ws. induction H1 as [|d1 p l1 ps Hd H1 IH]; intros l2 cs ws H2 Hn Hb HL; destruct H2 as [|d2 c l2 cs Hc H2]; try done.
  - by exists ws.
  - apply Forall_cons_1 in Hn as [Hp Hn]. cbn [length match_components covers_all].
    destruct (match_data_ok d1 d2 p c flag (Some ws) Hd Hc Hp) as (ws' & -> & _); [intros E; by apply (Forall_cons_1 _ _ _ (Hb E))|]. cbn [obind].
    destruct (covers p c); cbn [andb]; [|by eexists]. apply IH; [done|done|intros E; by apply (Forall_cons_1 _ _ _ (Hb E))|]. by injection HL.
Qed.

Lemma covers_all_length ps cs : covers_all ps cs = true -> length ps = length cs.
Proof.
  revert cs. induction ps as [|p ps IH]; intros [|c cs]; try done. cbn [covers_all length]. intros [_ H]%andb_prop. by rewrite (IH cs).
Qed.

(** The components of a pattern: no NUL in them, and no references to wildcards where the
    wildcards could be referred to. *)
Definition plain (flag : bool) (p : name) : Prop := no_nul p.1 /\ Forall no_nul p.2 /\ (flag = true -> Forall (fun c => ~ is_backref c) (p.1 :: p.2)).

Lemma match_principal_ok pattern princ (p n : name) flag ws :
  princ_holds pattern p.1 p.2 -> princ_holds princ n.1 n.2 -> plain flag p ->
  exists ws', match_principal pattern princ flag ws = Ok (covers_name p n, ws').
Proof.
  intros (HR1 & HL1 & l1 & E1 & F1) (HR2 & HL2 & l2 & E2 & F2) (Hn & Hns & Hb). unfold match_principal, covers_name.
  destruct (match_data_ok _ _ _ _ flag None HR1 HR2 Hn) as (ws1 & -> & _); [intros E; by apply (Forall_cons_1 _ _ _ (Hb E))|]. cbn [obind].
  destruct (covers p.1 n.1); cbn [andb]; [|by eexists]. rewrite HL1, HL2, E1, E2. change (default [] (Some l1)) with l1. change (default [] (Some l2)) with l2.
  destruct (Z.eqb_spec (zlen p.2) (zlen n.2)) as [EL|NL].
  - unfold zlen. rewrite Nat2Z.id. apply match_components_ok; [done|done|done|intros E; by apply (Forall_cons_1 _ _ _ (Hb E))|unfold zlen in EL; lia].
  - eexists. f_equal. f_equal. destruct (covers_all p.2 n.2) eqn:E; [|done]. apply covers_all_length in E. unfold zlen in NL. lia.
Qed.

End rule.

(** ** Entries keep what was parsed of their line *)

Section entries.
Context `{P : Platform} (deltat : list octet -> option Z) (get : outcome error_code (list octet)).

(** Restrictions are read or refused. *)
Definition settled {A} (o : outcome error_code A) : Prop := match o with Ok _ | Err _ => True | _ => False end.

Lemma restrictions_settled n : forall ts r, (length ts <= n)%nat -> settled (restrictions_loop deltat ts r).
Proof.
  induction n as [|n IH]; intros [|tp ts] r Hn; cbn [restrictions_loop length] in *; [done|lia|done|].
  destruct (krb5_string_to_flags tp _ _ 0); [apply IH; lia|..].
  all: destruct (bool_decide (tp = chars_of "-clearpolicy")); [destruct r; apply IH; lia|]; destruct ts as [|ap ts]; [done|]; cbn [length] in Hn.
  all: destruct (bool_decide _); [destruct (strdup ap); [destruct r; apply IH; lia|done]|].
  all: destruct (deltat ap) as [dt|]; [|done]; destruct (set_lifetime tp dt r); [apply IH; lia|done].
Qed.

Lemma parse_restrictions_settled s : settled (acl_parse_restrictions deltat s).
Proof. unfold acl_parse_restrictions. destruct (strdup s); [destruct (malloc _); [by eapply restrictions_settled|]|]; done. Qed.

(** krb5_get_default_realm, and what krb5_parse_name keeps of it *)
Definition realm_known : Prop := match get with Ok d => strlen d + 1 <= malloc_limit | Err _ => True | _ => False end.
Definition kept (dr : option (list octet)) : Prop := dr = None \/ exists d, dr = Some d /\ get = Ok d.

Definition name_ok (s : list octet) : Prop := no_nul s /\ name_memory (zlen s).

Lemma parse_reading s junk dr : realm_known -> kept dr -> name_ok s ->
  exists r dr', krb5_parse_name get dr (s ++ 0 :: junk) = (r, dr') /\ kept dr' /\
    match reading get s with Some n => r = Ok (name_principal n.1 n.2) | None => exists e, r = Err e end.
Proof.
  intros HR HD [Hn Hm]. unfold realm_known in HR.
  assert (TD : the_default get dr = get) by (destruct HD as [->|(d & -> & ->)]; done).
  rewrite parse_name_eq; [|done|done|]; rewrite ?TD; cycle 1.
  { intros c0 cs d _ E. by rewrite E in HR. }
  unfold reading. destruct (read_name s) as [[[c0 cs] [r|]]|].
  - eexists _, _. split; [done|]. split; [done|done].
  - destruct get as [d|e| |] eqn:EG; try done; eexists _, _; (split; [done|]).
    + split; [|done]. right. by exists d.
    + split; [done|]. by eexists.
  - eexists _, _. split; [done|]. split; [done|]. by eexists.
Qed.

(** What is kept of a string that was parsed *)
Definition cached (s : list octet) (bad : bool) (p : option krb5_principal_data) : Prop :=
  match p with
  | Some p => bad = false /\ exists n, reading get s = Some n /\ p = name_principal n.1 n.2
  | None => bad = true -> reading get s = None
  end.

Lemma parse_once_ok s p bad dr : realm_known -> kept dr -> name_ok s -> cached s bad p ->
  exists p' bad' dr', parse_once get s p bad dr = (Ok (p', bad'), dr') /\ kept dr' /\ cached s bad' p' /\
    match reading get s with Some n => p' = Some (name_principal n.1 n.2) /\ bad' = false | None => p' = None /\ bad' = true end.
Proof.
  intros HR HD Hs HC. unfold parse_once. destruct p as [p|]; cbn [cached] in HC.
  - destruct HC as (-> & n & En & ->). eexists _, _, dr. split; [done|]. rewrite En. split; [done|]. split; [|done]. split; [done|]. by exists n.
  - destruct bad.
    + eexists _, _, dr. split; [done|]. split; [done|]. split; [done|]. by rewrite HC.
    + destruct (parse_reading s [] dr HR HD Hs) as (r & dr' & -> & HD' & Hr). destruct (reading get s) as [n|] eqn:En.
      * subst r. eexists _, _, dr'. split; [done|]. split; [done|]. split; [|done]. split; [done|]. by exists n.
      * destruct Hr as [e ->]. eexists _, _, dr'. split; [done|]. split; [done|]. split; [|done]. by intros _.
Qed.

Record line_ok (l : acl_line) : Prop := {
  ok_who : name_ok (al_who l);
  ok_target : forall t, al_target l = Some t -> name_ok t;
  ok_plain_who : forall p, reading get (al_who l) = Some p -> plain false p;
  ok_plain_target : forall t p, al_target l = Some t -> reading get t = Some p -> plain true p
}.

(** An entry of a line *)
Record entry_of (l : acl_line) (e : aent_t) : Prop := {
  eo_name : ae_name e = al_who l;
  eo_ops : ae_op_allowed e = ops_mask l;
  eo_target : ae_target e = al_target l;
  eo_restr : ae_restriction_string e = al_restrictions l;
  eo_bad : ae_name_bad e = true -> forall caller dest, governs deltat get caller dest l = false;
  eo_princ : ae_name_bad e = false -> cached (al_who l) false (ae_principal e);
  eo_tprinc : forall t, al_target l = Some t -> cached t (ae_target_bad e) (ae_target_princ e);
  eo_no_target : al_target l = None -> ae_target_bad e = false;
  eo_restr_bad : ae_restriction_bad e = true -> line_restrictions deltat l = None;
  eo_restrictions : forall r, ae_restrictions e = Some r -> line_restrictions deltat l = Some (Some r)
}.

Lemma governs_eq caller dest l :
  governs deltat get caller dest l = covers_caller get l caller && covers_target get l dest && bool_decide (is_Some (line_restrictions deltat l)).
Proof. done. Qed.

Lemma match_name_ok l e principal caller ws dr :
  realm_known -> kept dr -> line_ok l -> entry_of l e -> princ_holds principal caller.1 caller.2 ->
  exists e' ws' dr' v, match_name get principal e ws dr = Ok (e', ws', dr', v) /\ kept dr' /\ entry_of l e' /\
    (v = Skip /\ (forall dest, governs deltat get caller dest l = false) \/
     v = Match /\ covers_caller get l caller = true /\ ae_name_bad e' = false).
Proof.
  intros HR HD HL HE HC. unfold match_name. destruct (ae_name_bad e) eqn:EB.
  { eexists e, ws, dr, Skip. split; [done|]. split; [done|]. split; [done|]. left. split; [done|]. intros dest. by apply (eo_bad _ _ HE). }
  rewrite (eo_name _ _ HE). change [octet_at "*"] with star. case_bool_decide as ES.
  { eexists e, ws, dr, Match. split; [done|]. split; [done|]. split; [done|]. right. split; [done|]. unfold covers_caller.
    by rewrite (bool_decide_eq_true_2 _ ES). }
  destruct (parse_once_ok (al_who l) (ae_principal e) false dr HR HD (ok_who _ HL) (eo_princ _ _ HE EB)) as (p & bad & dr' & -> & HD' & HC' & HP).
  cbn [obind]. assert (CC : covers_caller get l caller = covered_by get (al_who l) caller) by (unfold covers_caller; by rewrite bool_decide_eq_false_2).
  assert (HE' : entry_of l (with_name e bad p)).
  { destruct HE. constructor; try done; cbn [with_name ae_name_bad ae_principal].
    - intros -> caller' dest. rewrite governs_eq. unfold covers_caller, covered_by. rewrite bool_decide_eq_false_2 by done.
      by destruct (reading get (al_who l)); [destruct HP|].
    - by intros ->. }
  unfold covered_by in CC. destruct (reading get (al_who l)) as [n|] eqn:En; destruct HP as [-> ->].
  - destruct (match_principal_ok (name_principal n.1 n.2) principal n caller false ws (princ_holds_name _ _) HC (ok_plain_who _ HL _ En)) as (ws' & ->).
    cbn [obind]. eexists _, ws', dr', _. split; [done|]. split; [done|]. split; [done|].
    destruct (covers_name n caller); [by right|]. left. split; [done|]. intros dest. rewrite governs_eq, CC. done.
  - eexists _, ws, dr', Skip. split; [done|]. split; [done|]. split; [done|]. left. split; [done|]. intros dest. by rewrite governs_eq, CC.
Qed.

Lemma entry_spoiled l e : entry_of l e -> (forall caller dest, governs deltat get caller dest l = false) -> entry_of l (spoil e).
Proof. intros [] HG. by constructor. Qed.

(** A target as a principal and as a name *)
Definition target_is (princ : option krb5_principal_data) (dest : option name) : Prop :=
  match princ, dest with Some p, Some n => princ_holds p n.1 n.2 | None, None => True | _, _ => False end.

Lemma match_target_ok l e dest_princ dest ws dr :
  realm_known -> kept dr -> line_ok l -> entry_of l e -> ae_name_bad e = false ->
  target_is dest_princ dest ->
  exists e' ws' dr' v, match_target get dest_princ e ws dr = Ok (e', ws', dr', v) /\ kept dr' /\ entry_of l e' /\
    match v with
    | Skip => forall caller, governs deltat get caller dest l = false
    | Found => any_target l = true /\ covers_target get l dest = true
    | Match => any_target l = false /\ covers_target get l dest = true /\ ae_name_bad e' = false
    end.
Proof.
  intros HR HD HL HE HB HP. unfold match_target. rewrite (eo_target _ _ HE). unfold any_target. destruct (al_target l) as [t|] eqn:ET; cycle 1.
  { rewrite (eo_no_target _ _ HE ET). eexists e, ws, dr, Match. split; [done|]. split; [done|]. split; [done|]. split; [done|].
    unfold covers_target. by rewrite ET. }
  change [octet_at "*"] with star. case_bool_decide as ES.
  { subst t. eexists e, ws, dr, Found. split; [done|]. split; [done|]. split; [done|]. split; [done|].
    unfold covers_target, any_target. rewrite ET, bool_decide_eq_true_2 by done. by destruct dest. }
  rewrite bool_decide_eq_false_2 by congruence.
  assert (AT : any_target l = false) by (unfold any_target; rewrite ET; apply bool_decide_eq_false_2; congruence).
  destruct (parse_once_ok t _ _ dr HR HD (ok_target _ HL t ET) (eo_tprinc _ _ HE t ET)) as (p & bad & dr' & -> & HD' & HC' & HQ). cbn [obind].
  assert (HE' : entry_of l (with_target e bad p)).
  { destruct HE. constructor; try done; cbn [with_target ae_target_bad ae_target_princ]; rewrite ET; [|done]. intros t' E. injection E as <-. done. }
  destruct (reading get t) as [n|] eqn:En; destruct HQ as [-> ->].
  - destruct dest_princ as [q|], dest as [m|]; try done.
    + destruct (match_principal_ok (name_principal n.1 n.2) q n m true ws (princ_holds_name _ _) HP (ok_plain_target _ HL _ _ ET En)) as (ws' & ->).
      cbn [obind]. eexists _, ws', dr', _. split; [done|]. split; [done|]. split; [done|].
      assert (CT : covers_target get l (Some m) = covers_name n m) by (unfold covers_target, covered_by; by rewrite ET, AT, En).
      destruct (covers_name n m); [done|]. intros caller. rewrite governs_eq, CT. by rewrite andb_false_r.
    + eexists _, ws, dr', Skip. split; [done|]. split; [done|]. split; [done|]. intros caller. rewrite governs_eq.
      unfold covers_target. rewrite ET, AT. by rewrite andb_false_r.
  - assert (G : forall caller dest, governs deltat get caller dest l = false).
    { intros caller d. rewrite governs_eq. unfold covers_target, covered_by. rewrite ET, AT, En. destruct d; by rewrite andb_false_r. }
    eexists _, ws, dr', Skip. split; [done|]. split; [done|]. split; [by apply entry_spoiled|]. intros caller. apply G.
Qed.

Lemma match_restrictions_ok l e : entry_of l e -> any_target l = false -> ae_name_bad e = false ->
  exists e' v, match_restrictions deltat e = Ok (e', v) /\ entry_of l e' /\
    match v with
    | Skip => line_restrictions deltat l = None
    | _ => line_restrictions deltat l = Some (ae_restrictions e')
    end.
Proof.
  intros HE AT HB. unfold match_restrictions. rewrite (eo_restr _ _ HE).
  assert (LR : line_restrictions deltat l = match al_restrictions l with None => Some None | Some s =>
    match acl_parse_restrictions deltat s with Ok r => Some (Some r) | _ => None end end) by (unfold line_restrictions; by rewrite AT).
  assert (DEAD : line_restrictions deltat l = None -> forall caller dest, governs deltat get caller dest l = false).
  { intros E caller dest. rewrite governs_eq, E. by rewrite andb_false_r. }
  destruct (ae_restriction_bad e) eqn:RB.
  { pose proof (eo_restr_bad _ _ HE RB) as E. replace (match al_restrictions l with Some _ => Ok e | None => Ok e end) with (Ok (E := error_code) e) by (by destruct (al_restrictions l)).
    destruct (al_restrictions l); cbn [obind]; rewrite RB; eexists _, _; (split; [done|]); (split; [by apply entry_spoiled; [|apply DEAD]|done]). }
  destruct (ae_restrictions e) as [r|] eqn:ER.
  { pose proof (eo_restrictions _ _ HE r ER) as E. destruct (al_restrictions l); cbn [obind]; rewrite RB; eexists _, _; (split; [done|]); (split; [done|by rewrite ER]). }
  destruct (al_restrictions l) as [s|] eqn:ES.
  - pose proof (parse_restrictions_settled s) as HS. destruct (acl_parse_restrictions deltat s) as [r|x| |] eqn:EP; [..|done|done]; cbn [obind].
    + eexists _, _. split; [done|]. split; [|done]. destruct HE. constructor; try done. cbn. intros r' E. by injection E as <-.
    + eexists _, _. split; [done|]. split; [|done]. apply entry_spoiled; [|by apply DEAD]. by destruct HE.
  - cbn [obind]. rewrite RB. eexists _, _. split; [done|]. split; [done|]. by rewrite ER.
Qed.

(** The body of the loop finds an entry if its line governs the request. *)
Lemma match_entry_ok l e principal caller dest_princ dest ws dr :
  realm_known -> kept dr -> line_ok l -> entry_of l e -> princ_holds principal caller.1 caller.2 ->
  target_is dest_princ dest ->
  exists e' ws' dr', match_entry deltat get principal dest_princ e ws dr = Ok (e', ws', dr', governs deltat get caller dest l) /\
    kept dr' /\ entry_of l e' /\ (governs deltat get caller dest l = true -> line_restrictions deltat l = Some (ae_restrictions e')).
Proof.
  intros HR HD HL HE HC HP. unfold match_entry.
  destruct (match_name_ok l e principal caller ws dr HR HD HL HE HC) as (e1 & ws1 & dr1 & v1 & -> & HD1 & HE1 & [[-> HG]|(-> & CC & HB)]); cbn [obind].
  { exists e1, ws1, dr1. rewrite HG. done. }
  destruct (match_target_ok l e1 dest_princ dest ws1 dr1 HR HD1 HL HE1 HB HP) as (e2 & ws2 & dr2 & v2 & -> & HD2 & HE2 & H2); cbn [obind].
  destruct v2.
  - exists e2, ws2, dr2. by rewrite H2.
  - destruct H2 as [AT CT]. assert (LR : line_restrictions deltat l = Some None) by (unfold line_restrictions; by rewrite AT).
    exists e2, ws2, dr2. rewrite governs_eq, CC, CT, LR. cbn [andb]. rewrite bool_decide_eq_true_2 by (by eexists). split; [done|]. split; [done|]. split; [done|].
    intros _. destruct (ae_restrictions e2) eqn:ER; [|done]. by rewrite (eo_restrictions _ _ HE2 _ ER) in LR.
  - destruct H2 as (AT & CT & HB2). destruct (match_restrictions_ok l e2 HE2 AT HB2) as (e3 & v3 & -> & HE3 & H3). cbn [obind].
    exists e3, ws2, dr2. rewrite governs_eq, CC, CT. cbn [andb]. destruct v3; rewrite H3.
    + rewrite bool_decide_eq_false_2 by (by intros [? ?]). done.
    + by rewrite bool_decide_eq_true_2 by (by eexists).
    + by rewrite bool_decide_eq_true_2 by (by eexists).
Qed.

(** The first line that governs *)
Lemma find_loop_ok principal caller dest_princ dest : realm_known -> princ_holds principal caller.1 caller.2 ->
  target_is dest_princ dest ->
  forall lines es ws dr, Forall line_ok lines -> Forall2 entry_of lines es -> kept dr ->
  exists es' dr' r, find_loop deltat get principal dest_princ es ws dr = Ok (es', dr', r) /\ Forall2 entry_of lines es' /\ kept dr' /\
    match List.find (governs deltat get caller dest) lines, r with
    | Some l, Some e => entry_of l e /\ line_restrictions deltat l = Some (ae_restrictions e)
    | None, None => True
    | _, _ => False
    end.
Proof.
  intros HR HC HP lines es ws dr HL HE. revert ws dr. induction HE as [|l e lines es He HE IH]; intros ws dr HD; cbn [find_loop List.find].
  { by eexists [], dr, None. }
  apply Forall_cons_1 in HL as [Hl HL].
  destruct (match_entry_ok l e principal caller dest_princ dest ws dr HR HD Hl He HC HP) as (e' & ws' & dr' & -> & HD' & He' & HG). cbn [obind].
  destruct (governs deltat get caller dest l).
  - eexists _, _, _. split; [done|]. split; [by constructor|]. split; [done|]. split; [done|]. by apply HG.
  - destruct (IH HL ws' dr' HD') as (es' & dr2 & r & -> & HE2 & HD2 & HF). cbn [obind]. eexists _, _, _. split; [done|]. split; [by constructor|]. done.
Qed.

(** ** Checks *)

(** A request: the name of the caller, as gss_display_name shows it, the operation and the
    target *)
Record acl_query : Type := AclQuery { aq_caller : name; aq_junk : list octet; aq_op : Z; aq_principal : option krb5_principal_data }.

Definition shown (n : name) : list octet := match n.2 with c0 :: cs => name_string n.1 c0 cs | [] => [] end.

Definition query_ok (q : acl_query) (dest : option name) : Prop :=
  (aq_caller q).1 <> [] /\ (aq_caller q).2 <> [] /\ name_memory (zlen (shown (aq_caller q))) /\
  target_is (aq_principal q) dest.

Definition check (q : acl_query) (st : acl_state) : outcome error_code (bool * option (option restriction_t) * acl_state) :=
  acl_check deltat get (Some (shown (aq_caller q) ++ 0 :: aq_junk q)) (aq_op q) (aq_principal q) st.

Lemma shown_reading n : n.1 <> [] -> n.2 <> [] -> reading get (shown n) = Some n.
Proof.
  destruct n as [r [|c0 cs]]; [done|]. cbn [fst snd]. intros Hr _. unfold reading, shown. cbn [fst snd]. by rewrite read_name_string.
Qed.

(** The entries are those of the lines. *)
Definition acl_inv (lines : list acl_line) (st : acl_state) : Prop := Forall2 entry_of lines (ac_list st) /\ kept (ac_default_realm st).

Lemma acl_check_ok lines s junk caller op princ dest st : realm_known -> Forall line_ok lines -> acl_inv lines st ->
  name_ok s -> reading get s = Some caller -> target_is princ dest ->
  exists st', acl_check deltat get (Some (s ++ 0 :: junk)) op princ st = Ok (decision deltat get lines caller op dest, st') /\ acl_inv lines st'.
Proof.
  intros HR HL [HE HD] NS ES HP. unfold acl_check.
  destruct (parse_reading _ junk _ HR HD NS) as (r & dr & -> & HD' & HQ). rewrite ES in HQ. subst r.
  unfold acl_find_entry. cbn [ac_list ac_default_realm ac_inited].
  destruct (find_loop_ok (name_principal caller.1 caller.2) caller princ dest HR (princ_holds_name _ _) HP lines (ac_list st) [] dr HL HE HD')
    as (es & dr' & r & -> & HE' & HD2 & HF). cbn [obind]. unfold decision.
  destruct (List.find _ lines) as [l|], r as [e|]; try done; cycle 1.
  { by eexists. }
  destruct HF as [He LR]. rewrite (eo_ops _ _ He), LR. destruct (_ =? _); by eexists.
Qed.

Lemma check_ok lines q dest st : realm_known -> Forall line_ok lines -> acl_inv lines st -> query_ok q dest ->
  exists st', check q st = Ok (decision deltat get lines (aq_caller q) (aq_op q) dest, st') /\ acl_inv lines st'.
Proof.
  intros HR HL HI (Hr & Hc & Hm & HP). unfold check. apply acl_check_ok; try done; [|by apply shown_reading].
  split; [unfold shown; destruct (aq_caller q).2; [done|apply name_string_no_nul]|done].
Qed.

(** A history of checks *)
Fixpoint check_all (qs : list acl_query) (st : acl_state) : outcome error_code (list (bool * option (option restriction_t))) :=
  match qs with
  | [] => Ok []
  | q :: qs => let* '(r, st) := check q st in let* rs := check_all qs st in Ok (r :: rs)
  end.

Lemma check_all_ok lines : realm_known -> Forall line_ok lines -> forall qs dests st,
  acl_inv lines st -> Forall2 query_ok qs dests ->
  check_all qs st = Ok (zip_with (fun q dest => decision deltat get lines (aq_caller q) (aq_op q) dest) qs dests).
Proof.
  intros HR HL qs dests st HI HQ. revert st HI. induction HQ as [|q d qs ds Hq HQ IH]; intros st HI; [done|]. cbn [check_all zip_with].
  destruct (check_ok lines q d st HR HL HI Hq) as (st' & -> & HI'). cbn [obind]. by rewrite (IH st' HI').
Qed.

End entries.

(** ** Loading the file *)

Section load.
Context `{P : Platform} (BUFSIZ : Z).

Abbreviation SPACE := 32.

(** Lines of the file: rules, comments and empty lines *)
Inductive acl_item : Type := Rule (l : acl_line) | Remark (s : list octet).

Definition line_text (l : acl_line) : list octet :=
  al_who l ++ SPACE :: al_ops l ++
  match al_target l with
  | None => []
  | Some t => SPACE :: t ++ match al_restrictions l with None => [] | Some r => SPACE :: r end
  end.
Definition item_text (i : acl_item) : list octet := match i with Rule l => line_text l | Remark s => s end.
Definition acl_text (items : list acl_item) : list octet := concat ((fun i => item_text i ++ [NEWLINE]) <$> items).

Definition rules (items : list acl_item) : list acl_line := items ≫= fun i => match i with Rule l => [l] | Remark _ => [] end.

(** Characters that stand for themselves in a line *)
Definition printable (c : octet) : Prop := c <> 0 /\ c <> NEWLINE /\ c <> EOF_CHAR.
Definition word (s : list octet) : Prop := s <> [] /\ Forall (fun c => isspace c = false /\ printable c) s.

Definition text_ok (s : list octet) : Prop := Forall printable s /\ List.last s 0 <> BACKSLASH /\ zlen s < BUFSIZ.

Definition line_shape (l : acl_line) : Prop :=
  word (al_who l) /\ hd 0 (al_who l) <> octet_at "#" /\ word (al_ops l) /\
  match al_target l, al_restrictions l with
  | None, None => True
  | None, Some _ => False
  | Some t, None => word t
  | Some t, Some r => word t /\ r <> [] /\ isspace (hd 0 r) = false /\ isspace (List.last r 0) = false
  end.

Definition item_ok (i : acl_item) : Prop :=
  text_ok (item_text i) /\
  match i with
  | Remark s => s = [] \/ hd 0 s = octet_at "#"
  | Rule l => line_shape l /\ (apply_ops 0 (al_ops l)).2 = true
  end.

Lemma last_snoc (s : list octet) c d : List.last (s ++ [c]) d = c.
Proof. apply List.last_last. Qed.

(** The characters of a line are read up to the end of the line. *)
Lemma get_chars_ok s rest buf : Forall printable s -> List.last (buf ++ s) 0 <> BACKSLASH -> zlen buf + zlen s < BUFSIZ ->
  get_chars BUFSIZ (s ++ NEWLINE :: rest) buf = (buf ++ s, Stream rest false).
Proof.
  revert buf. induction s as [|c s IH]; intros buf Hs Hb HL; cbn [app get_chars].
  - rewrite app_nil_r in *. rewrite zlen_nil in HL. destruct (Z.leb_spec BUFSIZ (zlen buf)); [lia|]. change (NEWLINE =? EOF_CHAR) with false.
    rewrite Z.eqb_refl. unfold ends_in_backslash. by destruct (Z.eqb_spec (List.last buf 0) BACKSLASH).
  - apply Forall_cons_1 in Hs as [(_ & Hc1 & Hc2) Hs]. rewrite zlen_cons in HL. pose proof (zlen_nonneg s).
    destruct (Z.leb_spec BUFSIZ (zlen buf)); [lia|]. destruct (Z.eqb_spec c EOF_CHAR); [done|]. destruct (Z.eqb_spec c NEWLINE); [done|].
    rewrite (IH (buf ++ [c]) Hs); rewrite <- ?app_assoc; [done|done|]. rewrite zlen_app. change (zlen [c]) with 1. lia.
Qed.

Lemma strlen_all s : no_nul s -> strlen s = zlen s.
Proof. induction 1 as [|c s Hc _ IH]; [done|]. cbn [strlen]. rewrite zlen_cons, IH. destruct (Z.eqb_spec c 0); [done|lia]. Qed.

Lemma printable_no_nul s : Forall printable s -> no_nul s.
Proof. intros H. eapply list.Forall_impl; [exact H|]. by intros c []. Qed.

Lemma get_one_line_ok s rest : text_ok s -> get_one_line BUFSIZ (Stream (s ++ NEWLINE :: rest) false) = (s, Stream rest false).
Proof.
  intros (Hs & Hb & HL). unfold get_one_line. cbn [fp_rest]. rewrite get_chars_ok by (done || (rewrite zlen_nil; lia)). cbn [app].
  destruct (Z.eqb_spec (zlen s) BUFSIZ); [lia|].
  replace (hd 0 s =? EOF_CHAR) with false; [rewrite strlen_all by (by apply printable_no_nul); unfold zlen; by rewrite Nat2Z.id, take_ge|].
  destruct Hs as [|c s (_ & _ & Hc) _]; [done|]. cbn [hd]. by destruct (Z.eqb_spec c EOF_CHAR).
Qed.

(** The next rule, behind comments and empty lines, and what follows it *)
Fixpoint next_rule (items : list acl_item) : option (acl_line * list acl_item) :=
  match items with
  | [] => None
  | Rule l :: items => Some (l, items)
  | Remark _ :: items => next_rule items
  end.

Lemma next_rule_rules items :
  match next_rule items with
  | Some (l, items') => rules items = l :: rules items' /\ (length items' < length items)%nat /\ exists pre, items = pre ++ Rule l :: items'
  | None => rules items = []
  end.
Proof.
  induction items as [|[l|s] items IH]; [done| |]; cbn [next_rule].
  - split; [done|]. split; [cbn; lia|]. by exists [].
  - destruct (next_rule items) as [[l items']|]; [|done]. destruct IH as (E & HL & pre & ->). split; [done|]. split; [cbn; lia|]. by exists (Remark s :: pre).
Qed.

Lemma acl_text_cons i items : acl_text (i :: items) = item_text i ++ NEWLINE :: acl_text items.
Proof. unfold acl_text. rewrite fmap_cons. cbn [concat]. by rewrite <- app_assoc. Qed.

Lemma acl_text_length items : (length items <= length (acl_text items))%nat.
Proof. induction items as [|i items IH]; [done|]. rewrite acl_text_cons, length_app. cbn [length]. lia. Qed.

Lemma word_hd s t : word s -> hd 0 (s ++ t) = hd 0 s /\ hd 0 s <> 0.
Proof. intros [Hs H]. destruct H as [|c s (_ & H0 & _) _]; [done|]. done. Qed.

Lemma get_line_first l tail turns : text_ok (line_text l) -> line_shape l -> (0 < turns)%nat ->
  acl_get_line turns BUFSIZ (Stream (line_text l ++ NEWLINE :: tail) false) = (Some (line_text l), Stream tail false).
Proof.
  intros HT (Hw & Hh & _) Ht. destruct turns as [|turns]; [lia|]. cbn [acl_get_line fp_eof]. rewrite (get_one_line_ok _ _ HT).
  destruct (word_hd (al_who l) (SPACE :: al_ops l ++ match al_target l with
    | None => [] | Some t => SPACE :: t ++ match al_restrictions l with None => [] | Some r => SPACE :: r end end) Hw) as [E H0].
  unfold line_text at 1 2. rewrite E. destruct (Z.eqb_spec (hd 0 (al_who l)) (octet_at "#")); [done|]. by destruct (Z.eqb_spec (hd 0 (al_who l)) 0).
Qed.

Lemma get_line_items items tail : Forall item_ok items -> forall turns, (length items < turns)%nat ->
  acl_get_line turns BUFSIZ (Stream (acl_text items ++ tail) false) =
  match next_rule items with
  | Some (l, items') => (Some (line_text l), Stream (acl_text items' ++ tail) false)
  | None => acl_get_line (turns - length items) BUFSIZ (Stream tail false)
  end.
Proof.
  intros HI. induction HI as [|i items [HT Hi] _ IH]; intros turns Ht; [by rewrite Nat.sub_0_r|]. rewrite acl_text_cons, <- app_assoc. cbn [app length] in *.
  destruct i as [l|s]; cbn [item_text next_rule].
  - apply get_line_first; [done|by destruct Hi|lia].
  - destruct turns as [|turns]; [lia|]. cbn [acl_get_line fp_eof Nat.sub]. rewrite (get_one_line_ok _ _ HT).
    cbn [item_text]. replace (negb (hd 0 s =? octet_at "#") && negb (hd 0 s =? 0)) with false; [apply IH; lia|]. destruct Hi as [->|E]; [done|]. by rewrite E.
Qed.

Lemma get_line_end turns : 0 < BUFSIZ -> acl_get_line turns BUFSIZ (Stream [] false) = (None, Stream [] (0 <? turns)%nat).
Proof.
  intros HB. destruct turns as [|turns]; [done|]. cbn [acl_get_line fp_eof]. unfold get_one_line. cbn [fp_rest get_chars]. rewrite zlen_nil.
  destruct (Z.leb_spec BUFSIZ 0); [lia|]. change (ends_in_backslash []) with false. cbv iota. rewrite zlen_nil.
  destruct (Z.eqb_spec 0 BUFSIZ); [lia|]. cbn. by destruct turns.
Qed.

(** ** Parsing a line *)

Lemma skip_space_word s t : word s -> skip_space (s ++ t) = s ++ t.
Proof. intros [Hs H]. destruct H as [|c s [Hc _] _]; [done|]. cbn [app skip_space]. by rewrite Hc. Qed.

Lemma scan_word_ok s t : word s -> (t = [] \/ exists c t', t = c :: t' /\ isspace c = true) -> scan_word (s ++ t) = (s, t).
Proof.
  intros [_ H] Ht. induction H as [|c s [Hc _] _ IH]; cbn [app scan_word].
  - destruct Ht as [->|(c & t' & -> & Hc)]; cbn [scan_word]; [done|]. by rewrite Hc.
  - by rewrite Hc, IH.
Qed.

Lemma scan_words_step n s t : word s -> (t = [] \/ exists c t', t = c :: t' /\ isspace c = true) ->
  scan_words (S n) (s ++ t) = let '(ws, r) := scan_words n t in (s :: ws, r).
Proof.
  intros Hs Ht. cbn [scan_words]. rewrite skip_space_word, scan_word_ok by done. destruct Hs as [Hs _]. by destruct s.
Qed.

Lemma scan_words_space n s : scan_words (S n) (SPACE :: s) = scan_words (S n) s.
Proof. done. Qed.

Lemma scan_line_ok s : Forall printable s -> scan_line s = s.
Proof. induction 1 as [|c s (_ & Hc & _) _ IH]; [done|]. cbn [scan_line]. destruct (Z.eqb_spec c NEWLINE); [done|]. by rewrite IH. Qed.

Definition line_fields (l : acl_line) : list (list octet) :=
  al_who l :: al_ops l :: match al_target l with None => [] | Some t => t :: match al_restrictions l with None => [] | Some r => [r] end end.

Lemma sscanf_line l : text_ok (line_text l) -> line_shape l -> sscanf_acl (line_text l) = line_fields l.
Proof.
  intros [HT _] (Hw & _ & Ho & Hm). unfold sscanf_acl, line_text, line_fields in *.
  assert (S1 : forall s, SPACE :: s = [] \/ exists c t', SPACE :: s = c :: t' /\ isspace c = true) by (intros; right; by eexists _, _).
  rewrite (scan_words_step 2) by done. rewrite scan_words_space.
  destruct (al_target l) as [t|]; [|destruct (al_restrictions l); [done|]].
  - rewrite (scan_words_step 1) by done. rewrite scan_words_space. destruct (al_restrictions l) as [r|].
    + destruct Hm as (Ht & Hr & Hr1 & _). rewrite (scan_words_step 0) by done. cbn [scan_words length].
      assert (Pr : Forall printable r).
      { apply Forall_app in HT as [_ [_ HT]%Forall_cons_1]. apply Forall_app in HT as [_ [_ HT]%Forall_cons_1]. apply Forall_app in HT as [_ [_ HT]%Forall_cons_1]. done. }
      replace (skip_space (SPACE :: r)) with r; [rewrite scan_line_ok by done; by destruct r|].
      cbn [skip_space]. change (isspace SPACE) with true. cbv iota. destruct r as [|c r]; [done|]. cbn [hd] in Hr1. cbn [skip_space]. by rewrite Hr1.
    + rewrite (scan_words_step 0) by (done || by left). done.
  - rewrite (scan_words_step 1) by (done || by left). done.
Qed.

Definition new_entry (l : acl_line) : aent_t :=
  Aent (al_who l) false None (ops_mask l) (al_target l) false None (al_restrictions l) false None.

Lemma trim_end_ok r : r <> [] -> isspace (List.last r 0) = false -> trim_end r = r.
Proof.
  intros Hr H. unfold trim_end. destruct r as [|c r _] using rev_ind; [done|]. rewrite last_snoc in H. rewrite reverse_snoc. cbn [skip_space]. rewrite H.
  by rewrite <- reverse_snoc, reverse_involutive.
Qed.

Lemma strdup_ok s : zlen s + 1 <= malloc_limit -> strdup s = Some s.
Proof. intros H. unfold strdup. pose proof (zlen_nonneg s). destruct (malloc_ok (zlen s + 1)) as (b & -> & _); [lia|done]. Qed.

Lemma fields_fit l : text_ok (line_text l) -> Forall (fun f => zlen f < BUFSIZ) (line_fields l).
Proof.
  intros (_ & _ & HL). unfold line_fields, line_text in *. rewrite zlen_app, zlen_cons, zlen_app in HL.
  pose proof (zlen_nonneg (al_who l)). pose proof (zlen_nonneg (al_ops l)).
  destruct (al_target l) as [t|]; [|rewrite zlen_nil in HL; do 2 (apply Forall_cons_2; [lia|]); constructor].
  rewrite zlen_cons, zlen_app in HL. pose proof (zlen_nonneg t).
  destruct (al_restrictions l) as [r|]; [rewrite zlen_cons in HL; pose proof (zlen_nonneg r)|rewrite zlen_nil in HL];
    repeat (apply Forall_cons_2; [lia|]); constructor.
Qed.

(** A line with letters that are not known makes the server store through NULL. *)
Lemma parse_line_eq l : text_ok (line_text l) -> line_shape l -> BUFSIZ + 88 <= malloc_limit ->
  acl_parse_line BUFSIZ (line_text l) = if (apply_ops 0 (al_ops l)).2 then Ok (Some (new_entry l)) else Undefined.
Proof.
  intros HT HS HM. unfold acl_parse_line. rewrite (sscanf_line l HT HS). pose proof (fields_fit l HT) as HF. destruct HS as (Hw & _ & Ho & Hm).
  replace (existsb _ _) with false; cycle 1.
  { symmetry. apply not_true_iff_false. intros (f & Hf%list_elem_of_In & E%Z.leb_le)%existsb_exists.
    pose proof (proj1 (list.Forall_forall _ _) HF f Hf) as Q. cbv beta in Q. lia. }
  assert (D : forall f, f ∈ line_fields l -> strdup f = Some f).
  { intros f Hf. apply strdup_ok. pose proof (proj1 (list.Forall_forall _ _) HF f Hf) as Q. cbv beta in Q. lia. }
  destruct (malloc_ok sizeof_aent) as (b & EB & _).
  { unfold sizeof_aent. pose proof (zlen_nonneg (al_who l)). apply Forall_cons_1 in HF as [HF _]. destruct sizeof_long_ok as [-> | ->]; lia. }
  unfold line_fields in *. rewrite EB. unfold new_entry, ops_mask. destruct (apply_ops 0 (al_ops l)) as [a []]; cbn [snd fst negb]; [|done].
  rewrite D by constructor. destruct (al_target l) as [t|]; [|destruct (al_restrictions l); done].
  rewrite (D t) by (do 2 apply list_elem_of_further; constructor). destruct (al_restrictions l) as [r|]; [|done].
  destruct Hm as (_ & Hr & _ & Hr2). rewrite trim_end_ok by done. by rewrite (D r) by (do 3 apply list_elem_of_further; constructor).
Qed.

Lemma parse_line_ok l : item_ok (Rule l) -> BUFSIZ + 88 <= malloc_limit -> acl_parse_line BUFSIZ (line_text l) = Ok (Some (new_entry l)).
Proof. intros [HT [HS HO]] HM. by rewrite parse_line_eq, HO. Qed.

Lemma load_lines_ok n : BUFSIZ + 88 <= malloc_limit -> 0 < BUFSIZ -> forall items lines, (length items <= n)%nat -> (length items < lines)%nat -> Forall item_ok items ->
  load_lines BUFSIZ lines (Stream (acl_text items) false) = Ok (new_entry <$> rules items, true).
Proof.
  intros HM HB. induction n as [|n IH]; intros items [|lines] Hn Hl HI; try lia; cbn [load_lines fp_rest].
  all: pose proof (acl_text_length items); pose proof (get_line_items items [] HI (S (length (acl_text items)))) as GL; rewrite app_nil_r in GL; rewrite GL by lia.
  all: pose proof (next_rule_rules items) as NR; destruct (next_rule items) as [[l items']|]; [|by rewrite NR, get_line_end].
  all: destruct NR as (-> & HL & pre & ->); try lia.
  apply Forall_app in HI as [_ [Hi HI]%Forall_cons_1]. rewrite parse_line_ok by done. cbn [obind]. rewrite app_nil_r, (IH items' lines) by (done || lia). done.
Qed.

Lemma load_lines_bad n l rest : BUFSIZ + 88 <= malloc_limit -> text_ok (line_text l) -> line_shape l -> (apply_ops 0 (al_ops l)).2 = false ->
  forall items lines, (length items <= n)%nat -> (length items < lines)%nat -> Forall item_ok items ->
  load_lines BUFSIZ lines (Stream (acl_text items ++ line_text l ++ NEWLINE :: rest) false) = Undefined.
Proof.
  intros HM HT HS HO. induction n as [|n IH]; intros items [|lines] Hn Hl HI; try lia; cbn [load_lines fp_rest].
  all: pose proof (acl_text_length items); rewrite (get_line_items items _ HI) by (rewrite length_app; lia).
  all: pose proof (next_rule_rules items) as NR; destruct (next_rule items) as [[l' items']|];
    [|rewrite get_line_first, parse_line_eq, HO by (done || (rewrite length_app; lia)); done].
  all: destruct NR as (_ & HL & pre & ->); try lia.
  apply Forall_app in HI as [_ [Hi HI]%Forall_cons_1]. rewrite parse_line_ok by done. cbn [obind]. rewrite (IH items' lines) by (done || lia). done.
Qed.

Lemma load_file_ok items : BUFSIZ + 88 <= malloc_limit -> 0 < BUFSIZ -> Forall item_ok items ->
  acl_load_acl_file BUFSIZ (Some (acl_text items)) = Ok (new_entry <$> rules items, true).
Proof.
  intros HM HB HI. unfold acl_load_acl_file. rewrite (load_lines_ok (length items)); [done|done|done|lia|pose proof (acl_text_length items); lia|done].
Qed.

End load.

(** ** The theorems *)

Section theorems.
Context `{P : Platform} (BUFSIZ : Z) (deltat : list octet -> option Z) (get : outcome error_code (list octet)).

Lemma new_entry_of l : entry_of deltat get l (new_entry l).
Proof. by constructor. Qed.

Lemma acl_init_ok items : 0 < BUFSIZ -> BUFSIZ + 88 <= malloc_limit -> Forall (item_ok BUFSIZ) items ->
  exists st, acl_init BUFSIZ (Some (acl_text items)) None = Ok st /\ acl_inv deltat get (rules items) st.
Proof.
  intros HB HM HI. unfold acl_init. rewrite load_file_ok by done. cbn [obind]. eexists. split; [done|]. split; [|by left]. cbn [ac_list].
  apply Forall2_fmap_r. apply Forall_Forall2_diag. apply list.Forall_forall. intros l _. apply new_entry_of.
Qed.

(** C19: The file of access rights decides. From a file of rules (fields separated by
    one space, no continuation lines, known operation letters, no targets that refer
    back to wildcards), comments and empty lines, any history of checks for callers
    whose names are printed principals (a caller whose name cannot be parsed is granted
    everything, unreadable_caller_granted) gets the answers of the first line that
    governs caller and target: the operation is granted if the line allows it, with the
    restrictions of the line, but without them if its target is *, where they are not
    even read. Lines with names that cannot be read, or, unless the target is *, with
    restrictions that cannot be read, are passed over. *)
Theorem acl_decides items qs dests :
  0 < BUFSIZ -> BUFSIZ + 88 <= malloc_limit -> realm_known get -> Forall (item_ok BUFSIZ) items -> Forall (line_ok get) (rules items) ->
  Forall2 query_ok qs dests ->
  exists st, acl_init BUFSIZ (Some (acl_text items)) None = Ok st /\
    check_all deltat get qs st = Ok (zip_with (fun q dest => decision deltat get (rules items) (aq_caller q) (aq_op q) dest) qs dests).
Proof.
  intros HB HM HR HI HL HQ. destruct (acl_init_ok items HB HM HI) as (st & E & HE). exists st. split; [done|]. by apply check_all_ok.
Qed.

(** C20: The restrictions of a line for any target are never imposed: whatever they say,
    a caller whom such a line governs may do what it allows without restrictions. *)
Theorem any_target_unrestricted items q dest l restrictions st :
  0 < BUFSIZ -> BUFSIZ + 88 <= malloc_limit -> realm_known get -> Forall (item_ok BUFSIZ) items -> Forall (line_ok get) (rules items) -> query_ok q dest ->
  List.find (governs deltat get (aq_caller q) dest) (rules items) = Some l ->
  al_target l = Some star -> al_restrictions l = Some restrictions -> Z.land (ops_mask l) (aq_op q) = aq_op q ->
  acl_init BUFSIZ (Some (acl_text items)) None = Ok st ->
  exists st', check deltat get q st = Ok (true, Some None, st').
Proof.
  intros HB HM HR HI HL HQ HF HT HS HO E. destruct (acl_init_ok items HB HM HI) as (st0 & E0 & HE). rewrite E0 in E. injection E as <-.
  destruct (check_ok deltat get (rules items) q dest st0 HR HL HE HQ) as (st' & EC & _). exists st'. rewrite EC. unfold decision.
  rewrite HF, HO, Z.eqb_refl. unfold line_restrictions, any_target. rewrite HT, bool_decide_eq_true_2 by done. done.
Qed.

(** A letter that stands for no operation, on any line, is not reported as an error of
    the file: the server stores through a NULL pointer while it loads the file. *)
Theorem unknown_operation_crashes items l rest :
  0 < BUFSIZ -> BUFSIZ + 88 <= malloc_limit -> Forall (item_ok BUFSIZ) items -> text_ok BUFSIZ (line_text l) -> line_shape l ->
  (apply_ops 0 (al_ops l)).2 = false ->
  acl_init BUFSIZ (Some (acl_text items ++ line_text l ++ NEWLINE :: rest)) None = Undefined.
Proof.
  intros HB HM HI HT HS HO. unfold acl_init, acl_load_acl_file. rewrite (load_lines_bad BUFSIZ (length items)); try done.
  pose proof (acl_text_length items). rewrite !length_app. lia.
Qed.

(** A caller whose name krb5_parse_name refuses may do everything: the error is returned
    as the boolean, which is then true, and the restrictions are not assigned. *)
Theorem unreadable_caller_granted s junk op principal st :
  no_nul s -> name_memory (zlen s) -> read_name s = None ->
  exists st', acl_check deltat get (Some (s ++ 0 :: junk)) op principal st = Ok (true, None, st').
Proof.
  intros Hs Hm HR. unfold acl_check. rewrite parse_name_eq; [|done|done|by rewrite HR]. rewrite HR. by eexists.
Qed.

(** ** Restrictions *)

Lemma land_lor_bit m b : Z.land (Z.lor m b) b = b.
Proof. apply Z.bits_inj'. intros i _. rewrite Z.land_spec, Z.lor_spec. by destruct (Z.testbit m i), (Z.testbit b i). Qed.

Lemma has_bit_set m b : b <> 0 -> has_bit (Z.lor m b) b = true.
Proof. intros Hb. unfold has_bit. rewrite land_lor_bit. by destruct (Z.eqb_spec b 0). Qed.

Lemma has_bit_lor m c b : has_bit (Z.lor m c) b = has_bit m b || has_bit c b.
Proof.
  unfold has_bit. rewrite Z.land_lor_distr_l. destruct (Z.eqb_spec (Z.land m b) 0) as [->|N]; [by rewrite Z.lor_0_l|].
  cbn [negb orb]. destruct (Z.eqb_spec (Z.lor (Z.land m b) (Z.land c b)) 0) as [E|]; [|done]. by apply Z.lor_eq_0_iff in E as [E _].
Qed.

Lemma has_bit_mask_if rmask m c b : has_bit (mask_if rmask m c) b = has_bit m b || has_bit rmask c && has_bit c b.
Proof. unfold mask_if. destruct (has_bit rmask c); [apply has_bit_lor|by rewrite orb_false_r]. Qed.

Lemma has_bit_without m c b : has_bit (Z.land m (Z.lnot c)) b = has_bit m (Z.land (Z.lnot c) b).
Proof. unfold has_bit. by rewrite Z.land_assoc. Qed.

Lemma has_bit_0 m : has_bit m 0 = false.
Proof. unfold has_bit. by rewrite Z.land_0_r. Qed.

(** [bit_consts]: the bits of a mask that is made of constants and other masks. *)
Ltac bit_consts :=
  repeat (rewrite has_bit_mask_if || rewrite has_bit_lor || rewrite has_bit_without);
  repeat match goal with
  | |- context [has_bit ?a ?b] =>
      is_const a; is_const b; let c := eval vm_compute in (has_bit a b) in change (has_bit a b) with c
  | |- context [Z.land (Z.lnot ?a) ?b] =>
      is_const a; is_const b; let c := eval vm_compute in (Z.land (Z.lnot a) b) in
      first [unify c b; change (Z.land (Z.lnot a) b) with b | change (Z.land (Z.lnot a) b) with c]
  end;
  rewrite ?andb_true_r, ?andb_false_r, ?orb_false_r, ?orb_true_r.

(** The value of a member with an upper bound: the bound itself if the request does not
    mention the member. *)
Definition limited (rmask mask bit old bound : Z) : Z :=
  if has_bit rmask bit then if has_bit mask bit then Z.min bound old else bound else old.

Lemma bounded_ok rmask m b v bound r : bounded rmask m b v bound = Ok r ->
  if has_bit rmask b then exists x, bound = Ok x /\ r = limited rmask m b v x else r = v.
Proof.
  unfold bounded, limited. destruct (has_bit rmask b); [|by intros [= ->]]. intros E. apply obind_ok in E as (x & Ex & [= <-]). exists x. split; [done|].
  destruct (has_bit m b); cbn [negb orb]; [|done]. destruct (Z.ltb_spec x v); lia.
Qed.

Lemma bounded_const rmask m b v x r : bounded rmask m b v (Ok x) = Ok r -> r = limited rmask m b v x.
Proof.
  intros E%bounded_ok. destruct (has_bit rmask b) eqn:H; [by destruct E as (? & [= ->] & ->)|]. unfold limited. by rewrite H.
Qed.

Lemma bounded_after rmask m b v now t d r : (has_bit rmask b = true -> t = now) ->
  bounded rmask m b v (after t d) = Ok r -> r = limited rmask m b v (now + d).
Proof.
  intros T E%bounded_ok. unfold limited in *. destruct (has_bit rmask b); [|done]. rewrite <- (T eq_refl). destruct E as (x & Ex & ->).
  unfold after in Ex. case_bool_decide; [|done]. by injection Ex as <-.
Qed.

(** The two members of a time are restricted only if the time was asked for. *)
Lemma has_bit_either m b c : has_bit m b = true \/ has_bit m c = true -> has_bit m (Z.lor b c) = true.
Proof.
  intros H. unfold has_bit in *. rewrite Z.land_lor_distr_r, negb_true_iff, Z.eqb_neq in *. intros [E1 E2]%Z.lor_eq_0_iff.
  rewrite E1, E2 in H. by destruct H.
Qed.

(** The policy and the mask after the restrictions on it. *)
Lemma policy_imposed rec m mask rpol policy mask1 :
  (if has_bit m KADM5_POLICY_CLR then Ok (ke_policy rec, Z.lor (Z.land mask (Z.lnot KADM5_POLICY)) KADM5_POLICY_CLR)
   else if has_bit m KADM5_POLICY then
     match rpol with
     | None => Undefined
     | Some pol =>
         if bool_decide (ke_policy rec = Some pol) then Ok (Some pol, Z.lor mask KADM5_POLICY)
         else match strdup pol with Some pol => Ok (Some pol, Z.lor mask KADM5_POLICY) | None => Err ENOMEM end
     end
   else Ok (ke_policy rec, mask)) = Ok (E := error_code) (policy, mask1) ->
  policy = (if has_bit m KADM5_POLICY_CLR then ke_policy rec else if has_bit m KADM5_POLICY then rpol else ke_policy rec) /\
  mask1 = if has_bit m KADM5_POLICY_CLR then Z.lor (Z.land mask (Z.lnot KADM5_POLICY)) KADM5_POLICY_CLR
          else if has_bit m KADM5_POLICY then Z.lor mask KADM5_POLICY else mask.
Proof.
  destruct (has_bit m KADM5_POLICY_CLR); [by intros [= <- <-]|]. destruct (has_bit m KADM5_POLICY); [|by intros [= <- <-]].
  destruct rpol as [pol|]; [|done]. case_bool_decide; [by intros [= <- <-]|]. unfold strdup. destruct (malloc _); [|done]. by intros [= <- <-].
Qed.

(** C21: What restrictions do to a request when they are imposed, for every member:
    where attributes are restricted, those required are set and those forbidden clear,
    and otherwise they are as requested; the policy is that of the restrictions if they
    name one and do not clear it, and otherwise as requested; each time of expiration
    and life that is restricted is the smaller, as a number, of the limit and the
    requested value, or the limit if none was requested, so that 0, which stands for
    never, passes; those that are not restricted and all other members are as requested.
    In the mask the bits of the restricted members are added, and the bit that sets a
    policy is taken out if the restrictions clear the policy, which is all that clearing
    does here. *)
Theorem restrictions_imposed now rec mask rp rec' mask' :
  acl_impose_restrictions (Ok now) rec mask (Some rp) = Ok (rec', mask') ->
  let restricts := has_bit (rs_mask rp) in
  let limit := limited (rs_mask rp) mask in
  (if restricts KADM5_ATTRIBUTES
   then forall i, 0 <= i -> Z.testbit (ke_attributes rec') i =
          (Z.testbit (ke_attributes rec) i || Z.testbit (rs_require_attrs rp) i) && negb (Z.testbit (rs_forbid_attrs rp) i)
   else ke_attributes rec' = ke_attributes rec) /\
  ke_policy rec' = (if negb (restricts KADM5_POLICY_CLR) && restricts KADM5_POLICY then rs_policy rp else ke_policy rec) /\
  ke_princ_expire_time rec' = limit KADM5_PRINC_EXPIRE_TIME (ke_princ_expire_time rec) (now + rs_princ_lifetime rp) /\
  ke_pw_expiration rec' = limit KADM5_PW_EXPIRATION (ke_pw_expiration rec) (now + rs_pw_lifetime rp) /\
  ke_max_life rec' = limit KADM5_MAX_LIFE (ke_max_life rec) (rs_max_life rp) /\
  ke_max_renewable_life rec' = limit KADM5_MAX_RLIFE (ke_max_renewable_life rec) (rs_max_renewable_life rp) /\
  restricted rec' (ke_princ_expire_time rec) (ke_pw_expiration rec) (ke_max_life rec) (ke_attributes rec) (ke_policy rec) (ke_max_renewable_life rec) = rec /\
  Forall (fun b => has_bit mask' b = has_bit mask b || restricts b)
    [KADM5_ATTRIBUTES; KADM5_POLICY_CLR; KADM5_PRINC_EXPIRE_TIME; KADM5_PW_EXPIRATION; KADM5_MAX_LIFE; KADM5_MAX_RLIFE] /\
  has_bit mask' KADM5_POLICY = negb (restricts KADM5_POLICY_CLR) && (has_bit mask KADM5_POLICY || restricts KADM5_POLICY).
Proof.
  intros E restricts limit. unfold acl_impose_restrictions in E.
  apply obind_ok in E as (t & Et & E). apply obind_ok in E as ([policy mask1] & E1 & E). apply obind_ok in E as (x1 & B1 & E).
  apply obind_ok in E as (x2 & B2 & E). apply obind_ok in E as (x3 & B3 & E). apply obind_ok in E as (x4 & B4 & E). injection E as <- <-.
  assert (T : restricts KADM5_PRINC_EXPIRE_TIME = true \/ restricts KADM5_PW_EXPIRATION = true -> t = now).
  { intros H%has_bit_either. rewrite H in Et. by injection Et. }
  apply policy_imposed in E1 as [-> ->]. apply (bounded_after _ _ _ _ now) in B1; [|auto]. apply (bounded_after _ _ _ _ now) in B2; [|auto].
  apply bounded_const in B3. apply bounded_const in B4. subst x1 x2 x3 x4.
  cbn [restricted ke_attributes ke_policy ke_princ_expire_time ke_pw_expiration ke_max_life ke_max_renewable_life].
  unfold limit, limited. fold restricts.
  split; [destruct (restricts KADM5_ATTRIBUTES); [|done]; intros i Hi; by rewrite Z.land_spec, Z.lor_spec, Z.lnot_spec|].
  split; [by destruct (restricts KADM5_POLICY_CLR), (restricts KADM5_POLICY)|].
  split; [|split; [|split; [|split; [|split; [by destruct rec|]]]]];
    destruct (restricts KADM5_POLICY_CLR) eqn:HC, (restricts KADM5_POLICY) eqn:HP; unfold restricts in *.
  1-16: bit_consts; done.
  all: split; [repeat (apply Forall_cons_2; cbv beta); [..|apply Forall_nil_2]|];
    bit_consts; rewrite ?HC, ?HP, ?has_bit_0; cbn [negb andb orb]; rewrite ?orb_true_r, ?orb_false_r; done.
Qed.

(** An account that is asked to expire never is not made to expire: the time 0, which
    the KDC takes for never, is below every limit. *)
Theorem never_expires_kept now rec mask rp : 0 <= now + rs_princ_lifetime rp < 2 ^ 31 -> rs_mask rp = KADM5_PRINC_EXPIRE_TIME ->
  has_bit mask KADM5_PRINC_EXPIRE_TIME = true -> ke_princ_expire_time rec = 0 ->
  acl_impose_restrictions (Ok now) rec mask (Some rp) = Ok (rec, Z.lor mask KADM5_PRINC_EXPIRE_TIME).
Proof.
  intros HN HM HB H0. unfold acl_impose_restrictions. rewrite HM. change (has_bit KADM5_PRINC_EXPIRE_TIME (Z.lor _ _)) with true.
  unfold mask_if, bounded. change (has_bit KADM5_PRINC_EXPIRE_TIME KADM5_PRINC_EXPIRE_TIME) with true.
  change (has_bit KADM5_PRINC_EXPIRE_TIME KADM5_ATTRIBUTES) with false. change (has_bit KADM5_PRINC_EXPIRE_TIME KADM5_POLICY_CLR) with false.
  change (has_bit KADM5_PRINC_EXPIRE_TIME KADM5_POLICY) with false. change (has_bit KADM5_PRINC_EXPIRE_TIME KADM5_PW_EXPIRATION) with false.
  change (has_bit KADM5_PRINC_EXPIRE_TIME KADM5_MAX_LIFE) with false. change (has_bit KADM5_PRINC_EXPIRE_TIME KADM5_MAX_RLIFE) with false.
  cbn [obind]. unfold after. rewrite bool_decide_eq_true_2 by (unfold is_int; lia). cbn [obind]. rewrite HB, H0. cbn [negb orb].
  destruct (Z.ltb_spec (now + rs_princ_lifetime rp) 0); [lia|]. rewrite <- H0. f_equal. f_equal. by destruct rec.
Qed.

End theorems.
