(* ===== verification/KadmStubs.v ===== *)
(** * The requests to the administration server (src/src/kadmin/server/server_stubs.c,
    kadm_rpc_svc.c, misc.c)

    Each stub makes a handle for the caller, decides whether the caller may do what is asked
    for, and calls the function of the library kadm5 that does it.  The library and its
    database are a parameter: [perform] says what a call returns and what it makes of the
    database.  So are the functions of GSS-API on names.  The log is left out, with its
    strings, except where making a string goes wrong; memory for a handle can be had. *)

From Stdlib Require Import String.
From S2P Require Import Prelude CString Asn1Buf Krb5Types PrincName Kdc Kdb KadmAcl.

(** ** Codes and structures *)

Inductive kadm5_ret : Type :=
| KADM5_FAILURE
| KADM5_AUTH_GET | KADM5_AUTH_ADD | KADM5_AUTH_MODIFY | KADM5_AUTH_DELETE | KADM5_AUTH_INSUFFICIENT | KADM5_AUTH_LIST
| KADM5_AUTH_CHANGEPW | KADM5_AUTH_SETKEY
| KADM5_BAD_SERVER_HANDLE | KADM5_BAD_STRUCT_VERSION | KADM5_OLD_STRUCT_VERSION | KADM5_NEW_STRUCT_VERSION
| KADM5_BAD_API_VERSION | KADM5_OLD_SERVER_API_VERSION | KADM5_NEW_SERVER_API_VERSION
| KADM5_PASS_TOOSOON
| KADM5_BAD_DB | KADM5_DUP | KADM5_BAD_HIST_KEY | KADM5_UNK_PRINC | KADM5_UNK_POLICY | KADM5_BAD_MASK | KADM5_BAD_CLASS | KADM5_BAD_LENGTH
| KADM5_BAD_POLICY | KADM5_BAD_HISTORY | KADM5_BAD_MIN_PASS_LIFE | KADM5_PASS_Q_TOOSHORT | KADM5_PASS_Q_CLASS | KADM5_PASS_Q_DICT
| KADM5_PASS_REUSE | KADM5_POLICY_REF | KADM5_PROTECT_PRINCIPAL | KADM5_NO_RENAME_SALT | KADM5_BAD_TL_TYPE | KADM5_SETKEY_DUP_ENCTYPES
| KADM5_SETV4KEY_INVAL_ENCTYPE | KADM5_SETKEY3_ETYPE_MISMATCH | OSA_ADB_DUP | OSA_ADB_NOENT
| Krb5Code (e : error_code).

#[global] Instance kadm5_ret_eq_dec : EqDecision kadm5_ret.
Proof. solve_decision. Defined.

Definition KADM5_SERVER_HANDLE_MAGIC : Z := 0x12345800.
Definition KADM5_MASK_BITS : Z := 0xffffff00.
Definition KADM5_STRUCT_VERSION_MASK : Z := 0x12345600.
Definition KADM5_STRUCT_VERSION_1 : Z := 0x12345601.
Definition KADM5_API_VERSION_MASK : Z := 0x12345700.
Definition KADM5_API_VERSION_1 : Z := 0x12345701.
Definition KADM5_API_VERSION_2 : Z := 0x12345702.
Definition KADM5_PRINCIPAL_NORMAL_MASK : Z := 0x01ffff.

(** kadm5_policy_ent_rec *)
Record kadm5_policy_ent : Type := KadmPolicy {
  kp_policy : option (list octet); kp_pw_min_life : Z; kp_pw_max_life : Z; kp_pw_min_length : Z; kp_pw_min_classes : Z;
  kp_pw_history_num : Z; kp_policy_refcnt : Z
}.

Record krb5_key_salt_tuple : Type := KeySaltTuple { kst_enctype : Z; kst_salttype : Z }.

Abbreviation principal_arg := (option krb5_principal_data).

(** The functions of the library, with what the stubs pass to them *)
Inductive kadm5_call : Type :=
| kadm5_create_principal (rec : kadm5_principal_ent) (mask : Z) (passwd : option (list octet))
| kadm5_create_principal_3 (rec : kadm5_principal_ent) (mask : Z) (ks : list krb5_key_salt_tuple) (passwd : option (list octet))
| kadm5_delete_principal (princ : principal_arg)
| kadm5_modify_principal (rec : kadm5_principal_ent) (mask : Z)
| kadm5_rename_principal (src dest : principal_arg)
| kadm5_get_principal_v1 (princ : principal_arg)
| kadm5_get_principal (princ : principal_arg) (mask : Z)
| kadm5_get_principals (exp : option (list octet))
| kadm5_chpass_principal (princ : principal_arg) (passwd : option (list octet))
| kadm5_chpass_principal_3 (princ : principal_arg) (keepold : bool) (ks : list krb5_key_salt_tuple) (passwd : option (list octet))
| kadm5_setv4key_principal (princ : principal_arg) (key : option krb5_keyblock)
| kadm5_setkey_principal (princ : principal_arg) (keys : list krb5_keyblock)
| kadm5_setkey_principal_3 (princ : principal_arg) (keepold : bool) (ks : list krb5_key_salt_tuple) (keys : list krb5_keyblock)
| kadm5_randkey_principal (princ : principal_arg)
| kadm5_randkey_principal_3 (princ : principal_arg) (keepold : bool) (ks : list krb5_key_salt_tuple)
| kadm5_create_policy (rec : kadm5_policy_ent) (mask : Z)
| kadm5_delete_policy (name : option (list octet))
| kadm5_modify_policy (rec : kadm5_policy_ent) (mask : Z)
| kadm5_get_policy_v1 (name : option (list octet))
| kadm5_get_policy (name : option (list octet))
| kadm5_get_policies (exp : option (list octet))
| kadm5_get_privs.

(** What they return besides their code *)
Inductive kadm5_reply : Type :=
| Done | PrincipalIs (rec : kadm5_principal_ent) | PolicyIs (rec : kadm5_policy_ent) | NamesAre (names : list (list octet))
| KeysAre (keys : list krb5_keyblock) | PrivsAre (privs : Z).

(** The parts of kadm5_server_handle_rec that are looked at *)
Record server_handle : Type := ServerHandle {
  sh_magic_number : Z; sh_struct_version : Z; sh_api_version : Z; sh_current_caller : option krb5_principal_data; sh_lhandle : bool
}.

(** CHECK_HANDLE *)
Definition check_handle (h : server_handle) : outcome kadm5_ret unit :=
  let* _ := guard (sh_magic_number h =? KADM5_SERVER_HANDLE_MAGIC) KADM5_BAD_SERVER_HANDLE in
  let* _ := guard (Z.land (sh_struct_version h) KADM5_MASK_BITS =? KADM5_STRUCT_VERSION_MASK) KADM5_BAD_STRUCT_VERSION in
  let* _ := guard (KADM5_STRUCT_VERSION_1 <=? sh_struct_version h) KADM5_OLD_STRUCT_VERSION in
  let* _ := guard (sh_struct_version h <=? KADM5_STRUCT_VERSION_1) KADM5_NEW_STRUCT_VERSION in
  let* _ := guard (Z.land (sh_api_version h) KADM5_MASK_BITS =? KADM5_API_VERSION_MASK) KADM5_BAD_API_VERSION in
  let* _ := guard (KADM5_API_VERSION_1 <=? sh_api_version h) KADM5_OLD_SERVER_API_VERSION in
  let* _ := guard (sh_api_version h <=? KADM5_API_VERSION_2) KADM5_NEW_SERVER_API_VERSION in
  let* _ := guard (bool_decide (is_Some (sh_current_caller h))) KADM5_BAD_SERVER_HANDLE in
  guard (sh_lhandle h) KADM5_BAD_SERVER_HANDLE.

(** Errors of libkrb5 as codes of kadm5 *)
Definition lift {A} (o : outcome error_code A) : outcome kadm5_ret A :=
  match o with Ok a => Ok a | Err e => Err (Krb5Code e) | Undefined => Undefined | OutOfFuel => OutOfFuel end.

Section stubs.
Context `{P : Platform} (BUFSIZ : Z) (krb5_string_to_deltat : list octet -> option Z) (get_default_realm : outcome error_code (list octet)).
(** The names of GSS-API: the string of a name, with whether its type is gss_nt_krb5_name,
    and whether two names are equal; [None] for an error *)
Context {gss_name : Type} (gss_display_name : gss_name -> option (list octet * bool)) (gss_compare_name : option gss_name -> gss_name -> option bool).
Context {db : Type} (perform : option server_handle -> kadm5_call -> db -> outcome kadm5_ret kadm5_reply * db).

(** The request: its flavour of authentication is AUTH_GSSAPI, the client, the acceptor of
    the context as gss_inquire_context gives it, and the time at which it arrives *)
Record svc_req : Type := SvcReq {
  rq_gssapi : bool; rq_clntcred : gss_name; rq_acceptor : option gss_name; rq_now : outcome error_code Z
}.

(** The global variables of the server *)
Record server_config : Type := ServerConfig {
  global_server_handle : server_handle; gss_changepw_name : gss_name; gss_oldchangepw_name : option gss_name
}.
Record server : Type := Server { sv_acl : acl_state; sv_db : db }.
Abbreviation stub := (sproc server kadm5_ret).
Context (config : server_config).

Definition cmp_gss_names (n1 : option gss_name) (n2 : gss_name) : bool :=
  match gss_compare_name n1 n2 with Some equal => equal | None => false end.
Definition cmp_gss_names_rel_1 (n1 : option gss_name) (n2 : gss_name) : bool := cmp_gss_names n1 n2.

Definition acceptor_name (rqstp : svc_req) : option gss_name := rq_acceptor rqstp.

Definition CHANGEPW_SERVICE (rqstp : svc_req) : bool :=
  cmp_gss_names_rel_1 (acceptor_name rqstp) (gss_changepw_name config) ||
  match gss_oldchangepw_name config with Some old => cmp_gss_names_rel_1 (acceptor_name rqstp) old | None => false end.

Definition set_default_realm (dr : option (list octet)) (sv : server) : server :=
  Server (AclState (ac_list (sv_acl sv)) (ac_inited (sv_acl sv)) dr) (sv_db sv).

(** krb5_parse_name in the server *)
Definition parse_name (name : list octet) (sv : server) : outcome error_code krb5_principal_data * server :=
  let '(r, dr) := krb5_parse_name get_default_realm (ac_default_realm (sv_acl sv)) name in (r, set_default_realm dr sv).

(** The principal, [None] for 0 *)
Definition gss_to_krb5_name (name : gss_name) : stub (option krb5_principal_data) := fun sv =>
  match gss_display_name name with
  | Some (str, true) =>
      match parse_name str sv with
      | (Ok p, sv) => (Ok (Some p), sv)
      | (Err _, sv) => (Ok None, sv)
      | (Undefined, sv) => (Undefined, sv)
      | (OutOfFuel, sv) => (OutOfFuel, sv)
      end
  | _ => (Ok None, sv)
  end.

Definition gss_name_to_string (name : gss_name) : option (list octet) :=
  match gss_display_name name with Some (str, true) => Some str | _ => None end.

Definition new_server_handle (api_version : Z) (rqstp : svc_req) : stub server_handle :=
  do! caller := gss_to_krb5_name (rq_clntcred rqstp) in
  match caller with
  | None => sret (Err KADM5_FAILURE)
  | Some p =>
      let g := global_server_handle config in
      sret (Ok (ServerHandle (sh_magic_number g) (sh_struct_version g) api_version (Some p) (sh_lhandle g)))
  end.

(** client_name and service_name *)
Definition setup_gss_names (rqstp : svc_req) : outcome kadm5_ret (list octet * list octet) :=
  match gss_name_to_string (rq_clntcred rqstp) with
  | None => Err KADM5_FAILURE
  | Some client =>
      match rq_acceptor rqstp with
      | None => Err KADM5_FAILURE
      | Some name => match gss_name_to_string name with None => Err KADM5_FAILURE | Some service => Ok (client, service) end
      end
  end.

(** How every stub begins *)
Definition begin_stub (api_version : Z) (rqstp : svc_req) : stub server_handle :=
  do! handle := new_server_handle api_version rqstp in
  do! _ := sret (check_handle handle) in
  do! _ := sret (setup_gss_names rqstp) in
  sret (Ok handle).

(** krb5_unparse_name, whose result is not looked at: a NULL principal is read, and after an
    error the string is an uninitialised pointer that is freed. *)
Definition prime_arg (princ : principal_arg) : stub (list octet) :=
  match princ with
  | None => sret Undefined
  | Some p => sret (match krb5_unparse_name p with Ok s => Ok s | _ => Undefined end)
  end.

Definition cmp_gss_krb5_name (name : gss_name) (princ : principal_arg) : stub bool :=
  do! princ2 := gss_to_krb5_name name in
  match princ2 with
  | None => sret (Ok false)
  | Some p2 => sret (match princ with Some p => lift (krb5_principal_compare p p2) | None => Undefined end)
  end.

(** acl_check for the caller *)
Definition acl_check_1 (rqstp : svc_req) (op : Z) (princ : principal_arg) : stub (bool * option (option restriction_t)) := fun sv =>
  match acl_check krb5_string_to_deltat get_default_realm (fst <$> gss_display_name (rq_clntcred rqstp)) op princ (sv_acl sv) with
  | Ok (ok, rp, acl) => (Ok (ok, rp), Server acl (sv_db sv))
  | Err e => (Err (Krb5Code e), sv)
  | Undefined => (Undefined, sv)
  | OutOfFuel => (OutOfFuel, sv)
  end.

(** !CHANGEPW_SERVICE(rqstp) && acl_check(...) *)
Definition permitted (rqstp : svc_req) (op : Z) (princ : principal_arg) : stub bool :=
  if CHANGEPW_SERVICE rqstp then sret (Ok false) else do! r := acl_check_1 rqstp op princ in sret (Ok r.1).

(** A call of the library, with a handle of the caller *)
Definition call (handle : server_handle) (c : kadm5_call) : stub kadm5_reply := fun sv =>
  let '(r, d) := perform (Some handle) c (sv_db sv) in (r, Server (sv_acl sv) d).
(** ... with lhandle, for the server itself *)
Definition lcall (c : kadm5_call) : stub kadm5_reply := fun sv =>
  let '(r, d) := perform None c (sv_db sv) in (r, Server (sv_acl sv) d).

(** acl_check and acl_impose_restrictions; the pointer rp may not have been assigned. *)
Definition restricted_record (rqstp : svc_req) (op : Z) (rec : kadm5_principal_ent) (mask : Z) (denied : kadm5_ret)
    : stub (kadm5_principal_ent * Z) :=
  if CHANGEPW_SERVICE rqstp then sret (Err denied)
  else
    do! r := acl_check_1 rqstp op (ke_principal rec) in
    if negb r.1 then sret (Err denied)
    else
      match r.2 with
      | None => sret Undefined
      | Some rp => sret (match acl_impose_restrictions (rq_now rqstp) rec mask rp with
                         | Err _ => Err denied
                         | o => lift o
                         end)
      end.

(** ** Stubs for principals *)

Definition create_principal_1 (api_version : Z) (rec : kadm5_principal_ent) (mask : Z) (passwd : option (list octet)) (rqstp : svc_req) : stub kadm5_reply :=
  do! handle := begin_stub api_version rqstp in
  do! _ := prime_arg (ke_principal rec) in
  do! r := restricted_record rqstp ACL_ADD rec mask KADM5_AUTH_ADD in
  call handle (kadm5_create_principal r.1 r.2 passwd).

Definition create_principal3_1 (api_version : Z) (rec : kadm5_principal_ent) (mask : Z) (ks : list krb5_key_salt_tuple) (passwd : option (list octet))
    (rqstp : svc_req) : stub kadm5_reply :=
  do! handle := begin_stub api_version rqstp in
  do! _ := prime_arg (ke_principal rec) in
  do! r := restricted_record rqstp ACL_ADD rec mask KADM5_AUTH_ADD in
  call handle (kadm5_create_principal_3 r.1 r.2 ks passwd).

Definition delete_principal_1 (api_version : Z) (princ : principal_arg) (rqstp : svc_req) : stub kadm5_reply :=
  do! handle := begin_stub api_version rqstp in
  do! _ := prime_arg princ in
  do! ok := permitted rqstp ACL_DELETE princ in
  if ok then call handle (kadm5_delete_principal princ) else sret (Err KADM5_AUTH_DELETE).

Definition modify_principal_1 (api_version : Z) (rec : kadm5_principal_ent) (mask : Z) (rqstp : svc_req) : stub kadm5_reply :=
  do! handle := begin_stub api_version rqstp in
  do! _ := prime_arg (ke_principal rec) in
  do! r := restricted_record rqstp ACL_MODIFY rec mask KADM5_AUTH_MODIFY in
  call handle (kadm5_modify_principal r.1 r.2).

(** sprintf(prime_arg, "%s to %s", prime_arg1, prime_arg2) into an array of BUFSIZ *)
Definition rename_string (arg1 arg2 : list octet) : outcome kadm5_ret unit :=
  if strlen arg1 + 4 + strlen arg2 <? BUFSIZ then Ok tt else Undefined.

Definition rename_principal_1 (api_version : Z) (src dest : principal_arg) (rqstp : svc_req) : stub kadm5_reply :=
  do! handle := begin_stub api_version rqstp in
  do! prime_arg1 := prime_arg src in
  do! prime_arg2 := prime_arg dest in
  do! _ := sret (rename_string prime_arg1 prime_arg2) in
  if CHANGEPW_SERVICE rqstp then sret (Err KADM5_AUTH_INSUFFICIENT)
  else
    do! may_delete := acl_check_1 rqstp ACL_DELETE src in
    do! may_add := acl_check_1 rqstp ACL_ADD dest in
    do! add_ok := (if negb may_add.1 then sret (Ok false)
                   else match may_add.2 with
                        | None => sret Undefined
                        | Some rp => sret (Ok (bool_decide (rp = None)))
                        end) in
    if add_ok then
      if may_delete.1 then call handle (kadm5_rename_principal src dest) else sret (Err KADM5_AUTH_DELETE)
    else sret (Err (if may_delete.1 then KADM5_AUTH_ADD else KADM5_AUTH_INSUFFICIENT)).

Definition get_principal_1 (api_version : Z) (princ : principal_arg) (mask : Z) (rqstp : svc_req) : stub kadm5_reply :=
  do! handle := begin_stub api_version rqstp in
  do! _ := prime_arg princ in
  do! self := cmp_gss_krb5_name (rq_clntcred rqstp) princ in
  do! ok := (if self then sret (Ok true) else permitted rqstp ACL_INQUIRE princ) in
  if ok then
    if sh_api_version handle =? KADM5_API_VERSION_1 then call handle (kadm5_get_principal_v1 princ)
    else call handle (kadm5_get_principal princ mask)
  else sret (Err KADM5_AUTH_GET).

Definition get_princs_1 (api_version : Z) (exp : option (list octet)) (rqstp : svc_req) : stub kadm5_reply :=
  do! handle := begin_stub api_version rqstp in
  do! ok := permitted rqstp ACL_LIST None in
  if ok then call handle (kadm5_get_principals exp) else sret (Err KADM5_AUTH_LIST).

(** The check of the minimum life that both wrappers of misc.c make.  The entry and the
    policy are read for the server. *)
Definition min_life_reached (rqstp : svc_req) (princ : principal_arg) : stub unit :=
  do! now := sret (lift (rq_now rqstp)) in
  do! r := lcall (kadm5_get_principal princ KADM5_PRINCIPAL_NORMAL_MASK) in
  match r with
  | PrincipalIs e =>
      if has_bit (ke_aux_attributes e) KADM5_POLICY then
        do! r := lcall (kadm5_get_policy (ke_policy e)) in
        match r with
        | PolicyIs pol =>
            if negb (bool_decide (is_int 32 (now - ke_last_pwd_change e))) then sret Undefined
            else if (now - ke_last_pwd_change e <? kp_pw_min_life pol) && negb (has_bit (ke_attributes e) KRB5_KDB_REQUIRES_PWCHANGE)
            then sret (Err KADM5_PASS_TOOSOON) else sret (Ok tt)
        | _ => sret Undefined
        end
      else sret (Ok tt)
  | _ => sret Undefined
  end.

Definition chpass_principal_wrapper (handle : server_handle) (princ : principal_arg) (passwd : option (list octet)) (rqstp : svc_req) : stub kadm5_reply :=
  do! _ := min_life_reached rqstp princ in
  call handle (kadm5_chpass_principal princ passwd).

Definition randkey_principal_wrapper (handle : server_handle) (princ : principal_arg) (rqstp : svc_req) : stub kadm5_reply :=
  do! _ := min_life_reached rqstp princ in
  call handle (kadm5_randkey_principal princ).

Definition chpass_principal_1 (api_version : Z) (princ : principal_arg) (passwd : option (list octet)) (rqstp : svc_req) : stub kadm5_reply :=
  do! handle := begin_stub api_version rqstp in
  do! _ := prime_arg princ in
  do! self := cmp_gss_krb5_name (rq_clntcred rqstp) princ in
  if self then chpass_principal_wrapper handle princ passwd rqstp
  else
    do! ok := permitted rqstp ACL_CHANGEPW princ in
    if ok then call handle (kadm5_chpass_principal princ passwd) else sret (Err KADM5_AUTH_CHANGEPW).

(** For the caller itself keepold and the types of keys are not passed on. *)
Definition chpass_principal3_1 (api_version : Z) (princ : principal_arg) (keepold : bool) (ks : list krb5_key_salt_tuple) (passwd : option (list octet))
    (rqstp : svc_req) : stub kadm5_reply :=
  do! handle := begin_stub api_version rqstp in
  do! _ := prime_arg princ in
  do! self := cmp_gss_krb5_name (rq_clntcred rqstp) princ in
  if self then chpass_principal_wrapper handle princ passwd rqstp
  else
    do! ok := permitted rqstp ACL_CHANGEPW princ in
    if ok then call handle (kadm5_chpass_principal_3 princ keepold ks passwd) else sret (Err KADM5_AUTH_CHANGEPW).

Definition setv4key_principal_1 (api_version : Z) (princ : principal_arg) (key : option krb5_keyblock) (rqstp : svc_req) : stub kadm5_reply :=
  do! handle := begin_stub api_version rqstp in
  do! _ := prime_arg princ in
  do! ok := permitted rqstp ACL_SETKEY princ in
  if ok then call handle (kadm5_setv4key_principal princ key) else sret (Err KADM5_AUTH_SETKEY).

Definition setkey_principal_1 (api_version : Z) (princ : principal_arg) (keys : list krb5_keyblock) (rqstp : svc_req) : stub kadm5_reply :=
  do! handle := begin_stub api_version rqstp in
  do! _ := prime_arg princ in
  do! ok := permitted rqstp ACL_SETKEY princ in
  if ok then call handle (kadm5_setkey_principal princ keys) else sret (Err KADM5_AUTH_SETKEY).

Definition setkey_principal3_1 (api_version : Z) (princ : principal_arg) (keepold : bool) (ks : list krb5_key_salt_tuple) (keys : list krb5_keyblock)
    (rqstp : svc_req) : stub kadm5_reply :=
  do! handle := begin_stub api_version rqstp in
  do! _ := prime_arg princ in
  do! ok := permitted rqstp ACL_SETKEY princ in
  if ok then call handle (kadm5_setkey_principal_3 princ keepold ks keys) else sret (Err KADM5_AUTH_SETKEY).

(** To a client of version 1 only the first key is returned. *)
Definition chrand_reply (handle : server_handle) (r : kadm5_reply) : kadm5_reply :=
  match r with KeysAre keys => if sh_api_version handle =? KADM5_API_VERSION_1 then KeysAre (take 1 keys) else r | _ => r end.

Definition chrand_principal_1 (api_version : Z) (princ : principal_arg) (rqstp : svc_req) : stub kadm5_reply :=
  do! handle := begin_stub api_version rqstp in
  do! _ := prime_arg princ in
  do! self := cmp_gss_krb5_name (rq_clntcred rqstp) princ in
  do! r := (if self then randkey_principal_wrapper handle princ rqstp
            else
              do! ok := permitted rqstp ACL_CHANGEPW princ in
              if ok then call handle (kadm5_randkey_principal princ) else sret (Err KADM5_AUTH_CHANGEPW)) in
  sret (Ok (chrand_reply handle r)).

Definition chrand_principal3_1 (api_version : Z) (princ : principal_arg) (keepold : bool) (ks : list krb5_key_salt_tuple) (rqstp : svc_req) : stub kadm5_reply :=
  do! handle := begin_stub api_version rqstp in
  do! _ := prime_arg princ in
  do! self := cmp_gss_krb5_name (rq_clntcred rqstp) princ in
  do! r := (if self then randkey_principal_wrapper handle princ rqstp
            else
              do! ok := permitted rqstp ACL_CHANGEPW princ in
              if ok then call handle (kadm5_randkey_principal_3 princ keepold ks) else sret (Err KADM5_AUTH_CHANGEPW)) in
  sret (Ok (chrand_reply handle r)).

(** ** Stubs for policies *)

Definition create_policy_1 (api_version : Z) (rec : kadm5_policy_ent) (mask : Z) (rqstp : svc_req) : stub kadm5_reply :=
  do! handle := begin_stub api_version rqstp in
  do! ok := permitted rqstp ACL_ADD None in
  if ok then call handle (kadm5_create_policy rec mask) else sret (Err KADM5_AUTH_ADD).

Definition delete_policy_1 (api_version : Z) (name : option (list octet)) (rqstp : svc_req) : stub kadm5_reply :=
  do! handle := begin_stub api_version rqstp in
  do! ok := permitted rqstp ACL_DELETE None in
  if ok then call handle (kadm5_delete_policy name) else sret (Err KADM5_AUTH_DELETE).

Definition modify_policy_1 (api_version : Z) (rec : kadm5_policy_ent) (mask : Z) (rqstp : svc_req) : stub kadm5_reply :=
  do! handle := begin_stub api_version rqstp in
  do! ok := permitted rqstp ACL_MODIFY None in
  if ok then call handle (kadm5_modify_policy rec mask) else sret (Err KADM5_AUTH_MODIFY).

(** Whether the policy is that of the caller, whose entry is read for the server.  strcmp of
    a NULL pointer is undefined. *)
Definition own_policy (handle : server_handle) (name : option (list octet)) : stub unit :=
  do! r := lcall (kadm5_get_principal (sh_current_caller handle) KADM5_PRINCIPAL_NORMAL_MASK) in
  match r with
  | PrincipalIs e =>
      if has_bit (ke_aux_attributes e) KADM5_POLICY then
        match ke_policy e, name with
        | Some p, Some n => if bool_decide (p = n) then sret (Ok tt) else sret (Err KADM5_AUTH_GET)
        | _, _ => sret Undefined
        end
      else sret (Err KADM5_AUTH_GET)
  | _ => sret Undefined
  end.

Definition get_policy_1 (api_version : Z) (name : option (list octet)) (rqstp : svc_req) : stub kadm5_reply :=
  do! handle := begin_stub api_version rqstp in
  do! ok := permitted rqstp ACL_INQUIRE None in
  do! _ := (if ok then sret (Ok tt) else own_policy handle name) in
  if sh_api_version handle =? KADM5_API_VERSION_1 then call handle (kadm5_get_policy_v1 name)
  else call handle (kadm5_get_policy name).

Definition get_pols_1 (api_version : Z) (exp : option (list octet)) (rqstp : svc_req) : stub kadm5_reply :=
  do! handle := begin_stub api_version rqstp in
  do! ok := permitted rqstp ACL_LIST None in
  if ok then call handle (kadm5_get_policies exp) else sret (Err KADM5_AUTH_LIST).

Definition get_privs_1 (api_version : Z) (rqstp : svc_req) : stub kadm5_reply :=
  do! handle := begin_stub api_version rqstp in
  call handle kadm5_get_privs.

(** Both the check of the handle and the names are done, whatever the first gives; an error
    of the names is the one that is returned. *)
Definition init_1 (api_version : Z) (rqstp : svc_req) : stub kadm5_reply :=
  do! handle := new_server_handle api_version rqstp in
  do! _ := sret (setup_gss_names rqstp) in
  do! _ := sret (check_handle handle) in
  sret (Ok Done).

(** ** The dispatcher *)

(** The procedures with their arguments as svc_getargs decodes them *)
Inductive kadm_request : Type :=
| NULLPROC
| CREATE_PRINCIPAL (api_version : Z) (rec : kadm5_principal_ent) (mask : Z) (passwd : option (list octet))
| DELETE_PRINCIPAL (api_version : Z) (princ : principal_arg)
| MODIFY_PRINCIPAL (api_version : Z) (rec : kadm5_principal_ent) (mask : Z)
| RENAME_PRINCIPAL (api_version : Z) (src dest : principal_arg)
| GET_PRINCIPAL (api_version : Z) (princ : principal_arg) (mask : Z)
| GET_PRINCS (api_version : Z) (exp : option (list octet))
| CHPASS_PRINCIPAL (api_version : Z) (princ : principal_arg) (passwd : option (list octet))
| SETV4KEY_PRINCIPAL (api_version : Z) (princ : principal_arg) (key : option krb5_keyblock)
| SETKEY_PRINCIPAL (api_version : Z) (princ : principal_arg) (keys : list krb5_keyblock)
| CHRAND_PRINCIPAL (api_version : Z) (princ : principal_arg)
| CREATE_POLICY (api_version : Z) (rec : kadm5_policy_ent) (mask : Z)
| DELETE_POLICY (api_version : Z) (name : option (list octet))
| MODIFY_POLICY (api_version : Z) (rec : kadm5_policy_ent) (mask : Z)
| GET_POLICY (api_version : Z) (name : option (list octet))
| GET_POLS (api_version : Z) (exp : option (list octet))
| GET_PRIVS (api_version : Z)
| INIT (api_version : Z)
| CREATE_PRINCIPAL3 (api_version : Z) (rec : kadm5_principal_ent) (mask : Z) (ks : list krb5_key_salt_tuple) (passwd : option (list octet))
| CHPASS_PRINCIPAL3 (api_version : Z) (princ : principal_arg) (keepold : bool) (ks : list krb5_key_salt_tuple) (passwd : option (list octet))
| CHRAND_PRINCIPAL3 (api_version : Z) (princ : principal_arg) (keepold : bool) (ks : list krb5_key_salt_tuple)
| SETKEY_PRINCIPAL3 (api_version : Z) (princ : principal_arg) (keepold : bool) (ks : list krb5_key_salt_tuple) (keys : list krb5_keyblock).

(** What is sent: the reply of a stub, or [None] where the transport answers by itself *)
Definition kadm_1 (req : kadm_request) (rqstp : svc_req) (sv : server) : option (outcome kadm5_ret kadm5_reply) * server :=
  let local (s : stub kadm5_reply) := let '(r, sv) := s sv in (Some r, sv) in
  if negb (rq_gssapi rqstp) then (None, sv)
  else
    match req with
    | NULLPROC => (None, sv)
    | CREATE_PRINCIPAL v rec mask passwd => local (create_principal_1 v rec mask passwd rqstp)
    | DELETE_PRINCIPAL v princ => local (delete_principal_1 v princ rqstp)
    | MODIFY_PRINCIPAL v rec mask => local (modify_principal_1 v rec mask rqstp)
    | RENAME_PRINCIPAL v src dest => local (rename_principal_1 v src dest rqstp)
    | GET_PRINCIPAL v princ mask => local (get_principal_1 v princ mask rqstp)
    | GET_PRINCS v exp => local (get_princs_1 v exp rqstp)
    | CHPASS_PRINCIPAL v princ passwd => local (chpass_principal_1 v princ passwd rqstp)
    | SETV4KEY_PRINCIPAL v princ key => local (setv4key_principal_1 v princ key rqstp)
    | SETKEY_PRINCIPAL v princ keys => local (setkey_principal_1 v princ keys rqstp)
    | CHRAND_PRINCIPAL v princ => local (chrand_principal_1 v princ rqstp)
    | CREATE_POLICY v rec mask => local (create_policy_1 v rec mask rqstp)
    | DELETE_POLICY v name => local (delete_policy_1 v name rqstp)
    | MODIFY_POLICY v rec mask => local (modify_policy_1 v rec mask rqstp)
    | GET_POLICY v name => local (get_policy_1 v name rqstp)
    | GET_POLS v exp => local (get_pols_1 v exp rqstp)
    | GET_PRIVS v => local (get_privs_1 v rqstp)
    | INIT v => local (init_1 v rqstp)
    | CREATE_PRINCIPAL3 v rec mask ks passwd => local (create_principal3_1 v rec mask ks passwd rqstp)
    | CHPASS_PRINCIPAL3 v princ keepold ks passwd => local (chpass_principal3_1 v princ keepold ks passwd rqstp)
    | CHRAND_PRINCIPAL3 v princ keepold ks => local (chrand_principal3_1 v princ keepold ks rqstp)
    | SETKEY_PRINCIPAL3 v princ keepold ks keys => local (setkey_principal3_1 v princ keepold ks keys rqstp)
    end.

End stubs.
