(* ===== verification/KadmStubsProofs.v ===== *)
(** * The administration server does only what the caller may do (KadmStubs.v)

    Complete mediation: whatever a client asks for, every call of the library that changes
    or shows the database is one that the file of access rights grants to this client, or
    one that concerns the client's own entry. *)

From Stdlib Require Import String.
From S2P Require Import Prelude CString Asn1Buf Krb5Types PrincName PrincNameProofs Kdc Kdb KadmAcl KadmAclProofs KadmStubs.

Section mediation.
Context `{P : Platform} (BUFSIZ : Z) (deltat : list octet -> option Z) (get : outcome error_code (list octet)).
Context {gss_name : Type} (gss_display_name : gss_name -> option (list octet * bool)) (gss_compare_name : option gss_name -> gss_name -> option bool).
Context {db : Type} (perform : option server_handle -> kadm5_call -> db -> outcome kadm5_ret kadm5_reply * db).
Context (config : @server_config gss_name) (lines : list acl_line).

Abbreviation request := (@svc_req gss_name).
Abbreviation server := (@server db).

(** ** What a caller may do *)

Section caller.
Context (rqstp : request) (caller : name).

Definition changepw_only : bool := CHANGEPW_SERVICE gss_compare_name config rqstp.

(** The file grants the operation, with these restrictions *)
Definition grants_with (op : Z) (princ : principal_arg) (rp : option restriction_t) : Prop :=
  changepw_only = false /\ exists dest, target_is princ dest /\ decision deltat get lines caller op dest = (true, Some rp).
Definition grants (op : Z) (princ : principal_arg) : Prop := exists rp, grants_with op princ rp.

(** The record is what the restrictions make of a record that was sent *)
Definition grants_record (op : Z) (rec : kadm5_principal_ent) (mask : Z) : Prop :=
  exists rec0 mask0 rp, grants_with op (ke_principal rec0) rp /\ acl_impose_restrictions (rq_now rqstp) rec0 mask0 rp = Ok (rec, mask).

Definition is_self (princ : principal_arg) : Prop := exists p, princ = Some p /\ princ_holds p caller.1 caller.2.

(** The policy is that of the caller, as the database says. *)
Definition owns_policy (name : option (list octet)) : Prop :=
  exists d d' e, perform None (kadm5_get_principal (Some (name_principal caller.1 caller.2)) KADM5_PRINCIPAL_NORMAL_MASK) d = (Ok (PrincipalIs e), d') /\
    has_bit (ke_aux_attributes e) KADM5_POLICY = true /\ ke_policy e = name.

Definition authorized (c : kadm5_call) : Prop :=
  match c with
  | kadm5_create_principal rec mask _ | kadm5_create_principal_3 rec mask _ _ => grants_record ACL_ADD rec mask
  | kadm5_delete_principal princ => grants ACL_DELETE princ
  | kadm5_modify_principal rec mask => grants_record ACL_MODIFY rec mask
  | kadm5_rename_principal src dest => grants ACL_DELETE src /\ grants_with ACL_ADD dest None
  | kadm5_get_principal_v1 princ | kadm5_get_principal princ _ => is_self princ \/ grants ACL_INQUIRE princ
  | kadm5_get_principals _ | kadm5_get_policies _ => grants ACL_LIST None
  | kadm5_chpass_principal princ _ | kadm5_randkey_principal princ => is_self princ \/ grants ACL_CHANGEPW princ
  | kadm5_chpass_principal_3 princ _ _ _ | kadm5_randkey_principal_3 princ _ _ => grants ACL_CHANGEPW princ
  | kadm5_setv4key_principal princ _ | kadm5_setkey_principal princ _ | kadm5_setkey_principal_3 princ _ _ _ => grants ACL_SETKEY princ
  | kadm5_create_policy _ _ => grants ACL_ADD None
  | kadm5_delete_policy _ => grants ACL_DELETE None
  | kadm5_modify_policy _ _ => grants ACL_MODIFY None
  | kadm5_get_policy_v1 name | kadm5_get_policy name => grants ACL_INQUIRE None \/ owns_policy name
  | kadm5_get_privs => True
  end.

(** What the server reads for itself: the entry of the caller and a policy *)
Definition server_read (c : kadm5_call) : Prop :=
  match c with
  | kadm5_get_principal princ _ => is_self princ
  | kadm5_get_policy _ => True
  | _ => False
  end.

Definition legitimate (entry : option server_handle * kadm5_call) : Prop :=
  match entry.1 with
  | Some h => sh_current_caller h = Some (name_principal caller.1 caller.2) /\ authorized entry.2
  | None => server_read entry.2
  end.

End caller.

(** The name of the client *)
Definition client_is (rqstp : request) (n : name) : Prop :=
  exists s junk, gss_display_name (rq_clntcred rqstp) = Some (s ++ 0 :: junk, true) /\ name_ok s /\ reading get s = Some n.

(** gss_display_name shows C strings. *)
Definition request_ok (rqstp : request) : Prop :=
  forall str type, gss_display_name (rq_clntcred rqstp) = Some (str, type) -> exists s junk, str = s ++ 0 :: junk /\ name_ok s.

(** The calls of a stub, one after the other *)
Definition run_log (log : list (option server_handle * kadm5_call)) (d : db) : db := foldl (fun d '(who, c) => (perform who c d).2) d log.

Context (HR : realm_known get) (HL : Forall (line_ok get) lines).

(** ** Parts of stubs that are safe *)

Section safe.
Context (rqstp : request) (HQ : request_ok rqstp).

Definition logged (log : list (option server_handle * kadm5_call)) : Prop :=
  Forall (fun x => exists n, client_is rqstp n /\ legitimate rqstp n x) log.

Definition safe {A} (m : sproc server kadm5_ret A) (Q : A -> Prop) : Prop := forall sv, acl_inv deltat get lines (sv_acl sv) ->
  acl_inv deltat get lines (sv_acl (m sv).2) /\ (exists log, logged log /\ sv_db (m sv).2 = run_log log (sv_db sv)) /\
  match (m sv).1 with Ok a => Q a | _ => True end.

Lemma run_log_app l1 l2 d : run_log (l1 ++ l2) d = run_log l2 (run_log l1 d).
Proof. apply foldl_app. Qed.

Lemma safe_bind {A B} (m : sproc server kadm5_ret A) (k : A -> sproc server kadm5_ret B) Q R :
  safe m Q -> (forall a, Q a -> safe (k a) R) -> safe (sbind m k) R.
Proof.
  intros Hm Hk sv HI. unfold sbind. destruct (Hm sv HI) as (HI1 & (log1 & L1 & E1) & H1).
  destruct (m sv) as [[a|e| |] sv1]; cbn [fst snd] in *; try (split; [done|]; split; [|done]; by exists log1).
  destruct (Hk a H1 sv1 HI1) as (HI2 & (log2 & L2 & E2) & H2). split; [done|]. split; [|done].
  exists (log1 ++ log2). split; [by apply Forall_app|]. by rewrite run_log_app, <- E1.
Qed.

Lemma safe_ret {A} (r : outcome kadm5_ret A) (Q : A -> Prop) : match r with Ok a => Q a | _ => True end -> safe (sret r) Q.
Proof. intros H sv HI. split; [done|]. split; [|done]. exists []. by split; [constructor|]. Qed.

Lemma safe_weaken {A} (m : sproc server kadm5_ret A) (Q R : A -> Prop) : safe m Q -> (forall a, Q a -> R a) -> safe m R.
Proof. intros Hm H sv HI. destruct (Hm sv HI) as (A1 & A2 & A3). split; [done|]. split; [done|]. destruct (m sv).1; [by apply H|done..]. Qed.

(** A part that leaves the database alone *)
Lemma safe_quiet {A} (m : sproc server kadm5_ret A) Q :
  (forall sv, acl_inv deltat get lines (sv_acl sv) -> acl_inv deltat get lines (sv_acl (m sv).2) /\ sv_db (m sv).2 = sv_db sv /\ match (m sv).1 with Ok a => Q a | _ => True end) -> safe m Q.
Proof. intros H sv HI. destruct (H sv HI) as (A1 & A2 & A3). split; [done|]. split; [|done]. exists []. by split; [constructor|]. Qed.

Lemma safe_krb5_name : safe (gss_to_krb5_name get gss_display_name (rq_clntcred rqstp))
  (fun p => match p with Some p => exists n, client_is rqstp n /\ p = name_principal n.1 n.2 | None => True end).
Proof.
  apply safe_quiet. intros sv HI. unfold gss_to_krb5_name. destruct (gss_display_name (rq_clntcred rqstp)) as [[str [|]]|] eqn:ED; [|done|done].
  destruct (HQ _ _ ED) as (s & junk & -> & NS). unfold parse_name. pose proof HI as [HE HD].
  destruct (parse_reading get s junk _ HR HD NS) as (r & dr & -> & HD' & Hr).
  assert (HI' : acl_inv deltat get lines (sv_acl (set_default_realm dr sv))) by (by split).
  destruct (reading get s) as [n|] eqn:ER.
  - subst r. cbn [fst snd]. split; [done|]. split; [done|]. exists n. split; [|done]. by exists s, junk.
  - destruct Hr as [e ->]. done.
Qed.

(** The handle of a client *)
Definition handle_of (h : server_handle) (n : name) : Prop := client_is rqstp n /\ sh_current_caller h = Some (name_principal n.1 n.2).

Lemma safe_new_handle v : safe (new_server_handle get gss_display_name config v rqstp) (fun h => exists n, handle_of h n).
Proof.
  eapply safe_bind; [apply safe_krb5_name|]. intros [p|] Hp; [|by apply safe_ret]. destruct Hp as (n & Hn & ->). apply safe_ret. by exists n.
Qed.

Lemma safe_begin v : safe (begin_stub get gss_display_name config v rqstp) (fun h => exists n, handle_of h n).
Proof.
  eapply safe_bind; [apply safe_new_handle|]. intros h Hh. eapply safe_bind; [apply safe_ret with (Q := fun _ => True); by destruct (check_handle h)|].
  intros _ _. eapply safe_bind; [apply safe_ret with (Q := fun _ => True); by destruct (setup_gss_names _ _)|]. intros _ _. by apply safe_ret.
Qed.

Lemma safe_prime_arg princ : safe (prime_arg princ) (fun _ => exists p, princ = Some p).
Proof. destruct princ as [p|]; apply safe_ret; [|done]. destruct (krb5_unparse_name p); try done. by exists p. Qed.

Lemma client_unique n m : client_is rqstp n -> client_is rqstp m -> n = m.
Proof.
  intros (s & j & E & [Hs _] & R) (s' & j' & E' & [Hs' _] & R'). rewrite E in E'. injection E' as E'.
  assert (s = s'); [|by subst; rewrite R in R'; injection R'].
  clear R R' E. revert s' Hs' E'. induction Hs as [|c s Hc _ IH]; intros s' Hs' E'; destruct Hs' as [|c' s' Hc' Hs']; try done.
  - by injection E' as E1 _.
  - by injection E' as E1 _.
  - injection E' as -> E'. by rewrite (IH s' Hs' E').
Qed.

Lemma safe_check n op princ dest : client_is rqstp n -> target_is princ dest ->
  safe (acl_check_1 deltat get gss_display_name rqstp op princ) (fun r => r = decision deltat get lines n op dest).
Proof.
  intros (s & junk & ED & NS & ER) HT. apply safe_quiet. intros sv HI. unfold acl_check_1. rewrite ED. cbn [fmap option_fmap option_map fst].
  destruct (acl_check_ok deltat get lines s junk n op princ dest (sv_acl sv) HR HL HI NS ER HT) as (st' & -> & HI').
  destruct (decision deltat get lines n op dest) as [ok rp]. done.
Qed.

(** An argument that is a principal *)
Definition arg_ok (princ : principal_arg) : Prop := exists dest, target_is princ dest.

Lemma decision_restrictions n op dest r : decision deltat get lines n op dest = (true, r) -> exists rp, r = Some rp.
Proof. unfold decision. destruct (List.find _ _); [|done]. destruct (_ =? _); [|done]. injection 1 as <-. by eexists. Qed.

Lemma safe_permitted n op princ : client_is rqstp n -> arg_ok princ ->
  safe (permitted deltat get gss_display_name gss_compare_name config rqstp op princ) (fun ok => ok = true -> grants rqstp n op princ).
Proof.
  intros Hn [dest HT]. unfold permitted. destruct (CHANGEPW_SERVICE gss_compare_name config rqstp) eqn:EC; [by apply safe_ret|].
  eapply safe_bind; [by apply (safe_check n op princ dest)|]. intros r ->. apply safe_ret. intros E.
  destruct (decision deltat get lines n op dest) as [ok r] eqn:ED. cbn [fst] in E. subst ok. destruct (decision_restrictions _ _ _ _ ED) as [rp ->].
  exists rp. split; [done|]. by exists dest.
Qed.

Lemma safe_restricted n op rec mask denied : client_is rqstp n -> arg_ok (ke_principal rec) ->
  safe (restricted_record deltat get gss_display_name gss_compare_name config rqstp op rec mask denied) (fun r => grants_record rqstp n op r.1 r.2).
Proof.
  intros Hn [dest HT]. unfold restricted_record. destruct (CHANGEPW_SERVICE gss_compare_name config rqstp) eqn:EC; [by apply safe_ret|].
  eapply safe_bind; [by apply (safe_check n op (ke_principal rec) dest)|]. intros r ->.
  destruct (decision deltat get lines n op dest) as [[|] r] eqn:ED; cbn [fst snd negb]; [|by apply safe_ret].
  destruct (decision_restrictions _ _ _ _ ED) as [rp ->]. apply safe_ret.
  destruct (acl_impose_restrictions (rq_now rqstp) rec mask rp) as [[rec' mask']| | |] eqn:EI; try done. exists rec, mask, rp. split; [|done]. split; [done|]. by exists dest.
Qed.

Lemma safe_self n princ : client_is rqstp n -> arg_ok princ ->
  safe (cmp_gss_krb5_name get gss_display_name (rq_clntcred rqstp) princ) (fun self => self = true -> is_self n princ).
Proof.
  intros Hn [dest HT]. eapply safe_bind; [apply safe_krb5_name|]. intros [p2|] Hp; [|by apply safe_ret]. destruct Hp as (m & Hm & ->).
  rewrite (client_unique m n Hm Hn). apply safe_ret. destruct princ as [p|], dest as [d|]; try done.
  rewrite (principal_compare_ok p d.1 d.2 _ n.1 n.2 HT (princ_holds_name _ _)). cbn [lift]. intros [E1 E2]%bool_decide_eq_true_1.
  exists p. split; [done|]. by rewrite <- E1, <- E2.
Qed.

Lemma safe_call h n c : handle_of h n -> authorized rqstp n c -> safe (call perform h c) (fun _ => True).
Proof.
  intros [Hn Eh] HA sv HI. unfold call. destruct (perform (Some h) c (sv_db sv)) as [r d] eqn:EP. cbn [fst snd sv_acl sv_db].
  split; [done|]. split; [|by destruct r]. exists [(Some h, c)]. split; [constructor; [|constructor]; by exists n|].
  cbn [run_log foldl]. by rewrite EP.
Qed.

Lemma safe_lcall n c : client_is rqstp n -> server_read n c -> safe (lcall perform c) (fun r => exists d d', perform None c d = (Ok r, d')).
Proof.
  intros Hn HA sv HI. unfold lcall. destruct (perform None c (sv_db sv)) as [r d] eqn:EP. cbn [fst snd sv_acl sv_db].
  split; [done|]. split; [|destruct r; try done; by eexists _, _]. exists [(None, c)]. split; [constructor; [|constructor]; by exists n|].
  cbn [run_log foldl]. by rewrite EP.
Qed.

Lemma safe_min_life n princ : client_is rqstp n -> is_self n princ -> safe (min_life_reached perform rqstp princ) (fun _ => True).
Proof.
  intros Hn Hs. unfold min_life_reached. eapply safe_bind; [apply safe_ret with (Q := fun _ => True); by destruct (lift _)|]. intros now _.
  eapply safe_bind; [by apply (safe_lcall n)|]. intros [|e| | | |] _; try (by apply safe_ret).
  destruct (has_bit _ _); [|by apply safe_ret]. eapply safe_bind; [by apply (safe_lcall n)|]. intros [| |pol| | |] _; try (by apply safe_ret).
  destruct (negb _); [by apply safe_ret|]. destruct (_ && _); by apply safe_ret.
Qed.

Lemma safe_own_policy h n name : handle_of h n -> safe (own_policy perform h name) (fun _ => owns_policy n name).
Proof.
  intros [Hn Eh]. unfold own_policy. rewrite Eh.
  eapply safe_bind; [apply (safe_lcall n); [done|]; eexists; split; [done|apply princ_holds_name]|]. intros [|e| | | |] (d & d' & E); try (by apply safe_ret).
  destruct (has_bit _ _) eqn:EB; [|by apply safe_ret]. destruct (ke_policy e) as [p|] eqn:EP, name as [m|]; try (by apply safe_ret).
  case_bool_decide; [|by apply safe_ret]. apply safe_ret. subst m. by exists d, d', e.
Qed.

(** ** The stubs *)

Abbreviation safe_stub m := (safe m (fun _ => True)).

Ltac begin h n Hn :=
  eapply safe_bind; [apply safe_begin|]; let Hh := fresh "Hh" in intros h [n Hh]; pose proof Hh as [Hn _];
  try (eapply safe_bind; [apply safe_prime_arg|]; intros ? _).
(** A call that is permitted, or an error *)
Ltac permit n :=
  eapply safe_bind; [by apply (safe_permitted n)|]; intros [|] Hok; [|by apply safe_ret];
  eapply safe_call; [eassumption|]; try (right; by apply Hok); try (by apply Hok).

Lemma safe_create_principal_1 v rec mask passwd : arg_ok (ke_principal rec) ->
  safe_stub (create_principal_1 deltat get gss_display_name gss_compare_name perform config v rec mask passwd rqstp).
Proof. intros HA. begin h n Hn. eapply safe_bind; [by apply (safe_restricted n)|]. intros r Hr. by eapply safe_call. Qed.

Lemma safe_create_principal3_1 v rec mask ks passwd : arg_ok (ke_principal rec) ->
  safe_stub (create_principal3_1 deltat get gss_display_name gss_compare_name perform config v rec mask ks passwd rqstp).
Proof. intros HA. begin h n Hn. eapply safe_bind; [by apply (safe_restricted n)|]. intros r Hr. by eapply safe_call. Qed.

Lemma safe_modify_principal_1 v rec mask : arg_ok (ke_principal rec) ->
  safe_stub (modify_principal_1 deltat get gss_display_name gss_compare_name perform config v rec mask rqstp).
Proof. intros HA. begin h n Hn. eapply safe_bind; [by apply (safe_restricted n)|]. intros r Hr. by eapply safe_call. Qed.

Lemma safe_delete_principal_1 v princ : arg_ok princ ->
  safe_stub (delete_principal_1 deltat get gss_display_name gss_compare_name perform config v princ rqstp).
Proof. intros HA. begin h n Hn. permit n. Qed.

Lemma safe_rename_principal_1 v src dest : arg_ok src -> arg_ok dest ->
  safe_stub (rename_principal_1 BUFSIZ deltat get gss_display_name gss_compare_name perform config v src dest rqstp).
Proof.
  intros [sn Hs] [dn Hd]. begin h n Hn. eapply safe_bind; [apply safe_prime_arg|]. intros arg2 _.
  eapply safe_bind; [apply safe_ret with (Q := fun _ => True); by destruct (rename_string _ _ _)|]. intros _ _.
  destruct (CHANGEPW_SERVICE gss_compare_name config rqstp) eqn:EC; [by apply safe_ret|].
  eapply safe_bind; [by apply (safe_check n ACL_DELETE src sn)|]. intros r1 E1. eapply safe_bind; [by apply (safe_check n ACL_ADD dest dn)|]. intros r2 E2.
  destruct (decision deltat get lines n ACL_ADD dn) as [ok2 rp2] eqn:D2. subst r2. cbn [fst snd].
  eapply safe_bind with (Q := fun ok => ok = true -> ok2 = true /\ rp2 = Some None).
  { destruct ok2; cbn [negb]; [|by apply safe_ret]. destruct rp2 as [rp|]; [|by apply safe_ret]. apply safe_ret. intros E%bool_decide_eq_true_1. by subst. }
  intros [|] H2; [|by apply safe_ret]. destruct (H2 eq_refl) as [-> ->].
  destruct (decision deltat get lines n ACL_DELETE sn) as [ok1 rp1] eqn:D1. subst r1. cbn [fst]. destruct ok1; [|by apply safe_ret].
  destruct (decision_restrictions _ _ _ _ D1) as [rp ->]. eapply safe_call; [eassumption|]. split; [exists rp; split; [done|by exists sn]|]. split; [done|by exists dn].
Qed.

Lemma safe_get_principal_1 v princ mask : arg_ok princ ->
  safe_stub (get_principal_1 deltat get gss_display_name gss_compare_name perform config v princ mask rqstp).
Proof.
  intros HA. begin h n Hn. eapply safe_bind; [by apply (safe_self n)|]. intros self Hs.
  eapply safe_bind with (Q := fun ok => ok = true -> is_self n princ \/ grants rqstp n ACL_INQUIRE princ).
  { destruct self; [apply safe_ret; by left; apply Hs|]. eapply safe_weaken; [by apply (safe_permitted n)|]. intros ok Hok E. right. by apply Hok. }
  intros [|] Hok; [|by apply safe_ret]. destruct (_ =? _); (eapply safe_call; [eassumption|]; by apply Hok).
Qed.

Lemma safe_get_princs_1 v exp : safe_stub (get_princs_1 deltat get gss_display_name gss_compare_name perform config v exp rqstp).
Proof. assert (HA : arg_ok None) by (by exists None). begin h n Hn. permit n. Qed.

Lemma safe_chpass_principal_1 v princ passwd : arg_ok princ ->
  safe_stub (chpass_principal_1 deltat get gss_display_name gss_compare_name perform config v princ passwd rqstp).
Proof.
  intros HA. begin h n Hn. eapply safe_bind; [by apply (safe_self n)|]. intros [|] Hs; [|permit n].
  eapply safe_bind; [apply (safe_min_life n); [done|by apply Hs]|]. intros _ _. eapply safe_call; [eassumption|]. left. by apply Hs.
Qed.

Lemma safe_chpass_principal3_1 v princ keepold ks passwd : arg_ok princ ->
  safe_stub (chpass_principal3_1 deltat get gss_display_name gss_compare_name perform config v princ keepold ks passwd rqstp).
Proof.
  intros HA. begin h n Hn. eapply safe_bind; [by apply (safe_self n)|]. intros [|] Hs; [|permit n].
  eapply safe_bind; [apply (safe_min_life n); [done|by apply Hs]|]. intros _ _. eapply safe_call; [eassumption|]. left. by apply Hs.
Qed.

Lemma safe_setv4key_principal_1 v princ key : arg_ok princ ->
  safe_stub (setv4key_principal_1 deltat get gss_display_name gss_compare_name perform config v princ key rqstp).
Proof. intros HA. begin h n Hn. permit n. Qed.

Lemma safe_setkey_principal_1 v princ keys : arg_ok princ ->
  safe_stub (setkey_principal_1 deltat get gss_display_name gss_compare_name perform config v princ keys rqstp).
Proof. intros HA. begin h n Hn. permit n. Qed.

Lemma safe_setkey_principal3_1 v princ keepold ks keys : arg_ok princ ->
  safe_stub (setkey_principal3_1 deltat get gss_display_name gss_compare_name perform config v princ keepold ks keys rqstp).
Proof. intros HA. begin h n Hn. permit n. Qed.

Lemma safe_chrand_principal_1 v princ : arg_ok princ ->
  safe_stub (chrand_principal_1 deltat get gss_display_name gss_compare_name perform config v princ rqstp).
Proof.
  intros HA. begin h n Hn. eapply safe_bind; [by apply (safe_self n)|]. intros self Hs. eapply safe_bind with (Q := fun _ => True); [|intros; by apply safe_ret].
  destruct self; [|permit n]. eapply safe_bind; [apply (safe_min_life n); [done|by apply Hs]|]. intros _ _. eapply safe_call; [eassumption|]. left. by apply Hs.
Qed.

Lemma safe_chrand_principal3_1 v princ keepold ks : arg_ok princ ->
  safe_stub (chrand_principal3_1 deltat get gss_display_name gss_compare_name perform config v princ keepold ks rqstp).
Proof.
  intros HA. begin h n Hn. eapply safe_bind; [by apply (safe_self n)|]. intros self Hs. eapply safe_bind with (Q := fun _ => True); [|intros; by apply safe_ret].
  destruct self; [|permit n]. eapply safe_bind; [apply (safe_min_life n); [done|by apply Hs]|]. intros _ _. eapply safe_call; [eassumption|]. left. by apply Hs.
Qed.

Lemma safe_create_policy_1 v rec mask : safe_stub (create_policy_1 deltat get gss_display_name gss_compare_name perform config v rec mask rqstp).
Proof. assert (HA : arg_ok None) by (by exists None). begin h n Hn. permit n. Qed.

Lemma safe_delete_policy_1 v name : safe_stub (delete_policy_1 deltat get gss_display_name gss_compare_name perform config v name rqstp).
Proof. assert (HA : arg_ok None) by (by exists None). begin h n Hn. permit n. Qed.

Lemma safe_modify_policy_1 v rec mask : safe_stub (modify_policy_1 deltat get gss_display_name gss_compare_name perform config v rec mask rqstp).
Proof. assert (HA : arg_ok None) by (by exists None). begin h n Hn. permit n. Qed.

Lemma safe_get_policy_1 v name : safe_stub (get_policy_1 deltat get gss_display_name gss_compare_name perform config v name rqstp).
Proof.
  assert (HA : arg_ok None) by (by exists None). begin h n Hn. eapply safe_bind; [by apply (safe_permitted n)|]. intros ok Hok.
  eapply safe_bind with (Q := fun _ => grants rqstp n ACL_INQUIRE None \/ owns_policy n name).
  { destruct ok; [apply safe_ret; left; by apply Hok|]. eapply safe_weaken; [by apply (safe_own_policy h n)|]. by right. }
  intros _ H. destruct (_ =? _); by eapply safe_call.
Qed.

Lemma safe_get_pols_1 v exp : safe_stub (get_pols_1 deltat get gss_display_name gss_compare_name perform config v exp rqstp).
Proof. assert (HA : arg_ok None) by (by exists None). begin h n Hn. permit n. Qed.

Lemma safe_get_privs_1 v : safe_stub (get_privs_1 get gss_display_name perform config v rqstp).
Proof. begin h n Hn. by eapply safe_call. Qed.

Lemma safe_init_1 v : safe_stub (init_1 get gss_display_name config v rqstp).
Proof.
  eapply safe_bind; [apply safe_new_handle|]. intros h _. eapply safe_bind; [apply safe_ret with (Q := fun _ => True); by destruct (setup_gss_names _ _)|].
  intros _ _. eapply safe_bind; [apply safe_ret with (Q := fun _ => True); by destruct (check_handle h)|]. intros _ _. by apply safe_ret.
Qed.

(** The principals of a request are as xdr_krb5_principal makes them, or NULL. *)
Definition args_ok (req : kadm_request) : Prop :=
  match req with
  | CREATE_PRINCIPAL _ rec _ _ | CREATE_PRINCIPAL3 _ rec _ _ _ | MODIFY_PRINCIPAL _ rec _ => arg_ok (ke_principal rec)
  | RENAME_PRINCIPAL _ src dest => arg_ok src /\ arg_ok dest
  | DELETE_PRINCIPAL _ p | GET_PRINCIPAL _ p _ | CHPASS_PRINCIPAL _ p _ | SETV4KEY_PRINCIPAL _ p _ | SETKEY_PRINCIPAL _ p _ | CHRAND_PRINCIPAL _ p
  | CHPASS_PRINCIPAL3 _ p _ _ _ | CHRAND_PRINCIPAL3 _ p _ _ | SETKEY_PRINCIPAL3 _ p _ _ _ => arg_ok p
  | _ => True
  end.

Lemma kadm_1_safe req sv : args_ok req -> acl_inv deltat get lines (sv_acl sv) ->
  let sv' := (kadm_1 BUFSIZ deltat get gss_display_name gss_compare_name perform config req rqstp sv).2 in
  acl_inv deltat get lines (sv_acl sv') /\ exists log, logged log /\ sv_db sv' = run_log log (sv_db sv).
Proof.
  intros HA HI.
  assert (ID : forall sv', sv' = sv -> acl_inv deltat get lines (sv_acl sv') /\ exists log, logged log /\ sv_db sv' = run_log log (sv_db sv)).
  { intros sv' ->. split; [done|]. exists []. by split; [constructor|]. }
  assert (ST : forall m : sproc server kadm5_ret kadm5_reply, safe_stub m ->
    let sv' := (let '(r, sv') := m sv in (Some r, sv')).2 in acl_inv deltat get lines (sv_acl sv') /\ exists log, logged log /\ sv_db sv' = run_log log (sv_db sv)).
  { intros m Hm. destruct (Hm sv HI) as (A1 & A2 & _). by destruct (m sv). }
  unfold kadm_1. destruct (negb (rq_gssapi rqstp)); [by apply ID|]. destruct req; cbn [args_ok] in HA; try (by apply ID); apply ST.
  - by apply safe_create_principal_1.
  - by apply safe_delete_principal_1.
  - by apply safe_modify_principal_1.
  - destruct HA. by apply safe_rename_principal_1.
  - by apply safe_get_principal_1.
  - by apply safe_get_princs_1.
  - by apply safe_chpass_principal_1.
  - by apply safe_setv4key_principal_1.
  - by apply safe_setkey_principal_1.
  - by apply safe_chrand_principal_1.
  - by apply safe_create_policy_1.
  - by apply safe_delete_policy_1.
  - by apply safe_modify_policy_1.
  - by apply safe_get_policy_1.
  - by apply safe_get_pols_1.
  - by apply safe_get_privs_1.
  - by apply safe_init_1.
  - by apply safe_create_principal3_1.
  - by apply safe_chpass_principal3_1.
  - by apply safe_chrand_principal3_1.
  - by apply safe_setkey_principal3_1.
Qed.

End safe.

(** ** Any history of requests *)

Fixpoint serve_requests (reqs : list (kadm_request * request)) (sv : server) : server :=
  match reqs with
  | [] => sv
  | (req, rqstp) :: reqs => serve_requests reqs (kadm_1 BUFSIZ deltat get gss_display_name gss_compare_name perform config req rqstp sv).2
  end.

Lemma serve_safe reqs sv : Forall (fun x => args_ok x.1 /\ request_ok x.2) reqs -> acl_inv deltat get lines (sv_acl sv) ->
  exists logs, Forall2 (fun x log => logged x.2 log) reqs logs /\ sv_db (serve_requests reqs sv) = run_log (concat logs) (sv_db sv).
Proof.
  intros H. revert sv. induction H as [|[req rqstp] reqs [HA HQ] _ IH]; intros sv HI; [by exists []; split; [constructor|]|]. cbn [fst snd] in *.
  destruct (kadm_1_safe rqstp HQ req sv HA HI) as (HI' & log & HLog & E). destruct (IH _ HI') as (logs & HLogs & E'). exists (log :: logs).
  split; [by constructor|]. cbn [serve_requests concat]. by rewrite E', E, run_log_app.
Qed.

End mediation.

Section theorems.
Context `{P : Platform}.

(** C18: Complete mediation by the administration server. Started with a file of
    well-formed rules with known operation letters, in which no target refers back to a
    wildcard (with *1 to *9 the code grants what the file does not, wildcards_leak),
    over any history of requests by any clients about well-formed or NULL principals,
    what has become of the database is the work of library calls, each of them made for
    a request and either a reading that the server needs for its own checks or its
    client's right: granted by the first line that governs client and target, under the
    restrictions that acl_check gives for that line, which are none if its target is any
    target, on the client's own entry or policy, or the question for its own privileges.
    Over the service for changing passwords nothing is granted by the file. *)
Theorem kadmin_mediates BUFSIZ deltat get {gss_name : Type} (display : gss_name -> option (list octet * bool)) compare
    {db : Type} (perform : option server_handle -> kadm5_call -> db -> outcome kadm5_ret kadm5_reply * db) config items reqs d :
  0 < BUFSIZ -> BUFSIZ + 88 <= malloc_limit -> realm_known get -> Forall (item_ok BUFSIZ) items -> Forall (line_ok get) (rules items) ->
  Forall (fun x => args_ok x.1 /\ request_ok display x.2) reqs ->
  exists acl logs, acl_init BUFSIZ (Some (acl_text items)) None = Ok acl /\
    sv_db (serve_requests BUFSIZ deltat get display compare perform config reqs (Server acl d)) = run_log perform (concat logs) d /\
    Forall2 (fun x log => Forall (fun entry => exists caller, client_is get display x.2 caller /\
      legitimate deltat get compare perform config (rules items) x.2 caller entry) log) reqs logs.
Proof.
  intros HB HM HR HI HL HQ. destruct (acl_init_ok BUFSIZ deltat get items HB HM HI) as (acl & E & HA). exists acl.
  destruct (serve_safe BUFSIZ deltat get display compare perform config (rules items) HR HL reqs (Server acl d) HQ HA) as (logs & HLogs & ED). by exists logs.
Qed.

(** A request about no principal (NULL, which the protocol can express) stops the
    server: the name is printed for the log before the rights of the client are looked
    at. *)
Theorem null_principal_crashes BUFSIZ deltat get {gss_name : Type} (display : gss_name -> option (list octet * bool)) compare
    {db : Type} (perform : option server_handle -> kadm5_call -> db -> outcome kadm5_ret kadm5_reply * db) config rqstp sv h sv' v :
  rq_gssapi rqstp = true -> begin_stub get display config v rqstp sv = (Ok h, sv') ->
  (kadm_1 BUFSIZ deltat get display compare perform config (DELETE_PRINCIPAL v None) rqstp sv).1 = Some Undefined.
Proof. intros HG E. unfold kadm_1. rewrite HG. cbn [negb]. unfold delete_principal_1, sbind at 1. by rewrite E. Qed.

(** A request to rename a principal whose two names have together at least BUFSIZ - 4
    characters is written beyond the end of an array, before the rights of the client
    are looked at. *)
Theorem long_rename_overflows BUFSIZ deltat get {gss_name : Type} (display : gss_name -> option (list octet * bool)) compare
    {db : Type} (perform : option server_handle -> kadm5_call -> db -> outcome kadm5_ret kadm5_reply * db) config rqstp sv h sv' v src dest s1 s2 :
  rq_gssapi rqstp = true -> begin_stub get display config v rqstp sv = (Ok h, sv') ->
  krb5_unparse_name src = Ok s1 -> krb5_unparse_name dest = Ok s2 -> BUFSIZ <= strlen s1 + 4 + strlen s2 ->
  (kadm_1 BUFSIZ deltat get display compare perform config (RENAME_PRINCIPAL v (Some src) (Some dest)) rqstp sv).1 = Some Undefined.
Proof.
  intros HG E E1 E2 HL. unfold kadm_1. rewrite HG. cbn [negb]. unfold rename_principal_1, sbind at 1. rewrite E.
  unfold sbind, prime_arg. rewrite E1, E2. cbn [sret]. unfold rename_string. destruct (Z.ltb_spec (strlen s1 + 4 + strlen s2) BUFSIZ); [lia|done].
Qed.

End theorems.
