(* ===== verification/KadmPrinc.v ===== *)
(** * The library of the administration system (src/src/lib/kadm5/srv)

    Policies (svr_policy.c, adb_policy.c), the entries of principals with their policy and
    the history of their passwords (svr_principal.c, server_kdb.c, server_misc.c), and the
    keys that are made of passwords or at random (src/src/lib/kdb/kdb_cpw.c).

    The two databases are finite maps, from the names that krb5_encode_princ_dbkey makes and
    from the names of policies.  An entry of a principal is the structure of Kdb.v and the
    administrative data, which kdb_put_entry keeps among its typed data; the stored form of
    the structure is that of Kdb.v, and an entry that has none is not stored.  Files are not
    locked and do not fail.  Results that are only freed are left out; freeing shows where
    it can be done twice.  Characters above 127 belong to no class, as in the C locale. *)

From stdpp Require Import gmap.
From Stdlib Require Import String.
From S2P Require Import Prelude CString Asn1Buf Asn1KEncode Krb5Types Words PrincName Transited Crypto CryptoApi Kdc Kdb KadmAcl KadmStubs.

(** ** Constants *)

Definition KADM5_PRINCIPAL : Z := 0x000001.
Definition KADM5_LAST_PWD_CHANGE : Z := 0x000008.
Definition KADM5_MOD_TIME : Z := 0x000040.
Definition KADM5_MOD_NAME : Z := 0x000080.
Definition KADM5_KVNO : Z := 0x000100.
Definition KADM5_MKVNO : Z := 0x000200.
Definition KADM5_AUX_ATTRIBUTES : Z := 0x000400.
Definition KADM5_LAST_SUCCESS : Z := 0x004000.
Definition KADM5_LAST_FAILED : Z := 0x008000.
Definition KADM5_FAIL_AUTH_COUNT : Z := 0x010000.
Definition KADM5_KEY_DATA : Z := 0x020000.
Definition KADM5_TL_DATA : Z := 0x040000.

Definition KADM5_PW_MAX_LIFE : Z := 0x004000.
Definition KADM5_PW_MIN_LIFE : Z := 0x008000.
Definition KADM5_PW_MIN_LENGTH : Z := 0x010000.
Definition KADM5_PW_MIN_CLASSES : Z := 0x020000.
Definition KADM5_PW_HISTORY_NUM : Z := 0x040000.
Definition KADM5_REF_COUNT : Z := 0x080000.

Definition bits (l : list Z) : Z := foldr Z.lor 0 l.

Definition ALL_PRINC_MASK : Z :=
  bits [KADM5_PRINCIPAL; KADM5_PRINC_EXPIRE_TIME; KADM5_PW_EXPIRATION; KADM5_LAST_PWD_CHANGE; KADM5_ATTRIBUTES;
        KADM5_MAX_LIFE; KADM5_MOD_TIME; KADM5_MOD_NAME; KADM5_KVNO; KADM5_MKVNO; KADM5_AUX_ATTRIBUTES;
        KADM5_POLICY_CLR; KADM5_POLICY; KADM5_MAX_RLIFE; KADM5_TL_DATA; KADM5_KEY_DATA].

Definition MIN_PW_HISTORY : Z := 1.
Definition MAX_PW_HISTORY : Z := 10.
Definition MIN_PW_CLASSES : Z := 1.
Definition MAX_PW_CLASSES : Z := 5.
Definition MIN_PW_LENGTH : Z := 1.

Definition KRB5_KDB_SALTTYPE_V4 : Z := 1.
Definition KRB5_KDB_SALTTYPE_NOREALM : Z := 2.
Definition KRB5_KDB_SALTTYPE_ONLYREALM : Z := 3.
Definition KRB5_KDB_SALTTYPE_AFS3 : Z := 5.

(** ** The databases *)

(** osa_policy_ent_rec; the numbers are unsigned and have 32 bits. *)
Record osa_policy_ent : Type := OsaPolicy {
  po_pw_min_life : Z; po_pw_max_life : Z; po_pw_min_length : Z; po_pw_min_classes : Z; po_pw_history_num : Z; po_policy_refcnt : Z
}.

(** The keys of one password *)
Abbreviation osa_pw_hist_ent := (list krb5_key_data).

(** osa_princ_ent_rec; old_key_len is the length of the list. *)
Record osa_princ_ent : Type := OsaPrinc {
  adb_policy : option (list octet); adb_aux_attributes : Z; adb_old_key_next : Z; adb_admin_history_kvno : Z;
  adb_old_keys : list osa_pw_hist_ent
}.

(** The state: the databases, the generator of random numbers, the number of times the clock
    was read, and the string that parse.c keeps.  An entry may have no administrative data. *)
Record kadm_db : Type := KadmDb {
  kd_princs : gmap (list octet) (krb5_db_entry_new * option osa_princ_ent); kd_policies : gmap (list octet) osa_policy_ent;
  kd_random : prng; kd_ticks : nat; kd_default_realm : option (list octet)
}.

Definition set_princs f (d : kadm_db) : kadm_db := KadmDb (f (kd_princs d)) (kd_policies d) (kd_random d) (kd_ticks d) (kd_default_realm d).
Definition set_policies f (d : kadm_db) : kadm_db := KadmDb (kd_princs d) (f (kd_policies d)) (kd_random d) (kd_ticks d) (kd_default_realm d).
Definition set_random r (d : kadm_db) : kadm_db := KadmDb (kd_princs d) (kd_policies d) r (kd_ticks d) (kd_default_realm d).
Definition tick (d : kadm_db) : kadm_db := KadmDb (kd_princs d) (kd_policies d) (kd_random d) (S (kd_ticks d)) (kd_default_realm d).
Definition set_realm r (d : kadm_db) : kadm_db := KadmDb (kd_princs d) (kd_policies d) (kd_random d) (kd_ticks d) r.

Abbreviation kproc := (sproc kadm_db kadm5_ret).

(** What the server has been configured with *)
Record kadm_config : Type := KadmConfig {
  master_keyblock : keyblock; hist_key : keyblock; hist_kvno : Z; hist_princ : option krb5_principal_data;
  params_flags : Z; params_max_life : Z; params_max_rlife : Z; params_expiration : Z; params_keysalts : list krb5_key_salt_tuple;
  word_list : list (list octet); kc_lhandle : server_handle
}.

(** ** Keys of passwords and random keys (kdb_cpw.c) *)

(** What changes when keys are added to an entry *)
Record cpw_state : Type := CpwState { cs_entry : krb5_db_entry_new; cs_random : prng }.
Abbreviation cproc := (sproc cpw_state error_code).

Section library.
Context `{P : Platform} `{St : Stack}.

Definition get_key_data_kvno (keys : list krb5_key_data) : Z := max_kvno keys.

(** free of the contents of a key, which are not NULL where their length is not 0 *)
Definition cleanup_slot (s : key_slot) : outcome error_code unit :=
  if ks_length s =? 0 then Ok tt else match ks_contents s with Freed => Undefined | _ => Ok tt end.
Fixpoint cleanup_slots (l : list key_slot) : outcome error_code unit :=
  match l with [] => Ok tt | s :: l => let* _ := cleanup_slot s in cleanup_slots l end.
Fixpoint cleanup_key_data (keys : list krb5_key_data) : outcome error_code unit :=
  match keys with
  | [] => Ok tt
  | k :: keys => let* slots := slots_of k in let* _ := cleanup_slots slots in cleanup_key_data keys
  end.

(** The loop over the tuples before this one: whether one of them makes the same key *)
Fixpoint listed_before (salts : bool) (t : krb5_key_salt_tuple) (before : list krb5_key_salt_tuple) : outcome error_code bool :=
  match before with
  | [] => Ok false
  | t' :: before =>
      let* similar := krb5_c_enctype_compare (kst_enctype t) (kst_enctype t') in
      if similar && (negb salts || (kst_salttype t' =? kst_salttype t)) then Ok true else listed_before salts t before
  end.

Definition on_entry {A} (m : eproc A) : cproc A := fun st =>
  let '(r, e) := m (cs_entry st) in (r, CpwState e (cs_random st)).

(** krb5_dbekd_encrypt_key_data of the last element of the array *)
Definition encrypt_last (master_key : keyblock) (key : krb5_keyblock) (keysalt : option krb5_keysalt) (kvno : Z) : cproc unit := fun st =>
  let e := cs_entry st in
  match key_data_of e (dbe_n_key_data e) with
  | Ok keys =>
      match List.last keys zero_key_data, keys with
      | _, [] => (Undefined, st)
      | k, _ =>
          let '(r, s) := krb5_dbekd_encrypt_key_data master_key key keysalt kvno (KeyStore k (cs_random st)) in
          (r, CpwState (with_key_data e (dbe_n_key_data e) (Some (removelast keys ++ [st_key s]))) (st_random s))
      end
  | _ => (Undefined, st)
  end.

(** pr_to_salt.c: the octets of the realm and of the components *)
Fixpoint all_contents (n : nat) (l : list krb5_data) : outcome error_code (list octet) :=
  match n, l with
  | O, _ => Ok []
  | S n, d :: l => let* c := contents d in let* r := all_contents n l in Ok (c ++ r)
  | S _, [] => Undefined
  end.
Definition krb5_principal2salt_internal (pr : krb5_principal_data) (use_realm : bool) : outcome error_code krb5_data :=
  let* realm := (if use_realm then contents (pr_realm pr) else Ok []) in
  let* comps := all_contents (Z.to_nat (pr_length pr)) (default [] (pr_data pr)) in
  match malloc (zlen (realm ++ comps)) with
  | None => Err ENOMEM
  | Some _ => Ok (Data (zlen (realm ++ comps)) (Some (realm ++ comps)))
  end.

(** key_salt.data, and whether its length is -1 for krb5_c_string_to_key *)
Definition salt_of (type : Z) (pr : krb5_principal_data) : outcome error_code (krb5_data * bool) :=
  if type =? KRB5_KDB_SALTTYPE_ONLYREALM then
    let* c := contents (pr_realm pr) in
    match malloc (zlen c + 1) with None => Err ENOMEM | Some _ => Ok (Data (zlen c) (Some (c ++ [0])), false) end
  else if type =? KRB5_KDB_SALTTYPE_NOREALM then let* d := krb5_principal2salt_internal pr false in Ok (d, false)
  else if type =? KRB5_KDB_SALTTYPE_NORMAL then let* d := krb5_principal2salt_internal pr true in Ok (d, false)
  else if type =? KRB5_KDB_SALTTYPE_V4 then Ok (Data 0 None, false)
  else if type =? KRB5_KDB_SALTTYPE_AFS3 then
    let* c := contents (pr_realm pr) in
    match malloc (d_length (pr_realm pr) + 1) with None => Err ENOMEM | Some _ => Ok (Data (d_length (pr_realm pr)) (Some (c ++ [0])), true) end
  else Err KRB5_KDB_BAD_SALTTYPE.

Definition key_struct (k : keyblock) : krb5_keyblock := Keyblock (key_enctype k) (zlen (key_contents k)) (Some (key_contents k)).

(** The salt as krb5_c_string_to_key takes it *)
Definition salt_arg (salt : krb5_data * bool) : outcome error_code (list octet * bool) :=
  if salt.2 then Ok (default [] (d_data salt.1), true) else let* c := contents salt.1 in Ok (c, false).

(** The body of the loop for one tuple *)
Definition add_pwd_key (master_key : keyblock) (t : krb5_key_salt_tuple) (passwd : list octet) (kvno : Z) : cproc unit :=
  do! _ := on_entry krb5_dbe_create_key_data in
  do! pr := (fun st => (match dbe_princ (cs_entry st) with Some pr => Ok pr | None => Undefined end, st)) in
  do! salt := sret (salt_of (kst_salttype t) pr) in
  do! arg := sret (salt_arg salt) in
  do! key := sret (krb5_c_string_to_key (kst_enctype t) passwd [0] (Some arg)) in
  encrypt_last master_key (key_struct key) (Some (KeySalt (kst_salttype t) salt.1)) kvno.

Fixpoint add_key_pwd (master_key : keyblock) (before ks_tuple : list krb5_key_salt_tuple) (passwd : list octet) (kvno : Z) : cproc unit :=
  match ks_tuple with
  | [] => sret (Ok tt)
  | t :: rest =>
      do! listed := sret (listed_before true t before) in
      do! _ := (if listed then sret (Ok tt) else add_pwd_key master_key t passwd kvno) in
      add_key_pwd master_key (before ++ [t]) rest passwd kvno
  end.

Definition make_random_key (enctype : Z) : cproc keyblock := fun st =>
  let '(r, rnd) := krb5_c_make_random_key (cs_random st) enctype in (r, CpwState (cs_entry st) rnd).

Definition add_rnd_key (master_key : keyblock) (t : krb5_key_salt_tuple) (kvno : Z) : cproc unit :=
  do! _ := on_entry krb5_dbe_create_key_data in
  do! key := make_random_key (kst_enctype t) in
  encrypt_last master_key (key_struct key) None kvno.

(** The loop, behind the look at the ticket-granting service, which only has to be there *)
Fixpoint add_key_rnd (master_key : keyblock) (before ks_tuple : list krb5_key_salt_tuple) (kvno : Z) : cproc unit :=
  match ks_tuple with
  | [] => sret (Ok tt)
  | t :: rest =>
      do! listed := sret (listed_before false t before) in
      do! _ := (if listed then sret (Ok tt) else add_rnd_key master_key t kvno) in
      add_key_rnd master_key (before ++ [t]) rest kvno
  end.

(** The old keys behind the new ones *)
Fixpoint keep_keys (old : list krb5_key_data) : eproc unit :=
  match old with
  | [] => sret (Ok tt)
  | k :: old =>
      do! _ := krb5_dbe_create_key_data in
      do! _ := (fun e => (Ok tt, with_key_data e (dbe_n_key_data e) ((fun l => removelast l ++ [k]) <$> dbe_key_data e))) in
      keep_keys old
  end.

(** How krb5_dbe_cpw and krb5_dbe_crk go on from the keys that [add] adds to the entry
    without keys.  After a failure of [add] the keys that it made are freed. *)
Definition change_keys (add : Z -> cproc unit) (new_kvno : Z) (keepold : bool) (e : krb5_db_entry_new) : sproc prng error_code krb5_db_entry_new := fun rnd =>
  match key_data_of e (dbe_n_key_data e) with
  | Ok old =>
      let kvno := Z.max new_kvno (get_key_data_kvno old + 1) in
      match add kvno (CpwState (with_key_data e 0 None) rnd) with
      | (Ok _, CpwState e' rnd) =>
          (if keepold then
             match keep_keys old e' with
             | (Ok _, e'') => Ok e''
             | (Err err, e'') => match (let* new := key_data_of e'' (dbe_n_key_data e'') in cleanup_key_data new) with Ok _ => Err err | _ => Undefined end
             | _ => Undefined
             end
           else let* _ := cleanup_key_data old in Ok e', rnd)
      | (Err err, CpwState e' rnd) =>
          (match (let* new := key_data_of e' (dbe_n_key_data e') in cleanup_key_data new) with Ok _ => Err err | _ => Undefined end, rnd)
      | (Undefined, CpwState _ rnd) => (Undefined, rnd)
      | (OutOfFuel, CpwState _ rnd) => (OutOfFuel, rnd)
      end
  | _ => (Undefined, rnd)
  end.

Definition krb5_dbe_cpw (master_key : keyblock) (ks_tuple : list krb5_key_salt_tuple) (passwd : list octet) (new_kvno : Z) (keepold : bool)
    (e : krb5_db_entry_new) : sproc prng error_code krb5_db_entry_new :=
  change_keys (add_key_pwd master_key [] ks_tuple passwd) new_kvno keepold e.

(** [tgt] is what krb5_db_get_principal gives for the ticket-granting service. *)
Definition krb5_dbe_crk (master_key : keyblock) (ks_tuple : list krb5_key_salt_tuple) (keepold : bool) (tgt : outcome error_code unit)
    (e : krb5_db_entry_new) : sproc prng error_code krb5_db_entry_new :=
  change_keys (fun kvno => do! _ := sret tgt in add_key_rnd master_key [] ks_tuple kvno) 0 keepold e.

(** ** Entries (server_kdb.c) *)

Context (conf : kadm_config) (clock : nat -> outcome error_code Z) (get_default_realm : outcome error_code (list octet)).

Definition krb5_timeofday : kproc Z := fun d => (lift (clock (kd_ticks d)), tick d).
Definition with_random {A} (m : sproc prng error_code A) : kproc A := fun d => let '(r, rnd) := m (kd_random d) in (lift r, set_random rnd d).
(** A function on an entry; an entry that it leaves behind with an error is only freed. *)
Definition with_entry (m : eproc unit) (e : krb5_db_entry_new) : kproc krb5_db_entry_new :=
  sret (let '(r, e) := m e in lift (let* _ := r in Ok e)).

Definition dbkey (princ : krb5_principal_data) : outcome error_code (list octet) :=
  let* d := krb5_encode_princ_dbkey princ in contents d.

(** The entry, [None] if there is none *)
Definition krb5_db_get_principal (princ : principal_arg) : kproc (option (krb5_db_entry_new * option osa_princ_ent)) := fun d =>
  match princ with
  | None => (Undefined, d)
  | Some p => (lift (let* k := dbkey p in Ok (kd_princs d !! k)), d)
  end.

(** The entry is stored under its name, if it has a stored form. *)
Definition krb5_db_put_principal (kdb : krb5_db_entry_new) (adb : osa_princ_ent) : kproc unit := fun d =>
  match krb5_encode_princ_contents kdb, dbe_princ kdb with
  | Ok _, Some p =>
      match dbkey p with
      | Ok k => (Ok tt, set_princs <[k := (kdb, Some adb)]> d)
      | Err e => (Err (Krb5Code e), d)
      | Undefined => (Undefined, d)
      | OutOfFuel => (OutOfFuel, d)
      end
  | Err e, _ => (Err (Krb5Code e), d)
  | OutOfFuel, _ => (OutOfFuel, d)
  | _, _ => (Undefined, d)
  end.

(** *kdb and *adb *)
Definition kdb_get_entry (princ : principal_arg) : kproc (krb5_db_entry_new * osa_princ_ent) :=
  do! e := krb5_db_get_principal princ in
  match e with
  | None => sret (Err KADM5_UNK_PRINC)
  | Some (kdb, adb) => sret (Ok (kdb, default (OsaPrinc None 0 0 (hist_kvno conf) []) adb))
  end.

Definition kdb_put_entry (handle : server_handle) (kdb : krb5_db_entry_new) (adb : osa_princ_ent) : kproc unit :=
  do! now := krb5_timeofday in
  match sh_current_caller handle with
  | None => sret Undefined
  | Some caller =>
      do! kdb := with_entry (krb5_dbe_update_mod_princ_data now caller) kdb in
      krb5_db_put_principal kdb adb
  end.

Definition kdb_delete_entry (princ : krb5_principal_data) : kproc unit := fun d =>
  match dbkey princ with
  | Ok k =>
      match kd_princs d !! k with
      | Some _ => (Ok tt, set_princs (delete k) d)
      | None => (Err (Krb5Code KRB5_KDB_NOENTRY), d)
      end
  | Err e => (Err (Krb5Code e), d)
  | Undefined => (Undefined, d)
  | OutOfFuel => (OutOfFuel, d)
  end.

Definition CHECK_HANDLE (handle : server_handle) : kproc unit := sret (check_handle handle).
Definition refuse (b : bool) (e : kadm5_ret) : kproc unit := sret (guard (negb b) e).
Abbreviation einval := (Krb5Code EINVAL).
Abbreviation enomem := (Krb5Code ENOMEM).

(** ** Policies (svr_policy.c) *)

Definition lookup_policy (name : list octet) : kproc (option osa_policy_ent) := fun d => (Ok (kd_policies d !! name), d).
Definition store_policy (name : list octet) (p : osa_policy_ent) : kproc unit := fun d => (Ok tt, set_policies <[name := p]> d).

(** a > b for a long and an rpc_u_int32 *)
Definition exceeds (a b : Z) : bool := if sizeof_long =? 8 then b <? a else b <? uint32 a.

(** The members that the mask names, in the order of the tests *)
Definition policy_members (entry : kadm5_policy_ent) (mask : Z) (p : osa_policy_ent) (max_life : Z) : outcome kadm5_ret osa_policy_ent :=
  let* _ := guard (negb (has_bit mask KADM5_PW_MIN_LIFE && exceeds (kp_pw_min_life entry) max_life && negb (max_life =? 0))) KADM5_BAD_MIN_PASS_LIFE in
  let* _ := guard (negb (has_bit mask KADM5_PW_MIN_LENGTH && (kp_pw_min_length entry <? MIN_PW_LENGTH))) KADM5_BAD_LENGTH in
  let* _ := guard (negb (has_bit mask KADM5_PW_MIN_CLASSES &&
              ((MAX_PW_CLASSES <? kp_pw_min_classes entry) || (kp_pw_min_classes entry <? MIN_PW_CLASSES)))) KADM5_BAD_CLASS in
  let* _ := guard (negb (has_bit mask KADM5_PW_HISTORY_NUM &&
              ((kp_pw_history_num entry <? MIN_PW_HISTORY) || (MAX_PW_HISTORY <? kp_pw_history_num entry)))) KADM5_BAD_HISTORY in
  let member bit new old := if has_bit mask bit then uint32 new else old in
  Ok (OsaPolicy (member KADM5_PW_MIN_LIFE (kp_pw_min_life entry) (po_pw_min_life p))
        (member KADM5_PW_MAX_LIFE (kp_pw_max_life entry) (po_pw_max_life p))
        (member KADM5_PW_MIN_LENGTH (kp_pw_min_length entry) (po_pw_min_length p))
        (member KADM5_PW_MIN_CLASSES (kp_pw_min_classes entry) (po_pw_min_classes p))
        (member KADM5_PW_HISTORY_NUM (kp_pw_history_num entry) (po_pw_history_num p))
        (member KADM5_REF_COUNT (kp_policy_refcnt entry) (po_policy_refcnt p))).

Definition default_policy : osa_policy_ent := OsaPolicy 0 0 MIN_PW_LENGTH MIN_PW_CLASSES MIN_PW_HISTORY 0.
Definition policy_char (c : octet) : bool := (octet_at " " <=? c) && (c <=? octet_at "~").

(** pw_max_life is not compared if it is not given. *)
Definition kadm5_create_policy_internal (handle : server_handle) (entry : kadm5_policy_ent) (mask : Z) : kproc unit :=
  do! _ := CHECK_HANDLE handle in
  match kp_policy entry with
  | None => sret (Err einval)
  | Some name =>
      do! _ := refuse (bool_decide (name = [])) KADM5_BAD_POLICY in
      do! _ := refuse (negb (has_bit mask KADM5_POLICY)) KADM5_BAD_MASK in
      do! _ := refuse (negb (forallb policy_char name)) KADM5_BAD_POLICY in
      let max_life := if has_bit mask KADM5_PW_MAX_LIFE then kp_pw_max_life entry else 0 in
      do! _ := refuse (has_bit mask KADM5_PW_MIN_LIFE && (max_life <? kp_pw_min_life entry) && negb (max_life =? 0)) KADM5_BAD_MIN_PASS_LIFE in
      do! p := sret (policy_members entry mask default_policy 0) in
      do! old := lookup_policy name in
      match old with
      | Some _ => sret (Err OSA_ADB_DUP)
      | None => store_policy name p
      end
  end.

Definition create_policy (handle : server_handle) (entry : kadm5_policy_ent) (mask : Z) : kproc unit :=
  do! _ := CHECK_HANDLE handle in
  do! _ := refuse (has_bit mask KADM5_REF_COUNT) KADM5_BAD_MASK in
  kadm5_create_policy_internal handle entry mask.

Definition delete_policy (handle : server_handle) (name : option (list octet)) : kproc unit :=
  do! _ := CHECK_HANDLE handle in
  match name with
  | None => sret (Err einval)
  | Some name =>
      do! _ := refuse (bool_decide (name = [])) KADM5_BAD_POLICY in
      do! p := lookup_policy name in
      match p with
      | None => sret (Err OSA_ADB_NOENT)
      | Some p =>
          do! _ := refuse (negb (po_policy_refcnt p =? 0)) KADM5_POLICY_REF in
          fun d => (Ok tt, set_policies (delete name) d)
      end
  end.

Definition kadm5_modify_policy_internal (handle : server_handle) (entry : kadm5_policy_ent) (mask : Z) : kproc unit :=
  do! _ := CHECK_HANDLE handle in
  match kp_policy entry with
  | None => sret (Err einval)
  | Some name =>
      do! _ := refuse (bool_decide (name = [])) KADM5_BAD_POLICY in
      do! _ := refuse (has_bit mask KADM5_POLICY) KADM5_BAD_MASK in
      do! p := lookup_policy name in
      match p with
      | None => sret (Err KADM5_UNK_POLICY)
      | Some p =>
          let max_life := if has_bit mask KADM5_PW_MAX_LIFE then uint32 (kp_pw_max_life entry) else po_pw_max_life p in
          do! p := sret (policy_members entry mask p max_life) in
          store_policy name p
      end
  end.

Definition modify_policy (handle : server_handle) (entry : kadm5_policy_ent) (mask : Z) : kproc unit :=
  do! _ := CHECK_HANDLE handle in
  do! _ := refuse (has_bit mask KADM5_REF_COUNT) KADM5_BAD_MASK in
  kadm5_modify_policy_internal handle entry mask.

Definition sizeof_kadm5_policy_ent : Z := 7 * sizeof_long.

(** In version 1 the structure is allocated; when it cannot be, the policy that was read is
    freed a second time. *)
Definition get_policy (handle : server_handle) (name : option (list octet)) : kproc kadm5_policy_ent :=
  do! _ := CHECK_HANDLE handle in
  match name with
  | None => sret (Err einval)
  | Some name =>
      do! _ := refuse (bool_decide (name = [])) KADM5_BAD_POLICY in
      do! p := lookup_policy name in
      match p with
      | None => sret (Err KADM5_UNK_POLICY)
      | Some p =>
          match strdup name with
          | None => sret (Err enomem)
          | Some name =>
              if (sh_api_version handle =? KADM5_API_VERSION_1) && bool_decide (malloc sizeof_kadm5_policy_ent = None) then sret Undefined
              else sret (Ok (KadmPolicy (Some name) (long (po_pw_min_life p)) (long (po_pw_max_life p)) (long (po_pw_min_length p))
                               (long (po_pw_min_classes p)) (long (po_pw_history_num p)) (long (po_policy_refcnt p))))
          end
      end
  end.

Definition with_refcnt (pol : kadm5_policy_ent) (n : Z) : kadm5_policy_ent :=
  KadmPolicy (kp_policy pol) (kp_pw_min_life pol) (kp_pw_max_life pol) (kp_pw_min_length pol) (kp_pw_min_classes pol) (kp_pw_history_num pol) n.

(** The policy with its count of references changed by [n] *)
Definition store_refcnt (pol : kadm5_policy_ent) (n : Z) : kproc unit :=
  kadm5_modify_policy_internal (kc_lhandle conf) (with_refcnt pol (kp_policy_refcnt pol + n)) KADM5_REF_COUNT.

(** ** The quality of passwords (server_misc.c) *)

(** strcasecmp(s, password) == 0, with the storage of s *)
Fixpoint strcasecmp_mem (s password : list octet) : outcome kadm5_ret bool :=
  match s, password with
  | c :: s, p :: password => if tolower c =? tolower p then strcasecmp_mem s password else Ok false
  | c :: _, [] => Ok (c =? 0)
  | [], _ => Undefined
  end.

Fixpoint is_component (n : nat) (l : list krb5_data) (password : list octet) : outcome kadm5_ret bool :=
  match n, l with
  | O, _ => Ok false
  | S n, d :: l =>
      let* eq := strcasecmp_mem (default [] (d_data d)) password in
      if eq then Ok true else is_component n l password
  | S _, [] => Undefined
  end.

Definition islower (c : octet) : bool := (97 <=? c) && (c <=? 122).
Definition isdigit (c : octet) : bool := (48 <=? c) && (c <=? 57).
Definition isgraph (c : octet) : bool := (33 <=? c) && (c <=? 126).

(** nlower, nupper, ndigit, npunct, nspec as the index of a class *)
Definition char_class (c : octet) : Z :=
  if islower c then 0 else if isupper c then 1 else if isdigit c then 2 else if isgraph c then 3 else 4.
Definition n_classes (password : list octet) : Z := zlen (List.nodup Z.eq_dec (char_class <$> password)).

(** Whether the word is in the sorted list that bsearch looks through *)
Definition find_word (word : list octet) : bool := existsb (strcasecmp_eq word) (word_list conf).

Definition passwd_check (password : list octet) (pol : option kadm5_policy_ent) (principal : krb5_principal_data) : outcome kadm5_ret unit :=
  match pol with
  | Some pol =>
      let* _ := guard (to_uint (8 * sizeof_long) (kp_pw_min_length pol) <=? zlen password) KADM5_PASS_Q_TOOSHORT in
      let* _ := guard (kp_pw_min_classes pol <=? n_classes password) KADM5_PASS_Q_CLASS in
      let* _ := guard (negb (find_word password)) KADM5_PASS_Q_DICT in
      let* realm := strcasecmp_mem (default [] (d_data (pr_realm principal))) password in
      let* _ := guard (negb realm) KADM5_PASS_Q_DICT in
      let* comp := is_component (Z.to_nat (pr_length principal)) (default [] (pr_data principal)) password in
      guard (negb comp) KADM5_PASS_Q_DICT
  | None => guard (1 <=? zlen password) KADM5_PASS_Q_TOOSHORT
  end.

(** ** The history of passwords (svr_principal.c) *)

(** The key, where krb5_dbekd_decrypt_key_data has set it; a key that it has not set is
    read uninitialised. *)
Definition decrypted_key (mkey : keyblock) (k : krb5_key_data) : outcome kadm5_ret krb5_keyblock :=
  let* '(key, _) := lift (krb5_dbekd_decrypt_key_data mkey k false) in
  match key with Some key => Ok key | None => Undefined end.

Definition same_key (newkey histkey : krb5_keyblock) : outcome kadm5_ret bool :=
  if (kb_length newkey =? kb_length histkey) && (kb_enctype newkey =? kb_enctype histkey) then
    let* a := lift (read_mem (kb_length histkey) (kb_contents newkey)) in
    let* b := lift (read_mem (kb_length histkey) (kb_contents histkey)) in
    Ok (bool_decide (a = b))
  else Ok false.

(** The inner loops, over the keys of the passwords *)
Fixpoint is_old_key (newkey : krb5_keyblock) (l : list krb5_key_data) : outcome kadm5_ret unit :=
  match l with
  | [] => Ok tt
  | k :: l =>
      let* histkey := decrypted_key (hist_key conf) k in
      let* same := same_key newkey histkey in
      if same then Err KADM5_PASS_REUSE else is_old_key newkey l
  end.

Fixpoint check_pw_reuse (new_key_data : list krb5_key_data) (pw_hist_data : list osa_pw_hist_ent) : outcome kadm5_ret unit :=
  match new_key_data with
  | [] => Ok tt
  | k :: new_key_data =>
      let* newkey := decrypted_key (master_keyblock conf) k in
      let* _ := is_old_key newkey (concat pw_hist_data) in
      check_pw_reuse new_key_data pw_hist_data
  end.

(** The key in another element, under hist_key *)
Definition recrypt (k : krb5_key_data) : kproc krb5_key_data :=
  do! r := sret (lift (krb5_dbekd_decrypt_key_data (master_keyblock conf) k true)) in
  match r with
  | (Some key, salt) =>
      with_random (fun rnd =>
        let '(r, s) := krb5_dbekd_encrypt_key_data (hist_key conf) key salt (key_data_kvno k) (KeyStore zero_key_data rnd) in
        (let* _ := r in Ok (st_key s), st_random s))
  | (None, _) => sret Undefined
  end.

Fixpoint recrypt_all (keys : list krb5_key_data) : kproc osa_pw_hist_ent :=
  match keys with
  | [] => sret (Ok [])
  | k :: keys => do! h := recrypt k in do! r := recrypt_all keys in sret (Ok (h :: r))
  end.

Definition create_history_entry (key_data : list krb5_key_data) : kproc osa_pw_hist_ent :=
  match malloc (zlen key_data * sizeof_krb5_key_data) with
  | None => sret (Err enomem)
  | Some _ => recrypt_all key_data
  end.

Definition sizeof_osa_pw_hist_ent : Z := 2 * sizeof_long.

(** old_keys is grown by one element while it has fewer than the policy asks for; an element
    outside of it must not be touched.  The comparisons are of unsigned int and long. *)
Definition add_to_history (adb : osa_princ_ent) (pol : kadm5_policy_ent) (pw : osa_pw_hist_ent) : outcome kadm5_ret osa_princ_ent :=
  if kp_pw_history_num pol =? 1 then Ok adb
  else
    let* old_keys :=
      (if zlen (adb_old_keys adb) <? kp_pw_history_num pol - 1 then
         match malloc ((zlen (adb_old_keys adb) + 1) * sizeof_osa_pw_hist_ent) with
         | None => Err enomem
         | Some _ => Ok (adb_old_keys adb ++ [[]])
         end
       else Ok (adb_old_keys adb)) in
    if (adb_old_key_next adb <? 0) || (zlen old_keys <=? adb_old_key_next adb) then Undefined
    else
      let next := uint32 (adb_old_key_next adb + 1) in
      Ok (OsaPrinc (adb_policy adb) (adb_aux_attributes adb) (if next =? kp_pw_history_num pol - 1 then 0 else next)
            (adb_admin_history_kvno adb) (<[Z.to_nat (adb_old_key_next adb) := pw]> old_keys)).

(** ** Principals (svr_principal.c) *)

(** The members of an entry that are not keys, names or typed data *)
Definition with_members (e : krb5_db_entry_new) (attributes max_life max_rlife expiration pw_expiration fail_auth_count : Z) : krb5_db_entry_new :=
  DbEntryNew (dbe_len e) attributes max_life max_rlife expiration pw_expiration (dbe_last_success e) (dbe_last_failed e) fail_auth_count
    (dbe_n_tl_data e) (dbe_n_key_data e) (dbe_e_length e) (dbe_e_data e) (dbe_princ e) (dbe_tl_data e) (dbe_key_data e).
Definition with_pw_expiration (e : krb5_db_entry_new) (t : Z) : krb5_db_entry_new :=
  with_members e (dbe_attributes e) (dbe_max_life e) (dbe_max_renewable_life e) (dbe_expiration e) t (dbe_fail_auth_count e).
(** kdb.attributes &= ~KRB5_KDB_REQUIRES_PWCHANGE *)
Definition password_changed (e : krb5_db_entry_new) : krb5_db_entry_new :=
  with_members e (Z.land (dbe_attributes e) (Z.lnot KRB5_KDB_REQUIRES_PWCHANGE)) (dbe_max_life e) (dbe_max_renewable_life e)
    (dbe_expiration e) (dbe_pw_expiration e) (dbe_fail_auth_count e).
Definition with_princ (e : krb5_db_entry_new) (p : krb5_principal_data) : krb5_db_entry_new :=
  DbEntryNew (dbe_len e) (dbe_attributes e) (dbe_max_life e) (dbe_max_renewable_life e) (dbe_expiration e)
    (dbe_pw_expiration e) (dbe_last_success e) (dbe_last_failed e) (dbe_fail_auth_count e)
    (dbe_n_tl_data e) (dbe_n_key_data e) (dbe_e_length e) (dbe_e_data e) (Some p) (dbe_tl_data e) (dbe_key_data e).

(** copy_princ.c: what is copied has no NUL behind it. *)
Definition copy_octets (d : krb5_data) : outcome error_code krb5_data :=
  let* c := contents d in
  match malloc (d_length d) with
  | None => if d_length d =? 0 then Ok (Data 0 None) else Err ENOMEM
  | Some _ => Ok (Data (d_length d) (Some c))
  end.
Fixpoint copy_components (n : nat) (l : list krb5_data) : outcome error_code (list krb5_data) :=
  match n, l with
  | O, _ => Ok []
  | S n, d :: l => let* d := copy_octets d in let* r := copy_components n l in Ok (d :: r)
  | S _, [] => Undefined
  end.
Definition krb5_copy_principal (p : krb5_principal_data) : outcome error_code krb5_principal_data :=
  let* _ := guard (bool_decide (is_Some (malloc sizeof_krb5_principal_data))) ENOMEM in
  let* _ := guard (bool_decide (is_Some (malloc (pr_length p * sizeof_krb5_data)))) ENOMEM in
  let* l := copy_components (Z.to_nat (pr_length p)) (default [] (pr_data p)) in
  let* r := copy_octets (pr_realm p) in
  Ok (Principal r (Some l) (pr_length p) (pr_type p)).

(** A sum as a krb5_int32, which is assigned from a long *)
Definition expires (now life : Z) : outcome kadm5_ret Z :=
  if life =? 0 then Ok 0
  else if bool_decide (is_int (8 * sizeof_long) (now + life)) then Ok (int32 (now + life)) else Undefined.

Definition any_bit (mask : Z) (l : list Z) : bool := existsb (has_bit mask) l.
Definition is_princ (principal : krb5_principal_data) : kproc bool :=
  match hist_princ conf with
  | Some h => sret (lift (krb5_principal_compare principal h))
  | None => sret (Ok false)
  end.
Definition keysalts (ks : list krb5_key_salt_tuple) : list krb5_key_salt_tuple := match ks with [] => params_keysalts conf | _ => ks end.

(** The typed data of the request are put in front of those of the entry, without being
    counted; the list must not be empty. *)
Definition splice_tl_data (mask : Z) (entry : kadm5_principal_ent) (kdb : krb5_db_entry_new) : kproc krb5_db_entry_new :=
  if has_bit mask KADM5_TL_DATA then
    match ke_tl_data entry with
    | [] => sret Undefined
    | l => sret (Ok (with_tl_data kdb (dbe_n_tl_data kdb) (l ++ dbe_tl_data kdb)))
    end
  else sret (Ok kdb).

(** The result of a call whose error is looked at, not returned *)
Definition attempt {A} (m : kproc A) : kproc (kadm5_ret + A) := fun d =>
  match m d with
  | (Ok a, d) => (Ok (inr a), d)
  | (Err e, d) => (Ok (inl e), d)
  | (Undefined, d) => (Undefined, d)
  | (OutOfFuel, d) => (OutOfFuel, d)
  end.

(** The policy that is asked for *)
Definition requested_policy (mask : Z) (name : option (list octet)) : kproc (option kadm5_policy_ent) :=
  if has_bit mask KADM5_POLICY then
    do! r := attempt (get_policy (kc_lhandle conf) name) in
    match r with
    | inr pol => sret (Ok (Some pol))
    | inl e => sret (Err (if bool_decide (e = einval) then KADM5_BAD_POLICY else e))
    end
  else sret (Ok None).

(** The new entry, without its keys *)
Definition created_entry (entry : kadm5_principal_ent) (mask : Z) (polent : option kadm5_policy_ent) (now : Z) : outcome kadm5_ret krb5_db_entry_new :=
  let member bit new dflt := if has_bit mask bit then new else dflt in
  let* pw_expiration := match polent with Some pol => expires now (kp_pw_max_life pol) | None => Ok 0 end in
  Ok (DbEntryNew KRB5_KDB_V1_BASE_LENGTH (member KADM5_ATTRIBUTES (ke_attributes entry) (params_flags conf))
        (member KADM5_MAX_LIFE (ke_max_life entry) (params_max_life conf))
        (member KADM5_MAX_RLIFE (ke_max_renewable_life entry) (params_max_rlife conf))
        (member KADM5_PRINC_EXPIRE_TIME (ke_princ_expire_time entry) (params_expiration conf))
        (member KADM5_PW_EXPIRATION (ke_pw_expiration entry) pw_expiration) 0 0 0 0 0 0 None None [] None).

Definition create_principal_3 (handle : server_handle) (entry : kadm5_principal_ent) (mask : Z) (ks : list krb5_key_salt_tuple)
    (password : option (list octet)) : kproc unit :=
  do! _ := CHECK_HANDLE handle in
  do! _ := refuse (negb (has_bit mask KADM5_PRINCIPAL) ||
                   any_bit mask [KADM5_MOD_NAME; KADM5_MOD_TIME; KADM5_LAST_PWD_CHANGE; KADM5_MKVNO; KADM5_POLICY_CLR; KADM5_AUX_ATTRIBUTES;
                                 KADM5_KEY_DATA; KADM5_LAST_SUCCESS; KADM5_LAST_FAILED; KADM5_FAIL_AUTH_COUNT]) KADM5_BAD_MASK in
  do! _ := refuse (has_bit mask (Z.lnot ALL_PRINC_MASK)) KADM5_BAD_MASK in
  match password with
  | None => sret (Err einval)
  | Some password =>
      do! found := attempt (kdb_get_entry (ke_principal entry)) in
      match found, ke_principal entry with
      | inr _, _ => sret (Err KADM5_DUP)
      | inl e, Some principal =>
          do! _ := refuse (negb (bool_decide (e = KADM5_UNK_PRINC))) e in
          do! polent := requested_policy mask (ke_policy entry) in
          do! _ := sret (passwd_check password polent principal) in
          do! now := krb5_timeofday in
          do! kdb := sret (created_entry entry mask polent now) in
          do! princ := sret (lift (krb5_copy_principal principal)) in
          do! kdb := with_entry (krb5_dbe_update_last_pwd_change now) (with_princ kdb princ) in
          do! kdb := with_random (krb5_dbe_cpw (master_keyblock conf) (keysalts ks) password
                                    (if has_bit mask KADM5_KVNO then int32 (ke_kvno entry) else 1) false kdb) in
          let adb := OsaPrinc (if has_bit mask KADM5_POLICY then ke_policy entry else None) (if has_bit mask KADM5_POLICY then KADM5_POLICY else 0)
                       0 (hist_kvno conf) [] in
          do! _ := match polent with Some pol => store_refcnt pol 1 | None => sret (Ok tt) end in
          do! kdb := splice_tl_data mask entry kdb in
          do! r := attempt (kdb_put_entry handle kdb adb) in
          match r, polent with
          | inr _, _ => sret (Ok tt)
          | inl e, Some pol => do! _ := attempt (store_refcnt pol 0) in sret (Err e)
          | inl e, None => sret (Err e)
          end
      | inl _, None => sret Undefined
      end
  end.

Definition create_principal (handle : server_handle) (entry : kadm5_principal_ent) (mask : Z) (password : option (list octet)) : kproc unit :=
  create_principal_3 handle entry mask [] password.

(** When the policy is not found, a structure that was never assigned is freed. *)
Definition delete_principal (handle : server_handle) (principal : principal_arg) : kproc unit :=
  do! _ := CHECK_HANDLE handle in
  match principal with
  | None => sret (Err einval)
  | Some princ =>
      do! e := kdb_get_entry principal in
      do! _ := (if has_bit (adb_aux_attributes e.2) KADM5_POLICY then
                  do! r := attempt (get_policy (kc_lhandle conf) (adb_policy e.2)) in
                  match r with
                  | inr pol => store_refcnt pol (-1)
                  | inl _ => sret Undefined
                  end
                else sret (Ok tt)) in
      kdb_delete_entry princ
  end.

(** The policies that a change of policy loads: the new one and the old one, with what is to
    be added to their counts, and the entry and its administrative data as they become *)
Record policy_change : Type := PolicyChange {
  pc_npol : option (kadm5_policy_ent * Z); pc_opol : option (kadm5_policy_ent * Z); pc_kdb : krb5_db_entry_new; pc_adb : osa_princ_ent
}.

Definition with_policy (adb : osa_princ_ent) (policy : option (list octet)) (aux : Z) : osa_princ_ent :=
  OsaPrinc policy aux (adb_old_key_next adb) (adb_admin_history_kvno adb) (adb_old_keys adb).

(** With KADM5_POLICY.  strdup of a NULL name is not reached: get_policy refuses it. *)
Definition set_policy (policy : option (list octet)) (kdb : krb5_db_entry_new) (adb : osa_princ_ent) : kproc policy_change :=
  do! r := attempt (get_policy (kc_lhandle conf) policy) in
  match r with
  | inl e => sret (Err (if bool_decide (e = einval) then KADM5_BAD_POLICY
                        else if bool_decide (e = KADM5_UNK_POLICY) || bool_decide (e = KADM5_BAD_POLICY) then KADM5_UNK_POLICY else e))
  | inr npol =>
      do! '(opol, n) :=
        (if has_bit (adb_aux_attributes adb) KADM5_POLICY then
           match adb_policy adb with
           | None => sret Undefined
           | Some old =>
               if bool_decide (Some old = policy) then sret (Ok (None, 0))
               else
                 do! r := attempt (get_policy (kc_lhandle conf) (Some old)) in
                 match r with
                 | inr opol => sret (Ok (Some (opol, -1), 1))
                 | inl e => if bool_decide (e = einval) || bool_decide (e = KADM5_BAD_POLICY) || bool_decide (e = KADM5_UNK_POLICY)
                            then sret (Ok (None, 1)) else sret (Err e)
                 end
           end
         else sret (Ok (None, 1))) in
      do! pw_expiration :=
        (if kp_pw_max_life npol =? 0 then sret (Ok 0)
         else do! last := sret (lift (krb5_dbe_lookup_last_pwd_change kdb)) in sret (expires last (kp_pw_max_life npol))) in
      sret (Ok (PolicyChange (Some (npol, n)) opol (with_pw_expiration kdb pw_expiration)
                  (with_policy adb (policy ≫= strdup) (Z.lor (adb_aux_attributes adb) KADM5_POLICY))))
  end.

(** With KADM5_POLICY_CLR *)
Definition clear_policy (kdb : krb5_db_entry_new) (adb : osa_princ_ent) : kproc policy_change :=
  if has_bit (adb_aux_attributes adb) KADM5_POLICY then
    do! r := attempt (get_policy (kc_lhandle conf) (adb_policy adb)) in
    match r with
    | inr opol => sret (Ok (PolicyChange None (Some (opol, -1)) (with_pw_expiration kdb 0)
                              (with_policy adb None (Z.land (adb_aux_attributes adb) (Z.lnot KADM5_POLICY)))))
    | inl e => sret (Err (if bool_decide (e = einval) || bool_decide (e = KADM5_BAD_POLICY) || bool_decide (e = KADM5_UNK_POLICY)
                          then KADM5_BAD_DB else e))
    end
  else sret (Ok (PolicyChange None None kdb adb)).

Definition store_count (p : option (kadm5_policy_ent * Z)) : kproc unit :=
  match p with Some (pol, n) => store_refcnt pol n | None => sret (Ok tt) end.

(** The copies of the typed data are in the opposite order. *)
Fixpoint dup_all (tl acc : list krb5_tl_data) : outcome error_code (list krb5_tl_data) :=
  match tl with
  | [] => Ok acc
  | t :: tl =>
      match malloc sizeof_krb5_tl_data, malloc (tl_data_length t) with
      | Some _, Some _ => let* c := read_mem (tl_data_length t) (tl_data_contents t) in dup_all tl (TlData (tl_data_type t) (tl_data_length t) (Some c) :: acc)
      | _, _ => Undefined
      end
  end.

Definition set_kvno (kvno : Z) (k : krb5_key_data) : krb5_key_data := KeyData (key_data_ver k) (to_int 16 kvno) (key_data_slots k).

(** The members that the mask names; what dup_tl_data returns is not compared with NULL. *)
Definition modified (entry : kadm5_principal_ent) (mask : Z) (kdb : krb5_db_entry_new) : outcome kadm5_ret krb5_db_entry_new :=
  let member bit new old := if has_bit mask bit then new else old in
  let kdb := with_members kdb (member KADM5_ATTRIBUTES (ke_attributes entry) (dbe_attributes kdb))
               (member KADM5_MAX_LIFE (ke_max_life entry) (dbe_max_life kdb))
               (member KADM5_MAX_RLIFE (ke_max_renewable_life entry) (dbe_max_renewable_life kdb))
               (member KADM5_PRINC_EXPIRE_TIME (ke_princ_expire_time entry) (dbe_expiration kdb))
               (member KADM5_PW_EXPIRATION (ke_pw_expiration entry) (dbe_pw_expiration kdb))
               (member KADM5_FAIL_AUTH_COUNT (ke_fail_auth_count entry) (dbe_fail_auth_count kdb)) in
  let* kdb :=
    (if has_bit mask KADM5_KVNO then
       let* keys := lift (key_data_of kdb (dbe_n_key_data kdb)) in
       Ok (with_key_data kdb (dbe_n_key_data kdb) (if dbe_n_key_data kdb <=? 0 then dbe_key_data kdb else Some (set_kvno (ke_kvno entry) <$> keys)))
     else Ok kdb) in
  if has_bit mask KADM5_TL_DATA then let* l := lift (dup_all (ke_tl_data entry) []) in Ok (with_tl_data kdb (ke_n_tl_data entry) l) else Ok kdb.

Definition modify_principal (handle : server_handle) (entry : kadm5_principal_ent) (mask : Z) : kproc unit :=
  do! _ := CHECK_HANDLE handle in
  do! _ := refuse (any_bit mask [KADM5_PRINCIPAL; KADM5_LAST_PWD_CHANGE; KADM5_MOD_TIME; KADM5_MOD_NAME; KADM5_MKVNO; KADM5_AUX_ATTRIBUTES;
                                 KADM5_KEY_DATA; KADM5_LAST_SUCCESS; KADM5_LAST_FAILED]) KADM5_BAD_MASK in
  do! _ := refuse (has_bit mask (Z.lnot ALL_PRINC_MASK)) KADM5_BAD_MASK in
  do! _ := refuse (has_bit mask KADM5_POLICY && has_bit mask KADM5_POLICY_CLR) KADM5_BAD_MASK in
  do! _ := refuse (has_bit mask KADM5_TL_DATA && existsb (fun t => tl_data_type t <? 256) (ke_tl_data entry)) KADM5_BAD_TL_TYPE in
  do! '(kdb, adb) := kdb_get_entry (ke_principal entry) in
  do! c := (if has_bit mask KADM5_POLICY then set_policy (ke_policy entry) kdb adb
            else if has_bit mask KADM5_POLICY_CLR then clear_policy kdb adb
            else sret (Ok (PolicyChange None None kdb adb))) in
  do! _ := store_count (pc_opol c) in
  do! _ := store_count (pc_npol c) in
  do! kdb := sret (modified entry mask (pc_kdb c)) in
  kdb_put_entry handle kdb (pc_adb c).

Definition rename_principal (handle : server_handle) (source target : principal_arg) : kproc unit :=
  do! _ := CHECK_HANDLE handle in
  match source, target with
  | Some src, Some tgt =>
      do! found := attempt (kdb_get_entry target) in
      match found with
      | inr _ => sret (Err KADM5_DUP)
      | inl _ =>
          do! '(kdb, adb) := kdb_get_entry source in
          do! keys := sret (lift (key_data_of kdb (dbe_n_key_data kdb))) in
          do! _ := refuse (existsb (fun k => (key_data_ver k =? 1) || (ks_type (slot_at 1 k) =? KRB5_KDB_SALTTYPE_NORMAL)) keys) KADM5_NO_RENAME_SALT in
          do! princ := sret (lift (krb5_copy_principal tgt)) in
          do! _ := kdb_put_entry handle (with_princ kdb princ) adb in
          kdb_delete_entry src
      end
  | _, _ => sret (Err einval)
  end.

(** *** Getting an entry *)

(** krb5_copy_key_data_contents; contents that are not copied are shared. *)
Definition copy_slot (s : key_slot) : outcome error_code key_slot :=
  if ks_length s =? 0 then Ok s
  else match malloc (ks_length s) with
       | None => Err ENOMEM
       | Some _ => let* c := deref (ks_length s) (ks_contents s) in Ok (Slot (ks_type s) (ks_length s) (Block c))
       end.
Definition krb5_copy_key_data_contents (from : krb5_key_data) : outcome error_code krb5_key_data :=
  match key_data_slots from with
  | [a; b] =>
      let* a := copy_slot a in
      let* b := (if key_data_ver from =? 1 then Ok b else copy_slot b) in
      Ok (KeyData (key_data_ver from) (key_data_kvno from) [a; b])
  | _ => Undefined
  end.
Fixpoint copy_keys (l : list krb5_key_data) : outcome error_code (list krb5_key_data) :=
  match l with [] => Ok [] | k :: l => let* k := krb5_copy_key_data_contents k in let* r := copy_keys l in Ok (k :: r) end.

(** dup_tl_data of those above 255, in the opposite order *)
Fixpoint dup_extensions (tl acc : list krb5_tl_data) : outcome error_code (list krb5_tl_data) :=
  match tl with
  | [] => Ok acc
  | t :: tl =>
      if tl_data_type t <=? 255 then dup_extensions tl acc
      else
        match malloc sizeof_krb5_tl_data, malloc (tl_data_length t) with
        | Some _, Some _ => let* c := read_mem (tl_data_length t) (tl_data_contents t) in dup_extensions tl (TlData (tl_data_type t) (tl_data_length t) (Some c) :: acc)
        | _, _ => Err ENOMEM
        end
  end.

Definition lookup_mod_princ (kdb : krb5_db_entry_new) : kproc (Z * krb5_principal_data) := fun d =>
  let '(r, dr) := krb5_dbe_lookup_mod_princ_data get_default_realm (kd_default_realm d) kdb in (lift r, set_realm dr d).

(** The comparison is of unsigned numbers. *)
Definition greatest_kvno (keys : list krb5_key_data) : Z := foldl (fun a k => Z.max a (uint32 (key_data_kvno k))) 0 keys.

Definition member {A} (mask bit : Z) (a dflt : A) : A := if has_bit mask bit then a else dflt.

Definition sizeof_kadm5_principal_ent_v1 : Z := if sizeof_long =? 8 then 64 else 48.

(** Without KADM5_MOD_NAME, the member that is freed and cleared is the principal. *)
Definition get_principal (handle : server_handle) (principal : principal_arg) (in_mask : Z) : kproc kadm5_principal_ent :=
  do! _ := CHECK_HANDLE handle in
  let v1 := sh_api_version handle =? KADM5_API_VERSION_1 in
  let v2 := sh_api_version handle =? KADM5_API_VERSION_2 in
  let mask := if v1 then KADM5_PRINCIPAL_NORMAL_MASK else in_mask in
  match principal with
  | None => sret (Err einval)
  | Some princ =>
      do! '(kdb, adb) := kdb_get_entry principal in
      do! policy := (if has_bit mask KADM5_POLICY && has_bit (adb_aux_attributes adb) KADM5_POLICY then
                       match adb_policy adb with
                       | Some p => match strdup p with Some p => sret (Ok (Some p)) | None => sret (Err enomem) end
                       | None => sret (Ok None)
                       end
                     else sret (Ok None)) in
      do! copy := (if has_bit mask KADM5_PRINCIPAL then do! p := sret (lift (krb5_copy_principal princ)) in sret (Ok (Some p)) else sret (Ok None)) in
      do! last := (if has_bit mask KADM5_LAST_PWD_CHANGE then sret (lift (krb5_dbe_lookup_last_pwd_change kdb)) else sret (Ok 0)) in
      do! '(copy, mod_date, mod_name) :=
        (if any_bit mask [KADM5_MOD_NAME; KADM5_MOD_TIME] then
           do! '(date, name) := lookup_mod_princ kdb in
           sret (Ok (member mask KADM5_MOD_NAME copy None, member mask KADM5_MOD_TIME date 0, Some name))
         else sret (Ok (copy, 0, None))) in
      do! keys := sret (lift (if any_bit mask [KADM5_KVNO; KADM5_KEY_DATA] then key_data_of kdb (dbe_n_key_data kdb) else Ok [])) in
      do! tl := sret (lift (if v2 && has_bit mask KADM5_TL_DATA then dup_extensions (dbe_tl_data kdb) [] else Ok [])) in
      do! _ := (if v2 && has_bit mask KADM5_KEY_DATA && negb (dbe_n_key_data kdb =? 0) &&
                   bool_decide (malloc (dbe_n_key_data kdb * sizeof_krb5_key_data) = None) then sret (Err enomem) else sret (Ok tt)) in
      do! copies := sret (lift (if v2 && has_bit mask KADM5_KEY_DATA then copy_keys keys else Ok [])) in
      do! _ := (if v1 && bool_decide (malloc sizeof_kadm5_principal_ent_v1 = None) then sret (Err enomem) else sret (Ok tt)) in
      let v2member bit (a : Z) := if v2 then member mask bit a 0 else 0 in
      sret (Ok (KadmPrincipal copy (member mask KADM5_PRINC_EXPIRE_TIME (dbe_expiration kdb) 0) last
                  (member mask KADM5_PW_EXPIRATION (dbe_pw_expiration kdb) 0) (member mask KADM5_MAX_LIFE (dbe_max_life kdb) 0)
                  mod_name mod_date (member mask KADM5_ATTRIBUTES (dbe_attributes kdb) 0)
                  (if has_bit mask KADM5_KVNO then greatest_kvno keys else 0) (if v2 then 0 else 1)
                  policy (member mask KADM5_AUX_ATTRIBUTES (adb_aux_attributes adb) 0)
                  (v2member KADM5_MAX_RLIFE (dbe_max_renewable_life kdb)) (v2member KADM5_LAST_SUCCESS (dbe_last_success kdb))
                  (v2member KADM5_LAST_FAILED (dbe_last_failed kdb)) (v2member KADM5_FAIL_AUTH_COUNT (dbe_fail_auth_count kdb))
                  (zlen tl) tl copies))
  end.

(** *** Changing keys *)

(** How long the password is valid under the policy *)
Definition new_expiration (pol : option kadm5_policy_ent) (now : Z) : outcome kadm5_ret Z :=
  match pol with Some pol => expires now (kp_pw_max_life pol) | None => Ok 0 end.

Definition policy_of (adb : osa_princ_ent) : kproc (option kadm5_policy_ent) :=
  if has_bit (adb_aux_attributes adb) KADM5_POLICY
  then do! pol := get_policy (kc_lhandle conf) (adb_policy adb) in sret (Ok (Some pol)) else sret (Ok None).

(** How the functions that change keys end *)
Definition finish_keys (handle : server_handle) (kdb : krb5_db_entry_new) (adb : osa_princ_ent) (pol : option kadm5_policy_ent) (now : Z) : kproc krb5_db_entry_new :=
  do! pw_expiration := sret (new_expiration pol now) in
  with_entry (krb5_dbe_update_last_pwd_change now) (with_pw_expiration kdb pw_expiration).

(** The history of passwords: the keys are not those of the current password nor old ones *)
Definition check_history (keys current : list krb5_key_data) (adb : osa_princ_ent) (pol : kadm5_policy_ent) : kproc osa_princ_ent :=
  do! hist := create_history_entry current in
  do! _ := sret (check_pw_reuse keys [hist]) in
  if 1 <? kp_pw_history_num pol then
    do! _ := refuse (negb (adb_admin_history_kvno adb =? hist_kvno conf)) KADM5_BAD_HIST_KEY in
    do! _ := sret (check_pw_reuse keys (adb_old_keys adb)) in
    sret (add_to_history adb pol hist)
  else sret (Ok adb).

(** hist_princ is not compared with NULL. *)
Definition chpass_principal_3 (handle : server_handle) (principal : principal_arg) (keepold : bool) (ks : list krb5_key_salt_tuple)
    (password : option (list octet)) : kproc unit :=
  do! _ := CHECK_HANDLE handle in
  match principal, password with
  | Some princ, Some password =>
      do! protected := match hist_princ conf with Some h => sret (lift (krb5_principal_compare princ h)) | None => sret Undefined end in
      do! _ := refuse protected KADM5_PROTECT_PRINCIPAL in
      do! '(kdb, adb) := kdb_get_entry principal in
      do! '(kdb_save, _) := kdb_get_entry principal in
      do! pol := policy_of adb in
      do! _ := sret (passwd_check password pol princ) in
      do! kdb := with_random (krb5_dbe_cpw (master_keyblock conf) (keysalts ks) password 0 keepold kdb) in
      let kdb := password_changed kdb in
      do! now := krb5_timeofday in
      do! adb :=
        match pol with
        | Some p =>
            do! _ := sret (lift (krb5_dbe_lookup_last_pwd_change kdb)) in
            do! current := sret (lift (key_data_of kdb_save (dbe_n_key_data kdb_save))) in
            do! keys := sret (lift (key_data_of kdb (dbe_n_key_data kdb))) in
            check_history keys current adb p
        | None => sret (Ok adb)
        end in
      do! kdb := finish_keys handle kdb adb pol now in
      kdb_put_entry handle kdb adb
  | _, _ => sret (Err einval)
  end.

Definition chpass_principal (handle : server_handle) (principal : principal_arg) (password : option (list octet)) : kproc unit :=
  chpass_principal_3 handle principal false [] password.

Definition sizeof_krb5_keyblock : Z := if sizeof_long =? 8 then 24 else 16.

(** The keys; one that the element does not hold is left as memset has made it. *)
Fixpoint decrypt_all (keys : list krb5_key_data) : outcome kadm5_ret (list krb5_keyblock) :=
  match keys with
  | [] => Ok []
  | k :: keys =>
      let* '(key, _) := lift (krb5_dbekd_decrypt_key_data (master_keyblock conf) k false) in
      let* r := decrypt_all keys in
      Ok (default (Keyblock 0 0 None) key :: r)
  end.
Definition decrypt_key_data (keys : list krb5_key_data) : outcome kadm5_ret (list krb5_keyblock) :=
  match malloc (zlen keys * sizeof_krb5_keyblock) with None => Err enomem | Some _ => decrypt_all keys end.

(** The entry of the ticket-granting service of the realm of an entry *)
Definition tgt_entry (kdb : krb5_db_entry_new) : kproc (outcome error_code unit) := fun d =>
  match dbe_princ kdb with
  | None => (Undefined, d)
  | Some p =>
      let realm := Slice (default [] (d_data (pr_realm p))) 0 (d_length (pr_realm p)) in
      match krb5_build_principal_ext realm [Slice KRB5_TGS_NAME 0 6; realm] with
      | Ok tgt =>
          (Ok (let* k := dbkey tgt in if bool_decide (is_Some (kd_princs d !! k)) then Ok tt else Err KRB5_KDB_NOENTRY), d)
      | Err e => (Ok (Err e), d)
      | _ => (Undefined, d)
      end
  end.

Definition randkey_principal_3 (handle : server_handle) (principal : principal_arg) (keepold : bool) (ks : list krb5_key_salt_tuple)
    : kproc (list krb5_keyblock) :=
  do! _ := CHECK_HANDLE handle in
  match principal with
  | None => sret (Err einval)
  | Some princ =>
      do! protected := is_princ princ in
      do! _ := refuse protected KADM5_PROTECT_PRINCIPAL in
      do! '(kdb, adb) := kdb_get_entry principal in
      do! tgt := tgt_entry kdb in
      do! kdb := with_random (krb5_dbe_crk (master_keyblock conf) (keysalts ks) keepold tgt kdb) in
      let kdb := password_changed kdb in
      do! now := krb5_timeofday in
      do! pol := policy_of adb in
      do! keys := sret (lift (key_data_of kdb (dbe_n_key_data kdb))) in
      do! _ :=
        match pol with
        | Some p =>
            do! _ := sret (lift (krb5_dbe_lookup_last_pwd_change kdb)) in
            if 1 <? kp_pw_history_num p then
              do! _ := refuse (negb (adb_admin_history_kvno adb =? hist_kvno conf)) KADM5_BAD_HIST_KEY in
              sret (check_pw_reuse keys (adb_old_keys adb))
            else sret (Ok tt)
        | None => sret (Ok tt)
        end in
      do! kdb := finish_keys handle kdb adb pol now in
      do! blocks :=
        (if sh_api_version handle =? KADM5_API_VERSION_1 then
           do! k := sret (lift (krb5_dbe_find_enctype kdb ENCTYPE_DES_CBC_CRC (-1) (-1))) in sret (decrypt_key_data [k])
         else sret (decrypt_key_data keys)) in
      do! _ := kdb_put_entry handle kdb adb in
      sret (Ok blocks)
  end.

Definition randkey_principal (handle : server_handle) (principal : principal_arg) : kproc (list krb5_keyblock) :=
  randkey_principal_3 handle principal false [].

(** A key that is given, in a new element *)
Definition encrypt_new (key : krb5_keyblock) (salt : option krb5_keysalt) (kvno : Z) : sproc prng error_code (outcome error_code unit * krb5_key_data) := fun rnd =>
  let '(r, s) := krb5_dbekd_encrypt_key_data (master_keyblock conf) key salt kvno (KeyStore zero_key_data rnd) in
  (match r with Undefined => Undefined | OutOfFuel => OutOfFuel | r => Ok (r, st_key s) end, st_random s).

(** How setv4key_principal and setkey_principal_3 end *)
Definition store_set_keys (handle : server_handle) (kdb : krb5_db_entry_new) (adb : osa_princ_ent) : kproc unit :=
  let kdb := password_changed kdb in
  do! now := krb5_timeofday in
  do! pol := policy_of adb in
  do! kdb := finish_keys handle kdb adb pol now in
  kdb_put_entry handle kdb adb.

(** When the key cannot be encrypted, the element is freed with the entry. *)
Definition setv4key_principal (handle : server_handle) (principal : principal_arg) (keyblock : option krb5_keyblock) : kproc unit :=
  do! _ := CHECK_HANDLE handle in
  match principal, keyblock with
  | Some princ, Some key =>
      do! protected := is_princ princ in
      do! _ := refuse protected KADM5_PROTECT_PRINCIPAL in
      do! _ := refuse (negb (kb_enctype key =? ENCTYPE_DES_CBC_CRC)) KADM5_SETV4KEY_INVAL_ENCTYPE in
      do! '(kdb, adb) := kdb_get_entry principal in
      do! old := sret (lift (key_data_of kdb (dbe_n_key_data kdb))) in
      do! _ := sret (lift (if bool_decide (dbe_key_data kdb = None) then Ok tt else cleanup_key_data old)) in
      match malloc sizeof_krb5_key_data with
      | None => sret (Err enomem)
      | Some _ =>
          do! '(r, k) := with_random (encrypt_new key (Some (KeySalt KRB5_KDB_SALTTYPE_V4 (Data 0 None))) (max_kvno old + 1)) in
          let kdb := with_key_data kdb 1 (Some [k]) in
          match r with
          | Ok _ => store_set_keys handle kdb adb
          | _ => do! _ := with_entry krb5_dbe_free_contents kdb in sret (lift (let* _ := r in Ok tt))
          end
      end
  | _, _ => sret (Err einval)
  end.

(** The two loops that compare the types of the keys; salt types that are not there are read
    where there are fewer than keys. *)
Fixpoint similar_later (key : krb5_keyblock) (i : nat) (later : list (nat * krb5_keyblock)) (ks : list krb5_key_salt_tuple) : outcome kadm5_ret unit :=
  match later with
  | [] => Ok tt
  | (j, key') :: later =>
      let* similar := lift (krb5_c_enctype_compare (kb_enctype key) (kb_enctype key')) in
      if similar then
        match ks with
        | [] => Err KADM5_SETKEY_DUP_ENCTYPES
        | _ =>
            match ks !! i, ks !! j with
            | Some t, Some t' => if kst_salttype t =? kst_salttype t' then Err KADM5_SETKEY_DUP_ENCTYPES else similar_later key i later ks
            | _, _ => Undefined
            end
        end
      else similar_later key i later ks
  end.
Fixpoint distinct_types (keys : list (nat * krb5_keyblock)) (ks : list krb5_key_salt_tuple) : outcome kadm5_ret unit :=
  match keys with
  | [] => Ok tt
  | (i, key) :: keys => let* _ := similar_later key i keys ks in distinct_types keys ks
  end.

(** The loop that encrypts the keys, with as many tuples; those that are made are freed after
    an error. *)
Fixpoint encrypt_given (keys : list krb5_keyblock) (ks : list krb5_key_salt_tuple) (kvno : Z) (done : list krb5_key_data) : kproc (list krb5_key_data) :=
  match keys, ks with
  | key :: keys, t :: ks =>
      if negb (kst_enctype t =? kb_enctype key) then
        do! _ := sret (lift (cleanup_key_data done)) in sret (Err KADM5_SETKEY3_ETYPE_MISMATCH)
      else
        do! '(r, k) := with_random (encrypt_new key (Some (KeySalt (kst_salttype t) (Data 0 None))) kvno) in
        match r with
        | Ok _ => encrypt_given keys ks kvno (done ++ [k])
        | _ => do! _ := sret (lift (cleanup_key_data done)) in sret (lift (let* _ := r in Ok []))
        end
  | _, _ => sret (Ok done)
  end.

(** An array without elements is NULL, as the protocol decodes it. *)
Definition setkey_principal_3 (handle : server_handle) (principal : principal_arg) (keepold : bool) (ks : list krb5_key_salt_tuple)
    (keyblocks : list krb5_keyblock) : kproc unit :=
  do! _ := CHECK_HANDLE handle in
  match principal, keyblocks with
  | Some princ, _ :: _ =>
      do! protected := is_princ princ in
      do! _ := refuse protected KADM5_PROTECT_PRINCIPAL in
      do! _ := sret (distinct_types (imap pair keyblocks) ks) in
      do! _ := refuse (negb (zlen ks =? zlen keyblocks)) KADM5_SETKEY3_ETYPE_MISMATCH in
      do! '(kdb, adb) := kdb_get_entry principal in
      do! old := sret (lift (key_data_of kdb (dbe_n_key_data kdb))) in
      do! _ := sret (lift (if keepold || bool_decide (dbe_key_data kdb = None) then Ok tt else cleanup_key_data old)) in
      let kept := if keepold then old else [] in
      match malloc ((zlen keyblocks + zlen kept) * sizeof_krb5_key_data) with
      | None => sret (Err enomem)
      | Some _ =>
          do! new := encrypt_given keyblocks ks (max_kvno old + 1) [] in
          store_set_keys handle (with_key_data kdb (to_int 16 (zlen (new ++ kept))) (Some (new ++ kept))) adb
      end
  | _, _ => sret (Err einval)
  end.

Definition setkey_principal (handle : server_handle) (principal : principal_arg) (keyblocks : list krb5_keyblock) : kproc unit :=
  setkey_principal_3 handle principal false [] keyblocks.

(** ** The library as the stubs call it *)

(** kadm5_get_principals and kadm5_get_policies: the names that the expression, which is
    matched by the C library, selects *)
Context (matching : option (list octet) -> list (list octet) -> outcome kadm5_ret (list (list octet))).

Definition finished (m : kproc unit) : kproc kadm5_reply := do! _ := m in sret (Ok Done).

(** Without a handle the call is one of the server itself. *)
Definition kadm5 (who : option server_handle) (c : kadm5_call) : kproc kadm5_reply :=
  let h := default (kc_lhandle conf) who in
  match c with
  | kadm5_create_principal rec mask passwd => finished (create_principal h rec mask passwd)
  | kadm5_create_principal_3 rec mask ks passwd => finished (create_principal_3 h rec mask ks passwd)
  | kadm5_delete_principal princ => finished (delete_principal h princ)
  | kadm5_modify_principal rec mask => finished (modify_principal h rec mask)
  | kadm5_rename_principal src dest => finished (rename_principal h src dest)
  | kadm5_get_principal_v1 princ => do! e := get_principal h princ 0 in sret (Ok (PrincipalIs e))
  | kadm5_get_principal princ mask => do! e := get_principal h princ mask in sret (Ok (PrincipalIs e))
  | kadm5_get_principals exp =>
      do! _ := CHECK_HANDLE h in do! l := (fun d => (matching exp (map_to_list (kd_princs d)).*1, d)) in sret (Ok (NamesAre l))
  | kadm5_chpass_principal princ passwd => finished (chpass_principal h princ passwd)
  | kadm5_chpass_principal_3 princ keepold ks passwd => finished (chpass_principal_3 h princ keepold ks passwd)
  | kadm5_setv4key_principal princ key => finished (setv4key_principal h princ key)
  | kadm5_setkey_principal princ keys => finished (setkey_principal h princ keys)
  | kadm5_setkey_principal_3 princ keepold ks keys => finished (setkey_principal_3 h princ keepold ks keys)
  | kadm5_randkey_principal princ => do! l := randkey_principal h princ in sret (Ok (KeysAre l))
  | kadm5_randkey_principal_3 princ keepold ks => do! l := randkey_principal_3 h princ keepold ks in sret (Ok (KeysAre l))
  | kadm5_create_policy rec mask => finished (create_policy h rec mask)
  | kadm5_delete_policy name => finished (delete_policy h name)
  | kadm5_modify_policy rec mask => finished (modify_policy h rec mask)
  | kadm5_get_policy_v1 name | kadm5_get_policy name => do! p := get_policy h name in sret (Ok (PolicyIs p))
  | kadm5_get_policies exp =>
      do! _ := CHECK_HANDLE h in do! l := (fun d => (matching exp (map_to_list (kd_policies d)).*1, d)) in sret (Ok (NamesAre l))
  | kadm5_get_privs => do! _ := CHECK_HANDLE h in sret (Ok (PrivsAre (Z.lnot 0)))
  end.

End library.
