(* ===== verification/KtFileProofs.v ===== *)
(** * A key table file is a list of entries (KtFile.v)

    A file that these functions have written is a sequence of slots, with an entry or
    free.  Adding an entry to it, removing one, looking one up and going through all do
    what they say on the list of the entries. *)

From S2P Require Import Prelude Asn1Buf Krb5Types Words PrincName PrincNameProofs Crypto CryptoApi RcDfl KtFile.

(** ** Numbers *)

Lemma be16_value n : octets_value (be16 n) = n mod 2 ^ 16.
Proof.
  unfold octets_value, be16. cbn [foldl]. rewrite !land_255, Z.shiftr_div_pow2 by lia. change (2 ^ 8) with 256. change (2 ^ 16) with (256 * 256).
  rewrite Z.rem_mul_r by lia. lia.
Qed.

Lemma be32_value n : octets_value (be32 n) = n mod 2 ^ 32.
Proof.
  unfold octets_value, be32. cbn [foldl]. rewrite !land_255, !Z.shiftr_div_pow2 by lia.
  change (2 ^ 8) with 256. change (2 ^ 16) with (256 * 256). change (2 ^ 24) with (256 * 256 * 256). change (2 ^ 32) with (256 * (256 * (256 * 256))).
  rewrite <- !Z.div_div by lia. rewrite !Z.rem_mul_r by lia. lia.
Qed.

Lemma num16 n : is_int 16 n -> to_int 16 (number KRB5_KT_VNO (be16 n)) = n.
Proof. intros H. change (number _ (be16 n)) with (octets_value (be16 n)). rewrite be16_value. by apply to_int_mod. Qed.
Lemma num32 n : is_int 32 n -> int32 (number KRB5_KT_VNO (be32 n)) = n.
Proof. intros H. change (number _ (be32 n)) with (octets_value (be32 n)). rewrite be32_value. by apply to_int_mod. Qed.

(** ** Streams *)

(** A key table of the current version that is open at [pos]. *)
Definition opened (d : list octet) (pos : Z) : krb5_ktfile_data := KtData (Some d) (Stream pos) KRB5_KT_VNO.

(** Behind any octets, [m] reads [l] and returns [a]. *)
Definition reads {A} (m : kproc A) (l : list octet) (a : A) : Prop := forall pre post,
  m (opened (pre ++ l ++ post) (zlen pre)) = (Ok a, opened (pre ++ l ++ post) (zlen pre + zlen l)).

(** Wherever the stream is, [m] writes [l] over what is there. *)
Definition writes (m : kproc unit) (l : list octet) : Prop := forall pre rest,
  m (opened (pre ++ rest) (zlen pre)) = (Ok tt, opened (pre ++ l ++ drop (length l) rest) (zlen pre + zlen l)).

Lemma reads_ret {A} (a : A) : reads (sret (Ok a)) [] a.
Proof. intros pre post. unfold sret. cbn [app]. change (zlen []) with 0. by rewrite Z.add_0_r. Qed.

Lemma kt_reads_bind {A B} (m : kproc A) (k : A -> kproc B) l1 l2 a b l :
  reads m l1 a -> reads (k a) l2 b -> l = l1 ++ l2 -> reads (sbind m k) l b.
Proof.
  intros H1 H2 -> pre post. unfold sbind. rewrite <- app_assoc, H1. specialize (H2 (pre ++ l1) post). rewrite <- !app_assoc, zlen_app in H2.
  rewrite H2. rewrite zlen_app. do 2 f_equal. lia.
Qed.

Lemma writes_bind (m : kproc unit) (k : unit -> kproc unit) l1 l2 l :
  writes m l1 -> writes (k tt) l2 -> l = l1 ++ l2 -> writes (sbind m k) l.
Proof.
  intros H1 H2 -> pre rest. unfold sbind. rewrite H1. specialize (H2 (pre ++ l1) (drop (length l1) rest)).
  rewrite <- !app_assoc, zlen_app in H2. rewrite H2, <- app_assoc, length_app, drop_drop, zlen_app. do 2 f_equal. lia.
Qed.

Lemma reads_app {A B} (m : kproc A) (k : A -> kproc B) l1 l2 a b : reads m l1 a -> reads (k a) l2 b -> reads (sbind m k) (l1 ++ l2) b.
Proof. intros H1 H2. by eapply kt_reads_bind. Qed.
(** The first part reads all of it. *)
Lemma reads_last {A B} (m : kproc A) (k : A -> kproc B) l a b : reads m l a -> reads (k a) [] b -> reads (sbind m k) l b.
Proof. intros H1 H2. eapply kt_reads_bind; [exact H1|exact H2|by rewrite app_nil_r]. Qed.
(** The first part reads nothing. *)
Lemma reads_none {A B} (m : kproc A) (k : A -> kproc B) l a b : reads m [] a -> reads (k a) l b -> reads (sbind m k) l b.
Proof. intros H1 H2. by eapply kt_reads_bind. Qed.

Lemma reads_version : reads KTVERSION [] KRB5_KT_VNO.
Proof. intros pre post. unfold KTVERSION. cbn [app]. change (zlen []) with 0. by rewrite Z.add_0_r. Qed.

Lemma reads_fread l n : n = zlen l -> reads (fread n) l l.
Proof.
  intros -> pre post. unfold fread, with_stream, opened. cbn [kt_disk kt_openf kt_version].
  unfold zlen. rewrite !Nat2Z.id, drop_app_length, take_app_length. done.
Qed.

Lemma reads_item l n : n = zlen l -> reads (fread_item n) l (Some l).
Proof.
  intros ->. eapply reads_last; [by apply reads_fread|]. rewrite Z.eqb_refl. apply reads_ret.
Qed.

Lemma reads_exactly l n : n = zlen l -> reads (fread_exactly n) l l.
Proof. intros H. eapply reads_last; [by apply reads_item|apply reads_ret]. Qed.

Lemma writes_fwrite l : writes (fwrite l) l.
Proof.
  intros pre rest. unfold fwrite, with_stream, opened. cbn [kt_disk kt_openf kt_version]. destruct l as [|o l]; [done|].
  unfold write_at. assert (E : Z.to_nat (zlen pre) = length pre) by (unfold zlen; lia). rewrite E, take_app_length, length_app.
  replace (length pre - (length pre + length rest))%nat with 0%nat by lia. cbn [replicate app]. by rewrite drop_app_add.
Qed.

Lemma writes_ret : writes (sret (Ok tt)) [].
Proof. intros pre rest. unfold sret. cbn [app drop]. change (zlen []) with 0. by rewrite Z.add_0_r. Qed.

(** ** Entries *)

Record kt_rec : Type := KtRec {
  kr_realm : list octet; kr_comps : list (list octet); kr_type : Z; kr_time : Z; kr_vno : Z; kr_etype : Z; kr_key : list octet
}.

(** A string of 1 to 32767 octets. *)
Definition wf_str (l : list octet) : Prop := 1 <= zlen l < 2 ^ 15.
Record wf_rec (r : kt_rec) : Prop := WfRec {
  wr_realm : wf_str (kr_realm r); wr_count : 1 <= zlen (kr_comps r) < 2 ^ 15; wr_comps : Forall wf_str (kr_comps r);
  wr_type : is_int 32 (kr_type r); wr_time : is_int 32 (kr_time r); wr_vno : is_octet (kr_vno r); wr_etype : is_uint 16 (kr_etype r);
  wr_key : wf_str (kr_key r)
}.

Definition str16 (l : list octet) : list octet := be16 (zlen l) ++ l.
Definition rec_octets (r : kt_rec) : list octet :=
  (be16 (zlen (kr_comps r)) ++ str16 (kr_realm r) ++ (kr_comps r ≫= str16) ++ be32 (kr_type r)) ++
  be32 (kr_time r) ++ [kr_vno r] ++ be16 (kr_etype r) ++ str16 (kr_key r).

(** The entry that is read from a record. *)
Definition entry_of (r : kt_rec) : krb5_keytab_entry :=
  KtEntry (Principal (name_data (kr_realm r)) (Some (name_data <$> kr_comps r)) (zlen (kr_comps r)) (kr_type r)) (kr_time r) (kr_vno r)
    (Keyblock (kr_etype r) (zlen (kr_key r)) (Some (kr_key r))).

Section read.
Context `{P : Platform} (Hmem : 2 ^ 19 <= malloc_limit).

Lemma wf_str_int l : wf_str l -> is_int 16 (zlen l).
Proof. unfold wf_str, is_int. lia. Qed.

Lemma reads_length n : 1 <= n < 2 ^ 15 -> reads read_length (be16 n) n.
Proof.
  intros Hn. eapply reads_last; [by apply reads_exactly|]. eapply reads_none; [apply reads_version|].
  rewrite (num16 n) by (unfold is_int; lia). cbv zeta. destruct (Z.leb_spec n 0); [lia|]. apply reads_ret.
Qed.

Lemma block_ok n : 0 <= n <= 2 ^ 19 -> exists b, malloc n = Some b /\ zlen b = n.
Proof. intros H. apply malloc_ok. lia. Qed.

Lemma reads_realm l : wf_str l -> reads read_realm (str16 l) (name_data l).
Proof.
  intros Hl. pose proof Hl as Hl'. unfold wf_str in Hl'. eapply reads_app; [by apply reads_length|].
  destruct (block_ok (zlen l + 1)) as (b & -> & _); [lia|]. eapply reads_last; [by apply reads_fread|].
  rewrite Z.eqb_refl. apply reads_ret.
Qed.

Lemma reads_some l b : wf_str l -> reads (read_some (zlen l) b) l l.
Proof.
  intros Hl. unfold wf_str in Hl. eapply reads_last; [by apply reads_fread|].
  destruct (Z.eqb_spec (zlen l) 0); [lia|]. rewrite drop_ge; [rewrite app_nil_r; apply reads_ret|]. rewrite length_take. unfold zlen. lia.
Qed.

Lemma reads_component l : wf_str l -> reads read_component (str16 l) (name_data l).
Proof.
  intros Hl. pose proof Hl as Hl'. unfold wf_str in Hl'. eapply reads_app; [by apply reads_length|].
  destruct (block_ok (zlen l + 1)) as (b & -> & _); [lia|]. eapply reads_last; [by apply reads_some|apply reads_ret].
Qed.

Lemma reads_components cs : Forall wf_str cs -> reads (read_components (length cs)) (cs ≫= str16) (name_data <$> cs).
Proof.
  induction 1 as [|c cs Hc _ IH]; cbn [length read_components]; [apply reads_ret|].
  eapply reads_app; [by apply reads_component|]. eapply reads_last; [exact IH|apply reads_ret].
Qed.

Lemma sizeof_small : sizeof_krb5_principal_data <= 64 /\ 0 <= sizeof_krb5_principal_data /\ 0 <= sizeof_krb5_data <= 16.
Proof. unfold sizeof_krb5_principal_data, sizeof_krb5_data. destruct sizeof_long_ok as [->| ->]; lia. Qed.

Lemma reads_principal r : wf_rec r -> reads read_principal (be16 (zlen (kr_comps r)) ++ str16 (kr_realm r) ++ (kr_comps r ≫= str16) ++ be32 (kr_type r))
  (ke_principal (entry_of r)).
Proof.
  intros [Hr Hc Hcs Ht _ _ _ _]. eapply reads_app; [by apply reads_exactly|]. eapply reads_none; [apply reads_version|].
  assert (EN : number KRB5_KT_VNO (be16 (zlen (kr_comps r))) = zlen (kr_comps r)).
  { change (number _ _) with (octets_value (be16 (zlen (kr_comps r)))). rewrite be16_value, Z.mod_small; [done|lia]. }
  rewrite EN. change (KRB5_KT_VNO =? KRB5_KT_VNO_1) with false. cbv iota zeta. rewrite to_int_id by (unfold is_int; lia).
  destruct (Z.leb_spec (zlen (kr_comps r)) 0); [lia|]. pose proof sizeof_small as (S1 & S2 & S3).
  destruct (block_ok sizeof_krb5_principal_data) as (b & -> & _); [lia|].
  destruct (block_ok (sizeof_krb5_data * zlen (kr_comps r))) as (b' & -> & _); [nia|].
  eapply reads_app; [by apply reads_realm|]. replace (Z.to_nat (zlen (kr_comps r))) with (length (kr_comps r)) by (unfold zlen; lia).
  eapply reads_app; [by apply reads_components|].
  eapply reads_last; [|apply reads_ret]. eapply reads_last; [by apply reads_exactly|].
  rewrite (num32 _ Ht). apply reads_ret.
Qed.

Lemma reads_key r : wf_rec r -> reads read_key (be16 (kr_etype r) ++ str16 (kr_key r)) (ke_key (entry_of r)).
Proof.
  intros [_ _ _ _ _ _ He Hk]. eapply reads_app; [by apply reads_exactly|]. eapply reads_none; [apply reads_version|].
  change (KRB5_KT_VNO =? KRB5_KT_VNO_1) with false. cbv iota zeta.
  assert (EN : number KRB5_KT_VNO (be16 (kr_etype r)) = kr_etype r).
  { change (number _ _) with (octets_value (be16 (kr_etype r))). rewrite be16_value. by apply Z.mod_small. }
  rewrite EN. pose proof Hk as Hk'. unfold wf_str in Hk'. eapply reads_app; [by apply reads_length|].
  destruct (block_ok (zlen (kr_key r))) as (b & -> & _); [lia|].
  eapply reads_last; [by apply reads_some|apply reads_ret].
Qed.

Lemma reads_fields r : wf_rec r -> reads read_fields (rec_octets r) (entry_of r).
Proof.
  intros HW. pose proof HW as [_ _ _ _ Ht _ _ _]. eapply reads_app; [by apply reads_principal|]. eapply reads_app; [by apply reads_exactly|].
  eapply reads_none; [apply reads_version|]. eapply reads_app; [by apply reads_exactly|]. eapply reads_last; [by apply reads_key|].
  rewrite (num32 _ Ht). apply reads_ret.
Qed.
End read.

(** ** Slots *)

(** An entry, with what is left of the slot behind it, or a hole. *)
Inductive slot : Type := Used (r : kt_rec) (slack : list octet) | Hole (l : list octet).

Definition payload (s : slot) : list octet := match s with Used r slack => rec_octets r ++ slack | Hole l => l end.
Definition slot_size (s : slot) : Z := match s with Used _ _ => zlen (payload s) | Hole l => - zlen l end.
Definition slot_octets (s : slot) : list octet := be32 (slot_size s) ++ payload s.
Definition wf_slot (s : slot) : Prop := match s with Used r _ => wf_rec r | Hole l => 0 < zlen l end.
Definition slots_octets (l : list slot) : list octet := l ≫= slot_octets.
Definition file (l : list slot) : list octet := be16 KRB5_KT_VNO ++ slots_octets l.
(** The entries. *)
Definition records (l : list slot) : list kt_rec := omap (fun s => match s with Used r _ => Some r | Hole _ => None end) l.
Abbreviation holes := (Forall (fun s => match s with Hole _ => True | Used _ _ => False end)).

Lemma slots_app l k : slots_octets (l ++ k) = slots_octets l ++ slots_octets k.
Proof. apply bind_app. Qed.
Lemma slots_cons s l : slots_octets (s :: l) = slot_octets s ++ slots_octets l.
Proof. done. Qed.
Lemma file_app l k : file (l ++ k) = file l ++ slots_octets k.
Proof. unfold file. by rewrite slots_app, app_assoc. Qed.
Lemma slot_length s : zlen (slot_octets s) = 4 + zlen (payload s).
Proof. unfold slot_octets. by rewrite zlen_app. Qed.

Lemma rec_length r : zlen (rec_octets r) = 2 + (zlen (kr_realm r) + 2) + foldr (fun c a => zlen c + 2 + a) 0 (kr_comps r) + 4 + 4 + 1 + 2 + (2 + zlen (kr_key r)).
Proof.
  unfold rec_octets, str16. rewrite !zlen_app. change (zlen (be16 _)) with 2. change (zlen (be32 _)) with 4. change (zlen [_]) with 1.
  assert (E : forall cs, zlen (cs ≫= (fun l => be16 (zlen l) ++ l)) = foldr (fun c a => zlen c + 2 + a) 0 cs).
  { induction cs as [|c cs IH]; [done|]. cbn [mbind list_bind foldr]. rewrite zlen_app, IH, zlen_app. change (zlen (be16 _)) with 2. lia. }
  unfold str16. rewrite E. lia.
Qed.

Lemma rec_nonempty r : 0 < zlen (rec_octets r).
Proof.
  unfold rec_octets. rewrite !zlen_app. change (zlen (be32 (kr_time r))) with 4. repeat match goal with |- context [zlen ?l] => pose proof (zlen_nonneg l); generalize dependent (zlen l) end. lia.
Qed.

(** What a slot says of itself. *)
Lemma slot_size_sign s : wf_slot s -> match s with Used _ _ => 0 < slot_size s | Hole _ => slot_size s < 0 end /\ Z.abs (slot_size s) = zlen (payload s).
Proof.
  destruct s as [r sl|l]; cbn [wf_slot slot_size payload]; intros H; [|lia]. pose proof (rec_nonempty r). pose proof (zlen_nonneg sl).
  rewrite zlen_app. lia.
Qed.

(** At the end of the file. *)
Lemma fread_end d n : fread n (opened d (zlen d)) = (Ok [], opened d (zlen d)).
Proof.
  unfold fread, with_stream, opened. cbn [kt_disk kt_openf kt_version]. rewrite drop_ge by (unfold zlen; lia).
  rewrite take_nil. change (zlen []) with 0. by rewrite Z.add_0_r.
Qed.

Lemma item_end d n : 0 < n -> fread_item n (opened d (zlen d)) = (Ok None, opened d (zlen d)).
Proof. intros H. unfold fread_item, sbind, sret. rewrite fread_end. change (zlen []) with 0. by destruct (Z.eqb_spec 0 n); [lia|]. Qed.

Lemma seek_cur d pos n : 0 <= pos + n -> fseek (SEEK_CUR n) (opened d pos) = (Ok tt, opened d (pos + n)).
Proof. intros H. unfold fseek, with_stream, opened, SEEK_CUR. cbn [kt_disk kt_openf kt_version]. by destruct (Z.ltb_spec (pos + n) 0); [lia|]. Qed.
Lemma seek_set d pos n : 0 <= n -> fseek (SEEK_SET n) (opened d pos) = (Ok tt, opened d n).
Proof. intros H. unfold fseek, with_stream, opened, SEEK_SET. cbn [kt_disk kt_openf kt_version]. by destruct (Z.ltb_spec n 0); [lia|]. Qed.
Lemma tell d pos : ftell (opened d pos) = (Ok pos, opened d pos).
Proof. done. Qed.

(** A slot from which nothing is read. *)
Lemma slot_behind pre s rest : wf_slot s -> zlen (pre ++ slot_octets s ++ rest) < 2 ^ 31 ->
  fread_exactly 4 (opened (pre ++ slot_octets s ++ rest) (zlen pre)) = (Ok (be32 (slot_size s)), opened (pre ++ slot_octets s ++ rest) (zlen pre + 4)) /\
  int32 (number KRB5_KT_VNO (be32 (slot_size s))) = slot_size s /\ is_int 32 (slot_size s) /\ is_int 32 (- slot_size s).
Proof.
  intros HW HL. rewrite !zlen_app, slot_length in HL. pose proof (zlen_nonneg pre). pose proof (zlen_nonneg rest).
  destruct (slot_size_sign s HW) as [_ HS]. assert (HI : is_int 32 (slot_size s) /\ is_int 32 (- slot_size s)) by (unfold is_int; lia).
  split; [|split; [apply num32, HI|exact HI]]. unfold slot_octets. rewrite <- app_assoc. apply (reads_exactly (be32 (slot_size s)) 4 eq_refl).
Qed.

(** ** Reading through the slots *)

Lemma skip_hole pre l rest fuel : let d := pre ++ slot_octets (Hole l) ++ rest in wf_slot (Hole l) -> zlen d < 2 ^ 31 ->
  next_record (S fuel) (opened d (zlen pre)) = next_record fuel (opened d (zlen (pre ++ slot_octets (Hole l)))).
Proof.
  intros d Ws HL. destruct (slot_behind _ _ _ Ws HL) as (ER & EN & _ & HI). cbn [next_record].
  unfold sbind at 1. rewrite tell. unfold sbind at 1. unfold d. rewrite ER. unfold sbind at 1, KTVERSION at 1. cbn [kt_version opened]. rewrite EN.
  cbn [wf_slot slot_size] in *. destruct (Z.ltb_spec (- zlen l) 0); [|lia]. unfold sbind at 1, negate, sret at 1. rewrite bool_decide_eq_true_2 by done.
  rewrite Z.opp_involutive. unfold sbind at 1. pose proof (zlen_nonneg pre). rewrite seek_cur by lia.
  rewrite zlen_app, slot_length. cbn [payload]. do 2 f_equal. lia.
Qed.

Lemma next_record_ok hs : forall pre n rest fuel, holes hs -> Forall wf_slot hs -> (length hs < fuel)%nat -> 0 <= n < 2 ^ 31 ->
  let d := pre ++ slots_octets hs ++ be32 n ++ rest in zlen d < 2 ^ 31 ->
  next_record fuel (opened d (zlen pre)) = (Ok (n, zlen pre + zlen (slots_octets hs)), opened d (zlen pre + zlen (slots_octets hs) + 4)).
Proof.
  induction hs as [|s hs IH]; intros pre n rest fuel Hh Hw Hf Hn d HL; destruct fuel as [|fuel]; cbn [length] in Hf; try lia.
  - cbn [next_record]. subst d. unfold slots_octets in *. cbn [mbind list_bind app] in *. change (zlen []) with 0. rewrite Z.add_0_r.
    pose proof HL as HL'. rewrite !zlen_app in HL'. pose proof (zlen_nonneg pre). pose proof (zlen_nonneg rest).
    unfold sbind. rewrite tell. rewrite (reads_exactly (be32 n) 4 eq_refl pre rest). unfold KTVERSION at 1. cbn [kt_version opened].
    rewrite num32 by (unfold is_int; lia). destruct (Z.ltb_spec n 0); [lia|]. unfold sret. change (zlen (be32 n)) with 4 in *.
    rewrite to_int_id by (unfold is_int; lia). done.
  - apply Forall_cons_1 in Hh as [Hs Hh]. apply Forall_cons_1 in Hw as [Ws Hw]. destruct s as [|l]; [done|].
    assert (Ed : d = pre ++ slot_octets (Hole l) ++ slots_octets hs ++ be32 n ++ rest) by (unfold d; rewrite slots_cons, <- app_assoc; done).
    rewrite Ed. rewrite Ed in HL. rewrite skip_hole, app_assoc by done. rewrite app_assoc in HL. rewrite (IH _ n rest fuel) by (done || lia).
    rewrite slots_cons, !zlen_app. do 2 f_equal; [f_equal|]; lia.
Qed.

Lemma next_record_end hs : forall pre fuel, holes hs -> Forall wf_slot hs -> (length hs < fuel)%nat ->
  let d := pre ++ slots_octets hs in zlen d < 2 ^ 31 ->
  next_record fuel (opened d (zlen pre)) = (Err KRB5_KT_END, opened d (zlen d)).
Proof.
  induction hs as [|s hs IH]; intros pre fuel Hh Hw Hf d HL; destruct fuel as [|fuel]; cbn [length] in Hf; try lia.
  - cbn [next_record]. subst d. unfold slots_octets in *. cbn [mbind list_bind] in *. rewrite app_nil_r. unfold sbind. rewrite tell.
    unfold fread_exactly, sbind. by rewrite item_end.
  - apply Forall_cons_1 in Hh as [Hs Hh]. apply Forall_cons_1 in Hw as [Ws Hw]. destruct s as [|l]; [done|].
    assert (Ed : d = pre ++ slot_octets (Hole l) ++ slots_octets hs) by done.
    rewrite Ed. rewrite Ed in HL. rewrite skip_hole, app_assoc by done. rewrite app_assoc in HL. by rewrite (IH _ fuel) by (done || lia).
Qed.

(** There are fewer slots than octets. *)
Lemma slots_count l : (length l <= length (slots_octets l))%nat.
Proof. induction l as [|s l IH]; [done|]. rewrite slots_cons, length_app. unfold slot_octets, be32. cbn. lia. Qed.

Section read_entry.
Context `{P : Platform} (Hmem : 2 ^ 19 <= malloc_limit).

(** The next entry. *)
Lemma read_entry_ok pre hs r slack rest : holes hs -> Forall wf_slot hs -> wf_rec r ->
  let d := pre ++ slots_octets hs ++ slot_octets (Used r slack) ++ rest in zlen d < 2 ^ 31 ->
  krb5_ktfileint_internal_read_entry (opened d (zlen pre)) =
    (Ok (entry_of r, zlen pre + zlen (slots_octets hs)), opened d (zlen pre + zlen (slots_octets hs) + zlen (slot_octets (Used r slack)))).
Proof.
  intros Hh Hw Hr d HL. unfold krb5_ktfileint_internal_read_entry. pose proof HL as HL'. unfold d in HL'. rewrite !zlen_app, slot_length in HL'. cbn [payload] in HL'.
  pose proof (zlen_nonneg pre) as P0. pose proof (zlen_nonneg (slots_octets hs)) as S0. pose proof (zlen_nonneg rest) as R0.
  set (n := zlen (rec_octets r ++ slack)) in *. assert (N0 : 0 < n) by (unfold n; rewrite zlen_app; pose proof (rec_nonempty r); pose proof (zlen_nonneg slack); lia).
  assert (Ed : d = pre ++ slots_octets hs ++ be32 n ++ (rec_octets r ++ slack) ++ rest) by (unfold d, slot_octets; rewrite <- app_assoc; done).
  assert (HF : (length hs < S (length d))%nat) by (rewrite Ed, !length_app; pose proof (slots_count hs); lia).
  assert (HL2 : zlen (pre ++ slots_octets hs ++ be32 n ++ (rec_octets r ++ slack) ++ rest) < 2 ^ 31) by (by rewrite <- Ed).
  unfold sbind at 1. change (default [] (kt_disk (opened d (zlen pre)))) with d. pose proof (next_record_ok hs pre n _ _ Hh Hw HF ltac:(lia) HL2) as EN. rewrite <- Ed in EN. rewrite EN.
  cbn [fst snd]. destruct (Z.eqb_spec n 0); [lia|]. set (q := pre ++ slots_octets hs ++ be32 n).
  assert (Lq : zlen q = zlen pre + zlen (slots_octets hs) + 4) by (unfold q; rewrite !zlen_app; change (zlen (be32 n)) with 4; lia). rewrite <- Lq.
  unfold sbind at 1. rewrite tell.
  assert (Eq : d = q ++ rec_octets r ++ slack ++ rest) by (rewrite Ed; unfold q; by rewrite <- !app_assoc).
  unfold sbind at 1. rewrite Eq, (reads_fields Hmem r Hr), <- Eq. rewrite to_int_id by (unfold is_int; lia).
  rewrite bool_decide_eq_true_2 by (unfold is_int; lia). cbn [negb]. unfold sbind, ignore. rewrite seek_set by lia. unfold sret.
  rewrite slot_length. cbn [payload]. fold n. do 2 f_equal. lia.
Qed.

Lemma read_entry_end pre hs : holes hs -> Forall wf_slot hs -> let d := pre ++ slots_octets hs in zlen d < 2 ^ 31 ->
  krb5_ktfileint_internal_read_entry (opened d (zlen pre)) = (Err KRB5_KT_END, opened d (zlen d)).
Proof.
  intros Hh Hw d HL. unfold krb5_ktfileint_internal_read_entry, sbind. change (default [] (kt_disk (opened d (zlen pre)))) with d.
  assert (HF : (length hs < S (length d))%nat) by (unfold d; rewrite length_app; pose proof (slots_count hs); lia).
  pose proof (next_record_end hs pre _ Hh Hw HF HL) as E. fold d in E. by rewrite E.
Qed.

Lemma read_next_ok pre hs r slack rest : holes hs -> Forall wf_slot hs -> wf_rec r ->
  let d := pre ++ slots_octets hs ++ slot_octets (Used r slack) ++ rest in zlen d < 2 ^ 31 ->
  krb5_ktfileint_read_entry (opened d (zlen pre)) = (Ok (entry_of r), opened d (zlen (pre ++ slots_octets hs ++ slot_octets (Used r slack)))).
Proof.
  intros Hh Hw Hr d HL. unfold krb5_ktfileint_read_entry, sbind, sret. unfold d. rewrite read_entry_ok by done. cbn [fst].
  rewrite !zlen_app. do 2 f_equal. lia.
Qed.

Lemma read_next_end pre hs : holes hs -> Forall wf_slot hs -> let d := pre ++ slots_octets hs in zlen d < 2 ^ 31 ->
  krb5_ktfileint_read_entry (opened d (zlen pre)) = (Err KRB5_KT_END, opened d (zlen d)).
Proof. intros Hh Hw d HL. unfold krb5_ktfileint_read_entry, sbind. unfold d. by rewrite read_entry_end. Qed.
End read_entry.

(** ** All the entries *)

Lemma slots_ind (Q : list slot -> Prop) :
  (forall hs, holes hs -> Q hs) -> (forall hs r slack rest, holes hs -> Q rest -> Q (hs ++ Used r slack :: rest)) -> forall l, Q l.
Proof.
  intros H0 H1 l. assert (H : forall n l, (length l <= n)%nat -> Q l); [|by apply (H (length l))]. clear l.
  assert (D : forall l, holes l \/ exists hs r slack rest, l = hs ++ Used r slack :: rest /\ holes hs).
  { induction l as [|s l IH]; [by left|]. destruct s as [r slack|h]; [right; by exists [], r, slack, l|].
    destruct IH as [IH|(hs & r & slack & rest & -> & IH)]; [left; by constructor|].
    right. exists (Hole h :: hs), r, slack, rest. split; [done|by constructor]. }
  induction n as [|n IH]; intros l Hl; destruct (D l) as [Hh|(hs & r & slack & rest & -> & Hh)]; auto.
  - rewrite length_app in Hl. cbn in Hl. lia.
  - rewrite length_app in Hl. cbn in Hl. apply H1; [done|]. apply IH. lia.
Qed.

Lemma records_holes hs : holes hs -> records hs = [].
Proof. induction 1 as [|[r s|h] hs H _ IH]; [done|done|exact IH]. Qed.
Lemma records_app l k : records (l ++ k) = records l ++ records k.
Proof. apply omap_app. Qed.
Lemma records_used hs r slack rest : holes hs -> records (hs ++ Used r slack :: rest) = r :: records rest.
Proof. intros H. rewrite records_app, records_holes by done. done. Qed.

(** What the loop over the entries keeps. *)
Fixpoint pick (kvno : Z) (cands : list kt_rec) (cur : option kt_rec) (wrong : bool) : option kt_rec * bool :=
  match cands with
  | [] => (cur, wrong)
  | r :: cands =>
      if kvno =? IGNORE_VNO then
        pick kvno cands (match cur with None => Some r | Some c => if kr_vno c <? kr_vno r then Some r else Some c end) wrong
      else if kr_vno r =? kvno then (Some r, wrong)
      else pick kvno cands cur true
  end.

Section search.
Context `{P : Platform} `{St : Stack} (Hmem : 2 ^ 19 <= malloc_limit).
Context (realm : list octet) (comps : list (list octet)) (etype : Z).

(** The library knows the encryption type of the entry, or none is asked for. *)
Definition comparable (r : kt_rec) : Prop := etype = IGNORE_ENCTYPE \/ exists b, krb5_c_enctype_compare etype (kr_etype r) = Ok b.
(** The entry is for the principal, with a key that fits. *)
Definition candidate (r : kt_rec) : bool :=
  match (if etype =? IGNORE_ENCTYPE then Ok true else krb5_c_enctype_compare etype (kr_etype r)) with
  | Ok true => bool_decide (realm = kr_realm r /\ comps = kr_comps r)
  | _ => false
  end.

Lemma entry_principal r : princ_holds (ke_principal (entry_of r)) (kr_realm r) (kr_comps r).
Proof.
  destruct (princ_holds_name (kr_realm r) (kr_comps r)) as (H1 & H2 & data & H3 & H4). split; [exact H1|]. split; [done|]. by exists data.
Qed.

Lemma get_loop_ok p kvno l : princ_holds p realm comps -> forall pre fuel cur wrong,
  Forall wf_slot l -> Forall comparable (records l) -> (length l < fuel)%nat -> zlen (pre ++ slots_octets l) < 2 ^ 31 ->
  exists pos, get_entry_loop fuel p kvno etype (entry_of <$> cur) wrong (opened (pre ++ slots_octets l) (zlen pre)) =
    (Ok (entry_of <$> (pick kvno (List.filter candidate (records l)) cur wrong).1, (pick kvno (List.filter candidate (records l)) cur wrong).2),
     opened (pre ++ slots_octets l) pos).
Proof.
  intros HP. induction l as [hs Hh|hs r slack rest Hh IH] using slots_ind; intros pre fuel cur wrong Hw Hc Hf HL; destruct fuel as [|fuel]; try lia; cbn [get_entry_loop].
  - rewrite read_next_end, records_holes by done. by eexists.
  - rewrite records_used in * by done. apply Forall_app in Hw as [Hw1 Hw]. apply Forall_cons_1 in Hw as [Wr Hw]. apply Forall_cons_1 in Hc as [Cr Hc].
    rewrite length_app in Hf. cbn [length] in Hf. rewrite slots_app, slots_cons in *.
    rewrite read_next_ok by done. set (q := pre ++ slots_octets hs ++ slot_octets (Used r slack)).
    assert (Eq : pre ++ slots_octets hs ++ slot_octets (Used r slack) ++ slots_octets rest = q ++ slots_octets rest) by (unfold q; by rewrite <- !app_assoc).
    rewrite Eq in *. specialize (fun cur wrong => IH q fuel cur wrong Hw Hc ltac:(lia) HL).
    cbn [List.filter]. change (kb_enctype (ke_key (entry_of r))) with (kr_etype r).
    assert (HC : exists b, (if etype =? IGNORE_ENCTYPE then Ok true else krb5_c_enctype_compare etype (kr_etype r)) = Ok b).
    { destruct (Z.eqb_spec etype IGNORE_ENCTYPE); [by eexists|]. destruct Cr as [|Cr]; done. }
    destruct HC as [b EB].
    assert (EC : candidate r = if b then bool_decide (realm = kr_realm r /\ comps = kr_comps r) else false) by (unfold candidate; rewrite EB; by destruct b).
    rewrite EC, EB. unfold sret at 1, sbind at 1. destruct b; cbn [negb]; [|apply IH].
    unfold sret at 1, sbind at 1. rewrite (principal_compare_ok _ _ _ _ _ _ HP (entry_principal r)).
    case_bool_decide as EP; cbn [negb]; [|apply IH]. cbn [pick]. destruct (kvno =? IGNORE_VNO).
    + specialize (IH (match cur with None => Some r | Some c => if kr_vno c <? kr_vno r then Some r else Some c end) wrong).
      destruct cur as [c|]; cbn [fmap option_fmap option_map] in *; [|exact IH]. change (ke_vno (entry_of c)) with (kr_vno c).
      change (ke_vno (entry_of r)) with (kr_vno r). destruct (kr_vno c <? kr_vno r); exact IH.
    + change (ke_vno (entry_of r)) with (kr_vno r). destruct (kr_vno r =? kvno); [by eexists|]. apply IH.
Qed.
(** ** Removing an entry *)

Definition matches (vno et : Z) (r : kt_rec) : Prop := vno = kr_vno r /\ et = kr_etype r /\ realm = kr_realm r /\ comps = kr_comps r.
#[global] Instance matches_dec vno et r : Decision (matches vno et r).
Proof. unfold matches. apply _. Defined.

(** The first entry that matches. *)
Lemma find_entry_ok e l : princ_holds (ke_principal e) realm comps -> forall pre fuel,
  Forall wf_slot l -> (length l < fuel)%nat -> zlen (pre ++ slots_octets l) < 2 ^ 31 ->
  let m := matches (ke_vno e) (kb_enctype (ke_key e)) in
  (Forall (fun r => ~ m r) (records l) /\
   exists pos, find_entry fuel e (opened (pre ++ slots_octets l) (zlen pre)) = (Err KRB5_KT_END, opened (pre ++ slots_octets l) pos)) \/
  exists a r slack b, l = a ++ Used r slack :: b /\ m r /\ Forall (fun r => ~ m r) (records a) /\
   exists pos, find_entry fuel e (opened (pre ++ slots_octets l) (zlen pre)) = (Ok (zlen pre + zlen (slots_octets a)), opened (pre ++ slots_octets l) pos).
Proof.
  intros HP. induction l as [hs Hh|hs r slack rest Hh IH] using slots_ind; intros pre fuel Hw Hf HL m; destruct fuel as [|fuel]; try lia.
  - left. rewrite records_holes by done. split; [constructor|]. cbn [find_entry]. unfold sbind at 1. rewrite read_entry_end by done. by eexists.
  - apply Forall_app in Hw as [Hw1 Hw]. apply Forall_cons_1 in Hw as [Wr Hw]. rewrite length_app in Hf. cbn [length] in Hf. rewrite slots_app, slots_cons in *.
    set (q := pre ++ slots_octets hs ++ slot_octets (Used r slack)).
    assert (Eq : pre ++ slots_octets hs ++ slot_octets (Used r slack) ++ slots_octets rest = q ++ slots_octets rest) by (unfold q; by rewrite <- !app_assoc).
    assert (Lq : zlen pre + zlen (slots_octets hs) + zlen (slot_octets (Used r slack)) = zlen q) by (unfold q; rewrite !zlen_app; lia).
    assert (EM : (if (ke_vno e =? kr_vno r) && (kb_enctype (ke_key e) =? kr_etype r) then Ok (bool_decide (realm = kr_realm r /\ comps = kr_comps r)) else Ok false)
                 = Ok (E := error_code) (bool_decide (m r))).
    { unfold m, matches. destruct (Z.eqb_spec (ke_vno e) (kr_vno r)), (Z.eqb_spec (kb_enctype (ke_key e)) (kr_etype r)); cbn [andb];
        f_equal; try (symmetry; apply bool_decide_eq_false_2; tauto). apply bool_decide_ext. tauto. }
    assert (ES : find_entry (S fuel) e (opened (q ++ slots_octets rest) (zlen pre)) =
                 if bool_decide (m r) then (Ok (zlen pre + zlen (slots_octets hs)), opened (q ++ slots_octets rest) (zlen q))
                 else find_entry fuel e (opened (q ++ slots_octets rest) (zlen q))).
    { cbn [find_entry]. unfold sbind at 1. rewrite <- Eq, read_entry_ok, Eq by done. cbn [fst snd]. rewrite Lq.
      change (ke_vno (entry_of r)) with (kr_vno r). change (kb_enctype (ke_key (entry_of r))) with (kr_etype r).
      rewrite (principal_compare_ok _ _ _ _ _ _ HP (entry_principal r)), EM. unfold sbind at 1, sret at 1. by destruct (bool_decide (m r)). }
    rewrite Eq in *. rewrite ES. case_bool_decide as Hm.
    + right. exists hs, r, slack, rest. split; [done|]. split; [done|]. split; [rewrite records_holes by done; constructor|]. by eexists.
    + destruct (IH q fuel Hw ltac:(lia) HL) as [[HN (pos & E)]|(a & r' & sl & b & -> & Hm' & HN & pos & E)].
      * left. rewrite records_used by done. split; [by constructor|]. by exists pos.
      * right. exists (hs ++ Used r slack :: a), r', sl, b. split; [by rewrite <- app_assoc|]. split; [done|].
        split; [rewrite records_used by done; by constructor|].
        exists pos. rewrite E. do 2 f_equal. rewrite slots_app, slots_cons, !zlen_app. unfold q. rewrite !zlen_app. lia.
Qed.

End search.

(** ** Writing zeros *)

Lemma write_zeros_ok fuel : forall size len, (Z.to_nat size < fuel)%nat -> 0 <= size -> (0 < size -> 0 < len <= size) ->
  writes (write_zeros fuel size len) (replicate (Z.to_nat size) 0).
Proof.
  induction fuel as [|fuel IH]; intros size len Hf Hs Hl; [lia|]. cbn [write_zeros]. destruct (Z.ltb_spec 0 size) as [H0|H0].
  - specialize (Hl H0). eapply writes_bind; [apply writes_fwrite|apply IH|].
    + lia.
    + lia.
    + destruct (Z.ltb_spec (size - len) len); lia.
    + rewrite <- replicate_add. f_equal. lia.
  - replace (Z.to_nat size) with 0%nat by lia. apply writes_ret.
Qed.

Lemma delete_entry_ok BUFSIZ pre r slack rest pos : 0 < BUFSIZ -> wf_rec r -> let d := pre ++ slot_octets (Used r slack) ++ rest in zlen d < 2 ^ 31 ->
  exists pos', krb5_ktfileint_delete_entry BUFSIZ (zlen pre) (opened d pos) =
    (Ok tt, opened (pre ++ slot_octets (Hole (replicate (length (rec_octets r ++ slack)) 0)) ++ rest) pos').
Proof.
  intros HB HW d HL. destruct (slot_behind pre (Used r slack) rest HW HL) as (ER & EN & HI & HI'). fold d in ER.
  destruct (slot_size_sign (Used r slack) HW) as [HS _]. cbn [slot_size payload] in *. set (n := zlen (rec_octets r ++ slack)) in *.
  unfold krb5_ktfileint_delete_entry. pose proof (zlen_nonneg pre). unfold sbind at 1. rewrite seek_set by done.
  assert (EI : fread_item 4 (opened d (zlen pre)) = (Ok (Some (be32 n)), opened d (zlen pre + 4))).
  { unfold d, slot_octets. rewrite <- app_assoc. apply (reads_item (be32 n) 4 eq_refl). }
  unfold sbind at 1. rewrite EI. unfold sbind at 1, KTVERSION at 1. cbn [kt_version opened]. rewrite EN. destruct (Z.ltb_spec 0 n); [|lia].
  unfold sbind at 1. change (KtData (Some d) (Stream (zlen pre + 4)) KRB5_KT_VNO) with (opened d (zlen pre + 4)). rewrite seek_set by done.
  set (zs := be32 (- n) ++ replicate (Z.to_nat n) 0).
  assert (HWr : writes (do! _ := fwrite (put32 KRB5_KT_VNO (- n)) in write_zeros (S (Z.to_nat n)) n (if n <? BUFSIZ then n else BUFSIZ)) zs).
  { eapply writes_bind; [apply writes_fwrite|apply write_zeros_ok|done]; [lia|lia|]. destruct (Z.ltb_spec n BUFSIZ); lia. }
  assert (EL : Z.to_nat n = length (rec_octets r ++ slack)) by (unfold n, zlen; lia).
  assert (EZ : zs = slot_octets (Hole (replicate (length (rec_octets r ++ slack)) 0))).
  { unfold zs, slot_octets. cbn [slot_size payload]. rewrite EL. do 3 f_equal. unfold zlen. by rewrite length_replicate. }
  assert (EQ : length zs = length (slot_octets (Used r slack))).
  { rewrite EZ. unfold slot_octets. cbn [payload]. rewrite !length_app, length_replicate. done. }
  unfold d. rewrite HWr, EQ, EZ, drop_app_length. by eexists.
Qed.

(** ** Adding an entry *)

(** [e] is stored at [now] as the record [r]. *)
Record stored_as (e : krb5_keytab_entry) (now : Z) (r : kt_rec) : Prop := StoredAs {
  sa_wf : wf_rec r;
  sa_principal : princ_holds (ke_principal e) (kr_realm r) (kr_comps r);
  sa_type : pr_type (ke_principal e) = kr_type r;
  sa_time : kr_time r = now;
  sa_vno : kr_vno r = octet_of (ke_vno e);
  sa_etype : kr_etype r = kb_enctype (ke_key e) mod 2 ^ 16;
  sa_key : data_holds (Data (kb_length (ke_key e)) (kb_contents (ke_key e))) (kr_key r)
}.

Lemma be16_mod n : be16 (n mod 2 ^ 16) = be16 n.
Proof.
  unfold be16. rewrite !land_255, !Z.shiftr_div_pow2 by lia. change (2 ^ 16) with 65536. change (2 ^ 8) with 256.
  f_equal; [Z.div_mod_to_equations; lia|]. f_equal. Z.div_mod_to_equations. lia.
Qed.

Lemma writes_app (m : kproc unit) (k : unit -> kproc unit) l1 l2 : writes m l1 -> writes (k tt) l2 -> writes (sbind m k) (l1 ++ l2).
Proof. intros H1 H2. by eapply writes_bind. Qed.

Lemma writes_mem n mem l : mem = Ok l -> n = zlen l -> 0 < n -> writes (fwrite_mem n mem) l.
Proof. intros -> -> Hn pre rest. unfold fwrite_mem, sbind, sret. destruct (Z.eqb_spec (zlen l) 0); [lia|]. apply writes_fwrite. Qed.

Lemma writes_data d l : data_holds d l -> wf_str l -> writes (write_data KRB5_KT_VNO d) (str16 l).
Proof.
  intros Hd Hl. pose proof (contents_ok d l Hd) as EC. destruct Hd as [EL _]. unfold wf_str in Hl. unfold write_data. rewrite EL.
  apply writes_app; [apply writes_fwrite|]. apply writes_mem; [done|done|lia].
Qed.

Lemma writes_components data comps : Forall2 data_holds data comps -> Forall wf_str comps ->
  writes (write_components KRB5_KT_VNO data) (comps ≫= str16).
Proof.
  induction 1 as [|d c data comps Hd _ IH]; intros HW; [apply writes_ret|]. apply Forall_cons_1 in HW as [Hc HW]. cbn [write_components].
  cbn [mbind list_bind]. apply writes_app; [by apply writes_data|by apply IH].
Qed.

Lemma name_components_held p realm comps data : princ_holds p realm comps -> 1 <= zlen comps < 2 ^ 15 -> pr_data p = Some data ->
  components_of p (to_int 16 (pr_length p)) = Ok data /\ Forall2 data_holds data comps.
Proof.
  intros (_ & HL & data' & ED & HF) Hc E. rewrite E in ED. injection ED as <-. rewrite HL, to_int_id by (unfold is_int; lia).
  unfold components_of. rewrite E. apply Forall2_length in HF as EL. split; [|done].
  destruct (Z.leb_spec (zlen comps) 0); [lia|]. assert (E2 : zlen data = zlen comps) by (unfold zlen; lia). rewrite E2, Z.ltb_irrefl.
  rewrite take_ge; [done|]. unfold zlen. lia.
Qed.

Lemma size_entry_ok e now r : stored_as e now r -> zlen (rec_octets r) < 2 ^ 31 -> krb5_ktfileint_size_entry e = Ok (zlen (rec_octets r)).
Proof.
  intros [[_ Hc _ _ _ _ _ _] HP _ _ _ _ HK] HL. pose proof HP as (HR & _ & data & ED & _). destruct (name_components_held _ _ _ _ HP Hc ED) as [EC HF].
  unfold krb5_ktfileint_size_entry. rewrite EC. cbn [obind]. f_equal. rewrite rec_length in *. destruct HR as [-> _]. destruct HK as [HK _]. cbn [d_length] in HK.
  rewrite HK. assert (ES : foldr (fun d a => d_length d + 2 + a) 0 data = foldr (fun c a => zlen c + 2 + a) 0 (kr_comps r)).
  { clear -HF. induction HF as [|d c data cs Hd _ IH]; [done|]. cbn [foldr]. rewrite IH. by destruct Hd as [-> _]. }
  rewrite ES. apply to_int_id; [|lia]. unfold is_int. split; [|lia].
  assert (0 <= foldr (fun c a => zlen c + 2 + a) 0 (kr_comps r)) by (clear; induction (kr_comps r) as [|c cs IH]; cbn [foldr]; [lia|pose proof (zlen_nonneg c); lia]).
  pose proof (zlen_nonneg (kr_realm r)). pose proof (zlen_nonneg (kr_key r)). lia.
Qed.

Lemma writes_fields e now r : stored_as e now r -> writes (write_fields now e KRB5_KT_VNO) (rec_octets r).
Proof.
  intros [HW HP ET Etm EV EE HK]. pose proof HW as [Hr Hc Hcs _ _ _ _ Hk]. pose proof HP as (HR & HL & data & ED & _).
  destruct (name_components_held _ _ _ _ HP Hc ED) as [EC HF]. unfold write_fields, rec_octets. rewrite <- !app_assoc.
  change (KRB5_KT_VNO =? KRB5_KT_VNO_1) with false. cbv iota. rewrite HL.
  apply writes_app; [apply writes_fwrite|]. apply writes_app; [by apply writes_data|]. apply writes_app.
  { intros pre rest. unfold sbind, sret. rewrite HL in EC. rewrite EC. by apply writes_components. }
  rewrite <- ET. apply writes_app; [apply writes_fwrite|]. rewrite Etm. apply writes_app; [apply writes_fwrite|].
  rewrite <- EV. apply writes_app; [apply writes_fwrite|]. rewrite EE, be16_mod. apply writes_app; [apply writes_fwrite|].
  pose proof (contents_ok _ _ HK) as EK. destruct HK as [HKL _]. cbn [d_length] in HKL. unfold str16. rewrite HKL in *. unfold wf_str in Hk.
  apply writes_app; [apply writes_fwrite|]. apply writes_mem; [done|done|lia].
Qed.

Section add.
Context (BUFSIZ : Z) (turns : nat).

(** A slot that is passed over. *)
Lemma pass_slot n pre s rest fuel : let d := pre ++ slot_octets s ++ rest in
  match s with Used _ _ => True | Hole h => zlen h < n end -> wf_slot s -> zlen d < 2 ^ 31 ->
  find_slot_loop BUFSIZ (S fuel) n (opened d (zlen pre)) = find_slot_loop BUFSIZ fuel n (opened d (zlen (pre ++ slot_octets s))).
Proof.
  intros d Hn Ws HL. destruct (slot_behind _ _ _ Ws HL) as (_ & EN & _ & HI). destruct (slot_size_sign s Ws) as [HS HA]. cbn [find_slot_loop].
  assert (EI : fread_item 4 (opened d (zlen pre)) = (Ok (Some (be32 (slot_size s))), opened d (zlen pre + 4))).
  { unfold d, slot_octets. rewrite <- app_assoc. apply (reads_item (be32 (slot_size s)) 4 eq_refl). }
  unfold sbind at 1. rewrite tell. unfold sbind at 1. rewrite EI. unfold sbind at 1, KTVERSION at 1. cbn [kt_version opened]. rewrite EN.
  change (KtData (Some d) (Stream (zlen pre + 4)) KRB5_KT_VNO) with (opened d (zlen pre + 4)). pose proof (zlen_nonneg pre).
  rewrite zlen_app, slot_length. destruct s as [r sl|h]; cbn [slot_size payload] in *.
  - destruct (Z.ltb_spec 0 (zlen (rec_octets r ++ sl))); [|lia]. unfold sbind at 1. rewrite seek_cur by lia. do 2 f_equal. lia.
  - destruct (Z.ltb_spec 0 (- zlen h)); [lia|]. unfold sbind at 1, negate, sret at 1. rewrite bool_decide_eq_true_2 by done. rewrite Z.opp_involutive.
    destruct (Z.leb_spec n (zlen h)); [lia|]. destruct (Z.ltb_spec 0 (zlen h)); [|lia]. unfold sbind at 1. rewrite seek_cur by lia. do 2 f_equal. lia.
Qed.

(** The first hole that is large enough, or the end of the file. *)
Lemma find_slot_ok n l : 0 < n -> forall pre fuel, Forall wf_slot l -> (length l < fuel)%nat -> let d := pre ++ slots_octets l in zlen d < 2 ^ 31 ->
  find_slot_loop BUFSIZ fuel n (opened d (zlen pre)) = (Ok (zlen d, n), opened (d ++ [0; 0; 0; 0]) (zlen d + 4)) \/
  exists a h b, l = a ++ Hole h :: b /\ n <= zlen h /\
    find_slot_loop BUFSIZ fuel n (opened d (zlen pre)) = (Ok (zlen (pre ++ slots_octets a), zlen h), opened d (zlen (pre ++ slots_octets a) + 4)).
Proof.
  intros Hn. induction l as [|s l IH]; intros pre fuel Hw Hf d HL; destruct fuel as [|fuel]; cbn [length] in Hf; try lia.
  - left. cbn [find_slot_loop]. assert (Ed : d = pre) by (apply app_nil_r). rewrite Ed in *. unfold sbind at 1. rewrite tell. unfold sbind at 1.
    rewrite item_end by lia. unfold sbind at 1, KTVERSION at 1. cbn [kt_version opened]. unfold sbind at 1.
    change (KtData (Some pre) (Stream (zlen pre)) KRB5_KT_VNO) with (opened pre (zlen pre)). pose proof (writes_fwrite [0; 0; 0; 0] pre []) as HW.
    rewrite app_nil_r in HW. rewrite HW. unfold sret. pose proof (zlen_nonneg pre). rewrite to_int_id by (unfold is_int; lia). done.
  - apply Forall_cons_1 in Hw as [Ws Hw]. assert (Ed : d = pre ++ slot_octets s ++ slots_octets l) by done.
    assert (HC : match s with Used _ _ => True | Hole h => zlen h < n end \/ exists h, s = Hole h /\ n <= zlen h).
    { destruct s as [|h]; [by left|]. destruct (Z.lt_ge_cases (zlen h) n); [by left|right; by exists h]. }
    destruct HC as [HC|(h & -> & Hh)].
    + rewrite Ed in *. rewrite pass_slot by done. rewrite app_assoc in *. destruct (IH _ fuel Hw ltac:(lia) HL) as [E|(a & h & b & -> & Hh & E)]; [by left|].
      right. exists (s :: a), h, b. split; [done|]. split; [done|]. rewrite E. by rewrite slots_cons, app_assoc.
    + right. exists [], h, l. split; [done|]. split; [done|]. change (slots_octets []) with (@nil octet). rewrite app_nil_r. rewrite Ed in HL.
      destruct (slot_behind _ _ _ Ws HL) as (_ & EN & _ & HI). cbn [find_slot_loop wf_slot slot_size] in *.
      assert (EI : fread_item 4 (opened d (zlen pre)) = (Ok (Some (be32 (- zlen h))), opened d (zlen pre + 4))).
      { rewrite Ed. unfold slot_octets. rewrite <- app_assoc. apply (reads_item (be32 (- zlen h)) 4 eq_refl). }
      unfold sbind at 1. rewrite tell. unfold sbind at 1. rewrite EI. unfold sbind at 1, KTVERSION at 1. cbn [kt_version opened]. rewrite EN.
      destruct (Z.ltb_spec 0 (- zlen h)); [lia|]. unfold sbind at 1, negate, sret at 1. rewrite bool_decide_eq_true_2 by done. rewrite Z.opp_involutive.
      destruct (Z.leb_spec n (zlen h)); [|lia]. unfold sret. pose proof (zlen_nonneg pre). rewrite <- Ed in HL. unfold d in HL. rewrite zlen_app in HL.
      pose proof (zlen_nonneg (slots_octets (Hole h :: l))). rewrite to_int_id by (unfold is_int; lia). done.
Qed.

(** Fields and length of an entry in the slot at [pre]. *)
Lemma commit_ok e now r pre old rest k : writes (write_fields now e KRB5_KT_VNO) (rec_octets r) -> length old = 4%nat ->
  (do! version := KTVERSION in do! _ := write_fields now e version in do! _ := fseek (SEEK_SET (zlen pre)) in fwrite (put32 version k))
    (opened (pre ++ old ++ rest) (zlen pre + 4)) =
  (Ok tt, opened (pre ++ be32 k ++ rec_octets r ++ drop (length (rec_octets r)) rest) (zlen pre + 4)).
Proof.
  intros HW HO. unfold sbind at 1, KTVERSION at 1. cbn [kt_version opened]. unfold sbind at 1.
  specialize (HW (pre ++ old) rest). rewrite <- !app_assoc, zlen_app in HW. replace (zlen old) with 4 in HW by (unfold zlen; lia). rewrite HW.
  unfold sbind at 1. rewrite seek_set by apply zlen_nonneg. change (put32 KRB5_KT_VNO k) with (be32 k). rewrite writes_fwrite.
  change (length (be32 k)) with 4%nat. rewrite <- HO, drop_app_length. done.
Qed.

(** Where the entry goes. *)
Lemma write_entry_ok e now r l pos : stored_as e now r -> Forall wf_slot l -> (length l < turns)%nat ->
  zlen (file l) + 4 + zlen (rec_octets r) < 2 ^ 31 ->
  exists a b k pos', records l = a ++ b /\ records k = a ++ r :: b /\ Forall wf_slot k /\ zlen (file k) <= zlen (file l) + 4 + zlen (rec_octets r) /\
    (length k <= S (length l))%nat /\
    krb5_ktfileint_write_entry BUFSIZ turns now e (opened (file l) pos) = (Ok tt, opened (file k) pos').
Proof.
  intros HS Hw Ht HL. set (n := zlen (rec_octets r)) in *. pose proof (rec_nonempty r) as Hn. fold n in Hn.
  pose proof (zlen_nonneg (file l)) as F0. unfold krb5_ktfileint_write_entry.
  unfold sbind at 1, sret at 1. rewrite (size_entry_ok e now r HS) by lia. fold n. unfold sbind at 1. unfold krb5_ktfileint_find_slot.
  unfold sbind at 1. rewrite seek_set by lia. unfold sbind at 1.
  pose proof (reads_item (be16 KRB5_KT_VNO) 2 eq_refl [] (slots_octets l)) as E2. cbn [app] in E2. change (zlen []) with 0 in E2.
  change (be16 KRB5_KT_VNO ++ slots_octets l) with (file l) in E2. change (0 + zlen (be16 KRB5_KT_VNO)) with (zlen (be16 KRB5_KT_VNO)) in E2. rewrite E2.
  pose proof (sa_wf _ _ _ HS) as HWr. pose proof (writes_fields e now r HS) as HWF.
  assert (HLf : zlen (be16 KRB5_KT_VNO ++ slots_octets l) < 2 ^ 31) by (change (be16 KRB5_KT_VNO ++ slots_octets l) with (file l); lia).
  destruct (find_slot_ok n l Hn (be16 KRB5_KT_VNO) turns Hw Ht HLf) as [E|(a & h & b & -> & Hh & E)].
  - change (be16 KRB5_KT_VNO ++ slots_octets l) with (file l) in E. rewrite E. cbn [fst snd].
    pose proof (commit_ok e now r (file l) [0; 0; 0; 0] [] n HWF eq_refl) as EC. rewrite app_nil_r, drop_nil, app_nil_r in EC. rewrite EC.
    assert (EF : file (l ++ [Used r []]) = file l ++ be32 n ++ rec_octets r).
    { rewrite file_app, slots_cons. change (slots_octets []) with (@nil octet). unfold slot_octets. cbn [slot_size payload]. by rewrite !app_nil_r. }
    exists (records l), [], (l ++ [Used r []]), (zlen (file l) + 4). rewrite app_nil_r, records_app, EF. split_and!; try done.
    + apply Forall_app. split; [done|]. by constructor.
    + rewrite !zlen_app. change (zlen (be32 n)) with 4. fold n. lia.
    + rewrite length_app. cbn. lia.
  - change (be16 KRB5_KT_VNO ++ slots_octets (a ++ Hole h :: b)) with (file (a ++ Hole h :: b)) in E. change (be16 KRB5_KT_VNO ++ slots_octets a) with (file a) in E.
    assert (EO : file (a ++ Hole h :: b) = file a ++ be32 (- zlen h) ++ h ++ slots_octets b).
    { rewrite file_app, slots_cons. unfold slot_octets. cbn [slot_size payload]. by rewrite <- app_assoc. }
    rewrite E. cbn [fst snd]. pose proof (commit_ok e now r (file a) (be32 (- zlen h)) (h ++ slots_octets b) (zlen h) HWF eq_refl) as EC.
    rewrite <- EO in EC. rewrite EC.
    assert (LR : (length (rec_octets r) <= length h)%nat) by (unfold n, zlen in Hh; lia).
    rewrite drop_app_le by done. set (sl := drop (length (rec_octets r)) h).
    assert (ES : zlen (rec_octets r ++ sl) = zlen h) by (unfold zlen, sl; rewrite length_app, length_drop; lia).
    assert (EF : file (a ++ Used r sl :: b) = file a ++ be32 (zlen h) ++ rec_octets r ++ sl ++ slots_octets b).
    { rewrite file_app, slots_cons. unfold slot_octets. cbn [slot_size payload]. rewrite ES. by rewrite <- !app_assoc. }
    exists (records a), (records b), (a ++ Used r sl :: b), (zlen (file a) + 4). rewrite !records_app, EF. apply Forall_app in Hw as [Hwa Hw]. apply Forall_cons_1 in Hw as [_ Hwb].
    split_and!; try done.
    + apply Forall_app. split; [done|]. by constructor.
    + rewrite <- EF, !file_app, !slots_cons, !zlen_app, !slot_length. cbn [payload]. rewrite ES. lia.
    + rewrite !length_app. cbn. lia.
Qed.
End add.

(** ** Lookup *)

(** What a search among the entries for a principal should give: the entry with the
    largest version, or the one with the version that is asked for. *)
Definition answer (kvno : Z) (cands : list kt_rec) (res : outcome error_code kt_rec) : Prop :=
  match res with
  | Ok r => r ∈ cands /\ if kvno =? IGNORE_VNO then Forall (fun c => kr_vno c <= kr_vno r) cands else kr_vno r = kvno
  | Err e => e = (if bool_decide (cands = []) then KRB5_KT_NOTFOUND else KRB5_KT_KVNONOTFOUND) /\
             if kvno =? IGNORE_VNO then cands = [] else Forall (fun c => kr_vno c <> kvno) cands
  | _ => False
  end.

Lemma pick_largest cands : forall cur wrong,
  pick IGNORE_VNO cands cur wrong = (cur, wrong) /\ (cands = [] \/ exists c, cur = Some c /\ Forall (fun x => kr_vno x <= kr_vno c) cands) \/
  exists r, pick IGNORE_VNO cands cur wrong = (Some r, wrong) /\ r ∈ cands /\ Forall (fun x => kr_vno x <= kr_vno r) cands /\
    match cur with Some c => kr_vno c <= kr_vno r | None => True end.
Proof.
  induction cands as [|r cands IH]; intros cur wrong; [left; split; [done|by left]|]. cbn [pick]. change (IGNORE_VNO =? IGNORE_VNO) with true. cbv iota.
  set (best := match cur with None => Some r | Some c => if kr_vno c <? kr_vno r then Some r else Some c end).
  assert (HB : exists b, best = Some b /\ kr_vno r <= kr_vno b /\ (b = r /\ match cur with Some c => kr_vno c <= kr_vno r | None => True end \/ cur = Some b)).
  { unfold best. destruct cur as [c|]; [|exists r; split_and!; [done|lia|by left]]. destruct (Z.ltb_spec (kr_vno c) (kr_vno r)); [exists r|exists c]; split_and!; try done; try lia; [left; split; [done|lia]|by right]. }
  destruct HB as (b & -> & Hr & HB). destruct (IH (Some b) wrong) as [[E HC]|(x & E & Hx & HF & Hc)].
  - assert (HF : Forall (fun x => kr_vno x <= kr_vno b) cands) by (destruct HC as [->|(c & [= <-] & HF)]; [constructor|done]).
    destruct HB as [[-> HB]| ->].
    + right. exists r. rewrite E. split_and!; [done|left|by constructor|done].
    + left. split; [done|]. right. exists b. split; [done|]. by constructor.
  - right. exists x. rewrite E. split_and!; [done|by right|constructor; [lia|done]|]. destruct HB as [[-> HB]| ->]; [|done]. destruct cur; [|done]. lia.
Qed.

Lemma pick_version kvno cands : kvno <> IGNORE_VNO -> forall wrong,
  (exists r, (pick kvno cands None wrong).1 = Some r /\ r ∈ cands /\ kr_vno r = kvno) \/
  pick kvno cands None wrong = (None, negb (bool_decide (cands = [])) || wrong) /\ Forall (fun c => kr_vno c <> kvno) cands.
Proof.
  intros HN. induction cands as [|r cands IH]; intros wrong; [right; done|]. cbn [pick]. destruct (Z.eqb_spec kvno IGNORE_VNO); [done|].
  destruct (Z.eqb_spec (kr_vno r) kvno) as [E|E]; [left; exists r; split_and!; [done|left|done]|].
  destruct (IH true) as [(x & E' & Hx & Hv)|[E' HF]]; [left; exists x; split_and!; [done|by right|done]|]. right. rewrite E'. rewrite orb_true_r. split; [done|]. by constructor.
Qed.

(** The outcome of the loop. *)
Definition picked (r : option kt_rec * bool) : outcome error_code kt_rec :=
  match r with (Some r, _) => Ok r | (None, true) => Err KRB5_KT_KVNONOTFOUND | (None, false) => Err KRB5_KT_NOTFOUND end.

Lemma pick_answers kvno cands : answer kvno cands (picked (pick kvno cands None false)).
Proof.
  unfold answer. destruct (Z.eqb_spec kvno IGNORE_VNO) as [->|HN].
  - destruct (pick_largest cands None false) as [[-> HC]|(r & -> & Hr & HF & _)]; cbn [picked]; [|done].
    destruct HC as [->|(c & H & _)]; [done|discriminate].
  - destruct (pick_version kvno cands HN false) as [(r & E & Hr & Hv)|[-> HF]].
    + destruct (pick kvno cands None false) as [o w]. cbn [fst] in E. subst o. cbn [picked]. done.
    + rewrite orb_false_r. case_bool_decide; cbn [picked negb]; done.
Qed.

(** ** The operations *)

(** A key table that is not in use, with the entries [es], in a file of at most [size]
    octets and [count] slots. *)
Definition table (kt : krb5_ktfile_data) (es : list kt_rec) (size : Z) (count : nat) : Prop :=
  exists l, Forall wf_slot l /\ records l = es /\ kt_openf kt = NoStream /\ match kt_disk kt with Some d => d = file l | None => l = [] end /\
    zlen (file l) <= size /\ (length l <= count)%nat.

Lemma file_version l : (zlen (file l) <? 2) = false /\ octets_value (take 2 (file l)) = KRB5_KT_VNO.
Proof. split; [|done]. apply Z.ltb_ge. unfold file. rewrite zlen_app. change (zlen (be16 _)) with 2. pose proof (zlen_nonneg (slots_octets l)). lia. Qed.

Lemma open_ok errno exclusive l v : krb5_ktfileint_open errno exclusive (KtData (Some (file l)) NoStream v) = (Ok tt, opened (file l) 2).
Proof. unfold krb5_ktfileint_open. cbn [kt_disk]. destruct (file_version l) as [-> ->]. done. Qed.

Lemma openw_ok errno kt l : match kt_disk kt with Some d => d = file l | None => l = [] end -> kt_openf kt = NoStream ->
  krb5_ktfileint_openw errno kt = (Ok tt, opened (file l) 2).
Proof. destruct kt as [[d|] o v]; cbn [kt_disk kt_openf]; intros -> ->; [apply open_ok|done]. Qed.

Lemma close_ok {A} (m : kproc A) kt r d pos : m kt = (r, opened d pos) -> match r with Undefined => False | _ => True end ->
  closing m kt = (r, KtData (Some d) NoStream KRB5_KT_VNO).
Proof. intros E H. unfold closing. rewrite E. cbn. by destruct r. Qed.

Section operations.
Context `{P : Platform} `{St : Stack} (Hmem : 2 ^ 19 <= malloc_limit).
Context (BUFSIZ : Z) (HBUF : 0 < BUFSIZ) (errno : option error_code) (turns : nat).

Inductive kt_op : Type := Add (now : Z) (e : krb5_keytab_entry) | Remove (e : krb5_keytab_entry).

Definition run_op (op : kt_op) : kproc unit :=
  match op with
  | Add now e => krb5_ktfile_add BUFSIZ errno turns now e
  | Remove e => krb5_ktfile_remove BUFSIZ errno e
  end.

(** What the operations promise. *)
Inductive kt_step (es : list kt_rec) : kt_op -> outcome error_code unit -> list kt_rec -> Prop :=
| step_add now e r a b : es = a ++ b -> stored_as e now r -> kt_step es (Add now e) (Ok tt) (a ++ r :: b)
| step_remove e realm comps r a b : princ_holds (ke_principal e) realm comps -> es = a ++ r :: b ->
    matches realm comps (ke_vno e) (kb_enctype (ke_key e)) r -> Forall (fun r => ~ matches realm comps (ke_vno e) (kb_enctype (ke_key e)) r) a ->
    kt_step es (Remove e) (Ok tt) (a ++ b)
| step_absent e realm comps : princ_holds (ke_principal e) realm comps ->
    Forall (fun r => ~ matches realm comps (ke_vno e) (kb_enctype (ke_key e)) r) es -> kt_step es (Remove e) (Err KRB5_KT_NOTFOUND) es.

Definition wf_op (op : kt_op) : Prop :=
  match op with
  | Add now e => exists r, stored_as e now r
  | Remove e => exists realm comps, princ_holds (ke_principal e) realm comps
  end.
Definition op_size (op : kt_op) : Z :=
  match op with Add _ e => (match krb5_ktfileint_size_entry e with Ok n => 4 + n | _ => 0 end) | Remove _ => 0 end.
Lemma rec_small r : wf_rec r -> zlen (rec_octets r) < 2 ^ 31.
Proof.
  intros [Hr Hc Hcs _ _ _ _ Hk]. rewrite rec_length. unfold wf_str in *.
  assert (HS : foldr (fun c a => zlen c + 2 + a) 0 (kr_comps r) <= zlen (kr_comps r) * 32769).
  { clear Hc. induction Hcs as [|c cs Hc _ IH]; [done|]. cbn [foldr]. rewrite zlen_cons. lia. }
  lia.
Qed.

Lemma add_size now e r : stored_as e now r -> op_size (Add now e) = 4 + zlen (rec_octets r).
Proof. intros HS. cbn [op_size]. by rewrite (size_entry_ok _ _ _ HS (rec_small r (sa_wf _ _ _ HS))). Qed.

Lemma add_simulated now e kt es size count : let op := Add now e in
  table kt es size count -> wf_op op -> size + op_size op < 2 ^ 31 -> (count < turns)%nat ->
  exists res kt' es', run_op op kt = (res, kt') /\ kt_step es op res es' /\ table kt' es' (size + op_size op) (S count) /\ kt_disk kt' <> None.
Proof.
  intros op (l & Hw & HE & HO & HD & HS & HC) Hop Hsz Hct. unfold op in *. cbn [run_op].
  destruct Hop as [r Hr]. rewrite (add_size _ _ _ Hr) in *. unfold krb5_ktfile_add, sbind. rewrite (openw_ok _ _ l HD HO).
  unfold fseek at 1, with_stream, SEEK_END. cbn [kt_disk kt_openf kt_version opened]. pose proof (zlen_nonneg (file l)).
  destruct (Z.ltb_spec (zlen (file l) + 0) 0); [lia|].
  destruct (write_entry_ok BUFSIZ turns e now r l (zlen (file l) + 0) Hr Hw ltac:(lia) ltac:(lia)) as (a & b & k & pos' & Ea & Ek & Wk & Sk & Ck & E).
  exists (Ok tt), (KtData (Some (file k)) NoStream KRB5_KT_VNO), (a ++ r :: b). split; [|split; [|split; [|done]]].
  - by eapply close_ok.
  - econstructor; [by rewrite <- HE|done].
  - exists k. split_and!; [done|done|done|done|cbn [kt_disk]; lia|lia].
Qed.

Lemma remove_simulated e kt es size count : let op := Remove e in
  table kt es size count -> wf_op op -> size + op_size op < 2 ^ 31 -> (count < turns)%nat ->
  exists res kt' es', run_op op kt = (res, kt') /\ kt_step es op res es' /\ table kt' es' (size + op_size op) (S count) /\ kt_disk kt' <> None.
Proof.
  intros op (l & Hw & HE & HO & HD & HS & HC) Hop Hsz Hct. unfold op in *. cbn [run_op].
  destruct Hop as (realm & comps & HP). cbn [op_size] in *. unfold krb5_ktfile_remove, sbind. rewrite (openw_ok _ _ l HD HO).
  assert (HF : (length l < S (length (file l)))%nat) by (unfold file; rewrite length_app; pose proof (slots_count l); lia).
  assert (HL : zlen (be16 KRB5_KT_VNO ++ slots_octets l) < 2 ^ 31) by (change (be16 KRB5_KT_VNO ++ slots_octets l) with (file l); lia).
  destruct (find_entry_ok Hmem realm comps e l HP (be16 KRB5_KT_VNO) _ Hw HF HL) as [[HN (pos & E)]|(a & r & sl & b & -> & Hm & HN & pos & E)];
    change (be16 KRB5_KT_VNO ++ slots_octets _) with (file l) in E || change (be16 KRB5_KT_VNO ++ slots_octets (a ++ Used r sl :: b)) with (file (a ++ Used r sl :: b)) in E;
    change (zlen (be16 KRB5_KT_VNO)) with 2 in E.
  - exists (Err KRB5_KT_NOTFOUND), (KtData (Some (file l)) NoStream KRB5_KT_VNO), es. split; [|split; [|split; [|done]]].
    + eapply close_ok; [|done]. change (default [] (kt_disk (opened (file l) 2))) with (file l). rewrite E. rewrite bool_decide_eq_true_2 by done. done.
    + econstructor; [done|]. by rewrite <- HE.
    + exists l. split_and!; try done; [lia|lia].
  - apply Forall_app in Hw as [Hwa Hw]. apply Forall_cons_1 in Hw as [Wr Hwb]. set (h := replicate (length (rec_octets r ++ sl)) 0).
    assert (EF : forall x, file (a ++ x :: b) = file a ++ slot_octets x ++ slots_octets b) by (intros x; by rewrite file_app, slots_cons).
    assert (Lh : zlen h = zlen (rec_octets r ++ sl)) by (unfold zlen, h; by rewrite length_replicate).
    assert (LF : zlen (file (a ++ Hole h :: b)) = zlen (file (a ++ Used r sl :: b))) by (rewrite !EF, !zlen_app, !slot_length; cbn [payload]; by rewrite Lh).
    destruct (delete_entry_ok BUFSIZ (file a) r sl (slots_octets b) pos HBUF Wr) as (pos' & ED); [rewrite <- EF; lia|]. rewrite <- !EF in ED. fold h in ED.
    exists (Ok tt), (KtData (Some (file (a ++ Hole h :: b))) NoStream KRB5_KT_VNO), (records a ++ records b). split; [|split; [|split; [|done]]].
    + eapply close_ok; [|done]. change (default [] (kt_disk (opened (file (a ++ Used r sl :: b)) 2))) with (file (a ++ Used r sl :: b)). rewrite E.
      replace (2 + zlen (slots_octets a)) with (zlen (file a)) by (unfold file; rewrite zlen_app; done). exact ED.
    + eapply step_remove; [done|rewrite <- HE, records_app; done|done|done].
    + exists (a ++ Hole h :: b). split_and!; [|by rewrite records_app|done|done|cbn [kt_disk]; lia|rewrite length_app in *; cbn in *; lia].
      apply Forall_app. split; [done|]. constructor; [|done]. cbn [wf_slot]. rewrite Lh, zlen_app. pose proof (rec_nonempty r). pose proof (zlen_nonneg sl). lia.
Qed.

(** An operation on a key table does what it promises on the entries. *)
Lemma op_simulated op kt es size count : table kt es size count -> wf_op op -> size + op_size op < 2 ^ 31 -> (count < turns)%nat ->
  exists res kt' es', run_op op kt = (res, kt') /\ kt_step es op res es' /\ table kt' es' (size + op_size op) (S count) /\ kt_disk kt' <> None.
Proof. destruct op; [apply add_simulated|apply remove_simulated]. Qed.

(** Operations one after the other. *)
Fixpoint run_ops (ops : list kt_op) (kt : krb5_ktfile_data) : list (outcome error_code unit) * krb5_ktfile_data :=
  match ops with
  | [] => ([], kt)
  | op :: ops => let '(res, kt) := run_op op kt in let '(rest, kt) := run_ops ops kt in (res :: rest, kt)
  end.
Inductive kt_steps : list kt_rec -> list kt_op -> list (outcome error_code unit) -> list kt_rec -> Prop :=
| steps_nil es : kt_steps es [] [] es
| steps_cons es op res es1 ops rest es2 : kt_step es op res es1 -> kt_steps es1 ops rest es2 -> kt_steps es (op :: ops) (res :: rest) es2.

(** C10: A key table file implements a list of entries: for any sequence of additions of
    storable entries and of removals, from a file that these functions have written or
    from none, as long as the file and all additions together stay below 2^31 octets,
    each call returns what it promises. An addition puts its entry somewhere among the
    others, which place is not said, and leaves them as they are; a removal takes out
    the first entry that matches, or reports that there is none. An entry is storable if
    its realm, components and key have from 1 to 2^15 - 1 octets each and there are from
    1 to 2^15 - 1 components; after an entry that krb5_ktfile_add refuses half-way the
    claim does not hold (add_after_failure_lost). *)
Theorem kt_refines ops : forall kt es size count,
  table kt es size count -> Forall wf_op ops -> size + foldr (fun op a => op_size op + a) 0 ops < 2 ^ 31 -> (count + length ops <= turns)%nat ->
  exists results kt' es', run_ops ops kt = (results, kt') /\ kt_steps es ops results es' /\
    table kt' es' (size + foldr (fun op a => op_size op + a) 0 ops) (count + length ops).
Proof.
  induction ops as [|op ops IH]; intros kt es size count HT HF Hs Hc.
  - exists [], kt, es. cbn [foldr length]. rewrite Z.add_0_r, Nat.add_0_r. split_and!; [done|constructor|done].
  - apply Forall_cons_1 in HF as [Hop HF]. cbn [foldr length] in *.
    assert (H0 : forall ops, Forall wf_op ops -> 0 <= foldr (fun op a => op_size op + a) 0 ops).
    { clear. induction 1 as [|op ops Hop _ IH]; [done|]. cbn [foldr]. enough (0 <= op_size op) by lia. destruct op as [now e|e]; [|done].
      destruct Hop as [r Hr]. rewrite (add_size _ _ _ Hr). pose proof (zlen_nonneg (rec_octets r)). lia. }
    specialize (H0 ops HF). destruct (op_simulated op kt es size count HT Hop ltac:(lia) ltac:(lia)) as (res & kt1 & es1 & E1 & S1 & T1 & _).
    destruct (IH kt1 es1 _ _ T1 HF ltac:(lia) ltac:(lia)) as (rs & kt2 & es2 & E2 & S2 & T2).
    exists (res :: rs), kt2, es2. cbn [run_ops]. rewrite E1, E2. split_and!; [done|by econstructor|].
    replace (size + (op_size op + foldr (fun op a => op_size op + a) 0 ops)) with (size + op_size op + foldr (fun op a => op_size op + a) 0 ops) by lia.
    by replace (count + S (length ops))%nat with (S count + length ops)%nat by lia.
Qed.

(** Looking up a key finds, among the entries for the principal with a fitting
    encryption type, the one with the largest version, or one with the version that was
    asked for; otherwise it reports whether there were entries with another version. The
    file is left as it was. *)
Theorem kt_lookup kt d es size count p realm comps kvno etype :
  table kt es size count -> kt_disk kt = Some d -> size < 2 ^ 31 -> princ_holds p realm comps -> Forall (comparable etype) es ->
  exists res, answer kvno (List.filter (candidate realm comps etype) es) res /\
    krb5_ktfile_get_entry errno p kvno etype kt = (match res with Ok r => Ok (entry_of r) | Err e => Err e | Undefined => Undefined | OutOfFuel => OutOfFuel end,
      KtData (Some d) NoStream KRB5_KT_VNO).
Proof.
  intros (l & Hw & HE & HO & HD & HS & _) Ed Hsz HP HC. destruct kt as [disk o v]. cbn [kt_disk kt_openf] in *. subst disk o d.
  eexists. split; [apply pick_answers|]. unfold krb5_ktfile_get_entry, sbind at 1, krb5_ktfileint_openr. rewrite open_ok.
  assert (HF : (length l < S (length (file l)))%nat) by (unfold file; rewrite length_app; pose proof (slots_count l); lia).
  assert (HL : zlen (be16 KRB5_KT_VNO ++ slots_octets l) < 2 ^ 31) by (change (be16 KRB5_KT_VNO ++ slots_octets l) with (file l); lia).
  rewrite <- HE in *. destruct (get_loop_ok Hmem realm comps etype p kvno l HP (be16 KRB5_KT_VNO) _ None false Hw HC HF HL) as (pos & E).
  change (be16 KRB5_KT_VNO ++ slots_octets l) with (file l) in E. change (zlen (be16 KRB5_KT_VNO)) with 2 in E. cbn [fmap option_fmap option_map] in E.
  set (pk := pick kvno _ None false) in *. eapply (close_ok _ _ _ (file l) pos).
  - change (default [] (kt_disk (opened (file l) 2))) with (file l). unfold sbind at 1. rewrite E. destruct pk as [[r|] [|]]; done.
  - by destruct pk as [[r|] [|]].
Qed.

(** The calls of krb5_ktfile_get_next until there is no entry left. *)
Fixpoint entries_from (fuel : nat) (cursor : Z) (kt : krb5_ktfile_data) : option (list krb5_keytab_entry * krb5_ktfile_data) :=
  match fuel with
  | O => None
  | S fuel =>
      match krb5_ktfile_get_next cursor kt with
      | (Ok (e, cursor), kt) => (fun r => (e :: r.1, r.2)) <$> entries_from fuel cursor kt
      | (Err KRB5_KT_END, kt) => Some ([], kt)
      | _ => None
      end
  end.

Lemma entries_from_ok l : forall pre pos fuel, Forall wf_slot l -> (length l < fuel)%nat -> zlen (pre ++ slots_octets l) < 2 ^ 31 ->
  exists pos', entries_from fuel (zlen pre) (opened (pre ++ slots_octets l) pos) = Some (entry_of <$> records l, opened (pre ++ slots_octets l) pos').
Proof.
  induction l as [hs Hh|hs r slack rest Hh IH] using slots_ind; intros pre pos fuel Hw Hf HL; destruct fuel as [|fuel]; try lia; cbn [entries_from];
    unfold krb5_ktfile_get_next; pose proof (zlen_nonneg pre); rewrite seek_set by done; unfold sbind at 1.
  - rewrite read_next_end, records_holes by done. by eexists.
  - rewrite records_used by done. apply Forall_app in Hw as [Hw1 Hw]. apply Forall_cons_1 in Hw as [Wr Hw]. rewrite length_app in Hf. cbn [length] in Hf.
    rewrite slots_app, slots_cons in *. rewrite read_next_ok by done. unfold sbind at 1. rewrite tell. unfold sret.
    set (q := pre ++ slots_octets hs ++ slot_octets (Used r slack)).
    assert (Eq : pre ++ slots_octets hs ++ slot_octets (Used r slack) ++ slots_octets rest = q ++ slots_octets rest) by (unfold q; by rewrite <- !app_assoc).
    rewrite Eq in *. destruct (IH q (zlen q) fuel Hw ltac:(lia) HL) as (pos' & E). rewrite E. by exists pos'.
Qed.

(** Going through a key table with a cursor gives all its entries, once each and in
    their order, then KRB5_KT_END. *)
Theorem kt_enumerates kt d es size count : table kt es size count -> kt_disk kt = Some d -> size < 2 ^ 31 ->
  exists cursor kt1 kt2, krb5_ktfile_start_seq_get errno kt = (Ok cursor, kt1) /\
    entries_from (S count) cursor kt1 = Some (entry_of <$> es, kt2) /\
    krb5_ktfile_end_get kt2 = (Ok tt, KtData (Some d) NoStream KRB5_KT_VNO).
Proof.
  intros (l & Hw & HE & HO & HD & HS & HC) Ed Hsz. destruct kt as [disk o v]. cbn [kt_disk kt_openf] in *. subst disk o d es.
  unfold krb5_ktfile_start_seq_get, sbind at 1, krb5_ktfileint_openr. rewrite open_ok.
  destruct (block_ok Hmem sizeof_long) as (b & -> & _); [destruct sizeof_long_ok as [->| ->]; lia|]. rewrite tell.
  assert (HL : zlen (be16 KRB5_KT_VNO ++ slots_octets l) < 2 ^ 31) by (change (be16 KRB5_KT_VNO ++ slots_octets l) with (file l); lia).
  destruct (entries_from_ok l (be16 KRB5_KT_VNO) 2 (S count) Hw ltac:(lia) HL) as (pos & E).
  exists 2, (opened (file l) 2), (opened (file l) pos). split; [done|]. split; [exact E|done].
Qed.

End operations.
