(* ===== verification/AuthCon.v ===== *)
(** * Authentication contexts and the helpers of the application messages
    (src/src/lib/krb5/krb: auth_con.h, auth_con.c, enc_helper.c, gen_seqnum.c,
    gen_subkey.c, copy_key.c, addr_comp.c, addr_srch.c, valid_times.c; src/src/lib/krb5/os:
    mk_faddr.c, gen_rname.c; src/src/lib/krb5/rcache/rc_conv.c; srv_rcache.c)

    A process has an authentication context, the state of the random number generator,
    a file system with the replay caches, and a clock, which stands still during a call
    and does not fail.  The functions that use them are in the monad [proc], which keeps
    the state when a call fails.  Copies of structures are the structures themselves, and
    their allocation does not fail, but for keys. *)

From S2P Require Import Prelude CString Asn1Buf Krb5Types PrincName Words RcDfl Crypto CryptoApi.

(** ** Data *)

(** A pointer that may be left behind by free(). *)
Inductive ptr (A : Type) : Type := Null | Freed | Ref (a : A).
Arguments Null {A}.
Arguments Freed {A}.
Arguments Ref {A} a.

(** struct _krb5_auth_context; rcache is a cache of type dfl *)
Record auth_context : Type := AuthContext {
  ac_remote_addr : option krb5_address; ac_remote_port : option krb5_address;
  ac_local_addr : option krb5_address; ac_local_port : option krb5_address;
  ac_keyblock : option krb5_keyblock; ac_local_subkey : ptr krb5_keyblock; ac_remote_subkey : option krb5_keyblock;
  ac_flags : Z; ac_remote_seq_number : Z; ac_local_seq_number : Z;
  ac_authentp : option krb5_authenticator; ac_req_cksumtype : Z; ac_safe_cksumtype : Z;
  ac_i_vector : option (list octet); ac_rcache : option dfl_data; ac_permitted_etypes : option (list Z)
}.

(** What the calls use of a krb5_context, of the configuration and of the host:
    clockskew, the list of krb5_get_permitted_enctypes ([None] if it fails), the default
    realm, the default types of checksums, the realm paths, the names for temporary
    caches, the user id of the process, and the addresses of the host. *)
Record krb5_context : Type := Krb5Context {
  cx_clockskew : Z;
  cx_permitted_enctypes : option (list Z);
  cx_default_realm : outcome error_code (list octet);
  cx_default_ap_req_sumtype : Z; cx_default_safe_sumtype : Z;
  cx_capaths : list octet -> list octet -> option (list (list octet));
  cx_tmp_names : list file_name; cx_uid : Z;
  cx_localaddr : outcome error_code (list krb5_address)
}.

Definition KRB5_AUTH_CONTEXT_DO_TIME : Z := 0x00000001.
Definition KRB5_AUTH_CONTEXT_RET_TIME : Z := 0x00000002.
Definition KRB5_AUTH_CONTEXT_DO_SEQUENCE : Z := 0x00000004.
Definition KRB5_AUTH_CONTEXT_RET_SEQUENCE : Z := 0x00000008.
Definition KRB5_AUTH_CONTEXT_PERMIT_ALL : Z := 0x00000010.
Definition KRB5_AUTH_CONN_INITIALIZED : Z := 0x00010000.

Definition has_flag (flags flag : Z) : bool := negb (Z.land flags flag =? 0).

Definition krb5_auth_con_init (cx : krb5_context) : auth_context :=
  AuthContext None None None None None Null None (Z.lor KRB5_AUTH_CONTEXT_DO_TIME KRB5_AUTH_CONN_INITIALIZED) 0 0 None
    (cx_default_ap_req_sumtype cx) (cx_default_safe_sumtype cx) None None None.

(** Frees what the context holds; a pointer left behind by free() would be freed again. *)
Definition krb5_auth_con_free (ac : auth_context) : outcome error_code unit :=
  match ac_local_subkey ac with Freed => Undefined | _ => Ok tt end.

(** The assignments to members of the context. *)
Definition set_keyblock (k : option krb5_keyblock) (ac : auth_context) : auth_context :=
  AuthContext (ac_remote_addr ac) (ac_remote_port ac) (ac_local_addr ac) (ac_local_port ac) k (ac_local_subkey ac)
    (ac_remote_subkey ac) (ac_flags ac) (ac_remote_seq_number ac) (ac_local_seq_number ac) (ac_authentp ac)
    (ac_req_cksumtype ac) (ac_safe_cksumtype ac) (ac_i_vector ac) (ac_rcache ac) (ac_permitted_etypes ac).
Definition set_subkeys (l : ptr krb5_keyblock) (r : option krb5_keyblock) (ac : auth_context) : auth_context :=
  AuthContext (ac_remote_addr ac) (ac_remote_port ac) (ac_local_addr ac) (ac_local_port ac) (ac_keyblock ac) l
    r (ac_flags ac) (ac_remote_seq_number ac) (ac_local_seq_number ac) (ac_authentp ac)
    (ac_req_cksumtype ac) (ac_safe_cksumtype ac) (ac_i_vector ac) (ac_rcache ac) (ac_permitted_etypes ac).
Definition set_seq_numbers (remote loc : Z) (ac : auth_context) : auth_context :=
  AuthContext (ac_remote_addr ac) (ac_remote_port ac) (ac_local_addr ac) (ac_local_port ac) (ac_keyblock ac) (ac_local_subkey ac)
    (ac_remote_subkey ac) (ac_flags ac) remote loc (ac_authentp ac)
    (ac_req_cksumtype ac) (ac_safe_cksumtype ac) (ac_i_vector ac) (ac_rcache ac) (ac_permitted_etypes ac).
Definition set_authentp (a : option krb5_authenticator) (ac : auth_context) : auth_context :=
  AuthContext (ac_remote_addr ac) (ac_remote_port ac) (ac_local_addr ac) (ac_local_port ac) (ac_keyblock ac) (ac_local_subkey ac)
    (ac_remote_subkey ac) (ac_flags ac) (ac_remote_seq_number ac) (ac_local_seq_number ac) a
    (ac_req_cksumtype ac) (ac_safe_cksumtype ac) (ac_i_vector ac) (ac_rcache ac) (ac_permitted_etypes ac).
Definition set_i_vector (iv : option (list octet)) (ac : auth_context) : auth_context :=
  AuthContext (ac_remote_addr ac) (ac_remote_port ac) (ac_local_addr ac) (ac_local_port ac) (ac_keyblock ac) (ac_local_subkey ac)
    (ac_remote_subkey ac) (ac_flags ac) (ac_remote_seq_number ac) (ac_local_seq_number ac) (ac_authentp ac)
    (ac_req_cksumtype ac) (ac_safe_cksumtype ac) iv (ac_rcache ac) (ac_permitted_etypes ac).
Definition set_rcache (rc : option dfl_data) (ac : auth_context) : auth_context :=
  AuthContext (ac_remote_addr ac) (ac_remote_port ac) (ac_local_addr ac) (ac_local_port ac) (ac_keyblock ac) (ac_local_subkey ac)
    (ac_remote_subkey ac) (ac_flags ac) (ac_remote_seq_number ac) (ac_local_seq_number ac) (ac_authentp ac)
    (ac_req_cksumtype ac) (ac_safe_cksumtype ac) (ac_i_vector ac) rc (ac_permitted_etypes ac).

(** ** Processes *)

Record world : Type := World { w_sec : Z; w_usec : Z; w_prng : prng; w_fs : file_system; w_ac : auth_context }.

Definition proc (A : Type) : Type := world -> outcome error_code A * world.

Definition pbind {A B} (m : proc A) (k : A -> proc B) : proc B := fun w =>
  match m w with
  | (Ok a, w) => k a w
  | (Err e, w) => (Err e, w)
  | (Undefined, w) => (Undefined, w)
  | (OutOfFuel, w) => (OutOfFuel, w)
  end.
Definition ret {A} (a : A) : proc A := fun w => (Ok a, w).
(** A part that does not change the state. *)
Definition pure {A} (r : outcome error_code A) : proc A := fun w => (r, w).

Notation "'do*' x ':=' m 'in' k" := (pbind m (fun x => k))
  (at level 10, x name, m at level 100, k at level 200, format "'do*'  x  ':='  m  'in' '//' k") : krb_scope.
Notation "'do*' ' p ':=' m 'in' k" := (pbind m (fun p => k))
  (at level 10, p pattern, m at level 100, k at level 200, format "'do*'  ' p  ':='  m  'in' '//' k") : krb_scope.

Definition get_ac : proc auth_context := fun w => (Ok (w_ac w), w).
Definition modify_ac (f : auth_context -> auth_context) : proc unit := fun w =>
  (Ok tt, World (w_sec w) (w_usec w) (w_prng w) (w_fs w) (f (w_ac w))).
Definition krb5_timeofday : proc Z := fun w => (Ok (w_sec w), w).
Definition krb5_us_timeofday : proc (Z * Z) := fun w => (Ok (w_sec w, w_usec w), w).
(** A function of the cryptographic library. *)
Definition with_prng {A} (f : prng -> outcome error_code A * prng) : proc A := fun w =>
  let '(r, st) := f (w_prng w) in (r, World (w_sec w) (w_usec w) st (w_fs w) (w_ac w)).

(** A pointer that is dereferenced. *)
Definition deref {A} (p : option A) : outcome error_code A :=
  match p with Some a => Ok a | None => Undefined end.

(** ** Keys *)

(** The [length] octets at a pointer. *)
Definition octets_at (p : option (list octet)) (length : Z) : outcome error_code (list octet) :=
  PrincName.contents (Data length p).

(** The key as the cryptographic library reads it. *)
Definition key_of (kb : krb5_keyblock) : outcome error_code keyblock :=
  let* c := octets_at (kb_contents kb) (kb_length kb) in Ok (Key (kb_enctype kb) c).

Definition keyblock_of (k : keyblock) : krb5_keyblock :=
  Keyblock (key_enctype k) (zlen (key_contents k)) (Some (key_contents k)).

Section helpers.
Context `{P : Platform} `{St : Stack}.

Definition krb5_copy_keyblock (from : krb5_keyblock) : outcome error_code krb5_keyblock :=
  match malloc (kb_length from) with
  | None => Err ENOMEM
  | Some _ => let* c := octets_at (kb_contents from) (kb_length from) in Ok (Keyblock (kb_enctype from) (kb_length from) (Some c))
  end.

(** If the allocation fails, the call succeeds with a NULL ciphertext. *)
Definition krb5_encrypt_helper (key : krb5_keyblock) (usage : Z) (plain : krb5_data) (cipher : krb5_enc_data) : proc krb5_enc_data :=
  do* enclen := pure (krb5_c_encrypt_length (kb_enctype key) (d_length plain)) in
  match malloc enclen with
  | None => ret (EncData (ed_enctype cipher) (ed_kvno cipher) (Data enclen None))
  | Some _ =>
      do* k := pure (key_of key) in
      do* m := pure (PrincName.contents plain) in
      do* '(ed, _) := with_prng (fun st => krb5_c_encrypt st k usage None m enclen) in
      ret (EncData ed.1 0 (Data (zlen ed.2) (Some ed.2)))
  end.

(** The call of krb5_c_decrypt with a buffer as long as the ciphertext. *)
Definition decrypt_scratch (key : krb5_keyblock) (usage : Z) (iv : option (list octet)) (ed : krb5_enc_data)
    : outcome error_code (krb5_data * option (list octet)) :=
  match malloc (d_length (ed_ciphertext ed)) with
  | None => Err ENOMEM
  | Some _ =>
      let* k := key_of key in
      let* c := PrincName.contents (ed_ciphertext ed) in
      let* '(p, iv) := krb5_c_decrypt k usage iv (ed_enctype ed, c) (d_length (ed_ciphertext ed)) in
      Ok (Data (zlen p) (Some p), iv)
  end.

Definition krb5_generate_seq_number (key : krb5_keyblock) : proc Z :=
  do* k := pure (key_of key) in
  do* o := with_prng (fun st => krb5_c_random_make_octets (krb5_c_random_seed st (key_contents k)) 4) in
  ret (read_int o).

(** If the key cannot be made, local_subkey points to storage that has been freed. *)
Definition krb5_generate_subkey (key : krb5_keyblock) : proc unit := fun w =>
  match key_of key with
  | Ok k =>
      let '(r, st) := krb5_c_make_random_key (krb5_c_random_seed (w_prng w) (key_contents k)) (kb_enctype key) in
      let set l r := (r, World (w_sec w) (w_usec w) st (w_fs w) (set_subkeys l (ac_remote_subkey (w_ac w)) (w_ac w))) in
      match r with
      | Ok k => set (Ref (keyblock_of k)) (Ok tt)
      | Err e => set Freed (Err e)
      | Undefined => set Null Undefined
      | OutOfFuel => set Null OutOfFuel
      end
  | Err e => (Err e, w)
  | Undefined => (Undefined, w)
  | OutOfFuel => (OutOfFuel, w)
  end.

(** ** Addresses *)

Definition krb5_address_compare (addr1 addr2 : krb5_address) : outcome error_code bool :=
  if negb (ad_addrtype addr1 =? ad_addrtype addr2) then Ok false
  else if negb (ad_length addr1 =? ad_length addr2) then Ok false
  else
    let* c1 := octets_at (ad_contents addr1) (ad_length addr1) in
    let* c2 := octets_at (ad_contents addr2) (ad_length addr1) in
    Ok (bool_decide (c1 = c2)).

Fixpoint address_in (addr : krb5_address) (addrlist : list krb5_address) : outcome error_code bool :=
  match addrlist with
  | [] => Ok false
  | a :: addrlist =>
      let* b := krb5_address_compare addr a in
      if b : bool then Ok true else address_in addr addrlist
  end.

Definition krb5_address_search (addr : krb5_address) (addrlist : option (list krb5_address)) : outcome error_code bool :=
  match addrlist with None => Ok true | Some l => address_in addr l end.

Definition ADDRTYPE_ADDRPORT : Z := 0x0100.

(** The header of an address: its type and its length. *)
Definition marshal_addr (a : krb5_address) : outcome error_code (list octet) :=
  let* c := octets_at (ad_contents a) (ad_length a) in
  let tmp16 := to_int 16 (ad_addrtype a) in
  Ok ([0; 0; Z.land tmp16 255; Z.land (Z.shiftr tmp16 8) 255] ++ le32 (ad_length a) ++ c).

Definition krb5_make_fulladdr (kaddr kport : krb5_address) : outcome error_code krb5_address :=
  let length := ad_length kaddr + ad_length kport + 16 in
  match malloc length with
  | None => Err ENOMEM
  | Some _ =>
      let* a := marshal_addr kaddr in
      let* p := marshal_addr kport in
      Ok (Address ADDRTYPE_ADDRPORT length (Some (a ++ p)))
  end.

(** The address with the port, if there is one. *)
Definition full_address (addr port : option krb5_address) : outcome error_code (option krb5_address) :=
  match addr, port with
  | Some a, Some p => let* f := krb5_make_fulladdr a p in Ok (Some f)
  | a, _ => Ok a
  end.

Definition hex_digit (d : Z) : octet := if d <? 10 then 48 + d else 87 + d.

Definition krb5_gen_replay_name (address : krb5_address) (uniq : list octet) : outcome error_code (list octet) :=
  match malloc (zlen uniq + ad_length address * 2 + 1) with
  | None => Err ENOMEM
  | Some _ =>
      let* c := octets_at (ad_contents address) (ad_length address) in
      Ok (uniq ++ (c ≫= fun o => [hex_digit (o / 16); hex_digit (o mod 16)]))
  end.

(** ** Times *)

(** A difference of two [krb5_int32]. *)
Definition isub (a b : Z) : outcome error_code Z := if bool_decide (is_int 32 (a - b)) then Ok (a - b) else Undefined.

Definition in_clock_skew (cx : krb5_context) (date currenttime : Z) : outcome error_code bool :=
  let* d := isub date currenttime in Ok (Z.abs d <? cx_clockskew cx).

Definition krb5_validate_times (cx : krb5_context) (times : krb5_ticket_times) (currenttime : Z) : outcome error_code unit :=
  let starttime := if negb (tt_starttime times =? 0) then tt_starttime times else tt_authtime times in
  let* d := isub starttime currenttime in
  if cx_clockskew cx <? d then Err KRB5KRB_AP_ERR_TKT_NYV
  else
    let* d := isub currenttime (tt_endtime times) in
    if cx_clockskew cx <? d then Err KRB5KRB_AP_ERR_TKT_EXPIRED else Ok tt.

(** ** The replay cache *)

(** krb5_rc_store on the cache of the context. *)
Definition krb5_rc_store (cx : krb5_context) (rep : krb5_donot_replay) : proc unit := fun w =>
  match ac_rcache (w_ac w) with
  | None => (Undefined, w)
  | Some t =>
      let '(r, t, fs) := krb5_rc_dfl_store (cx_tmp_names cx) (cx_clockskew cx) (Some (w_sec w)) (w_fs w) t rep in
      (r, World (w_sec w) (w_usec w) (w_prng w) fs (set_rcache (Some t) (w_ac w)))
  end.

(** The names are C strings, the times [krb5_int32]. *)
Definition krb5_auth_to_rep (ticket : krb5_ticket) (authenticator : krb5_authenticator) : outcome error_code krb5_donot_replay :=
  let* server := deref (tk_server ticket) in
  let* server := krb5_unparse_name server in
  let* server := c_string server in
  let* client := deref (at_client authenticator) in
  let* client := krb5_unparse_name client in
  let* client := c_string client in
  Ok (Rep server client (int32 (at_cusec authenticator)) (int32 (at_ctime authenticator))).

(** *** krb5_get_server_rcache *)

Definition isgraph (c : octet) : bool := (33 <=? c) && (c <=? 126).

(** One character of the name; a [char] is signed, and more than three octal digits
    overflow the array [tmp]. *)
Definition cachename_char (c : octet) : outcome error_code (list octet) :=
  if c =? 92 then Ok [92; 92]
  else if 128 <=? c then Undefined
  else if negb (isgraph c) then Ok [92; 48 + c / 64; 48 + c / 8 mod 8; 48 + c mod 8]
  else Ok [c].

Fixpoint cachename_chars (piece : list octet) : outcome error_code (list octet) :=
  match piece with
  | [] => Ok []
  | c :: piece => let* l := cachename_char c in let* r := cachename_chars piece in Ok (l ++ r)
  end.

(** The decimal digits of an unsigned long. *)
Fixpoint decimal (n : nat) (uid : Z) : list octet :=
  match n with
  | O => []
  | S n => if uid <? 10 then [48 + uid] else decimal n (uid / 10) ++ [48 + uid mod 10]
  end.

Definition cachename (cx : krb5_context) (piece : krb5_data) : outcome error_code file_name :=
  let* s := PrincName.contents piece in
  let* l := cachename_chars s in
  Ok ([114; 99; 95] ++ l ++ [95] ++ decimal 20 (cx_uid cx)).

(** First the cache is recovered; if that fails, it is initialized. *)
Definition krb5_get_server_rcache (cx : krb5_context) (piece : krb5_data) : proc unit := fun w =>
  let set r t fs := (r, World (w_sec w) (w_usec w) (w_prng w) fs (set_rcache t (w_ac w))) in
  match cachename cx piece with
  | Ok name =>
      match krb5_rc_dfl_recover (cx_tmp_names cx) (cx_clockskew cx) (Some (w_sec w)) (w_fs w) (krb5_rc_dfl_resolve (Some name)) with
      | (Err _, t, fs) =>
          match krb5_rc_dfl_init (cx_tmp_names cx) (cx_clockskew cx) fs t (cx_clockskew cx) with
          | (Ok _, t, fs) => set (Ok tt) (Some t) fs
          | (r, _, fs) => set r None fs
          end
      | (r, t, fs) => set r (Some t) fs
      end
  | Err e => (Err e, w)
  | Undefined => (Undefined, w)
  | OutOfFuel => (OutOfFuel, w)
  end.

(** ** The context (auth_con.c) *)

Definition krb5_auth_con_setaddrs (local_addr remote_addr : option krb5_address) : proc unit := modify_ac (fun ac =>
  AuthContext remote_addr (ac_remote_port ac) local_addr (ac_local_port ac) (ac_keyblock ac) (ac_local_subkey ac)
    (ac_remote_subkey ac) (ac_flags ac) (ac_remote_seq_number ac) (ac_local_seq_number ac) (ac_authentp ac)
    (ac_req_cksumtype ac) (ac_safe_cksumtype ac) (ac_i_vector ac) (ac_rcache ac) (ac_permitted_etypes ac)).

(** The addresses a caller asks for are copied to its variables, unless they are NULL. *)
Definition krb5_auth_con_getaddrs (local_addr remote_addr : option krb5_address) : proc (option krb5_address * option krb5_address) :=
  do* ac := get_ac in
  ret (match ac_local_addr ac with Some a => Some a | None => local_addr end,
       match ac_remote_addr ac with Some a => Some a | None => remote_addr end).

Definition krb5_auth_con_setports (local_port remote_port : option krb5_address) : proc unit := modify_ac (fun ac =>
  AuthContext (ac_remote_addr ac) remote_port (ac_local_addr ac) local_port (ac_keyblock ac) (ac_local_subkey ac)
    (ac_remote_subkey ac) (ac_flags ac) (ac_remote_seq_number ac) (ac_local_seq_number ac) (ac_authentp ac)
    (ac_req_cksumtype ac) (ac_safe_cksumtype ac) (ac_i_vector ac) (ac_rcache ac) (ac_permitted_etypes ac)).

(** The old key is freed before the new one is copied; if that fails, keyblock is left
    pointing to it, which no later call may use. *)
Definition krb5_auth_con_setuseruserkey (keyblock : krb5_keyblock) : proc unit :=
  do* ac := get_ac in
  match krb5_copy_keyblock keyblock with
  | Ok k => modify_ac (set_keyblock (Some k))
  | r => match ac_keyblock ac with None => do* _ := pure r in ret tt | Some _ => pure Undefined end
  end.

Definition copy_opt_keyblock (k : option krb5_keyblock) : outcome error_code (option krb5_keyblock) :=
  match k with Some k => let* k := krb5_copy_keyblock k in Ok (Some k) | None => Ok None end.

Definition krb5_auth_con_getkey : proc (option krb5_keyblock) :=
  do* ac := get_ac in pure (copy_opt_keyblock (ac_keyblock ac)).
Definition krb5_auth_con_getlocalsubkey : proc (option krb5_keyblock) :=
  do* ac := get_ac in
  match ac_local_subkey ac with Null => ret None | Ref k => pure (copy_opt_keyblock (Some k)) | Freed => pure Undefined end.
Definition krb5_auth_con_getremotesubkey : proc (option krb5_keyblock) :=
  do* ac := get_ac in pure (copy_opt_keyblock (ac_remote_subkey ac)).

Definition set_cksumtypes (req safe : Z) (ac : auth_context) : auth_context :=
  AuthContext (ac_remote_addr ac) (ac_remote_port ac) (ac_local_addr ac) (ac_local_port ac) (ac_keyblock ac) (ac_local_subkey ac)
    (ac_remote_subkey ac) (ac_flags ac) (ac_remote_seq_number ac) (ac_local_seq_number ac) (ac_authentp ac)
    req safe (ac_i_vector ac) (ac_rcache ac) (ac_permitted_etypes ac).
Definition krb5_auth_con_set_req_cksumtype (cksumtype : Z) : proc unit :=
  modify_ac (fun ac => set_cksumtypes cksumtype (ac_safe_cksumtype ac) ac).
Definition krb5_auth_con_set_safe_cksumtype (cksumtype : Z) : proc unit :=
  modify_ac (fun ac => set_cksumtypes (ac_req_cksumtype ac) cksumtype ac).

Definition krb5_auth_con_getlocalseqnumber : proc Z := do* ac := get_ac in ret (ac_local_seq_number ac).
Definition krb5_auth_con_getremoteseqnumber : proc Z := do* ac := get_ac in ret (ac_remote_seq_number ac).

Definition krb5_auth_con_initivector : proc unit :=
  do* ac := get_ac in
  match ac_keyblock ac with
  | None => pure (Err EINVAL)
  | Some k =>
      do* blocksize := pure (krb5_c_block_size (kb_enctype k)) in
      match malloc blocksize with
      | None => do* _ := modify_ac (set_i_vector None) in pure (Err ENOMEM)
      | Some _ => modify_ac (set_i_vector (Some (replicate (Z.to_nat blocksize) 0)))
      end
  end.

(** [ivector] is what stands at the pointer. *)
Definition krb5_auth_con_setivector (ivector : option (list octet)) : proc unit := modify_ac (set_i_vector ivector).
Definition krb5_auth_con_getivector : proc (option (list octet)) := do* ac := get_ac in ret (ac_i_vector ac).

Definition krb5_auth_con_setflags (flags : Z) : proc unit := modify_ac (fun ac =>
  AuthContext (ac_remote_addr ac) (ac_remote_port ac) (ac_local_addr ac) (ac_local_port ac) (ac_keyblock ac) (ac_local_subkey ac)
    (ac_remote_subkey ac) flags (ac_remote_seq_number ac) (ac_local_seq_number ac) (ac_authentp ac)
    (ac_req_cksumtype ac) (ac_safe_cksumtype ac) (ac_i_vector ac) (ac_rcache ac) (ac_permitted_etypes ac)).
Definition krb5_auth_con_getflags : proc Z := do* ac := get_ac in ret (ac_flags ac).

Definition krb5_auth_con_setrcache (rcache : option dfl_data) : proc unit := modify_ac (set_rcache rcache).
Definition krb5_auth_con_getrcache : proc (option dfl_data) := do* ac := get_ac in ret (ac_rcache ac).

(** The entries of an array up to the zero that ends it. *)
Fixpoint etypes_in (array : list Z) : outcome error_code (list Z) :=
  match array with
  | [] => Undefined
  | e :: array => if e =? 0 then Ok [] else let* l := etypes_in array in Ok (e :: l)
  end.

Definition krb5_auth_con_setpermetypes (permetypes : list Z) : proc unit :=
  do* l := pure (etypes_in permetypes) in
  match malloc ((zlen l + 1) * 4) with
  | None => pure (Err ENOMEM)
  | Some _ => modify_ac (fun ac =>
      AuthContext (ac_remote_addr ac) (ac_remote_port ac) (ac_local_addr ac) (ac_local_port ac) (ac_keyblock ac) (ac_local_subkey ac)
        (ac_remote_subkey ac) (ac_flags ac) (ac_remote_seq_number ac) (ac_local_seq_number ac) (ac_authentp ac)
        (ac_req_cksumtype ac) (ac_safe_cksumtype ac) (ac_i_vector ac) (ac_rcache ac) (Some l))
  end.

Definition krb5_auth_con_getpermetypes : proc (option (list Z)) :=
  do* ac := get_ac in
  match ac_permitted_etypes ac with
  | None => ret None
  | Some l => match malloc ((zlen l + 1) * 4) with None => pure (Err ENOMEM) | Some _ => ret (Some l) end
  end.
End helpers.
