(* ===== verification/ApExch.v ===== *)
(** * The AP exchange (src/src/lib/krb5/krb: mk_req_ext.c, rd_req_dec.c, rd_req.c, mk_rep.c,
    rd_rep.c, encrypt_tk.c, decrypt_tk.c)

    A client proves its identity to a server with a ticket and an authenticator sealed
    with the session key of the ticket; the server may answer with a reply sealed with
    the same key.  krb5_kt_get_entry, an operation of the keytab the server uses, is an
    argument, as is what an automatic variable of type krb5_enc_data holds. *)

From S2P Require Import Prelude CString Asn1Buf Krb5Types Asn1KDecode Krb5Encode Krb5Decode.
From S2P Require Import PrincName Transited Kdc Words RcDfl Crypto CryptoApi AuthCon.

Definition KRB5_KEYUSAGE_KDC_REP_TICKET : Z := 2.
Definition KRB5_KEYUSAGE_TGS_REQ_AUTH : Z := 7.
Definition KRB5_KEYUSAGE_AP_REQ_AUTH_CKSUM : Z := 10.
Definition KRB5_KEYUSAGE_AP_REQ_AUTH : Z := 11.
Definition KRB5_KEYUSAGE_AP_REP_ENCPART : Z := 12.
Definition AP_OPTS_MUTUAL_REQUIRED : Z := 0x20000000.
Definition AP_OPTS_USE_SUBKEY : Z := 1.
Definition AP_OPTS_WIRE_MASK : Z := 0xfffffff0.

(** krb5_creds; server, is_skey, ticket_flags, addresses and second_ticket are not used
    here. *)
Record krb5_creds : Type := Creds {
  cd_client : option krb5_principal_data;
  cd_server : option krb5_principal_data;
  cd_keyblock : krb5_keyblock;
  cd_times : krb5_ticket_times;
  cd_is_skey : bool;
  cd_ticket_flags : Z;
  cd_addresses : option (list krb5_address);
  cd_ticket : krb5_data;
  cd_second_ticket : krb5_data;
  cd_authdata : option (list krb5_authdata)
}.

(** krb5_is_ap_req and the like: the first octet is one of the two. *)
Definition is_message (tag : octet) (dat : krb5_data) : outcome error_code bool :=
  if d_length dat =? 0 then Ok false
  else let* l := octets_at (d_data dat) 1 in
       Ok (bool_decide (l = [0x60 + tag]) || bool_decide (l = [0x40 + tag])).

Section exchange.
Context `{P : Platform} `{St : Stack} (fuel : nat) (cx : krb5_context).

(** ** Tickets *)

Definition krb5_encrypt_tkt_part (srv_key : krb5_keyblock) (dec_ticket : krb5_ticket) : proc krb5_ticket :=
  do* scratch := pure (encode_krb5_enc_tkt_part (tk_enc_part2 dec_ticket)) in
  do* ed := krb5_encrypt_helper srv_key KRB5_KEYUSAGE_KDC_REP_TICKET scratch (tk_enc_part dec_ticket) in
  ret (Ticket (tk_server dec_ticket) ed (tk_enc_part2 dec_ticket)).

(** The ticket with enc_part2. *)
Definition krb5_decrypt_tkt_part (srv_key : krb5_keyblock) (ticket : krb5_ticket) : outcome error_code krb5_ticket :=
  if negb (valid_enctype (ed_enctype (tk_enc_part ticket))) then Err KRB5_PROG_ETYPE_NOSUPP
  else
    let* '(scratch, _) := decrypt_scratch srv_key KRB5_KEYUSAGE_KDC_REP_TICKET None (tk_enc_part ticket) in
    let* part := decode_krb5_enc_tkt_part fuel (Some scratch) in
    Ok (Ticket (tk_server ticket) (tk_enc_part ticket) (Some part)).

(** ** The request *)

Definition krb5_generate_authenticator (client : option krb5_principal_data) (cksum : option krb5_checksum)
    (key : option krb5_keyblock) (seq_number : Z) (authorization : option (list krb5_authdata)) : proc krb5_authenticator :=
  do* subkey := pure (match key with Some k => let* k := krb5_copy_keyblock k in Ok (Some k) | None => Ok None end) in
  do* '(ctime, cusec) := krb5_us_timeofday in
  ret (Authenticator client cksum cusec ctime subkey seq_number authorization).

(** checksum for the data of the application *)
Definition request_checksum (in_data : option krb5_data) : proc (option krb5_checksum) :=
  match in_data with
  | None => ret None
  | Some d =>
      do* ac := get_ac in
      if ac_req_cksumtype ac =? 0x8003 then ret (Some (Checksum 0x8003 (d_length d) (d_data d)))
      else
        do* kb := pure (deref (ac_keyblock ac)) in
        do* k := pure (key_of kb) in
        do* m := pure (PrincName.contents d) in
        do* c := with_prng (fun st => krb5_c_make_checksum st (ac_req_cksumtype ac) k KRB5_KEYUSAGE_AP_REQ_AUTH_CKSUM m) in
        ret (Some (Checksum (ac_req_cksumtype ac) (zlen c) (Some c)))
  end.

Definition subkey_of (p : ptr krb5_keyblock) : outcome error_code (option krb5_keyblock) :=
  match p with Null => Ok None | Ref k => Ok (Some k) | Freed => Undefined end.

(** "generate seq number if needed" *)
Definition seq_if_needed (key : krb5_keyblock) : proc unit :=
  do* ac := get_ac in
  if (has_flag (ac_flags ac) KRB5_AUTH_CONTEXT_DO_SEQUENCE || has_flag (ac_flags ac) KRB5_AUTH_CONTEXT_RET_SEQUENCE) &&
     (ac_local_seq_number ac =? 0)
  then do* n := krb5_generate_seq_number key in modify_ac (set_seq_numbers (ac_remote_seq_number ac) n)
  else ret tt.

(** "generate subkey if needed"; the random number generator is seeded with the time
    first. *)
Definition subkey_if_needed (ap_req_options : Z) (key : krb5_keyblock) : proc unit :=
  do* ac := get_ac in
  match has_flag ap_req_options AP_OPTS_USE_SUBKEY, ac_local_subkey ac with
  | true, Null =>
      do* '(sec, usec) := krb5_us_timeofday in
      do* _ := with_prng (fun st => (Ok tt, krb5_c_random_seed st (le32 sec ++ le32 usec))) in
      krb5_generate_subkey key
  | _, _ => ret tt
  end.

(** The context exists. *)
Definition krb5_mk_req_extended (junk : krb5_enc_data) (ap_req_options : Z) (in_data : option krb5_data) (in_creds : krb5_creds)
    : proc krb5_data :=
  if d_length (cd_ticket in_creds) =? 0 then pure (Err KRB5_NO_TKT_SUPPLIED)
  else
    do* ticket := pure (decode_krb5_ticket fuel (Some (cd_ticket in_creds))) in
    do* now := krb5_timeofday in
    do* _ := pure (krb5_validate_times cx (cd_times in_creds) now) in
    do* k := pure (krb5_copy_keyblock (cd_keyblock in_creds)) in
    do* _ := modify_ac (set_keyblock (Some k)) in
    do* _ := seq_if_needed (cd_keyblock in_creds) in
    do* _ := subkey_if_needed ap_req_options (cd_keyblock in_creds) in
    do* checksum := request_checksum in_data in
    do* ac := get_ac in
    do* subkey := pure (subkey_of (ac_local_subkey ac)) in
    do* authent := krb5_generate_authenticator (cd_client in_creds) checksum subkey (ac_local_seq_number ac) (cd_authdata in_creds) in
    do* _ := modify_ac (set_authentp (Some authent)) in
    do* scratch := pure (encode_krb5_authenticator (Some authent)) in
    do* _ := modify_ac (set_authentp (Some (Authenticator None None (at_cusec authent) (at_ctime authent) (at_subkey authent)
                                              (at_seq_number authent) None))) in
    do* ed := krb5_encrypt_helper (cd_keyblock in_creds) KRB5_KEYUSAGE_AP_REQ_AUTH scratch junk in
    pure (encode_krb5_ap_req (Some (ApReq (int32 (Z.land ap_req_options AP_OPTS_WIRE_MASK)) (Some ticket) ed))).

(** ** Reading a request *)

Section server.
Context (krb5_kt_get_entry : krb5_principal_data -> Z -> Z -> outcome error_code krb5_keyblock).

Definition krb5_rd_req_decrypt_tkt_part (ticket : krb5_ticket) : outcome error_code krb5_ticket :=
  let* server := deref (tk_server ticket) in
  let* key := krb5_kt_get_entry server (ed_kvno (tk_enc_part ticket)) (ed_enctype (tk_enc_part ticket)) in
  krb5_decrypt_tkt_part key ticket.

Definition decrypt_authenticator (req : krb5_ap_req) (sesskey : krb5_keyblock) (is_ap_req : bool)
    : outcome error_code krb5_authenticator :=
  let* '(scratch, _) :=
    decrypt_scratch sesskey (if is_ap_req then KRB5_KEYUSAGE_AP_REQ_AUTH else KRB5_KEYUSAGE_TGS_REQ_AUTH) None (aq_authenticator req) in
  decode_krb5_authenticator fuel (Some scratch).

(** "Hierarchical Cross-Realm"; the result of krb5_get_default_realm is not looked at, and
    the realm is used even if there is none. *)
Definition check_cross_realm (part : krb5_enc_tkt_part) : outcome error_code unit :=
  let* client := deref (etp_client part) in
  let trans := tr_contents (etp_transited part) in
  match d_data trans with
  | None => Ok tt
  | Some _ =>
      let* first := octets_at (d_data trans) 1 in
      if bool_decide (first = [0]) then Ok tt
      else
        let* lrealm := match cx_default_realm cx with Err _ => Undefined | r => r end in
        let lrealm := Data (strlen lrealm) (Some lrealm) in
        krb5_check_transited_list (cx_capaths cx) (Some trans) (pr_realm client) lrealm
  end.

(** A search of a list that ends with a zero; a zero in [l] ends it earlier. *)
Fixpoint in_etypes (l : list Z) (etype : Z) : bool :=
  match l with [] => false | e :: l => negb (e =? 0) && ((e =? etype) || in_etypes l etype) end.

Definition krb5_is_permitted_enctype (etype : Z) : bool :=
  match cx_permitted_enctypes cx with None => false | Some l => in_etypes l etype end.

Definition check_etypes (ac : auth_context) (ticket : krb5_ticket) (session : krb5_keyblock) (subkey : option krb5_keyblock)
    : outcome error_code unit :=
  if has_flag (ac_flags ac) KRB5_AUTH_CONTEXT_PERMIT_ALL then Ok tt
  else
    let permitted := match ac_permitted_etypes ac with None => krb5_is_permitted_enctype | Some l => in_etypes l end in
    guard (permitted (ed_enctype (tk_enc_part ticket)) && permitted (kb_enctype session) &&
           match subkey with Some k => permitted (kb_enctype k) | None => true end) KRB5_NOPERM_ETYPE.

(** The first half of krb5_rd_req_decoded_opt, up to the check of the realms: the
    ticket, with enc_part2, what is in it, the session key and the authenticator. *)
Definition rd_req_open (req : krb5_ap_req) (server : option krb5_principal_data) (check_valid_flag : bool)
    : proc (krb5_ticket * krb5_enc_tkt_part * krb5_keyblock * krb5_authenticator) :=
  do* ticket := pure (deref (aq_ticket req)) in
  do* same := pure (match server with
                    | None => Ok true
                    | Some server => let* s := deref (tk_server ticket) in krb5_principal_compare server s
                    end) in
  do* _ := pure (guard same KRB5KRB_AP_WRONG_PRINC) in
  do* ac := get_ac in
  do* ticket :=
    (match ac_keyblock ac with
     | Some k =>
         do* t := pure (krb5_decrypt_tkt_part k ticket) in
         do* _ := modify_ac (set_keyblock None) in ret t
     | None => pure (krb5_rd_req_decrypt_tkt_part ticket)
     end) in
  do* part := pure (deref (tk_enc_part2 ticket)) in
  do* session := pure (deref (etp_session part)) in
  do* auth := pure (decrypt_authenticator req session check_valid_flag) in
  do* _ := modify_ac (set_authentp (Some auth)) in
  do* c1 := pure (deref (at_client auth)) in
  do* c2 := pure (deref (etp_client part)) in
  do* same := pure (krb5_principal_compare c1 c2) in
  do* _ := pure (guard same KRB5KRB_AP_ERR_BADMATCH) in
  do* found := pure (match ac_remote_addr ac with Some a => krb5_address_search a (etp_caddrs part) | None => Ok true end) in
  do* _ := pure (guard found KRB5KRB_AP_ERR_BADADDR) in
  do* _ := pure (check_cross_realm part) in
  ret (ticket, part, session, auth).

(** The checks after the replay cache. *)
Definition rd_req_checks (ac : auth_context) (ticket : krb5_ticket) (part : krb5_enc_tkt_part) (session : krb5_keyblock)
    (auth : krb5_authenticator) (check_valid_flag : bool) (currenttime : Z) : outcome error_code unit :=
  let* _ := krb5_validate_times cx (etp_times part) currenttime in
  let* near := in_clock_skew cx (at_ctime auth) currenttime in
  let* _ := guard near KRB5KRB_AP_ERR_SKEW in
  let* _ := guard (negb (check_valid_flag && has_flag (etp_flags part) TKT_FLG_INVALID)) KRB5KRB_AP_ERR_TKT_INVALID in
  check_etypes ac ticket session (at_subkey auth).

(** What the context takes over from an accepted request. *)
Definition rd_req_finish (req : krb5_ap_req) (session : krb5_keyblock) (auth : krb5_authenticator) : proc unit :=
  do* ac := get_ac in
  do* _ := modify_ac (set_seq_numbers (at_seq_number auth) (ac_local_seq_number ac)) in
  do* subkey := pure (match at_subkey auth with
                      | Some k => let* k := krb5_copy_keyblock k in Ok (Some k)
                      | None => Ok None
                      end) in
  do* _ := modify_ac (set_subkeys (ac_local_subkey ac) subkey) in
  do* key := pure (krb5_copy_keyblock session) in
  do* _ := modify_ac (set_keyblock (Some key)) in
  if negb (has_flag (aq_ap_options req) AP_OPTS_MUTUAL_REQUIRED) && negb (at_seq_number auth =? 0)
  then modify_ac (set_seq_numbers (at_seq_number auth) (Z.lxor (ac_local_seq_number ac) (at_seq_number auth)))
  else ret tt.

(** ap_req_options and the ticket, with enc_part2. *)
Definition krb5_rd_req_decoded_opt (req : krb5_ap_req) (server : option krb5_principal_data) (check_valid_flag : bool)
    : proc (Z * krb5_ticket) :=
  do* '(ticket, part, session, auth) := rd_req_open req server check_valid_flag in
  do* ac := get_ac in
  do* _ := (match ac_rcache ac with
            | None => ret tt
            | Some _ => do* rep := pure (krb5_auth_to_rep ticket auth) in krb5_rc_store cx rep
            end) in
  do* now := krb5_timeofday in
  do* _ := pure (rd_req_checks ac ticket part session auth check_valid_flag now) in
  do* _ := rd_req_finish req session auth in
  ret (aq_ap_options req, ticket).

Definition krb5_rd_req_decoded (req : krb5_ap_req) (server : option krb5_principal_data) : proc (Z * krb5_ticket) :=
  krb5_rd_req_decoded_opt req server true.

Definition krb5_rd_req_decoded_anyflag (req : krb5_ap_req) (server : option krb5_principal_data) : proc (Z * krb5_ticket) :=
  krb5_rd_req_decoded_opt req server false.

(** With a context and a keytab. *)
Definition krb5_rd_req (inbuf : krb5_data) (server : option krb5_principal_data) : proc (Z * krb5_ticket) :=
  do* b := pure (is_message 14 inbuf) in
  if negb b then pure (Err KRB5KRB_AP_ERR_MSG_TYPE)
  else
    do* req := pure (match decode_krb5_ap_req fuel (Some inbuf) with
                     | Err KRB5_BADMSGTYPE => Err KRB5KRB_AP_ERR_BADVERSION
                     | r => r
                     end) in
    do* ac := get_ac in
    do* _ := (match ac_rcache ac, server with
              | None, Some s =>
                  do* data := pure (deref (pr_data s)) in
                  do* piece := pure (deref (head data)) in
                  krb5_get_server_rcache cx piece
              | _, _ => ret tt
              end) in
    krb5_rd_req_decoded req server.
End server.

(** ** The reply *)

Definition krb5_mk_rep (junk : krb5_enc_data) : proc krb5_data :=
  do* ac := get_ac in
  do* key := pure (deref (ac_keyblock ac)) in
  do* _ := seq_if_needed key in
  do* ac := get_ac in
  do* auth := pure (deref (ac_authentp ac)) in
  do* scratch := pure (encode_krb5_ap_rep_enc_part (Some (ApRepEncPart (at_ctime auth) (at_cusec auth) (at_subkey auth) (ac_local_seq_number ac)))) in
  do* ed := krb5_encrypt_helper key KRB5_KEYUSAGE_AP_REP_ENCPART scratch junk in
  pure (encode_krb5_ap_rep (Some (ApRep ed))).

(** What decode_krb5_ap_rep_enc_part does with its error code: nothing; the reply is read
    through a pointer to storage that has been freed. *)
Definition krb5_rd_rep (inbuf : krb5_data) : proc krb5_ap_rep_enc_part :=
  do* b := pure (is_message 15 inbuf) in
  if negb b then pure (Err KRB5KRB_AP_ERR_MSG_TYPE)
  else
    do* reply := pure (decode_krb5_ap_rep fuel (Some inbuf)) in
    do* ac := get_ac in
    do* key := pure (deref (ac_keyblock ac)) in
    do* '(scratch, _) := pure (decrypt_scratch key KRB5_KEYUSAGE_AP_REP_ENCPART None (ap_enc_part reply)) in
    do* repl := pure (match decode_krb5_ap_rep_enc_part fuel (Some scratch) with Err _ => Undefined | r => r end) in
    do* auth := pure (deref (ac_authentp ac)) in
    if negb (ae_ctime repl =? at_ctime auth) || negb (ae_cusec repl =? at_cusec auth) then pure (Err KRB5_MUTUAL_FAILED)
    else
      do* r := (match ae_subkey repl with
                | Some k => fun w =>
                    match krb5_copy_keyblock k with
                    | Ok k => (Ok None, World (w_sec w) (w_usec w) (w_prng w) (w_fs w) (set_subkeys (ac_local_subkey (w_ac w)) (Some k) (w_ac w)))
                    | Err e => (Ok (Some e), w)
                    | Undefined => (Undefined, w)
                    | OutOfFuel => (OutOfFuel, w)
                    end
                | None => ret None
                end) in
      do* _ := modify_ac (set_seq_numbers (ae_seq_number repl) (ac_local_seq_number ac)) in
      match r with Some e => pure (Err e) | None => ret repl end.
End exchange.
