(* ===== verification/SafePriv.v ===== *)
(** * Messages of an application: KRB_SAFE and KRB_PRIV (src/src/lib/krb5/krb: mk_safe.c,
    rd_safe.c, mk_priv.c, rd_priv.c)

    Data sent with a keyed checksum, or encrypted.  What a call that fails leaves in the
    variables of its caller is not modelled. *)

From S2P Require Import Prelude CString Asn1Buf Krb5Types Krb5Encode Krb5Decode PrincName Words RcDfl Crypto CryptoApi.
From S2P Require Import AuthCon ApExch.

Definition KRB5_KEYUSAGE_KRB_PRIV_ENCPART : Z := 13.
Definition KRB5_KEYUSAGE_KRB_SAFE_CKSUM : Z := 15.

Record krb5_replay_data : Type := ReplayData { rd_timestamp : Z; rd_usec : Z; rd_seq : Z }.

(** An addition of two [krb5_int32]. *)
Definition iplus (a b : Z) : outcome error_code Z := if bool_decide (is_int 32 (a + b)) then Ok (a + b) else Undefined.

(** [goto error]: [h] runs when [m] fails. *)
Definition on_error {A} (m : proc A) (h : proc unit) : proc A := fun w =>
  match m w with
  | (Err e, w) => (do* _ := h in pure (Err e)) w
  | r => r
  end.

(** krb5_xfree(outbuf) when [m] fails: outbuf is a structure of the caller, which
    malloc did not allocate. *)
Definition xfree_outbuf {A} (m : proc A) : proc A := on_error m (pure Undefined).

Definition any_flag (ac : auth_context) (flag1 flag2 : Z) : bool := has_flag (ac_flags ac) flag1 || has_flag (ac_flags ac) flag2.
Definition uses_time (ac : auth_context) : bool := any_flag ac KRB5_AUTH_CONTEXT_DO_TIME KRB5_AUTH_CONTEXT_RET_TIME.
Definition uses_sequence (ac : auth_context) : bool := any_flag ac KRB5_AUTH_CONTEXT_DO_SEQUENCE KRB5_AUTH_CONTEXT_RET_SEQUENCE.
Definition returns_data (ac : auth_context) : bool := any_flag ac KRB5_AUTH_CONTEXT_RET_TIME KRB5_AUTH_CONTEXT_RET_SEQUENCE.

(** "Get keyblock": the first of the three that is not NULL, when it is used. *)
Definition first_key (k1 k2 : ptr krb5_keyblock) (k3 : option krb5_keyblock) : outcome error_code krb5_keyblock :=
  match k1, k2 with
  | Ref k, _ | Null, Ref k => Ok k
  | Freed, _ | Null, Freed => Undefined
  | Null, Null => deref k3
  end.
Definition not_null {A} (p : option A) : bool := match p with Some _ => true | None => false end.
Definition to_ptr {A} (p : option A) : ptr A := match p with Some a => Ref a | None => Null end.
Definition send_key (ac : auth_context) : outcome error_code krb5_keyblock :=
  first_key (ac_local_subkey ac) (to_ptr (ac_remote_subkey ac)) (ac_keyblock ac).
Definition receive_key (ac : auth_context) : outcome error_code krb5_keyblock :=
  first_key (to_ptr (ac_remote_subkey ac)) (ac_local_subkey ac) (ac_keyblock ac).

Definition set_local_seq (n : Z) (ac : auth_context) : auth_context := set_seq_numbers (ac_remote_seq_number ac) n ac.
Definition set_remote_seq (n : Z) (ac : auth_context) : auth_context := set_seq_numbers n (ac_local_seq_number ac) ac.

Section messages.
Context `{P : Platform} `{St : Stack} (fuel : nat) (cx : krb5_context).

(** The two addresses of a message. *)
Definition local_fulladdr (ac : auth_context) : outcome error_code (option krb5_address) :=
  full_address (ac_local_addr ac) (ac_local_port ac).
Definition remote_fulladdr (ac : auth_context) : outcome error_code (option krb5_address) :=
  full_address (ac_remote_addr ac) (ac_remote_port ac).

(** The checks that start every call. *)
Definition check_replay_info (outdata : bool) : proc unit :=
  do* ac := get_ac in
  pure (let* _ := guard (negb (has_flag (ac_flags ac) KRB5_AUTH_CONTEXT_DO_TIME) || not_null (ac_rcache ac)) KRB5_RC_REQUIRED in
        guard (negb (returns_data ac) || outdata) KRB5_RC_REQUIRED).

(** The time, if it is used. *)
Definition message_time : proc (Z * Z) :=
  do* ac := get_ac in
  if uses_time ac then krb5_us_timeofday else ret (0, 0).

(** The message enters the replay cache; [uniq] is the kind of the message. *)
Definition store_message (addr : option krb5_address) (uniq : list octet) (rd : krb5_replay_data) : proc unit :=
  do* a := pure (deref addr) in
  do* client := pure (krb5_gen_replay_name a uniq) in
  krb5_rc_store cx (Rep [] client (rd_usec rd) (rd_timestamp rd)).

(** What the second half of krb5_rd_safe and krb5_rd_priv checks and changes. *)
Definition received (uniq : list octet) (rd : krb5_replay_data) : proc (option krb5_replay_data) :=
  do* ac := get_ac in
  do* _ :=
    (if has_flag (ac_flags ac) KRB5_AUTH_CONTEXT_DO_TIME then
       do* currenttime := krb5_timeofday in
       do* near := pure (in_clock_skew cx (rd_timestamp rd) currenttime) in
       if negb near then pure (Err KRB5KRB_AP_ERR_SKEW)
       else store_message (ac_remote_addr ac) uniq rd
     else ret tt) in
  do* _ :=
    (if has_flag (ac_flags ac) KRB5_AUTH_CONTEXT_DO_SEQUENCE then
       if negb (ac_remote_seq_number ac =? rd_seq rd) then pure (Err KRB5KRB_AP_ERR_BADORDER)
       else do* n := pure (iplus (ac_remote_seq_number ac) 1) in modify_ac (set_remote_seq n)
     else ret tt) in
  ret (if returns_data ac then Some rd else None).

(** The addresses in a message, [s_address] and [r_address], are those of the receiver's
    context; if that has none of its own, r_address is one of the host. *)
Definition check_addresses (local_addr remote_addr s_address r_address : option krb5_address) : outcome error_code unit :=
  let* r := deref remote_addr in
  let* s := deref s_address in
  let* same := krb5_address_compare r s in
  if negb same then Err KRB5KRB_AP_ERR_BADADDR
  else match r_address with
       | None => Ok tt
       | Some a =>
           let* ok := match local_addr with
                      | Some l => krb5_address_compare l a
                      | None => let* our_addrs := cx_localaddr cx in krb5_address_search a (Some our_addrs)
                      end in
           guard ok KRB5KRB_AP_ERR_BADADDR
       end.

(** ** KRB_SAFE *)

(** The checksum of type and length zero with which the message is encoded to be
    checksummed. *)
Definition zero_cksum : krb5_checksum := Checksum 0 0 (Some [0]).

Definition appropriate_cksum (sumtype : Z) : outcome error_code unit :=
  let* _ := guard (valid_cksumtype sumtype) KRB5_PROG_SUMTYPE_NOSUPP in
  guard (is_coll_proof_cksum sumtype && negb (is_keyed_cksum sumtype =? 0)) KRB5KRB_AP_ERR_INAPP_CKSUM.

Definition krb5_mk_safe_basic (userdata : krb5_data) (keyblock : krb5_keyblock) (rd : krb5_replay_data)
    (local_addr remote_addr : option krb5_address) (sumtype : Z) : proc krb5_data :=
  do* _ := pure (appropriate_cksum sumtype) in
  let safemsg ck := Safe userdata (rd_timestamp rd) (rd_usec rd) (rd_seq rd) local_addr remote_addr (Some ck) in
  do* scratch1 := pure (encode_krb5_safe (Some (safemsg zero_cksum))) in
  do* k := pure (key_of keyblock) in
  do* m := pure (PrincName.contents scratch1) in
  do* c := with_prng (fun st => krb5_c_make_checksum st sumtype k KRB5_KEYUSAGE_KRB_SAFE_CKSUM m) in
  pure (encode_krb5_safe (Some (safemsg (Checksum sumtype (zlen c) (Some c))))).

(** The type of the context, if it is a keyed type for the key; else the first that is. *)
Definition safe_sumtype (ac : auth_context) (enctype : Z) : outcome error_code Z :=
  match krb5_c_keyed_checksum_types enctype with
  | [] => Err KRB5_BAD_ENCTYPE
  | t :: l => Ok (if bool_decide (ac_safe_cksumtype ac ∈ t :: l) then ac_safe_cksumtype ac else t)
  end.

Definition SAFE_NAME : list octet := [95; 115; 97; 102; 101].

Definition krb5_mk_safe (userdata : krb5_data) (outdata : option krb5_replay_data) : proc (krb5_data * option krb5_replay_data) :=
  do* _ := check_replay_info (not_null outdata) in
  do* '(timestamp, usec) := message_time in
  do* ac := get_ac in
  let seq := if uses_sequence ac then ac_local_seq_number ac else 0 in
  do* _ := (if uses_sequence ac then do* n := pure (iplus seq 1) in modify_ac (set_local_seq n) else ret tt) in
  let rd := ReplayData timestamp usec seq in
  do* outbuf := on_error (
    do* l := pure (local_fulladdr ac) in
    do* r := pure (remote_fulladdr ac) in
    do* key := pure (send_key ac) in
    do* sumtype := pure (safe_sumtype ac (kb_enctype key)) in
    do* outbuf := krb5_mk_safe_basic userdata key rd l r sumtype in
    do* _ := (if has_flag (ac_flags ac) KRB5_AUTH_CONTEXT_DO_TIME
              then xfree_outbuf (store_message (ac_local_addr ac) SAFE_NAME rd) else ret tt) in
    ret outbuf)
    (if uses_sequence ac
     then do* ac := get_ac in do* n := pure (isub (ac_local_seq_number ac) 1) in modify_ac (set_local_seq n) else ret tt) in
  ret (outbuf, (fun o => ReplayData (if has_flag (ac_flags ac) KRB5_AUTH_CONTEXT_RET_TIME then timestamp else rd_timestamp o)
                           (if has_flag (ac_flags ac) KRB5_AUTH_CONTEXT_RET_TIME then usec else rd_usec o)
                           (if has_flag (ac_flags ac) KRB5_AUTH_CONTEXT_RET_SEQUENCE then seq else rd_seq o)) <$> outdata).

(** [valid] is what the automatic variable of that name holds; it keeps it if
    krb5_c_verify_checksum fails, whose result is not looked at. *)
Definition krb5_rd_safe_basic (valid : bool) (inbuf : krb5_data) (keyblock : outcome error_code krb5_keyblock)
    (recv_addr sender_addr : option krb5_address) : proc (krb5_data * krb5_replay_data) :=
  do* safe := pure (is_message 20 inbuf) in
  if negb safe then pure (Err KRB5KRB_AP_ERR_MSG_TYPE)
  else
    do* message := pure (decode_krb5_safe fuel (Some inbuf)) in
    do* his_cksum := pure (deref (sf_checksum message)) in
    do* _ := pure (appropriate_cksum (ck_checksum_type his_cksum)) in
    do* _ := pure (check_addresses recv_addr sender_addr (sf_s_address message) (sf_r_address message)) in
    do* scratch := pure (encode_krb5_safe (Some (Safe (sf_user_data message) (sf_timestamp message) (sf_usec message)
                           (sf_seq_number message) (sf_s_address message) (sf_r_address message) (Some zero_cksum)))) in
    do* key := pure keyblock in
    do* k := pure (key_of key) in
    do* m := pure (PrincName.contents scratch) in
    do* c := pure (octets_at (ck_contents his_cksum) (ck_length his_cksum)) in
    do* valid := with_prng (fun st =>
      match krb5_c_verify_checksum st k KRB5_KEYUSAGE_KRB_SAFE_CKSUM m (ck_checksum_type his_cksum, c) with
      | (Err _, st) => (Ok valid, st)
      | r => r
      end) in
    if negb valid then pure (Err KRB5KRB_AP_ERR_MODIFIED)
    else ret (sf_user_data message, ReplayData (sf_timestamp message) (sf_usec message) (sf_seq_number message)).

Definition krb5_rd_safe (valid : bool) (inbuf : krb5_data) (outdata : bool) : proc (krb5_data * option krb5_replay_data) :=
  do* _ := check_replay_info outdata in
  do* ac := get_ac in
  do* l := pure (local_fulladdr ac) in
  do* r := pure (remote_fulladdr ac) in
  do* '(outbuf, rd) := krb5_rd_safe_basic valid inbuf (receive_key ac) l r in
  do* out := received SAFE_NAME rd in
  ret (outbuf, out).

(** ** KRB_PRIV *)

(** The initial vector: the first block at i_vector. *)
Definition ivec_block (enctype : Z) (i_vector : option (list octet)) : outcome error_code (option (list octet)) :=
  match i_vector with
  | None => Ok None
  | Some mem => let* blocksize := krb5_c_block_size enctype in let* iv := octets_at (Some mem) blocksize in Ok (Some iv)
  end.
Definition store_ivec (iv : option (list octet)) (i_vector : option (list octet)) : option (list octet) :=
  match i_vector, iv with Some mem, Some iv => Some (iv ++ drop (length iv) mem) | _, _ => i_vector end.

Definition krb5_mk_priv_basic (userdata : krb5_data) (keyblock : krb5_keyblock) (rd : krb5_replay_data)
    (local_addr remote_addr : option krb5_address) (i_vector : option (list octet)) : proc krb5_data :=
  do* scratch1 := pure (encode_krb5_enc_priv_part (Some (PrivEncPart userdata (rd_timestamp rd) (rd_usec rd) (rd_seq rd)
                                                           local_addr remote_addr))) in
  do* enclen := pure (krb5_c_encrypt_length (kb_enctype keyblock) (d_length scratch1)) in
  match malloc enclen with
  | None => pure (Err ENOMEM)
  | Some _ =>
      do* ivdata := pure (ivec_block (kb_enctype keyblock) i_vector) in
      do* k := pure (key_of keyblock) in
      do* m := pure (PrincName.contents scratch1) in
      do* '(ed, iv) := with_prng (fun st => krb5_c_encrypt st k KRB5_KEYUSAGE_KRB_PRIV_ENCPART ivdata m enclen) in
      do* _ := modify_ac (set_i_vector (store_ivec iv i_vector)) in
      pure (encode_krb5_priv (Some (Priv (EncData ed.1 0 (Data (zlen ed.2) (Some ed.2))))))
  end.

Definition PRIV_NAME : list octet := [95; 112; 114; 105; 118].

(** The sequence number is written to [outdata] only if it is not also checked. *)
Definition krb5_mk_priv (userdata : krb5_data) (outdata : option krb5_replay_data) : proc (krb5_data * option krb5_replay_data) :=
  do* _ := check_replay_info (not_null outdata) in
  do* '(timestamp, usec) := message_time in
  do* ac := get_ac in
  let do_seq := has_flag (ac_flags ac) KRB5_AUTH_CONTEXT_DO_SEQUENCE in
  let seq := if uses_sequence ac then ac_local_seq_number ac else 0 in
  do* _ := (if do_seq then do* n := pure (iplus seq 1) in modify_ac (set_local_seq n) else ret tt) in
  let rd := ReplayData timestamp usec seq in
  do* outbuf := on_error (
    do* l := pure (local_fulladdr ac) in
    do* r := pure (remote_fulladdr ac) in
    do* key := pure (send_key ac) in
    do* outbuf := krb5_mk_priv_basic userdata key rd l r (ac_i_vector ac) in
    do* _ := (if has_flag (ac_flags ac) KRB5_AUTH_CONTEXT_DO_TIME then
                do* a := pure (deref (ac_local_addr ac)) in
                do* client := xfree_outbuf (pure (krb5_gen_replay_name a PRIV_NAME)) in
                krb5_rc_store cx (Rep [] client usec timestamp)
              else ret tt) in
    ret outbuf)
    (if uses_sequence ac
     then do* ac := get_ac in do* n := pure (isub (ac_local_seq_number ac) 1) in modify_ac (set_local_seq n) else ret tt) in
  ret (outbuf, (fun o => ReplayData (if has_flag (ac_flags ac) KRB5_AUTH_CONTEXT_RET_TIME then timestamp else rd_timestamp o)
                           (if has_flag (ac_flags ac) KRB5_AUTH_CONTEXT_RET_TIME then usec else rd_usec o)
                           (if uses_sequence ac && negb do_seq then seq else rd_seq o)) <$> outdata).

Definition krb5_rd_priv_basic (inbuf : krb5_data) (keyblock : outcome error_code krb5_keyblock)
    (local_addr remote_addr : option krb5_address) (i_vector : option (list octet)) : proc (krb5_data * krb5_replay_data) :=
  do* priv := pure (is_message 21 inbuf) in
  if negb priv then pure (Err KRB5KRB_AP_ERR_MSG_TYPE)
  else
    do* privmsg := pure (decode_krb5_priv fuel (Some inbuf)) in
    do* key := pure keyblock in
    do* ivdata := pure (ivec_block (kb_enctype key) i_vector) in
    do* '(scratch, iv) := pure (decrypt_scratch key KRB5_KEYUSAGE_KRB_PRIV_ENCPART ivdata (pv_enc_part privmsg)) in
    do* _ := modify_ac (set_i_vector (store_ivec iv i_vector)) in
    do* part := pure (decode_krb5_enc_priv_part fuel (Some scratch)) in
    do* _ := pure (check_addresses local_addr remote_addr (pe_s_address part) (pe_r_address part)) in
    ret (pe_user_data part, ReplayData (pe_timestamp part) (pe_usec part) (pe_seq_number part)).

Definition krb5_rd_priv (inbuf : krb5_data) (outdata : bool) : proc (krb5_data * option krb5_replay_data) :=
  do* _ := check_replay_info outdata in
  do* ac := get_ac in
  do* l := pure (local_fulladdr ac) in
  do* r := pure (remote_fulladdr ac) in
  do* '(outbuf, rd) := krb5_rd_priv_basic inbuf (receive_key ac) l r (ac_i_vector ac) in
  do* out := received PRIV_NAME rd in
  ret (outbuf, out).
End messages.
