(* ===== verification/GssSeal.v ===== *)
(** * Per-message tokens of the Kerberos mechanism of GSS-API
    (src/src/lib/gssapi/krb5: k5seal.c, k5unseal.c, util_crypt.c, util_seqnum.c, seal.c,
    sign.c, unseal.c, verify.c, wrap_size_limit.c, and the choice of the algorithms in
    init_sec_context.c and accept_sec_context.c)

    A token carries a checksum of the message, an encrypted sequence number and, if it
    is a sealed one, the message, in the clear or encrypted.  abort() is [Undefined]. *)

From S2P Require Import Prelude Asn1Buf Words Crypto CryptoApi GssGeneric AuthCon.

Definition KG_TOK_SIGN_MSG : Z := 0x0101.
Definition KG_TOK_SEAL_MSG : Z := 0x0201.
Definition KG_TOK_DEL_CTX : Z := 0x0102.

Definition SGN_ALG_DES_MAC_MD5 : Z := 0x0000.
Definition SGN_ALG_MD2_5 : Z := 0x0001.
Definition SGN_ALG_DES_MAC : Z := 0x0002.
Definition SGN_ALG_3 : Z := 0x0003.
Definition SGN_ALG_HMAC_MD5 : Z := 0x0011.
Definition SGN_ALG_HMAC_SHA1_DES3_KD : Z := 0x0004.
Definition SEAL_ALG_NONE : Z := 0xffff.
Definition SEAL_ALG_DES : Z := 0x0000.
Definition SEAL_ALG_1 : Z := 0x0001.
Definition SEAL_ALG_DES3KD : Z := 0x0002.

Definition KG_USAGE_SEAL : Z := 22.
Definition KG_USAGE_SIGN : Z := 23.
Definition KG_USAGE_SEQ : Z := 24.

(** krb5_gss_ctx_id_rec; gss_flags, here, there, krb_flags, auth_context, ctypes and the
    seed are not used by these functions. *)
Record krb5_gss_ctx_id_rec : Type := GssCtx {
  gc_initiate : bool; gc_signalg : Z; gc_cksum_size : Z; gc_sealalg : Z; gc_enc : keyblock; gc_seq : keyblock;
  gc_endtime : Z; gc_seq_send : Z; gc_seqstate : queue; gc_established : bool; gc_big_endian : bool; gc_mech_used : list octet
}.

(** krb5_gss_oid_array: the mechanism, and the identifier it had before RFC 1964. *)
Definition gss_mech_krb5 : list octet := [0x2a; 0x86; 0x48; 0x86; 0xf7; 0x12; 0x01; 0x02; 0x02].
Definition gss_mech_krb5_old : list octet := [0x2b; 0x05; 0x01; 0x05; 0x02].

(** ** The keys of a context *)

(** What subkey, signalg, cksum_size, sealalg, enc and seq are set to when the key of a
    context is established. *)
Definition des_keys (subkey : keyblock) : Z * Z * Z * keyblock * keyblock :=
  let subkey := Key ENCTYPE_DES_CBC_RAW (key_contents subkey) in
  (SGN_ALG_DES_MAC_MD5, 8, SEAL_ALG_DES, Key ENCTYPE_DES_CBC_RAW ((fun c => Z.lxor c 0xf0) <$> key_contents subkey), subkey).
Definition des3_keys (subkey : keyblock) : Z * Z * Z * keyblock * keyblock :=
  let subkey := Key ENCTYPE_DES3_CBC_RAW (key_contents subkey) in
  (SGN_ALG_HMAC_SHA1_DES3_KD, 20, SEAL_ALG_DES3KD, subkey, subkey).

Definition initiator_keys (subkey : keyblock) : outcome error_code (Z * Z * Z * keyblock * keyblock) :=
  let t := key_enctype subkey in
  if (t =? ENCTYPE_DES_CBC_MD5) || (t =? ENCTYPE_DES_CBC_MD4) || (t =? ENCTYPE_DES_CBC_CRC) then Ok (des_keys subkey)
  else if t =? ENCTYPE_DES3_CBC_SHA1 then Ok (des3_keys subkey)
  else Err KRB5_BAD_ENCTYPE.
(** ENCTYPE_DES_CBC_MD4 is missing here. *)
Definition acceptor_keys (subkey : keyblock) : outcome error_code (Z * Z * Z * keyblock * keyblock) :=
  let t := key_enctype subkey in
  if (t =? ENCTYPE_DES_CBC_MD5) || (t =? ENCTYPE_DES_CBC_CRC) then Ok (des_keys subkey)
  else if t =? ENCTYPE_DES3_CBC_SHA1 then Ok (des3_keys subkey)
  else Err KRB5_BAD_ENCTYPE.

(** ** Computations with the random number generator *)

Abbreviation rproc := (sproc prng error_code).

Section seal.
Context `{P : Platform} `{St : Stack}.

(** ** util_crypt.c *)

Definition kg_confounder_size (key : keyblock) : Z :=
  match krb5_c_block_size (key_enctype key) with Ok n => n | _ => -1 end.

Definition kg_encrypt_size (key : keyblock) (n : Z) : Z :=
  match krb5_c_encrypt_length (key_enctype key) n with Ok enclen => int32 enclen | _ => -1 end.

Definition kg_make_confounder (key : keyblock) : rproc (list octet) :=
  do! blocksize := sret (krb5_c_block_size (key_enctype key)) in
  fun st => krb5_c_random_make_octets st blocksize.

(** The copy of the initial vector; [iv] is the memory at the pointer. *)
Definition copy_iv (key : keyblock) (iv : option (list octet)) : outcome error_code (option (list octet)) :=
  match iv with
  | None => Ok None
  | Some mem =>
      let* blocksize := krb5_c_block_size (key_enctype key) in
      match malloc blocksize with
      | None => Err ENOMEM
      | Some _ => let* l := slice mem 0 blocksize in Ok (Some l)
      end
  end.

(** [inp] is as long as [length] says. *)
Definition kg_encrypt (key : keyblock) (usage : Z) (iv : option (list octet)) (inp : list octet) : rproc (list octet) :=
  do! ivd := sret (copy_iv key iv) in
  do! r := (fun st => krb5_c_encrypt st key usage ivd inp (zlen inp)) in
  sret (Ok r.1.2).

Definition kg_decrypt (key : keyblock) (usage : Z) (iv : option (list octet)) (inp : list octet) : outcome error_code (list octet) :=
  let* ivd := copy_iv key iv in
  let* '(p, _) := krb5_c_decrypt key usage ivd (ENCTYPE_UNKNOWN, inp) (zlen inp) in
  Ok p.

(** ** util_seqnum.c *)

Definition kg_make_seq_num (key : keyblock) (direction : octet) (seqnum : Z) (cksum : list octet) : rproc (list octet) :=
  kg_encrypt key KG_USAGE_SEQ (Some cksum) (le32 seqnum ++ [direction; direction; direction; direction]).

(** The direction and the number, or KG_BAD_SEQ. *)
Definition kg_get_seq_num (key : keyblock) (cksum buf : list octet) : outcome minor_status (octet * Z) :=
  match kg_decrypt key KG_USAGE_SEQ (Some cksum) buf with
  | Ok plain =>
      let p i := nth i plain 0 in
      if negb (p 4%nat =? p 5%nat) || negb (p 4%nat =? p 6%nat) || negb (p 4%nat =? p 7%nat) then Err KG_BAD_SEQ
      else Ok (p 4%nat, int32 (Z.lor (Z.lor (Z.lor (p 0%nat) (Z.shiftl (p 1%nat) 8)) (Z.shiftl (p 2%nat) 16)) (Z.shiftl (p 3%nat) 24)))
  | Err e => Err (Code e)
  | Undefined => Undefined
  | OutOfFuel => OutOfFuel
  end.

(** ** k5seal.c *)

(** The encryption of the digest with the key for sequence numbers; the old mechanism
    uses the key as the initial vector. *)
Definition mac_of_digest (seq : keyblock) (oid digest : list octet) : rproc (list octet) :=
  kg_encrypt seq KG_USAGE_SEAL (if bool_decide (oid = gss_mech_krb5_old) then Some (key_contents seq) else None) digest.

(** The checksum of [signalg] for [data], which fills [cksum_size] octets; for two
    algorithms nothing is written, and the octets [junk] stay. *)
Definition token_cksum (seq : keyblock) (signalg cksum_size : Z) (oid data junk : list octet) : rproc (list octet) :=
  if (signalg =? SGN_ALG_DES_MAC_MD5) || (signalg =? SGN_ALG_MD2_5) || (signalg =? SGN_ALG_HMAC_MD5) then
    do! digest := (fun st => krb5_c_make_checksum st CKSUMTYPE_RSA_MD5 seq KG_USAGE_SIGN data) in
    if signalg =? SGN_ALG_DES_MAC_MD5 then
      do! mac := mac_of_digest seq oid digest in
      sret (slice mac (16 - cksum_size) cksum_size)
    else sret (Ok junk)
  else if signalg =? SGN_ALG_HMAC_SHA1_DES3_KD then
    do! mac := (fun st => krb5_c_make_checksum st CKSUMTYPE_HMAC_SHA1_DES3 seq KG_USAGE_SIGN data) in
    if zlen mac =? cksum_size then sret (Ok mac) else sret Undefined
  else sret Undefined.

(** The message in a token: the octets of the token, and those that are checksummed. *)
Definition token_message (enc : keyblock) (text : list octet) (tmsglen : Z) (encrypt bigend : bool) : rproc (list octet * list octet) :=
  if bigend && negb encrypt then sret (Ok (text, text))
  else match malloc (size_t tmsglen) with
       | None => sret (Err ENOMEM)
       | Some _ =>
           do! conf := kg_make_confounder enc in
           let pad := 8 - zlen text mod 8 in
           let plain := conf ++ text ++ replicate (Z.to_nat pad) pad in
           if negb (zlen plain =? tmsglen) then sret Undefined
           else
             do! msg := (if encrypt then kg_encrypt enc KG_USAGE_SEAL None plain else sret (Ok plain)) in
             sret (Ok (msg, if bigend then text else plain))
       end.

(** The token and the new sequence number. *)
Definition make_seal_token_v1 (enc seq : keyblock) (seqnum : Z) (direction : bool) (text : list octet)
    (signalg cksum_size sealalg : Z) (encrypt : bool) (toktype : Z) (bigend : bool) (oid : list octet) : rproc (list octet * Z) :=
  let known_sign := (signalg =? SGN_ALG_DES_MAC_MD5) || (signalg =? SGN_ALG_MD2_5) || (signalg =? SGN_ALG_HMAC_MD5) ||
                    (signalg =? SGN_ALG_DES_MAC) || (signalg =? SGN_ALG_HMAC_SHA1_DES3_KD) in
  let known_seal := (sealalg =? SEAL_ALG_NONE) || (sealalg =? SEAL_ALG_DES) || (sealalg =? SEAL_ALG_DES3KD) in
  if negb (known_sign && known_seal) then sret Undefined
  else
    let is_seal := toktype =? KG_TOK_SEAL_MSG in
    let tmsglen :=
      if is_seal then
        if bigend && negb encrypt then int32 (zlen text)
        else int32 (Z.land (kg_confounder_size enc + zlen text + 8) (-8))
      else 0 in
    let tlen := g_token_size oid (14 + cksum_size + tmsglen) in
    match malloc (size_t tlen) with
    | None => sret (Err ENOMEM)
    | Some t =>
        let header := g_make_token_header oid (14 + cksum_size + tmsglen) toktype in
        let alg := if is_seal && encrypt then sealalg else 0xffff in
        let head := [Z.land signalg 0xff; Z.land (Z.shiftr signalg 8) 0xff; Z.land alg 0xff; Z.land (Z.shiftr alg 8) 0xff; 0xff; 0xff] in
        if signalg =? SGN_ALG_DES_MAC then sret Undefined
        else
          do! msg := (if is_seal then token_message enc text tmsglen encrypt bigend else sret (Ok ([], text))) in
          match malloc (size_t (8 + zlen msg.2)) with
          | None => sret (Err ENOMEM)
          | Some _ =>
              let data := drop (length header - 2) header ++ head ++ msg.2 in
              let junk := take (Z.to_nat cksum_size) (drop (length header + 14) t) in
              do! cksum := token_cksum seq signalg cksum_size oid data junk in
              do! num := kg_make_seq_num seq (if direction then 0 else 0xff) seqnum (cksum ++ msg.1) in
              let token := header ++ head ++ num ++ cksum ++ msg.1 in
              if negb (zlen token =? tlen) || negb (bool_decide (is_int 32 (seqnum + 1))) then sret Undefined
              else sret (Ok (token, seqnum + 1))
          end
    end.

Definition set_seq_send (ctx : krb5_gss_ctx_id_rec) (n : Z) : krb5_gss_ctx_id_rec :=
  GssCtx (gc_initiate ctx) (gc_signalg ctx) (gc_cksum_size ctx) (gc_sealalg ctx) (gc_enc ctx) (gc_seq ctx) (gc_endtime ctx) n
    (gc_seqstate ctx) (gc_established ctx) (gc_big_endian ctx) (gc_mech_used ctx).
Definition set_seqstate (ctx : krb5_gss_ctx_id_rec) (q : queue) : krb5_gss_ctx_id_rec :=
  GssCtx (gc_initiate ctx) (gc_signalg ctx) (gc_cksum_size ctx) (gc_sealalg ctx) (gc_enc ctx) (gc_seq ctx) (gc_endtime ctx) (gc_seq_send ctx)
    q (gc_established ctx) (gc_big_endian ctx) (gc_mech_used ctx).

(** A major and a minor status. *)
Definition gss_error : Type := gss_status * minor_status.

(** seq_send is unsigned, and read and incremented as a [krb5_int32].  The major status
    and the token. *)
Definition kg_seal (now : Z) (st : prng) (ctx : krb5_gss_ctx_id_rec) (conf_req_flag : bool) (qop_req : Z) (input : list octet) (toktype : Z)
    : outcome gss_error (gss_status * list octet) * prng * krb5_gss_ctx_id_rec :=
  if negb (qop_req =? 0) then (Err (GSS_S_FAILURE, G_UNKNOWN_QOP), st, ctx)
  else if negb (gc_established ctx) then (Err (GSS_S_NO_CONTEXT, KG_CTX_INCOMPLETE), st, ctx)
  else
    match make_seal_token_v1 (gc_enc ctx) (gc_seq ctx) (int32 (gc_seq_send ctx)) (gc_initiate ctx) input (gc_signalg ctx)
            (gc_cksum_size ctx) (gc_sealalg ctx) conf_req_flag toktype (gc_big_endian ctx) (gc_mech_used ctx) st with
    | (Ok (token, n), st) =>
        (Ok (if gc_endtime ctx <? now then GSS_S_CONTEXT_EXPIRED else GSS_S_COMPLETE, token), st, set_seq_send ctx (uint32 n))
    | (Err e, st) => (Err (GSS_S_FAILURE, Code e), st, ctx)
    | (Undefined, st) => (Undefined, st, ctx)
    | (OutOfFuel, st) => (OutOfFuel, st, ctx)
    end.

(** ** k5unseal.c *)

(** How a token is refused. *)
Definition refuse {A} (major : gss_status) (minor : minor_status) : outcome gss_error A := Err (major, minor).
Definition defective {A} : outcome gss_error A := refuse GSS_S_DEFECTIVE_TOKEN No_minor.
(** A failure of the Kerberos library. *)
Definition or_failure {A} (r : outcome error_code A) : outcome gss_error A :=
  match r with
  | Ok a => Ok a
  | Err e => Err (GSS_S_FAILURE, Code e)
  | Undefined => Undefined
  | OutOfFuel => OutOfFuel
  end.

(** The checks of the algorithms: the length of the checksum. *)
Definition check_algorithms (ctx : krb5_gss_ctx_id_rec) (toktype signalg sealalg : Z) (filler : bool) : outcome gss_error Z :=
  if negb filler then defective
  else if negb (toktype =? KG_TOK_SEAL_MSG) && negb (sealalg =? 0xffff) then defective
  else if (toktype =? KG_TOK_SEAL_MSG) && negb ((sealalg =? 0xffff) || (sealalg =? gc_sealalg ctx)) then defective
  else if (gc_sealalg ctx =? SEAL_ALG_NONE) && (1 <? signalg) ||
          (gc_sealalg ctx =? SEAL_ALG_1) && negb (signalg =? SGN_ALG_3) ||
          (gc_sealalg ctx =? SEAL_ALG_DES3KD) && negb (signalg =? SGN_ALG_HMAC_SHA1_DES3_KD) then defective
  else if (signalg =? SGN_ALG_DES_MAC_MD5) || (signalg =? SGN_ALG_MD2_5) then Ok 8
  else if signalg =? SGN_ALG_3 then Ok 16
  else if signalg =? SGN_ALG_HMAC_SHA1_DES3_KD then Ok 20
  else defective.

(** token.value, which is not set for an empty message. *)
Inductive buffer : Type := Uninitialized | Buffer (l : list octet).
Definition buffer_octets (b : buffer) : list octet := match b with Buffer l => l | Uninitialized => [] end.

(** The message of a sealed token: plain, and token.value.  [ptr] is the offset of the
    body in [mem]; a length is a size_t. *)
Definition sealed_message (ctx : krb5_gss_ctx_id_rec) (mem : list octet) (ptr tmsglen cksum_len sealalg : Z)
    : outcome gss_error (list octet * buffer) :=
  let at_ := ptr + 14 + cksum_len in
  let clear := sealalg =? 0xffff in
  let* plain := (if clear then Ok []
                 else match malloc (size_t tmsglen) with
                      | None => refuse GSS_S_FAILURE (Code ENOMEM)
                      | Some _ => let* c := slice mem at_ tmsglen in or_failure (kg_decrypt (gc_enc ctx) KG_USAGE_SEAL None c)
                      end) in
  let read i n := if clear then slice mem (at_ + i) n else slice plain i n in
  let* '(conflen, len) :=
    (if clear && gc_big_endian ctx then Ok (0, size_t tmsglen)
     else
       let conflen := kg_confounder_size (gc_enc ctx) in
       let* pad := (if clear then peek mem (at_ + tmsglen - 1) else peek plain (tmsglen - 1)) in
       Ok (conflen, size_t (tmsglen - conflen - pad))) in
  let* value := (if len =? 0 then Ok Uninitialized
                 else match malloc len with
                      | None => refuse GSS_S_FAILURE (Code ENOMEM)
                      | Some _ => let* l := read conflen len in Ok (Buffer l)
                      end) in
  let* whole := read 0 tmsglen in
  Ok (whole, value).

(** What becomes of token.value on an error, if it is a sealed token. *)
Definition free_value {A} (is_seal : bool) (value : buffer) (r : outcome gss_error A) : outcome gss_error A :=
  match is_seal, value with true, Uninitialized => Undefined | _, _ => r end.

(** The checksum that the token should have: the octets that are compared. *)
Definition expected_cksum (ctx : krb5_gss_ctx_id_rec) (signalg : Z) (data : list octet) : rproc (list octet) :=
  if (signalg =? SGN_ALG_DES_MAC_MD5) || (signalg =? SGN_ALG_3) then
    do! digest := (fun st => krb5_c_make_checksum st CKSUMTYPE_RSA_MD5 (gc_seq ctx) KG_USAGE_SIGN data) in
    do! mac := mac_of_digest (gc_seq ctx) (gc_mech_used ctx) digest in
    let len := if signalg =? 0 then 8 else 16 in
    sret (slice mac (16 - len) len)
  else fun st => krb5_c_make_checksum st CKSUMTYPE_HMAC_SHA1_DES3 (gc_seq ctx) KG_USAGE_SIGN data.

(** The checks after the checksum has been verified: the status and the new queue. *)
Definition check_sequence (now : Z) (ctx : krb5_gss_ctx_id_rec) (mem : list octet) (ptr : Z) (is_seal : bool) (value : buffer)
    : outcome gss_error (gss_status * queue) :=
  if gc_endtime ctx <? now then refuse GSS_S_CONTEXT_EXPIRED No_minor
  else
    let* num := slice mem (ptr + 6) 8 in
    let* cksum := slice mem (ptr + 14) (zlen mem - (ptr + 14)) in
    match kg_get_seq_num (gc_seq ctx) cksum num with
    | Ok (direction, seqnum) =>
        if negb (direction =? (if gc_initiate ctx then 0xff else 0)) then free_value is_seal value (refuse GSS_S_BAD_SIG G_BAD_DIRECTION)
        else Ok (g_order_check (gc_seqstate ctx) (uint32 seqnum))
    | Err m => free_value is_seal value (refuse GSS_S_BAD_SIG m)
    | Undefined => Undefined
    | OutOfFuel => OutOfFuel
    end.

(** [message] is the message buffer of a token that signs.  The status, the message and
    conf_state.  With SGN_ALG_MD2_5 the pointer md5cksum.contents is freed before it is
    set. *)
Definition kg_unseal_v1 (now : Z) (st : prng) (ctx : krb5_gss_ctx_id_rec) (mem : list octet) (ptr bodysize : Z) (message : list octet) (toktype : Z)
    : outcome gss_error (gss_status * list octet * bool) * prng * krb5_gss_ctx_id_rec :=
  let is_seal := toktype =? KG_TOK_SEAL_MSG in
  match (let* b := slice mem ptr 6 in
         let alg i := nth i b 0 + Z.shiftl (nth (S i) b 0) 8 in
         let* cksum_len := check_algorithms ctx toktype (alg 0%nat) (alg 2%nat) ((nth 4 b 0 =? 0xff) && (nth 5 b 0 =? 0xff)) in
         let* '(plain, value) :=
           (if is_seal then sealed_message ctx mem ptr (bodysize - (14 + cksum_len)) cksum_len (alg 2%nat)
            else if toktype =? KG_TOK_SIGN_MSG then Ok (message, Buffer message)
            else Ok ([], Buffer [])) in
         let msg := if gc_big_endian ctx then buffer_octets value else plain in
         if alg 0%nat =? SGN_ALG_MD2_5 then Undefined
         else match malloc (size_t (8 + zlen msg)) with
              | None => free_value is_seal value (refuse GSS_S_FAILURE (Code ENOMEM))
              | Some _ => let* h := slice mem (ptr - 2) 8 in Ok (alg 0%nat, alg 2%nat, value, h ++ msg)
              end) with
  | Ok (signalg, sealalg, value, data) =>
      let '(r, st) := expected_cksum ctx signalg data st in
      match (match r with
             | Ok expected =>
                 let* cksum := slice mem (ptr + 14) (zlen expected) in
                 if bool_decide (expected = cksum) then check_sequence now ctx mem ptr is_seal value
                 else free_value is_seal value (refuse GSS_S_BAD_SIG No_minor)
             | Err e => free_value is_seal value (refuse GSS_S_FAILURE (Code e))
             | Undefined => Undefined
             | OutOfFuel => OutOfFuel
             end) with
      | Ok (status, q) => (Ok (status, buffer_octets value, negb (sealalg =? 0xffff)), st, set_seqstate ctx q)
      | Err e => (Err e, st, ctx)
      | Undefined => (Undefined, st, ctx)
      | OutOfFuel => (OutOfFuel, st, ctx)
      end
  | Err e => (Err e, st, ctx)
  | Undefined => (Undefined, st, ctx)
  | OutOfFuel => (OutOfFuel, st, ctx)
  end.

(** The handle of the context is valid. *)
Definition kg_unseal (now : Z) (st : prng) (ctx : krb5_gss_ctx_id_rec) (token message : list octet) (toktype : Z)
    : outcome gss_error (gss_status * list octet * bool) * prng * krb5_gss_ctx_id_rec :=
  if negb (gc_established ctx) then (Err (GSS_S_NO_CONTEXT, KG_CTX_INCOMPLETE), st, ctx)
  else
    match g_verify_token_header (gc_mech_used ctx) token 0 toktype (int32 (zlen token)) with
    | Ok (ptr, bodysize) => kg_unseal_v1 now st ctx token ptr bodysize message toktype
    | Err m => (Err (GSS_S_DEFECTIVE_TOKEN, m), st, ctx)
    | Undefined => (Undefined, st, ctx)
    | OutOfFuel => (OutOfFuel, st, ctx)
    end.

(** ** The functions of the interface *)

Definition krb5_gss_wrap now st ctx conf_req_flag qop_req input := kg_seal now st ctx conf_req_flag qop_req input KG_TOK_SEAL_MSG.
Definition krb5_gss_get_mic now st ctx qop_req input := kg_seal now st ctx false qop_req input KG_TOK_SIGN_MSG.
Definition krb5_gss_unwrap now st ctx token := kg_unseal now st ctx token [] KG_TOK_SEAL_MSG.
Definition krb5_gss_verify_mic now st ctx message token := kg_unseal now st ctx token message KG_TOK_SIGN_MSG.

(** OM_uint32 arithmetic; [overhead] is an [int]. *)
Definition krb5_gss_wrap_size_limit (ctx : krb5_gss_ctx_id_rec) (qop_req req_output_size : Z) : outcome gss_error Z :=
  if negb (qop_req =? 0) then refuse GSS_S_FAILURE G_UNKNOWN_QOP
  else if negb (gc_established ctx) then refuse GSS_S_NO_CONTEXT KG_CTX_INCOMPLETE
  else
    let overhead := 7 + zlen (gc_mech_used ctx) in
    let conflen := uint32 (kg_confounder_size (gc_enc ctx)) in
    let data_size := Z.land (uint32 (conflen + req_output_size + 8)) (uint32 (-8)) in
    let ohlen := uint32 (g_token_size (gc_mech_used ctx) (uint32 (data_size + gc_cksum_size ctx + 14)) - req_output_size) in
    if uint32 (ohlen + overhead) <? req_output_size
    then Ok (Z.land (uint32 (req_output_size - ohlen - overhead)) (uint32 (-8)))
    else Ok 0.
End seal.
