(* ===== verification/ApReplay.v ===== *)
(** * No authenticator is accepted twice

    A server reads requests (ApExch.v) with one replay cache (RcDfl.v), each with a
    context of its own, and is restarted now and then.  The requests it accepts carry
    different authenticators: what the cache forgets, the check of the clock skew
    refuses. *)

From Stdlib Require Import Sorting.Sorted.
From stdpp Require Import gmap.
From S2P Require Import Prelude CString Asn1Buf Krb5Types Krb5Decode PrincName Words RcDfl RcDflProofs Crypto CryptoApi AuthCon ApExch.

(** ** Processes *)

(** The part of the state a replay cache is made of. *)
Definition same_cache (w w' : world) : Prop :=
  w_sec w' = w_sec w /\ w_fs w' = w_fs w /\ ac_rcache (w_ac w') = ac_rcache (w_ac w).

#[global] Instance same_cache_preorder : PreOrder same_cache.
Proof. split; [by intros w|]. intros w1 w2 w3 (A & B & C) (A' & B' & C'). split_and!; congruence. Qed.

(** Computations that leave the cache alone, whatever they return. *)
Definition keeps_cache {A} (m : proc A) : Prop := forall w, same_cache w (m w).2.

Lemma keeps_bind {A B} (m : proc A) (k : A -> proc B) : keeps_cache m -> (forall a, keeps_cache (k a)) -> keeps_cache (pbind m k).
Proof.
  intros Hm Hk w. unfold pbind. specialize (Hm w). destruct (m w) as [[a|e| |] w1]; cbn [snd] in *; try done.
  etransitivity; [exact Hm|apply Hk].
Qed.

Lemma keeps_pure {A} (r : outcome error_code A) : keeps_cache (pure r).
Proof. by intros w. Qed.
Lemma keeps_ret {A} (a : A) : keeps_cache (ret a).
Proof. by intros w. Qed.
Lemma keeps_get : keeps_cache get_ac.
Proof. by intros w. Qed.
Lemma keeps_time : keeps_cache krb5_timeofday.
Proof. by intros w. Qed.
Lemma keeps_modify f : (forall ac, ac_rcache (f ac) = ac_rcache ac) -> keeps_cache (modify_ac f).
Proof. intros H w. split_and!; cbn; [done|done|apply H]. Qed.

#[export] Hint Resolve keeps_pure keeps_ret keeps_get keeps_time : krb.
#[export] Hint Extern 1 (keeps_cache (modify_ac _)) => (apply keeps_modify; done) : krb.

Ltac keeps := repeat first [solve [auto with krb nocore] | apply keeps_bind; [|intros ?] | case_match].

(** A result of a sequence: the first part returned, and the rest went on from there. *)
Lemma pbind_ok {A B} (m : proc A) (k : A -> proc B) w b w' :
  pbind m k w = (Ok b, w') -> exists a w1, m w = (Ok a, w1) /\ k a w1 = (Ok b, w').
Proof. unfold pbind. destruct (m w) as [[a|e| |] w1]; try discriminate. eauto. Qed.

Lemma pbind_run {A B} (m : proc A) (k : A -> proc B) w : pbind m k w =
  match m w with
  | (Ok a, w) => k a w
  | (Err e, w) => (Err e, w)
  | (Undefined, w) => (Undefined, w)
  | (OutOfFuel, w) => (OutOfFuel, w)
  end.
Proof. done. Qed.

Lemma pure_ok {A} (r : outcome error_code A) w a w' : pure r w = (Ok a, w') -> r = Ok a /\ w' = w.
Proof. by intros [= -> ->]. Qed.

(** Rules to run a process. *)
Lemma run_pure {A B} (r : outcome error_code A) a (k : A -> proc B) w : r = Ok a -> pbind (pure r) k w = k a w.
Proof. by intros ->. Qed.
Lemma run_get {B} (k : auth_context -> proc B) w : pbind get_ac k w = k (w_ac w) w.
Proof. done. Qed.
Lemma run_time {B} (k : Z -> proc B) w : pbind krb5_timeofday k w = k (w_sec w) w.
Proof. done. Qed.
Lemma run_ret {A B} (a : A) (k : A -> proc B) w : pbind (ret a) k w = k a w.
Proof. done. Qed.
Definition with_ac (w : world) (ac : auth_context) : world := World (w_sec w) (w_usec w) (w_prng w) (w_fs w) ac.
Lemma run_modify {B} f (k : unit -> proc B) w : pbind (modify_ac f) k w = k tt (with_ac w (f (w_ac w))).
Proof. done. Qed.
Lemma run_step {A B} (m : proc A) a w1 (k : A -> proc B) w : m w = (Ok a, w1) -> pbind m k w = k a w1.
Proof. unfold pbind. by intros ->. Qed.

(** [inv_proc E]: from a sequence that returned, what each of its parts returned. *)
Ltac inv_step H :=
  lazymatch type of H with
  | pure _ _ = _ => apply pure_ok in H as [H ->]
  | ret _ _ = _ => first [injection H as <- <- | injection H as <-]
  | get_ac _ = _ => injection H as <- <-
  | modify_ac _ _ = _ => first [injection H as <- <- | injection H as <-]
  | krb5_timeofday _ = _ => injection H as <- <-
  | _ => idtac
  end.
Ltac inv_proc E :=
  repeat (let H := fresh "H" in apply pbind_ok in E as (? & ? & H & E); inv_step H); inv_step E.

(** ** The server *)

Section server.
Context `{P : Platform} `{St : Stack} (fuel : nat) (cx : krb5_context).
Context (krb5_kt_get_entry : krb5_principal_data -> Z -> Z -> outcome error_code krb5_keyblock).

Inductive server_event : Type :=
| Connection (usec : Z) (st : prng) (ac : auth_context) (req : krb5_ap_req) (server : option krb5_principal_data) (check_valid_flag : bool)
| ServerRestart.

(** The authenticator of an accepted request: server, client, time. *)
Definition accepted (r : outcome error_code (Z * krb5_ticket)) (w : world) : list krb5_donot_replay :=
  match r, ac_authentp (w_ac w) with
  | Ok (_, ticket), Some auth => match krb5_auth_to_rep ticket auth with Ok rep => [rep] | _ => [] end
  | _, _ => []
  end.

Definition connect (now usec : Z) (st : prng) (ac : auth_context) (t : dfl_data) (fs : file_system) : world :=
  World now usec st fs (set_rcache (Some t) ac).

Definition serve1 (now : Z) (ev : server_event) (t : dfl_data) (fs : file_system)
    : list krb5_donot_replay * dfl_data * file_system :=
  match ev with
  | Connection usec st ac req server flag =>
      let '(r, w) := krb5_rd_req_decoded_opt fuel cx krb5_kt_get_entry req server flag (connect now usec st ac t fs) in
      (accepted r w, default t (ac_rcache (w_ac w)), w_fs w)
  | ServerRestart =>
      let '(_, t, fs) := reopen (cx_tmp_names cx) (cx_clockskew cx) (Some now) fs t in ([], t, fs)
  end.

(** The authenticators accepted in the course of events. *)
Fixpoint serve (evs : list (Z * server_event)) (t : dfl_data) (fs : file_system) : list krb5_donot_replay :=
  match evs with
  | [] => []
  | (now, ev) :: evs => let '(acc, t, fs) := serve1 now ev t fs in acc ++ serve evs t fs
  end.

(** The operations on the cache that an event causes. *)
Definition cache_ops (now : Z) (ev : server_event) (t : dfl_data) (fs : file_system) : list (Z * rc_op) :=
  match ev with
  | Connection usec st ac req server flag =>
      match rd_req_open fuel cx krb5_kt_get_entry req server flag (connect now usec st ac t fs) with
      | (Ok (ticket, _, _, auth), _) => match krb5_auth_to_rep ticket auth with Ok rep => [(now, Store rep)] | _ => [] end
      | _ => []
      end
  | ServerRestart => [(now, Restart)]
  end.

Fixpoint serve_ops (evs : list (Z * server_event)) (t : dfl_data) (fs : file_system) : list (Z * rc_op) :=
  match evs with
  | [] => []
  | (now, ev) :: evs => let '(_, t', fs') := serve1 now ev t fs in cache_ops now ev t fs ++ serve_ops evs t' fs'
  end.

(** ** One request *)

Lemma open_keeps req server flag : keeps_cache (rd_req_open fuel cx krb5_kt_get_entry req server flag).
Proof. unfold rd_req_open. keeps. Qed.

Lemma finish_keeps req session auth : keeps_cache (rd_req_finish req session auth).
Proof. unfold rd_req_finish. keeps. Qed.

(** [authentp] holds the authenticator that was read. *)
Lemma open_authentp req server flag w ticket part session auth w' :
  rd_req_open fuel cx krb5_kt_get_entry req server flag w = (Ok (ticket, part, session, auth), w') -> ac_authentp (w_ac w') = Some auth.
Proof.
  unfold rd_req_open. intros E. inv_proc E. by subst.
Qed.

Lemma finish_authentp req session auth w w' : rd_req_finish req session auth w = (Ok tt, w') -> ac_authentp (w_ac w') = ac_authentp (w_ac w).
Proof. unfold rd_req_finish. intros E. inv_proc E. destruct (_ && _); by inv_step E. Qed.

Lemma c_string_no_nul s r : c_string s = Ok r -> 0 ∉ r.
Proof.
  revert r. induction s as [|c s IH]; intros r; [done|]. cbn [c_string]. destruct (Z.eqb_spec c 0); [intros [= <-]; apply not_elem_of_nil|].
  intros (r' & E & [= <-])%obind_ok. rewrite not_elem_of_cons. split; [done|by apply IH].
Qed.

Lemma int32_range z : is_int 32 (int32 z).
Proof. unfold is_int, to_int. pose proof (Z.mod_pos_bound (z + 2 ^ (32 - 1)) (2 ^ 32)). lia. Qed.

Lemma auth_to_rep_wf ticket auth rep : krb5_auth_to_rep ticket auth = Ok rep -> wf_rep rep /\ dr_ctime rep = int32 (at_ctime auth).
Proof.
  unfold krb5_auth_to_rep. intros (? & _ & E)%obind_ok. apply obind_ok in E as (? & _ & E). apply obind_ok in E as (s & Hs & E).
  apply obind_ok in E as (? & _ & E). apply obind_ok in E as (? & _ & E). apply obind_ok in E as (c & Hc & [= <-]).
  split; [|done]. split_and!; cbn; try apply int32_range; by eapply c_string_no_nul.
Qed.

(** A request either leaves the cache alone and is refused, or it has one entry stored;
    then it is accepted only if that succeeded and the clock skew is right. *)
Lemma connection_step now usec st ac req server flag t fs :
  let ev := Connection usec st ac req server flag in
  let '(acc, t', fs') := serve1 now ev t fs in
  cache_ops now ev t fs = [] /\ t' = t /\ fs' = fs /\ acc = [] \/
  exists rep o, cache_ops now ev t fs = [(now, Store rep)] /\ wf_rep rep /\
    rc_exec (cx_tmp_names cx) (cx_clockskew cx) now (Store rep) t fs = (o, t', fs') /\
    (acc = [] \/ acc = [rep] /\ o = Ok tt /\ exists ctime, dr_ctime rep = int32 ctime /\ in_clock_skew cx ctime now = Ok true).
Proof.
  cbn [serve1 cache_ops]. unfold krb5_rd_req_decoded_opt. set (w := connect now usec st ac t fs).
  pose proof (open_keeps req server flag w) as HK. rewrite pbind_run.
  destruct (rd_req_open fuel cx krb5_kt_get_entry req server flag w) as [[[[[ticket part] session] auth]|e| |] w1] eqn:EO;
    cbn [snd] in HK; destruct HK as (HS & HF & HC); cbn [w connect w_sec w_fs w_ac ac_rcache set_rcache] in HS, HF, HC;
    try (left; by rewrite HC, HF).
  apply open_authentp in EO. rewrite pbind_run. change (get_ac w1) with (@Ok error_code _ (w_ac w1), w1). cbv iota. rewrite HC, pbind_run.
  rewrite pbind_run. change (pure ?r w1) with (r, w1). cbv iota.
  destruct (krb5_auth_to_rep ticket auth) as [rep|e| |] eqn:ER; try (left; cbn [accepted]; by rewrite HC, HF).
  apply auth_to_rep_wf in ER as HW. destruct HW as [HW Hct]. unfold krb5_rc_store at 1. rewrite HC, HF, HS. cbn [rc_exec].
  destruct (krb5_rc_dfl_store _ _ _ _ _ _) as [[o t'] fs'] eqn:ES.
  set (w2 := World _ _ _ fs' _).
  destruct o as [[]|e| |]; try (right; exists rep; eexists; split; [done|]; split; [done|]; split; [exact ES|by left]).
  set (tail := pbind krb5_timeofday _). assert (HT : keeps_cache tail) by (unfold tail; keeps; apply finish_keeps).
  specialize (HT w2). destruct (tail w2) as [r w3] eqn:ET. cbn [snd] in HT. destruct HT as (_ & HF3 & HC3).
  cbn [w2 w_fs w_ac ac_rcache set_rcache] in HF3, HC3. rewrite HF3, HC3. right. exists rep, (Ok tt).
  split; [done|]. split; [done|]. split; [done|]. destruct r as [[opts tk]|e| |]; [|by left..]. right.
  unfold tail in ET. inv_proc ET. destruct x0. apply finish_authentp in H0. cbn [w2 w_ac ac_authentp set_rcache] in H0. rewrite EO in H0.
  subst w3. cbn [accepted]. rewrite H0, ER. split; [done|]. split; [done|]. exists (at_ctime auth). split; [done|].
  unfold rd_req_checks in H. apply obind_ok in H as (? & _ & H). apply obind_ok in H as ([] & Hn & H); [done|discriminate].
Qed.
End server.

(** ** The requests over time *)

(** The entries stored, with the time. *)
Fixpoint stored (ops : list (Z * rc_op)) (res : list (outcome error_code unit)) : list (Z * krb5_donot_replay) :=
  match ops, res with
  | (now, Store r) :: ops, Ok _ :: res => (now, r) :: stored ops res
  | _ :: ops, _ :: res => stored ops res
  | _, _ => []
  end.

(** Entries that are stored while they are alive are stored once. *)
Lemma stored_once L ops : forall hist res acc, refuses_replays L hist ops res -> acc `sublist_of` stored ops res ->
  Forall (fun p => alive (Some p.1) p.2 L <> CMP_EXPIRED) acc -> NoDup (snd <$> acc) /\ Forall (fun p => p.2 ∉ hist) acc.
Proof.
  induction ops as [|[now op] ops IH]; intros hist res acc HR HS HA.
  { apply sublist_nil_r in HS as ->. split; constructor. }
  destruct op as [r| |], res as [|o res]; cbn [refuses_replays stored] in *; try done.
  - destruct HR as [(-> & Hold & HR)|(-> & _ & HR)]; [|by eapply IH].
    apply sublist_cons_r in HS as [HS|(acc' & -> & HS)].
    + destruct (IH _ _ _ HR HS HA) as [HN HF]. split; [done|]. eapply Forall_impl; [|exact HF]. intros p. rewrite not_elem_of_cons. tauto.
    + apply Forall_cons_1 in HA as [Ha HA]. destruct (IH _ _ _ HR HS HA) as [HN HF]. rewrite fmap_cons. cbn [snd fst] in *.
      assert (HF2 : Forall (fun p => p.2 <> r /\ p.2 ∉ hist) acc') by (eapply Forall_impl; [|exact HF]; intros p; by rewrite not_elem_of_cons).
      split.
      * constructor; [|done]. intros (p & -> & Hp)%list_elem_of_fmap. rewrite Forall_forall in HF2. apply list_elem_of_In in Hp. by apply HF2 in Hp as [? _].
      * constructor; [|eapply Forall_impl; [|exact HF2]; by intros p []]. intros Hin. by apply Ha, Hold.
  - destruct HR as [-> HR]. by eapply IH.
  - destruct HR as [-> HR]. by eapply IH.
Qed.

Section over_time.
Context `{P : Platform} `{St : Stack} (fuel : nat) (cx : krb5_context).
Context (krb5_kt_get_entry : krb5_principal_data -> Z -> Z -> outcome error_code krb5_keyblock).
Context (L : Z) (HL : cx_clockskew cx <= L).

(** Times so late that the lifespan of an entry ends after 2^31 - 1 are left out. *)
Definition early (now : Z) : Prop := - 2 ^ 31 <= now - cx_clockskew cx /\ now + cx_clockskew cx + L < 2 ^ 31.

Lemma in_skew_alive rep ctime now : early now -> dr_ctime rep = int32 ctime -> in_clock_skew cx ctime now = Ok true ->
  alive (Some now) rep L <> CMP_EXPIRED.
Proof.
  intros HE Hc. unfold in_clock_skew, isub. case_bool_decide; [|done]. cbn [obind]. intros [= Hs%Z.ltb_lt].
  unfold early in HE. unfold alive. rewrite Hc, (to_int_id 32 ctime) by (unfold is_int; lia). rewrite to_int_id by (unfold is_int; lia).
  destruct (Z.ltb_spec (ctime + L) now); [lia|done].
Qed.

Lemma cache_op_time now ev t fs op : op ∈ cache_ops fuel cx krb5_kt_get_entry now ev t fs -> op.1 = now /\ Forall wf_rep (op_records op).
Proof.
  destruct ev as [usec st ac req server flag|].
  - pose proof (connection_step fuel cx krb5_kt_get_entry now usec st ac req server flag t fs) as HS. cbv zeta in HS.
    destruct (serve1 _ _ _ _ _ _ _) as [[acc t'] fs']. destruct HS as [(-> & _)|(rep & o & -> & HW & _)]; [by intros ?%elem_of_nil|].
    intros ->%list_elem_of_singleton. split; [done|]. by apply Forall_singleton.
  - intros ->%list_elem_of_singleton. split; [done|constructor].
Qed.

Lemma serve_ops_times evs : forall t fs, StronglySorted Z.le (fst <$> evs) ->
  let ops := serve_ops fuel cx krb5_kt_get_entry evs t fs in
  StronglySorted Z.le (fst <$> ops) /\ Forall (fun op => op.1 ∈ (fst <$> evs) /\ Forall wf_rep (op_records op)) ops.
Proof.
  induction evs as [|[now ev] evs IH]; intros t fs HS; cbn [serve_ops]; [split; constructor|].
  rewrite fmap_cons in HS |- *. cbn [fst] in *. apply StronglySorted_inv in HS as [HS Hnow].
  destruct (serve1 _ _ _ _ _ _ _) as [[acc t'] fs']. destruct (IH t' fs' HS) as [HSo HFo].
  pose proof (cache_op_time now ev t fs) as HT.
  assert (HL1 : (length (cache_ops fuel cx krb5_kt_get_entry now ev t fs) <= 1)%nat) by (destruct ev; cbn [cache_ops]; repeat case_match; cbn; lia).
  destruct (cache_ops _ _ _ _ _ _ _) as [|op [|]]; [|destruct (HT op (list_elem_of_here _ _)) as [Ht Hw]|cbn in HL1; lia]; cbn [app].
  - split; [done|]. eapply Forall_impl; [|exact HFo]. intros op [Hin Hw]. split; [by right|done].
  - rewrite fmap_cons. split.
    + constructor; [done|]. rewrite Ht, Forall_forall. intros x Hx. apply list_elem_of_In, list_elem_of_fmap in Hx as (op' & -> & Hin).
      rewrite Forall_forall in HFo, Hnow. apply list_elem_of_In, HFo in Hin as [Hin _]. by apply Hnow, list_elem_of_In.
    + constructor; [split; [rewrite Ht; left|done]|]. eapply Forall_impl; [|exact HFo]. intros op' [Hin Hw']. split; [by right|done].
Qed.

(** What is accepted is among what is stored. *)
Lemma serve_stored evs : forall t fs, Forall (fun ev => early ev.1) evs ->
  let ops := serve_ops fuel cx krb5_kt_get_entry evs t fs in
  exists acc, serve fuel cx krb5_kt_get_entry evs t fs = snd <$> acc /\
    acc `sublist_of` stored ops (rc_run (cx_tmp_names cx) (cx_clockskew cx) ops t fs) /\
    Forall (fun p => alive (Some p.1) p.2 L <> CMP_EXPIRED) acc.
Proof.
  induction evs as [|[now ev] evs IH]; intros t fs HE; cbn [serve serve_ops]; [by exists []|].
  apply Forall_cons_1 in HE as [He HE]. cbn [fst] in He. destruct ev as [usec st ac req server flag|].
  - pose proof (connection_step fuel cx krb5_kt_get_entry now usec st ac req server flag t fs) as HS. cbv zeta in HS.
    destruct (serve1 _ _ _ _ _ _ _) as [[acc1 t'] fs']. destruct (IH t' fs' HE) as (acc & Ea & Hsub & Hal).
    destruct HS as [(-> & -> & -> & ->)|(rep & o & -> & HW & ER & HA)]; [by exists acc|]. cbn [app rc_run]. rewrite ER. cbn [stored].
    destruct HA as [-> | (-> & -> & ctime & Hc & Hs)].
    + exists acc. split; [done|]. split; [|done]. destruct o; [by apply sublist_cons|done..].
    + exists ((now, rep) :: acc). rewrite Ea. split; [done|]. split; [by apply sublist_skip|]. constructor; [|done].
      by eapply in_skew_alive.
  - cbn [serve1]. destruct (reopen _ _ _ _ _) as [[o0 t'] fs'] eqn:ER. destruct (IH t' fs' HE) as (acc & Ea & Hsub & Hal). exists acc.
    cbn [cache_ops app rc_run rc_exec]. rewrite ER. cbn [stored]. done.
Qed.
End over_time.

(** C4: A server that starts with a new replay cache, whose lifespan is at least the
    clock skew, never accepts the same authenticator twice as long as its clock does not
    go back: over any sequence of connections at times that do not decrease, with any
    requests, contexts and random numbers, and of restarts that recover the cache from
    its file, the authenticators (server, client and time) of the accepted requests are
    pairwise different. The times stay within 32 bits with skew and lifespan added, and
    the records of the file below 2^31 octets. *)
Theorem rd_req_no_replay `{P : Platform} `{St : Stack} fuel cx kt nm fs L evs :
  L <> 0 -> is_int 32 L -> cx_clockskew cx <= L -> fresh_cache (cx_tmp_names cx) nm fs ->
  StronglySorted Z.le (fst <$> evs) -> Forall (fun ev => early cx L ev.1) evs ->
  exists t fs', krb5_rc_dfl_init (cx_tmp_names cx) (cx_clockskew cx) fs (krb5_rc_dfl_resolve (Some nm)) L = (Ok tt, t, fs') /\
    (6 + records_size (serve_ops fuel cx kt evs t fs' ≫= op_records) < 2 ^ 31 -> NoDup (serve fuel cx kt evs t fs')).
Proof.
  intros HL0 HLi HL HF HS HE. destruct (init_open (cx_tmp_names cx) (cx_clockskew cx) nm fs L) as (_ & t & fs' & E & HO & HR & Ha); [|done|].
  { by rewrite (proj2 (Z.eqb_neq _ _) HL0). }
  rewrite (proj2 (Z.eqb_neq _ _) HL0) in HO. cbn [negb] in HO. exists t, fs'. split; [done|]. intros HB.
  destruct (serve_ops_times fuel cx kt evs t fs' HS) as [HSo HFo].
  destruct (serve_stored fuel cx kt L HL evs t fs' HE) as (acc & -> & Hsub & Hal). cbv zeta in *.
  set (ops := serve_ops fuel cx kt evs t fs') in *.
  destruct ops as [|[now op] ops']; [apply sublist_nil_r in Hsub as ->; constructor|].
  eapply (stored_once L); [|exact Hsub|exact Hal].
  eapply (run_refuses (cx_tmp_names cx) (cx_clockskew cx) L nm HLi _ _ now [] t fs' []); [done|done|rewrite Ha; apply knows_nothing| | |exact HB].
  - eapply Forall_impl; [|exact HFo]. by intros ? [].
  - rewrite fmap_cons in HSo |- *. cbn [fst] in *. constructor; [done|]. constructor; [lia|]. by apply StronglySorted_inv in HSo as [_ ?].
Unshelve. by rewrite (proj2 (Z.eqb_neq _ _) HL0).
Qed.
