(* ===== verification/CryptoProofs.v ===== *)
(** * Providers and what is built on them (Crypto.v)

    The classes [EncLaws] and [HashLaws] state what the library relies on in a provider;
    the theorems about key derivation, encryption and checksums are proved against them,
    and DES, triple DES and the four hash functions are instances. *)

From stdpp Require Import relations.
From S2P Require Import Prelude Words Crc32 Nfold NfoldProofs Des DesProofs DesCbcProofs Md Shs Crypto.

(** ** The laws *)

Definition octets_opt (iv : option (list octet)) : Prop := match iv with Some l => octets l | None => True end.

(** The function returned, with a result or an error code. *)
Definition returns {A} (o : outcome error_code A) : Prop := match o with Ok _ | Err _ => True | _ => False end.

Class EncLaws (enc : krb5_enc_provider) : Prop := {
  enc_block_pos : 0 < enc_block_size enc <= 64;
  enc_encrypt_ok key iv m n c :
    octets (key_contents key) -> octets_opt iv -> octets m -> enc_encrypt enc key iv m n = Ok c ->
    n = zlen m /\ zlen c = zlen m /\ octets c /\ enc_decrypt enc key iv c n = Ok m;
  enc_decrypt_ok key iv c n m :
    octets (key_contents key) -> octets_opt iv -> octets c -> enc_decrypt enc key iv c n = Ok m ->
    n = zlen c /\ zlen m = zlen c /\ octets m /\ enc_encrypt enc key iv m n = Ok c;
  enc_encrypt_returns key iv m n :
    octets (key_contents key) -> octets_opt iv -> octets m -> returns (enc_encrypt enc key iv m n);
  enc_make_key_returns r n : octets r -> returns (enc_make_key enc r n);
  enc_make_key_ok r n k : octets r -> enc_make_key enc r n = Ok k -> octets k /\ zlen k = n
}.

Class HashLaws (hash : krb5_hash_provider) : Prop := {
  hash_size_pos : 0 < hash_size hash <= 64;
  hash_ok input d : hash_hash hash input (hash_size hash) = Ok d -> zlen d = hash_size hash /\ octets d
}.

(** ** DES and triple DES *)

Lemma des_key_sched_both key : zlen key = 8 -> octets key ->
  exists schedule ret, mit_des_key_sched key = Ok (schedule, ret) /\ both (DES_DO_ENCRYPT schedule) (DES_DO_DECRYPT schedule).
Proof.
  intros Hk Ho. destruct (des_key_both key ltac:(unfold zlen in Hk; lia) Ho) as (s & E & B).
  unfold mit_des_key_sched. rewrite E. cbn [obind].
  destruct (negb _); [by do 2 eexists|]. destruct (mit_des_is_weak_key key); by do 2 eexists.
Qed.

Lemma ivec_default iv : octets_opt iv -> match iv with Some iv => negb (zlen iv =? 8) | None => false end = false ->
  octets (default mit_des_zeroblock iv) /\ zlen (default mit_des_zeroblock iv) = 8.
Proof.
  destruct iv as [iv|]; cbn; intros Ho H; [|split; [by repeat constructor|done]]. apply negb_false_iff, Z.eqb_eq in H. done.
Qed.

(** The two directions of a docrypt function; [chain] is the cipher that the key gives. *)
Lemma des_docrypt_inverse (encrypt : bool) key iv m n c :
  octets (key_contents key) -> octets_opt iv -> octets m -> k5_des_docrypt key iv m n encrypt = Ok c ->
  n = zlen m /\ zlen c = zlen m /\ octets c /\ k5_des_docrypt key iv c n (negb encrypt) = Ok m.
Proof.
  intros Hk Hi Hm. unfold k5_des_docrypt.
  destruct (Z.eqb_spec (zlen (key_contents key)) 8) as [E8|]; cbn [negb]; [|discriminate].
  destruct (Z.eqb_spec (zlen m mod 8) 0) as [Em|]; cbn [negb]; [|discriminate].
  destruct (match iv with Some _ => _ | None => _ end) eqn:Ei; [discriminate|].
  destruct (Z.eqb_spec (zlen m) n) as [En|]; cbn [negb]; [|discriminate].
  destruct (des_key_sched_both _ E8 Hk) as (s & ret & -> & B). cbn [obind].
  destruct (ret =? -1); [discriminate|]. destruct (ret =? -2); [discriminate|].
  destruct (ivec_default iv Hi Ei) as [Oi Li]. destruct (cbc_both _ _ _ B Oi Li) as [CE CD].
  unfold mit_des_cbc_encrypt. intros E.
  destruct encrypt; [destruct (CE m Hm Em) as (c' & E' & L & O & D)|destruct (CD m Hm Em) as (c' & E' & L & O & D)];
    rewrite E' in E; injection E as <-; rewrite L, Em, En; cbn [Z.eqb negb]; rewrite Z.eqb_refl; cbn [negb];
    rewrite L in D; rewrite En in D; rewrite D; done.
Qed.

Lemma des_docrypt_returns (encrypt : bool) key iv m n :
  octets (key_contents key) -> octets_opt iv -> octets m -> returns (k5_des_docrypt key iv m n encrypt).
Proof.
  intros Hk Hi Hm. unfold k5_des_docrypt.
  destruct (Z.eqb_spec (zlen (key_contents key)) 8) as [E8|]; cbn [negb]; [|done].
  destruct (Z.eqb_spec (zlen m mod 8) 0) as [Em|]; cbn [negb]; [|done].
  destruct (match iv with Some _ => _ | None => _ end) eqn:Ei; [done|].
  destruct (negb (zlen m =? n)); [done|].
  destruct (des_key_sched_both _ E8 Hk) as (s & ret & -> & B). cbn [obind].
  destruct (ret =? -1); [done|]. destruct (ret =? -2); [done|].
  destruct (ivec_default iv Hi Ei) as [Oi Li]. destruct (cbc_both _ _ _ B Oi Li) as [CE CD]. unfold mit_des_cbc_encrypt.
  destruct encrypt; [destruct (CE m Hm Em) as (c & -> & _)|destruct (CD m Hm Em) as (c & -> & _)]; done.
Qed.

Lemma des3_docrypt_returns (encrypt : bool) key iv m n :
  octets (key_contents key) -> octets_opt iv -> octets m -> returns (k5_des3_docrypt key iv m n encrypt).
Proof.
  intros Hk Hi Hm. unfold k5_des3_docrypt.
  destruct (Z.eqb_spec (zlen (key_contents key)) 24) as [E8|]; cbn [negb]; [|done].
  destruct (Z.eqb_spec (zlen m mod 8) 0) as [Em|]; cbn [negb]; [|done].
  destruct (match iv with Some _ => _ | None => _ end) eqn:Ei; [done|].
  destruct (negb (zlen m =? n)); [done|].
  destruct (des3_key_both (key_contents key) ltac:(unfold zlen in E8; lia) Hk) as (s0 & s1 & s2 & ret & -> & B). cbn [obind].
  destruct (ret =? -1); [done|]. destruct (ret =? -2); [done|].
  destruct (ivec_default iv Hi Ei) as [Oi Li]. destruct (cbc_both _ _ _ B Oi Li) as [CE CD]. unfold mit_des3_cbc_encrypt.
  destruct encrypt; [destruct (CE m Hm Em) as (c & -> & _)|destruct (CD m Hm Em) as (c & -> & _)]; done.
Qed.

Lemma des3_docrypt_inverse (encrypt : bool) key iv m n c :
  octets (key_contents key) -> octets_opt iv -> octets m -> k5_des3_docrypt key iv m n encrypt = Ok c ->
  n = zlen m /\ zlen c = zlen m /\ octets c /\ k5_des3_docrypt key iv c n (negb encrypt) = Ok m.
Proof.
  intros Hk Hi Hm. unfold k5_des3_docrypt.
  destruct (Z.eqb_spec (zlen (key_contents key)) 24) as [E8|]; cbn [negb]; [|discriminate].
  destruct (Z.eqb_spec (zlen m mod 8) 0) as [Em|]; cbn [negb]; [|discriminate].
  destruct (match iv with Some _ => _ | None => _ end) eqn:Ei; [discriminate|].
  destruct (Z.eqb_spec (zlen m) n) as [En|]; cbn [negb]; [|discriminate].
  destruct (des3_key_both (key_contents key) ltac:(unfold zlen in E8; lia) Hk) as (s0 & s1 & s2 & ret & -> & B). cbn [obind].
  destruct (ret =? -1); [discriminate|]. destruct (ret =? -2); [discriminate|].
  destruct (ivec_default iv Hi Ei) as [Oi Li]. destruct (cbc_both _ _ _ B Oi Li) as [CE CD].
  unfold mit_des3_cbc_encrypt. intros E.
  destruct encrypt; [destruct (CE m Hm Em) as (c' & E' & L & O & D)|destruct (CD m Hm Em) as (c' & E' & L & O & D)];
    rewrite E' in E; injection E as <-; rewrite L, Em, En; cbn [Z.eqb negb]; rewrite Z.eqb_refl; cbn [negb];
    rewrite L in D; rewrite En in D; rewrite D; done.
Qed.

(** Odd parity, octet by octet. *)
Lemma fixup_octet o : is_octet o ->
  let k := Z.land o 0xfe in
  let p := Z.lor k (Z.lxor 1 (parity_char k)) in
  is_octet p /\ negb (Z.land p 1 =? parity_char (Z.land 0xfe p)) = true /\ Z.shiftr p 1 = Z.shiftr o 1.
Proof.
  intros Ho k p.
  assert (Q : (0 <=? p) && (p <? 256) && negb (Z.land p 1 =? parity_char (Z.land 0xfe p)) && (Z.shiftr p 1 =? Z.shiftr o 1) = true).
  { unfold p, k. revert o Ho k p. apply (octet_case (fun o => let k := Z.land o 0xfe in
      let p := Z.lor k (Z.lxor 1 (parity_char k)) in
      (0 <=? p) && (p <? 256) && negb (Z.land p 1 =? parity_char (Z.land 0xfe p)) && (Z.shiftr p 1 =? Z.shiftr o 1))).
    vm_compute. reflexivity. }
  rewrite !andb_true_iff in Q. destruct Q as [[[Q1 Q2] Q3] Q4]. split_and!; [split; lia|done|lia].
Qed.

Lemma fixup_parity key : octets key ->
  octets (mit_des_fixup_key_parity key) /\ length (mit_des_fixup_key_parity key) = length key /\
  mit_des_check_key_parity (mit_des_fixup_key_parity key) = true.
Proof.
  induction 1 as [|o key Ho _ (IH1 & IH2 & IH3)]; [done|]. destruct (fixup_octet o Ho) as (P1 & P2 & _).
  split_and!; [by constructor|cbn; by f_equal|].
  cbn [mit_des_fixup_key_parity fmap list_fmap mit_des_check_key_parity forallb]. by apply andb_true_iff.
Qed.

Lemma des_spread_ok r : octets r -> length r = 7%nat -> octets (des_spread r) /\ length (des_spread r) = 8%nat.
Proof.
  intros Ho Hl. unfold des_spread. split; [|by rewrite length_app, Hl]. apply Forall_app. split; [done|].
  constructor; [|constructor].
  assert (B : forall i k, 0 <= k < 8 -> is_octet (Z.shiftl (Z.land (table_at r i) 1) k)).
  { intros i k Hk. change 1 with (Z.ones 1). rewrite Z.land_ones, Z.shiftl_mul_pow2 by lia.
    pose proof (Z.mod_pos_bound (table_at r i) (2 ^ 1)). pose proof (Z.pow_le_mono_r 2 k 7).
    pose proof (Z.pow_pos_nonneg 2 k). unfold is_uint. change (2 ^ 1) with 2 in *. nia. }
  repeat (apply lor_range; [done| |]); by apply B.
Qed.

#[export] Instance des_laws : EncLaws krb5_enc_des.
Proof.
  split; [done|..].
  - intros key iv m n c Hk Hi Hm E. by apply (des_docrypt_inverse true).
  - intros key iv c n m Hk Hi Hm E. by apply (des_docrypt_inverse false).
  - intros key iv m n. by apply (des_docrypt_returns true).
  - intros r n Hr. cbn. unfold k5_des_make_key. by do 2 (destruct (negb _); [done|]).
  - intros r n k Hr E. cbn [enc_make_key krb5_enc_des] in E. unfold k5_des_make_key in E.
    destruct (Z.eqb_spec n 8) as [->|]; [|discriminate]. destruct (Z.eqb_spec (zlen r) 7) as [E7|]; [|discriminate].
    injection E as <-. destruct (des_spread_ok r Hr ltac:(unfold zlen in E7; lia)) as [Os Ls].
    destruct (fixup_parity _ Os) as (O & L & _). split; [done|]. unfold zlen. rewrite L, Ls. done.
Qed.

#[export] Instance des3_laws : EncLaws krb5_enc_des3.
Proof.
  split; [done|..].
  - intros key iv m n c Hk Hi Hm E. by apply (des3_docrypt_inverse true).
  - intros key iv c n m Hk Hi Hm E. by apply (des3_docrypt_inverse false).
  - intros key iv m n. by apply (des3_docrypt_returns true).
  - intros r n Hr. cbn. unfold k5_des3_make_key. by do 2 (destruct (negb _); [done|]).
  - intros r n k Hr E. cbn [enc_make_key krb5_enc_des3] in E. unfold k5_des3_make_key in E.
    destruct (Z.eqb_spec n 24) as [->|]; [|discriminate]. destruct (Z.eqb_spec (zlen r) 21) as [E7|]; [|discriminate].
    injection E as <-. assert (P : forall i, (i < 3)%nat -> octets (des3_key_part r i) /\ length (des3_key_part r i) = 8%nat).
    { intros i Hi. destruct (des_spread_ok (take 7 (drop (i * 7) r))) as [Os Ls]; [by apply Forall_take, Forall_drop| |].
      - rewrite length_take, length_drop. unfold zlen in E7. lia.
      - destruct (fixup_parity _ Os) as (O & L & _). split; [done|]. unfold des3_key_part. by rewrite L, Ls. }
    destruct (P 0%nat ltac:(lia)) as [O0 L0], (P 1%nat ltac:(lia)) as [O1 L1], (P 2%nat ltac:(lia)) as [O2 L2].
    split; [by repeat (apply Forall_app; split)|]. unfold zlen. rewrite !length_app. by rewrite L0, L1, L2.
Qed.

(** ** The hash functions *)

Lemma le32_octets w : octets (le32 w).
Proof. unfold le32. repeat (apply Forall_cons_2; [by apply land_range|]). constructor. Qed.

Lemma md_final_length T ctx : let d := md_digest (md_Final T ctx) in octets d /\ zlen d = 16.
Proof.
  unfold md_Final. destruct (T _ _) as [[[b0 b1] b2] b3]. cbn [md_digest]. split; [|done].
  repeat (apply Forall_app; split); apply le32_octets.
Qed.

Section hash_laws.
Context `{Stack}.

#[export] Instance crc32_laws : HashLaws krb5_hash_crc32.
Proof.
  split; [done|]. intros input d E. injection E as <-. split; [done|apply le32_octets].
Qed.

#[export] Instance md4_laws : HashLaws krb5_hash_md4.
Proof. split; [done|]. intros input d E. injection E as <-. destruct (md_final_length md4_Transform (foldl krb5_MD4Update (krb5_MD4Init md_stack) input)). done. Qed.

#[export] Instance md5_laws : HashLaws krb5_hash_md5.
Proof. split; [done|]. intros input d E. injection E as <-. destruct (md_final_length md5_Transform (foldl krb5_MD5Update (krb5_MD5Init md_stack) input)). done. Qed.

#[export] Instance sha1_laws : HashLaws krb5_hash_sha1.
Proof.
  split; [done|]. intros input d E. cbn [hash_hash krb5_hash_sha1 hash_size] in E. unfold k5_sha1_hash in E. cbn [Z.eqb negb SHS_DIGESTSIZE] in E.
  destruct (shs_updates _ _) as [ctx| | |]; try discriminate. cbn [obind] in E.
  destruct (shs_digest (shsFinal ctx)) as [[[[d0 d1] d2] d3] d4]. injection E as <-. split; [done|].
  unfold be32. repeat (apply Forall_cons_2; [by apply land_range|]). constructor.
Qed.
End hash_laws.

(** ** The random number generator *)

Definition prng_wf (st : prng) : Prop :=
  rnd_inited st = true ->
  octets (rnd_state st) /\ zlen (rnd_state st) = STATESIZE /\
  0 <= rnd_count st <= 8 /\ (0 < rnd_count st -> octets (rnd_block st) /\ zlen (rnd_block st) = 8).

Lemma nfold_octets d n : octets (krb5_nfold (zlen d * 8) d (Z.of_nat n * 8)) /\ zlen (krb5_nfold (zlen d * 8) d (Z.of_nat n * 8)) = Z.of_nat n.
Proof.
  destruct (nfold_shape (zlen d * 8) d (Z.of_nat n * 8)) as [O L]. split; [done|]. unfold zlen at 1. rewrite L.
  rewrite Z.shiftr_div_pow2 by lia. change (2 ^ 3) with 8. rewrite Z.div_mul by lia. lia.
Qed.

Lemma seed_wf st d : octets d -> prng_wf st -> prng_wf (krb5_c_random_seed st d).
Proof.
  intros Hd HW. unfold krb5_c_random_seed, prng_wf. destruct (rnd_inited st) eqn:E; cbn [negb rnd_inited rnd_state rnd_block rnd_count]; intros _.
  - destruct (HW E) as (Os & Ls & Hc & Hb).
    replace (zlen d + STATESIZE) with (zlen (d ++ rnd_state st)) by (rewrite zlen_app, Ls; done).
    destruct (nfold_octets (d ++ rnd_state st) 15) as [O L]. done.
  - destruct (nfold_octets d 15) as [O L]. split_and!; try done; lia.
Qed.

(** A refill, if the key that the state gives is not weak. *)
Lemma refill_wf st st' : prng_wf st -> rnd_inited st = true -> prng_refill st = Ok st' ->
  prng_wf st' /\ rnd_inited st' = true /\ rnd_count st' = 8.
Proof.
  intros HW HI. destruct (HW HI) as (Os & Ls & _ & _). unfold prng_refill.
  destruct (enc_make_key _ _ _) as [key| | |] eqn:EK; try discriminate. cbn [obind].
  assert (Ok7 : octets (take 7 (rnd_state st))) by (by apply Forall_take).
  destruct (enc_make_key_ok _ _ _ Ok7 EK) as [Ho _].
  destruct (enc_encrypt _ _ _ _ _) as [block| | |] eqn:EB; try discriminate. cbn [obind]. injection 1 as <-.
  assert (Od : octets (drop 7 (rnd_state st))) by (by apply Forall_drop).
  destruct (enc_encrypt_ok (Key 0 key) None _ _ _ Ho I Od EB) as (Eb & Lb & Ob & _).
  split; [|done]. unfold prng_wf. cbn [rnd_inited rnd_state rnd_block rnd_count]. intros _.
  assert (Z8 : zlen block = 8) by (rewrite Lb, <- Eb; done).
  replace OUTPUTSIZE with (zlen (rnd_state st ++ block)) by (rewrite zlen_app, Ls, Z8; done).
  destruct (nfold_octets (rnd_state st ++ block) 15) as [O L].
  split_and!; try done.
Qed.

Lemma refill_returns st : prng_wf st -> rnd_inited st = true -> returns (prng_refill st).
Proof.
  intros HW HI. destruct (HW HI) as (Os & Ls & _ & _). unfold prng_refill.
  assert (Ok7 : octets (take 7 (rnd_state st))) by (by apply Forall_take).
  pose proof (enc_make_key_returns (enc := prng_enc) (take 7 (rnd_state st)) (enc_keylength prng_enc) Ok7) as RK.
  change (Z.to_nat (enc_keybytes prng_enc)) with 7%nat.
  destruct (enc_make_key prng_enc _ _) as [key| | |] eqn:EK; try done. cbn [obind].
  destruct (enc_make_key_ok _ _ _ Ok7 EK) as [Ho _].
  pose proof (enc_encrypt_returns (enc := prng_enc) (Key 0 key) None (drop 7 (rnd_state st)) (enc_block_size prng_enc) Ho I) as RE.
  destruct (enc_encrypt prng_enc _ _ _ _); try done; apply RE; by apply Forall_drop.
Qed.

Lemma prng_wf_count st k : prng_wf st -> 0 <= k <= rnd_count st ->
  prng_wf (Prng (rnd_inited st) (rnd_state st) (rnd_block st) k).
Proof.
  intros HW Hk HI. destruct (HW HI) as (Os & Ls & Hc & Hb). cbn [rnd_inited rnd_state rnd_block rnd_count].
  split_and!; try done; try lia; intros; apply Hb; lia.
Qed.

Lemma avail_ok st k : prng_wf st -> rnd_inited st = true -> 0 < rnd_count st -> 0 <= k <= rnd_count st ->
  let a := take (Z.to_nat k) (drop (Z.to_nat (8 - rnd_count st)) (rnd_block st)) in octets a /\ zlen a = k.
Proof.
  intros HW HI Hp Hk. destruct (HW HI) as (_ & _ & Hc & Hb). destruct (Hb Hp) as [Ob Lb].
  split; [by apply Forall_take, Forall_drop|]. unfold zlen in *. rewrite length_take, length_drop. lia.
Qed.

(** The state from which octets are taken. *)
Lemma filled st st1 : prng_wf st -> rnd_inited st = true ->
  (if rnd_count st =? 0 then prng_refill st else Ok st) = Ok st1 ->
  prng_wf st1 /\ rnd_inited st1 = true /\ 0 < rnd_count st1.
Proof.
  intros HW HI ER. destruct (Z.eqb_spec (rnd_count st) 0) as [E|E].
  - destruct (refill_wf st st1 HW HI ER) as (? & ? & ->). split_and!; try done; lia.
  - injection ER as <-. destruct (HW HI) as (_ & _ & Hc & _). split_and!; try done; lia.
Qed.

(** A request with enough fuel returns, and the state stays well-formed. *)
Lemma make_octets_loop_wf fuel st n : prng_wf st -> rnd_inited st = true -> 0 <= n < Z.of_nat fuel ->
  let '(r, st') := make_octets_loop fuel st n in
  prng_wf st' /\ rnd_inited st' = true /\ returns r /\ (forall o, r = Ok o -> octets o /\ zlen o = n).
Proof.
  revert st n. induction fuel as [|fuel IH]; intros st n HW HI Hf; cbn [make_octets_loop]; [lia|].
  - destruct (Z.ltb_spec 0 n) as [Hn|Hn]; cbn [negb].
    2:{ split_and!; try done. intros o E. injection E as <-. split; [constructor|]. rewrite zlen_nil. lia. }
    destruct (if rnd_count st =? 0 then prng_refill st else Ok st) as [st1|e| |] eqn:ER.
    2: by split_and!.
    2,3: exfalso; destruct (rnd_count st =? 0); [|discriminate]; pose proof (refill_returns st HW HI) as R; by rewrite ER in R.
    destruct (filled st st1 HW HI ER) as (W1 & I1 & C1). change (enc_block_size prng_enc) with 8.
    destruct (Z.leb_spec n (rnd_count st1)) as [Hle|Hgt].
    + split; [by apply prng_wf_count; [|lia]|]. split_and!; try done. intros o E. injection E as <-.
      destruct (avail_ok st1 n W1 I1 C1) as [O L]; [lia|]. split; [done|]. rewrite L. lia.
    + pose proof (IH (Prng (rnd_inited st1) (rnd_state st1) (rnd_block st1) 0) (n - rnd_count st1)
                    (prng_wf_count st1 0 W1 ltac:(lia)) I1 ltac:(lia)) as R.
      destruct (make_octets_loop fuel _ _) as [r st']. destruct R as (W' & I' & R' & O'). split; [done|]. split; [done|].
      destruct (avail_ok st1 (rnd_count st1) W1 I1 C1) as [O L]; [lia|].
      destruct r as [rest| | |]; try done. cbn [obind]. split; [done|]. intros o E. injection E as <-.
      destruct (O' rest eq_refl) as [Or Lr]. split; [by apply Forall_app|]. rewrite zlen_app, L, Lr. lia.
Qed.

Lemma make_octets_wf st n : prng_wf st -> rnd_inited st = true -> 0 <= n ->
  let '(r, st') := krb5_c_random_make_octets st n in
  prng_wf st' /\ rnd_inited st' = true /\ returns r /\ (forall o, r = Ok o -> octets o /\ zlen o = n).
Proof.
  intros HW HI Hn. unfold krb5_c_random_make_octets. rewrite HI. cbn [negb].
  apply make_octets_loop_wf; [done..|lia].
Qed.

(** What the rest of the library does with the generator, and prng_cleanup. *)
Inductive prng_step : prng -> prng -> Prop :=
| step_seed st d : octets d -> prng_step st (krb5_c_random_seed st d)
| step_octets st n r st' : rnd_inited st = true -> 0 <= n -> krb5_c_random_make_octets st n = (r, st') -> prng_step st st'
| step_cleanup st : prng_step st (prng_cleanup st).

(** In every state that seeding, requests and cleaning up can lead to and that is
    seeded, a request for random octets returns, and what it returns are as many octets
    as were asked for; no state makes it read outside the state of the generator. *)
Theorem prng_invariant st0 st n :
  rnd_inited st0 = false -> rtc prng_step st0 st -> rnd_inited st = true -> 0 <= n ->
  let '(r, _) := krb5_c_random_make_octets st n in
  returns r /\ forall o, r = Ok o -> octets o /\ zlen o = n.
Proof.
  intros H0 Hr HI Hn. assert (HW : prng_wf st).
  { assert (W0 : prng_wf st0) by (intros E; by rewrite E in H0). clear H0 HI. induction Hr as [|x y z Hxy _ IH]; [done|].
    apply IH. destruct Hxy as [st d Hd|st k r st' HI Hk E|st].
    - by apply seed_wf.
    - pose proof (make_octets_wf st k W0 HI Hk) as R. rewrite E in R. apply R.
    - intros E. discriminate. }
  pose proof (make_octets_wf st n HW HI Hn) as R. destruct (krb5_c_random_make_octets st n).
  by destruct R as (_ & _ & ? & ?).
Qed.

(** *** A request in two parts *)

(** The result of a second request behind a first one. *)
Definition and_then (p : outcome error_code (list octet) * prng)
    (f : prng -> outcome error_code (list octet) * prng) : outcome error_code (list octet) * prng :=
  match p with
  | (Ok o, st) => let '(r, st') := f st in (let* o' := r in Ok (o ++ o'), st')
  | _ => p
  end.

Lemma make_octets_fuel f g st n : prng_wf st -> rnd_inited st = true -> 0 <= n < Z.of_nat f -> n < Z.of_nat g ->
  make_octets_loop f st n = make_octets_loop g st n.
Proof.
  revert g st n. induction f as [|f IH]; intros g st n HW HI Hf Hg; [lia|]. destruct g as [|g]; [lia|].
  cbn [make_octets_loop]. destruct (Z.ltb_spec 0 n) as [Hn|]; [|done]. cbn [negb].
  destruct (if rnd_count st =? 0 then prng_refill st else Ok st) as [st1|e| |] eqn:ER; try done.
  destruct (filled st st1 HW HI ER) as (W1 & I1 & C1). destruct (Z.leb_spec n (rnd_count st1)); [done|].
  rewrite (IH g); [done|apply prng_wf_count; [done|lia]|done|lia..].
Qed.

Lemma obind_ok_nil {E A} (r : outcome E (list A)) : (let* o := r in Ok ([] ++ o)) = r.
Proof. by destruct r. Qed.

(** The octets that are left of a block. *)
Lemma avail_split st n k : 0 <= n -> 0 <= k -> n + k <= rnd_count st -> rnd_count st <= 8 ->
  let a c := drop (Z.to_nat (8 - c)) (rnd_block st) in
  take (Z.to_nat n) (a (rnd_count st)) ++ take (Z.to_nat k) (a (rnd_count st - n)) = take (Z.to_nat (n + k)) (a (rnd_count st)).
Proof.
  intros Hn Hk Hc H8 a. unfold a. rewrite Z2Nat.inj_add by done.
  replace (Z.to_nat (8 - (rnd_count st - n))) with (Z.to_nat (8 - rnd_count st) + Z.to_nat n)%nat by lia.
  rewrite <- drop_drop. set (l := drop _ (rnd_block st)). by rewrite <- take_take_drop.
Qed.

Lemma make_octets_eq fuel st n : 0 < n ->
  make_octets_loop (S fuel) st n =
  match (if rnd_count st =? 0 then prng_refill st else Ok st) with
  | Ok st =>
      let avail := drop (Z.to_nat (8 - rnd_count st)) (rnd_block st) in
      if n <=? rnd_count st then
        (Ok (take (Z.to_nat n) avail), Prng (rnd_inited st) (rnd_state st) (rnd_block st) (rnd_count st - n))
      else
        let '(r, st') := make_octets_loop fuel (Prng (rnd_inited st) (rnd_state st) (rnd_block st) 0) (n - rnd_count st) in
        (let* rest := r in Ok (take (Z.to_nat (rnd_count st)) avail ++ rest), st')
  | Err e => (Err e, st)
  | Undefined => (Undefined, st)
  | OutOfFuel => (OutOfFuel, st)
  end.
Proof. intros Hn. cbn [make_octets_loop]. by rewrite (proj2 (Z.ltb_lt 0 n)). Qed.

Lemma make_octets_split fuel st n k : prng_wf st -> rnd_inited st = true -> 0 <= n -> 0 <= k -> n + k < Z.of_nat fuel ->
  make_octets_loop fuel st (n + k) = and_then (make_octets_loop fuel st n) (fun st => make_octets_loop fuel st k).
Proof.
  revert st n k. induction fuel as [|fuel IH]; intros st n k HW HI Hn Hk Hf; [lia|].
  destruct (Z.eq_dec n 0) as [->|Hn0].
  { rewrite Z.add_0_l. replace (make_octets_loop (S fuel) st 0) with (@Ok error_code (list octet) [], st) by done. cbn [and_then].
    destruct (make_octets_loop (S fuel) st k) as [r st']. by rewrite obind_ok_nil. }
  rewrite (make_octets_eq fuel st n), (make_octets_eq fuel st (n + k)) by lia.
  destruct (if rnd_count st =? 0 then prng_refill st else Ok st) as [st1|e| |] eqn:ER; try done.
  destruct (filled st st1 HW HI ER) as (W1 & I1 & C1). destruct (W1 I1) as (_ & _ & C8 & _). cbv zeta.
  pose proof (prng_wf_count st1 0 W1 ltac:(lia)) as W0.
  destruct (Z.leb_spec n (rnd_count st1)) as [Hle|Hgt].
  - cbn [and_then]. destruct (Z.eq_dec k 0) as [->|Hk0].
    { rewrite Z.add_0_r, (proj2 (Z.leb_le _ _)) by done. cbn. by rewrite app_nil_r. }
    destruct (Z.leb_spec (n + k) (rnd_count st1)) as [Hle2|Hgt2].
    + rewrite make_octets_eq by lia. cbn [rnd_count rnd_inited rnd_state rnd_block]. rewrite (proj2 (Z.eqb_neq _ _)) by lia.
      cbn [rnd_count rnd_inited rnd_state rnd_block].
      rewrite (proj2 (Z.leb_le k _)) by lia. cbn [obind]. rewrite <- avail_split by lia. do 2 f_equal. lia.
    + destruct (Z.eq_dec (rnd_count st1 - n) 0) as [E0|E0].
      * rewrite E0, (make_octets_fuel (S fuel) fuel) by (try done; lia).
        replace (rnd_count st1) with n by lia. by replace (n + k - n) with k by lia.
      * rewrite make_octets_eq by lia. cbn [rnd_count rnd_inited rnd_state rnd_block]. rewrite (proj2 (Z.eqb_neq _ _)) by lia.
        cbn [rnd_count rnd_inited rnd_state rnd_block]. rewrite (proj2 (Z.leb_gt k _)) by lia.
        replace (k - (rnd_count st1 - n)) with (n + k - rnd_count st1) by lia.
        destruct (make_octets_loop fuel _ (n + k - rnd_count st1)) as [r st']. f_equal. destruct r as [o| | |]; try done.
        cbn [obind]. f_equal. rewrite app_assoc. f_equal.
        pose proof (avail_split st1 n (rnd_count st1 - n)) as A. cbv zeta in A. rewrite A by lia. do 2 f_equal. lia.
  - rewrite (proj2 (Z.leb_gt _ _)) by lia. replace (n + k - rnd_count st1) with ((n - rnd_count st1) + k) by lia.
    rewrite IH by (try done; lia).
    pose proof (make_octets_loop_wf fuel _ (n - rnd_count st1) W0 I1 ltac:(lia)) as R.
    destruct (make_octets_loop fuel _ (n - rnd_count st1)) as [[o| | |] st']; try done. destruct R as (W' & I' & _ & _).
    cbn [and_then obind]. rewrite (make_octets_fuel (S fuel) fuel st') by (try done; lia).
    destruct (make_octets_loop fuel st' k) as [[o'| | |] st'']; cbn [obind]; [by rewrite app_assoc|done..].
Qed.

(** The octets a caller gets do not depend on how the requests are cut: a request for n
    + k octets is a request for n followed by one for k. *)
Theorem prng_stream st n k : prng_wf st -> rnd_inited st = true -> 0 <= n -> 0 <= k ->
  krb5_c_random_make_octets st (n + k) =
  and_then (krb5_c_random_make_octets st n) (fun st => krb5_c_random_make_octets st k).
Proof.
  intros HW HI Hn Hk. unfold krb5_c_random_make_octets at 1 2. rewrite HI. cbn [negb].
  pose proof (make_octets_loop_wf (S (Z.to_nat n)) st n HW HI ltac:(lia)) as R.
  rewrite (make_octets_split _ st n k) by (try done; lia).
  rewrite (make_octets_fuel (S (Z.to_nat (n + k))) (S (Z.to_nat n)) st n) by (try done; lia).
  destruct (make_octets_loop (S (Z.to_nat n)) st n) as [[o| | |] st']; try done. destruct R as (W' & I' & _ & _).
  cbn [and_then]. unfold krb5_c_random_make_octets. rewrite I'. cbn [negb].
  by rewrite (make_octets_fuel (S (Z.to_nat (n + k))) (S (Z.to_nat k)) st' k) by (try done; lia).
Qed.
