(* ===== verification/CryptoEnc.v ===== *)
(** * Encryption and checksums as inverse pairs (Crypto.v, CryptoApi.v)

    What krb5_c_encrypt returns, krb5_c_decrypt turns back into the plaintext, filled with
    zeros to whole blocks; what krb5_c_make_checksum returns, krb5_c_verify_checksum
    accepts.  Conversely krb5_dk_decrypt accepts nothing but the encryption of its result
    together with its HMAC. *)

From S2P Require Import Prelude Words Crc32 Nfold NfoldProofs Des DesProofs DesCbcProofs Md Shs Crypto CryptoProofs CryptoApi.

(** ** Derived keys and HMAC *)

Lemma nfold_block d n : octets d -> d <> [] -> 0 < n -> octets (krb5_nfold (zlen d * 8) d (n * 8)).
Proof.
  intros Hd Hne Hn. replace n with (Z.of_nat (Z.to_nat n)) by lia. apply nfold_octets.
Qed.

Section derive.
Context (enc : krb5_enc_provider) `{!EncLaws enc}.

Lemma derive_loop_octets fuel key n b r : octets (key_contents key) -> octets b ->
  derive_loop enc key fuel n b = Ok r -> octets r.
Proof.
  intros Hk. revert n b r. induction fuel as [|fuel IH]; intros n b r Hb; cbn [derive_loop]; [discriminate|].
  destruct (negb _); [injection 1 as <-; constructor|].
  destruct (enc_encrypt enc key None b _) as [o| | |] eqn:E; try discriminate.
  destruct (enc_encrypt_ok key None b _ o Hk I Hb E) as (_ & _ & Oo & _).
  destruct (_ <=? _); [injection 1 as <-; by apply Forall_take|].
  destruct (derive_loop _ _ _ _ _) as [rest| | |] eqn:ER; try discriminate. injection 1 as <-.
  apply Forall_app. split; [done|]. by eapply IH.
Qed.

Lemma derive_key_ok key n c k : octets (key_contents key) -> octets c -> c <> [] ->
  krb5_derive_key enc key n c = Ok k -> octets k /\ zlen k = n.
Proof.
  intros Hk Hc Hne. unfold krb5_derive_key. destruct (negb _ || negb _); [discriminate|].
  destruct (derive_loop _ _ _ _ _) as [r| | |] eqn:E; try discriminate. cbn [obind].
  assert (Or : octets r).
  { eapply derive_loop_octets; [exact Hk| |exact E]. destruct (_ =? _); [done|].
    apply nfold_block; [done..|apply enc_block_pos]. }
  destruct (enc_make_key enc r n) as [k'| | |] eqn:EK; try discriminate. injection 1 as <-. by apply (enc_make_key_ok r).
Qed.
End derive.

Lemma usage_constant_ok u b : is_octet b -> octets (usage_constant u b) /\ usage_constant u b <> [].
Proof. intros Hb. split; [|done]. apply Forall_app. split; [apply be32_octets|by constructor]. Qed.

Lemma hmac_ok hash `{!HashLaws hash} k inp n d : krb5_hmac hash k inp n = Ok d -> zlen d = hash_size hash /\ octets d.
Proof.
  unfold krb5_hmac. destruct (_ <? _); [discriminate|]. destruct (_ <? _); [discriminate|]. destruct (_ =? _); [discriminate|].
  destruct (hash_hash hash _ _) as [i| | |]; try discriminate. cbn [obind]. apply hash_ok.
Qed.

(** The output buffer must have room for the hash, more room does not matter. *)
Lemma hmac_room hash k inp n n' : hash_size hash <= n -> hash_size hash <= n' -> krb5_hmac hash k inp n = krb5_hmac hash k inp n'.
Proof. intros H H'. unfold krb5_hmac. by rewrite !(proj2 (Z.ltb_ge _ (hash_size hash))). Qed.

Lemma roundup_spec x b : 0 < b -> 0 <= x -> x <= krb5_roundup x b < x + b /\ krb5_roundup x b mod b = 0.
Proof.
  intros Hb Hx. unfold krb5_roundup. split; [|by rewrite Z.mod_mul by lia].
  pose proof (Z.div_mod (x + b - 1) b ltac:(lia)). pose proof (Z.mod_pos_bound (x + b - 1) b Hb). lia.
Qed.

Lemma size_t_id z : 0 <= z < 2 ^ 64 -> size_t z = z.
Proof. intros H. apply Z.mod_small. exact H. Qed.

Definition zeros (n : Z) : list octet := replicate (Z.to_nat n) 0.

Lemma zeros_ok n : octets (zeros n) /\ (0 <= n -> zlen (zeros n) = n).
Proof. split; [by apply Forall_replicate|]. intros H. unfold zlen, zeros. rewrite length_replicate. lia. Qed.

(** A confounder comes from the generator. *)
Lemma confounder_ok st n conf st' : prng_wf st -> 0 <= n -> krb5_c_random_make_octets st n = (Ok conf, st') ->
  octets conf /\ zlen conf = n /\ prng_wf st'.
Proof.
  intros HW Hn E. destruct (rnd_inited st) eqn:HI.
  - pose proof (make_octets_wf st n HW HI Hn) as R. rewrite E in R. destruct R as (W & _ & _ & R). by destruct (R conf eq_refl).
  - unfold krb5_c_random_make_octets in E. by rewrite HI in E.
Qed.

(** ** Encryption with derived keys *)

Section dk.
Context (enc : krb5_enc_provider) (hash : krb5_hash_provider) `{!EncLaws enc} `{!HashLaws hash}.
Context (key : keyblock) (usage : Z) (iv : option (list octet)).
Context (Hkey : octets (key_contents key)) (Hiv : octets_opt iv).

(** What is encrypted and hashed under the derived keys. *)
Definition dk_sealed (c plain : list octet) : Prop :=
  exists ke ki e mac,
    krb5_derive_key enc key (enc_keylength enc) (usage_constant usage 0xAA) = Ok ke /\
    krb5_derive_key enc key (enc_keylength enc) (usage_constant usage 0x55) = Ok ki /\
    enc_encrypt enc (Key (key_enctype key) ke) iv plain (zlen plain) = Ok e /\
    krb5_hmac hash ki [plain] (hash_size hash) = Ok mac /\ c = e ++ mac.

Lemma dk_encrypt_sealed st m n c iv' st' : prng_wf st -> octets m ->
  krb5_dk_encrypt enc hash st key usage iv m n = (Ok (c, iv'), st') ->
  exists conf, octets conf /\ zlen conf = enc_block_size enc /\
    let pad := krb5_roundup (enc_block_size enc + zlen m) (enc_block_size enc) - (enc_block_size enc + zlen m) in
    let plain := conf ++ m ++ zeros pad in
    dk_sealed c plain /\ zlen c = zlen plain + hash_size hash /\ octets c /\
    iv' = update_ivec iv (enc_block_size enc) (take (Z.to_nat (zlen plain)) c) /\ prng_wf st'.
Proof.
  intros HW Hm E. unfold krb5_dk_encrypt in E. destruct (_ <? _); [discriminate|].
  destruct (krb5_derive_key enc key (enc_keylength enc) (usage_constant usage 0xAA)) as [ke| | |] eqn:EA;
    destruct (krb5_derive_key enc key (enc_keylength enc) (usage_constant usage 0x55)) as [ki| | |] eqn:E5; try discriminate.
  pose proof (enc_block_pos (enc := enc)) as HB. pose proof (zlen_nonneg m) as Hz.
  destruct (krb5_c_random_make_octets st (enc_block_size enc)) as [[conf| | |] st1] eqn:ER; try discriminate.
  destruct (confounder_ok st (enc_block_size enc) conf st1 HW ltac:(lia) ER) as (Oc & Lc & HW1). cbn [obind] in E.
  set (pad := krb5_roundup _ _ - _) in E. fold (zeros pad) in E. set (plain := conf ++ m ++ zeros pad) in E.
  destruct (roundup_spec (enc_block_size enc + zlen m) (enc_block_size enc)) as [HR _]; [lia..|].
  assert (Op : octets plain) by (unfold plain; repeat (apply Forall_app; split); try done; apply zeros_ok).
  assert (Lp : zlen plain = krb5_roundup (enc_block_size enc + zlen m) (enc_block_size enc)).
  { unfold plain. rewrite !zlen_app, Lc, (proj2 (zeros_ok pad)) by (unfold pad; lia). unfold pad. lia. }
  rewrite <- Lp in E. destruct (enc_encrypt enc _ iv plain _) as [e| | |] eqn:EE; try discriminate. cbn [obind] in E.
  unfold krb5_dk_encrypt_length in E. rewrite <- Lp in E. replace (zlen plain + hash_size hash - zlen plain) with (hash_size hash) in E by lia.
  destruct (krb5_hmac hash ki [plain] _) as [mac| | |] eqn:EM; try discriminate. injection E as <- <- <-.
  destruct (usage_constant_ok usage 0xAA ltac:(done)) as [Ou Nu].
  destruct (derive_key_ok enc key _ _ ke Hkey Ou Nu EA) as [Oke _].
  destruct (enc_encrypt_ok (Key (key_enctype key) ke) iv plain _ e Oke Hiv Op EE) as (_ & Le & Oe & _).
  destruct (hmac_ok hash ki _ _ mac EM) as [Lm Om].
  exists conf. split; [done|]. split; [done|]. cbv zeta. fold pad. fold plain. split_and!.
  - by exists ke, ki, e, mac.
  - rewrite zlen_app. lia.
  - by apply Forall_app.
  - f_equal. rewrite take_app_length'; [done|]. unfold zlen in *. lia.
  - done.
Qed.

Lemma dk_decrypt_sealed c plain n : dk_sealed c plain -> octets plain ->
  enc_block_size enc <= zlen plain < 2 ^ 62 -> zlen plain - enc_block_size enc <= n ->
  krb5_dk_decrypt enc hash key usage iv c n =
  Ok (drop (Z.to_nat (enc_block_size enc)) plain, update_ivec iv (enc_block_size enc) (take (Z.to_nat (zlen plain)) c)).
Proof.
  intros (ke & ki & e & mac & EA & E5 & EE & EM & ->) Op Hl Hn. pose proof (enc_block_pos (enc := enc)) as HB. pose proof (hash_size_pos (hash := hash)) as HS.
  destruct (usage_constant_ok usage 0xAA ltac:(done)) as [Ou Nu].
  destruct (derive_key_ok enc key _ _ ke Hkey Ou Nu EA) as [Oke _].
  destruct (enc_encrypt_ok (Key (key_enctype key) ke) iv plain _ e Oke Hiv Op EE) as (_ & Le & Oe & ED).
  destruct (hmac_ok hash ki _ _ mac EM) as [Lm Om].
  unfold krb5_dk_decrypt. rewrite zlen_app, Lm, Le.
  replace (zlen plain + hash_size hash - hash_size hash) with (zlen plain) by lia.
  rewrite (size_t_id (zlen plain)), (proj2 (Z.leb_gt _ _)), EA, E5 by lia. cbn [obind].
  rewrite take_app_length' by (unfold zlen in *; lia). rewrite ED. cbn [obind]. rewrite EM. cbn [obind].
  rewrite drop_app_length' by (unfold zlen in *; lia). rewrite bool_decide_eq_true_2 by done. cbn [negb].
  rewrite (size_t_id (zlen plain - _)), (proj2 (Z.ltb_ge _ _)) by lia. do 2 f_equal.
  apply take_ge. rewrite length_drop. unfold zlen in *. lia.
Qed.

(** Nothing else is accepted. *)
Lemma dk_decrypt_inverse c n p iv' : octets c -> zlen c < 2 ^ 62 -> n < 2 ^ 62 -> krb5_dk_decrypt enc hash key usage iv c n = Ok (p, iv') ->
  exists conf, octets conf /\ zlen conf = enc_block_size enc /\ octets p /\ dk_sealed c (conf ++ p).
Proof.
  intros Oc Hc Hn2 E. unfold krb5_dk_decrypt in E. pose proof (enc_block_pos (enc := enc)) as HB. pose proof (hash_size_pos (hash := hash)) as HS.
  destruct (Z.leb_spec (2 ^ 63) (size_t (zlen c - hash_size hash))) as [|Hs]; [discriminate|].
  assert (Hlen : hash_size hash <= zlen c).
  { destruct (Z.le_gt_cases (hash_size hash) (zlen c)); [done|]. exfalso. unfold size_t, to_uint in Hs.
    pose proof (zlen_nonneg c). rewrite <- (Z.mod_add _ 1) in Hs by lia. rewrite Z.mod_small in Hs; lia. }
  rewrite size_t_id in E by lia. set (enclen := zlen c - hash_size hash) in *.
  destruct (krb5_derive_key enc key _ (usage_constant usage 0xAA)) as [ke| | |] eqn:EA; try discriminate. cbn [obind] in E.
  destruct (krb5_derive_key enc key _ (usage_constant usage 0x55)) as [ki| | |] eqn:E5; try discriminate. cbn [obind] in E.
  destruct (usage_constant_ok usage 0xAA ltac:(done)) as [Ou Nu].
  destruct (derive_key_ok enc key _ _ ke Hkey Ou Nu EA) as [Oke _].
  destruct (enc_decrypt enc _ iv _ _) as [plain| | |] eqn:ED; try discriminate. cbn [obind] in E.
  destruct (enc_decrypt_ok (Key (key_enctype key) ke) iv _ _ plain Oke Hiv (Forall_take _ _ _ Oc) ED) as (_ & Lp & Op & EE).
  assert (Le : zlen (take (Z.to_nat enclen) c) = enclen) by (unfold enclen, zlen in *; rewrite length_take; lia).
  destruct (krb5_hmac hash ki [plain] _) as [mac| | |] eqn:EM; try discriminate. cbn [obind] in E.
  destruct (hmac_ok hash ki _ _ mac EM) as [Lm Om].
  destruct (bool_decide _) eqn:EB; cbn [negb] in E; [|discriminate]. apply bool_decide_eq_true in EB.
  rewrite !take_ge in EB by (rewrite ?length_drop; unfold enclen, zlen in *; lia).
  destruct (Z.ltb_spec n (size_t (enclen - enc_block_size enc))) as [|Hn]; [discriminate|]. injection E as <- <-.
  assert (Hb : enc_block_size enc <= enclen).
  { destruct (Z.le_gt_cases (enc_block_size enc) enclen); [done|]. exfalso. unfold size_t, to_uint in Hn.
    rewrite <- (Z.mod_add _ 1) in Hn by lia. rewrite Z.mod_small in Hn; lia. }
  rewrite size_t_id by lia. rewrite take_ge by (rewrite length_drop; unfold zlen in *; lia).
  exists (take (Z.to_nat (enc_block_size enc)) plain). split; [by apply Forall_take|].
  split; [unfold zlen in *; rewrite length_take; lia|]. split; [by apply Forall_drop|]. rewrite take_drop.
  exists ke, ki, (take (Z.to_nat enclen) c), mac. split_and!; try done.
  - by rewrite Lp, Le.
  - rewrite EB. by rewrite take_drop.
Qed.
End dk.

(** ** Encryption with an encrypted checksum *)

Section old.
Context (enc : krb5_enc_provider) (hash : krb5_hash_provider) `{!EncLaws enc} `{!HashLaws hash}.
Context (key : keyblock) (usage : Z) (iv : option (list octet)).
Context (Hkey : octets (key_contents key)) (Hiv : octets_opt iv).

Lemma old_ivec_ok : octets_opt (old_ivec key iv).
Proof. unfold old_ivec. destruct iv; [done|]. by destruct (_ =? _). Qed.

Lemma old_roundtrip st m n c iv' st' n' : prng_wf st -> octets m -> zlen m < 2 ^ 62 ->
  krb5_old_encrypt enc hash st key usage iv m n = (Ok (c, iv'), st') -> zlen c <= n' ->
  let pad := krb5_old_encrypt_length enc hash (zlen m) - enc_block_size enc - hash_size hash - zlen m in
  0 <= pad < enc_block_size enc /\
  (zlen c = krb5_old_encrypt_length enc hash (zlen m) /\ octets c /\ prng_wf st' /\ iv' = update_ivec iv (enc_block_size enc) c) /\
  krb5_old_decrypt enc hash key usage iv c n' = Ok (m ++ zeros pad, iv').
Proof.
  intros HW Hm Hl E Hn pad. unfold krb5_old_encrypt in E. destruct (_ <? _); [discriminate|].
  pose proof (enc_block_pos (enc := enc)) as HB. pose proof (hash_size_pos (hash := hash)) as HS. pose proof (zlen_nonneg m) as Hz.
  destruct (krb5_c_random_make_octets st (enc_block_size enc)) as [[conf| | |] st1] eqn:ER; try discriminate.
  destruct (confounder_ok st (enc_block_size enc) conf st1 HW ltac:(lia) ER) as (Oc & Lc & HW1). cbn [obind] in E.
  fold pad in E. fold (zeros pad) in E. fold (zeros (hash_size hash)) in E.
  destruct (roundup_spec (enc_block_size enc + hash_size hash + zlen m) (enc_block_size enc)) as [HR _]; [lia..|].
  assert (Hpad : 0 <= pad < enc_block_size enc) by (unfold pad, krb5_old_encrypt_length; lia).
  destruct (zeros_ok pad) as [Oz Lz]. specialize (Lz ltac:(lia)).
  destruct (hash_hash hash _ _) as [ck| | |] eqn:EH; try discriminate. cbn [obind] in E.
  destruct (hash_ok _ ck EH) as [Lk Ok_].
  set (plain := conf ++ ck ++ m ++ zeros pad) in *.
  destruct (enc_encrypt enc key (old_ivec key iv) plain _) as [e| | |] eqn:EE; try discriminate. injection E as <- <- <-.
  assert (Op : octets plain) by (unfold plain; repeat (apply Forall_app; split); done).
  destruct (enc_encrypt_ok key _ plain _ e Hkey old_ivec_ok Op EE) as (Ln & Le & Oe & ED).
  assert (Lp : zlen plain = enc_block_size enc + hash_size hash + zlen m + pad) by (unfold plain; rewrite !zlen_app; lia).
  split; [done|]. split; [split_and!; [lia|done|done|done]|]. unfold krb5_old_decrypt. rewrite Le, Lp.
  rewrite size_t_id by lia. rewrite (proj2 (Z.ltb_ge n' _)) by lia. rewrite <- Lp, <- Ln, ED. cbn [obind].
  unfold plain. rewrite (take_app_length' conf) by (unfold zlen in *; lia).
  rewrite (drop_app_length' conf _ (Z.to_nat (enc_block_size enc))) by (unfold zlen in *; lia).
  rewrite (take_app_length' ck) by (unfold zlen in *; lia).
  rewrite (app_assoc conf ck), (drop_app_length' (conf ++ ck)) by (rewrite length_app; unfold zlen in *; lia).
  fold (zeros (hash_size hash)). rewrite EH. cbn [obind]. rewrite take_ge by (unfold zlen in *; lia).
  rewrite bool_decide_eq_true_2 by done. cbn [negb]. do 2 f_equal.
  apply take_ge. rewrite length_app. unfold zlen in *. lia.
Qed.
End old.

(** ** The interface of the library *)

Section api.
Context `{Stack}.

Lemma find_enctype_in etype kt : find_enctype etype = Some kt -> In kt krb5_enctypes_list /\ kt_etype kt = etype.
Proof. intros E. apply List.find_some in E as [? ?%Z.eqb_eq]. done. Qed.

(** Every provider of the table obeys the laws. *)
#[local] Instance enc_provider_laws e : EncLaws (enc_provider e).
Proof. destruct e; apply _. Qed.

Lemma enctypes_hashes : Forall (fun kt => match kt_mode kt with Old hash | Dk hash => HashLaws hash | Raw => True end) krb5_enctypes_list.
Proof. repeat (apply Forall_cons_2; [cbn [kt_mode]; first [exact I|apply _]|]). constructor. Qed.

Lemma enc_block_8 e : enc_block_size (enc_provider e) = 8.
Proof. by destruct e. Qed.

(** The new initial vector is octets again, as many as before. *)
Definition ivec_next (iv iv' : option (list octet)) : Prop := octets_opt iv' /\ length <$> iv' = length <$> iv.

Lemma update_ivec_next iv c : octets_opt iv -> octets c -> 8 <= zlen c -> ivec_next iv (update_ivec iv 8 c).
Proof.
  intros Hi Oc Lc. unfold update_ivec. destruct iv as [b|]; [|done]. destruct (Z.eqb_spec (zlen b) 8) as [E|]; [|done].
  split; [by apply Forall_drop|]. cbn. f_equal. rewrite length_drop. unfold zlen in *. lia.
Qed.

(** What is encrypted, and what it decrypts to. *)
Lemma krb5_c_encrypt_ok st key usage iv m n ed iv' st' :
  prng_wf st -> octets (key_contents key) -> octets_opt iv -> octets m -> zlen m < 2 ^ 32 ->
  krb5_c_encrypt st key usage iv m n = (Ok (ed, iv'), st') ->
  (ed.1 = key_enctype key /\ octets ed.2 /\ zlen m <= zlen ed.2 <= zlen m + 160 /\ prng_wf st' /\ ivec_next iv iv') /\
  exists pad, 0 <= pad < 8 /\ krb5_c_decrypt key usage iv ed (zlen ed.2) = Ok (m ++ zeros pad, iv').
Proof.
  intros HW Hk Hi Hm Hl. unfold krb5_c_encrypt, krb5_c_decrypt.
  destruct (find_enctype (key_enctype key)) as [kt|] eqn:EF; [|discriminate].
  destruct (find_enctype_in _ _ EF) as [HIn Het]. pose proof enctypes_hashes as HH. rewrite Forall_forall in HH.
  specialize (HH kt HIn). pose proof (enc_block_8 (kt_enc kt)) as HB.
  destruct (kt_mode kt) as [|hash|hash].
  - destruct (krb5_raw_encrypt _ _ _ _ _) as [c| | |] eqn:E; try discriminate. cbn [obind]. injection 1 as <- <- <-. cbn [fst snd].
    destruct (enc_encrypt_ok key iv m n c Hk Hi Hm E) as (Ln & Lc & Oc & ED). split; [split_and!; [done..|lia|lia|done|done]|].
    exists 0. split; [lia|]. rewrite <- Het, Z.eqb_refl, andb_false_r. unfold krb5_raw_decrypt. rewrite Lc, <- Ln, ED.
    cbn [obind]. by rewrite app_nil_r.
  - destruct (krb5_old_encrypt _ _ _ _ _ _ _ _) as [[[c iv1]| | |] st1] eqn:E; try discriminate. cbn [obind]. injection 1 as <- <- <-. cbn [fst snd].
    destruct (old_roundtrip _ hash key usage iv Hk Hi st m n c iv1 st1 (zlen c) HW Hm ltac:(lia) E ltac:(lia)) as (Hp & (Lc & Oc & HW1 & ->) & ED).
    pose proof (hash_size_pos (hash := hash)). rewrite HB in *. split; [split_and!; [done..|lia|lia|done|apply update_ivec_next; [done..|unfold zlen in *; lia]]|].
    rewrite <- Het, Z.eqb_refl, andb_false_r, ED. eexists. split; [|reflexivity]. done.
  - destruct (krb5_dk_encrypt _ _ _ _ _ _ _ _) as [[[c iv1]| | |] st1] eqn:E; try discriminate. cbn [obind]. injection 1 as <- <- <-. cbn [fst snd].
    destruct (dk_encrypt_sealed _ hash key usage iv Hk Hi st m n c iv1 st1 HW Hm E) as (conf & Oc & Lc & HS). cbv zeta in HS.
    rewrite HB in *. pose proof (zlen_nonneg m).
    destruct (roundup_spec (8 + zlen m) 8) as [HR _]; [lia..|].
    set (pad := krb5_roundup (8 + zlen m) 8 - (8 + zlen m)) in *. destruct HS as (HS & Lz & Oz & -> & HW1).
    assert (Op : octets (conf ++ m ++ zeros pad)) by (repeat (apply Forall_app; split); try done; apply zeros_ok).
    assert (Lp : zlen (conf ++ m ++ zeros pad) = 8 + zlen m + pad)
      by (rewrite !zlen_app, (proj2 (zeros_ok pad)) by (unfold pad; lia); lia).
    pose proof (hash_size_pos (hash := hash)). split; [split_and!; [done..|unfold pad in *; lia|unfold pad in *; lia|done|]|].
    { apply update_ivec_next; [done|by apply Forall_take|]. unfold zlen in *. rewrite length_take. unfold pad in *. lia. }
    exists pad. split; [unfold pad; lia|]. rewrite <- Het, Z.eqb_refl, andb_false_r.
    rewrite (dk_decrypt_sealed _ hash key usage iv Hk Hi c _ (zlen c) HS Op) by (rewrite HB; unfold pad in *; lia).
    rewrite HB. do 2 f_equal. apply drop_app_length'. unfold zlen in *. lia.
Qed.

Lemma krb5_c_encrypt_decrypt st key usage iv m n ed iv' st' :
  prng_wf st -> octets (key_contents key) -> octets_opt iv -> octets m -> zlen m < 2 ^ 32 ->
  krb5_c_encrypt st key usage iv m n = (Ok (ed, iv'), st') ->
  exists pad, 0 <= pad < 8 /\ krb5_c_decrypt key usage iv ed (zlen ed.2) = Ok (m ++ zeros pad, iv').
Proof. intros. by eapply krb5_c_encrypt_ok. Qed.

(** C25: For every encryption type of the library, key, key usage and initial vector:
    what [krb5_c_encrypt] returns for a message, [krb5_c_decrypt] turns back into the
    message, followed by fewer than eight zero octets, and both leave the same initial
    vector for the next message. *)
Theorem encrypt_decrypt st key usage iv m n ed iv' st' :
  prng_wf st -> octets (key_contents key) -> octets_opt iv -> octets m -> zlen m < 2 ^ 32 ->
  krb5_c_encrypt st key usage iv m n = (Ok (ed, iv'), st') ->
  exists pad, 0 <= pad < 8 /\ krb5_c_decrypt key usage iv ed (zlen ed.2) = Ok (m ++ zeros pad, iv').
Proof. apply krb5_c_encrypt_decrypt. Qed.

(** C26: Decryption with derived keys accepts no forgery: if [krb5_dk_decrypt] returns a
    plaintext, the input was the encryption of a confounder and that plaintext under the
    derived encryption key, followed by their HMAC under the derived integrity key. *)
Theorem dk_decrypt_authentic e hash key usage iv c n p iv' :
  HashLaws hash -> octets (key_contents key) -> octets_opt iv -> octets c -> zlen c < 2 ^ 32 -> n < 2 ^ 32 ->
  krb5_dk_decrypt (enc_provider e) hash key usage iv c n = Ok (p, iv') ->
  exists conf, zlen conf = 8 /\ octets conf /\ dk_sealed (enc_provider e) hash key usage iv c (conf ++ p).
Proof.
  intros HL Hk Hi Hc Hl Hn E.
  destruct (dk_decrypt_inverse (enc_provider e) hash key usage iv Hk Hi c n p iv' Hc ltac:(lia) ltac:(lia) E) as (conf & Oc & Lc & _ & HS).
  exists conf. by rewrite (enc_block_8 e) in Lc.
Qed.
End api.
