(* ===== verification/CryptoKeys.v ===== *)
(** * Checksums and keys (CryptoApi.v)

    A checksum that the library makes it also verifies.  The keys that passwords and
    random octets give have odd parity, and those of passwords are not weak, so that DES
    accepts them; a key with another parity is not refused by the derivation of keys,
    which goes on with memory that was never written. *)

From S2P Require Import Prelude CString Asn1Buf Words Crc32 Nfold NfoldProofs DesTables Des DesProofs.
From S2P Require Import DesCbcProofs PrincName Afs AfsProofs Md Shs Crypto CryptoProofs.
From S2P Require Import CryptoApi CryptoEnc.

(** ** Checksums *)

Lemma zeroblock_ok : octets mit_des_zeroblock /\ zlen mit_des_zeroblock = 8.
Proof. split; [by apply Forall_replicate|done]. Qed.

Lemma des_schedule_both key s : zlen key = 8 -> octets key -> des_schedule key = Ok s ->
  both (DES_DO_ENCRYPT s) (DES_DO_DECRYPT s).
Proof.
  intros Hk Ho. unfold des_schedule. destruct (des_key_sched_both key Hk Ho) as (s' & ret & -> & B). cbn [obind].
  destruct (ret =? -1); [discriminate|]. destruct (ret =? -2); [discriminate|]. by injection 1 as <-.
Qed.

Section mddes.
Context (digest : list (list octet) -> list octet).
Context (digest_ok : forall l, octets (digest l) /\ zlen (digest l) = 16).

Lemma mddes_verifies st key m ck st' : prng_wf st -> octets (key_contents key) ->
  k5_mddes_hash digest st key None m 24 = (Ok ck, st') ->
  octets ck /\ zlen ck = 24 /\ prng_wf st' /\ k5_mddes_verify digest key None m ck = Ok true.
Proof.
  intros HW Hk. unfold k5_mddes_hash, k5_mddes_verify.
  destruct (Z.eqb_spec (zlen (key_contents key)) 8) as [E8|]; cbn [negb]; [|discriminate].
  cbn [bool_decide]. change (bool_decide (None <> None)) with false. cbv iota.
  change (24 =? CONFLENGTH + 16) with true. cbn [negb].
  destruct (krb5_c_random_make_octets st CONFLENGTH) as [[conf| | |] st1] eqn:ER; try discriminate.
  destruct (confounder_ok st CONFLENGTH conf st1 HW ltac:(done) ER) as (Oc & Lc & HW1). cbn [obind].
  set (xk := (fun k => Z.lxor k 0xf0) <$> key_contents key).
  assert (Oxk : octets xk) by (apply Forall_fmap; eapply Forall_impl; [|exact Hk]; intros; by apply lxor_range).
  assert (Lxk : zlen xk = 8) by (unfold zlen, xk in *; by rewrite length_fmap).
  destruct (des_schedule xk) as [s| | |] eqn:ES; try discriminate. cbn [obind].
  pose proof (des_schedule_both xk s Lxk Oxk ES) as B. destruct zeroblock_ok as [Oz Lz].
  destruct (cbc_both _ _ _ B Oz Lz) as [CE _]. destruct (digest_ok [conf; m]) as [Od Ld].
  set (out := conf ++ digest [conf; m]). assert (Oo : octets out) by (by apply Forall_app).
  assert (Lo : zlen out = 24) by (unfold out; rewrite zlen_app, Lc, Ld; done).
  destruct (CE out Oo ltac:(by rewrite Lo)) as (c & E & L & Oct & D). unfold mit_des_cbc_encrypt. rewrite E. injection 1 as <- <-.
  split; [done|]. split; [by rewrite L|]. split; [done|]. rewrite L, Lo. change (24 =? CONFLENGTH + 16) with true. cbn [negb andb]. fold xk. rewrite ES. cbn [obind].
  rewrite L, Lo in D. rewrite D. cbn [obind]. unfold out.
  rewrite take_app_length' by (unfold zlen, CONFLENGTH in *; lia). rewrite drop_app_length' by (unfold zlen, CONFLENGTH in *; lia).
  rewrite take_ge by (unfold zlen in *; lia). by rewrite bool_decide_eq_true_2.
Qed.
End mddes.

Section checksums.
Context `{Stack}.

Lemma md4_digest_ok l : octets (md4_digest l) /\ zlen (md4_digest l) = 16.
Proof. apply (md_final_length md4_Transform). Qed.
Lemma md5_digest_ok l : octets (md5_digest l) /\ zlen (md5_digest l) = 16.
Proof. apply (md_final_length md5_Transform). Qed.

Lemma put_length lr : zlen (PUT_HALF_BLOCKS lr) = 8.
Proof. done. Qed.

Lemma descbc_ok key m ck st st' : k5_descbc_hash st key None m 8 = (Ok ck, st') -> zlen ck = 8 /\ octets ck /\ st' = st.
Proof.
  unfold k5_descbc_hash. do 2 (destruct (negb _); [discriminate|]). cbn [Z.eqb Pos.eqb negb].
  destruct (des_schedule _); try discriminate. cbn [obind]. unfold mit_des_cbc_cksum.
  destruct (get_ivec _); try discriminate. cbn [obind]. injection 1 as <- <-. split; [done|]. split; [apply put_octets|done].
Qed.

(** A checksum that is made again does not depend on the generator. *)
Lemma recomputed st st2 t key usage m ck st1 ct :
  find_cksumtype t = Some ct -> match ct_mode ct with Keyed _ (KeyhashProvider _ _ (Some _)) => False | _ => True end ->
  match ct_mode ct with Keyed _ kh => forall s1 s2 n, (kh_hash kh s1 key None m n).1 = (kh_hash kh s2 key None m n).1 | _ => True end ->
  krb5_c_make_checksum st t key usage m = (Ok ck, st1) -> zlen ck = cksum_length ct ->
  exists st3, krb5_c_verify_checksum st2 key usage m (t, ck) = (Ok true, st3).
Proof.
  intros EF HN HD E L. unfold krb5_c_verify_checksum. cbn [fst snd]. rewrite EF.
  assert (EM : (krb5_c_make_checksum st2 t key usage m).1 = Ok ck).
  { unfold krb5_c_make_checksum in *. rewrite EF in *. destruct (ct_mode ct) as [ke kh|hash|cp hash].
    - destruct (negb (ke =? 0) && _); [discriminate|]. by rewrite (HD st2 st), E.
    - by injection E.
    - by injection E. }
  assert (V : (if negb (zlen ck =? cksum_length ct) then (Err KRB5_BAD_MSIZE, st2)
               else let '(r, st) := krb5_c_make_checksum st2 t key usage m in
                    (let* computed := r in Ok (bool_decide (take (Z.to_nat (cksum_length ct)) computed =
                                                            take (Z.to_nat (cksum_length ct)) ck)), st)) =
              (@Ok error_code bool true, (krb5_c_make_checksum st2 t key usage m).2)).
  { rewrite L, Z.eqb_refl. cbn [negb]. destruct (krb5_c_make_checksum st2 t key usage m) as [r s]. cbn [fst] in EM. subst r.
    cbn [obind snd]. by rewrite bool_decide_eq_true_2. }
  eexists. destruct (ct_mode ct) as [ke [sz h [v|]]|hash|cp hash]; [done|exact V..].
Qed.

Lemma made_checksum_ok st st2 t key usage m ck st1 :
  prng_wf st -> octets (key_contents key) ->
  krb5_c_make_checksum st t key usage m = (Ok ck, st1) ->
  (octets ck /\ 0 < zlen ck <= 64 /\ prng_wf st1) /\
  exists st3, krb5_c_verify_checksum st2 key usage m (t, ck) = (Ok true, st3).
Proof.
  intros HW Hk E. destruct (find_cksumtype t) as [ct|] eqn:EF.
  2:{ unfold krb5_c_make_checksum in E. by rewrite EF in E. }
  pose proof EF as EF'. apply List.find_some in EF' as [HIn ET%Z.eqb_eq].
  assert (U : forall hash cp, ct_mode ct = Unkeyed cp hash -> HashLaws hash ->
            zlen ck = cksum_length ct /\ octets ck /\ 0 < cksum_length ct <= 64 /\ prng_wf st1).
  { intros hash cp EM HL. unfold krb5_c_make_checksum in E. rewrite EF, EM in E. unfold cksum_length in *. rewrite EM in *.
    injection E as E <-. destruct (hash_ok [m] ck E). split_and!; try done; apply hash_size_pos. }
  assert (D : forall hash, ct_mode ct = Derived hash -> HashLaws hash ->
            zlen ck = cksum_length ct /\ octets ck /\ 0 < cksum_length ct <= 64 /\ prng_wf st1).
  { intros hash EM HL. unfold krb5_c_make_checksum in E. rewrite EF, EM in E. unfold cksum_length in *. rewrite EM in *.
    injection E as E <-. unfold krb5_dk_make_checksum in E. destruct (find_enctype _); [|discriminate].
    destruct (krb5_derive_key _ _ _ _) as [kc| | |]; try discriminate. cbn [obind] in E.
    destruct (hmac_ok hash kc _ _ ck E). split_and!; try done; apply hash_size_pos. }
  assert (K : forall ke d, ct = Cksumtype t (Keyed ke (KeyhashProvider 24 (k5_mddes_hash d) (Some (k5_mddes_verify d)))) ->
            (forall l, octets (d l) /\ zlen (d l) = 16) ->
            (octets ck /\ 0 < zlen ck <= 64 /\ prng_wf st1) /\
            exists st3, krb5_c_verify_checksum st2 key usage m (t, ck) = (Ok true, st3)).
  { intros ke d EM HL. unfold krb5_c_make_checksum in E. unfold krb5_c_verify_checksum. cbn [fst snd]. rewrite EF, EM in *.
    cbn [ct_mode kh_hash cksum_length kh_hash_size] in *. destruct (negb (ke =? 0) && _); [discriminate|].
    destruct (mddes_verifies d HL st key m ck st1 HW Hk E) as (Oc & Lc & HW1 & ->). split; [|by eexists]. rewrite Lc. done. }
  assert (R : zlen ck = cksum_length ct /\ octets ck /\ 0 < cksum_length ct <= 64 /\ prng_wf st1 ->
              match ct_mode ct with Keyed _ (KeyhashProvider _ _ (Some _)) => False | _ => True end ->
              match ct_mode ct with Keyed _ kh => forall s1 s2 n, (kh_hash kh s1 key None m n).1 = (kh_hash kh s2 key None m n).1 | _ => True end ->
              (octets ck /\ 0 < zlen ck <= 64 /\ prng_wf st1) /\
              exists st3, krb5_c_verify_checksum st2 key usage m (t, ck) = (Ok true, st3)).
  { intros (L & Oc & Hl & HW1) H1 H2. split; [by rewrite L|]. by eapply recomputed. }
  repeat destruct HIn as [<-|HIn]; try done.
  - apply R; [|done..]. apply (U _ _ eq_refl), _.
  - apply R; [|done..]. apply (U _ _ eq_refl), _.
  - apply (K ENCTYPE_DES_CBC_CRC md4_digest); [by rewrite <- ET|apply md4_digest_ok].
  - apply R; [|done..].
    unfold krb5_c_make_checksum in E. rewrite EF in E. cbn [ct_mode krb5_keyhash_descbc kh_hash cksum_length kh_hash_size] in *.
    destruct (negb _ && _); [discriminate|]. by destruct (descbc_ok _ _ _ _ _ E) as (? & ? & ->).
  - apply R; [|done..]. apply (U _ _ eq_refl), _.
  - apply (K ENCTYPE_DES_CBC_CRC md5_digest); [by rewrite <- ET|apply md5_digest_ok].
  - apply R; [|done..]. apply (U _ _ eq_refl), _.
  - apply R; [|done..]. apply (D _ eq_refl), _.
  - apply R; [|done..]. apply (D _ eq_refl), _.
Qed.

(** Every checksum that [krb5_c_make_checksum] makes, of any type and with any key,
    [krb5_c_verify_checksum] finds valid for the same message. *)
Theorem checksum_verifies st st2 t key usage m ck st1 :
  prng_wf st -> octets (key_contents key) ->
  krb5_c_make_checksum st t key usage m = (Ok ck, st1) ->
  exists st3, krb5_c_verify_checksum st2 key usage m (t, ck) = (Ok true, st3).
Proof. intros. by eapply made_checksum_ok. Qed.
End checksums.

(** ** Keys that DES accepts *)

Definition good_key (k : list octet) : Prop :=
  octets k /\ length k = 8%nat /\ mit_des_check_key_parity k = true /\ mit_des_is_weak_key k = false.

(** Another last octet turns a weak key into a key of odd parity that is not weak. *)
Lemma weak_changed : forallb (fun k => let k' := <[7%nat := Z.lxor (table_at k 7) 0xf0]> k in
  forallb (fun o => (0 <=? o) && (o <? 256)) k' && (length k' =? 8)%nat && mit_des_check_key_parity k' && negb (mit_des_is_weak_key k')) weak = true.
Proof. vm_compute. reflexivity. Qed.

Lemma fix_key_good key : octets key -> length key = 8%nat -> good_key (fix_key key).
Proof.
  intros Ho Hl. destruct (fixup_parity key Ho) as (O & L & P). unfold fix_key.
  destruct (mit_des_is_weak_key (mit_des_fixup_key_parity key)) eqn:W; [|split_and!; [done|lia|done..]].
  unfold mit_des_is_weak_key in W. apply existsb_exists in W as (w & Hw & E). apply bool_decide_eq_true in E. rewrite <- E.
  pose proof weak_changed as C. rewrite forallb_forall in C. specialize (C w Hw). cbv zeta in C.
  rewrite !andb_true_iff in C. destruct C as [[[C1 C2] C3] C4]. split_and!; [|by apply Nat.eqb_eq|done|by apply negb_true_iff].
  rewrite forallb_forall in C1. apply List.Forall_forall. intros o Hi. specialize (C1 o Hi).
  unfold is_uint. lia.
Qed.

Lemma good_key_sched k : good_key k -> exists s, mit_des_key_sched k = Ok (s, 0) /\ both (DES_DO_ENCRYPT s) (DES_DO_DECRYPT s).
Proof.
  intros (O & L & P & W). destruct (des_key_both k L O) as (s & E & B). exists s. split; [|done].
  unfold mit_des_key_sched. rewrite E, P, W. done.
Qed.

Lemma des_encrypts k t iv m : good_key k -> octets_opt iv -> octets m -> zlen m mod 8 = 0 ->
  match iv with Some v => zlen v = 8 | None => True end ->
  exists c, k5_des_encrypt (Key t k) iv m (zlen m) = Ok c /\ k5_des_decrypt (Key t k) iv c (zlen m) = Ok m.
Proof.
  intros HG Hi Hm Hz Hv. destruct (good_key_sched k HG) as (s & E & B). destruct HG as (O & L & _).
  unfold k5_des_encrypt, k5_des_decrypt, k5_des_docrypt. cbn [key_contents]. rewrite E. cbn [obind].
  assert (L8 : zlen k = 8) by (unfold zlen; lia). rewrite L8, Hz. cbn [Z.eqb Pos.eqb negb].
  assert (EI : match iv with Some iv => negb (zlen iv =? 8) | None => false end = false) by (destruct iv; cbn in *; [by rewrite Hv|done]).
  rewrite EI, Z.eqb_refl. cbn [negb]. destruct (ivec_default iv Hi EI) as [Oi Li].
  destruct (cbc_both _ _ _ B Oi Li) as [CE _]. destruct (CE m Hm Hz) as (c & Ec & Lc & _ & Ed). exists c.
  unfold mit_des_cbc_encrypt. rewrite Ec, Lc, Hz. cbn [Z.eqb negb]. rewrite Z.eqb_refl. cbn [negb].
  rewrite Lc in Ed. by rewrite Ed.
Qed.

(** With a key of odd parity that is not weak, DES encrypts every message of whole
    blocks and decrypts the result. *)
Theorem des_total k t iv m : good_key k -> octets_opt iv -> octets m -> zlen m mod 8 = 0 ->
  match iv with Some v => zlen v = 8 | None => True end ->
  exists c, k5_des_encrypt (Key t k) iv m (zlen m) = Ok c /\ k5_des_decrypt (Key t k) iv c (zlen m) = Ok m.
Proof. apply des_encrypts. Qed.

(** Bits stay bits. *)
Definition bits (l : list Z) : Prop := Forall (fun b => b = 0 \/ b = 1) l.

Lemma fold_bits_ok l pos fw temp j l' pos' : bits l -> fold_bits l pos fw temp j = (l', pos') -> bits l' /\ length l' = length l.
Proof.
  revert l pos temp l' pos'. induction j as [|j IH]; intros l pos temp l' pos' HB; cbn [fold_bits].
  - by injection 1 as <- <-.
  - intros E. apply IH in E; [by rewrite length_insert in E|]. apply Forall_insert; [done|].
    replace (Z.land temp 1) with (temp mod 2) by (symmetry; by apply (Z.land_ones temp 1)). pose proof (Z.mod_pos_bound temp 2) as Hm.
    assert (HT : forall i, table_at l i = 0 \/ table_at l i = 1).
    { intros i. unfold table_at. generalize (Z.to_nat i) as n. clear -HB. induction HB; intros [|n]; cbn; auto. }
    destruct (HT (if fw then pos else pos - 1)) as [-> | ->]; assert (temp mod 2 = 0 \/ temp mod 2 = 1) as [-> | ->] by lia; cbn; auto.
Qed.

Lemma fold_chars_ok str i l pos fw : bits l -> bits (fold_chars str i l pos fw) /\ length (fold_chars str i l pos fw) = length l.
Proof.
  revert i l pos fw. induction str as [|c str IH]; intros i l pos fw HB; cbn [fold_chars]; [done|].
  destruct (fold_bits l pos fw c 7) as [l' pos'] eqn:E. destruct (fold_bits_ok _ _ _ _ _ _ _ HB E) as [HB' HL].
  rewrite <- HL. by apply IH.
Qed.

Lemma key_of_bits_ok l : bits l -> octets (key_of_bits l) /\ length (key_of_bits l) = 8%nat.
Proof.
  intros HB. split; [|done]. unfold key_of_bits. apply Forall_fmap, Forall_forall. intros i _. unfold compose.
  assert (HT : forall i, table_at l i = 0 \/ table_at l i = 1).
  { intros k. unfold table_at. generalize (Z.to_nat k) as n. clear -HB. induction HB; intros [|n]; cbn; auto. }
  assert (HS : forall k j, 0 <= j <= 7 -> is_octet (Z.shiftl (table_at l k) j)).
  { intros k j Hj. rewrite Z.shiftl_mul_pow2 by lia. pose proof (Z.pow_le_mono_r 2 j 7). pose proof (Z.pow_pos_nonneg 2 j).
    unfold is_uint. destruct (HT k) as [-> | ->]; lia. }
  change (seqZ 0 7) with [0; 1; 2; 3; 4; 5; 6]. cbn [foldl]. repeat (apply lor_range; [done| |]); first [done|by apply HS].
Qed.

Lemma cksum_ok inp s iv r : mit_des_cbc_cksum inp s iv = Ok r -> octets r /\ length r = 8%nat.
Proof.
  unfold mit_des_cbc_cksum. destruct (get_ivec iv); try discriminate. cbn [obind]. injection 1 as <-.
  split; [|done]. apply put_octets.
Qed.

Lemma string_to_key_copy_good str : exists k, string_to_key_copy str = Ok k /\ good_key k.
Proof.
  unfold string_to_key_copy.
  destruct (fold_chars_ok str 1 (replicate 64 0) 0 true) as [HB _]; [apply Forall_replicate; by left|].
  destruct (key_of_bits_ok _ HB) as [Ok_ Lk]. pose proof (fix_key_good _ Ok_ Lk) as HG.
  destruct (good_key_sched _ HG) as (s & -> & _). cbn [obind].
  assert (exists r, mit_des_cbc_cksum str s (fix_key (key_of_bits (fold_chars str 1 (replicate 64 0) 0 true))) = Ok r) as [r EC].
  { destruct HG as (_ & L & _). unfold mit_des_cbc_cksum.
    destruct (fix_key _) as [|? [|? [|? [|? [|? [|? [|? [|? ?]]]]]]]]; try discriminate. by eexists. }
  rewrite EC. cbn [obind]. destruct (cksum_ok _ _ _ _ EC) as [Or Lr]. eexists. split; [done|]. by apply fix_key_good.
Qed.

(** The key of a string whose copy can be allocated, and what is returned otherwise. *)
Lemma string_to_key_alloc_good `{Platform} str : zlen str < 2 ^ 32 ->
  if bool_decide (zlen str < 2 ^ 31 /\ zlen str <= malloc_limit)
  then exists k, string_to_key_alloc str = Ok k /\ good_key k else string_to_key_alloc str = Err ENOMEM.
Proof.
  intros H32. pose proof (zlen_nonneg str) as H0. unfold string_to_key_alloc, malloc. case_bool_decide as HB.
  - rewrite to_int_id by (unfold is_int; lia). destruct (Z.leb_spec 0 (zlen str)); [|lia]. destruct (Z.leb_spec (zlen str) malloc_limit); [|lia].
    cbn [andb]. unfold zlen at 1. rewrite length_fmap, length_seq, Z2Nat.id by done. rewrite Z.ltb_irrefl. apply string_to_key_copy_good.
  - destruct (Z.lt_ge_cases (zlen str) (2 ^ 31)) as [HL|HL].
    + rewrite to_int_id by (unfold is_int; lia). destruct (Z.leb_spec (zlen str) malloc_limit); [lia|]. by rewrite andb_false_r.
    + replace (int32 (zlen str)) with (zlen str - 2 ^ 32); [by destruct (Z.leb_spec 0 (zlen str - 2 ^ 32)); [lia|]|].
      unfold to_int. rewrite <- (Z_mod_plus_full _ (-1)), Z.mod_small; lia.
Qed.

(** C31: The key of a password and a salt other than that of AFS (a salt of length -1),
    of less than 2^32 octets together: if their copy can be allocated and its length is
    an int, the result is a valid DES key, eight octets of odd parity, none of the weak
    and semi-weak keys; otherwise the result is ENOMEM. *)
Theorem string_to_key_good `{Platform} data behind salt :
  let n := zlen (data ++ default [] salt) in n < 2 ^ 32 ->
  let r := mit_des_string_to_key_int data behind ((fun s => (s, false)) <$> salt) in
  if bool_decide (n < 2 ^ 31 /\ n <= malloc_limit) then exists k, r = Ok k /\ good_key k else r = Err ENOMEM.
Proof.
  destruct salt as [s|]; cbn [default fmap option_fmap option_map mit_des_string_to_key_int]; change (id ?x) with x; [|rewrite app_nil_r];
    apply string_to_key_alloc_good.
Qed.

(** ** Keys for AFS *)

Lemma shifted_octets l : octets ((fun c => Z.land (Z.shiftl c 1) 255) <$> l).
Proof.
  apply Forall_fmap, Forall_forall. intros x _. unfold compose, is_octet. change 255 with (Z.ones 8). rewrite Z.land_ones by lia.
  apply Z.mod_pos_bound. lia.
Qed.

(** For a password and a realm that are C strings without inner NUL, the conversion of
    AFS returns a key of eight octets with odd parity. *)
Theorem afs_string_to_key_total data rest realm rest' :
  octets data -> 0 ∉ data -> 0 ∉ realm ->
  exists k, mit_afs_string_to_key data (0 :: rest) (realm ++ 0 :: rest') = Ok k /\
    octets k /\ length k = 8%nat /\ mit_des_check_key_parity k = true.
Proof.
  intros Hd Hn Hr. unfold mit_afs_string_to_key. destruct (zlen data <=? 8).
  - unfold afs_short_key. destruct (strncpy_ok 8 realm rest') as (r & -> & Lr). cbn [obind].
    set (key := take 8 _). destruct (fixup_parity _ (shifted_octets key)) as (Of & Lf & P).
    eexists. split; [reflexivity|]. split_and!; [done| |done]. rewrite Lf, length_fmap. done.
  - unfold afs_long_key. rewrite c_string_ok, c_string_ok by done. cbn [obind]. pose proof (zlen_nonneg realm).
    destruct (Z.ltb_spec (zlen data + zlen realm) (zlen data)); [lia|]. destruct (Z.ltb_spec (zlen data + 1) (zlen data)); [lia|].
    set (password := data ++ _).
    assert (Step : forall iv, octets iv -> length iv = 8%nat -> exists s ret k,
      mit_des_key_sched (mit_des_fixup_key_parity iv) = Ok (s, ret) /\ mit_des_cbc_cksum password s iv = Ok k /\ octets k /\ length k = 8%nat).
    { intros iv Oi Li. destruct (fixup_parity iv Oi) as (Of & Lf & _).
      destruct (des_key_sched_both (mit_des_fixup_key_parity iv)) as (s & ret & E & _); [unfold zlen; lia|done|].
      assert (exists k, mit_des_cbc_cksum password s iv = Ok k) as [k EC].
      { unfold mit_des_cbc_cksum. destruct iv as [|? [|? [|? [|? [|? [|? [|? [|? [|]]]]]]]]]; try discriminate Li. by eexists. }
      exists s, ret, k. destruct (cksum_ok _ _ _ _ EC). done. }
    destruct (Step [107; 101; 114; 98; 101; 114; 111; 115]) as (s1 & ret1 & k1 & E1 & C1 & O1 & L1); [by repeat constructor|done|].
    rewrite E1. cbn [obind]. rewrite C1. cbn [obind].
    destruct (Step k1 O1 L1) as (s2 & ret2 & k2 & E2 & C2 & O2 & L2). rewrite E2. cbn [obind]. rewrite C2. cbn [obind].
    destruct (fixup_parity k2 O2) as (Of & Lf & P). eexists. split; [reflexivity|]. split_and!; [done|lia|done].
Qed.

(** Parity changes the low bits only. *)
Lemma fixup_high_bits key : octets key -> (fun p => Z.shiftr p 1) <$> mit_des_fixup_key_parity key = (fun p => Z.shiftr p 1) <$> key.
Proof.
  induction 1 as [|o key Ho _ IH]; [done|]. destruct (fixup_octet o Ho) as (_ & _ & E).
  cbn [mit_des_fixup_key_parity fmap list_fmap]. f_equal; [exact E|exact IH].
Qed.

Lemma octet_halves a b : Z.shiftr a 1 = Z.shiftr b 1 -> Z.testbit a 0 = Z.testbit b 0 -> a = b.
Proof.
  intros E1 E0. apply Z.bits_inj'. intros i Hi. destruct (Z.eq_dec i 0) as [->|]; [done|].
  replace i with (i - 1 + 1) by lia. by rewrite <- !Z.shiftr_spec, E1 by lia.
Qed.

(** The low bits of seven octets, moved up. *)
Lemma spread_bit x k i : 0 <= k -> 0 <= i ->
  Z.testbit (Z.shiftl (Z.land x 1) k) i = if i =? k then Z.testbit x 0 else false.
Proof.
  intros Hk Hi. rewrite Z.shiftl_spec, Z.land_spec by lia. destruct (Z.eqb_spec i k) as [<-|Hn].
  - by rewrite Z.sub_diag, andb_true_r.
  - destruct (Z.lt_ge_cases (i - k) 0); [by rewrite (Z.testbit_neg_r x)|].
    rewrite (uint_bits_above 1 1), andb_false_r by (try done; lia). done.
Qed.

Lemma spread_inj r r' : length r = 7%nat -> length r' = 7%nat ->
  (fun p => Z.shiftr p 1) <$> des_spread r = (fun p => Z.shiftr p 1) <$> des_spread r' -> r = r'.
Proof.
  intros Hl Hl'. destruct r as [|r0 [|r1 [|r2 [|r3 [|r4 [|r5 [|r6 [|]]]]]]]]; try discriminate.
  destruct r' as [|s0 [|s1 [|s2 [|s3 [|s4 [|s5 [|s6 [|]]]]]]]]; try discriminate.
  unfold des_spread, table_at. intros E.
  change (Z.to_nat 6) with 6%nat in E. change (Z.to_nat 5) with 5%nat in E. change (Z.to_nat 4) with 4%nat in E.
  change (Z.to_nat 3) with 3%nat in E. change (Z.to_nat 2) with 2%nat in E. change (Z.to_nat 1) with 1%nat in E.
  change (Z.to_nat 0) with 0%nat in E. cbn [app fmap list_fmap nth] in E. injection E as E0 E1 E2 E3 E4 E5 E6 E7.
  assert (B : forall i, 0 <= i < 7 -> Z.testbit (Z.shiftr _ 1) i = Z.testbit (Z.shiftr _ 1) i) by (intros i _; exact (f_equal (fun z => Z.testbit z i) E7)).
  clear E7. assert (C : forall i, 0 <= i < 7 ->
    (if i + 1 =? 1 then Z.testbit r0 0 else if i + 1 =? 2 then Z.testbit r1 0 else if i + 1 =? 3 then Z.testbit r2 0 else
     if i + 1 =? 4 then Z.testbit r3 0 else if i + 1 =? 5 then Z.testbit r4 0 else if i + 1 =? 6 then Z.testbit r5 0 else Z.testbit r6 0) =
    (if i + 1 =? 1 then Z.testbit s0 0 else if i + 1 =? 2 then Z.testbit s1 0 else if i + 1 =? 3 then Z.testbit s2 0 else
     if i + 1 =? 4 then Z.testbit s3 0 else if i + 1 =? 5 then Z.testbit s4 0 else if i + 1 =? 6 then Z.testbit s5 0 else Z.testbit s6 0)).
  { intros i Hi. specialize (B i Hi). rewrite !Z.shiftr_spec, !Z.lor_spec, !spread_bit in B by lia.
    assert (i = 0 \/ i = 1 \/ i = 2 \/ i = 3 \/ i = 4 \/ i = 5 \/ i = 6) as H by lia.
    repeat destruct H as [->|H]; try subst i; cbn -[Z.testbit] in B |- *; by rewrite ?orb_false_r in B. }
  assert (r0 = s0) as -> by (apply octet_halves; [assumption|exact (C 0 ltac:(lia))]).
  assert (r1 = s1) as -> by (apply octet_halves; [assumption|exact (C 1 ltac:(lia))]).
  assert (r2 = s2) as -> by (apply octet_halves; [assumption|exact (C 2 ltac:(lia))]).
  assert (r3 = s3) as -> by (apply octet_halves; [assumption|exact (C 3 ltac:(lia))]).
  assert (r4 = s4) as -> by (apply octet_halves; [assumption|exact (C 4 ltac:(lia))]).
  assert (r5 = s5) as -> by (apply octet_halves; [assumption|exact (C 5 ltac:(lia))]).
  assert (r6 = s6) as -> by (apply octet_halves; [assumption|exact (C 6 ltac:(lia))]).
  reflexivity.
Qed.

(** The key made of seven random octets has odd parity, and different octets make
    different keys. *)
Theorem make_key_bits r : octets r -> length r = 7%nat ->
  exists k, k5_des_make_key r 8 = Ok k /\ octets k /\ length k = 8%nat /\ mit_des_check_key_parity k = true /\
  forall r', octets r' -> length r' = 7%nat -> k5_des_make_key r' 8 = Ok k -> r' = r.
Proof.
  intros Ho Hl. unfold k5_des_make_key. cbn [Z.eqb Pos.eqb negb].
  assert (E7 : forall x : list octet, length x = 7%nat -> zlen x = 7) by (intros x Hx; unfold zlen; lia). rewrite (E7 r Hl). cbn [Z.eqb Pos.eqb negb].
  destruct (des_spread_ok r Ho Hl) as [Os Ls]. destruct (fixup_parity _ Os) as (Of & Lf & P).
  eexists. split; [reflexivity|]. split_and!; [done|lia|done|]. intros r' Ho' Hl'. rewrite (E7 r' Hl'). cbn [Z.eqb Pos.eqb negb].
  intros E. assert (E' : mit_des_fixup_key_parity (des_spread r') = mit_des_fixup_key_parity (des_spread r)) by congruence.
  destruct (des_spread_ok r' Ho' Hl') as [Os' _]. apply spread_inj; [done..|].
  by rewrite <- (fixup_high_bits _ Os), <- (fixup_high_bits _ Os'), E'.
Qed.

(** Key derivation does not look at the results of the cipher: for a triple-DES key of
    even parity, which the cipher refuses, it goes on with memory that was never written
    instead of returning the error. *)
Theorem derive_key_fault :
  let key := Key ENCTYPE_DES3_CBC_SHA1 (replicate 24 0) in
  k5_des3_encrypt key None (replicate 8 0) 8 = Err KRB5DES_BAD_KEYPAR /\
  krb5_derive_key krb5_enc_des3 key 24 (usage_constant 1 0xAA) = Undefined.
Proof. vm_compute. done. Qed.
