(* ===== verification/KdbKeyProofs.v ===== *)
(** * Keys come out of the database as they went in (Kdb.v)

    The key and the salt of a stored key; the search for a key; and the way of a key from
    the one who sets it to the one who looks it up. *)

From S2P Require Import Prelude Asn1Buf Krb5Types Words PrincName PrincNameProofs Crypto CryptoApi CryptoProofs CryptoEnc Kdb KdbXdrProofs.

(** ** Encryption *)

Section keys.
Context `{P : Platform} `{St : Stack}.

(** A ciphertext of unknown type is taken for one of the type of the key. *)
Lemma decrypt_unknown key usage iv c n :
  krb5_c_decrypt key usage iv (ENCTYPE_UNKNOWN, c) n = krb5_c_decrypt key usage iv (key_enctype key, c) n.
Proof.
  unfold krb5_c_decrypt. destruct (find_enctype (key_enctype key)) as [kt|] eqn:E; [|done]. destruct (find_enctype_in _ _ E) as [_ <-].
  cbn [fst snd]. rewrite !Z.eqb_refl, andb_false_r. done.
Qed.

(** A ciphertext has the length that was announced. *)
Lemma encrypt_size st key usage iv m n ed iv' st' : prng_wf st -> octets (key_contents key) -> octets_opt iv -> octets m -> zlen m < 2 ^ 32 ->
  krb5_c_encrypt_length (key_enctype key) (zlen m) = Ok n -> krb5_c_encrypt st key usage iv m n = (Ok (ed, iv'), st') -> zlen ed.2 = n.
Proof.
  intros HW Hk Hi Hm Hl. unfold krb5_c_encrypt_length, krb5_c_encrypt. destruct (find_enctype (key_enctype key)) as [kt|] eqn:EF; [|discriminate].
  destruct (find_enctype_in _ _ EF) as [HIn _]. pose proof enctypes_hashes as HH. rewrite Forall_forall in HH. specialize (HH kt HIn).
  pose proof (enc_block_8 (kt_enc kt)) as HB. pose proof (enc_provider_laws (kt_enc kt)). intros [= <-]. destruct (kt_mode kt) as [|hash|hash].
  - destruct (krb5_raw_encrypt _ _ _ _ _) as [c| | |] eqn:E; try discriminate. cbn [obind]. injection 1 as <- <- <-. cbn [fst snd].
    destruct (enc_encrypt_ok key iv m _ c Hk Hi Hm E) as (Ln & Lc & _). lia.
  - destruct (krb5_old_encrypt _ _ _ _ _ _ _ _) as [[[c iv1]| | |] st1] eqn:E; try discriminate. cbn [obind]. injection 1 as <- <- <-. cbn [fst snd].
    destruct (old_roundtrip _ hash key usage iv Hk Hi st m _ c iv1 st1 (zlen c) HW Hm ltac:(lia) E ltac:(lia)) as (_ & (Lc & _) & _). done.
  - destruct (krb5_dk_encrypt _ _ _ _ _ _ _ _) as [[[c iv1]| | |] st1] eqn:E; try discriminate. cbn [obind]. injection 1 as <- <- <-. cbn [fst snd].
    destruct (dk_encrypt_sealed _ hash key usage iv Hk Hi st m _ c iv1 st1 HW Hm E) as (conf & _ & Lc & _ & Lz & _). rewrite Lz. unfold krb5_dk_encrypt_length.
    pose proof (zlen_nonneg m). rewrite HB in *. destruct (roundup_spec (8 + zlen m) 8) as [HR _]; [lia..|].
    rewrite !zlen_app, Lc, (proj2 (zeros_ok _)) by lia. lia.
Qed.

(** A key that is stored: its octets, at the beginning of a block. *)
Definition key_is (k : krb5_keyblock) (c : list octet) : Prop :=
  is_int 16 (kb_enctype k) /\ kb_length k = zlen c /\ (exists t, kb_contents k = Some (c ++ t)) /\ octets c /\ zlen c + 162 < 2 ^ 15.

(** The slot in which [c] is stored under the master key. *)
Definition slot_holds (mkey : keyblock) (s : key_slot) (c : list octet) : Prop :=
  exists cipher pad iv, ks_contents s = Block (krb5_kdb_encode_int16 (zlen c) ++ cipher) /\ ks_length s = 2 + zlen cipher /\
    zlen cipher <= zlen c + 160 /\ zlen cipher <= malloc_limit /\
    krb5_c_decrypt mkey 0 None (ENCTYPE_UNKNOWN, cipher) (zlen cipher) = Ok (c ++ zeros pad, iv).

Lemma store_key_ok mkey dbkey c kd rnd st' : prng_wf rnd -> octets (key_contents mkey) -> key_is dbkey c ->
  store_key mkey dbkey (KeyStore kd rnd) = (Ok tt, st') ->
  exists s, st_key st' = set_slot 0 s kd /\ ks_type s = kb_enctype dbkey /\ slot_holds mkey s c /\ prng_wf (st_random st').
Proof.
  intros HW HM (Ht & Hl & [t Hc] & Oc & H15). pose proof (zlen_nonneg c). unfold store_key. cbn [st_key st_random]. rewrite Hl, Hc.
  destruct (krb5_c_encrypt_length (key_enctype mkey) (zlen c)) as [len| | |] eqn:EL; try discriminate.
  destruct (malloc (2 + len)) as [b|] eqn:EB; [|discriminate]. apply malloc_length in EB as LB.
  rewrite (contents_ok (Data (zlen c) (Some (c ++ t))) c) by (split; [done|by exists t]).
  destruct (krb5_c_encrypt rnd mkey 0 None c len) as [[[[et cipher] iv]| | |] rnd'] eqn:EE; try discriminate. injection 1 as <-. cbn [st_key st_random].
  pose proof (encrypt_size _ _ _ None _ _ _ _ _ HW HM I Oc ltac:(lia) EL EE) as LC. cbn [snd] in LC.
  destruct (krb5_c_encrypt_ok _ _ _ None _ _ _ _ _ HW HM I Oc ltac:(lia) EE) as [(Ee & Oz & Lz & HW' & _) (pad & _ & ED)]. cbn [fst snd] in *. subst et.
  eexists. split; [done|]. cbn [ks_type ks_length ks_contents]. split; [by rewrite to_int_id|]. split; [|done].
  exists cipher, pad, iv. cbn [ks_type ks_length ks_contents]. rewrite drop_ge, app_nil_r by (unfold zlen in *; lia). split; [done|].
  rewrite to_int_id by (unfold is_int; lia). split; [lia|]. split; [lia|].
  unfold malloc in EB. destruct ((0 <=? 2 + len) && (2 + len <=? malloc_limit)) eqn:EM; [|discriminate]. split; [lia|]. by rewrite decrypt_unknown.
Qed.

Lemma load_key_ok mkey k c : slot_holds mkey (slot_at 0 k) c -> zlen c < 2 ^ 15 ->
  exists t, load_key mkey k = Ok (Some (Keyblock (ks_type (slot_at 0 k)) (zlen c) (Some (c ++ t)))).
Proof.
  intros (cipher & pad & iv & EC & EL & Hl & Hm & ED) H15. unfold load_key. rewrite EC, EL. pose proof (zlen_nonneg cipher). pose proof (zlen_nonneg c).
  rewrite (read_mem_ok (krb5_kdb_encode_int16 (zlen c)) cipher : read_mem 2 _ = _). cbn [obind]. rewrite kdb_int16 by (unfold is_int; lia).
  replace (2 + zlen cipher - 2) with (zlen cipher) by lia. destruct (malloc_ok (zlen cipher)) as (plain & -> & _); [lia|].
  change (drop 2 (krb5_kdb_encode_int16 (zlen c) ++ cipher)) with cipher. rewrite read_mem_all. cbn [obind]. rewrite ED. cbn [obind].
  destruct (Z.ltb_spec (zlen (c ++ zeros pad)) (zlen c)); [lens|]. rewrite <- app_assoc. eauto.
Qed.

(** ** Salts *)

Definition salt_ok (salt : krb5_keysalt) : Prop :=
  is_int 16 (salt_type salt) /\ exists s, data_holds (salt_data salt) s /\ zlen s < 2 ^ 15 /\ zlen s <= malloc_limit.
Definition normal_salt : krb5_keysalt := KeySalt KRB5_KDB_SALTTYPE_NORMAL (Data 0 None).

(** What is read of a salt that was stored. *)
Definition salt_kept (keysalt : option krb5_keysalt) (r : krb5_keysalt) : Prop :=
  match keysalt with
  | Some salt =>
      if 0 <? salt_type salt then
        salt_type r = salt_type salt /\ forall s, data_holds (salt_data salt) s -> data_holds (salt_data r) s
      else r = normal_salt
  | None => r = normal_salt
  end.

Lemma store_salt_ok keysalt v s0 rnd : (forall salt, keysalt = Some salt -> salt_ok salt) -> wf_kslot s0 ->
  exists k, store_salt keysalt (KeyStore (KeyData 1 v [s0; zero_slot]) rnd) = (Ok tt, KeyStore k rnd) /\
    slot_at 0 k = s0 /\ key_data_kvno k = v /\ (is_int 16 v -> wf_key k) /\ exists r, load_salt k = Ok r /\ salt_kept keysalt r.
Proof.
  intros Hs H0. unfold store_salt, salt_kept.
  assert (W1 : is_int 16 v -> wf_key (KeyData 1 v [s0; zero_slot])) by (intros Hv; constructor; cbn; [lia|done|done|by apply Forall_cons_2|done]).
  destruct keysalt as [[type d]|]; [|eexists; split; [done|]; split; [done|]; split; [done|]; split; [done|]; by eexists].
  destruct (Hs _ eq_refl) as (Ht & s & Hd & H15 & Hm). cbn [salt_type salt_data] in *.
  destruct (Z.ltb_spec 0 type); [|eexists; split; [done|]; split; [done|]; split; [done|]; split; [done|]; by eexists].
  pose proof (zlen_nonneg s). pose proof Hd as [El Hb]. rewrite El, to_int_id by (unfold is_int; lia).
  unfold sbind, update_key. cbn [st_key st_random key_data_ver key_data_kvno key_data_slots]. rewrite to_int_id by (unfold is_int; lia).
  destruct (Z.eqb_spec (zlen s) 0) as [Z0|NZ].
  - eexists. split; [done|]. split; [done|]. split; [done|]. apply zlen_0_nil in Z0 as ->. split.
    + intros Hv. constructor; cbn; [lia|done|done| |done]. by apply Forall_cons_2, Forall_cons_2.
    + eexists. split; [done|]. split; [done|]. intros s' Hd'. destruct Hd' as [E' _]. rewrite El in E'. symmetry in E'. apply zlen_0_nil in E' as ->. done.
  - destruct (malloc_ok (zlen s)) as (b & EB & _); [lia|]. rewrite EB. unfold sret. unfold read_mem at 1. destruct (Z.ltb_spec (zlen s) 0); [lia|].
    replace (Data (zlen s) (d_data d)) with d by (destruct d; cbn in *; by subst). rewrite (contents_ok _ _ Hd).
    eexists. split; [done|]. split; [done|]. split; [done|]. split.
    + intros Hv. constructor; cbn; [lia|done|done| |done]. apply Forall_cons_2; [done|]. apply Forall_cons_2; [|done]. split; [done|]. cbn. lia.
    + unfold load_salt. cbn [key_data_ver Z.eqb slot_at key_data_slots set_slot st_key nth insert list_insert ks_length ks_contents ks_type].
      cbn. destruct (Z.eqb_spec (zlen s) 0); [lia|]. rewrite EB. unfold deref. rewrite read_mem_all. cbn. eexists. split; [done|]. split; [done|].
      intros s' Hd'. cbn. assert (s' = s) as ->; [|split; [done|exists []; by rewrite app_nil_r]].
      pose proof (contents_ok _ _ Hd) as C. rewrite (contents_ok _ _ Hd') in C. by injection C.
Qed.

Lemma slot_holds_wf mkey s c : slot_holds mkey s c -> zlen c + 162 < 2 ^ 15 -> is_int 16 (ks_type s) -> wf_kslot s.
Proof.
  intros (cipher & pad & iv & EC & EL & Hl & _ & _) H15 Ht. pose proof (zlen_nonneg cipher). split; [done|]. rewrite EC, EL, zlen_app, encode_int16_length. lia.
Qed.

Lemma key_data_stored mkey dbkey c keysalt keyver rnd k rnd' :
  prng_wf rnd -> octets (key_contents mkey) -> key_is dbkey c -> is_int 16 keyver -> (forall salt, keysalt = Some salt -> salt_ok salt) ->
  krb5_dbekd_encrypt_key_data mkey dbkey keysalt keyver (KeyStore zero_key_data rnd) = (Ok tt, KeyStore k rnd') ->
  wf_key k /\ key_data_kvno k = keyver /\ ks_type (slot_at 0 k) = kb_enctype dbkey /\ slot_holds mkey (slot_at 0 k) c /\
  exists r, load_salt k = Ok r /\ salt_kept keysalt r.
Proof.
  intros HW HM HK Hv Hs E. unfold krb5_dbekd_encrypt_key_data in E. apply sbind_ok in E as (slots & st1 & E1 & E). injection E1 as <- <-.
  apply sbind_ok in E as (u & st2 & E2 & E). injection E2 as <- <-. apply sbind_ok in E as (u2 & st3 & E3 & E). destruct u2. cbn [st_random] in E3.
  rewrite (to_int_id 16 keyver) in E3 by (done || lia). destruct (store_key_ok _ _ _ _ _ _ HW HM HK E3) as (s0 & S1 & S2 & S3 & _).
  pose proof HK as (Ht & _ & _ & _ & H15). assert (W0 : wf_kslot s0) by (eapply slot_holds_wf; [done|done|by rewrite S2]).
  destruct st3 as [k3 rnd3]. cbn [st_key] in S1. subst k3. change (set_slot 0 s0 _) with (KeyData 1 keyver [s0; zero_slot]) in E.
  destruct (store_salt_ok keysalt keyver s0 rnd3 Hs W0) as (k' & E' & A0 & AV & AW & AR). rewrite E' in E. injection E as <- <-.
  rewrite A0. split; [by apply AW|]. done.
Qed.

(** A key and the salt of its password, stored under the master key with
    [krb5_dbekd_encrypt_key_data] in a new element of the array, are what
    [krb5_dbekd_decrypt_key_data] returns, for every encryption type of the master key:
    type, length and octets of the key, and type and octets of the salt (the normal salt
    where none was given). *)
Theorem key_data_roundtrip mkey dbkey c keysalt keyver rnd k rnd' :
  prng_wf rnd -> octets (key_contents mkey) -> key_is dbkey c -> is_int 16 keyver -> (forall salt, keysalt = Some salt -> salt_ok salt) ->
  krb5_dbekd_encrypt_key_data mkey dbkey keysalt keyver (KeyStore zero_key_data rnd) = (Ok tt, KeyStore k rnd') ->
  exists k' r, krb5_dbekd_decrypt_key_data mkey k true = Ok (Some k', Some r) /\
    kb_enctype k' = kb_enctype dbkey /\ key_is k' c /\ key_data_kvno k = keyver /\ salt_kept keysalt r.
Proof.
  intros HW HM HK Hv Hs E. destruct (key_data_stored _ _ _ _ _ _ _ _ HW HM HK Hv Hs E) as (_ & KV & ST & SH & r & ER & HR).
  pose proof HK as (Ht & _ & _ & Oc & H15). destruct (load_key_ok mkey k c SH ltac:(lia)) as [t EK].
  unfold krb5_dbekd_decrypt_key_data. rewrite EK. cbn [obind]. rewrite ER. cbn [obind]. eexists _, r. split; [done|]. rewrite ST.
  split; [done|]. split; [|done]. by split_and!; [..|exists t| |].
Qed.

(** Storing a key with a salt of no octets over a key that has a salt leaves a pointer
    to the salt that was freed, and the next key that is stored there frees it again. *)
Theorem empty_salt_double_free mkey dbkey type keyver v t0 l0 c0 t1 l1 c1 rnd k rnd' mkey' dbkey' salt' keyver' rnd'' :
  0 < type ->
  krb5_dbekd_encrypt_key_data mkey dbkey (Some (KeySalt type (Data 0 None))) keyver
    (KeyStore (KeyData 2 v [Slot t0 l0 (Block c0); Slot t1 l1 (Block c1)]) rnd) = (Ok tt, KeyStore k rnd') ->
  (krb5_dbekd_encrypt_key_data mkey' dbkey' salt' keyver' (KeyStore k rnd'')).1 = Undefined.
Proof.
  intros Ht E. unfold krb5_dbekd_encrypt_key_data in E. apply sbind_ok in E as (slots & st1 & E1 & E). injection E1 as <- <-.
  apply sbind_ok in E as (u & st2 & E2 & E). injection E2 as <- <-. apply sbind_ok in E as ([] & st3 & E3 & E). cbn [st_random st_key] in E3.
  assert (exists s0 r, st3 = KeyStore (KeyData 1 (to_int 16 keyver) [s0; Slot t1 l1 Freed]) r /\ exists b, ks_contents s0 = Block b) as (s0 & r & -> & b & Eb).
  { unfold store_key in E3. cbn [st_random st_key] in E3. destruct (krb5_c_encrypt_length _ _) as [len| | |]; try discriminate.
    destruct (malloc _); [|discriminate]. destruct (contents _); try discriminate.
    destruct (krb5_c_encrypt _ _ _ _ _ _) as [[[[? ?] ?]| | |] ?]; try discriminate. injection E3 as <-. eexists _, _. split; [done|]. by eexists. }
  unfold store_salt in E. cbn [salt_type] in E. destruct (Z.ltb_spec 0 type); [|lia]. injection E as <- <-.
  destruct s0 as [ty le p]. cbn in Eb. subst p. done.
Qed.

End keys.

(** ** Searching *)

Section search.
Context `{St : Stack}.

(** Whether a key has the encryption type and the salt type that are asked for; the types
    of keys are known to the library. *)
Definition suitable (ktype stype : Z) (k : krb5_key_data) : bool :=
  match key_suits ktype stype k with Ok b => b | _ => false end.
Definition types_known (ktype stype : Z) (l : list krb5_key_data) : Prop := Forall (fun k => exists b, key_suits ktype stype k = Ok b) l.

(** The version that is looked for. *)
Definition wanted_kvno (l : list krb5_key_data) (ktype stype kvno : Z) : Z :=
  let kvno := if (kvno =? -1) && (stype =? -1) && (ktype =? -1) then 0 else kvno in
  if kvno =? 0 then max_kvno l else kvno.

Lemma suits_suitable ktype stype k b : key_suits ktype stype k = Ok b -> suitable ktype stype k = b.
Proof. intros E. unfold suitable. by rewrite E. Qed.

(** With a version, the loop finds the first key that has it. *)
Lemma search_loop_version ktype stype v i l : 0 <= v -> types_known ktype stype l ->
  search_loop ktype stype v i l None (-1) =
  match list_find (fun k => suitable ktype stype k && (key_data_kvno k =? v) = true) l with
  | Some (n, k) => Ok (Some (k, i + Z.of_nat n), v)
  | None => Ok (None, -1)
  end.
Proof.
  intros Hv HT. revert i. induction HT as [|k l [b Eb] _ IH]; intros i; [done|]. cbn [search_loop list_find]. rewrite Eb. cbn [obind].
  rewrite (suits_suitable _ _ _ _ Eb). destruct (Z.leb_spec 0 v); [|lia].
  assert (R : search_loop ktype stype v (i + 1) l None (-1) =
    match prod_map S id <$> list_find (fun k => suitable ktype stype k && (key_data_kvno k =? v) = true) l with
    | Some (n, k) => Ok (Some (k, i + Z.of_nat n), v) | None => Ok (None, -1) end).
  { rewrite IH. destruct (list_find _ l) as [[n k']|]; [|done]. cbn. do 4 f_equal. lia. }
  rewrite (Z.eqb_sym v). destruct b; cbn [andb]; [|by rewrite decide_False]. destruct (key_data_kvno k =? v) eqn:E; [|by rewrite decide_False].
  rewrite decide_True by done. do 4 f_equal. lia.
Qed.

(** Without a version, the loop finds the greatest one. *)
Lemma search_loop_newest ktype stype v l : v < 0 -> types_known ktype stype l -> forall i best m,
  exists best' m', search_loop ktype stype v i l best m = Ok (best', m') /\ m <= m' /\
    Forall (fun k => suitable ktype stype k = true -> key_data_kvno k <= m') l /\
    (m' = m /\ best' = best \/ exists n k, l !! n = Some k /\ best' = Some (k, i + Z.of_nat n) /\ key_data_kvno k = m' /\ suitable ktype stype k = true /\ m < m').
Proof.
  intros Hv. induction 1 as [|k l [b Eb] _ IH]; intros i best m; cbn [search_loop].
  - exists best, m. split; [done|]. split; [lia|]. split; [done|by left].
  - rewrite Eb. cbn [obind]. apply suits_suitable in Eb as Es. destruct (Z.leb_spec 0 v); [lia|].
    assert (step : forall best1 m1, m <= m1 -> (suitable ktype stype k = true -> key_data_kvno k <= m1) ->
      (m1 = m /\ best1 = best \/ best1 = Some (k, i) /\ key_data_kvno k = m1 /\ suitable ktype stype k = true /\ m < m1) ->
      exists best' m', search_loop ktype stype v (i + 1) l best1 m1 = Ok (best', m') /\ m <= m' /\
        Forall (fun k => suitable ktype stype k = true -> key_data_kvno k <= m') (k :: l) /\
        (m' = m /\ best' = best \/ exists n k', (k :: l) !! n = Some k' /\ best' = Some (k', i + Z.of_nat n) /\ key_data_kvno k' = m' /\ suitable ktype stype k' = true /\ m < m')).
    { intros best1 m1 H1 H2 H3. destruct (IH (i + 1) best1 m1) as (best' & m' & E & Hm & Hl & Hr). exists best', m'. split; [done|]. split; [lia|].
      split; [constructor; [intros Hk; specialize (H2 Hk); lia|done]|]. destruct Hr as [[-> ->]|(n & k' & A & -> & B & C & D)].
      - destruct H3 as [[-> ->]|(-> & A & B & C)]; [by left|]. right. exists O, k. rewrite Z.add_0_r. done.
      - right. exists (S n), k'. split; [done|]. split; [do 2 f_equal; lia|]. split; [done|]. split; [done|lia]. }
    destruct b; [|apply step; [lia|by rewrite Es|by left]].
    destruct (Z.ltb_spec m (key_data_kvno k)); apply step; [lia|intros; lia|by right|lia|intros; lia|by left].
Qed.

Lemma search_unfold e name start ktype stype kvno : wf_entry e name -> 0 <= start ->
  krb5_dbe_search_enctype e start ktype stype kvno =
  let* '(best, maxkvno) := search_loop ktype stype (wanted_kvno (entry_keys e) ktype stype kvno) start (drop (Z.to_nat start) (entry_keys e)) None (-1) in
  if maxkvno <? 0 then Err ENOENT else match best with Some (k, index) => Ok (k, index + 1) | None => Undefined end.
Proof.
  intros He Hs. unfold krb5_dbe_search_enctype, wanted_kvno. rewrite (key_data_of_ok e name He). cbn [obind]. destruct (wf_n_key _ _ He) as [HN _].
  set (v := if _ && _ then 0 else kvno). replace (if v =? 0 then Ok (max_kvno (entry_keys e)) else Ok v) with (Ok (E := error_code) (if v =? 0 then max_kvno (entry_keys e) else v)) by (by destruct (v =? 0)).
  cbn [obind]. destruct (Z.ltb_spec start (dbe_n_key_data e)).
  - destruct (Z.ltb_spec start 0); [lia|]. done.
  - cbn [obind]. rewrite drop_ge by (unfold zlen in HN; lia). done.
Qed.

Lemma filter_none {A} (Q : A -> Prop) `{!forall x, Decision (Q x)} l : Forall (fun x => ~ Q x) l -> filter Q l = [].
Proof. induction 1 as [|x l Hx _ IH]; [done|]. by rewrite list.filter_cons_False. Qed.

(** Asking again from *start on until there is nothing more. *)
Fixpoint search_all (fuel : nat) (e : krb5_db_entry_new) (start ktype stype kvno : Z) : outcome error_code (list krb5_key_data) :=
  match fuel with
  | O => OutOfFuel
  | S fuel =>
      match krb5_dbe_search_enctype e start ktype stype kvno with
      | Ok (k, start) => let* r := search_all fuel e start ktype stype kvno in Ok (k :: r)
      | Err ENOENT => Ok []
      | Err x => Err x
      | Undefined => Undefined
      | OutOfFuel => OutOfFuel
      end
  end.

Lemma types_known_drop ktype stype l n : types_known ktype stype l -> types_known ktype stype (drop n l).
Proof. intros H. by apply Forall_drop. Qed.

Lemma search_all_ok e name ktype stype kvno : wf_entry e name -> types_known ktype stype (entry_keys e) ->
  let v := wanted_kvno (entry_keys e) ktype stype kvno in 0 <= v ->
  forall fuel n, (length (entry_keys e) - n < fuel)%nat ->
  search_all fuel e (Z.of_nat n) ktype stype kvno =
  Ok (filter (fun k => suitable ktype stype k && (key_data_kvno k =? v) = true) (drop n (entry_keys e))).
Proof.
  intros He HT v Hv fuel. induction fuel as [|fuel IH]; intros n Hf; [lia|]. cbn [search_all].
  rewrite (search_unfold e name) by (done || lia). fold v. rewrite Nat2Z.id, (search_loop_version _ _ _ _ _ Hv (types_known_drop _ _ _ n HT)).
  set (Q := fun k => suitable ktype stype k && (key_data_kvno k =? v) = true). destruct (list_find Q (drop n (entry_keys e))) as [[j k]|] eqn:E; cbn [obind].
  - destruct (Z.ltb_spec v 0); [lia|]. apply list_find_Some in E as (A & B & C). rewrite lookup_drop in A.
    pose proof (lookup_lt_Some _ _ _ A). replace (Z.of_nat n + Z.of_nat j + 1) with (Z.of_nat (n + S j)) by lia. rewrite IH by lia. cbn [obind].
    rewrite <- (take_drop j (drop n (entry_keys e))), list.filter_app. rewrite drop_drop.
    rewrite (drop_S _ k (n + j) A), list.filter_cons_True by done.
    replace (filter Q (take j (drop n (entry_keys e)))) with (@nil krb5_key_data).
    { rewrite app_nil_l. do 4 f_equal. lia. }
    symmetry. apply filter_none, list.Forall_forall. intros x (i & Hi)%list_elem_of_lookup. pose proof (lookup_lt_Some _ _ _ Hi) as Hj.
    rewrite length_take in Hj. rewrite lookup_take_lt in Hi by lia. by apply (C i x Hi ltac:(lia)).
  - apply list_find_None in E. by rewrite filter_none.
Qed.

(** Repeated calls of [krb5_dbe_search_enctype], each from where the last one stopped,
    go through exactly the keys of the entry that have the encryption type, the salt
    type and the version that are asked for (version 0 stands for the greatest version
    of any key), in their order, and then end with ENOENT. *)
Theorem search_enumerates e name ktype stype kvno : wf_entry e name -> types_known ktype stype (entry_keys e) ->
  0 <= wanted_kvno (entry_keys e) ktype stype kvno ->
  search_all (S (length (entry_keys e))) e 0 ktype stype kvno =
  Ok (filter (fun k => suitable ktype stype k && (key_data_kvno k =? wanted_kvno (entry_keys e) ktype stype kvno) = true) (entry_keys e)).
Proof. intros He HT Hv. by apply (search_all_ok e name ktype stype kvno He HT Hv (S (length (entry_keys e))) 0%nat ltac:(lia)). Qed.

(** Without a version, the key with the greatest version that is not negative. *)
Theorem search_newest e name start ktype stype kvno : wf_entry e name -> types_known ktype stype (entry_keys e) -> 0 <= start ->
  wanted_kvno (entry_keys e) ktype stype kvno < 0 ->
  match krb5_dbe_search_enctype e start ktype stype kvno with
  | Ok (k, next) => exists n, entry_keys e !! (Z.to_nat start + n)%nat = Some k /\ next = start + Z.of_nat n + 1 /\ suitable ktype stype k = true /\
      Forall (fun k' => suitable ktype stype k' = true -> key_data_kvno k' <= key_data_kvno k) (drop (Z.to_nat start) (entry_keys e))
  | Err x => x = ENOENT /\ Forall (fun k' => suitable ktype stype k' = true -> key_data_kvno k' < 0) (drop (Z.to_nat start) (entry_keys e))
  | _ => False
  end.
Proof.
  intros He HT Hs Hv. rewrite (search_unfold e name) by done.
  destruct (search_loop_newest ktype stype _ _ Hv (types_known_drop _ _ _ (Z.to_nat start) HT) start None (-1)) as (best & m & -> & Hm & HF & HB). cbn [obind].
  destruct (Z.ltb_spec m 0).
  - split; [done|]. eapply list.Forall_impl; [exact HF|]. intros k Hk Hsu. specialize (Hk Hsu). lia.
  - destruct HB as [[-> _]|(n & k & A & -> & B & C & _)]; [lia|]. rewrite lookup_drop in A. exists n. split; [done|]. split; [lia|]. split; [done|]. by rewrite B.
Qed.

End search.

(** ** From the administrator to the KDC *)

Section path.
Context `{P : Platform} `{St : Stack}.

Lemma create_ok e name e1 : wf_entry e name -> zlen (entry_keys e) + 1 < 2 ^ 15 -> krb5_dbe_create_key_data e = (Ok tt, e1) ->
  e1 = with_key_data e (zlen (entry_keys e) + 1) (Some (entry_keys e ++ [zero_key_data])).
Proof.
  intros He Hn. unfold krb5_dbe_create_key_data. destruct (malloc _); [|discriminate]. rewrite (key_data_of_ok e name He). destruct (wf_n_key _ _ He) as [-> _].
  pose proof (zlen_nonneg (entry_keys e)). destruct (Z.ltb_spec (zlen (entry_keys e)) 0); [lia|]. rewrite to_int_id by (unfold is_int; lia). by injection 1 as <-.
Qed.

Lemma wf_with_keys e name l : wf_entry e name -> l <> [] -> Forall wf_key l -> zlen l < 2 ^ 15 -> wf_entry (with_key_data e (zlen l) (Some l)) name.
Proof.
  intros [] Hl Hk Hn. constructor; try done. cbn [dbe_key_data dbe_n_key_data with_key_data]. destruct (Z.eqb_spec (zlen l) 0) as [E|]; [|done].
  by apply zlen_0_nil in E.
Qed.

Lemma max_kvno_last l k : Forall (fun k' => key_data_kvno k' < key_data_kvno k) l -> 0 <= key_data_kvno k -> max_kvno (l ++ [k]) = key_data_kvno k.
Proof.
  intros Hl Hk. unfold max_kvno. rewrite foldl_app. cbn [foldl].
  set (f := fun (a : Z) (k : krb5_key_data) => if a <? key_data_kvno k then key_data_kvno k else a).
  assert (H : forall a, a <= key_data_kvno k -> foldl f a l <= key_data_kvno k).
  { induction Hl as [|k' l Hk' _ IH]; intros a Ha; cbn [foldl]; [done|]. apply IH. unfold f. destruct (_ <? _); lia. }
  specialize (H 0 Hk). destruct (Z.ltb_spec (foldl f 0 l) (key_data_kvno k)); lia.
Qed.

Lemma suits_own_type k : 0 <= ks_type (slot_at 0 k) -> valid_enctype (ks_type (slot_at 0 k)) = true -> wf_key k ->
  key_suits (ks_type (slot_at 0 k)) (-1) k = Ok true.
Proof.
  intros H0 HV [_ _ HL _ _]. unfold key_suits, db_stype, slot_at in *. destruct (key_data_slots k) as [|s0 [|s1 l]]; try discriminate HL. cbn [nth lookup list_lookup] in *.
  destruct (Z.leb_spec 0 (ks_type s0)); [|lia]. apply bool_decide_eq_true_1 in HV as [kt E]. unfold krb5_c_enctype_compare. rewrite E.
  rewrite !bool_decide_eq_true_2 by done. destruct (1 <? key_data_ver k); cbn [obind]; by rewrite orb_true_r.
Qed.

(** C14: The way of a key: an administrator adds an element to the keys of a well-formed
    entry, all of whose keys are of encryption types that the library knows, stores a
    key of a known type there with a version above those of the other keys, and stores
    the entry, for whose record there is memory; whoever reads the entry, looks for the
    current key of this encryption type and decrypts it with the master key, has the
    key. (Another key of an unknown type would make the search fail.) *)
Theorem stored_key_found e name e1 mkey dbkey c keysalt keyver rnd k rnd' get dr :
  wf_entry e name -> zlen (entry_keys e) + 1 < 2 ^ 15 -> prng_wf rnd -> octets (key_contents mkey) -> key_is dbkey c ->
  is_int 16 keyver -> (forall salt, keysalt = Some salt -> salt_ok salt) ->
  krb5_dbe_create_key_data e = (Ok tt, e1) ->
  krb5_dbekd_encrypt_key_data mkey dbkey keysalt keyver (KeyStore zero_key_data rnd) = (Ok tt, KeyStore k rnd') ->
  let e2 := with_key_data e1 (dbe_n_key_data e1) (Some (<[Z.to_nat (dbe_n_key_data e) := k]> (entry_keys e1))) in
  entry_memory e2 name -> 0 <= keyver -> Forall (fun k' => key_data_kvno k' < keyver) (entry_keys e) ->
  0 <= kb_enctype dbkey -> valid_enctype (kb_enctype dbkey) = true -> types_known (kb_enctype dbkey) (-1) (entry_keys e) ->
  exists content e' kd k', krb5_encode_princ_contents e2 = Ok content /\ krb5_decode_princ_contents get dr content = (Ok e', dr) /\
    krb5_dbe_find_enctype e' (kb_enctype dbkey) (-1) 0 = Ok kd /\
    krb5_dbekd_decrypt_key_data mkey kd false = Ok (Some k', None) /\ kb_enctype k' = kb_enctype dbkey /\ key_is k' c.
Proof.
  intros He Hn HW HM HK Hv Hs EC EE e2 HMem H0 HF Ht HV HT.
  destruct (key_data_stored _ _ _ _ _ _ _ _ HW HM HK Hv Hs EE) as (WK & KV & ST & SH & _).
  pose proof (create_ok e name e1 He Hn EC) as ->. destruct (wf_n_key _ _ He) as [HN _].
  assert (E2 : e2 = with_key_data e (zlen (entry_keys e ++ [k])) (Some (entry_keys e ++ [k]))).
  { unfold e2. cbn [dbe_n_key_data with_key_data entry_keys dbe_key_data default]. change (id ?x) with x. rewrite HN, to_nat_zlen, insert_app_r_alt by lia.
    rewrite Nat.sub_diag, zlen_app. done. }
  rewrite E2 in *. clear e2 E2. set (l := entry_keys e ++ [k]) in *.
  assert (W2 : wf_entry (with_key_data e (zlen l) (Some l)) name).
  { apply wf_with_keys; [done|by destruct (entry_keys e)|apply Forall_app; split; [apply (wf_keys _ _ He)|by constructor]|unfold l; rewrite zlen_app; change (zlen [k]) with 1; lia]. }
  destruct (decode_encoded _ name get dr W2 HMem) as (p' & Hp' & ED). eexists _, (with_princ (with_key_data e (zlen l) (Some l)) p').
  pose proof HK as (_ & _ & _ & Oc & H15). destruct (load_key_ok mkey k c SH ltac:(lia)) as [t EK].
  exists k. eexists. split; [by apply encode_entry|]. split; [done|]. split.
  - unfold krb5_dbe_find_enctype. rewrite (search_unfold _ name) by (done || by apply wf_with_princ). change (entry_keys (with_princ _ p')) with l.
    unfold wanted_kvno. cbn [Z.eqb andb].
    assert (MK : max_kvno l = keyver) by (unfold l; by rewrite max_kvno_last; rewrite KV). rewrite MK, drop_0.
    assert (SU : key_suits (kb_enctype dbkey) (-1) k = Ok true) by (rewrite <- ST in *; by apply suits_own_type).
    rewrite search_loop_version by (done || (apply Forall_app; split; [done|constructor; [by exists true|constructor]])).
    rewrite (proj2 (list_find_Some _ l (length (entry_keys e)) k)); cbn [obind]; [by destruct (Z.ltb_spec keyver 0); [lia|]|].
    unfold l. split; [by rewrite lookup_app_r, Nat.sub_diag|]. split; [by rewrite (suits_suitable _ _ _ _ SU), KV, Z.eqb_refl|].
    intros j y Hj HL [_ E%Z.eqb_eq]%andb_true_iff. rewrite lookup_app_l in Hj by done.
    pose proof (proj1 (list.Forall_forall _ _) HF y (list_elem_of_lookup_2 _ _ _ Hj)) as HY. cbv beta in HY. lia.
  - unfold krb5_dbekd_decrypt_key_data. rewrite EK. cbn [obind]. split; [done|]. rewrite ST. split; [done|].
    pose proof HK as (Hi & _). by split_and!; [..|exists t| |].
Qed.
(** Freeing a well-formed entry frees every block once. *)
Lemma free_contents_ok e name : wf_entry e name -> krb5_dbe_free_contents e = (Ok tt, zero_entry).
Proof.
  intros He. unfold krb5_dbe_free_contents. rewrite (key_data_of_ok e name He).
  assert (F : free_key_data (entry_keys e) = Ok tt).
  { induction (wf_keys _ _ He) as [|k l Hk _ IH]; [done|]. cbn [free_key_data]. rewrite (slots_of_ok k Hk). cbn [obind].
    assert (G : free_contents_slots (live_slots k) = Ok tt); [|by rewrite G].
    induction (wf_key_slots _ Hk) as [|s sl [_ Hs] _ IHs]; [done|]. cbn [free_contents_slots]. unfold free_contents_slot.
    destruct (ks_length s =? 0) eqn:E0; [done|]. destruct (ks_contents s) as [|b|]; [done| |done]. destruct Hs as [-> Hb].
    destruct (Z.leb_spec 0 (zlen b)); [|lia]. rewrite Z.leb_refl. done. }
  destruct (dbe_key_data e) eqn:E; cbn [obind]; [by rewrite F|done].
Qed.

(** When a key cannot be encrypted, the element keeps a pointer to the key that was there
    and has been freed; freeing the entry frees it again. *)
Theorem encrypt_failure_double_free e name mkey dbkey keysalt keyver k rest rnd x :
  wf_entry e name -> entry_keys e = k :: rest -> key_data_ver k = 1 -> ks_length (slot_at 0 k) <> 0 ->
  krb5_c_encrypt_length (key_enctype mkey) (kb_length dbkey) = Err x ->
  exists st, krb5_dbekd_encrypt_key_data mkey dbkey keysalt keyver (KeyStore k rnd) = (Err x, st) /\
    (krb5_dbe_free_contents (with_key_data e (dbe_n_key_data e) (Some (st_key st :: rest)))).1 = Undefined.
Proof.
  intros He EK Ev Hl EL. destruct (wf_n_key _ _ He) as [HN _]. pose proof (wf_keys _ _ He) as HW. rewrite EK in HN, HW.
  apply Forall_cons_1 in HW as [Hk _]. destruct Hk as [_ _ HA HS _]. destruct k as [ver v slots]. cbn [key_data_ver key_data_slots] in *. subst ver.
  destruct slots as [|s0 [|s1 [|]]]; try discriminate HA. unfold slot_at in Hl. cbn [key_data_slots nth] in Hl.
  apply Forall_cons_1 in HS as [[_ HB] _]. destruct (ks_contents s0) as [|b|] eqn:EC; [done| |done].
  exists (KeyStore (KeyData 1 (to_int 16 keyver) [Slot (ks_type s0) (ks_length s0) Freed; s1]) rnd). split.
  - unfold krb5_dbekd_encrypt_key_data, sbind. cbn [st_key key_data_ver key_data_slots]. change (Z.to_nat 1) with 1%nat. cbn [free_slots].
    replace (free_slot s0) with (Ok (E := error_code) (Slot (ks_type s0) (ks_length s0) Freed)) by (unfold free_slot; by rewrite EC).
    cbn [obind update_key st_key st_random]. unfold store_key. by rewrite EL.
  - unfold krb5_dbe_free_contents. cbn [with_key_data dbe_key_data dbe_n_key_data st_key]. unfold key_data_of. cbn [dbe_key_data]. rewrite HN, !zlen_cons.
    pose proof (zlen_nonneg rest). destruct (Z.leb_spec (zlen rest + 1) 0); [lia|]. cbn [dbe_key_data with_key_data]. rewrite zlen_cons, Z.ltb_irrefl.
    replace (Z.to_nat (zlen rest + 1)) with (S (length rest)) by (unfold zlen; lia). cbn [obind take free_key_data]. unfold slots_of. cbn [key_data_slots key_data_ver].
    change (zlen [_; s1] <? 1) with false. change (Z.to_nat 1) with 1%nat. cbn [take obind free_contents_slots]. unfold free_contents_slot. cbn [ks_length ks_contents].
    by destruct (Z.eqb_spec (ks_length s0) 0).
Qed.

End path.
