(* ===== verification/OldApi.v ===== *)
(** * The interface of earlier releases (src/src/lib/crypto/old_api_glue.c) and names of types

    The functions that applications of the earlier releases call, on top of those of
    CryptoApi.v, and the conversion of names to numbers of types (string_to_enctype.c,
    enctype_to_string.c, string_to_cksumtype.c, cksumtype_to_string.c). *)

From Stdlib Require Import String Ascii.
From S2P Require Import Prelude CString Asn1Buf Words Crc32 Nfold NfoldProofs Des DesProofs DesCbcProofs.
From S2P Require Import PrincName Afs Md Shs Crypto CryptoProofs CryptoApi CryptoEnc CryptoKeys.

(** krb5_encrypt_block: the type of use_enctype and the key of process_key. *)
Record krb5_encrypt_block : Type := EncryptBlock { crypto_entry : Z; eb_key : option keyblock }.

Section old_api.
Context `{Stack}.

(** [ivec] is what stands at the pointer, of which a block is used. *)
Definition old_api_ivec (enctype : Z) (ivec : option (list octet)) : outcome error_code (option (list octet)) :=
  match ivec with
  | None => Ok None
  | Some mem =>
      let* blocksize := krb5_c_block_size enctype in
      if zlen mem <? blocksize then Undefined else Ok (Some (take (Z.to_nat blocksize) mem))
  end.

(** Reads through the key of the block. *)
Definition eblock_key (eblock : krb5_encrypt_block) : outcome error_code keyblock :=
  match eb_key eblock with Some k => Ok k | None => Undefined end.

(** The ciphertext; the output buffer is taken to be large enough. *)
Definition krb5_encrypt (st : prng) (inp : list octet) (eblock : krb5_encrypt_block) (ivec : option (list octet))
    : outcome error_code (list octet * option (list octet)) * prng :=
  match (let* key := eblock_key eblock in
         let* ivecd := old_api_ivec (key_enctype key) ivec in
         let* outlen := krb5_c_encrypt_length (key_enctype key) (zlen inp) in
         Ok (key, ivecd, outlen)) with
  | Ok (key, ivecd, outlen) =>
      let '(r, st) := krb5_c_encrypt st key 0 ivecd inp outlen in
      (let* '(ed, iv) := r in Ok (ed.2, iv), st)
  | Err e => (Err e, st)
  | Undefined => (Undefined, st)
  | OutOfFuel => (OutOfFuel, st)
  end.

Definition krb5_decrypt (inp : list octet) (eblock : krb5_encrypt_block) (ivec : option (list octet))
    : outcome error_code (list octet * option (list octet)) :=
  let* key := eblock_key eblock in
  let* ivecd := old_api_ivec (key_enctype key) ivec in
  krb5_c_decrypt key 0 ivecd (key_enctype key, inp) (zlen inp).

Definition krb5_process_key (eblock : krb5_encrypt_block) (key : keyblock) : krb5_encrypt_block :=
  EncryptBlock (crypto_entry eblock) (Some key).

(** krb5_finish_key and krb5_finish_random_key do nothing. *)

Definition krb5_use_enctype (eblock : krb5_encrypt_block) (enctype : Z) : krb5_encrypt_block :=
  EncryptBlock enctype (eb_key eblock).

Definition krb5_eblock_enctype (eblock : krb5_encrypt_block) : Z := crypto_entry eblock.

Definition krb5_string_to_key `{Platform} (eblock : krb5_encrypt_block) (data behind : list octet) (salt : option (list octet * bool))
    : outcome error_code keyblock :=
  krb5_c_string_to_key (crypto_entry eblock) data behind salt.

Definition krb5_init_random_key (st : prng) (keyblock : keyblock) : prng := krb5_c_random_seed st (key_contents keyblock).

Definition krb5_random_key (st : prng) (eblock : krb5_encrypt_block) : outcome error_code keyblock * prng :=
  krb5_c_make_random_key st (crypto_entry eblock).

(** -1 as a [size_t] for an unknown type *)
Definition krb5_encrypt_size (length crypto : Z) : Z :=
  match krb5_c_encrypt_length crypto length with Ok n => n | _ => size_t (-1) end.

Definition krb5_checksum_size (ctype : Z) : Z :=
  match krb5_c_checksum_length ctype with Ok n => n | _ => size_t (-1) end.

(** The type of the key is a field of a variable that is never set: [stack_enctype]. *)
Definition krb5_calculate_checksum (st : prng) (stack_enctype ctype : Z) (inp seed : list octet) (outcksum_length : Z)
    : outcome error_code (list octet) * prng :=
  let '(r, st) := krb5_c_make_checksum st ctype (Key stack_enctype seed) 0 inp in
  (let* cksum := r in
   if outcksum_length <? zlen cksum then Err KRB5_BAD_MSIZE else Ok cksum, st).

(** [ctype] is not used; the checksum has its type with it. *)
Definition krb5_verify_checksum (st : prng) (stack_enctype ctype : Z) (cksum : Z * list octet) (inp seed : list octet)
    : outcome error_code unit * prng :=
  let '(r, st) := krb5_c_verify_checksum st (Key stack_enctype seed) 0 inp cksum in
  (let* valid := r in
   if valid : bool then Ok tt else Err KRB5KRB_AP_ERR_BAD_INTEGRITY, st).

Definition krb5_random_confounder (st : prng) (size : Z) : outcome error_code (list octet) * prng :=
  krb5_c_random_make_octets st size.

Definition krb5_encrypt_data (st : prng) (key : keyblock) (ivec : option (list octet)) (data : list octet)
    : outcome error_code ((Z * list octet) * option (list octet)) * prng :=
  match (let* enclen := krb5_c_encrypt_length (key_enctype key) (zlen data) in
         let* ivecd := old_api_ivec (key_enctype key) ivec in
         Ok (enclen, ivecd)) with
  | Ok (enclen, ivecd) => krb5_c_encrypt st key 0 ivecd data enclen
  | Err e => (Err e, st)
  | Undefined => (Undefined, st)
  | OutOfFuel => (OutOfFuel, st)
  end.

(** What the caller finds at data->data after a return value of 0: the plaintext, or
    memory that was freed. *)
Inductive decrypted : Type :=
| Plain (data : list octet)
| Freed.

(** The code of [krb5_c_decrypt] makes the block be freed and is not returned. *)
Definition krb5_decrypt_data (key : keyblock) (ivec : option (list octet)) (enc_data : Z * list octet)
    : outcome error_code decrypted :=
  let* ivecd := old_api_ivec (key_enctype key) ivec in
  match krb5_c_decrypt key 0 ivecd enc_data (zlen enc_data.2) with
  | Ok (p, _) => Ok (Plain p)
  | Err _ => Ok Freed
  | Undefined => Undefined
  | OutOfFuel => OutOfFuel
  end.

(** ** Names *)

Fixpoint chars (s : string) : list octet :=
  match s with EmptyString => [] | String c s => Z.of_nat (nat_of_ascii c) :: chars s end.

(** in_string, out_string and type of the entries of the tables *)
Definition enctype_names : list (list octet * list octet * Z) := [
  (chars "des-cbc-crc", chars "DES cbc mode with CRC-32", ENCTYPE_DES_CBC_CRC);
  (chars "des-cbc-md4", chars "DES cbc mode with RSA-MD4", ENCTYPE_DES_CBC_MD4);
  (chars "des-cbc-md5", chars "DES cbc mode with RSA-MD5", ENCTYPE_DES_CBC_MD5);
  (chars "des", chars "DES cbc mode with RSA-MD5", ENCTYPE_DES_CBC_MD5);
  (chars "des-cbc-raw", chars "DES cbc mode raw", ENCTYPE_DES_CBC_RAW);
  (chars "des3-cbc-raw", chars "Triple DES cbc mode raw", ENCTYPE_DES3_CBC_RAW);
  (chars "des3-cbc-sha1", chars "Triple DES cbc mode with HMAC/sha1", ENCTYPE_DES3_CBC_SHA1);
  (chars "des3-hmac-sha1", chars "Triple DES cbc mode with HMAC/sha1", ENCTYPE_DES3_CBC_SHA1);
  (chars "des3-cbc-sha1-kd", chars "Triple DES cbc mode with HMAC/sha1", ENCTYPE_DES3_CBC_SHA1);
  (chars "des-hmac-sha1", chars "DES with HMAC/sha1", ENCTYPE_DES_HMAC_SHA1)].

Definition cksumtype_names : list (list octet * list octet * Z) := [
  (chars "crc32", chars "CRC-32", CKSUMTYPE_CRC32);
  (chars "md4", chars "RSA-MD4", CKSUMTYPE_RSA_MD4);
  (chars "md4-des", chars "RSA-MD4 with DES cbc mode", CKSUMTYPE_RSA_MD4_DES);
  (chars "des-cbc", chars "DES cbc mode", CKSUMTYPE_DESCBC);
  (chars "md5", chars "RSA-MD5", CKSUMTYPE_RSA_MD5);
  (chars "md5-des", chars "RSA-MD5 with DES cbc mode", CKSUMTYPE_RSA_MD5_DES);
  (chars "sha", chars "NIST-SHA", CKSUMTYPE_NIST_SHA);
  (chars "hmac-sha1-des3", chars "HMAC-SHA1 DES3 key", CKSUMTYPE_HMAC_SHA1_DES3);
  (chars "hmac-sha1-des3-kd", chars "HMAC-SHA1 DES3 key", CKSUMTYPE_HMAC_SHA1_DES3)].

Definition strcasecmp_eq (a b : list octet) : bool := bool_decide (tolower <$> a = tolower <$> b).

Definition string_to_type (names : list (list octet * list octet * Z)) (string : list octet) : outcome error_code Z :=
  match List.find (fun e => strcasecmp_eq e.1.1 string) names with
  | Some e => Ok e.2
  | None => Err EINVAL
  end.

Definition type_to_string (names : list (list octet * list octet * Z)) (type buflen : Z) : outcome error_code (list octet) :=
  match List.find (fun e => e.2 =? type) names with
  | Some e => if buflen <? zlen e.1.2 + 1 then Err ENOMEM else Ok (e.1.2 ++ [0])
  | None => Err EINVAL
  end.

Definition krb5_string_to_enctype : list octet -> outcome error_code Z := string_to_type enctype_names.
Definition krb5_enctype_to_string : Z -> Z -> outcome error_code (list octet) := type_to_string enctype_names.
Definition krb5_string_to_cksumtype : list octet -> outcome error_code Z := string_to_type cksumtype_names.
Definition krb5_cksumtype_to_string : Z -> Z -> outcome error_code (list octet) := type_to_string cksumtype_names.

(** The tables of names and of types list the same numbers. *)
Lemma names_match_types :
  (fun e => e.2) <$> enctype_names = kt_etype <$> krb5_enctypes_list /\
  (fun e => e.2) <$> cksumtype_names = ct_ctype <$> krb5_cksumtypes_list.
Proof. split; reflexivity. Qed.

(** ** What the functions promise *)

Lemma old_api_ivec_octets t ivec iv : match ivec with Some l => octets l | None => True end ->
  old_api_ivec t ivec = Ok iv -> octets_opt iv.
Proof.
  destruct ivec as [mem|]; cbn [old_api_ivec]; [|by injection 2 as <-]. intros HO. destruct (krb5_c_block_size t); try discriminate.
  cbn [obind]. destruct (_ <? _); [discriminate|]. injection 1 as <-. by apply Forall_take.
Qed.

(** What [krb5_encrypt] of the earlier interface returns, [krb5_decrypt] turns back into
    the message, filled with zeros. *)
Theorem old_api_roundtrip st eblock key m ivec c iv' st' :
  prng_wf st -> eb_key eblock = Some key -> octets (key_contents key) -> octets m -> zlen m < 2 ^ 32 ->
  match ivec with Some l => octets l | None => True end ->
  krb5_encrypt st m eblock ivec = (Ok (c, iv'), st') ->
  exists pad, 0 <= pad < 8 /\ krb5_decrypt c eblock ivec = Ok (m ++ zeros pad, iv').
Proof.
  intros HW HK Ho Hm Hl Hi. unfold krb5_encrypt, krb5_decrypt, eblock_key. rewrite HK. cbn [obind].
  destruct (old_api_ivec (key_enctype key) ivec) as [iv| | |] eqn:EI; try discriminate. cbn [obind].
  destruct (krb5_c_encrypt_length _ _) as [n| | |]; try discriminate. cbn [obind].
  destruct (krb5_c_encrypt st key 0 iv m n) as [[[[t ed] ivo]| | |] st1] eqn:E; try discriminate. cbn [obind snd].
  injection 1 as <- <- <-. assert (t = key_enctype key) as ->.
  { revert E. unfold krb5_c_encrypt. destruct (find_enctype _); [|discriminate]. destruct (kt_mode _).
    - destruct (krb5_raw_encrypt _ _ _ _ _); try discriminate. cbn [obind]. by injection 1.
    - destruct (krb5_old_encrypt _ _ _ _ _ _ _ _) as [[[]| | |] ?]; try discriminate. cbn [obind]. by injection 1.
    - destruct (krb5_dk_encrypt _ _ _ _ _ _ _ _) as [[[]| | |] ?]; try discriminate. cbn [obind]. by injection 1. }
  destruct (krb5_c_encrypt_decrypt st key 0 iv m n (key_enctype key, ed) ivo st1 HW Ho (old_api_ivec_octets _ _ _ Hi EI) Hm Hl E) as (pad & Hp & D).
  by exists pad.
Qed.

(** [krb5_decrypt_data] reports success whatever happens: when decryption fails it
    returns 0 and leaves the caller a pointer to freed memory. *)
Theorem decrypt_data_hides_errors key ed :
  (forall e, krb5_decrypt_data key None ed <> Err e) /\
  (forall e, krb5_c_decrypt key 0 None ed (zlen ed.2) = Err e -> krb5_decrypt_data key None ed = Ok Freed).
Proof.
  unfold krb5_decrypt_data, old_api_ivec. cbn [obind]. split; intros e.
  - by destruct (krb5_c_decrypt _ _ _ _ _) as [[]| | |].
  - by intros ->.
Qed.
End old_api.
