(* ===== verification/KTest.v ===== *)
(** * The test values of the repository (src/src/tests/asn.1/ktest.c) and its
    reference encodings (src/src/tests/asn.1/reference_encode.out)

    The encoders of the model, evaluated on the structures of the test program, give
    the octets its reference output records; the decoders give the structures back.
    The structures also serve as the concrete inputs of the witnesses. *)

From Stdlib Require Import String Ascii.
From S2P Require Import Prelude Asn1Buf Asn1Tag GmTime Asn1Prim Krb5Types Asn1KEncode Asn1KDecode Krb5Encode Krb5Decode.

(** An LP64 machine. *)
#[export] Instance lp64 : Platform := {|
  sizeof_long := 8; sizeof_long_ok := or_intror eq_refl;
  malloc_limit := 1000000; heap_junk := fun _ => 0xA5;
  stack_junk := TagVars 0xC0 0x20 77 99 1
|}.

Fixpoint str (s : string) : list octet :=
  match s with
  | EmptyString => []
  | String c s => Z.of_N (N_of_ascii c) :: str s
  end.
Definition data_of (s : string) : krb5_data := Data (zlen (str s)) (Some (str s)).

Module KTest.

Definition SAMPLE_USEC := 123456.
Definition SAMPLE_TIME := 771228197.
Definition SAMPLE_SEQ_NUMBER := 17.
Definition SAMPLE_NONCE := 42.
Definition SAMPLE_FLAGS := int32 0xFEDCBA98.
Definition SAMPLE_ERROR := 0x3C.

Definition principal := Principal (data_of "ATHENA.MIT.EDU") (Some [data_of "hftsai"; data_of "extra"]) 2 1.
Definition checksum := Checksum 1 4 (Some (str "1234")).
Definition keyblock := Keyblock 1 8 (Some (str "12345678")).
Definition enc_data := EncData 0 5 (data_of "krbASN.1 test message").
Definition ticket := Ticket (Some principal) enc_data None.
Definition address := Address 2 4 (Some [18; 208; 0; 35]).
Definition addresses := Some [address; address].
Definition authdata := AuthData 1 6 (Some (str "foobar")).
Definition authorization_data := Some [authdata; authdata].
Definition transited := Transited 1 (data_of "EDU,MIT.,ATHENA.,WASHINGTON.EDU,CS.").
Definition ticket_times := TicketTimes SAMPLE_TIME SAMPLE_TIME SAMPLE_TIME SAMPLE_TIME.
Definition authenticator :=
  Authenticator (Some principal) (Some checksum) SAMPLE_USEC SAMPLE_TIME (Some keyblock)
    SAMPLE_SEQ_NUMBER authorization_data.
Definition enc_tkt_part :=
  EncTktPart SAMPLE_FLAGS (Some keyblock) (Some principal) transited ticket_times addresses
    authorization_data.
Definition last_req := Some [LastReqEntry (octet_of (-5)) SAMPLE_TIME; LastReqEntry (octet_of (-5)) SAMPLE_TIME].
Definition enc_kdc_rep_part :=
  EncKdcRepPart KRB5_TGS_REP (Some keyblock) last_req SAMPLE_NONCE SAMPLE_TIME SAMPLE_FLAGS ticket_times
    (Some principal) addresses.
Definition pa_data := PaData 13 7 (Some (str "pa-data")).
Definition pa_data_array := Some [pa_data; pa_data].
Definition kdc_rep (msg_type : Z) :=
  KdcRep msg_type pa_data_array (Some principal) (Some ticket) enc_data None.
Definition ap_req := ApReq SAMPLE_FLAGS (Some ticket) enc_data.
Definition ap_rep := ApRep enc_data.
Definition ap_rep_enc_part := ApRepEncPart SAMPLE_TIME SAMPLE_USEC (Some keyblock) SAMPLE_SEQ_NUMBER.
Definition tickets := Some [ticket; ticket].
Definition kdc_req (msg_type : Z) :=
  KdcReq msg_type pa_data_array (Z.land SAMPLE_FLAGS (Z.lnot KDC_OPT_ENC_TKT_IN_SKEY)) (Some principal) (Some principal) SAMPLE_TIME SAMPLE_TIME
    SAMPLE_TIME SAMPLE_NONCE 2 (Some [0; 1]) addresses enc_data None tickets.
Definition sample_data := data_of "krb5data".
Definition safe :=
  Safe sample_data SAMPLE_TIME SAMPLE_USEC SAMPLE_SEQ_NUMBER (Some address) (Some address) (Some checksum).
Definition priv := Priv enc_data.
Definition priv_enc_part :=
  PrivEncPart sample_data SAMPLE_TIME SAMPLE_USEC SAMPLE_SEQ_NUMBER (Some address) (Some address).
Definition cred := Cred tickets enc_data None.
Definition cred_info :=
  CredInfo (Some keyblock) (Some principal) (Some principal) SAMPLE_FLAGS ticket_times addresses.
Definition cred_enc_part :=
  CredEncPart SAMPLE_NONCE SAMPLE_TIME SAMPLE_USEC (Some address) (Some address)
    (Some [cred_info; cred_info]).
Definition error :=
  KrbError SAMPLE_TIME SAMPLE_USEC SAMPLE_USEC SAMPLE_TIME SAMPLE_ERROR (Some principal)
    (Some principal) sample_data sample_data.
Definition sample_passwd_phrase := PasswdPhrase (Some sample_data) (Some sample_data).
Definition pwd_data := PwdData 2 (Some [sample_passwd_phrase; sample_passwd_phrase]).
Definition alt_method := AltMethod 42 6 (Some (str "secret")).
Definition etype_info :=
  [EtypeInfoEntry 0 11 (Some (str "Morton's #0")); EtypeInfoEntry 1 (-1) None;
   EtypeInfoEntry 2 11 (Some (str "Morton's #2"))].
Definition pa_enc_ts := PaEncTs SAMPLE_TIME SAMPLE_USEC.
Definition sam_challenge :=
  SamChallenge 42 (int32 0x80000000) (data_of "type name") null_data (data_of "challenge label")
    (data_of "challenge ipse") (data_of "response_prompt ipse") null_data 0x543210 checksum.
Definition sam_response :=
  SamResponse 42 (int32 0x80000000) (data_of "track data") (EncData 1 1942 (data_of "key"))
    (EncData 1 3382 (data_of "nonce or ts")) 0x543210 SAMPLE_TIME.

(** The encoding of a structure is the recorded one, and decoding it gives the
    structure back. *)
Definition vector {A} (enc : option A -> outcome error_code krb5_data)
    (dec : nat -> option krb5_data -> outcome error_code A) (v : A) (code : list octet) : Prop :=
  let d := Data (zlen code) (Some (code ++ [0])) in
  enc (Some v) = Ok d /\ dec 100%nat (Some d) = Ok v.

Example vector_authenticator :
  vector encode_krb5_authenticator decode_krb5_authenticator authenticator
     [0x62; 0x81; 0xA1; 0x30; 0x81; 0x9E; 0xA0; 0x03; 0x02; 0x01; 0x05; 0xA1; 0x10; 0x1B; 0x0E;
      0x41; 0x54; 0x48; 0x45; 0x4E; 0x41; 0x2E; 0x4D; 0x49; 0x54; 0x2E; 0x45; 0x44; 0x55; 0xA2;
      0x1A; 0x30; 0x18; 0xA0; 0x03; 0x02; 0x01; 0x01; 0xA1; 0x11; 0x30; 0x0F; 0x1B; 0x06; 0x68;
      0x66; 0x74; 0x73; 0x61; 0x69; 0x1B; 0x05; 0x65; 0x78; 0x74; 0x72; 0x61; 0xA3; 0x0F; 0x30;
      0x0D; 0xA0; 0x03; 0x02; 0x01; 0x01; 0xA1; 0x06; 0x04; 0x04; 0x31; 0x32; 0x33; 0x34; 0xA4;
      0x05; 0x02; 0x03; 0x01; 0xE2; 0x40; 0xA5; 0x11; 0x18; 0x0F; 0x31; 0x39; 0x39; 0x34; 0x30;
      0x36; 0x31; 0x30; 0x30; 0x36; 0x30; 0x33; 0x31; 0x37; 0x5A; 0xA6; 0x13; 0x30; 0x11; 0xA0;
      0x03; 0x02; 0x01; 0x01; 0xA1; 0x0A; 0x04; 0x08; 0x31; 0x32; 0x33; 0x34; 0x35; 0x36; 0x37;
      0x38; 0xA7; 0x03; 0x02; 0x01; 0x11; 0xA8; 0x24; 0x30; 0x22; 0x30; 0x0F; 0xA0; 0x03; 0x02;
      0x01; 0x01; 0xA1; 0x08; 0x04; 0x06; 0x66; 0x6F; 0x6F; 0x62; 0x61; 0x72; 0x30; 0x0F; 0xA0;
      0x03; 0x02; 0x01; 0x01; 0xA1; 0x08; 0x04; 0x06; 0x66; 0x6F; 0x6F; 0x62; 0x61; 0x72].
Proof. split; vm_compute; reflexivity. Qed.

Example vector_ticket :
  vector encode_krb5_ticket decode_krb5_ticket ticket
     [0x61; 0x5C; 0x30; 0x5A; 0xA0; 0x03; 0x02; 0x01; 0x05; 0xA1; 0x10; 0x1B; 0x0E; 0x41; 0x54;
      0x48; 0x45; 0x4E; 0x41; 0x2E; 0x4D; 0x49; 0x54; 0x2E; 0x45; 0x44; 0x55; 0xA2; 0x1A; 0x30;
      0x18; 0xA0; 0x03; 0x02; 0x01; 0x01; 0xA1; 0x11; 0x30; 0x0F; 0x1B; 0x06; 0x68; 0x66; 0x74;
      0x73; 0x61; 0x69; 0x1B; 0x05; 0x65; 0x78; 0x74; 0x72; 0x61; 0xA3; 0x25; 0x30; 0x23; 0xA0;
      0x03; 0x02; 0x01; 0x00; 0xA1; 0x03; 0x02; 0x01; 0x05; 0xA2; 0x17; 0x04; 0x15; 0x6B; 0x72;
      0x62; 0x41; 0x53; 0x4E; 0x2E; 0x31; 0x20; 0x74; 0x65; 0x73; 0x74; 0x20; 0x6D; 0x65; 0x73;
      0x73; 0x61; 0x67; 0x65].
Proof. split; vm_compute; reflexivity. Qed.

Example vector_keyblock :
  vector encode_krb5_encryption_key decode_krb5_encryption_key keyblock
     [0x30; 0x11; 0xA0; 0x03; 0x02; 0x01; 0x01; 0xA1; 0x0A; 0x04; 0x08; 0x31; 0x32; 0x33; 0x34;
      0x35; 0x36; 0x37; 0x38].
Proof. split; vm_compute; reflexivity. Qed.

Example vector_enc_tkt_part :
  vector encode_krb5_enc_tkt_part decode_krb5_enc_tkt_part enc_tkt_part
     [0x63; 0x82; 0x01; 0x14; 0x30; 0x82; 0x01; 0x10; 0xA0; 0x07; 0x03; 0x05; 0x00; 0xFE; 0xDC;
      0xBA; 0x98; 0xA1; 0x13; 0x30; 0x11; 0xA0; 0x03; 0x02; 0x01; 0x01; 0xA1; 0x0A; 0x04; 0x08;
      0x31; 0x32; 0x33; 0x34; 0x35; 0x36; 0x37; 0x38; 0xA2; 0x10; 0x1B; 0x0E; 0x41; 0x54; 0x48;
      0x45; 0x4E; 0x41; 0x2E; 0x4D; 0x49; 0x54; 0x2E; 0x45; 0x44; 0x55; 0xA3; 0x1A; 0x30; 0x18;
      0xA0; 0x03; 0x02; 0x01; 0x01; 0xA1; 0x11; 0x30; 0x0F; 0x1B; 0x06; 0x68; 0x66; 0x74; 0x73;
      0x61; 0x69; 0x1B; 0x05; 0x65; 0x78; 0x74; 0x72; 0x61; 0xA4; 0x2E; 0x30; 0x2C; 0xA0; 0x03;
      0x02; 0x01; 0x01; 0xA1; 0x25; 0x04; 0x23; 0x45; 0x44; 0x55; 0x2C; 0x4D; 0x49; 0x54; 0x2E;
      0x2C; 0x41; 0x54; 0x48; 0x45; 0x4E; 0x41; 0x2E; 0x2C; 0x57; 0x41; 0x53; 0x48; 0x49; 0x4E;
      0x47; 0x54; 0x4F; 0x4E; 0x2E; 0x45; 0x44; 0x55; 0x2C; 0x43; 0x53; 0x2E; 0xA5; 0x11; 0x18;
      0x0F; 0x31; 0x39; 0x39; 0x34; 0x30; 0x36; 0x31; 0x30; 0x30; 0x36; 0x30; 0x33; 0x31; 0x37;
      0x5A; 0xA6; 0x11; 0x18; 0x0F; 0x31; 0x39; 0x39; 0x34; 0x30; 0x36; 0x31; 0x30; 0x30; 0x36;
      0x30; 0x33; 0x31; 0x37; 0x5A; 0xA7; 0x11; 0x18; 0x0F; 0x31; 0x39; 0x39; 0x34; 0x30; 0x36;
      0x31; 0x30; 0x30; 0x36; 0x30; 0x33; 0x31; 0x37; 0x5A; 0xA8; 0x11; 0x18; 0x0F; 0x31; 0x39;
      0x39; 0x34; 0x30; 0x36; 0x31; 0x30; 0x30; 0x36; 0x30; 0x33; 0x31; 0x37; 0x5A; 0xA9; 0x20;
      0x30; 0x1E; 0x30; 0x0D; 0xA0; 0x03; 0x02; 0x01; 0x02; 0xA1; 0x06; 0x04; 0x04; 0x12; 0xD0;
      0x00; 0x23; 0x30; 0x0D; 0xA0; 0x03; 0x02; 0x01; 0x02; 0xA1; 0x06; 0x04; 0x04; 0x12; 0xD0;
      0x00; 0x23; 0xAA; 0x24; 0x30; 0x22; 0x30; 0x0F; 0xA0; 0x03; 0x02; 0x01; 0x01; 0xA1; 0x08;
      0x04; 0x06; 0x66; 0x6F; 0x6F; 0x62; 0x61; 0x72; 0x30; 0x0F; 0xA0; 0x03; 0x02; 0x01; 0x01;
      0xA1; 0x08; 0x04; 0x06; 0x66; 0x6F; 0x6F; 0x62; 0x61; 0x72].
Proof. split; vm_compute; reflexivity. Qed.

Example vector_enc_kdc_rep_part :
  vector encode_krb5_enc_kdc_rep_part decode_krb5_enc_kdc_rep_part enc_kdc_rep_part
     [0x7A; 0x82; 0x01; 0x10; 0x30; 0x82; 0x01; 0x0C; 0xA0; 0x13; 0x30; 0x11; 0xA0; 0x03; 0x02;
      0x01; 0x01; 0xA1; 0x0A; 0x04; 0x08; 0x31; 0x32; 0x33; 0x34; 0x35; 0x36; 0x37; 0x38; 0xA1;
      0x38; 0x30; 0x36; 0x30; 0x19; 0xA0; 0x04; 0x02; 0x02; 0x00; 0xFB; 0xA1; 0x11; 0x18; 0x0F;
      0x31; 0x39; 0x39; 0x34; 0x30; 0x36; 0x31; 0x30; 0x30; 0x36; 0x30; 0x33; 0x31; 0x37; 0x5A;
      0x30; 0x19; 0xA0; 0x04; 0x02; 0x02; 0x00; 0xFB; 0xA1; 0x11; 0x18; 0x0F; 0x31; 0x39; 0x39;
      0x34; 0x30; 0x36; 0x31; 0x30; 0x30; 0x36; 0x30; 0x33; 0x31; 0x37; 0x5A; 0xA2; 0x03; 0x02;
      0x01; 0x2A; 0xA3; 0x11; 0x18; 0x0F; 0x31; 0x39; 0x39; 0x34; 0x30; 0x36; 0x31; 0x30; 0x30;
      0x36; 0x30; 0x33; 0x31; 0x37; 0x5A; 0xA4; 0x07; 0x03; 0x05; 0x00; 0xFE; 0xDC; 0xBA; 0x98;
      0xA5; 0x11; 0x18; 0x0F; 0x31; 0x39; 0x39; 0x34; 0x30; 0x36; 0x31; 0x30; 0x30; 0x36; 0x30;
      0x33; 0x31; 0x37; 0x5A; 0xA6; 0x11; 0x18; 0x0F; 0x31; 0x39; 0x39; 0x34; 0x30; 0x36; 0x31;
      0x30; 0x30; 0x36; 0x30; 0x33; 0x31; 0x37; 0x5A; 0xA7; 0x11; 0x18; 0x0F; 0x31; 0x39; 0x39;
      0x34; 0x30; 0x36; 0x31; 0x30; 0x30; 0x36; 0x30; 0x33; 0x31; 0x37; 0x5A; 0xA8; 0x11; 0x18;
      0x0F; 0x31; 0x39; 0x39; 0x34; 0x30; 0x36; 0x31; 0x30; 0x30; 0x36; 0x30; 0x33; 0x31; 0x37;
      0x5A; 0xA9; 0x10; 0x1B; 0x0E; 0x41; 0x54; 0x48; 0x45; 0x4E; 0x41; 0x2E; 0x4D; 0x49; 0x54;
      0x2E; 0x45; 0x44; 0x55; 0xAA; 0x1A; 0x30; 0x18; 0xA0; 0x03; 0x02; 0x01; 0x01; 0xA1; 0x11;
      0x30; 0x0F; 0x1B; 0x06; 0x68; 0x66; 0x74; 0x73; 0x61; 0x69; 0x1B; 0x05; 0x65; 0x78; 0x74;
      0x72; 0x61; 0xAB; 0x20; 0x30; 0x1E; 0x30; 0x0D; 0xA0; 0x03; 0x02; 0x01; 0x02; 0xA1; 0x06;
      0x04; 0x04; 0x12; 0xD0; 0x00; 0x23; 0x30; 0x0D; 0xA0; 0x03; 0x02; 0x01; 0x02; 0xA1; 0x06;
      0x04; 0x04; 0x12; 0xD0; 0x00; 0x23].
Proof. split; vm_compute; reflexivity. Qed.

Example vector_as_rep :
  vector encode_krb5_as_rep decode_krb5_as_rep (kdc_rep KRB5_AS_REP)
     [0x6B; 0x81; 0xEA; 0x30; 0x81; 0xE7; 0xA0; 0x03; 0x02; 0x01; 0x05; 0xA1; 0x03; 0x02; 0x01;
      0x0B; 0xA2; 0x26; 0x30; 0x24; 0x30; 0x10; 0xA1; 0x03; 0x02; 0x01; 0x0D; 0xA2; 0x09; 0x04;
      0x07; 0x70; 0x61; 0x2D; 0x64; 0x61; 0x74; 0x61; 0x30; 0x10; 0xA1; 0x03; 0x02; 0x01; 0x0D;
      0xA2; 0x09; 0x04; 0x07; 0x70; 0x61; 0x2D; 0x64; 0x61; 0x74; 0x61; 0xA3; 0x10; 0x1B; 0x0E;
      0x41; 0x54; 0x48; 0x45; 0x4E; 0x41; 0x2E; 0x4D; 0x49; 0x54; 0x2E; 0x45; 0x44; 0x55; 0xA4;
      0x1A; 0x30; 0x18; 0xA0; 0x03; 0x02; 0x01; 0x01; 0xA1; 0x11; 0x30; 0x0F; 0x1B; 0x06; 0x68;
      0x66; 0x74; 0x73; 0x61; 0x69; 0x1B; 0x05; 0x65; 0x78; 0x74; 0x72; 0x61; 0xA5; 0x5E; 0x61;
      0x5C; 0x30; 0x5A; 0xA0; 0x03; 0x02; 0x01; 0x05; 0xA1; 0x10; 0x1B; 0x0E; 0x41; 0x54; 0x48;
      0x45; 0x4E; 0x41; 0x2E; 0x4D; 0x49; 0x54; 0x2E; 0x45; 0x44; 0x55; 0xA2; 0x1A; 0x30; 0x18;
      0xA0; 0x03; 0x02; 0x01; 0x01; 0xA1; 0x11; 0x30; 0x0F; 0x1B; 0x06; 0x68; 0x66; 0x74; 0x73;
      0x61; 0x69; 0x1B; 0x05; 0x65; 0x78; 0x74; 0x72; 0x61; 0xA3; 0x25; 0x30; 0x23; 0xA0; 0x03;
      0x02; 0x01; 0x00; 0xA1; 0x03; 0x02; 0x01; 0x05; 0xA2; 0x17; 0x04; 0x15; 0x6B; 0x72; 0x62;
      0x41; 0x53; 0x4E; 0x2E; 0x31; 0x20; 0x74; 0x65; 0x73; 0x74; 0x20; 0x6D; 0x65; 0x73; 0x73;
      0x61; 0x67; 0x65; 0xA6; 0x25; 0x30; 0x23; 0xA0; 0x03; 0x02; 0x01; 0x00; 0xA1; 0x03; 0x02;
      0x01; 0x05; 0xA2; 0x17; 0x04; 0x15; 0x6B; 0x72; 0x62; 0x41; 0x53; 0x4E; 0x2E; 0x31; 0x20;
      0x74; 0x65; 0x73; 0x74; 0x20; 0x6D; 0x65; 0x73; 0x73; 0x61; 0x67; 0x65].
Proof. split; vm_compute; reflexivity. Qed.

Example vector_tgs_rep :
  vector encode_krb5_tgs_rep decode_krb5_tgs_rep (kdc_rep KRB5_TGS_REP)
     [0x6D; 0x81; 0xEA; 0x30; 0x81; 0xE7; 0xA0; 0x03; 0x02; 0x01; 0x05; 0xA1; 0x03; 0x02; 0x01;
      0x0D; 0xA2; 0x26; 0x30; 0x24; 0x30; 0x10; 0xA1; 0x03; 0x02; 0x01; 0x0D; 0xA2; 0x09; 0x04;
      0x07; 0x70; 0x61; 0x2D; 0x64; 0x61; 0x74; 0x61; 0x30; 0x10; 0xA1; 0x03; 0x02; 0x01; 0x0D;
      0xA2; 0x09; 0x04; 0x07; 0x70; 0x61; 0x2D; 0x64; 0x61; 0x74; 0x61; 0xA3; 0x10; 0x1B; 0x0E;
      0x41; 0x54; 0x48; 0x45; 0x4E; 0x41; 0x2E; 0x4D; 0x49; 0x54; 0x2E; 0x45; 0x44; 0x55; 0xA4;
      0x1A; 0x30; 0x18; 0xA0; 0x03; 0x02; 0x01; 0x01; 0xA1; 0x11; 0x30; 0x0F; 0x1B; 0x06; 0x68;
      0x66; 0x74; 0x73; 0x61; 0x69; 0x1B; 0x05; 0x65; 0x78; 0x74; 0x72; 0x61; 0xA5; 0x5E; 0x61;
      0x5C; 0x30; 0x5A; 0xA0; 0x03; 0x02; 0x01; 0x05; 0xA1; 0x10; 0x1B; 0x0E; 0x41; 0x54; 0x48;
      0x45; 0x4E; 0x41; 0x2E; 0x4D; 0x49; 0x54; 0x2E; 0x45; 0x44; 0x55; 0xA2; 0x1A; 0x30; 0x18;
      0xA0; 0x03; 0x02; 0x01; 0x01; 0xA1; 0x11; 0x30; 0x0F; 0x1B; 0x06; 0x68; 0x66; 0x74; 0x73;
      0x61; 0x69; 0x1B; 0x05; 0x65; 0x78; 0x74; 0x72; 0x61; 0xA3; 0x25; 0x30; 0x23; 0xA0; 0x03;
      0x02; 0x01; 0x00; 0xA1; 0x03; 0x02; 0x01; 0x05; 0xA2; 0x17; 0x04; 0x15; 0x6B; 0x72; 0x62;
      0x41; 0x53; 0x4E; 0x2E; 0x31; 0x20; 0x74; 0x65; 0x73; 0x74; 0x20; 0x6D; 0x65; 0x73; 0x73;
      0x61; 0x67; 0x65; 0xA6; 0x25; 0x30; 0x23; 0xA0; 0x03; 0x02; 0x01; 0x00; 0xA1; 0x03; 0x02;
      0x01; 0x05; 0xA2; 0x17; 0x04; 0x15; 0x6B; 0x72; 0x62; 0x41; 0x53; 0x4E; 0x2E; 0x31; 0x20;
      0x74; 0x65; 0x73; 0x74; 0x20; 0x6D; 0x65; 0x73; 0x73; 0x61; 0x67; 0x65].
Proof. split; vm_compute; reflexivity. Qed.

Example vector_ap_req :
  vector encode_krb5_ap_req decode_krb5_ap_req ap_req
     [0x6E; 0x81; 0x9D; 0x30; 0x81; 0x9A; 0xA0; 0x03; 0x02; 0x01; 0x05; 0xA1; 0x03; 0x02; 0x01;
      0x0E; 0xA2; 0x07; 0x03; 0x05; 0x00; 0xFE; 0xDC; 0xBA; 0x98; 0xA3; 0x5E; 0x61; 0x5C; 0x30;
      0x5A; 0xA0; 0x03; 0x02; 0x01; 0x05; 0xA1; 0x10; 0x1B; 0x0E; 0x41; 0x54; 0x48; 0x45; 0x4E;
      0x41; 0x2E; 0x4D; 0x49; 0x54; 0x2E; 0x45; 0x44; 0x55; 0xA2; 0x1A; 0x30; 0x18; 0xA0; 0x03;
      0x02; 0x01; 0x01; 0xA1; 0x11; 0x30; 0x0F; 0x1B; 0x06; 0x68; 0x66; 0x74; 0x73; 0x61; 0x69;
      0x1B; 0x05; 0x65; 0x78; 0x74; 0x72; 0x61; 0xA3; 0x25; 0x30; 0x23; 0xA0; 0x03; 0x02; 0x01;
      0x00; 0xA1; 0x03; 0x02; 0x01; 0x05; 0xA2; 0x17; 0x04; 0x15; 0x6B; 0x72; 0x62; 0x41; 0x53;
      0x4E; 0x2E; 0x31; 0x20; 0x74; 0x65; 0x73; 0x74; 0x20; 0x6D; 0x65; 0x73; 0x73; 0x61; 0x67;
      0x65; 0xA4; 0x25; 0x30; 0x23; 0xA0; 0x03; 0x02; 0x01; 0x00; 0xA1; 0x03; 0x02; 0x01; 0x05;
      0xA2; 0x17; 0x04; 0x15; 0x6B; 0x72; 0x62; 0x41; 0x53; 0x4E; 0x2E; 0x31; 0x20; 0x74; 0x65;
      0x73; 0x74; 0x20; 0x6D; 0x65; 0x73; 0x73; 0x61; 0x67; 0x65].
Proof. split; vm_compute; reflexivity. Qed.

Example vector_ap_rep :
  vector encode_krb5_ap_rep decode_krb5_ap_rep ap_rep
     [0x6F; 0x33; 0x30; 0x31; 0xA0; 0x03; 0x02; 0x01; 0x05; 0xA1; 0x03; 0x02; 0x01; 0x0F; 0xA2;
      0x25; 0x30; 0x23; 0xA0; 0x03; 0x02; 0x01; 0x00; 0xA1; 0x03; 0x02; 0x01; 0x05; 0xA2; 0x17;
      0x04; 0x15; 0x6B; 0x72; 0x62; 0x41; 0x53; 0x4E; 0x2E; 0x31; 0x20; 0x74; 0x65; 0x73; 0x74;
      0x20; 0x6D; 0x65; 0x73; 0x73; 0x61; 0x67; 0x65].
Proof. split; vm_compute; reflexivity. Qed.

Example vector_ap_rep_enc_part :
  vector encode_krb5_ap_rep_enc_part decode_krb5_ap_rep_enc_part ap_rep_enc_part
     [0x7B; 0x36; 0x30; 0x34; 0xA0; 0x11; 0x18; 0x0F; 0x31; 0x39; 0x39; 0x34; 0x30; 0x36; 0x31;
      0x30; 0x30; 0x36; 0x30; 0x33; 0x31; 0x37; 0x5A; 0xA1; 0x05; 0x02; 0x03; 0x01; 0xE2; 0x40;
      0xA2; 0x13; 0x30; 0x11; 0xA0; 0x03; 0x02; 0x01; 0x01; 0xA1; 0x0A; 0x04; 0x08; 0x31; 0x32;
      0x33; 0x34; 0x35; 0x36; 0x37; 0x38; 0xA3; 0x03; 0x02; 0x01; 0x11].
Proof. split; vm_compute; reflexivity. Qed.

Example vector_as_req :
  vector encode_krb5_as_req decode_krb5_as_req (kdc_req KRB5_AS_REQ)
     [0x6A; 0x82; 0x01; 0xE4; 0x30; 0x82; 0x01; 0xE0; 0xA1; 0x03; 0x02; 0x01; 0x05; 0xA2; 0x03;
      0x02; 0x01; 0x0A; 0xA3; 0x26; 0x30; 0x24; 0x30; 0x10; 0xA1; 0x03; 0x02; 0x01; 0x0D; 0xA2;
      0x09; 0x04; 0x07; 0x70; 0x61; 0x2D; 0x64; 0x61; 0x74; 0x61; 0x30; 0x10; 0xA1; 0x03; 0x02;
      0x01; 0x0D; 0xA2; 0x09; 0x04; 0x07; 0x70; 0x61; 0x2D; 0x64; 0x61; 0x74; 0x61; 0xA4; 0x82;
      0x01; 0xAA; 0x30; 0x82; 0x01; 0xA6; 0xA0; 0x07; 0x03; 0x05; 0x00; 0xFE; 0xDC; 0xBA; 0x90;
      0xA1; 0x1A; 0x30; 0x18; 0xA0; 0x03; 0x02; 0x01; 0x01; 0xA1; 0x11; 0x30; 0x0F; 0x1B; 0x06;
      0x68; 0x66; 0x74; 0x73; 0x61; 0x69; 0x1B; 0x05; 0x65; 0x78; 0x74; 0x72; 0x61; 0xA2; 0x10;
      0x1B; 0x0E; 0x41; 0x54; 0x48; 0x45; 0x4E; 0x41; 0x2E; 0x4D; 0x49; 0x54; 0x2E; 0x45; 0x44;
      0x55; 0xA3; 0x1A; 0x30; 0x18; 0xA0; 0x03; 0x02; 0x01; 0x01; 0xA1; 0x11; 0x30; 0x0F; 0x1B;
      0x06; 0x68; 0x66; 0x74; 0x73; 0x61; 0x69; 0x1B; 0x05; 0x65; 0x78; 0x74; 0x72; 0x61; 0xA4;
      0x11; 0x18; 0x0F; 0x31; 0x39; 0x39; 0x34; 0x30; 0x36; 0x31; 0x30; 0x30; 0x36; 0x30; 0x33;
      0x31; 0x37; 0x5A; 0xA5; 0x11; 0x18; 0x0F; 0x31; 0x39; 0x39; 0x34; 0x30; 0x36; 0x31; 0x30;
      0x30; 0x36; 0x30; 0x33; 0x31; 0x37; 0x5A; 0xA6; 0x11; 0x18; 0x0F; 0x31; 0x39; 0x39; 0x34;
      0x30; 0x36; 0x31; 0x30; 0x30; 0x36; 0x30; 0x33; 0x31; 0x37; 0x5A; 0xA7; 0x03; 0x02; 0x01;
      0x2A; 0xA8; 0x08; 0x30; 0x06; 0x02; 0x01; 0x00; 0x02; 0x01; 0x01; 0xA9; 0x20; 0x30; 0x1E;
      0x30; 0x0D; 0xA0; 0x03; 0x02; 0x01; 0x02; 0xA1; 0x06; 0x04; 0x04; 0x12; 0xD0; 0x00; 0x23;
      0x30; 0x0D; 0xA0; 0x03; 0x02; 0x01; 0x02; 0xA1; 0x06; 0x04; 0x04; 0x12; 0xD0; 0x00; 0x23;
      0xAA; 0x25; 0x30; 0x23; 0xA0; 0x03; 0x02; 0x01; 0x00; 0xA1; 0x03; 0x02; 0x01; 0x05; 0xA2;
      0x17; 0x04; 0x15; 0x6B; 0x72; 0x62; 0x41; 0x53; 0x4E; 0x2E; 0x31; 0x20; 0x74; 0x65; 0x73;
      0x74; 0x20; 0x6D; 0x65; 0x73; 0x73; 0x61; 0x67; 0x65; 0xAB; 0x81; 0xBF; 0x30; 0x81; 0xBC;
      0x61; 0x5C; 0x30; 0x5A; 0xA0; 0x03; 0x02; 0x01; 0x05; 0xA1; 0x10; 0x1B; 0x0E; 0x41; 0x54;
      0x48; 0x45; 0x4E; 0x41; 0x2E; 0x4D; 0x49; 0x54; 0x2E; 0x45; 0x44; 0x55; 0xA2; 0x1A; 0x30;
      0x18; 0xA0; 0x03; 0x02; 0x01; 0x01; 0xA1; 0x11; 0x30; 0x0F; 0x1B; 0x06; 0x68; 0x66; 0x74;
      0x73; 0x61; 0x69; 0x1B; 0x05; 0x65; 0x78; 0x74; 0x72; 0x61; 0xA3; 0x25; 0x30; 0x23; 0xA0;
      0x03; 0x02; 0x01; 0x00; 0xA1; 0x03; 0x02; 0x01; 0x05; 0xA2; 0x17; 0x04; 0x15; 0x6B; 0x72;
      0x62; 0x41; 0x53; 0x4E; 0x2E; 0x31; 0x20; 0x74; 0x65; 0x73; 0x74; 0x20; 0x6D; 0x65; 0x73;
      0x73; 0x61; 0x67; 0x65; 0x61; 0x5C; 0x30; 0x5A; 0xA0; 0x03; 0x02; 0x01; 0x05; 0xA1; 0x10;
      0x1B; 0x0E; 0x41; 0x54; 0x48; 0x45; 0x4E; 0x41; 0x2E; 0x4D; 0x49; 0x54; 0x2E; 0x45; 0x44;
      0x55; 0xA2; 0x1A; 0x30; 0x18; 0xA0; 0x03; 0x02; 0x01; 0x01; 0xA1; 0x11; 0x30; 0x0F; 0x1B;
      0x06; 0x68; 0x66; 0x74; 0x73; 0x61; 0x69; 0x1B; 0x05; 0x65; 0x78; 0x74; 0x72; 0x61; 0xA3;
      0x25; 0x30; 0x23; 0xA0; 0x03; 0x02; 0x01; 0x00; 0xA1; 0x03; 0x02; 0x01; 0x05; 0xA2; 0x17;
      0x04; 0x15; 0x6B; 0x72; 0x62; 0x41; 0x53; 0x4E; 0x2E; 0x31; 0x20; 0x74; 0x65; 0x73; 0x74;
      0x20; 0x6D; 0x65; 0x73; 0x73; 0x61; 0x67; 0x65].
Proof. split; vm_compute; reflexivity. Qed.

Example vector_tgs_req :
  vector encode_krb5_tgs_req decode_krb5_tgs_req (kdc_req KRB5_TGS_REQ)
     [0x6C; 0x82; 0x01; 0xE4; 0x30; 0x82; 0x01; 0xE0; 0xA1; 0x03; 0x02; 0x01; 0x05; 0xA2; 0x03;
      0x02; 0x01; 0x0C; 0xA3; 0x26; 0x30; 0x24; 0x30; 0x10; 0xA1; 0x03; 0x02; 0x01; 0x0D; 0xA2;
      0x09; 0x04; 0x07; 0x70; 0x61; 0x2D; 0x64; 0x61; 0x74; 0x61; 0x30; 0x10; 0xA1; 0x03; 0x02;
      0x01; 0x0D; 0xA2; 0x09; 0x04; 0x07; 0x70; 0x61; 0x2D; 0x64; 0x61; 0x74; 0x61; 0xA4; 0x82;
      0x01; 0xAA; 0x30; 0x82; 0x01; 0xA6; 0xA0; 0x07; 0x03; 0x05; 0x00; 0xFE; 0xDC; 0xBA; 0x90;
      0xA1; 0x1A; 0x30; 0x18; 0xA0; 0x03; 0x02; 0x01; 0x01; 0xA1; 0x11; 0x30; 0x0F; 0x1B; 0x06;
      0x68; 0x66; 0x74; 0x73; 0x61; 0x69; 0x1B; 0x05; 0x65; 0x78; 0x74; 0x72; 0x61; 0xA2; 0x10;
      0x1B; 0x0E; 0x41; 0x54; 0x48; 0x45; 0x4E; 0x41; 0x2E; 0x4D; 0x49; 0x54; 0x2E; 0x45; 0x44;
      0x55; 0xA3; 0x1A; 0x30; 0x18; 0xA0; 0x03; 0x02; 0x01; 0x01; 0xA1; 0x11; 0x30; 0x0F; 0x1B;
      0x06; 0x68; 0x66; 0x74; 0x73; 0x61; 0x69; 0x1B; 0x05; 0x65; 0x78; 0x74; 0x72; 0x61; 0xA4;
      0x11; 0x18; 0x0F; 0x31; 0x39; 0x39; 0x34; 0x30; 0x36; 0x31; 0x30; 0x30; 0x36; 0x30; 0x33;
      0x31; 0x37; 0x5A; 0xA5; 0x11; 0x18; 0x0F; 0x31; 0x39; 0x39; 0x34; 0x30; 0x36; 0x31; 0x30;
      0x30; 0x36; 0x30; 0x33; 0x31; 0x37; 0x5A; 0xA6; 0x11; 0x18; 0x0F; 0x31; 0x39; 0x39; 0x34;
      0x30; 0x36; 0x31; 0x30; 0x30; 0x36; 0x30; 0x33; 0x31; 0x37; 0x5A; 0xA7; 0x03; 0x02; 0x01;
      0x2A; 0xA8; 0x08; 0x30; 0x06; 0x02; 0x01; 0x00; 0x02; 0x01; 0x01; 0xA9; 0x20; 0x30; 0x1E;
      0x30; 0x0D; 0xA0; 0x03; 0x02; 0x01; 0x02; 0xA1; 0x06; 0x04; 0x04; 0x12; 0xD0; 0x00; 0x23;
      0x30; 0x0D; 0xA0; 0x03; 0x02; 0x01; 0x02; 0xA1; 0x06; 0x04; 0x04; 0x12; 0xD0; 0x00; 0x23;
      0xAA; 0x25; 0x30; 0x23; 0xA0; 0x03; 0x02; 0x01; 0x00; 0xA1; 0x03; 0x02; 0x01; 0x05; 0xA2;
      0x17; 0x04; 0x15; 0x6B; 0x72; 0x62; 0x41; 0x53; 0x4E; 0x2E; 0x31; 0x20; 0x74; 0x65; 0x73;
      0x74; 0x20; 0x6D; 0x65; 0x73; 0x73; 0x61; 0x67; 0x65; 0xAB; 0x81; 0xBF; 0x30; 0x81; 0xBC;
      0x61; 0x5C; 0x30; 0x5A; 0xA0; 0x03; 0x02; 0x01; 0x05; 0xA1; 0x10; 0x1B; 0x0E; 0x41; 0x54;
      0x48; 0x45; 0x4E; 0x41; 0x2E; 0x4D; 0x49; 0x54; 0x2E; 0x45; 0x44; 0x55; 0xA2; 0x1A; 0x30;
      0x18; 0xA0; 0x03; 0x02; 0x01; 0x01; 0xA1; 0x11; 0x30; 0x0F; 0x1B; 0x06; 0x68; 0x66; 0x74;
      0x73; 0x61; 0x69; 0x1B; 0x05; 0x65; 0x78; 0x74; 0x72; 0x61; 0xA3; 0x25; 0x30; 0x23; 0xA0;
      0x03; 0x02; 0x01; 0x00; 0xA1; 0x03; 0x02; 0x01; 0x05; 0xA2; 0x17; 0x04; 0x15; 0x6B; 0x72;
      0x62; 0x41; 0x53; 0x4E; 0x2E; 0x31; 0x20; 0x74; 0x65; 0x73; 0x74; 0x20; 0x6D; 0x65; 0x73;
      0x73; 0x61; 0x67; 0x65; 0x61; 0x5C; 0x30; 0x5A; 0xA0; 0x03; 0x02; 0x01; 0x05; 0xA1; 0x10;
      0x1B; 0x0E; 0x41; 0x54; 0x48; 0x45; 0x4E; 0x41; 0x2E; 0x4D; 0x49; 0x54; 0x2E; 0x45; 0x44;
      0x55; 0xA2; 0x1A; 0x30; 0x18; 0xA0; 0x03; 0x02; 0x01; 0x01; 0xA1; 0x11; 0x30; 0x0F; 0x1B;
      0x06; 0x68; 0x66; 0x74; 0x73; 0x61; 0x69; 0x1B; 0x05; 0x65; 0x78; 0x74; 0x72; 0x61; 0xA3;
      0x25; 0x30; 0x23; 0xA0; 0x03; 0x02; 0x01; 0x00; 0xA1; 0x03; 0x02; 0x01; 0x05; 0xA2; 0x17;
      0x04; 0x15; 0x6B; 0x72; 0x62; 0x41; 0x53; 0x4E; 0x2E; 0x31; 0x20; 0x74; 0x65; 0x73; 0x74;
      0x20; 0x6D; 0x65; 0x73; 0x73; 0x61; 0x67; 0x65].
Proof. split; vm_compute; reflexivity. Qed.

Example vector_safe :
  vector encode_krb5_safe decode_krb5_safe safe
     [0x74; 0x6E; 0x30; 0x6C; 0xA0; 0x03; 0x02; 0x01; 0x05; 0xA1; 0x03; 0x02; 0x01; 0x14; 0xA2;
      0x4F; 0x30; 0x4D; 0xA0; 0x0A; 0x04; 0x08; 0x6B; 0x72; 0x62; 0x35; 0x64; 0x61; 0x74; 0x61;
      0xA1; 0x11; 0x18; 0x0F; 0x31; 0x39; 0x39; 0x34; 0x30; 0x36; 0x31; 0x30; 0x30; 0x36; 0x30;
      0x33; 0x31; 0x37; 0x5A; 0xA2; 0x05; 0x02; 0x03; 0x01; 0xE2; 0x40; 0xA3; 0x03; 0x02; 0x01;
      0x11; 0xA4; 0x0F; 0x30; 0x0D; 0xA0; 0x03; 0x02; 0x01; 0x02; 0xA1; 0x06; 0x04; 0x04; 0x12;
      0xD0; 0x00; 0x23; 0xA5; 0x0F; 0x30; 0x0D; 0xA0; 0x03; 0x02; 0x01; 0x02; 0xA1; 0x06; 0x04;
      0x04; 0x12; 0xD0; 0x00; 0x23; 0xA3; 0x0F; 0x30; 0x0D; 0xA0; 0x03; 0x02; 0x01; 0x01; 0xA1;
      0x06; 0x04; 0x04; 0x31; 0x32; 0x33; 0x34].
Proof. split; vm_compute; reflexivity. Qed.

Example vector_priv :
  vector encode_krb5_priv decode_krb5_priv priv
     [0x75; 0x33; 0x30; 0x31; 0xA0; 0x03; 0x02; 0x01; 0x05; 0xA1; 0x03; 0x02; 0x01; 0x15; 0xA3;
      0x25; 0x30; 0x23; 0xA0; 0x03; 0x02; 0x01; 0x00; 0xA1; 0x03; 0x02; 0x01; 0x05; 0xA2; 0x17;
      0x04; 0x15; 0x6B; 0x72; 0x62; 0x41; 0x53; 0x4E; 0x2E; 0x31; 0x20; 0x74; 0x65; 0x73; 0x74;
      0x20; 0x6D; 0x65; 0x73; 0x73; 0x61; 0x67; 0x65].
Proof. split; vm_compute; reflexivity. Qed.

Example vector_enc_priv_part :
  vector encode_krb5_enc_priv_part decode_krb5_enc_priv_part priv_enc_part
     [0x7C; 0x4F; 0x30; 0x4D; 0xA0; 0x0A; 0x04; 0x08; 0x6B; 0x72; 0x62; 0x35; 0x64; 0x61; 0x74;
      0x61; 0xA1; 0x11; 0x18; 0x0F; 0x31; 0x39; 0x39; 0x34; 0x30; 0x36; 0x31; 0x30; 0x30; 0x36;
      0x30; 0x33; 0x31; 0x37; 0x5A; 0xA2; 0x05; 0x02; 0x03; 0x01; 0xE2; 0x40; 0xA3; 0x03; 0x02;
      0x01; 0x11; 0xA4; 0x0F; 0x30; 0x0D; 0xA0; 0x03; 0x02; 0x01; 0x02; 0xA1; 0x06; 0x04; 0x04;
      0x12; 0xD0; 0x00; 0x23; 0xA5; 0x0F; 0x30; 0x0D; 0xA0; 0x03; 0x02; 0x01; 0x02; 0xA1; 0x06;
      0x04; 0x04; 0x12; 0xD0; 0x00; 0x23].
Proof. split; vm_compute; reflexivity. Qed.

Example vector_cred :
  vector encode_krb5_cred decode_krb5_cred cred
     [0x76; 0x81; 0xF6; 0x30; 0x81; 0xF3; 0xA0; 0x03; 0x02; 0x01; 0x05; 0xA1; 0x03; 0x02; 0x01;
      0x16; 0xA2; 0x81; 0xBF; 0x30; 0x81; 0xBC; 0x61; 0x5C; 0x30; 0x5A; 0xA0; 0x03; 0x02; 0x01;
      0x05; 0xA1; 0x10; 0x1B; 0x0E; 0x41; 0x54; 0x48; 0x45; 0x4E; 0x41; 0x2E; 0x4D; 0x49; 0x54;
      0x2E; 0x45; 0x44; 0x55; 0xA2; 0x1A; 0x30; 0x18; 0xA0; 0x03; 0x02; 0x01; 0x01; 0xA1; 0x11;
      0x30; 0x0F; 0x1B; 0x06; 0x68; 0x66; 0x74; 0x73; 0x61; 0x69; 0x1B; 0x05; 0x65; 0x78; 0x74;
      0x72; 0x61; 0xA3; 0x25; 0x30; 0x23; 0xA0; 0x03; 0x02; 0x01; 0x00; 0xA1; 0x03; 0x02; 0x01;
      0x05; 0xA2; 0x17; 0x04; 0x15; 0x6B; 0x72; 0x62; 0x41; 0x53; 0x4E; 0x2E; 0x31; 0x20; 0x74;
      0x65; 0x73; 0x74; 0x20; 0x6D; 0x65; 0x73; 0x73; 0x61; 0x67; 0x65; 0x61; 0x5C; 0x30; 0x5A;
      0xA0; 0x03; 0x02; 0x01; 0x05; 0xA1; 0x10; 0x1B; 0x0E; 0x41; 0x54; 0x48; 0x45; 0x4E; 0x41;
      0x2E; 0x4D; 0x49; 0x54; 0x2E; 0x45; 0x44; 0x55; 0xA2; 0x1A; 0x30; 0x18; 0xA0; 0x03; 0x02;
      0x01; 0x01; 0xA1; 0x11; 0x30; 0x0F; 0x1B; 0x06; 0x68; 0x66; 0x74; 0x73; 0x61; 0x69; 0x1B;
      0x05; 0x65; 0x78; 0x74; 0x72; 0x61; 0xA3; 0x25; 0x30; 0x23; 0xA0; 0x03; 0x02; 0x01; 0x00;
      0xA1; 0x03; 0x02; 0x01; 0x05; 0xA2; 0x17; 0x04; 0x15; 0x6B; 0x72; 0x62; 0x41; 0x53; 0x4E;
      0x2E; 0x31; 0x20; 0x74; 0x65; 0x73; 0x74; 0x20; 0x6D; 0x65; 0x73; 0x73; 0x61; 0x67; 0x65;
      0xA3; 0x25; 0x30; 0x23; 0xA0; 0x03; 0x02; 0x01; 0x00; 0xA1; 0x03; 0x02; 0x01; 0x05; 0xA2;
      0x17; 0x04; 0x15; 0x6B; 0x72; 0x62; 0x41; 0x53; 0x4E; 0x2E; 0x31; 0x20; 0x74; 0x65; 0x73;
      0x74; 0x20; 0x6D; 0x65; 0x73; 0x73; 0x61; 0x67; 0x65].
Proof. split; vm_compute; reflexivity. Qed.

Example vector_enc_cred_part :
  vector encode_krb5_enc_cred_part decode_krb5_enc_cred_part cred_enc_part
     [0x7D; 0x82; 0x02; 0x23; 0x30; 0x82; 0x02; 0x1F; 0xA0; 0x82; 0x01; 0xDA; 0x30; 0x82; 0x01;
      0xD6; 0x30; 0x81; 0xE8; 0xA0; 0x13; 0x30; 0x11; 0xA0; 0x03; 0x02; 0x01; 0x01; 0xA1; 0x0A;
      0x04; 0x08; 0x31; 0x32; 0x33; 0x34; 0x35; 0x36; 0x37; 0x38; 0xA1; 0x10; 0x1B; 0x0E; 0x41;
      0x54; 0x48; 0x45; 0x4E; 0x41; 0x2E; 0x4D; 0x49; 0x54; 0x2E; 0x45; 0x44; 0x55; 0xA2; 0x1A;
      0x30; 0x18; 0xA0; 0x03; 0x02; 0x01; 0x01; 0xA1; 0x11; 0x30; 0x0F; 0x1B; 0x06; 0x68; 0x66;
      0x74; 0x73; 0x61; 0x69; 0x1B; 0x05; 0x65; 0x78; 0x74; 0x72; 0x61; 0xA3; 0x07; 0x03; 0x05;
      0x00; 0xFE; 0xDC; 0xBA; 0x98; 0xA4; 0x11; 0x18; 0x0F; 0x31; 0x39; 0x39; 0x34; 0x30; 0x36;
      0x31; 0x30; 0x30; 0x36; 0x30; 0x33; 0x31; 0x37; 0x5A; 0xA5; 0x11; 0x18; 0x0F; 0x31; 0x39;
      0x39; 0x34; 0x30; 0x36; 0x31; 0x30; 0x30; 0x36; 0x30; 0x33; 0x31; 0x37; 0x5A; 0xA6; 0x11;
      0x18; 0x0F; 0x31; 0x39; 0x39; 0x34; 0x30; 0x36; 0x31; 0x30; 0x30; 0x36; 0x30; 0x33; 0x31;
      0x37; 0x5A; 0xA7; 0x11; 0x18; 0x0F; 0x31; 0x39; 0x39; 0x34; 0x30; 0x36; 0x31; 0x30; 0x30;
      0x36; 0x30; 0x33; 0x31; 0x37; 0x5A; 0xA8; 0x10; 0x1B; 0x0E; 0x41; 0x54; 0x48; 0x45; 0x4E;
      0x41; 0x2E; 0x4D; 0x49; 0x54; 0x2E; 0x45; 0x44; 0x55; 0xA9; 0x1A; 0x30; 0x18; 0xA0; 0x03;
      0x02; 0x01; 0x01; 0xA1; 0x11; 0x30; 0x0F; 0x1B; 0x06; 0x68; 0x66; 0x74; 0x73; 0x61; 0x69;
      0x1B; 0x05; 0x65; 0x78; 0x74; 0x72; 0x61; 0xAA; 0x20; 0x30; 0x1E; 0x30; 0x0D; 0xA0; 0x03;
      0x02; 0x01; 0x02; 0xA1; 0x06; 0x04; 0x04; 0x12; 0xD0; 0x00; 0x23; 0x30; 0x0D; 0xA0; 0x03;
      0x02; 0x01; 0x02; 0xA1; 0x06; 0x04; 0x04; 0x12; 0xD0; 0x00; 0x23; 0x30; 0x81; 0xE8; 0xA0;
      0x13; 0x30; 0x11; 0xA0; 0x03; 0x02; 0x01; 0x01; 0xA1; 0x0A; 0x04; 0x08; 0x31; 0x32; 0x33;
      0x34; 0x35; 0x36; 0x37; 0x38; 0xA1; 0x10; 0x1B; 0x0E; 0x41; 0x54; 0x48; 0x45; 0x4E; 0x41;
      0x2E; 0x4D; 0x49; 0x54; 0x2E; 0x45; 0x44; 0x55; 0xA2; 0x1A; 0x30; 0x18; 0xA0; 0x03; 0x02;
      0x01; 0x01; 0xA1; 0x11; 0x30; 0x0F; 0x1B; 0x06; 0x68; 0x66; 0x74; 0x73; 0x61; 0x69; 0x1B;
      0x05; 0x65; 0x78; 0x74; 0x72; 0x61; 0xA3; 0x07; 0x03; 0x05; 0x00; 0xFE; 0xDC; 0xBA; 0x98;
      0xA4; 0x11; 0x18; 0x0F; 0x31; 0x39; 0x39; 0x34; 0x30; 0x36; 0x31; 0x30; 0x30; 0x36; 0x30;
      0x33; 0x31; 0x37; 0x5A; 0xA5; 0x11; 0x18; 0x0F; 0x31; 0x39; 0x39; 0x34; 0x30; 0x36; 0x31;
      0x30; 0x30; 0x36; 0x30; 0x33; 0x31; 0x37; 0x5A; 0xA6; 0x11; 0x18; 0x0F; 0x31; 0x39; 0x39;
      0x34; 0x30; 0x36; 0x31; 0x30; 0x30; 0x36; 0x30; 0x33; 0x31; 0x37; 0x5A; 0xA7; 0x11; 0x18;
      0x0F; 0x31; 0x39; 0x39; 0x34; 0x30; 0x36; 0x31; 0x30; 0x30; 0x36; 0x30; 0x33; 0x31; 0x37;
      0x5A; 0xA8; 0x10; 0x1B; 0x0E; 0x41; 0x54; 0x48; 0x45; 0x4E; 0x41; 0x2E; 0x4D; 0x49; 0x54;
      0x2E; 0x45; 0x44; 0x55; 0xA9; 0x1A; 0x30; 0x18; 0xA0; 0x03; 0x02; 0x01; 0x01; 0xA1; 0x11;
      0x30; 0x0F; 0x1B; 0x06; 0x68; 0x66; 0x74; 0x73; 0x61; 0x69; 0x1B; 0x05; 0x65; 0x78; 0x74;
      0x72; 0x61; 0xAA; 0x20; 0x30; 0x1E; 0x30; 0x0D; 0xA0; 0x03; 0x02; 0x01; 0x02; 0xA1; 0x06;
      0x04; 0x04; 0x12; 0xD0; 0x00; 0x23; 0x30; 0x0D; 0xA0; 0x03; 0x02; 0x01; 0x02; 0xA1; 0x06;
      0x04; 0x04; 0x12; 0xD0; 0x00; 0x23; 0xA1; 0x03; 0x02; 0x01; 0x2A; 0xA2; 0x11; 0x18; 0x0F;
      0x31; 0x39; 0x39; 0x34; 0x30; 0x36; 0x31; 0x30; 0x30; 0x36; 0x30; 0x33; 0x31; 0x37; 0x5A;
      0xA3; 0x05; 0x02; 0x03; 0x01; 0xE2; 0x40; 0xA4; 0x0F; 0x30; 0x0D; 0xA0; 0x03; 0x02; 0x01;
      0x02; 0xA1; 0x06; 0x04; 0x04; 0x12; 0xD0; 0x00; 0x23; 0xA5; 0x0F; 0x30; 0x0D; 0xA0; 0x03;
      0x02; 0x01; 0x02; 0xA1; 0x06; 0x04; 0x04; 0x12; 0xD0; 0x00; 0x23].
Proof. split; vm_compute; reflexivity. Qed.

Example vector_error :
  vector encode_krb5_error decode_krb5_error error
     [0x7E; 0x81; 0xBA; 0x30; 0x81; 0xB7; 0xA0; 0x03; 0x02; 0x01; 0x05; 0xA1; 0x03; 0x02; 0x01;
      0x1E; 0xA2; 0x11; 0x18; 0x0F; 0x31; 0x39; 0x39; 0x34; 0x30; 0x36; 0x31; 0x30; 0x30; 0x36;
      0x30; 0x33; 0x31; 0x37; 0x5A; 0xA3; 0x05; 0x02; 0x03; 0x01; 0xE2; 0x40; 0xA4; 0x11; 0x18;
      0x0F; 0x31; 0x39; 0x39; 0x34; 0x30; 0x36; 0x31; 0x30; 0x30; 0x36; 0x30; 0x33; 0x31; 0x37;
      0x5A; 0xA5; 0x05; 0x02; 0x03; 0x01; 0xE2; 0x40; 0xA6; 0x03; 0x02; 0x01; 0x3C; 0xA7; 0x10;
      0x1B; 0x0E; 0x41; 0x54; 0x48; 0x45; 0x4E; 0x41; 0x2E; 0x4D; 0x49; 0x54; 0x2E; 0x45; 0x44;
      0x55; 0xA8; 0x1A; 0x30; 0x18; 0xA0; 0x03; 0x02; 0x01; 0x01; 0xA1; 0x11; 0x30; 0x0F; 0x1B;
      0x06; 0x68; 0x66; 0x74; 0x73; 0x61; 0x69; 0x1B; 0x05; 0x65; 0x78; 0x74; 0x72; 0x61; 0xA9;
      0x10; 0x1B; 0x0E; 0x41; 0x54; 0x48; 0x45; 0x4E; 0x41; 0x2E; 0x4D; 0x49; 0x54; 0x2E; 0x45;
      0x44; 0x55; 0xAA; 0x1A; 0x30; 0x18; 0xA0; 0x03; 0x02; 0x01; 0x01; 0xA1; 0x11; 0x30; 0x0F;
      0x1B; 0x06; 0x68; 0x66; 0x74; 0x73; 0x61; 0x69; 0x1B; 0x05; 0x65; 0x78; 0x74; 0x72; 0x61;
      0xAB; 0x0A; 0x1B; 0x08; 0x6B; 0x72; 0x62; 0x35; 0x64; 0x61; 0x74; 0x61; 0xAC; 0x0A; 0x04;
      0x08; 0x6B; 0x72; 0x62; 0x35; 0x64; 0x61; 0x74; 0x61].
Proof. split; vm_compute; reflexivity. Qed.

Example vector_pwd_sequence :
  vector encode_krb5_pwd_sequence decode_krb5_pwd_sequence sample_passwd_phrase
     [0x30; 0x18; 0xA0; 0x0A; 0x04; 0x08; 0x6B; 0x72; 0x62; 0x35; 0x64; 0x61; 0x74; 0x61; 0xA1;
      0x0A; 0x04; 0x08; 0x6B; 0x72; 0x62; 0x35; 0x64; 0x61; 0x74; 0x61].
Proof. split; vm_compute; reflexivity. Qed.

Example vector_pwd_data :
  vector encode_krb5_pwd_data decode_krb5_pwd_data pwd_data
     [0x30; 0x3D; 0xA0; 0x03; 0x02; 0x01; 0x02; 0xA1; 0x36; 0x30; 0x34; 0x30; 0x18; 0xA0; 0x0A;
      0x04; 0x08; 0x6B; 0x72; 0x62; 0x35; 0x64; 0x61; 0x74; 0x61; 0xA1; 0x0A; 0x04; 0x08; 0x6B;
      0x72; 0x62; 0x35; 0x64; 0x61; 0x74; 0x61; 0x30; 0x18; 0xA0; 0x0A; 0x04; 0x08; 0x6B; 0x72;
      0x62; 0x35; 0x64; 0x61; 0x74; 0x61; 0xA1; 0x0A; 0x04; 0x08; 0x6B; 0x72; 0x62; 0x35; 0x64;
      0x61; 0x74; 0x61].
Proof. split; vm_compute; reflexivity. Qed.

Example vector_alt_method :
  vector encode_krb5_alt_method decode_krb5_alt_method alt_method
     [0x30; 0x0F; 0xA0; 0x03; 0x02; 0x01; 0x2A; 0xA1; 0x08; 0x04; 0x06; 0x73; 0x65; 0x63; 0x72;
      0x65; 0x74].
Proof. split; vm_compute; reflexivity. Qed.

Example vector_pa_enc_ts :
  vector encode_krb5_pa_enc_ts decode_krb5_pa_enc_ts pa_enc_ts
     [0x30; 0x1A; 0xA0; 0x11; 0x18; 0x0F; 0x31; 0x39; 0x39; 0x34; 0x30; 0x36; 0x31; 0x30; 0x30;
      0x36; 0x30; 0x33; 0x31; 0x37; 0x5A; 0xA1; 0x05; 0x02; 0x03; 0x01; 0xE2; 0x40].
Proof. split; vm_compute; reflexivity. Qed.

Example vector_enc_data :
  vector encode_krb5_enc_data decode_krb5_enc_data enc_data
     [0x30; 0x23; 0xA0; 0x03; 0x02; 0x01; 0x00; 0xA1; 0x03; 0x02; 0x01; 0x05; 0xA2; 0x17; 0x04;
      0x15; 0x6B; 0x72; 0x62; 0x41; 0x53; 0x4E; 0x2E; 0x31; 0x20; 0x74; 0x65; 0x73; 0x74; 0x20;
      0x6D; 0x65; 0x73; 0x73; 0x61; 0x67; 0x65].
Proof. split; vm_compute; reflexivity. Qed.

Example vector_sam_challenge :
  vector encode_krb5_sam_challenge decode_krb5_sam_challenge sam_challenge
     [0x30; 0x78; 0xA0; 0x03; 0x02; 0x01; 0x2A; 0xA1; 0x07; 0x03; 0x05; 0x00; 0x80; 0x00; 0x00;
      0x00; 0xA2; 0x0B; 0x04; 0x09; 0x74; 0x79; 0x70; 0x65; 0x20; 0x6E; 0x61; 0x6D; 0x65; 0xA3;
      0x02; 0x04; 0x00; 0xA4; 0x11; 0x04; 0x0F; 0x63; 0x68; 0x61; 0x6C; 0x6C; 0x65; 0x6E; 0x67;
      0x65; 0x20; 0x6C; 0x61; 0x62; 0x65; 0x6C; 0xA5; 0x10; 0x04; 0x0E; 0x63; 0x68; 0x61; 0x6C;
      0x6C; 0x65; 0x6E; 0x67; 0x65; 0x20; 0x69; 0x70; 0x73; 0x65; 0xA6; 0x16; 0x04; 0x14; 0x72;
      0x65; 0x73; 0x70; 0x6F; 0x6E; 0x73; 0x65; 0x5F; 0x70; 0x72; 0x6F; 0x6D; 0x70; 0x74; 0x20;
      0x69; 0x70; 0x73; 0x65; 0xA7; 0x02; 0x04; 0x00; 0xA8; 0x05; 0x02; 0x03; 0x54; 0x32; 0x10;
      0xA9; 0x0F; 0x30; 0x0D; 0xA0; 0x03; 0x02; 0x01; 0x01; 0xA1; 0x06; 0x04; 0x04; 0x31; 0x32;
      0x33; 0x34].
Proof. split; vm_compute; reflexivity. Qed.

Example vector_sam_response :
  vector encode_krb5_sam_response decode_krb5_sam_response sam_response
     [0x30; 0x6A; 0xA0; 0x03; 0x02; 0x01; 0x2A; 0xA1; 0x07; 0x03; 0x05; 0x00; 0x80; 0x00; 0x00;
      0x00; 0xA2; 0x0C; 0x04; 0x0A; 0x74; 0x72; 0x61; 0x63; 0x6B; 0x20; 0x64; 0x61; 0x74; 0x61;
      0xA3; 0x14; 0x30; 0x12; 0xA0; 0x03; 0x02; 0x01; 0x01; 0xA1; 0x04; 0x02; 0x02; 0x07; 0x96;
      0xA2; 0x05; 0x04; 0x03; 0x6B; 0x65; 0x79; 0xA4; 0x1C; 0x30; 0x1A; 0xA0; 0x03; 0x02; 0x01;
      0x01; 0xA1; 0x04; 0x02; 0x02; 0x0D; 0x36; 0xA2; 0x0D; 0x04; 0x0B; 0x6E; 0x6F; 0x6E; 0x63;
      0x65; 0x20; 0x6F; 0x72; 0x20; 0x74; 0x73; 0xA5; 0x05; 0x02; 0x03; 0x54; 0x32; 0x10; 0xA6;
      0x11; 0x18; 0x0F; 0x31; 0x39; 0x39; 0x34; 0x30; 0x36; 0x31; 0x30; 0x30; 0x36; 0x30; 0x33;
      0x31; 0x37; 0x5A].
Proof. split; vm_compute; reflexivity. Qed.

End KTest.
