(* ===== verification/TransitedProofs.v ===== *)
(** * What the check of transited realms checks

    For a list of full realm names, [krb5_check_transited_list] looks up every realm
    that a comma follows in the path between the realms of the client and the server.
    The last one, which nothing follows, it does not look up. *)

From S2P Require Import Prelude Asn1Buf Krb5Types PrincName PrincNameProofs Transited KTest.

(** The realm names that need no quoting, no completion and fit the buffer. *)
Record simple_realm (r : list octet) : Prop := SimpleRealm {
  sr_length : 0 < zlen r <= MAX_REALM_LN;
  sr_chars : Forall (fun o => o <> 0 /\ o <> 44 /\ o <> 92) r;
  sr_first : forall o, r !! 0%nat = Some o -> o <> 47 /\ o <> 32;
  sr_last : List.last r 0 <> 46
}.

(** realm,realm,...,realm *)
Definition transited_string (rs : list (list octet)) (last : list octet) : list octet :=
  concat ((fun r => r ++ [44]) <$> rs) ++ last.

(** The buffer with a string in it. *)
Definition holding (w : list octet) : realm_buf :=
  RealmBuf (w ++ replicate (Z.to_nat (MAX_REALM_LN + 1) - length w) 0) (zlen w).

Lemma holding_nil : realm_clear = holding [].
Proof. reflexivity. Qed.

Lemma put_realm_holding w o : zlen w < MAX_REALM_LN -> put_realm (holding w) o = Ok (holding (w ++ [o])).
Proof.
  intros H. unfold put_realm, holding. cbn [rb_next rb_nextp]. unfold MAX_REALM_LN, zlen in H.
  destruct (Z.to_nat (MAX_REALM_LN + 1) - length w)%nat as [|k] eqn:E;
    [unfold MAX_REALM_LN in E; lia|].
  cbn [replicate]. rewrite put_ok. cbn [obind].
  rewrite (proj2 (Z.leb_gt _ _)) by (unfold MAX_REALM_LN, zlen in *; lia).
  rewrite length_app, zlen_app. change (zlen [o]) with 1. cbn [length].
  do 4 f_equal. lia.
Qed.

Lemma strlen_app w l : no_nul w -> strlen (w ++ l) = zlen w + strlen l.
Proof.
  induction 1 as [|o w Ho _ IH]; [done|]. cbn [app strlen].
  rewrite (proj2 (Z.eqb_neq _ _) Ho), IH, zlen_cons. lia.
Qed.

Lemma strlen_zeros k : strlen (replicate k 0) = 0.
Proof. by destruct k. Qed.

Lemma cstr_holding w : no_nul w -> cstr (rb_next (holding w)) = w /\ strlen (rb_next (holding w)) = zlen w.
Proof.
  intros H. unfold holding, cstr. cbn [rb_next]. rewrite strlen_app, strlen_zeros, Z.add_0_r by done.
  split; [|done]. unfold zlen. by rewrite Nat2Z.id, take_app_length.
Qed.

Section Check.
Context `{P : Platform}.
Variable tree : list krb5_principal_data.
Variable realms : list (list octet).
Hypothesis tree_realms : Forall2 (fun p r => data_holds (pr_realm p) r) tree realms.

Lemma in_tree_ok r : in_tree r tree = Ok (bool_decide (r ∈ realms)).
Proof.
  revert tree_realms. revert realms. induction tree as [|p tr IH]; intros rs H.
  - apply Forall2_nil_inv_l in H as ->. done.
  - apply Forall2_cons_inv_l in H as (x & rs' & Hp & H & ->). cbn [in_tree].
    rewrite (contents_ok _ _ Hp). cbn [obind]. destruct Hp as [-> _]. rewrite (IH rs' H).
    destruct (decide (r = x)) as [->|Hne].
    + rewrite Z.eqb_refl, !bool_decide_eq_true_2; [done|by constructor|done].
    + rewrite (bool_decide_eq_false_2 (r = x)) by done.
      assert (E : bool_decide (r ∈ x :: rs') = bool_decide (r ∈ rs')).
      { apply bool_decide_ext. rewrite elem_of_cons. tauto. }
      rewrite E. by destruct (_ =? _).
Qed.

(** Characters that are neither commas nor quotes go to the buffer. *)
Lemma check_loop_chars r : forall w l prev, Forall (fun o => o <> 0 /\ o <> 44 /\ o <> 92) r ->
  zlen w + zlen r <= MAX_REALM_LN ->
  check_loop tree (r ++ l) prev (holding w) = check_loop tree l prev (holding (w ++ r)).
Proof.
  induction r as [|o r IH]; intros w l prev Hr Hl; [by rewrite app_nil_r|].
  apply Forall_cons_1 in Hr as [(_ & H44 & H92) Hr]. rewrite zlen_cons in Hl.
  assert (E : check_loop tree ((o :: r) ++ l) prev (holding w) =
    obind (put_realm (holding w) o) (check_loop tree (r ++ l) prev)).
  { cbn [app check_loop]. rewrite (proj2 (Z.eqb_neq _ _) H44), (proj2 (Z.eqb_neq _ _) H92). cbn [negb].
    by destruct (r ++ l). }
  rewrite E, put_realm_holding by lens. cbn [obind].
  replace (w ++ o :: r) with ((w ++ [o]) ++ r) by by rewrite <- app_assoc.
  apply IH; [done|]. rewrite zlen_app. change (zlen [o]) with 1. lia.
Qed.

Lemma check_realm_simple prev w : simple_realm w ->
  check_realm tree prev (holding w) =
  if bool_decide (w ∈ realms) then Ok (holding w) else Err KRB5KRB_AP_ERR_ILL_CR_TKT.
Proof.
  intros [Hl Hc Hf Hla]. unfold check_realm.
  assert (Hn : no_nul w) by (eapply Forall_impl; [|exact Hc]; by intros ? [? _]).
  assert (H0 : load (rb_next (holding w)) 0 <> Some 47).
  { destruct w as [|o w']; [done|]. destruct (Hf o eq_refl) as [H47 _]. cbn. by intros [= ?]. }
  rewrite bool_decide_eq_false_2 by done.
  assert (El : load (rb_next (holding w)) (rb_nextp (holding w) - 1) = Some (List.last w 0)).
  { unfold load, holding. cbn [rb_next rb_nextp]. destruct (Z.ltb_spec (zlen w - 1) 0); [lia|].
    destruct (exists_last (l := w)) as (w' & x & ->); [by destruct w|]. rewrite last_last.
    replace (Z.to_nat (zlen (w' ++ [x]) - 1)) with (length w') by (unfold zlen; rewrite length_app; simpl; lia).
    rewrite <- app_assoc. by apply list_lookup_middle. }
  rewrite El. destruct (Z.eqb_spec (List.last w 0) 46); [done|]. cbn [andb].
  destruct (cstr_holding w Hn) as [-> _]. rewrite in_tree_ok. cbn [obind]. by case_bool_decide.
Qed.

(** A realm, a comma and the first character of the next one. *)
Lemma check_loop_realm r prev o l : simple_realm r -> o <> 47 -> o <> 32 ->
  check_loop tree (r ++ 44 :: o :: l) prev realm_clear =
  if bool_decide (r ∈ realms) then check_loop tree (o :: l) r realm_clear
  else Err KRB5KRB_AP_ERR_ILL_CR_TKT.
Proof.
  intros Hr H47 H32. pose proof Hr as [Hl Hc _ _].
  assert (Hn : no_nul r) by (eapply Forall_impl; [|exact Hc]; by intros ? [? _]).
  rewrite holding_nil, check_loop_chars by (try done; change (zlen []) with 0; lia). cbn [app].
  assert (Hz : <[Z.to_nat MAX_REALM_LN := 0]> (rb_next (holding r)) = rb_next (holding r)).
  { apply list_insert_id. unfold holding. cbn [rb_next]. unfold zlen, MAX_REALM_LN in *.
    rewrite lookup_app_r, lookup_replicate_2 by lia. done. }
  remember (o :: l) as ol eqn:Eol. cbn [check_loop].
  rewrite Eol at 1. change (44 =? 92) with false. change (negb (44 =? 44)) with false. cbv iota.
  rewrite Hz. change (RealmBuf (rb_next (holding r)) (rb_nextp (holding r))) with (holding r).
  destruct (cstr_holding r Hn) as [Ec Es]. rewrite Es, (proj2 (Z.eqb_neq _ _)) by lia.
  rewrite check_realm_simple by done. case_bool_decide; [|done]. cbn [obind].
  rewrite Eol at 1. rewrite (proj2 (Z.eqb_neq _ _) H32), (proj2 (Z.eqb_neq _ _) H47). cbn [negb].
  by rewrite Ec.
Qed.

Lemma check_loop_simple rs : forall prev last, Forall simple_realm rs -> simple_realm last ->
  check_loop tree (transited_string rs last) prev realm_clear =
  if forallb (fun r => bool_decide (r ∈ realms)) rs then Ok tt else Err KRB5KRB_AP_ERR_ILL_CR_TKT.
Proof.
  induction rs as [|r rs IH]; intros prev last Hrs Hl.
  - unfold transited_string. cbn [fmap list_fmap concat app forallb].
    rewrite <- (app_nil_r last), holding_nil.
    rewrite check_loop_chars; [done|by apply sr_chars|].
    change (zlen []) with 0. apply sr_length in Hl. lia.
  - apply Forall_cons_1 in Hrs as [Hr Hrs].
    assert (Hne : exists o l, transited_string rs last = o :: l /\ o <> 47 /\ o <> 32).
    { destruct rs as [|r' rs]; [destruct Hl as [Hln _ Hf _]; destruct last as [|o l]; [by destruct Hln|]|
        apply Forall_cons_1 in Hrs as [[Hln _ Hf _] _]; destruct r' as [|o l]; [by destruct Hln|]];
      (eexists o, _; split; [done|by apply Hf]). }
    destruct Hne as (o & l & E & H47 & H32). unfold transited_string in *. rewrite fmap_cons. cbn [concat].
    rewrite <- !app_assoc. cbn [app]. rewrite E, check_loop_realm by done. cbn [forallb].
    case_bool_decide; [|done]. rewrite <- E. by apply IH.
Qed.

End Check.

Section Lists.
Context `{P : Platform}.

Lemma transited_string_no_nul rs last :
  Forall simple_realm rs -> simple_realm last -> 0 ∉ transited_string rs last.
Proof.
  intros Hrs Hl. unfold transited_string. rewrite not_elem_of_app.
  assert (H : forall r, simple_realm r -> 0 ∉ r).
  { intros r [_ Hc _ _] Hin%list_elem_of_In. rewrite Forall_forall in Hc. by destruct (Hc 0 Hin). }
  split; [|by apply H]. induction Hrs as [|r rs Hr _ IH]; [apply not_elem_of_nil|].
  rewrite fmap_cons. cbn [concat]. rewrite !not_elem_of_app. split; [|done]. split; [by apply H|].
  by rewrite list_elem_of_singleton.
Qed.

(** C36: For a list of full realm names the check accepts if and only if every realm of
    the list but the last is on the path between the two realms; the last realm is never
    looked up. *)
Theorem check_transited_list_simple capaths trans rs last c s t realms :
  Forall simple_realm rs -> simple_realm last ->
  data_holds trans (transited_string rs last) ->
  krb5_walk_realm_tree capaths c s KRB5_REALM_BRANCH_CHAR = Ok t -> zlen (rt_elts t) < rt_size t ->
  Forall2 (fun p r => data_holds (pr_realm p) r) (rt_elts t) realms ->
  krb5_check_transited_list capaths (Some trans) c s =
  if forallb (fun r => bool_decide (r ∈ realms)) rs then Ok tt else Err KRB5KRB_AP_ERR_ILL_CR_TKT.
Proof.
  intros Hrs Hl Ht Hw Hsz Hr. pose proof (transited_string_no_nul rs last Hrs Hl) as H0.
  destruct (exists_last (l := last)) as (last' & x & El); [by intros ->; destruct Hl as [[? _] _ _ _]|].
  unfold krb5_check_transited_list. rewrite (contents_ok _ _ Ht).
  assert (Hlen : 0 < zlen (transited_string rs last)).
  { unfold transited_string. rewrite El, !zlen_app. change (zlen [x]) with 1.
    pose proof (zlen_nonneg (concat ((fun r => r ++ [44]) <$> rs))). pose proof (zlen_nonneg last'). lia. }
  destruct Ht as [Ed Hd]. destruct (d_data trans); [|by rewrite Hd in Hlen].
  rewrite Ed, (proj2 (Z.eqb_neq _ _)) by lia. cbn [obind].
  assert (Ex : List.last (transited_string rs last) 1 = x).
  { unfold transited_string. by rewrite El, app_assoc, last_last. }
  assert (Hx : x <> 0).
  { intros ->. apply H0. unfold transited_string. rewrite El, !elem_of_app, list_elem_of_singleton. auto. }
  rewrite Ex, (proj2 (Z.eqb_neq _ _) Hx), bool_decide_eq_false_2 by done.
  rewrite Hw. cbn [obind]. rewrite (proj2 (Z.ltb_lt _ _) Hsz).
  by apply check_loop_simple.
Qed.

End Lists.

(** ** A path that does not reach the server *)

Definition XA_COM : list octet := [88; 65; 46; 67; 79; 77].
Definition A_COM : list octet := [65; 46; 67; 79; 77].

(** The ticket-granting service a principal names is the one of this realm. *)
Definition names_tgs_of (realm : list octet) (p : krb5_principal_data) : bool :=
  match pr_data p with
  | Some [_; d] => match d_data d with Some l => bool_decide (l = realm ++ [0]) | None => false end
  | _ => false
  end.

(** The path from XA.COM to A.COM stops at COM: no principal of it names the
    ticket-granting service of the server realm. *)
Theorem walk_realm_tree_misses_server :
  exists t, krb5_walk_realm_tree (P := lp64) (fun _ _ => None) (name_data XA_COM) (name_data A_COM)
              KRB5_REALM_BRANCH_CHAR = Ok t /\
    zlen (rt_elts t) = 2 /\ existsb (names_tgs_of A_COM) (rt_elts t) = false.
Proof. eexists. by vm_compute. Qed.
