(* ===== verification/Der.v ===== *)
(** * The distinguished encoding rules, as the specification of the ASN.1 layer

    Pure functions from values to octets.  The contracts that tie the encoders and
    decoders to these octets are in Codec.v. *)

From S2P Require Import Prelude Asn1Buf Asn1Tag GmTime Asn1Prim Krb5Types Asn1KEncode Asn1KDecode.

(** ** Octets of integers *)

(** The octets of a positive length, most significant first. *)
Fixpoint be_octets (fuel : nat) (n : Z) (acc : list octet) : list octet :=
  match fuel with
  | O => acc
  | S fuel' => if n =? 0 then acc else be_octets fuel' (n / 256) (n mod 256 :: acc)
  end.

Definition der_length (n : Z) : list octet :=
  if n <? 128 then [n]
  else let bs := be_octets 4 n [] in (128 + zlen bs) :: bs.

(** The contents octets of an INTEGER: the shortest two's complement form. *)
Fixpoint int_octets (fuel : nat) (n : Z) (acc : list octet) : list octet :=
  match fuel with
  | O => acc
  | S fuel' =>
      if (-128 <=? n) && (n <? 128) then n mod 256 :: acc
      else int_octets fuel' (n / 256) (n mod 256 :: acc)
  end.

(** ** Tag, length, value *)

Definition der_tlv (id : Z) (contents : list octet) : list octet :=
  id :: der_length (zlen contents) ++ contents.

Definition der_integer (n : Z) : list octet := der_tlv 0x02 (int_octets 9 n []).
Definition der_octetstring (s : list octet) : list octet := der_tlv 0x04 s.
Definition der_generalstring (s : list octet) : list octet := der_tlv 0x1B s.

(** A 32-bit BIT STRING without unused bits. *)
Definition der_flags (f : Z) : list octet :=
  der_tlv 0x03 [0; f / 16777216 mod 256; f / 65536 mod 256; f / 256 mod 256; f mod 256].

(** YYYYMMDDhhmmssZ *)
Definition time_string (t : Z) : list octet :=
  match gmtime t with Some g => sprintf_generaltime g | None => [] end.
Definition der_time (t : Z) : list octet := der_tlv 0x18 (time_string t).

(** ** Structures: lists of fields under context-specific tags *)

Definition field : Type := Z * list octet.
Definition fld (t : Z) (c : list octet) : list field := [(t, c)].
Definition opt_fld (b : bool) (t : Z) (c : list octet) : list field :=
  if b then [(t, c)] else [].
Definition der_field (f : field) : list octet := der_tlv (0xA0 + f.1) f.2.
Definition flat (fs : list field) : list octet := mjoin (der_field <$> fs).

Definition der_seq (fs : list field) : list octet := der_tlv 0x30 (flat fs).
Definition der_seqof (elts : list (list octet)) : list octet := der_tlv 0x30 (mjoin elts).
Definition der_app (n : Z) (c : list octet) : list octet := der_tlv (0x60 + n) c.

Lemma flat_app fs gs : flat (fs ++ gs) = flat fs ++ flat gs.
Proof. unfold flat. by rewrite fmap_app, join_app. Qed.

Lemma flat_fld t c : flat (fld t c) = der_tlv (0xA0 + t) c.
Proof. unfold flat, fld, der_field. simpl. by rewrite app_nil_r. Qed.

Lemma zlen_tlv id c : zlen (der_tlv id c) = 1 + zlen (der_length (zlen c)) + zlen c.
Proof. unfold der_tlv. rewrite zlen_cons, zlen_app. lia. Qed.

Lemma zlen_tlv_le id c : zlen c <= zlen (der_tlv id c).
Proof. rewrite zlen_tlv. pose proof (zlen_nonneg (der_length (zlen c))). lia. Qed.

#[export] Hint Rewrite zlen_tlv : krb.

(** The octets of lengths below 2^31, by the number of octets. *)
Lemma der_length_cases n : 0 <= n < 2147483648 ->
  (n < 128 /\ der_length n = [n]) \/
  (128 <= n < 256 /\ der_length n = [129; n]) \/
  (256 <= n < 65536 /\ der_length n = [130; n / 256; n mod 256]) \/
  (65536 <= n < 16777216 /\
     der_length n = [131; n / 65536; n / 256 mod 256; n mod 256]) \/
  (16777216 <= n /\
     der_length n = [132; n / 16777216; n / 65536 mod 256; n / 256 mod 256; n mod 256]).
Proof.
  intros Hn. unfold der_length.
  destruct (Z.ltb_spec n 128); [left; split; [lia|done]|right].
  assert (H2 : n / 256 / 256 = n / 65536) by (rewrite Z.div_div by lia; done).
  assert (H3 : n / 65536 / 256 = n / 16777216) by (rewrite Z.div_div by lia; done).
  cbn [be_octets]. destruct (Z.eqb_spec n 0); [lia|].
  destruct (Z.eqb_spec (n / 256) 0) as [E1|E1].
  { left. split; [divlia|]. rewrite (Z.mod_small n 256) by divlia. done. }
  rewrite H2. destruct (Z.eqb_spec (n / 65536) 0) as [E2|E2].
  { right; left. split; [divlia|]. rewrite (Z.mod_small (n / 256)) by divlia. done. }
  rewrite H3. destruct (Z.eqb_spec (n / 16777216) 0) as [E3|E3].
  { do 2 right; left. split; [divlia|]. rewrite (Z.mod_small (n / 65536)) by divlia. done. }
  do 3 right. split; [divlia|]. rewrite (Z.mod_small (n / 16777216)) by divlia. done.
Qed.

Lemma octet_mod n : is_uint 8 (n mod 256).
Proof. unfold is_uint. change (2 ^ 8) with 256. divlia. Qed.

Lemma be_octets_grow fuel n acc : zlen acc <= zlen (be_octets fuel n acc).
Proof.
  revert n acc. induction fuel as [|f IH]; intros n acc; simpl; [lia|].
  destruct (n =? 0); [lia|]. specialize (IH (n / 256) (n mod 256 :: acc)). lens.
Qed.

Lemma be_octets_ok fuel n acc :
  octets acc ->
  octets (be_octets fuel n acc) /\
  zlen (be_octets fuel n acc) <= zlen acc + Z.of_nat fuel.
Proof.
  revert n acc. induction fuel as [|f IH]; intros n acc H; simpl; [split; [done|lia]|].
  destruct (n =? 0); [split; [done|lia]|].
  destruct (IH (n / 256) (n mod 256 :: acc)) as [IH1 IH2].
  { constructor; [apply octet_mod|done]. }
  split; [done|]. lens.
Qed.

Lemma der_length_octets n : 0 <= n -> octets (der_length n).
Proof.
  intros Hn. unfold der_length. destruct (Z.ltb_spec n 128).
  - constructor; [|constructor]. unfold is_uint. lia.
  - destruct (be_octets_ok 4 n [] ltac:(constructor)) as [H1 H2].
    constructor; [|done]. unfold is_uint. rewrite zlen_nil in H2.
    pose proof (zlen_nonneg (be_octets 4 n [])). lia.
Qed.

Lemma der_tlv_octets id c : is_uint 8 id -> octets c -> octets (der_tlv id c).
Proof.
  intros Hi Hc. constructor; [done|]. apply Forall_app. split; [|done].
  apply der_length_octets, zlen_nonneg.
Qed.
