(* ===== verification/Codec.v ===== *)
(** * The contracts of encoders and decoders

    [encodes enc bs]: on every buffer with room for it, the encoder prepends exactly
    [bs] and returns its length.  [decodes dec bs v]: on every buffer that stands at
    [bs], the decoder consumes exactly [bs] and returns [v], whatever follows.  A
    [Codec] is a type with an encoder and a decoder that agree on the DER octets of
    its well-formed values. *)

From S2P Require Import Prelude Asn1Buf Asn1Tag GmTime Asn1Prim Krb5Types Asn1KEncode Asn1KDecode Der.

Section Contracts.
Context `{P : Platform}.

(** ** Encoders *)

(** Room for [bs] and one step of growth in front of [code]. *)
Definition room (code bs : list octet) : Prop :=
  zlen code + zlen bs + STANDARD_INCREMENT <= code_limit.

Definition encodes (enc : encoder) (bs : list octet) : Prop :=
  octets bs /\
  forall buf code, cb_rep buf code -> room code bs ->
  exists buf', enc buf = Ok (buf', zlen bs) /\ cb_rep buf' (bs ++ code).

(** The steps of the encoder of a structure: [builds step body bs] turns the octets
    [body] written so far, which [sum] counts, into [bs]. *)
Definition builds (step : encstep) (body bs : list octet) : Prop :=
  zlen body <= zlen bs /\ (octets body -> octets bs) /\
  forall buf code, cb_rep buf (body ++ code) -> room code bs ->
  exists buf', step (buf, zlen body) = Ok (buf', zlen bs) /\ cb_rep buf' (bs ++ code).

(** ** Decoders *)

(** The buffer stands at the octets [bs], which it holds completely; the loops of the
    decoder may run once per octet. *)
Record input (e : denv) (buf : asn1buf) (bs : list octet) : Prop := Input {
  in_next : 0 <= next buf;
  in_bound : next buf + zlen bs <= bound buf + 1;
  in_octets : octets bs;
  in_load : load_n (de_mem e) (next buf) (length bs) = Some bs;
  in_fuel : (length bs <= de_fuel e)%nat;
  in_limit : zlen bs <= code_limit
}.

Definition advance (buf : asn1buf) (n : Z) : asn1buf := set_next buf (next buf + n).

Record decodes {A} (dec : decoder A) (bs : list octet) (v : A) : Prop := Decodes {
  decodes_run :> forall e buf, input e buf bs -> dec e buf = Ok (v, advance buf (zlen bs))
}.

(** ** Types with both *)

Class Codec {A} (enc : A -> encoder) (dec : decoder A) (der : A -> list octet)
    (wf : A -> Prop) : Prop := {
  codec_encodes : forall v, wf v -> encodes (enc v) (der v);
  codec_decodes : forall v, wf v -> decodes dec (der v) v;
  codec_not_nil : forall v, der v <> []
}.

(** ** Insertion of octets into the buffer *)

Lemma room_app (code bs cs : list octet) : room code (bs ++ cs) -> room (cs ++ code) bs.
Proof. unfold room. rewrite !zlen_app. lia. Qed.

Lemma room_fits (code bs cs : list octet) :
  room code bs -> zlen cs <= zlen bs -> cb_fits code (zlen cs).
Proof. unfold room, cb_fits, code_limit. lia. Qed.

Lemma room_le (code bs cs : list octet) : room code bs -> zlen cs <= zlen bs -> room code cs.
Proof. unfold room. lia. Qed.

Lemma insert_octet_ok buf code o :
  cb_rep buf code -> room code [o] ->
  exists buf', asn1buf_insert_octet buf o = Ok buf' /\ cb_rep buf' (octet_of o :: code).
Proof.
  intros H Hr. destruct (asn1buf_insert_octet_rep buf code o H) as [?|[_ []]]; [done|].
  eapply room_fits; [done|lens].
Qed.

Lemma insert_octetstring_ok buf code l :
  cb_rep buf code -> octets l -> room code l ->
  exists buf', asn1buf_insert_octetstring buf (zlen l) (Some l) = Ok buf' /\
    cb_rep buf' (l ++ code).
Proof.
  intros H Hl Hr. destruct (asn1buf_insert_octetstring_rep buf code l H Hl) as [?|[_ []]];
    [done|]. eapply room_fits; [done|lia].
Qed.

Lemma insert_none_ok buf code :
  cb_rep buf code ->
  exists buf', asn1buf_insert_octetstring buf 0 None = Ok buf' /\ cb_rep buf' code.
Proof.
  intros H. unfold asn1buf_insert_octetstring, asn1buf_ensure_space.
  destruct (Z.ltb_spec (asn1buf_free buf) 0); [|eauto].
  exfalso. unfold asn1buf_free, cb_rep in *. destruct (cb_base buf); lia.
Qed.

(** ** Identifier and length octets *)

Lemma to_uint_octet o : is_octet (octet_of o).
Proof. unfold is_uint, to_uint. change (2 ^ 8) with 256. divlia. Qed.

Lemma octets_1 o : is_octet o -> octets [o].
Proof. intros H. by constructor. Qed.

Lemma octet_of_id o : 0 <= o < 256 -> octet_of o = o.
Proof. intros. by apply to_uint_id. Qed.

Lemma make_length_octets_ok fuel n k acc code buf :
  cb_rep buf (acc ++ code) -> 0 <= n < 256 ^ Z.of_nat fuel ->
  room code (be_octets fuel n acc) ->
  exists buf',
    make_length_octets fuel n k buf = Ok (buf', k + zlen (be_octets fuel n acc) - zlen acc) /\
    cb_rep buf' (be_octets fuel n acc ++ code).
Proof.
  revert n k acc buf. induction fuel as [|f IH]; intros n k acc buf Hr Hn Hroom; simpl in *.
  { replace (n =? 0) with true by lia. exists buf. split; [do 2 f_equal; lia|done]. }
  destruct (n =? 0) eqn:E; [exists buf; split; [do 2 f_equal; lia|done]|].
  pose proof (be_octets_grow f (n / 256) (n mod 256 :: acc)).
  destruct (insert_octet_ok buf (acc ++ code) (Z.land n 255)) as (b1 & -> & Hr1); [done| |].
  { apply room_app. eapply room_le; [done|lens]. }
  simpl. rewrite shiftr_8. rewrite land_255, octet_of_id in Hr1 by divlia.
  destruct (IH (n / 256) (k + 1) (n mod 256 :: acc) b1) as (b2 & -> & Hr2); [done| |done|].
  { rewrite Nat2Z.inj_succ, Z.pow_succ_r in Hn by lia. divlia. }
  exists b2. split; [|done]. do 2 f_equal. lens.
Qed.

Lemma asn1_make_length_ok n :
  0 <= n -> n < 2147483648 -> encodes (asn1_make_length n) (der_length n).
Proof.
  intros H0 Hn. split; [by apply der_length_octets|].
  intros buf code Hr Hroom. unfold asn1_make_length. unfold der_length in *.
  destruct (Z.ltb_spec n 128).
  - rewrite land_127, Z.mod_small by lia.
    destruct (insert_octet_ok buf code n) as (b1 & -> & Hr1); [done..|].
    rewrite octet_of_id in Hr1 by lia. by exists b1.
  - set (bs := be_octets 4 n []) in *.
    destruct (make_length_octets_ok 4 n 0 [] code buf) as (b1 & -> & Hr1); [done|simpl; lia| |].
    { eapply room_le; [done|]. fold bs. lens. }
    assert (Hl : 0 <= zlen bs <= 4).
    { destruct (der_length_cases n) as [?|Hc]; [lia|lia|]. unfold der_length in Hc.
      destruct (Z.ltb_spec n 128); [lia|]. fold bs in Hc.
      destruct Hc as [[? E]|[[? E]|[[? E]|[? E]]]]; injection E as E1 E2; lia. }
    fold bs in Hr1 |- *. change (zlen []) with 0. rewrite Z.add_0_l, Z.sub_0_r. simpl.
    rewrite land_127, Z.mod_small by lia.
    destruct (insert_octet_ok b1 (bs ++ code) (Z.lor 128 (zlen bs))) as (b2 & -> & Hr2); [done| |].
    { apply room_app. eapply room_le; [done|]. simpl. lens. }
    exists b2. split; [by rewrite zlen_cons|].
    replace (octet_of (Z.lor 128 (zlen bs))) with (128 + zlen bs) in Hr2; [done|].
    assert (zlen bs = 0 \/ zlen bs = 1 \/ zlen bs = 2 \/ zlen bs = 3 \/ zlen bs = 4)
      as [->|[->|[->|[->| ->]]]] by lia; done.
Qed.

(** Identifiers in the single-octet form. *)
Lemma asn1_make_id_ok class construction t :
  0 <= t < 31 -> encodes (asn1_make_id class construction t)
                   [octet_of (Z.lor (Z.lor class construction) t)].
Proof.
  intros Ht. split; [apply octets_1, to_uint_octet|].
  intros buf code Hr Hroom. unfold asn1_make_id.
  destruct (Z.ltb_spec t 31); [|lia]. rewrite (octet_of_id t) by lia.
  destruct (insert_octet_ok buf code (Z.lor (Z.lor class construction) t)) as (b1 & -> & Hr1);
    [done..|]. by exists b1.
Qed.

(** Running one encoder after another. *)
Lemma encodes_then f g b1 b2 (n : Z -> Z -> Z) :
  encodes f b1 -> encodes g b2 ->
  octets (b2 ++ b1) /\
  forall buf code, cb_rep buf code -> room code (b2 ++ b1) ->
  exists buf',
    (let* '(buf, l1) := f buf in
     let* '(buf, l2) := g buf in Ok (buf, n l1 l2)) = Ok (buf', n (zlen b1) (zlen b2)) /\
    cb_rep buf' (b2 ++ b1 ++ code).
Proof.
  intros [Ho1 Hf] [Ho2 Hg]. split; [by apply Forall_app|]. intros buf code Hr Hroom.
  destruct (Hf buf code) as (c1 & -> & H1); [done|eapply room_le; [done|lens]|]. simpl.
  destruct (Hg c1 (b1 ++ code)) as (c2 & -> & H2); [done|by apply room_app|]. simpl. eauto.
Qed.

(** The header of a value of [n] octets that stand in front of the code already. *)
Definition header (id n : Z) : list octet := id :: der_length n.

Lemma der_tlv_header id c : der_tlv id c = header id (zlen c) ++ c.
Proof. done. Qed.

Lemma zlen_header id n : zlen (header id n) = 1 + zlen (der_length n).
Proof. unfold header. lens. Qed.

Lemma asn1_make_tag_ok class construction t n :
  0 <= t < 31 -> 0 <= n -> n < 2147483648 ->
  encodes (asn1_make_tag class construction t n)
    (header (octet_of (Z.lor (Z.lor class construction) t)) n).
Proof.
  intros Ht H0 Hn.
  destruct (encodes_then _ _ _ _ Z.add (asn1_make_length_ok n H0 Hn)
              (asn1_make_id_ok class construction t Ht)) as [Ho He].
  split; [done|]. intros buf code Hr Hroom. unfold asn1_make_tag.
  replace (ASN1_TAGNUM_MAX <? t) with false by (unfold ASN1_TAGNUM_MAX, ASN1_TAGNUM_CEILING; lia).
  destruct (He buf code) as (b & -> & Hb); [done..|].
  exists b. split; [|done]. rewrite zlen_header. do 2 f_equal. lens.
Qed.

Lemma asn1_make_sequence_ok n :
  0 <= n -> n < 2147483648 -> encodes (asn1_make_sequence n) (header 0x30 n).
Proof.
  intros H0 Hn.
  destruct (encodes_then _ _ _ _ Z.add (asn1_make_length_ok n H0 Hn)
              (asn1_make_id_ok UNIVERSAL CONSTRUCTED ASN1_SEQUENCE ltac:(done))) as [Ho He].
  split; [done|]. intros buf code Hr Hroom. unfold asn1_make_sequence.
  destruct (He buf code) as (b & -> & Hb); [done..|].
  exists b. split; [|done]. rewrite zlen_header. do 2 f_equal. lens.
Qed.

(** A value: its contents, then its header in front of them. *)
Lemma encodes_value f class construction t c id :
  0 <= t < 31 -> octet_of (Z.lor (Z.lor class construction) t) = id -> octets c ->
  (forall buf code, cb_rep buf code -> room code c ->
     exists buf', f buf = Ok (buf', zlen c) /\ cb_rep buf' (c ++ code)) ->
  encodes (fun buf =>
      let* '(buf, length) := f buf in
      let* '(buf, partlen) := asn1_make_tag class construction t length buf in
      Ok (buf, length + partlen)) (der_tlv id c).
Proof.
  intros Ht <- Hc Hf. split; [by apply der_tlv_octets; [apply to_uint_octet|]|].
  intros buf code Hr Hroom. rewrite der_tlv_header in *.
  destruct (Hf buf code) as (b1 & -> & H1); [done|eapply room_le; [done|lens]|]. cbn [obind].
  destruct (asn1_make_tag_ok class construction t (zlen c)) as [_ Ht']; [done|lens| |].
  { unfold room, code_limit, STANDARD_INCREMENT in Hroom. lens. }
  destruct (Ht' b1 (c ++ code)) as (b2 & -> & H2); [done|by apply room_app|]. cbn [obind].
  exists b2. split; [by rewrite zlen_app, Z.add_comm|by rewrite <- app_assoc].
Qed.


Lemma encodes_ext f g bs : (forall buf, f buf = g buf) -> encodes g bs -> encodes f bs.
Proof.
  intros E [Ho H]. split; [done|]. intros buf code. rewrite E. apply H.
Qed.

(** ** Steps of structure encoders *)

Lemma builds_body step bs : builds step [] bs -> encodes (asn1_encode_body step) bs.
Proof. intros (_ & Ho & H). split; [by apply Ho|exact H]. Qed.

Lemma builds_seq s1 s2 b0 b1 b2 : builds s1 b0 b1 -> builds s2 b1 b2 -> builds (s1 >=> s2) b0 b2.
Proof.
  intros (L1 & O1 & H1) (L2 & O2 & H2). split; [lia|]. split; [auto|].
  intros buf code Hr Hroom. unfold estep_seq.
  destruct (H1 buf code) as (c1 & -> & R1); [done|by eapply room_le|]. by apply H2.
Qed.

Lemma builds_when_true (b : bool) s b0 b1 : b = true -> builds s b0 b1 -> builds (when b s) b0 b1.
Proof. by intros ->. Qed.

Lemma builds_when_false (b : bool) s b0 : b = false -> builds (when b s) b0 b0.
Proof. intros ->. split; [lia|]. split; [done|]. intros buf code Hr _. by exists buf. Qed.

Lemma builds_plain enc b0 bs : encodes enc bs -> builds (addplain enc) b0 (bs ++ b0).
Proof.
  intros [Ho H]. split; [lens|]. split; [intros; by apply Forall_app|].
  intros buf code Hr Hroom. unfold addplain.
  destruct (H buf (b0 ++ code)) as (c1 & -> & R1); [done|by apply room_app|].
  exists c1. split; [|by rewrite <- app_assoc]. cbn [obind]. by rewrite zlen_app, Z.add_comm.
Qed.

(** Putting a header in front of everything written so far. *)
Lemma builds_header enc id b0 :
  is_octet id ->
  (zlen b0 < 2147483648 -> encodes (enc (zlen b0)) (header id (zlen b0))) ->
  builds (fun '(buf, sum) =>
            let* '(buf, length) := destroy_on_error (enc sum buf) in Ok (buf, sum + length))
    b0 (der_tlv id b0).
Proof.
  intros Hid H. split; [apply zlen_tlv_le|]. split; [by apply der_tlv_octets|].
  intros buf code Hr Hroom. rewrite der_tlv_header in *.
  destruct H as [_ H]. { unfold room, code_limit, STANDARD_INCREMENT in Hroom. lens. }
  destruct (H buf (b0 ++ code)) as (c1 & -> & R1); [done|by apply room_app|].
  exists c1. split; [|by rewrite <- app_assoc].
  cbn [destroy_on_error obind]. by rewrite zlen_app, Z.add_comm.
Qed.

Lemma builds_makeseq b0 : builds asn1_makeseq b0 (der_tlv 0x30 b0).
Proof.
  apply builds_header; [done|]. intros. apply asn1_make_sequence_ok; lens.
Qed.

Lemma etag_id class t : 0 <= t < 31 -> class = APPLICATION \/ class = CONTEXT_SPECIFIC ->
  octet_of (Z.lor (Z.lor class CONSTRUCTED) t) = class + 0x20 + t /\ is_octet (class + 0x20 + t).
Proof.
  intros Ht Hc.
  assert (Hq : forall o, 0 <= o < 256 ->
    (negb (o <? 31) || ((octet_of (Z.lor (Z.lor APPLICATION CONSTRUCTED) o) =? 0x60 + o) &&
     (octet_of (Z.lor (Z.lor CONTEXT_SPECIFIC CONSTRUCTED) o) =? 0xA0 + o)))%bool = true).
  { apply octet_case. by vm_compute. }
  specialize (Hq t ltac:(lia)). unfold is_uint. change (2 ^ 8) with 256.
  destruct Hc as [-> | ->]; unfold APPLICATION, CONTEXT_SPECIFIC in *; lia.
Qed.

Lemma asn1_make_etag_ok class t n :
  0 <= t < 31 -> class = APPLICATION \/ class = CONTEXT_SPECIFIC -> 0 <= n -> n < 2147483648 ->
  encodes (asn1_make_etag class t n) (header (class + 0x20 + t) n).
Proof.
  intros Ht Hc H0 Hn. destruct (etag_id class t Ht Hc) as [<- _].
  by apply asn1_make_tag_ok.
Qed.

(** The unchecked tag of [asn1_encode_principal_name]. *)
Lemma builds_etag t b0 : 0 <= t < 31 ->
  builds (fun '(buf, sum) =>
            let* '(buf, length) := asn1_make_etag CONTEXT_SPECIFIC t sum buf in
            Ok (buf, sum + length)) b0 (der_tlv (0xA0 + t) b0).
Proof.
  intros Ht. destruct (etag_id CONTEXT_SPECIFIC t) as [_ Hid]; [done|by right|].
  split; [apply zlen_tlv_le|]. split; [by apply der_tlv_octets|].
  intros buf code Hr Hroom. rewrite der_tlv_header in *.
  destruct (asn1_make_etag_ok CONTEXT_SPECIFIC t (zlen b0)) as [_ H]; [done|by right|lens| |].
  { unfold room, code_limit, STANDARD_INCREMENT in Hroom. lens. }
  destruct (H buf (b0 ++ code)) as (c1 & -> & R1); [done|by apply room_app|].
  exists c1. split; [|by rewrite <- app_assoc]. cbn [obind]. by rewrite zlen_app, Z.add_comm.
Qed.

Lemma builds_apptag t b0 : 0 <= t < 31 -> builds (asn1_apptag t) b0 (der_app t b0).
Proof.
  intros Ht. destruct (etag_id APPLICATION t) as [_ Hid]; [done|by left|].
  apply builds_header; [done|].
  intros. apply (asn1_make_etag_ok APPLICATION); [done|by left|lens|done].
Qed.

Lemma der_field_octets t c : 0 <= t < 31 -> octets c -> octets (der_field (t, c)).
Proof.
  intros Ht Hc. destruct (etag_id CONTEXT_SPECIFIC t) as [_ Hid]; [done|by right|].
  by apply der_tlv_octets.
Qed.

Lemma builds_field t enc c fs :
  0 <= t < 31 -> encodes enc c -> builds (asn1_addfield t enc) (flat fs) (flat (fld t c ++ fs)).
Proof.
  intros Ht [Ho He]. rewrite flat_app.
  replace (flat (fld t c)) with (header (0xA0 + t) (zlen c) ++ c) by (by rewrite flat_fld).
  split; [lens|]. split.
  { intros. repeat apply Forall_app_2; [|done..]. by apply (Forall_app _ _ c), (der_field_octets t c). }
  intros buf code Hr Hroom. unfold asn1_addfield. rewrite <- app_assoc in Hroom |- *.
  destruct (He buf (flat fs ++ code)) as (c1 & -> & R1); [done| |].
  { unfold room in *. lens. }
  cbn [destroy_on_error obind].
  destruct (asn1_make_etag_ok CONTEXT_SPECIFIC t (zlen c)) as [_ Ht'];
    [done|by right|lens|unfold room, code_limit, STANDARD_INCREMENT in Hroom; lens|].
  destruct (Ht' c1 (c ++ flat fs ++ code)) as (c2 & -> & R2); [done| |].
  { unfold room in *. change (CONTEXT_SPECIFIC + 32) with 0xA0. lens. }
  exists c2. cbn [destroy_on_error obind]. split; [|by rewrite <- !app_assoc].
  change (CONTEXT_SPECIFIC + 32) with 0xA0. do 2 f_equal. lens.
Qed.

Lemma builds_lenfield t len data enc c fs :
  0 <= t < 31 -> encodes (enc len data) c ->
  builds (asn1_addlenfield len data t enc) (flat fs) (flat (fld t c ++ fs)).
Proof. exact (builds_field t (enc len data) c fs). Qed.

(** An optional field. *)
Lemma builds_opt b s t c fs :
  (b = true -> builds s (flat fs) (flat (fld t c ++ fs))) ->
  builds (when b s) (flat fs) (flat (opt_fld b t c ++ fs)).
Proof.
  intros H. destruct b; [by apply builds_when_true; [|apply H]|by apply builds_when_false].
Qed.

(** Two fields under one condition. *)
Lemma builds_opt2 b s t c u d fs :
  (b = true -> builds s (flat fs) (flat (fld t c ++ fld u d ++ fs))) ->
  builds (when b s) (flat fs) (flat (opt_fld b t c ++ opt_fld b u d ++ fs)).
Proof.
  intros H. destruct b; [by apply builds_when_true; [|apply H]|by apply builds_when_false].
Qed.

Lemma encodes_seq steps fs :
  builds steps (flat []) (flat fs) -> encodes (asn1_encode_body (steps >=> asn1_makeseq)) (der_seq fs).
Proof. intros H. apply builds_body. eapply builds_seq; [exact H|apply builds_makeseq]. Qed.

End Contracts.
