(* ===== verification/CodecRead.v ===== *)
(** * Rules for reading: tags, sub-buffers, fields and arrays

    The decoders' macros against the DER form of structures.  The rules for fields are
    in continuation-passing form, so that a proof about a structure's decoder follows
    its text from the first field to the last. *)

From S2P Require Import Prelude Asn1Buf Asn1Tag GmTime Asn1Prim Krb5Types Asn1KEncode Asn1KDecode Krb5Decode Der Codec.

Section Read.
Context `{P : Platform}.

(** ** Standing at octets *)

Lemma load_n_app m p (a b : list octet) :
  load_n m p (length (a ++ b)) = Some (a ++ b) <->
  load_n m p (length a) = Some a /\ load_n m (p + zlen a) (length b) = Some b.
Proof.
  revert p. induction a as [|x a IH]; intros p; simpl.
  - change (zlen []) with 0. rewrite Z.add_0_r. split; [done|by intros [_ ?]].
  - rewrite zlen_cons. replace (p + (zlen a + 1)) with (p + 1 + zlen a) by lia.
    destruct (load m p) as [y|]; [|by split; [|intros []]].
    destruct (load_n m (p + 1) (length (a ++ b))) eqn:E.
    + split.
      * intros [= -> ->]. apply IH in E as [-> ->]. done.
      * intros [H1 H2]. destruct (load_n m (p + 1) (length a)) eqn:E1; [|done].
        simplify_eq. specialize (IH (p + 1)). destruct IH as [_ IH].
        rewrite IH in E; [by simplify_eq|done].
    + split; [done|]. intros [H1 H2].
      destruct (load_n m (p + 1) (length a)) eqn:E1; [|done].
      simplify_eq. specialize (IH (p + 1)). destruct IH as [_ IH].
      rewrite IH in E; done.
Qed.

Lemma input_app e buf a b :
  input e buf (a ++ b) -> input e buf a /\ input e (advance buf (zlen a)) b.
Proof.
  intros [H1 H2 H3 H4 H5 H6]. apply Forall_app in H3 as [H3a H3b].
  apply load_n_app in H4 as [H4a H4b]. rewrite length_app in H5. rewrite zlen_app in *.
  pose proof (zlen_nonneg a). pose proof (zlen_nonneg b).
  split; split; simpl; try done; lia.
Qed.

Lemma input_nil e buf : 0 <= next buf -> next buf <= bound buf + 1 -> 0 <= code_limit -> input e buf [].
Proof. intros. split; simpl; try done; rewrite ?zlen_nil; lia || lia. Qed.

Lemma advance_advance buf m n : advance (advance buf m) n = advance buf (m + n).
Proof. destruct buf. unfold advance, set_next. simpl. f_equal. lia. Qed.

Lemma advance_0 buf : advance buf 0 = buf.
Proof. destruct buf. unfold advance, set_next. simpl. f_equal. lia. Qed.

Lemma remove_octet_ok e buf o rest :
  input e buf (o :: rest) -> asn1buf_remove_octet e buf = Ok (o, advance buf 1).
Proof.
  intros [H1 H2 H3 H4 H5 H6]. unfold asn1buf_remove_octet. rewrite zlen_cons in *.
  pose proof (zlen_nonneg rest). destruct (Z.ltb_spec (bound buf) (next buf)); [lia|].
  simpl in H4. destruct (load _ _); [|done]. destruct (load_n _ _ _); [|done].
  by simplify_eq.
Qed.

Lemma input_cons e buf o rest : input e buf (o :: rest) -> input e (advance buf 1) rest /\ is_octet o.
Proof.
  intros H. split; [|destruct H as [_ _ H _ _ _]; by inversion H].
  change (o :: rest) with ([o] ++ rest) in H. by apply input_app in H as [_ H].
Qed.

Lemma remove_octetstring_ok e buf s :
  input e buf s -> s <> [] ->
  asn1buf_remove_octetstring e (zlen s) buf = Ok (Some s, advance buf (zlen s)).
Proof.
  intros [H1 H2 H3 H4 H5 H6] Hs. unfold asn1buf_remove_octetstring.
  destruct (Z.ltb_spec (bound buf) (next buf + zlen s - 1)); [lia|].
  destruct (Z.eqb_spec (zlen s) 0) as [E|E]; [by apply zlen_0_nil in E|].
  unfold malloc, code_limit in *. pose proof (zlen_nonneg s).
  replace ((0 <=? zlen s) && (zlen s <=? malloc_limit)) with true by lia.
  unfold zlen in *. rewrite Nat2Z.id, H4. done.
Qed.

(** The contents of a string, and what the decoders return for it: NULL for the empty
    string. *)
Definition canon (s : list octet) : option (list octet) :=
  match s with [] => None | _ => Some s end.

Lemma remove_canon e buf s :
  input e buf s ->
  asn1buf_remove_octetstring e (zlen s) buf = Ok (canon s, advance buf (zlen s)).
Proof.
  intros H. destruct s as [|o s].
  - destruct H as [H1 H2 _ _ _ _]. unfold asn1buf_remove_octetstring.
    rewrite zlen_nil, advance_0 in *. destruct (Z.ltb_spec (bound buf) (next buf + 0 - 1)); [lia|].
    done.
  - by apply remove_octetstring_ok.
Qed.

(** ** Tags *)

Lemma get_length_octets_ok e buf bs n :
  input e buf bs ->
  get_length_octets (length bs) e n buf =
  Ok (foldl (fun len o => int32 (int32 (Z.shiftl len 8) + o)) n bs, advance buf (zlen bs)).
Proof.
  revert buf n. induction bs as [|o bs IH]; intros buf n H; simpl.
  - by rewrite zlen_nil, advance_0.
  - rewrite (remove_octet_ok e buf o bs H). simpl. apply input_cons in H as [H _].
    rewrite IH by done. rewrite advance_advance. do 3 f_equal. lens.
Qed.

Lemma int32_id z : -2147483648 <= z < 2147483648 -> int32 z = z.
Proof. intros. by apply to_int_id. Qed.

Lemma asn1_get_length_ok n e buf :
  0 <= n < 2147483648 -> input e buf (der_length n) ->
  asn1_get_length e buf = Ok ((n, 0), advance buf (zlen (der_length n))).
Proof.
  intros Hn H. unfold asn1_get_length.
  assert (Hstep : forall k o, 0 <= k * 256 + o < 2147483648 -> 0 <= o < 256 ->
     int32 (int32 (Z.shiftl k 8) + o) = k * 256 + o).
  { intros k o ? ?. rewrite shiftl_8, (int32_id (k * 256)) by lia. rewrite int32_id; lia. }
  destruct (der_length_cases n Hn) as [[? E]|Hc].
  { rewrite E in *. rewrite (remove_octet_ok e buf n [] H). simpl.
    replace (Z.land n 128 =? 0) with true; [by rewrite land_127, Z.mod_small by lia|].
    assert (Hq : forall o, 0 <= o < 256 -> (negb (o <? 128) || (Z.land o 128 =? 0))%bool = true)
      by (apply octet_case; by vm_compute).
    specialize (Hq n ltac:(lia)). symmetry. destruct (Z.ltb_spec n 128); [done|lia]. }
  assert (exists bs, der_length n = (128 + Z.of_nat (length bs)) :: bs /\ (length bs <= 4)%nat /\
     foldl (fun len o => int32 (int32 (Z.shiftl len 8) + o)) 0 bs = n /\ 128 <= n)
    as (bs & E & Hk & Hf & Hn').
  { destruct Hc as [[? ->]|[[? ->]|[[? ->]|[? ->]]]];
      match goal with |- exists _, _ :: ?l = _ /\ _ => exists l end;
      (split; [done|]); (split; [simpl; lia|]); cbn [foldl]; (split; [|lia]);
      repeat match goal with
      | |- context [int32 (int32 (Z.shiftl ?k 8) + ?o)] =>
          lazymatch k with
          | context [Z.shiftl] => fail
          | _ => rewrite (Hstep k o) by divlia
          end
      end; divlia. }
  rewrite E in *. rewrite (remove_octet_ok e buf _ bs H). cbn [obind].
  apply input_cons in H as [H _].
  replace (Z.land (128 + Z.of_nat (length bs)) 128 =? 0) with false
    by (destruct (length bs) as [|[|[|[|[|]]]]]; done || lia).
  replace (Z.land (128 + Z.of_nat (length bs)) 127) with (Z.of_nat (length bs))
    by (destruct (length bs) as [|[|[|[|[|]]]]]; done || lia).
  rewrite Nat2Z.id, get_length_octets_ok by done. cbn [obind]. rewrite Hf, advance_advance.
  replace (n =? 0) with false by lia. do 3 f_equal. lens.
Qed.

(** The tag of a value: it is consumed, and the contents stand next. *)
Lemma asn1_get_tag_indef_ok tv e buf id c rest :
  Z.land id 0x1F <> 0x1F -> input e buf (der_tlv id c ++ rest) ->
  asn1_get_tag_indef tv e buf =
    Ok (TagVars (Z.land id 0xC0) (Z.land id 0x20) (Z.land id 0x1F) (zlen c) 0,
        advance buf (zlen (header id (zlen c)))) /\
  input e (advance buf (zlen (header id (zlen c)))) (c ++ rest).
Proof.
  intros Hid H. rewrite der_tlv_header, <- app_assoc in H.
  pose proof H as [H1 H2 _ _ _ H6].
  apply input_app in H as [Hh Hc]. split; [|done].
  unfold asn1_get_tag_indef, asn1_get_id. rewrite !zlen_app, zlen_header in H2, H6.
  pose proof (zlen_nonneg c). pose proof (zlen_nonneg rest).
  pose proof (zlen_nonneg (der_length (zlen c))).
  destruct (Z.leb_spec (bound buf - next buf + 1) 0); [lia|].
  unfold header in Hh. rewrite (remove_octet_ok e buf _ _ Hh). cbn [obind].
  destruct (Z.eqb_spec (Z.land id 31) 31); [done|]. cbn [obind negb].
  apply input_cons in Hh as [Hh _].
  rewrite (asn1_get_length_ok (zlen c)) by (done || unfold code_limit in H6; lia).
  cbn [obind]. rewrite advance_advance, zlen_header. done.
Qed.

Lemma asn1_get_tag_ok tv e buf id c rest :
  Z.land id 0x1F <> 0x1F -> input e buf (der_tlv id c ++ rest) ->
  asn1_get_tag tv e buf =
    Ok (TagVars (Z.land id 0xC0) (Z.land id 0x20) (Z.land id 0x1F) (zlen c) (tv_indef tv),
        advance buf (zlen (header id (zlen c)))) /\
  input e (advance buf (zlen (header id (zlen c)))) (c ++ rest).
Proof.
  intros Hid H. destruct (asn1_get_tag_indef_ok tv e buf id c rest Hid H) as [E H'].
  split; [|done]. unfold asn1_get_tag. by rewrite E.
Qed.

Lemma input_no_rest e buf bs : input e buf bs -> input e buf (bs ++ []).
Proof. by rewrite app_nil_r. Qed.

Lemma advance_tlv buf id c :
  advance (advance buf (zlen (header id (zlen c)))) (zlen c) = advance buf (zlen (der_tlv id c)).
Proof. rewrite advance_advance, der_tlv_header, zlen_app. done. Qed.

(** A primitive value: the [tag] macro, then a decoder of the contents. *)
Lemma decodes_value {A} t c (dec : Z -> decoder A) v :
  0 <= t < 31 ->
  (forall e buf, input e buf c -> dec (zlen c) e buf = Ok (v, advance buf (zlen c))) ->
  decodes (fun e buf => let* '(length, buf) := tag t e buf in dec length e buf) (der_tlv t c) v.
Proof.
  intros Ht Hd. split. intros e buf H. unfold tag.
  assert (Hq : forall o, 0 <= o < 256 -> (negb (o <? 31) || ((Z.land o 0xC0 =? UNIVERSAL) &&
    (Z.land o 0x20 =? PRIMITIVE) && (Z.land o 0x1F =? o)))%bool = true)
    by (apply octet_case; by vm_compute).
  specialize (Hq t ltac:(lia)).
  destruct (asn1_get_tag_ok stack_junk e buf t c []) as [-> H']; [lia|by apply input_no_rest|].
  cbn [obind tv_class tv_construction tv_tagnum tv_taglen].
  assert (negb (Z.land t 192 =? UNIVERSAL) || negb (Z.land t 32 =? PRIMITIVE)
          || negb (Z.land t 31 =? t) = false) as -> by lia.
  cbn [obind]. rewrite app_nil_r in H'. rewrite Hd by done. by rewrite advance_tlv.
Qed.

(** ** Structures

    [fields_at e E s fs]: the state [s] of a structure's decoder whose sub-buffer ends
    at [E] stands at the fields [fs], the tag of the first of them already read. *)
Definition fields_at (e : denv) (E : Z) (s : sstate) (fs : list field) : Prop :=
  bound s.1 = E /\
  Forall (fun f : field => 0 <= f.1 < 31) fs /\
  match fs with
  | [] =>
      bound s.1 < next s.1 /\ tv_tagnum s.2 = ASN1_TAGNUM_CEILING /\
      tv_class s.2 = CONTEXT_SPECIFIC /\ tv_construction s.2 = CONSTRUCTED
  | (t, c) :: rest =>
      s.2 = TagVars CONTEXT_SPECIFIC CONSTRUCTED t (zlen c) 0 /\
      input e s.1 (c ++ flat rest) /\ next s.1 + zlen (c ++ flat rest) = E + 1
  end.

(** The decoder of the remaining fields returns [v]. *)
Definition returns {A} (E : Z) (r : outcome error_code (A * sstate)) (v : A) : Prop :=
  exists s, r = Ok (v, s) /\ bound s.1 = E.

Lemma field_tag t : 0 <= t < 31 ->
  Z.land (0xA0 + t) 0xC0 = CONTEXT_SPECIFIC /\ Z.land (0xA0 + t) 0x20 = CONSTRUCTED /\
  Z.land (0xA0 + t) 0x1F = t.
Proof.
  intros Ht. assert (Hq : forall o, 0 <= o < 256 -> (negb (o <? 31) ||
    ((Z.land (0xA0 + o) 0xC0 =? CONTEXT_SPECIFIC) &&
    (Z.land (0xA0 + o) 0x20 =? CONSTRUCTED) && (Z.land (0xA0 + o) 0x1F =? o)))%bool = true)
    by (apply octet_case; by vm_compute).
  specialize (Hq t ltac:(lia)). lia.
Qed.

Lemma next_tag_ok e E buf tv fs :
  bound buf = E -> next buf + zlen (flat fs) = E + 1 -> input e buf (flat fs) ->
  Forall (fun f : field => 0 <= f.1 < 31) fs ->
  fs <> [] \/ (tv_class tv = CONTEXT_SPECIFIC /\ tv_construction tv = CONSTRUCTED) ->
  exists s, next_tag e (buf, tv) = Ok s /\ fields_at e E s fs.
Proof.
  intros HE Hn H Hf Hc. unfold next_tag. destruct fs as [|[t c] rest].
  - destruct Hc as [?|[Hc1 Hc2]]; [done|]. unfold asn1_get_tag_indef.
    change (zlen (flat [])) with 0 in Hn. destruct (Z.leb_spec (bound buf - next buf + 1) 0); [|lia].
    eexists; split; [done|]. repeat split; simpl; try done; lia.
  - change (flat ((t, c) :: rest)) with (der_tlv (0xA0 + t) c ++ flat rest) in *.
    assert (Ht : 0 <= t < 31) by (by inversion Hf).
    destruct (field_tag t Ht) as (E1 & E2 & E3).
    destruct (asn1_get_tag_indef_ok tv e buf (0xA0 + t) c (flat rest)) as [-> H'];
      [lia|done|]. rewrite E1, E2, E3. cbn [obind].
    eexists; split; [done|]. split; [done|]. split; [done|]. split; [done|]. split; [done|].
    rewrite der_tlv_header in Hn. simpl fst. unfold advance. simpl next. lens.
Qed.

(** Moving over the contents of a field to the next one. *)
Lemma next_field_ok e E buf t c rest :
  fields_at e E (buf, TagVars CONTEXT_SPECIFIC CONSTRUCTED t (zlen c) 0) ((t, c) :: rest) ->
  exists s, next_tag e (advance buf (zlen c), TagVars CONTEXT_SPECIFIC CONSTRUCTED t (zlen c) 0)
    = Ok s /\ fields_at e E s rest.
Proof.
  intros (HE & Hf & _ & H & Hn). simpl in *. apply input_app in H as [_ H].
  apply next_tag_ok; [done|unfold advance; simpl; lens|done|by inversion Hf|by right].
Qed.

Lemma get_field_body_ok {A} (dec : decoder A) e E s t c rest v :
  fields_at e E s ((t, c) :: rest) -> decodes dec c v ->
  exists s', get_field_body dec e s = Ok (v, s') /\ fields_at e E s' rest.
Proof.
  intros H Hd. destruct s as [buf tv]. pose proof H as (_ & _ & Htv & Hi & _).
  simpl in Htv, Hi. subst tv.
  apply input_app in Hi as [Hi _]. unfold get_field_body. rewrite (Hd e buf Hi).
  cbn [obind tv_taglen tv_indef]. rewrite andb_false_r. cbn [obind].
  destruct (next_field_ok _ _ _ _ _ _ H) as (s' & -> & H'). eexists; done.
Qed.

Lemma t_get_field_body_ok {A} (dec : decoder A) e E s t c rest v :
  fields_at e E s ((t, c) :: rest) -> decodes dec c v ->
  exists s', t_get_field_body dec e s = Ok (v, s') /\ fields_at e E s' rest.
Proof.
  intros H Hd. destruct s as [buf tv]. pose proof H as (_ & _ & Htv & Hi & _).
  simpl in Htv, Hi. subst tv.
  apply input_app in Hi as [Hi _]. unfold t_get_field_body. rewrite (Hd e buf Hi).
  cbn [obind tv_taglen tv_indef]. simpl negb. cbn iota. cbn [obind].
  destruct (next_field_ok _ _ _ _ _ _ H) as (s' & -> & H'). eexists; done.
Qed.

(** What the tests on the next tag see. *)
Lemma fields_at_tag e E s t c rest :
  fields_at e E s ((t, c) :: rest) ->
  tv_tagnum s.2 = t /\ bad_field_id s.2 = false /\ t_bad_field_id s.2 = false.
Proof. by intros (_ & _ & -> & _). Qed.

Lemma fields_at_above e E s t fs :
  fields_at e E s fs -> t < 31 -> Forall (fun f : field => t < f.1) fs ->
  t < tv_tagnum s.2 /\ bad_field_id s.2 = false /\ t_bad_field_id s.2 = false.
Proof.
  intros H Ht Hf. destruct fs as [|[u c] rest].
  - destruct H as (_ & _ & _ & E1 & E2 & E3).
    unfold bad_field_id, t_bad_field_id. rewrite E1, E2, E3. unfold ASN1_TAGNUM_CEILING. by split; [lia|].
  - apply fields_at_tag in H as (-> & -> & ->). by inversion Hf.
Qed.

(** *** The rules *)

Lemma get_field_step {A B} t (dec : decoder A) e E s c rest x (k : A * sstate -> _) (v : B) :
  fields_at e E s (fld t c ++ rest) -> decodes dec c x ->
  (forall s', fields_at e E s' rest -> returns E (k (x, s')) v) ->
  returns E (obind (get_field t dec e s) k) v.
Proof.
  intros H Hd Hk. change (fld t c ++ rest) with ((t, c) :: rest) in H.
  destruct (fields_at_tag _ _ _ _ _ _ H) as (Et & Eb & _). unfold get_field. cbv zeta.
  rewrite Et, Eb, Z.ltb_irrefl.
  destruct (get_field_body_ok dec e E s t c rest x H Hd) as (s' & -> & H'). by apply Hk.
Qed.

Lemma t_get_field_step {A B} t (dec : decoder A) e E s c rest x (k : A * sstate -> _) (v : B) :
  fields_at e E s (fld t c ++ rest) -> decodes dec c x ->
  (forall s', fields_at e E s' rest -> returns E (k (x, s')) v) ->
  returns E (obind (t_get_field t dec e s) k) v.
Proof.
  intros H Hd Hk. change (fld t c ++ rest) with ((t, c) :: rest) in H.
  destruct (fields_at_tag _ _ _ _ _ _ H) as (Et & _ & Eb). unfold t_get_field. cbv zeta.
  rewrite Et, Eb, Z.ltb_irrefl.
  destruct (t_get_field_body_ok dec e E s t c rest x H Hd) as (s' & -> & H'). by apply Hk.
Qed.

(** Optional fields: the value of the field when it is there, the default otherwise. *)
Lemma opt_field_step {A B} (b : bool) t (dec : decoder A) opt e E s c rest x
    (k : A * sstate -> _) (v : B) :
  fields_at e E s (opt_fld b t c ++ rest) -> t < 31 -> Forall (fun f : field => t < f.1) rest ->
  (b = true -> decodes dec c x) ->
  (forall s', fields_at e E s' rest -> returns E (k (if b then x else opt, s')) v) ->
  returns E (obind (opt_field t dec opt e s) k) v.
Proof.
  intros H Ht Hr Hd Hk. unfold opt_field. cbv zeta. destruct b.
  - change (opt_fld true t c ++ rest) with ((t, c) :: rest) in H.
    destruct (fields_at_tag _ _ _ _ _ _ H) as (Et & -> & _). rewrite Et, Z.eqb_refl.
    destruct (get_field_body_ok dec e E s t c rest x H (Hd eq_refl)) as (s' & -> & H').
    by apply Hk.
  - destruct (fields_at_above _ _ _ t _ H Ht Hr) as (Et & -> & _).
    destruct (Z.eqb_spec (tv_tagnum s.2) t); [lia|]. by apply Hk.
Qed.

Lemma t_opt_field_step {A B} (b : bool) t (dec : decoder A) zero e E s c rest x
    (k : A * sstate -> _) (v : B) :
  fields_at e E s (opt_fld b t c ++ rest) -> t < 31 -> Forall (fun f : field => t < f.1) rest ->
  (b = true -> decodes dec c x) ->
  (forall s', fields_at e E s' rest -> returns E (k (if b then x else zero, s')) v) ->
  returns E (obind (t_opt_field t dec zero e s) k) v.
Proof.
  intros H Ht Hr Hd Hk. unfold t_opt_field. cbv zeta. destruct b.
  - change (opt_fld true t c ++ rest) with ((t, c) :: rest) in H.
    destruct (fields_at_tag _ _ _ _ _ _ H) as (Et & _ & ->). rewrite Et, Z.eqb_refl.
    destruct (t_get_field_body_ok dec e E s t c rest x H (Hd eq_refl)) as (s' & -> & H').
    by apply Hk.
  - destruct (fields_at_above _ _ _ t _ H Ht Hr) as (Et & _ & ->).
    destruct (Z.eqb_spec (tv_tagnum s.2) t); [lia|]. by apply Hk.
Qed.

Lemma t_if_field_step {A B} (b : bool) t (dec : decoder A) e E s c rest x
    (k : option A * sstate -> _) (v : B) :
  fields_at e E s (opt_fld b t c ++ rest) -> t < 31 -> Forall (fun f : field => t < f.1) rest ->
  (b = true -> decodes dec c x) ->
  (forall s', fields_at e E s' rest -> returns E (k (if b then Some x else None, s')) v) ->
  returns E (obind (t_if_field t dec e s) k) v.
Proof.
  intros H Ht Hr Hd Hk. unfold t_if_field. destruct b.
  - change (opt_fld true t c ++ rest) with ((t, c) :: rest) in H.
    destruct (fields_at_tag _ _ _ _ _ _ H) as (Et & _ & Eb). unfold t_get_field. cbv zeta.
    rewrite Et, Eb, Z.eqb_refl, Z.ltb_irrefl.
    destruct (t_get_field_body_ok dec e E s t c rest x H (Hd eq_refl)) as (s' & -> & H').
    by apply Hk.
  - destruct (fields_at_above _ _ _ t _ H Ht Hr) as (Et & _ & _).
    destruct (Z.eqb_spec (tv_tagnum s.2) t); [lia|]. by apply Hk.
Qed.

(** The value of a present optional field allocated by its reader. *)
Lemma decodes_some {A} (dec : decoder A) c x :
  decodes dec c x ->
  decodes (fun e buf => let* '(v, buf) := dec e buf in Ok (Some v, buf)) c (Some x).
Proof. intros H. split. intros e buf Hi. by rewrite (H e buf Hi). Qed.

Lemma t_opt_alloc_step {A B} (b : bool) t (dec : decoder A) e E s c rest x
    (k : option A * sstate -> _) (v : B) :
  fields_at e E s (opt_fld b t c ++ rest) -> t < 31 -> Forall (fun f : field => t < f.1) rest ->
  (b = true -> decodes dec c x) ->
  (forall s', fields_at e E s' rest -> returns E (k (if b then Some x else None, s')) v) ->
  returns E (obind (t_opt_alloc_field t dec e s) k) v.
Proof.
  intros H Ht Hr Hd Hk. unfold t_opt_alloc_field.
  eapply (t_opt_field_step b _ _ _ _ _ _ _ _ (Some x)); [done..| |done].
  intros Hb. by apply decodes_some, Hd.
Qed.

(** Optional fields that are absent. *)
Lemma opt_field_skip {A B} t (dec : decoder A) opt e E s fs (k : A * sstate -> _) (v : B) :
  fields_at e E s fs -> t < 31 -> Forall (fun f : field => t < f.1) fs ->
  returns E (k (opt, s)) v -> returns E (obind (opt_field t dec opt e s) k) v.
Proof.
  intros H Ht Hr Hk. unfold opt_field. cbv zeta.
  destruct (fields_at_above _ _ _ t _ H Ht Hr) as (Et & -> & _).
  by destruct (Z.eqb_spec (tv_tagnum s.2) t); [lia|].
Qed.

Lemma t_opt_field_skip {A B} t (dec : decoder A) zero e E s fs (k : A * sstate -> _) (v : B) :
  fields_at e E s fs -> t < 31 -> Forall (fun f : field => t < f.1) fs ->
  returns E (k (zero, s)) v -> returns E (obind (t_opt_field t dec zero e s) k) v.
Proof.
  intros H Ht Hr Hk. unfold t_opt_field. cbv zeta.
  destruct (fields_at_above _ _ _ t _ H Ht Hr) as (Et & _ & ->).
  by destruct (Z.eqb_spec (tv_tagnum s.2) t); [lia|].
Qed.

Lemma t_if_field_skip {A B} t (dec : decoder A) e E s fs (k : option A * sstate -> _) (v : B) :
  fields_at e E s fs -> t < 31 -> Forall (fun f : field => t < f.1) fs ->
  returns E (k (None, s)) v -> returns E (obind (t_if_field t dec e s) k) v.
Proof.
  intros H Ht Hr Hk. unfold t_if_field.
  destruct (fields_at_above _ _ _ t _ H Ht Hr) as (Et & _ & _).
  by destruct (Z.eqb_spec (tv_tagnum s.2) t); [lia|].
Qed.

Lemma t_opt_alloc_skip {A B} t (dec : decoder A) e E s fs (k : option A * sstate -> _) (v : B) :
  fields_at e E s fs -> t < 31 -> Forall (fun f : field => t < f.1) fs ->
  returns E (k (None, s)) v -> returns E (obind (t_opt_alloc_field t dec e s) k) v.
Proof. apply t_opt_field_skip. Qed.

Lemma tag_test_skip {A B} t (m : outcome error_code (A * sstate)) opt e E s fs
    (k : A * sstate -> _) (v : B) :
  fields_at e E s fs -> t < 31 -> Forall (fun f : field => t < f.1) fs ->
  returns E (k (opt, s)) v ->
  returns E (obind (if tv_tagnum s.2 =? t then m else Ok (opt, s)) k) v.
Proof.
  intros H Ht Hr Hk. destruct (fields_at_above _ _ _ t _ H Ht Hr) as (Et & _ & _).
  by destruct (Z.eqb_spec (tv_tagnum s.2) t); [lia|].
Qed.

(** The name of a principal, read through a pointer that is set. *)
Lemma opt_principal_ok t dec p e E s c rest x :
  fields_at e E s (fld t c ++ rest) -> decodes (dec p) c x ->
  exists s', opt_principal_field t dec (Some p) e s = Ok (Some x, s') /\ fields_at e E s' rest.
Proof.
  intros H Hd. unfold opt_principal_field, opt_field. cbv zeta.
  destruct (fields_at_tag _ _ _ _ _ _ H) as (Et & -> & _). rewrite Et, Z.eqb_refl.
  by apply (get_field_body_ok _ e E s t c rest _ H), decodes_some.
Qed.

Lemma opt_principal_step {B} t dec p e E s c rest x
    (k : option krb5_principal_data * sstate -> _) (v : B) :
  fields_at e E s (fld t c ++ rest) -> decodes (dec p) c x ->
  (forall s', fields_at e E s' rest -> returns E (k (Some x, s')) v) ->
  returns E (obind (opt_principal_field t dec (Some p) e s) k) v.
Proof.
  intros H Hd Hk. destruct (opt_principal_ok t dec p _ _ _ _ _ x H Hd) as (s' & -> & H').
  by apply Hk.
Qed.

Lemma opt_principal_skip {B} t dec p e E s fs
    (k : option krb5_principal_data * sstate -> _) (v : B) :
  fields_at e E s fs -> t < 31 -> Forall (fun f : field => t < f.1) fs ->
  returns E (k (None, s)) v -> returns E (obind (opt_principal_field t dec p e s) k) v.
Proof. apply opt_field_skip. Qed.

(** The size of a field that stands next. *)
Lemma fields_at_limit e E s t c rest :
  fields_at e E s (fld t c ++ rest) -> zlen c <= code_limit.
Proof. intros (_ & _ & _ & [_ _ _ _ _ H] & _). lens. Qed.

(** Reading a field after a test of the next tag number. *)
Lemma tag_test_step {A B} (b : bool) t (m : outcome error_code (A * sstate)) opt e E s c rest x
    (k : A * sstate -> _) (v : B) :
  fields_at e E s (opt_fld b t c ++ rest) -> t < 31 -> Forall (fun f : field => t < f.1) rest ->
  (b = true -> fields_at e E s (fld t c ++ rest) ->
     exists s', m = Ok (x, s') /\ fields_at e E s' rest) ->
  (forall s', fields_at e E s' rest -> returns E (k (if b then x else opt, s')) v) ->
  returns E (obind (if tv_tagnum s.2 =? t then m else Ok (opt, s)) k) v.
Proof.
  intros H Ht Hr Hm Hk. destruct b.
  - destruct (fields_at_tag _ _ _ _ _ _ H) as (Et & _ & _). rewrite Et, Z.eqb_refl.
    destruct (Hm eq_refl H) as (s' & -> & H'). by apply Hk.
  - destruct (fields_at_above _ _ _ t _ H Ht Hr) as (Et & _ & _).
    destruct (Z.eqb_spec (tv_tagnum s.2) t); [lia|]. by apply Hk.
Qed.

Lemma get_field_ok {A} t (dec : decoder A) e E s c rest x :
  fields_at e E s (fld t c ++ rest) -> decodes dec c x ->
  exists s', get_field t dec e s = Ok (x, s') /\ fields_at e E s' rest.
Proof.
  intros H Hd. destruct (fields_at_tag _ _ _ _ _ _ H) as (Et & Eb & _).
  unfold get_field. cbv zeta. rewrite Et, Eb, Z.ltb_irrefl.
  by apply (get_field_body_ok dec e E s t c).
Qed.

Lemma if_alloc_step {A B} (b : bool) t (dec : decoder A) e E s c rest x
    (k : option A * sstate -> _) (v : B) :
  fields_at e E s (opt_fld b t c ++ rest) -> t < 31 -> Forall (fun f : field => t < f.1) rest ->
  (b = true -> decodes dec c x) ->
  (forall s', fields_at e E s' rest -> returns E (k (if b then Some x else None, s')) v) ->
  returns E (obind (if tv_tagnum s.2 =? t
                    then let* '(r, s) := get_field t dec e s in Ok (Some r, s)
                    else Ok (None, s)) k) v.
Proof.
  intros H Ht Hr Hd Hk. eapply (tag_test_step b _ _ _ _ _ _ _ _ (Some x)); [done..| |done].
  intros Hb Hf. destruct (get_field_ok t dec _ _ _ _ _ x Hf (Hd Hb)) as (s' & -> & Hs'). eauto.
Qed.

Lemma opt_string_step {B} (b : bool) t dec e E s c rest len data
    (k : krb5_data * sstate -> _) (v : B) :
  fields_at e E s (opt_fld b t c ++ rest) -> t < 31 -> Forall (fun f : field => t < f.1) rest ->
  (b = true -> decodes dec c (len, data)) ->
  (forall s', fields_at e E s' rest ->
     returns E (k (if b then Data len data else Data 0 None, s')) v) ->
  returns E (obind (opt_string t dec e s) k) v.
Proof.
  intros H Ht Hr Hd Hk. unfold opt_string, opt_lenfield. destruct b.
  - destruct (fields_at_tag _ _ _ _ _ _ H) as (Et & _ & _). rewrite Et, Z.eqb_refl.
    destruct (get_field_body_ok dec e E s t c rest _ H (Hd eq_refl)) as (s' & -> & H').
    by apply Hk.
  - destruct (fields_at_above _ _ _ t _ H Ht Hr) as (Et & _ & _).
    destruct (Z.eqb_spec (tv_tagnum s.2) t); [lia|]. by apply Hk.
Qed.

(** *** Whole structures *)

(** The header of a SEQUENCE and the sub-buffer of its contents. *)
Lemma sequence_ok e buf c :
  input e buf (der_tlv 0x30 c) ->
  let buf' := advance buf (zlen (header 0x30 (zlen c))) in
  let sub := Asn1Buf (next buf') (next buf' + zlen c - 1) (next buf') in
  asn1_get_sequence e buf = Ok ((zlen c, 0), buf') /\
  asn1buf_imbed buf' (zlen c) 0 = Ok sub /\ input e sub c.
Proof.
  intros H. cbv zeta.
  destruct (asn1_get_tag_indef_ok stack_junk e buf 0x30 c []) as [E H'];
    [done|by apply input_no_rest|]. rewrite app_nil_r in H'.
  unfold asn1_get_sequence. rewrite E. split; [done|].
  set (b := advance buf _) in *. destruct H' as [H1 H2 H3 H4 H5 H6]. split.
  - unfold asn1buf_imbed. rewrite Z.eqb_refl. cbv zeta.
    destruct (Z.ltb_spec (bound b) (next b + zlen c - 1)); [lia|reflexivity].
  - split; simpl; try done. lia.
Qed.

Lemma sub_end buf c :
  set_next (advance buf (zlen (header 0x30 (zlen c))))
    (next (advance buf (zlen (header 0x30 (zlen c)))) + zlen c - 1 + 1) =
  advance buf (zlen (der_tlv 0x30 c)).
Proof.
  rewrite der_tlv_header. unfold advance, set_next. cbn [next base bound]. f_equal. lens.
Qed.

Lemma begin_structure_ok e buf fs :
  fs <> [] -> Forall (fun f : field => 0 <= f.1 < 31) fs -> input e buf (der_seq fs) ->
  let buf' := advance buf (zlen (header 0x30 (zlen (flat fs)))) in
  exists s, begin_structure e buf = Ok (zlen (flat fs), 0, buf', s) /\
    fields_at e (next buf' + zlen (flat fs) - 1) s fs.
Proof.
  intros Hne Hf H. cbv zeta. destruct (sequence_ok e buf (flat fs) H) as (E1 & E2 & Hs).
  cbv zeta in *. unfold begin_structure. rewrite E1. cbn [obind]. rewrite E2. cbn [obind].
  edestruct (fun Hn => next_tag_ok e _ _ stack_junk fs eq_refl Hn Hs Hf (or_introl Hne))
    as (s & -> & Hs'); [simpl; lia|].
  exists s. split; [done|]. done.
Qed.

Lemma structure_ok {A} fields fs (v : A) :
  fs <> [] -> Forall (fun f : field => 0 <= f.1 < 31) fs ->
  (forall e E s, fields_at e E s fs -> returns E (fields e s) v) ->
  decodes (structure fields) (der_seq fs) v.
Proof.
  intros Hne Hf Hk. split. intros e buf H. unfold structure.
  destruct (begin_structure_ok e buf fs) as (s & -> & Hs); [done..|]. cbn [obind].
  destruct (Hk _ _ _ Hs) as ([sub tv] & -> & E). simpl in E. cbn [obind].
  unfold end_structure, asn1buf_sync. simpl (0 =? 0). cbn [obind].
  rewrite E, sub_end. done.
Qed.

(** *** Arrays *)

Lemma remains_definite e buf : asn1buf_remains e 0 buf = Ok (bound buf - next buf + 1).
Proof. unfold asn1buf_remains. simpl. by destruct (_ <=? 0). Qed.

Lemma decode_elements_ok {A} fuel (dec : decoder A) (der : A -> list octet) e xs ys buf :
  Forall (fun x => decodes dec (der x) x /\ der x <> []) xs ->
  input e buf (mjoin (der <$> xs)) -> next buf + zlen (mjoin (der <$> xs)) = bound buf + 1 ->
  (length (mjoin (der <$> xs)) <= fuel)%nat ->
  decode_elements fuel dec e 0 ys buf =
  Ok (reverse ys ++ xs, advance buf (zlen (mjoin (der <$> xs)))).
Proof.
  revert fuel ys buf. induction xs as [|x xs IH]; intros fuel ys buf Hx H Hn Hf.
  - destruct fuel; simpl; rewrite remains_definite; simpl in *; rewrite app_nil_r;
      change (zlen []) with 0 in *; replace (bound buf - next buf + 1 <=? 0) with true by lia;
      by rewrite advance_0.
  - inversion Hx as [|? ? [Hd Hne] Hxs]; subst. clear Hx.
    change (mjoin (der <$> x :: xs)) with (der x ++ mjoin (der <$> xs)) in *.
    rewrite length_app in Hf. rewrite zlen_app in *.
    assert (0 < zlen (der x)).
    { destruct (der x) eqn:E; [done|]. rewrite zlen_cons. pose proof (zlen_nonneg l). lia. }
    pose proof (zlen_nonneg (mjoin (der <$> xs))).
    destruct fuel as [|fuel]; [unfold zlen in *; lia|].
    simpl. rewrite remains_definite. cbn [obind].
    replace (bound buf - next buf + 1 <=? 0) with false by lia.
    apply input_app in H as [Ha Hb]. rewrite (Hd e buf Ha). cbn [obind].
    rewrite IH; [|done|done|unfold advance; simpl; lia|unfold zlen in *; lia].
    rewrite advance_advance, reverse_cons, <- app_assoc. done.
Qed.

Lemma end_sequence_definite e buf sub length :
  bound sub - next sub + 1 <= 0 ->
  end_sequence_of e buf sub length 0 = Ok (set_next buf (bound sub + 1)) /\
  end_sequence_of_no_tagvars e buf sub 0 = Ok (set_next buf (bound sub + 1)).
Proof.
  intros H. unfold end_sequence_of, end_sequence_of_no_tagvars, asn1_get_tag_indef.
  destruct (Z.leb_spec (bound sub - next sub + 1) 0); [done|lia].
Qed.

(** The common course of the array decoders. *)
Lemma array_ok {A} (dec : decoder A) (der : A -> list octet) e buf xs :
  Forall (fun x => decodes dec (der x) x /\ der x <> []) xs ->
  input e buf (der_seqof (der <$> xs)) ->
  exists length buf' sub sub',
    sequence_of_common e buf = Ok (length, 0, buf', sub) /\
    decode_elements (de_fuel e) dec e 0 [] sub = Ok (xs, sub') /\
    end_sequence_of e buf' sub' length 0 = Ok (advance buf (zlen (der_seqof (der <$> xs)))) /\
    end_sequence_of_no_tagvars e buf' sub' 0 = Ok (advance buf (zlen (der_seqof (der <$> xs)))).
Proof.
  intros Hx H. destruct (sequence_ok e buf _ H) as (E1 & E2 & Hs). cbv zeta in *.
  eexists _, _, _, _. unfold sequence_of_common. rewrite E1. cbn [obind]. rewrite E2.
  split; [done|]. split.
  { apply (decode_elements_ok _ dec der e xs []); [done|done|simpl; lia|].
    destruct Hs as [_ _ _ _ Hs _]. done. }
  edestruct end_sequence_definite as [E3 E4]; [|rewrite E3, E4].
  { unfold advance. simpl. lia. }
  simpl bound. by rewrite sub_end.
Qed.

Lemma decode_array_ok {A} (dec : decoder A) (der : A -> list octet) xs :
  Forall (fun x => decodes dec (der x) x /\ der x <> []) xs ->
  decodes (decode_array_body dec) (der_seqof (der <$> xs)) (Some xs).
Proof.
  intros Hx. split. intros e buf H. unfold decode_array_body.
  destruct (array_ok dec der e buf xs Hx H) as (l & b & sub & sub' & -> & E2 & E3 & _).
  cbn [obind]. rewrite E2. cbn [obind]. by rewrite E3.
Qed.

(** *** Application tags *)

Lemma app_tag t : 0 <= t < 31 ->
  Z.land (0x60 + t) 0xC0 = APPLICATION /\ Z.land (0x60 + t) 0x20 = CONSTRUCTED /\
  Z.land (0x60 + t) 0x1F = t.
Proof.
  intros Ht. assert (Hq : forall o, 0 <= o < 256 -> (negb (o <? 31) ||
    ((Z.land (0x60 + o) 0xC0 =? APPLICATION) &&
    (Z.land (0x60 + o) 0x20 =? CONSTRUCTED) && (Z.land (0x60 + o) 0x1F =? o)))%bool = true)
    by (apply octet_case; by vm_compute).
  specialize (Hq t ltac:(lia)). lia.
Qed.

Lemma check_apptag_ok {A} t (dec : decoder A) c v :
  0 <= t < 31 -> decodes dec c v ->
  decodes (fun e buf => let* '(_, buf) := check_apptag t e buf in dec e buf) (der_app t c) v.
Proof.
  intros Ht Hd. split. intros e buf H. unfold check_apptag. destruct (app_tag t Ht) as (E1 & E2 & E3).
  destruct (asn1_get_tag_ok stack_junk e buf (0x60 + t) c []) as [-> H'];
    [lia|by apply input_no_rest|].
  rewrite E1, E2, E3, app_nil_r in *. cbn. rewrite Z.eqb_refl. cbn.
  rewrite (Hd _ _ H'). by rewrite advance_tlv.
Qed.

End Read.
