(* ===== verification/CodecPrim.v ===== *)
(** * The primitive types meet their contracts

    INTEGER, OCTET STRING, GeneralString, 32-bit flags and KerberosTime: each encoder
    writes the DER octets of its value, each decoder reads the value back. *)

From S2P Require Import Prelude Asn1Buf Asn1Tag GmTime Asn1Prim Krb5Types Asn1KEncode Asn1KDecode Der Codec CodecRead.

Section Prim.
Context `{P : Platform}.

(** ** Integers *)

Lemma int_octets_grow fuel n acc : zlen acc <= zlen (int_octets fuel n acc).
Proof.
  revert n acc. induction fuel as [|f IH]; intros n acc; simpl; [lia|].
  destruct (_ && _); [lens|]. specialize (IH (n / 256) (n mod 256 :: acc)). lens.
Qed.

Lemma int_octets_octets fuel n acc : octets acc -> octets (int_octets fuel n acc).
Proof.
  revert n acc. induction fuel as [|f IH]; intros n acc H; simpl; [done|].
  pose proof (octet_mod n). destruct (_ && _); [by constructor|]. apply IH. by constructor.
Qed.

(** The number of octets of an integer below 128 * 256^k in absolute value. *)
Lemma int_octets_length k fuel n acc :
  (k < fuel)%nat -> - (128 * 256 ^ Z.of_nat k) <= n < 128 * 256 ^ Z.of_nat k ->
  zlen (int_octets fuel n acc) <= zlen acc + Z.of_nat k + 1.
Proof.
  revert fuel n acc. induction k as [|k IH]; intros [|fuel] n acc Hf Hn; try lia; simpl.
  - change (256 ^ Z.of_nat 0) with 1 in Hn. replace (_ && _) with true by lia. lens.
  - destruct (_ && _); [lens|].
    rewrite Nat2Z.inj_succ, Z.pow_succ_r in Hn by lia.
    specialize (IH fuel (n / 256) (n mod 256 :: acc)). rewrite zlen_cons in IH.
    specialize (IH ltac:(lia) ltac:(divlia)). lia.
Qed.

(** The loop stops at a value [w] whose low octet is the last one written; the sign
    padding the encoder adds behind the loop completes the shortest form. *)
Lemma encode_integer_loop_ok fuel n k acc code buf :
  let final := int_octets (S fuel) n acc in
  (0 < fuel)%nat -> - 256 ^ Z.of_nat fuel <= n < 256 ^ Z.of_nat fuel ->
  cb_rep buf (acc ++ code) -> room code final ->
  exists buf' acc' w,
    encode_integer_loop fuel n k buf = Ok (buf', k + zlen acc' - zlen acc, w mod 256) /\
    cb_rep buf' (acc' ++ code) /\ -256 <= w < 256 /\ (n < 0 <-> w < 0) /\ (n = 0 -> w = 0) /\
    final = (if (-128 <=? w) && (w <? 128) then acc' else (w / 256) mod 256 :: acc').
Proof.
  cbv zeta. revert n k acc buf. induction fuel as [|f IH]; intros n k acc buf H0 Hn Hr Hroom; [lia|].
  rewrite Nat2Z.inj_succ, Z.pow_succ_r in Hn by lia.
  cbn [encode_integer_loop]. cbv zeta. rewrite land_255, shiftr_8.
  pose proof (int_octets_grow (S f) (n / 256) (n mod 256 :: acc)).
  assert (Hg : zlen acc + 1 <= zlen (int_octets (S (S f)) n acc)).
  { cbn [int_octets] in *. destruct (_ && _); lens. }
  destruct (insert_octet_ok buf (acc ++ code) (n mod 256)) as (b1 & -> & Hr1); [done| |].
  { apply room_app. eapply room_le; [done|lens]. }
  rewrite octet_of_id in Hr1 by divlia. cbn [obind].
  destruct (negb (n / 256 =? 0) && negb (n / 256 =? -1)) eqn:E.
  - assert (n < -256 \/ 256 <= n) by divlia.
    assert (Ef : int_octets (S (S f)) n acc = int_octets (S f) (n / 256) (n mod 256 :: acc)).
    { cbn [int_octets]. by replace ((-128 <=? n) && (n <? 128)) with false by lia. }
    rewrite Ef in *. destruct f as [|f]; [change (256 ^ Z.of_nat 0) with 1 in Hn; lia|].
    destruct (IH (n / 256) (k + 1) (n mod 256 :: acc) b1) as (b2 & acc' & w & -> & Hr2 & Hw & Hs & Hz & Hi);
      [lia|divlia|done|done|].
    exists b2, acc', w. split; [do 3 f_equal; lens|]. split; [done|]. split; [done|].
    split; [divlia|]. split; [lia|done].
  - exists b1, (n mod 256 :: acc), n. split; [do 3 f_equal; lens|]. split; [done|].
    split; [divlia|]. split; [done|]. split; [done|]. cbn [int_octets].
    destruct ((-128 <=? n) && (n <? 128)); [done|].
    by replace ((-128 <=? n / 256) && (n / 256 <? 128)) with true by divlia.
Qed.

Lemma int_octets_fuel f g n acc :
  (f <= g)%nat -> (0 < f)%nat -> - 128 * 256 ^ (Z.of_nat f - 1) <= n < 128 * 256 ^ (Z.of_nat f - 1) ->
  int_octets f n acc = int_octets g n acc.
Proof.
  revert g n acc. induction f as [|f IH]; intros [|g] n acc Hfg H0 Hn; try lia. simpl.
  destruct (_ && _) eqn:E; [done|]. destruct f as [|f].
  - change (256 ^ (Z.of_nat 1 - 1)) with 1 in Hn. lia.
  - apply IH; [lia|lia|].
    replace (Z.of_nat (S (S f)) - 1) with (Z.succ (Z.of_nat (S f) - 1)) in Hn by lia.
    rewrite Z.pow_succ_r in Hn by lia. divlia.
Qed.

Definition is_long (z : Z) : Prop := is_int (8 * sizeof_long) z.

Lemma long_range n : is_long n ->
  exists k, sizeof_long = Z.of_nat k + 1 /\ (3 <= k <= 7)%nat /\
    - (128 * 256 ^ Z.of_nat k) <= n < 128 * 256 ^ Z.of_nat k.
Proof.
  unfold is_long, is_int. destruct sizeof_long_ok as [-> | ->]; intros H.
  - exists 3%nat. simpl in *. lia.
  - exists 7%nat. simpl in *. lia.
Qed.

Lemma digit_sign w : -256 <= w < 256 ->
  (Z.land (w mod 256) 0x80 =? 0x80) = (if w <? 0 then -128 <=? w else 128 <=? w).
Proof.
  intros Hw. assert (Hq : forall o, 0 <= o < 256 -> Bool.eqb (Z.land o 0x80 =? 0x80) (128 <=? o) = true)
    by (apply octet_case; by vm_compute).
  specialize (Hq (w mod 256) ltac:(divlia)). apply Bool.eqb_prop in Hq. rewrite Hq.
  destruct (Z.ltb_spec w 0); apply eq_true_iff_eq; rewrite !Z.leb_le; divlia.
Qed.

(** What the loops write, with the padding: the octets of the number. *)
Lemma integer_contents n buf code :
  is_long n -> cb_rep buf code -> room code (int_octets 9 n []) ->
  exists b1 b2 len w,
    encode_integer_loop (Z.to_nat sizeof_long) n 0 buf = Ok (b1, len, w mod 256) /\
    -256 <= w < 256 /\ (n < 0 <-> w < 0) /\ (n = 0 -> w = 0) /\
    (if (-128 <=? w) && (w <? 128) then Ok (b1, len)
     else let* b := asn1buf_insert_octet b1 (if w <? 0 then 0xFF else 0) in Ok (b, len + 1))
    = Ok (b2, zlen (int_octets 9 n [])) /\
    cb_rep b2 (int_octets 9 n [] ++ code).
Proof.
  intros Hn Hr Hroom. destruct (long_range n Hn) as (k & Hs & Hk & Hnk).
  assert (Ef : int_octets (S (Z.to_nat sizeof_long)) n [] = int_octets 9 n []).
  { apply int_octets_fuel; [lia|lia|].
    replace (Z.of_nat (S (Z.to_nat sizeof_long)) - 1) with (Z.succ (Z.of_nat k)) by lia.
    rewrite Z.pow_succ_r by lia. lia. }
  destruct (encode_integer_loop_ok (Z.to_nat sizeof_long) n 0 [] code buf)
    as (b1 & acc & w & E & Hr1 & Hw & Hsg & Hz & Hi); [lia| |done|by rewrite Ef|].
  { replace (Z.of_nat (Z.to_nat sizeof_long)) with (Z.succ (Z.of_nat k)) by lia.
    rewrite Z.pow_succ_r by lia. lia. }
  rewrite Ef in Hi. change (zlen []) with 0 in E. rewrite Z.add_0_l, Z.sub_0_r in E.
  rewrite Hi in *. destruct ((-128 <=? w) && (w <? 128)) eqn:Eb.
  - exists b1, b1, (zlen acc), w. by rewrite Eb.
  - destruct (insert_octet_ok b1 (acc ++ code) (if w <? 0 then 255 else 0)) as (b2 & Eb2 & Hr2);
      [done| |].
    { apply room_app. eapply room_le; [done|lens]. }
    exists b1, b2, (zlen acc), w. rewrite Eb, Eb2. cbn [obind]. do 4 (split; [done|]).
    split; [do 2 f_equal; lens|].
    replace (w / 256 mod 256) with (octet_of (if w <? 0 then 255 else 0)); [done|].
    destruct (Z.ltb_spec w 0); [replace (w / 256) with (-1) by divlia|replace (w / 256) with 0 by divlia];
      done.
Qed.

Lemma enc_integer n : is_long n -> encodes (asn1_encode_integer n) (der_integer n).
Proof.
  intros Hn. eapply encodes_ext; [|apply (encodes_value (fun buf =>
      let* '(buf, length, digit) := encode_integer_loop (Z.to_nat sizeof_long) n 0 buf in
      if (0 <? n) && (Z.land digit 0x80 =? 0x80) then
        let* buf := asn1buf_insert_octet buf 0 in Ok (buf, length + 1)
      else if (n <? 0) && negb (Z.land digit 0x80 =? 0x80) then
        let* buf := asn1buf_insert_octet buf 0xFF in Ok (buf, length + 1)
      else Ok (buf, length)) UNIVERSAL PRIMITIVE ASN1_INTEGER)].
  - intros buf. unfold asn1_encode_integer. by destruct (encode_integer_loop _ _ _ _) as [[[] ?]| | |].
  - done.
  - done.
  - apply int_octets_octets. constructor.
  - intros buf code Hr Hroom.
    destruct (integer_contents n buf code Hn Hr Hroom) as (b1 & b2 & len & w & -> & Hw & Hs & Hz & E & Hr2).
    exists b2. split; [|done]. cbn [obind]. rewrite <- E, digit_sign by done.
    destruct (Z.ltb_spec w 0), (Z.ltb_spec 0 n), (Z.ltb_spec n 0); try lia; simpl andb.
    + destruct (Z.leb_spec (-128) w); simpl; [|done]. by replace (w <? 128) with true by lia.
    + destruct (Z.leb_spec 128 w); simpl.
      * replace (-128 <=? w) with true by lia. by replace (w <? 128) with false by lia.
      * replace (-128 <=? w) with true by lia. by replace (w <? 128) with true by lia.
    + rewrite Hz by lia. done.
Qed.

(** The unsigned loop agrees with the signed one on small numbers: the test for an all
    ones rest never succeeds. *)
Lemma unsigned_loop_eq fuel n k buf :
  0 <= n < 2 ^ (8 * sizeof_long) ->
  encode_unsigned_loop fuel n k buf = encode_integer_loop fuel n k buf.
Proof.
  revert n k buf. induction fuel as [|f IH]; intros n k buf Hn; [done|].
  cbn [encode_unsigned_loop encode_integer_loop]. cbv zeta.
  destruct (asn1buf_insert_octet _ _) as [b| | |]; try done. cbn [obind].
  rewrite shiftr_8, IH by divlia.
  replace (n / 256 =? to_uint (8 * sizeof_long) (-1)) with false.
  - by replace (n / 256 =? -1) with false by divlia.
  - symmetry. apply Z.eqb_neq. unfold to_uint.
    destruct sizeof_long_ok as [E|E]; rewrite E in *; vm_compute ((_ * _)%Z) in *; divlia.
Qed.

Lemma long_unsigned n : 0 <= n -> is_long n -> 0 <= n < 2 ^ (8 * sizeof_long).
Proof.
  intros H0 [_ H]. split; [done|].
  assert (2 ^ (8 * sizeof_long - 1) <= 2 ^ (8 * sizeof_long)); [|lia].
  apply Z.pow_le_mono_r; lia.
Qed.

Lemma enc_unsigned n :
  0 <= n -> is_long n -> encodes (asn1_encode_unsigned_integer n) (der_integer n).
Proof.
  intros H0 Hn. eapply encodes_ext; [|apply (encodes_value (fun buf =>
      let* '(buf, length, digit) := encode_unsigned_loop (Z.to_nat sizeof_long) n 0 buf in
      if negb (Z.land digit 0x80 =? 0) then
        let* buf := asn1buf_insert_octet buf 0 in Ok (buf, length + 1)
      else Ok (buf, length)) UNIVERSAL PRIMITIVE ASN1_INTEGER)].
  - intros buf. unfold asn1_encode_unsigned_integer.
    by destruct (encode_unsigned_loop _ _ _ _) as [[[] ?]| | |].
  - done.
  - done.
  - apply int_octets_octets. constructor.
  - intros buf code Hr Hroom.
    destruct (integer_contents n buf code Hn Hr Hroom) as (b1 & b2 & len & w & E1 & Hw & Hs & Hz & E & Hr2).
    exists b2. split; [|done]. rewrite unsigned_loop_eq, E1.
    2: { by apply long_unsigned. }
    cbn [obind]. rewrite <- E.
    assert (Hq : forall o, 0 <= o < 256 -> Bool.eqb (negb (Z.land o 0x80 =? 0)) (128 <=? o) = true)
      by (apply octet_case; by vm_compute).
    specialize (Hq (w mod 256) ltac:(divlia)). apply Bool.eqb_prop in Hq. rewrite Hq.
    rewrite (Z.mod_small w) by lia.
    replace (-128 <=? w) with true by lia. replace (w <? 0) with false by lia. simpl.
    destruct (Z.leb_spec 128 w);
      [by replace (w <? 128) with false by lia|by replace (w <? 128) with true by lia].
Qed.

(** *** Reading integers *)

Lemma long_shift n o :
  is_long (n * 256 + o) -> 0 <= o < 256 ->
  Z.lor (to_int (8 * sizeof_long) (Z.shiftl n 8)) o = n * 256 + o.
Proof.
  intros Hn Ho. rewrite shiftl_8, to_int_id, lor_256; [done|done| |].
  - unfold is_long, is_int in *. destruct sizeof_long_ok as [E|E]; rewrite E in *.
    + change (2 ^ (8 * 4 - 1)) with 2147483648 in *. lia.
    + change (2 ^ (8 * 8 - 1)) with 9223372036854775808 in *. lia.
  - destruct sizeof_long_ok as [E|E]; rewrite E; lia.
Qed.

Lemma long_div n : is_long n -> is_long (n / 256).
Proof.
  unfold is_long, is_int. destruct sizeof_long_ok as [-> | ->].
  - change (2 ^ (8 * 4 - 1)) with 2147483648. intros. divlia.
  - change (2 ^ (8 * 8 - 1)) with 9223372036854775808. intros. divlia.
Qed.

Lemma sign_octet n : -128 <= n < 128 ->
  (if negb (Z.land 0x80 (n mod 256) =? 0) then -1 else 0) = n / 256.
Proof.
  intros Hn. assert (Hq : forall o, 0 <= o < 256 -> Bool.eqb (negb (Z.land 0x80 o =? 0)) (128 <=? o) = true)
    by (apply octet_case; by vm_compute).
  specialize (Hq (n mod 256) ltac:(divlia)). apply Bool.eqb_prop in Hq. rewrite Hq.
  destruct (Z.leb_spec 128 (n mod 256)); divlia.
Qed.

(** After the octets of [n] the loop has the value [n] and goes on with what follows. *)
Lemma decode_integer_prefix fuel n acc e L buf :
  is_long n -> L <= sizeof_long -> (1 <= fuel)%nat ->
  - 128 * 256 ^ (Z.of_nat fuel - 1) <= n < 128 * 256 ^ (Z.of_nat fuel - 1) ->
  input e buf (int_octets fuel n acc) ->
  exists i buf', 0 < i /\ input e buf' acc /\
    advance buf' (zlen acc) = advance buf (zlen (int_octets fuel n acc)) /\
    decode_integer_loop (length (int_octets fuel n acc)) e L 0 0 buf =
    decode_integer_loop (length acc) e L i n buf'.
Proof.
  revert n acc buf. induction fuel as [|f IH]; intros n acc buf Hn HL H0 Hr H; [lia|].
  cbn [int_octets] in *. destruct (_ && _) eqn:E.
  - exists 1, (advance buf 1). split; [lia|].
    pose proof (remove_octet_ok _ _ _ _ H) as Ho. apply input_cons in H as [H _].
    split; [done|]. split; [rewrite advance_advance; f_equal; lens|].
    cbn [length decode_integer_loop]. rewrite Ho. cbn [obind].
    rewrite Z.eqb_refl, sign_octet by lia.
    replace (sizeof_long <? L) with false by lia. replace (sizeof_long + 1 <? L) with false by lia.
    rewrite andb_false_r. cbn [obind]. rewrite long_shift; [|replace (n / 256 * 256 + n mod 256) with n by divlia; done|divlia].
    by replace (n / 256 * 256 + n mod 256) with n by divlia.
  - destruct f as [|f]; [change (256 ^ (Z.of_nat 1 - 1)) with 1 in Hr; lia|].
    replace (Z.of_nat (S (S f)) - 1) with (Z.succ (Z.of_nat (S f) - 1)) in Hr by lia.
    rewrite Z.pow_succ_r in Hr by lia.
    destruct (IH (n / 256) (n mod 256 :: acc) buf) as (i & b & Hi & Hb & Ha & ->);
      [by apply long_div|done|lia|divlia|done|].
    exists (i + 1), (advance b 1). split; [lia|].
    pose proof (remove_octet_ok _ _ _ _ Hb) as Ho. apply input_cons in Hb as [Hb _].
    split; [done|]. split; [rewrite <- Ha, advance_advance; f_equal; lens|].
    cbn [length decode_integer_loop]. rewrite Ho. cbn [obind].
    replace (i =? 0) with false by lia. cbn [obind].
    rewrite long_shift; [|replace (n / 256 * 256 + n mod 256) with n by divlia; done|divlia].
    by replace (n / 256 * 256 + n mod 256) with n by divlia.
Qed.

Lemma int_octets_9 n : is_long n ->
  zlen (int_octets 9 n []) <= sizeof_long /\
  - 128 * 256 ^ (Z.of_nat 9 - 1) <= n < 128 * 256 ^ (Z.of_nat 9 - 1).
Proof.
  intros Hn. destruct (long_range n Hn) as (k & Hs & Hk & Hnk). split.
  - pose proof (int_octets_length k 9 n [] ltac:(lia) Hnk). rewrite zlen_nil in *. lia.
  - assert (256 ^ Z.of_nat k <= 256 ^ (Z.of_nat 9 - 1)) by (apply Z.pow_le_mono_r; lia). lia.
Qed.

Lemma dec_integer n : is_long n -> decodes asn1_decode_integer (der_integer n) n.
Proof.
  intros Hn. unfold asn1_decode_integer, der_integer.
  apply (decodes_value ASN1_INTEGER _ (fun length e buf =>
           decode_integer_loop (Z.to_nat length) e length 0 0 buf)); [done|].
  intros e buf H. destruct (int_octets_9 n Hn) as [HL Hr].
  replace (Z.to_nat (zlen (int_octets 9 n []))) with (length (int_octets 9 n []))
    by (unfold zlen; lia).
  destruct (decode_integer_prefix 9 n [] e (zlen (int_octets 9 n [])) buf)
    as (i & b & _ & _ & Ha & ->); [done|done|lia|done|done|].
  cbn [length decode_integer_loop]. rewrite <- Ha. change (zlen []) with 0. by rewrite advance_0.
Qed.

(** *** Reading unsigned integers *)

Lemma unsigned_shift n o :
  0 <= n -> is_long (n * 256 + o) -> 0 <= o < 256 ->
  Z.lor (to_uint (8 * sizeof_long) (Z.shiftl n 8)) o = n * 256 + o.
Proof.
  intros H0 Hn Ho. pose proof (long_unsigned (n * 256 + o) ltac:(lia) Hn).
  rewrite shiftl_8, to_uint_id, lor_256; [done|done|]. unfold is_uint. lia.
Qed.

Lemma decode_unsigned_prefix fuel n acc e L buf :
  0 <= n -> is_long n -> L <= sizeof_long -> (1 <= fuel)%nat ->
  n < 128 * 256 ^ (Z.of_nat fuel - 1) ->
  input e buf (int_octets fuel n acc) ->
  exists i buf', 0 < i /\ input e buf' acc /\
    advance buf' (zlen acc) = advance buf (zlen (int_octets fuel n acc)) /\
    decode_unsigned_loop (length (int_octets fuel n acc)) e L 0 0 buf =
    decode_unsigned_loop (length acc) e L i n buf'.
Proof.
  revert n acc buf. induction fuel as [|f IH]; intros n acc buf Hn0 Hn HL H0 Hr H; [lia|].
  assert (Hd : n / 256 * 256 + n mod 256 = n) by divlia.
  cbn [int_octets] in *. destruct (_ && _) eqn:E.
  - exists 1, (advance buf 1). split; [lia|].
    pose proof (remove_octet_ok _ _ _ _ H) as Ho. apply input_cons in H as [H _].
    split; [done|]. split; [rewrite advance_advance; f_equal; lens|].
    cbn [length decode_unsigned_loop]. rewrite Ho. cbn [obind]. rewrite Z.eqb_refl.
    pose proof (sign_octet n ltac:(lia)) as Hs.
    destruct (negb (Z.land 128 (n mod 256) =? 0)); [divlia|].
    replace (sizeof_long + 1 <? L) with false by lia. cbn [obind].
    assert (E0 : 0 * 256 + n mod 256 = n) by divlia.
    rewrite (unsigned_shift 0), E0; [done|lia|by rewrite E0|divlia].
  - destruct f as [|f]; [change (256 ^ (Z.of_nat 1 - 1)) with 1 in Hr; lia|].
    replace (Z.of_nat (S (S f)) - 1) with (Z.succ (Z.of_nat (S f) - 1)) in Hr by lia.
    rewrite Z.pow_succ_r in Hr by lia.
    destruct (IH (n / 256) (n mod 256 :: acc) buf) as (i & b & Hi & Hb & Ha & ->);
      [divlia|by apply long_div|done|lia|divlia|done|].
    exists (i + 1), (advance b 1). split; [lia|].
    pose proof (remove_octet_ok _ _ _ _ Hb) as Ho. apply input_cons in Hb as [Hb _].
    split; [done|]. split; [rewrite <- Ha, advance_advance; f_equal; lens|].
    cbn [length decode_unsigned_loop]. rewrite Ho. cbn [obind].
    replace (i =? 0) with false by lia. cbn [obind].
    rewrite unsigned_shift, Hd; [done|divlia|by rewrite Hd|divlia].
Qed.

Lemma dec_unsigned n :
  0 <= n -> is_long n -> decodes asn1_decode_unsigned_integer (der_integer n) n.
Proof.
  intros H0 Hn. unfold asn1_decode_unsigned_integer, der_integer.
  apply (decodes_value ASN1_INTEGER _ (fun length e buf =>
           decode_unsigned_loop (Z.to_nat length) e length 0 0 buf)); [done|].
  intros e buf H. destruct (int_octets_9 n Hn) as [HL Hr].
  replace (Z.to_nat (zlen (int_octets 9 n []))) with (length (int_octets 9 n []))
    by (unfold zlen; lia).
  destruct (decode_unsigned_prefix 9 n [] e (zlen (int_octets 9 n [])) buf)
    as (i & b & _ & _ & Ha & ->); [done|done|done|lia|lia|done|].
  cbn [length decode_unsigned_loop]. rewrite <- Ha. change (zlen []) with 0. by rewrite advance_0.
Qed.

(** *** The integer types of the protocol: 32 bits, signed or unsigned, and octets *)

Lemma int32_long z : is_int 32 z -> is_long z.
Proof.
  unfold is_long, is_int. destruct sizeof_long_ok as [-> | ->]; [done|].
  change (2 ^ (32 - 1)) with 2147483648. change (2 ^ (8 * 8 - 1)) with 9223372036854775808. lia.
Qed.

Lemma long_id z : is_long z -> long z = z.
Proof. intros H. apply to_int_id; [done|]. destruct sizeof_long_ok; lia. Qed.

(** A [long] argument of a 32-bit quantity: an unsigned one above 2^31 becomes negative
    where [long] has 32 bits, and the decoder's conversion turns it back. *)
Lemma long_is_long z : is_long (long z).
Proof.
  unfold is_long, is_int, long, to_int.
  assert (2 ^ (8 * sizeof_long) = 2 * 2 ^ (8 * sizeof_long - 1)) as ->.
  { rewrite <- Z.pow_succ_r by (destruct sizeof_long_ok; lia). f_equal. lia. }
  assert (0 < 2 ^ (8 * sizeof_long - 1)) by (destruct sizeof_long_ok as [-> | ->]; lia).
  pose proof (Z.mod_pos_bound (z + 2 ^ (8 * sizeof_long - 1)) (2 * 2 ^ (8 * sizeof_long - 1))). lia.
Qed.

Lemma enc_long z : encodes (asn1_encode_integer (long z)) (der_integer (long z)).
Proof. apply enc_integer, long_is_long. Qed.

Lemma dec_int32 z : is_int 32 z -> decodes (integer_convert int32) (der_integer (long z)) z.
Proof.
  intros H. split. intros e buf Hi. unfold integer_convert.
  rewrite (dec_integer (long z) (long_is_long z) e buf Hi). cbn [obind].
  rewrite long_id by (by apply int32_long). by rewrite int32_id.
Qed.

Lemma dec_uint32 z : is_uint 32 z -> decodes (integer_convert uint32) (der_integer (long z)) z.
Proof.
  intros H. split. intros e buf Hi. unfold integer_convert.
  rewrite (dec_integer (long z) (long_is_long z) e buf Hi). cbn [obind].
  do 2 f_equal. unfold is_uint, long, to_int, to_uint in *.
  destruct sizeof_long_ok as [-> | ->].
  - change (2 ^ (8 * 4 - 1)) with 2147483648. change (2 ^ (8 * 4)) with 4294967296.
    change (2 ^ 32) with 4294967296 in *. divlia.
  - change (2 ^ (8 * 8 - 1)) with 9223372036854775808.
    change (2 ^ (8 * 8)) with 18446744073709551616. change (2 ^ 32) with 4294967296 in *. divlia.
Qed.

Lemma dec_octet z : is_octet z -> decodes (integer_convert octet_of) (der_integer (long z)) z.
Proof.
  intros H. split. intros e buf Hi. unfold integer_convert.
  rewrite (dec_integer (long z) (long_is_long z) e buf Hi). cbn [obind].
  unfold is_uint in H. change (2 ^ 8) with 256 in H.
  rewrite long_id; [by rewrite octet_of_id|]. apply int32_long. unfold is_int.
  change (2 ^ (32 - 1)) with 2147483648. lia.
Qed.

(** ** Strings *)

(** A length with its pointer, as the decoders return them: exactly the octets of the
    length, NULL when there is none. *)
Definition wf_bytes (len : Z) (data : option (list octet)) : Prop :=
  len = zlen (default [] data) /\ octets (default [] data) /\ data = canon (default [] data).

Lemma wf_bytes_missing len data : wf_bytes len data -> missing len data = false.
Proof. intros (-> & _ & E). unfold missing. destruct data; [by rewrite andb_false_r|done]. Qed.

Lemma encodes_string t len data :
  0 <= t < 31 -> wf_bytes len data ->
  encodes (fun buf =>
      let* buf := asn1buf_insert_octetstring buf len data in
      let* '(buf, length) := asn1_make_tag UNIVERSAL PRIMITIVE t len buf in
      Ok (buf, len + length)) (der_tlv t (default [] data)).
Proof.
  intros Ht (Hl & Ho & Hc).
  eapply encodes_ext; [|apply (encodes_value (fun buf =>
      let* buf := asn1buf_insert_octetstring buf len data in Ok (buf, len)) UNIVERSAL PRIMITIVE t)].
  - intros buf. cbv beta. by destruct (asn1buf_insert_octetstring buf len data).
  - done.
  - change (Z.lor UNIVERSAL PRIMITIVE) with 0. rewrite Z.lor_0_l, octet_of_id; [done|lia].
  - done.
  - intros buf code Hr Hroom. subst len. destruct data as [l|]; simpl in *.
    + destruct (insert_octetstring_ok buf code l Hr Ho Hroom) as (b & -> & Hb). eauto.
    + destruct (insert_none_ok buf code Hr) as (b & E & Hb).
      change (zlen []) with 0 in *. rewrite E. eauto.
Qed.

Lemma enc_octetstring len data : wf_bytes len data ->
  encodes (asn1_encode_octetstring len data) (der_octetstring (default [] data)).
Proof. by apply (encodes_string 4). Qed.

Lemma enc_charstring len data : wf_bytes len data ->
  encodes (asn1_encode_charstring len data) (der_octetstring (default [] data)).
Proof. by apply (encodes_string 4). Qed.

Lemma enc_generalstring len data : wf_bytes len data ->
  encodes (asn1_encode_generalstring len data) (der_generalstring (default [] data)).
Proof. by apply (encodes_string 27). Qed.

Lemma decodes_string t len data :
  0 <= t < 31 -> wf_bytes len data ->
  decodes (fun e buf =>
      let* '(length, buf) := tag t e buf in
      let* '(val, buf) := asn1buf_remove_octetstring e length buf in
      Ok ((length, val), buf)) (der_tlv t (default [] data)) (len, data).
Proof.
  intros Ht (-> & Ho & Hc).
  apply (decodes_value t _ (fun length e buf =>
      let* '(val, buf) := asn1buf_remove_octetstring e length buf in
      Ok ((length, val), buf))); [done|].
  intros e buf H. rewrite remove_canon by done. cbn [obind]. by rewrite <- Hc.
Qed.

Lemma dec_octetstring len data : wf_bytes len data ->
  decodes asn1_decode_octetstring (der_octetstring (default [] data)) (len, data).
Proof. by apply (decodes_string 4). Qed.

Lemma dec_charstring len data : wf_bytes len data ->
  decodes asn1_decode_charstring (der_octetstring (default [] data)) (len, data).
Proof. by apply (decodes_string 4). Qed.

Lemma dec_generalstring len data : wf_bytes len data ->
  decodes asn1_decode_generalstring (der_generalstring (default [] data)) (len, data).
Proof. by apply (decodes_string 27). Qed.

(** ** Flags *)

Lemma encode_flags_loop_ok k n acc code buf :
  cb_rep buf (acc ++ code) -> zlen code + Z.of_nat k + zlen acc + STANDARD_INCREMENT <= code_limit ->
  exists buf', encode_flags_loop k n buf = Ok buf' /\
    cb_rep buf' (reverse ((fun i => n / 256 ^ Z.of_nat i mod 256) <$> seq 0 k) ++ acc ++ code).
Proof.
  revert n acc buf. induction k as [|k IH]; intros n acc buf Hr Hroom; [by exists buf|].
  cbn [encode_flags_loop].
  destruct (insert_octet_ok buf (acc ++ code) (Z.land n 255)) as (b1 & -> & Hr1); [done| |].
  { unfold room. lens. }
  cbn [obind]. rewrite land_255, octet_of_id in Hr1 by divlia. rewrite shiftr_8.
  destruct (IH (n / 256) (n mod 256 :: acc) b1) as (b2 & -> & Hr2); [done|lens|].
  exists b2. split; [done|]. cbn [seq fmap list_fmap]. rewrite reverse_cons, <- app_assoc.
  rewrite <- fmap_S_seq, <- list_fmap_compose. change (256 ^ Z.of_nat 0) with 1.
  rewrite Z.div_1_r. erewrite list_fmap_ext; [exact Hr2|].
  intros i x _. unfold compose. rewrite Nat2Z.inj_succ, Z.pow_succ_r, Z.div_div by lia. done.
Qed.

Lemma enc_flags f : encodes (asn1_encode_krb5_flags f) (der_flags f).
Proof.
  eapply encodes_ext; [|apply (encodes_value (fun buf =>
      let* buf := encode_flags_loop 4 f buf in
      let* buf := asn1buf_insert_octet buf 0 in Ok (buf, 5)) UNIVERSAL PRIMITIVE ASN1_BITSTRING)].
  - intros buf. cbv beta. unfold asn1_encode_krb5_flags.
    destruct (encode_flags_loop 4 f buf) as [b| | |]; try done. cbn [obind].
    by destruct (asn1buf_insert_octet b 0).
  - done.
  - done.
  - constructor; [done|]. repeat (constructor; [apply octet_mod|]). constructor.
  - intros buf code Hr Hroom. unfold room in Hroom.
    change (zlen [0; _; _; _; _]) with 5 in Hroom.
    destruct (encode_flags_loop_ok 4 f [] code buf) as (b1 & -> & Hr1); [done|change (zlen []) with 0; lia|].
    cbn [obind app] in *.
    destruct (insert_octet_ok b1 _ 0 Hr1) as (b2 & -> & Hr2).
    { unfold room. rewrite zlen_app, zlen_reverse. unfold zlen at 1. rewrite length_fmap, length_seq.
      change (zlen [0]) with 1. lia. }
    exists b2. split; [done|]. simpl in Hr2. by rewrite Z.div_1_r in Hr2.
Qed.

Lemma decode_flags_loop_ok e buf bs i f :
  input e buf bs ->
  decode_flags_loop (length bs) e i f buf =
  Ok ((foldl (fun '(i, f) o =>
         (i + 1, if i <? 4 then int32 (Z.lor (Z.shiftl f 8) (Z.land o 0xFF)) else f)) (i, f) bs).2,
      advance buf (zlen bs)).
Proof.
  revert buf i f. induction bs as [|o bs IH]; intros buf i f H; simpl.
  - change (zlen []) with 0. by rewrite advance_0.
  - rewrite (remove_octet_ok e buf o bs H). cbn [obind]. apply input_cons in H as [H _].
    rewrite IH by done. rewrite advance_advance. do 3 f_equal. lens.
Qed.

Lemma int32_wrap a b : a mod 2 ^ 32 = b mod 2 ^ 32 -> int32 a = int32 b.
Proof. unfold to_int. intros H. rewrite (Z.add_mod a), H, <- Z.add_mod by lia. done. Qed.

Lemma flags_value f : is_int 32 f ->
  (foldl (fun '(i, f) o =>
     (i + 1, if i <? 4 then int32 (Z.lor (Z.shiftl f 8) (Z.land o 0xFF)) else f)) (0, 0)
     [f / 16777216 mod 256; f / 65536 mod 256; f / 256 mod 256; f mod 256]).2 = f.
Proof.
  intros Hf. cbn [foldl Z.ltb Z.add Z.compare Pos.compare snd fst].
  simpl (_ <? 4). cbv iota. rewrite !land_255, !Zmod_mod.
  change (0 + 1 <? 4) with true. change (0 + 1 + 1 <? 4) with true.
  change (0 + 1 + 1 + 1 <? 4) with true. cbv iota.
  change (Z.shiftl 0 8) with (0 * 256). rewrite !shiftl_8.
  unfold is_int in Hf. change (2 ^ (32 - 1)) with 2147483648 in Hf.
  rewrite !lor_256 by divlia.
  rewrite (int32_id (0 * 256 + _)) by divlia.
  rewrite (int32_id ((0 * 256 + _) * 256 + _)) by divlia.
  rewrite (int32_id (((0 * 256 + _) * 256 + _) * 256 + _)) by divlia.
  transitivity (int32 f); [|by apply int32_id].
  apply int32_wrap. change (2 ^ 32) with 4294967296. divlia.
Qed.

Lemma dec_flags f : is_int 32 f -> decodes asn1_decode_krb5_flags (der_flags f) f.
Proof.
  intros Hf. unfold der_flags.
  set (bs := [f / 16777216 mod 256; f / 65536 mod 256; f / 256 mod 256; f mod 256]).
  change (der_tlv _ _) with (der_tlv ASN1_BITSTRING (0 :: bs)).
  apply (decodes_value ASN1_BITSTRING (0 :: bs) (fun length e buf =>
    let* '(unused, buf) := asn1buf_remove_octet e buf in
    if 7 <? unused then Err ASN1_BAD_FORMAT
    else
      let length := length - 1 in
      let* '(f, buf) := decode_flags_loop (Z.to_nat length) e 0 0 buf in
      let f := if length <=? 4 then Z.land f (int32 (Z.shiftl (Z.lnot 0) unused)) else f in
      let f := if length <? 4 then int32 (Z.shiftl f ((4 - length) * 8)) else f in
      Ok (f, buf))); [done|].
  intros e buf H. rewrite (remove_octet_ok e buf 0 bs H). cbn [obind].
  apply input_cons in H as [H _]. simpl (7 <? 0). cbv iota zeta.
  change (Z.to_nat (zlen (0 :: bs) - 1)) with (length bs).
  rewrite decode_flags_loop_ok by done. cbn [obind]. unfold bs. rewrite flags_value by done.
  rewrite advance_advance. change (int32 (Z.shiftl (Z.lnot 0) 0)) with (-1).
  rewrite Z.land_m1_r. done.
Qed.

(** ** Times *)

(** The times the protocol can carry both ways: 1970 to 2038. *)
Definition wf_time (t : Z) : Prop := 0 <= t < 2147483648.

(** The fifteen characters of a time. *)
Lemma time_string_digits g :
  0 <= tm_year g <= 138 -> 0 <= tm_mon g <= 11 -> 1 <= tm_mday g <= 31 ->
  0 <= tm_hour g <= 23 -> 0 <= tm_min g <= 59 -> 0 <= tm_sec g <= 59 ->
  let y := 1900 + tm_year g in let m := tm_mon g + 1 in
  sprintf_generaltime g =
    [48 + y / 1000; 48 + y / 100 mod 10; 48 + y / 10 mod 10; 48 + y mod 10;
     48 + m / 10; 48 + m mod 10; 48 + tm_mday g / 10; 48 + tm_mday g mod 10;
     48 + tm_hour g / 10; 48 + tm_hour g mod 10; 48 + tm_min g / 10; 48 + tm_min g mod 10;
     48 + tm_sec g / 10; 48 + tm_sec g mod 10; 90].
Proof.
  intros. cbv zeta. unfold sprintf_generaltime. rewrite sprintf_4 by lia.
  by rewrite !sprintf_2 by lia.
Qed.

Lemma digit_octet d : 0 <= d <= 9 -> is_octet (48 + d).
Proof. unfold is_uint. change (2 ^ 8) with 256. lia. Qed.

Lemma c2i_digit s i d : s !! i = Some (48 + d) -> 0 <= d <= 9 -> c2i s i = d.
Proof.
  intros E Hd. unfold c2i. rewrite E. simpl. rewrite to_int_id; [lia| |done].
  unfold is_int. change (2 ^ (8 - 1)) with 128. lia.
Qed.

Lemma insert_prefix_ok buf code a junk :
  cb_rep buf code -> octets (a ++ junk) -> room code a ->
  exists buf', asn1buf_insert_octetstring buf (zlen a) (Some (a ++ junk)) = Ok buf' /\
    cb_rep buf' (a ++ code).
Proof.
  intros H Hl Hroom. unfold asn1buf_insert_octetstring.
  destruct (asn1buf_ensure_space_rep buf code (zlen a) H) as [(b1 & -> & H1 & Hf)|[_ []]].
  2: { eapply room_fits; [done|lia]. }
  cbn [obind]. unfold zlen in *. rewrite Nat2Z.id.
  destruct (insert_loop_rep b1 code (a ++ junk) (length a)) as (b2 & -> & H2);
    [done|done|rewrite length_app; lia|done|].
  rewrite take_app_length in H2. eauto.
Qed.

(** The date and time the decoder makes of the characters. *)
Definition parse_time (s : list octet) : tm :=
  Tm (1000 * c2i s 0 + 100 * c2i s 1 + 10 * c2i s 2 + c2i s 3 - 1900)
     (10 * c2i s 4 + c2i s 5 - 1) (10 * c2i s 6 + c2i s 7) (10 * c2i s 8 + c2i s 9)
     (10 * c2i s 10 + c2i s 11) (10 * c2i s 12 + c2i s 13).

Record tm_ok (g : tm) : Prop := {
  ok_year : 0 <= tm_year g <= 138;
  ok_mon : 0 <= tm_mon g <= 11;
  ok_mday : 1 <= tm_mday g <= 31;
  ok_hour : 0 <= tm_hour g <= 23;
  ok_min : 0 <= tm_min g <= 59;
  ok_sec : 0 <= tm_sec g <= 59
}.

Lemma generaltime_parse g : tm_ok g ->
  zlen (sprintf_generaltime g) = 15 /\ octets (sprintf_generaltime g) /\
  sprintf_generaltime g !! 14%nat = Some 90 /\ parse_time (sprintf_generaltime g) = g.
Proof.
  intros [Hy Hm Hd Hh Hmi Hs]. rewrite time_string_digits by done. cbv zeta.
  set (s := [_; _; _; _; _; _; _; _; _; _; _; _; _; _; _]).
  split; [done|]. split.
  { unfold s. repeat (constructor; [first [apply digit_octet; divlia|done]|]). constructor. }
  split; [done|]. unfold parse_time. erewrite !c2i_digit by first [reflexivity | divlia].
  destruct g as [y m d h mi se]. cbn [tm_year tm_mon tm_mday tm_hour tm_min tm_sec] in *.
  f_equal; divlia.
Qed.

Lemma wf_time_gmtime t : wf_time t ->
  exists g, gmtime t = Some g /\ tm_ok g /\ gmt_mktime g = t.
Proof.
  intros Ht. destruct (gmtime_ok t Ht) as (g & E & Hy & Hm & Hd & Hh & Hmi & Hs & _).
  destruct (gmt_mktime_gmtime t Ht) as (g' & E' & Hg). rewrite E in E'. injection E' as <-.
  exists g. split; [done|]. split; [split; lia|done].
Qed.

(** The encoder on any time with a four-digit year. *)
Lemma enc_tm t g : gmtime t = Some g -> tm_ok g ->
  encodes (asn1_encode_kerberos_time t) (der_time t).
Proof.
  intros E Hok. destruct (generaltime_parse g Hok) as (Hl & Ho & _).
  destruct Hok as [Hy Hm Hd Hh Hmi Hs].
  assert (Hst : time_string t = sprintf_generaltime g) by (unfold time_string; by rewrite E).
  rewrite <- Hst in Hl, Ho.
  eapply encodes_ext; [|apply (encodes_value (fun buf =>
      let* buf := asn1buf_insert_charstring buf 15 (Some (time_string t ++ [0])) in Ok (buf, 15))
      UNIVERSAL PRIMITIVE ASN1_GENERALTIME)].
  - intros buf. cbv beta. unfold asn1_encode_kerberos_time, asn1_encode_generaltime. rewrite E.
    replace (_ || _) with false by lia. cbv zeta. rewrite <- Hst, zlen_app, Hl.
    change (16 <? 15 + zlen [0]) with false. cbv iota.
    by destruct (asn1buf_insert_charstring buf 15 (Some (time_string t ++ [0]))).
  - done.
  - done.
  - done.
  - intros buf code Hr Hroom.
    destruct (insert_prefix_ok buf code (time_string t) [0]) as (b & E1 & Hb); [done| |done|].
    { apply Forall_app. split; [done|by apply octets_1]. }
    rewrite Hl in *. change (asn1buf_insert_charstring buf 15 (Some (time_string t ++ [0])))
      with (asn1buf_insert_octetstring buf 15 (Some (time_string t ++ [0]))). rewrite E1. eauto.
Qed.

Lemma enc_time t : wf_time t -> encodes (asn1_encode_kerberos_time t) (der_time t).
Proof. intros Ht. destruct (wf_time_gmtime t Ht) as (g & E & Hok & _). by eapply enc_tm. Qed.

(** The decoder on the characters of any such time: what [gmt_mktime] makes of them. *)
Lemma generaltime_value t g e buf : gmtime t = Some g -> tm_ok g ->
  input e buf (der_time t) ->
  asn1_decode_generaltime e buf =
  if gmt_mktime g =? -1 then Err ASN1_BAD_TIMEFORMAT
  else Ok (gmt_mktime g, advance buf (zlen (der_time t))).
Proof.
  intros E Hok H. destruct (generaltime_parse g Hok) as (Hl & _ & Hz & Hp).
  assert (Hst : time_string t = sprintf_generaltime g) by (unfold time_string; by rewrite E).
  rewrite <- Hst in Hl, Hz, Hp.
  unfold asn1_decode_generaltime, tag.
  destruct (asn1_get_tag_ok stack_junk e buf 0x18 (time_string t) []) as [-> H'];
    [done|by apply input_no_rest|].
  rewrite app_nil_r in H'. cbn [obind tv_class tv_construction tv_tagnum tv_taglen].
  change (negb (Z.land 24 192 =? UNIVERSAL) || _ || _) with false. cbn [obind]. rewrite Hl.
  change (negb (15 =? 15)) with false. cbv iota.
  pose proof (remove_canon e _ (time_string t) H') as Hr. rewrite Hl in Hr, H'.
  change (asn1buf_remove_charstring e 15 ?b) with (asn1buf_remove_octetstring e 15 b).
  rewrite Hr. assert (canon (time_string t) = Some (time_string t)) as ->
    by (by destruct (time_string t)).
  cbv iota beta. rewrite Hz. change (negb (default 0 (Some 90) =? 90)) with false. cbv iota zeta.
  fold (parse_time (time_string t)). rewrite Hp. destruct (_ =? -1); [done|].
  rewrite <- Hl at 2. unfold der_time. by rewrite <- advance_tlv, Hl.
Qed.

Lemma dec_generaltime t : wf_time t -> decodes asn1_decode_generaltime (der_time t) t.
Proof.
  intros Ht. destruct (wf_time_gmtime t Ht) as (g & E & Hok & Hg). split. intros e buf H.
  rewrite (generaltime_value t g e buf E Hok H), Hg. unfold wf_time in Ht.
  by replace (t =? -1) with false by lia.
Qed.

Lemma dec_time t : wf_time t -> decodes asn1_decode_kerberos_time (der_time t) t.
Proof.
  intros Ht. split. intros e buf H. unfold asn1_decode_kerberos_time. rewrite (dec_generaltime t Ht e buf H).
  cbn [obind]. unfold wf_time in Ht. by rewrite int32_id by lia.
Qed.

End Prim.
