(* ===== verification/KadmPrincProofs.v ===== *)
(** * What the administration library keeps true (KadmPrinc.v)

    The count of references of a policy is the number of the principals that have the
    policy, over any history of calls; so a policy in use cannot be deleted, and no
    principal is left with a policy that does not exist. *)

From stdpp Require Import gmap.
From Stdlib Require Import String.
From S2P Require Import Prelude CString Asn1Buf Asn1KEncode Krb5Types Words PrincName PrincNameProofs Crypto CryptoApi Kdc Kdb CodecPrim KadmAcl KadmAclProofs KadmStubs KadmStubsProofs KadmPrinc.

(** ** Reasoning about calls *)

(** What holds when the call returns; a call that does not stops the server. *)
Definition wp {A} (m : kproc A) (d : kadm_db) (Q : A -> kadm_db -> Prop) (E : kadm5_ret -> kadm_db -> Prop) : Prop :=
  match m d with (Ok a, d') => Q a d' | (Err e, d') => E e d' | _ => True end.

Lemma wp_bind {A B} (m : kproc A) (k : A -> kproc B) d Q E : wp m d (fun a d' => wp (k a) d' Q E) E -> wp (sbind m k) d Q E.
Proof. unfold wp, sbind. by destruct (m d) as [[a|e| |] d']. Qed.

Lemma wp_ret {A} (r : outcome kadm5_ret A) d Q E : match r with Ok a => Q a d | Err e => E e d | _ => True end -> wp (sret r) d Q E.
Proof. by destruct r. Qed.

Lemma wp_weaken {A} (m : kproc A) d Q E Q' E' : wp m d Q E -> (forall a d', Q a d' -> Q' a d') -> (forall e d', E e d' -> E' e d') -> wp m d Q' E'.
Proof. unfold wp. destruct (m d) as [[a|e| |] d']; auto. Qed.

Lemma wp_attempt {A} (m : kproc A) d Q E : wp m d (fun a d' => Q (inr a) d') (fun e d' => Q (inl e) d') -> wp (attempt m) d Q E.
Proof. unfold wp, attempt. by destruct (m d) as [[a|e| |] d']. Qed.

(** The databases are as they were. *)
Definition same (d d' : kadm_db) : Prop := kd_princs d' = kd_princs d /\ kd_policies d' = kd_policies d.
Definition quiet {A} (m : kproc A) : Prop := forall d, same d (m d).2.

#[export] Instance same_preorder : PreOrder same.
Proof. split; [done|]. intros d1 d2 d3 [A1 A2] [B1 B2]. split; congruence. Qed.

Lemma wp_quiet {A} (m : kproc A) d (Q : A -> kadm_db -> Prop) (E : kadm5_ret -> kadm_db -> Prop) : quiet m ->
  (forall a d', m d = (Ok a, d') -> same d d' -> Q a d') -> (forall e d', same d d' -> E e d') -> wp m d Q E.
Proof. intros Hq HQ HE. unfold wp. pose proof (Hq d) as Hs. destruct (m d) as [[a|e| |] d'] eqn:Em; cbn [snd] in Hs; auto. Qed.

Lemma quiet_ret {A} (r : outcome kadm5_ret A) : quiet (sret r).
Proof. by intros d. Qed.

Lemma quiet_bind {A B} (m : kproc A) (k : A -> kproc B) : quiet m -> (forall a, quiet (k a)) -> quiet (sbind m k).
Proof.
  intros Hm Hk d. unfold sbind. pose proof (Hm d) as H. destruct (m d) as [[a|e| |] d']; cbn [snd] in *; try done.
  etrans; [exact H|apply Hk].
Qed.

Lemma quiet_attempt {A} (m : kproc A) : quiet m -> quiet (attempt m).
Proof. intros Hm d. unfold attempt. pose proof (Hm d) as H. by destruct (m d) as [[a|e| |] d']. Qed.

Lemma quiet_random {A} (m : sproc prng error_code A) : quiet (with_random m).
Proof. intros d. unfold with_random. by destruct (m (kd_random d)). Qed.

Lemma quiet_lookup_policy name : quiet (lookup_policy name).
Proof. by intros d. Qed.

Create HintDb kadm discriminated.
#[export] Hint Resolve quiet_ret quiet_bind quiet_attempt quiet_random quiet_lookup_policy : kadm.

(** Parts that only read *)
Ltac quiet_step :=
  first [apply quiet_ret | apply quiet_random | apply quiet_lookup_policy | apply quiet_attempt | solve [auto with kadm]
        | apply quiet_bind; [|intros ?]
        | match goal with |- quiet (match ?x with _ => _ end) => destruct x end ].
Ltac quiet := repeat quiet_step.

Section library.
Context `{P : Platform} `{St : Stack} (conf : kadm_config) (clock : nat -> outcome error_code Z) (get : outcome error_code (list octet)).

Lemma quiet_check h : quiet (CHECK_HANDLE h).
Proof. apply quiet_ret. Qed.
Lemma quiet_refuse b e : quiet (refuse b e).
Proof. apply quiet_ret. Qed.
Lemma quiet_time : quiet (krb5_timeofday clock).
Proof. by intros d. Qed.
Lemma quiet_entry m e : quiet (with_entry m e).
Proof. apply quiet_ret. Qed.
#[local] Hint Resolve quiet_check quiet_refuse quiet_time quiet_entry : kadm.

Lemma quiet_get_entry p : quiet (kdb_get_entry conf p).
Proof. unfold kdb_get_entry. apply quiet_bind; [intros d; unfold krb5_db_get_principal; by destruct p|]. intros [[kdb adb]|]; quiet. Qed.
Lemma quiet_get_policy h name : quiet (get_policy h name).
Proof. unfold get_policy. quiet. Qed.
#[local] Hint Resolve quiet_get_entry quiet_get_policy : kadm.

Lemma quiet_requested_policy mask name : quiet (requested_policy conf mask name).
Proof. unfold requested_policy. quiet. Qed.
Lemma quiet_splice mask entry kdb : quiet (splice_tl_data mask entry kdb).
Proof. unfold splice_tl_data. quiet. Qed.
Lemma quiet_is_princ p : quiet (is_princ conf p).
Proof. unfold is_princ. quiet. Qed.
Lemma quiet_policy_of adb : quiet (policy_of conf adb).
Proof. unfold policy_of. quiet. Qed.
Lemma quiet_finish_keys h kdb adb pol now : quiet (finish_keys h kdb adb pol now).
Proof. unfold finish_keys. quiet. Qed.
Lemma quiet_recrypt_all keys : quiet (recrypt_all conf keys).
Proof. induction keys as [|k keys IH]; cbn [recrypt_all]; unfold recrypt; quiet. Qed.
#[local] Hint Resolve quiet_requested_policy quiet_splice quiet_is_princ quiet_policy_of quiet_finish_keys quiet_recrypt_all : kadm.

Lemma quiet_check_history keys current adb pol : quiet (check_history conf keys current adb pol).
Proof. unfold check_history, create_history_entry. quiet. Qed.
Lemma quiet_set_policy name kdb adb : quiet (set_policy conf name kdb adb).
Proof. unfold set_policy. quiet. Qed.
Lemma quiet_clear_policy kdb adb : quiet (clear_policy conf kdb adb).
Proof. unfold clear_policy. quiet. Qed.
Lemma quiet_tgt_entry kdb : quiet (tgt_entry kdb).
Proof. intros d. unfold tgt_entry. destruct (dbe_princ kdb); [|done]. cbn zeta. by destruct (Transited.krb5_build_principal_ext _ _). Qed.
Lemma quiet_encrypt_given keys ks kvno l : quiet (encrypt_given conf keys ks kvno l).
Proof. revert ks l. induction keys as [|key keys IH]; intros [|t ks] l; cbn [encrypt_given]; quiet. Qed.
#[local] Hint Resolve quiet_check_history quiet_set_policy quiet_clear_policy quiet_tgt_entry quiet_encrypt_given : kadm.

(** ** Names of entries *)

Lemma load_n_length m p n l : load_n m p n = Some l -> length l = n.
Proof.
  revert p l. induction n as [|n IH]; intros p l; cbn [load_n]; [by intros [= <-]|].
  destruct (load m p); [|done]. destruct (load_n m (p + 1) n) eqn:E; [|done]. intros [= <-]. cbn. f_equal. by eapply IH.
Qed.

Lemma copy_octets_same d d' : copy_octets d = Ok d' -> contents d' = contents d /\ d_length d' = d_length d.
Proof.
  unfold copy_octets. intros (c & Ec & H)%obind_ok. destruct (malloc (d_length d)) as [b|] eqn:Em.
  - injection H as <-. cbn [d_length]. split; [|done]. rewrite Ec. unfold contents in *. cbn [d_data d_length].
    assert (HL : length c = Z.to_nat (d_length d)).
    { destruct (d_data d) as [l|]; [|destruct (Z.leb_spec (d_length d) 0); [injection Ec as <-; cbn; lia|done]].
      destruct (load_n l 0 (Z.to_nat (d_length d))) as [s|] eqn:EL; [|done]. injection Ec as <-. by apply load_n_length in EL. }
    pose proof (load_n_prefix c []) as HP. rewrite app_nil_r, HL in HP. by rewrite HP.
  - destruct (Z.eqb_spec (d_length d) 0) as [E0|]; [|done]. injection H as <-. cbn [d_length]. split; [|done]. rewrite Ec.
    unfold contents in *. cbn [d_data d_length]. rewrite E0 in Ec. destruct (d_data d); cbn in Ec; by injection Ec as <-.
Qed.

Lemma copy_components_same n l l' : copy_components n l = Ok l' ->
  components_size l' n = components_size l n /\ forall name q, put_components name q l' n = put_components name q l n.
Proof.
  revert l l'. induction n as [|n IH]; intros l l'; cbn [copy_components]; [intros [= <-]; by destruct l|].
  destruct l as [|d l]; [done|]. intros (d1 & E1 & (r & E2 & E3)%obind_ok)%obind_ok. injection E3 as <-.
  apply copy_octets_same in E1 as [HC HL]. apply IH in E2 as [HS HP]. split.
  - cbn [components_size]. unfold data_size. by rewrite HC, HL, HS.
  - intros name q. cbn [put_components]. unfold put_data. rewrite HC. destruct (contents d) as [c| | |]; [|done..]. cbn [obind].
    destruct (puts _ _ _) as [[name1 q1]| | |]; [|done..]. cbn [obind]. destruct (puts _ _ _) as [[name2 q2]| | |]; [|done..]. apply HP.
Qed.

(** A copy of a name is stored in the same place. *)
Lemma copy_dbkey p q : krb5_copy_principal p = Ok q -> dbkey q = dbkey p.
Proof.
  unfold krb5_copy_principal. intros (_ & _ & (_ & _ & (l & El & (r & Er & H)%obind_ok)%obind_ok)%obind_ok)%obind_ok. injection H as <-.
  apply copy_components_same in El as [HS HP]. apply copy_octets_same in Er as [HC HL].
  unfold dbkey, krb5_encode_princ_dbkey, krb5_unparse_name, krb5_unparse_name_ext. cbn [pr_realm pr_data pr_length].
  replace (match pr_data p with Some l0 => l0 | None => [] end) with (default [] (pr_data p)) by (by destruct (pr_data p)).
  cbv match. unfold data_size. rewrite HC, HL, HS. destruct (contents (pr_realm p)) as [c| | |] eqn:EC; [|done..]. cbn [obind].
  clear HS. destruct (components_size _ _) as [m| | |]; [|done..]. cbn [obind]. destruct (unparse_alloc _ _ _) as [[name size]| | |]; [|done..]. cbn [obind].
  rewrite HP. unfold put_data. by rewrite HC, EC.
Qed.

(** ** What reading and storing do *)

Lemma get_entry_ok p d kdb adb d' : kdb_get_entry conf p d = (Ok (kdb, adb), d') ->
  d' = d /\ exists q k a, p = Some q /\ dbkey q = Ok k /\ kd_princs d !! k = Some (kdb, a) /\ adb = default (OsaPrinc None 0 0 (hist_kvno conf) []) a.
Proof.
  unfold kdb_get_entry, krb5_db_get_principal, sbind. destruct p as [q|]; [|done]. destruct (dbkey q) as [k| | |] eqn:Ek; [|done..].
  cbn [obind lift]. destruct (kd_princs d !! k) as [[kdb0 a]|] eqn:El; [|done]. intros H. injection H as <- <- <-. split; [done|]. by exists q, k, a.
Qed.

Lemma get_entry_unknown p d e d' : kdb_get_entry conf p d = (Err e, d') ->
  d' = d /\ exists q, p = Some q /\ ((e = KADM5_UNK_PRINC /\ exists k, dbkey q = Ok k /\ kd_princs d !! k = None) \/ (exists c, e = Krb5Code c /\ dbkey q = Err c)).
Proof.
  unfold kdb_get_entry, krb5_db_get_principal, sbind. destruct p as [q|]; [|done]. destruct (dbkey q) as [k|c| |] eqn:Ek; [|..|done|done].
  - cbn [obind lift]. destruct (kd_princs d !! k) as [[kdb0 a]|] eqn:El; [done|]. intros H. injection H as <- <-. split; [done|]. exists q. split; [done|].
    left. split; [done|]. by exists k.
  - cbn [obind lift]. intros H. injection H as <- <-. split; [done|]. exists q. split; [done|]. right. by exists c.
Qed.

(** What stays when typed data are changed *)
Definition like (e e' : krb5_db_entry_new) : Prop :=
  dbe_princ e' = dbe_princ e /\ dbe_key_data e' = dbe_key_data e /\ dbe_n_key_data e' = dbe_n_key_data e.
#[local] Instance like_preorder : PreOrder like.
Proof. split; [done|]. intros e1 e2 e3 (A1 & A2 & A3) (B1 & B2 & B3). split; [congruence|]. split; congruence. Qed.

Lemma update_tl_like t e e' : krb5_dbe_update_tl_data t e = (Ok tt, e') -> like e e'.
Proof.
  unfold krb5_dbe_update_tl_data. destruct (malloc _); [|done]. destruct (negb _ && _); [done|]. destruct (read_mem _ _); [|done..].
  intros H. injection H as <-. by destruct (has_tl _ _).
Qed.

Lemma update_mod_like now p e e' : krb5_dbe_update_mod_princ_data now p e = (Ok tt, e') -> like e e'.
Proof.
  unfold krb5_dbe_update_mod_princ_data. intros (s & e1 & E1 & H)%sbind_ok. injection E1 as _ <-. destruct (malloc _); [|done].
  by apply update_tl_like in H.
Qed.

Lemma with_entry_ok m e d e' d' : with_entry m e d = (Ok e', d') -> m e = (Ok tt, e') /\ d' = d.
Proof. unfold with_entry, sret. destruct (m e) as [[[]| | |] e1]; cbn [obind lift]; intros H; by simplify_eq. Qed.

Lemma with_entry_err m e d c d' : with_entry m e d = (Err c, d') -> exists k, c = Krb5Code k.
Proof. unfold with_entry, sret. destruct (m e) as [[[]| | |] e1]; cbn [obind lift]; intros H; simplify_eq; by eexists. Qed.

Lemma time_err d e d' : krb5_timeofday clock d = (Err e, d') -> exists k, e = Krb5Code k.
Proof. unfold krb5_timeofday. destruct (clock (kd_ticks d)); cbn [lift]; intros H; simplify_eq; by eexists. Qed.

(** The entry is stored under the name that it carries, or nothing changes. *)
Lemma put_entry_wp h kdb adb d Q E :
  (forall p k kdb' d', dbe_princ kdb = Some p -> dbkey p = Ok k -> like kdb kdb' -> 
     kd_princs d' = <[k := (kdb', Some adb)]> (kd_princs d) -> kd_policies d' = kd_policies d -> Q tt d') ->
  (forall c d', same d d' -> E (Krb5Code c) d') -> wp (kdb_put_entry clock h kdb adb) d Q E.
Proof.
  intros HQ HE. unfold kdb_put_entry. apply wp_bind. unfold wp at 1. destruct (krb5_timeofday clock d) as [[now|e| |] d1] eqn:Et; [|..|done|done].
  2: { destruct (time_err _ _ _ Et) as [k ->]. apply HE. pose proof (quiet_time d) as Hq. by rewrite Et in Hq. }
  assert (Hs : same d d1) by (pose proof (quiet_time d) as Hq; by rewrite Et in Hq).
  destruct (sh_current_caller h) as [caller|]; [|done]. apply wp_bind. unfold wp at 1.
  destruct (with_entry _ kdb d1) as [[kdb'|e| |] d2] eqn:Em; [|..|done|done].
  2: { destruct (with_entry_err _ _ _ _ _ Em) as [k ->]. apply HE. etrans; [exact Hs|]. pose proof (quiet_entry (krb5_dbe_update_mod_princ_data now caller) kdb d1) as Hq. by rewrite Em in Hq. }
  apply with_entry_ok in Em as [Em ->]. apply update_mod_like in Em. pose proof Em as (E1 & _ & _).
  unfold wp, krb5_db_put_principal. destruct (krb5_encode_princ_contents kdb') as [x|c| |] eqn:EC; [| |done|done].
  - destruct (dbe_princ kdb') as [p|] eqn:EP; [|done]. destruct (dbkey p) as [k|c| |] eqn:Ek; [|by apply HE|done|done].
    destruct Hs as [Hs1 Hs2]. apply (HQ p k kdb'); [congruence|done|done|by rewrite <- Hs1|done].
  - by apply HE.
Qed.

Lemma get_policy_ok h name d pol d' : get_policy h name d = (Ok pol, d') ->
  check_handle h = Ok tt /\ d' = d /\ exists n p, name = Some n /\ n <> [] /\ strdup n = Some n /\ kd_policies d !! n = Some p /\
    kp_policy pol = Some n /\ kp_policy_refcnt pol = long (po_policy_refcnt p) /\ kp_pw_history_num pol = long (po_pw_history_num p).
Proof.
  unfold get_policy. intros ([] & d1 & E1 & H)%sbind_ok. unfold CHECK_HANDLE, sret in E1. injection E1 as EC <-. split; [done|].
  destruct name as [n|]; [|done]. apply sbind_ok in H as ([] & d2 & E2 & H). unfold refuse, sret in E2. injection E2 as EN <-.
  destruct (bool_decide_reflect (n = [])) as [|Hn]; [done|]. cbn in H. unfold sbind, lookup_policy in H.
  destruct (kd_policies d !! n) as [p|] eqn:EL; [|done]. destruct (strdup n) as [n'|] eqn:ES; [|done].
  assert (n' = n) as -> by (unfold strdup in ES; destruct (malloc _); by simplify_eq). destruct (_ && _); [done|]. injection H as <- <-. split; [done|]. exists n, p. by rewrite ES.
Qed.

Definition set_refcnt (n : Z) (p : osa_policy_ent) : osa_policy_ent :=
  OsaPolicy (po_pw_min_life p) (po_pw_max_life p) (po_pw_min_length p) (po_pw_min_classes p) (po_pw_history_num p) n.

(** Storing a count does not fail after the policy has been read. *)
Lemma store_refcnt_ok pol i d n p : check_handle (kc_lhandle conf) = Ok tt -> n <> [] -> kp_policy pol = Some n -> kd_policies d !! n = Some p ->
  store_refcnt conf pol i d = (Ok tt, set_policies <[n := set_refcnt (uint32 (kp_policy_refcnt pol + i)) p]> d).
Proof.
  intros HC Hn Hp HL. unfold store_refcnt, kadm5_modify_policy_internal, sbind, CHECK_HANDLE, sret. rewrite HC. cbn [with_refcnt kp_policy]. rewrite Hp.
  unfold refuse, sret. rewrite bool_decide_eq_false_2 by done. unfold lookup_policy. cbn [negb guard]. 
  change (has_bit KADM5_REF_COUNT KADM5_POLICY) with false. cbn [negb guard]. rewrite HL. unfold policy_members.
  change (has_bit KADM5_REF_COUNT KADM5_PW_MIN_LIFE) with false. change (has_bit KADM5_REF_COUNT KADM5_PW_MIN_LENGTH) with false.
  change (has_bit KADM5_REF_COUNT KADM5_PW_MIN_CLASSES) with false. change (has_bit KADM5_REF_COUNT KADM5_PW_HISTORY_NUM) with false.
  change (has_bit KADM5_REF_COUNT KADM5_PW_MAX_LIFE) with false. change (has_bit KADM5_REF_COUNT KADM5_REF_COUNT) with true.
  cbn [andb negb guard obind]. reflexivity.
Qed.

End library.

(** ** Counting the users of a policy *)

Abbreviation princ_map := (gmap (list octet) (krb5_db_entry_new * option osa_princ_ent)).
Abbreviation policy_map := (gmap (list octet) osa_policy_ent).

(** The policy of an entry *)
Definition policy_in (adb : osa_princ_ent) : option (list octet) := if has_bit (adb_aux_attributes adb) KADM5_POLICY then adb_policy adb else None.
Definition has_policy (name : list octet) (x : krb5_db_entry_new * option osa_princ_ent) : bool := bool_decide ((x.2 ≫= policy_in) = Some name).

Definition users (pr : princ_map) (name : list octet) : Z := Z.of_nat (size (filter (fun kx => has_policy name kx.2 = true) pr)).

Definition counted (name : list octet) (x : option (krb5_db_entry_new * option osa_princ_ent)) : Z :=
  match x with Some x => Z.b2z (has_policy name x) | None => 0 end.

Lemma users_delete pr k name : users (delete k pr) name = users pr name - counted name (pr !! k).
Proof.
  unfold users, counted. rewrite map_filter_delete. destruct (pr !! k) as [x|] eqn:EL.
  - destruct (has_policy name x) eqn:EH.
    + rewrite map_size_delete. rewrite (proj2 (map_lookup_filter_Some _ _ _ x)) by done.
      assert (0 < size (filter (fun kx => has_policy name kx.2 = true) pr))%nat; [|cbn; lia].
      apply Nat.neq_0_lt_0. intros H0. apply map_size_empty_inv in H0.
      assert (HN : filter (fun kx => has_policy name kx.2 = true) pr !! k = Some x) by (by apply map_lookup_filter_Some).
      by rewrite H0, lookup_empty in HN.
    + rewrite delete_id; [cbn; lia|]. apply map_lookup_filter_None. right. intros y Hy. rewrite EL in Hy. injection Hy as <-. cbn. by rewrite EH.
  - rewrite delete_id; [lia|]. apply map_lookup_filter_None. by left.
Qed.

Lemma users_insert_new pr k x name : pr !! k = None -> users (<[k := x]> pr) name = users pr name + Z.b2z (has_policy name x).
Proof.
  intros EL. unfold users. destruct (has_policy name x) eqn:EH.
  - rewrite map_filter_insert_True by (cbn; exact EH). rewrite map_size_insert_None; [cbn; lia|]. apply map_lookup_filter_None. by left.
  - rewrite map_filter_insert_False by (cbn; by rewrite EH). rewrite delete_id by done. cbn. lia.
Qed.

Lemma users_insert pr k x name : users (<[k := x]> pr) name = users pr name - counted name (pr !! k) + Z.b2z (has_policy name x).
Proof. rewrite <- insert_delete_eq, users_insert_new by apply lookup_delete_eq. by rewrite users_delete. Qed.

Lemma users_range pr name : 0 <= users pr name <= Z.of_nat (size pr).
Proof. unfold users. pose proof (map_size_filter (fun kx => has_policy name kx.2 = true) pr). lia. Qed.

(** ** The invariant *)

Section invariant.
Context `{P : Platform} `{St : Stack} (conf : kadm_config) (clock : nat -> outcome error_code Z) (get : outcome error_code (list octet)).

(** Counts are right, entries are under their names, and policies that are used exist and
    have names. *)
Record counts_ok (d : kadm_db) : Prop := {
  ck_counts : forall n p, kd_policies d !! n = Some p -> po_policy_refcnt p = users (kd_princs d) n;
  ck_names : forall k x, kd_princs d !! k = Some x -> exists p, dbe_princ x.1 = Some p /\ dbkey p = Ok k;
  ck_known : forall k kdb adb, kd_princs d !! k = Some (kdb, Some adb) -> has_bit (adb_aux_attributes adb) KADM5_POLICY = true ->
    exists n, adb_policy adb = Some n /\ is_Some (kd_policies d !! n);
  ck_named : kd_policies d !! [] = None
}.

(** The counts of the policies have changed by [f]. *)
Definition adjusted (po po' : policy_map) (f : list octet -> Z) : Prop := forall n,
  match po !! n, po' !! n with
  | Some p, Some p' => po_policy_refcnt p' = po_policy_refcnt p + f n
  | None, None => True
  | _, _ => False
  end.

Lemma adjusted_ext po po' f g : adjusted po po' f -> (forall n, f n = g n) -> adjusted po po' g.
Proof. intros H E n. specialize (H n). by rewrite E in H. Qed.

Lemma adjusted_id po f : (forall n, f n = 0) -> adjusted po po f.
Proof. intros E n. rewrite E. destruct (po !! n); [lia|done]. Qed.

Lemma adjusted_trans po1 po2 po3 f g : adjusted po1 po2 f -> adjusted po2 po3 g -> adjusted po1 po3 (fun n => f n + g n).
Proof. intros H1 H2 n. specialize (H1 n). specialize (H2 n). destruct (po1 !! n), (po2 !! n), (po3 !! n); try done. lia. Qed.

Lemma adjusted_known po po' f n : adjusted po po' f -> is_Some (po !! n) <-> is_Some (po' !! n).
Proof. intros H. specialize (H n). destruct (po !! n), (po' !! n); try done. all: split; intros [? ?]; done. Qed.

Lemma adjusted_unnamed po po' f n : adjusted po po' f -> po !! n = None -> po' !! n = None.
Proof. intros H E. specialize (H n). rewrite E in H. by destruct (po' !! n). Qed.

Definition delta (n : list octet) (i : Z) (m : list octet) : Z := if bool_decide (m = n) then i else 0.

Lemma adjusted_one po n p i : po !! n = Some p -> 0 <= po_policy_refcnt p < 2 ^ 31 -> 0 <= po_policy_refcnt p + i < 2 ^ 32 ->
  adjusted po (<[n := set_refcnt (uint32 (long (po_policy_refcnt p) + i)) p]> po) (delta n i).
Proof.
  intros HL HR Hi m. unfold delta. destruct (bool_decide_reflect (m = n)) as [->|Hm].
  - rewrite HL, lookup_insert_eq. cbn [set_refcnt po_policy_refcnt]. rewrite long_id by (unfold is_long, is_int; destruct sizeof_long_ok as [-> | ->]; cbn; lia).
    apply to_uint_id. unfold is_uint. lia.
  - rewrite lookup_insert_ne by done. destruct (po !! m); [lia|done].
Qed.

Lemma counts_insert d d' k kdb adb : counts_ok d ->
  adjusted (kd_policies d) (kd_policies d') (fun n => Z.b2z (has_policy n (kdb, Some adb)) - counted n (kd_princs d !! k)) ->
  kd_princs d' = <[k := (kdb, Some adb)]> (kd_princs d) -> (exists p, dbe_princ kdb = Some p /\ dbkey p = Ok k) ->
  (has_bit (adb_aux_attributes adb) KADM5_POLICY = true -> exists n, adb_policy adb = Some n /\ is_Some (kd_policies d !! n)) -> counts_ok d'.
Proof.
  intros [H1 H2 H3 H4] HA HP HN HK. split; try rewrite HP.
  - intros n p' HL. rewrite users_insert. pose proof (HA n) as HAn. rewrite HL in HAn. destruct (kd_policies d !! n) as [p|] eqn:E; [|done].
    rewrite HAn, (H1 _ _ E). lia.
  - intros k' x HL. apply lookup_insert_Some in HL as [[<- <-]|[_ HL]]; [done|by apply H2].
  - intros k' kdb' adb' HL HB. apply lookup_insert_Some in HL as [[<- [= <- <-]]|[_ HL]].
    + destruct (HK HB) as (n & En & HS). exists n. split; [done|]. by apply (adjusted_known _ _ _ n HA).
    + destruct (H3 _ _ _ HL HB) as (n & En & HS). exists n. split; [done|]. by apply (adjusted_known _ _ _ n HA).
  - by eapply adjusted_unnamed.
Qed.

Lemma counts_delete d d' k : counts_ok d -> adjusted (kd_policies d) (kd_policies d') (fun n => - counted n (kd_princs d !! k)) ->
  kd_princs d' = delete k (kd_princs d) -> counts_ok d'.
Proof.
  intros [H1 H2 H3 H4] HA HP. split; try rewrite HP.
  - intros n p' HL. rewrite users_delete. pose proof (HA n) as HAn. rewrite HL in HAn. destruct (kd_policies d !! n) as [p|] eqn:E; [|done].
    rewrite HAn, (H1 _ _ E). lia.
  - intros k' x HL. apply lookup_delete_Some in HL as [_ HL]. by apply H2.
  - intros k' kdb' adb' HL HB. apply lookup_delete_Some in HL as [_ HL]. destruct (H3 _ _ _ HL HB) as (n & En & HS). exists n. split; [done|].
    by apply (adjusted_known _ _ _ n HA).
  - by eapply adjusted_unnamed.
Qed.

Lemma counts_same d d' : same d d' -> counts_ok d -> counts_ok d'.
Proof. intros [E1 E2] [H1 H2 H3 H4]. split; try rewrite E1; try rewrite E2; done. Qed.

(** After a call, with at most one more entry *)
Definition good_after (d d' : kadm_db) : Prop := counts_ok d' /\ (size (kd_princs d') <= S (size (kd_princs d)))%nat.

Lemma good_same d d' : counts_ok d -> same d d' -> good_after d d'.
Proof. intros H Hs. split; [by eapply counts_same|]. destruct Hs as [-> _]. lia. Qed.

Lemma size_insert_le (pr : princ_map) k x : (size (<[k := x]> pr) <= S (size pr))%nat.
Proof. rewrite map_size_insert. destruct (pr !! k); unfold id; lia. Qed.

Lemma good_insert d d' k kdb adb : counts_ok d ->
  adjusted (kd_policies d) (kd_policies d') (fun n => Z.b2z (has_policy n (kdb, Some adb)) - counted n (kd_princs d !! k)) ->
  kd_princs d' = <[k := (kdb, Some adb)]> (kd_princs d) -> (exists p, dbe_princ kdb = Some p /\ dbkey p = Ok k) ->
  (has_bit (adb_aux_attributes adb) KADM5_POLICY = true -> exists n, adb_policy adb = Some n /\ is_Some (kd_policies d !! n)) -> good_after d d'.
Proof. intros H HA HP HN HK. split; [by eapply counts_insert|]. rewrite HP. apply size_insert_le. Qed.

(** The count of a policy fits, and is positive where the policy is used. *)
Lemma refcnt_range d n p : counts_ok d -> Z.of_nat (size (kd_princs d)) < 2 ^ 31 - 1 -> kd_policies d !! n = Some p ->
  0 <= po_policy_refcnt p < 2 ^ 31 - 1.
Proof. intros [H1 _ _ _] HS HL. rewrite (H1 _ _ HL). pose proof (users_range (kd_princs d) n). lia. Qed.

Lemma refcnt_used d n p k x : counts_ok d -> kd_policies d !! n = Some p -> kd_princs d !! k = Some x -> has_policy n x = true -> 1 <= po_policy_refcnt p.
Proof.
  intros [H1 _ _ _] HL HX HB. rewrite (H1 _ _ HL). pose proof (users_delete (kd_princs d) k n) as HU. pose proof (users_range (delete k (kd_princs d)) n) as HR.
  rewrite HX in HU. cbn [counted] in HU. rewrite HB in HU. change (Z.b2z true) with 1 in HU. lia.
Qed.

Lemma has_policy_in n kdb adb : has_policy n (kdb, Some adb) = bool_decide (policy_in adb = Some n).
Proof. done. Qed.

Lemma wp_step {A B} (m : kproc A) (k : A -> kproc B) d0 d Q (E : kadm5_ret -> kadm_db -> Prop) : quiet m -> same d0 d -> (forall e d', same d0 d' -> E e d') ->
  (forall a d', m d = (Ok a, d') -> same d0 d' -> wp (k a) d' Q E) -> wp (sbind m k) d Q E.
Proof. intros Hq Hs HE HQ. apply wp_bind, wp_quiet; [done|intros a d' Ea Hs'; apply HQ; [done|by etrans]|intros e d' Hs'; apply HE; by etrans]. Qed.

Lemma attempt_inr {A} (m : kproc A) d a d' : attempt m d = (Ok (inr a), d') -> m d = (Ok a, d').
Proof. unfold attempt. destruct (m d) as [[x|e| |] d1]; intros H; by simplify_eq. Qed.
Lemma attempt_inl {A} (m : kproc A) d e d' : attempt m d = (Ok (inl e), d') -> m d = (Err e, d').
Proof. unfold attempt. destruct (m d) as [[x|e'| |] d1]; intros H; by simplify_eq. Qed.

(** *** Changing the keys keeps the name *)

Definition keeps_name {A} (m : cproc A) : Prop := forall st, dbe_princ (cs_entry (m st).2) = dbe_princ (cs_entry st).

Lemma keeps_name_ret {A} (r : outcome error_code A) : keeps_name (sret r).
Proof. done. Qed.
Lemma keeps_name_bind {A B} (m : cproc A) (k : A -> cproc B) : keeps_name m -> (forall a, keeps_name (k a)) -> keeps_name (sbind m k).
Proof.
  intros Hm Hk st. unfold sbind. pose proof (Hm st) as H. destruct (m st) as [[a|e| |] st']; cbn [snd] in *; try done. by rewrite <- H, <- (Hk a st').
Qed.
Lemma create_key_data_name e : dbe_princ (krb5_dbe_create_key_data e).2 = dbe_princ e.
Proof. unfold krb5_dbe_create_key_data. destruct (malloc _); [|done]. destruct (_ <? 0); [done|]. by destruct (key_data_of _ _). Qed.
Lemma keeps_create : keeps_name (on_entry krb5_dbe_create_key_data).
Proof. intros st. unfold on_entry. rewrite <- (create_key_data_name (cs_entry st)). by destruct (krb5_dbe_create_key_data (cs_entry st)). Qed.
Lemma keeps_encrypt_last mkey key salt kvno : keeps_name (encrypt_last mkey key salt kvno).
Proof.
  intros st. unfold encrypt_last. destruct (key_data_of _ _) as [keys| | |]; [|done..]. destruct keys; [done|].
  by destruct (krb5_dbekd_encrypt_key_data _ _ _ _ _).
Qed.
Lemma keeps_add_pwd mkey before ks passwd kvno : keeps_name (add_key_pwd mkey before ks passwd kvno).
Proof.
  revert before. induction ks as [|t ks IH]; intros before; cbn [add_key_pwd]; [apply keeps_name_ret|].
  apply keeps_name_bind; [apply keeps_name_ret|]. intros listed. apply keeps_name_bind; [|intros _; apply IH]. destruct listed; [apply keeps_name_ret|].
  unfold add_pwd_key. apply keeps_name_bind; [apply keeps_create|]. intros _. apply keeps_name_bind; [done|]. intros pr.
  do 3 (apply keeps_name_bind; [apply keeps_name_ret|]; intros ?). apply keeps_encrypt_last.
Qed.
Lemma keeps_add_rnd mkey before ks kvno : keeps_name (add_key_rnd mkey before ks kvno).
Proof.
  revert before. induction ks as [|t ks IH]; intros before; cbn [add_key_rnd]; [apply keeps_name_ret|].
  apply keeps_name_bind; [apply keeps_name_ret|]. intros listed. apply keeps_name_bind; [|intros _; apply IH]. destruct listed; [apply keeps_name_ret|].
  unfold add_rnd_key. apply keeps_name_bind; [apply keeps_create|]. intros _.
  apply keeps_name_bind; [intros st; unfold make_random_key; by destruct (krb5_c_make_random_key _ _)|]. intros key. apply keeps_encrypt_last.
Qed.

Lemma keep_keys_name old e : dbe_princ (keep_keys old e).2 = dbe_princ e.
Proof.
  revert e. induction old as [|k old IH]; intros e; cbn [keep_keys]; [done|]. unfold sbind. pose proof (create_key_data_name e) as H.
  destruct (krb5_dbe_create_key_data e) as [[[]| | |] e1]; cbn [snd] in *; try done. by rewrite IH.
Qed.

Lemma change_keys_name add kvno keepold e rnd e' rnd' : (forall v, keeps_name (add v)) -> change_keys add kvno keepold e rnd = (Ok e', rnd') -> dbe_princ e' = dbe_princ e.
Proof.
  intros HA. unfold change_keys. destruct (key_data_of e _) as [old| | |]; [|done..]. cbn zeta.
  pose proof (HA (Z.max kvno (get_key_data_kvno old + 1)) (CpwState (with_key_data e 0 None) rnd)) as HN.
  destruct (add _ _) as [[[]|err| |] [e1 rnd1]]; cbn [snd cs_entry] in HN; intros H; [|injection H as H _; by destruct (obind _ _)|done|done].
  destruct keepold.
  - pose proof (keep_keys_name old e1) as HK. destruct (keep_keys old e1) as [[[]|err| |] e2]; cbn [snd] in HK; simplify_eq; [by rewrite HK, HN|by destruct (obind _ _)].
  - destruct (cleanup_key_data old) as [[]| | |]; cbn [obind] in H; simplify_eq. by rewrite HN.
Qed.

Lemma with_random_ok {A} (m : sproc prng error_code A) d a d' : with_random m d = (Ok a, d') -> exists rnd', m (kd_random d) = (Ok a, rnd').
Proof. unfold with_random. destruct (m (kd_random d)) as [[x| | |] rnd']; cbn [lift]; intros H; simplify_eq. by exists rnd'. Qed.

Lemma cpw_name mkey ks passwd kvno keepold e d e' d' : with_random (krb5_dbe_cpw mkey ks passwd kvno keepold e) d = (Ok e', d') -> dbe_princ e' = dbe_princ e.
Proof. intros (rnd' & H)%with_random_ok. unfold krb5_dbe_cpw in H. eapply change_keys_name; [|exact H]. intros v. apply keeps_add_pwd. Qed.

Lemma crk_name mkey ks keepold tgt e d e' d' : with_random (krb5_dbe_crk mkey ks keepold tgt e) d = (Ok e', d') -> dbe_princ e' = dbe_princ e.
Proof.
  intros (rnd' & H)%with_random_ok. unfold krb5_dbe_crk in H. eapply change_keys_name; [|exact H]. intros v. apply keeps_name_bind; [apply keeps_name_ret|]. intros _. apply keeps_add_rnd.
Qed.

(** *** Principals *)

#[local] Hint Resolve quiet_check quiet_refuse quiet_time quiet_entry quiet_get_entry quiet_get_policy quiet_requested_policy quiet_splice quiet_is_princ
  quiet_policy_of quiet_finish_keys quiet_recrypt_all quiet_check_history quiet_set_policy quiet_clear_policy quiet_tgt_entry quiet_encrypt_given : kadm.

Lemma requested_policy_ok mask name d o d' : requested_policy conf mask name d = (Ok o, d') ->
  match o with
  | Some pol => has_bit mask KADM5_POLICY = true /\ get_policy (kc_lhandle conf) name d = (Ok pol, d')
  | None => has_bit mask KADM5_POLICY = false
  end.
Proof.
  unfold requested_policy. destruct (has_bit mask KADM5_POLICY); [|unfold sret; intros H; by simplify_eq].
  intros (r & d1 & E1 & H)%sbind_ok. destruct r as [e|pol]; [done|]. unfold sret in H. simplify_eq. split; [done|]. by apply attempt_inr.
Qed.

Lemma splice_name mask entry kdb d kdb' d' : splice_tl_data mask entry kdb d = (Ok kdb', d') -> dbe_princ kdb' = dbe_princ kdb.
Proof. unfold splice_tl_data. destruct (has_bit _ _); [destruct (ke_tl_data entry)|]; unfold sret; intros H; by simplify_eq. Qed.

(** Reading a policy, as the counts see it *)
Lemma policy_read d pol n p i : counts_ok d -> Z.of_nat (size (kd_princs d)) < 2 ^ 31 - 1 -> check_handle (kc_lhandle conf) = Ok tt -> n <> [] -> kp_policy pol = Some n ->
  kd_policies d !! n = Some p -> kp_policy_refcnt pol = long (po_policy_refcnt p) -> 0 <= po_policy_refcnt p + i <= po_policy_refcnt p + 1 ->
  exists d', store_refcnt conf pol i d = (Ok tt, d') /\ kd_princs d' = kd_princs d /\ adjusted (kd_policies d) (kd_policies d') (delta n i).
Proof.
  intros HI HS HC Hn Hp HL HR Hi. rewrite (store_refcnt_ok conf pol i d n p HC Hn Hp HL). eexists. split; [done|]. split; [done|].
  pose proof (refcnt_range _ _ _ HI HS HL). cbn [kd_policies set_policies]. rewrite HR. apply adjusted_one; [done|lia|lia].
Qed.

Lemma counts_adjust d d' f : counts_ok d -> kd_princs d' = kd_princs d -> adjusted (kd_policies d) (kd_policies d') f -> (forall n, f n = 0) -> counts_ok d'.
Proof.
  intros [H1 H2 H3 H4] HP HA Hf. split; try rewrite HP; [|done| |by eapply adjusted_unnamed].
  - intros n p' HL. pose proof (HA n) as HAn. rewrite HL in HAn. destruct (kd_policies d !! n) as [p|] eqn:E; [|done]. rewrite HAn, (H1 _ _ E), Hf. lia.
  - intros k kdb adb HL HB. destruct (H3 _ _ _ HL HB) as (n & En & HS). exists n. split; [done|]. by apply (adjusted_known _ _ _ n HA).
Qed.

Lemma splice_wp mask entry kdb d (Q : krb5_db_entry_new -> kadm_db -> Prop) E : (forall kdb', dbe_princ kdb' = dbe_princ kdb -> Q kdb' d) -> wp (splice_tl_data mask entry kdb) d Q E.
Proof. intros HQ. unfold splice_tl_data. destruct (has_bit _ _); [destruct (ke_tl_data entry); [done|]|]; by apply HQ. Qed.

Ltac wstep a d1 E := match goal with Hs : same ?d0 _ |- wp (sbind _ _) _ _ _ =>
  eapply wp_step; [solve [auto with kadm | quiet]|exact Hs|eassumption|clear Hs; intros a d1 E Hs] end.
Ltac wskip := let a := fresh "x" in let d1 := fresh "d" in let E := fresh "E" in wstep a d1 E.
Ltac wdone := match goal with Hs : same ?d0 _, HE : forall e d', same ?d0 d' -> _ |- _ => first [apply wp_ret; eapply (HE KADM5_FAILURE); exact Hs | done] end.

(** The policy of a new entry is counted. *)
Lemma count_new adb polent d d1 :
  counts_ok d -> Z.of_nat (size (kd_princs d)) < 2 ^ 31 - 1 -> same d d1 ->
  (forall pol, polent = Some pol -> exists d2, get_policy (kc_lhandle conf) (adb_policy adb) d2 = (Ok pol, d2) /\ same d d2 /\ has_bit (adb_aux_attributes adb) KADM5_POLICY = true) ->
  (polent = None -> has_bit (adb_aux_attributes adb) KADM5_POLICY = false) ->
  exists d2, match polent with Some pol => store_refcnt conf pol 1 | None => sret (Ok tt) end d1 = (Ok tt, d2) /\ kd_princs d2 = kd_princs d /\
    adjusted (kd_policies d) (kd_policies d2) (fun n => Z.b2z (bool_decide (policy_in adb = Some n))) /\
    (forall pol, polent = Some pol -> exists d3 n p, store_refcnt conf pol 0 d2 = (Ok tt, d3) /\ kd_princs d3 = kd_princs d2 /\
       check_handle (kc_lhandle conf) = Ok tt /\ n <> [] /\ kp_policy pol = Some n /\ kd_policies d !! n = Some p /\ adb_policy adb = Some n /\
       kd_policies d2 = <[n := set_refcnt (uint32 (long (po_policy_refcnt p) + 1)) p]> (kd_policies d) /\ kp_policy_refcnt pol = long (po_policy_refcnt p)).
Proof.
  intros HI HS [Hs1 Hs2] HPol HNo. destruct polent as [pol|].
    - destruct (HPol pol eq_refl) as (dp & EG & [_ Hp2] & HB). apply get_policy_ok in EG as (HH & _ & n & p & En & Hn & _ & HL & Hp & HR & _).
      rewrite Hp2 in HL. pose proof (store_refcnt_ok conf pol 1 d1 n p HH Hn Hp ltac:(by rewrite Hs2)) as E1. rewrite E1. eexists. split; [done|].
      cbn [kd_princs kd_policies set_policies]. rewrite Hs2. split; [done|]. split.
      + rewrite HR. pose proof (refcnt_range _ _ _ HI HS HL). eapply adjusted_ext; [apply adjusted_one; [done|lia|lia]|]. intros m. unfold delta, policy_in. rewrite HB, En.
        destruct (bool_decide_reflect (m = n)) as [->|]; [by rewrite bool_decide_eq_true_2|]. rewrite bool_decide_eq_false_2; [done|congruence].
      + intros pol' [= <-]. set (d2 := set_policies _ d1).
        pose proof (store_refcnt_ok conf pol 0 d2 n (set_refcnt (uint32 (kp_policy_refcnt pol + 1)) p) HH Hn Hp ltac:(cbn; rewrite Hs2; apply lookup_insert_eq)) as E2.
        rewrite E2. eexists _, n, p. repeat (split; [done|]). split; [by rewrite HR|done].
    - eexists. split; [done|]. split; [done|]. split; [|done]. rewrite Hs2. apply adjusted_id. intros n. unfold policy_in. by rewrite (HNo eq_refl).
Qed.

(** How a new entry ends: the count is stored, then the entry, and the count again if the
    entry cannot be stored. *)
Lemma create_put h mask entry kdb adb polent principal princ k d d1 :
  counts_ok d -> Z.of_nat (size (kd_princs d)) < 2 ^ 31 - 1 -> same d d1 -> dbe_princ kdb = Some princ -> krb5_copy_principal principal = Ok princ ->
  dbkey principal = Ok k -> kd_princs d !! k = None ->
  (forall pol, polent = Some pol -> exists d2, get_policy (kc_lhandle conf) (adb_policy adb) d2 = (Ok pol, d2) /\ same d d2 /\ has_bit (adb_aux_attributes adb) KADM5_POLICY = true) ->
  (polent = None -> has_bit (adb_aux_attributes adb) KADM5_POLICY = false) ->
  wp (do! _ := match polent with Some pol => store_refcnt conf pol 1 | None => sret (Ok tt) end in
      do! kdb := splice_tl_data mask entry kdb in
      do! r := attempt (kdb_put_entry clock h kdb adb) in
      match r, polent with
      | inr _, _ => sret (Ok tt)
      | inl e, Some pol => do! _ := attempt (store_refcnt conf pol 0) in sret (Err e)
      | inl e, None => sret (Err e)
      end) d1 (fun _ => good_after d) (fun _ => good_after d).
Proof.
  intros HI HS Hs HP HC Hk HN HPol HNo.
  destruct (count_new adb polent d d1 HI HS Hs HPol HNo) as (d2 & ES & HP2 & HA & HRest).
  apply wp_bind. unfold wp at 1. rewrite ES. apply wp_bind, splice_wp. intros kdb' HK'.
  apply wp_bind, wp_attempt, put_entry_wp.
  - intros p0 k0 kdb2 d3 Ep0 Ek0 HLike HP3 HPo3. apply wp_ret. rewrite HK', HP in Ep0. injection Ep0 as <-. rewrite (copy_dbkey _ _ HC), Hk in Ek0. injection Ek0 as <-.
    eapply (good_insert d d3 k kdb2 adb HI); [|by rewrite HP3, HP2|exists princ; split; [|by rewrite (copy_dbkey _ _ HC)]|].
    + rewrite HPo3. eapply adjusted_ext; [exact HA|]. intros n. rewrite has_policy_in, HN. cbn [counted]. lia.
    + destruct HLike as (-> & _). by rewrite HK'.
    + intros HB. destruct polent as [pol|]; [|by rewrite (HNo eq_refl) in HB].
      destruct (HRest pol eq_refl) as (_ & n & p & _ & _ & _ & _ & _ & HL & En & _). exists n. by rewrite HL.
  - intros c d3 [Hs3 Hs4]. destruct polent as [pol|].
    + destruct (HRest pol eq_refl) as (_ & n & p & _ & _ & HH & Hn & Hp & HL & En & HPo2 & HR).
      pose proof (store_refcnt_ok conf pol 0 d3 n (set_refcnt (uint32 (long (po_policy_refcnt p) + 1)) p) HH Hn Hp ltac:(rewrite Hs4, HPo2; apply lookup_insert_eq)) as E3.
      apply wp_bind, wp_attempt. unfold wp at 1. rewrite E3. apply wp_ret. split.
      * eapply counts_adjust; [exact HI|by cbn; rewrite Hs3, HP2| |intros m; reflexivity]. cbn [kd_policies set_policies]. rewrite Hs4, HPo2, insert_insert_eq.
        pose proof (refcnt_range _ _ _ HI HS HL). rewrite HR. change (set_refcnt ?a (set_refcnt ?b p)) with (set_refcnt a p).
        eapply adjusted_ext; [apply adjusted_one; [done|lia|lia]|]. intros m. unfold delta. by destruct (bool_decide _).
      * cbn [kd_princs set_policies]. rewrite Hs3, HP2. lia.
    + apply wp_ret. split; [|rewrite Hs3, HP2; lia]. eapply counts_adjust; [exact HI|by rewrite Hs3, HP2|rewrite Hs4; exact HA|].
      intros n. cbn. unfold policy_in. by rewrite (HNo eq_refl).
Qed.

Lemma get_policy_state h name d pol d' : get_policy h name d = (Ok pol, d') -> d' = d.
Proof. intros H. by apply get_policy_ok in H as (_ & -> & _). Qed.

Lemma lift_ok {A} (r : outcome error_code A) a d d' : @sret kadm_db kadm5_ret A (lift r) d = (Ok a, d') -> r = Ok a.
Proof. unfold sret. destruct r; cbn [lift]; intros H; by simplify_eq. Qed.

Lemma create_good h entry mask ks password d : counts_ok d -> Z.of_nat (size (kd_princs d)) < 2 ^ 31 - 1 ->
  wp (create_principal_3 conf clock h entry mask ks password) d (fun _ => good_after d) (fun _ => good_after d).
Proof.
  intros HI HS. assert (HE : forall (e : kadm5_ret) d', same d d' -> good_after d d') by (intros _ d'; by apply good_same).
  assert (Hs : same d d) by done. unfold create_principal_3. do 3 wskip. destruct password as [password|]; [|wdone].
  wstep found d4 Ef. destruct found as [e|x2]; [|wdone]. destruct (ke_principal entry) as [principal|]; [|done].
  apply attempt_inl, get_entry_unknown in Ef as (-> & q & [= <-] & HU). pose proof (proj1 Hs) as Hs4. wstep x3 d5 Er.
  assert (Hk : exists k, dbkey principal = Ok k /\ kd_princs d !! k = None).
  { destruct HU as [(_ & k & Hk & HN)|(c & -> & _)]; [|unfold refuse, sret in Er; by rewrite bool_decide_eq_false_2 in Er]. exists k. split; [done|]. rewrite <- Hs4. exact HN. }
  destruct Hk as (k & Hk & HN). pose proof (proj1 Hs) as Hs5. pose proof (proj2 Hs) as Hs5'. wstep polent d6 Ep. wstep x4 d7 E7. wstep now d8 E8. wstep kdb1 d9 E9. wstep princ d10 E10. wstep kdb2 d11 E11. wstep kdb3 d12 E12.
  assert (HC : krb5_copy_principal principal = Ok princ) by (by apply lift_ok in E10).
  apply cpw_name in E12. apply with_entry_ok in E11 as [E11 _]. apply update_tl_like in E11 as (E11 & _). apply requested_policy_ok in Ep.
  eapply create_put; [exact HI|exact HS|exact Hs|by rewrite E12, E11|exact HC|exact Hk|exact HN|..].
  - intros pol ->. destruct Ep as [HM Ep]. pose proof (get_policy_state _ _ _ _ _ Ep) as ->. exists d5. rewrite HM. cbn [adb_policy adb_aux_attributes].
    split; [exact Ep|]. by split.
  - intros ->. cbn [adb_aux_attributes]. by rewrite Ep.
Qed.

(** An entry as it is found, and what the count of its policy is to become without it *)
Lemma release_wp adb a kdb k d d1 (Q : unit -> kadm_db -> Prop) E : counts_ok d -> Z.of_nat (size (kd_princs d)) < 2 ^ 31 - 1 -> same d d1 ->
  kd_princs d !! k = Some (kdb, a) -> adb = default (OsaPrinc None 0 0 (hist_kvno conf) []) a ->
  (forall d2, kd_princs d2 = kd_princs d -> adjusted (kd_policies d) (kd_policies d2) (fun n => - counted n (Some (kdb, a))) -> Q tt d2) ->
  wp (if has_bit (adb_aux_attributes adb) KADM5_POLICY then
        do! r := attempt (get_policy (kc_lhandle conf) (adb_policy adb)) in
        match r with inr pol => store_refcnt conf pol (-1) | inl _ => sret Undefined end
      else sret (Ok tt)) d1 Q E.
Proof.
  intros HI HS [Hs1 Hs2] HL Ea HQ. destruct a as [a|]; cbn [default] in Ea; unfold id in Ea; subst adb.
  2: { apply wp_ret, HQ; [done|]. rewrite Hs2. by apply adjusted_id. }
  destruct (has_bit (adb_aux_attributes a) KADM5_POLICY) eqn:EB.
  2: { apply wp_ret, HQ; [done|]. rewrite Hs2. apply adjusted_id. intros n. cbn. unfold has_policy, policy_in. cbn. by rewrite EB. }
  apply wp_bind, wp_attempt. unfold wp at 1. destruct (get_policy _ _ d1) as [[pol|e| |] d2] eqn:EG; [|done..].
  apply get_policy_ok in EG as (HH & -> & n & p & En & Hn & _ & HLp & Hp & HR & _). unfold wp. rewrite (store_refcnt_ok conf pol (-1) d1 n p HH Hn Hp HLp).
  rewrite Hs2 in HLp. assert (HB : forall m, has_policy m (kdb, Some a) = bool_decide (m = n)).
  { intros m. rewrite has_policy_in. unfold policy_in. rewrite EB, En. apply bool_decide_ext. split; [by intros [= ->]|by intros ->]. }
  apply HQ; [done|]. cbn [kd_policies set_policies]. rewrite Hs2, HR. pose proof (refcnt_range _ _ _ HI HS HLp).
  pose proof (refcnt_used _ _ _ _ _ HI HLp HL ltac:(rewrite HB; by apply bool_decide_eq_true_2)).
  eapply adjusted_ext; [apply adjusted_one; [done|lia|lia]|]. intros m. cbn [counted]. rewrite HB. unfold delta. by destruct (bool_decide _).
Qed.

Lemma delete_good h princ d : counts_ok d -> Z.of_nat (size (kd_princs d)) < 2 ^ 31 - 1 ->
  wp (delete_principal conf h princ) d (fun _ => good_after d) (fun _ => good_after d).
Proof.
  intros HI HS. assert (HE : forall (e : kadm5_ret) d', same d d' -> good_after d d') by (intros _ d'; by apply good_same).
  assert (Hs : same d d) by done. unfold delete_principal. wskip. destruct princ as [princ|]; [|wdone].
  wstep e d2 Ee. destruct e as [kdb adb]. apply get_entry_ok in Ee as (-> & q & k & a & [= <-] & Hk & HL & Ea). rewrite (proj1 Hs) in HL.
  cbn [snd]. apply wp_bind. eapply release_wp; [done|done|done|exact HL|exact Ea|]. intros d3 HP HA.
  unfold wp, kdb_delete_entry. rewrite Hk, HP, HL. split.
  - eapply counts_delete; [exact HI| |cbn; by rewrite HP]. rewrite HL. exact HA.
  - cbn [kd_princs set_princs]. rewrite HP. pose proof (map_size_delete k (kd_princs d)) as HD. rewrite HL in HD. unfold id in *. rewrite HD. lia.
Qed.

Lemma default_policy_in n kdb kdb' a : has_policy n (kdb', Some (default (OsaPrinc None 0 0 (hist_kvno conf) []) a)) = has_policy n (kdb, a).
Proof. by destruct a. Qed.

Lemma default_known d k kdb a : counts_ok d -> kd_princs d !! k = Some (kdb, a) ->
  let adb := default (OsaPrinc None 0 0 (hist_kvno conf) []) a in
  has_bit (adb_aux_attributes adb) KADM5_POLICY = true -> exists n, adb_policy adb = Some n /\ is_Some (kd_policies d !! n).
Proof. intros HI HL adb HB. destruct a as [a|]; [|done]. by apply (ck_known _ HI k kdb). Qed.

(** An entry under another name *)
Lemma counts_rename d d' k k' kdb kdb' a : counts_ok d -> kd_princs d !! k = Some (kdb, a) -> kd_princs d !! k' = None -> kd_policies d' = kd_policies d ->
  (exists p, dbe_princ kdb' = Some p /\ dbkey p = Ok k') ->
  kd_princs d' = delete k (<[k' := (kdb', Some (default (OsaPrinc None 0 0 (hist_kvno conf) []) a))]> (kd_princs d)) -> counts_ok d'.
Proof.
  intros HI HL HN HPo HK HP. pose proof HI as [H1 H2 H3 H4]. assert (Hne : k' <> k) by (intros ->; congruence). split; try rewrite HPo; try rewrite HP; [| | |done].
  - intros n p Hp. rewrite users_delete, users_insert, lookup_insert_ne, HL, HN by done. cbn [counted]. rewrite (default_policy_in n kdb kdb'). rewrite (H1 _ _ Hp). lia.
  - intros k2 x (_ & HX)%lookup_delete_Some. apply lookup_insert_Some in HX as [[<- <-]|[_ HX]]; [done|by apply H2].
  - intros k2 kdb2 adb2 (_ & HX)%lookup_delete_Some HB. apply lookup_insert_Some in HX as [[<- [= <- <-]]|[_ HX]]; [|by eapply H3].
    by apply (default_known d k kdb a HI HL).
Qed.

Lemma rename_good h src tgt d : counts_ok d -> wp (rename_principal conf clock h src tgt) d (fun _ => good_after d) (fun _ => good_after d).
Proof.
  intros HI. assert (HE : forall (e : kadm5_ret) d', same d d' -> good_after d d') by (intros _ d'; by apply good_same).
  assert (Hs : same d d) by done. unfold rename_principal. wskip. destruct src as [src|]; [|wdone]. destruct tgt as [tgt|]; [|wdone].
  wstep found d2 Ef. destruct found as [e|]; [|wdone]. apply attempt_inl, get_entry_unknown in Ef as (-> & q & [= <-] & HU).
  pose proof (proj1 Hs) as Hs2. wstep e3 d3 Ee. destruct e3 as [kdb adb]. apply get_entry_ok in Ee as (-> & q & k & a & [= <-] & Hk & HL & Ea). rewrite Hs2 in HL.
  wstep keys d4 E4. wskip. wstep princ d5 E5. apply lift_ok in E5. apply wp_bind, put_entry_wp; [|intros c d6 Hs6; apply (HE KADM5_FAILURE); by etrans].
  intros p k' kdb' d6 Ep Ek' HLike HP HPo. cbn [dbe_princ with_princ] in Ep. injection Ep as <-. rewrite (copy_dbkey _ _ E5) in Ek'.
  destruct HU as [(_ & k0 & Hk0 & HN)|(c & _ & Hc)]; [|congruence]. rewrite Ek' in Hk0. injection Hk0 as <-. rewrite Hs2 in HN.
  destruct Hs as [Hs5 Hs6]. rewrite Hs5 in HP. rewrite Hs6 in HPo. assert (Hne : k' <> k) by (intros ->; congruence).
  unfold wp, kdb_delete_entry. rewrite Hk, HP, lookup_insert_ne, HL by done. split.
  - eapply (counts_rename d _ k k' kdb kdb' a HI HL HN); [exact HPo|exists princ; split; [by destruct HLike as (-> & _)|by rewrite (copy_dbkey _ _ E5)]|].
    cbn [kd_princs set_princs]. by rewrite HP, Ea.
  - cbn [kd_princs set_princs]. rewrite HP, map_size_delete, lookup_insert_ne, HL by done. unfold id. pose proof (size_insert_le (kd_princs d) k' (kdb', Some adb)). lia.
Qed.

(** Storing an entry again under its name and with its policy *)
Lemma put_same_good h kdb kdb' adb adb' a k d d1 : counts_ok d -> same d d1 -> kd_princs d !! k = Some (kdb, a) ->
  adb = default (OsaPrinc None 0 0 (hist_kvno conf) []) a -> dbe_princ kdb' = dbe_princ kdb ->
  adb_policy adb' = adb_policy adb -> adb_aux_attributes adb' = adb_aux_attributes adb ->
  wp (kdb_put_entry clock h kdb' adb') d1 (fun _ => good_after d) (fun _ => good_after d).
Proof.
  intros HI Hs HL Ea HN HPo HAu. apply put_entry_wp; [|intros c d2 Hs2; apply good_same; [done|by etrans]].
  intros p k' kdb2 d2 Ep Ek HLike HP2 HPo2. destruct Hs as [Hs1 Hs2].
  destruct (ck_names _ HI _ _ HL) as (q & Eq & Hk). cbn [fst] in Eq. rewrite HN, Eq in Ep. injection Ep as <-. rewrite Hk in Ek. injection Ek as <-.
  assert (HH : forall n, has_policy n (kdb2, Some adb') = has_policy n (kdb, a)).
  { intros n. rewrite <- (default_policy_in n kdb kdb2 a), !has_policy_in. unfold policy_in. by rewrite HPo, HAu, Ea. }
  eapply (good_insert d d2 k kdb2 adb' HI); [|by rewrite HP2, Hs1| |].
  - rewrite HPo2, Hs2. apply adjusted_id. intros n. rewrite HL. cbn [counted]. rewrite HH. lia.
  - exists q. split; [|done]. destruct HLike as (-> & _). by rewrite HN.
  - rewrite HPo, HAu, Ea. intros HB. by apply (default_known _ _ _ _ HI HL).
Qed.

(** What a change of policy does to the counts is what it does to the entry. *)
Definition change_ok (d : kadm_db) (kdb : krb5_db_entry_new) (a : option osa_princ_ent) (c : policy_change) : Prop :=
  dbe_princ (pc_kdb c) = dbe_princ kdb /\
  (has_bit (adb_aux_attributes (pc_adb c)) KADM5_POLICY = true -> exists n, adb_policy (pc_adb c) = Some n /\ is_Some (kd_policies d !! n)) /\
  (forall d1, same d d1 -> exists d2 d3, store_count conf (pc_opol c) d1 = (Ok tt, d2) /\ store_count conf (pc_npol c) d2 = (Ok tt, d3) /\ kd_princs d3 = kd_princs d /\
     adjusted (kd_policies d) (kd_policies d3) (fun n => Z.b2z (bool_decide (policy_in (pc_adb c) = Some n)) - counted n (Some (kdb, a)))).

Lemma change_same d d' kdb a c : same d d' -> change_ok d' kdb a c -> change_ok d kdb a c.
Proof.
  intros Hs (HN & HK & HC). destruct Hs as [Hs1 Hs2] eqn:E0. rewrite Hs2 in HK. split; [done|]. split; [done|]. intros d1 Hs3. rewrite <- Hs1, <- Hs2.
  apply HC. destruct Hs3. split; congruence.
Qed.

Lemma change_none d kdb a k : counts_ok d -> kd_princs d !! k = Some (kdb, a) ->
  change_ok d kdb a (PolicyChange None None kdb (default (OsaPrinc None 0 0 (hist_kvno conf) []) a)).
Proof.
  intros HI HL. split; [done|]. split; [by apply (default_known d k kdb)|]. intros d2 [Hs1 Hs2]. exists d2, d2. split; [done|]. split; [done|]. split; [done|].
  rewrite Hs2. apply adjusted_id. intros n. cbn [pc_adb counted]. rewrite <- (default_policy_in n kdb kdb a), has_policy_in. lia.
Qed.

(** A policy that has been read, and its count stored *)
Lemma store_read d d1 pol n p i : counts_ok d -> Z.of_nat (size (kd_princs d)) < 2 ^ 31 - 1 -> check_handle (kc_lhandle conf) = Ok tt -> n <> [] -> kp_policy pol = Some n ->
  kd_policies d !! n = Some p -> kp_policy_refcnt pol = long (po_policy_refcnt p) -> 0 <= po_policy_refcnt p + i <= po_policy_refcnt p + 1 ->
  kd_policies d1 !! n = Some p ->
  exists d2, store_count conf (Some (pol, i)) d1 = (Ok tt, d2) /\ kd_princs d2 = kd_princs d1 /\ adjusted (kd_policies d1) (kd_policies d2) (delta n i).
Proof.
  intros HI HS HC Hn Hp HL HR Hi HL1. cbn [store_count]. rewrite (store_refcnt_ok conf pol i d1 n p HC Hn Hp HL1). eexists. split; [done|]. split; [done|].
  pose proof (refcnt_range _ _ _ HI HS HL). cbn [kd_policies set_policies]. rewrite HR. apply adjusted_one; [done|lia|lia].
Qed.

Lemma clear_policy_ok kdb a k d c d' : counts_ok d -> Z.of_nat (size (kd_princs d)) < 2 ^ 31 - 1 -> kd_princs d !! k = Some (kdb, a) ->
  clear_policy conf kdb (default (OsaPrinc None 0 0 (hist_kvno conf) []) a) d = (Ok c, d') -> change_ok d kdb a c.
Proof.
  intros HI HS HL. unfold clear_policy. set (adb := default _ _). destruct (has_bit (adb_aux_attributes adb) KADM5_POLICY) eqn:EB.
  - destruct a as [a|]; [|done]. subst adb. cbn [default] in *. unfold id in *. intros (r & d1 & E1 & H)%sbind_ok. destruct r as [e|opol]; [done|].
    injection H as <- _. apply attempt_inr, get_policy_ok in E1 as (HH & -> & n & p & En & Hn & _ & HLp & Hp & HR & _).
    assert (HB : forall m, has_policy m (kdb, Some a) = bool_decide (m = n)).
    { intros m. rewrite has_policy_in. unfold policy_in. rewrite EB, En. apply bool_decide_ext. split; [by intros [= ->]|by intros ->]. }
    assert (H0 : has_bit (Z.land (adb_aux_attributes a) (Z.lnot KADM5_POLICY)) KADM5_POLICY = false).
    { unfold has_bit. by rewrite <- Z.land_assoc, (Z.land_comm (Z.lnot _)), Z.land_lnot_diag, Z.land_0_r. }
    split; [done|]. split; [cbn; by rewrite H0|]. intros d2 [Hs1 Hs2].
    pose proof (refcnt_used _ _ _ _ _ HI HLp HL ltac:(rewrite HB; by apply bool_decide_eq_true_2)).
    destruct (store_read d d2 opol n p (-1) HI HS HH Hn Hp HLp HR ltac:(lia) ltac:(by rewrite Hs2)) as (d3 & E3 & HP3 & HA3).
    exists d3, d3. split; [exact E3|]. split; [done|]. split; [by rewrite HP3|]. rewrite Hs2 in HA3. eapply adjusted_ext; [exact HA3|]. intros m.
    cbn [pc_adb counted]. rewrite HB. unfold policy_in, with_policy, delta. cbn [adb_aux_attributes]. rewrite H0. by destruct (bool_decide (m = n)).
  - unfold sret. intros [= <- _]. by apply (change_none _ _ _ k).
Qed.

(** Reading a policy that exists fails for want of memory only. *)
Lemma get_known h n p d e d' : check_handle h = Ok tt -> n <> [] -> kd_policies d !! n = Some p -> get_policy h (Some n) d = (Err e, d') -> e = Krb5Code ENOMEM.
Proof.
  intros HH Hn HL. unfold get_policy, sbind, CHECK_HANDLE, sret. rewrite HH. unfold refuse, sret. rewrite bool_decide_eq_false_2 by done. cbn [negb guard].
  unfold lookup_policy. rewrite HL. destruct (strdup n); [by destruct (_ && _)|by intros [= <- _]].
Qed.

(** The old policy of an entry that gets the policy [n] *)
Lemma old_policy_ok n kdb a k d d1 r d2 (adb := default (OsaPrinc None 0 0 (hist_kvno conf) []) a) : counts_ok d -> Z.of_nat (size (kd_princs d)) < 2 ^ 31 - 1 ->
  check_handle (kc_lhandle conf) = Ok tt -> kd_princs d !! k = Some (kdb, a) -> same d d1 ->
  (if has_bit (adb_aux_attributes adb) KADM5_POLICY then
     match adb_policy adb with
     | None => sret Undefined
     | Some old =>
         if bool_decide (Some old = Some n) then sret (Ok (None, 0))
         else
           do! r := attempt (get_policy (kc_lhandle conf) (Some old)) in
           match r with
           | inr opol => sret (Ok (Some (opol, -1), 1))
           | inl e => if bool_decide (e = Krb5Code EINVAL) || bool_decide (e = KADM5_BAD_POLICY) || bool_decide (e = KADM5_UNK_POLICY)
                      then sret (Ok (None, 1)) else sret (Err e)
           end
     end
   else sret (Ok (None, 1))) d1 = (Ok r, d2) ->
  (r.2 = 0 \/ r.2 = 1) /\
  forall d1, same d d1 -> exists d2 f, store_count conf r.1 d1 = (Ok tt, d2) /\ kd_princs d2 = kd_princs d /\ adjusted (kd_policies d) (kd_policies d2) f /\
    kd_policies d2 !! n = kd_policies d !! n /\ (forall m, f m + delta n r.2 m = Z.b2z (bool_decide (m = n)) - counted m (Some (kdb, a))).
Proof.
  intros HI HS HH HL [Hs1 Hs2]. destruct (has_bit (adb_aux_attributes adb) KADM5_POLICY) eqn:EB.
  2: { unfold sret. intros [= <- _]. split; [by right|]. intros d3 [Hs4 Hs3]. exists d3, (fun _ => 0). split; [done|]. split; [done|]. rewrite Hs3. split; [by apply adjusted_id|].
       split; [done|]. intros m. cbn [counted]. rewrite <- (default_policy_in m kdb kdb a). fold adb. rewrite has_policy_in. unfold policy_in, delta. rewrite EB. by destruct (bool_decide (m = n)). }
  destruct a as [a|]; [|done]. subst adb. cbn [default] in *. unfold id in *.
  destruct (ck_known _ HI _ _ _ HL EB) as (o & Eo & p & Hp). rewrite Eo.
  assert (Hon : o <> []) by (intros ->; by rewrite (ck_named _ HI) in Hp).
  assert (HB : forall m, has_policy m (kdb, Some a) = bool_decide (m = o)).
  { intros m. rewrite has_policy_in. unfold policy_in. rewrite EB, Eo. apply bool_decide_ext. split; [by intros [= ->]|by intros ->]. }
  destruct (bool_decide_reflect (Some o = Some n)) as [[= ->]|Hne].
  - unfold sret. intros [= <- _]. split; [by left|]. intros d3 [Hs4 Hs3]. exists d3, (fun _ => 0). split; [done|]. split; [done|]. rewrite Hs3. split; [by apply adjusted_id|].
    split; [done|]. intros m. cbn [counted]. rewrite HB. unfold delta. cbn. destruct (bool_decide (m = n)); lia.
  - intros (g & d3 & E3 & H)%sbind_ok. destruct g as [e|opol].
    { apply attempt_inl in E3. rewrite <- Hs2 in Hp. pose proof (get_known _ _ _ _ _ _ HH Hon Hp E3) as ->. done. }
    apply attempt_inr, get_policy_ok in E3 as (_ & -> & o' & p' & [= <-] & _ & _ & HLp & Hop & HR & _). rewrite Hs2, Hp in HLp. injection HLp as <-.
    unfold sret in H. injection H as <- <-. split; [by right|]. intros d4 [Hs5 Hs4].
    pose proof (refcnt_used _ _ _ _ _ HI Hp HL ltac:(rewrite HB; by apply bool_decide_eq_true_2)).
    destruct (store_read d d4 opol o p (-1) HI HS HH Hon Hop Hp HR ltac:(lia) ltac:(by rewrite Hs4)) as (d5 & E5 & HP5 & HA5). rewrite Hs4 in HA5.
    exists d5, (delta o (-1)). split; [exact E5|]. split; [by rewrite HP5|]. split; [done|]. split.
    + cbn [store_count fst] in E5. rewrite (store_refcnt_ok conf opol (-1) d4 o p HH Hon Hop) in E5 by (by rewrite Hs4). injection E5 as <-.
      cbn [kd_policies set_policies]. rewrite lookup_insert_ne by congruence. by rewrite Hs4.
    + intros m. cbn [counted snd]. rewrite HB. unfold delta. destruct (bool_decide (m = o)), (bool_decide (m = n)); cbn; lia.
Qed.

Lemma set_policy_ok name kdb a k d c d' : counts_ok d -> Z.of_nat (size (kd_princs d)) < 2 ^ 31 - 1 -> kd_princs d !! k = Some (kdb, a) ->
  set_policy conf name kdb (default (OsaPrinc None 0 0 (hist_kvno conf) []) a) d = (Ok c, d') -> change_ok d kdb a c.
Proof.
  intros HI HS HL. unfold set_policy. intros (r & d1 & E1 & H)%sbind_ok. destruct r as [e|npol]; [done|].
  apply attempt_inr, get_policy_ok in E1 as (HH & -> & n & p & -> & Hn & HD & HLp & Hp & HR & _).
  apply sbind_ok in H as ([opol i] & d2 & E2 & H).
  destruct (old_policy_ok n kdb a k d d (opol, i) d2 HI HS HH HL ltac:(done) E2) as [Hi HO]. cbn [fst snd] in *.
  apply sbind_ok in H as (pw & d3 & E3 & H). unfold sret in H. injection H as <- _.
  set (adb := default _ a). assert (HB : has_bit (Z.lor (adb_aux_attributes adb) KADM5_POLICY) KADM5_POLICY = true) by (by apply has_bit_set).
  split; [done|]. split; [intros _; exists n; by rewrite HLp; cbn; rewrite HD|].
  intros d4 Hs4. destruct (HO d4 Hs4) as (d5 & f & E5 & HP5 & HA5 & HL5 & Hf). rewrite HLp in HL5. pose proof (refcnt_range _ _ _ HI HS HLp).
  destruct (store_read d d5 npol n p i HI HS HH Hn Hp HLp HR ltac:(lia) HL5) as (d6 & E6 & HP6 & HA6).
  exists d5, d6. split; [exact E5|]. split; [exact E6|]. split; [congruence|]. eapply adjusted_ext; [exact (adjusted_trans _ _ _ _ _ HA5 HA6)|].
  intros m. cbn beta. rewrite Hf. cbn [pc_adb]. f_equal. unfold policy_in, with_policy. cbn [adb_aux_attributes adb_policy]. rewrite HB. cbn [mbind option_bind]. rewrite HD. f_equal.
  apply bool_decide_ext. split; [by intros ->|by intros [= ->]].
Qed.

Lemma modified_ok entry mask kdb r : modified entry mask kdb = r -> match r with Ok kdb' => dbe_princ kdb' = dbe_princ kdb | Err e => exists c, e = Krb5Code c | _ => True end.
Proof.
  intros <-. unfold modified. cbn zeta. destruct (has_bit mask KADM5_KVNO); [destruct (key_data_of _ _) as [keys|c| |]; cbn [lift obind]; [| |done..]|]; [|by eexists|].
  all: cbn [obind]; destruct (has_bit mask KADM5_TL_DATA); [|done]; destruct (dup_all _ _); cbn [lift obind]; try done; by eexists.
Qed.

(** A change that cannot be stored leaves the counts changed: the errors of the database are
    excluded where the policy was to be changed. *)
Lemma modify_good h entry mask d : counts_ok d -> Z.of_nat (size (kd_princs d)) < 2 ^ 31 - 1 ->
  wp (modify_principal conf clock h entry mask) d (fun _ => good_after d)
    (fun e d' => good_after d d' \/ any_bit mask [KADM5_POLICY; KADM5_POLICY_CLR] = true /\ exists c, e = Krb5Code c).
Proof.
  intros HI HS. assert (HE : forall (e : kadm5_ret) d', same d d' -> good_after d d' \/ any_bit mask [KADM5_POLICY; KADM5_POLICY_CLR] = true /\ exists c, e = Krb5Code c)
    by (intros e d' Hs; left; by apply good_same).
  assert (Hs : same d d) by done. unfold modify_principal. do 5 wskip. wstep x5 d6 E6. destruct x5 as [kdb adb].
  apply get_entry_ok in E6 as (-> & q & k & a & _ & Hk & HL & Ea). rewrite (proj1 Hs) in HL. pose proof (counts_same _ _ Hs HI) as HI4. pose proof (proj1 Hs) as Hs4. pose proof (proj2 Hs) as Hs4'.
  wstep c d7 E7. rewrite Ea in E7. apply wp_bind.
  assert (HC : change_ok d kdb a c /\ (any_bit mask [KADM5_POLICY; KADM5_POLICY_CLR] = false -> pc_opol c = None /\ pc_npol c = None)).
  { split; [|intros EM; apply orb_false_iff in EM as [EM1 EM2]; apply orb_false_iff in EM2 as [EM2 _]; rewrite EM1, EM2 in E7; unfold sret in E7; by injection E7 as <- _].
    apply (change_same d d4); [by split|]. rewrite <- Hs4 in HL. assert (HS4 : Z.of_nat (size (kd_princs d4)) < 2 ^ 31 - 1) by (by rewrite Hs4).
    destruct (has_bit mask KADM5_POLICY); [by eapply set_policy_ok|]. destruct (has_bit mask KADM5_POLICY_CLR); [by eapply clear_policy_ok|].
    unfold sret in E7. injection E7 as <- _. by apply (change_none _ _ _ k). }
  destruct HC as [(HN & HK & HC) HNo]. destruct (HC d7 Hs) as (d8 & d9 & E8 & E9 & HP9 & HA9).
  unfold wp at 1. rewrite E8. apply wp_bind. unfold wp at 1. rewrite E9.
  assert (HE9 : forall c d', same d9 d' -> good_after d d' \/ any_bit mask [KADM5_POLICY; KADM5_POLICY_CLR] = true /\ exists c', Krb5Code c = Krb5Code c').
  { intros c0 d' Hs9. destruct (any_bit mask _) eqn:EM; [right; split; [done|by eexists]|]. destruct (HNo eq_refl) as [EO EN]. rewrite EO in E8. rewrite EN in E9.
    unfold sret, store_count in E8, E9. injection E8 as <-. injection E9 as <-. left. apply good_same; [done|by etrans]. }
  apply wp_bind. unfold wp at 1. unfold sret at 1. pose proof (modified_ok entry mask (pc_kdb c) _ eq_refl) as HM. destruct (modified _ _ _) as [kdb'|e| |]; [|destruct HM as [c0 ->]; by apply HE9|done|done].
  apply put_entry_wp; [|intros c0 d' Hs9; by apply HE9]. intros p k' kdb2 d' Ep Ek HLike HP' HPo'.
  destruct (ck_names _ HI _ _ HL) as (q' & Eq & Hk'). cbn [fst] in Eq. rewrite HM, HN, Eq in Ep. injection Ep as <-. rewrite Hk' in Ek. injection Ek as <-.
  eapply (good_insert d d' k kdb2 (pc_adb c) HI); [|by rewrite HP', HP9|exists q'; split; [destruct HLike as (-> & _); by rewrite HM, HN|done]|exact HK].
  rewrite HPo', HL. eapply adjusted_ext; [exact HA9|]. intros n. by rewrite has_policy_in.
Qed.

(** *** Keys *)

Lemma finish_keys_name h kdb adb pol now d kdb' d' : finish_keys h kdb adb pol now d = (Ok kdb', d') -> dbe_princ kdb' = dbe_princ kdb.
Proof. unfold finish_keys. intros (t & d1 & _ & H)%sbind_ok. apply with_entry_ok in H as [H _]. by apply update_tl_like in H as (-> & _). Qed.

Lemma add_to_history_policy adb pol pw adb' : add_to_history adb pol pw = Ok adb' -> adb_policy adb' = adb_policy adb /\ adb_aux_attributes adb' = adb_aux_attributes adb.
Proof.
  unfold add_to_history. destruct (_ =? 1); [by intros [= <-]|]. intros (l & _ & H)%obind_ok. destruct (_ || _); [done|]. by injection H as <-.
Qed.

Lemma check_history_policy keys current adb pol d adb' d' : check_history conf keys current adb pol d = (Ok adb', d') ->
  adb_policy adb' = adb_policy adb /\ adb_aux_attributes adb' = adb_aux_attributes adb.
Proof.
  unfold check_history. intros (hist & d1 & _ & H)%sbind_ok. apply sbind_ok in H as (_ & d2 & _ & H). destruct (1 <? _); [|unfold sret in H; by injection H as <- _].
  apply sbind_ok in H as (_ & d3 & _ & H). apply sbind_ok in H as (_ & d4 & _ & H). unfold sret in H. injection H as H _. by apply add_to_history_policy in H.
Qed.

Lemma chpass_good h princ keepold ks passwd d : counts_ok d ->
  wp (chpass_principal_3 conf clock h princ keepold ks passwd) d (fun _ => good_after d) (fun _ => good_after d).
Proof.
  intros HI. assert (HE : forall (e : kadm5_ret) d', same d d' -> good_after d d') by (intros _ d'; by apply good_same).
  assert (Hs : same d d) by done. unfold chpass_principal_3. wskip. destruct princ as [princ|]; [|wdone]. destruct passwd as [passwd|]; [|wdone].
  do 2 wskip. wstep x2 d4 E4. destruct x2 as [kdb adb]. apply get_entry_ok in E4 as (-> & q & k & a & [= <-] & Hk & HL & Ea). rewrite (proj1 Hs) in HL.
  wstep x3 d5 E5. destruct x3 as [kdb_save adb_save]. wstep pol d6 E6. wskip. wstep kdb1 d8 E8. wstep now d9 E9. apply cpw_name in E8.
  eapply wp_step; [|exact Hs|done|].
  { destruct pol; quiet. }
  clear Hs. intros adb' d10 E10 Hs.
  assert (HA : adb_policy adb' = adb_policy adb /\ adb_aux_attributes adb' = adb_aux_attributes adb).
  { destruct pol as [pol|]; [|unfold sret in E10; by injection E10 as <- _]. do 3 (apply sbind_ok in E10 as (? & ? & _ & E10)). by apply check_history_policy in E10. }
  destruct HA as [HA1 HA2]. wstep kdb2 d11 E11. apply finish_keys_name in E11. eapply put_same_good; [exact HI|exact Hs|exact HL|exact Ea|by rewrite E11, <- E8|exact HA1|exact HA2].
Qed.

Lemma randkey_good h princ keepold ks d : counts_ok d ->
  wp (randkey_principal_3 conf clock h princ keepold ks) d (fun _ => good_after d) (fun _ => good_after d).
Proof.
  intros HI. assert (HE : forall (e : kadm5_ret) d', same d d' -> good_after d d') by (intros _ d'; by apply good_same).
  assert (Hs : same d d) by done. unfold randkey_principal_3. wskip. destruct princ as [princ|]; [|wdone].
  do 2 wskip. wstep x2 d4 E4. destruct x2 as [kdb adb]. apply get_entry_ok in E4 as (-> & q & k & a & [= <-] & Hk & HL & Ea). rewrite (proj1 Hs) in HL.
  wskip. wstep kdb1 d6 E6. apply crk_name in E6. wskip. wskip. wskip. wskip. wstep kdb2 d11 E11. apply finish_keys_name in E11. wskip.
  apply wp_bind. eapply wp_weaken; [eapply put_same_good; [exact HI|exact Hs|exact HL|exact Ea|by rewrite E11, <- E6|done|done]|intros; by apply wp_ret|done].
Qed.

Lemma store_set_keys_good h kdb kdb' adb a k d d1 : counts_ok d -> same d d1 -> kd_princs d !! k = Some (kdb, a) ->
  adb = default (OsaPrinc None 0 0 (hist_kvno conf) []) a -> dbe_princ kdb' = dbe_princ kdb ->
  wp (store_set_keys conf clock h kdb' adb) d1 (fun _ => good_after d) (fun _ => good_after d).
Proof.
  intros HI Hs HL Ea HN. assert (HE : forall (e : kadm5_ret) d', same d d' -> good_after d d') by (intros _ d'; by apply good_same).
  unfold store_set_keys. do 2 wskip. wstep kdb2 d4 E4. apply finish_keys_name in E4. eapply put_same_good; [exact HI|exact Hs|exact HL|exact Ea|by rewrite E4, <- HN|done|done].
Qed.

Lemma setv4key_good h princ key d : counts_ok d -> wp (setv4key_principal conf clock h princ key) d (fun _ => good_after d) (fun _ => good_after d).
Proof.
  intros HI. assert (HE : forall (e : kadm5_ret) d', same d d' -> good_after d d') by (intros _ d'; by apply good_same).
  assert (Hs : same d d) by done. unfold setv4key_principal. wskip. destruct princ as [princ|]; [|wdone]. destruct key as [key|]; [|wdone].
  do 3 wskip. wstep x3 d5 E5. destruct x3 as [kdb adb]. apply get_entry_ok in E5 as (-> & q & k & a & [= <-] & Hk & HL & Ea). rewrite (proj1 Hs) in HL.
  do 2 wskip. destruct (malloc _); [|wdone]. wstep x6 d8 E8. destruct x6 as [r key']. destruct r as [[]|e| |].
  - by eapply store_set_keys_good.
  - wskip. apply wp_ret. by apply (HE KADM5_FAILURE).
  - wskip. done.
  - wskip. done.
Qed.

Lemma setkey_good h princ keepold ks keys d : counts_ok d -> wp (setkey_principal_3 conf clock h princ keepold ks keys) d (fun _ => good_after d) (fun _ => good_after d).
Proof.
  intros HI. assert (HE : forall (e : kadm5_ret) d', same d d' -> good_after d d') by (intros _ d'; by apply good_same).
  assert (Hs : same d d) by done. unfold setkey_principal_3. wskip. destruct princ as [princ|]; [|wdone]. destruct keys as [|key keys]; [wdone|].
  do 4 wskip. wstep x4 d6 E6. destruct x4 as [kdb adb]. apply get_entry_ok in E6 as (-> & q & k & a & [= <-] & Hk & HL & Ea). rewrite (proj1 Hs) in HL.
  do 2 wskip. destruct (malloc _); [|wdone]. wskip. by eapply store_set_keys_good.
Qed.

(** *** Policies *)

Lemma unused_policy d n k x : counts_ok d -> users (kd_princs d) n = 0 -> kd_princs d !! k = Some x -> has_policy n x = false.
Proof.
  intros HI H0 HL. destruct (has_policy n x) eqn:EH; [|done]. pose proof (users_delete (kd_princs d) k n) as HU. pose proof (users_range (delete k (kd_princs d)) n) as HR.
  rewrite HL in HU. cbn [counted] in HU. rewrite EH in HU. change (Z.b2z true) with 1 in HU. lia.
Qed.

Lemma unknown_policy d n : counts_ok d -> kd_policies d !! n = None -> users (kd_princs d) n = 0.
Proof.
  intros HI HN. unfold users. rewrite map_empty_filter_2; [done|]. intros k [kdb [a|]] HL; [|done]. cbn [snd]. rewrite has_policy_in. unfold policy_in.
  destruct (has_bit _ _) eqn:EB; [|done]. destruct (ck_known _ HI _ _ _ HL EB) as (m & -> & Hm). rewrite bool_decide_eq_true. intros [= ->]. rewrite HN in Hm. by destruct Hm.
Qed.

Lemma policy_members_refcnt entry mask p life p' : has_bit mask KADM5_REF_COUNT = false -> policy_members entry mask p life = Ok p' -> po_policy_refcnt p' = po_policy_refcnt p.
Proof. intros HM. unfold policy_members. do 4 (let H := fresh in intros (_ & _ & H)%obind_ok; revert H). intros [= <-]. cbn [po_policy_refcnt]. by rewrite HM. Qed.

Lemma create_policy_good h entry mask d : counts_ok d -> wp (create_policy h entry mask) d (fun _ => good_after d) (fun _ => good_after d).
Proof.
  intros HI. assert (HE : forall (e : kadm5_ret) d', same d d' -> good_after d d') by (intros _ d'; by apply good_same).
  assert (Hs : same d d) by done. unfold create_policy, kadm5_create_policy_internal. wskip. wstep x1 d2 E2. wskip. destruct (kp_policy entry) as [n|]; [|wdone].
  wstep x3 d4 E4. do 3 wskip. wstep p d8 E8. wstep old d9 E9. destruct old as [|]; [wdone|].
  assert (Hn : n <> []) by (intros ->; by rewrite bool_decide_eq_true_2 in E4).
  unfold refuse, sret in E2. injection E2 as E2 _. unfold sret in E8. injection E8 as E8 ->. destruct (has_bit mask KADM5_REF_COUNT) eqn:EM; [done|].
  apply policy_members_refcnt in E8; [|done]. unfold lookup_policy in E9. injection E9 as E9 ->. destruct Hs as [Hs1 Hs2]. rewrite Hs2 in E9.
  unfold wp, store_policy. split; [|cbn; rewrite Hs1; lia]. pose proof HI as [H1 H2 H3 H4]. split; cbn [kd_policies kd_princs set_policies]; rewrite ?Hs1, ?Hs2; [|done| |].
  - intros m p0 [[<- <-]|[_ HL]]%lookup_insert_Some; [by rewrite E8, (unknown_policy d n HI E9)|by apply H1].
  - intros k kdb adb HL HB. destruct (H3 _ _ _ HL HB) as (m & Em & Hm). exists m. split; [done|]. apply lookup_insert_is_Some. destruct (decide (n = m)); [by left|by right].
  - rewrite lookup_insert_ne by done. done.
Qed.

Lemma modify_policy_good h entry mask d : counts_ok d -> wp (modify_policy h entry mask) d (fun _ => good_after d) (fun _ => good_after d).
Proof.
  intros HI. assert (HE : forall (e : kadm5_ret) d', same d d' -> good_after d d') by (intros _ d'; by apply good_same).
  assert (Hs : same d d) by done. unfold modify_policy, kadm5_modify_policy_internal. wskip. wstep x1 d2 E2. wskip. destruct (kp_policy entry) as [n|]; [|wdone].
  do 2 wskip. wstep p d6 E6. destruct p as [p|]; [|wdone]. wstep p' d7 E7. unfold refuse, sret in E2. injection E2 as E2 _. unfold sret in E7. injection E7 as E7 ->.
  destruct (has_bit mask KADM5_REF_COUNT) eqn:EM; [done|]. apply policy_members_refcnt in E7; [|done]. unfold lookup_policy in E6. injection E6 as E6 ->.
  destruct Hs as [Hs1 Hs2]. rewrite Hs2 in E6. unfold wp, store_policy. split; [|cbn; rewrite Hs1; lia].
  apply (counts_adjust d _ (fun _ => 0) HI); [done| |done]. cbn [kd_policies set_policies]. rewrite Hs2. intros m. destruct (decide (m = n)) as [->|Hm].
  - rewrite E6, lookup_insert_eq. lia.
  - rewrite lookup_insert_ne by done. destruct (_ !! m); [lia|done].
Qed.

Lemma delete_policy_good h name d : counts_ok d -> wp (delete_policy h name) d (fun _ => good_after d) (fun _ => good_after d).
Proof.
  intros HI. assert (HE : forall (e : kadm5_ret) d', same d d' -> good_after d d') by (intros _ d'; by apply good_same).
  assert (Hs : same d d) by done. unfold delete_policy. wskip. destruct name as [n|]; [|wdone]. wskip. wstep p d3 E3. destruct p as [p|]; [|wdone]. wstep x4 d4 E4.
  unfold lookup_policy in E3. injection E3 as E3 ->. unfold refuse, sret in E4. injection E4 as E4 <-. destruct Hs as [Hs1 Hs2]. rewrite Hs2 in E3.
  destruct (Z.eqb_spec (po_policy_refcnt p) 0) as [Hp|]; [|done]. unfold wp. split; [|cbn; rewrite Hs1; lia].
  pose proof HI as [H1 H2 H3 H4]. rewrite (H1 _ _ E3) in Hp. split; cbn [kd_policies kd_princs set_policies]; rewrite ?Hs1, ?Hs2; [|done| |].
  - intros m p0 [_ HL]%lookup_delete_Some. by apply H1.
  - intros k kdb adb HL HB. destruct (H3 _ _ _ HL HB) as (m & Em & Hm). exists m. split; [done|]. rewrite lookup_delete_ne; [done|]. intros ->.
    pose proof (unused_policy _ _ _ _ HI Hp HL) as HU. rewrite has_policy_in in HU. unfold policy_in in HU. rewrite HB, Em, bool_decide_eq_true_2 in HU; done.
  - by rewrite lookup_delete_None; right.
Qed.

Lemma quiet_get_principal h princ mask : quiet (get_principal conf get h princ mask).
Proof.
  unfold get_principal. quiet. intros d. unfold lookup_mod_princ. by destruct (krb5_dbe_lookup_mod_princ_data _ _ _).
Qed.

(** *** Any call *)

Context (matching : option (list octet) -> list (list octet) -> outcome kadm5_ret (list (list octet))).

(** The call changes the policy of an entry and fails in the database. *)
Definition lost_change (c : kadm5_call) (r : outcome kadm5_ret kadm5_reply) : Prop :=
  match c, r with
  | kadm5_modify_principal _ mask, Err (Krb5Code _) => any_bit mask [KADM5_POLICY; KADM5_POLICY_CLR] = true
  | _, _ => False
  end.

Lemma finished_good (m : kproc unit) d Q E : wp m d (fun _ => Q) E -> wp (finished m) d (fun _ => Q) E.
Proof. intros H. unfold finished. apply wp_bind. eapply wp_weaken; [exact H|intros; by apply wp_ret|done]. Qed.

Lemma quiet_good {A} (m : kproc A) d : counts_ok d -> quiet m -> wp m d (fun _ => good_after d) (fun _ => good_after d).
Proof. intros HI Hq. apply wp_quiet; [done|intros a d' _ Hs; by apply good_same|intros e d' Hs; by apply good_same]. Qed.

Lemma kadm5_good who c d : counts_ok d -> Z.of_nat (size (kd_princs d)) < 2 ^ 31 - 1 ->
  wp (kadm5 conf clock get matching who c) d (fun _ => good_after d) (fun e d' => lost_change c (Err e) \/ good_after d d').
Proof.
  intros HI HS. set (h := default (kc_lhandle conf) who).
  assert (HW : forall m : kproc kadm5_reply, wp m d (fun _ => good_after d) (fun _ => good_after d) -> wp m d (fun _ => good_after d) (fun e d' => lost_change c (Err e) \/ good_after d d')).
  { intros m Hm. eapply wp_weaken; [exact Hm|done|by right]. }
  assert (HQ : forall m : kproc kadm5_reply, quiet m -> wp m d (fun _ => good_after d) (fun e d' => lost_change c (Err e) \/ good_after d d')).
  { intros m Hm. by apply HW, quiet_good. }
  unfold kadm5. fold h. pose proof (quiet_get_principal h) as HG. destruct c.
  4: { apply finished_good. eapply wp_weaken; [by apply modify_good|done|]. intros e d' [H|(HM & c & ->)]; [by right|by left]. }
  1: by apply HW, finished_good, create_good.
  1: by apply HW, finished_good, create_good.
  1: by apply HW, finished_good, delete_good.
  1: by apply HW, finished_good, rename_good.
  1: apply HQ; quiet; apply HG.
  1: apply HQ; quiet; apply HG.
  1: apply HQ; quiet; by intros ?.
  1: by apply HW, finished_good, chpass_good.
  1: by apply HW, finished_good, chpass_good.
  1: by apply HW, finished_good, setv4key_good.
  1: by apply HW, finished_good, setkey_good.
  1: by apply HW, finished_good, setkey_good.
  1: { apply HW, wp_bind. eapply wp_weaken; [by apply randkey_good|intros; by apply wp_ret|done]. }
  1: { apply HW, wp_bind. eapply wp_weaken; [by apply randkey_good|intros; by apply wp_ret|done]. }
  1: by apply HW, finished_good, create_policy_good.
  1: by apply HW, finished_good, delete_policy_good.
  1: by apply HW, finished_good, modify_policy_good.
  1: apply HQ; quiet.
  1: apply HQ; quiet.
  1: apply HQ; quiet; by intros ?.
  apply HQ; quiet.
Qed.

(** A history of calls that return, with what they return *)
Inductive served : kadm_db -> list (kadm5_call * outcome kadm5_ret kadm5_reply) -> kadm_db -> Prop :=
| served_nil d : served d [] d
| served_cons who c d r d1 l d2 : kadm5 conf clock get matching who c d = (r, d1) -> r <> Undefined -> r <> OutOfFuel -> served d1 l d2 -> served d ((c, r) :: l) d2.

Lemma served_good d l d' : served d l d' -> counts_ok d -> Z.of_nat (size (kd_princs d)) + zlen l < 2 ^ 31 ->
  Forall (fun cr => ~ lost_change cr.1 cr.2) l -> counts_ok d'.
Proof.
  induction 1 as [|who c d r d1 l d2 Ec HU HO _ IH]; [done|]. intros HI HS [HL HF]%Forall_cons_1. rewrite zlen_cons in HS. pose proof (zlen_nonneg l) as Hl.
  pose proof (kadm5_good who c d HI ltac:(lia)) as HG. unfold wp in HG. rewrite Ec in HG.
  assert (H1 : good_after d d1) by (destruct r; [done| |done|done]; destruct HG as [HG|HG]; [done|done]).
  destruct H1 as [H1 H2]. apply IH; [done|lia|done].
Qed.

(** C23: Over any history of calls of the administration library that return, and in
    which no change of policy is lost in an error of the database, the count of
    references of every policy is the number of the principals that have the policy; a
    policy that is in use cannot be deleted, and no principal has a policy that does not
    exist. *)
Theorem policy_counts d l d' h n : counts_ok d -> served d l d' -> Forall (fun cr => ~ lost_change cr.1 cr.2) l ->
  Z.of_nat (size (kd_princs d)) + zlen l < 2 ^ 31 -> check_handle h = Ok tt ->
  match kd_policies d' !! n with
  | Some p => po_policy_refcnt p = users (kd_princs d') n /\ (0 < users (kd_princs d') n -> delete_policy h (Some n) d' = (Err KADM5_POLICY_REF, d'))
  | None => users (kd_princs d') n = 0
  end.
Proof.
  intros HI HH HF HS HC. pose proof (served_good _ _ _ HH HI HS HF) as HI'. destruct (kd_policies d' !! n) as [p|] eqn:EL; [|by apply unknown_policy].
  pose proof (ck_counts _ HI' _ _ EL) as Hp. split; [done|]. intros HU. unfold delete_policy, sbind, CHECK_HANDLE, sret. rewrite HC. unfold refuse, sret.
  rewrite bool_decide_eq_false_2 by (intros ->; by rewrite (ck_named _ HI') in EL). cbn [negb guard]. unfold lookup_policy. rewrite EL.
  destruct (Z.eqb_spec (po_policy_refcnt p) 0); [lia|done].
Qed.

(** *** Behind the server *)

(** The calls of a log return, and lose no change of policy. *)
Fixpoint returning (log : list (option server_handle * kadm5_call)) (d : kadm_db) : Prop :=
  match log with
  | [] => True
  | (who, c) :: log => let '(r, d1) := kadm5 conf clock get matching who c d in r <> Undefined /\ r <> OutOfFuel /\ ~ lost_change c r /\ returning log d1
  end.

Lemma returning_served log : forall d, returning log d ->
  exists l, served d l (run_log (kadm5 conf clock get matching) log d) /\ zlen l = zlen log /\ Forall (fun cr => ~ lost_change cr.1 cr.2) l.
Proof.
  induction log as [|[who c] log IH]; intros d; cbn [returning]; [intros _; exists []; repeat split; constructor|].
  destruct (kadm5 conf clock get matching who c d) as [r d1] eqn:E. intros (H1 & H2 & H3 & H4). destruct (IH d1 H4) as (l & HS & HZ & HF). exists ((c, r) :: l).
  rewrite !zlen_cons, HZ. split; [|split; [done|by constructor]]. cbn [run_log foldl]. rewrite E. cbn [snd]. by eapply served_cons.
Qed.

(** The server with this library behind its procedures: over any history of requests the
    calls are those that the access rights allow, and they keep the counts of policies
    right. *)
Theorem kadmind_counts BUFSIZ deltat {gss_name : Type} (display : gss_name -> option (list octet * bool)) compare config items reqs d :
  0 < BUFSIZ -> BUFSIZ + 88 <= malloc_limit -> realm_known get -> Forall (item_ok BUFSIZ) items -> Forall (line_ok get) (rules items) ->
  Forall (fun x => args_ok x.1 /\ request_ok display x.2) reqs -> counts_ok d ->
  exists acl logs, acl_init BUFSIZ (Some (acl_text items)) None = Ok acl /\
    Forall2 (fun x log => Forall (fun entry => exists caller, client_is get display x.2 caller /\
      legitimate deltat get compare (kadm5 conf clock get matching) config (rules items) x.2 caller entry) log) reqs logs /\
    (returning (concat logs) d -> Z.of_nat (size (kd_princs d)) + zlen (concat logs) < 2 ^ 31 ->
     counts_ok (sv_db (serve_requests BUFSIZ deltat get display compare (kadm5 conf clock get matching) config reqs (Server acl d)))).
Proof.
  intros HB HM HR HI HL HQ HC. destruct (acl_init_ok BUFSIZ deltat get items HB HM HI) as (acl & E & HA). exists acl.
  destruct (serve_safe BUFSIZ deltat get display compare (kadm5 conf clock get matching) config (rules items) HR HL reqs (Server acl d) HQ HA) as (logs & HLogs & ED).
  exists logs. split; [done|]. split; [done|]. intros Hret HS. rewrite ED. destruct (returning_served _ _ Hret) as (l & Hl & HZ & HF).
  eapply served_good; [exact Hl|done|cbn; lia|done].
Qed.

End invariant.
