(* ===== verification/KadmHistProofs.v ===== *)
(** * The history of passwords (KadmPrinc.v)

    The old keys of an entry are a ring buffer of the keys of the last passwords, and a
    password is not accepted again while its keys are there, from the password in a request
    to the entry in the database: the keys that are made of it, that are kept under the
    master key, and that are kept under the key of the history. *)

From stdpp Require Import gmap.
From Stdlib Require Import String.
From S2P Require Import Prelude CString Asn1Buf Asn1KEncode Krb5Types Words PrincName PrincNameProofs Crypto CryptoApi CryptoProofs CryptoEnc CryptoKeys Kdc Kdb KdbXdrProofs KdbKeyProofs KadmAcl KadmStubs KadmPrinc KadmPrincProofs.

(** ** The ring buffer *)

Definition lastn {A} (n : nat) (l : list A) : list A := drop (length l - n) l.

Lemma lastn_all {A} n (l : list A) : (length l <= n)%nat -> lastn n l = l.
Proof. intros H. unfold lastn. by replace (length l - n)%nat with 0%nat by lia. Qed.

Lemma lastn_full {A} n (l : list A) x : length l = S n -> lastn (S n) (l ++ [x]) = drop 1 l ++ [x].
Proof. intros H. unfold lastn. rewrite length_app, H. cbn [length]. replace (S n + 1 - S n)%nat with 1%nat by lia. by rewrite drop_app_le by lia. Qed.

Lemma lastn_length {A} n (l : list A) : length (lastn n l) = Nat.min n (length l).
Proof. unfold lastn. rewrite length_drop. lia. Qed.

Lemma lastn_lastn {A} n (l : list A) x : lastn n (lastn n l ++ [x]) = lastn n (l ++ [x]).
Proof.
  destruct (decide (length l <= n)%nat) as [H|H]; [by rewrite (lastn_all n l)|].
  destruct n as [|n]; [unfold lastn; rewrite !Nat.sub_0_r, !drop_all; done|]. rewrite lastn_full by (rewrite lastn_length; lia). unfold lastn. rewrite length_app, drop_app_le by (cbn; lia).
  rewrite drop_drop. cbn [length]. f_equal. f_equal. lia.
Qed.

Lemma lastn_snoc {A} n (l : list A) x : lastn (S n) (l ++ [x]) = lastn n l ++ [x].
Proof. unfold lastn. rewrite length_app. cbn [length]. replace (length l + 1 - S n)%nat with (length l - n)%nat by lia. by rewrite drop_app_le by lia. Qed.

(** The passwords [l], oldest first, are those in the ring; the oldest is where the next one
    will be once the ring is full. *)
Definition ring (n : nat) (adb : osa_princ_ent) (l : list osa_pw_hist_ent) : Prop :=
  (length l < n /\ adb_old_keys adb = l /\ adb_old_key_next adb = zlen l)%nat \/
  (length l = n /\ exists i, (i < n)%nat /\ adb_old_key_next adb = Z.of_nat i /\ drop i (adb_old_keys adb) ++ take i (adb_old_keys adb) = l).

Section history.
Context `{P : Platform} `{St : Stack}.

(** The history as a queue of the last n passwords, with any memory *)
Lemma add_to_history_ring n adb pol l pw : kp_pw_history_num pol = Z.of_nat n + 1 -> (0 < n)%nat -> Z.of_nat n < 2 ^ 31 -> ring n adb l ->
  match add_to_history adb pol pw with Ok adb' => ring n adb' (lastn n (l ++ [pw])) | Err e => e = Krb5Code ENOMEM | _ => False end.
Proof.
  intros HN H0 Hn HR. unfold add_to_history. rewrite HN. destruct (Z.eqb_spec (Z.of_nat n + 1) 1); [lia|]. replace (Z.of_nat n + 1 - 1) with (Z.of_nat n) by lia.
  destruct HR as [(HL & HK & HX)|(HL & i & Hi & HX & HK)]; rewrite HX.
  - rewrite HK. assert (Hz : zlen l = Z.of_nat (length l)) by done. destruct (Z.ltb_spec (zlen l) (Z.of_nat n)); [|lia]. destruct (malloc _); [|done]. cbn [obind].
    rewrite zlen_app. change (zlen [[]]) with 1. destruct (Z.ltb_spec (zlen l) 0); [lia|]. destruct (Z.leb_spec (zlen l + 1) (zlen l)); [lia|]. cbn [orb].
    rewrite to_uint_id by (unfold is_uint; lia). rewrite lastn_all by (rewrite length_app; cbn; lia). rewrite Hz, Nat2Z.id, insert_app_r_alt, Nat.sub_diag by lia. cbn [insert list_insert].
    destruct (Z.eqb_spec (Z.of_nat (length l) + 1) (Z.of_nat n)).
    + right. split; [rewrite length_app; cbn; lia|]. exists 0%nat. cbn [adb_old_keys adb_old_key_next]. split; [lia|]. split; [done|]. by rewrite drop_0, take_0, app_nil_r.
    + left. cbn [adb_old_keys adb_old_key_next]. split; [rewrite length_app; cbn; lia|]. split; [done|]. rewrite zlen_app. done.
  - assert (HO : length (adb_old_keys adb) = n) by (rewrite <- HL, <- HK, length_app, length_drop, length_take; lia).
    assert (Hz : zlen (adb_old_keys adb) = Z.of_nat n) by (unfold zlen; by rewrite HO). rewrite Hz.
    destruct (Z.ltb_spec (Z.of_nat n) (Z.of_nat n)); [lia|]. cbn [obind]. rewrite Hz. destruct (Z.ltb_spec (Z.of_nat i) 0); [lia|].
    destruct (Z.leb_spec (Z.of_nat n) (Z.of_nat i)); [lia|]. cbn [orb]. rewrite to_uint_id by (unfold is_uint; lia). rewrite Nat2Z.id.
    destruct n as [|n]; [lia|]. rewrite lastn_full by done. set (old := adb_old_keys adb) in *.
    assert (HS : drop (S i) (<[i := pw]> old) ++ take (S i) (<[i := pw]> old) = drop 1 l ++ [pw]).
    { rewrite drop_insert_lt by lia. rewrite (take_S_r _ _ pw) by (apply list_lookup_insert_eq; lia). rewrite take_insert_ge by lia. rewrite app_assoc. f_equal.
      rewrite <- HK, drop_app_le by (rewrite length_drop; lia). rewrite drop_drop. by replace (i + 1)%nat with (S i) by lia. }
    right. split; [rewrite length_app, length_drop, HL; cbn; lia|]. destruct (Z.eqb_spec (Z.of_nat i + 1) (Z.of_nat (S n))).
    + exists 0%nat. cbn [adb_old_keys adb_old_key_next]. split; [lia|]. split; [done|]. rewrite drop_0, take_0, app_nil_r. rewrite <- HS.
      rewrite drop_ge, take_ge by (rewrite length_insert; lia). done.
    + exists (S i). cbn [adb_old_keys adb_old_key_next]. split; [lia|]. split; [lia|done].
Qed.

(** The place of the next password is never compared with the length of the array: after
    the policy asks for fewer passwords it runs past the end. *)
Lemma lowered_step adb pol pw adb' : 1 < kp_pw_history_num pol <= zlen (adb_old_keys adb) + 1 -> kp_pw_history_num pol - 1 <= adb_old_key_next adb < 2 ^ 32 - 1 ->
  add_to_history adb pol pw = Ok adb' ->
  adb_old_key_next adb' = adb_old_key_next adb + 1 /\ zlen (adb_old_keys adb') = zlen (adb_old_keys adb) /\ adb_old_key_next adb < zlen (adb_old_keys adb).
Proof.
  intros HN HX. unfold add_to_history. destruct (Z.eqb_spec (kp_pw_history_num pol) 1); [lia|]. destruct (Z.ltb_spec (zlen (adb_old_keys adb)) (kp_pw_history_num pol - 1)); [lia|].
  cbn [obind]. destruct (Z.ltb_spec (adb_old_key_next adb) 0); [lia|]. destruct (Z.leb_spec (zlen (adb_old_keys adb)) (adb_old_key_next adb)); [done|]. cbn [orb].
  rewrite to_uint_id by (unfold is_uint; lia). destruct (Z.eqb_spec (adb_old_key_next adb + 1) (kp_pw_history_num pol - 1)); [lia|]. intros [= <-].
  cbn [adb_old_key_next adb_old_keys]. unfold zlen. rewrite length_insert. done.
Qed.

Fixpoint add_all (adb : osa_princ_ent) (pol : kadm5_policy_ent) (l : list osa_pw_hist_ent) : outcome kadm5_ret osa_princ_ent :=
  match l with [] => Ok adb | pw :: l => let* adb := add_to_history adb pol pw in add_all adb pol l end.

(** C24: When a policy asks for fewer passwords than before, and the place of the next
    one is behind those, the array of old keys is overrun after as many changes of the
    password as it has places left. *)
Theorem lowered_history_overruns pol l : forall adb, 1 < kp_pw_history_num pol <= zlen (adb_old_keys adb) + 1 ->
  kp_pw_history_num pol - 1 <= adb_old_key_next adb <= zlen (adb_old_keys adb) -> zlen (adb_old_keys adb) < 2 ^ 31 ->
  zlen (adb_old_keys adb) - adb_old_key_next adb < zlen l -> add_all adb pol l = Undefined.
Proof.
  induction l as [|pw l IH]; intros adb HN HX HZ HL; [change (zlen []) with 0 in HL; lia|]. rewrite zlen_cons in HL. cbn [add_all].
  destruct (add_to_history adb pol pw) as [adb'|e| |] eqn:EA.
  - apply lowered_step in EA as (E1 & E2 & E3); [|done|lia]. cbn [obind]. apply IH; rewrite ?E1, ?E2; lia.
  - exfalso. unfold add_to_history in EA. destruct (Z.eqb_spec (kp_pw_history_num pol) 1); [lia|]. destruct (Z.ltb_spec (zlen (adb_old_keys adb)) (kp_pw_history_num pol - 1)); [lia|].
    cbn [obind] in EA. by destruct (_ || _).
  - done.
  - exfalso. unfold add_to_history in EA. destruct (Z.eqb_spec (kp_pw_history_num pol) 1); [lia|]. destruct (Z.ltb_spec (zlen (adb_old_keys adb)) (kp_pw_history_num pol - 1)); [lia|].
    cbn [obind] in EA. by destruct (_ || _).
Qed.

(** ** Keys under a key *)

(** The first slot of the element holds the key. *)
Record key_in (mkey : keyblock) (k : krb5_key_data) (key : keyblock) : Prop := {
  ki_type : ks_type (slot_at 0 k) = key_enctype key;
  ki_slot : slot_holds mkey (slot_at 0 k) (key_contents key);
  ki_int : is_int 16 (key_enctype key);
  ki_size : zlen (key_contents key) + 162 < 2 ^ 15;
  ki_octets : octets (key_contents key)
}.

Lemma decrypt_in mkey k key salt r : key_in mkey k key -> krb5_dbekd_decrypt_key_data mkey k salt = Ok r ->
  exists t, r.1 = Some (Keyblock (key_enctype key) (zlen (key_contents key)) (Some (key_contents key ++ t))).
Proof.
  intros [HT HS HI HZ HO] E. unfold krb5_dbekd_decrypt_key_data in E. destruct (load_key_ok mkey k _ HS ltac:(lia)) as [t Et]. rewrite Et in E. cbn [obind] in E.
  exists t. rewrite <- HT. destruct salt; [apply obind_ok in E as (s & _ & E)|]; by injection E as <-.
Qed.

Lemma make_octets_prng st n : prng_wf st -> 0 <= n -> prng_wf (krb5_c_random_make_octets st n).2.
Proof.
  intros HW Hn. destruct (rnd_inited st) eqn:HI.
  - pose proof (make_octets_wf st n HW HI Hn) as R. destruct (krb5_c_random_make_octets st n). by destruct R.
  - unfold krb5_c_random_make_octets. by rewrite HI.
Qed.

Lemma encrypt_prng st key usage iv m n : prng_wf st -> prng_wf (krb5_c_encrypt st key usage iv m n).2.
Proof.
  intros HW. unfold krb5_c_encrypt. destruct (find_enctype _) as [kt|]; [|done]. pose proof (make_octets_prng st 8 HW ltac:(lia)) as HM. destruct (kt_mode kt); [done|..].
  - unfold krb5_old_encrypt. rewrite enc_block_8. destruct (_ <? _); [done|]. by destruct (krb5_c_random_make_octets st 8).
  - unfold krb5_dk_encrypt. rewrite enc_block_8. destruct (_ <? _); [done|]. destruct (krb5_derive_key _ _ _ _); [destruct (krb5_derive_key _ _ _ _)|..]; try done.
    by destruct (krb5_c_random_make_octets st 8).
Qed.

Lemma store_salt_slot salt st st' r : store_salt salt st = (r, st') -> st_random st' = st_random st /\ (r = Ok tt -> slot_at 0 (st_key st') = slot_at 0 (st_key st)).
Proof.
  assert (H1 : forall s k, slot_at 0 (set_slot 1 s k) = slot_at 0 k) by (intros s k; unfold slot_at, set_slot; cbn; by destruct (key_data_slots k) as [|? [|? ?]]).
  unfold store_salt. destruct salt as [salt|]; [|unfold sret; by intros [= <- <-]]. destruct (0 <? _); [|unfold sret; by intros [= <- <-]].
  unfold sbind, update_key, sret. cbn zeta. destruct (_ =? 0); [intros [= <- <-]; cbn [st_random st_key]; by rewrite H1|].
  destruct (malloc _); [|by intros [= <- <-]]. destruct (read_mem _ _); intros [= <- <-]; cbn [st_random st_key]; rewrite ?H1; done.
Qed.

Lemma store_key_prng mkey dbkey st : prng_wf (st_random st) -> prng_wf (st_random (store_key mkey dbkey st).2).
Proof.
  intros HW. unfold store_key. destruct (krb5_c_encrypt_length _ _) as [len| | |]; try done. destruct (malloc _); [|done]. cbn zeta. destruct (contents _) as [plain| | |]; try done.
  pose proof (encrypt_prng (st_random st) mkey 0 None plain len HW). destruct (krb5_c_encrypt _ _ _ _ _ _) as [[[[? ?] ?]| | |] rnd]; done.
Qed.

Lemma encrypt_key_prng mkey dbkey salt kvno st : prng_wf (st_random st) -> prng_wf (st_random (krb5_dbekd_encrypt_key_data mkey dbkey salt kvno st).2).
Proof.
  intros HW. unfold krb5_dbekd_encrypt_key_data, sbind, update_key. destruct (free_slots _ _) as [slots| | |]; try done.
  set (st1 := KeyStore _ _). pose proof (store_key_prng mkey dbkey st1 HW) as H. destruct (store_key mkey dbkey st1) as [[[]| | |] st2]; cbn [snd] in *; try done.
  destruct (store_salt salt st2) as [r st3] eqn:E. cbn [snd]. apply store_salt_slot in E as [-> _]. done.
Qed.

Lemma encrypt_in mkey dbkey c salt kvno rnd st' : prng_wf rnd -> octets (key_contents mkey) -> key_is dbkey c ->
  krb5_dbekd_encrypt_key_data mkey dbkey salt kvno (KeyStore zero_key_data rnd) = (Ok tt, st') -> key_in mkey (st_key st') (Key (kb_enctype dbkey) c).
Proof.
  intros HW HM HK. unfold krb5_dbekd_encrypt_key_data. intros (slots & st1 & E1 & E)%sbind_ok. injection E1 as <- <-. apply sbind_ok in E as ([] & st2 & E2 & E).
  unfold update_key in E2. injection E2 as <-. apply sbind_ok in E as ([] & st3 & E3 & E). apply store_key_ok with (c := c) in E3 as (s & EK & ET & HS & _); [|done..].
  apply store_salt_slot in E as [_ E]. specialize (E eq_refl). destruct HK as (HI & _ & _ & HO & HZ).
  assert (E0 : slot_at 0 (st_key st') = s) by (rewrite E, EK; reflexivity). split; rewrite ?E0; done.
Qed.

(** ** The key of a password *)

(** What krb5_dbe_cpw makes of a password for a name and a tuple *)
Definition key_of (pr : krb5_principal_data) (t : krb5_key_salt_tuple) (passwd : list octet) (key : keyblock) : Prop := exists salt arg,
  salt_of (kst_salttype t) pr = Ok salt /\ salt_arg salt = Ok arg /\ krb5_c_string_to_key (kst_enctype t) passwd [0] (Some arg) = Ok key.

Definition octets_name (pr : krb5_principal_data) : Prop := forall d c, d = pr_realm pr \/ In d (default [] (pr_data pr)) -> contents d = Ok c -> octets c.

Lemma all_contents_octets n l r : (forall d c, In d l -> contents d = Ok c -> octets c) -> all_contents n l = Ok r -> octets r.
Proof.
  revert l r. induction n as [|n IH]; intros l r Hl; cbn [all_contents]; [intros [= <-]; constructor|]. destruct l as [|d l]; [done|].
  intros (c & Ec & (r' & Er & H)%obind_ok)%obind_ok. injection H as <-. apply Forall_app. split; [eapply Hl; [by left|done]|]. eapply IH; [|exact Er].
  intros d' c' Hd. apply Hl. by right.
Qed.

Lemma principal2salt_octets pr b d c : octets_name pr -> krb5_principal2salt_internal pr b = Ok d -> contents d = Ok c -> octets c.
Proof.
  intros HP. unfold krb5_principal2salt_internal. intros (realm & Er & (comps & Ec & H)%obind_ok)%obind_ok. destruct (malloc _); [|done]. injection H as <-.
  rewrite (contents_ok _ (realm ++ comps)) by (split; [done|]; exists []; by rewrite app_nil_r). intros [= <-]. apply Forall_app. split.
  - destruct b; [eapply HP; [by left|done]|injection Er as <-; constructor].
  - eapply all_contents_octets; [|exact Ec]. intros d' c' Hd. apply HP. by right.
Qed.

Lemma salt_octets type pr salt arg : octets_name pr -> type <> KRB5_KDB_SALTTYPE_AFS3 -> salt_of type pr = Ok salt -> salt_arg salt = Ok arg -> octets arg.1 /\ arg.2 = false.
Proof.
  intros HP HT. unfold salt_of, salt_arg. destruct (_ =? KRB5_KDB_SALTTYPE_ONLYREALM).
  { intros (c & Ec & H)%obind_ok. destruct (malloc _); [|done]. injection H as <-. cbn [fst snd]. intros (c' & Ec' & H)%obind_ok. injection H as <-. split; [|done].
    rewrite (contents_ok _ c) in Ec' by (split; [done|]; by exists [0]). injection Ec' as <-. eapply HP; [by left|done]. }
  destruct (_ =? KRB5_KDB_SALTTYPE_NOREALM); [|destruct (_ =? KRB5_KDB_SALTTYPE_NORMAL); [|destruct (_ =? KRB5_KDB_SALTTYPE_V4)]].
  1-2: intros (d & Ed & H)%obind_ok; injection H as <-; cbn [fst snd]; intros (c & Ec & H)%obind_ok; injection H as <-; split; [by eapply principal2salt_octets|done].
  { intros [= <-]. intros (c & Ec & H)%obind_ok. injection H as <-. split; [|done]. cbn in Ec. injection Ec as <-. constructor. }
  destruct (Z.eqb_spec type KRB5_KDB_SALTTYPE_AFS3); done.
Qed.

Lemma enctypes_small : Forall (fun kt => is_int 16 (kt_etype kt)) krb5_enctypes_list.
Proof. by repeat constructor. Qed.

Lemma str2key_octets etype passwd behind salt key : octets passwd -> passwd <> [] -> octets salt ->
  krb5_c_string_to_key etype passwd behind (Some (salt, false)) = Ok key ->
  key_enctype key = etype /\ is_int 16 etype /\ octets (key_contents key) /\ zlen (key_contents key) <= 24.
Proof.
  intros Hp Hn Hs. unfold krb5_c_string_to_key. destruct (find_enctype etype) as [kt|] eqn:EF; [|done]. destruct (find_enctype_in _ _ EF) as [HIn <-].
  pose proof enctypes_small as HS. rewrite Forall_forall in HS. specialize (HS kt HIn). intros (c & Ec & H)%obind_ok. injection H as <-. cbn [key_enctype key_contents].
  split; [done|]. split; [done|]. destruct (kt_str2key kt).
  - cbn [mit_des_string_to_key_int] in Ec. unfold string_to_key_alloc in Ec. destruct (malloc _); [|done]. destruct (_ <? _); [done|]. destruct (string_to_key_copy_good (passwd ++ salt)) as (k & Ek & HO & HL & _). rewrite Ek in Ec. injection Ec as <-. split; [done|].
    unfold zlen. rewrite HL. lia.
  - unfold krb5_dk_string_to_key in Ec. cbn [option_fmap option_map fst default] in Ec. set (l := passwd ++ _) in Ec.
    destruct (enc_make_key _ _ _) as [fk| | |] eqn:EM; [|done..].
    assert (HB : exists n, (0 < n)%nat /\ enc_keybytes (enc_provider (kt_enc kt)) * 8 = Z.of_nat n * 8) by (destruct (kt_enc kt); [exists 7%nat; split; [lia|done]|exists 21%nat; split; [lia|done]]).
    destruct HB as (n & Hn0 & HB). rewrite HB in EM. pose proof (enc_provider_laws (kt_enc kt)) as HLaw. destruct (nfold_octets l n) as [HF _].
    destruct (enc_make_key_ok _ _ _ HF EM) as [HFo _]. destruct (derive_key_ok (enc_provider (kt_enc kt)) (Key 0 fk) _ kerberos c HFo ltac:(by repeat constructor) ltac:(done) Ec) as [HO HL].
    split; [done|]. rewrite HL. by destruct (kt_enc kt).
Qed.

Lemma key_of_is pr t passwd key : octets_name pr -> kst_salttype t <> KRB5_KDB_SALTTYPE_AFS3 -> octets passwd -> passwd <> [] -> key_of pr t passwd key ->
  key_is (key_struct key) (key_contents key).
Proof.
  intros HP HT Hp Hn (salt & [arg b] & E1 & E2 & E3). destruct (salt_octets _ _ _ _ HP HT E1 E2) as [HO HB]. cbn [fst snd] in *. subst b.
  destruct (str2key_octets _ _ _ _ _ Hp Hn HO E3) as (HE & HI & HK & HL). unfold key_is, key_struct. cbn [kb_enctype kb_length kb_contents]. rewrite HE.
  repeat split; [apply HI|apply HI|by exists []; rewrite app_nil_r|done|lia].
Qed.

(** ** The keys of an entry *)

Definition has_keys (e : krb5_db_entry_new) (l : list krb5_key_data) : Prop := dbe_n_key_data e = zlen l /\ key_data_of e (dbe_n_key_data e) = Ok l.

Lemma has_keys_set e l : has_keys (with_key_data e (zlen l) (Some l)) l.
Proof.
  split; [done|]. unfold key_data_of. cbn [dbe_n_key_data dbe_key_data with_key_data]. pose proof (zlen_nonneg l). destruct (Z.leb_spec (zlen l) 0) as [H0|].
  - f_equal. symmetry. apply zlen_0_nil. lia.
  - rewrite Z.ltb_irrefl. unfold zlen. by rewrite Nat2Z.id, take_ge.
Qed.

Lemma has_keys_like e e' l : like e e' -> has_keys e l -> has_keys e' l.
Proof. intros (_ & E1 & E2) [H1 H2]. unfold has_keys, key_data_of in *. by rewrite E1, E2. Qed.

Lemma create_keys e l e' : has_keys e l -> zlen l + 1 < 2 ^ 15 -> krb5_dbe_create_key_data e = (Ok tt, e') ->
  e' = with_key_data e (zlen l + 1) (Some (l ++ [zero_key_data])).
Proof.
  intros [H1 H2] HB. unfold krb5_dbe_create_key_data. destruct (malloc _); [|done]. rewrite H2, H1. pose proof (zlen_nonneg l). destruct (Z.ltb_spec (zlen l) 0); [lia|].
  rewrite to_int_id by (unfold is_int; lia). by intros [= <-].
Qed.

Lemma encrypt_last_ok mkey key salt kvno e rnd l st' : dbe_n_key_data e = zlen l + 1 -> dbe_key_data e = Some (l ++ [zero_key_data]) ->
  encrypt_last mkey key salt kvno (CpwState e rnd) = (Ok tt, st') ->
  exists s, krb5_dbekd_encrypt_key_data mkey key salt kvno (KeyStore zero_key_data rnd) = (Ok tt, s) /\ has_keys (cs_entry st') (l ++ [st_key s]) /\ cs_random st' = st_random s.
Proof.
  intros HN HK. unfold encrypt_last. cbn [cs_entry cs_random]. assert (HH : has_keys e (l ++ [zero_key_data])).
  { pose proof (has_keys_set e (l ++ [zero_key_data])) as H. unfold has_keys, key_data_of in *. cbn [dbe_n_key_data dbe_key_data with_key_data] in H. rewrite HK, HN. by rewrite zlen_app in *. }
  destruct HH as [_ ->]. rewrite List.last_last, List.removelast_last. destruct (l ++ [zero_key_data]) as [|? ?] eqn:EL; [by destruct l|].
  destruct (krb5_dbekd_encrypt_key_data _ _ _ _ _) as [r s] eqn:ES. intros [= -> <-]. exists s. split; [done|]. split; [|done]. cbn [cs_entry]. rewrite HN.
  replace (zlen l + 1) with (zlen (l ++ [st_key s])) by (by rewrite zlen_app). apply has_keys_set.
Qed.

Lemma add_pwd_ok mkey t passwd kvno st l pr st' : prng_wf (cs_random st) -> has_keys (cs_entry st) l -> zlen l + 1 < 2 ^ 15 -> dbe_princ (cs_entry st) = Some pr ->
  add_pwd_key mkey t passwd kvno st = (Ok tt, st') ->
  exists k key, has_keys (cs_entry st') (l ++ [k]) /\ key_of pr t passwd key /\ prng_wf (cs_random st') /\
    (octets (key_contents mkey) -> key_is (key_struct key) (key_contents key) -> key_in mkey k key).
Proof.
  intros HW HK HB HP. unfold add_pwd_key. intros ([] & st1 & E1 & E)%sbind_ok. unfold on_entry in E1.
  destruct (krb5_dbe_create_key_data (cs_entry st)) as [r e1] eqn:EC. injection E1 as -> <-. apply (create_keys _ _ _ HK HB) in EC as ->.
  apply sbind_ok in E as (pr' & st2 & E2 & E). cbn [cs_entry dbe_princ with_key_data] in E2. rewrite HP in E2. injection E2 as <- <-.
  apply sbind_ok in E as (salt & st3 & E3 & E). unfold sret in E3. injection E3 as E3 <-. apply sbind_ok in E as (arg & st4 & E4 & E). unfold sret in E4. injection E4 as E4 <-.
  apply sbind_ok in E as (key & st5 & E5 & E). unfold sret in E5. injection E5 as E5 <-. apply (encrypt_last_ok _ _ _ _ _ _ l) in E as (s & ES & HS & HR); [|done..].
  exists (st_key s), key. split; [done|]. split; [by exists salt, arg|]. split.
  - rewrite HR. pose proof (encrypt_key_prng mkey (key_struct key) (Some (KeySalt (kst_salttype t) salt.1)) kvno (KeyStore zero_key_data (cs_random st)) HW) as H. by rewrite ES in H.
  - intros HM HI. destruct key as [etype c]. by apply (encrypt_in mkey (key_struct (Key etype c)) c _ _ _ _ HW HM HI ES).
Qed.

Lemma add_keys_ok mkey passwd kvno pr ks : forall before st l st', prng_wf (cs_random st) -> has_keys (cs_entry st) l -> zlen l + zlen ks < 2 ^ 15 -> dbe_princ (cs_entry st) = Some pr ->
  add_key_pwd mkey before ks passwd kvno st = (Ok tt, st') -> exists l', has_keys (cs_entry st') (l ++ l') /\ prng_wf (cs_random st') /\ zlen l' <= zlen ks.
Proof.
  induction ks as [|t ks IH]; intros before st l st' HW HK HB HP; cbn [add_key_pwd]; [unfold sret; intros [= <-]; exists []; by rewrite app_nil_r|].
  rewrite zlen_cons in HB. pose proof (zlen_nonneg ks).
  intros (listed & st1 & E1 & E)%sbind_ok. unfold sret in E1. injection E1 as E1 <-. apply sbind_ok in E as ([] & st2 & E2 & E). destruct listed.
  - unfold sret in E2. injection E2 as <-. apply (IH _ _ l _ HW HK) in E as (l' & ? & ? & ?); [|lia|done]. exists l'. rewrite zlen_cons. split; [done|]. split; [done|lia].
  - pose proof (keeps_add_pwd mkey [] [t] passwd kvno) as HN. destruct (add_pwd_ok _ _ _ _ _ l pr _ HW HK ltac:(lia) HP E2) as (k & key & HK2 & _ & HW2 & _).
    assert (HP2 : dbe_princ (cs_entry st2) = Some pr).
    { specialize (HN st). cbn [add_key_pwd] in HN. unfold sbind, sret in HN. cbn in HN. rewrite E2 in HN. cbn in HN. congruence. }
    apply (IH _ _ (l ++ [k]) _ HW2 HK2) in E as (l' & H1 & H2 & H3); [|rewrite zlen_app; change (zlen [k]) with 1; lia|done]. exists (k :: l').
    rewrite <- app_assoc in H1. split; [done|]. split; [done|]. rewrite !zlen_cons. lia.
Qed.

(** After a change of password the first key is that of the first tuple. *)
Lemma cpw_first mkey t ks passwd kvno e rnd e' rnd' pr : prng_wf rnd -> zlen (t :: ks) < 2 ^ 15 -> dbe_princ e = Some pr ->
  krb5_dbe_cpw mkey (t :: ks) passwd kvno false e rnd = (Ok e', rnd') ->
  prng_wf rnd' /\ exists k key l, has_keys e' (k :: l) /\ key_of pr t passwd key /\ (octets (key_contents mkey) -> key_is (key_struct key) (key_contents key) -> key_in mkey k key).
Proof.
  intros HW HB HP. unfold krb5_dbe_cpw, change_keys. destruct (key_data_of e _) as [old| | |]; [|done..]. cbn zeta. set (v := Z.max _ _). set (st := CpwState _ rnd).
  destruct (add_key_pwd mkey [] (t :: ks) passwd v st) as [[[]|err| |] [e1 rnd1]] eqn:EA; [|intros H; injection H as H _; by destruct (obind _ _)|done|done].
  intros H. injection H as H <-. apply obind_ok in H as (_ & _ & H). injection H as <-.
  cbn [add_key_pwd] in EA. apply sbind_ok in EA as (b & st1 & E1 & EA). cbn in E1. injection E1 as <- <-. apply sbind_ok in EA as ([] & st2 & E2 & EA).
  rewrite zlen_cons in HB. pose proof (zlen_nonneg ks).
  assert (HN : dbe_princ (cs_entry st2) = Some pr).
  { pose proof (keeps_add_pwd mkey [] [t] passwd v st) as HN. cbn [add_key_pwd] in HN. unfold sbind, sret in HN. cbn in HN. rewrite E2 in HN. cbn in HN. by rewrite HN. }
  destruct (add_pwd_ok mkey t passwd v st [] pr st2 HW ltac:(done) ltac:(by vm_compute) HP E2) as (k & key & HK & HO & HW2 & HI).
  apply (add_keys_ok _ _ _ pr _ _ _ [k] _ HW2 HK) in EA as (l' & HK' & HW' & _); [|change (zlen [k]) with 1; lia|done]. split; [done|]. by exists k, key, l'.
Qed.

(** ** Comparing with the history *)

Context (conf : kadm_config) (clock : nat -> outcome error_code Z).
Context (Hmaster : octets (key_contents (master_keyblock conf))) (Hhist : octets (key_contents (hist_key conf))).

Lemma is_old_key_ok newkey l k : is_old_key conf newkey l = Ok tt -> In k l -> exists h, decrypted_key (hist_key conf) k = Ok h /\ same_key newkey h = Ok false.
Proof.
  induction l as [|k' l IH]; [done|]. cbn [is_old_key]. intros (h & Eh & (b & Eb & H)%obind_ok)%obind_ok [<-|HIn]; destruct b; try done.
  - by exists h.
  - by apply IH.
Qed.

(** Keys that pass are not among those that are kept. *)
Lemma reuse_found k keys hist h l key : key_in (master_keyblock conf) k key -> key_in (hist_key conf) h key -> In k keys -> In (h :: l) hist ->
  check_pw_reuse conf keys hist <> Ok tt.
Proof.
  intros HK HH HInk HIn. induction keys as [|k' keys IH]; [done|]. cbn [check_pw_reuse]. destruct HInk as [->|HInk]; [|intros (new & _ & (u & _ & H)%obind_ok)%obind_ok; by apply IH].
  intros (new & En & (u & Eo & _)%obind_ok)%obind_ok. destruct u.
  apply is_old_key_ok with (k := h) in Eo as (old & Eh & Es); [|apply List.in_concat; exists (h :: l); split; [done|by left]].
  unfold decrypted_key in En, Eh. apply obind_ok in En as ([n1 n2] & En & En'). apply obind_ok in Eh as ([o1 o2] & Eh & Eh').
  destruct (krb5_dbekd_decrypt_key_data (master_keyblock conf) k false) as [r| | |] eqn:E1; [|done..]. injection En as ->.
  destruct (krb5_dbekd_decrypt_key_data (hist_key conf) h false) as [r| | |] eqn:E2; [|done..]. injection Eh as ->.
  destruct (decrypt_in _ _ _ _ _ HK E1) as [t1 H1]. destruct (decrypt_in _ _ _ _ _ HH E2) as [t2 H2]. cbn [fst] in *. subst n1 o1. injection En' as <-. injection Eh' as <-.
  unfold same_key in Es. cbn [kb_length kb_enctype kb_contents] in Es. rewrite !Z.eqb_refl in Es. cbn [andb] in Es. rewrite !read_mem_ok in Es. cbn [lift obind] in Es.
  by rewrite bool_decide_eq_true_2 in Es.
Qed.

Lemma recrypt_prng k d r d' : prng_wf (kd_random d) -> recrypt conf k d = (r, d') -> prng_wf (kd_random d').
Proof.
  intros HW. unfold recrypt, sbind, sret. destruct (lift _) as [[[key|] salt]| | |]; try (intros H; injection H as _ <-; done).
  unfold with_random. pose proof (encrypt_key_prng (hist_key conf) key salt (key_data_kvno k) (KeyStore zero_key_data (kd_random d)) HW) as HE.
  destruct (krb5_dbekd_encrypt_key_data _ _ _ _ _) as [x s]. intros H. injection H as _ <-. exact HE.
Qed.

Lemma recrypt_all_prng keys : forall d r d', prng_wf (kd_random d) -> recrypt_all conf keys d = (r, d') -> prng_wf (kd_random d').
Proof.
  induction keys as [|k keys IH]; intros d r d' HW; cbn [recrypt_all]; [unfold sret; by intros [= _ <-]|]. unfold sbind. destruct (recrypt conf k d) as [x d1] eqn:E1.
  apply (recrypt_prng _ _ _ _ HW) in E1. destruct x as [a|e| |]; [|by intros [= _ <-]..]. destruct (recrypt_all conf keys d1) as [y d2] eqn:E2. apply (IH _ _ _ E1) in E2.
  destruct y as [b|e| |]; unfold sret; by intros [= _ <-].
Qed.

Lemma recrypt_first k keys key d h d' : prng_wf (kd_random d) -> key_in (master_keyblock conf) k key -> recrypt_all conf (k :: keys) d = (Ok h, d') ->
  exists k' l, h = k' :: l /\ key_in (hist_key conf) k' key.
Proof.
  intros HW HK. cbn [recrypt_all]. intros (k' & d1 & E1 & E)%sbind_ok. apply sbind_ok in E as (l & d2 & _ & E). unfold sret in E. injection E as <- _. exists k', l. split; [done|].
  unfold recrypt in E1. apply sbind_ok in E1 as (r & d3 & E3 & E1). unfold sret in E3. injection E3 as E3 <-.
  destruct (krb5_dbekd_decrypt_key_data (master_keyblock conf) k true) as [x| | |] eqn:ED; [|done..]. injection E3 as ->. destruct (decrypt_in _ _ _ _ _ HK ED) as [t Et].
  destruct r as [r salt]. cbn [fst] in Et. subst r. apply with_random_ok in E1 as (rnd' & E1). destruct (krb5_dbekd_encrypt_key_data _ _ _ _ _) as [y s] eqn:ES.
  injection E1 as E1 _. apply obind_ok in E1 as ([] & -> & E1). injection E1 as <-. destruct key as [etype c], HK as [_ _ HI HZ HO]. cbn [key_enctype key_contents] in *.
  apply (encrypt_in _ (Keyblock etype (zlen c) (Some (c ++ t))) c _ _ _ _ HW Hhist) in ES; [done|]. unfold key_is. cbn [kb_enctype kb_length kb_contents].
  split; [done|]. split; [done|]. split; [by exists t|done].
Qed.

(** ** Changing a password *)

Lemma put_random h kdb adb d r d' : kdb_put_entry clock h kdb adb d = (r, d') -> kd_random d' = kd_random d.
Proof.
  unfold kdb_put_entry, sbind, krb5_timeofday. destruct (lift _) as [now| | |]; try (by intros [= _ <-]). unfold with_entry, sret. destruct (sh_current_caller h); [|by intros [= _ <-]].
  destruct (krb5_dbe_update_mod_princ_data _ _ _) as [[[]| | |] e]; cbn [obind lift]; try (by intros [= _ <-]). unfold krb5_db_put_principal.
  destruct (krb5_encode_princ_contents e), (dbe_princ e); try (by intros [= _ <-]). destruct (dbkey _); by intros [= _ <-].
Qed.

Lemma put_stored h kdb adb d d' p k : kdb_put_entry clock h kdb adb d = (Ok tt, d') -> dbe_princ kdb = Some p -> dbkey p = Ok k ->
  exists kdb', like kdb kdb' /\ kd_princs d' = <[k := (kdb', Some adb)]> (kd_princs d) /\ kd_policies d' = kd_policies d.
Proof.
  intros H Hp Hk. assert (HP : wp (kdb_put_entry clock h kdb adb) d (fun _ d' => exists kdb', like kdb kdb' /\ kd_princs d' = <[k := (kdb', Some adb)]> (kd_princs d) /\ kd_policies d' = kd_policies d) (fun _ _ => True)).
  { apply put_entry_wp; [|done]. intros p' k' kdb' d2 Ep Ek HL HP HPo. rewrite Hp in Ep. injection Ep as <-. rewrite Hk in Ek. injection Ek as <-. by exists kdb'. }
  unfold wp in HP. by rewrite H in HP.
Qed.

Lemma sret_ok {S E A} (r : outcome E A) (s s' : S) a : sret r s = (Ok a, s') -> r = Ok a /\ s' = s.
Proof. unfold sret. by intros [= -> ->]. Qed.

(** What the functions around the history do *)
Lemma finish_like h kdb adb pol now d kdb' d' : finish_keys h kdb adb pol now d = (Ok kdb', d') -> dbe_princ kdb' = dbe_princ kdb /\ (forall l, has_keys kdb l -> has_keys kdb' l) /\ d' = d.
Proof.
  unfold finish_keys. intros (t & d1 & E1 & H)%sbind_ok. apply sret_ok in E1 as [_ ->]. apply with_entry_ok in H as [H ->]. apply update_tl_like in H. split; [by destruct H as (-> & _)|].
  split; [|done]. intros l Hl. eapply has_keys_like; [exact H|]. exact Hl.
Qed.

(** The history after a change that is accepted, and what has been compared *)
Lemma check_history_ok n keys current adb pol l d adb' d' : kp_pw_history_num pol = Z.of_nat n + 1 -> (0 < n)%nat -> Z.of_nat n < 2 ^ 31 -> prng_wf (kd_random d) -> ring n adb l ->
  check_history conf keys current adb pol d = (Ok adb', d') ->
  prng_wf (kd_random d') /\ exists hist, ring n adb' (lastn n (l ++ [hist])) /\ check_pw_reuse conf keys [hist] = Ok tt /\ check_pw_reuse conf keys (adb_old_keys adb) = Ok tt /\
    exists d1, recrypt_all conf current d = (Ok hist, d1).
Proof.
  intros HN H0 Hn HW HR. unfold check_history. intros (hist & d1 & E1 & H)%sbind_ok. unfold create_history_entry in E1. destruct (malloc _); [|done].
  pose proof (recrypt_all_prng _ _ _ _ HW E1) as HW1. apply sbind_ok in H as ([] & d2 & E2 & H). apply sret_ok in E2 as [E2 ->]. rewrite HN in H.
  destruct (Z.ltb_spec 1 (Z.of_nat n + 1)); [|lia]. apply sbind_ok in H as ([] & d3 & E3 & H). apply sret_ok in E3 as [_ ->]. apply sbind_ok in H as ([] & d4 & E4 & H).
  apply sret_ok in E4 as [E4 ->]. apply sret_ok in H as [H ->]. split; [done|]. exists hist. pose proof (add_to_history_ring n adb pol l hist HN H0 Hn HR) as HA. rewrite H in HA.
  split; [done|]. split; [done|]. split; [done|]. by exists d1.
Qed.

(** The parts of a change of password that is accepted, for a principal with a policy *)
Lemma chpass_parts h princ keepold ks passwd d d' k kdb adb name p : dbkey princ = Ok k -> kd_princs d !! k = Some (kdb, Some adb) ->
  has_bit (adb_aux_attributes adb) KADM5_POLICY = true -> adb_policy adb = Some name -> kd_policies d !! name = Some p ->
  chpass_principal_3 conf clock h (Some princ) keepold ks (Some passwd) d = (Ok tt, d') ->
  exists kdb3 rnd pol current keys adb' d11 kdb4,
    krb5_dbe_cpw (master_keyblock conf) (keysalts conf ks) passwd 0 keepold kdb (kd_random d) = (Ok kdb3, rnd) /\ kp_pw_history_num pol = long (po_pw_history_num p) /\
    key_data_of kdb (dbe_n_key_data kdb) = Ok current /\ key_data_of kdb3 (dbe_n_key_data kdb3) = Ok keys /\
    check_history conf keys current adb pol (tick (set_random rnd d)) = (Ok adb', d11) /\
    dbe_princ kdb4 = dbe_princ kdb /\ (forall l, has_keys kdb3 l -> has_keys kdb4 l) /\ kdb_put_entry clock h kdb4 adb' d11 = (Ok tt, d').
Proof.
  intros Hpk HL HB HAp HPo. unfold chpass_principal_3. intros ([] & d1 & E1 & H)%sbind_ok. apply sret_ok in E1 as [_ ->].
  apply sbind_ok in H as (b & d2 & E2 & H). assert (d2 = d) as -> by (destruct (hist_princ conf); by apply sret_ok in E2 as [_ ->]).
  apply sbind_ok in H as ([] & d3 & E3 & H). apply sret_ok in E3 as [_ ->].
  apply sbind_ok in H as ([kdb1 adb1] & d4 & E4 & H). apply get_entry_ok in E4 as (-> & q & k1 & a & [= <-] & Ek & HL1 & Ea). rewrite Hpk in Ek. injection Ek as <-. rewrite HL in HL1. injection HL1 as <- <-. cbn in Ea. subst adb1.
  apply sbind_ok in H as ([kdb2 adb2] & d5 & E5 & H). apply get_entry_ok in E5 as (-> & q & k1 & a & [= <-] & Ek & HL1 & Ea). rewrite Hpk in Ek. injection Ek as <-. rewrite HL in HL1. injection HL1 as <- <-. clear Ea adb2.
  apply sbind_ok in H as (pol & d6 & E6 & H). unfold policy_of in E6. rewrite HB in E6. apply sbind_ok in E6 as (pol1 & d7 & E6 & E7). apply sret_ok in E7 as [[= <-] ->].
  apply get_policy_ok in E6 as (_ & -> & n1 & p1 & En1 & _ & _ & HPo1 & _ & _ & HPn1). rewrite HAp in En1. injection En1 as <-. rewrite HPo in HPo1. injection HPo1 as <-.
  apply sbind_ok in H as ([] & d8 & E8 & H). apply sret_ok in E8 as [_ ->].
  apply sbind_ok in H as (kdb3 & d9 & E9 & H). pose proof (cpw_name _ _ _ _ _ _ _ _ _ E9) as HPr3. unfold with_random in E9. destruct (krb5_dbe_cpw _ _ _ _ _ _ _) as [r rnd] eqn:EC.
  destruct r as [kdb3'| | |]; [|done..]. injection E9 as -> <-.
  apply sbind_ok in H as (now & d10 & E10 & H). assert (d10 = tick (set_random rnd d)) as -> by (unfold krb5_timeofday in E10; by injection E10 as _ <-).
  apply sbind_ok in H as (adb' & d11 & E11 & H). apply sbind_ok in E11 as (? & d12 & E12 & E11). apply sret_ok in E12 as [_ ->]. apply sbind_ok in E11 as (cur & d12 & E12 & E11). apply sret_ok in E12 as [E12 ->].
  apply sbind_ok in E11 as (new & d12 & E13 & E11). apply sret_ok in E13 as [E13 ->].
  destruct (key_data_of kdb (dbe_n_key_data kdb)) as [current| | |]; [|done..]. injection E12 as <-.
  destruct (key_data_of (password_changed kdb3) (dbe_n_key_data (password_changed kdb3))) as [keys| | |] eqn:EK; [|done..]. injection E13 as <-.
  apply sbind_ok in H as (kdb4 & d13 & E13 & H). apply finish_like in E13 as (HPr4 & HK4 & ->).
  exists kdb3, rnd, pol1, current, keys, adb', d11, kdb4. repeat (split; [done|]). split; [by rewrite HPr4; etrans; [exact HPr3|]|]. by split.
Qed.

(** *** Old keys that are kept *)

Lemma keep_keys_ok old : forall e l e', has_keys e l -> zlen l + zlen old < 2 ^ 15 -> keep_keys old e = (Ok tt, e') -> has_keys e' (l ++ old).
Proof.
  induction old as [|k0 old IH]; intros e l e' HK HB; cbn [keep_keys]; [unfold sret; intros [= <-]; by rewrite app_nil_r|].
  rewrite zlen_cons in HB. pose proof (zlen_nonneg old). intros ([] & e1 & E1 & E)%sbind_ok. apply (create_keys _ _ _ HK ltac:(lia)) in E1 as ->.
  apply sbind_ok in E as ([] & e2 & E2 & E). injection E2 as <-. cbn [with_key_data dbe_n_key_data dbe_key_data fmap option_fmap option_map] in E. rewrite List.removelast_last in E.
  apply (IH _ (l ++ [k0])) in E; [by rewrite <- app_assoc in E| |rewrite zlen_app; change (zlen [k0]) with 1; lia].
  replace (zlen l + 1) with (zlen (l ++ [k0])) by (by rewrite zlen_app). apply has_keys_set.
Qed.

Lemma cpw_keeps mkey ks passwd kvno e rnd e' rnd' pr old : prng_wf rnd -> zlen ks + zlen old < 2 ^ 15 -> dbe_princ e = Some pr -> key_data_of e (dbe_n_key_data e) = Ok old ->
  krb5_dbe_cpw mkey ks passwd kvno true e rnd = (Ok e', rnd') -> prng_wf rnd' /\ exists l, has_keys e' (l ++ old) /\ zlen l <= zlen ks.
Proof.
  intros HW HB HP HO. unfold krb5_dbe_cpw, change_keys. rewrite HO. cbn zeta. set (v := Z.max _ _). set (st := CpwState _ rnd). pose proof (zlen_nonneg old) as Hz.
  destruct (add_key_pwd mkey [] ks passwd v st) as [[[]|err| |] [e1 rnd1]] eqn:EA; [|intros H; injection H as H _; by destruct (obind _ _)|done|done].
  destruct (add_keys_ok mkey passwd v pr ks [] st [] _ HW ltac:(done) ltac:(change (zlen []) with 0; lia) HP EA) as (l & HL & HW1 & HZ). cbn [cs_entry cs_random app] in *.
  destruct (keep_keys old e1) as [[[]| | |] e2] eqn:EK; intros H; [|injection H as H _; by destruct (obind _ _)|done|done]. injection H as <- <-. split; [done|]. exists l. split; [|done].
  apply keep_keys_ok with (l := l) in EK; [done|done|lia].
Qed.

(** With the old keys kept among the new ones, they are found in the history. *)
Theorem keepold_refused h princ ks passwd d k kdb adb name p k0 l key pr : prng_wf (kd_random d) -> dbkey princ = Ok k -> kd_princs d !! k = Some (kdb, Some adb) ->
  has_bit (adb_aux_attributes adb) KADM5_POLICY = true -> adb_policy adb = Some name -> kd_policies d !! name = Some p -> dbe_princ kdb = Some pr ->
  key_data_of kdb (dbe_n_key_data kdb) = Ok (k0 :: l) -> key_in (master_keyblock conf) k0 key -> zlen (keysalts conf ks) + zlen (k0 :: l) < 2 ^ 15 ->
  (chpass_principal_3 conf clock h (Some princ) true ks (Some passwd) d).1 <> Ok tt.
Proof.
  intros HW Hpk HL HB HAp HPo HPr HKd HI HZ Ec. destruct (chpass_principal_3 _ _ _ _ _ _ _ _) as [r d'] eqn:E. cbn [fst] in Ec. subst r.
  destruct (chpass_parts _ _ _ _ _ _ _ _ _ _ _ _ Hpk HL HB HAp HPo E) as (kdb3 & rnd & pol & cur & new & adb' & d11 & kdb4 & EC & _ & E12 & E13 & E11 & _).
  rewrite HKd in E12. injection E12 as <-. destruct (cpw_keeps _ _ _ _ _ _ _ _ _ _ HW HZ HPr HKd EC) as (HW9 & l' & [_ HK] & _). rewrite HK in E13. injection E13 as <-.
  unfold check_history in E11. apply sbind_ok in E11 as (hist & d1 & E1 & E11). unfold create_history_entry in E1. destruct (malloc _); [|done].
  destruct (recrypt_first _ _ _ (tick (set_random rnd d)) _ _ HW9 HI E1) as (k2 & l2 & -> & HI2). apply sbind_ok in E11 as ([] & d2 & E2 & _). apply sret_ok in E2 as [E2 _].
  apply (reuse_found k0 (l' ++ k0 :: l) [k2 :: l2] k2 l2 key HI HI2); [apply List.in_app_iff; right; by left|by left|exact E2].
Qed.

Lemma ring_in n adb l h : ring n adb l -> In h l -> In h (adb_old_keys adb).
Proof.
  intros [(_ & -> & _)|(_ & i & _ & _ & <-)]; [done|]. rewrite List.in_app_iff. intros H. rewrite <- (take_drop i (adb_old_keys adb)), List.in_app_iff. tauto.
Qed.

Lemma key_of_fun pr t passwd key key' : key_of pr t passwd key -> key_of pr t passwd key' -> key = key'.
Proof. intros (s & a & E1 & E2 & E3) (s' & a' & E1' & E2' & E3'). congruence. Qed.

(** One principal [pr] under [k], with a policy that asks for n + 1 passwords *)
Context (pr : krb5_principal_data) (k : list octet) (name : list octet) (n : nat) (t : krb5_key_salt_tuple) (ks : list krb5_key_salt_tuple).
Context (Hname : octets_name pr) (Hk : dbkey pr = Ok k) (Hn : (0 < n)%nat) (Hn31 : Z.of_nat n < 2 ^ 31).
Context (Hks : params_keysalts conf = t :: ks) (Hks15 : zlen (t :: ks) < 2 ^ 15) (Hafs : kst_salttype t <> KRB5_KDB_SALTTYPE_AFS3).

(** Keys that begin with the one of the password; nothing is known of those that were there
    at first. *)
Definition made_of (mkey : keyblock) (keys : list krb5_key_data) (w : option (list octet)) : Prop :=
  match w with Some passwd => exists k0 l key, keys = k0 :: l /\ key_in mkey k0 key /\ key_of pr t passwd key | None => True end.

(** The current password is [w] and the ones before are [ws]. *)
Record remembers (d : kadm_db) (ws : list (option (list octet))) (w : option (list octet)) : Prop := Remembers {
  re_prng : prng_wf (kd_random d);
  re_policy : exists p, kd_policies d !! name = Some p /\ long (po_pw_history_num p) = Z.of_nat n + 1;
  re_entry : exists kdb adb keys l, kd_princs d !! k = Some (kdb, Some adb) /\ dbe_princ kdb = Some pr /\
    has_bit (adb_aux_attributes adb) KADM5_POLICY = true /\ adb_policy adb = Some name /\
    key_data_of kdb (dbe_n_key_data kdb) = Ok keys /\ made_of (master_keyblock conf) keys w /\
    ring n adb l /\ Forall2 (made_of (hist_key conf)) l (lastn n ws)
}.

Lemma made_of_refused k0 keys key hist h passwd : key_in (master_keyblock conf) k0 key -> key_of pr t passwd key -> In h hist -> made_of (hist_key conf) h (Some passwd) ->
  check_pw_reuse conf (k0 :: keys) hist <> Ok tt.
Proof. intros HI HO HIn (h0 & l & key' & -> & HI' & HO'). rewrite <- (key_of_fun _ _ _ _ _ HO HO') in HI'. eapply reuse_found; [exact HI|exact HI'|by left|exact HIn]. Qed.

Lemma Forall2_lastn {A B} (R : A -> B -> Prop) m l l' : Forall2 R l l' -> Forall2 R (lastn m l) (lastn m l').
Proof. intros H. unfold lastn. rewrite (Forall2_length H). by apply Forall2_drop. Qed.

(** An accepted password is none of the last n + 1, and then it is the last one. *)
Lemma chpass_step h princ passwd d ws w d' : octets passwd -> passwd <> [] -> dbkey princ = Ok k -> remembers d ws w ->
  chpass_principal conf clock h (Some princ) (Some passwd) d = (Ok tt, d') ->
  remembers d' (ws ++ [w]) (Some passwd) /\ ~ In (Some passwd) (lastn n ws) /\ w <> Some passwd.
Proof.
  intros Hp Hpn Hpk [HW (p & HPo & HPn) (kdb & adb & keys & l & HL & HPr & HB & HAp & HKd & HMa & HRi & HMh)].
  intros Ec. destruct (chpass_parts _ _ _ _ _ _ _ _ _ _ _ _ Hpk HL HB HAp HPo Ec) as (kdb3 & rnd & pol & cur & new & adb' & d11 & kdb4 & EC & HPn1 & E12 & E13 & E11 & HPr4 & HK4 & H).
  rewrite HPn in HPn1. rewrite HKd in E12. injection E12 as <-. unfold keysalts in EC. rewrite Hks in EC.
  destruct (cpw_first _ _ _ _ _ _ _ _ _ pr HW Hks15 HPr EC) as (HW9 & k0 & key & l0 & HK0 & HO & HI). rewrite (proj2 HK0) in E13. injection E13 as <-.
  specialize (HI Hmaster (key_of_is _ _ _ _ Hname Hafs Hp Hpn HO)). specialize (HK4 _ HK0). rewrite HPr in HPr4.
  pose proof (check_history_policy _ _ _ _ _ _ _ _ E11) as [HA1 HA2]. pose proof (quiet_check_history conf clock (k0 :: l0) keys adb pol (tick (set_random rnd d))) as [HQ3 HQ4]. rewrite E11 in HQ3, HQ4. cbn [snd] in HQ3, HQ4.
  apply (check_history_ok n _ _ _ _ l) in E11 as (HW11 & hist & HR' & HC1 & HC2 & dx & EH); [|done..].
  destruct (put_stored _ _ _ _ _ pr k H HPr4 Hk) as (kdb5 & HLike & HP5 & HPo5). pose proof (put_random _ _ _ _ _ _ H) as HW5.
  assert (Hh : made_of (hist_key conf) hist w).
  { destruct w as [pw|]; [|done]. destruct HMa as (k1 & l1 & key1 & -> & HI1 & HO1). destruct (recrypt_first _ _ _ (tick (set_random rnd d)) _ _ HW9 HI1 EH) as (k2 & l2 & -> & HI2). by exists k2, l2, key1. }
  split; [|split].
  - split; [by rewrite HW5|exists p; rewrite HPo5, HQ4; exact (conj HPo HPn)|]. exists kdb5, adb', (k0 :: l0), (lastn n (l ++ [hist])). rewrite HP5. split; [apply lookup_insert_eq|].
    split; [by destruct HLike as (-> & _)|]. split; [by rewrite HA2|]. split; [by rewrite HA1|]. split; [by apply (has_keys_like _ _ _ HLike) in HK4 as [_ ->]|].
    split; [by exists k0, l0, key|]. split; [done|]. rewrite <- (lastn_lastn n ws). apply Forall2_lastn, Forall2_app; [done|]. by constructor.
  - intros HIn. apply list_elem_of_In, list_elem_of_lookup in HIn as [i Hi]. destruct (Forall2_lookup_r _ _ _ _ _ HMh Hi) as (h0 & Hh0 & HM0).
    eapply made_of_refused; [exact HI|exact HO|eapply ring_in; [exact HRi|]|exact HM0|exact HC2]. by apply list_elem_of_In, list_elem_of_lookup; exists i.
  - intros ->. by apply (made_of_refused k0 l0 key [hist] hist passwd HI HO (or_introl eq_refl) Hh).
Qed.

(** The entry and what its policy asks for are as they were. *)
Definition undisturbed (d d' : kadm_db) : Prop :=
  kd_princs d' !! k = kd_princs d !! k /\ po_pw_history_num <$> kd_policies d' !! name = po_pw_history_num <$> kd_policies d !! name /\
  (prng_wf (kd_random d) -> prng_wf (kd_random d')).

(** The passwords that the principal is given, one after the other, with anything else in
    between that does not concern it *)
Inductive changes : kadm_db -> list (list octet) -> kadm_db -> Prop :=
| changes_nil d : changes d [] d
| changes_accepted h princ d passwd d1 l d2 : dbkey princ = Ok k -> chpass_principal conf clock h (Some princ) (Some passwd) d = (Ok tt, d1) -> changes d1 l d2 ->
    changes d (passwd :: l) d2
| changes_other d d1 l d2 : undisturbed d d1 -> changes d1 l d2 -> changes d l d2.

Lemma remembers_undisturbed d d' ws w : undisturbed d d' -> remembers d ws w -> remembers d' ws w.
Proof.
  intros (H1 & H2 & H3) [R1 (p & Hp & HN) R3]. split; [by apply H3| |by rewrite H1]. rewrite Hp in H2. destruct (kd_policies d' !! name) as [p'|]; [|done].
  injection H2 as H2. exists p'. by rewrite H2.
Qed.

Lemma changes_fresh d l d' : changes d l d' -> Forall (fun passwd => octets passwd /\ passwd <> []) l -> forall ws w, remembers d ws w ->
  forall j passwd, l !! j = Some passwd -> ~ In (Some passwd) (lastn (S n) ((ws ++ [w]) ++ (Some <$> take j l))).
Proof.
  induction 1 as [|h princ d passwd d1 l d2 Hp Ec _ IH|d d1 l d2 HU _ IH]; intros HF ws w HR j pw Hj; [done| |by eapply IH; [|eapply remembers_undisturbed|]].
  apply Forall_cons_1 in HF as [[HO HN] HF]. destruct (chpass_step h princ passwd d ws w d1 HO HN Hp HR Ec) as (HR1 & HNI & Hw). destruct j as [|j]; cbn in Hj.
  - injection Hj as <-. cbn [take fmap list_fmap]. rewrite app_nil_r, lastn_snoc, List.in_app_iff. intros [H|[H|[]]]; done.
  - specialize (IH HF _ _ HR1 j pw Hj). cbn [take]. rewrite fmap_cons, cons_middle, app_assoc. done.
Qed.


End history.

(** ** Keys that are set *)

Section set.
Context `{P : Platform} `{St : Stack} (conf : kadm_config) (clock : nat -> outcome error_code Z).

(** Without tuples, the number of keys is never the number of tuples. *)
Theorem setkey_never_succeeds h princ keys d : (setkey_principal conf clock h princ keys d).1 <> Ok tt.
Proof.
  unfold setkey_principal, setkey_principal_3. intros E. destruct (sbind _ _ d) as [r d'] eqn:H in E. cbn [fst] in E. subst r. apply sbind_ok in H as ([] & d1 & _ & H).
  destruct princ as [princ|]; [|done]. destruct keys as [|key keys]; [done|]. do 4 (apply sbind_ok in H as (? & ? & ?E & H)).
  apply sret_ok in E2 as [E2 _]. rewrite zlen_cons in E2. pose proof (zlen_nonneg keys). change (zlen []) with 0 in E2. destruct (Z.eqb_spec 0 (zlen keys + 1)); [lia|done].
Qed.

End set.
