(* ===== verification/CodecTypes.v ===== *)
(** * The Kerberos types meet their contracts

    For every type: its DER form ([der_]), the values that survive a round trip
    ([wf_]), that the encoder writes the DER form ([enc_]) and that the decoder reads
    the value back from it ([dec_]). *)

From S2P Require Import Prelude Asn1Buf Asn1Tag GmTime Asn1Prim Krb5Types Asn1KEncode Asn1KDecode Krb5Decode Der Codec CodecRead CodecPrim.

(** ** Automation *)

(** Solves the side conditions on tag numbers. *)
Ltac tags :=
  repeat match goal with
  | |- _ /\ _ => split
  | |- Forall _ (_ ++ _) => apply Forall_app; split
  | |- Forall _ [] => constructor
  | |- Forall _ (fld _ _) => constructor; [simpl; lia|constructor]
  | |- Forall _ (opt_fld ?b _ _) => destruct b; [constructor; [simpl; lia|]|]; constructor
  end; try lia.

(** One step of the encoder of a structure, last field first. *)
Ltac enc_step :=
  lazymatch goal with
  | |- builds (_ >=> _) _ _ => eapply builds_seq
  | |- builds (asn1_addfield _ _) _ _ => eapply builds_field; [lia|eauto with krb]
  | |- builds (asn1_addlenfield _ _ _ _) _ _ => eapply builds_lenfield; [lia|eauto with krb]
  | |- builds (when _ (_ >=> _)) _ _ => eapply builds_opt2; intros ?
  | |- builds (when _ (fun _ => Err _)) _ _ => apply builds_when_false
  | |- builds (when _ _) _ _ => eapply builds_opt; intros ?
  | |- builds asn1_makeseq _ _ => apply builds_makeseq
  | |- builds (asn1_apptag _) _ _ => apply builds_apptag; lia
  | |- builds (addplain _) _ _ => apply builds_plain; eauto with krb
  | |- encodes (asn1_encode_body _) _ => apply builds_body; change (@nil Z) with (flat []) at 1
  end.
Ltac enc := repeat enc_step.

Section Rules.
Context `{P : Platform}.

Lemma returns_ok {A} e E s fs (v w : A) :
  fields_at e E s fs -> v = w -> returns E (Ok (v, s)) w.
Proof. intros [H _] ->. by exists s. Qed.

Lemma fld_not_nil t c fs : fld t c ++ fs <> [].
Proof. done. Qed.

Lemma der_tlv_not_nil id c : der_tlv id c <> [].
Proof. done. Qed.

(** Constants. *)
Lemma enc_const z : is_int 32 z -> encodes (asn1_encode_integer z) (der_integer z).
Proof. intros. by apply enc_integer, int32_long. Qed.

Lemma dec_kvno z : 0 <= z < 2147483648 -> decodes (integer_convert uint32) (der_integer z) z.
Proof.
  intros H. rewrite <- (long_id z).
  - rewrite long_id at 2; [|apply int32_long; unfold is_int; simpl; lia].
    apply dec_uint32. unfold is_uint. change (2 ^ 32) with 4294967296. lia.
  - apply int32_long. unfold is_int. simpl. lia.
Qed.

Lemma dec_msgtype z : 0 <= z < 2147483648 -> decodes asn1_decode_msgtype (der_integer z) z.
Proof.
  intros H. split. intros e buf Hi. unfold asn1_decode_msgtype.
  assert (Hz : is_long z) by (apply int32_long; unfold is_int; simpl; lia).
  rewrite (dec_unsigned z ltac:(lia) Hz e buf Hi).
  cbn [obind]. rewrite to_uint_id; [done|]. unfold is_uint. change (2 ^ 32) with 4294967296. lia.
Qed.

End Rules.

#[export] Hint Resolve enc_long enc_octetstring enc_charstring enc_generalstring
  enc_time enc_flags : krb.
#[export] Hint Resolve dec_int32 dec_uint32 dec_octet dec_octetstring dec_charstring
  dec_generalstring dec_time dec_flags : krb.
#[export] Hint Extern 2 (is_int 32 _) => (unfold is_int; simpl; lia) : krb.
(** The sources' names for one decoder or encoder at several types. *)
Ltac expose :=
  progress unfold asn1_decode_int, asn1_decode_int32, asn1_decode_kvno, asn1_decode_enctype,
    asn1_decode_cksumtype, asn1_decode_octet, asn1_decode_addrtype, asn1_decode_authdatatype,
    asn1_decode_ticket_flags, asn1_decode_ap_options, asn1_decode_kdc_options,
    asn1_decode_sam_flags, asn1_encode_ap_options, asn1_encode_ticket_flags,
    asn1_encode_kdc_options, asn1_encode_sam_flags.
#[export] Hint Extern 1 (decodes _ _ _) => expose : krb.
#[export] Hint Extern 1 (encodes _ _) => expose : krb.

(** One step of the decoder of a structure, first field first.  A field that is known
    to be absent has been dropped from the list, and is skipped by its tag. *)
Ltac dec_next H := clear H; intros ? H; cbv beta iota.
Ltac dec_get lem H := eapply lem; [exact H|solve [eauto with krb]|dec_next H].
Ltac dec_opt H t step skip :=
  lazymatch type of H with
  | fields_at _ _ _ (opt_fld _ t _ ++ _) =>
      eapply step; [exact H|lia|solve [tags]|intros; solve [eauto with krb]|dec_next H]
  | fields_at _ _ _ (fld t ?c ++ ?r) =>
      change (fld t c) with (opt_fld true t c) in H;
      eapply step; [exact H|lia|solve [tags]|intros; solve [eauto with krb]|dec_next H]
  | _ => eapply skip; [exact H|lia|solve [tags]|cbv beta iota]
  end.
Ltac dec_step :=
  match goal with
  | H : fields_at ?e ?E ?s _ |- returns ?E ?r _ =>
      lazymatch r with
      | obind (get_field _ _ _ _) _ => dec_get @get_field_step H
      | obind (get_lenfield _ _ _ _) _ => dec_get @get_field_step H
      | obind (t_get_field _ _ _ _) _ => dec_get @t_get_field_step H
      | obind (opt_field ?t _ _ _ _) _ => dec_opt H t @opt_field_step @opt_field_skip
      | obind (t_opt_field ?t _ _ _ _) _ => dec_opt H t @t_opt_field_step @t_opt_field_skip
      | obind (t_if_field ?t _ _ _) _ => dec_opt H t @t_if_field_step @t_if_field_skip
      | obind (t_opt_alloc_field ?t _ _ _) _ => dec_opt H t @t_opt_alloc_step @t_opt_alloc_skip
      | obind (opt_string _ _ _ _) _ =>
          eapply opt_string_step; [exact H|lia|solve [tags]|intros; solve [eauto with krb]|dec_next H]
      | obind (opt_principal_field _ _ (Some _) _ _) _ =>
          lazymatch type of H with
          | fields_at _ _ _ (fld _ _ ++ _) => dec_get @opt_principal_step H
          | _ => eapply opt_principal_skip; [exact H|lia|solve [tags]|cbv beta iota]
          end
      | obind (if tv_tagnum _ =? ?t then obind (get_field _ _ _ _) _ else _) _ =>
          dec_opt H t @if_alloc_step @tag_test_skip
      | obind (if tv_tagnum _ =? _ then get_field _ _ _ _ else _) _ =>
          eapply tag_test_step;
            [exact H|lia|solve [tags]
            |intros ? ?; eapply get_field_ok; [eassumption|solve [eauto with krb]]|dec_next H]
      | obind (guard (?x =? ?x) _) _ => rewrite Z.eqb_refl; cbn [guard obind]
      | Ok _ => eapply returns_ok; [exact H|]
      end
  end.
Ltac dec_struct :=
  lazymatch goal with
  | |- decodes (structure _) _ _ => apply structure_ok; [done|solve [tags]|intros ? ? ? ?]
  end.
Ltac dec := dec_struct; repeat dec_step.

Section Types.
Context `{P : Platform}.

(** ** Lengths with contents under an integer type *)

Definition bytes (data : option (list octet)) : list octet := default [] data.
Definition wf_data (d : krb5_data) : Prop := wf_bytes (d_length d) (d_data d).

Definition der_typed (type : Z) (data : option (list octet)) : list octet :=
  der_seq (fld 0 (der_integer (long type)) ++ fld 1 (der_octetstring (bytes data)) ++ []).

Definition der_address (a : krb5_address) : list octet := der_typed (ad_addrtype a) (ad_contents a).
Record wf_address (a : krb5_address) : Prop := {
  wf_ad_type : is_int 32 (ad_addrtype a);
  wf_ad_contents : wf_bytes (ad_length a) (ad_contents a);
  wf_ad_some : ad_contents a <> None
}.

Lemma enc_host_address a : wf_address a -> encodes (asn1_encode_host_address (Some a)) (der_address a).
Proof.
  intros [H1 H2 H3]. unfold asn1_encode_host_address.
  destruct (ad_contents a) eqn:E; [|done]. unfold der_address, der_typed. rewrite E. enc.
Qed.

Lemma dec_host_address a : wf_address a -> decodes asn1_decode_host_address (der_address a) a.
Proof.
  intros [H1 H2 H3]. unfold asn1_decode_host_address, der_address, der_typed. dec. by destruct a.
Qed.

#[local] Instance address_codec :
  Codec (fun a => asn1_encode_host_address (Some a)) asn1_decode_host_address der_address wf_address.
Proof. split; [exact enc_host_address|exact dec_host_address|done]. Qed.

Definition der_encryption_key (k : krb5_keyblock) : list octet := der_typed (kb_enctype k) (kb_contents k).
Record wf_keyblock (k : krb5_keyblock) : Prop := {
  wf_kb_type : is_int 32 (kb_enctype k);
  wf_kb_contents : wf_bytes (kb_length k) (kb_contents k)
}.

Lemma enc_encryption_key k :
  wf_keyblock k -> encodes (asn1_encode_encryption_key (Some k)) (der_encryption_key k).
Proof.
  intros [H1 H2]. unfold asn1_encode_encryption_key. rewrite (wf_bytes_missing _ _ H2).
  unfold der_encryption_key, der_typed. enc.
Qed.

Lemma dec_encryption_key k :
  wf_keyblock k -> decodes asn1_decode_encryption_key (der_encryption_key k) k.
Proof.
  intros [H1 H2]. unfold asn1_decode_encryption_key, der_encryption_key, der_typed. dec. by destruct k.
Qed.

Definition der_checksum (c : krb5_checksum) : list octet := der_typed (ck_checksum_type c) (ck_contents c).
Record wf_checksum (c : krb5_checksum) : Prop := {
  wf_ck_type : is_int 32 (ck_checksum_type c);
  wf_ck_contents : wf_bytes (ck_length c) (ck_contents c)
}.

Lemma enc_checksum c : wf_checksum c -> encodes (asn1_encode_checksum (Some c)) (der_checksum c).
Proof.
  intros [H1 H2]. unfold asn1_encode_checksum. rewrite (wf_bytes_missing _ _ H2).
  unfold der_checksum, der_typed. enc.
Qed.

Lemma dec_checksum c : wf_checksum c -> decodes asn1_decode_checksum (der_checksum c) c.
Proof.
  intros [H1 H2]. unfold asn1_decode_checksum, der_checksum, der_typed. dec. by destruct c.
Qed.

Definition der_authdata (a : krb5_authdata) : list octet := der_typed (au_ad_type a) (au_contents a).
Record wf_authdata (a : krb5_authdata) : Prop := {
  wf_au_type : is_int 32 (au_ad_type a);
  wf_au_contents : wf_bytes (au_length a) (au_contents a)
}.

#[local] Instance authdata_codec :
  Codec asn1_encode_krb5_authdata_elt asn1_decode_authdata_elt der_authdata wf_authdata.
Proof.
  split; [intros a [H1 H2]|intros a [H1 H2]|done].
  - unfold asn1_encode_krb5_authdata_elt. rewrite (wf_bytes_missing _ _ H2).
    unfold der_authdata, der_typed. enc.
  - unfold asn1_decode_authdata_elt, der_authdata, der_typed. dec. by destruct a.
Qed.

Definition der_transited (t : krb5_transited) : list octet :=
  der_typed (tr_type t) (d_data (tr_contents t)).
Record wf_transited (t : krb5_transited) : Prop := {
  wf_tr_type : is_octet (tr_type t);
  wf_tr_contents : wf_data (tr_contents t)
}.

Lemma enc_transited t : wf_transited t -> encodes (asn1_encode_transited_encoding t) (der_transited t).
Proof.
  intros [H1 H2]. unfold asn1_encode_transited_encoding. rewrite (wf_bytes_missing _ _ H2).
  unfold der_transited, der_typed. enc.
Qed.

Lemma dec_transited t : wf_transited t -> decodes asn1_decode_transited_encoding (der_transited t) t.
Proof.
  intros [H1 H2]. unfold asn1_decode_transited_encoding, der_transited, der_typed. dec.
  by destruct t as [? []].
Qed.

(** ** Encrypted data *)

Definition der_encrypted_data (d : krb5_enc_data) : list octet :=
  der_seq (fld 0 (der_integer (long (ed_enctype d))) ++
           opt_fld (negb (ed_kvno d =? 0)) 1 (der_integer (long (ed_kvno d))) ++
           fld 2 (der_octetstring (bytes (d_data (ed_ciphertext d)))) ++ []).
Record wf_enc_data (d : krb5_enc_data) : Prop := {
  wf_ed_enctype : is_int 32 (ed_enctype d);
  wf_ed_kvno : is_uint 32 (ed_kvno d);
  wf_ed_ciphertext : wf_data (ed_ciphertext d)
}.

Lemma enc_encrypted_data d : wf_enc_data d -> encodes (asn1_encode_encrypted_data d) (der_encrypted_data d).
Proof.
  intros [H1 H2 H3]. unfold asn1_encode_encrypted_data. rewrite (wf_bytes_missing _ _ H3).
  unfold der_encrypted_data. enc.
Qed.

(** The value of an optional number, absent when it is 0. *)
Lemma opt_zero z : (if negb (z =? 0) then z else 0) = z.
Proof. by destruct (Z.eqb_spec z 0). Qed.

Lemma dec_encrypted_data d : wf_enc_data d -> decodes asn1_decode_encrypted_data (der_encrypted_data d) d.
Proof.
  intros [H1 H2 H3]. unfold asn1_decode_encrypted_data, der_encrypted_data. dec.
  rewrite opt_zero. by destruct d as [? ? []].
Qed.

(** ** Preauthentication data and last requests *)

Definition der_pa_data (p : krb5_pa_data) : list octet :=
  der_seq (fld 1 (der_integer (long (pa_type p))) ++ fld 2 (der_octetstring (bytes (pa_contents p))) ++ []).
Record wf_pa_data (p : krb5_pa_data) : Prop := {
  wf_pa_type : is_int 32 (pa_type p);
  wf_pa_contents : wf_bytes (pa_length p) (pa_contents p)
}.

#[local] Instance pa_data_codec : Codec asn1_encode_pa_data asn1_decode_pa_data der_pa_data wf_pa_data.
Proof.
  split; [intros a [H1 H2]|intros a [H1 H2]|done].
  - unfold asn1_encode_pa_data. rewrite (wf_bytes_missing _ _ H2). unfold der_pa_data. enc.
  - unfold asn1_decode_pa_data, der_pa_data. dec. by destruct a.
Qed.

Definition der_last_req_entry (l : krb5_last_req_entry) : list octet :=
  der_seq (fld 0 (der_integer (long (lr_type l))) ++ fld 1 (der_time (lr_value l)) ++ []).
Record wf_last_req_entry (l : krb5_last_req_entry) : Prop := {
  wf_lr_type : is_octet (lr_type l);
  wf_lr_value : wf_time (lr_value l)
}.

#[local] Instance last_req_entry_codec :
  Codec asn1_encode_last_req_entry asn1_decode_last_req_entry der_last_req_entry wf_last_req_entry.
Proof.
  split; [intros a [H1 H2]|intros a [H1 H2]|done].
  - unfold asn1_encode_last_req_entry, der_last_req_entry. enc.
  - unfold asn1_decode_last_req_entry, der_last_req_entry. dec. by destruct a.
Qed.

Definition der_etype_info_entry (i : krb5_etype_info_entry) : list octet :=
  der_seq (fld 0 (der_integer (long (ei_etype i))) ++
           opt_fld (0 <=? ei_length i) 1 (der_octetstring (bytes (ei_salt i))) ++ []).
Record wf_etype_info_entry (i : krb5_etype_info_entry) : Prop := {
  wf_ei_etype : is_int 32 (ei_etype i);
  wf_ei_salt : wf_bytes (ei_length i) (ei_salt i) \/ (ei_length i = -1 /\ ei_salt i = None)
}.

#[local] Instance etype_info_entry_codec :
  Codec asn1_encode_etype_info_entry asn1_decode_etype_info_entry der_etype_info_entry
        wf_etype_info_entry.
Proof.
  split; [intros a [H1 H2]|intros a [H1 H2]|done].
  - unfold asn1_encode_etype_info_entry.
    assert ((0 <? ei_length a) && match ei_salt a with None => true | Some _ => false end = false) as ->.
    { destruct H2 as [(E & _)|[-> ->]]; [|done]. destruct (ei_salt a); [by rewrite andb_false_r|].
      by rewrite E. }
    unfold der_etype_info_entry. enc. destruct H2 as [H2|[? _]]; [eauto with krb|lia].
  - unfold asn1_decode_etype_info_entry, der_etype_info_entry. dec.
    eapply (tag_test_step _ _ _ _ _ _ _ _ _ (ei_length a, ei_salt a)); [eassumption|lia|tags| |].
    + intros Hb Hf. eapply get_field_ok; [exact Hf|].
      destruct H2 as [H2|[? _]]; [eauto with krb|lia].
    + intros ? H'. destruct H2 as [(E0 & H2)|[E1 E2]].
      * replace (0 <=? ei_length a) with true by (rewrite E0; lens).
        eapply returns_ok; [exact H'|]. by destruct a.
      * rewrite E1. eapply returns_ok; [exact H'|]. destruct a. simpl in *. by subst.
Qed.

(** ** Arrays *)

Lemma mjoin_snoc {A} (der : A -> list octet) xs x b0 :
  mjoin (der <$> xs ++ [x]) ++ b0 = mjoin (der <$> xs) ++ der x ++ b0.
Proof. rewrite fmap_app, join_app, <- app_assoc. simpl. by rewrite app_nil_r. Qed.

(** A loop over an array from its last element to its first. *)
Lemma builds_downto {A} (enc : A -> encoder) (der : A -> list octet) (loop : nat -> encstep) xs :
  (loop O = fun st => Ok st) ->
  (forall n x, xs !! n = Some x -> loop (S n) = addplain (enc x) >=> loop n) ->
  Forall (fun x => encodes (enc x) (der x)) xs ->
  forall k b0, (k <= length xs)%nat -> builds (loop k) b0 (mjoin (der <$> take k xs) ++ b0).
Proof.
  intros L0 LS Hx. induction k as [|n IH]; intros b0 Hk.
  - rewrite L0. split; [simpl; lia|]. split; [done|]. intros buf code Hr _. by exists buf.
  - destruct (lookup_lt_is_Some_2 xs n) as [x Ex]; [lia|].
    rewrite (LS n x Ex), (take_S_r _ _ _ Ex), mjoin_snoc.
    eapply builds_seq; [apply builds_plain; by eapply Forall_lookup_1 in Hx|].
    apply IH. lia.
Qed.

Lemma builds_elements {A} (enc : A -> encoder) (der : A -> list octet) rs b0 :
  Forall (fun x => encodes (enc x) (der x)) rs ->
  builds (encode_elements enc rs) b0 (mjoin (der <$> reverse rs) ++ b0).
Proof.
  intros H. revert b0. induction H as [|x rs Hx _ IH]; intros b0.
  - split; [simpl; lia|]. split; [done|]. intros buf code Hr _. by exists buf.
  - cbn [encode_elements]. rewrite reverse_cons, mjoin_snoc.
    eapply builds_seq; [by apply builds_plain|]. apply IH.
Qed.

Section Arrays.
Context {A} {enc : A -> encoder} {dec : decoder A} {der : A -> list octet} {wf : A -> Prop}.
Context `{C : !Codec enc dec der wf}.

Lemma enc_array xs :
  Forall wf xs ->
  encodes (asn1_encode_body (encode_elements enc (reverse xs) >=> asn1_makeseq))
    (der_seqof (der <$> xs)).
Proof.
  intros H. apply builds_body. eapply builds_seq; [apply builds_elements|].
  - rewrite Forall_reverse. eapply Forall_impl; [|exact H]. apply codec_encodes.
  - rewrite app_nil_r, reverse_involutive. apply builds_makeseq.
Qed.

Lemma dec_array xs :
  Forall wf xs -> decodes (decode_array_body dec) (der_seqof (der <$> xs)) (Some xs).
Proof.
  intros H. apply decode_array_ok. eapply Forall_impl; [|exact H].
  intros x Hx. split; [by apply codec_decodes|apply codec_not_nil].
Qed.

End Arrays.

(** An array that is present and not empty. *)
Definition der_array {A} (der : A -> list octet) (xs : option (list A)) : list octet :=
  der_seqof (der <$> default [] xs).
Definition wf_array {A} (wf : A -> Prop) (xs : option (list A)) : Prop :=
  exists x l, xs = Some (x :: l) /\ Forall wf (x :: l).
(** An array that is present and not empty, or NULL. *)
Definition wf_opt_array {A} (wf : A -> Prop) (xs : option (list A)) : Prop :=
  xs = None \/ wf_array wf xs.

Lemma wf_opt_array_nonempty {A} (wf : A -> Prop) xs :
  wf_opt_array wf xs -> nonempty xs = true -> wf_array wf xs.
Proof. by intros [->|?]. Qed.

Lemma opt_array {A} (wf : A -> Prop) (xs : option (list A)) :
  wf_opt_array wf xs -> (if nonempty xs then xs else None) = xs.
Proof. intros [->|(x & l & -> & _)]; done. Qed.

Lemma enc_host_addresses xs : wf_array wf_address xs ->
  encodes (asn1_encode_host_addresses xs) (der_array der_address xs).
Proof. intros (x & l & -> & H). by apply (enc_array (C := address_codec)). Qed.

Lemma dec_host_addresses xs : wf_array wf_address xs ->
  decodes asn1_decode_host_addresses (der_array der_address xs) xs.
Proof. intros (x & l & -> & H). by apply (dec_array (C := address_codec)). Qed.

Lemma enc_authorization_data xs : wf_array wf_authdata xs ->
  encodes (asn1_encode_authorization_data xs) (der_array der_authdata xs).
Proof. intros (x & l & -> & H). by apply (enc_array (C := authdata_codec)). Qed.

Lemma dec_authorization_data xs : wf_array wf_authdata xs ->
  decodes asn1_decode_authorization_data (der_array der_authdata xs) xs.
Proof. intros (x & l & -> & H). by apply (dec_array (C := authdata_codec)). Qed.

Lemma enc_last_req xs : wf_array wf_last_req_entry xs ->
  encodes (asn1_encode_last_req xs) (der_array der_last_req_entry xs).
Proof. intros (x & l & -> & H). by apply (enc_array (C := last_req_entry_codec)). Qed.

Lemma dec_last_req xs : wf_array wf_last_req_entry xs ->
  decodes asn1_decode_last_req (der_array der_last_req_entry xs) xs.
Proof. intros (x & l & -> & H). by apply (dec_array (C := last_req_entry_codec)). Qed.

(** The arrays whose encoder accepts no element. *)
Lemma enc_sequence_of_pa_data xs : Forall wf_pa_data xs ->
  encodes (asn1_encode_sequence_of_pa_data (Some xs)) (der_array der_pa_data (Some xs)).
Proof. apply (enc_array (C := pa_data_codec)). Qed.

Lemma dec_sequence_of_pa_data xs : Forall wf_pa_data xs ->
  decodes asn1_decode_sequence_of_pa_data (der_array der_pa_data (Some xs)) (Some xs).
Proof. apply (dec_array (C := pa_data_codec)). Qed.

Lemma enc_padata xs : wf_array wf_pa_data xs ->
  encodes (asn1_encode_sequence_of_pa_data xs) (der_array der_pa_data xs).
Proof. intros (x & l & -> & H). by apply enc_sequence_of_pa_data. Qed.

Lemma dec_padata xs : wf_array wf_pa_data xs ->
  decodes asn1_decode_sequence_of_pa_data (der_array der_pa_data xs) xs.
Proof. intros (x & l & -> & H). by apply dec_sequence_of_pa_data. Qed.

Lemma enc_etype_info xs : Forall wf_etype_info_entry xs ->
  encodes (asn1_encode_etype_info (Some xs)) (der_array der_etype_info_entry (Some xs)).
Proof. apply (enc_array (C := etype_info_entry_codec)). Qed.

Lemma dec_etype_info xs : Forall wf_etype_info_entry xs ->
  decodes asn1_decode_etype_info (der_array der_etype_info_entry (Some xs)) (Some xs).
Proof. apply (dec_array (C := etype_info_entry_codec)). Qed.

(** Encryption types: a counted array. *)
Definition der_enctypes (l : option (list Z)) : list octet :=
  der_seqof ((fun t => der_integer (long t)) <$> default [] l).
Definition wf_enctypes (n : Z) (l : option (list Z)) : Prop :=
  exists x xs, l = Some (x :: xs) /\ n = zlen (x :: xs) /\ Forall (is_int 32) (x :: xs).

Lemma enc_enctypes n l : wf_enctypes n l ->
  encodes (asn1_encode_sequence_of_enctype n l) (der_enctypes l).
Proof.
  intros (x & xs & -> & -> & H). unfold asn1_encode_sequence_of_enctype.
  apply builds_body. eapply builds_seq; [|apply builds_makeseq].
  unfold zlen. rewrite Nat2Z.id. set (l := x :: xs). simpl default.
  replace (mjoin _) with (mjoin ((fun t => der_integer (long t)) <$> take (length l) l) ++ [])
    by (by rewrite firstn_all, app_nil_r).
  apply (builds_downto (fun t => asn1_encode_integer (long t)) _ (encode_enctypes l));
    [done| | |done].
  - intros n y Ey. cbn [encode_enctypes]. by rewrite Ey.
  - apply Forall_true. intros y. apply enc_long.
Qed.

Lemma dec_enctypes n l : wf_enctypes n l ->
  decodes asn1_decode_sequence_of_enctype (der_enctypes l) (n, l).
Proof.
  intros (x & xs & -> & -> & H). split. intros e buf Hi. unfold asn1_decode_sequence_of_enctype.
  destruct (array_ok asn1_decode_enctype (fun t => der_integer (long t)) e buf (x :: xs))
    as (len & b & sub & sub' & -> & E2 & E3 & _); [|done|].
  - eapply Forall_impl; [|exact H]. intros y Hy. split; [by apply dec_int32|done].
  - cbn [obind]. rewrite E2. cbn [obind]. by rewrite E3.
Qed.

(** ** Principals *)

Definition der_component (d : krb5_data) : list octet := der_generalstring (bytes (d_data d)).
Definition der_realm (p : krb5_principal_data) : list octet :=
  der_generalstring (bytes (d_data (pr_realm p))).
Definition der_principal_name (p : krb5_principal_data) : list octet :=
  der_seq (fld 0 (der_integer (long (pr_type p))) ++
           fld 1 (der_seqof (der_component <$> default [] (pr_data p))) ++ []).

(** A principal with at least one component. *)
Record wf_principal (p : krb5_principal_data) : Prop := {
  wf_pr_realm : wf_data (pr_realm p);
  wf_pr_type : is_int 32 (pr_type p);
  wf_pr_data : exists c cs, pr_data p = Some (c :: cs) /\ pr_length p = zlen (c :: cs) /\
                 Forall wf_data (c :: cs)
}.

Lemma enc_realm p : wf_principal p -> encodes (asn1_encode_realm (Some p)) (der_realm p).
Proof.
  intros [H1 _ _]. unfold asn1_encode_realm. rewrite (wf_bytes_missing _ _ H1).
  by apply enc_generalstring.
Qed.

Lemma dec_realm p : wf_principal p ->
  decodes (asn1_decode_realm null_principal) (der_realm p) (Principal (pr_realm p) None 0 0).
Proof.
  intros [H1 _ _]. split. intros e buf Hi. unfold asn1_decode_realm.
  rewrite (dec_generalstring _ _ H1 e buf Hi). cbn [obind]. by destruct p as [[] ? ? ?].
Qed.

Lemma builds_components cs b0 : Forall wf_data cs ->
  builds (encode_components cs (length cs)) b0 (mjoin (der_component <$> cs) ++ b0).
Proof.
  intros H. rewrite <- (firstn_all cs) at 3.
  apply (builds_downto (fun c => asn1_encode_generalstring (d_length c) (d_data c)) _
           (encode_components cs)); [done| | |done].
  - intros n c Ec. cbn [encode_components]. rewrite Ec.
    eapply Forall_lookup_1 in H; [|done]. by rewrite (wf_bytes_missing _ _ H).
  - eapply Forall_impl; [|exact H]. intros c Hc. by apply enc_generalstring.
Qed.

Lemma enc_principal_name p :
  wf_principal p -> encodes (asn1_encode_principal_name (Some p)) (der_principal_name p).
Proof.
  intros [_ H2 (c & cs & Ed & El & Hc)]. unfold asn1_encode_principal_name, der_principal_name.
  rewrite Ed, El. unfold zlen. rewrite Nat2Z.id. simpl default.
  apply builds_body. eapply builds_seq; [by apply (builds_components (c :: cs))|]. rewrite app_nil_r.
  eapply builds_seq; [apply builds_makeseq|].
  eapply (builds_seq _ _ _ (flat (fld 1 (der_seqof (der_component <$> c :: cs)) ++ []))).
  - rewrite app_nil_r, flat_fld. apply builds_etag. lia.
  - enc.
Qed.

(** The sequence of the components of a name. *)
Lemma components_ok e sub cs :
  Forall wf_data cs -> input e sub (der_seqof (der_component <$> cs)) ->
  exists l b sub1 sub2 elts,
    sequence_of_common e sub = Ok (l, 0, b, sub1) /\
    decode_elements (de_fuel e) asn1_decode_generalstring e 0 [] sub1 = Ok (elts, sub2) /\
    end_sequence_of_no_tagvars e b sub2 0 = Ok (advance sub (zlen (der_seqof (der_component <$> cs)))) /\
    (fun '(len, d) => Data len d) <$> elts = cs /\ length elts = length cs.
Proof.
  intros Hc Hin. set (xs := (fun d => (d_length d, d_data d)) <$> cs).
  assert (Ex : der_component <$> cs =
    (fun x : Z * option (list octet) => der_generalstring (bytes x.2)) <$> xs)
    by (unfold xs; by rewrite <- list_fmap_compose).
  rewrite Ex in *.
  destruct (fun Hx => array_ok asn1_decode_generalstring _ e sub xs Hx Hin)
    as (l & b & sub1 & sub2 & E1 & E2 & _ & E3).
  { unfold xs. apply Forall_fmap. eapply Forall_impl; [|exact Hc].
    intros d Hd. split; [by apply dec_generalstring|done]. }
  exists l, b, sub1, sub2, xs. do 3 (split; [done|]). unfold xs. split; [|by rewrite length_fmap].
  rewrite <- list_fmap_compose. rewrite <- (list_fmap_id cs) at 2.
  apply list_fmap_ext. by intros ? [] _.
Qed.

(** The name is filled into a principal that has its realm already. *)
Lemma dec_principal_name_into p p0 :
  wf_principal p -> pr_realm p0 = pr_realm p ->
  decodes (asn1_decode_principal_name p0) (der_principal_name p) p.
Proof.
  intros [_ H2 (c & cs & Ed & El & Hc)] Hr. split. intros e buf Hi.
  unfold asn1_decode_principal_name, der_principal_name in *. rewrite Ed in *. simpl default in *.
  destruct (fun Ht => begin_structure_ok e buf _ (fld_not_nil _ _ _) Ht Hi) as (s & -> & Hs); [tags|].
  cbn [obind].
  destruct (get_field_ok 0 asn1_decode_int32 _ _ _ _ _ _ Hs (dec_int32 _ H2)) as ([sub tv] & -> & Hs1).
  cbn [obind]. pose proof Hs1 as (_ & _ & Etv & Hin & _). cbn [fst snd] in Etv, Hin. subst tv.
  change (flat []) with (@nil Z) in Hin. rewrite app_nil_r in Hin.
  destruct (components_ok e sub (c :: cs) Hc Hin) as (l & b & sub1 & sub2 & elts & -> & E2 & E3 & Ee & Len).
  cbn [obind]. rewrite E2. cbn [obind]. rewrite E3. cbn [obind tv_indef]. simpl (negb _). cbv iota.
  cbn [obind]. destruct (next_field_ok _ _ _ _ _ _ Hs1) as ([sub' tv'] & -> & Hs').
  cbn [obind]. destruct Hs' as (Eb & _). cbn [fst] in Eb.
  unfold end_structure, asn1buf_sync. simpl (0 =? 0). cbv iota. cbn [obind].
  rewrite Eb. unfold der_seq. rewrite sub_end. do 2 f_equal.
  destruct p as [realm data len type]. cbn [pr_realm pr_data pr_length pr_type] in *. subst.
  unfold zlen. rewrite Len, Ee. by destruct elts.
Qed.

Lemma dec_principal_name p :
  wf_principal p ->
  decodes (asn1_decode_principal_name (Principal (pr_realm p) None 0 0)) (der_principal_name p) p.
Proof. intros H. by apply dec_principal_name_into. Qed.

End Types.

#[export] Existing Instances address_codec authdata_codec pa_data_codec last_req_entry_codec
  etype_info_entry_codec.
#[export] Hint Resolve enc_host_address enc_encryption_key enc_checksum enc_transited
  enc_encrypted_data enc_host_addresses enc_authorization_data enc_last_req enc_padata
  enc_enctypes enc_realm enc_principal_name wf_opt_array_nonempty : krb.
#[export] Hint Resolve dec_host_address dec_encryption_key dec_checksum dec_transited
  dec_encrypted_data dec_host_addresses dec_authorization_data dec_last_req dec_padata
  dec_enctypes dec_realm dec_principal_name : krb.
