(* ===== verification/CodecKdc.v ===== *)
(** * Tickets and the composite message types meet their contracts *)

From S2P Require Import Prelude Asn1Buf Asn1Tag GmTime Asn1Prim Krb5Types Asn1KEncode Asn1KDecode Krb5Decode Der Codec CodecRead CodecPrim CodecTypes.

(** ** Pointers *)

Definition some_wf {A} (wf : A -> Prop) (o : option A) : Prop :=
  match o with Some x => wf x | None => False end.
Definition opt_wf {A} (wf : A -> Prop) (o : option A) : Prop :=
  match o with Some x => wf x | None => True end.
Definition of_opt {A} (der : A -> list octet) (o : option A) : list octet :=
  match o with Some x => der x | None => [] end.
Definition present {A} (o : option A) : bool := match o with Some _ => true | None => false end.

Lemma opt_fld_true t c : opt_fld true t c = fld t c.
Proof. done. Qed.

Lemma opt_fld_false t c fs : opt_fld false t c ++ fs = fs.
Proof. done. Qed.

(** Case analysis on a pointer, with the fields it decides. *)
Ltac opt_case o :=
  let E := fresh "Eo" in
  destruct o as [?|] eqn:E; cbn [present of_opt some_wf opt_wf] in *; try contradiction;
  change (opt_fld true) with fld; rewrite ?opt_fld_false.

(** Equality of a record with the one made of its fields. *)
Ltac rebuild r := destruct r; cbn in *; subst; rewrite ?opt_zero; done.

Section Kdc.
Context `{P : Platform}.

(** The protocol version and constant message types. *)
Lemma enc_kvno : encodes (asn1_encode_integer KVNO) (der_integer KVNO).
Proof. by apply enc_const. Qed.

Lemma dec_kvno5 : decodes (integer_convert uint32) (der_integer KVNO) KVNO.
Proof. by apply dec_kvno. Qed.

Lemma dec_msgtype_long m :
  0 <= m < 2147483648 -> decodes asn1_decode_msgtype (der_integer (long m)) m.
Proof.
  intros H. rewrite long_id; [by apply dec_msgtype|]. apply int32_long. unfold is_int. simpl. lia.
Qed.

#[local] Hint Resolve enc_kvno dec_kvno5 : krb.

(** ** Tickets *)

Definition ticket_fields (t : krb5_ticket) : list field :=
  fld 0 (der_integer KVNO) ++ fld 1 (of_opt der_realm (tk_server t)) ++
  fld 2 (of_opt der_principal_name (tk_server t)) ++
  fld 3 (der_encrypted_data (tk_enc_part t)) ++ [].
Definition der_ticket (t : krb5_ticket) : list octet := der_app 1 (der_seq (ticket_fields t)).
Record wf_ticket (t : krb5_ticket) : Prop := {
  wf_tk_server : some_wf wf_principal (tk_server t);
  wf_tk_enc_part : wf_enc_data (tk_enc_part t);
  wf_tk_enc_part2 : tk_enc_part2 t = None
}.

Lemma enc_ticket t : wf_ticket t -> encodes (asn1_encode_ticket (Some t)) (der_ticket t).
Proof.
  intros [H1 H2 _]. destruct t as [[p|] ed ?]; [|done]. simpl in H1, H2.
  unfold asn1_encode_ticket, der_ticket, ticket_fields. enc.
Qed.

Lemma apptag_ok t e buf c :
  0 <= t < 31 -> input e buf (der_app t c) ->
  apptag t e buf = Ok (zlen c, advance buf (zlen (header (0x60 + t) (zlen c)))) /\
  input e (advance buf (zlen (header (0x60 + t) (zlen c)))) c.
Proof.
  intros Ht H. unfold apptag. destruct (app_tag t Ht) as (E1 & E2 & E3).
  destruct (asn1_get_tag_ok stack_junk e buf (0x60 + t) c []) as [-> H'];
    [lia|by apply input_no_rest|].
  rewrite E1, E2, E3, app_nil_r in *. cbn. rewrite Z.eqb_refl. done.
Qed.

Lemma dec_ticket t : wf_ticket t -> decodes asn1_decode_ticket (der_ticket t) t.
Proof.
  intros [H1 H2 H3]. split. intros e buf Hi. unfold asn1_decode_ticket.
  destruct (apptag_ok 1 e buf _ ltac:(lia) Hi) as [-> Hi'].
  cbn [obind]. erewrite (decodes_run _ _ t); [|apply structure_ok|exact Hi'].
  - cbn [obind]. destruct (Z.eqb_spec (zlen (der_seq (ticket_fields t))) 0) as [E|E].
    + apply zlen_0_nil in E. done.
    + by rewrite advance_tlv.
  - done.
  - unfold ticket_fields. tags.
  - unfold ticket_fields. destruct (tk_server t) as [p|] eqn:Es; [|done]. cbn [of_opt some_wf] in *.
    intros. repeat dec_step. destruct t. simpl in *. by subst.
Qed.

#[local] Instance ticket_codec :
  Codec (fun t => asn1_encode_ticket (Some t)) asn1_decode_ticket der_ticket wf_ticket.
Proof. split; [exact enc_ticket|exact dec_ticket|done]. Qed.

Lemma enc_sequence_of_ticket xs : wf_array wf_ticket xs ->
  encodes (asn1_encode_sequence_of_ticket xs) (der_array der_ticket xs).
Proof. intros (x & l & -> & H). by apply (enc_array (C := ticket_codec)). Qed.

Lemma dec_sequence_of_ticket xs : wf_array wf_ticket xs ->
  decodes asn1_decode_sequence_of_ticket (der_array der_ticket xs) xs.
Proof. intros (x & l & -> & H). by apply (dec_array (C := ticket_codec)). Qed.

#[local] Hint Resolve enc_ticket dec_ticket enc_sequence_of_ticket dec_sequence_of_ticket : krb.

(** Encoders of what a pointer points to. *)
Lemma enc_some_realm o : some_wf wf_principal o -> encodes (asn1_encode_realm o) (of_opt der_realm o).
Proof. destruct o; [apply enc_realm|done]. Qed.
Lemma enc_some_name o :
  some_wf wf_principal o -> encodes (asn1_encode_principal_name o) (of_opt der_principal_name o).
Proof. destruct o; [apply enc_principal_name|done]. Qed.
Lemma enc_some_ticket o : some_wf wf_ticket o -> encodes (asn1_encode_ticket o) (of_opt der_ticket o).
Proof. destruct o; [apply enc_ticket|done]. Qed.
Lemma enc_some_key o :
  some_wf wf_keyblock o -> encodes (asn1_encode_encryption_key o) (of_opt der_encryption_key o).
Proof. destruct o; [apply enc_encryption_key|done]. Qed.
Lemma enc_some_checksum o :
  some_wf wf_checksum o -> encodes (asn1_encode_checksum o) (of_opt der_checksum o).
Proof. destruct o; [apply enc_checksum|done]. Qed.
Lemma enc_some_address o :
  some_wf wf_address o -> encodes (asn1_encode_host_address o) (of_opt der_address o).
Proof. destruct o; [apply enc_host_address|done]. Qed.

Lemma present_wf {A} (wf : A -> Prop) o : opt_wf wf o -> present o = true -> some_wf wf o.
Proof. by destruct o. Qed.

#[local] Hint Resolve enc_some_realm enc_some_name enc_some_ticket enc_some_key
  enc_some_checksum enc_some_address present_wf : krb.

(** ** KDC replies *)

Definition der_kdc_rep (msg_type : Z) (r : krb5_kdc_rep) : list octet :=
  der_seq (fld 0 (der_integer KVNO) ++ fld 1 (der_integer (long msg_type)) ++
           opt_fld (nonempty (rp_padata r)) 2 (der_array der_pa_data (rp_padata r)) ++
           fld 3 (of_opt der_realm (rp_client r)) ++ fld 4 (of_opt der_principal_name (rp_client r)) ++
           fld 5 (of_opt der_ticket (rp_ticket r)) ++ fld 6 (der_encrypted_data (rp_enc_part r)) ++ []).
Record wf_kdc_rep (r : krb5_kdc_rep) : Prop := {
  wf_rp_padata : wf_opt_array wf_pa_data (rp_padata r);
  wf_rp_client : some_wf wf_principal (rp_client r);
  wf_rp_ticket : some_wf wf_ticket (rp_ticket r);
  wf_rp_enc_part : wf_enc_data (rp_enc_part r);
  wf_rp_enc_part2 : rp_enc_part2 r = None
}.

Lemma enc_kdc_rep m r :
  m = KRB5_AS_REP \/ m = KRB5_TGS_REP -> wf_kdc_rep r ->
  encodes (asn1_encode_kdc_rep m r) (der_kdc_rep m r).
Proof.
  intros Hm [H1 H2 H3 H4 _].
  unfold asn1_encode_kdc_rep, der_kdc_rep. enc. by destruct Hm as [-> | ->].
Qed.

Lemma dec_kdc_rep r :
  0 <= rp_msg_type r < 2147483648 -> wf_kdc_rep r ->
  decodes asn1_decode_kdc_rep (der_kdc_rep (rp_msg_type r) r) r.
Proof.
  intros Hm [H1 H2 H3 H4 H5]. pose proof (dec_msgtype_long _ Hm).
  unfold asn1_decode_kdc_rep, der_kdc_rep. opt_case (rp_client r). opt_case (rp_ticket r). dec.
  rewrite (opt_array _ _ H1). rebuild r.
Qed.

(** The encrypted part of a reply.  The start time is written unless it is 0 and reads
    as the authentication time when it is missing; the renewable end time is written
    for renewable tickets. *)
Definition renewable (flags : Z) : bool := negb (Z.land flags TKT_FLG_RENEWABLE =? 0).

Definition der_enc_kdc_rep_part (r : krb5_enc_kdc_rep_part) : list octet :=
  der_seq (fld 0 (of_opt der_encryption_key (ek_session r)) ++
           fld 1 (der_array der_last_req_entry (ek_last_req r)) ++
           fld 2 (der_integer (long (ek_nonce r))) ++
           opt_fld (negb (ek_key_exp r =? 0)) 3 (der_time (ek_key_exp r)) ++
           fld 4 (der_flags (ek_flags r)) ++ fld 5 (der_time (tt_authtime (ek_times r))) ++
           opt_fld (negb (tt_starttime (ek_times r) =? 0)) 6 (der_time (tt_starttime (ek_times r))) ++
           fld 7 (der_time (tt_endtime (ek_times r))) ++
           opt_fld (renewable (ek_flags r)) 8 (der_time (tt_renew_till (ek_times r))) ++
           fld 9 (of_opt der_realm (ek_server r)) ++ fld 10 (of_opt der_principal_name (ek_server r)) ++
           opt_fld (nonempty (ek_caddrs r)) 11 (der_array der_address (ek_caddrs r)) ++ []).

Record wf_times (t : krb5_ticket_times) : Prop := {
  wf_tt_authtime : wf_time (tt_authtime t);
  wf_tt_starttime : wf_time (tt_starttime t);
  wf_tt_endtime : wf_time (tt_endtime t);
  wf_tt_renew_till : wf_time (tt_renew_till t)
}.
Record wf_enc_kdc_rep_part (r : krb5_enc_kdc_rep_part) : Prop := {
  wf_ek_session : some_wf wf_keyblock (ek_session r);
  wf_ek_last_req : wf_array wf_last_req_entry (ek_last_req r);
  wf_ek_nonce : is_int 32 (ek_nonce r);
  wf_ek_key_exp : wf_time (ek_key_exp r);
  wf_ek_flags : is_int 32 (ek_flags r);
  wf_ek_times : wf_times (ek_times r);
  wf_ek_start : tt_starttime (ek_times r) = 0 -> tt_authtime (ek_times r) = 0;
  wf_ek_renew : renewable (ek_flags r) = false -> tt_renew_till (ek_times r) = 0;
  wf_ek_server : some_wf wf_principal (ek_server r);
  wf_ek_caddrs : wf_opt_array wf_address (ek_caddrs r)
}.

Lemma enc_enc_kdc_rep_part r : wf_enc_kdc_rep_part r ->
  encodes (asn1_encode_enc_kdc_rep_part r) (der_enc_kdc_rep_part r).
Proof.
  intros [H1 H2 H3 H4 H5 [T1 T2 T3 T4] _ _ H8 H9].
  unfold asn1_encode_enc_kdc_rep_part, der_enc_kdc_rep_part. enc.
Qed.

(** A start time of 0 stands for the authentication time. *)
Lemma opt_start a s : (s = 0 -> a = 0) -> (if negb (s =? 0) then s else a) = s.
Proof. intros H. destruct (Z.eqb_spec s 0) as [->|]; simpl; [by apply H|done]. Qed.

Lemma opt_renew flags t : (renewable flags = false -> t = 0) -> (if renewable flags then t else 0) = t.
Proof. intros H. destruct (renewable flags); [done|by rewrite H]. Qed.

Lemma dec_enc_kdc_rep_part r : wf_enc_kdc_rep_part r ->
  decodes (asn1_decode_enc_kdc_rep_part (ek_msg_type r)) (der_enc_kdc_rep_part r) r.
Proof.
  intros [H1 H2 H3 H4 H5 [T1 T2 T3 T4] H6 H7 H8 H9].
  unfold asn1_decode_enc_kdc_rep_part, der_enc_kdc_rep_part.
  opt_case (ek_session r). opt_case (ek_server r). dec.
  rewrite (opt_start _ _ H6), (opt_renew _ _ H7), (opt_array _ _ H9), opt_zero.
  destruct r as [? ? ? ? ? ? [] ? ?]. by cbn in *; subst.
Qed.

(** ** KDC requests *)

(** The principal whose realm a request carries. *)
Definition realm_principal (r : krb5_kdc_req) : option krb5_principal_data :=
  if negb (Z.land (rq_kdc_options r) KDC_OPT_ENC_TKT_IN_SKEY =? 0) then
    match rq_second_ticket r with Some (t :: _) => tk_server t | _ => None end
  else rq_server r.

Definition has_authdata (r : krb5_kdc_req) : bool :=
  match d_data (ed_ciphertext (rq_authorization_data r)) with Some _ => true | None => false end.

Definition der_kdc_req_body (r : krb5_kdc_req) : list octet :=
  der_seq (fld 0 (der_flags (rq_kdc_options r)) ++
           opt_fld (present (rq_client r)) 1 (of_opt der_principal_name (rq_client r)) ++
           fld 2 (of_opt der_realm (realm_principal r)) ++
           opt_fld (present (rq_server r)) 3 (of_opt der_principal_name (rq_server r)) ++
           opt_fld (negb (rq_from r =? 0)) 4 (der_time (rq_from r)) ++
           fld 5 (der_time (rq_till r)) ++
           opt_fld (negb (rq_rtime r =? 0)) 6 (der_time (rq_rtime r)) ++
           fld 7 (der_integer (long (rq_nonce r))) ++
           fld 8 (der_enctypes (rq_ktype r)) ++
           opt_fld (nonempty (rq_addresses r)) 9 (der_array der_address (rq_addresses r)) ++
           opt_fld (has_authdata r) 10 (der_encrypted_data (rq_authorization_data r)) ++
           opt_fld (nonempty (rq_second_ticket r)) 11 (der_array der_ticket (rq_second_ticket r)) ++ []).

(** One realm serves the client, the server and, for a ticket in a session key, the
    second ticket's server. *)
Record wf_kdc_req_body (r : krb5_kdc_req) : Prop := {
  wf_rq_options : is_int 32 (rq_kdc_options r);
  wf_rq_client : opt_wf (fun p => wf_principal p /\
    exists q, realm_principal r = Some q /\ pr_realm p = pr_realm q) (rq_client r);
  wf_rq_server : opt_wf (fun p => wf_principal p /\
    exists q, realm_principal r = Some q /\ pr_realm p = pr_realm q) (rq_server r);
  wf_rq_realm : some_wf (fun p => wf_principal p /\ d_data (pr_realm p) <> None) (realm_principal r);
  wf_rq_from : wf_time (rq_from r);
  wf_rq_till : wf_time (rq_till r);
  wf_rq_rtime : wf_time (rq_rtime r);
  wf_rq_nonce : is_int 32 (rq_nonce r);
  wf_rq_ktype : wf_enctypes (rq_nktypes r) (rq_ktype r);
  wf_rq_addresses : wf_opt_array wf_address (rq_addresses r);
  wf_rq_authdata : wf_enc_data (rq_authorization_data r);
  wf_rq_no_authdata : has_authdata r = false -> rq_authorization_data r = null_enc_data;
  wf_rq_second : wf_opt_array wf_ticket (rq_second_ticket r)
}.

Lemma builds_realm r fs : some_wf wf_principal (realm_principal r) ->
  builds (kdc_req_realm_field r) (flat fs) (flat (fld 2 (of_opt der_realm (realm_principal r)) ++ fs)).
Proof.
  unfold kdc_req_realm_field, realm_principal. intros H.
  destruct (negb _); [destruct (rq_second_ticket r) as [[|t l]|]; try done|].
  - eapply builds_field; [lia|eauto with krb].
  - destruct (rq_server r); [|done]. eapply builds_field; [lia|eauto with krb].
Qed.

Lemma enc_kdc_req_body r : wf_kdc_req_body r ->
  encodes (asn1_encode_kdc_req_body r) (der_kdc_req_body r).
Proof.
  intros [H1 H2 H3 H4 H5 H6 H7 H8 H9 H10 H11 _ H12].
  assert (Hr : some_wf wf_principal (realm_principal r)) by (destruct (realm_principal r); [by destruct H4|done]).
  assert (Hc : opt_wf wf_principal (rq_client r)) by (destruct (rq_client r); [by destruct H2|done]).
  assert (Hs : opt_wf wf_principal (rq_server r)) by (destruct (rq_server r); [by destruct H3|done]).
  unfold asn1_encode_kdc_req_body, der_kdc_req_body. enc; try by apply builds_realm.
  all: eauto with krb.
Qed.

Lemma realm_copy_ok c p :
  wf_principal p -> d_data (pr_realm p) <> None -> zlen (der_realm p) <= code_limit ->
  asn1_krb5_realm_copy c (Principal (pr_realm p) None 0 0) =
  Ok (Principal (pr_realm p) (pr_data c) (pr_length c) (pr_type c)).
Proof.
  intros [(H1 & _ & _) _ _] Hne Hl. unfold asn1_krb5_realm_copy. cbn [pr_realm].
  unfold der_realm, der_generalstring, bytes in Hl. rewrite zlen_tlv in Hl.
  destruct (pr_realm p) as [len [data|]]; [|done]. simpl in *. subst len.
  unfold malloc, code_limit in *. pose proof (zlen_nonneg data).
  pose proof (zlen_nonneg (der_length (zlen data))).
  replace ((0 <=? zlen data) && (zlen data <=? malloc_limit)) with true by lia.
  assert (take (Z.to_nat (zlen data)) data = data) as -> by (apply take_ge; unfold zlen; lia).
  by rewrite Z.eqb_refl.
Qed.

(** The client's name is read before the realm, into an empty principal. *)
Lemma client_step {B} (b : bool) p c e E s rest (k : option krb5_principal_data * sstate -> _) (v : B) :
  fields_at e E s (opt_fld b 1 c ++ rest) -> Forall (fun f : field => 1 < f.1) rest ->
  (b = true -> decodes (asn1_decode_principal_name null_principal) c p) ->
  (forall s', fields_at e E s' rest -> returns E (k (if b then Some p else None, s')) v) ->
  returns E (obind (opt_principal_field 1 asn1_decode_principal_name
    (if tv_tagnum s.2 =? 1 then Some null_principal else None) e s) k) v.
Proof.
  intros H Hf Hd Hk. destruct b.
  - destruct (fields_at_tag _ _ _ _ _ _ H) as (Et & _ & _). rewrite Et.
    eapply (opt_principal_step 1); [exact H|by apply Hd|done].
  - eapply (opt_principal_skip 1); [exact H|lia|done|by apply Hk].
Qed.

(** A principal without its realm. *)
Definition bare (p : krb5_principal_data) : krb5_principal_data :=
  Principal null_data (pr_data p) (pr_length p) (pr_type p).

Lemma dec_name_only p : wf_principal p ->
  decodes (asn1_decode_principal_name null_principal) (der_principal_name p) (bare p).
Proof.
  intros [_ H2 H3]. apply (dec_principal_name_into (bare p)); [|done].
  split; [done|done|done].
Qed.

Lemma client_realm_ok cl p :
  wf_principal p -> d_data (pr_realm p) <> None -> zlen (der_realm p) <= code_limit ->
  opt_wf (fun c => wf_principal c /\ exists q, Some p = Some q /\ pr_realm c = pr_realm q) cl ->
  match (if present cl then Some (bare (default null_principal cl)) else None) with
  | None => Ok None
  | Some c => let* c := asn1_krb5_realm_copy c (Principal (pr_realm p) None 0 0) in Ok (Some c)
  end = Ok cl.
Proof.
  intros Hp Hne Hlim Hc. destruct cl as [cl|]; [|done]. cbn [present default].
  rewrite realm_copy_ok by done. destruct Hc as [_ (q & [= <-] & Hq)]. simpl.
  destruct cl. simpl in *. by rewrite Hq.
Qed.

Lemma dec_kdc_req_body r v0 : wf_kdc_req_body r ->
  rq_msg_type v0 = rq_msg_type r -> rq_padata v0 = rq_padata r ->
  rq_unenc_authdata v0 = rq_unenc_authdata r -> rq_client v0 = None ->
  decodes (asn1_decode_kdc_req_body v0) (der_kdc_req_body r) r.
Proof.
  intros [H1 H2 H3 H4 H5 H6 H7 H8 H9 H10 H11 Hno H12] E1 E2 E3 E4.
  unfold asn1_decode_kdc_req_body, der_kdc_req_body. rewrite E4.
  destruct (realm_principal r) as [p|] eqn:Ep; [|done]. cbn [of_opt]. destruct H4 as [Hp Hne].
  dec_struct. dec_step. cbv zeta.
  eapply (client_step _ (bare (default null_principal (rq_client r))));
    [exact H|tags|intros Hb|clear H; intros s1 H; cbv beta iota].
  { destruct (rq_client r) as [cl|]; [|done]. apply dec_name_only, H2. }
  pose proof (fields_at_limit _ _ _ _ _ _ H) as Hlim. dec_step.
  rewrite (client_realm_ok _ _ Hp Hne Hlim H2). cbn [obind].
  assert (Hs : forall q, rq_server r = Some q -> decodes (asn1_decode_principal_name
      (Principal (pr_realm p) None 0 0)) (der_principal_name q) q).
  { intros q Eq. rewrite Eq in H3. destruct H3 as [Hq (q' & [= <-] & E5)].
    by apply dec_principal_name_into. }
  destruct (rq_server r) as [q|] eqn:Eq; cbn [present of_opt] in H;
    [rewrite opt_fld_true in H|rewrite opt_fld_false in H]; repeat dec_step.
  all: rewrite !opt_zero, (opt_array _ _ H10), (opt_array _ _ H12), E1, E2, E3;
    replace (if has_authdata r then rq_authorization_data r else null_enc_data)
      with (rq_authorization_data r) by (destruct (has_authdata r); [done|by apply Hno]);
    destruct r; simpl in *; by subst.
Qed.

Definition der_kdc_req (msg_type : Z) (r : krb5_kdc_req) : list octet :=
  der_seq (fld 1 (der_integer KVNO) ++ fld 2 (der_integer (long msg_type)) ++
           opt_fld (nonempty (rq_padata r)) 3 (der_array der_pa_data (rq_padata r)) ++
           fld 4 (der_kdc_req_body r) ++ []).
Record wf_kdc_req (r : krb5_kdc_req) : Prop := {
  wf_rq_padata : wf_opt_array wf_pa_data (rq_padata r);
  wf_rq_body : wf_kdc_req_body r;
  wf_rq_unenc : rq_unenc_authdata r = None
}.

Lemma enc_kdc_req m r :
  m = KRB5_AS_REQ \/ m = KRB5_TGS_REQ -> wf_kdc_req r ->
  encodes (asn1_encode_kdc_req m r) (der_kdc_req m r).
Proof.
  intros Hm [H1 H2 _]. pose proof (enc_kdc_req_body r H2).
  unfold asn1_encode_kdc_req, der_kdc_req. enc. by destruct Hm as [-> | ->].
Qed.

Lemma dec_kdc_req r :
  0 <= rq_msg_type r < 2147483648 -> wf_kdc_req r ->
  decodes (asn1_decode_kdc_req null_kdc_req) (der_kdc_req (rq_msg_type r) r) r.
Proof.
  intros Hm [H1 H2 H3]. pose proof (dec_msgtype_long _ Hm).
  unfold asn1_decode_kdc_req, der_kdc_req. dec. cbv zeta. rewrite (opt_array _ _ H1).
  match goal with H : fields_at _ _ _ _ |- _ =>
    eapply get_field_ok in H as (s'' & E1 & E2); [exists s''; split; [exact E1|apply E2]|] end.
  by apply dec_kdc_req_body.
Qed.

(** ** KRB-SAFE, KRB-CRED and preauthentication types *)

Definition der_safe_body (v : krb5_safe) : list octet :=
  der_seq (fld 0 (der_octetstring (bytes (d_data (sf_user_data v)))) ++
           opt_fld (negb (sf_timestamp v =? 0)) 1 (der_time (sf_timestamp v)) ++
           opt_fld (negb (sf_timestamp v =? 0)) 2 (der_integer (long (sf_usec v))) ++
           opt_fld (negb (sf_seq_number v =? 0)) 3 (der_integer (long (sf_seq_number v))) ++
           fld 4 (of_opt der_address (sf_s_address v)) ++
           opt_fld (present (sf_r_address v)) 5 (of_opt der_address (sf_r_address v)) ++ []).
Record wf_safe_body (v : krb5_safe) : Prop := {
  wf_sf_user_data : wf_data (sf_user_data v);
  wf_sf_timestamp : wf_time (sf_timestamp v);
  wf_sf_usec : is_int 32 (sf_usec v);
  wf_sf_no_time : sf_timestamp v = 0 -> sf_usec v = 0;
  wf_sf_seq_number : is_int 32 (sf_seq_number v);
  wf_sf_s_address : some_wf wf_address (sf_s_address v);
  wf_sf_r_address : opt_wf wf_address (sf_r_address v)
}.

Lemma enc_safe_body v : wf_safe_body v -> encodes (asn1_encode_krb_safe_body v) (der_safe_body v).
Proof.
  intros [H1 H2 H3 H4 H5 H6 H7]. unfold asn1_encode_krb_safe_body, der_safe_body. enc.
  by apply wf_bytes_missing.
Qed.

Lemma opt_usec t u : (t = 0 -> u = 0) -> (if negb (t =? 0) then u else 0) = u.
Proof. intros H. destruct (Z.eqb_spec t 0) as [E|]; [by rewrite H|done]. Qed.

Lemma dec_safe_body v v0 : wf_safe_body v -> sf_checksum v0 = sf_checksum v ->
  decodes (asn1_decode_krb_safe_body v0) (der_safe_body v) v.
Proof.
  intros [H1 H2 H3 H4 H5 H6 H7] Hc. unfold asn1_decode_krb_safe_body, der_safe_body.
  opt_case (sf_s_address v). opt_case (sf_r_address v); dec.
  all: rewrite !opt_zero, (opt_usec _ _ H4); destruct v as [[] ? ? ? ? ? ?]; simpl in *; by subst.
Qed.

(** A principal under two optional fields, allocated when the first stands next. *)
Lemma principal_pair_step {B} t u p e E s rest (k : option krb5_principal_data * sstate -> _) (v : B) :
  wf_principal p ->
  fields_at e E s (fld t (der_realm p) ++ fld u (der_principal_name p) ++ rest) ->
  (forall s', fields_at e E s' rest -> returns E (k (Some p, s')) v) ->
  returns E (obind (if tv_tagnum s.2 =? t then
        let* '(c, s) := opt_principal_field t asn1_decode_realm (Some null_principal) e s in
        opt_principal_field u asn1_decode_principal_name c e s
      else Ok (None, s)) k) v.
Proof.
  intros Hp H Hk. destruct (fields_at_tag _ _ _ _ _ _ H) as (Et & _ & _). rewrite Et, Z.eqb_refl.
  assert (Hr : exists s', (let* '(c, s) := opt_principal_field t asn1_decode_realm
      (Some null_principal) e s in opt_principal_field u asn1_decode_principal_name c e s)
      = Ok (Some p, s') /\ fields_at e E s' rest).
  { destruct (opt_principal_ok t asn1_decode_realm null_principal _ _ _ _ _ _ H (dec_realm p Hp))
      as (s1 & -> & H1). cbn [obind].
    apply (opt_principal_ok _ _ _ _ _ _ _ _ _ H1), dec_principal_name, Hp. }
  destruct Hr as (s' & -> & Hs'). by apply Hk.
Qed.

Definition der_cred_info (v : krb5_cred_info) : list octet :=
  der_seq (fld 0 (of_opt der_encryption_key (ci_session v)) ++
           opt_fld (present (ci_client v)) 1 (of_opt der_realm (ci_client v)) ++
           opt_fld (present (ci_client v)) 2 (of_opt der_principal_name (ci_client v)) ++
           opt_fld (negb (ci_flags v =? 0)) 3 (der_flags (ci_flags v)) ++
           opt_fld (negb (tt_authtime (ci_times v) =? 0)) 4 (der_time (tt_authtime (ci_times v))) ++
           opt_fld (negb (tt_starttime (ci_times v) =? 0)) 5 (der_time (tt_starttime (ci_times v))) ++
           opt_fld (negb (tt_endtime (ci_times v) =? 0)) 6 (der_time (tt_endtime (ci_times v))) ++
           opt_fld (negb (tt_renew_till (ci_times v) =? 0)) 7 (der_time (tt_renew_till (ci_times v))) ++
           opt_fld (present (ci_server v)) 8 (of_opt der_realm (ci_server v)) ++
           opt_fld (present (ci_server v)) 9 (of_opt der_principal_name (ci_server v)) ++
           opt_fld (nonempty (ci_caddrs v)) 10 (der_array der_address (ci_caddrs v)) ++ []).
Record wf_cred_info (v : krb5_cred_info) : Prop := {
  wf_ci_session : some_wf wf_keyblock (ci_session v);
  wf_ci_client : opt_wf wf_principal (ci_client v);
  wf_ci_server : opt_wf wf_principal (ci_server v);
  wf_ci_flags : is_int 32 (ci_flags v);
  wf_ci_times : wf_times (ci_times v);
  wf_ci_caddrs : wf_opt_array wf_address (ci_caddrs v)
}.

Lemma enc_cred_info v : wf_cred_info v -> encodes (asn1_encode_krb_cred_info v) (der_cred_info v).
Proof.
  intros [H1 H2 H3 H4 [T1 T2 T3 T4] H5]. unfold asn1_encode_krb_cred_info, der_cred_info. enc.
Qed.

Lemma dec_cred_info v : wf_cred_info v -> decodes asn1_decode_krb_cred_info (der_cred_info v) v.
Proof.
  intros [H1 H2 H3 H4 [T1 T2 T3 T4] H5]. unfold asn1_decode_krb_cred_info, der_cred_info.
  opt_case (ci_session v). opt_case (ci_client v); opt_case (ci_server v); dec.
  all: repeat first
    [ dec_step
    | match goal with H : fields_at _ _ _ _ |- _ =>
        first [eapply principal_pair_step; [|exact H|dec_next H]; [done|]
              |eapply tag_test_skip; [exact H|lia|solve [tags]|cbv beta iota]] end ].
  all: rewrite !opt_zero, (opt_array _ _ H5); destruct v as [? ? ? ? [] ?]; simpl in *; by subst.
Qed.

#[local] Instance cred_info_codec :
  Codec asn1_encode_krb_cred_info asn1_decode_krb_cred_info der_cred_info wf_cred_info.
Proof. split; [exact enc_cred_info|exact dec_cred_info|done]. Qed.

Lemma enc_cred_infos xs : wf_array wf_cred_info xs ->
  encodes (asn1_encode_sequence_of_krb_cred_info xs) (der_array der_cred_info xs).
Proof. intros (x & l & -> & H). by apply (enc_array (C := cred_info_codec)). Qed.

Lemma dec_cred_infos xs : wf_array wf_cred_info xs ->
  decodes asn1_decode_sequence_of_krb_cred_info (der_array der_cred_info xs) xs.
Proof. intros (x & l & -> & H). by apply (dec_array (C := cred_info_codec)). Qed.

(** Passwords and phrases. *)
Definition der_data (d : krb5_data) : list octet := der_octetstring (bytes (d_data d)).
Definition der_passwdsequence (v : passwd_phrase_element) : list octet :=
  der_seq (fld 0 (of_opt der_data (pp_passwd v)) ++ fld 1 (of_opt der_data (pp_phrase v)) ++ []).
Record wf_passwdsequence (v : passwd_phrase_element) : Prop := {
  wf_pp_passwd : some_wf wf_data (pp_passwd v);
  wf_pp_phrase : some_wf wf_data (pp_phrase v)
}.

#[local] Instance passwdsequence_codec :
  Codec asn1_encode_passwdsequence asn1_decode_passwdsequence der_passwdsequence wf_passwdsequence.
Proof.
  split; [intros v [H1 H2]|intros v [H1 H2]|done]; destruct v as [[[]|] [[]|]]; try done.
  - unfold asn1_encode_passwdsequence, der_passwdsequence, der_data. cbn [pp_passwd pp_phrase of_opt].
    unfold wf_data in *. simpl in H1, H2. enc.
  - unfold asn1_decode_passwdsequence, der_passwdsequence, der_data. cbn [pp_passwd pp_phrase of_opt].
    unfold wf_data in *. simpl in H1, H2. dec. done.
Qed.

Lemma enc_passwdsequences xs : wf_array wf_passwdsequence xs ->
  encodes (asn1_encode_sequence_of_passwdsequence xs) (der_array der_passwdsequence xs).
Proof. intros (x & l & -> & H). by apply (enc_array (C := passwdsequence_codec)). Qed.

Lemma dec_passwdsequences xs : wf_array wf_passwdsequence xs ->
  decodes asn1_decode_sequence_of_passwdsequence (der_array der_passwdsequence xs) xs.
Proof. intros (x & l & -> & H). by apply (dec_array (C := passwdsequence_codec)). Qed.

(** ** Single-use authentication mechanism

    The strings are written when their length is not negative, so that an empty one
    is present. *)
Definition opt_str (t : Z) (d : krb5_data) : list field := opt_fld (0 <=? d_length d) t (der_data d).

Definition der_sam_challenge (v : krb5_sam_challenge) : list octet :=
  der_seq (fld 0 (der_integer (long (sc_sam_type v))) ++ fld 1 (der_flags (sc_sam_flags v)) ++
           opt_str 2 (sc_sam_type_name v) ++ opt_str 3 (sc_sam_track_id v) ++
           opt_str 4 (sc_sam_challenge_label v) ++ opt_str 5 (sc_sam_challenge v) ++
           opt_str 6 (sc_sam_response_prompt v) ++ opt_str 7 (sc_sam_pk_for_sad v) ++
           opt_fld (negb (sc_sam_nonce v =? 0)) 8 (der_integer (long (sc_sam_nonce v))) ++
           opt_fld (negb (ck_length (sc_sam_cksum v) =? 0)) 9 (der_checksum (sc_sam_cksum v)) ++ []).
Record wf_sam_challenge (v : krb5_sam_challenge) : Prop := {
  wf_sc_type : is_int 32 (sc_sam_type v);
  wf_sc_flags : is_int 32 (sc_sam_flags v);
  wf_sc_type_name : wf_data (sc_sam_type_name v);
  wf_sc_track_id : wf_data (sc_sam_track_id v);
  wf_sc_challenge_label : wf_data (sc_sam_challenge_label v);
  wf_sc_challenge : wf_data (sc_sam_challenge v);
  wf_sc_response_prompt : wf_data (sc_sam_response_prompt v);
  wf_sc_pk_for_sad : wf_data (sc_sam_pk_for_sad v);
  wf_sc_nonce : is_int 32 (sc_sam_nonce v);
  wf_sc_cksum : wf_checksum (sc_sam_cksum v);
  wf_sc_no_cksum : ck_length (sc_sam_cksum v) = 0 -> sc_sam_cksum v = null_checksum
}.

Lemma enc_sam_challenge v : wf_sam_challenge v ->
  encodes (asn1_encode_sam_challenge v) (der_sam_challenge v).
Proof.
  intros [H1 H2 H3 H4 H5 H6 H7 H8 H9 H10 _].
  unfold asn1_encode_sam_challenge, add_optstring, der_sam_challenge, opt_str, der_data. enc.
Qed.

Lemma opt_data d : wf_data d ->
  (if 0 <=? d_length d then Data (d_length d) (d_data d) else Data 0 None) = d.
Proof.
  intros (E & _). replace (0 <=? d_length d) with true by (rewrite E; lens). by destruct d.
Qed.

Lemma opt_cksum_ok c : (ck_length c = 0 -> c = null_checksum) ->
  (if negb (ck_length c =? 0) then c else null_checksum) = c.
Proof. intros H. destruct (Z.eqb_spec (ck_length c) 0); simpl; [by rewrite H|done]. Qed.

Lemma dec_sam_challenge v : wf_sam_challenge v ->
  decodes asn1_decode_sam_challenge (der_sam_challenge v) v.
Proof.
  intros [H1 H2 H3 H4 H5 H6 H7 H8 H9 H10 H11].
  unfold asn1_decode_sam_challenge, der_sam_challenge, opt_str, der_data. dec.
  unfold opt_cksum. eapply tag_test_step; [exact H|lia|solve [tags]| |dec_next H].
  { intros Hb Hf. eapply get_field_body_ok; [exact Hf|by apply dec_checksum]. }
  dec_step. rewrite opt_zero, opt_cksum_ok, !opt_data by done. by destruct v.
Qed.

Definition der_sam_key (v : krb5_sam_key) : list octet :=
  der_seq (fld 0 (der_encryption_key (sk_sam_key v)) ++ []).

Lemma enc_sam_key v : wf_keyblock (sk_sam_key v) -> encodes (asn1_encode_sam_key v) (der_sam_key v).
Proof. intros H. unfold asn1_encode_sam_key, der_sam_key. enc. Qed.

Lemma dec_sam_key v : wf_keyblock (sk_sam_key v) -> decodes asn1_decode_enc_sam_key (der_sam_key v) v.
Proof. intros Hk. unfold asn1_decode_enc_sam_key, der_sam_key. dec. by destruct v. Qed.

Definition der_enc_sam_response_enc (v : krb5_enc_sam_response_enc) : list octet :=
  der_seq (fld 0 (der_integer (long (es_sam_nonce v))) ++ fld 1 (der_time (es_sam_timestamp v)) ++
           fld 2 (der_integer (long (es_sam_usec v))) ++ opt_str 3 (es_sam_sad v) ++ []).
Record wf_enc_sam_response_enc (v : krb5_enc_sam_response_enc) : Prop := {
  wf_es_nonce : is_int 32 (es_sam_nonce v);
  wf_es_timestamp : wf_time (es_sam_timestamp v);
  wf_es_usec : is_int 32 (es_sam_usec v);
  wf_es_sad : wf_data (es_sam_sad v)
}.

Lemma enc_enc_sam_response_enc v : wf_enc_sam_response_enc v ->
  encodes (asn1_encode_enc_sam_response_enc v) (der_enc_sam_response_enc v).
Proof.
  intros [H1 H2 H3 H4].
  unfold asn1_encode_enc_sam_response_enc, add_optstring, der_enc_sam_response_enc, opt_str, der_data.
  enc.
Qed.

Lemma dec_enc_sam_response_enc v : wf_enc_sam_response_enc v ->
  decodes asn1_decode_enc_sam_response_enc (der_enc_sam_response_enc v) v.
Proof.
  intros [H1 H2 H3 H4].
  unfold asn1_decode_enc_sam_response_enc, der_enc_sam_response_enc, opt_str, der_data. dec.
  rewrite opt_data by done. by destruct v.
Qed.

Definition der_sam_response (v : krb5_sam_response) : list octet :=
  der_seq (fld 0 (der_integer (long (sr_sam_type v))) ++ fld 1 (der_flags (sr_sam_flags v)) ++
           opt_str 2 (sr_sam_track_id v) ++
           opt_fld (negb (d_length (ed_ciphertext (sr_sam_enc_key v)) =? 0)) 3
             (der_encrypted_data (sr_sam_enc_key v)) ++
           fld 4 (der_encrypted_data (sr_sam_enc_nonce_or_ts v)) ++
           opt_fld (negb (sr_sam_nonce v =? 0)) 5 (der_integer (long (sr_sam_nonce v))) ++
           opt_fld (negb (sr_sam_patimestamp v =? 0)) 6 (der_time (sr_sam_patimestamp v)) ++ []).
Record wf_sam_response (v : krb5_sam_response) : Prop := {
  wf_sr_type : is_int 32 (sr_sam_type v);
  wf_sr_flags : is_int 32 (sr_sam_flags v);
  wf_sr_track_id : wf_data (sr_sam_track_id v);
  wf_sr_enc_key : wf_enc_data (sr_sam_enc_key v);
  wf_sr_no_key : d_length (ed_ciphertext (sr_sam_enc_key v)) = 0 -> sr_sam_enc_key v = null_enc_data;
  wf_sr_enc_nonce : wf_enc_data (sr_sam_enc_nonce_or_ts v);
  wf_sr_nonce : is_int 32 (sr_sam_nonce v);
  wf_sr_patimestamp : wf_time (sr_sam_patimestamp v)
}.

Lemma enc_sam_response v : wf_sam_response v ->
  encodes (asn1_encode_sam_response v) (der_sam_response v).
Proof.
  intros [H1 H2 H3 H4 _ H5 H6 H7].
  unfold asn1_encode_sam_response, add_optstring, der_sam_response, opt_str, der_data. enc.
Qed.

Lemma dec_sam_response v : wf_sam_response v ->
  decodes asn1_decode_sam_response (der_sam_response v) v.
Proof.
  intros [H1 H2 H3 H4 Hno H5 H6 H7].
  unfold asn1_decode_sam_response, opt_encfield, der_sam_response, opt_str, der_data. dec.
  rewrite opt_data, !opt_zero by done.
  replace (if negb _ then sr_sam_enc_key v else null_enc_data) with (sr_sam_enc_key v)
    by (destruct (Z.eqb_spec (d_length (ed_ciphertext (sr_sam_enc_key v))) 0); [by apply Hno|done]).
  by destruct v.
Qed.

Definition der_predicted_sam_response (v : krb5_predicted_sam_response) : list octet :=
  der_seq (fld 0 (der_encryption_key (ps_sam_key v)) ++ fld 1 (der_flags (ps_sam_flags v)) ++
           fld 2 (der_time (ps_stime v)) ++ fld 3 (der_integer (long (ps_susec v))) ++
           fld 4 (of_opt der_realm (ps_client v)) ++ fld 5 (of_opt der_principal_name (ps_client v)) ++
           opt_str 6 (ps_msd v) ++ []).
Record wf_predicted_sam_response (v : krb5_predicted_sam_response) : Prop := {
  wf_ps_key : wf_keyblock (ps_sam_key v);
  wf_ps_flags : is_int 32 (ps_sam_flags v);
  wf_ps_stime : wf_time (ps_stime v);
  wf_ps_susec : is_int 32 (ps_susec v);
  wf_ps_client : some_wf wf_principal (ps_client v);
  wf_ps_msd : wf_data (ps_msd v)
}.

Lemma enc_predicted_sam_response v : wf_predicted_sam_response v ->
  encodes (asn1_encode_predicted_sam_response v) (der_predicted_sam_response v).
Proof.
  intros [H1 H2 H3 H4 H5 H6].
  unfold asn1_encode_predicted_sam_response, add_optstring, der_predicted_sam_response, opt_str, der_data.
  enc.
Qed.

Lemma dec_predicted_sam_response v : wf_predicted_sam_response v ->
  decodes asn1_decode_predicted_sam_response (der_predicted_sam_response v) v.
Proof.
  intros [H1 H2 H3 H4 H5 H6].
  unfold asn1_decode_predicted_sam_response, der_predicted_sam_response, opt_str, der_data.
  opt_case (ps_client v). dec. rewrite opt_data by done. destruct v. simpl in *. by subst.
Qed.

End Kdc.

#[export] Existing Instances ticket_codec cred_info_codec passwdsequence_codec.
#[export] Hint Resolve enc_kvno enc_ticket enc_sequence_of_ticket enc_some_realm enc_some_name
  enc_some_ticket enc_some_key enc_some_checksum enc_some_address present_wf enc_cred_infos
  enc_passwdsequences enc_safe_body : krb.
#[export] Hint Resolve dec_kvno5 dec_msgtype dec_ticket dec_sequence_of_ticket dec_cred_infos
  dec_passwdsequences : krb.
