(* ===== verification/CodecMsg.v ===== *)
(** * Round trips of whole messages

    For every message of krb5_encode.c and krb5_decode.c: a well-formed structure is
    encoded as its DER form, and decoding that code, with whatever the allocator put
    behind it, gives the structure back. *)

From S2P Require Import Prelude Asn1Buf Asn1Tag GmTime Asn1Prim Krb5Types Asn1KEncode Asn1KDecode Krb5Encode Krb5Decode Der Codec CodecRead CodecPrim CodecTypes CodecKdc.

Section Messages.
Context `{P : Platform}.

(** The [krb5_data] an encoder returns: the octets and a terminating NUL. *)
Definition code_of (bs : list octet) : krb5_data := Data (zlen bs) (Some (bs ++ [0])).

(** The code and one growth step of the buffer can be allocated, and its length is an
    [int]. *)
Definition fits (bs : list octet) : Prop := zlen bs + STANDARD_INCREMENT <= code_limit.

Lemma asn12krb5_buf_ok buf bs :
  cb_rep buf bs -> sizeof_krb5_data <= malloc_limit -> zlen bs + 1 <= malloc_limit -> asn12krb5_buf buf = Ok (code_of bs).
Proof.
  intros Hr Hs Hm. pose proof (cb_rep_next _ _ Hr) as Hn. unfold asn12krb5_buf, asn1buf_len, code_of.
  pose proof (zlen_nonneg bs). unfold malloc. rewrite Hn.
  replace ((0 <=? sizeof_krb5_data) && (sizeof_krb5_data <=? malloc_limit)) with true
    by (unfold sizeof_krb5_data in *; destruct sizeof_long_ok; lia).
  replace ((0 <=? zlen bs + 1) && (zlen bs + 1 <=? malloc_limit)) with true by lia.
  unfold cb_rep in Hr. destruct (cb_base buf) as [arr|].
  - destruct Hr as (_ & _ & E). by rewrite Hn in E; rewrite <- E.
  - by destruct Hr as [_ ->].
Qed.

Lemma encode_message {A} (body : A -> encstep) rep bs :
  builds (body rep) (flat []) bs -> fits bs ->
  krb5_encode body (Some rep) = Ok (code_of bs) /\ octets bs.
Proof.
  intros (_ & Ho & H) Hf. split; [|by apply Ho].
  destruct (H empty_codebuf []) as (b & E & Hr); [done|unfold room, fits in *; lens|].
  rewrite app_nil_r in Hr. unfold krb5_encode. change (zlen (flat [])) with 0 in E.
  rewrite asn1buf_create_ok by (unfold fits, code_limit in Hf; lens). cbn [obind]. rewrite E.
  unfold fits, code_limit, STANDARD_INCREMENT in Hf. pose proof (zlen_nonneg bs).
  cbn [obind]. rewrite (asn12krb5_buf_ok b bs Hr); [done| |lia]. unfold sizeof_krb5_data. destruct sizeof_long_ok; lia.
Qed.

Lemma decode_message {A} (dec : decoder A) bs v fuel :
  decodes dec bs v -> octets bs -> fits bs -> (length bs <= fuel)%nat ->
  krb5_decode dec fuel (Some (code_of bs)) = Ok v.
Proof.
  intros Hd Ho Hf Hfuel. unfold krb5_decode, asn1buf_wrap_data, code_of. cbn [d_data d_length obind].
  rewrite (Hd (DEnv (bs ++ [0]) fuel) (Asn1Buf 0 (zlen bs - 1) 0)); [done|].
  unfold fits, STANDARD_INCREMENT in Hf.
  split; simpl; [lia|lia|done|apply load_n_prefix|done|lia].
Qed.

(** What the coding library promises to the protocol for a type of messages: a well-formed
    message is encoded as its DER form, and decoding that form gives the message back,
    whatever octets follow it. *)
Class Message {A} (encode : option A -> outcome error_code krb5_data)
    (decode : nat -> option krb5_data -> outcome error_code A) (der : A -> list octet) (wf : A -> Prop) : Prop := {
  message_encode : forall v, wf v -> fits (der v) -> encode (Some v) = Ok (code_of (der v)) /\ octets (der v);
  message_decode : forall v fuel n rest, wf v -> fits (der v) -> (length (der v) <= fuel)%nat -> zlen (der v) <= n ->
    decode fuel (Some (Data n (Some (der v ++ rest)))) = Ok v
}.

Lemma message_intro {A} (body : A -> encstep) (dec : decoder A) der (wf : A -> Prop) :
  (forall v, wf v -> builds (body v) (flat []) (der v)) -> (forall v, wf v -> decodes dec (der v) v) ->
  Message (krb5_encode body) (krb5_decode dec) der wf.
Proof.
  intros Hb Hd. split; intros v.
  - intros Hw Hf. apply encode_message; [by apply Hb|done].
  - intros fuel n rest Hw Hf Hfuel Hn. unfold krb5_decode, asn1buf_wrap_data. cbn [d_data d_length obind].
    rewrite (Hd v Hw (DEnv (der v ++ rest) fuel) (Asn1Buf 0 (n - 1) 0)); [done|].
    destruct (encode_message body v (der v) (Hb v Hw) Hf) as [_ Ho]. unfold fits, STANDARD_INCREMENT in Hf.
    split; simpl; [lia|lia|done|apply load_n_prefix|done|lia].
Qed.

Lemma message_roundtrip {A} (encode : option A -> outcome error_code krb5_data) decode der wf v fuel :
  Message encode decode der wf -> wf v -> fits (der v) -> (length (der v) <= fuel)%nat ->
  encode (Some v) = Ok (code_of (der v)) /\ decode fuel (Some (code_of (der v))) = Ok v.
Proof.
  intros HM Hw Hf Hl. split; [by apply (message_encode v Hw Hf)|]. apply (message_decode (Message := HM)); [done..|lia].
Qed.

Lemma message_ok {A B} (body : A -> encstep) (dec : decoder B) rep bs v fuel :
  builds (body rep) (flat []) bs -> decodes dec bs v -> fits bs -> (length bs <= fuel)%nat ->
  krb5_encode body (Some rep) = Ok (code_of bs) /\
  krb5_decode dec fuel (Some (code_of bs)) = Ok v.
Proof.
  intros Hb Hd Hf Hfuel. destruct (encode_message body rep bs Hb Hf) as [E Ho].
  split; [done|by apply decode_message].
Qed.

(** A message that consists of one value. *)
Lemma builds_whole enc bs : encodes enc bs -> builds (addplain enc) (flat []) bs.
Proof. intros H. rewrite <- (app_nil_r bs). by apply builds_plain. Qed.

(** The constant message types. *)
Lemma enc_msgtype z : 0 <= z < 2147483648 -> encodes (asn1_encode_integer z) (der_integer z).
Proof. intros. apply enc_const. unfold is_int. simpl. lia. Qed.

(** One value under an application tag. *)
Lemma builds_app enc t bs : 0 <= t < 31 -> encodes enc bs ->
  builds (addplain enc >=> krb5_apptag t) (flat []) (der_app t bs).
Proof. intros Ht H. eapply builds_seq; [by apply builds_whole|by apply builds_apptag]. Qed.

Lemma check_kvno_step {B} e E s rest (k : unit * sstate -> _) (v : B) :
  fields_at e E s (fld 0 (der_integer KVNO) ++ rest) ->
  (forall s', fields_at e E s' rest -> returns E (k (tt, s')) v) ->
  returns E (obind (check_kvno e s) k) v.
Proof.
  intros H Hk. unfold check_kvno.
  destruct (fields_at_tag _ _ _ _ _ _ H) as (Et & _ & Eb). unfold t_get_field. cbv zeta.
  rewrite Et, Eb, Z.ltb_irrefl.
  destruct (t_get_field_body_ok asn1_decode_kvno e E s 0 _ rest KVNO H dec_kvno5) as (s' & -> & H').
  by apply Hk.
Qed.

Lemma read_msgtype_step {B} m e E s rest (k : unit * sstate -> _) (v : B) :
  0 <= m < 2147483648 -> fields_at e E s (fld 1 (der_integer m) ++ rest) ->
  (forall s', fields_at e E s' rest -> returns E (k (tt, s')) v) ->
  returns E (obind (read_msgtype e s) k) v.
Proof.
  intros Hm H Hk. unfold read_msgtype.
  destruct (fields_at_tag _ _ _ _ _ _ H) as (Et & _ & Eb). unfold t_get_field. cbv zeta.
  rewrite Et, Eb, Z.ltb_irrefl.
  destruct (t_get_field_body_ok asn1_decode_msgtype e E s 1 _ rest m H (dec_msgtype m Hm)) as (s' & -> & H').
  by apply Hk.
Qed.

End Messages.

#[export] Hint Extern 1 (decodes (fun _ _ => obind _ _) _ _) => apply decodes_some : krb.
#[export] Hint Extern 1 (encodes (asn1_encode_integer _) _) =>
  (apply enc_msgtype; first [done|lia]) : krb.

Ltac menc :=
  unfold krb5_addfield, krb5_addlenfield, krb5_makeseq, krb5_apptag; cbv beta; enc.
Ltac mdec_step :=
  first
    [ dec_step
    | match goal with
      | H : fields_at ?e ?E ?s _ |- returns ?E (obind (check_kvno _ _) _) _ =>
          eapply check_kvno_step; [exact H|dec_next H]
      | H : fields_at ?e ?E ?s _ |- returns ?E (obind (read_msgtype _ _) _) _ =>
          eapply read_msgtype_step; [|exact H|dec_next H]; [done|]
      end ].
Ltac mdec :=
  lazymatch goal with
  | |- decodes (app_structure _ _) _ _ => apply check_apptag_ok; [lia|]
  | |- _ => idtac
  end; dec_struct; repeat mdec_step.

Section Roundtrips.
Context `{P : Platform}.

(** ** Tickets *)

#[export] Instance ticket_message : Message encode_krb5_ticket decode_krb5_ticket der_ticket wf_ticket.
Proof.
  apply message_intro; intros t [H1 H2 H3].
  - unfold der_ticket, ticket_fields. menc.
  - unfold der_ticket, ticket_fields. opt_case (tk_server t). mdec. rebuild t.
Qed.

(** C32: Every well-formed Ticket whose code can be allocated encodes to exactly its DER
    octets, and decoding them (loop bounds no smaller than the code are enough) gives
    back the same structure. *)
Theorem ticket_roundtrip t fuel :
  wf_ticket t -> fits (der_ticket t) -> (length (der_ticket t) <= fuel)%nat ->
  encode_krb5_ticket (Some t) = Ok (code_of (der_ticket t)) /\
  decode_krb5_ticket fuel (Some (code_of (der_ticket t))) = Ok t.
Proof. apply message_roundtrip, _. Qed.

Definition der_enc_tkt_part (v : krb5_enc_tkt_part) : list octet :=
  der_app 3 (der_seq (
    fld 0 (der_flags (etp_flags v)) ++ fld 1 (of_opt der_encryption_key (etp_session v)) ++
    fld 2 (of_opt der_realm (etp_client v)) ++ fld 3 (of_opt der_principal_name (etp_client v)) ++
    fld 4 (der_transited (etp_transited v)) ++ fld 5 (der_time (tt_authtime (etp_times v))) ++
    opt_fld (negb (tt_starttime (etp_times v) =? 0)) 6 (der_time (tt_starttime (etp_times v))) ++
    fld 7 (der_time (tt_endtime (etp_times v))) ++
    opt_fld (negb (tt_renew_till (etp_times v) =? 0)) 8 (der_time (tt_renew_till (etp_times v))) ++
    opt_fld (nonempty (etp_caddrs v)) 9 (der_array der_address (etp_caddrs v)) ++
    opt_fld (nonempty (etp_authorization_data v)) 10
      (der_array der_authdata (etp_authorization_data v)) ++ [])).
Record wf_enc_tkt_part (v : krb5_enc_tkt_part) : Prop := {
  wf_etp_flags : is_int 32 (etp_flags v);
  wf_etp_session : some_wf wf_keyblock (etp_session v);
  wf_etp_client : some_wf wf_principal (etp_client v);
  wf_etp_transited : wf_transited (etp_transited v);
  wf_etp_times : wf_times (etp_times v);
  wf_etp_start : tt_starttime (etp_times v) = 0 -> tt_authtime (etp_times v) = 0;
  wf_etp_caddrs : wf_opt_array wf_address (etp_caddrs v);
  wf_etp_authdata : wf_opt_array wf_authdata (etp_authorization_data v)
}.

Lemma default_start a s : (s = 0 -> a = 0) -> default a (if negb (s =? 0) then Some s else None) = s.
Proof. intros H. destruct (Z.eqb_spec s 0) as [->|]; simpl; [by apply H|done]. Qed.

#[export] Instance enc_tkt_part_message : Message encode_krb5_enc_tkt_part decode_krb5_enc_tkt_part der_enc_tkt_part wf_enc_tkt_part.
Proof.
  apply message_intro; intros v [H1 H2 H3 H4 [T1 T2 T3 T4] H5 H6 H7]; unfold der_enc_tkt_part.
  - menc.
  - opt_case (etp_session v). opt_case (etp_client v). mdec. cbv zeta. repeat mdec_step.
    rewrite (default_start _ _ H5), opt_zero, (opt_array _ _ H6), (opt_array _ _ H7).
    destruct v as [? ? ? ? [] ? ?]. simpl in *. by subst.
Qed.

(** Every well-formed EncTicketPart, the contents the KDC seals into a ticket (flags,
    session key, client, transited realms, times, addresses, authorization data),
    encodes to exactly its DER octets, and decoding them (loop bounds no smaller than
    the code are enough) gives back the same structure. *)
Theorem enc_tkt_part_roundtrip v fuel :
  wf_enc_tkt_part v -> fits (der_enc_tkt_part v) -> (length (der_enc_tkt_part v) <= fuel)%nat ->
  encode_krb5_enc_tkt_part (Some v) = Ok (code_of (der_enc_tkt_part v)) /\
  decode_krb5_enc_tkt_part fuel (Some (code_of (der_enc_tkt_part v))) = Ok v.
Proof. apply message_roundtrip, _. Qed.

(** ** Authenticators *)

Definition der_authenticator (v : krb5_authenticator) : list octet :=
  der_app 2 (der_seq (
    fld 0 (der_integer KVNO) ++ fld 1 (of_opt der_realm (at_client v)) ++
    fld 2 (of_opt der_principal_name (at_client v)) ++
    opt_fld (present (at_checksum v)) 3 (of_opt der_checksum (at_checksum v)) ++
    fld 4 (der_integer (long (at_cusec v))) ++ fld 5 (der_time (at_ctime v)) ++
    opt_fld (present (at_subkey v)) 6 (of_opt der_encryption_key (at_subkey v)) ++
    opt_fld (negb (at_seq_number v =? 0)) 7 (der_integer (long (at_seq_number v))) ++
    opt_fld (nonempty (at_authorization_data v)) 8
      (der_array der_authdata (at_authorization_data v)) ++ [])).
Record wf_authenticator (v : krb5_authenticator) : Prop := {
  wf_at_client : some_wf wf_principal (at_client v);
  wf_at_checksum : opt_wf wf_checksum (at_checksum v);
  wf_at_cusec : is_int 32 (at_cusec v);
  wf_at_ctime : wf_time (at_ctime v);
  wf_at_subkey : opt_wf wf_keyblock (at_subkey v);
  wf_at_seq_number : is_int 32 (at_seq_number v);
  wf_at_authdata : wf_opt_array wf_authdata (at_authorization_data v)
}.

#[export] Instance authenticator_message : Message encode_krb5_authenticator decode_krb5_authenticator der_authenticator wf_authenticator.
Proof.
  apply message_intro; intros v [H1 H2 H3 H4 H5 H6 H7]; unfold der_authenticator.
  - menc.
  - opt_case (at_client v). opt_case (at_checksum v); opt_case (at_subkey v); mdec;
      rewrite opt_zero, (opt_array _ _ H7); rebuild v.
Qed.

(** Every well-formed Authenticator, with or without checksum, subkey, sequence number
    and authorization data, encodes to exactly its DER octets, and decoding them (loop
    bounds no smaller than the code are enough) gives back the same structure. *)
(** Every well-formed Authenticator, with or without checksum, subkey, sequence number
    and authorization data, encodes to exactly its DER octets, and decoding them (loop
    bounds no smaller than the code are enough) gives back the same structure. *)
Theorem authenticator_roundtrip v fuel :
  wf_authenticator v -> fits (der_authenticator v) -> (length (der_authenticator v) <= fuel)%nat ->
  encode_krb5_authenticator (Some v) = Ok (code_of (der_authenticator v)) /\
  decode_krb5_authenticator fuel (Some (code_of (der_authenticator v))) = Ok v.
Proof. apply message_roundtrip, _. Qed.

(** ** KDC requests and replies *)

(** C33: Every well-formed AS-REQ and TGS-REQ, with any choice of optional fields,
    pre-authentication data, addresses, encrypted authorization data and additional
    tickets, encodes to exactly its DER octets, and decoding them (loop bounds no
    smaller than the code are enough) gives back the same structure. *)
Theorem kdc_req_roundtrip r fuel :
  wf_kdc_req r ->
  (rq_msg_type r = KRB5_AS_REQ ->
   let bs := der_app 10 (der_kdc_req KRB5_AS_REQ r) in
   fits bs -> (length bs <= fuel)%nat ->
   encode_krb5_as_req (Some r) = Ok (code_of bs) /\
   decode_krb5_as_req fuel (Some (code_of bs)) = Ok r) /\
  (rq_msg_type r = KRB5_TGS_REQ ->
   let bs := der_app 12 (der_kdc_req KRB5_TGS_REQ r) in
   fits bs -> (length bs <= fuel)%nat ->
   encode_krb5_tgs_req (Some r) = Ok (code_of bs) /\
   decode_krb5_tgs_req fuel (Some (code_of bs)) = Ok r).
Proof.
  intros H. split; intros Hm; cbv zeta; apply message_ok.
  - apply builds_app; [lia|]. apply enc_kdc_req; [by left|done].
  - apply check_apptag_ok; [lia|]. rewrite <- Hm. apply dec_kdc_req; [by rewrite Hm|done].
  - apply builds_app; [lia|]. apply enc_kdc_req; [by right|done].
  - apply check_apptag_ok; [lia|]. rewrite <- Hm. apply dec_kdc_req; [by rewrite Hm|done].
Qed.

Theorem kdc_req_body_roundtrip r fuel :
  wf_kdc_req_body r -> rq_msg_type r = 0 -> rq_padata r = None -> rq_unenc_authdata r = None ->
  fits (der_kdc_req_body r) -> (length (der_kdc_req_body r) <= fuel)%nat ->
  encode_krb5_kdc_req_body (Some r) = Ok (code_of (der_kdc_req_body r)) /\
  decode_krb5_kdc_req_body fuel (Some (code_of (der_kdc_req_body r))) = Ok r.
Proof.
  intros H E1 E2 E3. apply message_ok.
  - apply builds_whole. by apply enc_kdc_req_body.
  - by apply dec_kdc_req_body.
Qed.

(** Every well-formed AS-REP and TGS-REP encodes to exactly its DER octets, and decoding
    them (loop bounds no smaller than the code are enough) gives back the same
    structure. *)
Theorem kdc_rep_roundtrip r fuel :
  wf_kdc_rep r ->
  (rp_msg_type r = KRB5_AS_REP ->
   let bs := der_app 11 (der_kdc_rep KRB5_AS_REP r) in
   fits bs -> (length bs <= fuel)%nat ->
   encode_krb5_as_rep (Some r) = Ok (code_of bs) /\
   decode_krb5_as_rep fuel (Some (code_of bs)) = Ok r) /\
  (rp_msg_type r = KRB5_TGS_REP ->
   let bs := der_app 13 (der_kdc_rep KRB5_TGS_REP r) in
   fits bs -> (length bs <= fuel)%nat ->
   encode_krb5_tgs_rep (Some r) = Ok (code_of bs) /\
   decode_krb5_tgs_rep fuel (Some (code_of bs)) = Ok r).
Proof.
  intros H. split; intros Hm; cbv zeta; apply message_ok.
  - apply builds_app; [lia|]. apply enc_kdc_rep; [by left|done].
  - apply check_apptag_ok; [lia|]. rewrite <- Hm. apply dec_kdc_rep; [by rewrite Hm|done].
  - apply builds_app; [lia|]. apply enc_kdc_rep; [by right|done].
  - apply check_apptag_ok; [lia|]. rewrite <- Hm. apply dec_kdc_rep; [by rewrite Hm|done].
Qed.

(** The encrypted part of a reply always comes back as the one of a TGS reply: the
    application tag that would tell is always 26. *)
Definition as_tgs_rep (r : krb5_enc_kdc_rep_part) : krb5_enc_kdc_rep_part :=
  EncKdcRepPart KRB5_TGS_REP (ek_session r) (ek_last_req r) (ek_nonce r) (ek_key_exp r)
    (ek_flags r) (ek_times r) (ek_server r) (ek_caddrs r).

Lemma dec_enc_kdc_rep_part_app r : wf_enc_kdc_rep_part r ->
  decodes (fun e buf =>
    let* '(tv, buf) := asn1_get_tag stack_junk e buf in
    let* _ := guard ((tv_class tv =? APPLICATION) && (tv_construction tv =? CONSTRUCTED))
                ASN1_BAD_ID in
    let* msg_type :=
      if tv_tagnum tv =? 25 then Ok KRB5_AS_REP
      else if tv_tagnum tv =? 26 then Ok KRB5_TGS_REP
      else Err KRB5_BADMSGTYPE in
    asn1_decode_enc_kdc_rep_part msg_type e buf)
    (der_app 26 (der_enc_kdc_rep_part r)) (as_tgs_rep r).
Proof.
  intros H. split. intros e buf Hi.
  destruct (asn1_get_tag_ok stack_junk e buf (0x60 + 26) (der_enc_kdc_rep_part r) []) as [-> H'];
    [done|by apply input_no_rest|].
  rewrite app_nil_r in H'. cbn [obind tv_class tv_construction tv_tagnum].
  simpl (guard _ _). cbn [obind]. simpl (Z.land _ _ =? _). cbv iota. cbn [obind].
  assert (Hd : decodes (asn1_decode_enc_kdc_rep_part KRB5_TGS_REP) (der_enc_kdc_rep_part r) (as_tgs_rep r)).
  { apply (dec_enc_kdc_rep_part (as_tgs_rep r)). by destruct H; split. }
  rewrite (Hd _ _ H'). by rewrite advance_tlv.
Qed.

(** Every well-formed EncKDCRepPart encodes to its DER octets under application tag 26
    and decodes to the same structure, with the message type TGS-REP that this tag
    stands for. *)
Theorem enc_kdc_rep_part_roundtrip r fuel :
  let bs := der_app 26 (der_enc_kdc_rep_part r) in
  wf_enc_kdc_rep_part r -> fits bs -> (length bs <= fuel)%nat ->
  encode_krb5_enc_kdc_rep_part (Some r) = Ok (code_of bs) /\
  decode_krb5_enc_kdc_rep_part fuel (Some (code_of bs)) = Ok (as_tgs_rep r).
Proof.
  intros bs H. apply message_ok.
  - apply builds_app; [lia|]. by apply enc_enc_kdc_rep_part.
  - by apply dec_enc_kdc_rep_part_app.
Qed.

(** ** The client-server exchange *)

Definition der_ap_req (v : krb5_ap_req) : list octet :=
  der_app 14 (der_seq (
    fld 0 (der_integer KVNO) ++ fld 1 (der_integer ASN1_KRB_AP_REQ) ++
    fld 2 (der_flags (aq_ap_options v)) ++ fld 3 (of_opt der_ticket (aq_ticket v)) ++
    fld 4 (der_encrypted_data (aq_authenticator v)) ++ [])).
Record wf_ap_req (v : krb5_ap_req) : Prop := {
  wf_aq_options : is_int 32 (aq_ap_options v);
  wf_aq_ticket : some_wf wf_ticket (aq_ticket v);
  wf_aq_authenticator : wf_enc_data (aq_authenticator v)
}.

#[export] Instance ap_req_message : Message encode_krb5_ap_req decode_krb5_ap_req der_ap_req wf_ap_req.
Proof.
  apply message_intro; intros v [H1 H2 H3]; unfold der_ap_req.
  - menc.
  - opt_case (aq_ticket v). mdec. rebuild v.
Qed.

(** Every well-formed AP-REQ encodes to exactly its DER octets, and decoding them (loop
    bounds no smaller than the code are enough) gives back the same structure. *)
Theorem ap_req_roundtrip v fuel :
  wf_ap_req v -> fits (der_ap_req v) -> (length (der_ap_req v) <= fuel)%nat ->
  encode_krb5_ap_req (Some v) = Ok (code_of (der_ap_req v)) /\
  decode_krb5_ap_req fuel (Some (code_of (der_ap_req v))) = Ok v.
Proof. apply message_roundtrip, _. Qed.

Definition der_ap_rep (v : krb5_ap_rep) : list octet :=
  der_app 15 (der_seq (
    fld 0 (der_integer KVNO) ++ fld 1 (der_integer ASN1_KRB_AP_REP) ++
    fld 2 (der_encrypted_data (ap_enc_part v)) ++ [])).

#[export] Instance ap_rep_message : Message encode_krb5_ap_rep decode_krb5_ap_rep der_ap_rep (fun v => wf_enc_data (ap_enc_part v)).
Proof.
  apply message_intro; intros v H1; unfold der_ap_rep; [menc|mdec; by destruct v].
Qed.

Lemma ap_rep_roundtrip v fuel :
  wf_enc_data (ap_enc_part v) -> fits (der_ap_rep v) -> (length (der_ap_rep v) <= fuel)%nat ->
  encode_krb5_ap_rep (Some v) = Ok (code_of (der_ap_rep v)) /\
  decode_krb5_ap_rep fuel (Some (code_of (der_ap_rep v))) = Ok v.
Proof. apply (message_roundtrip _ _ _ _ v fuel ap_rep_message). Qed.

Definition der_ap_rep_enc_part (v : krb5_ap_rep_enc_part) : list octet :=
  der_app 27 (der_seq (
    fld 0 (der_time (ae_ctime v)) ++ fld 1 (der_integer (long (ae_cusec v))) ++
    opt_fld (present (ae_subkey v)) 2 (of_opt der_encryption_key (ae_subkey v)) ++
    opt_fld (negb (ae_seq_number v =? 0)) 3 (der_integer (long (ae_seq_number v))) ++ [])).
Record wf_ap_rep_enc_part (v : krb5_ap_rep_enc_part) : Prop := {
  wf_ae_ctime : wf_time (ae_ctime v);
  wf_ae_cusec : is_int 32 (ae_cusec v);
  wf_ae_subkey : opt_wf wf_keyblock (ae_subkey v);
  wf_ae_seq_number : is_int 32 (ae_seq_number v)
}.

#[export] Instance ap_rep_enc_part_message : Message encode_krb5_ap_rep_enc_part decode_krb5_ap_rep_enc_part der_ap_rep_enc_part wf_ap_rep_enc_part.
Proof.
  apply message_intro; intros v [H1 H2 H3 H4]; unfold der_ap_rep_enc_part.
  - menc.
  - opt_case (ae_subkey v); mdec; rebuild v.
Qed.

(** Every well-formed EncAPRepPart, with or without subkey and sequence number,
    encodes to exactly its DER octets, and decoding them (loop bounds no smaller than
    the code are enough) gives back the same structure. *)
Theorem ap_rep_enc_part_roundtrip v fuel :
  wf_ap_rep_enc_part v -> fits (der_ap_rep_enc_part v) -> (length (der_ap_rep_enc_part v) <= fuel)%nat ->
  encode_krb5_ap_rep_enc_part (Some v) = Ok (code_of (der_ap_rep_enc_part v)) /\
  decode_krb5_ap_rep_enc_part fuel (Some (code_of (der_ap_rep_enc_part v))) = Ok v.
Proof. apply message_roundtrip, _. Qed.

(** ** KRB-SAFE and KRB-PRIV *)

Definition der_safe (v : krb5_safe) : list octet :=
  der_app 20 (der_seq (
    fld 0 (der_integer KVNO) ++ fld 1 (der_integer ASN1_KRB_SAFE) ++
    fld 2 (der_safe_body v) ++ fld 3 (of_opt der_checksum (sf_checksum v)) ++ [])).
Record wf_safe (v : krb5_safe) : Prop := {
  wf_sf_body : wf_safe_body v;
  wf_sf_checksum : some_wf wf_checksum (sf_checksum v)
}.

Lemma dec_safe_body_alone v : wf_safe_body v ->
  decodes (asn1_decode_krb_safe_body (Safe null_data 0 0 0 None None None)) (der_safe_body v)
    (Safe (sf_user_data v) (sf_timestamp v) (sf_usec v) (sf_seq_number v) (sf_s_address v)
          (sf_r_address v) None).
Proof.
  intros H. apply (dec_safe_body (Safe (sf_user_data v) (sf_timestamp v) (sf_usec v)
    (sf_seq_number v) (sf_s_address v) (sf_r_address v) None)); [|done]. by destruct H; split.
Qed.

#[export] Instance safe_message : Message encode_krb5_safe decode_krb5_safe der_safe wf_safe.
Proof.
  apply message_intro; intros v [H1 H2]; unfold der_safe; pose proof (dec_safe_body_alone v H1).
  - menc.
  - opt_case (sf_checksum v). mdec. rebuild v.
Qed.

(** Every well-formed KRB-SAFE encodes to exactly its DER octets, and decoding them
    (loop bounds no smaller than the code are enough) gives back the same structure. *)
Theorem safe_roundtrip v fuel :
  wf_safe v -> fits (der_safe v) -> (length (der_safe v) <= fuel)%nat ->
  encode_krb5_safe (Some v) = Ok (code_of (der_safe v)) /\
  decode_krb5_safe fuel (Some (code_of (der_safe v))) = Ok v.
Proof. apply message_roundtrip, _. Qed.

Definition der_priv (v : krb5_priv) : list octet :=
  der_app 21 (der_seq (
    fld 0 (der_integer KVNO) ++ fld 1 (der_integer ASN1_KRB_PRIV) ++
    fld 3 (der_encrypted_data (pv_enc_part v)) ++ [])).

#[export] Instance priv_message : Message encode_krb5_priv decode_krb5_priv der_priv (fun v => wf_enc_data (pv_enc_part v)).
Proof.
  apply message_intro; intros v H1; unfold der_priv; [menc|mdec; by destruct v].
Qed.

Lemma priv_roundtrip v fuel :
  wf_enc_data (pv_enc_part v) -> fits (der_priv v) -> (length (der_priv v) <= fuel)%nat ->
  encode_krb5_priv (Some v) = Ok (code_of (der_priv v)) /\
  decode_krb5_priv fuel (Some (code_of (der_priv v))) = Ok v.
Proof. apply (message_roundtrip _ _ _ _ v fuel priv_message). Qed.

Definition der_enc_priv_part (v : krb5_priv_enc_part) : list octet :=
  der_app 28 (der_seq (
    fld 0 (der_octetstring (bytes (d_data (pe_user_data v)))) ++
    opt_fld (negb (pe_timestamp v =? 0)) 1 (der_time (pe_timestamp v)) ++
    opt_fld (negb (pe_timestamp v =? 0)) 2 (der_integer (long (pe_usec v))) ++
    opt_fld (negb (pe_seq_number v =? 0)) 3 (der_integer (long (pe_seq_number v))) ++
    fld 4 (of_opt der_address (pe_s_address v)) ++
    opt_fld (present (pe_r_address v)) 5 (of_opt der_address (pe_r_address v)) ++ [])).
Record wf_priv_enc_part (v : krb5_priv_enc_part) : Prop := {
  wf_pe_user_data : wf_data (pe_user_data v);
  wf_pe_timestamp : wf_time (pe_timestamp v);
  wf_pe_usec : is_int 32 (pe_usec v);
  wf_pe_no_time : pe_timestamp v = 0 -> pe_usec v = 0;
  wf_pe_seq_number : is_int 32 (pe_seq_number v);
  wf_pe_s_address : some_wf wf_address (pe_s_address v);
  wf_pe_r_address : opt_wf wf_address (pe_r_address v)
}.

#[export] Instance enc_priv_part_message : Message encode_krb5_enc_priv_part decode_krb5_enc_priv_part der_enc_priv_part wf_priv_enc_part.
Proof.
  apply message_intro; intros v [H1 H2 H3 H4 H5 H6 H7]; unfold der_enc_priv_part.
  - menc.
  - opt_case (pe_s_address v). opt_case (pe_r_address v); mdec;
      rewrite !opt_zero, (opt_usec _ _ H4); destruct v as [[] ? ? ? ? ?]; simpl in *; by subst.
Qed.

(** Every well-formed EncKrbPrivPart encodes to exactly its DER octets, and decoding
    them (loop bounds no smaller than the code are enough) gives back the same
    structure. *)
Theorem enc_priv_part_roundtrip v fuel :
  wf_priv_enc_part v -> fits (der_enc_priv_part v) -> (length (der_enc_priv_part v) <= fuel)%nat ->
  encode_krb5_enc_priv_part (Some v) = Ok (code_of (der_enc_priv_part v)) /\
  decode_krb5_enc_priv_part fuel (Some (code_of (der_enc_priv_part v))) = Ok v.
Proof. apply message_roundtrip, _. Qed.

(** ** KRB-CRED *)

Definition der_cred (v : krb5_cred) : list octet :=
  der_app 22 (der_seq (
    fld 0 (der_integer KVNO) ++ fld 1 (der_integer ASN1_KRB_CRED) ++
    fld 2 (der_array der_ticket (cr_tickets v)) ++ fld 3 (der_encrypted_data (cr_enc_part v)) ++ [])).
Record wf_cred (v : krb5_cred) : Prop := {
  wf_cr_tickets : wf_array wf_ticket (cr_tickets v);
  wf_cr_enc_part : wf_enc_data (cr_enc_part v);
  wf_cr_enc_part2 : cr_enc_part2 v = None
}.

(** Every well-formed KRB-CRED, with any number of tickets, encodes to exactly its DER
    octets, and decoding them (loop bounds no smaller than the code are enough) gives
    back the same structure. *)
Theorem cred_roundtrip v fuel :
  wf_cred v -> fits (der_cred v) -> (length (der_cred v) <= fuel)%nat ->
  encode_krb5_cred (Some v) = Ok (code_of (der_cred v)) /\
  decode_krb5_cred fuel (Some (code_of (der_cred v))) = Ok v.
Proof.
  intros [H1 H2 H3]. apply message_ok; unfold der_cred; [menc|mdec; rebuild v].
Qed.

Definition der_enc_cred_part (v : krb5_cred_enc_part) : list octet :=
  der_app 29 (der_seq (
    fld 0 (der_array der_cred_info (ce_ticket_info v)) ++
    opt_fld (negb (ce_nonce v =? 0)) 1 (der_integer (long (ce_nonce v))) ++
    opt_fld (negb (ce_timestamp v =? 0)) 2 (der_time (ce_timestamp v)) ++
    opt_fld (negb (ce_timestamp v =? 0)) 3 (der_integer (long (ce_usec v))) ++
    opt_fld (present (ce_s_address v)) 4 (of_opt der_address (ce_s_address v)) ++
    opt_fld (present (ce_r_address v)) 5 (of_opt der_address (ce_r_address v)) ++ [])).
Record wf_cred_enc_part (v : krb5_cred_enc_part) : Prop := {
  wf_ce_nonce : is_int 32 (ce_nonce v);
  wf_ce_timestamp : wf_time (ce_timestamp v);
  wf_ce_usec : is_int 32 (ce_usec v);
  wf_ce_no_time : ce_timestamp v = 0 -> ce_usec v = 0;
  wf_ce_s_address : opt_wf wf_address (ce_s_address v);
  wf_ce_r_address : opt_wf wf_address (ce_r_address v);
  wf_ce_ticket_info : wf_array wf_cred_info (ce_ticket_info v)
}.

(** Every well-formed EncKrbCredPart, with any number of credential descriptions and any
    choice of their optional fields, encodes to exactly its DER octets, and decoding
    them (loop bounds no smaller than the code are enough) gives back the same
    structure. *)
Theorem enc_cred_part_roundtrip v fuel :
  wf_cred_enc_part v -> fits (der_enc_cred_part v) -> (length (der_enc_cred_part v) <= fuel)%nat ->
  encode_krb5_enc_cred_part (Some v) = Ok (code_of (der_enc_cred_part v)) /\
  decode_krb5_enc_cred_part fuel (Some (code_of (der_enc_cred_part v))) = Ok v.
Proof.
  intros [H1 H2 H3 H4 H5 H6 H7]. apply message_ok; unfold der_enc_cred_part.
  - menc.
  - opt_case (ce_s_address v); opt_case (ce_r_address v); mdec;
      rewrite !opt_zero, (opt_usec _ _ H4); rebuild v.
Qed.

(** ** KRB-ERROR *)

Definition der_error (v : krb5_error) : list octet :=
  der_app 30 (der_seq (
    fld 0 (der_integer KVNO) ++ fld 1 (der_integer ASN1_KRB_ERROR) ++
    opt_fld (negb (er_ctime v =? 0)) 2 (der_time (er_ctime v)) ++
    opt_fld (negb (er_cusec v =? 0)) 3 (der_integer (long (er_cusec v))) ++
    fld 4 (der_time (er_stime v)) ++ fld 5 (der_integer (long (er_susec v))) ++
    fld 6 (der_integer (er_error v)) ++
    opt_fld (present (er_client v)) 7 (of_opt der_realm (er_client v)) ++
    opt_fld (present (er_client v)) 8 (of_opt der_principal_name (er_client v)) ++
    fld 9 (of_opt der_realm (er_server v)) ++ fld 10 (of_opt der_principal_name (er_server v)) ++
    opt_fld (has_data (er_text v)) 11 (der_generalstring (bytes (d_data (er_text v)))) ++
    opt_fld (has_data (er_e_data v)) 12 (der_octetstring (bytes (d_data (er_e_data v)))) ++ [])).
Record wf_error (v : krb5_error) : Prop := {
  wf_er_ctime : wf_time (er_ctime v);
  wf_er_cusec : is_int 32 (er_cusec v);
  wf_er_stime : wf_time (er_stime v);
  wf_er_susec : is_int 32 (er_susec v);
  wf_er_error : 0 <= er_error v < 2147483648;
  wf_er_client : opt_wf wf_principal (er_client v);
  wf_er_server : some_wf wf_principal (er_server v);
  wf_er_text : wf_data (er_text v);
  wf_er_e_data : wf_data (er_e_data v)
}.

(** A well-formed string is empty and NULL, or has data. *)
Lemma has_data_cases d : wf_data d -> has_data d = true \/ (has_data d = false /\ d = Data 0 None).
Proof.
  destruct d as [len [[|o l]|]]; intros (E & _ & Ec); simpl in *; [done| |].
  - left. unfold has_data. simpl. rewrite E. apply Z.ltb_lt. lens.
  - right. by rewrite E.
Qed.

Lemma dec_ui_4 z : 0 <= z < 2147483648 -> decodes asn1_decode_ui_4 (der_integer z) z.
Proof. intros H. split. intros e buf Hi. by apply (dec_msgtype z H). Qed.

Lemma enc_ui_4 z : 0 <= z < 2147483648 -> encodes (asn1_encode_ui_4 z) (der_integer z).
Proof. intros H. apply enc_unsigned; [lia|]. apply int32_long. unfold is_int. simpl. lia. Qed.

(** Every well-formed KRB-ERROR encodes to exactly its DER octets, and decoding them
    (loop bounds no smaller than the code are enough) gives back the same structure. *)
Theorem error_roundtrip v fuel :
  wf_error v -> fits (der_error v) -> (length (der_error v) <= fuel)%nat ->
  encode_krb5_error (Some v) = Ok (code_of (der_error v)) /\
  decode_krb5_error fuel (Some (code_of (der_error v))) = Ok v.
Proof.
  intros [H1 H2 H3 H4 H5 H6 H7 H8 H9]. pose proof (enc_ui_4 _ H5). pose proof (dec_ui_4 _ H5).
  apply message_ok; unfold der_error.
  - menc.
  - opt_case (er_server v).
    destruct (has_data_cases _ H8) as [E1|[E1 E2]], (has_data_cases _ H9) as [E3|[E3 E4]];
      rewrite E1, E3; change (opt_fld true) with fld; rewrite ?opt_fld_false;
      opt_case (er_client v); mdec; rewrite !opt_zero;
      destruct v as [? ? ? ? ? ? ? [] []]; simpl in *; by simplify_eq.
Qed.

End Roundtrips.

(** * Round trips of the remaining messages: keys, encrypted data, preauthentication *)

Section Preauth.
Context `{P : Platform}.

Lemma whole_ok {A B} (enc : A -> encoder) (dec : decoder B) rep bs v fuel :
  encodes (enc rep) bs -> decodes dec bs v -> fits bs -> (length bs <= fuel)%nat ->
  krb5_encode (fun rep => addplain (enc rep)) (Some rep) = Ok (code_of bs) /\
  krb5_decode dec fuel (Some (code_of bs)) = Ok v.
Proof. intros H. apply message_ok. by apply builds_whole. Qed.

Lemma encryption_key_roundtrip v fuel :
  wf_keyblock v -> fits (der_encryption_key v) -> (length (der_encryption_key v) <= fuel)%nat ->
  encode_krb5_encryption_key (Some v) = Ok (code_of (der_encryption_key v)) /\
  decode_krb5_encryption_key fuel (Some (code_of (der_encryption_key v))) = Ok v.
Proof.
  intros [H1 H2]. apply message_ok; unfold der_encryption_key, der_typed; [menc|mdec; by destruct v].
Qed.

Lemma enc_data_roundtrip v fuel :
  wf_enc_data v -> fits (der_encrypted_data v) -> (length (der_encrypted_data v) <= fuel)%nat ->
  encode_krb5_enc_data (Some v) = Ok (code_of (der_encrypted_data v)) /\
  decode_krb5_enc_data fuel (Some (code_of (der_encrypted_data v))) = Ok v.
Proof. intros H. apply whole_ok; [by apply enc_encrypted_data|by apply dec_encrypted_data]. Qed.

Lemma authdata_roundtrip v fuel :
  let bs := der_array der_authdata (Some v) in
  v <> [] -> Forall wf_authdata v -> fits bs -> (length bs <= fuel)%nat ->
  encode_krb5_authdata (Some v) = Ok (code_of bs) /\
  decode_krb5_authdata fuel (Some (code_of bs)) = Ok (Some v).
Proof.
  intros bs Hne H. destruct v as [|x l]; [done|].
  assert (wf_array wf_authdata (Some (x :: l))) by (by exists x, l).
  apply (whole_ok (fun rep => asn1_encode_authorization_data (Some rep))).
  - by apply enc_authorization_data.
  - by apply dec_authorization_data.
Qed.

Lemma padata_sequence_roundtrip v fuel :
  let bs := der_array der_pa_data (Some v) in
  Forall wf_pa_data v -> fits bs -> (length bs <= fuel)%nat ->
  encode_krb5_padata_sequence (Some v) = Ok (code_of bs) /\
  decode_krb5_padata_sequence fuel (Some (code_of bs)) = Ok (Some v).
Proof.
  intros bs H. apply (whole_ok (fun rep => asn1_encode_sequence_of_pa_data (Some rep))).
  - by apply enc_sequence_of_pa_data.
  - by apply dec_sequence_of_pa_data.
Qed.

Lemma etype_info_roundtrip v fuel :
  let bs := der_array der_etype_info_entry (Some v) in
  Forall wf_etype_info_entry v -> fits bs -> (length bs <= fuel)%nat ->
  encode_krb5_etype_info (Some v) = Ok (code_of bs) /\
  decode_krb5_etype_info fuel (Some (code_of bs)) = Ok (Some v).
Proof.
  intros bs H. apply (whole_ok (fun rep => asn1_encode_etype_info (Some rep))).
  - by apply enc_etype_info.
  - by apply dec_etype_info.
Qed.

Definition der_pa_enc_ts (v : krb5_pa_enc_ts) : list octet :=
  der_seq (fld 0 (der_time (ts_patimestamp v)) ++
           opt_fld (negb (ts_pausec v =? 0)) 1 (der_integer (long (ts_pausec v))) ++ []).

Lemma pa_enc_ts_roundtrip v fuel :
  wf_time (ts_patimestamp v) -> is_int 32 (ts_pausec v) ->
  fits (der_pa_enc_ts v) -> (length (der_pa_enc_ts v) <= fuel)%nat ->
  encode_krb5_pa_enc_ts (Some v) = Ok (code_of (der_pa_enc_ts v)) /\
  decode_krb5_pa_enc_ts fuel (Some (code_of (der_pa_enc_ts v))) = Ok v.
Proof.
  intros H1 H2. apply message_ok; unfold der_pa_enc_ts; [menc|mdec].
  rewrite default_start by done. by destruct v.
Qed.

Definition am_has_data (v : krb5_alt_method) : bool :=
  match am_data v with Some _ => 0 <? am_length v | None => false end.
Definition der_alt_method (v : krb5_alt_method) : list octet :=
  der_seq (fld 0 (der_integer (long (am_method v))) ++
           opt_fld (am_has_data v) 1 (der_octetstring (bytes (am_data v))) ++ []).

Lemma alt_method_roundtrip v fuel :
  is_int 32 (am_method v) -> wf_bytes (am_length v) (am_data v) ->
  fits (der_alt_method v) -> (length (der_alt_method v) <= fuel)%nat ->
  encode_krb5_alt_method (Some v) = Ok (code_of (der_alt_method v)) /\
  decode_krb5_alt_method fuel (Some (code_of (der_alt_method v))) = Ok v.
Proof.
  intros H1 H2. apply message_ok; unfold der_alt_method.
  - menc.
  - destruct (has_data_cases (Data (am_length v) (am_data v)) H2) as [E|[E E2]];
      change (has_data _) with (am_has_data v) in E; rewrite E;
      change (opt_fld true) with fld; rewrite ?opt_fld_false; mdec; cbv [from_option id]; cbv beta iota;
      mdec_step; destruct v; simpl in *; by simplify_eq.
Qed.

Lemma pwd_sequence_roundtrip v fuel :
  wf_passwdsequence v -> fits (der_passwdsequence v) -> (length (der_passwdsequence v) <= fuel)%nat ->
  encode_krb5_pwd_sequence (Some v) = Ok (code_of (der_passwdsequence v)) /\
  decode_krb5_pwd_sequence fuel (Some (code_of (der_passwdsequence v))) = Ok v.
Proof.
  intros H. apply whole_ok; [by apply (codec_encodes (Codec := passwdsequence_codec))
                            |by apply (codec_decodes (Codec := passwdsequence_codec))].
Qed.

Definition der_pwd_data (v : krb5_pwd_data) : list octet :=
  der_seq (fld 0 (der_integer (long (pw_sequence_count v))) ++
           fld 1 (der_array der_passwdsequence (pw_element v)) ++ []).

Lemma pwd_data_roundtrip v fuel :
  is_int 32 (pw_sequence_count v) -> wf_array wf_passwdsequence (pw_element v) ->
  fits (der_pwd_data v) -> (length (der_pwd_data v) <= fuel)%nat ->
  encode_krb5_pwd_data (Some v) = Ok (code_of (der_pwd_data v)) /\
  decode_krb5_pwd_data fuel (Some (code_of (der_pwd_data v))) = Ok v.
Proof. intros H1 H2. apply message_ok; unfold der_pwd_data; [menc|mdec; by destruct v]. Qed.

(** ** Single-use authentication mechanism *)

(** Every well-formed single-use authentication challenge, with any choice of its
    optional strings and its checksum, encodes to exactly its DER octets, and decoding
    them (loop bounds no smaller than the code are enough) gives back the same
    structure. *)
Theorem sam_challenge_roundtrip v fuel :
  wf_sam_challenge v -> fits (der_sam_challenge v) -> (length (der_sam_challenge v) <= fuel)%nat ->
  encode_krb5_sam_challenge (Some v) = Ok (code_of (der_sam_challenge v)) /\
  decode_krb5_sam_challenge fuel (Some (code_of (der_sam_challenge v))) = Ok v.
Proof. intros H. apply whole_ok; [by apply enc_sam_challenge|by apply dec_sam_challenge]. Qed.

Lemma sam_key_roundtrip v fuel :
  wf_keyblock (sk_sam_key v) -> fits (der_sam_key v) -> (length (der_sam_key v) <= fuel)%nat ->
  encode_krb5_sam_key (Some v) = Ok (code_of (der_sam_key v)) /\
  decode_krb5_enc_sam_key fuel (Some (code_of (der_sam_key v))) = Ok v.
Proof. intros H. apply whole_ok; [by apply enc_sam_key|by apply dec_sam_key]. Qed.

Lemma enc_sam_response_enc_roundtrip v fuel :
  wf_enc_sam_response_enc v -> fits (der_enc_sam_response_enc v) ->
  (length (der_enc_sam_response_enc v) <= fuel)%nat ->
  encode_krb5_enc_sam_response_enc (Some v) = Ok (code_of (der_enc_sam_response_enc v)) /\
  decode_krb5_enc_sam_response_enc fuel (Some (code_of (der_enc_sam_response_enc v))) = Ok v.
Proof.
  intros H. apply whole_ok; [by apply enc_enc_sam_response_enc|by apply dec_enc_sam_response_enc].
Qed.

Theorem sam_response_roundtrip v fuel :
  wf_sam_response v -> fits (der_sam_response v) -> (length (der_sam_response v) <= fuel)%nat ->
  encode_krb5_sam_response (Some v) = Ok (code_of (der_sam_response v)) /\
  decode_krb5_sam_response fuel (Some (code_of (der_sam_response v))) = Ok v.
Proof. intros H. apply whole_ok; [by apply enc_sam_response|by apply dec_sam_response]. Qed.

Lemma predicted_sam_response_roundtrip v fuel :
  wf_predicted_sam_response v -> fits (der_predicted_sam_response v) ->
  (length (der_predicted_sam_response v) <= fuel)%nat ->
  encode_krb5_predicted_sam_response (Some v) = Ok (code_of (der_predicted_sam_response v)) /\
  decode_krb5_predicted_sam_response fuel (Some (code_of (der_predicted_sam_response v))) = Ok v.
Proof.
  intros H. apply whole_ok; [by apply enc_predicted_sam_response|by apply dec_predicted_sam_response].
Qed.

End Preauth.
