(* ===== verification/ApExchProofs.v ===== *)
(** * Client and server agree (ApExch.v)

    A request that a client makes with a ticket of the KDC is accepted by the server the
    ticket is for, and both hold the same keys, times and sequence numbers afterwards;
    the server's reply convinces the client.  The proofs use of the coding library the
    class [Message] only, and of the cryptographic library that decryption inverts
    encryption. *)

From S2P Require Import Prelude CString Asn1Buf GmTime Krb5Types Asn1KEncode Asn1KDecode Krb5Encode Krb5Decode PrincName PrincNameProofs.
From S2P Require Import Transited Kdc Words RcDfl Crypto CryptoApi CryptoProofs CryptoEnc AuthCon ApExch RcDflProofs ApReplay.
From S2P Require Import Asn1Prim Der Codec CodecRead CodecPrim CodecTypes CodecKdc CodecMsg.

(** ** Sizes of codes *)

Lemma be_octets_size n z acc : zlen (be_octets n z acc) <= Z.of_nat n + zlen acc.
Proof.
  revert z acc. induction n as [|n IH]; intros z acc; cbn [be_octets]; [lia|].
  destruct (z =? 0); [lia|]. specialize (IH (z / 256) (z mod 256 :: acc)). rewrite zlen_cons in IH. lia.
Qed.

Lemma tlv_size id c : zlen (der_tlv id c) <= zlen c + 6.
Proof.
  rewrite zlen_tlv. unfold der_length. destruct (_ <? _); [change (zlen [zlen c]) with 1; lia|].
  pose proof (be_octets_size 4 (zlen c) []). rewrite zlen_cons. rewrite zlen_nil in *. lia.
Qed.

Lemma int_octets_size n z acc : zlen (int_octets n z acc) <= Z.of_nat n + zlen acc.
Proof.
  revert z acc. induction n as [|n IH]; intros z acc; cbn [int_octets]; [lia|].
  destruct (_ && _); [rewrite zlen_cons; lia|]. specialize (IH (z / 256) (z mod 256 :: acc)). rewrite zlen_cons in IH. lia.
Qed.

Lemma integer_size z : zlen (der_integer z) <= 15.
Proof. unfold der_integer. pose proof (tlv_size 0x02 (int_octets 9 z [])). pose proof (int_octets_size 9 z []). rewrite zlen_nil in *. lia. Qed.

Lemma flat_fld_size t c rest : zlen (flat (fld t c ++ rest)) <= zlen c + 6 + zlen (flat rest).
Proof. rewrite flat_app, flat_fld, zlen_app. pose proof (tlv_size (0xA0 + t) c). lia. Qed.

Lemma flat_opt_fld_size b t c rest : zlen (flat (opt_fld b t c ++ rest)) <= zlen c + 6 + zlen (flat rest).
Proof. destruct b; [apply flat_fld_size|]. cbn [opt_fld app]. pose proof (zlen_nonneg c). lia. Qed.

(** [flat_sizes]: bound the size of a structure by those of its fields. *)
Ltac flat_facts fs :=
  lazymatch fs with
  | fld ?t ?c ++ ?r => pose proof (flat_fld_size t c r); flat_facts r
  | opt_fld ?b ?t ?c ++ ?r => pose proof (flat_opt_fld_size b t c r); flat_facts r
  | [] => assert (zlen (flat []) = 0) by done
  end.
Ltac flat_sizes := match goal with |- context [flat ?fs] => flat_facts fs end.

Section sizes.
Context `{P : Platform}.

Lemma enc_data_size d : zlen (der_encrypted_data d) <= zlen (bytes (d_data (ed_ciphertext d))) + 80.
Proof.
  unfold der_encrypted_data, der_seq. etransitivity; [apply tlv_size|]. flat_sizes.
  pose proof (integer_size (long (ed_enctype d))). pose proof (integer_size (long (ed_kvno d))).
  pose proof (tlv_size 0x04 (bytes (d_data (ed_ciphertext d)))). unfold der_octetstring in *. lia.
Qed.

Lemma ap_req_size v : zlen (der_ap_req v) <=
  zlen (of_opt der_ticket (aq_ticket v)) + zlen (bytes (d_data (ed_ciphertext (aq_authenticator v)))) + 200.
Proof.
  unfold der_ap_req, der_app, der_seq. etransitivity; [apply tlv_size|].
  match goal with |- context [der_tlv 48 ?c] => pose proof (tlv_size 48 c) end. flat_sizes. pose proof (enc_data_size (aq_authenticator v)).
  pose proof (integer_size KVNO). pose proof (integer_size ASN1_KRB_AP_REQ).
  assert (zlen (der_flags (aq_ap_options v)) <= 11) by (unfold der_flags; etransitivity; [apply tlv_size|done]). lia.
Qed.
End sizes.

(** ** Keys, sealed data and names *)

(** A key with octets. *)
Definition good_key (k : krb5_keyblock) : Prop := wf_keyblock k /\ kb_contents k <> None.

Definition crypto_key (k : krb5_keyblock) : keyblock := Key (kb_enctype k) (default [] (kb_contents k)).

Lemma octets_at_wf len data : wf_bytes len data -> octets_at data len = Ok (default [] data).
Proof.
  intros (-> & _ & _). unfold octets_at. apply contents_ok. split; [done|]. cbn. destruct data; [|done]. exists []. by rewrite app_nil_r.
Qed.

Lemma key_of_good k : good_key k -> key_of k = Ok (crypto_key k) /\ octets (key_contents (crypto_key k)).
Proof. intros [[_ Hb] _]. unfold key_of. rewrite (octets_at_wf _ _ Hb). split; [done|]. apply Hb. Qed.

Section seal.
Context `{P : Platform} `{St : Stack}.

Lemma copy_good k : good_key k -> kb_length k <= malloc_limit -> krb5_copy_keyblock k = Ok k.
Proof.
  intros [[_ Hb] Hn] Hm. unfold krb5_copy_keyblock. destruct (malloc_ok (kb_length k)) as (b & -> & _).
  { destruct Hb as (El & _). pose proof (zlen_nonneg (default [] (kb_contents k))). lia. }
  rewrite (octets_at_wf _ _ Hb). cbn [obind]. destruct k as [e l [c|]]; done.
Qed.

Lemma code_contents bs : PrincName.contents (code_of bs) = Ok bs.
Proof. apply contents_ok. split; [done|]. by exists [0]. Qed.

Lemma encrypt_length_bound etype n e : 0 <= n -> krb5_c_encrypt_length etype n = Ok e -> 0 <= e <= n + 160.
Proof.
  intros Hn. unfold krb5_c_encrypt_length. destruct (find_enctype etype) as [kt|] eqn:EF; [|done]. intros [= <-].
  destruct (find_enctype_in _ _ EF) as [HIn _]. pose proof enctypes_hashes as HH. rewrite Forall_forall in HH. specialize (HH kt HIn).
  destruct (kt_mode kt) as [|hash|hash]; unfold krb5_raw_encrypt_length, krb5_old_encrypt_length, krb5_dk_encrypt_length; rewrite enc_block_8.
  - pose proof (roundup_spec n 8). lia.
  - pose proof (hash_size_pos (hash := hash)). pose proof (roundup_spec (8 + hash_size hash + n) 8). lia.
  - pose proof (hash_size_pos (hash := hash)). pose proof (roundup_spec (8 + n) 8). lia.
Qed.

(** What was sealed is opened, with zeros behind it. *)
Lemma helper_opens key usage bs cipher w ed w' :
  good_key key -> prng_wf (w_prng w) -> octets bs -> zlen bs < 2 ^ 32 -> zlen bs + 160 <= malloc_limit -> bs <> [] ->
  krb5_encrypt_helper key usage (code_of bs) cipher w = (Ok ed, w') ->
  (wf_enc_data ed /\ ed_enctype ed = kb_enctype key /\ valid_enctype (kb_enctype key) = true /\ d_length (ed_ciphertext ed) <= zlen bs + 160) /\
  w_sec w' = w_sec w /\ w_usec w' = w_usec w /\ w_ac w' = w_ac w /\ prng_wf (w_prng w') /\
  exists n rest iv, zlen bs <= n /\ decrypt_scratch key usage None ed = Ok (Data n (Some (bs ++ rest)), iv).
Proof.
  intros Hk HW Hb Hl Hm Hne E. unfold krb5_encrypt_helper in E. apply pbind_ok in E as (enclen & w1 & H1 & E). injection H1 as H1 <-.
  apply encrypt_length_bound in H1 as He; [|apply zlen_nonneg]. change (d_length (code_of bs)) with (zlen bs) in He. assert (0 <= enclen <= malloc_limit) by lia. destruct (malloc_ok enclen ltac:(done)) as (blk & EB & _). rewrite EB in E.
  destruct (key_of_good key Hk) as [EK OK]. rewrite EK, code_contents in E.
  apply pbind_ok in E as (k & w1 & H2 & E). injection H2 as <- <-.
  apply pbind_ok in E as (m & w1 & H2 & E). injection H2 as <- <-.
  apply pbind_ok in E as ([ed0 iv] & w1 & H2 & E). injection E as <- <-. unfold with_prng in H2.
  destruct (krb5_c_encrypt (w_prng w) (crypto_key key) usage None bs enclen) as [r st'] eqn:EE. injection H2 as -> <-.
  destruct (krb5_c_encrypt_ok _ _ _ None _ _ _ _ _ HW OK I Hb Hl EE) as ((Et & Oc & Lc & HW' & _) & pad & Hp & ED).
  assert (HN : ed0.2 <> []). { intros En. rewrite En, zlen_nil in Lc. destruct bs; [done|]. rewrite zlen_cons in Lc. pose proof (zlen_nonneg bs). lia. }
  cbn [w_sec w_usec w_ac w_prng ed_enctype ed_kvno ed_ciphertext d_length].
  assert (HV : valid_enctype (kb_enctype key) = true).
  { unfold valid_enctype. unfold krb5_c_encrypt_length in H1. destruct (find_enctype _); [done|discriminate]. }
  split; [split_and!; [|done|done|lia]|].
  { split; cbn; [rewrite Et; apply Hk|done|]. split_and!; [done|done|]. cbn. destruct ed0 as [e0 [|o c]]; [done|]. done. }
  split; [done|]. split; [done|]. split; [done|]. split; [done|]. unfold decrypt_scratch. cbn [ed_ciphertext ed_enctype d_length].
  destruct (malloc_ok (zlen ed0.2)) as (b & -> & _); [pose proof (zlen_nonneg ed0.2); lia|]. rewrite EK. cbn [obind].
  rewrite (contents_ok _ ed0.2) by (split; [done|]; exists []; by rewrite app_nil_r). cbn [obind].
  rewrite <- (surjective_pairing ed0), ED. cbn [obind].
  exists (zlen (bs ++ zeros pad)), (zeros pad), iv. split; [|done]. rewrite zlen_app. pose proof (zlen_nonneg (zeros pad)). lia.
Qed.

(** Names. *)
Lemma wf_data_holds d : wf_data d -> data_holds d (default [] (d_data d)).
Proof. intros (El & _ & _). split; [done|]. destruct (d_data d); [|done]. exists []. by rewrite app_nil_r. Qed.

Lemma wf_principal_holds p : wf_principal p ->
  exists c0 cs, princ_holds p (default [] (d_data (pr_realm p))) (c0 :: cs).
Proof.
  intros [Hr _ (c & cs & Ed & El & Hc)]. exists (default [] (d_data c)), ((fun d => default [] (d_data d)) <$> cs).
  split; [by apply wf_data_holds|]. split; [by rewrite El, !zlen_cons; unfold zlen; rewrite length_fmap|].
  exists (c :: cs). split; [done|]. change (Forall2 data_holds (c :: cs) ((fun d => default [] (d_data d)) <$> c :: cs)).
  clear -Hc. induction Hc as [|d ds Hd _ IH]; [constructor|]. constructor; [by apply wf_data_holds|exact IH].
Qed.

Lemma principal_compare_refl p : wf_principal p -> krb5_principal_compare p p = Ok true.
Proof.
  intros H. destruct (wf_principal_holds p H) as (c0 & cs & Hp). rewrite (principal_compare_ok _ _ _ _ _ _ Hp Hp). by rewrite bool_decide_eq_true_2.
Qed.

(** *** What a client generates *)

Lemma random_key_ok st etype k st' : prng_wf st -> is_int 32 etype -> krb5_c_make_random_key st etype = (Ok k, st') ->
  prng_wf st' /\ good_key (keyblock_of k) /\ kb_length (keyblock_of k) <= 24.
Proof.
  intros HW Hi. unfold krb5_c_make_random_key. destruct (find_enctype etype) as [kt|] eqn:EF; [|done].
  destruct (krb5_c_random_make_octets st _) as [[o| | |] st1] eqn:ER; try discriminate. cbn [obind].
  destruct (enc_make_key _ o _) as [c| | |] eqn:EK; try discriminate. cbn [obind]. injection 1 as <- <-.
  assert (Hn : 0 <= enc_keybytes (enc_provider (kt_enc kt))) by by destruct (kt_enc kt).
  destruct (confounder_ok _ _ _ _ HW Hn ER) as (Oo & _ & HW').
  assert (HE : EncLaws (enc_provider (kt_enc kt))) by (destruct (kt_enc kt); apply _).
  destruct (enc_make_key_ok _ _ _ Oo EK) as [Oc Lc].
  assert (HL : 8 <= zlen c <= 24) by (rewrite Lc; by destruct (kt_enc kt)).
  split; [done|]. split; [|cbn; lia]. split; [|done]. split; [done|]. cbn. split_and!; [done|done|]. cbn.
  destruct c; [rewrite zlen_nil in HL; lia|done].
Qed.

(** The clock and the rest of the context stay. *)
Definition same_clock (w w' : world) : Prop := w_sec w' = w_sec w /\ w_usec w' = w_usec w.

Lemma gen_seq_ok key w n w' : good_key key -> prng_wf (w_prng w) -> krb5_generate_seq_number key w = (Ok n, w') ->
  same_clock w w' /\ w_ac w' = w_ac w /\ prng_wf (w_prng w') /\ is_int 32 n.
Proof.
  intros Hk HW E. unfold krb5_generate_seq_number in E. destruct (key_of_good key Hk) as [EK OK]. rewrite EK in E. inv_proc E.
  injection H as <-. unfold with_prng in H0.
  destruct (krb5_c_random_make_octets _ 4) as [r st'] eqn:ER. injection H0 as -> <-.
  destruct (confounder_ok _ 4 _ _ (seed_wf _ _ OK HW) ltac:(lia) ER) as (_ & _ & HW'). split; [done|]. split; [done|].
  split; [done|apply int32_range].
Qed.

Lemma gen_subkey_ok key w w' : good_key key -> prng_wf (w_prng w) -> krb5_generate_subkey key w = (Ok tt, w') ->
  same_clock w w' /\ prng_wf (w_prng w') /\
  exists k, w_ac w' = set_subkeys (Ref k) (ac_remote_subkey (w_ac w)) (w_ac w) /\ good_key k /\ kb_length k <= 24.
Proof.
  intros Hk HW. unfold krb5_generate_subkey. destruct (key_of_good key Hk) as [-> OK].
  destruct (krb5_c_make_random_key _ _) as [[k| | |] st'] eqn:ER; try discriminate. injection 1 as <-.
  destruct (random_key_ok _ _ _ _ (seed_wf _ _ OK HW) (wf_kb_type _ (proj1 Hk)) ER) as (HW' & Hg & HL). split; [done|]. split; [done|].
  by exists (keyblock_of k).
Qed.
End seal.

(** ** The request *)

Section request.
Context `{P : Platform} `{St : Stack} (fuel : nat) (cxc cxs : krb5_context).

Lemma helper_ac key usage plain cipher w ed w' : krb5_encrypt_helper key usage plain cipher w = (Ok ed, w') ->
  same_clock w w' /\ w_ac w' = w_ac w.
Proof.
  unfold krb5_encrypt_helper. intros E. apply pbind_ok in E as (? & ? & H & E). inv_step H. destruct (malloc _); [|by inv_step E].
  inv_proc E. unfold with_prng in H2. destruct (krb5_c_encrypt _ _ _ _ _ _) as [r st]. injection H2 as -> <-. destruct x2. by inv_step E.
Qed.

(** The checksum of GSS-API, which is not computed here. *)
Definition gss_checksum (in_data : option krb5_data) : option krb5_checksum :=
  (fun d => Checksum 0x8003 (d_length d) (d_data d)) <$> in_data.

(** What holds of a context in which a client makes a request. *)
Record client_ok (in_data : option krb5_data) (w0 w : world) : Prop := {
  cl_clock : same_clock w0 w;
  cl_prng : prng_wf (w_prng w);
  cl_seq : is_int 32 (ac_local_seq_number (w_ac w));
  cl_subkey k : ac_local_subkey (w_ac w) = Ref k -> good_key k /\ kb_length k <= malloc_limit;
  cl_data d : in_data = Some d -> ac_req_cksumtype (w_ac w) = 0x8003
}.

Lemma seq_if_needed_ok in_data w0 key w w' : good_key key -> client_ok in_data w0 w -> seq_if_needed key w = (Ok tt, w') ->
  client_ok in_data w0 w' /\ ac_keyblock (w_ac w') = ac_keyblock (w_ac w).
Proof.
  intros Hk [HC HW Hs Hsub Hd] E. unfold seq_if_needed in E. apply pbind_ok in E as (ac & w1 & H & E). inv_step H.
  destruct (_ && _); [|by inv_step E]. inv_proc E.
  destruct (gen_seq_ok _ _ _ _ Hk HW H) as (HC1 & EA & HW1 & Hi).
  split; [|cbn; by rewrite EA]. destruct HC, HC1. split; cbn; rewrite ?EA; try done. split; cbn; congruence.
Qed.

Lemma subkey_if_needed_ok in_data w0 opts key w w' : 24 <= malloc_limit -> good_key key -> client_ok in_data w0 w ->
  subkey_if_needed opts key w = (Ok tt, w') ->
  client_ok in_data w0 w' /\ ac_keyblock (w_ac w') = ac_keyblock (w_ac w).
Proof.
  intros Hm Hk [HC HW Hs Hsub Hd] E. unfold subkey_if_needed in E. apply pbind_ok in E as (ac & w1 & H & E). inv_step H.
  destruct (has_flag _ _); [|by inv_step E]. destruct (ac_local_subkey (w_ac w)) as [| |k0] eqn:EL; [|by inv_step E; rewrite <- EL in Hsub..].
  apply pbind_ok in E as ([sec usec] & w1 & H & E). injection H as <- <- <-.
  apply pbind_ok in E as ([] & w1 & H & E).
  assert (HS : prng_wf (krb5_c_random_seed (w_prng w) (le32 (w_sec w) ++ le32 (w_usec w))))
    by (apply seed_wf; [apply Forall_app; split; apply le32_octets|done]).
  assert (HW2 : prng_wf (w_prng w1) /\ w_ac w1 = w_ac w /\ same_clock w w1) by (by injection H as <-). clear H. destruct HW2 as (HW2 & EA0 & HC0).
  destruct (gen_subkey_ok _ _ _ Hk HW2 E) as (HC1 & HW1 & k & EA & Hg & HL). rewrite EA0 in EA.
  rewrite EA. split; [|done]. destruct HC, HC0, HC1. split; rewrite ?EA; try done; [split; congruence|].
  cbn. intros k1 [= <-]. split; [done|lia].
Qed.

Definition sent_authenticator (in_data : option krb5_data) (creds : krb5_creds) (w w' : world) (subkey : option krb5_keyblock)
    : krb5_authenticator :=
  Authenticator (cd_client creds) (gss_checksum in_data) (w_usec w) (w_sec w) subkey (ac_local_seq_number (w_ac w')) (cd_authdata creds).

Lemma request_checksum_ok in_data w0 w cksum w' : client_ok in_data w0 w -> request_checksum in_data w = (Ok cksum, w') ->
  cksum = gss_checksum in_data /\ w' = w.
Proof.
  intros HC. destruct in_data as [d|]; cbn [request_checksum]; [|by intros [= <- <-]]. intros E.
  apply pbind_ok in E as (ac & w1 & H & E). inv_step H. rewrite (cl_data _ _ _ HC d eq_refl) in E. by injection E as <- <-.
Qed.

Definition good_subkey (subkey : option krb5_keyblock) : Prop := opt_wf (fun k => good_key k /\ kb_length k <= malloc_limit) subkey.

Lemma generate_authenticator_ok client cksum key seq authz w a w' : good_subkey key ->
  krb5_generate_authenticator client cksum key seq authz w = (Ok a, w') ->
  w' = w /\ a = Authenticator client cksum (w_usec w) (w_sec w) key seq authz.
Proof.
  intros Hk E. unfold krb5_generate_authenticator in E. apply pbind_ok in E as (sk & w1 & H & E). inv_step H.
  assert (sk = key) as ->.
  { destruct key as [k|]; [|by injection H]. destruct Hk as [Hg HL]. rewrite (copy_good k Hg HL) in H. by injection H. }
  apply pbind_ok in E as ([ct cu] & w1 & H1 & E). injection H1 as <- <- <-. by injection E as <- <-.
Qed.

Lemma mk_req_spec junk opts in_data creds w outbuf w' tkt :
  24 <= malloc_limit -> client_ok in_data w w -> good_key (cd_keyblock creds) -> kb_length (cd_keyblock creds) <= malloc_limit ->
  decode_krb5_ticket fuel (Some (cd_ticket creds)) = Ok tkt ->
  krb5_mk_req_extended fuel cxc junk opts in_data creds w = (Ok outbuf, w') ->
  exists subkey scratch ed w1,
    let auth := sent_authenticator in_data creds w w' subkey in
    (good_subkey subkey /\ subkey_of (ac_local_subkey (w_ac w')) = Ok subkey /\ is_int 32 (ac_local_seq_number (w_ac w'))) /\
    prng_wf (w_prng w1) /\ encode_krb5_authenticator (Some auth) = Ok scratch /\
    krb5_encrypt_helper (cd_keyblock creds) KRB5_KEYUSAGE_AP_REQ_AUTH scratch junk w1 = (Ok ed, w') /\
    encode_krb5_ap_req (Some (ApReq (int32 (Z.land opts AP_OPTS_WIRE_MASK)) (Some tkt) ed)) = Ok outbuf /\
    ac_keyblock (w_ac w') = Some (cd_keyblock creds) /\
    (exists auth', ac_authentp (w_ac w') = Some auth' /\ at_ctime auth' = at_ctime auth /\ at_cusec auth' = at_cusec auth).
Proof.
  intros Hm HC Hk Hkl ET E. unfold krb5_mk_req_extended in E. destruct (_ =? 0); [discriminate|]. rewrite ET in E.
  inv_proc E. destruct x0, x2, x4. injection H as <-. rewrite (copy_good _ Hk Hkl) in H1. injection H1 as <-.
  apply (seq_if_needed_ok in_data w) in H2 as [HC2 EK2]; [|done|by destruct HC; split].
  apply (subkey_if_needed_ok in_data w) in H3 as [HC3 EK3]; [|done..].
  apply (request_checksum_ok in_data w) in H4 as [-> ->]; [|done].
  assert (HS : good_subkey x8).
  { destruct (ac_local_subkey (w_ac x5)) as [| |k] eqn:EL; [injection H5 as <-; done|done|].
    injection H5 as <-. by apply (cl_subkey _ _ _ HC3). }
  apply generate_authenticator_ok in H6 as [-> ->]; [|done]. destruct (helper_ac _ _ _ _ _ _ _ H8) as [_ EA].
  destruct (cl_clock _ _ _ HC3) as [E1 E2]. exists x8, x11, x12. eexists. unfold sent_authenticator. rewrite EA.
  cbn [w_ac ac_local_subkey ac_local_seq_number ac_keyblock ac_authentp set_authentp at_ctime at_cusec]. rewrite <- E1, <- E2.
  split; [split_and!; [done|done|apply HC3]|]. split; [|split; [exact H7|split; [exact H8|]]]; [apply HC3|].
  split; [done|]. split; [by rewrite EK3, EK2|]. eexists. split; [done|]. done.
Qed.
End request.

(** ** Reading the request *)

Section reading.
Context `{P : Platform} `{St : Stack} (fuel : nat) (cxs : krb5_context).
Context (kt : krb5_principal_data -> Z -> Z -> outcome error_code krb5_keyblock).

(** What the server checks of a request, its ticket and its authenticator, and that it
    has not got the authenticator in its replay cache. *)
Record server_ok (server : option krb5_principal_data) (ticket : krb5_ticket) (part : krb5_enc_tkt_part) (session : krb5_keyblock)
    (auth : krb5_authenticator) (w : world) : Prop := {
  sv_key : ac_keyblock (w_ac w) = None;
  sv_name s : server = Some s -> exists n, tk_server ticket = Some n /\ krb5_principal_compare s n = Ok true;
  sv_addr a : ac_remote_addr (w_ac w) = Some a -> krb5_address_search a (etp_caddrs part) = Ok true;
  sv_realms : check_cross_realm cxs part = Ok tt;
  sv_cache t : ac_rcache (w_ac w) = Some t -> exists rep, krb5_auth_to_rep ticket auth = Ok rep /\
    (krb5_rc_dfl_store (cx_tmp_names cxs) (cx_clockskew cxs) (Some (w_sec w)) (w_fs w) t rep).1.1 = Ok tt;
  sv_checks : rd_req_checks cxs (w_ac w) ticket part session auth true (w_sec w) = Ok tt
}.

Definition sealed_ticket (ticket : krb5_ticket) : krb5_ticket := Ticket (tk_server ticket) (tk_enc_part ticket) None.

Lemma open_accepts req server ticket part session client auth w :
  aq_ticket req = Some (sealed_ticket ticket) -> tk_enc_part2 ticket = Some part ->
  krb5_rd_req_decrypt_tkt_part fuel kt (sealed_ticket ticket) = Ok ticket ->
  etp_session part = Some session -> etp_client part = Some client -> wf_principal client ->
  decrypt_authenticator fuel req session true = Ok auth -> at_client auth = Some client ->
  server_ok server ticket part session auth w ->
  rd_req_open fuel cxs kt req server true w = (Ok (ticket, part, session, auth), with_ac w (set_authentp (Some auth) (w_ac w))).
Proof.
  intros Et Ep2 ED Es Ec Hc EA Eac [K1 K2 K3 K4 K5 K6]. unfold rd_req_open. rewrite Et.
  rewrite (run_pure _ (sealed_ticket ticket)) by done. rewrite (run_pure _ true).
  2:{ destruct server as [s|]; [|done]. destruct (K2 s eq_refl) as (n & En & Ecmp). cbn [sealed_ticket tk_server]. by rewrite En. }
  rewrite (run_pure _ tt) by done. rewrite run_get, K1, (run_pure _ ticket) by done. rewrite Ep2, (run_pure _ part), Es, (run_pure _ session) by done.
  rewrite (run_pure _ auth) by done. rewrite run_modify, Eac, (run_pure _ client), Ec, (run_pure _ client) by done.
  rewrite (run_pure _ true) by by apply principal_compare_refl. rewrite (run_pure _ tt) by done.
  rewrite (run_pure _ true). 2:{ destruct (ac_remote_addr (w_ac w)) as [a|]; [by apply K3|done]. }
  rewrite (run_pure _ tt) by done. by rewrite K4, (run_pure _ tt).
Qed.

Lemma finish_accepts req session auth w : good_key session -> kb_length session <= malloc_limit -> good_subkey (at_subkey auth) ->
  exists w', rd_req_finish req session auth w = (Ok tt, w') /\ ac_keyblock (w_ac w') = Some session /\
    ac_remote_subkey (w_ac w') = at_subkey auth /\ ac_remote_seq_number (w_ac w') = at_seq_number auth /\ ac_authentp (w_ac w') = ac_authentp (w_ac w).
Proof.
  intros Hk Hkl Hs. unfold rd_req_finish. rewrite run_get, run_modify, (run_pure _ (at_subkey auth)).
  2:{ destruct (at_subkey auth) as [k|]; [|done]. destruct Hs as [Hg HL]. by rewrite (copy_good k Hg HL). }
  rewrite run_modify, (copy_good session Hk Hkl), (run_pure _ session) by done. rewrite run_modify. destruct (_ && _); by eexists.
Qed.

Lemma rd_req_accepts req server ticket part session client auth w :
  aq_ticket req = Some (sealed_ticket ticket) -> tk_enc_part2 ticket = Some part ->
  krb5_rd_req_decrypt_tkt_part fuel kt (sealed_ticket ticket) = Ok ticket ->
  etp_session part = Some session -> etp_client part = Some client -> wf_principal client ->
  decrypt_authenticator fuel req session true = Ok auth -> at_client auth = Some client ->
  good_key session -> kb_length session <= malloc_limit -> good_subkey (at_subkey auth) ->
  server_ok server ticket part session auth w ->
  exists w', krb5_rd_req_decoded fuel cxs kt req server w = (Ok (aq_ap_options req, ticket), w') /\
    ac_keyblock (w_ac w') = Some session /\ ac_remote_subkey (w_ac w') = at_subkey auth /\
    ac_remote_seq_number (w_ac w') = at_seq_number auth /\ ac_authentp (w_ac w') = Some auth.
Proof.
  intros Et Ep2 ED Es Ec Hc EA Eac Hk Hkl Hsub HO.
  unfold krb5_rd_req_decoded, krb5_rd_req_decoded_opt. rewrite (run_step _ _ _ _ _ (open_accepts _ _ _ _ _ _ _ _ Et Ep2 ED Es Ec Hc EA Eac HO)).
  set (w1 := with_ac w _). rewrite run_get.
  assert (HR : exists w2, (match ac_rcache (w_ac w1) with
                           | None => ret tt
                           | Some _ => do* rep := pure (krb5_auth_to_rep ticket auth) in krb5_rc_store cxs rep
                           end) w1 = (Ok tt, w2) /\ ac_authentp (w_ac w2) = Some auth /\ w_sec w2 = w_sec w).
  { cbn [w1 with_ac w_ac ac_rcache set_authentp]. destruct (ac_rcache (w_ac w)) as [t|] eqn:ER; [|by eexists].
    destruct (sv_cache _ _ _ _ _ _ HO t ER) as (rep & E1 & E2). rewrite (run_pure _ rep) by done. unfold krb5_rc_store.
    cbn [w1 with_ac w_ac ac_rcache set_authentp w_sec w_fs]. rewrite ER.
    destruct (krb5_rc_dfl_store _ _ _ _ _ _) as [[o t'] fs']. cbn [fst] in E2. rewrite E2. by eexists. }
  destruct HR as (w2 & E2 & EA2 & ES2). rewrite (run_step _ _ _ _ _ E2), run_time, (run_pure _ tt) by (rewrite ES2; apply HO).
  destruct (finish_accepts req session auth w2 Hk Hkl Hsub) as (w3 & E3 & R1 & R2 & R3 & R4). rewrite (run_step _ _ _ _ _ E3).
  exists w3. rewrite R4. done.
Qed.
End reading.

(** ** The reply *)

Section reply.
Context `{P : Platform} `{St : Stack} (fuel : nat).

Lemma ap_rep_size v : zlen (der_ap_rep v) <= zlen (bytes (d_data (ed_ciphertext (ap_enc_part v)))) + 150.
Proof.
  unfold der_ap_rep, der_app, der_seq. etransitivity; [apply tlv_size|].
  match goal with |- context [der_tlv 48 ?c] => pose proof (tlv_size 48 c) end. flat_sizes. pose proof (enc_data_size (ap_enc_part v)).
  pose proof (integer_size KVNO). pose proof (integer_size ASN1_KRB_AP_REP). lia.
Qed.

(** The part of a reply that is sealed. *)
Definition reply_part (auth : krb5_authenticator) (w' : world) : krb5_ap_rep_enc_part :=
  ApRepEncPart (at_ctime auth) (at_cusec auth) (at_subkey auth) (ac_local_seq_number (w_ac w')).

Lemma seq_if_needed_local key w w' : good_key key -> prng_wf (w_prng w) -> is_int 32 (ac_local_seq_number (w_ac w)) ->
  seq_if_needed key w = (Ok tt, w') ->
  prng_wf (w_prng w') /\ is_int 32 (ac_local_seq_number (w_ac w')) /\ ac_keyblock (w_ac w') = ac_keyblock (w_ac w) /\ ac_authentp (w_ac w') = ac_authentp (w_ac w).
Proof.
  intros Hk HW Hs E. unfold seq_if_needed in E. apply pbind_ok in E as (ac & w1 & H & E). inv_step H.
  destruct (_ && _); [|by inv_step E]. inv_proc E. destruct (gen_seq_ok _ _ _ _ Hk HW H) as (_ & EA & HW1 & Hi).
  cbn [w_ac w_prng ac_local_seq_number set_seq_numbers ac_keyblock ac_authentp]. by rewrite EA.
Qed.

(** The reply that was made decrypts to the part that was sealed. *)
Lemma mk_rep_opens junk key auth w outbuf w' :
  ac_keyblock (w_ac w) = Some key -> good_key key -> ac_authentp (w_ac w) = Some auth -> prng_wf (w_prng w) ->
  is_int 32 (ac_local_seq_number (w_ac w)) -> wf_time (at_ctime auth) -> is_int 32 (at_cusec auth) -> opt_wf wf_keyblock (at_subkey auth) ->
  krb5_mk_rep junk w = (Ok outbuf, w') ->
  let part := reply_part auth w' in
  zlen (der_ap_rep_enc_part part) + 400 + STANDARD_INCREMENT <= code_limit -> zlen (der_ap_rep_enc_part part) + 400 <= Z.of_nat fuel ->
  is_message 15 outbuf = Ok true /\
  exists reply scratch iv, decode_krb5_ap_rep fuel (Some outbuf) = Ok reply /\
    decrypt_scratch key KRB5_KEYUSAGE_AP_REP_ENCPART None (ap_enc_part reply) = Ok (scratch, iv) /\
    decode_krb5_ap_rep_enc_part fuel (Some scratch) = Ok part.
Proof.
  intros EK Hk EA HW Hs Ht Hu Hsub E part Hlim Hfu. unfold krb5_mk_rep in E. rewrite run_get, EK in E.
  rewrite (run_pure _ key) in E by done. apply pbind_ok in E as ([] & w1 & H & E).
  destruct (seq_if_needed_local _ _ _ Hk HW Hs H) as (HW1 & Hs1 & _ & EA1). rewrite run_get, EA1, EA in E.
  rewrite (run_pure _ auth) in E by done. inv_proc E. destruct (helper_ac _ _ _ _ _ _ _ H1) as [_ EAC].
  unfold part, reply_part in Hlim, Hfu. rewrite EAC in Hlim, Hfu. unfold part, reply_part. rewrite EAC. clear part.
  set (part := ApRepEncPart _ _ _ _) in *. unfold code_limit, STANDARD_INCREMENT in Hlim.
  assert (Hwp : wf_ap_rep_enc_part part) by by split.
  assert (Hfp : fits (der_ap_rep_enc_part part)) by (unfold fits, code_limit, STANDARD_INCREMENT; lia).
  destruct (message_encode (Message := ap_rep_enc_part_message) part Hwp Hfp) as [EE OE]. rewrite EE in H0. injection H0 as <-.
  assert (HL1 : zlen (der_ap_rep_enc_part part) < 2 ^ 32) by lia. assert (HL2 : zlen (der_ap_rep_enc_part part) + 160 <= malloc_limit) by lia.
  destruct (helper_opens _ _ _ _ _ _ _ Hk HW1 OE HL1 HL2 ltac:(done) H1) as ((Hed & Et & Hv & Hel) & _ & _ & _ & _ & n & rest & iv & Hn & ED).
  set (reply := ApRep _) in *.
  assert (Hsz : zlen (der_ap_rep reply) <= zlen (der_ap_rep_enc_part part) + 310).
  { pose proof (ap_rep_size reply) as HZ. cbn [reply ap_enc_part] in HZ. destruct (wf_ed_ciphertext _ Hed) as (El & _). unfold bytes in HZ. lia. }
  destruct (message_roundtrip _ _ _ _ reply fuel ap_rep_message Hed) as [ER ED']; [unfold fits, code_limit, STANDARD_INCREMENT; lia|unfold zlen in *; lia|].
  rewrite ER in E. injection E as <-. split.
  - unfold is_message, code_of. cbn [d_length d_data]. destruct (Z.eqb_spec (zlen (der_ap_rep reply)) 0) as [E0|_]; [|done].
    apply zlen_0_nil in E0. done.
  - exists reply. do 2 eexists. split; [done|]. split; [exact ED|].
    apply (message_decode (Message := ap_rep_enc_part_message)); [done|done|unfold zlen in *; lia|done].
Qed.
End reply.

(** ** The exchange *)

Section exchange.
Context `{P : Platform} `{St : Stack} (fuel : nat) (cxc cxs : krb5_context).
Context (kt : krb5_principal_data -> Z -> Z -> outcome error_code krb5_keyblock).

(** The KDC enters the version of the server's key in the sealed ticket. *)
Definition stamp (kvno : Z) (tkt : krb5_ticket) : krb5_ticket :=
  Ticket (tk_server tkt) (EncData (ed_enctype (tk_enc_part tkt)) kvno (ed_ciphertext (tk_enc_part tkt))) (tk_enc_part2 tkt).

(** The KDC seals a ticket, and the server with the key opens it. *)
Lemma ticket_opens kvno sname srvkey ed0 part w tkt w' :
  krb5_encrypt_tkt_part srvkey (Ticket (Some sname) ed0 (Some part)) w = (Ok tkt, w') -> is_uint 32 kvno ->
  good_key srvkey -> prng_wf (w_prng w) -> wf_enc_tkt_part part -> fits (der_enc_tkt_part part) ->
  zlen (der_enc_tkt_part part) + 160 <= malloc_limit -> (length (der_enc_tkt_part part) <= fuel)%nat ->
  kt sname kvno (kb_enctype srvkey) = Ok srvkey ->
  tk_server tkt = Some sname /\ wf_enc_data (tk_enc_part (stamp kvno tkt)) /\ tk_enc_part2 tkt = Some part /\
  krb5_rd_req_decrypt_tkt_part fuel kt (sealed_ticket (stamp kvno tkt)) = Ok (stamp kvno tkt).
Proof.
  intros E Hkv Hk HW Hwf Hf Hm Hfuel Hkt. unfold krb5_encrypt_tkt_part in E. cbn [tk_enc_part2 tk_server tk_enc_part] in E.
  destruct (message_encode (Message := enc_tkt_part_message) part Hwf Hf) as [EE OE]. rewrite EE in E. inv_proc E. injection H as <-.
  assert (HL : zlen (der_enc_tkt_part part) < 2 ^ 32) by (unfold fits, code_limit, STANDARD_INCREMENT in Hf; lia).
  destruct (helper_opens _ _ _ _ _ _ _ Hk HW OE HL Hm ltac:(done) H0) as ((Hed & Et & Hv & _) & _ & _ & _ & _ & n & rest & iv & Hn & ED).
  unfold stamp, sealed_ticket. cbn [tk_server tk_enc_part tk_enc_part2]. split; [done|]. split; [by destruct Hed; split|]. split; [done|].
  unfold krb5_rd_req_decrypt_tkt_part. cbn [tk_server tk_enc_part deref obind ed_kvno ed_enctype]. rewrite Et, Hkt. cbn [obind].
  unfold krb5_decrypt_tkt_part. cbn [tk_enc_part tk_server ed_enctype]. rewrite Hv. cbn [negb].
  assert (ED' : decrypt_scratch srvkey KRB5_KEYUSAGE_KDC_REP_TICKET None (EncData (kb_enctype srvkey) kvno (ed_ciphertext x0)) =
                Ok (Data n (Some (der_enc_tkt_part part ++ rest)), iv)) by (rewrite <- ED, <- Et; done).
  rewrite ED'. cbn [obind]. by rewrite (message_decode (Message := enc_tkt_part_message) part fuel n rest).
Qed.

(** Everything that is encoded, with what is added around it, can be allocated and
    decoded. *)
Definition sizes_ok (part : krb5_enc_tkt_part) (tkt : krb5_ticket) (auth : krb5_authenticator) : Prop :=
  let total := zlen (der_enc_tkt_part part) + zlen (der_ticket (sealed_ticket tkt)) + zlen (der_authenticator auth) + 400 in
  total + STANDARD_INCREMENT <= code_limit /\ total <= Z.of_nat fuel.

(** The authenticator, sealed with the session key, and the request. *)
Lemma request_opens opts tkt auth scratch ed key junk w w' outbuf part :
  wf_authenticator auth -> wf_ticket (sealed_ticket tkt) -> sizes_ok part tkt auth -> good_key key -> prng_wf (w_prng w) ->
  encode_krb5_authenticator (Some auth) = Ok scratch ->
  krb5_encrypt_helper key KRB5_KEYUSAGE_AP_REQ_AUTH scratch junk w = (Ok ed, w') ->
  encode_krb5_ap_req (Some (ApReq (int32 opts) (Some (sealed_ticket tkt)) ed)) = Ok outbuf ->
  is_message 14 outbuf = Ok true /\
  decode_krb5_ap_req fuel (Some outbuf) = Ok (ApReq (int32 opts) (Some (sealed_ticket tkt)) ed) /\
  decrypt_authenticator fuel (ApReq (int32 opts) (Some (sealed_ticket tkt)) ed) key true = Ok auth.
Proof.
  intros Ha Ht [Hs Hfu] Hk HW EA EH ER. unfold code_limit, STANDARD_INCREMENT in Hs.
  pose proof (zlen_nonneg (der_enc_tkt_part part)). pose proof (zlen_nonneg (der_ticket (sealed_ticket tkt))). pose proof (zlen_nonneg (der_authenticator auth)).
  assert (Hfa : fits (der_authenticator auth)) by (unfold fits, code_limit, STANDARD_INCREMENT; lia).
  destruct (message_encode (Message := authenticator_message) auth Ha Hfa) as [EE OE]. rewrite EE in EA. injection EA as <-.
  assert (HL1 : zlen (der_authenticator auth) < 2 ^ 32) by lia. assert (HL2 : zlen (der_authenticator auth) + 160 <= malloc_limit) by lia.
  destruct (helper_opens _ _ _ _ _ _ _ Hk HW OE HL1 HL2 ltac:(done) EH) as ((Hed & Et & Hv & Hel) & _ & _ & _ & _ & n & rest & iv & Hn & ED).
  set (req := ApReq _ _ _) in *. assert (Hwr : wf_ap_req req) by (split; [apply int32_range|exact Ht|exact Hed]).
  assert (Hsz : zlen (der_ap_req req) <= zlen (der_ticket (sealed_ticket tkt)) + zlen (der_authenticator auth) + 360).
  { pose proof (ap_req_size req) as HZ. cbn [req aq_ticket aq_authenticator of_opt] in HZ.
    destruct (wf_ed_ciphertext _ Hed) as (El & _). unfold bytes in HZ. lia. }
  assert (Hfr : fits (der_ap_req req)) by (unfold fits, code_limit, STANDARD_INCREMENT; lia).
  destruct (message_roundtrip _ _ _ _ req fuel ap_req_message Hwr Hfr) as [ER' ED']; [unfold zlen in *; lia|].
  rewrite ER' in ER. injection ER as <-. split; [|split; [exact ED'|]].
  - unfold is_message, code_of. cbn [d_length d_data]. destruct (Z.eqb_spec (zlen (der_ap_req req)) 0) as [E0|_]; [|done].
    apply zlen_0_nil in E0. done.
  - unfold decrypt_authenticator. cbn [aq_authenticator req]. rewrite ED. cbn [obind].
    apply (message_decode (Message := authenticator_message)); [done|done|unfold zlen in *; lia|done].
Qed.
End exchange.

Section agreement.
Context `{P : Platform} `{St : Stack}.

(** C3: A ticket that the KDC seals with a server's key, a request that
    krb5_mk_req_extended makes with it, and krb5_rd_req at the server, which has the key
    in its key table and no key in its context (not user-to-user), and a replay cache in
    its context if it is given the name it expects: if the checks that the server makes
    of the contents succeed (the name it expects, the client's address, the realms
    passed, the times of ticket and authenticator, the INVALID flag, the permitted
    encryption types, and the replay cache takes the authenticator), the server accepts,
    for any encryption types, options, subkey and sequence number. Then both hold the
    same session key, and the server has the client's subkey and sequence number and the
    authenticator that was sent. Data to be covered by a checksum are given only with
    the type 0x8003 of GSS-API; the data are well-formed and their encodings can be
    allocated and have lengths that fit an int. *)
Theorem ap_exchange_agrees fuel cxc cxs kt sname cname srvkey kvno ed0 part wk tkt0 wk' creds junk opts in_data wc outbuf wc' subkey server ws :
  (* the KDC seals a ticket for the server *)
  krb5_encrypt_tkt_part srvkey (Ticket (Some sname) ed0 (Some part)) wk = (Ok tkt0, wk') ->
  good_key srvkey -> prng_wf (w_prng wk) -> wf_enc_tkt_part part -> is_uint 32 kvno -> wf_principal sname ->
  let tkt := stamp kvno tkt0 in
  (* the client has it, with its session key, and makes a request *)
  cd_ticket creds = code_of (der_ticket (sealed_ticket tkt)) ->
  etp_session part = Some (cd_keyblock creds) -> etp_client part = Some cname -> cd_client creds = Some cname ->
  good_key (cd_keyblock creds) -> kb_length (cd_keyblock creds) <= malloc_limit -> wf_opt_array wf_authdata (cd_authdata creds) ->
  opt_wf wf_data in_data -> client_ok in_data wc wc -> wf_time (w_sec wc) -> is_int 32 (w_usec wc) ->
  krb5_mk_req_extended fuel cxc junk opts in_data creds wc = (Ok outbuf, wc') ->
  subkey_of (ac_local_subkey (w_ac wc')) = Ok subkey ->
  let auth := sent_authenticator in_data creds wc wc' subkey in
  sizes_ok fuel part tkt auth ->
  (* the server has the key and reads the request *)
  kt sname kvno (kb_enctype srvkey) = Ok srvkey ->
  server_ok cxs server tkt part (cd_keyblock creds) auth ws -> (ac_rcache (w_ac ws) = None -> server = None) ->
  exists ws', krb5_rd_req fuel cxs kt outbuf server ws = (Ok (int32 (Z.land opts AP_OPTS_WIRE_MASK), tkt), ws') /\
    ac_keyblock (w_ac wc') = Some (cd_keyblock creds) /\ ac_keyblock (w_ac ws') = Some (cd_keyblock creds) /\
    ac_remote_subkey (w_ac ws') = subkey /\ ac_remote_seq_number (w_ac ws') = ac_local_seq_number (w_ac wc') /\
    ac_authentp (w_ac ws') = Some auth.
Proof.
  intros EK Hsk HWk Hpart Hkv Hsn tkt Etk Ese Ecl Ecc Hck Hckl Had Hdat HC Hsec Husec EM Esub auth HZ Hkt HS Hrc.
  destruct HZ as [Hs Hfu] eqn:EZ. clear EZ. assert (Hlim : 24 <= malloc_limit) by (unfold code_limit, STANDARD_INCREMENT in Hs; lens).
  assert (Hfp : fits (der_enc_tkt_part part)) by (unfold fits; lens).
  destruct (ticket_opens fuel kt kvno sname srvkey ed0 part wk tkt0 wk' EK Hkv Hsk HWk Hpart Hfp) as (Esn & Hed & Ep2 & EO);
    [unfold code_limit, STANDARD_INCREMENT in Hs; lens|unfold zlen in *; lia|done|].
  fold tkt in Hed, EO.
  assert (Hwt : wf_ticket (sealed_ticket tkt)) by (split; [cbn; by rewrite Esn|done|done]).
  assert (EDt : decode_krb5_ticket fuel (Some (cd_ticket creds)) = Ok (sealed_ticket tkt)).
  { rewrite Etk. apply (message_roundtrip _ _ _ _ _ fuel ticket_message Hwt); [unfold fits; lens|unfold zlen in *; lia]. }
  destruct (mk_req_spec fuel cxc junk opts in_data creds wc outbuf wc' _ Hlim HC Hck Hckl EDt EM)
    as (sk & scratch & ed & w1 & (Hgs & Esk & Hseq) & HW1 & EA & EH & ER & EKc & _).
  rewrite Esub in Esk. injection Esk as <-. fold auth in EA.
  assert (Hwa : wf_authenticator auth).
  { split; cbn [auth sent_authenticator at_client at_checksum at_cusec at_ctime at_subkey at_seq_number at_authorization_data]; try done.
    - rewrite Ecc. pose proof (wf_etp_client _ Hpart) as H. by rewrite Ecl in H.
    - destruct in_data as [d|]; [|done]. split; [done|exact Hdat].
    - destruct subkey as [k|]; [apply Hgs|done]. }
  destruct (request_opens fuel (Z.land opts AP_OPTS_WIRE_MASK) tkt auth scratch ed (cd_keyblock creds) junk w1 wc' outbuf part
              Hwa Hwt (conj Hs Hfu) Hck HW1 EA EH ER) as (EI & EDr & EDa).
  set (req := ApReq _ _ _) in *.
  destruct (rd_req_accepts fuel cxs kt req server tkt part (cd_keyblock creds) cname auth ws) as (ws' & E & R); try done.
  { pose proof (wf_etp_client _ Hpart) as H. by rewrite Ecl in H. }
  exists ws'. split; [|by destruct R as (R1 & R2 & R3 & R4)].
  unfold krb5_rd_req. rewrite (run_pure _ true) by done. cbn [negb]. rewrite (run_pure _ req), run_get by by rewrite EDr.
  destruct (ac_rcache (w_ac ws)) as [t|]; [by rewrite run_ret|]. rewrite Hrc by done. rewrite run_ret. by rewrite Hrc in E by done.
Qed.

(** The reply of a server convinces the client whose request it answers, which then has
    the server's sequence number and subkey; a client whose request had another time
    refuses it with KRB5_MUTUAL_FAILED and keeps its state. *)
Theorem ap_rep_agrees fuel junk key auth auth' ws outbuf ws' wc :
  ac_keyblock (w_ac ws) = Some key -> good_key key -> ac_authentp (w_ac ws) = Some auth -> prng_wf (w_prng ws) ->
  is_int 32 (ac_local_seq_number (w_ac ws)) -> wf_time (at_ctime auth) -> is_int 32 (at_cusec auth) -> good_subkey (at_subkey auth) ->
  krb5_mk_rep junk ws = (Ok outbuf, ws') ->
  let part := reply_part auth ws' in
  zlen (der_ap_rep_enc_part part) + 400 + STANDARD_INCREMENT <= code_limit -> zlen (der_ap_rep_enc_part part) + 400 <= Z.of_nat fuel ->
  ac_keyblock (w_ac wc) = Some key -> ac_authentp (w_ac wc) = Some auth' ->
  if (at_ctime auth' =? at_ctime auth) && (at_cusec auth' =? at_cusec auth)
  then exists wc', krb5_rd_rep fuel outbuf wc = (Ok part, wc') /\
         ac_remote_seq_number (w_ac wc') = ac_local_seq_number (w_ac ws') /\
         ac_remote_subkey (w_ac wc') = match at_subkey auth with Some k => Some k | None => ac_remote_subkey (w_ac wc) end
  else krb5_rd_rep fuel outbuf wc = (Err KRB5_MUTUAL_FAILED, wc).
Proof.
  intros EK Hk EA HW Hs Ht Hu Hsub EM part Hlim Hfu EKc EAc.
  destruct (mk_rep_opens fuel junk key auth ws outbuf ws' EK Hk EA HW Hs Ht Hu) as (EI & reply & scratch & iv & ED & EC & EP); [|done..|].
  { destruct (at_subkey auth) as [k|]; [apply Hsub|done]. }
  unfold krb5_rd_rep. rewrite (run_pure _ true) by done. cbn [negb]. rewrite (run_pure _ reply), run_get, EKc, (run_pure _ key) by done.
  rewrite (run_pure _ (scratch, iv)), (run_pure _ part), EAc, (run_pure _ auth') by (done || by rewrite EP).
  cbn [part reply_part ae_ctime ae_cusec ae_subkey ae_seq_number]. rewrite (Z.eqb_sym (at_ctime auth)), (Z.eqb_sym (at_cusec auth)).
  destruct (at_ctime auth' =? at_ctime auth); [|done]. destruct (at_cusec auth' =? at_cusec auth); [|done]. cbn [negb orb andb].
  destruct (at_subkey auth) as [k|] eqn:ES; [|by eexists]. destruct Hsub as [Hg HL]. unfold pbind. rewrite (copy_good k Hg HL). by eexists.
Qed.

(** If the decrypted part of a reply cannot be decoded, krb5_rd_rep goes on to read the
    structure that the decoder has freed. *)
Theorem rd_rep_reads_freed fuel inbuf w key reply scratch iv e :
  is_message 15 inbuf = Ok true -> decode_krb5_ap_rep fuel (Some inbuf) = Ok reply -> ac_keyblock (w_ac w) = Some key ->
  decrypt_scratch key KRB5_KEYUSAGE_AP_REP_ENCPART None (ap_enc_part reply) = Ok (scratch, iv) ->
  decode_krb5_ap_rep_enc_part fuel (Some scratch) = Err e -> (krb5_rd_rep fuel inbuf w).1 = Undefined.
Proof.
  intros EI ED EK EC EP. unfold krb5_rd_rep. rewrite (run_pure _ true) by done. cbn [negb].
  rewrite (run_pure _ reply), run_get, EK, (run_pure _ key), (run_pure _ (scratch, iv)) by done. by rewrite EP.
Qed.

(** If no subkey can be made, the context keeps a pointer to storage that
    krb5_generate_subkey has freed, and krb5_auth_con_free frees it again. *)
Theorem mk_req_subkey_freed_twice key w k e :
  key_of key = Ok k -> (krb5_c_make_random_key (krb5_c_random_seed (w_prng w) (key_contents k)) (kb_enctype key)).1 = Err e ->
  let '(r, w') := krb5_generate_subkey key w in r = Err e /\ krb5_auth_con_free (w_ac w') = Undefined.
Proof.
  intros EK ER. unfold krb5_generate_subkey. rewrite EK. destruct (krb5_c_make_random_key _ _) as [r st]. cbn [fst] in ER. by rewrite ER.
Qed.
End agreement.
