(* ===== verification/SafePrivProofs.v ===== *)
(** * Messages of an application arrive (SafePriv.v)

    What [krb5_mk_priv] and [krb5_mk_safe] make, [krb5_rd_priv] and [krb5_rd_safe] read at
    the other end, in a channel of any number of messages; with sequence numbers, nothing
    else is accepted in their place.  [Transport] is what the two kinds of messages promise
    to the channel. *)

From S2P Require Import Prelude CString Asn1Buf GmTime Krb5Types Asn1KEncode Asn1KDecode Krb5Encode Krb5Decode PrincName PrincNameProofs.
From S2P Require Import Words RcDfl Crypto CryptoApi CryptoProofs CryptoEnc CryptoKeys AuthCon ApExch SafePriv RcDflProofs ApReplay.
From S2P Require Import Asn1Prim Der Codec CodecRead CodecPrim CodecTypes CodecKdc CodecMsg ApExchProofs.

(** ** Sizes *)

Section sizes.
Context `{P : Platform}.

Lemma time_size t : wf_time t -> zlen (der_time t) <= 21.
Proof.
  intros Ht. destruct (wf_time_gmtime t Ht) as (g & E & Hok & _). destruct (generaltime_parse g Hok) as (Hl & _).
  unfold der_time, time_string. rewrite E. pose proof (tlv_size 0x18 (sprintf_generaltime g)). lia.
Qed.

Lemma typed_size t d : zlen (der_typed t d) <= zlen (bytes d) + 45.
Proof.
  unfold der_typed, der_seq. etransitivity; [apply tlv_size|]. flat_sizes. pose proof (integer_size (long t)).
  pose proof (tlv_size 0x04 (bytes d)). unfold der_octetstring in *. lia.
Qed.

Definition addr_size (a : option krb5_address) : Z := match a with Some a => zlen (bytes (ad_contents a)) | None => 0 end.

Lemma of_addr_size a : zlen (of_opt der_address a) <= addr_size a + 45.
Proof. destruct a as [a|]; [apply typed_size|]. unfold of_opt, addr_size. rewrite zlen_nil. lia. Qed.

Lemma priv_part_size v : wf_time (pe_timestamp v) ->
  zlen (der_enc_priv_part v) <= zlen (bytes (d_data (pe_user_data v))) + addr_size (pe_s_address v) + addr_size (pe_r_address v) + 250.
Proof.
  intros Ht. unfold der_enc_priv_part, der_app, der_seq. etransitivity; [apply tlv_size|].
  match goal with |- context [der_tlv 48 ?c] => pose proof (tlv_size 48 c) end. flat_sizes.
  pose proof (time_size _ Ht). pose proof (integer_size (long (pe_usec v))). pose proof (integer_size (long (pe_seq_number v))).
  pose proof (of_addr_size (pe_s_address v)). pose proof (of_addr_size (pe_r_address v)).
  pose proof (tlv_size 0x04 (bytes (d_data (pe_user_data v)))). unfold der_octetstring in *. lia.
Qed.

Lemma priv_size v : zlen (der_priv v) <= zlen (bytes (d_data (ed_ciphertext (pv_enc_part v)))) + 150.
Proof.
  unfold der_priv, der_app, der_seq. etransitivity; [apply tlv_size|].
  match goal with |- context [der_tlv 48 ?c] => pose proof (tlv_size 48 c) end. flat_sizes.
  pose proof (integer_size KVNO). pose proof (integer_size ASN1_KRB_PRIV). pose proof (enc_data_size (pv_enc_part v)). lia.
Qed.

Lemma safe_size v ck : wf_time (sf_timestamp v) -> sf_checksum v = Some ck ->
  zlen (der_safe v) <= zlen (bytes (d_data (sf_user_data v))) + addr_size (sf_s_address v) + addr_size (sf_r_address v) + zlen (bytes (ck_contents ck)) + 400.
Proof.
  intros Ht Ek. unfold der_safe, der_app, der_seq. rewrite Ek. cbn [of_opt]. etransitivity; [apply tlv_size|].
  match goal with |- context [der_tlv 48 ?c] => pose proof (tlv_size 48 c) end. flat_sizes.
  assert (zlen (der_safe_body v) <= zlen (bytes (d_data (sf_user_data v))) + addr_size (sf_s_address v) + addr_size (sf_r_address v) + 250).
  { unfold der_safe_body, der_seq. etransitivity; [apply tlv_size|]. flat_sizes.
    pose proof (time_size _ Ht). pose proof (integer_size (long (sf_usec v))). pose proof (integer_size (long (sf_seq_number v))).
    pose proof (of_addr_size (sf_s_address v)). pose proof (of_addr_size (sf_r_address v)).
    pose proof (tlv_size 0x04 (bytes (d_data (sf_user_data v)))). unfold der_octetstring in *. lia. }
  pose proof (integer_size KVNO). pose proof (integer_size ASN1_KRB_SAFE). pose proof (typed_size (ck_checksum_type ck) (ck_contents ck)).
  unfold der_checksum in *. lia.
Qed.

End sizes.

(** ** The initial vector *)

(** A block stands at i_vector. *)
Definition ivec_ok (iv : option (list octet)) : Prop := match iv with Some mem => octets mem /\ 8 <= zlen mem | None => True end.

Section ivec.
Context `{St : Stack}.

Lemma ivec_block_ok etype iv : ivec_ok iv -> valid_enctype etype = true ->
  ivec_block etype iv = Ok (take 8 <$> iv) /\ octets_opt (take 8 <$> iv).
Proof.
  intros Hiv Hv. destruct iv as [mem|]; [|done]. destruct Hiv as [Ho Hl]. unfold ivec_block, krb5_c_block_size.
  unfold valid_enctype in Hv. destruct (find_enctype etype) as [kt|]; [|done]. rewrite enc_block_8. cbn [obind fmap option_fmap option_map].
  unfold octets_at. rewrite (contents_ok _ (take 8 mem)); [split; [done|by apply Forall_take]|].
  split; cbn [d_length d_data]; [unfold zlen in *; rewrite length_take; lia|]. exists (drop 8 mem). by rewrite take_drop.
Qed.

Lemma store_ivec_ok iv iv1 : ivec_ok iv -> octets_opt iv1 -> length <$> iv1 = length <$> (take 8 <$> iv) -> ivec_ok (store_ivec iv1 iv).
Proof.
  destruct iv as [mem|]; [|done]. intros [Ho Hl] O1. destruct iv1 as [b|]; [|done]. cbn. intros [= El]. rewrite length_take in El.
  split; [apply Forall_app; split; [done|by apply Forall_drop]|]. rewrite zlen_app. unfold zlen in *. rewrite length_drop. lia.
Qed.
End ivec.

(** ** Addresses *)

Lemma address_compare_refl a : wf_address a -> krb5_address_compare a a = Ok true.
Proof.
  intros [_ Hc _]. unfold krb5_address_compare. rewrite !Z.eqb_refl. cbn [negb]. rewrite (octets_at_wf _ _ Hc). cbn [obind].
  by rewrite bool_decide_eq_true_2.
Qed.

(** A message with the receiver's address [r] reaches a receiver with the address [l]. *)
Definition reaches (cx : krb5_context) (r l : option krb5_address) : Prop :=
  match r with
  | None => True
  | Some a => wf_address a /\
      match l with
      | Some l => l = a
      | None => exists addrs, cx_localaddr cx = Ok addrs /\ address_in a addrs = Ok true
      end
  end.

Lemma addresses_checked cx s r l : wf_address s -> reaches cx r l -> check_addresses cx l (Some s) (Some s) r = Ok tt.
Proof.
  intros Hs Hr. unfold check_addresses. cbn [deref obind]. rewrite (address_compare_refl s Hs). cbn [obind negb].
  destruct r as [a|]; [|done]. destruct Hr as [Ha Hl]. destruct l as [l|].
  - subst l. by rewrite (address_compare_refl a Ha).
  - destruct Hl as (addrs & -> & HI). cbn [obind krb5_address_search]. by rewrite HI.
Qed.

(** ** One message *)

Section message.
Context `{P : Platform} `{St : Stack} (fuel : nat) (cx : krb5_context).

(** The parts of a message, which can be encoded and decoded. *)
Record sendable (ud : krb5_data) (rd : krb5_replay_data) (s : krb5_address) (r : option krb5_address) : Prop := {
  snd_data : wf_data ud;
  snd_time : wf_time (rd_timestamp rd) /\ is_int 32 (rd_usec rd) /\ (rd_timestamp rd = 0 -> rd_usec rd = 0);
  snd_seq : is_int 32 (rd_seq rd);
  snd_addrs : wf_address s /\ opt_wf wf_address r;
  snd_size : let n := d_length ud + addr_size (Some s) + addr_size r + 700 in n + STANDARD_INCREMENT <= code_limit /\ n <= Z.of_nat fuel
}.

Lemma code_is_message tag rest : is_message tag (code_of (0x60 + tag :: rest)) = Ok true.
Proof.
  unfold is_message, code_of. cbn [d_length d_data]. destruct (Z.eqb_spec (zlen (0x60 + tag :: rest)) 0) as [E|_]; [by apply zlen_0_nil in E|].
  unfold octets_at. rewrite (contents_ok _ [0x60 + tag]) by (split; [done|by exists (rest ++ [0])]). cbn [obind]. by rewrite bool_decide_eq_true_2.
Qed.

Lemma priv_opens ud key rd s r iv w outbuf w' l wr :
  sendable ud rd s r -> good_key key -> prng_wf (w_prng w) -> ivec_ok iv -> reaches cx r l ->
  krb5_mk_priv_basic ud key rd (Some s) r iv w = (Ok outbuf, w') ->
  exists iv', ivec_ok iv' /\ prng_wf (w_prng w') /\ w_fs w' = w_fs w /\ w_ac w' = set_i_vector iv' (w_ac w) /\
    krb5_rd_priv_basic fuel cx outbuf (Ok key) l (Some s) iv wr = (Ok (ud, rd), with_ac wr (set_i_vector iv' (w_ac wr))).
Proof.
  intros [Hd (Ht & Hu & Hn0) Hq [Hs Hr] [Hm Hf]] Hk HW Hiv Hre E. unfold krb5_mk_priv_basic in E.
  set (part := PrivEncPart _ _ _ _ _ _) in E. assert (Hwp : wf_priv_enc_part part) by by split.
  pose proof (priv_part_size part Ht) as Hz. cbn [part pe_user_data pe_s_address pe_r_address] in Hz.
  assert (Ez : zlen (bytes (d_data ud)) = d_length ud) by (destruct Hd as (-> & _); done). rewrite Ez in Hz.
  unfold code_limit, STANDARD_INCREMENT in Hm. set (bs := der_enc_priv_part part) in *.
  assert (Hfp : fits bs) by (unfold fits, code_limit, STANDARD_INCREMENT; lia).
  destruct (message_encode (Message := enc_priv_part_message) part Hwp Hfp) as [EE OE]. fold bs in EE, OE.
  apply pbind_ok in E as (scratch & w1 & H & E). inv_step H. rewrite EE in H. injection H as <-.
  apply pbind_ok in E as (enclen & w1 & H & E). inv_step H. change (d_length (code_of bs)) with (zlen bs) in H.
  assert (He : 0 <= enclen <= zlen bs + 160) by (apply (encrypt_length_bound _ _ _ (zlen_nonneg bs) H)).
  assert (Hmal : 0 <= enclen <= malloc_limit) by lia. destruct (malloc_ok enclen Hmal) as (blk & EB & _). rewrite EB in E.
  assert (HV : valid_enctype (kb_enctype key) = true).
  { unfold valid_enctype. unfold krb5_c_encrypt_length in H. destruct (find_enctype _); [done|discriminate]. }
  destruct (ivec_block_ok _ _ Hiv HV) as [EI OI]. destruct (key_of_good key Hk) as [EK OK]. rewrite EI, EK, code_contents in E.
  inv_proc E. injection H0 as <-. injection H1 as <-. injection H2 as <-. destruct x2 as [ed iv1]. unfold with_prng in H3.
  destruct (krb5_c_encrypt (w_prng w) _ _ _ _ _) as [r0 st'] eqn:EC. injection H3 as -> <-.
  rewrite run_modify in E. apply pure_ok in E as [E ->].
  assert (HL : zlen bs < 2 ^ 32) by lia.
  destruct (krb5_c_encrypt_ok _ _ _ _ _ _ _ _ _ HW OK OI OE HL EC) as ((Et & Oc & Lc & HW' & Oi & Li) & pad & Hp & ED).
  assert (Hwe : wf_enc_data (EncData ed.1 0 (Data (zlen ed.2) (Some ed.2)))).
  { split; cbn; [rewrite Et; apply Hk|done|]. split_and!; [done|done|]. cbn. destruct ed as [e0 [|o c]]; [|done].
    exfalso. cbn [snd] in Lc. rewrite zlen_nil in Lc. assert (zlen bs <> 0) by (intros ?%zlen_0_nil; done). pose proof (zlen_nonneg bs). lia. }
  set (msg := Priv _) in *. pose proof (priv_size msg) as Hzm. cbn [msg pv_enc_part ed_ciphertext d_data] in Hzm. change (bytes (Some ed.2)) with ed.2 in Hzm.
  destruct (message_roundtrip _ _ _ _ msg fuel priv_message Hwe) as [ER EP];
    [unfold fits, code_limit, STANDARD_INCREMENT; lia|unfold zlen in *; lia|].
  rewrite ER in E. injection E as <-. exists (store_ivec iv1 iv). split; [by apply store_ivec_ok|]. do 3 (split; [done|]).
  unfold krb5_rd_priv_basic. rewrite (run_pure _ true) by apply (code_is_message 21). cbn [negb].
  rewrite (run_pure _ msg) by done. rewrite (run_pure _ key) by done. rewrite (run_pure _ _ _ _ EI).
  unfold decrypt_scratch. cbn [msg pv_enc_part ed_ciphertext ed_enctype d_length].
  destruct (malloc_ok (zlen ed.2)) as (b & -> & _); [pose proof (zlen_nonneg ed.2); lia|]. rewrite EK. cbn [obind].
  rewrite (contents_ok _ ed.2) by (split; [done|]; exists []; by rewrite app_nil_r). cbn [obind].
  rewrite <- (surjective_pairing ed), ED. cbn [obind]. rewrite (run_pure _ _ _ _ eq_refl), run_modify.
  rewrite (run_pure _ part) by (apply (message_decode (Message := enc_priv_part_message)); [done|done|fold bs; unfold zlen in *; lia|fold bs; rewrite zlen_app; pose proof (zlen_nonneg (zeros pad)); lia]).
  rewrite (run_pure _ tt) by (by apply addresses_checked). by destruct rd.
Qed.

Lemma appropriate_int t : appropriate_cksum t = Ok tt -> is_int 32 t.
Proof.
  unfold appropriate_cksum, valid_cksumtype. destruct (find_cksumtype t) as [ct|] eqn:EF; [|done]. intros _.
  apply List.find_some in EF as [HI <-%Z.eqb_eq]. by repeat destruct HI as [<-|HI].
Qed.

Definition with_st (w : world) (st : prng) : world := World (w_sec w) (w_usec w) st (w_fs w) (w_ac w).

Lemma safe_opens valid ud key rd s r sumtype w outbuf w' l wr :
  sendable ud rd s r -> good_key key -> prng_wf (w_prng w) -> reaches cx r l ->
  krb5_mk_safe_basic ud key rd (Some s) r sumtype w = (Ok outbuf, w') ->
  exists st1 st2, prng_wf st1 /\ w' = with_st w st1 /\
    krb5_rd_safe_basic fuel cx valid outbuf (Ok key) l (Some s) wr = (Ok (ud, rd), with_st wr st2).
Proof.
  intros [Hd (Ht & Hu & Hn0) Hq [Hs Hr] [Hm Hf]] Hk HW Hre E. unfold krb5_mk_safe_basic in E. cbv zeta in E.
  destruct (key_of_good key Hk) as [EK OK]. rewrite EK in E. inv_proc E. destruct x. injection H1 as <-.
  unfold with_prng in H3. destruct (krb5_c_make_checksum (w_prng w) _ _ _ _) as [r0 st1] eqn:EC. injection H3 as -> <-.
  destruct (made_checksum_ok _ (w_prng wr) _ _ _ _ _ _ HW OK EC) as ((Oc & Lc & HW1) & st2 & EV).
  set (ck := Checksum sumtype (zlen x3) (Some x3)) in *. set (msg := Safe _ _ _ _ _ _ (Some ck)) in *.
  assert (Ecan : Some x3 = canon x3) by (destruct x3; [by destruct Lc|done]).
  assert (Hck : wf_checksum ck) by (split; [by apply appropriate_int|by split_and!]).
  assert (Hwm : wf_safe msg) by by split.
  pose proof (safe_size msg ck Ht eq_refl) as Hz. cbn [msg sf_user_data sf_s_address sf_r_address ck ck_contents] in Hz.
  change (bytes (Some x3)) with x3 in Hz.
  assert (Ez : zlen (bytes (d_data ud)) = d_length ud) by (destruct Hd as (-> & _); done). rewrite Ez in Hz.
  unfold code_limit, STANDARD_INCREMENT in Hm.
  destruct (message_roundtrip _ _ _ _ msg fuel safe_message Hwm) as [ER EP];
    [unfold fits, code_limit, STANDARD_INCREMENT; lia|unfold zlen in *; lia|].
  rewrite ER in E. injection E as <-. exists st1, st2. split; [done|]. split; [done|].
  unfold krb5_rd_safe_basic. rewrite (run_pure _ true) by apply (code_is_message 20). cbn [negb].
  rewrite (run_pure _ msg) by done. rewrite (run_pure _ ck) by done. rewrite (run_pure _ tt) by done.
  rewrite (run_pure _ tt) by (by apply addresses_checked). rewrite (run_pure _ _ _ _ H0), (run_pure _ key) by done.
  rewrite (run_pure _ _ _ _ EK), (run_pure _ _ _ _ H2), (run_pure _ x3) by (apply (octets_at_wf (zlen x3) (Some x3)), Hck).
  cbn [ck ck_checksum_type]. rewrite (run_step _ true (with_st wr st2)) by (unfold with_prng; by rewrite EV). by destruct rd.
Qed.
End message.

(** ** A channel *)

(** The messages carry a sequence number and no time. *)
Definition sequence_only (ac : auth_context) : Prop :=
  has_flag (ac_flags ac) KRB5_AUTH_CONTEXT_DO_SEQUENCE = true /\ has_flag (ac_flags ac) KRB5_AUTH_CONTEXT_DO_TIME = false /\
  returns_data ac = false.

Lemma sequence_only_uses ac : sequence_only ac -> uses_sequence ac = true /\ uses_time ac = false.
Proof.
  unfold sequence_only, returns_data, uses_sequence, uses_time, any_flag. intros (E1 & E2 & E3). apply orb_false_iff in E3 as [E3 _].
  by rewrite E1, E2, E3.
Qed.

Section channel.
Context `{P : Platform} `{St : Stack} (fuel : nat) (cx : krb5_context) (s : krb5_address) (r : option krb5_address).

(** The two ends of a channel: the next message of the one is the one that the other
    expects, both use the same key and initial vector, and messages with the sender's
    address [s] and the receiver's [r] reach the receiver. *)
Record peers (acs acr : auth_context) : Prop := {
  peer_flags : sequence_only acs /\ sequence_only acr;
  peer_seq : ac_remote_seq_number acr = ac_local_seq_number acs;
  peer_int : is_int 32 (ac_local_seq_number acs);
  peer_key : exists key, send_key acs = Ok key /\ receive_key acr = Ok key /\ good_key key;
  peer_local : local_fulladdr acs = Ok (Some s) /\ remote_fulladdr acr = Ok (Some s) /\ wf_address s;
  peer_remote : remote_fulladdr acs = Ok r /\ exists l, local_fulladdr acr = Ok l /\ reaches cx r l;
  peer_ivec : ac_i_vector acr = ac_i_vector acs /\ ivec_ok (ac_i_vector acs)
}.

(** Data that can be sent in one message. *)
Definition data_ok (ud : krb5_data) : Prop :=
  wf_data ud /\ let n := d_length ud + addr_size (Some s) + addr_size r + 700 in n + STANDARD_INCREMENT <= code_limit /\ n <= Z.of_nat fuel.

(** What a kind of message promises: data sent by one end is received at the other, and
    the ends stay in step. *)
Class Transport (send : krb5_data -> proc (krb5_data * option krb5_replay_data))
    (receive : krb5_data -> proc (krb5_data * option krb5_replay_data)) : Prop := {
  delivers ud ws buf ws' wr : peers (w_ac ws) (w_ac wr) -> prng_wf (w_prng ws) -> data_ok ud -> send ud ws = (Ok buf, ws') ->
    exists wr', receive buf.1 wr = (Ok (ud, None), wr') /\ peers (w_ac ws') (w_ac wr') /\ prng_wf (w_prng ws')
}.

(** Messages that are sent, or received, one after the other. *)
Fixpoint run_all (call : krb5_data -> proc (krb5_data * option krb5_replay_data)) (ds : list krb5_data) : proc (list krb5_data) :=
  match ds with
  | [] => ret []
  | d :: ds => do* '(b, _) := call d in do* bs := run_all call ds in ret (b :: bs)
  end.

Lemma channel send receive `{T : !Transport send receive} uds : forall ws bufs ws' wr,
  peers (w_ac ws) (w_ac wr) -> prng_wf (w_prng ws) -> Forall data_ok uds -> run_all send uds ws = (Ok bufs, ws') ->
  exists wr', run_all receive bufs wr = (Ok uds, wr') /\ peers (w_ac ws') (w_ac wr').
Proof.
  induction uds as [|ud uds IH]; intros ws bufs ws' wr HP HW HF E; cbn [run_all] in E; [injection E as <- <-; by exists wr|].
  apply Forall_cons_1 in HF as [Hd HF]. apply pbind_ok in E as ([b o] & w1 & H & E). apply pbind_ok in E as (bs & w2 & H1 & E). inv_step E.
  destruct (delivers ud ws (b, o) w1 wr HP HW Hd H) as (wr1 & ER & HP1 & HW1).
  destruct (IH w1 bs w2 wr1 HP1 HW1 HF H1) as (wr2 & ER2 & HP2). exists wr2. split; [|done]. cbn [run_all fst] in *.
  by rewrite (run_step _ (ud, None) wr1), (run_step _ uds wr2).
Qed.

Lemma on_error_ok {A} (m : proc A) h w a w' : on_error m h w = (Ok a, w') -> m w = (Ok a, w').
Proof.
  unfold on_error. destruct (m w) as [[x|e| |] w1]; try done. unfold pbind, pure. by destruct (h w1) as [[]].
Qed.

Lemma replay_info_ok w b : sequence_only (w_ac w) -> check_replay_info b w = (Ok tt, w).
Proof. intros (E1 & E2 & E3). unfold check_replay_info. rewrite run_get, E2, E3. done. Qed.

(** The first half of a call that sends. *)
Lemma send_start w : sequence_only (w_ac w) -> message_time w = (Ok (0, 0), w).
Proof. intros HS. unfold message_time. rewrite run_get. by rewrite (proj2 (sequence_only_uses _ HS)). Qed.

Lemma iplus_ok n k : iplus n 1 = Ok k -> k = n + 1 /\ is_int 32 k.
Proof. unfold iplus. case_bool_decide; [|done]. by intros [= <-]. Qed.

(** The second half of a call that receives. *)
Lemma received_next uniq rd w : sequence_only (w_ac w) -> ac_remote_seq_number (w_ac w) = rd_seq rd -> is_int 32 (rd_seq rd + 1) ->
  received cx uniq rd w = (Ok None, with_ac w (set_remote_seq (rd_seq rd + 1) (w_ac w))).
Proof.
  intros (E1 & E2 & E3) E Hi. unfold received. rewrite run_get, E2, run_ret, E1, E, Z.eqb_refl. cbn [negb]. unfold iplus.
  rewrite bool_decide_eq_true_2 by done. by rewrite E3.
Qed.

Lemma sendable_next ud n : data_ok ud -> is_int 32 n -> wf_address s -> opt_wf wf_address r -> sendable fuel ud (ReplayData 0 0 n) s r.
Proof. intros [Hd HZ] Hn Hs Hr. by split. Qed.

Lemma reaches_wf l : reaches cx r l -> opt_wf wf_address r.
Proof. destruct r; [|done]. by intros [? _]. Qed.

(** Both ends after a message. *)
Definition sent (iv : option (list octet)) (ac : auth_context) : auth_context :=
  set_i_vector iv (set_local_seq (ac_local_seq_number ac + 1) ac).
Definition got (iv : option (list octet)) (ac : auth_context) : auth_context :=
  set_remote_seq (ac_remote_seq_number ac + 1) (set_i_vector iv ac).

Lemma peers_next acs acr iv : peers acs acr -> ivec_ok iv -> is_int 32 (ac_local_seq_number acs + 1) -> peers (sent iv acs) (got iv acr).
Proof.
  intros [H1 H2 _ H3 H4 H5 _] Hiv Hi. unfold sent, got, set_remote_seq, set_local_seq. split; try done. cbn. by rewrite H2.
Qed.

(** A call that receives, from what [krb5_rd_safe_basic] or [krb5_rd_priv_basic] returns. *)
Lemma receives uniq (basic : auth_context -> option krb5_address -> option krb5_address -> proc (krb5_data * krb5_replay_data)) ud iv acs wr wr1 l :
  peers acs (w_ac wr) -> is_int 32 (ac_local_seq_number acs + 1) -> local_fulladdr (w_ac wr) = Ok l ->
  basic (w_ac wr) l (Some s) wr = (Ok (ud, ReplayData 0 0 (ac_local_seq_number acs)), wr1) -> w_ac wr1 = set_i_vector iv (w_ac wr) ->
  exists wr', (do* _ := check_replay_info false in
               do* ac := get_ac in
               do* l := pure (local_fulladdr ac) in
               do* r := pure (remote_fulladdr ac) in
               do* '(outbuf, rd) := basic ac l r in
               do* out := received cx uniq rd in
               ret (outbuf, out)) wr = (Ok (ud, None), wr') /\ w_ac wr' = got iv (w_ac wr).
Proof.
  intros [[HS HR] Hq _ _ (_ & Er & _) _ _] Hi El EB EA. rewrite (run_step _ tt wr), run_get by (by apply replay_info_ok).
  rewrite El, Er. do 2 rewrite (run_pure _ _ _ _ eq_refl). rewrite (run_step _ _ _ _ _ EB).
  rewrite (run_step _ _ _ _ _ (received_next uniq (ReplayData 0 0 (ac_local_seq_number acs)) wr1 ltac:(by rewrite EA) ltac:(by rewrite EA) Hi)).
  eexists. split; [done|]. cbn [with_ac w_ac rd_seq]. rewrite EA. unfold got. by rewrite Hq.
Qed.

#[global] Instance priv_transport cxs : Transport (fun ud => krb5_mk_priv cxs ud None) (fun buf => krb5_rd_priv fuel cx buf false).
Proof.
  split. intros ud ws buf ws' wr HP HW Hd E.
  pose proof HP as [[HS HR] Hq Hi (key & EK & EKr & Hk) (El & Er & Hs) (Er2 & l & El2 & Hl) [EI Hiv]].
  destruct (sequence_only_uses _ HS) as [Hus Hut]. unfold krb5_mk_priv in E.
  rewrite (run_step _ tt ws) in E by (by apply replay_info_ok). rewrite (run_step _ (0, 0) ws), run_get in E by (by apply send_start).
  cbv zeta in E. rewrite Hus, (proj1 HS) in E. apply pbind_ok in E as ([] & w1 & H & E). apply pbind_ok in H as (k & w2 & H & H1).
  inv_step H. apply iplus_ok in H as [-> Hi']. inv_step H1. apply pbind_ok in E as (outbuf & w2 & H & E). inv_step E.
  apply on_error_ok in H. rewrite El, Er2, EK in H. do 3 rewrite (run_pure _ _ _ _ eq_refl) in H.
  rewrite (proj1 (proj2 HS)) in H. apply pbind_ok in H as (ob & w3 & H & H1). inv_proc H1.
  destruct (priv_opens fuel cx ud key _ s r _ (with_ac ws (set_local_seq (ac_local_seq_number (w_ac ws) + 1) (w_ac ws))) _ _ l wr (sendable_next ud _ Hd Hi Hs (reaches_wf l Hl)) Hk HW Hiv Hl H)
    as (iv & Hiv' & HW' & _ & EA & EO). rewrite <- EI, <- EKr in EO.
  destruct (receives PRIV_NAME (fun ac l r => krb5_rd_priv_basic fuel cx ob (receive_key ac) l r (ac_i_vector ac)) ud iv
              (w_ac ws) wr _ l HP Hi' El2 EO eq_refl) as (wr' & ER & EA').
  exists wr'. split; [exact ER|]. split; [|done]. rewrite EA, EA'. by apply peers_next.
Qed.

Lemma keep_ivec ac : set_i_vector (ac_i_vector ac) ac = ac.
Proof. by destruct ac. Qed.

#[global] Instance safe_transport cxs valid : Transport (fun ud => krb5_mk_safe cxs ud None) (fun buf => krb5_rd_safe fuel cx valid buf false).
Proof.
  split. intros ud ws buf ws' wr HP HW Hd E.
  pose proof HP as [[HS HR] Hq Hi (key & EK & EKr & Hk) (El & Er & Hs) (Er2 & l & El2 & Hl) [EI Hiv]].
  destruct (sequence_only_uses _ HS) as [Hus Hut]. unfold krb5_mk_safe in E.
  rewrite (run_step _ tt ws) in E by (by apply replay_info_ok). rewrite (run_step _ (0, 0) ws), run_get in E by (by apply send_start).
  cbv zeta in E. rewrite Hus in E. apply pbind_ok in E as ([] & w1 & H & E). apply pbind_ok in H as (k & w2 & H & H1).
  inv_step H. apply iplus_ok in H as [-> Hi']. inv_step H1. apply pbind_ok in E as (outbuf & w2 & H & E). inv_step E.
  apply on_error_ok in H. rewrite El, Er2, EK in H. do 3 rewrite (run_pure _ _ _ _ eq_refl) in H.
  apply pbind_ok in H as (t & w3 & H1 & H). inv_step H1.
  rewrite (proj1 (proj2 HS)) in H. apply pbind_ok in H as (ob & w3 & H & H2). inv_proc H2.
  destruct (safe_opens fuel cx valid ud key _ s r _ (with_ac ws (set_local_seq (ac_local_seq_number (w_ac ws) + 1) (w_ac ws))) _ _ l wr (sendable_next ud _ Hd Hi Hs (reaches_wf l Hl)) Hk HW Hl H)
    as (st1 & st2 & HW' & -> & EO). rewrite <- EKr in EO.
  destruct (receives SAFE_NAME (fun ac l r => krb5_rd_safe_basic fuel cx valid ob (receive_key ac) l r) ud (ac_i_vector (w_ac wr))
              (w_ac ws) wr _ l HP Hi' El2 EO) as (wr' & ER & EA'); [by rewrite keep_ivec|].
  exists wr'. split; [exact ER|]. split; [|done]. rewrite EA', EI. cbn [with_st w_ac].
  rewrite <- (keep_ivec (set_local_seq _ _)). by apply peers_next.
Qed.
End channel.

(** ** The messages that are accepted *)

(** Computations that do not change [f] of the context. *)
Definition stays {A B} (f : auth_context -> B) (m : proc A) : Prop := forall w, f (w_ac (m w).2) = f (w_ac w).

Lemma stays_bind {A B C} (f : auth_context -> C) (m : proc A) (k : A -> proc B) : stays f m -> (forall a, stays f (k a)) -> stays f (pbind m k).
Proof.
  intros Hm Hk w. unfold pbind. specialize (Hm w). destruct (m w) as [[a|e| |] w1]; cbn [snd] in *; try done.
  by rewrite (Hk a w1).
Qed.
Lemma stays_pure {A B} (f : auth_context -> B) (r : outcome error_code A) : stays f (pure r).
Proof. by intros w. Qed.
Lemma stays_ret {A B} (f : auth_context -> B) (a : A) : stays f (ret a).
Proof. by intros w. Qed.
Lemma stays_get {B} (f : auth_context -> B) : stays f get_ac.
Proof. by intros w. Qed.
Lemma stays_modify {B} (f : auth_context -> B) g : (forall ac, f (g ac) = f ac) -> stays f (modify_ac g).
Proof. intros H w. apply H. Qed.
Lemma stays_time {B} (f : auth_context -> B) : stays f krb5_timeofday.
Proof. by intros w. Qed.
Lemma stays_prng {A B} (f : auth_context -> B) (g : prng -> outcome error_code A * prng) : stays f (with_prng g).
Proof. intros w. unfold with_prng. by destruct (g (w_prng w)). Qed.

#[export] Hint Resolve stays_pure stays_ret stays_get stays_time stays_prng : krb.
#[export] Hint Extern 1 (stays _ (modify_ac _)) => (apply stays_modify; done) : krb.

Ltac stays := repeat first [solve [auto with krb nocore] | apply stays_bind; [|intros ?] | case_match].

(** What the acceptance of messages depends on. *)
Definition order_state (ac : auth_context) : Z * Z := (ac_flags ac, ac_remote_seq_number ac).

Section order.
Context `{P : Platform} `{St : Stack} (fuel : nat) (cx : krb5_context).

Lemma rc_store_stays rep : stays order_state (krb5_rc_store cx rep).
Proof. intros w. unfold krb5_rc_store. destruct (ac_rcache (w_ac w)) as [t|]; [|done]. by destruct (krb5_rc_dfl_store _ _ _ _ _ _) as [[]]. Qed.

Lemma rd_safe_basic_stays valid inbuf key l r : stays order_state (krb5_rd_safe_basic fuel cx valid inbuf key l r).
Proof. unfold krb5_rd_safe_basic. stays. Qed.

Lemma rd_priv_basic_stays inbuf key l r iv : stays order_state (krb5_rd_priv_basic fuel cx inbuf key l r iv).
Proof. unfold krb5_rd_priv_basic. stays. Qed.

(** With sequence numbers checked and returned. *)
Definition checks_order (flags : Z) : Prop :=
  has_flag flags KRB5_AUTH_CONTEXT_DO_SEQUENCE = true /\ has_flag flags KRB5_AUTH_CONTEXT_RET_SEQUENCE = true.

(** A call accepts the message with the next number, or leaves the state as it is. *)
Definition in_order (call : proc (krb5_data * option krb5_replay_data)) : Prop := forall w, checks_order (ac_flags (w_ac w)) ->
  match call w with
  | (Ok (_, Some rd), w') => rd_seq rd = ac_remote_seq_number (w_ac w) /\ order_state (w_ac w') = (ac_flags (w_ac w), rd_seq rd + 1)
  | (Ok (_, None), _) => False
  | (_, w') => order_state (w_ac w') = order_state (w_ac w)
  end.

Lemma in_order_bind {A} (m : proc A) k : stays order_state m -> (forall a, in_order (k a)) -> in_order (pbind m k).
Proof.
  intros Hm Hk w HC. unfold pbind. specialize (Hm w). destruct (m w) as [[a|e| |] w1]; cbn [snd] in *; try done.
  injection Hm as Ef Es. specialize (Hk a w1 ltac:(by rewrite Ef)). unfold order_state in *. by rewrite Ef, Es in Hk.
Qed.

Lemma received_in_order uniq rd outbuf : in_order (do* out := received cx uniq rd in ret (outbuf, out)).
Proof.
  intros w [H1 H2]. unfold received. rewrite pbind_run, run_get. set (ac := w_ac w).
  assert (HR : returns_data ac = true) by (unfold returns_data, any_flag; fold ac in H2; rewrite H2; apply orb_true_r).
  fold ac in H1. rewrite H1, HR.
  match goal with |- context [pbind ?m _ w] => assert (HS : stays order_state m); [|set (check := m) in *] end.
  { unfold store_message. pose proof rc_store_stays. stays. }
  specialize (HS w). rewrite pbind_run. destruct (check w) as [[[]|e| |] w1]; cbn [snd] in HS; [|exact HS..].
  destruct (Z.eqb_spec (ac_remote_seq_number ac) (rd_seq rd)) as [E|]; cbn [negb]; [|exact HS].
  unfold iplus. case_bool_decide; [|exact HS]. injection HS as Ef Es. cbn. unfold order_state. cbn. by rewrite Ef, E.
Qed.

Lemma rd_priv_in_order inbuf outdata : in_order (krb5_rd_priv fuel cx inbuf outdata).
Proof.
  unfold krb5_rd_priv. do 4 (apply in_order_bind; [solve [unfold check_replay_info; stays]|intros ?]).
  apply in_order_bind; [apply rd_priv_basic_stays|]. intros [outbuf rd]. apply received_in_order.
Qed.

Lemma rd_safe_in_order valid inbuf outdata : in_order (krb5_rd_safe fuel cx valid inbuf outdata).
Proof.
  unfold krb5_rd_safe. do 4 (apply in_order_bind; [solve [unfold check_replay_info; stays]|intros ?]).
  apply in_order_bind; [apply rd_safe_basic_stays|]. intros [outbuf rd]. apply received_in_order.
Qed.
End order.

(** A stream of inputs, each with the time at which it is read. *)
Fixpoint accepted_numbers (call : krb5_data -> proc (krb5_data * option krb5_replay_data)) (inputs : list (Z * Z * krb5_data)) (w : world)
    : list Z :=
  match inputs with
  | [] => []
  | (sec, usec, inbuf) :: inputs =>
      match call inbuf (World sec usec (w_prng w) (w_fs w) (w_ac w)) with
      | (Ok (_, Some rd), w) => rd_seq rd :: accepted_numbers call inputs w
      | (_, w) => accepted_numbers call inputs w
      end
  end.

Lemma numbers_in_order call inputs : (forall inbuf, in_order (call inbuf)) -> forall w, checks_order (ac_flags (w_ac w)) ->
  let l := accepted_numbers call inputs w in l = (fun i => ac_remote_seq_number (w_ac w) + Z.of_nat i) <$> seq 0 (length l).
Proof.
  intros HO. induction inputs as [|[[sec usec] inbuf] inputs IH]; intros w HC; [done|]. cbn [accepted_numbers].
  specialize (HO inbuf (World sec usec (w_prng w) (w_fs w) (w_ac w)) HC).
  destruct (call inbuf _) as [[[d [rd|]]|e| |] w'] eqn:E; cbv zeta; cbn [w_ac] in HO.
  - destruct HO as [Er Es]. injection Es as Ef Es. specialize (IH w' ltac:(by rewrite Ef)). cbv zeta in IH. cbn [length seq fmap list_fmap].
    f_equal; [lia|]. rewrite IH at 1. rewrite <- fmap_S_seq, <- list_fmap_compose. apply list_fmap_ext. intros ? i _. cbn. lia.
  - done.
  - injection HO as Ef Es. rewrite <- Es. apply IH. by rewrite Ef.
  - injection HO as Ef Es. rewrite <- Es. apply IH. by rewrite Ef.
  - injection HO as Ef Es. rewrite <- Es. apply IH. by rewrite Ef.
Qed.

(** ** The theorems *)

Section theorems.
Context `{P : Platform} `{St : Stack}.

(** C6: Two ends whose contexts ask for sequence numbers and neither for time stamps nor
    for the return of replay data (DO_SEQUENCE set, DO_TIME and the RET flags clear),
    which are in step (the next number, the key, the initial vector and the addresses
    agree): every list of messages that one end makes with krb5_mk_priv is delivered.
    krb5_rd_priv at the other end returns the same data, for any number of messages,
    with any key and encryption type and with the initial vector carried from message to
    message, and the ends are in step afterwards. Each message is small enough for its
    encoding to be allocated. *)
Theorem priv_channel fuel cxs cx s r uds ws bufs ws' wr :
  peers cx s r (w_ac ws) (w_ac wr) -> prng_wf (w_prng ws) -> Forall (data_ok fuel s r) uds ->
  run_all (fun ud => krb5_mk_priv cxs ud None) uds ws = (Ok bufs, ws') ->
  exists wr', run_all (fun buf => krb5_rd_priv fuel cx buf false) bufs wr = (Ok uds, wr') /\ peers cx s r (w_ac ws') (w_ac wr').
Proof. apply (channel fuel cx s r), _. Qed.

(** The same for krb5_mk_safe and krb5_rd_safe, with the keyed checksum that the sender
    chooses for the type of the key. *)
Theorem safe_channel fuel cxs cx valid s r uds ws bufs ws' wr :
  peers cx s r (w_ac ws) (w_ac wr) -> prng_wf (w_prng ws) -> Forall (data_ok fuel s r) uds ->
  run_all (fun ud => krb5_mk_safe cxs ud None) uds ws = (Ok bufs, ws') ->
  exists wr', run_all (fun buf => krb5_rd_safe fuel cx valid buf false) bufs wr = (Ok uds, wr') /\ peers cx s r (w_ac ws') (w_ac wr').
Proof. apply (channel fuel cx s r), _. Qed.


(** C8: krb5_rd_safe_basic does not look at the result of krb5_c_verify_checksum: for a
    checksum of type HMAC-SHA1-DES3 and any length but 20, which nobody needs a key to
    make, the message is accepted or refused by what the uninitialised variable valid
    holds. *)
Theorem rd_safe_ignores_verification fuel cx valid inbuf key l r w msg c zmsg zm k :
  is_message 20 inbuf = Ok true -> decode_krb5_safe fuel (Some inbuf) = Ok msg ->
  sf_checksum msg = Some (Checksum CKSUMTYPE_HMAC_SHA1_DES3 (zlen c) (Some c)) -> zlen c <> 20 ->
  check_addresses cx l r (sf_s_address msg) (sf_r_address msg) = Ok tt ->
  encode_krb5_safe (Some (Safe (sf_user_data msg) (sf_timestamp msg) (sf_usec msg) (sf_seq_number msg) (sf_s_address msg) (sf_r_address msg)
                            (Some zero_cksum))) = Ok zmsg -> PrincName.contents zmsg = Ok zm -> key_of key = Ok k ->
  (krb5_rd_safe_basic fuel cx valid inbuf (Ok key) l r w).1 =
  if valid then Ok (sf_user_data msg, ReplayData (sf_timestamp msg) (sf_usec msg) (sf_seq_number msg)) else Err KRB5KRB_AP_ERR_MODIFIED.
Proof.
  intros EI ED EC Hc EA EE EZ EK. unfold krb5_rd_safe_basic. rewrite (run_pure _ true) by done. cbn [negb].
  rewrite (run_pure _ msg) by done. rewrite (run_pure (deref (sf_checksum msg)) (Checksum CKSUMTYPE_HMAC_SHA1_DES3 (zlen c) (Some c))) by (by rewrite EC).
  cbn [ck_checksum_type ck_contents ck_length].
  do 2 rewrite (run_pure _ tt) by done. rewrite (run_pure _ zmsg), (run_pure _ key) by done.
  rewrite (run_pure _ k), (run_pure _ zm), (run_pure _ c) by (done || (apply contents_ok; split; [done|exists []; by rewrite app_nil_r])).
  rewrite (run_step _ valid w); [by destruct valid|]. unfold with_prng, krb5_c_verify_checksum. cbn [fst snd].
  change (find_cksumtype CKSUMTYPE_HMAC_SHA1_DES3) with (Some (Cksumtype CKSUMTYPE_HMAC_SHA1_DES3 (Derived krb5_hash_sha1))).
  cbn [ct_mode cksum_length]. change (hash_size krb5_hash_sha1) with 20. rewrite (proj2 (Z.eqb_neq _ _) Hc). by destruct w.
Qed.

Lemma message_time_same w : exists t, message_time w = (Ok t, w).
Proof. unfold message_time. rewrite run_get. destruct (uses_time _); by eexists. Qed.

(** With the sequence number returned and not checked, a message that cannot be made
    takes back a number that was never taken: the next messages repeat the numbers of
    earlier ones. *)
Theorem mk_priv_error_drifts cx ud od w e w' :
  has_flag (ac_flags (w_ac w)) KRB5_AUTH_CONTEXT_DO_SEQUENCE = false -> has_flag (ac_flags (w_ac w)) KRB5_AUTH_CONTEXT_RET_SEQUENCE = true ->
  has_flag (ac_flags (w_ac w)) KRB5_AUTH_CONTEXT_DO_TIME = false ->
  krb5_mk_priv cx ud (Some od) w = (Err e, w') -> ac_local_seq_number (w_ac w') = ac_local_seq_number (w_ac w) - 1.
Proof.
  intros E1 E2 E3 E. unfold krb5_mk_priv in E. rewrite (run_step _ tt w) in E.
  2:{ unfold check_replay_info. rewrite run_get, E3. cbn [negb orb guard not_null obind]. by rewrite orb_true_r. }
  destruct (message_time_same w) as (t & EM). rewrite (run_step _ _ _ _ _ EM) in E. destruct t as [ts us]. rewrite run_get in E. cbv zeta in E.
  assert (EU : uses_sequence (w_ac w) = true) by (unfold uses_sequence, any_flag; rewrite E2; apply orb_true_r).
  rewrite E1, E3, EU, run_ret in E. rewrite pbind_run in E. unfold on_error in E.
  match type of E with context [pbind ?m ?k w] => assert (HS : stays ac_local_seq_number (pbind m k)); [|set (body := pbind m k) in *] end.
  { unfold krb5_mk_priv_basic. stays. }
  specialize (HS w). destruct (body w) as [[b|e1| |] w1]; try discriminate. cbn [snd] in HS.
  rewrite pbind_run, run_get in E. unfold isub in E. rewrite HS in E. case_bool_decide; [|discriminate].
  by injection E as _ <-.
Qed.
End theorems.
