(* ===== verification/GssSealProofs.v ===== *)
(** * The peer of a context opens its tokens (GssSeal.v)

    A token that [kg_seal] made is opened by [kg_unseal] in the context of the peer, with
    the text, its confidentiality and the verdict of the queue of sequence numbers on its
    number; so a stream of tokens, delivered in any order and any number of times, is the
    stream of texts with the statuses of the window specification of GssGenericProofs.v. *)

From S2P Require Import Prelude Asn1Buf PrincNameProofs Words Crypto CryptoApi CryptoProofs CryptoEnc CryptoKeys GssGeneric GssGenericProofs GssSeal.

Section seal.
Context `{P : Platform} `{St : Stack}.

(** ** Keys *)

(** A key of a raw type, with which encryption uses no random octets. *)
Definition raw_key (key : keyblock) : Prop :=
  octets (key_contents key) /\ exists kt, find_enctype (key_enctype key) = Some kt /\ kt_mode kt = Raw /\ kt_etype kt = key_enctype key.

Lemma raw_block key : raw_key key -> krb5_c_block_size (key_enctype key) = Ok 8.
Proof. intros (_ & kt & E & _). unfold krb5_c_block_size. rewrite E. by rewrite enc_block_8. Qed.

(** What a raw key does with the generator: nothing. *)
Definition pure_proc {A} (m : rproc A) : Prop := exists r, forall st, m st = (r, st).

Lemma pure_same {A} (m : rproc A) st r st' : pure_proc m -> m st = (r, st') -> st' = st /\ forall st2, m st2 = (r, st2).
Proof. intros [r' H] E. rewrite H in E. injection E as <- <-. done. Qed.

Lemma pure_bind {A B} (m : rproc A) (k : A -> rproc B) : pure_proc m -> (forall a, pure_proc (k a)) -> pure_proc (sbind m k).
Proof.
  intros [r Hm] Hk. unfold sbind. destruct r as [a|e| |]; [destruct (Hk a) as [r' Hr]; exists r'|eexists..]; intros st; rewrite Hm; try reflexivity.
  apply Hr.
Qed.

Lemma pure_ret {A} (r : outcome error_code A) : pure_proc (sret r).
Proof. by exists r. Qed.

Lemma kg_encrypt_pure key usage iv inp : raw_key key -> pure_proc (kg_encrypt key usage iv inp).
Proof.
  intros (_ & kt & E & M & _). apply pure_bind; [apply pure_ret|]. intros ivd. apply pure_bind; [|intros; apply pure_ret].
  eexists. intros st. unfold krb5_c_encrypt. rewrite E, M. reflexivity.
Qed.

Lemma copy_iv_octets key iv ivd : octets_opt iv -> copy_iv key iv = Ok ivd -> octets_opt ivd.
Proof.
  unfold copy_iv. destruct iv as [mem|]; [|by injection 2 as <-]. intros Hi E. apply obind_ok in E as (n & _ & E).
  destruct (malloc n) as [blk|]; [|done]. apply obind_ok in E as (l & E & H). injection H as <-. by eapply slice_octets.
Qed.

(** What is encrypted is decrypted again. *)
Lemma kg_encrypt_ok key usage iv inp st c st' : raw_key key -> octets_opt iv -> octets inp ->
  kg_encrypt key usage iv inp st = (Ok c, st') -> st' = st /\ zlen c = zlen inp /\ octets c /\ kg_decrypt key usage iv c = Ok inp.
Proof.
  intros HR Hi Ho E. destruct (pure_same _ _ _ _ (kg_encrypt_pure _ _ _ _ HR) E) as [-> _]. split; [done|].
  destruct HR as (Hk & kt & EK & EM & ET). unfold kg_encrypt, sbind, sret in E. unfold kg_decrypt.
  destruct (copy_iv key iv) as [ivd| | |] eqn:EI; try done. apply copy_iv_octets in EI; [|done]. cbn [obind].
  unfold krb5_c_encrypt in E. unfold krb5_c_decrypt. rewrite EK, EM in *. cbn [fst snd] in *.
  unfold krb5_raw_encrypt, krb5_raw_decrypt in *. destruct (enc_encrypt _ _ _ _ _) as [c'| | |] eqn:EC; try done.
  cbn in E. injection E as <-. pose proof (enc_provider_laws (kt_enc kt)).
  destruct (enc_encrypt_ok key ivd inp _ c' Hk EI Ho EC) as (_ & L & Oc & D). rewrite L. split; [done|]. split; [done|].
  change (ENCTYPE_UNKNOWN =? ENCTYPE_UNKNOWN) with true. cbn [negb andb]. rewrite D. done.
Qed.
(** ** Sequence numbers *)

Lemma seq_num_roundtrip key dir n cksum st c st' : raw_key key -> is_octet dir -> is_int 32 n -> octets cksum ->
  kg_make_seq_num key dir n cksum st = (Ok c, st') -> st' = st /\ zlen c = 8 /\ octets c /\ kg_get_seq_num key cksum c = Ok (dir, n).
Proof.
  intros HR Hd Hn Ho E. apply kg_encrypt_ok in E as (-> & L & Oc & D); [|done|done|].
  2: { apply Forall_app. split; [apply le32_octets|]. do 4 (apply Forall_cons_2; [done|]). apply Forall_nil_2. }
  split_and!; [done|done|done|]. unfold kg_get_seq_num. rewrite D. unfold le32. cbn [app nth]. rewrite !Z.eqb_refl. cbn [negb orb].
  by rewrite le32_joined, to_int_mod.
Qed.

(** ** Contexts *)

(** The keys and the algorithms were chosen for some key of the session. *)
Definition good_keys (c : krb5_gss_ctx_id_rec) : Prop :=
  exists subkey, octets (key_contents subkey) /\
    initiator_keys subkey = Ok (gc_signalg c, gc_cksum_size c, gc_sealalg c, gc_enc c, gc_seq c).

Definition des_algorithms (c : krb5_gss_ctx_id_rec) : Prop :=
  gc_signalg c = SGN_ALG_DES_MAC_MD5 /\ gc_cksum_size c = 8 /\ gc_sealalg c = SEAL_ALG_DES.
Definition des3_algorithms (c : krb5_gss_ctx_id_rec) : Prop :=
  gc_signalg c = SGN_ALG_HMAC_SHA1_DES3_KD /\ gc_cksum_size c = 20 /\ gc_sealalg c = SEAL_ALG_DES3KD.

Lemma raw_des k : octets k -> raw_key (Key ENCTYPE_DES_CBC_RAW k).
Proof. intros H. split; [done|]. by eexists. Qed.
Lemma raw_des3 k : octets k -> raw_key (Key ENCTYPE_DES3_CBC_RAW k).
Proof. intros H. split; [done|]. by eexists. Qed.

Lemma good_keys_cases c : good_keys c ->
  raw_key (gc_enc c) /\ raw_key (gc_seq c) /\ (des_algorithms c \/ des3_algorithms c).
Proof.
  intros (k & Ho & E). unfold initiator_keys in E. destruct (_ || _ || _).
  - injection E as E1 E2 E3 E4 E5. rewrite <- E4, <- E5. split_and!; [|by apply raw_des|by left].
    apply raw_des, Forall_fmap. eapply Forall_impl; [|exact Ho]. intros o Hx. by apply (lxor_range 8).
  - destruct (_ =? _); [|done]. injection E as E1 E2 E3 E4 E5. rewrite <- E4, <- E5. split_and!; [by apply raw_des3..|by right].
Qed.

(** The context of the peer. *)
Definition same_keys (c r : krb5_gss_ctx_id_rec) : Prop :=
  gc_signalg r = gc_signalg c /\ gc_cksum_size r = gc_cksum_size c /\ gc_sealalg r = gc_sealalg c /\ gc_enc r = gc_enc c /\
  gc_seq r = gc_seq c /\ gc_big_endian r = gc_big_endian c /\ gc_mech_used r = gc_mech_used c.
Definition peer (c r : krb5_gss_ctx_id_rec) : Prop :=
  same_keys c r /\ gc_initiate r = negb (gc_initiate c) /\ gc_established r = true.

(** ** Checksums *)

Lemma hmac_pure key data : pure_proc (fun st => krb5_c_make_checksum st CKSUMTYPE_HMAC_SHA1_DES3 key KG_USAGE_SIGN data).
Proof. eexists. intros st. reflexivity. Qed.

Lemma md5_cksum key data : pure_proc (fun st => krb5_c_make_checksum st CKSUMTYPE_RSA_MD5 key KG_USAGE_SIGN data) /\
  forall st d st', krb5_c_make_checksum st CKSUMTYPE_RSA_MD5 key KG_USAGE_SIGN data = (Ok d, st') -> zlen d = 16 /\ octets d.
Proof.
  split; [eexists; intros st; reflexivity|]. intros st d st' E. injection E as <- _. by apply (hash_ok (hash := krb5_hash_md5) [data]).
Qed.

Lemma mac_pure seq oid d : raw_key seq -> pure_proc (mac_of_digest seq oid d).
Proof. apply kg_encrypt_pure. Qed.

Lemma mac_ok seq oid d st mac st' : raw_key seq -> octets d -> mac_of_digest seq oid d st = (Ok mac, st') -> zlen mac = zlen d /\ octets mac.
Proof.
  intros HR Ho E. apply kg_encrypt_ok in E as (_ & ? & ? & _); [done|done| |done]. case_bool_decide; [|done]. apply HR.
Qed.

(** The receiver computes the checksum that the sender did. *)
Lemma cksum_agrees c r data junk st ck st' : good_keys c -> same_keys c r ->
  token_cksum (gc_seq c) (gc_signalg c) (gc_cksum_size c) (gc_mech_used c) data junk st = (Ok ck, st') ->
  st' = st /\ zlen ck = gc_cksum_size c /\ octets ck /\ forall st2, expected_cksum r (gc_signalg c) data st2 = (Ok ck, st2).
Proof.
  intros HG (_ & _ & _ & _ & ES & _ & EM) E. destruct (good_keys_cases c HG) as (_ & HR & HA). unfold expected_cksum. rewrite ES, EM.
  destruct (md5_cksum (gc_seq c) data) as [HP HD].
  destruct HA as [(E1 & E2 & _)|(E1 & E2 & _)]; rewrite E1, E2 in *; unfold token_cksum in E; cbn [Z.eqb orb SGN_ALG_DES_MAC_MD5] in *.
  - apply sbind_ok in E as (d & st1 & H1 & E). destruct (pure_same _ _ _ _ HP H1) as [-> H1']. apply HD in H1 as [L1 O1].
    apply sbind_ok in E as (mac & st1 & H2 & E). destruct (pure_same _ _ _ _ (mac_pure _ _ _ HR) H2) as [-> H2'].
    apply mac_ok in H2 as [L2 O2]; [|done..]. injection E as E <-.
    destruct (slice_ok (E := error_code) mac (16 - 8) 8) as (l & E' & L); [lia..|]. rewrite E' in E. injection E as ->.
    split_and!; [done|done|exact (slice_octets _ _ _ _ O2 E')|]. intros st2. unfold sbind, sret. rewrite H1', H2'. by rewrite E'.
  - apply sbind_ok in E as (mac & st1 & H1 & E). destruct (pure_same _ _ _ _ (hmac_pure _ _) H1) as [-> H1'].
    destruct (Z.eqb_spec (zlen mac) 20) as [L|]; [|done]. injection E as <- <-. split_and!; [done|done| |done].
    injection H1 as H1. unfold krb5_dk_make_checksum in H1. destruct (find_enctype _); [|done].
    apply obind_ok in H1 as (kc & _ & H1). by apply (hmac_ok krb5_hash_sha1) in H1 as [_ ?].
Qed.

(** ** Messages *)

Definition padding (text : list octet) : Z := 8 - zlen text mod 8.
Definition padded (conf text : list octet) : list octet := conf ++ text ++ replicate (Z.to_nat (padding text)) (padding text).

Lemma padding_range text : 1 <= padding text <= 8.
Proof. unfold padding. pose proof (Z.mod_pos_bound (zlen text) 8). lia. Qed.

Lemma padded_length conf text : zlen (padded conf text) = zlen conf + zlen text + padding text.
Proof. unfold padded. rewrite !zlen_app. unfold zlen at 3. rewrite length_replicate. pose proof (padding_range text). lia. Qed.

Lemma padded_octets conf text : octets conf -> octets text -> octets (padded conf text).
Proof.
  intros Hc Ht. apply Forall_app. split; [done|]. apply Forall_app. split; [done|]. apply Forall_replicate.
  pose proof (padding_range text). unfold is_octet, is_uint. lia.
Qed.

(** What is read of a padded text behind other octets. *)
Lemma padded_read {E} pre conf text : zlen conf = 8 ->
  let mem := pre ++ padded conf text in
  let n := zlen (padded conf text) in
  peek (E := E) mem (zlen pre + n - 1) = Ok (padding text) /\ slice (E := E) mem (zlen pre + 8) (zlen text) = Ok text /\
  slice (E := E) mem (zlen pre + 0) n = Ok (padded conf text).
Proof.
  intros Hc mem n. subst n. pose proof (padding_range text) as HP. split_and!.
  - assert (EP : replicate (Z.to_nat (padding text)) (padding text) = replicate (Z.to_nat (padding text - 1)) (padding text) ++ [padding text]).
    { replace (Z.to_nat (padding text)) with (Z.to_nat (padding text - 1) + 1)%nat by lia. by rewrite replicate_add. }
    unfold mem, padded at 1. rewrite EP, 3 app_assoc. apply peek_mid. rewrite padded_length, !zlen_app. unfold zlen at 7.
    rewrite length_replicate. lia.
  - unfold mem, padded. rewrite app_assoc. apply slice_mid; [rewrite zlen_app; lia|done].
  - unfold mem. rewrite <- (app_nil_r (padded conf text)) at 1. apply slice_mid; [lia|done].
Qed.

Lemma padded_size n : 0 <= n -> Z.land (8 + n + 8) (-8) = 8 + n + (8 - n mod 8).
Proof.
  intros Hn. change (-8) with (Z.lnot (Z.ones 3)). rewrite <- Z.ldiff_land, Z.ldiff_ones_r by lia. change (2 ^ 3) with 8.
  rewrite Z.shiftr_div_pow2, Z.shiftl_mul_pow2 by lia. change (2 ^ 3) with 8. Z.div_mod_to_equations. lia.
Qed.

Definition message_size (text : list octet) (encrypt bigend : bool) : Z :=
  if bigend && negb encrypt then zlen text else 8 + zlen text + padding text.

Section message.
Context (c r : krb5_gss_ctx_id_rec) (HG : good_keys c) (HR : same_keys c r).
Context (text : list octet) (Ht : octets text) (Hl : zlen text < 2 ^ 30).
Context (encrypt : bool).

Definition sealalg_of : Z := if encrypt then gc_sealalg c else 0xffff.
Let size := message_size text encrypt (gc_big_endian c).

(** How the receiver finds the message. *)
Definition opens (pre msg cov : list octet) : Prop := forall ptr cksum_len, ptr + 14 + cksum_len = zlen pre ->
  exists whole value, sealed_message r (pre ++ msg) ptr size cksum_len sealalg_of = Ok (whole, value) /\
    buffer_octets value = text /\ (if gc_big_endian r then text else whole) = cov.

Lemma clear_opens pre : gc_big_endian c && negb encrypt = true -> size <= malloc_limit -> opens pre text text.
Proof.
  intros HB HM ptr k Hk. apply andb_true_iff in HB as [HB HE%negb_true_iff]. unfold sealed_message, sealalg_of.
  destruct HR as (_ & _ & _ & _ & _ & EB & _). assert (ES : size = zlen text) by (unfold size, message_size; by rewrite HB, HE).
  rewrite EB, HB, HE, ES in *. change (65535 =? 65535) with true. cbn [andb obind]. rewrite Hk.
  pose proof (zlen_nonneg text). rewrite size_t_id by lia. cbn [obind]. rewrite Z.add_0_r.
  assert (EL : slice (E := gss_error) (pre ++ text) (zlen pre) (zlen text) = Ok text).
  { rewrite <- (app_nil_r text) at 1. by apply slice_mid. }
  destruct (Z.eqb_spec (zlen text) 0) as [E0|].
  - cbn [obind]. rewrite EL. exists text, Uninitialized. split_and!; [done| |done]. destruct text; [done|]. unfold zlen in E0. cbn in E0. lia.
  - destruct (malloc_ok (zlen text)) as (b & -> & _); [lia|]. rewrite EL. cbn [obind]. by exists text, (Buffer text).
Qed.

Lemma sealed_opens pre conf msg : gc_big_endian c && negb encrypt = false -> size <= malloc_limit -> zlen conf = 8 ->
  (if encrypt then kg_decrypt (gc_enc c) KG_USAGE_SEAL None msg = Ok (padded conf text) /\ zlen msg = size else msg = padded conf text) ->
  opens pre msg (if gc_big_endian c then text else padded conf text).
Proof.
  intros HB HM Hc HD ptr k Hk. unfold sealed_message, sealalg_of. destruct HR as (_ & _ & ESA & EE & _ & EB & _).
  assert (ES : size = zlen (padded conf text)) by (unfold size, message_size; rewrite HB, padded_length, Hc; done).
  destruct (good_keys_cases c HG) as (HRE & _ & HA).
  assert (HC : ((if encrypt then gc_sealalg c else 65535) =? 65535) = negb encrypt).
  { destruct encrypt; [|done]. destruct HA as [(_ & _ & ->)|(_ & _ & ->)]; done. }
  rewrite HC, Hk, EE, EB. assert (EC : kg_confounder_size (gc_enc c) = 8) by (unfold kg_confounder_size; by rewrite raw_block). rewrite EC.
  pose proof (zlen_nonneg text) as H0. pose proof (padding_range text) as HP. pose proof (padded_length conf text) as HL.
  assert (EZ : size_t (size - 8 - padding text) = zlen text) by (rewrite size_t_id by lia; lia).
  assert (HV : forall R, exists value, (if zlen text =? 0 then Ok Uninitialized
             else match malloc (zlen text) with None => R | Some _ => Ok (Buffer text) end) = Ok (E := gss_error) value /\ buffer_octets value = text).
  { intros R. destruct (Z.eqb_spec (zlen text) 0) as [E0|].
    - exists Uninitialized. split; [done|]. destruct text; [done|]. unfold zlen in E0. cbn in E0. lia.
    - destruct (malloc_ok (zlen text)) as (b & -> & _); [lia|]. by exists (Buffer text). }
  destruct (HV (refuse GSS_S_FAILURE (Code ENOMEM))) as (value & EV & HVT). exists (padded conf text), value.
  split; [|split; [done|by destruct (gc_big_endian c)]].
  destruct encrypt; cbn [negb andb] in *.
  - destruct HD as [HD HL2]. rewrite (size_t_id size) by lia. destruct (malloc_ok size) as (b & -> & _); [lia|].
    assert (EM : slice (E := gss_error) (pre ++ msg) (zlen pre) size = Ok msg) by (rewrite <- (app_nil_r msg) at 1; by apply slice_mid).
    rewrite EM. cbn [obind]. rewrite HD. cbn [or_failure obind].
    destruct (padded_read (E := gss_error) [] conf text Hc) as (R1 & R2 & R3). cbn [app] in *. rewrite <- ES in *. change (zlen []) with 0 in *.
    rewrite !Z.add_0_l in *. rewrite R1. cbn [obind]. rewrite EZ, R2, R3. cbn [obind]. rewrite EV. done.
  - destruct (gc_big_endian c); [done|]. subst msg. cbn [obind]. destruct (padded_read (E := gss_error) pre conf text Hc) as (R1 & R2 & R3).
    rewrite <- ES in *. rewrite R1. cbn [obind]. rewrite EZ, R2, R3. cbn [obind]. rewrite EV. done.
Qed.

Lemma confounder_made st conf st' : prng_wf st -> kg_make_confounder (gc_enc c) st = (Ok conf, st') ->
  octets conf /\ zlen conf = 8 /\ prng_wf st'.
Proof.
  intros HW E. destruct (good_keys_cases c HG) as (HRE & _). unfold kg_make_confounder, sbind, sret in E. rewrite raw_block in E by done.
  by apply confounder_ok in E.
Qed.

Lemma token_message_ok st msg cov st' : prng_wf st -> size <= malloc_limit ->
  token_message (gc_enc c) text size encrypt (gc_big_endian c) st = (Ok (msg, cov), st') ->
  prng_wf st' /\ zlen msg = size /\ octets msg /\ zlen cov <= size /\ forall pre, opens pre msg cov.
Proof.
  intros HW HM E. unfold token_message in E. destruct (gc_big_endian c && negb encrypt) eqn:HB.
  - injection E as <- <- <-. assert (ES : size = zlen text) by (unfold size, message_size; by rewrite HB).
    split_and!; [done|done|done|lia|]. intros pre. by apply clear_opens.
  - destruct (malloc _); [|done]. apply sbind_ok in E as (conf & st1 & H1 & E). apply confounder_made in H1 as (Oc & Lc & HW1); [|done].
    fold (padding text) in E. fold (padded conf text) in E. destruct (Z.eqb_spec (zlen (padded conf text)) size) as [HS|]; [|done]. cbn [negb] in E.
    apply sbind_ok in E as (m & st2 & H2 & E). injection E as <- <- <-. destruct (good_keys_cases c HG) as (HRE & _).
    pose proof (padded_length conf text). pose proof (padding_range text). pose proof (padded_octets _ _ Oc Ht) as OP.
    assert (HC : zlen (if gc_big_endian c then text else padded conf text) <= size) by (destruct (gc_big_endian c); lia).
    assert (HD : st2 = st1 /\ zlen m = size /\ octets m /\
                 if encrypt then kg_decrypt (gc_enc c) KG_USAGE_SEAL None m = Ok (padded conf text) /\ zlen m = size else m = padded conf text).
    { destruct encrypt; [|by injection H2 as <- <-]. apply kg_encrypt_ok in H2 as (-> & L & O & D); [|done..]. rewrite L. done. }
    destruct HD as (-> & L & O & D). split_and!; [done..|]. intros pre. by apply sealed_opens.
Qed.

Lemma tmsglen_size : int32 (if gc_big_endian c && negb encrypt then zlen text else Z.land (kg_confounder_size (gc_enc c) + zlen text + 8) (-8)) = size.
Proof.
  destruct (good_keys_cases c HG) as (HRE & _). assert (EC : kg_confounder_size (gc_enc c) = 8) by (unfold kg_confounder_size; by rewrite raw_block).
  pose proof (zlen_nonneg text). pose proof (padding_range text). unfold size, message_size. destruct (_ && _).
  - apply to_int_id; [unfold is_int|]; lia.
  - rewrite EC, padded_size by done. fold (padding text). apply to_int_id; [unfold is_int|]; lia.
Qed.

(** ** Tokens *)

Definition head_of (alg : Z) : list octet :=
  [Z.land (gc_signalg c) 0xff; Z.land (Z.shiftr (gc_signalg c) 8) 0xff; Z.land alg 0xff; Z.land (Z.shiftr alg 8) 0xff; 0xff; 0xff].

Context (toktype : Z) (HT : toktype = KG_TOK_SEAL_MSG \/ toktype = KG_TOK_SIGN_MSG).
Let is_seal := toktype =? KG_TOK_SEAL_MSG.
Let alg := if is_seal then sealalg_of else 0xffff.
Let tmsglen := if is_seal then size else 0.
Let header := g_make_token_header (gc_mech_used c) (14 + gc_cksum_size c + tmsglen) toktype.
Let toktype_octets := drop (length header - 2) header.

(** The parts of a token. *)
Inductive token_parts (n : Z) (token : list octet) : Prop := TokenParts num ck msg cov :
  token = header ++ head_of alg ++ num ++ ck ++ msg ->
  zlen num = 8 -> kg_get_seq_num (gc_seq c) (ck ++ msg) num = Ok (if gc_initiate c then 0 else 0xff, n) ->
  zlen ck = gc_cksum_size c ->
  (forall st2, expected_cksum r (gc_signalg c) (toktype_octets ++ head_of alg ++ cov) st2 = (Ok ck, st2)) ->
  zlen msg = tmsglen -> zlen cov <= Z.max (zlen text) size ->
  (if is_seal then forall pre, opens pre msg cov else cov = text) ->
  token_parts n token.

Lemma seal_parts n st token n' st' : prng_wf st -> size <= malloc_limit -> is_int 32 n ->
  make_seal_token_v1 (gc_enc c) (gc_seq c) n (gc_initiate c) text (gc_signalg c) (gc_cksum_size c) (gc_sealalg c) encrypt toktype
    (gc_big_endian c) (gc_mech_used c) st = (Ok (token, n'), st') ->
  token_parts n token /\ n' = n + 1 /\ is_int 32 n' /\ prng_wf st'.
Proof.
  intros HW HM Hn E. unfold make_seal_token_v1 in E. destruct (negb (_ && _)); [done|]. fold is_seal in E.
  assert (ET : (if is_seal then if gc_big_endian c && negb encrypt then int32 (zlen text)
                 else int32 (Z.land (kg_confounder_size (gc_enc c) + zlen text + 8) (-8)) else 0) = tmsglen).
  { unfold tmsglen. rewrite <- tmsglen_size. by destruct is_seal, (_ && _). }
  rewrite ET in E. fold header in E. destruct (malloc _) as [t|]; [|done].
  assert (EA : (if is_seal && encrypt then gc_sealalg c else 65535) = alg) by (unfold alg, sealalg_of; by destruct is_seal).
  rewrite EA in E. fold (head_of alg) in E. fold toktype_octets in E. destruct (_ =? SGN_ALG_DES_MAC); [done|].
  apply sbind_ok in E as (m & st1 & H1 & E).
  assert (HP : prng_wf st1 /\ zlen m.1 = tmsglen /\ octets m.1 /\ zlen m.2 <= Z.max (zlen text) size /\ if is_seal then forall pre, opens pre m.1 m.2 else m.2 = text).
  { unfold tmsglen. destruct is_seal; [|injection H1 as <- <-; split_and!; [done|done|apply Forall_nil_2|cbn; lia|done]].
    destruct m as [msg cov]. unfold tmsglen in H1. apply token_message_ok in H1 as (? & ? & ? & ? & ?); [|done..]. split_and!; [done|done|done|cbn; lia|done]. }
  destruct HP as (HW1 & LM & OM & LV & HO). destruct (malloc _); [|done].
  apply sbind_ok in E as (ck & st2 & H2 & E). eapply cksum_agrees in H2 as (-> & LC & OC & EX); [|done|done].
  apply sbind_ok in E as (num & st3 & H3 & E). destruct (good_keys_cases c HG) as (_ & HRS & _).
  apply seq_num_roundtrip in H3 as (-> & LN & ON & EN); [|done|by destruct (gc_initiate c)|done|by apply Forall_app].
  destruct (_ || _) eqn:EQ; [done|]. injection E as <- <- <-. apply orb_false_iff in EQ as [_ EQ%negb_false_iff%bool_decide_eq_true].
  split; [|done]. by exists num ck m.1 m.2.
Qed.

(** The octets of the algorithms say which they are. *)
Lemma head_read : nth 0 (head_of alg) 0 + Z.shiftl (nth 1 (head_of alg) 0) 8 = gc_signalg c /\
  nth 2 (head_of alg) 0 + Z.shiftl (nth 3 (head_of alg) 0) 8 = alg /\
  check_algorithms r toktype (gc_signalg c) alg true = Ok (gc_cksum_size c) /\ (gc_signalg c =? SGN_ALG_MD2_5) = false.
Proof.
  destruct HR as (_ & _ & ES & _). unfold alg, is_seal, head_of, sealalg_of, check_algorithms. rewrite ES.
  destruct (good_keys_cases c HG) as (_ & _ & [(-> & -> & ->)|(-> & -> & ->)]); destruct HT as [->| ->], encrypt; done.
Qed.

Hypothesis Hsize : zlen text + 128 <= malloc_limit.

Lemma header_tail token body : token = header ++ body -> zlen header = 5 + zlen (gc_mech_used c) + der_length_size (4 + zlen (gc_mech_used c) + (14 + gc_cksum_size c + tmsglen)) ->
  forall l rest, body = l ++ rest -> slice (E := gss_error) token (zlen header - 2) (2 + zlen l) = Ok (toktype_octets ++ l).
Proof.
  intros -> HL l rest ->. assert (E : header = take (length header - 2) header ++ toktype_octets) by (unfold toktype_octets; by rewrite take_drop).
  assert (H2 : 2 <= zlen header) by (rewrite HL; pose proof (zlen_nonneg (gc_mech_used c)); unfold der_length_size; repeat case_match; lia).
  assert (L2 : zlen toktype_octets = 2) by (unfold toktype_octets, zlen in *; rewrite length_drop; lia).
  rewrite E at 1. rewrite <- app_assoc, (app_assoc toktype_octets). apply slice_mid; [|rewrite zlen_app; lia].
  unfold zlen in *. rewrite length_take. lia.
Qed.

(** What is read of a token. *)
Lemma token_reads num ck msg : zlen num = 8 -> zlen ck = gc_cksum_size c -> zlen msg = tmsglen ->
  0 <= 4 + zlen (gc_mech_used c) + (14 + gc_cksum_size c + tmsglen) < 2 ^ 31 ->
  let token := header ++ head_of alg ++ num ++ ck ++ msg in let ptr := zlen header in
  slice (E := gss_error) token ptr 6 = Ok (head_of alg) /\ slice (E := gss_error) token (ptr + 6) 8 = Ok num /\
  slice (E := gss_error) token (ptr + 14) (gc_cksum_size c) = Ok ck /\
  slice (E := gss_error) token (ptr + 14) (zlen token - (ptr + 14)) = Ok (ck ++ msg) /\
  slice (E := gss_error) token (ptr - 2) 8 = Ok (toktype_octets ++ head_of alg).
Proof.
  intros LN LC LM HL token ptr. assert (L6 : zlen (head_of alg) = 6) by done. split_and!.
  - by apply slice_mid.
  - unfold token. rewrite app_assoc. apply slice_mid; [rewrite zlen_app; lia|done].
  - unfold token. rewrite 2 app_assoc. apply slice_mid; [rewrite !zlen_app; lia|done].
  - unfold token. rewrite 2 app_assoc. rewrite <- (app_nil_r (ck ++ msg)) at 1. apply slice_mid; rewrite !zlen_app; lia.
  - apply (header_tail token (head_of alg ++ num ++ ck ++ msg) eq_refl) with (rest := num ++ ck ++ msg) (l := head_of alg); [|done].
    unfold header. rewrite token_header_length by done. lia.
Qed.

Lemma parts_open n token now st message : token_parts n token -> peer c r -> zlen (gc_mech_used c) < 128 -> now <= gc_endtime r ->
  (is_seal = false -> message = text) ->
  kg_unseal now st r token message toktype =
  let '(status, q) := g_order_check (gc_seqstate r) (uint32 n) in (Ok (status, text, is_seal && encrypt), st, set_seqstate r q).
Proof.
  intros [num ck msg cov ET LN EN LC EX LM LV HO] (_ & HI & HE) Hm Hnow Hmsg. destruct HR as (_ & _ & _ & _ & ES & EB & EU).
  destruct head_read as (EA1 & EA2 & ECH & E25). pose proof (zlen_nonneg text) as H0. pose proof (zlen_nonneg (gc_mech_used c)) as M0.
  pose proof (padding_range text). assert (HZ : 0 <= size <= zlen text + 16) by (unfold size, message_size; destruct (_ && _); lia).
  assert (HTM : 0 <= tmsglen <= zlen text + 16) by (unfold tmsglen; destruct is_seal; lia).
  assert (HCK : 8 <= gc_cksum_size c <= 20) by (destruct (good_keys_cases c HG) as (_ & _ & [(_ & -> & _)|(_ & -> & _)]); lia).
  set (body := head_of alg ++ num ++ ck ++ msg) in *.
  assert (LB : zlen body = 14 + gc_cksum_size c + tmsglen) by (unfold body; rewrite !zlen_app, LN, LC, LM; change (zlen (head_of alg)) with 6; lia).
  unfold kg_unseal. rewrite HE. cbn [negb].
  pose proof (header_roundtrip (gc_mech_used c) body toktype Hm ltac:(lia)) as HH. rewrite LB in HH. fold header in HH. cbv zeta in HH.
  rewrite EU, ET, HH, <- ET. unfold kg_unseal_v1. fold is_seal.
  destruct (token_reads num ck msg LN LC LM ltac:(lia)) as (S1 & S2 & S3 & S4 & S5). fold body in S1, S2, S3, S4, S5. cbv zeta in *. rewrite <- ET in *.
  rewrite S1. cbn [obind]. rewrite EA1, EA2. change ((nth 4 (head_of alg) 0 =? 255) && (nth 5 (head_of alg) 0 =? 255)) with true.
  rewrite ECH. cbn [obind]. replace (14 + gc_cksum_size c + tmsglen - (14 + gc_cksum_size c)) with tmsglen by lia.
  assert (HV : exists plain value, (if is_seal then sealed_message r token (zlen header) tmsglen (gc_cksum_size c) alg
      else if toktype =? KG_TOK_SIGN_MSG then Ok (message, Buffer message) else Ok ([], Buffer [])) = Ok (plain, value) /\
      buffer_octets value = text /\ (if gc_big_endian r then buffer_octets value else plain) = cov).
  { unfold tmsglen, alg. destruct is_seal eqn:EI.
    - destruct (HO (header ++ head_of alg ++ num ++ ck) (zlen header) (gc_cksum_size c)) as (w & v & H1 & H2 & H3).
      { rewrite !zlen_app. change (zlen (head_of alg)) with 6. lia. }
      exists w, v. rewrite <- !app_assoc in H1. fold body in H1. rewrite <- ET in H1. rewrite H2. done.
    - rewrite (Hmsg eq_refl). assert (ESG : toktype = KG_TOK_SIGN_MSG) by (unfold is_seal in EI; destruct HT as [->| ->]; done).
      rewrite ESG. exists text, (Buffer text). split; [done|]. split; [done|]. rewrite HO. by destruct (gc_big_endian r). }
  destruct HV as (plain & value & EV & EBV & ECV). rewrite EV. cbn [obind]. rewrite ECV, E25.
  destruct (malloc_ok (size_t (8 + zlen cov))) as (b & -> & _); [pose proof (zlen_nonneg cov); rewrite size_t_id; lia|].
  rewrite S5. cbn [obind]. rewrite <- app_assoc, EX, LC, S3. cbn [obind]. rewrite bool_decide_eq_true_2 by done.
  unfold check_sequence. destruct (Z.ltb_spec (gc_endtime r) now); [lia|]. rewrite S2. cbn [obind]. rewrite S4. cbn [obind]. rewrite ES, EN, HI.
  assert (ED : negb ((if gc_initiate c then 0 else 255) =? (if negb (gc_initiate c) then 255 else 0)) = false) by (by destruct (gc_initiate c)).
  rewrite ED. destruct (g_order_check _ _) as [status q]. rewrite EBV. f_equal. f_equal. f_equal. f_equal.
  unfold alg, sealalg_of. case is_seal; [|done]. destruct (good_keys_cases c HG) as (_ & _ & [(_ & _ & ->)|(_ & _ & ->)]); by case encrypt.
Qed.
End message.

(** ** One token *)

Lemma uint32_int32 n : uint32 (int32 n) = uint32 n.
Proof.
  unfold to_int, to_uint. change (2 ^ (32 - 1)) with 2147483648. change (2 ^ 32) with 4294967296. Z.div_mod_to_equations. lia.
Qed.

Lemma seq_incremented n : uint32 (int32 n + 1) = uint32 (n + 1).
Proof.
  unfold to_uint. rewrite <- Zplus_mod_idemp_l. fold (uint32 (int32 n)). rewrite uint32_int32. unfold to_uint. by rewrite Zplus_mod_idemp_l.
Qed.

(** What the sender needs. *)
Record sender (c : krb5_gss_ctx_id_rec) : Prop := Sender {
  sd_keys : good_keys c; sd_seq : is_uint 32 (gc_seq_send c); sd_mech : zlen (gc_mech_used c) < 128
}.
(** A text that both sides have the memory for. *)
Definition text_ok (text : list octet) : Prop := octets text /\ zlen text < 2 ^ 30 /\ zlen text + 128 <= malloc_limit.

Lemma seal_opens c st now conf text toktype status token st' c' :
  sender c -> prng_wf st -> text_ok text -> toktype = KG_TOK_SEAL_MSG \/ toktype = KG_TOK_SIGN_MSG ->
  kg_seal now st c conf 0 text toktype = (Ok (status, token), st', c') ->
  c' = set_seq_send c (uint32 (gc_seq_send c + 1)) /\ prng_wf st' /\
  forall r now' st2 message, peer c r -> now' <= gc_endtime r -> (toktype = KG_TOK_SIGN_MSG -> message = text) ->
    kg_unseal now' st2 r token message toktype =
    let '(status, q) := g_order_check (gc_seqstate r) (gc_seq_send c) in
    (Ok (status, text, (toktype =? KG_TOK_SEAL_MSG) && conf), st2, set_seqstate r q).
Proof.
  intros [HG HS HM] HW (Ht & Hl & Hm) HT E. unfold kg_seal in E. cbn [Z.eqb negb] in E. destruct (negb (gc_established c)); [done|].
  destruct (make_seal_token_v1 _ _ _ _ _ _ _ _ _ _ _ _ _) as [[[tok n]| | |] st1] eqn:EM; try done. injection E as <- <- <- <-.
  pose proof (padding_range text) as HP. pose proof (zlen_nonneg text) as H0.
  assert (HZ : message_size text conf (gc_big_endian c) <= malloc_limit) by (unfold message_size; destruct (_ && _); lia).
  assert (HI : is_int 32 (int32 (gc_seq_send c))) by (unfold is_int, to_int; pose proof (Z.mod_pos_bound (gc_seq_send c + 2 ^ (32 - 1)) (2 ^ 32)); lia).
  assert (SP : forall r, same_keys c r -> _) by (intros r HR; exact (seal_parts c r HG HR text Ht Hl conf toktype _ _ _ _ _ HW HZ HI EM)).
  assert (HC : same_keys c c) by done. destruct (SP c HC) as (_ & En & _ & HW1). split; [|split; [done|]].
  { by rewrite En, seq_incremented. }
  intros r now' st2 message HPe Hn Hmsg. destruct (SP r (proj1 HPe)) as (TP & _).
  rewrite (parts_open c r HG (proj1 HPe) text Hl conf toktype HT Hm _ _ _ _ _ TP HPe HM Hn).
  - rewrite uint32_int32. unfold to_uint. by rewrite Z.mod_small.
  - intros EI. apply Hmsg. destruct HT as [->|]; done.
Qed.

(** ** Streams of tokens *)

Fixpoint wrap_all (now : Z) (st : prng) (c : krb5_gss_ctx_id_rec) (ms : list (list octet * bool)) : option (list (list octet)) :=
  match ms with
  | [] => Some []
  | (text, conf) :: ms =>
      match krb5_gss_wrap now st c conf 0 text with
      | (Ok (_, token), st, c) => cons token <$> wrap_all now st c ms
      | _ => None
      end
  end.

Fixpoint unwrap_all (now : Z) (st : prng) (r : krb5_gss_ctx_id_rec) (tokens : list (list octet))
    : list (outcome gss_error (gss_status * list octet * bool)) :=
  match tokens with
  | [] => []
  | token :: tokens => let '(res, st, r) := krb5_gss_unwrap now st r token in res :: unwrap_all now st r tokens
  end.

(** What the network delivers: some of the elements, in any order, some more than once. *)
Definition deliver {A} (l : list A) (ix : list nat) : list A := omap (fun i => l !! i) ix.

Lemma set_seqstate_peer c r q : peer c r -> peer c (set_seqstate r q).
Proof. done. Qed.
Lemma set_seq_send_sender c n : sender c -> is_uint 32 n -> sender (set_seq_send c n).
Proof. intros [? ? ?] ?. by split. Qed.

(** A token opens with number [n]. *)
Definition opens_as (c : krb5_gss_ctx_id_rec) (n : Z) (m : list octet * bool) (token : list octet) : Prop :=
  forall r now st, peer c r -> now <= gc_endtime r ->
    krb5_gss_unwrap now st r token =
    let '(status, q) := g_order_check (gc_seqstate r) n in (Ok (status, m.1, m.2), st, set_seqstate r q).

Lemma wrap_all_opens ms : forall now st c tokens, sender c -> prng_wf st -> Forall (fun m => text_ok m.1) ms ->
  wrap_all now st c ms = Some tokens ->
  length tokens = length ms /\
  forall i m token, ms !! i = Some m -> tokens !! i = Some token -> opens_as c (uint32 (gc_seq_send c + Z.of_nat i)) m token.
Proof.
  induction ms as [|[text conf] ms IH]; intros now st c tokens HS HW HF E; cbn [wrap_all] in E; [by injection E as <-|].
  apply Forall_cons_1 in HF as [Ht HF]. destruct (krb5_gss_wrap _ _ _ _ _ _) as [[[[s token]| | |] st1] c1] eqn:EW; try done.
  apply (seal_opens c) in EW as (-> & HW1 & HO); [|done|done|done|by left].
  destruct (wrap_all _ _ _ ms) as [tokens'|] eqn:EA; [|done]. injection E as <-.
  assert (HU : is_uint 32 (uint32 (gc_seq_send c + 1))) by (apply Z.mod_pos_bound; lia).
  destruct (IH _ _ _ _ (set_seq_send_sender _ _ HS HU) HW1 HF EA) as [HL HI]. split; [cbn; by rewrite HL|].
  intros [|i] m t Hm Ht'; cbn in Hm, Ht'.
  - injection Hm as <-. injection Ht' as <-. intros r now' st2 HP Hn. unfold krb5_gss_unwrap. rewrite HO; [|done..].
    rewrite Z.add_0_r. replace (uint32 (gc_seq_send c)) with (gc_seq_send c) by (symmetry; apply Z.mod_small, HS). done.
  - specialize (HI i m t Hm Ht'). cbn [gc_seq_send set_seq_send] in HI.
    replace (uint32 (gc_seq_send c + Z.of_nat (S i))) with (uint32 (uint32 (gc_seq_send c + 1) + Z.of_nat i)); [exact HI|].
    unfold to_uint. rewrite Zplus_mod_idemp_l. f_equal. lia.
Qed.

Lemma unwrap_all_delivered c ms tokens F : (forall i m token, ms !! i = Some m -> tokens !! i = Some token -> opens_as c (uint32 (F + Z.of_nat i)) m token) ->
  length tokens = length ms -> forall ix r now st, peer c r -> now <= gc_endtime r -> Forall (fun i => (i < length ms)%nat) ix ->
  unwrap_all now st r (deliver tokens ix) =
  zip_with (fun status m => Ok (status, m.1, m.2)) (g_order_run (gc_seqstate r) ((fun i => uint32 (F + Z.of_nat i)) <$> ix)).1 (deliver ms ix).
Proof.
  intros HO HL. induction ix as [|i ix IH]; intros r now st HP Hn HF; [done|]. apply Forall_cons_1 in HF as [Hi HF].
  unfold deliver in *. cbn [omap list_omap]. destruct (lookup_lt_is_Some_2 ms i Hi) as [m Em].
  destruct (lookup_lt_is_Some_2 tokens i ltac:(lia)) as [t Et]. rewrite Em, Et. cbn [unwrap_all fmap list_fmap g_order_run].
  rewrite (HO i m t Em Et r now st HP Hn). destruct (g_order_check _ _) as [status q]. specialize (IH (set_seqstate r q) now st HP Hn HF).
  cbn [gc_seqstate set_seqstate] in IH. rewrite IH. destruct (g_order_run q _) as [sts q']. done.
Qed.

(** C9: The tokens that krb5_gss_wrap makes for a list of messages, with DES or triple
    DES, sealed or in the clear, delivered to the peer in any order, some more than
    once, some never: krb5_gss_unwrap returns for each the text and the confidentiality
    of its message, with the status that the window of sequence numbers, the
    specification of the queue, gives it. The peer's context has the same keys, is not
    expired, detects replays or checks the sequence (or both), starts at the sender's
    number, which is at least 1, and the numbers of the messages do not wrap around at
    2^32; each message has less than 2^30 octets and fits the memory. *)
Theorem gss_stream now st c ms tokens r now' st2 el replay sequence ix :
  sender c -> prng_wf st -> Forall (fun m => text_ok m.1) ms -> wrap_all now st c ms = Some tokens ->
  peer c r -> now' <= gc_endtime r -> zlen el = QUEUE_LENGTH -> replay || sequence = true ->
  g_order_init (Some el) (gc_seq_send c) replay sequence = Ok (gc_seqstate r) ->
  1 <= gc_seq_send c -> gc_seq_send c + zlen ms <= max_num -> Forall (fun i => (i < length ms)%nat) ix ->
  unwrap_all now' st2 r (deliver tokens ix) =
  zip_with (fun status m => Ok (status, m.1, m.2))
    (window_run replay sequence [gc_seq_send c - 1] ((fun i => gc_seq_send c + Z.of_nat i) <$> ix)).1 (deliver ms ix).
Proof.
  intros HS HW HF E HP Hn Hel Hm Hq H1 H2 Hix. destruct (wrap_all_opens ms now st c tokens HS HW HF E) as [HL HO].
  rewrite (unwrap_all_delivered c ms tokens (gc_seq_send c) HO HL ix r now' st2 HP Hn Hix).
  set (F := gc_seq_send c) in *. unfold zlen in H2.
  destruct (order_init_inv el F replay sequence Hel) as (q & Eq & HI & Hc & Er & Es & Ef); [lia|]. rewrite Eq in Hq. injection Hq as <-.
  assert (EM : (fun i => uint32 (F + Z.of_nat i)) <$> ix = (fun i => F + Z.of_nat i) <$> ix).
  { apply list_fmap_ext. intros k i Hk. apply Z.mod_small. pose proof (Forall_lookup_1 _ _ _ _ Hix Hk). unfold max_num in *. lia. }
  rewrite EM. pose proof (run_window ((fun i => F + Z.of_nat i) <$> ix) q HI) as HR. rewrite Er, Es, Hc in HR. rewrite <- HR; [done|done|].
  apply Forall_fmap. eapply Forall_impl; [|exact Hix]. intros i Hi. unfold compose, in_range. cbv beta in Hi. rewrite Ef. lia.
Qed.

Lemma deliver_all {A} (l : list A) : deliver l (seq 0 (length l)) = l.
Proof.
  unfold deliver. induction l as [|x l IH]; [done|]. cbn [length seq omap list_omap lookup list_lookup]. f_equal.
  rewrite <- IH at 2. rewrite <- fmap_S_seq. generalize (seq 0 (length l)). clear. induction l0 as [|i ix IH]; [done|].
  cbn [fmap list_fmap omap list_omap]. change ((x :: l) !! S i) with (l !! i). destruct (l !! i); by rewrite IH.
Qed.

(** Tokens that arrive in the order in which krb5_gss_wrap made them are all accepted
    with GSS_S_COMPLETE and their texts, from any first sequence number and across its
    wrap-around, with or without detection of replays. *)
Theorem gss_in_order now st c ms tokens r now' st2 el replay sequence :
  sender c -> prng_wf st -> Forall (fun m => text_ok m.1) ms -> wrap_all now st c ms = Some tokens ->
  peer c r -> now' <= gc_endtime r -> zlen el = QUEUE_LENGTH ->
  g_order_init (Some el) (gc_seq_send c) replay sequence = Ok (gc_seqstate r) ->
  unwrap_all now' st2 r tokens = (fun m => Ok (GSS_S_COMPLETE, m.1, m.2)) <$> ms.
Proof.
  intros HS HW HF E HP Hn Hel Hq. destruct (wrap_all_opens ms now st c tokens HS HW HF E) as [HL HO].
  rewrite <- (deliver_all tokens), HL, (unwrap_all_delivered c ms tokens (gc_seq_send c) HO HL _ r now' st2 HP Hn), deliver_all.
  2: { apply Forall_forall. intros i Hi%in_seq. lia. }
  destruct (init_run_in_order el (gc_seq_send c) replay sequence (length ms) Hel (sd_seq _ HS)) as (q & Eq & ER).
  rewrite Eq in Hq. injection Hq as <-. rewrite ER. clear. induction ms as [|m ms IH]; [done|]. cbn. by rewrite IH.
Qed.

(** ** A signature is always made *)

Lemma kg_encrypt_total k usage iv inp st : good_key k -> octets_opt iv -> match iv with Some v => 8 <= zlen v | None => True end ->
  octets inp -> zlen inp mod 8 = 0 -> 8 <= malloc_limit -> exists c, kg_encrypt (Key ENCTYPE_DES_CBC_RAW k) usage iv inp st = (Ok c, st).
Proof.
  intros HK Hi Hv Ho Hz HM. unfold kg_encrypt, sbind, sret.
  assert (HC : exists ivd, copy_iv (Key ENCTYPE_DES_CBC_RAW k) iv = Ok ivd /\ octets_opt ivd /\ match ivd with Some v => zlen v = 8 | None => True end).
  { destruct iv as [mem|]; [|by exists None]. cbn [copy_iv key_enctype]. change (krb5_c_block_size ENCTYPE_DES_CBC_RAW) with (Ok (E := error_code) 8).
    cbn [obind]. destruct (malloc_ok 8) as (b & -> & _); [lia|]. destruct (slice_ok (E := error_code) mem 0 8) as (l & E & L); [lia..|].
    rewrite E. exists (Some l). split_and!; [done|exact (slice_octets _ _ _ _ Hi E)|done]. }
  destruct HC as (ivd & -> & Oi & Li). destruct (des_encrypts k ENCTYPE_DES_CBC_RAW ivd inp HK Oi Ho Hz Li) as (c & E & _).
  exists c. unfold krb5_c_encrypt. change (find_enctype (key_enctype (Key ENCTYPE_DES_CBC_RAW k)))
    with (Some (Keytype ENCTYPE_DES_CBC_RAW ENC_DES Raw DES_STRING_TO_KEY)). cbn [kt_mode kt_enc enc_provider]. unfold krb5_raw_encrypt.
  cbn [krb5_enc_des enc_encrypt]. by rewrite E.
Qed.

Lemma des_cksum_total k oid data junk st : good_key k -> 8 <= malloc_limit ->
  exists ck, token_cksum (Key ENCTYPE_DES_CBC_RAW k) SGN_ALG_DES_MAC_MD5 8 oid data junk st = (Ok ck, st) /\ zlen ck = 8 /\ octets ck.
Proof.
  intros HK HM. unfold token_cksum. cbn [Z.eqb orb SGN_ALG_DES_MAC_MD5]. unfold sbind, sret.
  destruct (md5_cksum (Key ENCTYPE_DES_CBC_RAW k) data) as [_ HD].
  assert (HX : exists d, krb5_c_make_checksum st CKSUMTYPE_RSA_MD5 (Key ENCTYPE_DES_CBC_RAW k) KG_USAGE_SIGN data = (Ok d, st))
    by (eexists; reflexivity).
  destruct HX as (d & E1). rewrite E1. destruct (HD _ _ _ E1) as [LD OD]. pose proof HK as (OK & LK & _).
  destruct (kg_encrypt_total k KG_USAGE_SEAL (if bool_decide (oid = gss_mech_krb5_old) then Some k else None) d st HK ltac:(by case_bool_decide)
    ltac:(case_bool_decide; [unfold zlen; lia|done]) OD ltac:(by rewrite LD) HM) as (mac & EM).
  unfold mac_of_digest. cbn [key_contents]. rewrite EM.
  apply kg_encrypt_ok in EM as (_ & LM & OM & _); [|by apply raw_des|by case_bool_decide|done].
  destruct (slice_ok (E := error_code) mac (16 - 8) 8) as (l & E & L); [lia..|]. rewrite E. exists l.
  split_and!; [done|done|exact (slice_octets _ _ _ _ OM E)].
Qed.

Lemma des_mic_total enc k n dir text encrypt bigend oid st : good_key k -> octets text -> zlen text + 128 <= malloc_limit -> 256 <= malloc_limit ->
  zlen text < 2 ^ 30 -> zlen oid < 128 -> is_int 32 (n + 1) ->
  exists token, make_seal_token_v1 enc (Key ENCTYPE_DES_CBC_RAW k) n dir text SGN_ALG_DES_MAC_MD5 8 SEAL_ALG_DES encrypt KG_TOK_SIGN_MSG bigend oid st =
    (Ok (token, n + 1), st).
Proof.
  intros HK Ot HM HM2 Lt Lo Hn. unfold make_seal_token_v1. pose proof (zlen_nonneg oid) as O0. pose proof (zlen_nonneg text) as T0.
  change (negb (((SGN_ALG_DES_MAC_MD5 =? SGN_ALG_DES_MAC_MD5) || (SGN_ALG_DES_MAC_MD5 =? SGN_ALG_MD2_5) || (SGN_ALG_DES_MAC_MD5 =? SGN_ALG_HMAC_MD5) ||
    (SGN_ALG_DES_MAC_MD5 =? SGN_ALG_DES_MAC) || (SGN_ALG_DES_MAC_MD5 =? SGN_ALG_HMAC_SHA1_DES3_KD)) &&
    ((SEAL_ALG_DES =? SEAL_ALG_NONE) || (SEAL_ALG_DES =? SEAL_ALG_DES) || (SEAL_ALG_DES =? SEAL_ALG_DES3KD)))) with false.
  change (KG_TOK_SIGN_MSG =? KG_TOK_SEAL_MSG) with false. change (SGN_ALG_DES_MAC_MD5 =? SGN_ALG_DES_MAC) with false. cbn [andb].
  change (14 + 8 + 0) with 22. rewrite (token_size_ok oid 22 KG_TOK_SIGN_MSG) by lia. set (header := g_make_token_header oid 22 KG_TOK_SIGN_MSG).
  assert (HL : zlen header = 1 + der_length_size (4 + zlen oid + 22) + 4 + zlen oid) by (apply token_header_length; lia).
  assert (HS : 1 <= der_length_size (4 + zlen oid + 22) <= 5) by (unfold der_length_size; repeat case_match; lia).
  destruct (malloc_ok (size_t (zlen header + 22))) as (t & -> & _); [rewrite size_t_id; lia|].
  unfold sbind at 1. unfold sret at 1. cbn [fst snd].
  destruct (malloc_ok (size_t (8 + zlen text))) as (b & -> & _); [rewrite size_t_id; lia|].
  set (head := [_; _; _; _; _; _]). set (data := drop _ _ ++ head ++ text). set (junk := take _ _).
  destruct (des_cksum_total k oid data junk st HK ltac:(lia)) as (ck & EC & LC & OC). unfold sbind. rewrite EC. unfold kg_make_seq_num.
  set (d := if dir then 0 else 255). assert (Od : is_octet d) by (by destruct dir).
  assert (ON : octets (le32 n ++ [d; d; d; d])).
  { apply Forall_app. split; [apply le32_octets|]. do 4 (apply Forall_cons_2; [done|]). apply Forall_nil_2. }
  rewrite app_nil_r. destruct (kg_encrypt_total k KG_USAGE_SEQ (Some ck) (le32 n ++ [d; d; d; d]) st HK OC ltac:(change (8 <= zlen ck); lia) ON eq_refl ltac:(lia)) as (num & EN).
  rewrite EN. apply kg_encrypt_ok in EN as (_ & LN & _); [|by apply raw_des; destruct HK|done|done].
  exists (header ++ head ++ num ++ ck). change (zlen (le32 n ++ [d; d; d; d])) with 8 in LN.
  assert (LT : zlen (header ++ head ++ num ++ ck) = zlen header + 22) by (rewrite !zlen_app, LN, LC; change (zlen head) with 6; lia).
  rewrite LT, Z.eqb_refl, bool_decide_eq_true_2 by done. done.
Qed.

(** In a DES context with a usable key, krb5_gss_get_mic always makes a token, and
    krb5_gss_verify_mic of the peer accepts it for the message, with the verdict of its
    queue on the sequence number. *)
Theorem mic_delivered now st c text k :
  sender c -> prng_wf st -> text_ok text -> gc_established c = true -> des_algorithms c -> gc_seq c = Key ENCTYPE_DES_CBC_RAW k -> good_key k ->
  gc_seq_send c <> 2 ^ 31 - 1 -> 256 <= malloc_limit ->
  exists status token, krb5_gss_get_mic now st c 0 text = (Ok (status, token), st, set_seq_send c (uint32 (gc_seq_send c + 1))) /\
  forall r now' st2, peer c r -> now' <= gc_endtime r ->
    krb5_gss_verify_mic now' st2 r text token =
    let '(status, q) := g_order_check (gc_seqstate r) (gc_seq_send c) in (Ok (status, text, false), st2, set_seqstate r q).
Proof.
  intros HS HW Ht HE (A1 & A2 & A3) EK HK Hseq HM. destruct Ht as (Ot & Lt & Mt) eqn:EQ; clear EQ.
  assert (HX : exists status token st', krb5_gss_get_mic now st c 0 text = (Ok (status, token), st', set_seq_send c (uint32 (gc_seq_send c + 1))) /\ st' = st).
  { unfold krb5_gss_get_mic, kg_seal. cbn [Z.eqb negb]. rewrite HE. cbn [negb]. rewrite EK, A1, A2, A3.
    assert (HI : is_int 32 (int32 (gc_seq_send c) + 1)).
    { pose proof (sd_seq _ HS) as HU. revert HU Hseq. unfold is_uint, is_int, to_int. change (2 ^ (32 - 1)) with 2147483648.
      change (2 ^ 32) with 4294967296. change (2 ^ 31 - 1) with 2147483647. intros. Z.div_mod_to_equations. lia. }
    destruct (des_mic_total (gc_enc c) k (int32 (gc_seq_send c)) (gc_initiate c) text false (gc_big_endian c) (gc_mech_used c) st HK Ot Mt HM Lt
      (sd_mech _ HS) HI) as (token & ->). eexists _, token, st. split; [|done]. do 2 f_equal. by rewrite seq_incremented. }
  destruct HX as (status & token & st' & E & ->). exists status, token. split; [done|].
  intros r now' st2 HP Hn. apply (seal_opens c) in E as (_ & _ & HO); [|done|done|done|by right].
  unfold krb5_gss_verify_mic. rewrite HO by done. by destruct (g_order_check _ _).
Qed.

(** ** Sizes *)

Lemma land_minus8 x : 0 <= x -> x - 8 < Z.land x (-8) <= x.
Proof.
  intros Hx. change (-8) with (Z.lnot (Z.ones 3)). rewrite <- Z.ldiff_land, Z.ldiff_ones_r by lia.
  rewrite Z.shiftr_div_pow2, Z.shiftl_mul_pow2 by lia. change (2 ^ 3) with 8. Z.div_mod_to_equations. lia.
Qed.

Lemma land_minus8_32 x : is_uint 32 x -> Z.land x (uint32 (-8)) = Z.land x (-8).
Proof.
  intros Hx. change (uint32 (-8)) with (Z.land (Z.ones 32) (-8)). rewrite Z.land_assoc, Z.land_ones by lia.
  by rewrite Z.mod_small.
Qed.

Lemma der_length_mono a b : a <= b -> 1 <= der_length_size a <= der_length_size b /\ der_length_size b <= 5.
Proof. intros H. unfold der_length_size. change (Z.shiftl 1 7) with 128. change (Z.shiftl 1 8) with 256.
  change (Z.shiftl 1 16) with 65536. change (Z.shiftl 1 24) with 16777216. repeat case_match; lia. Qed.

(** The size of a token. *)
Lemma wrap_size c st now conf text status token st' c' : sender c -> prng_wf st -> text_ok text ->
  krb5_gss_wrap now st c conf 0 text = (Ok (status, token), st', c') ->
  let n := 14 + gc_cksum_size c + message_size text conf (gc_big_endian c) in
  zlen token = 1 + der_length_size (4 + zlen (gc_mech_used c) + n) + 4 + zlen (gc_mech_used c) + n.
Proof.
  intros [HG HS HM] HW (Ht & Hl & Hm) E. unfold krb5_gss_wrap, kg_seal in E. cbn [Z.eqb negb] in E. destruct (negb (gc_established c)); [done|].
  destruct (make_seal_token_v1 _ _ _ _ _ _ _ _ _ _ _ _ _) as [[[tok n]| | |] st1] eqn:EM; try done. injection E as <- <- <- <-.
  pose proof (padding_range text) as HP. pose proof (zlen_nonneg text) as H0. pose proof (zlen_nonneg (gc_mech_used c)).
  assert (HZ : 0 <= message_size text conf (gc_big_endian c) <= zlen text + 16) by (unfold message_size; destruct (_ && _); lia).
  assert (HCK : 8 <= gc_cksum_size c <= 20) by (destruct (good_keys_cases c HG) as (_ & _ & [(_ & -> & _)|(_ & -> & _)]); lia).
  apply (seal_parts c c HG) in EM as (TP & _); [|done|done|done|done|lia|].
  - destruct TP as [num ck msg cov -> LN _ LC _ LM _ _]. cbn [Z.eqb] in LM. change (KG_TOK_SEAL_MSG =? KG_TOK_SEAL_MSG) with true in *. cbv iota in *.
    rewrite zlen_app, token_header_length by lia. rewrite !zlen_app, LN, LC, LM. change (zlen (head_of c _)) with 6. cbv zeta. lia.
  - unfold is_int, to_int. pose proof (Z.mod_pos_bound (gc_seq_send c + 2 ^ (32 - 1)) (2 ^ 32)). lia.
Qed.

(** C12: A message of at least one octet that is not longer than the limit that
    krb5_gss_wrap_size_limit gives for a size below 2^30, with the default quality of
    protection, and for which there is memory, is wrapped by krb5_gss_wrap in a token of
    at most that size, sealed or in the clear. The empty message, for which a limit of 0
    promises nothing, is not covered. *)
Theorem wrap_size_limit_fits c st now conf text status token st' c' req n :
  sender c -> prng_wf st -> text_ok text -> 0 <= req < 2 ^ 30 ->
  krb5_gss_wrap_size_limit c 0 req = Ok n -> 0 < zlen text <= n ->
  krb5_gss_wrap now st c conf 0 text = (Ok (status, token), st', c') -> zlen token <= req.
Proof.
  intros HS HW Ht Hr EL Hn E. pose proof (wrap_size _ _ _ _ _ _ _ _ _ HS HW Ht E) as LT. cbv zeta in LT. rewrite LT. clear LT E.
  destruct HS as [HG _ HM]. pose proof (padding_range text) as HP. pose proof (zlen_nonneg text) as H0. pose proof (zlen_nonneg (gc_mech_used c)) as M0.
  assert (HZ : 0 <= message_size text conf (gc_big_endian c) <= zlen text + 16) by (unfold message_size; destruct (_ && _); lia).
  destruct (good_keys_cases c HG) as (HRE & _ & HA). assert (HCK : 8 <= gc_cksum_size c <= 20) by (destruct HA as [(_ & -> & _)|(_ & -> & _)]; lia).
  unfold krb5_gss_wrap_size_limit in EL. cbn [Z.eqb negb] in EL. destruct (negb _); [done|].
  unfold kg_confounder_size in EL. rewrite raw_block in EL by done. change (uint32 8) with 8 in EL.
  assert (U : forall x, 0 <= x < 2 ^ 32 -> uint32 x = x) by (intros x Hx; by apply Z.mod_small).
  rewrite (U (8 + req + 8)), land_minus8_32 in EL by (unfold is_uint; lia). pose proof (land_minus8 (8 + req + 8) ltac:(lia)) as HD.
  set (d := Z.land (8 + req + 8) (-8)) in *. rewrite (U (d + gc_cksum_size c + 14)), (token_size_ok _ _ KG_TOK_SEAL_MSG), token_header_length in EL by lia.
  set (big := 4 + zlen (gc_mech_used c) + (d + gc_cksum_size c + 14)) in *. set (mech := zlen (gc_mech_used c)) in *.
  destruct (der_length_mono (4 + mech + (14 + gc_cksum_size c + message_size text conf (gc_big_endian c))) (Z.max big (4 + mech + (14 + gc_cksum_size c + message_size text conf (gc_big_endian c))))) as [HM1 HM2]; [lia|].
  pose proof (der_length_mono big big ltac:(lia)) as [HB1 HB2].
  set (oh := 1 + der_length_size big + 4 + mech + (d + gc_cksum_size c + 14) - req) in *. assert (Hoh : 0 <= oh <= 512) by lia.
  rewrite (U oh), (U (oh + (7 + mech))) in EL by lia. destruct (Z.ltb_spec (oh + (7 + mech)) req) as [HR|]; [|injection EL as <-; lia].
  rewrite (U (req - oh - (7 + mech))), land_minus8_32 in EL by (unfold is_uint; lia). pose proof (land_minus8 (req - oh - (7 + mech)) ltac:(lia)) as HN.
  injection EL as EL. rewrite EL in HN. rewrite Z.max_l in HM1 by lia. lia.
Qed.

(** ** Tokens that the code does not survive *)

(** A token whose body has less than six octets is read beyond its end, and one that
    names the algorithm MD2.5 makes a DES context free a pointer that was never set;
    both before any checksum is verified. *)
Theorem unseal_faults now st r message body toktype :
  gc_established r = true -> zlen (gc_mech_used r) < 128 -> zlen body < 2 ^ 20 -> des_algorithms r ->
  zlen body < 6 \/ (toktype = KG_TOK_SIGN_MSG /\ take 6 body = [1; 0; 0xff; 0xff; 0xff; 0xff]) ->
  kg_unseal now st r (g_make_token_header (gc_mech_used r) (zlen body) toktype ++ body) message toktype = (Undefined, st, r).
Proof.
  intros HE HM HB (A1 & A2 & A3) H. pose proof (zlen_nonneg (gc_mech_used r)) as M0. pose proof (zlen_nonneg body) as B0.
  unfold kg_unseal. rewrite HE. cbn [negb]. rewrite (header_roundtrip _ body toktype HM) by lia.
  set (header := g_make_token_header _ _ _). unfold kg_unseal_v1. pose proof (zlen_nonneg header) as H0. destruct H as [H|[-> H]].
  - rewrite slice_short; [done|lia|lia|]. rewrite zlen_app. lia.
  - assert (ES : slice (E := gss_error) (header ++ body) (zlen header) 6 = Ok [1; 0; 0xff; 0xff; 0xff; 0xff]).
    { rewrite <- (take_drop 6 body), H. by apply slice_mid. }
    rewrite ES. cbn [obind]. unfold check_algorithms. rewrite A3. reflexivity.
Qed.

End seal.

(** ** The keys of the two sides *)

(** The acceptor, when it takes the key of a session, derives from it what the initiator
    does; a key of type DES_CBC_MD4 it refuses, though the initiator has taken it. *)
Lemma session_keys_agree subkey :
  (forall keys, acceptor_keys subkey = Ok keys -> initiator_keys subkey = Ok keys) /\
  (key_enctype subkey = ENCTYPE_DES_CBC_MD4 -> initiator_keys subkey = Ok (des_keys subkey) /\ acceptor_keys subkey = Err KRB5_BAD_ENCTYPE).
Proof.
  unfold acceptor_keys, initiator_keys. split; [|intros ->; done]. intros keys. destruct (_ =? ENCTYPE_DES_CBC_MD5), (_ =? ENCTYPE_DES_CBC_CRC); cbn [orb];
    rewrite ?orb_true_r; [done..|]. destruct (Z.eqb_spec (key_enctype subkey) ENCTYPE_DES_CBC_MD4) as [->|]; done.
Qed.
