(* ===== verification/Asn1Proofs.v ===== *)
(** * The coding buffer refines an octet string

    The abstract specification of the buffer in encoding mode is an octet string that
    grows at its front.  Every sequence of insertions into a fresh buffer refines it. *)

From S2P Require Import Prelude Asn1Buf Codec CodecMsg Asn1Tag GmTime Asn1Prim Krb5Types Asn1KEncode Asn1KDecode Krb5Decode Der CodecRead CodecPrim.

(** The operations encoders perform on the buffer. *)
Inductive bufop : Type :=
| InsertOctet (o : Z)
| InsertOctetstring (s : list octet)
| InsertCharstring (s : list octet).

Section Refinement.
Context `{P : Platform}.

(** The operation on the array with its pointers. *)
Definition run_op (op : bufop) (buf : codebuf) : outcome enc_error codebuf :=
  match op with
  | InsertOctet o => asn1buf_insert_octet buf o
  | InsertOctetstring s => asn1buf_insert_octetstring buf (zlen s) (Some s)
  | InsertCharstring s => asn1buf_insert_charstring buf (zlen s) (Some s)
  end.

Fixpoint run_ops (ops : list bufop) (buf : codebuf) : outcome enc_error codebuf :=
  match ops with
  | [] => Ok buf
  | op :: ops => let* buf := run_op op buf in run_ops ops buf
  end.

(** The octets an operation puts in front of the string. *)
Definition op_octets (op : bufop) : list octet :=
  match op with
  | InsertOctet o => [octet_of o]
  | InsertOctetstring s | InsertCharstring s => s
  end.

Fixpoint spec_ops (ops : list bufop) (code : list octet) : list octet :=
  match ops with
  | [] => code
  | op :: ops => spec_ops ops (op_octets op ++ code)
  end.

Definition wf_op (op : bufop) : Prop :=
  match op with
  | InsertOctet _ => True
  | InsertOctetstring s | InsertCharstring s => octets s
  end.

(** One operation: the simulation step. *)
Lemma run_op_inserts op buf code :
  wf_op op -> cb_rep buf code -> inserts (run_op op buf) code (op_octets op).
Proof.
  intros Hw Hr. destruct op as [o|s|s]; simpl in *.
  - by apply asn1buf_insert_octet_rep.
  - by apply asn1buf_insert_octetstring_rep.
  - by apply (asn1buf_insert_octetstring_rep buf code s).
Qed.

Lemma spec_ops_grow ops code : zlen code <= zlen (spec_ops ops code).
Proof.
  revert code. induction ops as [|op ops IH]; intros code; simpl; [lia|].
  specialize (IH (op_octets op ++ code)). lens.
Qed.

Lemma run_ops_refines ops buf code :
  Forall wf_op ops -> cb_rep buf code ->
  (exists buf', run_ops ops buf = Ok buf' /\ cb_rep buf' (spec_ops ops code)) \/
  (run_ops ops buf = Err (ENOMEM, false) /\
   code_limit < zlen (spec_ops ops code) + STANDARD_INCREMENT).
Proof.
  intros H. revert buf code. induction H as [|op ops Hop _ IH]; intros buf code Hr; simpl; [eauto|].
  destruct (run_op_inserts op buf code Hop Hr) as [(b & -> & Hb)|[-> Hm]]; cbn [obind].
  - by apply IH.
  - right. split; [done|]. unfold cb_fits in Hm.
    pose proof (spec_ops_grow ops (op_octets op ++ code)). lens.
Qed.

(** An allocation fails only for want of memory. *)
Lemma malloc_cases n : 0 <= n ->
  (exists block, malloc n = Some block /\ n <= malloc_limit) \/ malloc n = None /\ malloc_limit < n.
Proof.
  intros H. unfold malloc. destruct (Z.leb_spec 0 n); [|lia].
  destruct (Z.leb_spec n malloc_limit); cbn [andb]; [left; by eexists|by right].
Qed.

(** The result of a finished encoding. *)
Lemma asn12krb5_buf_total buf bs : cb_rep buf bs ->
  asn12krb5_buf buf = Ok (code_of bs) \/
  asn12krb5_buf buf = Err (ENOMEM, false) /\ code_limit < zlen bs + STANDARD_INCREMENT.
Proof.
  intros Hr. pose proof (zlen_nonneg bs) as H0. unfold code_limit, STANDARD_INCREMENT.
  assert (HS : 0 <= sizeof_krb5_data <= 16) by (unfold sizeof_krb5_data; destruct sizeof_long_ok; lia).
  destruct (malloc_cases sizeof_krb5_data) as [(? & E1 & H1)|[E1 H1]]; [lia| |].
  - destruct (malloc_cases (zlen bs + 1)) as [(? & _ & H2)|[E2 H2]]; [lia|left; by apply asn12krb5_buf_ok|right].
    split; [|lia]. unfold asn12krb5_buf, asn1buf_len. by rewrite (cb_rep_next _ _ Hr), E1, E2.
  - right. split; [|lia]. unfold asn12krb5_buf. by rewrite E1.
Qed.

(** C38: Any sequence of insertions of octets into the buffer that [asn1buf_create]
    makes, followed by [asn12krb5_buf], yields exactly the octet string of the
    specification with a NUL behind it, whatever reallocations happen on the way; the
    only other outcome of the whole, the creation of the buffer and the making of the
    result included, is [ENOMEM], and only when the string and one growth step exceed
    what the allocator can give or an int can hold. *)
Theorem asn1buf_refines_octet_string ops :
  Forall wf_op ops ->
  let code := spec_ops ops [] in
  let result := let* buf := asn1buf_create in let* buf := run_ops ops buf in asn12krb5_buf buf in
  result = Ok (code_of code) \/
  result = Err (ENOMEM, false) /\ code_limit < zlen code + STANDARD_INCREMENT.
Proof.
  intros H. cbv zeta. pose proof (zlen_nonneg (spec_ops ops [])) as H0.
  assert (HS : 0 <= sizeof_asn1buf <= 24) by (unfold sizeof_asn1buf; destruct sizeof_long_ok; lia).
  unfold asn1buf_create. destruct (malloc_cases sizeof_asn1buf) as [(? & -> & _)|[-> HL]]; cbn [obind]; [lia| |];
    [|right; split; [done|unfold code_limit, STANDARD_INCREMENT; lia]].
  destruct (run_ops_refines ops empty_codebuf [] H cb_rep_create) as [(b & -> & Hb)|[-> ?]]; cbn [obind]; [|by right].
  by apply asn12krb5_buf_total.
Qed.

(** When the array of a buffer cannot grow it is lost: base is NULL afterwards, while
    realloc has not freed what it pointed to. *)
Theorem expand_loses_array buf arr inc e :
  cb_base buf = Some arr -> asn1buf_expand buf inc = Err e -> cb_base (asn1buf_expand_struct buf inc).2 = None.
Proof. intros _. unfold asn1buf_expand, asn1buf_expand_struct. by destruct (match cb_base buf with None => _ | Some _ => _ end). Qed.

End Refinement.

(** * Identifier and length octets: safety, and how far tags round trip

    [asn1_get_tag_indef] on arbitrary octets stays inside the buffer, terminates and
    fails only with [ASN1_OVERRUN].  What [asn1_make_tag] writes for a tag number below
    128 it reads back; a number from 128 on is misread. *)

Section Safety.
Context `{P : Platform}.

(** The part of the code a buffer may still read lies inside the code. *)
Definition valid (e : denv) (buf : asn1buf) : Prop :=
  0 <= next buf /\ bound buf < zlen (de_mem e).

(** [buf'] is [buf] with some octets consumed, none of them behind the bound. *)
Definition consumed (buf buf' : asn1buf) : Prop :=
  base buf' = base buf /\ bound buf' = bound buf /\
  next buf <= next buf' /\ (next buf' <= bound buf + 1 \/ next buf' = next buf).

(** A result that is no undefined behaviour, consumes octets properly, and whose only
    error is the end of the buffer. *)
Definition reads {A} (buf : asn1buf) (r : outcome error_code (A * asn1buf)) : Prop :=
  match r with
  | Ok (_, buf') => consumed buf buf'
  | Err c => c = ASN1_OVERRUN
  | Undefined | OutOfFuel => False
  end.

Lemma load_in m p : 0 <= p < zlen m -> exists o, load m p = Some o.
Proof.
  intros Hp. unfold load. destruct (Z.ltb_spec p 0); [lia|].
  destruct (lookup_lt_is_Some_2 m (Z.to_nat p)) as [o ->]; [unfold zlen in Hp; lia|eauto].
Qed.

Lemma consumed_refl buf : consumed buf buf.
Proof. unfold consumed. repeat split; lia || auto. Qed.

Lemma consumed_trans a b c : consumed a b -> consumed b c -> consumed a c.
Proof. unfold consumed. lia. Qed.

Lemma valid_consumed e a b : valid e a -> consumed a b -> valid e b.
Proof. unfold valid, consumed. lia. Qed.

Lemma remove_octet_reads e buf :
  valid e buf ->
  (exists o, asn1buf_remove_octet e buf = Ok (o, advance buf 1) /\ next buf <= bound buf) \/
  asn1buf_remove_octet e buf = Err ASN1_OVERRUN.
Proof.
  intros [H0 Hb]. unfold asn1buf_remove_octet.
  destruct (Z.ltb_spec (bound buf) (next buf)); [by right|].
  destruct (load_in (de_mem e) (next buf)) as [o ->]; [lia|]. left. eauto.
Qed.

Lemma consumed_advance buf : next buf <= bound buf -> consumed buf (advance buf 1).
Proof. unfold consumed, advance. simpl. lia. Qed.

Lemma reads_bind {A B} buf (m : outcome error_code (A * asn1buf)) (k : A * asn1buf -> _) :
  reads buf m -> (forall a b, consumed buf b -> m = Ok (a, b) -> reads (A := B) b (k (a, b))) ->
  reads buf (obind m k).
Proof.
  intros Hm Hk. destruct m as [[a b]| | |]; simpl in *; try done.
  specialize (Hk a b Hm eq_refl). destruct (k (a, b)) as [[? b']| | |]; try done.
  by eapply consumed_trans.
Qed.

Lemma get_high_tag_reads fuel e tn buf :
  valid e buf -> bound buf - next buf + 1 < Z.of_nat fuel -> (0 < fuel)%nat ->
  reads buf (get_high_tag fuel e tn buf).
Proof.
  revert tn buf. induction fuel as [|f IH]; intros tn buf Hv Hf H0; [lia|]. cbn [get_high_tag].
  destruct (remove_octet_reads e buf Hv) as [(o & -> & Hle)| ->]; [|done]. cbn [obind].
  pose proof (consumed_advance buf Hle) as Hc.
  destruct (_ =? 0); [done|].
  assert (Hr : reads (advance buf 1) (get_high_tag f e (int32 (int32 (Z.shiftl tn 7) + Z.land o 127)) (advance buf 1))).
  { apply IH; [by eapply valid_consumed|unfold advance; simpl; lia|lia]. }
  destruct (get_high_tag f e _ _) as [[? b]| | |]; try done. by eapply consumed_trans.
Qed.

Lemma get_length_octets_reads n e len buf :
  valid e buf -> reads buf (get_length_octets n e len buf).
Proof.
  revert len buf. induction n as [|n IH]; intros len buf Hv; [apply consumed_refl|].
  cbn [get_length_octets].
  destruct (remove_octet_reads e buf Hv) as [(o & -> & Hle)| ->]; [|done]. cbn [obind].
  pose proof (consumed_advance buf Hle) as Hc.
  specialize (IH (int32 (int32 (Z.shiftl len 8) + o)) (advance buf 1) (valid_consumed _ _ _ Hv Hc)).
  destruct (get_length_octets n e _ _) as [[? b]| | |]; try done. by eapply consumed_trans.
Qed.

Lemma get_id_reads e buf : valid e buf -> reads buf (asn1_get_id e buf).
Proof.
  intros Hv. unfold asn1_get_id.
  destruct (remove_octet_reads e buf Hv) as [(o & -> & Hle)| ->]; [|done]. cbn [obind].
  pose proof (consumed_advance buf Hle) as Hc. destruct (negb _); [done|].
  assert (Hr : reads (advance buf 1) (get_high_tag
    (S (Z.to_nat (bound (advance buf 1) - next (advance buf 1) + 1))) e 0 (advance buf 1))).
  { apply get_high_tag_reads; [by eapply valid_consumed|lia|lia]. }
  destruct (get_high_tag _ _ _ _) as [[? b]| | |]; try done. cbn [obind]. by eapply consumed_trans.
Qed.

Lemma get_length_reads e buf : valid e buf -> reads buf (asn1_get_length e buf).
Proof.
  intros Hv. unfold asn1_get_length.
  destruct (remove_octet_reads e buf Hv) as [(o & -> & Hle)| ->]; [|done]. cbn [obind].
  pose proof (consumed_advance buf Hle) as Hc. destruct (_ =? 0); [done|].
  pose proof (get_length_octets_reads (Z.to_nat (Z.land o 0x7F)) e 0 (advance buf 1)
                (valid_consumed _ _ _ Hv Hc)) as Hr.
  destruct (get_length_octets _ _ _ _) as [[? b]| | |]; try done. cbn [obind].
  by eapply consumed_trans.
Qed.

(** C39: Reading the tag of a value, from arbitrary octets: the code is never read
    outside the buffer, the loops over the identifier and length octets terminate, the
    only error is [ASN1_OVERRUN], and the buffer ends between where it stood and one
    past its bound. *)
Theorem asn1_get_tag_safe tv e buf :
  valid e buf -> reads buf (asn1_get_tag_indef tv e buf).
Proof.
  intros Hv. unfold asn1_get_tag_indef. destruct (_ <=? 0); [apply consumed_refl|].
  apply reads_bind; [by apply get_id_reads|]. intros [[? ?] ?] b Hb _.
  apply reads_bind; [apply get_length_reads; by eapply valid_consumed|].
  intros [? ?] b' Hb' _. apply consumed_refl.
Qed.

End Safety.

(** ** Round trip of tags *)

Definition is_class (c : Z) : Prop := c = UNIVERSAL \/ c = APPLICATION \/ c = CONTEXT_SPECIFIC \/ c = PRIVATE.
Definition is_construction (c : Z) : Prop := c = PRIMITIVE \/ c = CONSTRUCTED.

(** The identifier octets of tag numbers below 128, and what [asn1_make_id] writes for
    numbers of two groups of seven bits. *)
Definition id_octets (class construction t : Z) : list octet :=
  if t <? 31 then [class + construction + t]
  else if t <? 128 then [class + construction + 31; t]
  else [class + construction + 31; 128 + t / 128; t mod 128].

Section Tags.
Context `{P : Platform}.

Lemma id_first class construction t :
  is_class class -> is_construction construction -> 0 <= t <= 31 ->
  Z.lor (Z.lor class construction) t = class + construction + t /\
  0 <= class + construction + t < 256 /\
  Z.land (class + construction + t) 0xC0 = class /\
  Z.land (class + construction + t) 0x20 = construction /\
  Z.land (class + construction + t) 0x1F = t.
Proof.
  intros Hc Hk Ht.
  assert (Hq : forall o, 0 <= o < 256 -> (negb (o <=? 31) ||
    forallb (fun '(class, construction) =>
      (Z.lor (Z.lor class construction) o =? class + construction + o) &&
      (class + construction + o <? 256) &&
      (Z.land (class + construction + o) 0xC0 =? class) &&
      (Z.land (class + construction + o) 0x20 =? construction) &&
      (Z.land (class + construction + o) 0x1F =? o))
      [(0, 0); (64, 0); (128, 0); (192, 0); (0, 32); (64, 32); (128, 32); (192, 32)])%bool = true)
    by (apply octet_case; by vm_compute).
  specialize (Hq t ltac:(lia)). replace (t <=? 31) with true in Hq by lia.
  cbn [negb orb forallb] in Hq.
  destruct Hc as [-> |[-> |[-> | ->]]], Hk as [-> | ->];
    unfold UNIVERSAL, APPLICATION, CONTEXT_SPECIFIC, PRIVATE, PRIMITIVE, CONSTRUCTED in *; lia.
Qed.

Lemma seven_bits t : 0 <= t < 128 ->
  Z.land t 0x7F = t /\ Z.lor 0x80 t = 128 + t /\ Z.land (128 + t) 0x7F = t /\ Z.land t 0x80 = 0.
Proof.
  intros Ht. assert (Hq : forall o, 0 <= o < 256 -> (negb (o <? 128) ||
    ((Z.land o 0x7F =? o) && (Z.lor 0x80 o =? 128 + o) && (Z.land (128 + o) 0x7F =? o) &&
     (Z.land o 0x80 =? 0)))%bool = true) by (apply octet_case; by vm_compute).
  specialize (Hq t ltac:(lia)). lia.
Qed.

Lemma make_id_octets_ok class construction t :
  is_class class -> is_construction construction -> 0 <= t < 16384 ->
  encodes (asn1_make_id class construction t) (id_octets class construction t).
Proof.
  intros Hc Hk Ht. unfold id_octets.
  destruct (Z.ltb_spec t 31).
  { destruct (id_first class construction t Hc Hk ltac:(lia)) as (E & Hr & _).
    pose proof (asn1_make_id_ok class construction t ltac:(lia)) as He.
    rewrite E, octet_of_id in He by done. done. }
  destruct (id_first class construction 31 Hc Hk ltac:(lia)) as (E & Hr & _).
  assert (Hid : is_octet (class + construction + 31)) by (unfold is_uint; change (2 ^ 8) with 256; lia).
  split.
  { unfold is_uint in *. change (2 ^ 8) with 256 in *.
    destruct (Z.ltb_spec t 128); repeat (constructor; [divlia|]); constructor. }
  intros buf code Hb Hroom. unfold asn1_make_id. destruct (Z.ltb_spec t 31); [lia|].
  rewrite land_127, Z.shiftr_div_pow2 by lia. change (2 ^ 7) with 128.
  destruct (insert_octet_ok buf code (t mod 128)) as (b1 & -> & R1); [done| |].
  { eapply room_le; [done|]. destruct (t <? 128); lens. }
  rewrite octet_of_id in R1 by divlia. cbn [obind].
  destruct (Z.ltb_spec t 128).
  - rewrite (Z.div_small t 128) by lia. cbn [make_id_octets]. simpl (0 =? 0). cbv iota. cbn [obind].
    rewrite (Z.mod_small t) in R1 by lia. rewrite E.
    destruct (insert_octet_ok b1 (t :: code) (class + construction + 31)) as (b2 & -> & R2); [done| |].
    { apply (room_app code [_] [t]). done. }
    rewrite octet_of_id in R2 by done. by exists b2.
  - assert (Hd : 1 <= t / 128 < 128) by divlia.
    destruct (seven_bits (t / 128) ltac:(lia)) as (E1 & E2 & _).
    cbn [make_id_octets]. destruct (Z.eqb_spec (t / 128) 0); [lia|].
    rewrite E1, E2, Z.shiftr_div_pow2 by lia. change (2 ^ 7) with 128.
    rewrite (Z.div_small (t / 128) 128) by lia. simpl (0 =? 0).
    destruct (insert_octet_ok b1 (t mod 128 :: code) (128 + t / 128)) as (b2 & -> & R2); [done| |].
    { apply (room_app code [_] [t mod 128]). eapply room_le; [done|]. simpl. lens. }
    cbv iota. cbn [obind]. rewrite octet_of_id in R2 by lia. rewrite E.
    destruct (insert_octet_ok b2 (128 + t / 128 :: t mod 128 :: code) (class + construction + 31))
      as (b3 & -> & R3); [done| |].
    { apply (room_app code [_] [128 + t / 128; t mod 128]). done. }
    rewrite octet_of_id in R3 by done. by exists b3.
Qed.

Lemma make_tag_octets_ok class construction t n :
  is_class class -> is_construction construction -> 0 <= t < 16384 -> 0 <= n -> n < 2147483648 ->
  encodes (asn1_make_tag class construction t n) (id_octets class construction t ++ der_length n).
Proof.
  intros Hc Hk Ht H0 Hn.
  destruct (encodes_then _ _ _ _ Z.add (asn1_make_length_ok n H0 Hn)
              (make_id_octets_ok class construction t Hc Hk Ht)) as [Ho He].
  split; [done|]. intros buf code Hr Hroom. unfold asn1_make_tag.
  replace (ASN1_TAGNUM_MAX <? t) with false by (unfold ASN1_TAGNUM_MAX, ASN1_TAGNUM_CEILING; lia).
  destruct (He buf code) as (b & -> & Hb); [done..|].
  exists b. split; [by rewrite zlen_app, Z.add_comm|by rewrite <- app_assoc].
Qed.

(** The tag number [asn1_get_id] makes of the octets of [t]. *)
Lemma get_id_ok class construction t e buf rest :
  is_class class -> is_construction construction -> 0 <= t < 16384 ->
  input e buf (id_octets class construction t ++ rest) ->
  asn1_get_id e buf =
  Ok ((class, construction, if t <? 128 then t else t / 128),
      advance buf (if t <? 31 then 1 else 2)).
Proof.
  intros Hc Hk Ht H. unfold asn1_get_id, id_octets in *. destruct (Z.ltb_spec t 31).
  { destruct (id_first class construction t Hc Hk ltac:(lia)) as (_ & _ & E1 & E2 & E3).
    rewrite (remove_octet_ok _ _ _ _ H). cbn [obind]. rewrite E1, E2, E3.
    replace (t =? 31) with false by lia. by replace (t <? 128) with true by lia. }
  destruct (id_first class construction 31 Hc Hk ltac:(lia)) as (_ & _ & E1 & E2 & E3).
  set (u := if t <? 128 then t else t / 128).
  assert (Hu : 0 <= u < 128) by (unfold u; destruct (Z.ltb_spec t 128); divlia).
  destruct (seven_bits u Hu) as (S1 & _ & S3 & S4).
  assert (exists x l, input e buf (class + construction + 31 :: x :: l) /\ Z.land x 0x7F = u)
    as (x & l & Hx & Eu).
  { unfold u in *. destruct (Z.ltb_spec t 128); eexists _, _; (split; [exact H|done]). }
  rewrite (remove_octet_ok _ _ _ _ Hx). cbn [obind]. rewrite E1, E2, E3. simpl (negb _). cbv iota.
  apply input_cons in Hx as [Hx _]. cbn [get_high_tag].
  rewrite (remove_octet_ok _ _ _ _ Hx). cbn [obind]. rewrite Eu.
  change (int32 (Z.shiftl 0 7)) with 0. rewrite Z.add_0_l, int32_id, S4 by lia.
  simpl (0 =? 0). cbn [obind]. by rewrite advance_advance.
Qed.

(** A tag with a number below 128 that [asn1_make_tag] has written is read back by
    [asn1_get_tag_indef] with its class, form, number and length, and with all its
    octets consumed. *)
Theorem asn1_tag_roundtrip class construction t n buf code :
  is_class class -> is_construction construction -> 0 <= t < 128 -> 0 <= n < 2147483648 ->
  cb_rep buf code -> room code (id_octets class construction t ++ der_length n) ->
  let bs := id_octets class construction t ++ der_length n in
  (exists buf', asn1_make_tag class construction t n buf = Ok (buf', zlen bs) /\
     cb_rep buf' (bs ++ code)) /\
  (forall tv e b, input e b bs ->
     asn1_get_tag_indef tv e b = Ok (TagVars class construction t n 0, advance b (zlen bs))).
Proof.
  intros Hc Hk Ht Hn Hr Hroom. cbv zeta. split.
  - apply make_tag_octets_ok; [done|done|lia|lia|lia|done|done].
  - intros tv e b H. unfold asn1_get_tag_indef.
    assert (Hl : zlen (id_octets class construction t) = if t <? 31 then 1 else 2).
    { unfold id_octets. destruct (t <? 31); [done|]. by replace (t <? 128) with true by lia. }
    pose proof H as [_ Hb _ _ _ _]. rewrite zlen_app in Hb.
    pose proof (zlen_nonneg (der_length n)).
    destruct (Z.leb_spec (bound b - next b + 1) 0); [destruct (t <? 31); lia|].
    rewrite (get_id_ok class construction t e b _ Hc Hk ltac:(lia) H). cbn [obind].
    replace (t <? 128) with true by lia. apply input_app in H as [_ H]. rewrite Hl in H.
    rewrite (asn1_get_length_ok n _ _ Hn H). cbn [obind].
    rewrite advance_advance, zlen_app, Hl. done.
Qed.

(** A tag number of two groups of seven bits is not read back: the loop of [asn1_get_id]
    tests the accumulated number instead of the octet for the continuation bit, returns
    the upper group alone and leaves the lower one unread. *)
Theorem asn1_high_tag_misread class construction t e b rest :
  is_class class -> is_construction construction -> 128 <= t < 16384 ->
  input e b (id_octets class construction t ++ rest) ->
  exists b', asn1_get_id e b = Ok ((class, construction, t / 128), b') /\ t / 128 <> t /\
    next b' = next b + zlen (id_octets class construction t) - 1.
Proof.
  intros Hc Hk Ht H. rewrite (get_id_ok class construction t e b rest Hc Hk ltac:(lia) H).
  replace (t <? 128) with false by lia. replace (t <? 31) with false by lia.
  eexists. split; [done|]. split; [divlia|]. unfold id_octets.
  replace (t <? 31) with false by lia. replace (t <? 128) with false by lia. unfold advance. simpl next.
  lens.
Qed.

End Tags.

(** * Properties of the primitive types

    Integers and times on their own: the round trip over the whole range of the C type,
    the shortest form of integers, and the times that can be written but not read. *)

(** ** Integers *)

(** Two leading octets that carry only the sign: a shorter form exists. *)
Definition redundant (bs : list octet) : Prop :=
  match bs with
  | a :: b :: _ => (a = 0 /\ b < 128) \/ (a = 255 /\ 128 <= b)
  | _ => False
  end.

(** The octets below [n], when there are any, belong to a number that needs [n] in front
    of them. *)
Definition needs (n : Z) (acc : list octet) : Prop :=
  match acc with
  | [] => True
  | o :: _ => exists m, o = m mod 256 /\ n = m / 256 /\ (m < -128 \/ 128 <= m)
  end.

Lemma int_octets_minimal fuel n acc :
  (0 < fuel)%nat -> - 128 * 256 ^ (Z.of_nat fuel - 1) <= n < 128 * 256 ^ (Z.of_nat fuel - 1) ->
  needs n acc -> ~ redundant (int_octets fuel n acc).
Proof.
  revert n acc. induction fuel as [|f IH]; intros n acc H0 Hn Ha; [lia|].
  cbn [int_octets]. destruct (_ && _) eqn:E.
  - destruct acc as [|o acc]; [by intros []|]. destruct Ha as (m & -> & -> & Hm).
    intros [[H1 H2]|[H1 H2]]; divlia.
  - destruct f as [|f]; [change (256 ^ (Z.of_nat 1 - 1)) with 1 in Hn; lia|].
    apply IH; [lia| |exists n; split; [done|split; [done|lia]]].
    replace (Z.of_nat (S (S f)) - 1) with (Z.succ (Z.of_nat (S f) - 1)) in Hn by lia.
    rewrite Z.pow_succ_r in Hn by lia. divlia.
Qed.

Section Integers.
Context `{P : Platform}.

(** Every [long] is encoded in the shortest two's complement form, and decoding the
    code, wherever it stands, gives the number back and consumes exactly its octets. *)
Theorem asn1_integer_roundtrip n buf code :
  is_long n -> cb_rep buf code -> room code (der_integer n) ->
  (exists buf', asn1_encode_integer n buf = Ok (buf', zlen (der_integer n)) /\
     cb_rep buf' (der_integer n ++ code)) /\
  (forall e b, input e b (der_integer n) ->
     asn1_decode_integer e b = Ok (n, advance b (zlen (der_integer n)))) /\
  ~ redundant (int_octets 9 n []).
Proof.
  intros Hn Hr Hroom. split; [by apply enc_integer|]. split; [by apply dec_integer|].
  apply int_octets_minimal; [lia|by apply int_octets_9|done].
Qed.

(** The unsigned encoder and decoder, which the error code of KRB-ERROR goes
    through, agree with the signed ones on the numbers both can hold. *)
Theorem asn1_unsigned_roundtrip n buf code :
  0 <= n -> is_long n -> cb_rep buf code -> room code (der_integer n) ->
  (exists buf', asn1_encode_unsigned_integer n buf = Ok (buf', zlen (der_integer n)) /\
     cb_rep buf' (der_integer n ++ code)) /\
  (forall e b, input e b (der_integer n) ->
     asn1_decode_unsigned_integer e b = Ok (n, advance b (zlen (der_integer n)))).
Proof.
  intros H0 Hn Hr Hroom. split; [by apply enc_unsigned|by apply dec_unsigned].
Qed.

End Integers.

(** ** Times before 1970 *)

Definition early_day_ok (d : Z) : bool :=
  let '(y, m, dd) := civil_from_days d in
  (1900 <=? y) && (y <=? 1969) && (1 <=? m) && (m <=? 12) && (1 <=? dd) && (dd <=? 31).

Fixpoint early_days_ok_from (k : nat) (d : Z) : bool :=
  match k with O => true | S k' => early_day_ok d && early_days_ok_from k' (d + 1) end.

Lemma early_days_ok_from_ok k d x :
  early_days_ok_from k d = true -> d <= x < d + Z.of_nat k -> early_day_ok x = true.
Proof.
  revert d. induction k as [|k IH]; intros d H Hx; [lia|].
  cbn [early_days_ok_from] in H. apply andb_prop in H as [H1 H2].
  destruct (Z.eq_dec x d) as [->|]; [done|]. apply (IH (d + 1)); [done|lia].
Qed.

Lemma early_gmtime t : -2147483648 <= t < 0 ->
  exists g, gmtime t = Some g /\ tm_ok g /\ tm_year g < 70.
Proof.
  intros Ht. unfold gmtime.
  assert (Hd : early_day_ok (t / 86400) = true).
  { apply (early_days_ok_from_ok (Z.to_nat 24856) (-24856)); [by vm_compute|].
    rewrite Z2Nat.id; divlia. }
  unfold early_day_ok in Hd. destruct (civil_from_days (t / 86400)) as [[y m] d].
  repeat (apply andb_prop in Hd as [Hd ?]).
  replace ((-2147483648 <=? y - 1900) && (y - 1900 <=? 2147483647)) with true by lia.
  eexists. split; [done|]. split; [split; cbn [tm_year tm_mon tm_mday tm_hour tm_min tm_sec]; divlia|].
  simpl. lia.
Qed.

Section Times.
Context `{P : Platform}.

(** A [krb5_timestamp] from 1970 on is written as a GeneralizedTime of fifteen
    characters and read back as itself: [gmt_mktime] inverts [gmtime] up to 2038, leap
    years included. An earlier one is written too, but its code is refused with
    [ASN1_BAD_TIMEFORMAT]. *)
Theorem kerberos_time_roundtrip t buf code :
  is_int 32 t -> cb_rep buf code -> room code (der_time t) ->
  (exists buf', asn1_encode_kerberos_time t buf = Ok (buf', zlen (der_time t)) /\
     cb_rep buf' (der_time t ++ code)) /\
  (forall e b, input e b (der_time t) ->
     asn1_decode_kerberos_time e b =
     if 0 <=? t then Ok (t, advance b (zlen (der_time t))) else Err ASN1_BAD_TIMEFORMAT).
Proof.
  intros Ht Hr Hroom. unfold is_int in Ht. change (2 ^ (32 - 1)) with 2147483648 in Ht.
  destruct (Z.leb_spec 0 t).
  - assert (Hw : wf_time t) by (split; lia). split; [by apply enc_time|by apply dec_time].
  - destruct (early_gmtime t) as (g & E & Hok & Hy); [lia|].
    split; [by apply (enc_tm t g)|].
    intros e b Hi. unfold asn1_decode_kerberos_time. rewrite (generaltime_value t g e b E Hok Hi).
    assert (gmt_mktime g = -1) as ->; [|done]. unfold gmt_mktime.
    replace (70 <=? tm_year g) with false by lia. done.
Qed.

End Times.
