(* ===== verification/Asn1Errors.v ===== *)
(** * Messages that are rejected

    Every decoder of a tagged message rejects the messages of every other type and every
    protocol version but 5, with the error codes callers rely on. *)

From S2P Require Import Prelude Asn1Buf Asn1Tag GmTime Asn1Prim Krb5Types Asn1KEncode Asn1KDecode Krb5Encode Krb5Decode Der Codec CodecRead CodecPrim CodecTypes CodecKdc CodecMsg KTest.

Section Errors.
Context `{P : Platform}.

(** A code a decoder can be given: octets of a size the allocator can hold. *)
Record code_ok (bs : list octet) (fuel : nat) : Prop := {
  ok_octets : octets bs;
  ok_fits : fits bs;
  ok_fuel : (length bs <= fuel)%nat
}.

Lemma code_input bs fuel :
  code_ok bs fuel -> input (DEnv (bs ++ [0]) fuel) (Asn1Buf 0 (zlen bs - 1) 0) bs.
Proof.
  intros [Ho Hf Hfuel]. unfold fits, STANDARD_INCREMENT in Hf.
  split; simpl; [lia|lia|done|apply load_n_prefix|done|lia].
Qed.

(** [fails dec bs c]: wherever the octets [bs] stand, the decoder fails with [c]. *)
Definition fails_with {A} (dec : decoder A) (bs : list octet) (c : error_code) : Prop :=
  forall e buf, input e buf bs -> dec e buf = Err c.

Lemma decode_fails {A} (dec : decoder A) bs fuel c :
  fails_with dec bs c -> code_ok bs fuel -> krb5_decode dec fuel (Some (code_of bs)) = Err c.
Proof.
  intros H Hok. unfold krb5_decode, asn1buf_wrap_data, code_of. cbn [d_data d_length obind].
  by rewrite (H _ _ (code_input bs fuel Hok)).
Qed.

(** ** Wrong application tags *)

Lemma check_apptag_fails {A} t u (dec : decoder A) c :
  0 <= u < 31 -> u <> t ->
  fails_with (fun e buf => let* '(_, buf) := check_apptag t e buf in dec e buf) (der_app u c)
    KRB5_BADMSGTYPE.
Proof.
  intros Hu Hne e buf H. unfold check_apptag. destruct (app_tag u Hu) as (E1 & E2 & E3).
  destruct (asn1_get_tag_ok stack_junk e buf (0x60 + u) c []) as [-> _];
    [lia|by apply input_no_rest|].
  rewrite E1, E2, E3. cbn. by replace (u =? t) with false by lia.
Qed.

(** A message under the application tag of another type is refused with
    [KRB5_BADMSGTYPE], whatever its contents, by each of the sixteen decoders of tagged
    messages. *)
Theorem wrong_apptag_rejected u c fuel :
  0 <= u < 31 -> code_ok (der_app u c) fuel ->
  let code := Some (code_of (der_app u c)) in
  (u <> 1 -> decode_krb5_ticket fuel code = Err KRB5_BADMSGTYPE) /\
  (u <> 2 -> decode_krb5_authenticator fuel code = Err KRB5_BADMSGTYPE) /\
  (u <> 3 -> decode_krb5_enc_tkt_part fuel code = Err KRB5_BADMSGTYPE) /\
  (u <> 10 -> decode_krb5_as_req fuel code = Err KRB5_BADMSGTYPE) /\
  (u <> 11 -> decode_krb5_as_rep fuel code = Err KRB5_BADMSGTYPE) /\
  (u <> 12 -> decode_krb5_tgs_req fuel code = Err KRB5_BADMSGTYPE) /\
  (u <> 13 -> decode_krb5_tgs_rep fuel code = Err KRB5_BADMSGTYPE) /\
  (u <> 14 -> decode_krb5_ap_req fuel code = Err KRB5_BADMSGTYPE) /\
  (u <> 15 -> decode_krb5_ap_rep fuel code = Err KRB5_BADMSGTYPE) /\
  (u <> 20 -> decode_krb5_safe fuel code = Err KRB5_BADMSGTYPE) /\
  (u <> 21 -> decode_krb5_priv fuel code = Err KRB5_BADMSGTYPE) /\
  (u <> 22 -> decode_krb5_cred fuel code = Err KRB5_BADMSGTYPE) /\
  (u <> 27 -> decode_krb5_ap_rep_enc_part fuel code = Err KRB5_BADMSGTYPE) /\
  (u <> 28 -> decode_krb5_enc_priv_part fuel code = Err KRB5_BADMSGTYPE) /\
  (u <> 29 -> decode_krb5_enc_cred_part fuel code = Err KRB5_BADMSGTYPE) /\
  (u <> 30 -> decode_krb5_error fuel code = Err KRB5_BADMSGTYPE).
Proof.
  intros Hu Hok. cbv zeta.
  repeat split; intros Hne; (apply decode_fails; [by apply check_apptag_fails|done]).
Qed.

(** ** Wrong protocol versions *)

Lemma structure_fails {A} (fields : denv -> sstate -> outcome error_code (A * sstate)) fs c :
  fs <> [] -> Forall (fun f : field => 0 <= f.1 < 31) fs ->
  (forall e E s, fields_at e E s fs -> fields e s = Err c) ->
  fails_with (structure fields) (der_seq fs) c.
Proof.
  intros Hne Hf Hk e buf H. unfold structure.
  destruct (begin_structure_ok e buf fs) as (s & -> & Hs); [done..|]. cbn [obind].
  by rewrite (Hk _ _ _ Hs).
Qed.

Lemma app_fails {A} t (dec : decoder A) bs c :
  0 <= t < 31 -> fails_with dec bs c ->
  fails_with (fun e buf => let* '(_, buf) := check_apptag t e buf in dec e buf) (der_app t bs) c.
Proof.
  intros Ht Hd e buf H. unfold check_apptag. destruct (app_tag t Ht) as (E1 & E2 & E3).
  destruct (asn1_get_tag_ok stack_junk e buf (0x60 + t) bs []) as [-> H'];
    [lia|by apply input_no_rest|].
  rewrite E1, E2, E3, app_nil_r in *. cbn. rewrite Z.eqb_refl. cbn. by apply Hd.
Qed.

Definition versioned (t v : Z) (rest : list field) : list octet :=
  der_seq (fld t (der_integer v) ++ rest).

Lemma kvno_rejected {A} t v rest (k : sstate -> outcome error_code (A * sstate)) e E s :
  0 <= v < 2147483648 -> v <> KVNO -> fields_at e E s (fld t (der_integer v) ++ rest) ->
  (let* '(kvno, s) := get_field t asn1_decode_kvno e s in
   let* _ := guard (kvno =? KVNO) KRB5KDC_ERR_BAD_PVNO in k s) = Err KRB5KDC_ERR_BAD_PVNO.
Proof.
  intros Hv Hne H. destruct (get_field_ok t asn1_decode_kvno _ _ _ _ _ v H) as (s' & -> & _).
  - by apply dec_kvno.
  - cbn [obind]. by replace (v =? KVNO) with false by lia.
Qed.

Lemma check_kvno_rejected v rest e E s :
  0 <= v < 2147483648 -> v <> KVNO -> fields_at e E s (fld 0 (der_integer v) ++ rest) ->
  check_kvno e s = Err KRB5KDC_ERR_BAD_PVNO.
Proof.
  intros Hv Hne H. unfold check_kvno, t_get_field. cbv zeta.
  destruct (fields_at_tag _ _ _ _ _ _ H) as (-> & _ & ->). rewrite Z.ltb_irrefl.
  destruct (t_get_field_body_ok asn1_decode_kvno _ _ _ _ _ _ v H) as (s' & -> & _).
  - by apply dec_kvno.
  - cbn [obind]. by replace (v =? KVNO) with false by lia.
Qed.

Lemma versioned_tags t v rest :
  0 <= t < 31 -> Forall (fun f : field => 0 <= f.1 < 31) rest ->
  Forall (fun f : field => 0 <= f.1 < 31) (fld t (der_integer v) ++ rest).
Proof. intros Ht Hr. by constructor. Qed.

(** A message of another protocol version is refused with [KRB5KDC_ERR_BAD_PVNO] before
    anything else of it is looked at, by each of the twelve decoders of versioned
    messages. *)
Theorem bad_pvno_rejected v rest fuel :
  0 <= v < 2147483648 -> v <> KVNO -> Forall (fun f : field => 0 <= f.1 < 31) rest ->
  let code n t := der_app n (versioned t v rest) in
  let decode {A} (dec : nat -> option krb5_data -> outcome error_code A) n t :=
    code_ok (code n t) fuel ->
    dec fuel (Some (code_of (code n t))) = Err KRB5KDC_ERR_BAD_PVNO in
  decode decode_krb5_ticket 1 0 /\ decode decode_krb5_authenticator 2 0 /\
  decode decode_krb5_as_req 10 1 /\ decode decode_krb5_as_rep 11 0 /\
  decode decode_krb5_tgs_req 12 1 /\ decode decode_krb5_tgs_rep 13 0 /\
  decode decode_krb5_ap_req 14 0 /\ decode decode_krb5_ap_rep 15 0 /\
  decode decode_krb5_safe 20 0 /\ decode decode_krb5_priv 21 0 /\
  decode decode_krb5_cred 22 0 /\ decode decode_krb5_error 30 0.
Proof.
  intros Hv Hne Hr. cbv zeta.
  repeat split; intros Hok;
    (apply decode_fails; [|done]); (apply app_fails; [lia|]);
    (apply structure_fails; [done|by apply versioned_tags|]); intros e E s H;
    first [by apply (kvno_rejected _ v rest _ e E s Hv Hne H)
          |by rewrite (check_kvno_rejected v rest e E s Hv Hne H)].
Qed.

End Errors.

(** * Inputs on which the ASN.1 code misbehaves

    Each theorem states what the code does on a family of inputs where it does not do
    what it means to: an unbounded loop, reads through uninitialised or NULL pointers or
    outside the code, a buffer freed twice. *)

Section Skiptail.
Context `{P : Platform}.

(** At the end of the buffer the tag variables keep their values; with a last tag of
    length 0 no iteration changes anything. *)
Lemma skiptail_stuck fuel e tv nestlevel buf :
  1 <= nestlevel -> bound buf - next buf + 1 <= 0 -> tv_taglen tv = 0 -> tv_indef tv = 0 ->
  bound buf + 1 = next buf ->
  skiptail_loop fuel e tv nestlevel buf = OutOfFuel.
Proof.
  intros Hn Hb Hl Hi Hx. revert tv Hl Hi.
  induction fuel as [|f IH]; intros tv Hl Hi; cbn [skiptail_loop].
  { by replace (nestlevel <=? 0) with false by lia. }
  replace (nestlevel <=? 0) with false by lia. unfold asn1_get_tag_indef.
  replace (bound buf - next buf + 1 <=? 0) with true by lia. cbn [obind tv_taglen tv_indef tv_class tv_tagnum].
  rewrite Hl, Hi. simpl (0 =? 0). cbv iota.
  replace (0 <=? bound buf - next buf + 1) with true by lia. cbn [obind].
  assert (set_next buf (next buf + 0) = buf) as -> by (destruct buf; unfold set_next; simpl; f_equal; lia).
  unfold asn1_is_eoc. rewrite (andb_comm (_ =? UNIVERSAL)). cbv zeta. simpl. by apply IH.
Qed.

(** [asn1buf_skiptail] does not terminate on a tail whose last value is empty and
    that lacks its end-of-contents octets: every bound on its iterations is
    exceeded. *)
Lemma asn1buf_skiptail_diverges e buf id :
  Z.land id 0x1F <> 0x1F -> Z.land id 0xC0 <> 0 \/ Z.land id 0x1F <> 0 ->
  input e buf [id; 0] -> bound buf + 1 = next buf + 2 ->
  asn1buf_skiptail e 0 0 buf = OutOfFuel.
Proof.
  intros Hid Hne Hi Hb. unfold asn1buf_skiptail. simpl (0 =? 0). cbv iota.
  replace (0 <=? bound buf - next buf + 1) with true by lia. cbn [obind].
  assert (set_next buf (next buf + 0) = buf) as -> by (destruct buf; unfold set_next; simpl; f_equal; lia).
  destruct (de_fuel e) as [|f]; [done|]. cbn [skiptail_loop]. simpl (1 + 0 <=? 0). cbv iota.
  destruct (asn1_get_tag_indef_ok stack_junk e buf id [] []) as [-> _]; [done|exact Hi|].
  change (zlen (header id (zlen []))) with 2.
  cbn [obind tv_taglen tv_indef tv_class tv_tagnum]. simpl (0 =? 0). cbv iota.
  change (zlen []) with 0. unfold advance. cbn [next bound set_next base].
  replace (0 <=? bound buf - (next buf + 2) + 1) with true by lia. cbn [obind]. cbv zeta.
  assert (asn1_is_eoc (Z.land id 192) (Z.land id 31) 0 = false) as ->
    by (unfold asn1_is_eoc, UNIVERSAL; lia).
  apply skiptail_stuck; simpl; lia.
Qed.

End Skiptail.

(** An EncryptedData of indefinite length with an unknown field and an empty value
    behind it, and no end-of-contents octets. *)
Definition endless_code : list octet :=
  [0x30; 0x80; 0xA0; 0x03; 0x02; 0x01; 0x00; 0xA2; 0x03; 0x04; 0x01; 0x61; 0xA3; 0x00; 0x05; 0x00].

(** C40: Decoding this code never ends: the loop of [asn1buf_skiptail] reaches the end
    of the buffer, where [asn1_get_tag_indef] leaves the variables of the last tag as
    they are, and repeats itself; no bound on the iterations is enough. *)
Theorem decode_enc_data_diverges fuel :
  decode_krb5_enc_data fuel (Some (Data (zlen endless_code) (Some endless_code))) = OutOfFuel.
Proof.
  destruct fuel as [|[|f]]; [by vm_compute|by vm_compute|].
  unfold decode_krb5_enc_data. cbv -[asn1buf_skiptail].
  rewrite (asn1buf_skiptail_diverges _ _ 5); [done|done|by right| |done].
  split; simpl; try done; [|lia]. by repeat constructor.
Qed.

(** ** Truncated times *)

Section Times.
Context `{P : Platform}.

(** A KerberosTime whose fifteen characters are not all inside the buffer makes
    [asn1_decode_generaltime] read through an uninitialised pointer: the result of the
    call that fetches the characters is not tested. *)
Theorem generaltime_truncated e buf :
  input e buf [0x18; 15] -> bound buf + 1 < next buf + 2 + 15 ->
  asn1_decode_generaltime e buf = Undefined.
Proof.
  intros Hi Hb. unfold asn1_decode_generaltime, tag, asn1_get_tag, asn1_get_tag_indef, asn1_get_id.
  pose proof Hi as [_ H2 _ _ _ _]. change (zlen [0x18; 15]) with 2 in H2.
  replace (bound buf - next buf + 1 <=? 0) with false by lia.
  rewrite (remove_octet_ok _ _ _ _ Hi). cbn [obind]. apply input_cons in Hi as [Hi _].
  simpl (negb _). cbv iota. cbn [obind]. unfold asn1_get_length.
  rewrite (remove_octet_ok _ _ _ _ Hi). cbn [obind].
  change (Z.land 15 128 =? 0) with true. change (Z.land 15 127) with 15.
  cbn [obind tv_class tv_construction tv_tagnum tv_taglen].
  change (negb (Z.land 24 192 =? UNIVERSAL) || _ || _) with false. cbn [obind].
  change (negb (15 =? 15)) with false. cbv iota. unfold asn1buf_remove_charstring.
  rewrite advance_advance. unfold advance. cbn [bound next set_next].
  by replace (bound buf <? next buf + (1 + 1) + 15 - 1) with true by lia.
Qed.

(** ** A buffer freed twice *)

(** Encoding an AP-REQ whose ticket has no server frees the coding buffer twice: the
    ticket encoder destroys it when the name is missing, and the macro in its caller
    destroys it again on the error it gets. *)
Theorem ap_req_double_free opts ed part2 auth :
  wf_enc_data auth -> wf_enc_data ed ->
  fits (flat (fld 3 (der_encrypted_data ed) ++ fld 4 (der_encrypted_data auth))) ->
  encode_krb5_ap_req (Some (ApReq opts (Some (Ticket None ed part2)) auth)) = Undefined.
Proof.
  intros Ha He Hf. unfold encode_krb5_ap_req, krb5_encode, krb5_addfield.
  rewrite flat_app in Hf. unfold fits in Hf. rewrite zlen_app in Hf.
  destruct (builds_field 4 _ _ [] ltac:(lia) (enc_encrypted_data auth Ha)) as (_ & _ & H1).
  destruct (H1 empty_codebuf []) as (b1 & E1 & R1); [done|unfold room; rewrite app_nil_r; lens|].
  destruct (builds_field 3 _ _ [] ltac:(lia) (enc_encrypted_data ed He)) as (_ & _ & H2).
  destruct (H2 b1 (flat (fld 4 (der_encrypted_data auth)))) as (b2 & E2 & R2).
  { rewrite app_nil_r in R1. simpl app in R1. exact R1. }
  { unfold room. rewrite app_nil_r. lens. }
  change (zlen (flat [])) with 0 in *. rewrite asn1buf_create_ok by (unfold code_limit in Hf; lens).
  cbn [obind]. unfold estep_seq at 1. cbn [aq_authenticator aq_ticket].
  rewrite E1. cbn [obind]. unfold estep_seq at 1, asn1_addfield at 1.
  unfold asn1_encode_ticket, asn1_encode_body. cbn [tk_enc_part tk_server].
  unfold estep_seq at 1. rewrite E2. cbn [obind]. done.
Qed.

End Times.

(** ** An error message with a client name but no client realm *)

(** The fields of the sample error message, without the client's realm. *)
Definition error_no_crealm : list octet :=
  der_app 30 (der_seq (
    fld 0 (der_integer KVNO) ++ fld 1 (der_integer ASN1_KRB_ERROR) ++
    fld 4 (der_time KTest.SAMPLE_TIME) ++ fld 5 (der_integer KTest.SAMPLE_USEC) ++
    fld 6 (der_integer KTest.SAMPLE_ERROR) ++ fld 8 (der_principal_name KTest.principal) ++
    fld 9 (der_realm KTest.principal) ++ fld 10 (der_principal_name KTest.principal) ++ [])).

(** Decoding a KRB-ERROR with a cname and no crealm stores through the NULL client
    pointer, whatever bound the loops get. *)
Theorem decode_error_null_client fuel :
  decode_krb5_error fuel (Some (code_of error_no_crealm)) = Undefined.
Proof. by vm_compute. Qed.

(** ** A negative length *)

(** A KRB-CRED whose sequence of tickets has the length 0xFFFFFFC0. *)
Definition cred_negative_length : list octet :=
  der_app 22 (der_seq (
    fld 0 (der_integer KVNO) ++ fld 1 (der_integer ASN1_KRB_CRED) ++
    fld 2 [0x30; 0x84; 0xFF; 0xFF; 0xFF; 0xC0] ++ fld 3 (der_encrypted_data KTest.enc_data) ++ [])).

(** A length of four octets with the top bit set becomes a negative [int] that the
    bounds check of [asn1buf_imbed] accepts; leaving the empty sub-buffer moves the
    buffer in front of the code, and the next tag is read from there. *)
Theorem decode_cred_reads_before_code fuel :
  decode_krb5_cred fuel (Some (code_of cred_negative_length)) = Undefined.
Proof. destruct fuel; by vm_compute. Qed.
