(* ===== verification/Witness.v ===== *)
(** * The theorems at concrete inputs

    The structures of the repository's test program satisfy the hypotheses of the round
    trips, and the other theorems are applied at small inputs. *)

From Stdlib Require Import String Ascii.
From S2P Require Import Prelude Asn1Buf Asn1Tag GmTime Asn1Prim Krb5Types Asn1KEncode Asn1KDecode Krb5Encode Krb5Decode KTest Der Codec CodecRead CodecPrim CodecTypes CodecKdc CodecMsg Asn1Proofs Asn1Errors PrincName PrincNameProofs Transited Kdc KdcProofs TransitedProofs GssGeneric GssGenericProofs.

(** Solves the well-formedness of a concrete structure. *)
Ltac wf_step :=
  lazymatch goal with
  | |- wf_bytes _ _ => split; [vm_compute; reflexivity|split; [|vm_compute; reflexivity]]
  | |- wf_data _ => unfold wf_data
  | |- is_int _ _ => split; vm_compute; congruence
  | |- is_uint _ _ => split; vm_compute; congruence
  | |- wf_time _ => split; vm_compute; congruence
  | |- some_wf _ _ => hnf
  | |- opt_wf _ _ => hnf
  | |- True => exact I
  | |- wf_opt_array _ _ => right
  | |- wf_array _ _ => eexists _, _; split; [reflexivity|]
  | |- wf_enctypes _ _ => eexists _, _; split; [reflexivity|split; [reflexivity|]]
  | |- Forall _ _ => hnf; constructor
  | |- wf_principal _ => split; [| |eexists _, _; split; [reflexivity|split; [reflexivity|]]]
  | |- wf_address _ => split; [| |discriminate]
  | |- _ /\ _ => split
  | |- exists q, _ = Some q /\ _ => eexists; split; vm_compute; reflexivity
  | |- _ <> None => discriminate
  | |- _ = _ => vm_compute; reflexivity
  | |- _ -> _ => let H := fresh in intros H; vm_compute in H; discriminate H
  | |- fits _ => unfold fits; vm_compute; congruence
  | |- (_ <= _)%Z => vm_compute; congruence
  | |- (_ < _)%Z => vm_compute; reflexivity
  | |- (_ <= _)%nat => apply Nat.leb_le; vm_compute; reflexivity
  | |- _ => split
  end.
Ltac wf := repeat wf_step.

Lemma octets_check bs : forallb (fun o => (0 <=? o) && (o <? 256)) bs = true -> octets bs.
Proof.
  intros H. rewrite forallb_forall in H. apply Forall_forall. intros o Ho.
  specialize (H o Ho). unfold is_uint. change (2 ^ 8) with 256. lia.
Qed.

Lemma ticket_roundtrip_witness :
  encode_krb5_ticket (Some KTest.ticket) = Ok (code_of (der_ticket KTest.ticket)) /\
  decode_krb5_ticket 1000 (Some (code_of (der_ticket KTest.ticket))) = Ok (KTest.ticket).
Proof. apply (ticket_roundtrip KTest.ticket 1000%nat); wf. Defined.

Lemma enc_tkt_part_roundtrip_witness :
  encode_krb5_enc_tkt_part (Some KTest.enc_tkt_part) = Ok (code_of (der_enc_tkt_part KTest.enc_tkt_part)) /\
  decode_krb5_enc_tkt_part 1000 (Some (code_of (der_enc_tkt_part KTest.enc_tkt_part))) = Ok (KTest.enc_tkt_part).
Proof. apply (enc_tkt_part_roundtrip KTest.enc_tkt_part 1000%nat); wf. Defined.

Lemma authenticator_roundtrip_witness :
  encode_krb5_authenticator (Some KTest.authenticator) = Ok (code_of (der_authenticator KTest.authenticator)) /\
  decode_krb5_authenticator 1000 (Some (code_of (der_authenticator KTest.authenticator))) = Ok (KTest.authenticator).
Proof. apply (authenticator_roundtrip KTest.authenticator 1000%nat); wf. Defined.

Lemma kdc_req_roundtrip_witness :
  let r := KTest.kdc_req KRB5_AS_REQ in
  let bs := der_app 10 (der_kdc_req KRB5_AS_REQ r) in
  encode_krb5_as_req (Some r) = Ok (code_of bs) /\
  decode_krb5_as_req 2000 (Some (code_of bs)) = Ok r.
Proof.
  cbv zeta.
  assert (H : wf_kdc_req (KTest.kdc_req KRB5_AS_REQ)) by (split; [wf|split|wf]; wf).
  apply (proj1 (kdc_req_roundtrip (KTest.kdc_req KRB5_AS_REQ) 2000%nat H)); wf.
Defined.

Lemma kdc_rep_roundtrip_witness :
  let r := KTest.kdc_rep KRB5_TGS_REP in
  let bs := der_app 13 (der_kdc_rep KRB5_TGS_REP r) in
  encode_krb5_tgs_rep (Some r) = Ok (code_of bs) /\
  decode_krb5_tgs_rep 1000 (Some (code_of bs)) = Ok r.
Proof.
  cbv zeta.
  assert (H : wf_kdc_rep (KTest.kdc_rep KRB5_TGS_REP)) by wf.
  apply (proj2 (kdc_rep_roundtrip (KTest.kdc_rep KRB5_TGS_REP) 1000%nat H)); wf.
Defined.

Lemma enc_kdc_rep_part_roundtrip_witness :
  encode_krb5_enc_kdc_rep_part (Some KTest.enc_kdc_rep_part) = Ok (code_of (der_app 26 (der_enc_kdc_rep_part KTest.enc_kdc_rep_part))) /\
  decode_krb5_enc_kdc_rep_part 1000 (Some (code_of (der_app 26 (der_enc_kdc_rep_part KTest.enc_kdc_rep_part)))) = Ok (as_tgs_rep KTest.enc_kdc_rep_part).
Proof. apply (enc_kdc_rep_part_roundtrip KTest.enc_kdc_rep_part 1000%nat); wf. Defined.

Lemma ap_req_roundtrip_witness :
  encode_krb5_ap_req (Some KTest.ap_req) = Ok (code_of (der_ap_req KTest.ap_req)) /\
  decode_krb5_ap_req 1000 (Some (code_of (der_ap_req KTest.ap_req))) = Ok (KTest.ap_req).
Proof. apply (ap_req_roundtrip KTest.ap_req 1000%nat); wf. Defined.

Lemma ap_rep_enc_part_roundtrip_witness :
  encode_krb5_ap_rep_enc_part (Some KTest.ap_rep_enc_part) = Ok (code_of (der_ap_rep_enc_part KTest.ap_rep_enc_part)) /\
  decode_krb5_ap_rep_enc_part 1000 (Some (code_of (der_ap_rep_enc_part KTest.ap_rep_enc_part))) = Ok (KTest.ap_rep_enc_part).
Proof. apply (ap_rep_enc_part_roundtrip KTest.ap_rep_enc_part 1000%nat); wf. Defined.

Lemma safe_roundtrip_witness :
  encode_krb5_safe (Some KTest.safe) = Ok (code_of (der_safe KTest.safe)) /\
  decode_krb5_safe 1000 (Some (code_of (der_safe KTest.safe))) = Ok (KTest.safe).
Proof. apply (safe_roundtrip KTest.safe 1000%nat); wf. Defined.

Lemma enc_priv_part_roundtrip_witness :
  encode_krb5_enc_priv_part (Some KTest.priv_enc_part) = Ok (code_of (der_enc_priv_part KTest.priv_enc_part)) /\
  decode_krb5_enc_priv_part 1000 (Some (code_of (der_enc_priv_part KTest.priv_enc_part))) = Ok (KTest.priv_enc_part).
Proof. apply (enc_priv_part_roundtrip KTest.priv_enc_part 1000%nat); wf. Defined.

Lemma cred_roundtrip_witness :
  encode_krb5_cred (Some KTest.cred) = Ok (code_of (der_cred KTest.cred)) /\
  decode_krb5_cred 1000 (Some (code_of (der_cred KTest.cred))) = Ok (KTest.cred).
Proof. apply (cred_roundtrip KTest.cred 1000%nat); wf. Defined.

Lemma enc_cred_part_roundtrip_witness :
  encode_krb5_enc_cred_part (Some KTest.cred_enc_part) = Ok (code_of (der_enc_cred_part KTest.cred_enc_part)) /\
  decode_krb5_enc_cred_part 1000 (Some (code_of (der_enc_cred_part KTest.cred_enc_part))) = Ok (KTest.cred_enc_part).
Proof. apply (enc_cred_part_roundtrip KTest.cred_enc_part 1000%nat); wf. Defined.

Lemma error_roundtrip_witness :
  encode_krb5_error (Some KTest.error) = Ok (code_of (der_error KTest.error)) /\
  decode_krb5_error 1000 (Some (code_of (der_error KTest.error))) = Ok (KTest.error).
Proof. apply (error_roundtrip KTest.error 1000%nat); wf. Defined.

Lemma sam_challenge_roundtrip_witness :
  encode_krb5_sam_challenge (Some KTest.sam_challenge) = Ok (code_of (der_sam_challenge KTest.sam_challenge)) /\
  decode_krb5_sam_challenge 1000 (Some (code_of (der_sam_challenge KTest.sam_challenge))) = Ok (KTest.sam_challenge).
Proof. apply (sam_challenge_roundtrip KTest.sam_challenge 1000%nat); wf. Defined.

(** ** The buffer, tags and primitive types *)

Lemma asn1buf_refines_octet_string_witness :
  let ops := [InsertOctet 3; InsertOctetstring [7; 8]; InsertCharstring [9]] in
  let code := spec_ops ops [] in
  let result := let* buf := asn1buf_create in let* buf := run_ops ops buf in asn12krb5_buf buf in
  result = Ok (code_of code) \/
  result = Err (ENOMEM, false) /\ code_limit < zlen code + STANDARD_INCREMENT.
Proof.
  apply (asn1buf_refines_octet_string [InsertOctet 3; InsertOctetstring [7; 8]; InsertCharstring [9]]).
  repeat (constructor; [simpl; wf|]). constructor.
Defined.

Lemma asn1_get_tag_safe_witness :
  reads (Asn1Buf 0 2 0) (asn1_get_tag_indef stack_junk (DEnv [0x1F; 0x85; 0x80] 0) (Asn1Buf 0 2 0)).
Proof. apply asn1_get_tag_safe. split; vm_compute; congruence. Defined.

Lemma asn1_tag_roundtrip_witness :
  exists buf', asn1_make_tag CONTEXT_SPECIFIC CONSTRUCTED 100 300 empty_codebuf = Ok (buf', 5) /\
    cb_rep buf' ([0xBF; 100; 130; 1; 44] ++ []).
Proof.
  refine (proj1 (asn1_tag_roundtrip CONTEXT_SPECIFIC CONSTRUCTED 100 300 empty_codebuf []
    _ _ _ _ _ _)).
  - right; right; left; reflexivity.
  - right; reflexivity.
  - lia.
  - lia.
  - split; reflexivity.
  - vm_compute; congruence.
Defined.

Lemma asn1_high_tag_misread_witness :
  exists b', asn1_get_id (DEnv [0xBF; 0x82; 0x2C] 3) (Asn1Buf 0 2 0) = Ok ((0x80, 0x20, 2), b') /\
    2 <> 300 /\ next b' = 2.
Proof.
  apply (asn1_high_tag_misread CONTEXT_SPECIFIC CONSTRUCTED 300 (DEnv [0xBF; 0x82; 0x2C] 3)
    (Asn1Buf 0 2 0) []).
  - right; right; left; reflexivity.
  - right; reflexivity.
  - lia.
  - split; [vm_compute; congruence|vm_compute; congruence|apply octets_check; reflexivity
           |reflexivity|simpl; lia|vm_compute; congruence].
Defined.

Lemma asn1_integer_roundtrip_witness :
  exists buf', asn1_encode_integer (-129) empty_codebuf = Ok (buf', 4) /\
    cb_rep buf' ([2; 2; 0xFF; 0x7F] ++ []).
Proof.
  refine (proj1 (asn1_integer_roundtrip (-129) empty_codebuf [] _ _ _)).
  - split; vm_compute; congruence.
  - split; reflexivity.
  - vm_compute; congruence.
Defined.

Lemma asn1_unsigned_roundtrip_witness :
  exists buf', asn1_encode_unsigned_integer 128 empty_codebuf = Ok (buf', 4) /\
    cb_rep buf' ([2; 2; 0; 0x80] ++ []).
Proof.
  refine (proj1 (asn1_unsigned_roundtrip 128 empty_codebuf [] _ _ _ _)).
  - lia.
  - split; vm_compute; congruence.
  - split; reflexivity.
  - vm_compute; congruence.
Defined.

Lemma kerberos_time_roundtrip_witness :
  exists buf', asn1_encode_kerberos_time 951782400 empty_codebuf = Ok (buf', 17) /\
    cb_rep buf' ([0x18; 15; 50; 48; 48; 48; 48; 50; 50; 57; 48; 48; 48; 48; 48; 48; 90] ++ []).
Proof.
  refine (proj1 (kerberos_time_roundtrip 951782400 empty_codebuf [] _ _ _)).
  - split; vm_compute; congruence.
  - split; reflexivity.
  - vm_compute; congruence.
Defined.

(** ** Rejected messages and faults *)

Lemma wrong_apptag_rejected_witness :
  decode_krb5_as_req 1000 (Some (code_of (der_ticket KTest.ticket))) = Err KRB5_BADMSGTYPE.
Proof.
  assert (H : code_ok (der_app 1 (der_seq (ticket_fields KTest.ticket))) 1000).
  { split; [apply octets_check; vm_compute; reflexivity|wf|wf]. }
  apply (proj1 (proj2 (proj2 (proj2 (wrong_apptag_rejected 1 (der_seq (ticket_fields KTest.ticket))
    1000 ltac:(lia) H))))). lia.
Defined.

Lemma bad_pvno_rejected_witness :
  let code := der_app 1 (versioned 0 4 []) in
  decode_krb5_ticket 100 (Some (code_of code)) = Err KRB5KDC_ERR_BAD_PVNO.
Proof.
  refine (proj1 (bad_pvno_rejected 4 [] 100 _ _ _) _).
  - lia.
  - discriminate.
  - constructor.
  - split; [apply octets_check; vm_compute; reflexivity|wf|wf].
Defined.

Lemma generaltime_truncated_witness :
  asn1_decode_generaltime (DEnv [0x18; 15; 0x32] 3) (Asn1Buf 0 2 0) = Undefined.
Proof.
  apply generaltime_truncated.
  - split; [vm_compute; congruence|vm_compute; congruence|apply octets_check; reflexivity
           |reflexivity|simpl; lia|vm_compute; congruence].
  - simpl; lia.
Defined.

Lemma ap_req_double_free_witness :
  encode_krb5_ap_req (Some (ApReq 0 (Some (Ticket None KTest.enc_data None)) KTest.enc_data)) = Undefined.
Proof. apply ap_req_double_free; wf. Defined.

(** * The theorems on names, the KDC, realm paths and sequence numbers at concrete inputs *)

(** host/a\/b@R: two components, the second with a slash in it. *)
Definition host_name : list octet := str "host/a\/b@R".
Definition host_data : list krb5_data := [name_data (str "host"); name_data (str "a/b")].
Definition host_princ : krb5_principal_data :=
  Principal (Data 1 (Some (str "R"))) (Some host_data) 2 3.

Lemma host_holds : princ_holds host_princ (str "R") [str "host"; str "a/b"].
Proof.
  split; [|split; [reflexivity|]].
  - split; [reflexivity|]. exists []. reflexivity.
  - exists host_data. split; [reflexivity|]. repeat constructor; by exists [0].
Qed.

Lemma krb5_parse_name_grammar_witness :
  krb5_parse_name (Err KRB5_CONFIG_NODEFREALM) None (host_name ++ 0 :: [1; 2]) =
  (Ok (name_principal (str "R") [str "host"; str "a/b"]), None).
Proof.
  rewrite (krb5_parse_name_grammar host_name [1; 2] (Err KRB5_CONFIG_NODEFREALM) None).
  - vm_compute. reflexivity.
  - repeat constructor; discriminate.
  - vm_compute. discriminate.
  - intros ? ? ? ? H. discriminate H.
Defined.

Lemma parse_unparse_name_witness :
  exists name p',
    krb5_unparse_name host_princ = Ok name /\
    krb5_parse_name (Err KRB5_CONFIG_NODEFREALM) None name = (Ok p', None) /\
    krb5_principal_compare host_princ p' = Ok true /\ krb5_unparse_name p' = Ok name.
Proof.
  apply (parse_unparse_name host_princ (str "R") (str "host") [str "a/b"]).
  - exact host_holds.
  - discriminate.
  - vm_compute. discriminate.
Defined.

Lemma unparse_name_injective_witness :
  krb5_principal_compare host_princ (name_principal (str "R") [str "host"; str "a/b"]) = Ok true.
Proof.
  apply (unparse_name_injective host_princ (str "R") (str "host") [str "a/b"]
           (name_principal (str "R") [str "host"; str "a/b"]) (str "R") (str "host") [str "a/b"]
           (host_name ++ [0]));
    try exact host_holds; try (apply princ_holds_name); try discriminate; vm_compute; reflexivity.
Defined.

Lemma unparse_no_components_witness :
  krb5_unparse_name (Principal (name_data (str "R")) (Some []) 0 0) = Undefined.
Proof.
  apply (unparse_no_components (Principal (name_data (str "R")) (Some []) 0 0) (str "R")).
  - split; [split; [reflexivity|by exists [0]]|]. split; [reflexivity|]. exists []. by split.
  - vm_compute. reflexivity.
Defined.

Lemma simple_check r :
  (0 <? zlen r) && (zlen r <=? 500) && forallb (fun o => negb ((o =? 0) || (o =? 44) || (o =? 92))) r
  && negb ((List.hd 0 r =? 47) || (List.hd 0 r =? 32)) && negb (List.last r 0 =? 46) = true -> simple_realm r.
Proof.
  intros H. repeat (apply andb_true_iff in H as [H ?]). split.
  - unfold MAX_REALM_LN. lia.
  - apply Forall_forall. intros o Ho. rewrite forallb_forall in *.
    match goal with F : forall x, In x r -> _ |- _ => specialize (F o Ho) end. lia.
  - intros o Ho. destruct r as [|x r']; [done|]. injection Ho as ->. simpl in *. lia.
  - lia.
Qed.

(** The path from A.B.C to D.B.C. *)
Definition path_tree : rettree :=
  match krb5_walk_realm_tree (fun _ _ => None) (name_data (str "A.B.C")) (name_data (str "D.B.C"))
          KRB5_REALM_BRANCH_CHAR with Ok t => t | _ => Rettree 0 [] end.

Lemma check_transited_list_simple_witness :
  krb5_check_transited_list (fun _ _ => None)
    (Some (name_data (transited_string [str "B.C"] (str "EVIL"))))
    (name_data (str "A.B.C")) (name_data (str "D.B.C")) = Ok tt.
Proof.
  rewrite (check_transited_list_simple (fun _ _ => None) _ [str "B.C"] (str "EVIL") _ _ path_tree
             [str "A.B.C"; str "A.B.C"; str "B.C"]).
  - vm_compute. reflexivity.
  - constructor; [apply simple_check; vm_compute; reflexivity|constructor].
  - apply simple_check. vm_compute. reflexivity.
  - split; [reflexivity|by exists [0]].
  - vm_compute. reflexivity.
  - vm_compute. reflexivity.
  - do 3 (constructor; [split; [vm_compute; reflexivity|by exists [0]]|]). constructor.
Defined.

Definition fresh_block : list Z := replicate 20 0xA5.

Lemma g_order_refines_window_witness :
  exists q, g_order_init (Some fresh_block) 10 true true = Ok q /\
    let '(sts, q') := g_order_run q [10; 12; 11; 12] in
    (sts, GssGenericProofs.contents q') = window_run true true [9] [10; 12; 11; 12].
Proof.
  apply (g_order_refines_window fresh_block 10 true true [10; 12; 11; 12]); try reflexivity.
  - split; vm_compute; discriminate.
  - repeat constructor; vm_compute; discriminate.
Defined.

Lemma g_order_no_replay_witness :
  exists q st, g_order_init (Some fresh_block) 10 true false = Ok q /\
    (g_order_run q [10; 12; 10]).1 !! 2%nat = Some st /\ refused true false st.
Proof.
  apply (g_order_no_replay fresh_block 10 true false [10; 12; 10] 0 2 10); try reflexivity.
  - split; vm_compute; discriminate.
  - repeat constructor; vm_compute; discriminate.
  - lia.
Defined.

Lemma g_order_in_order_witness :
  exists q, g_order_init (Some fresh_block) 4294967290 true true = Ok q /\
    (g_order_run q ((fun i => uint32 (4294967290 + Z.of_nat i)) <$> seq 0 30)).1 =
    replicate 30 GSS_S_COMPLETE.
Proof.
  apply (g_order_in_order fresh_block 4294967290 true true 30); [reflexivity|].
  split; vm_compute; congruence.
Defined.

Lemma g_order_replay_below_first_witness :
  exists q, g_order_init (Some fresh_block) 4294967290 true false = Ok q /\
    (g_order_run q (replicate 3 7)).1 = replicate 3 GSS_S_COMPLETE.
Proof. apply (g_order_replay_below_first fresh_block 4294967290 7 3); reflexivity. Defined.

(** ** The KDC *)

Definition the_realm : kdc_realm := KdcRealm 36000 604800 (name_principal (str "R") [str "krbtgt"; str "R"]).

(** Entries without expiration; the server refuses renewable tickets when [attributes] say so. *)
Definition entry (attributes : Z) : krb5_db_entry := DbEntry attributes 36000 604800 0 0.

Definition request_for (options : Z) (server : list (list octet)) (from till : Z) : krb5_kdc_req :=
  KdcReq KRB5_AS_REQ None options (Some host_princ) (Some (name_principal (str "R") server))
    from till 0 1 0 None None null_enc_data None None.

Definition session_key : krb5_keyblock := Keyblock 1 8 (Some [1; 2; 3; 4; 5; 6; 7; 8]).

(** A ticket-granting ticket with every right, from 1000 to 50000. *)
Definition tgt_flags : Z := Z.lor TKT_FLG_FORWARDABLE (Z.lor TKT_FLG_PROXIABLE
  (Z.lor TKT_FLG_MAY_POSTDATE (Z.lor TKT_FLG_RENEWABLE (Z.lor TKT_FLG_INITIAL TKT_FLG_PRE_AUTH)))).
Definition tgt_part : krb5_enc_tkt_part :=
  EncTktPart tgt_flags (Some session_key) (Some host_princ) (Krb5Types.Transited 1 empty_string)
    (TicketTimes 1000 0 50000 90000) None None.
Definition tgt : krb5_ticket :=
  Ticket (Some (name_principal (str "R") [str "krbtgt"; str "R"])) null_enc_data (Some tgt_part).

Lemma as_issue_policy_witness :
  exists part, isflagset (etp_flags part) TKT_FLG_INITIAL = true /\ tt_endtime (etp_times part) <= 2000 + 36000.
Proof.
  destruct (as_issue the_realm (request_for KDC_OPT_FORWARDABLE [str "imap"; str "h"] 0 99999)
              (entry 0) (entry 0) 2000 session_key) as [[rq part]| | |] eqn:E;
    [|vm_compute in E; discriminate E..].
  pose proof (as_issue_policy the_realm (request_for KDC_OPT_FORWARDABLE [str "imap"; str "h"] 0 99999)
                (entry 0) (entry 0) 2000 session_key rq part ltac:(vm_compute; reflexivity) E) as P.
  exists part. split; [apply P|]. apply P.
Defined.

Lemma tgs_issue_no_escalation_witness :
  exists r, tr_times r = TicketTimes 1000 2000 38000 0 /\
            (isflagset (tr_flags r) TKT_FLG_FORWARDABLE = true ->
             isflagset tgt_flags TKT_FLG_FORWARDABLE = true).
Proof.
  destruct (tgs_issue the_realm (request_for KDC_OPT_FORWARDABLE [str "imap"; str "h"] 0 99999)
              (entry 0) tgt 2000) as [r| | |] eqn:E; [|vm_compute in E; discriminate E..].
  pose proof (tgs_issue_no_escalation the_realm (request_for KDC_OPT_FORWARDABLE [str "imap"; str "h"] 0 99999)
                (entry 0) tgt tgt_part 2000 r eq_refl ltac:(vm_compute; reflexivity) E) as P.
  exists r. split; [vm_compute in E; by injection E as <-|]. apply P. apply list_elem_of_here.
Defined.

Lemma as_renewable_ok_ignores_server_witness :
  exists rq part,
    validate_as_request (request_for KDC_OPT_RENEWABLE_OK [str "imap"; str "h"] 0 99999)
      (entry 0) (entry KRB5_KDB_DISALLOW_RENEWABLE) 2000 = Ok tt /\
    as_issue the_realm (request_for KDC_OPT_RENEWABLE_OK [str "imap"; str "h"] 0 99999)
      (entry 0) (entry KRB5_KDB_DISALLOW_RENEWABLE) 2000 session_key = Ok (rq, part) /\
    isflagset (etp_flags part) TKT_FLG_RENEWABLE = true.
Proof.
  destruct (as_issue the_realm (request_for KDC_OPT_RENEWABLE_OK [str "imap"; str "h"] 0 99999)
      (entry 0) (entry KRB5_KDB_DISALLOW_RENEWABLE) 2000 session_key) as [[rq part]| | |] eqn:E;
    [|vm_compute in E; discriminate E..].
  exists rq, part. split; [vm_compute; reflexivity|]. split; [reflexivity|].
  apply (as_renewable_ok_ignores_server the_realm
           (request_for KDC_OPT_RENEWABLE_OK [str "imap"; str "h"] 0 99999)
           (entry 0) (entry KRB5_KDB_DISALLOW_RENEWABLE) 2000 session_key rq);
    [vm_compute; reflexivity..|exact E|].
  vm_compute in E. injection E as <- <-. vm_compute. reflexivity.
Defined.

Lemma tgs_proxy_only_for_tgs_witness :
  krb5_is_tgs_principal (name_principal (str "R") [str "krbtgt"; str "R"]) = Ok true.
Proof.
  apply (tgs_proxy_only_for_tgs the_realm (request_for KDC_OPT_PROXY [str "krbtgt"; str "R"] 0 99999)
           (entry 0) tgt 2000); vm_compute; reflexivity.
Defined.

Lemma tgs_postdated_starts_now_witness :
  exists r, isflagset (tr_flags r) TKT_FLG_POSTDATED = true /\ tt_starttime (tr_times r) = 2000.
Proof.
  destruct (tgs_issue the_realm (request_for KDC_OPT_POSTDATED [str "imap"; str "h"] 9000 99999)
              (entry 0) tgt 2000) as [r| | |] eqn:E; [|vm_compute in E; discriminate E..].
  exists r. apply (tgs_postdated_starts_now the_realm
    (request_for KDC_OPT_POSTDATED [str "imap"; str "h"] 9000 99999) (entry 0) tgt tgt_part 2000 r);
    first [exact E|vm_compute; reflexivity].
Defined.
