(* ===== verification/WitnessCrypto.v ===== *)
(** * The theorems on the cryptographic library at concrete inputs *)

From stdpp Require Import relations.
From S2P Require Import Prelude CString Asn1Buf Words Crc32 Nfold NfoldProofs Des DesProofs DesCbcProofs.
From S2P Require Import Md MdProofs Shs ShsProofs PrincName Afs AfsProofs Crypto CryptoApi.
From S2P Require Import CryptoProofs CryptoEnc CryptoKeys KTest.

Lemma octets_decide l : forallb (fun o => (0 <=? o) && (o <? 256)) l = true -> octets l.
Proof. induction l as [|o l IH]; cbn [forallb]; [by constructor|]. intros H. apply andb_true_iff in H as [H1 H2]. constructor; [red; lia|auto]. Qed.

Ltac octs := apply octets_decide; vm_compute; reflexivity.

(** A key with odd parity and its triple, and a message. *)
Definition des_key : list octet := [0x13; 0x34; 0x57; 0x79; 0x9b; 0xbc; 0xdf; 0xf1].
Definition des3_key : list octet := des_key ++ [0x01; 0x23; 0x45; 0x67; 0x89; 0xab; 0xcd; 0xef] ++ [0xfe; 0xdc; 0xba; 0x98; 0x76; 0x54; 0x32; 0x10].
Definition text : list octet := [1; 2; 3; 4; 5; 6; 7; 8; 9; 10].
Definition iv0 : list octet := replicate 8 0.

Lemma crc32_shift_register_witness : mit_crc32 text = crc_register text.
Proof. apply (crc32_shift_register text). octs. Defined.

Lemma crc32_detects_burst_witness : mit_crc32 [1; 2; 3] <> mit_crc32 [1; 0x82; 3].
Proof.
  apply (crc32_detects_burst [1; 2; 3] [1; 0x82; 3] (octet_bits 1) (octet_bits 2) (octet_bits 0x82) (octet_bits 3)).
  - octs.
  - octs.
  - reflexivity.
  - reflexivity.
  - reflexivity.
  - vm_compute. lia.
  - vm_compute. discriminate.
Defined.

Lemma nfold_correct_witness :
  octets_value (krb5_nfold (8 * zlen text) text (8 * Z.of_nat 7)) = nfold_spec (7 * 8) text.
Proof. apply (nfold_correct text 7); [octs|discriminate|lia|vm_compute; reflexivity]. Defined.

Lemma des_fips_witness : exists schedule, make_key_sched des_key = Ok schedule /\
  let e := fips_encrypt (octets_value des_key) 0x0123456789abcdef in
  DES_DO_ENCRYPT schedule 0x01234567 0x89abcdef = (hi e, lo e).
Proof.
  destruct (des_fips des_key) as (s & E & H); [reflexivity|octs|]. exists s. split; [exact E|].
  apply (H 0x0123456789abcdef). vm_compute. split; [discriminate|reflexivity].
Defined.

Lemma des_cbc_roundtrip_witness : exists schedule c, make_key_sched des_key = Ok schedule /\
  mit_des_cbc_encrypt text 10 schedule iv0 true = Ok c /\ zlen c = 16 /\
  mit_des_cbc_encrypt c 10 schedule iv0 false = Ok text.
Proof. apply (des_cbc_roundtrip des_key iv0 text); try reflexivity; octs. Defined.

Lemma des3_cbc_roundtrip_witness : exists ks1 ks2 ks3 ret c, mit_des3_key_sched des3_key = Ok (ks1, ks2, ks3, ret) /\
  mit_des3_cbc_encrypt text 10 ks1 ks2 ks3 iv0 true = Ok c /\ zlen c = 16 /\
  mit_des3_cbc_encrypt c 10 ks1 ks2 ks3 iv0 false = Ok text.
Proof. apply (des3_cbc_roundtrip des3_key iv0 text); try reflexivity; octs. Defined.

(** Contexts as they stand on the stack, before they are initialised. *)
Definition md0 : md_ctx := MdCtx 7 7 (7, 7, 7, 7) (replicate 64 7) [].
Definition shs0 : shs_info := ShsInfo (7, 7, 7, 7, 7) 7 7 (replicate 16 7).

Lemma md5_rfc1321_witness : k5_md5_hash md0 [text; []; text] 16 = Ok (rfc1321 (text ++ text)).
Proof. apply (md5_rfc1321 md0 [text; []; text]); [reflexivity|repeat constructor; done|repeat constructor]. Defined.

Lemma md4_rfc1320_witness : k5_md4_hash md0 [text; []; text] 16 = Ok (rfc1320 (text ++ text)).
Proof. apply (md4_rfc1320 md0 [text; []; text]); [reflexivity|repeat constructor; done|repeat constructor]. Defined.

Lemma sha1_fips180_witness : k5_sha1_hash shs0 [replicate 64 9; text] 20 = Ok (fips180 (replicate 64 9 ++ text)).
Proof.
  apply (sha1_fips180 shs0 [replicate 64 9] text).
  - reflexivity.
  - apply Forall_replicate. red. lia.
  - apply Forall_cons_2; [split; [octs|reflexivity]|]. apply Forall_cons_2; [split; [octs|reflexivity]|constructor].
  - by repeat constructor.
Defined.

Lemma sha1_split_fault_witness : k5_sha1_hash shs0 [[97]; [98]] 20 = Undefined.
Proof. apply (sha1_split_fault shs0). reflexivity. Defined.

(** The generator, before and after a first seed. *)
Definition prng0 : prng := Prng false (replicate 15 0) (replicate 8 0) 0.
Definition prng1 : prng := krb5_c_random_seed prng0 text.

Lemma prng_invariant_witness : exists o, (krb5_c_random_make_octets prng1 20).1 = Ok o /\ octets o /\ zlen o = 20.
Proof.
  assert (H := prng_invariant prng0 prng1 20). cbv zeta in H.
  destruct (krb5_c_random_make_octets prng1 20) as [r st] eqn:E.
  destruct H as [_ H]; [reflexivity|apply rtc_once, step_seed; octs|reflexivity|lia|].
  assert (Hr : exists o, r = Ok o).
  { replace r with ((krb5_c_random_make_octets prng1 20).1) by (rewrite E; reflexivity). vm_compute. eexists. reflexivity. }
  destruct Hr as [o ->]. exists o. split; [reflexivity|]. apply H. reflexivity.
Defined.

Lemma prng1_wf : prng_wf prng1.
Proof. apply seed_wf; [octs|]. intros E. discriminate E. Qed.

Lemma prng_stream_witness : krb5_c_random_make_octets prng1 (5 + 20) =
  and_then (krb5_c_random_make_octets prng1 5) (fun st => krb5_c_random_make_octets st 20).
Proof. apply (prng_stream prng1 5 20); [exact prng1_wf|reflexivity|lia|lia]. Defined.

#[local] Instance stack0 : Stack := {| md_stack := md0; shs_stack := shs0 |}.

Definition md5_des_key : keyblock := Key ENCTYPE_DES_CBC_MD5 des_key.
Definition des3_sha1_key : keyblock := Key ENCTYPE_DES3_CBC_SHA1 des3_key.

Lemma encrypt_decrypt_witness : exists ed st' pad,
  krb5_c_encrypt prng1 des3_sha1_key 2 None text 44 = (Ok (ed, None), st') /\
  krb5_c_decrypt des3_sha1_key 2 None ed (zlen ed.2) = Ok (text ++ zeros pad, None).
Proof.
  destruct (krb5_c_encrypt prng1 des3_sha1_key 2 None text 44) as [r st'] eqn:E.
  assert (exists ed, r = Ok (ed, None)) as [ed ->].
  { replace r with ((krb5_c_encrypt prng1 des3_sha1_key 2 None text 44).1) by (rewrite E; reflexivity). vm_compute. eexists. reflexivity. }
  destruct (encrypt_decrypt prng1 des3_sha1_key 2 None text 44 ed None st') as (pad & _ & D);
    [exact prng1_wf|octs|exact I|octs|reflexivity|exact E|]. exists ed, st', pad. split; [reflexivity|exact D].
Defined.

Lemma dk_decrypt_authentic_witness : exists c conf,
  krb5_dk_decrypt krb5_enc_des3 krb5_hash_sha1 des3_sha1_key 2 None c 44 = Ok (text ++ zeros 6, None) /\
  dk_sealed krb5_enc_des3 krb5_hash_sha1 des3_sha1_key 2 None c (conf ++ text ++ zeros 6).
Proof.
  assert (exists c, octets c /\ zlen c = 44 /\ krb5_dk_decrypt krb5_enc_des3 krb5_hash_sha1 des3_sha1_key 2 None c 44 = Ok (text ++ zeros 6, None))
    as (c & Oc & Lc & D).
  { exists [190; 205; 101; 228; 104; 23; 148; 226; 190; 246; 59; 229; 238; 123; 92; 159; 210; 215; 217; 200; 91; 167; 54; 94;
      155; 2; 91; 101; 206; 36; 51; 5; 217; 101; 243; 86; 249; 219; 118; 7; 208; 21; 183; 51].
    split; [octs|]. split; [reflexivity|]. vm_compute. reflexivity. }
  destruct (dk_decrypt_authentic ENC_DES3 krb5_hash_sha1 des3_sha1_key 2 None c 44 (text ++ zeros 6) None) as (conf & _ & _ & S);
    [apply _|octs|exact I|exact Oc|rewrite Lc; reflexivity|reflexivity|exact D|]. exists c, conf. split; [exact D|exact S].
Defined.

Lemma checksum_verifies_witness : exists ck st1 st3,
  krb5_c_make_checksum prng1 CKSUMTYPE_RSA_MD5_DES md5_des_key 2 text = (Ok ck, st1) /\
  krb5_c_verify_checksum st1 md5_des_key 2 text (CKSUMTYPE_RSA_MD5_DES, ck) = (Ok true, st3).
Proof.
  destruct (krb5_c_make_checksum prng1 CKSUMTYPE_RSA_MD5_DES md5_des_key 2 text) as [r st1] eqn:E.
  assert (exists ck, r = Ok ck) as [ck ->].
  { replace r with ((krb5_c_make_checksum prng1 CKSUMTYPE_RSA_MD5_DES md5_des_key 2 text).1) by (rewrite E; reflexivity).
    vm_compute. eexists. reflexivity. }
  destruct (checksum_verifies prng1 st1 CKSUMTYPE_RSA_MD5_DES md5_des_key 2 text ck st1) as (st3 & V); [exact prng1_wf|octs|exact E|].
  exists ck, st1, st3. split; [reflexivity|exact V].
Defined.

Lemma des_total_witness : exists c, k5_des_encrypt md5_des_key None (text ++ zeros 6) 16 = Ok c /\
  k5_des_decrypt md5_des_key None c 16 = Ok (text ++ zeros 6).
Proof.
  apply (des_total des_key ENCTYPE_DES_CBC_MD5 None (text ++ zeros 6)); [|exact I|octs|reflexivity|exact I].
  split; [octs|]. split; [reflexivity|]. split; vm_compute; reflexivity.
Defined.

Lemma make_key_bits_witness : exists k, k5_des_make_key [1; 2; 3; 4; 5; 6; 7] 8 = Ok k /\ mit_des_check_key_parity k = true.
Proof.
  destruct (make_key_bits [1; 2; 3; 4; 5; 6; 7]) as (k & E & _ & _ & P & _); [octs|reflexivity|]. exists k. split; [exact E|exact P].
Defined.

(** The bits of the key and of the block of the worked example for DES. *)
Definition number_bits (x : Z) : list Z := (fun i => Z.b2z (Z.testbit x (63 - i))) <$> seqZ 0 64.

Lemma afs_des_fips_witness :
  array_value (krb5_afs_encrypt (krb5_afs_crypt_setkey (number_bits 0x133457799bbcdff1)) (number_bits 0x0123456789abcdef) 0) = 0x85e813540f0ab405.
Proof.
  rewrite (proj2 (afs_des_fips (number_bits 0x133457799bbcdff1) (number_bits 0x0123456789abcdef) 0
    (conj (bits_check (number_bits 0x133457799bbcdff1) eq_refl) eq_refl) (conj (bits_check (number_bits 0x0123456789abcdef) eq_refl) eq_refl))).
  vm_compute. reflexivity.
Defined.

Lemma string_to_key_good_witness : exists k, mit_des_string_to_key_int (H := lp64) text [] (Some ([65; 66], false)) = Ok k /\ good_key k.
Proof. apply (string_to_key_good (H := lp64) text [] (Some [65; 66])). vm_compute. reflexivity. Defined.

Lemma afs_string_to_key_total_witness : exists k, mit_afs_string_to_key text (0 :: []) ([65; 66] ++ 0 :: []) = Ok k /\ mit_des_check_key_parity k = true.
Proof.
  destruct (afs_string_to_key_total text [] [65; 66] []) as (k & E & _ & _ & P); [octs|apply (bool_decide_eq_true_1 _); vm_compute; reflexivity..|]. exists k. split; [exact E|exact P].
Defined.
