(* ===== verification/WitnessAp.v ===== *)
(** * The theorems on application requests and messages at concrete inputs *)

From Stdlib Require Import String.
From S2P Require Import Prelude CString Asn1Buf Krb5Types Asn1KDecode Krb5Encode Krb5Decode PrincName Transited Kdc Words RcDfl RcDflProofs.
From S2P Require Import Md Shs Crypto CryptoApi CryptoProofs AuthCon ApExch ApReplay SafePriv.
From S2P Require Import Der Codec CodecPrim CodecTypes CodecKdc CodecMsg ApExchProofs SafePrivProofs KTest Witness WitnessCrypto.

(** What a concrete run returned. *)
Lemma run_result {A} (m : proc A) w a : (m w).1 = Ok a -> m w = (Ok a, (m w).2).
Proof. intros E. rewrite (surjective_pairing (m w)) at 1. by rewrite E. Qed.

Definition ok_or {A} (d : A) (r : outcome error_code A) : A := match r with Ok a => a | _ => d end.

(** ** A server, a client and a ticket *)

#[local] Instance stack1 : Stack := {| md_stack := md0; shs_stack := shs0 |}.

Definition srvkey : krb5_keyblock := Keyblock ENCTYPE_DES_CBC_CRC 8 (Some des_key).
Definition sesskey : krb5_keyblock := Keyblock ENCTYPE_DES_CBC_CRC 8 (Some [0x01; 0x23; 0x45; 0x67; 0x89; 0xab; 0xcd; 0xef]).
Definition named (s : string) : krb5_principal_data := Principal (data_of "R") (Some [data_of s]) 1 1.
Definition tkt_part : krb5_enc_tkt_part :=
  EncTktPart 0 (Some sesskey) (Some (named "c")) (Transited 0 (Data 0 None)) (TicketTimes 1000 1000 2000 0) None None.
Definition cx0 : krb5_context := Krb5Context 300 (Some [1]) (Ok [82; 0]) 7 7 (fun _ _ => None) [[1]; [2]] 0 (Ok []).
Definition empty_fs : file_system := FS ∅ [].
Definition no_data : krb5_enc_data := EncData 0 0 (Data 0 None).

Definition kdc_world : world := World 1000 7 prng1 empty_fs (krb5_auth_con_init cx0).
Definition seal_run := krb5_encrypt_tkt_part srvkey (Ticket (Some (named "s")) no_data (Some tkt_part)) kdc_world.
Definition tkt0 : krb5_ticket := Eval vm_compute in ok_or (Ticket None no_data None) seal_run.1.

Definition creds : krb5_creds :=
  Creds (Some (named "c")) (Some (named "s")) sesskey (TicketTimes 1000 1000 2000 0) false 0 None
    (code_of (der_ticket (sealed_ticket (stamp 3 tkt0)))) (Data 0 None) None.
Definition client_ac : auth_context := (krb5_auth_con_setflags (Z.lor KRB5_AUTH_CONTEXT_DO_TIME KRB5_AUTH_CONTEXT_DO_SEQUENCE) kdc_world).2.(w_ac).
Definition client_world : world := World 1010 8 prng1 empty_fs client_ac.
Definition options : Z := Z.lor AP_OPTS_MUTUAL_REQUIRED AP_OPTS_USE_SUBKEY.
Definition request_run := krb5_mk_req_extended 2000 cx0 no_data options None creds client_world.
Definition request : krb5_data := Eval vm_compute in ok_or (Data 0 None) request_run.1.
Definition sent_key : ptr krb5_keyblock := Eval vm_compute in ac_local_subkey (w_ac request_run.2).
Definition sent_subkey : option krb5_keyblock := Eval vm_compute in match sent_key with Ref k => Some k | _ => None end.

(** A replay cache, as the server has it after krb5_get_server_rcache. *)
Definition server_world : world := (krb5_get_server_rcache cx0 (data_of "s") (World 1020 9 prng1 empty_fs (krb5_auth_con_init cx0))).2.
Definition keytab (p : krb5_principal_data) (kvno etype : Z) : outcome error_code krb5_keyblock :=
  if (kvno =? 3) && (etype =? ENCTYPE_DES_CBC_CRC) then Ok srvkey else Err KRB5_KT_NOTFOUND.

Lemma prng1_ready : prng_wf prng1.
Proof. exact prng1_wf. Defined.

Lemma srvkey_good : good_key srvkey.
Proof. split; [wf|discriminate]. all: octs. Defined.
Lemma sesskey_good : good_key sesskey.
Proof. split; [wf|discriminate]. all: octs. Defined.

Lemma ap_exchange_agrees_witness : exists ws',
  krb5_rd_req 2000 cx0 keytab request (Some (named "s")) server_world =
    (Ok (int32 (Z.land options AP_OPTS_WIRE_MASK), stamp 3 tkt0), ws') /\ ac_remote_subkey (w_ac ws') = sent_subkey.
Proof.
  destruct (ap_exchange_agrees 2000 cx0 cx0 keytab (named "s") (named "c") srvkey 3 no_data tkt_part kdc_world tkt0 seal_run.2 creds no_data
              options None client_world request request_run.2 sent_subkey (Some (named "s")) server_world) as (ws' & E & _ & _ & K & _).
  - apply run_result. vm_compute. reflexivity.
  - exact srvkey_good.
  - exact prng1_ready.
  - split; try (left; reflexivity); wf.
  - wf.
  - wf.
  - reflexivity.
  - reflexivity.
  - reflexivity.
  - reflexivity.
  - exact sesskey_good.
  - wf.
  - left. reflexivity.
  - exact I.
  - split; [split; reflexivity|exact prng1_ready|wf|discriminate|discriminate].
  - wf.
  - wf.
  - apply run_result. vm_compute. reflexivity.
  - vm_compute. reflexivity.
  - split; vm_compute; congruence.
  - reflexivity.
  - split.
    + vm_compute. reflexivity.
    + intros s [= <-]. eexists. split; [reflexivity|]. vm_compute. reflexivity.
    + discriminate.
    + reflexivity.
    + intros t Et. eexists. split; [vm_compute; reflexivity|]. vm_compute in Et. injection Et as <-. vm_compute. reflexivity.
    + vm_compute. reflexivity.
  - discriminate.
  - exists ws'. split; [exact E|exact K].
Defined.

(** ** The reply *)

Definition served : world := (krb5_rd_req 2000 cx0 keytab request (Some (named "s")) server_world).2.
Definition no_authenticator : krb5_authenticator := Authenticator None None 0 0 None 0 None.
Definition served_auth : krb5_authenticator := Eval vm_compute in default no_authenticator (ac_authentp (w_ac served)).
Definition client_auth : krb5_authenticator := Eval vm_compute in default no_authenticator (ac_authentp (w_ac request_run.2)).
Definition reply_run := krb5_mk_rep no_data served.
Definition reply : krb5_data := Eval vm_compute in ok_or (Data 0 None) reply_run.1.
Definition served_prng : prng := Eval vm_compute in w_prng served.

Lemma served_prng_wf : prng_wf (w_prng served).
Proof. replace (w_prng served) with prng1 by (vm_compute; reflexivity). exact prng1_ready. Defined.

Lemma ap_rep_agrees_witness : exists wc',
  krb5_rd_rep 2000 reply request_run.2 = (Ok (reply_part served_auth reply_run.2), wc') /\
  ac_remote_seq_number (w_ac wc') = ac_local_seq_number (w_ac reply_run.2).
Proof.
  destruct (ap_rep_agrees 2000 no_data sesskey served_auth client_auth served reply reply_run.2 request_run.2) as (wc' & E & S & _).
  - vm_compute. reflexivity.
  - exact sesskey_good.
  - vm_compute. reflexivity.
  - exact served_prng_wf.
  - wf.
  - wf.
  - wf.
  - vm_compute. split; [|congruence]. split; [|discriminate]. wf.
  - apply run_result. vm_compute. reflexivity.
  - vm_compute. congruence.
  - vm_compute. congruence.
  - vm_compute. reflexivity.
  - vm_compute. reflexivity.
  - exists wc'. split; [exact E|exact S].
Defined.

(** A reply in which something else than a reply is sealed. *)
Definition other_cipher : krb5_enc_data :=
  Eval vm_compute in ok_or no_data (krb5_encrypt_helper sesskey KRB5_KEYUSAGE_AP_REP_ENCPART (data_of "not a reply") no_data kdc_world).1.
Definition other_reply : krb5_data := Eval vm_compute in ok_or (Data 0 None) (encode_krb5_ap_rep (Some (ApRep other_cipher))).
Definition waiting : world := World 0 0 prng1 empty_fs (set_keyblock (Some sesskey) (krb5_auth_con_init cx0)).
Definition other_scratch : krb5_data * option (list octet) :=
  Eval vm_compute in ok_or (Data 0 None, None) (decrypt_scratch sesskey KRB5_KEYUSAGE_AP_REP_ENCPART None other_cipher).
Definition other_error : error_code :=
  Eval vm_compute in match decode_krb5_ap_rep_enc_part 1000 (Some other_scratch.1) with Err e => e | _ => ENOMEM end.

Lemma rd_rep_reads_freed_witness : (krb5_rd_rep 1000 other_reply waiting).1 = Undefined.
Proof.
  apply (rd_rep_reads_freed 1000 other_reply waiting sesskey (ApRep other_cipher) other_scratch.1 other_scratch.2 other_error);
    vm_compute; reflexivity.
Defined.

(** A key of a type the library does not have. *)
Lemma mk_req_subkey_freed_twice_witness :
  let '(r, w') := krb5_generate_subkey (Keyblock 99 2 (Some [1; 2])) waiting in r = Err KRB5_BAD_ENCTYPE /\ krb5_auth_con_free (w_ac w') = Undefined.
Proof. apply (mk_req_subkey_freed_twice (Keyblock 99 2 (Some [1; 2])) waiting (Key 99 [1; 2]) KRB5_BAD_ENCTYPE); reflexivity. Defined.

(** ** The replay cache *)

Definition rep1 : krb5_donot_replay := Rep (str "s") (str "c") 7 1000.
Definition rep2 : krb5_donot_replay := Rep (str "s") (str "c") 8 1001.
Definition cache_history : list (Z * rc_op) := [(1001, Store rep1); (1002, Store rep2); (1003, Store rep1)].

Ltac rep_wf := split; [|split; [|split; split; vm_compute; congruence]]; intros H; vm_compute in H; repeat (apply elem_of_cons in H as [H|H]; [discriminate H|]); apply elem_of_nil in H; exact H.
Lemma rep1_wf : wf_rep rep1.
Proof. rep_wf. Defined.
Lemma rep2_wf : wf_rep rep2.
Proof. rep_wf. Defined.
Lemma history_wf : Forall (fun op => Forall wf_rep (op_records op)) cache_history.
Proof. repeat (apply Forall_cons_2; [apply Forall_cons_2; [first [exact rep1_wf|exact rep2_wf]|constructor]|]). constructor. Defined.

Lemma fresh0 : fresh_cache [[1]; [2]] (str "rc") empty_fs.
Proof. split; [reflexivity|]. exists [1]. split; [left|split; [discriminate|reflexivity]]. Defined.

Lemma rc_refuses_replays_witness : exists t fs',
  krb5_rc_dfl_init [[1]; [2]] 300 empty_fs (krb5_rc_dfl_resolve (Some (str "rc"))) 0 = (Ok tt, t, fs') /\
  refuses_replays 300 [] cache_history (rc_run [[1]; [2]] 300 cache_history t fs').
Proof.
  apply (rc_refuses_replays [[1]; [2]] 300 (str "rc") empty_fs 0 cache_history).
  - split; vm_compute; congruence.
  - exact fresh0.
  - exact history_wf.
  - repeat constructor; vm_compute; congruence.
  - vm_compute. reflexivity.
Defined.

(** The file ends within the name of the client in its second record. *)
Definition torn : list octet := contents 300 [rep1] ++ take 5 (rep_octets rep2).

Lemma rc_torn_record_witness :
  (krb5_rc_dfl_recover [[1]; [2]] 300 (Some 1003) (FS {[ str "rc" := 0%nat ]} [torn]) (krb5_rc_dfl_resolve (Some (str "rc")))).1.1 = Undefined.
Proof.
  apply (rc_torn_record [[1]; [2]] 300 (Some 1003) (str "rc") (FS {[ str "rc" := 0%nat ]} [torn]) 0 300 [rep1] rep2 5).
  - split; vm_compute; congruence.
  - apply Forall_cons_2; [exact rep1_wf|constructor].
  - reflexivity.
  - reflexivity.
  - vm_compute. lia.
  - vm_compute. split; reflexivity.
Defined.

(** The same request three times, and a restart in between. *)
Definition ap_request : krb5_ap_req := Eval vm_compute in ok_or (ApReq 0 None no_data) (decode_krb5_ap_req 2000 (Some request)).
Definition connection : server_event := Connection 9 prng1 (krb5_auth_con_init cx0) ap_request None true.
Definition course : list (Z * server_event) := [(1020, connection); (1021, connection); (1022, ServerRestart); (1023, connection)].

Lemma rd_req_no_replay_witness : exists t fs',
  krb5_rc_dfl_init [[1]; [2]] 300 empty_fs (krb5_rc_dfl_resolve (Some (str "rc"))) 300 = (Ok tt, t, fs') /\
  length (serve 2000 cx0 keytab course t fs') = 1%nat /\ NoDup (serve 2000 cx0 keytab course t fs').
Proof.
  destruct (rd_req_no_replay 2000 cx0 keytab (str "rc") empty_fs 300 course) as (t & fs' & E & H).
  - discriminate.
  - split; vm_compute; congruence.
  - vm_compute. congruence.
  - exact fresh0.
  - repeat constructor; vm_compute; congruence.
  - repeat constructor; vm_compute; congruence.
  - exists t, fs'. split; [exact E|]. vm_compute in E. injection E as <- <-. split; [vm_compute; reflexivity|].
    apply H. vm_compute. reflexivity.
Defined.

(** ** Messages *)

Definition addr_s : krb5_address := Address 2 4 (Some [18; 208; 0; 35]).
Definition addr_r : krb5_address := Address 2 4 (Some [18; 208; 0; 36]).
Definition end_point (flags : Z) (loc rem : krb5_address) (lseq rseq : Z) : auth_context :=
  AuthContext (Some rem) None (Some loc) None (Some sesskey) Null None flags rseq lseq None 7 7 (Some (replicate 8 0)) None None.
Definition sender : world := World 1000 7 prng1 empty_fs (end_point KRB5_AUTH_CONTEXT_DO_SEQUENCE addr_s addr_r 17 99).
Definition receiver : world := World 1000 7 prng1 empty_fs (end_point KRB5_AUTH_CONTEXT_DO_SEQUENCE addr_r addr_s 99 17).
Definition messages : list krb5_data := [data_of "one"; data_of "two"].

Lemma ends_peers : peers cx0 addr_s (Some addr_r) (w_ac sender) (w_ac receiver).
Proof.
  split.
  - repeat split.
  - reflexivity.
  - wf.
  - exists sesskey. split; [reflexivity|split; [reflexivity|exact sesskey_good]].
  - split; [reflexivity|split; [reflexivity|wf]].
  - split; [reflexivity|]. exists (Some addr_r). split; [reflexivity|]. split; [wf|reflexivity].
  - split; [reflexivity|]. split; [octs|vm_compute; congruence].
Defined.

Lemma messages_ok : Forall (data_ok 2000 addr_s (Some addr_r)) messages.
Proof. repeat (apply Forall_cons_2; [split; [wf|vm_compute; split; congruence]|]). constructor. Defined.

Definition priv_sent : list krb5_data := Eval vm_compute in ok_or [] (run_all (fun ud => krb5_mk_priv cx0 ud None) messages sender).1.
Definition safe_sent : list krb5_data := Eval vm_compute in ok_or [] (run_all (fun ud => krb5_mk_safe cx0 ud None) messages sender).1.

Lemma priv_channel_witness : exists wr', run_all (fun buf => krb5_rd_priv 2000 cx0 buf false) priv_sent receiver = (Ok messages, wr').
Proof.
  destruct (priv_channel 2000 cx0 cx0 addr_s (Some addr_r) messages sender priv_sent
              (run_all (fun ud => krb5_mk_priv cx0 ud None) messages sender).2 receiver ends_peers prng1_ready messages_ok) as (wr' & E & _).
  - apply run_result. vm_compute. reflexivity.
  - exists wr'. exact E.
Defined.

Lemma safe_channel_witness : exists wr', run_all (fun buf => krb5_rd_safe 2000 cx0 true buf false) safe_sent receiver = (Ok messages, wr').
Proof.
  destruct (safe_channel 2000 cx0 cx0 true addr_s (Some addr_r) messages sender safe_sent
              (run_all (fun ud => krb5_mk_safe cx0 ud None) messages sender).2 receiver ends_peers prng1_ready messages_ok) as (wr' & E & _).
  - apply run_result. vm_compute. reflexivity.
  - exists wr'. exact E.
Defined.

(** The first message, the first again, the second, and the second again. *)
Definition order_flags : Z := Z.lor KRB5_AUTH_CONTEXT_DO_SEQUENCE KRB5_AUTH_CONTEXT_RET_SEQUENCE.
Definition strict : world := World 1000 7 prng1 empty_fs (end_point order_flags addr_r addr_s 99 17).
Definition replayed : list (Z * Z * krb5_data) := (fun d => (1000, 7, d)) <$> (safe_sent ≫= fun d => [d; d]).


(** A message with a checksum of one octet, made without any key. *)
Definition forged : krb5_safe :=
  Safe (data_of "forged") 1000 7 17 (Some addr_s) (Some addr_r) (Some (Checksum CKSUMTYPE_HMAC_SHA1_DES3 1 (Some [0]))).
Definition forged_code : krb5_data := Eval vm_compute in ok_or (Data 0 None) (encode_krb5_safe (Some forged)).
Definition forged_zero : krb5_data :=
  Eval vm_compute in ok_or (Data 0 None) (encode_krb5_safe (Some (Safe (data_of "forged") 1000 7 17 (Some addr_s) (Some addr_r) (Some zero_cksum)))).

Lemma rd_safe_ignores_verification_witness :
  (krb5_rd_safe_basic 2000 cx0 true forged_code (Ok sesskey) (Some addr_r) (Some addr_s) receiver).1 =
  Ok (data_of "forged", ReplayData 1000 7 17).
Proof.
  rewrite (rd_safe_ignores_verification 2000 cx0 true forged_code sesskey (Some addr_r) (Some addr_s) receiver forged [0] forged_zero
             (ok_or [] (PrincName.contents forged_zero)) (crypto_key sesskey)); first [discriminate|vm_compute; reflexivity].
Defined.

(** A key of a type the library does not have. *)
Definition counting : world := World 1000 7 prng1 empty_fs (end_point KRB5_AUTH_CONTEXT_RET_SEQUENCE addr_s addr_r 17 99).
Definition drift_run := krb5_mk_priv cx0 (data_of "one") (Some (ReplayData 0 0 0)) (World 1000 7 prng1 empty_fs (set_keyblock (Some (Keyblock 99 0 None)) (w_ac counting))).

Lemma mk_priv_error_drifts_witness : ac_local_seq_number (w_ac drift_run.2) = 16.
Proof.
  apply (mk_priv_error_drifts cx0 (data_of "one") (ReplayData 0 0 0)
           (World 1000 7 prng1 empty_fs (set_keyblock (Some (Keyblock 99 0 None)) (w_ac counting))) KRB5_BAD_ENCTYPE drift_run.2);
    reflexivity.
Defined.
