(* ===== verification/WitnessGss.v ===== *)
(** * The theorems on the tokens of GSS-API at concrete inputs *)

From S2P Require Import Prelude Asn1Buf Words Md Shs Crypto CryptoApi CryptoProofs CryptoKeys GssGeneric GssGenericProofs.
From S2P Require Import GssGeneric GssGenericProofs GssSeal GssSealProofs KTest Witness WitnessCrypto.

#[local] Instance stack2 : Stack := {| md_stack := md0; shs_stack := shs0 |}.

(** A context of an initiator and that of its acceptor. *)
Definition context (initiate : bool) (keys : Z * Z * Z * keyblock * keyblock) (seq : Z) (q : queue) : krb5_gss_ctx_id_rec :=
  let '(signalg, cksum_size, sealalg, enc, seqkey) := keys in
  GssCtx initiate signalg cksum_size sealalg enc seqkey 2000 seq q true false gss_mech_krb5.
Definition queue_of (n : Z) : queue := match g_order_init (Some fresh_block) n true true with Ok q => q | _ => Queue false false 0 0 0 [] end.

Definition des_session : keyblock := Key ENCTYPE_DES_CBC_MD5 des_key.
Definition des3_session : keyblock := Key ENCTYPE_DES3_CBC_SHA1 des3_key.
Definition initiator (n : Z) : krb5_gss_ctx_id_rec := context true (des3_keys des3_session) n (queue_of 1).
Definition acceptor (n : Z) : krb5_gss_ctx_id_rec := context false (des3_keys des3_session) 1 (queue_of n).
Definition des_initiator (n : Z) : krb5_gss_ctx_id_rec := context true (des_keys des_session) n (queue_of 1).
Definition des_acceptor (n : Z) : krb5_gss_ctx_id_rec := context false (des_keys des_session) 1 (queue_of n).

Definition texts : list (list octet * bool) := [([104; 105], true); ([], false); ([1; 2; 3; 4; 5; 6; 7; 8], true)].

Lemma des3_sender n : is_uint 32 n -> sender (initiator n).
Proof. intros H. split; [|exact H|reflexivity]. exists des3_session. split; [octs|reflexivity]. Defined.
Lemma des_sender n : is_uint 32 n -> sender (des_initiator n).
Proof. intros H. split; [|exact H|reflexivity]. exists des_session. split; [octs|reflexivity]. Defined.

Lemma texts_ok : Forall (fun m => text_ok m.1) texts.
Proof. repeat constructor; first [octs|vm_compute; congruence]. Defined.

Definition sent : list (list octet) := Eval vm_compute in default [] (wrap_all 1000 prng1 (initiator 17) texts).
Definition des_sent : list (list octet) := Eval vm_compute in default [] (wrap_all 1000 prng1 (des_initiator 4294967294) texts).

(** The second token, the first, the first again, the third. *)
Lemma gss_stream_witness : unwrap_all 1500 prng1 (acceptor 17) (deliver sent [1; 0; 0; 2]%nat) =
  [Ok (GSS_S_GAP_TOKEN, [], false); Ok (GSS_S_UNSEQ_TOKEN, [104; 105], true); Ok (GSS_S_DUPLICATE_TOKEN, [104; 105], true);
   Ok (GSS_S_COMPLETE, [1; 2; 3; 4; 5; 6; 7; 8], true)].
Proof.
  rewrite (gss_stream 1000 prng1 (initiator 17) texts sent (acceptor 17) 1500 prng1 fresh_block true true [1; 0; 0; 2]%nat).
  - vm_compute. reflexivity.
  - apply des3_sender. vm_compute. split; congruence.
  - exact prng1_wf.
  - exact texts_ok.
  - vm_compute. reflexivity.
  - split; [repeat split|split; reflexivity].
  - vm_compute. congruence.
  - reflexivity.
  - reflexivity.
  - reflexivity.
  - vm_compute. congruence.
  - vm_compute. congruence.
  - repeat constructor.
Defined.

(** The numbers wrap around. *)
Lemma gss_in_order_witness : unwrap_all 1500 prng1 (des_acceptor 4294967294) des_sent = (fun m => Ok (GSS_S_COMPLETE, m.1, m.2)) <$> texts.
Proof.
  apply (gss_in_order 1000 prng1 (des_initiator 4294967294) texts des_sent (des_acceptor 4294967294) 1500 prng1 fresh_block true true).
  - apply des_sender. vm_compute. split; congruence.
  - exact prng1_wf.
  - exact texts_ok.
  - vm_compute. reflexivity.
  - split; [repeat split|split; reflexivity].
  - vm_compute. congruence.
  - reflexivity.
  - reflexivity.
Defined.

Lemma mic_delivered_witness : exists status token,
  (krb5_gss_get_mic 1000 prng1 (des_initiator 17) 0 text).1.1 = Ok (status, token) /\
  (krb5_gss_verify_mic 1500 prng1 (des_acceptor 17) text token).1.1 = Ok (GSS_S_COMPLETE, text, false).
Proof.
  destruct (mic_delivered 1000 prng1 (des_initiator 17) text des_key) as (status & token & E & V).
  - apply des_sender. vm_compute. split; congruence.
  - exact prng1_wf.
  - split; [octs|]. split; vm_compute; congruence.
  - reflexivity.
  - repeat split.
  - reflexivity.
  - split; [octs|]. split; [reflexivity|]. split; vm_compute; reflexivity.
  - discriminate.
  - vm_compute. congruence.
  - exists status, token. split; [rewrite E; reflexivity|].
    rewrite (V (des_acceptor 17) 1500 prng1); [|split; [repeat split|split; reflexivity]|vm_compute; congruence]. vm_compute. reflexivity.
Defined.

Lemma wrap_size_limit_fits_witness : krb5_gss_wrap_size_limit (initiator 17) 0 120 = Ok 32 /\
  exists status token st' c', krb5_gss_wrap 1000 prng1 (initiator 17) true 0 text = (Ok (status, token), st', c') /\ zlen token <= 120.
Proof.
  split; [vm_compute; reflexivity|].
  destruct (krb5_gss_wrap 1000 prng1 (initiator 17) true 0 text) as [[r st'] c'] eqn:E.
  assert (exists status token, r = Ok (status, token)) as (status & token & ->).
  { replace r with ((krb5_gss_wrap 1000 prng1 (initiator 17) true 0 text).1.1) by (rewrite E; reflexivity). vm_compute. do 2 eexists. reflexivity. }
  exists status, token, st', c'. split; [reflexivity|].
  apply (wrap_size_limit_fits (initiator 17) prng1 1000 true text status token st' c' 120 32).
  - apply des3_sender. vm_compute. split; congruence.
  - exact prng1_wf.
  - split; [octs|]. split; vm_compute; congruence.
  - split; vm_compute; congruence.
  - vm_compute. reflexivity.
  - split; vm_compute; congruence.
  - exact E.
Defined.

Lemma unseal_faults_witness :
  (krb5_gss_verify_mic 1000 prng1 (des_acceptor 17) text (g_make_token_header gss_mech_krb5 22 KG_TOK_SIGN_MSG ++ [1; 0; 255; 255; 255; 255] ++ replicate 16 0)).1.1 = Undefined.
Proof.
  unfold krb5_gss_verify_mic.
  rewrite (unseal_faults 1000 prng1 (des_acceptor 17) text ([1; 0; 255; 255; 255; 255] ++ replicate 16 0) KG_TOK_SIGN_MSG); try reflexivity.
  - repeat split.
  - right. split; reflexivity.
Defined.

Lemma token_header_safe_witness :
  settles (g_verify_token_header gss_mech_krb5 [0x60; 0x84; 0xff; 0xff; 0xff; 0xff; 0] 0 KG_TOK_SEAL_MSG (int32 7))
    (fun '(ptr, size) => 0 <= size /\ 0 <= ptr /\ ptr + size = 7).
Proof. apply (token_header_safe gss_mech_krb5 [0x60; 0x84; 0xff; 0xff; 0xff; 0xff; 0] KG_TOK_SEAL_MSG); [octs|reflexivity]. Defined.
