(* ===== verification/WitnessKdb.v ===== *)
(** * The theorems on key tables at concrete inputs, and key tables that are lost *)

From Stdlib Require Import String.
From stdpp Require Import gmap.
From S2P Require Import Prelude Asn1Buf Krb5Types Words PrincName PrincNameProofs Md Shs Crypto CryptoApi RcDfl KtFile KtFileProofs KTest Witness WitnessCrypto CryptoProofs CryptoEnc Kdb KdbXdrProofs KdbKeyProofs KdcReplay KdcReplayProofs.

#[local] Instance stack3 : Stack := {| md_stack := md0; shs_stack := shs0 |}.

Definition host (name : string) : krb5_principal_data := Principal (data_of "R") (Some [data_of "host"; data_of name]) 2 1.
Definition entry (name : string) (vno etype : Z) : krb5_keytab_entry := KtEntry (host name) 0 vno (Keyblock etype 8 (Some des_key)).
Definition bytes (s : string) : list octet := default [] (d_data (data_of s)).
Definition host_rec (name : string) (vno etype now : Z) : kt_rec := KtRec (bytes "R") [bytes "host"; bytes name] 1 now vno etype des_key.
Definition no_table : krb5_ktfile_data := KtData None NoStream 0.

Definition ops : list kt_op := [Add 70 (entry "a" 1 1); Add 71 (entry "b" 2 1); Remove (entry "a" 1 1); Add 72 (entry "b" 3 1); Remove (entry "c" 1 1)].
Definition done_ops := run_ops 8192 None 100 ops no_table.
Definition final : krb5_ktfile_data := Eval vm_compute in done_ops.2.

Lemma host_stored name vno now : wf_str (bytes name) -> d_length (data_of name) = zlen (bytes name) -> d_data (data_of name) = Some (bytes name) ->
  is_octet vno -> is_int 32 now -> stored_as (entry name vno 1) now (host_rec name vno 1 now).
Proof.
  intros Hn HL HD Hv Ht. split; try reflexivity.
  - split; try done; try (split; vm_compute; congruence). repeat constructor; [vm_compute; congruence|apply Hn..].
  - split; [split; [reflexivity|exists []; reflexivity]|]. split; [reflexivity|]. eexists. split; [reflexivity|].
    constructor; [split; [reflexivity|exists []; reflexivity]|]. constructor; [|constructor]. split; [exact HL|]. rewrite HD. exists []. symmetry. apply app_nil_r.
  - cbn. symmetry. apply Z.mod_small. exact Hv.
  - split; [reflexivity|]. exists []. reflexivity.
Qed.

Lemma table_new : table no_table [] 2 0.
Proof. exists []. split; [constructor|]. split; [reflexivity|]. split; [reflexivity|]. split; [reflexivity|]. split; [vm_compute; congruence|constructor]. Defined.

Lemma removable name vno : d_length (data_of name) = zlen (bytes name) -> d_data (data_of name) = Some (bytes name) -> wf_op (Remove (entry name vno 1)).
Proof.
  intros HL HD. exists (bytes "R"), [bytes "host"; bytes name]. split; [split; [reflexivity|exists []; reflexivity]|]. split; [reflexivity|]. eexists. split; [reflexivity|].
  constructor; [split; [reflexivity|exists []; reflexivity]|]. constructor; [|constructor]. split; [exact HL|]. rewrite HD. exists []. symmetry. apply app_nil_r.
Qed.

Lemma ops_ok : Forall wf_op ops.
Proof.
  assert (HA : forall name vno now, wf_str (bytes name) -> d_length (data_of name) = zlen (bytes name) -> d_data (data_of name) = Some (bytes name) ->
               is_octet vno -> is_int 32 now -> wf_op (Add now (entry name vno 1))) by (intros; eexists; apply host_stored; assumption).
  repeat (constructor; [first [apply removable; reflexivity|apply HA; first [reflexivity|split; vm_compute; congruence]]|]). constructor.
Qed.

(** The entries of b, in the order in which they are found. *)
Lemma kt_refines_witness : done_ops.1 = [Ok tt; Ok tt; Ok tt; Ok tt; Err KRB5_KT_NOTFOUND] /\
  exists es', kt_steps [] ops done_ops.1 es' /\ table done_ops.2 es' 119 5.
Proof.
  destruct (kt_refines (P := lp64) ltac:(vm_compute; congruence) 8192 ltac:(lia) None 100 ops no_table [] 2 0 table_new ops_ok) as (rs & kt' & es' & E & S & T).
  - vm_compute. reflexivity.
  - vm_compute. lia.
  - unfold done_ops. rewrite E. cbn [fst snd]. split.
    + replace rs with (done_ops.1) by (unfold done_ops; rewrite E; reflexivity). vm_compute. reflexivity.
    + exists es'. split; [exact S|]. vm_compute (2 + _) in T. exact T.
Defined.

Definition b_slots : list slot := [Used (host_rec "b" 3 1 72) []; Used (host_rec "b" 2 1 71) []].

Lemma final_table : table final [host_rec "b" 3 1 72; host_rec "b" 2 1 71] 119 5.
Proof.
  exists b_slots. split.
  - assert (HW : forall vno now, is_octet vno -> is_int 32 now -> wf_rec (host_rec "b" vno 1 now)).
    { intros vno now Hv Ht. apply (sa_wf (entry "b" vno 1) now). apply host_stored; first [assumption|reflexivity|split; vm_compute; congruence]. }
    constructor; [|constructor; [|constructor]]; apply HW; split; vm_compute; congruence.
  - split; [reflexivity|]. split; [reflexivity|]. split; [vm_compute; reflexivity|]. split; [vm_compute; congruence|vm_compute; lia].
Defined.

(** The larger version. *)
Lemma kt_lookup_witness : (krb5_ktfile_get_entry None (host "b") 0 ENCTYPE_DES_CBC_CRC final).1 = Ok (entry_of (host_rec "b" 3 1 72)).
Proof.
  destruct (kt_lookup (P := lp64) ltac:(vm_compute; congruence) None final (file b_slots) [host_rec "b" 3 1 72; host_rec "b" 2 1 71] 119 5 (host "b") (bytes "R")
              [bytes "host"; bytes "b"] 0 ENCTYPE_DES_CBC_CRC final_table) as (res & HA & E).
  - vm_compute. reflexivity.
  - lia.
  - apply (sa_principal (entry "b" 2 1) 71 (host_rec "b" 2 1 71)). apply host_stored; first [reflexivity|split; vm_compute; congruence].
  - constructor; [|constructor; [|constructor]]; right; eexists; vm_compute; reflexivity.
  - rewrite E. cbn [fst]. destruct res as [r|e| |]; try (exfalso; exact HA).
    + destruct HA as [Hin HF]. change (Forall (fun c => kr_vno c <= kr_vno r) [host_rec "b" 3 1 72; host_rec "b" 2 1 71]) in HF.
      apply Forall_cons_1 in HF as [H3 _]. apply elem_of_cons in Hin as [->|[->|Hin]%elem_of_cons]; [reflexivity|exfalso; apply H3; reflexivity|].
      apply elem_of_nil in Hin. destruct Hin.
    + exfalso. destruct HA as [_ HA]. discriminate HA.
Defined.

Lemma kt_enumerates_witness : exists cursor kt1 kt2, krb5_ktfile_start_seq_get None final = (Ok cursor, kt1) /\
  entries_from 6 cursor kt1 = Some (entry_of <$> [host_rec "b" 3 1 72; host_rec "b" 2 1 71], kt2).
Proof.
  destruct (kt_enumerates (P := lp64) ltac:(vm_compute; congruence) None final (file b_slots) [host_rec "b" 3 1 72; host_rec "b" 2 1 71] 119 5 final_table) as (c & k1 & k2 & E1 & E2 & _).
  - vm_compute. reflexivity.
  - lia.
  - exists c, k1, k2. split; [exact E1|exact E2].
Defined.

(** ** Entries that are lost *)

(** An entry with an empty component is refused, but the slot that was reserved for it
    stays: entries that are added afterwards are never found. *)
Lemma add_after_failure_lost :
  let kt1 := (krb5_ktfile_add 8192 None 100 70 (entry "" 1 1) final).2 in
  let kt2 := (krb5_ktfile_add 8192 None 100 70 (entry "new" 1 1) kt1).2 in
  (krb5_ktfile_add 8192 None 100 70 (entry "" 1 1) final).1 = Err KRB5_KT_IOERR /\
  (krb5_ktfile_add 8192 None 100 70 (entry "new" 1 1) kt1).1 = Ok tt /\
  (krb5_ktfile_get_entry None (host "new") 0 0 kt2).1 = Err KRB5_KT_NOTFOUND.
Proof. vm_compute. done. Qed.

(** An entry of a type that the library does not know ends every search for a key of some
    type. *)
Lemma unknown_enctype_blocks :
  let kt1 := (krb5_ktfile_add 8192 None 100 70 (entry "a" 1 23) no_table).2 in
  let kt2 := (krb5_ktfile_add 8192 None 100 70 (entry "b" 1 1) kt1).2 in
  (krb5_ktfile_get_entry None (host "b") 0 0 kt2).1 = Ok (entry_of (host_rec "b" 1 1 70)) /\
  (krb5_ktfile_get_entry None (host "b") 0 1 kt2).1 = Err KRB5_BAD_ENCTYPE.
Proof. vm_compute. done. Qed.

(** An empty file, with errno 0: the key table is used after its stream was closed. *)
Lemma empty_file_fault :
  (krb5_ktfile_get_entry None (host "b") 0 0 (KtData (Some []) NoStream 0)).1 = Undefined.
Proof. reflexivity. Qed.

(** * The theorems on the principal database and on the replies of the KDC at concrete inputs *)

#[local] Instance stack4 : Stack := {| md_stack := md0; shs_stack := shs0 |}.

(** host/a@R, with two keys and a record *)
Definition db_name : list octet := name_string [82] [104; 111; 115; 116] [[97]].
Definition db_princ : krb5_principal_data := name_principal [82] [[104; 111; 115; 116]; [97]].
Definition db_key (kvno type : Z) : krb5_key_data := KeyData 1 kvno [Slot type 10 (Block [8; 0; 1; 2; 3; 4; 5; 6; 7; 8]); zero_slot].
Definition db_entry (tl : list krb5_tl_data) (keys : list krb5_key_data) : krb5_db_entry_new :=
  DbEntryNew 38 0x80 36000 604800 0 0 0 0 3 (zlen tl) (zlen keys) 0 None (Some db_princ) tl (if zlen keys =? 0 then None else Some keys).
Definition some_tl : list krb5_tl_data := [TlData 3 2 (Some [7; 7])].
Definition two_keys : list krb5_key_data := [db_key 1 ENCTYPE_DES_CBC_CRC; db_key 2 ENCTYPE_DES_CBC_CRC].

Lemma db_key_wf kvno type : is_int 16 kvno -> is_int 16 type -> wf_key (db_key kvno type).
Proof.
  intros Hk Ht. split; cbn [key_data_ver key_data_kvno db_key]; [lia|exact Hk|reflexivity| |reflexivity]. constructor; [|constructor].
  split; [exact Ht|]. vm_compute. split; [reflexivity|]. split; reflexivity.
Qed.

Lemma db_wf tl keys : Forall wf_tl tl -> Forall wf_key keys -> zlen tl < 2 ^ 15 -> zlen keys < 2 ^ 15 -> wf_entry (db_entry tl keys) db_name.
Proof.
  intros Ht Hk Lt Lk. assert (EK : entry_keys (db_entry tl keys) = keys).
  { unfold entry_keys. cbn [dbe_key_data db_entry]. destruct (Z.eqb_spec (zlen keys) 0) as [E|]; [|reflexivity]. by rewrite (zlen_0_nil keys E). }
  constructor; rewrite ?EK; cbn [db_entry dbe_n_tl_data dbe_n_key_data dbe_tl_data dbe_key_data]; try done.
  - repeat constructor; vm_compute; congruence.
  - exists db_princ, [82], [104; 111; 115; 116], [[97]]. split; [reflexivity|]. split; [apply princ_holds_name|]. split; [discriminate|reflexivity].
Qed.

Lemma sample_wf : wf_entry (db_entry some_tl two_keys) db_name.
Proof.
  apply db_wf; [|do 2 (apply Forall_cons_2; [apply db_key_wf; split; vm_compute; congruence|]); apply Forall_nil_2|vm_compute; reflexivity|vm_compute; reflexivity].
  constructor; [|constructor]. split; [split; vm_compute; congruence|]. exists [7; 7]. split; [reflexivity|]. split; [reflexivity|]. vm_compute. reflexivity.
Qed.
Lemma sample_memory : entry_memory (db_entry some_tl two_keys) db_name.
Proof. split; [vm_compute; reflexivity|]. split; [vm_compute; congruence|]. split; vm_compute; congruence. Qed.

Lemma princ_contents_roundtrip_witness : exists content p',
  krb5_encode_princ_contents (db_entry some_tl two_keys) = Ok content /\ d_length content = 91 /\
  krb5_decode_princ_contents Undefined None content = (Ok (with_princ (db_entry some_tl two_keys) p'), None).
Proof.
  destruct (princ_contents_roundtrip (db_entry some_tl two_keys) db_name Undefined None sample_wf sample_memory) as (p & p' & E1 & _ & E2 & _).
  eexists _, p'. split; [exact E1|]. split; [vm_compute; reflexivity|exact E2].
Defined.

(** Twenty octets, half of the name, and all but the last octet. *)
Lemma truncated_record_witness :
  let cut n := (krb5_decode_princ_contents Undefined None (Data n (Some (take (Z.to_nat n) (entry_octets (db_entry some_tl two_keys) db_name))))).1 in
  cut 20 = Err KRB5_KDB_TRUNCATED_RECORD /\ cut 43 = Undefined /\ cut 85 = Err KRB5_KDB_TRUNCATED_RECORD.
Proof.
  pose proof (fun n => truncated_record (db_entry some_tl two_keys) db_name Undefined None n sample_wf sample_memory) as T.
  split; [|split]; (etransitivity; [apply T; split; vm_compute; congruence|vm_compute; reflexivity]).
Defined.

Definition changes : list dbe_op := [SetTl 3 [1]; SetPwdChange 1000; Reload; SetModPrinc 2000 db_princ; SetPwdChange 3000; Reload].

Lemma changes_ok : Forall wf_change changes.
Proof.
  assert (HP : forall n, 0 <= n < 1000000 -> wf_change (SetPwdChange n)) by (intros n Hn; red; unfold is_int; lia).
  apply Forall_cons_2; [split; [split; vm_compute; congruence|vm_compute; reflexivity]|]. apply Forall_cons_2; [apply HP; lia|]. apply Forall_cons_2; [exact I|].
  apply Forall_cons_2; [|apply Forall_cons_2; [apply HP; lia|apply Forall_cons_2; [exact I|apply Forall_nil_2]]].
  split; [split; vm_compute; congruence|]. split; [vm_compute; reflexivity|]. exists [82], [104; 111; 115; 116], [[97]].
  split; [apply princ_holds_name|vm_compute; congruence].
Qed.

Lemma entry_history_witness : exists e', run_changes Undefined None changes (db_entry some_tl two_keys) = Ok e' /\
  krb5_dbe_lookup_tl_data e' 3 = TlData 3 1 (Some [1]) /\ krb5_dbe_lookup_last_pwd_change e' = Ok 3000 /\
  krb5_dbe_lookup_mod_princ_data Undefined None e' = (Ok (2000, db_princ), None).
Proof.
  destruct (entry_history Undefined None db_name (db_entry some_tl two_keys) changes 100000 sample_wf) as (e' & E & _ & _ & L1 & L2 & L3).
  - apply NoDup_singleton.
  - vm_compute. congruence.
  - vm_compute. congruence.
  - apply changes_ok.
  - reflexivity.
  - vm_compute. congruence.
  - vm_compute. congruence.
  - vm_compute. reflexivity.
  - exists e'. split; [exact E|]. split; [rewrite L1; vm_compute; reflexivity|]. split; [apply L2; [split; vm_compute; congruence|vm_compute; reflexivity]|].
    apply (L3 2000 [82] [104; 111; 115; 116] [[97]]); [split; vm_compute; congruence|discriminate|vm_compute; congruence|vm_compute; reflexivity].
Defined.

(** A key of the KDC under a master key for triple DES, with a salt. *)
Definition master : keyblock := Key ENCTYPE_DES3_CBC_SHA1 des3_key.
Definition new_key : krb5_keyblock := Keyblock ENCTYPE_DES_CBC_CRC 8 (Some des_key).
Definition new_salt : krb5_keysalt := KeySalt 4 (Data 3 (Some [120; 121; 122])).
Definition stored : outcome error_code unit * key_store :=
  Eval vm_compute in krb5_dbekd_encrypt_key_data master new_key (Some new_salt) 3 (KeyStore zero_key_data prng1).
Definition stored_key : krb5_key_data := st_key stored.2.

Lemma stored_eq : krb5_dbekd_encrypt_key_data master new_key (Some new_salt) 3 (KeyStore zero_key_data prng1) = (Ok tt, KeyStore stored_key (st_random stored.2)).
Proof. vm_compute. reflexivity. Qed.

Lemma new_key_is : key_is new_key des_key.
Proof.
  split; [split; vm_compute; congruence|]. split; [reflexivity|]. split; [exists []; by rewrite app_nil_r|]. split; [octs|vm_compute; reflexivity].
Qed.
Lemma new_salt_ok salt : Some new_salt = Some salt -> salt_ok salt.
Proof.
  intros [= <-]. split; [split; vm_compute; congruence|]. exists [120; 121; 122]. split; [split; [reflexivity|exists []; reflexivity]|].
  split; vm_compute; congruence.
Qed.

Lemma key_data_roundtrip_witness : exists k' r, krb5_dbekd_decrypt_key_data master stored_key true = Ok (Some k', Some r) /\
  key_is k' des_key /\ salt_type r = 4.
Proof.
  destruct (key_data_roundtrip master new_key des_key (Some new_salt) 3 prng1 stored_key (st_random stored.2) prng1_wf) as (k' & r & E & _ & HK & _ & HS).
  - octs.
  - exact new_key_is.
  - split; vm_compute; congruence.
  - exact new_salt_ok.
  - exact stored_eq.
  - exists k', r. split; [exact E|]. split; [exact HK|]. exact (proj1 HS).
Defined.

Definition again : outcome error_code unit * key_store :=
  Eval vm_compute in krb5_dbekd_encrypt_key_data master new_key (Some (KeySalt 1 (Data 0 None))) 4 (KeyStore stored_key prng1).

Lemma again_eq : krb5_dbekd_encrypt_key_data master new_key (Some (KeySalt 1 (Data 0 None))) 4 (KeyStore stored_key prng1) =
  (Ok tt, KeyStore (st_key again.2) (st_random again.2)).
Proof. vm_compute. reflexivity. Qed.
Lemma stored_slots : stored_key = KeyData 2 3 [Slot (ks_type (slot_at 0 stored_key)) (ks_length (slot_at 0 stored_key)) (Block (slot_contents (slot_at 0 stored_key)));
  Slot 4 3 (Block [120; 121; 122])].
Proof. vm_compute. reflexivity. Qed.

Lemma empty_salt_double_free_witness : (krb5_dbekd_encrypt_key_data master new_key None 5 (KeyStore (st_key again.2) prng1)).1 = Undefined.
Proof.
  pose proof again_eq as E. rewrite stored_slots in E.
  exact (empty_salt_double_free master new_key 1 4 _ _ _ _ _ _ _ prng1 (st_key again.2) (st_random again.2) master new_key None 5 prng1 eq_refl E).
Defined.

Lemma search_enumerates_witness : search_all 3 (db_entry some_tl two_keys) 0 ENCTYPE_DES_CBC_CRC (-1) 2 = Ok [db_key 2 ENCTYPE_DES_CBC_CRC].
Proof.
  etransitivity; [apply (search_enumerates (db_entry some_tl two_keys) db_name ENCTYPE_DES_CBC_CRC (-1) 2 sample_wf)|vm_compute; reflexivity].
  - apply Forall_cons_2; [by eexists; vm_compute|]. apply Forall_cons_2; [by eexists; vm_compute|apply Forall_nil_2].
  - vm_compute. congruence.
Defined.

Definition with_stored : krb5_db_entry_new :=
  let e1 := (krb5_dbe_create_key_data (db_entry some_tl two_keys)).2 in with_key_data e1 (dbe_n_key_data e1) (Some (<[2%nat := stored_key]> (entry_keys e1))).

Lemma stored_key_found_witness : exists content e' kd k', krb5_encode_princ_contents with_stored = Ok content /\
  krb5_decode_princ_contents Undefined None content = (Ok e', None) /\ krb5_dbe_find_enctype e' ENCTYPE_DES_CBC_CRC (-1) 0 = Ok kd /\
  krb5_dbekd_decrypt_key_data master kd false = Ok (Some k', None) /\ key_is k' des_key.
Proof.
  destruct (stored_key_found (db_entry some_tl two_keys) db_name (krb5_dbe_create_key_data (db_entry some_tl two_keys)).2 master new_key des_key (Some new_salt) 3
    prng1 stored_key (st_random stored.2) Undefined None sample_wf) as (content & e' & kd & k' & E1 & E2 & E3 & E4 & _ & HK).
  - vm_compute. reflexivity.
  - exact prng1_wf.
  - octs.
  - exact new_key_is.
  - split; vm_compute; congruence.
  - exact new_salt_ok.
  - vm_compute. reflexivity.
  - exact stored_eq.
  - split; [vm_compute; reflexivity|]. split; [vm_compute; congruence|]. split; vm_compute; congruence.
  - lia.
  - repeat constructor.
  - vm_compute. congruence.
  - vm_compute. reflexivity.
  - apply Forall_cons_2; [by eexists; vm_compute|]. apply Forall_cons_2; [by eexists; vm_compute|apply Forall_nil_2].
  - exists content, e', kd, k'. split; [exact E1|]. split; [exact E2|]. split; [exact E3|]. split; [exact E4|exact HK].
Defined.

(** A request to the ticket-granting service that arrives twice, and another one between. *)
Definition busy (n : Z) : kdc_work := KdcWork (fun _ _ => Ok [n]) (fun _ => Ok tt) (fun _ _ => Err ENOMEM).
Definition ask (n now : Z) (pkt : list octet) : request := Request (Some (now, 5)) (Some (now, 5)) (busy n) pkt [18; 0; 0; 1].
Definition requests : list request := [ask 1 100 [0x6c; 1]; ask 2 130 [0x6c; 2]; ask 3 200 [0x6c; 1]].

Lemma replies_genuine_witness : (serve_all 10 requests no_replies).1 = [Ok [1]; Ok [2]; Ok [1]] /\
  reply_genuine 10 (take 2 requests) (ask 3 200 [0x6c; 1]) (Ok [1]).
Proof. split; [vm_compute; reflexivity|]. apply (replies_genuine 10 requests 2 (ask 3 200 [0x6c; 1]) (Ok [1])); vm_compute; reflexivity. Defined.

Lemma repeated_request_answered_witness :
  (serve 10 (ask 3 200 [0x6c; 1]) (serve_all 10 [ask 2 130 [0x6c; 2]] (serve 10 (ask 1 100 [0x6c; 1]) no_replies).2).2).1 = Ok [1].
Proof.
  apply (repeated_request_answered 10 no_replies (ask 1 100 [0x6c; 1]) [ask 2 130 [0x6c; 2]] (ask 3 200 [0x6c; 1]) 100 5 [1]).
  - vm_compute. congruence.
  - vm_compute. congruence.
  - vm_compute. congruence.
  - vm_compute. congruence.
  - reflexivity.
  - reflexivity.
  - reflexivity.
  - apply Forall_cons_2; [exists 130; split; [reflexivity|vm_compute; reflexivity]|apply Forall_nil_2].
  - exists 200. split; [reflexivity|vm_compute; reflexivity].
  - reflexivity.
  - reflexivity.
Defined.
