(* ===== verification/WitnessKadm.v ===== *)
(** * The theorems on the administration server at concrete inputs, and an access that is
    granted by mistake *)

From stdpp Require Import gmap.
From Stdlib Require Import String.
From S2P Require Import Prelude CString Asn1Buf Krb5Types PrincName PrincNameProofs Crypto CryptoApi CryptoProofs Md Shs Kdc Kdb KTest KadmAcl KadmAclProofs KadmStubs KadmStubsProofs.
From S2P Require Import Witness WitnessCrypto WitnessKdb KadmPrinc KadmPrincProofs KadmHistProofs.

(** Durations in the file *)
Definition one_hour (s : list octet) : option Z := if bool_decide (s = chars_of "1h") then Some 3600 else None.
Definition no_realm : outcome error_code (list octet) := Err KRB5_CONFIG_NODEFREALM.

Definition acl_items : list acl_item := Eval vm_compute in [
  Remark (chars_of "# who may do what");
  Rule (AclLine (chars_of "joe/admin@R") (chars_of "adm") (Some (chars_of "*@R")) (Some (chars_of "-maxlife 1h")));
  Remark [];
  Rule (AclLine (chars_of "ann/admin@R") (chars_of "a") (Some (chars_of "*")) (Some (chars_of "-maxlife 1h")));
  Rule (AclLine (chars_of "*/admin@R") (chars_of "il") None None)].

Ltac check_chars := repeat first [apply Forall_nil_2 | apply Forall_cons_2 | split]; vm_compute; congruence.

Lemma acl_items_ok : Forall (item_ok 8192) acl_items.
Proof.
  unfold acl_items. repeat first [apply Forall_nil_2 | apply Forall_cons_2]; (split; [split; [check_chars|split; vm_compute; congruence]|]).
  all: first [by left | by right | idtac].
  all: (split; [|reflexivity]); (split; [split; [discriminate|check_chars]|]); (split; [vm_compute; congruence|]); (split; [split; [discriminate|check_chars]|]); cbn.
  - split; [split; [discriminate|check_chars]|]. split; [discriminate|]. by split.
  - split; [split; [discriminate|check_chars]|]. split; [discriminate|]. by split.
  - exact I.
Qed.

Ltac check_name := split; [check_chars|vm_compute; congruence].
Ltac check_plain := let E := fresh in intros E; vm_compute in E; first [discriminate E |
  injection E as <-; cbn [fst snd]; split; [check_chars|]; split; [check_chars|]; intros _;
  repeat first [apply Forall_nil_2 | apply Forall_cons_2]; intros (b & Hb & _); discriminate].

Lemma acl_lines_ok : Forall (line_ok no_realm) (rules acl_items).
Proof.
  unfold rules, acl_items. cbn [mbind list_bind app]. repeat first [apply Forall_nil_2 | apply Forall_cons_2].
  all: split; cbn [al_who al_target]; [check_name|intros t E; first [discriminate E | injection E as <-; check_name]|intros p; check_plain|].
  all: intros t p E; first [discriminate E | injection E as <-; check_plain].
Qed.

Definition joe : name := (chars_of "R", [chars_of "joe"; chars_of "admin"]).
Definition ann : name := (chars_of "R", [chars_of "ann"; chars_of "admin"]).
Definition target : name := (chars_of "R", [chars_of "web"]).
Definition ask (caller : name) (op : Z) (dest : option name) : acl_query :=
  AclQuery caller [] op ((fun n : name => name_principal n.1 n.2) <$> dest).

Lemma ask_ok caller op dest : caller.1 <> [] -> caller.2 <> [] -> name_memory (zlen (shown caller)) -> query_ok (ask caller op dest) dest.
Proof. intros H1 H2 H3. split; [done|]. split; [done|]. split; [done|]. destruct dest as [n|]; [apply princ_holds_name|done]. Qed.

Lemma acl_decides_witness : exists st, acl_init 8192 (Some (acl_text acl_items)) None = Ok st /\
  check_all one_hour no_realm [ask joe ACL_ADD (Some target); ask joe ACL_INQUIRE (Some target); ask ann ACL_LIST None] st =
  Ok [(true, Some (Some (Restriction KADM5_MAX_LIFE 0 0 0 0 3600 0 0 None))); (false, None); (false, None)].
Proof.
  destruct (acl_decides 8192 one_hour no_realm acl_items [ask joe ACL_ADD (Some target); ask joe ACL_INQUIRE (Some target); ask ann ACL_LIST None]
    [Some target; Some target; None]) as (st & E1 & E2);
    [reflexivity|vm_compute; congruence|exact I|exact acl_items_ok|exact acl_lines_ok|..].
  - do 3 (apply Forall2_cons_2; [apply ask_ok; vm_compute; congruence|]). apply Forall2_nil_2.
  - exists st. split; [exact E1|]. rewrite E2. vm_compute. reflexivity.
Defined.

(** Ann's right to add is meant to be restricted to an hour. *)
Lemma any_target_unrestricted_witness : exists st st', acl_init 8192 (Some (acl_text acl_items)) None = Ok st /\
  check one_hour no_realm (ask ann ACL_ADD (Some target)) st = Ok (true, Some None, st').
Proof.
  assert (E : exists st, acl_init 8192 (Some (acl_text acl_items)) None = Ok st) by (eexists; vm_compute; reflexivity).
  destruct E as [st E]. exists st.
  destruct (any_target_unrestricted 8192 one_hour no_realm acl_items (ask ann ACL_ADD (Some target)) (Some target)
    (AclLine (chars_of "ann/admin@R") (chars_of "a") (Some (chars_of "*")) (Some (chars_of "-maxlife 1h"))) (chars_of "-maxlife 1h") st)
    as [st' E']; [reflexivity|vm_compute; congruence|exact I|exact acl_items_ok|exact acl_lines_ok|apply ask_ok; vm_compute; congruence|
      vm_compute; reflexivity|reflexivity|reflexivity|vm_compute; reflexivity|exact E|].
  exists st'. split; [exact E|exact E'].
Defined.

Lemma unknown_operation_crashes_witness :
  acl_init 8192 (Some (acl_text acl_items ++ line_text (AclLine (chars_of "bob@R") (chars_of "ae") None None) ++ NEWLINE :: [])) None = Undefined.
Proof.
  apply unknown_operation_crashes; [reflexivity|vm_compute; congruence|exact acl_items_ok| | |reflexivity].
  - split; [check_chars|]. split; vm_compute; congruence.
  - split; [split; [discriminate|check_chars]|]. split; [vm_compute; congruence|]. split; [split; [discriminate|check_chars]|exact I].
Defined.

Lemma unreadable_caller_granted_witness : exists st',
  acl_check one_hour no_realm (Some (chars_of "a@b@c" ++ [0])) ACL_ADD None (AclState [] true None) = Ok (true, None, st').
Proof. apply unreadable_caller_granted; [check_chars|vm_compute; congruence|reflexivity]. Defined.

(** A record that asks for a life of a day and no expiration, from someone who is restricted
    to an hour, to accounts that expire and to no forwardable tickets *)
Definition web_ent (max_life attrs expire : Z) : kadm5_principal_ent :=
  KadmPrincipal (Some (name_principal target.1 target.2)) expire 0 0 max_life None 0 attrs 0 0 None 0 0 0 0 0 0 [] [].
Definition one_hour_only : restriction_t :=
  Restriction (Z.lor KADM5_MAX_LIFE (Z.lor KADM5_ATTRIBUTES KADM5_PRINC_EXPIRE_TIME)) KRB5_KDB_DISALLOW_FORWARDABLE 0 1000 0 3600 0 0 None.

Lemma restrictions_imposed_witness : exists rec' mask',
  acl_impose_restrictions (Ok 5000) (web_ent 86400 0 9000) (Z.lor KADM5_MAX_LIFE KADM5_PRINC_EXPIRE_TIME) (Some one_hour_only) = Ok (rec', mask') /\
  ke_max_life rec' = 3600 /\ ke_princ_expire_time rec' = 6000 /\ ke_policy rec' = None.
Proof.
  assert (E : exists rec' mask', acl_impose_restrictions (Ok 5000) (web_ent 86400 0 9000) (Z.lor KADM5_MAX_LIFE KADM5_PRINC_EXPIRE_TIME) (Some one_hour_only) = Ok (rec', mask'))
    by (eexists _, _; vm_compute; reflexivity).
  destruct E as (rec' & mask' & E). exists rec', mask'. split; [exact E|].
  destruct (restrictions_imposed 5000 (web_ent 86400 0 9000) (Z.lor KADM5_MAX_LIFE KADM5_PRINC_EXPIRE_TIME) one_hour_only rec' mask' E) as (_ & H0 & H1 & _ & H2 & _).
  split; [rewrite H2; vm_compute; reflexivity|]. split; [rewrite H1; vm_compute; reflexivity|]. rewrite H0. vm_compute. reflexivity.
Defined.

Lemma never_expires_kept_witness :
  acl_impose_restrictions (Ok 5000) (web_ent 86400 0 0) KADM5_PRINC_EXPIRE_TIME (Some (Restriction KADM5_PRINC_EXPIRE_TIME 0 0 1000 0 0 0 0 None)) =
  Ok (web_ent 86400 0 0, Z.lor KADM5_PRINC_EXPIRE_TIME KADM5_PRINC_EXPIRE_TIME).
Proof. apply never_expires_kept; [vm_compute; split; congruence|reflexivity|reflexivity|reflexivity]. Defined.

(** A server whose database is the list of the calls, and three requests: Joe adds an entry
    and deletes it, then someone without rights tries to *)
Definition gname : Type := list octet.
Definition shows (n : gname) : option (list octet * bool) := Some (n ++ [0], true).
Definition same (a : option gname) (b : gname) : option bool := Some (bool_decide (a = Some b)).
Definition record (who : option server_handle) (c : kadm5_call) (d : list kadm5_call) : outcome kadm5_ret kadm5_reply * list kadm5_call := (Ok Done, d ++ [c]).
Definition the_config : @server_config gname :=
  ServerConfig (ServerHandle KADM5_SERVER_HANDLE_MAGIC KADM5_STRUCT_VERSION_1 0 None true) (chars_of "kadmin/changepw@R") None.
Definition from (n : name) : @svc_req gname := SvcReq true (shown n) (Some (chars_of "kadmin/admin@R")) (Ok 5000).
Definition bob : name := (chars_of "R", [chars_of "bob"]).
Definition web : principal_arg := Some (name_principal target.1 target.2).
Definition the_requests : list (kadm_request * @svc_req gname) := [
  (CREATE_PRINCIPAL KADM5_API_VERSION_2 (web_ent 86400 0 0) KADM5_MAX_LIFE (Some (chars_of "secret")), from joe);
  (DELETE_PRINCIPAL KADM5_API_VERSION_2 web, from joe);
  (DELETE_PRINCIPAL KADM5_API_VERSION_2 web, from bob)].

Lemma from_ok n : no_nul (shown n) -> name_memory (zlen (shown n)) -> request_ok shows (from n).
Proof. intros H1 H2 str type E. injection E as <- _. exists (shown n), []. split; [reflexivity|split; [exact H1|exact H2]]. Qed.

Lemma the_requests_ok : Forall (fun x => args_ok x.1 /\ request_ok shows x.2) the_requests.
Proof.
  repeat first [apply Forall_nil_2 | apply Forall_cons_2]; (split; [exists (Some target); apply princ_holds_name|apply from_ok; [check_chars|vm_compute; congruence]]).
Qed.

Lemma kadmin_mediates_witness : exists acl logs, acl_init 8192 (Some (acl_text acl_items)) None = Ok acl /\
  sv_db (serve_requests 8192 one_hour no_realm shows same record the_config the_requests (Server acl [])) =
    [kadm5_create_principal (web_ent 3600 0 0) KADM5_MAX_LIFE (Some (chars_of "secret")); kadm5_delete_principal web] /\
  Forall2 (fun x log => Forall (fun entry => exists caller, client_is no_realm shows x.2 caller /\
    legitimate one_hour no_realm same record the_config (rules acl_items) x.2 caller entry) log) the_requests logs.
Proof.
  destruct (kadmin_mediates 8192 one_hour no_realm shows same record the_config acl_items the_requests []) as (acl & logs & E & ED & HL);
    [reflexivity|vm_compute; congruence|exact I|exact acl_items_ok|exact acl_lines_ok|exact the_requests_ok|].
  exists acl, logs. split; [exact E|]. split; [|exact HL]. clear ED HL.
  assert (EA : acl_init 8192 (Some (acl_text acl_items)) None = Ok (AclState (new_entry <$> rules acl_items) true None)) by (vm_compute; reflexivity).
  rewrite E in EA. injection EA as ->. vm_compute. reflexivity.
Defined.

(** ** Wildcards of another line *)

(** The wildcards of every line that was looked at count, not only those of the line itself:
    the second line is to let joe/admin administer joe, and lets it administer admin instead,
    since the first line, which does not apply, has bound the first wildcard. *)
Definition leaking_acl : list octet := Eval vm_compute in
  acl_text [Rule (AclLine (chars_of "joe/*@R") (chars_of "i") (Some (chars_of "nobody@R")) None);
            Rule (AclLine (chars_of "*/admin@R") (chars_of "a") (Some (chars_of "*1@R")) None)].

Definition leaking_check (who : string) : outcome error_code bool :=
  let* st := acl_init 8192 (Some leaking_acl) None in
  let* '(ok, _, _) := acl_check one_hour no_realm (Some (chars_of "joe/admin@R" ++ [0])) ACL_ADD (Some (name_principal (chars_of "R") [chars_of who])) st in
  Ok ok.

(** References to wildcards go astray. *)
Theorem wildcards_leak : leaking_check "joe" = Ok false /\ leaking_check "admin" = Ok true.
Proof. vm_compute. split; reflexivity. Qed.

(** ** The library *)

#[local] Instance stack5 : Stack := {| md_stack := md0; shs_stack := shs0 |}.

Definition princ_of (s : string) : krb5_principal_data := name_principal (chars_of "R") [chars_of s].
Definition the_handle : server_handle := ServerHandle KADM5_SERVER_HANDLE_MAGIC KADM5_STRUCT_VERSION_1 KADM5_API_VERSION_2 (Some (princ_of "root")) true.
Definition history_key : keyblock := Key ENCTYPE_DES_CBC_CRC des_key.
Definition kadm_conf : kadm_config :=
  KadmConfig master history_key 1 (Some (princ_of "hist")) 0 100 100 0 [KeySaltTuple ENCTYPE_DES_CBC_CRC KRB5_KDB_SALTTYPE_NORMAL] [] the_handle.
Definition the_clock (n : nat) : outcome error_code Z := Ok (1000 + Z.of_nat n).
Definition library : option server_handle -> kadm5_call -> kproc kadm5_reply := kadm5 kadm_conf the_clock (Ok (chars_of "R")) (fun _ l => Ok l).
Definition empty_db : kadm_db := KadmDb ∅ ∅ prng1 0 None.
Definition strict : list octet := Eval vm_compute in chars_of "strict".
(** An entry with the policy, and a number of typed data that is not the number of those in
    the list *)
Definition jim_ent (n_tl : Z) : kadm5_principal_ent :=
  KadmPrincipal (Some (princ_of "jim")) 0 0 0 0 None 0 0 1 0 (Some strict) 0 0 0 0 0 n_tl [] [].
Definition make_policy : kadm5_call := kadm5_create_policy (KadmPolicy (Some strict) 0 0 3 1 2 0) (bits [KADM5_POLICY; KADM5_PW_MIN_LENGTH; KADM5_PW_HISTORY_NUM]).
Definition make_jim : kadm5_call := kadm5_create_principal (jim_ent 0) (bits [KADM5_PRINCIPAL; KADM5_POLICY]) (Some (chars_of "first")).
Definition db1 : kadm_db := (library None make_policy empty_db).2.
Definition db2 : kadm_db := (library None make_jim db1).2.

Lemma empty_counts : counts_ok empty_db.
Proof. split; try done. all: intros *; rewrite lookup_empty; discriminate. Qed.

Lemma call_returns who c d r : (library who c d).1 = r -> library who c d = (r, (library who c d).2).
Proof. intros <-. by destruct (library who c d). Qed.

Lemma db2_served : served kadm_conf the_clock (Ok (chars_of "R")) (fun _ l => Ok l) empty_db [(make_policy, Ok Done); (make_jim, Ok Done)] db2.
Proof.
  eapply (served_cons _ _ _ _ None); [apply call_returns; vm_compute; reflexivity|discriminate|discriminate|].
  eapply (served_cons _ _ _ _ None); [apply call_returns; vm_compute; reflexivity|discriminate|discriminate|]. constructor.
Qed.

Lemma policy_counts_witness : match kd_policies db2 !! strict with
  | Some p => po_policy_refcnt p = users (kd_princs db2) strict /\ (0 < users (kd_princs db2) strict -> delete_policy the_handle (Some strict) db2 = (Err KADM5_POLICY_REF, db2))
  | None => users (kd_princs db2) strict = 0
  end /\ users (kd_princs db2) strict = 1.
Proof.
  split; [|vm_compute; reflexivity].
  apply (policy_counts kadm_conf the_clock (Ok (chars_of "R")) (fun _ l => Ok l) empty_db _ db2 the_handle strict empty_counts db2_served);
    [repeat first [apply Forall_nil_2 | apply Forall_cons_2]; intros []|vm_compute; reflexivity|reflexivity].
Defined.

(** A change of policy that fails is counted nevertheless: the policy of Jim is deleted, and
    then Jim cannot be deleted. *)
Definition lose_change : kadm5_call := kadm5_modify_principal (jim_ent 5) (bits [KADM5_POLICY_CLR; KADM5_TL_DATA]).
Definition db3 : kadm_db := (library None lose_change db2).2.
Definition db4 : kadm_db := (library None (kadm5_delete_policy (Some strict)) db3).2.

Theorem lost_change_deletes_policy :
  (library None lose_change db2).1 = Err (Krb5Code KRB5_KDB_TRUNCATED_RECORD) /\
  (library None (kadm5_delete_policy (Some strict)) db3).1 = Ok Done /\ users (kd_princs db4) strict = 1 /\ kd_policies db4 !! strict = None /\
  (library None (kadm5_delete_principal (Some (princ_of "jim"))) db4).1 = Undefined.
Proof. vm_compute. repeat split. Qed.

(** ** The history of passwords *)

Definition jim_key : list octet := Eval vm_compute in match dbkey (princ_of "jim") with Ok k => k | _ => [] end.
Definition jim_tuple : krb5_key_salt_tuple := KeySaltTuple ENCTYPE_DES_CBC_CRC KRB5_KDB_SALTTYPE_NORMAL.
Definition jim_entry : krb5_db_entry_new * option osa_princ_ent := Eval vm_compute in default (zero_entry, None) (kd_princs db2 !! jim_key).
Definition jim_name : krb5_principal_data := Eval vm_compute in default (princ_of "") (dbe_princ jim_entry.1).
Definition change (s : string) (d : kadm_db) : kadm_db := (chpass_principal kadm_conf the_clock the_handle (Some (princ_of "jim")) (Some (chars_of s)) d).2.

Lemma db2_prng : prng_wf (kd_random db2).
Proof. vm_compute. intros _. repeat split; try congruence; repeat first [apply Forall_nil_2 | apply Forall_cons_2]; split; congruence. Qed.

Definition jim_adb : osa_princ_ent := Eval vm_compute in default (OsaPrinc None 0 0 0 []) jim_entry.2.
Definition jim_keys : list krb5_key_data := Eval vm_compute in default [] (dbe_key_data jim_entry.1).
Definition strict_policy : osa_policy_ent := Eval vm_compute in default default_policy (kd_policies db2 !! strict).

Lemma jim_found : kd_princs db2 !! jim_key = Some (jim_entry.1, Some jim_adb).
Proof. vm_compute. reflexivity. Qed.
Lemma strict_found : kd_policies db2 !! strict = Some strict_policy.
Proof. vm_compute. reflexivity. Qed.

Lemma jim_remembers : remembers kadm_conf jim_name jim_key strict 1 jim_tuple db2 [] None.
Proof.
  split; [exact db2_prng|exists strict_policy; split; [exact strict_found|reflexivity]|]. exists jim_entry.1, jim_adb, jim_keys, []. split; [exact jim_found|]. split; [reflexivity|]. split; [reflexivity|].
  split; [reflexivity|]. split; [reflexivity|]. split; [exact I|]. split; [left; split; [apply le_n|split; reflexivity]|constructor].
Qed.

Lemma jim_octets : octets_name jim_name.
Proof.
  intros d c H E. assert (HF : Forall (fun d => match contents d with Ok c => octets c | _ => True end) (pr_realm jim_name :: default [] (pr_data jim_name)))
    by (repeat first [apply Forall_nil_2 | apply Forall_cons_2]; vm_compute; repeat first [apply Forall_nil_2 | apply Forall_cons_2]; split; congruence).
  rewrite List.Forall_forall in HF. specialize (HF d). rewrite E in HF. apply HF. destruct H as [->|H]; [by left|by right].
Qed.

Lemma jim_changed s d l d' : (chpass_principal kadm_conf the_clock the_handle (Some (princ_of "jim")) (Some (chars_of s)) d).1 = Ok tt ->
  changes kadm_conf the_clock jim_key strict (change s d) l d' -> changes kadm_conf the_clock jim_key strict d (chars_of s :: l) d'.
Proof.
  intros H. apply (changes_accepted _ _ _ _ the_handle (princ_of "jim")); [vm_compute; reflexivity|]. unfold change. destruct (chpass_principal _ _ _ _ _ _). cbn in *. by rewrite H.
Qed.

Definition jim_passwords : list (list octet) := [chars_of "uno"; chars_of "dos"; chars_of "tres"; chars_of "uno"].
Definition jim_db : kadm_db := change "uno" (change "tres" (change "dos" (change "uno" db2))).

Lemma jim_changes : changes kadm_conf the_clock jim_key strict db2 jim_passwords jim_db.
Proof.
  unfold jim_passwords, jim_db. do 4 (apply jim_changed; [vm_compute; reflexivity|]). constructor.
Qed.


(** A policy that asked for five passwords and now asks for three, and a principal that is
    at its fourth *)
Definition full_history : osa_princ_ent := OsaPrinc (Some strict) KADM5_POLICY 3 1 [[]; []; []; []].
Lemma lowered_history_overruns_witness : add_all full_history (KadmPolicy (Some strict) 0 0 3 1 3 1) [[]; []] = Undefined.
Proof. apply lowered_history_overruns; vm_compute; (split; congruence) || congruence. Defined.

(** With the old keys kept, no new password is accepted. *)
Example keepold_never_accepted :
  (chpass_principal_3 kadm_conf the_clock the_handle (Some (princ_of "jim")) true [] (Some (chars_of "otra")) db2).1 = Err KADM5_PASS_REUSE.
Proof. vm_compute. reflexivity. Qed.
